(* ===== verification/_CoqProject ===== *)
-Q . S2P
Prelude.v
Bitops.v
KList.v
Kernel.v
ThreadInfo.v
ReadyQueue.v
Sched.v
WaitQueue.v
Mutex.v
Timer.v
Thread.v
Irq.v
Port.v
CString.v
FsState.v
Blkio.v
FsPart.v
Coherence.v
Inode.v
DiskLayout.v
InodeLock.v
Directory.v
Namei.v
File.v
FsWitness.v
InodeWrite.v
FileWrite.v
Printf.v
Console.v
Heap.v
PageTable.v
X64Kmap.v
A64Kmap.v
Mkfs.v
MkfsTree.v
Acpi.v
I8259.v
Gic.v
Life.v
Segments.v
Trap.v
CharIo.v
X64Trap.v
A64Trap.v
X64Console.v
A64Console.v
Lapic.v
User.v
Part.v
FsInit.v
Boot.v
X64Boot.v
A64Boot.v
Mt.v
LifeGame.v
