(* ===== verification/Prelude.v ===== *)
(** * A verified model of sample-tsk-sw, a small kernel for x64 and AArch64

    The program is a teaching kernel: preemptive threads with fixed priorities
    on one processor, wait queues, mutexes, call-outs, interrupt management, a
    buffer cache over a memory disk, a small file system with its maker [mkfs],
    a formatter, and the code for the two processors (page tables, descriptor
    tables, interrupt controllers, firmware tables).  This development
    translates its C functions into Rocq, function by function, and proves what
    they do.

    ** How programs are modelled

    A function that keeps state is a computation [M S A]: given a state [S] it
    gives a [run], which returns a value and a state ([Ret]), stops for good
    ([Stop Assert] for a failed [kassert], [Stop Panic], [Stop Fault] for an
    access through a pointer to no object, [Stop OutOfFuel] for a loop of the
    model cut short), or hands over the processor ([Switch]) and goes on from
    whatever state it is resumed in.  [Switch] is where the code calls the
    context switch: what other threads do in between is a relation, and [wp]
    states what a computation guarantees when the others keep to it.  The
    arrival of an interrupt in the middle of a routine is not modelled; the
    interrupt flag is part of the state and every theorem says what becomes
    of it.  Machine integers are [Z] with [wrap] where the width matters.
    Pure code on memory is a function to [option], [None] being an access to
    an address that is not mapped.

    Code that is not in the repository is a parameter: hardware is a class of
    operations with a class of laws that state its data sheet, function pointers
    registered by other code are given by their meaning ([call_handler],
    [call_callout], [call_read]), and what an automatic variable holds before it
    is assigned is an argument ([junk_...]).  Each class of laws has an instance,
    a concrete chip, on which the theorems are applied.

    ** Interfaces

    - [PortIO], [Mmio]: ports and registers in memory; [PicDevice]/[PicLaws],
      [GicDevice]/[GicLaws], [LapicMachine]/[LapicLaws], [Uart8250]/[Uart8250Laws],
      [Pl011]/[Pl011Laws], [GenericTimer]/[BoardLaws]: the chips over them.
    - [irq_ctrlr]: what [Irq] asks of a controller; [line_cycle] is the contract the
      drivers of the three controllers are shown to keep.
    - [PtFormat]: the entries of page tables, for both processors.
    - [FsPart], [Consoles], [UserVars], [Part]: lenses to the parts of the machine a
      component works on; [lift] and [zoom] carry its operations over.

    ** The files

    - [Prelude]: the monad, loops, [wp], machine integers, tactics, and lemmas on
      lists and maps.
    - [Bitops], [KList], [CString], [Printf], [Heap] (common/): bit search; linked
      lists on a memory of pointers; memory and string routines; the formatter
      with its number conversions; the heap the page tables grow into.
    - [Kernel] (include/kern, kern/psw.c), [ThreadInfo] (include/hal-x64,
      include/hal-aarch64): the objects of the kernel in one state record, and the
      word of nesting counters and dispatch flags of a thread.
    - [ReadyQueue], [Sched], [WaitQueue], [Mutex], [Timer], [Thread], [Irq]
      (kern/): one file per C file, [Sched] with kern/idle.c and the context
      switch, [Thread] with kern/reaper.c and the initial stack frames.
    - [FsState], [Blkio], [Coherence] (dev/): the objects of devices and file
      systems; the device switch, the buffer cache and the memory disk; the
      invariant under which cache and disk agree.
    - [Inode], [DiskLayout], [InodeLock], [Directory], [Namei], [InodeWrite],
      [File], [FileWrite], [FsWitness] (fs/): inodes on disk and in memory,
      block and inode bitmaps, locking, reading and writing files, directories,
      path names, open files and the file system calls.
    - [Mkfs], [MkfsTree] (tools/fs/mkfs.c): the maker of file systems, and the
      kernel run on the image it makes.
    - [PageTable], [X64Kmap], [A64Kmap] (hal/x64/kmap.c, hal/aarch64/kmap.c): the
      kernel's page tables; both processors instantiate one format class.
    - [Segments] (hal/x64/segments.c, idt.c), [Acpi] (hal/x64/acpi.c), [Port],
      [I8259], [Lapic] (hal/x64/i8259.c, lapic.c), [Gic] (hal/aarch64/gic-pl390.c):
      descriptor tables, firmware tables, interrupt controllers and the timer of
      the PC with its calibration.
    - [Trap], [X64Trap], [A64Trap] (exception.c, timer.c, traps.S, vector.S of both
      processors): what runs inside an interrupt leaves alone, the trap handlers,
      the handlers of the timers, and interrupts from entry to end.
    - [Console], [CharIo], [X64Console], [A64Console] (dev/kconsole.c, console.c and
      early_console.c of both processors): the consoles of the kernel and the
      drivers of the serial lines.
    - [FsPart], [Part]: components as parts of a machine.
    - [User] (user/user.c), [Mt] (user/MT.h), [Life], [LifeGame] (user/life.c): the
      two programs the kernel can be built with, and the random numbers of one.
    - [FsInit], [Boot] (kern/main.c), [X64Boot], [A64Boot] (boot64.c of both
      processors): the start of the kernel, with a PC and a board it starts on.

    Operations keep the names of the source; a loop is a fixpoint named after
    its function.

    ** What is proved

    - Lists and queues: list operations implement operations on sequences
      ([list_refinement]); the ready queue implements sixteen sequences and picks
      the oldest thread of the highest priority ([rdq_refinement]).
    - Threads: what [sched_schedule], [thr_create_thread], [thr_exit_thread] and the
      reaper do to the queues and the thread table; that a dispatch that was
      inhibited is made up for ([delayed_dispatch_honoured]).
    - Waiting: [wque_wait_on_queue] and [wque_wakeup] keep the queue consistent
      across the switch; [mutex_hold] returns only with the mutex, whatever the
      other threads do, and gives up only when the mutex is destroyed.
    - Time and interrupts: the call-out queue stays sorted and exactly the
      entries that are due run; handlers are called in order and lines are
      masked while they run.  The controllers of both processors are shown to be
      controllers [Irq] can use, so that a timer interrupt is followed from the
      trap to the return, with the clock, the call-outs and the line ready for
      the next ([x64_lapic_tick], [a64_timer_interrupt_correct]), and the end of a
      time slice gives the processor to the next thread ([x64_preemption]); the
      calibration of the timer ends with the rates the clocks have.
    - Consoles: characters are read from and written to the serial lines in
      order, whatever other threads do while a thread waits, and messages of the
      kernel reach every console.
    - Files: the inode cache holds each inode once; reads return the bytes of
      the file, writes change exactly the bytes written and are read back
      ([fs_write_read_back]); the walk along a path refines the resolution of the
      path in the tree on disk and loses no reference; on a disk made by
      [mkfs] the kernel finds the console ([mkfs_console]).
    - Memory: after the page tables are built the walk the processor does gives
      the straight map, with the attributes of each area; the descriptor tables
      give it the segments and gates their names promise.
    - The start: from any contents of the static objects [kern_init] reaches the
      switch to the first thread, with the invariants above established
      ([kern_init_boots]); the hardware layers of a PC and of a board do what it
      relies on ([x64_hal_starts], [a64_hal_starts]).
    - Numbers: the twister computes the sequence of its recurrence and keeps its
      words to 32 bits ([mt_reference], [mt_typed], [temper_inverse]); a step of the
      game of life is Conway's rule on a torus, on a field of these numbers.
    - Text: the formatter prints the text its format describes, with numerals
      that read back as the numbers, and cuts it to the length it was given.

    Where the code does not do what its comments or callers expect, the
    theorem states what it does, with the boundary where the difference shows
    (the bitmap offset of fs/inode.c, the owner a mutex loses when it is
    released, the prefix match of directory entries, the page above the I/O
    area, and others).

    ** Fuel and bounds

    A loop over a list in memory is bounded by the number of objects of its
    kind, and the theorems show that this is enough under the invariant of the
    list.  Loops over arrays are bounded as in the source.  The waits for a
    mutex or a busy inode have [fuel], as no bound exists: others may take the
    mutex again and again.  Where nobody holds it no fuel is used, and
    [mutex_hold_correct] admits [OutOfFuel] as the only other outcome.  Loops on
    strings have fuel, and the theorems say that the length of the string is
    enough.

    ** What is not modelled

    The allocator common/malloc.c (dlmalloc) and tools/kconfig are third-party
    code included as they are; an allocation takes the next address of a supply,
    or fails, and a block that is freed goes to the end of the supply.  Of the assembler, the paths of traps are modelled; the first
    instructions after the boot loader and the switch of stacks appear only
    through what they do to the state.  The options and the mapping of the file
    in tools/fs/mkfs.c, the code for running the kernel as a process
    (without CONFIG_HAL) and messages printed for debugging are left out.
    Interrupts arriving between two steps of a routine are not modelled. *)
From stdpp Require Export base tactics numbers list gmap fin_maps.
From Stdlib Require Export ZArith Lia.

#[global] Open Scope Z_scope.

(** ** Machine integers

    A [w]-bit unsigned value is a [Z] in [0, 2^w); the C conversions are the
    reductions below.  [swrap] is the two's complement reading, which is what
    the compilers the project targets give for a narrowing conversion. *)

Definition wrap (w z : Z) : Z := z mod 2 ^ w.
Definition swrap (w z : Z) : Z := (z + 2 ^ (w - 1)) mod 2 ^ w - 2 ^ (w - 1).

Definition u8 (z : Z) : Z := wrap 8 z.
Definition u32 (z : Z) : Z := wrap 32 z.
Definition u64 (z : Z) : Z := wrap 64 z.
Definition s8 (z : Z) : Z := swrap 8 z.
Definition s32 (z : Z) : Z := swrap 32 z.
Definition s64 (z : Z) : Z := swrap 64 z.

(** C truth values: a comparison yields 0 or 1, a condition tests against 0. *)
Definition ctrue (z : Z) : bool := negb (z =? 0).
Definition cbool (b : bool) : Z := if b then 1 else 0.

Definition NULL : Z := 0.

(** Values of include/kern/errno.h used by the modelled files. *)
Definition EPERM : Z := 1.
Definition ENOENT : Z := 2.
Definition ESRCH : Z := 3.
Definition ENXIO : Z := 6.
Definition EBADF : Z := 9.
Definition EAGAIN : Z := 11.
Definition ENOMEM : Z := 12.
Definition EBUSY : Z := 16.
Definition EEXIST : Z := 17.
Definition ENODEV : Z := 19.
Definition EINVAL : Z := 22.

Definition BIT_PER_BYTE : Z := 8.

(** ** Kernel computations

    A kernel routine maps a state to a [run].  [Ret] is a normal return.
    [Stop] is a routine that never returns: a failed [kassert] and a [panic]
    print a message and spin, [Fault] is an access through a pointer that
    designates no object, [OutOfFuel] is the bound on a loop of the model.
    [Switch s k] is the one place where another thread may run: the caller of
    [hal_do_context_switch] is suspended in state [s], and [k] is what it does
    when it is switched back, in whatever state the others left. *)

Inductive stop : Type := Assert | Panic | Fault | OutOfFuel.

Inductive run (S A : Type) : Type :=
| Ret (a : A) (s : S)
| Stop (why : stop)
| Switch (s : S) (k : S -> run S A).
Arguments Ret {S A} a s.
Arguments Stop {S A} why.
Arguments Switch {S A} s k.

Fixpoint run_bind {S A B : Type} (c : run S A) (f : A -> S -> run S B) : run S B :=
  match c with
  | Ret a s => f a s
  | Stop w => Stop w
  | Switch s k => Switch s (fun s' => run_bind (k s') f)
  end.

Definition M (S A : Type) : Type := S -> run S A.

#[export] Instance M_ret {S} : MRet (M S) := fun A a s => Ret a s.
#[export] Instance M_bind {S} : MBind (M S) := fun A B f c s => run_bind (c s) f.

Definition get {S} : M S S := fun s => Ret s s.
Definition put {S} (s : S) : M S unit := fun _ => Ret tt s.
Definition gets {S A} (f : S -> A) : M S A := fun s => Ret (f s) s.
Definition modify {S} (f : S -> S) : M S unit := fun s => Ret tt (f s).
Definition stopM {S A} (w : stop) : M S A := fun _ => Stop w.

(** [kassert(cond)] of include/kern/printf.h. *)
Definition kassert {S} (b : bool) : M S unit := if b then mret tt else stopM Assert.

(** Dereference: the value if the address designates an object. *)
Definition deref {S A} (o : option A) : M S A :=
  match o with Some a => mret a | None => stopM Fault end.

Definition when {S} (b : bool) (c : M S unit) : M S unit := if b then c else mret tt.

(** [for (x in xs) f x]: the counted loops of the source. *)
Fixpoint forM {S X} (xs : list X) (f : X -> M S unit) : M S unit :=
  match xs with
  | [] => mret tt
  | x :: xs => f x;; forM xs f
  end.

(** A counted loop with an early exit: stops at the first [Some]. *)
Fixpoint forM_until {S X A} (xs : list X) (f : X -> M S (option A)) : M S (option A) :=
  match xs with
  | [] => mret None
  | x :: xs => r ← f x; match r with Some a => mret (Some a) | None => forM_until xs f end
  end.

(** [mred] unfolds the monad's plumbing and reduces. *)
Ltac mred :=
  cbv [mbind M_bind mret M_ret get put gets modify stopM kassert deref when];
  cbn [run_bind].
Tactic Notation "mred" "in" hyp(H) :=
  cbv [mbind M_bind mret M_ret get put gets modify stopM kassert deref when] in H;
  cbn [run_bind] in H.

Lemma forM_step {S X} (f : X -> M S unit) x xs (s s' : S) : f x s = Ret tt s' -> forM (x :: xs) f s = forM xs f s'.
Proof. intros E. cbn [forM]. mred. by rewrite E. Qed.

Lemma forM_ext {S X} (f g : X -> M S unit) (xs : list X) : (forall x, x ∈ xs -> f x = g x) -> forM xs f = forM xs g.
Proof.
  induction xs as [|x xs IH]; intros Hf; [done|]. cbn [forM]. rewrite Hf, IH by set_solver. done.
Qed.

Lemma forM_id {S X} (f : X -> M S unit) (xs : list X) (s : S) :
  (forall x, f x s = Ret tt s) -> forM xs f s = Ret tt s.
Proof. intros Hf. induction xs as [|x xs IH]; [done|]. cbn [forM]. mred. by rewrite Hf. Qed.

(** ** Weakest preconditions with a rely and a guarantee

    [wp ok G R c Q]: the computation [c] stops only for reasons [ok] admits,
    each time it hands over the processor the state satisfies [G], and when it
    is resumed in any state related to the one it left by [R] it goes on like
    that, until it returns in a state that satisfies [Q]. *)

Fixpoint wp {S A} (ok : stop -> Prop) (G : S -> Prop) (R : S -> S -> Prop)
    (c : run S A) (Q : A -> S -> Prop) : Prop :=
  match c with
  | Ret a s => Q a s
  | Stop w => ok w
  | Switch s k => G s /\ forall s', R s s' -> wp ok G R (k s') Q
  end.

Lemma wp_bind {S A B} ok G R (c : run S A) (f : A -> S -> run S B) Q :
  wp ok G R c (fun a s => wp ok G R (f a s) Q) -> wp ok G R (run_bind c f) Q.
Proof. induction c as [a s|w|s k IH]; simpl; [done..|]. intros [? H]. split; [done|]. auto. Qed.

Lemma wp_mono {S A} ok G R (c : run S A) (Q Q' : A -> S -> Prop) :
  (forall a s, Q a s -> Q' a s) -> wp ok G R c Q -> wp ok G R c Q'.
Proof. intros HQ. induction c as [a s|w|s k IH]; simpl; [auto..|]. intros [? H]. split; auto. Qed.

(** ** Lemmas on machine integers *)

Lemma wrap_small w z : 0 <= z < 2 ^ w -> wrap w z = z.
Proof. intros. by apply Z.mod_small. Qed.

Lemma wrap_range w z : 0 <= w -> 0 <= wrap w z < 2 ^ w.
Proof. intros. apply Z.mod_pos_bound. lia. Qed.

Lemma wrap_testbit w z i : 0 <= w -> 0 <= i < w -> Z.testbit (wrap w z) i = Z.testbit z i.
Proof. intros. unfold wrap. rewrite Z.mod_pow2_bits_low; [done|lia]. Qed.

Lemma swrap_small w z : 0 < w -> - 2 ^ (w - 1) <= z < 2 ^ (w - 1) -> swrap w z = z.
Proof.
  intros Hw Hz. unfold swrap.
  assert (2 ^ w = 2 * 2 ^ (w - 1)) by (rewrite <-Z.pow_succ_r by lia; f_equal; lia).
  rewrite Z.mod_small; lia.
Qed.

Lemma swrap_range w z : 0 < w -> - 2 ^ (w - 1) <= swrap w z < 2 ^ (w - 1).
Proof.
  intros Hw. unfold swrap.
  assert (2 ^ w = 2 * 2 ^ (w - 1)) as E by (rewrite <-Z.pow_succ_r by lia; f_equal; lia).
  pose proof (Z.mod_pos_bound (z + 2 ^ (w - 1)) (2 ^ w)). lia.
Qed.

Lemma ctrue_cbool b : ctrue (cbool b) = b.
Proof. by destruct b. Qed.

Lemma land_pow2_testbit z i : 0 <= i -> ctrue (Z.land z (Z.shiftl 1 i)) = Z.testbit z i.
Proof.
  intros Hi. unfold ctrue. destruct (Z.testbit z i) eqn:E.
  - rewrite negb_true_iff, Z.eqb_neq. intros H.
    assert (Z.testbit (Z.land z (Z.shiftl 1 i)) i = false) as H' by (by rewrite H, Z.bits_0).
    by rewrite Z.land_spec, E, Z.shiftl_spec, Z.sub_diag in H'.
  - rewrite negb_false_iff, Z.eqb_eq. apply Z.bits_inj'. intros n Hn.
    rewrite Z.land_spec, Z.bits_0, Z.shiftl_spec by done.
    destruct (decide (n = i)) as [->|]; [by rewrite E|].
    replace (Z.testbit 1 (n - i)) with false; [apply andb_false_r|].
    destruct (decide (n < i)); [by rewrite Z.testbit_neg_r by lia|].
    symmetry. change 1 with (2 ^ 0). apply Z.pow2_bits_false. lia.
Qed.

Lemma testbit_above z k i : 0 <= z < 2 ^ k -> k <= i -> Z.testbit z i = false.
Proof.
  intros Hz Hi. destruct (decide (z = 0)) as [->|]; [by rewrite Z.bits_0|].
  apply Z.bits_above_log2; [lia|]. assert (Z.log2 z < k) by (apply Z.log2_lt_pow2; lia). lia.
Qed.

(** [lor] of disjoint parts is [+]. *)
Lemma shiftl_lor_add x y k : 0 <= k -> 0 <= y < 2 ^ k -> Z.lor (Z.shiftl x k) y = x * 2 ^ k + y.
Proof.
  intros Hk Hy. rewrite Z.shiftl_mul_pow2 by done. symmetry. apply Z.add_nocarry_lor.
  apply Z.bits_inj'. intros i Hi. rewrite Z.land_spec, Z.bits_0.
  destruct (decide (i < k)); [rewrite Z.mul_pow2_bits_low by lia; done|].
  rewrite (testbit_above y k) by lia. apply andb_false_r.
Qed.

(** ** Counted ranges *)

Lemma elem_of_seqZ_iff (x n : Z) : x ∈ seqZ 0 n <-> 0 <= x < n.
Proof. rewrite elem_of_seqZ. lia. Qed.

(** ** Lists *)

Lemma filter_all {A} (P : A -> Prop) `{forall x, Decision (P x)} (l : list A) :
  Forall P l -> filter P l = l.
Proof. induction 1; [done|]. rewrite filter_cons_True by done. by f_equal. Qed.

(** ** Automation *)

Create HintDb kern discriminated.
Create Rewrite HintDb kern.
#[export] Hint Resolve wrap_range swrap_range : kern.
#[export] Hint Rewrite @ctrue_cbool : kern.
