(* ===== verification/Bitops.v ===== *)
(** common/bitops.c: position of the highest and of the lowest set bit of an
    [int].  Both functions store through [res] and return an error number; here
    the pair (return value, final [*res]). *)
From S2P Require Import Prelude.

(** [x & (1UL << i)]: the [int] is converted to [unsigned long] first. *)
Definition bit_is_set (x i : Z) : bool := ctrue (Z.land (u64 x) (Z.shiftl 1 i)).

(** [for (i = 31; i >= 0; --i)]: [n] is [i + 1]. *)
Fixpoint find_msr_loop (n : nat) (x res : Z) : Z * Z :=
  match n with
  | O => (ESRCH, res)
  | S i => if bit_is_set x (Z.of_nat i) then (0, Z.of_nat i) else find_msr_loop i x res
  end.

Definition find_msr_bit (x res : Z) : Z * Z :=
  if x =? 0 then (ESRCH, 0)
  else find_msr_loop (Z.to_nat (4 * BIT_PER_BYTE)) x res.

(** [for (i = 0; 32 > i; ++i)]: [n] iterations are left from [i]. *)
Fixpoint find_lsr_loop (n : nat) (i x res : Z) : Z * Z :=
  match n with
  | O => (ESRCH, res)
  | S n => if bit_is_set x i then (0, i) else find_lsr_loop n (i + 1) x res
  end.

Definition find_lsr_bit (x res : Z) : Z * Z :=
  if x =? 0 then (ESRCH, 0)
  else find_lsr_loop (Z.to_nat (4 * BIT_PER_BYTE)) 0 x res.

(** ** The loops *)

Lemma int_bits : Z.to_nat (4 * BIT_PER_BYTE) = 32%nat.
Proof. reflexivity. Qed.

Lemma bit_is_set_testbit x i : 0 <= i < 64 -> bit_is_set x i = Z.testbit x i.
Proof.
  intros. unfold bit_is_set. rewrite land_pow2_testbit by lia.
  by apply wrap_testbit; lia.
Qed.

Lemma find_msr_loop_found n x res i :
  0 <= i < Z.of_nat n -> (n <= 64)%nat -> Z.testbit x i = true ->
  (forall j, i < j < Z.of_nat n -> Z.testbit x j = false) ->
  find_msr_loop n x res = (0, i).
Proof.
  induction n as [|n IH]; intros Hi Hn Hx Hj; [lia|]. simpl.
  rewrite bit_is_set_testbit by lia.
  destruct (decide (i = Z.of_nat n)) as [->|]; [by rewrite Hx|].
  rewrite Hj by lia. apply IH; [lia..|done|]. intros; apply Hj; lia.
Qed.

Lemma find_lsr_loop_found n k x res i :
  0 <= k -> k <= i < k + Z.of_nat n -> k + Z.of_nat n <= 64 -> Z.testbit x i = true ->
  (forall j, k <= j < i -> Z.testbit x j = false) ->
  find_lsr_loop n k x res = (0, i).
Proof.
  revert k. induction n as [|n IH]; intros k Hk Hi Hn Hx Hj; [lia|]. simpl.
  rewrite bit_is_set_testbit by lia.
  destruct (decide (i = k)) as [->|]; [by rewrite Hx|].
  rewrite Hj by lia. apply IH; [lia..|done|]. intros; apply Hj; lia.
Qed.

(** ** Characterisation of both functions *)

Lemma find_msr_bit_pos x res : 0 < x < 2 ^ 31 -> find_msr_bit x res = (0, Z.log2 x).
Proof.
  intros Hx. unfold find_msr_bit. destruct (Z.eqb_spec x 0); [lia|]. rewrite int_bits.
  assert (Z.log2 x < 31) by (apply Z.log2_lt_pow2; lia).
  pose proof (Z.log2_nonneg x).
  apply find_msr_loop_found; [lia|lia|by apply Z.bit_log2; lia|].
  intros j Hj. apply Z.bits_above_log2; lia.
Qed.

Lemma find_msr_bit_neg x res : - 2 ^ 31 <= x < 0 -> find_msr_bit x res = (0, 31).
Proof.
  intros Hx. unfold find_msr_bit. destruct (Z.eqb_spec x 0); [lia|]. rewrite int_bits.
  apply find_msr_loop_found; [lia..| |intros; lia].
  apply Z.testbit_true; [lia|].
  assert (x / 2 ^ 31 = -1) as -> by (symmetry; apply Z.div_unique with (x + 2 ^ 31); lia).
  done.
Qed.

Lemma int_low_bit_exists x :
  x <> 0 -> - 2 ^ 31 <= x < 2 ^ 31 ->
  exists i, 0 <= i < 32 /\ Z.testbit x i = true /\ forall j, 0 <= j < i -> Z.testbit x j = false.
Proof.
  intros Hx Hr.
  assert (exists n : nat, Z.testbit x (Z.of_nat n) = true /\ (n < 32)%nat) as [n [Hn Hl]].
  { assert (exists i, 0 <= i < 32 /\ Z.testbit x i = true) as [i [Hi Hb]].
    { destruct (decide (0 < x)).
      - exists (Z.log2 x). pose proof (Z.log2_nonneg x).
        assert (Z.log2 x < 31) by (apply Z.log2_lt_pow2; lia).
        split; [lia|]. apply Z.bit_log2; lia.
      - exists 31. split; [lia|]. apply Z.testbit_true; [lia|].
        by assert (x / 2 ^ 31 = -1) as -> by (symmetry; apply Z.div_unique with (x + 2 ^ 31); lia). }
    exists (Z.to_nat i). rewrite Z2Nat.id by lia. split; [done|lia]. }
  induction (lt_wf n) as [n _ IH].
  destruct (decide (Exists (fun j => Z.testbit x (Z.of_nat j) = true) (seq 0 n))) as [He|He].
  - apply Exists_exists in He as (j & Hj & Hb). apply elem_of_seq in Hj.
    apply (IH j); [lia|done|lia].
  - exists (Z.of_nat n). split; [lia|]. split; [done|]. intros j Hj.
    apply not_true_is_false. intros Hb. apply He, Exists_exists.
    exists (Z.to_nat j). rewrite elem_of_seq, Z2Nat.id by lia. split; [lia|done].
Qed.

(** [find_msr_bit] on every [int]: 0 gives [ESRCH]; otherwise it returns
    0 and the index of a set bit above which no bit of the 32-bit word is set. *)
Theorem find_msr_bit_correct x res :
  - 2 ^ 31 <= x < 2 ^ 31 ->
  (x = 0 -> find_msr_bit x res = (ESRCH, 0)) /\
  (x <> 0 -> exists i, find_msr_bit x res = (0, i) /\ 0 <= i < 32 /\
     Z.testbit x i = true /\ forall j, i < j < 32 -> Z.testbit x j = false).
Proof.
  intros Hx. split; [by intros ->|]. intros Hnz. destruct (decide (0 < x)).
  - exists (Z.log2 x). rewrite find_msr_bit_pos by lia.
    assert (Z.log2 x < 31) by (apply Z.log2_lt_pow2; lia).
    pose proof (Z.log2_nonneg x).
    split; [done|]. split; [lia|]. split; [apply Z.bit_log2; lia|].
    intros. apply Z.bits_above_log2; lia.
  - exists 31. rewrite find_msr_bit_neg by lia. split; [done|]. split; [lia|].
    split; [|intros; lia]. apply Z.testbit_true; [lia|].
    by assert (x / 2 ^ 31 = -1) as -> by (symmetry; apply Z.div_unique with (x + 2 ^ 31); lia).
Qed.

Lemma find_msr_bit_correct_witness :
  find_msr_bit 0 7 = (ESRCH, 0) /\ exists i, find_msr_bit (-5) 7 = (0, i).
Proof.
  split.
  - apply (find_msr_bit_correct 0 7); [lia|reflexivity].
  - destruct (find_msr_bit_correct (-5) 7) as [_ H]; [lia|].
    destruct H as [i [H _]]; [lia|]. by exists i.
Defined.

(** [find_lsr_bit] on every [int]: 0 gives [ESRCH]; otherwise it returns
    0 and the index of a set bit below which no bit is set. *)
Theorem find_lsr_bit_correct x res :
  - 2 ^ 31 <= x < 2 ^ 31 ->
  (x = 0 -> find_lsr_bit x res = (ESRCH, 0)) /\
  (x <> 0 -> exists i, find_lsr_bit x res = (0, i) /\ 0 <= i < 32 /\
     Z.testbit x i = true /\ forall j, 0 <= j < i -> Z.testbit x j = false).
Proof.
  intros Hx. split; [by intros ->|]. intros Hnz.
  destruct (int_low_bit_exists x) as (i & Hi & Hb & Hlow); [done..|].
  exists i. split; [|done]. unfold find_lsr_bit. destruct (Z.eqb_spec x 0); [lia|]. rewrite int_bits.
  apply find_lsr_loop_found; [lia..|done|done].
Qed.

Lemma find_lsr_bit_correct_witness :
  find_lsr_bit 0 7 = (ESRCH, 0) /\ exists i, find_lsr_bit 40 7 = (0, i).
Proof.
  split.
  - apply (find_lsr_bit_correct 0 7); [lia|reflexivity].
  - destruct (find_lsr_bit_correct 40 7) as [_ H]; [lia|].
    destruct H as [i [H _]]; [lia|]. by exists i.
Defined.
