(* ===== verification/KList.v ===== *)
(** common/list.c and include/kern/list.h: circular doubly linked lists.

    [list_t] and [list_head_t] have the same two pointers, and the code casts
    between them; a memory [lmem L] maps the address of every list entry or
    list head to its two pointers.  Each operation is the sequence of loads and
    stores of the C function, in its order (so that aliasing of [head], [node]
    and their neighbours behaves as in C), and [None] is an access through a
    pointer to no object.

    [is_ring m h xs] says that the head [h] owns the entries [xs] in this
    order; every operation is shown to implement the operation on sequences. *)
From S2P Require Import Prelude.

Section klist.
Context {L : Type} `{Countable L}.

Record node : Type := Node { prev : L; next : L }.
#[local] Abbreviation lmem := (gmap L node).
Implicit Types (m : gmap L node) (h x y : L) (xs ys : list L).

Definition rd_prev m (p : L) : option L := prev <$> m !! p.
Definition rd_next m (p : L) : option L := next <$> m !! p.

Definition wr_prev m (p v : L) : option lmem :=
  match m !! p with Some n => Some (<[p := Node v (next n)]> m) | None => None end.
Definition wr_next m (p v : L) : option lmem :=
  match m !! p with Some n => Some (<[p := Node (prev n) v]> m) | None => None end.

(** [node->next->prev = node->prev; node->prev->next = node->next;
     node->next = node->prev = node;] *)
Definition list_del m (node : L) : option lmem :=
  nx ← rd_next m node; pv ← rd_prev m node; m ← wr_prev m nx pv;
  pv ← rd_prev m node; nx ← rd_next m node; m ← wr_next m pv nx;
  m ← wr_prev m node node; wr_next m node node.

Definition list_add m (head node : L) : option lmem :=
  m ← wr_next m node head;
  hp ← rd_prev m head; m ← wr_prev m node hp;
  hp ← rd_prev m head; m ← wr_next m hp node;
  wr_prev m head node.

Definition list_add_top m (head node : L) : option lmem :=
  hn ← rd_next m head; m ← wr_next m node hn;
  m ← wr_prev m node head;
  hn ← rd_next m head; m ← wr_prev m hn node;
  wr_next m head node.

Definition list_insert_at m (pos node : L) : option lmem :=
  m ← wr_next m node pos;
  pp ← rd_prev m pos; m ← wr_prev m node pp;
  pp ← rd_prev m pos; m ← wr_next m pp node;
  wr_prev m pos node.

Definition list_ref_top m (head : L) : option L := rd_next m head.

Definition list_get_top m (head : L) : option (L * lmem) :=
  top ← list_ref_top m head; m ← list_del m top; Some (top, m).

Definition list_ref_tail m (head : L) : option L := rd_prev m head.

Definition list_get_tail m (head : L) : option (L * lmem) :=
  tail ← list_ref_tail m head; m ← list_del m tail; Some (tail, m).

(** [&&] does not load [head->next] when the first test fails. *)
Definition list_is_empty m (head : L) : option bool :=
  pv ← rd_prev m head;
  if decide (pv = head) then nx ← rd_next m head; Some (bool_decide (nx = head))
  else Some false.

Definition list_rotate m (head : L) : option lmem :=
  '(top, m) ← list_get_top m head; list_add m head top.

Definition init_list_node m (node : L) : option lmem :=
  m ← wr_next m node node; wr_prev m node node.

Definition init_list_head m (head : L) : option lmem :=
  m ← wr_next m head head; wr_prev m head head.

Definition list_is_linked m (node : L) : option bool :=
  pv ← rd_prev m node;
  if decide (pv = node) then nx ← rd_next m node; Some (negb (bool_decide (nx = node)))
  else Some true.

(** The addresses [list_for_each] visits from [itr] when its body leaves the
    list alone; the fuel bounds the number of entries. *)
Fixpoint list_for_each (fuel : nat) m (head itr : L) : option (list L) :=
  if decide (itr = head) then Some []
  else match fuel with
       | O => None
       | S fuel => nx ← rd_next m itr; rest ← list_for_each fuel m head nx; Some (itr :: rest)
       end.

(** ** Rings *)

Definition lk m (a b : L) : Prop := rd_next m a = Some b /\ rd_prev m b = Some a.

Fixpoint path m (l : list L) : Prop :=
  match l with
  | a :: (b :: _) as t => lk m a b /\ path m t
  | _ => True
  end.

Definition is_ring m h xs : Prop := NoDup (h :: xs) /\ path m (h :: xs ++ [h]).

(** The entries a pair of memories may differ in. *)
Definition frame m m' (X : list L) : Prop :=
  (forall y, y ∉ X -> m' !! y = m !! y) /\ (forall y, is_Some (m' !! y) <-> is_Some (m !! y)).

(** ** Loads and stores *)

Lemma rd_next_some m p v : rd_next m p = Some v -> is_Some (m !! p).
Proof. unfold rd_next. destruct (m !! p); naive_solver. Qed.

Lemma rd_prev_some m p v : rd_prev m p = Some v -> is_Some (m !! p).
Proof. unfold rd_prev. destruct (m !! p); naive_solver. Qed.

Lemma wr_prev_spec m p v :
  is_Some (m !! p) -> exists m', wr_prev m p v = Some m' /\
    (forall y, rd_next m' y = rd_next m y) /\
    (forall y, rd_prev m' y = if decide (y = p) then Some v else rd_prev m y) /\
    frame m m' [p].
Proof.
  intros [n Hn]. unfold wr_prev, rd_next, rd_prev, frame. rewrite Hn. eexists; split; [done|].
  split_and!; intros y; rewrite lookup_insert; destruct (decide (p = y)) as [->|]; rewrite ?Hn;
    rewrite ?(decide_True _ _ eq_refl), ?decide_False by congruence; simpl; try done.
  all: set_solver.
Qed.

Lemma wr_next_spec m p v :
  is_Some (m !! p) -> exists m', wr_next m p v = Some m' /\
    (forall y, rd_prev m' y = rd_prev m y) /\
    (forall y, rd_next m' y = if decide (y = p) then Some v else rd_next m y) /\
    frame m m' [p].
Proof.
  intros [n Hn]. unfold wr_next, rd_next, rd_prev, frame. rewrite Hn. eexists; split; [done|].
  split_and!; intros y; rewrite lookup_insert; destruct (decide (p = y)) as [->|]; rewrite ?Hn;
    rewrite ?(decide_True _ _ eq_refl), ?decide_False by congruence; simpl; try done.
  all: set_solver.
Qed.

Lemma wr_next_id m p a b : m !! p = Some (Node a b) -> wr_next m p b = Some m.
Proof. intros E. unfold wr_next. rewrite E. simpl. by rewrite insert_id. Qed.

Lemma wr_prev_id m p a b : m !! p = Some (Node a b) -> wr_prev m p a = Some m.
Proof. intros E. unfold wr_prev. rewrite E. simpl. by rewrite insert_id. Qed.

Lemma frame_refl m X : frame m m X.
Proof. done. Qed.

Lemma frame_trans m1 m2 m3 X Y : frame m1 m2 X -> frame m2 m3 Y -> frame m1 m3 (X ++ Y).
Proof.
  intros [A1 B1] [A2 B2]. split.
  - intros y [? ?]%not_elem_of_app. by rewrite A2, A1.
  - intros y. by rewrite B2.
Qed.

Lemma frame_weaken m m' X Y : X ⊆ Y -> frame m m' X -> frame m m' Y.
Proof. intros HS [A B]. split; [|done]. intros y Hy. apply A. by intros ?%HS. Qed.

Lemma frame_next m m' X y : frame m m' X -> y ∉ X -> rd_next m' y = rd_next m y.
Proof. intros [A _] Hy. unfold rd_next. by rewrite A. Qed.

Lemma frame_prev m m' X y : frame m m' X -> y ∉ X -> rd_prev m' y = rd_prev m y.
Proof. intros [A _] Hy. unfold rd_prev. by rewrite A. Qed.

(** ** Paths *)

Lemma path_app m l1 a l2 :
  path m (l1 ++ a :: l2) <-> path m (l1 ++ [a]) /\ path m (a :: l2).
Proof.
  induction l1 as [|b l1 IH]; [simpl; tauto|].
  destruct l1 as [|c l1]; [simpl; tauto|].
  simpl in *. tauto.
Qed.

Lemma path_frame m m' l z :
  path m (l ++ [z]) ->
  (forall y, y ∈ l -> rd_next m' y = rd_next m y) ->
  (forall y, y ∈ tail (l ++ [z]) -> rd_prev m' y = rd_prev m y) ->
  path m' (l ++ [z]).
Proof.
  induction l as [|a l IH]; [done|]. intros Hp Hn Hv.
  assert (exists b t, l ++ [z] = b :: t) as (b & t & E) by (destruct l; simpl; eauto).
  simpl in *. rewrite E in *. destruct Hp as [[Hab Hba] Hp]. split.
  - split; [rewrite Hn by set_solver; done|rewrite Hv by set_solver; done].
  - apply IH; [done|set_solver|]. intros y Hy. apply Hv. simpl in *. set_solver.
Qed.

Lemma is_ring_frame m m' X h xs :
  frame m m' X -> (forall y, y ∈ h :: xs -> y ∉ X) -> is_ring m h xs -> is_ring m' h xs.
Proof.
  intros HF HX [ND HP]. split; [done|].
  change (h :: xs ++ [h]) with ((h :: xs) ++ [h]) in *.
  eapply path_frame; [done| |].
  - intros y Hy. eapply frame_next; eauto.
  - intros y Hy. eapply frame_prev; [done|]. apply HX. simpl in Hy. set_solver.
Qed.

(** An entry of a ring, or its head, is an object. *)
Lemma is_ring_dom m h xs y : is_ring m h xs -> y ∈ h :: xs -> is_Some (m !! y).
Proof.
  intros [_ HP] Hy.
  assert (exists l1 l2, h :: xs = l1 ++ y :: l2) as (l1 & l2 & E) by (by apply list_elem_of_split).
  change (h :: xs ++ [h]) with ((h :: xs) ++ [h]) in HP. rewrite E, <-app_assoc in HP.
  simpl in HP. apply path_app in HP as [_ HP]. destruct l2; simpl in HP;
    destruct HP as [[Hl _] _]; by eapply rd_next_some.
Qed.

(** The two neighbours of a position of a ring. *)
Lemma ring_snoc h l1 : exists p a, h :: l1 = p ++ [a].
Proof.
  destruct (rev (h :: l1)) as [|a p] eqn:E.
  - apply (f_equal (@length L)) in E. rewrite length_rev in E. done.
  - exists (rev p), a. rewrite <-(rev_involutive (h :: l1)), E. done.
Qed.

Lemma ring_cons h (l2 : list L) : exists b q, l2 ++ [h] = b :: q.
Proof. destruct l2; simpl; eauto. Qed.

Lemma ring_cut h l1 l2 p (a : L) t :
  h :: l1 = p ++ [a] -> l2 ++ [h] = t -> h :: (l1 ++ l2) ++ [h] = p ++ a :: t.
Proof.
  intros E1 <-. rewrite <-app_assoc. change (h :: l1 ++ l2 ++ [h]) with ((h :: l1) ++ l2 ++ [h]).
  by rewrite E1, <-app_assoc.
Qed.

(** The neighbours of a position, as the code reaches them. *)
Lemma ring_neighbours m h l1 l2 p a b q :
  is_ring m h (l1 ++ l2) -> h :: l1 = p ++ [a] -> l2 ++ [h] = b :: q -> lk m a b.
Proof.
  intros [_ HP] E1 E2. rewrite (ring_cut h l1 l2 p a (b :: q)) in HP by done.
  by apply path_app in HP as [_ [HP _]].
Qed.

(** Cutting a path at a position and rejoining it around new links. *)
Lemma ring_relink m m' h l1 l2 p a b q :
  NoDup (h :: l1 ++ l2) -> h :: l1 = p ++ [a] -> l2 ++ [h] = b :: q ->
  path m (h :: l1) -> path m (l2 ++ [h]) ->
  (forall y, y ∈ h :: l1 ++ l2 -> y <> a -> rd_next m' y = rd_next m y) ->
  (forall y, y ∈ h :: l1 ++ l2 -> y <> b -> rd_prev m' y = rd_prev m y) ->
  path m' (p ++ [a]) /\ path m' (b :: q).
Proof.
  intros ND E1 E2 P1 P2 Hn Hv. rewrite E1 in P1.
  apply NoDup_cons in ND as [Hh ND]. apply NoDup_app in ND as (ND1 & Hd & ND2).
  assert (NoDup (p ++ [a])) as NDp by (rewrite <-E1; constructor; set_solver).
  apply NoDup_app in NDp as (_ & Hpa & _).
  assert (Hin1 : forall y, y ∈ p ++ [a] -> y ∈ h :: l1) by (intros; by rewrite E1).
  assert (Hb : b = h \/ b ∈ l2) by (destruct l2; simplify_eq/=; set_solver).
  split.
  - eapply path_frame; [done| |].
    + intros y Hy. apply Hn; [|by intros ->; eapply Hpa; set_solver].
      assert (y ∈ h :: l1) by (apply Hin1; set_solver). set_solver.
    + intros y Hy. rewrite <-E1 in Hy. simpl in Hy. apply Hv; [set_solver|].
      intros ->. destruct Hb as [->|Hb]; [set_solver|]. by eapply Hd.
  - rewrite <-E2. eapply path_frame; [done| |].
    + intros y Hy. apply Hn; [set_solver|]. intros ->.
      assert (a ∈ h :: l1) as Ha by (rewrite E1; set_solver).
      apply elem_of_cons in Ha as [->|Ha]; [set_solver|]. by eapply Hd.
    + intros y Hy. rewrite E2 in Hy. simpl in Hy. destruct l2 as [|c l2]; simplify_eq/=; [set_solver|].
      apply Hv; [set_solver|]. intros ->. apply NoDup_cons in ND2 as [? _].
      apply elem_of_app in Hy as [?|Hy]; [done|]. set_solver.
Qed.

Lemma ring_insert m m' h l1 l2 p a b q x :
  is_ring m h (l1 ++ l2) -> h :: l1 = p ++ [a] -> l2 ++ [h] = b :: q -> x ∉ h :: l1 ++ l2 ->
  lk m' a x -> lk m' x b ->
  (forall y, y <> a -> y <> x -> rd_next m' y = rd_next m y) ->
  (forall y, y <> b -> y <> x -> rd_prev m' y = rd_prev m y) ->
  is_ring m' h (l1 ++ x :: l2).
Proof.
  intros [ND HP] E1 E2 Hx L1 L2 Hn Hv. split.
  - apply NoDup_cons in ND as [Hh ND].
    constructor; [set_solver|]. apply NoDup_app in ND as (N1 & Hd & N2).
    apply NoDup_app. split_and!; [done|set_solver|constructor; set_solver].
  - assert (path m (h :: l1) /\ path m (l2 ++ [h])) as [P1 P2].
    { rewrite (ring_cut h l1 l2 p a (b :: q)) in HP by done.
      apply path_app in HP as [HP1 [_ HP2]]. by rewrite E1, E2. }
    destruct (ring_relink m m' h l1 l2 p a b q) as [Q1 Q2]; [done..| | |].
    + intros y Hy Hya. apply Hn; [done|]. intros ->. done.
    + intros y Hy Hyb. apply Hv; [done|]. intros ->. done.
    + rewrite (ring_cut h l1 (x :: l2) p a (x :: b :: q)) by (simpl; congruence).
      apply path_app. split; [done|]. split; [done|]. by split.
Qed.

Lemma ring_remove m m' h l1 l2 p a b q x :
  is_ring m h (l1 ++ x :: l2) -> h :: l1 = p ++ [a] -> l2 ++ [h] = b :: q ->
  lk m' a b ->
  (forall y, y <> a -> y <> x -> rd_next m' y = rd_next m y) ->
  (forall y, y <> b -> y <> x -> rd_prev m' y = rd_prev m y) ->
  is_ring m' h (l1 ++ l2).
Proof.
  intros [ND HP] E1 E2 L1 Hn Hv.
  apply NoDup_cons in ND as [Hh ND]. apply NoDup_app in ND as (N1 & Hd & N2).
  apply NoDup_cons in N2 as [Hx N2].
  assert (NoDup (h :: l1 ++ l2)) as ND'.
  { constructor; [set_solver|]. apply NoDup_app. split_and!; [done|set_solver|done]. }
  assert (x ∉ h :: l1 ++ l2) as Hx' by set_solver.
  split; [done|].
  assert (path m (h :: l1) /\ path m (l2 ++ [h])) as [P1 P2].
  { rewrite (ring_cut h l1 (x :: l2) p a (x :: b :: q)) in HP by (simpl; congruence).
    apply path_app in HP as [HP1 [_ [_ HP2]]]. by rewrite E1, E2. }
  destruct (ring_relink m m' h l1 l2 p a b q) as [Q1 Q2]; [done..| | |].
  + intros y Hy Hya. apply Hn; [done|]. intros ->. done.
  + intros y Hy Hyb. apply Hv; [done|]. intros ->. done.
  + rewrite (ring_cut h l1 l2 p a (b :: q)) by done.
    apply path_app. split; [done|]. by split.
Qed.

Lemma lk_self_ring m x : is_ring m x [] <-> lk m x x.
Proof. unfold is_ring. simpl. split; [by intros [_ [? _]]|]. intros ?. split; [apply NoDup_singleton|done]. Qed.

Lemma self_ring_node m x : is_ring m x [] -> m !! x = Some (Node x x).
Proof.
  intros [Hn Hp]%lk_self_ring. unfold rd_next, rd_prev in *.
  destruct (m !! x) as [[v w]|]; naive_solver.
Qed.

Lemma ring_lk_in m h l1 l2 x p a :
  is_ring m h (l1 ++ x :: l2) -> h :: l1 = p ++ [a] -> lk m a x.
Proof. intros HR E. by eapply (ring_neighbours m h l1 (x :: l2)). Qed.

Lemma ring_lk_out m h l1 l2 x b q :
  is_ring m h (l1 ++ x :: l2) -> l2 ++ [h] = b :: q -> lk m x b.
Proof.
  intros HR E. eapply (ring_neighbours m h (l1 ++ [x]) l2 (h :: l1) x b q); [|done..].
  by rewrite <-app_assoc.
Qed.

(** ** The operations on rings *)

Lemma list_del_ring m h l1 l2 x :
  is_ring m h (l1 ++ x :: l2) ->
  exists m', list_del m x = Some m' /\ is_ring m' h (l1 ++ l2) /\ is_ring m' x [] /\
    frame m m' (h :: l1 ++ x :: l2).
Proof.
  intros HR. destruct (ring_snoc h l1) as (p & a & E1), (ring_cons h l2) as (b & q & E2).
  pose proof (ring_lk_in _ _ _ _ _ _ _ HR E1) as [Hax Hxa].
  pose proof (ring_lk_out _ _ _ _ _ _ _ HR E2) as [Hxb Hbx].
  assert (x ∉ h :: l1 ++ l2) as Hx.
  { destruct HR as [ND _]. apply NoDup_cons in ND as [Hh ND].
    apply NoDup_app in ND as (N1 & Hd & N2). apply NoDup_cons in N2 as [? _]. set_solver. }
  assert (a ∈ h :: l1) as Ha by (rewrite E1; set_solver).
  assert (b ∈ h :: l2) as Hb by (assert (b ∈ l2 ++ [h]) by (rewrite E2; set_solver); set_solver).
  assert (a <> x) by set_solver. assert (b <> x) by set_solver.
  unfold list_del. rewrite Hxb, Hxa. simpl.
  destruct (wr_prev_spec m b a) as (m1 & -> & N1 & P1 & F1); [by eapply rd_prev_some|]. simpl.
  rewrite P1, N1, decide_False, Hxa, Hxb by done. simpl.
  destruct (wr_next_spec m1 a b) as (m2 & -> & P2 & N2 & F2).
  { apply F1. by eapply rd_next_some. } simpl.
  destruct (wr_prev_spec m2 x x) as (m3 & -> & N3 & P3 & F3).
  { apply F2, F1. by eapply rd_next_some. } simpl.
  destruct (wr_next_spec m3 x x) as (m4 & -> & P4 & N4 & F4).
  { apply F3, F2, F1. by eapply rd_next_some. }
  exists m4. split; [done|]. split_and!.
  - eapply ring_remove; [done..| | |].
    + split.
      * by rewrite N4, decide_False, N3, N2, decide_True by done.
      * by rewrite P4, P3, decide_False, P2, P1, decide_True by done.
    + intros y ??. by rewrite N4, decide_False, N3, N2, decide_False, N1 by done.
    + intros y ??. by rewrite P4, P3, decide_False, P2, P1, decide_False by done.
  - apply lk_self_ring. split; [by rewrite N4, decide_True|by rewrite P4, P3, decide_True].
  - eapply frame_weaken; [|exact (frame_trans _ _ _ _ _ F1 (frame_trans _ _ _ _ _ F2
      (frame_trans _ _ _ _ _ F3 F4)))]. simpl. set_solver.
Qed.

(** An entry linked to itself is left as it is. *)
Lemma list_del_self m x : is_ring m x [] -> list_del m x = Some m.
Proof.
  intros HR. apply self_ring_node in HR as E. apply lk_self_ring in HR as [Hn Hp].
  unfold list_del.
  do 4 (rewrite ?Hn, ?Hp; simpl; rewrite ?Hn, ?Hp; simpl; erewrite ?wr_next_id, ?wr_prev_id by done;
    simpl). done.
Qed.

Lemma list_insert_at_ring m h l1 l2 b q x :
  is_ring m h (l1 ++ l2) -> l2 ++ [h] = b :: q -> x ∉ h :: l1 ++ l2 -> is_Some (m !! x) ->
  exists m', list_insert_at m b x = Some m' /\ is_ring m' h (l1 ++ x :: l2) /\
    frame m m' (x :: h :: l1 ++ l2).
Proof.
  intros HR E2 Hx Hm. destruct (ring_snoc h l1) as (p & a & E1).
  pose proof (ring_neighbours _ _ _ _ _ _ _ _ HR E1 E2) as [Hab Hba].
  assert (a ∈ h :: l1) as Ha by (rewrite E1; set_solver).
  assert (b ∈ h :: l2) as Hb by (assert (b ∈ l2 ++ [h]) by (rewrite E2; set_solver); set_solver).
  assert (a <> x) by set_solver. assert (b <> x) by set_solver.
  unfold list_insert_at.
  destruct (wr_next_spec m x b) as (m1 & -> & P1 & N1 & F1); [done|]. simpl.
  rewrite P1, Hba. simpl.
  destruct (wr_prev_spec m1 x a) as (m2 & -> & N2 & P2 & F2); [by apply F1|]. simpl.
  rewrite P2, decide_False, P1, Hba by done. simpl.
  destruct (wr_next_spec m2 a x) as (m3 & -> & P3 & N3 & F3).
  { apply F2, F1. by eapply rd_next_some. } simpl.
  destruct (wr_prev_spec m3 b x) as (m4 & -> & N4 & P4 & F4).
  { apply F3, F2, F1. by eapply rd_prev_some. }
  exists m4. split; [done|]. split.
  - eapply ring_insert; [done..| | | |].
    + split; [by rewrite N4, N3, decide_True|].
      by rewrite P4, decide_False, P3, P2, decide_True by done.
    + split; [|by rewrite P4, decide_True].
      by rewrite N4, N3, decide_False, N2, N1, decide_True by done.
    + intros y ??. by rewrite N4, N3, decide_False, N2, N1, decide_False by done.
    + intros y ??. by rewrite P4, decide_False, P3, P2, decide_False, P1 by done.
  - eapply frame_weaken; [|exact (frame_trans _ _ _ _ _ F1 (frame_trans _ _ _ _ _ F2
      (frame_trans _ _ _ _ _ F3 F4)))]. simpl. set_solver.
Qed.

(** Appending is inserting before the head. *)
Lemma list_add_insert_at m h x : list_add m h x = list_insert_at m h x.
Proof. done. Qed.

Lemma list_add_ring m h xs x :
  is_ring m h xs -> x ∉ h :: xs -> is_Some (m !! x) ->
  exists m', list_add m h x = Some m' /\ is_ring m' h (xs ++ [x]) /\ frame m m' (x :: h :: xs).
Proof.
  intros HR Hx Hm. rewrite list_add_insert_at, <-(app_nil_r xs) in *.
  rewrite <-(app_nil_r xs) in HR.
  destruct (list_insert_at_ring m h xs [] h [] x) as (m' & E & R & F); [rewrite ?app_nil_r in *; done..|].
  rewrite ?app_nil_r in *. eauto.
Qed.

Lemma list_add_top_ring m h xs x :
  is_ring m h xs -> x ∉ h :: xs -> is_Some (m !! x) ->
  exists m', list_add_top m h x = Some m' /\ is_ring m' h (x :: xs) /\ frame m m' (x :: h :: xs).
Proof.
  intros HR Hx Hm. destruct (ring_cons h xs) as (b & q & E2).
  pose proof (ring_neighbours m h [] xs [] h b q HR eq_refl E2) as [Hhb Hbh].
  assert (b ∈ h :: xs) as Hb by (assert (b ∈ xs ++ [h]) by (rewrite E2; set_solver); set_solver).
  assert (h <> x) by set_solver. assert (b <> x) by set_solver.
  unfold list_add_top. rewrite Hhb. simpl.
  destruct (wr_next_spec m x b) as (m1 & -> & P1 & N1 & F1); [done|]. simpl.
  destruct (wr_prev_spec m1 x h) as (m2 & -> & N2 & P2 & F2); [by apply F1|]. simpl.
  rewrite N2, N1, decide_False, Hhb by done. simpl.
  destruct (wr_prev_spec m2 b x) as (m3 & -> & N3 & P3 & F3).
  { apply F2, F1. by eapply rd_prev_some. } simpl.
  destruct (wr_next_spec m3 h x) as (m4 & -> & P4 & N4 & F4).
  { apply F3, F2, F1. by eapply rd_next_some. }
  exists m4. split; [done|]. split.
  - apply (ring_insert m m4 h [] xs [] h b q x); [done..| | | |].
    + split; [by rewrite N4, decide_True|].
      by rewrite P4, P3, decide_False, P2, decide_True by done.
    + split; [|by rewrite P4, P3, decide_True].
      by rewrite N4, decide_False, N3, N2, N1, decide_True by done.
    + intros y ??. by rewrite N4, decide_False, N3, N2, N1, decide_False by done.
    + intros y ??. by rewrite P4, P3, decide_False, P2, decide_False, P1 by done.
  - eapply frame_weaken; [|exact (frame_trans _ _ _ _ _ F1 (frame_trans _ _ _ _ _ F2
      (frame_trans _ _ _ _ _ F3 F4)))]. simpl. set_solver.
Qed.

Lemma list_ref_top_ring m h xs : is_ring m h xs -> list_ref_top m h = Some (default h (head xs)).
Proof.
  intros HR. destruct (ring_cons h xs) as (b & q & E).
  destruct (ring_neighbours m h [] xs [] h b q HR eq_refl E) as [Hn _].
  unfold list_ref_top. rewrite Hn. destruct xs; simplify_eq/=; done.
Qed.

Lemma list_ref_tail_ring m h xs : is_ring m h xs -> list_ref_tail m h = Some (default h (last xs)).
Proof.
  intros HR. destruct (ring_snoc h xs) as (p & a & E).
  destruct (ring_neighbours m h xs [] p a h []) as [_ Hp]; [by rewrite app_nil_r|done..|].
  unfold list_ref_tail. rewrite Hp. f_equal.
  assert (last (h :: xs) = Some a) as Hl by (by rewrite E, last_snoc).
  rewrite last_cons in Hl. destruct (last xs); simplify_eq/=; done.
Qed.

Lemma list_get_top_ring m h x xs :
  is_ring m h (x :: xs) ->
  exists m', list_get_top m h = Some (x, m') /\ is_ring m' h xs /\ is_ring m' x [] /\
    frame m m' (h :: x :: xs).
Proof.
  intros HR. unfold list_get_top. rewrite (list_ref_top_ring m h (x :: xs)) by done. simpl.
  destruct (list_del_ring m h [] xs x HR) as (m' & -> & R & S & F). simpl. eauto.
Qed.

Lemma list_get_top_empty m h : is_ring m h [] -> list_get_top m h = Some (h, m).
Proof.
  intros HR. unfold list_get_top. rewrite (list_ref_top_ring m h []) by done. simpl.
  by rewrite list_del_self.
Qed.

Lemma list_get_tail_ring m h xs x :
  is_ring m h (xs ++ [x]) ->
  exists m', list_get_tail m h = Some (x, m') /\ is_ring m' h xs /\ is_ring m' x [] /\
    frame m m' (h :: xs ++ [x]).
Proof.
  intros HR. unfold list_get_tail. rewrite (list_ref_tail_ring m h (xs ++ [x])), last_snoc by done.
  simpl. destruct (list_del_ring m h xs [] x HR) as (m' & -> & R & S & F). simpl.
  rewrite app_nil_r in R. eauto.
Qed.

Lemma list_get_tail_empty m h : is_ring m h [] -> list_get_tail m h = Some (h, m).
Proof.
  intros HR. unfold list_get_tail. rewrite (list_ref_tail_ring m h []) by done. simpl.
  by rewrite list_del_self.
Qed.

Lemma list_is_empty_ring m h xs :
  is_ring m h xs -> list_is_empty m h = Some (bool_decide (xs = [])).
Proof.
  intros HR. unfold list_is_empty.
  pose proof (list_ref_tail_ring m h xs HR) as E1. pose proof (list_ref_top_ring m h xs HR) as E2.
  unfold list_ref_tail, list_ref_top in *. rewrite E1. simpl. destruct xs as [|x xs].
  - simpl. rewrite decide_True, E2 by done. simpl. by rewrite bool_decide_true.
  - simpl. destruct HR as [ND _]. apply NoDup_cons in ND as [Hh _]. rewrite decide_False; [done|].
    destruct (last (x :: xs)) as [y|] eqn:El; simpl.
    + apply last_Some_elem_of in El. set_solver.
    + by apply last_None in El.
Qed.

(** A self linked entry is not linked; an entry of somebody's ring is. *)
(** Two rings with different heads have no entry in common. *)
Lemma path_deterministic m x l1 l2 h h' :
  path m (x :: l1 ++ [h]) -> path m (x :: l2 ++ [h']) -> h ∉ l2 -> h' ∉ l1 -> h = h'.
Proof.
  revert x l2. induction l1 as [|a l1 IH]; intros x l2 H1 H2 Hh Hh'; destruct l2 as [|b l2]; simpl in *;
    destruct H1 as [[N1 _] P1], H2 as [[N2 _] P2]; simplify_eq; [done|set_solver|set_solver|].
  eapply IH; [exact P1|exact P2|set_solver..].
Qed.

Lemma ring_path_after m h xs x : is_ring m h xs -> x ∈ xs -> exists l, path m (x :: l ++ [h]) /\ l ⊆ xs.
Proof.
  intros [_ HP] (l1 & l2 & ->)%list_elem_of_split. exists l2. split; [|set_solver].
  replace (h :: (l1 ++ x :: l2) ++ [h]) with ((h :: l1) ++ x :: (l2 ++ [h])) in HP
    by (simpl; by rewrite <-app_assoc).
  by apply path_app in HP as [_ HP].
Qed.

Lemma rings_disjoint m h xs h' ys x :
  is_ring m h xs -> is_ring m h' ys -> h ∉ ys -> h' ∉ xs -> h <> h' -> x ∈ xs -> x ∈ ys -> False.
Proof.
  intros R1 R2 Hh Hh' Hne Hx Hy.
  destruct (ring_path_after _ _ _ _ R1 Hx) as (l1 & P1 & S1), (ring_path_after _ _ _ _ R2 Hy) as (l2 & P2 & S2).
  apply Hne. eapply path_deterministic; [exact P1|exact P2|set_solver..].
Qed.

(** Neighbours of an entry. *)
Lemma ring_next m h l1 x l2 :
  is_ring m h (l1 ++ x :: l2) -> rd_next m x = Some (default h (head l2)).
Proof.
  intros [_ HP]. replace (h :: (l1 ++ x :: l2) ++ [h]) with ((h :: l1) ++ x :: (l2 ++ [h])) in HP
    by (simpl; by rewrite <-app_assoc).
  apply path_app in HP as [_ HP]. destruct l2; by destruct HP as [[? _] _].
Qed.

Lemma ring_prev m h l1 x l2 :
  is_ring m h (l1 ++ x :: l2) -> rd_prev m x = Some (default h (last l1)).
Proof.
  intros [_ HP]. destruct l1 as [|y l1 _] using rev_ind.
  - by destruct HP as [[_ ?] _].
  - replace (h :: ((l1 ++ [y]) ++ x :: l2) ++ [h]) with ((h :: l1) ++ y :: (x :: l2 ++ [h])) in HP
      by (simpl; by rewrite <-!app_assoc).
    apply path_app in HP as [_ HP]. rewrite last_snoc. by destruct HP as [[_ ?] _].
Qed.

Lemma list_is_linked_self m x : is_ring m x [] -> list_is_linked m x = Some false.
Proof.
  intros [Hn Hp]%lk_self_ring. unfold list_is_linked. rewrite Hp. simpl.
  rewrite decide_True, Hn by done. simpl. by rewrite bool_decide_true.
Qed.

Lemma list_is_linked_ring m h xs x : is_ring m h xs -> x ∈ xs -> list_is_linked m x = Some true.
Proof.
  intros HR (l1 & l2 & ->)%list_elem_of_split.
  destruct (ring_snoc h l1) as (p & a & E). pose proof (ring_lk_in _ _ _ _ _ _ _ HR E) as [_ Hp].
  unfold list_is_linked. rewrite Hp. simpl. rewrite decide_False; [done|]. intros ->.
  assert (x ∈ h :: l1) as Hx by (rewrite E; set_solver).
  destruct HR as [ND _]. apply NoDup_cons in ND as [Hh ND].
  apply NoDup_app in ND as (_ & Hd & _). set_solver.
Qed.

Lemma list_rotate_ring m h x xs :
  is_ring m h (x :: xs) ->
  exists m', list_rotate m h = Some m' /\ is_ring m' h (xs ++ [x]) /\ frame m m' (h :: x :: xs).
Proof.
  intros HR. unfold list_rotate.
  destruct (list_get_top_ring m h x xs HR) as (m1 & -> & R1 & S1 & F1). simpl.
  destruct (list_add_ring m1 h xs x) as (m2 & -> & R2 & F2); [done| | |].
  - destruct HR as [ND _]. apply NoDup_cons in ND as [? ND]. apply NoDup_cons in ND as [? _]. set_solver.
  - apply F1. by eapply is_ring_dom; [exact HR|set_solver].
  - exists m2. split; [done|]. split; [done|].
    eapply frame_weaken; [|exact (frame_trans _ _ _ _ _ F1 F2)]. set_solver.
Qed.

(** On an empty list the head itself is taken off and put back. *)
Lemma list_rotate_empty m h : is_ring m h [] -> list_rotate m h = Some m.
Proof.
  intros HR. unfold list_rotate. rewrite list_get_top_empty by done. simpl.
  apply self_ring_node in HR as E. apply lk_self_ring in HR as [Hn Hp]. unfold list_add.
  do 4 (erewrite ?wr_next_id, ?wr_prev_id by done; simpl; rewrite ?Hp; simpl). done.
Qed.

Lemma init_list_head_ring m h :
  is_Some (m !! h) -> exists m', init_list_head m h = Some m' /\ is_ring m' h [] /\ frame m m' [h].
Proof.
  intros Hm. unfold init_list_head.
  destruct (wr_next_spec m h h) as (m1 & -> & P1 & N1 & F1); [done|]. simpl.
  destruct (wr_prev_spec m1 h h) as (m2 & -> & N2 & P2 & F2); [by apply F1|].
  exists m2. split; [done|]. split.
  - apply lk_self_ring. split; [by rewrite N2, N1, decide_True|by rewrite P2, decide_True].
  - eapply frame_weaken; [|exact (frame_trans _ _ _ _ _ F1 F2)]. set_solver.
Qed.

Lemma init_list_node_ring m x :
  is_Some (m !! x) -> exists m', init_list_node m x = Some m' /\ is_ring m' x [] /\ frame m m' [x].
Proof. apply init_list_head_ring. Qed.

Lemma init_list_node_self m x : is_ring m x [] -> init_list_node m x = Some m.
Proof.
  intros E%self_ring_node. unfold init_list_node.
  erewrite wr_next_id by done. simpl. by erewrite wr_prev_id by done.
Qed.

Lemma list_for_each_from m h xs ys fuel :
  is_ring m h (ys ++ xs) -> (length xs <= fuel)%nat ->
  list_for_each fuel m h (default h (head xs)) = Some xs.
Proof.
  revert ys fuel. induction xs as [|x xs IH]; intros ys fuel HR Hf.
  - destruct fuel; simpl; by rewrite decide_True.
  - destruct fuel as [|fuel]; [simpl in Hf; lia|]. simpl.
    rewrite decide_False.
    2:{ intros ->. destruct HR as [ND _]. apply NoDup_cons in ND as [Hh _]. set_solver. }
    destruct (ring_cons h xs) as (b & q & E).
    destruct (ring_lk_out m h ys xs x b q HR E) as [Hn _]. rewrite Hn. simpl.
    replace b with (default h (head xs)) by (by destruct xs; simplify_eq/=).
    rewrite (IH (ys ++ [x])); [done|by rewrite <-app_assoc|simpl in Hf; lia].
Qed.

(** ** The component as a whole *)

Inductive list_op : Type :=
| Add (x : L) | AddTop (x : L) | InsertAt (pos x : L) | Del (x : L) | GetTop | GetTail | Rotate.

(** What a client calls, with the entry the call returns. *)
Definition list_exec m (h : L) (o : list_op) : option (option L * lmem) :=
  match o with
  | Add x => m ← list_add m h x; Some (None, m)
  | AddTop x => m ← list_add_top m h x; Some (None, m)
  | InsertAt pos x => m ← list_insert_at m pos x; Some (None, m)
  | Del x => m ← list_del m x; Some (None, m)
  | GetTop => '(x, m) ← list_get_top m h; Some (Some x, m)
  | GetTail => '(x, m) ← list_get_tail m h; Some (Some x, m)
  | Rotate => m ← list_rotate m h; Some (None, m)
  end.

Fixpoint list_execs m (h : L) (os : list list_op) : option (list (option L) * lmem) :=
  match os with
  | [] => Some ([], m)
  | o :: os => '(r, m) ← list_exec m h o; '(rs, m) ← list_execs m h os; Some (r :: rs, m)
  end.

Fixpoint insert_before (pos x : L) (xs : list L) : list L :=
  match xs with
  | [] => [x]
  | y :: ys => if decide (y = pos) then x :: y :: ys else y :: insert_before pos x ys
  end.

(** The same operations on sequences; the operations a client must not call
    (linking a linked entry, unlinking a stranger) are undefined. *)
Definition list_spec (h : L) (dom : list L) (xs : list L) (o : list_op)
    : option (option L * list L) :=
  match o with
  | Add x => if decide (x ∈ dom /\ x ∉ h :: xs) then Some (None, xs ++ [x]) else None
  | AddTop x => if decide (x ∈ dom /\ x ∉ h :: xs) then Some (None, x :: xs) else None
  | InsertAt pos x =>
      if decide (pos ∈ h :: xs /\ x ∈ dom /\ x ∉ h :: xs)
      then Some (None, if decide (pos = h) then xs ++ [x] else insert_before pos x xs) else None
  | Del x => if decide (x ∈ xs) then Some (None, filter (.≠ x) xs) else None
  | GetTop => Some (Some (default h (head xs)), tail xs)
  | GetTail => Some (Some (default h (last xs)), removelast xs)
  | Rotate => Some (None, match xs with [] => [] | x :: xs => xs ++ [x] end)
  end.

Fixpoint list_specs (h : L) (dom : list L) (xs : list L) (os : list list_op)
    : option (list (option L) * list L) :=
  match os with
  | [] => Some ([], xs)
  | o :: os =>
      '(r, xs) ← list_spec h dom xs o; '(rs, xs) ← list_specs h dom xs os; Some (r :: rs, xs)
  end.

Lemma insert_before_split pos x l1 l2 :
  pos ∉ l1 -> insert_before pos x (l1 ++ pos :: l2) = l1 ++ x :: pos :: l2.
Proof.
  induction l1 as [|y l1 IH]; intros Hp; simpl; [by rewrite decide_True|].
  rewrite decide_False by set_solver. f_equal. apply IH. set_solver.
Qed.

Lemma filter_ne_split (x : L) l1 l2 :
  NoDup (l1 ++ x :: l2) -> filter (.≠ x) (l1 ++ x :: l2) = l1 ++ l2.
Proof.
  intros (N1 & Hd & N2)%NoDup_app. apply NoDup_cons in N2 as [Hx N2].
  rewrite filter_app, filter_cons_False by auto.
  rewrite !filter_all; [done|..]; apply Forall_forall; set_solver.
Qed.

Lemma list_exec_spec m h dom xs o r ys :
  is_ring m h xs -> (forall x, x ∈ dom -> is_Some (m !! x)) ->
  list_spec h dom xs o = Some (r, ys) ->
  exists m', list_exec m h o = Some (r, m') /\ is_ring m' h ys /\ frame m m' (h :: xs ++ dom).
Proof.
  intros HR Hdom Hs.
  assert (Hw : forall m' X, X ⊆ h :: xs ++ dom -> frame m m' X -> frame m m' (h :: xs ++ dom))
    by (intros; by eapply frame_weaken).
  destruct o as [x|x|pos x|x| | |]; simpl in *; try case_decide as Hd; simplify_eq.
  - destruct Hd as [Hd Hx], (list_add_ring m h xs x) as (m' & -> & R & F); [by auto..|].
    exists m'. split_and!; [done..|]. eapply Hw; [|done]. set_solver.
  - destruct Hd as [Hd Hx], (list_add_top_ring m h xs x) as (m' & -> & R & F); [by auto..|].
    exists m'. split_and!; [done..|]. eapply Hw; [|done]. set_solver.
  - destruct Hd as (Hp & Hd & Hx). destruct (decide (pos = h)) as [->|Hne].
    + destruct (list_add_ring m h xs x) as (m' & E & R & F); [by auto..|].
      rewrite list_add_insert_at in E. rewrite E.
      exists m'. split_and!; [done..|]. eapply Hw; [|done]. set_solver.
    + assert (pos ∈ xs) as (l1 & l2 & ->)%list_elem_of_split by set_solver.
      destruct HR as [ND HP]. pose proof ND as ND'.
      apply NoDup_cons in ND' as [Hh ND']. apply NoDup_app in ND' as (_ & Hdd & _).
      rewrite insert_before_split by set_solver.
      destruct (list_insert_at_ring m h l1 (pos :: l2) pos (l2 ++ [h]) x)
        as (m' & -> & R & F); [by auto..|].
      exists m'. split_and!; [done..|]. eapply Hw; [|done]. set_solver.
  - apply list_elem_of_split in Hd as (l1 & l2 & ->).
    destruct (list_del_ring m h l1 l2 x HR) as (m' & -> & R & S & F).
    rewrite filter_ne_split by (destruct HR as [ND _]; by apply NoDup_cons in ND as [_ ?]).
    exists m'. split_and!; [done..|]. eapply Hw; [|done]. set_solver.
  - destruct xs as [|x xs]; simpl.
    + rewrite list_get_top_empty by done. eauto using frame_refl.
    + destruct (list_get_top_ring m h x xs HR) as (m' & -> & R & S & F).
      exists m'. split_and!; [done..|]. eapply Hw; [|done]. set_solver.
  - destruct (rev xs) as [|x l] eqn:E.
    + assert (xs = []) as -> by (by rewrite <-(rev_involutive xs), E). simpl.
      rewrite list_get_tail_empty by done. eauto using frame_refl.
    + assert (xs = rev l ++ [x]) as -> by (by rewrite <-(rev_involutive xs), E).
      rewrite last_snoc, removelast_last. simpl.
      destruct (list_get_tail_ring m h (rev l) x HR) as (m' & -> & R & S & F).
      exists m'. split_and!; [done..|]. eapply Hw; [|done]. set_solver.
  - destruct xs as [|x xs]; simpl.
    + rewrite list_rotate_empty by done. eauto using frame_refl.
    + destruct (list_rotate_ring m h x xs HR) as (m' & -> & R & F).
      exists m'. split_and!; [done..|]. eapply Hw; [|done]. set_solver.
Qed.

Lemma list_spec_sub h dom xs o r ys : list_spec h dom xs o = Some (r, ys) -> ys ⊆ xs ++ dom.
Proof.
  assert (Hib : forall pos x l, insert_before pos x l ⊆ x :: l).
  { intros pos x l. induction l as [|y l IH]; simpl; [done|]. case_decide; set_solver. }
  assert (Hrl : forall l : list L, removelast l ⊆ l).
  { intros l. induction l as [|y [|z l] IH]; simpl in *; set_solver. }
  intros Hs. destruct o as [x|x|pos x|x| | |]; simpl in *; try case_decide as Hd; simplify_eq.
  - set_solver.
  - set_solver.
  - case_decide; [set_solver|]. specialize (Hib pos x xs). set_solver.
  - intros y [_ ?]%list_elem_of_filter. set_solver.
  - destruct xs; set_solver.
  - specialize (Hrl xs). set_solver.
  - destruct xs; set_solver.
Qed.

(** C1.  Any sequence of calls of the list operations on one head behaves as
    the same calls on a plain sequence: the entries returned are the same, the
    memory ends up as the ring of the resulting sequence, and no entry outside
    the list and the nodes handed to it is touched.  The calls of the model
    never go through a bad pointer as long as the client respects the usage
    the specification requires. *)
Theorem list_refinement m h dom xs os rs ys :
  is_ring m h xs -> (forall x, x ∈ dom -> is_Some (m !! x)) ->
  list_specs h dom xs os = Some (rs, ys) ->
  exists m', list_execs m h os = Some (rs, m') /\ is_ring m' h ys /\ frame m m' (h :: xs ++ dom).
Proof.
  revert m xs rs. induction os as [|o os IH]; intros m xs rs HR Hdom Hs; simpl in *.
  - simplify_eq. eauto using frame_refl.
  - destruct (list_spec h dom xs o) as [[r xs']|] eqn:E1; simpl in Hs; [|done].
    destruct (list_specs h dom xs' os) as [[rs' ys']|] eqn:E2; simplify_eq/=.
    destruct (list_exec_spec m h dom xs o r xs') as (m1 & -> & R1 & F1); [done..|]. simpl.
    destruct (IH m1 xs' rs') as (m2 & -> & R2 & F2); [done| |done|].
    { intros x Hx. apply F1; auto. }
    exists m2. split_and!; [done..|]. apply list_spec_sub in E1.
    eapply frame_weaken; [|exact (frame_trans _ _ _ _ _ F1 F2)]. set_solver.
Qed.
End klist.
Arguments node L : clear implicits.

(** Three entries at addresses 1, 2, 3 and a head at 0. *)
Definition demo_mem : gmap Z (node Z) :=
  <[0 := Node 0 0]> (<[1 := Node 1 1]> (<[2 := Node 2 2]> {[3 := Node 3 3]})).

Lemma list_refinement_witness :
  exists m', list_execs demo_mem 0 [Add 1; AddTop 2; InsertAt 1 3; Rotate; GetTop; Del 1; GetTail]
               = Some ([None; None; None; None; Some 3; None; Some 2], m') /\ is_ring m' 0 [].
Proof.
  destruct (list_refinement demo_mem 0 [1; 2; 3] []
    [Add 1; AddTop 2; InsertAt 1 3; Rotate; GetTop; Del 1; GetTail]
    [None; None; None; None; Some 3; None; Some 2] []) as (m' & E & R & _).
  - by apply lk_self_ring.
  - intros x Hx. repeat (apply elem_of_cons in Hx as [->|Hx]; [by eexists|]). by apply elem_of_nil in Hx.
  - reflexivity.
  - by exists m'.
Defined.
