(* ===== verification/Kernel.v ===== *)
(** Data model of the kernel: the objects of include/kern and the operations of
    kern/psw.c, in one state.

    Objects are identified by address.  Every address of a list entry or list
    head is a value of [loc], whose constructor says which member of which
    object it is: [CONTAINER_OF] is a match on it.  The state is generic in
    the part [X] that holds devices and the file system, which the scheduler,
    the wait queues, the timers and the interrupt layer do not look at.

    Interrupts are disabled in almost all the code modelled here; the flag is
    part of the state, so that a routine that forgot to restore it would be
    seen to.  The arrival of an interrupt inside a routine is not modelled:
    other threads run only where the code calls the context switch. *)
From S2P Require Import Prelude KList.

Abbreviation ptr := Z (only parsing).
(** A function pointer: an opaque identity, [NULL] when absent. *)
Abbreviation fptr := Z (only parsing).

(** ** Addresses *)

Inductive mtxp : Type :=
| MtxMalloc | MtxDevsw | MtxDrv (d : Z) | MtxBcache | MtxIcache | MtxFdtbl | MtxObj (n : Z).

Inductive wqp : Type :=
| WqMutex (m : mtxp) | WqReaper | WqBuf (b : Z) | WqInode (i : Z) | WqConsRx | WqConsTx
| WqLocal (n : Z).

Inductive loc : Type :=
| RdqHead (prio : Z)      (* &rd_queue.head[prio] *)
| ThrLink (t : ptr)       (* &thr->link *)
| WqHead (q : wqp)        (* &wq->head *)
| WqeLink (e : ptr)       (* &ep->link, a wait_queue_entry *)
| ReaperHead              (* &reaper_info.reaper_queue.head *)
| CalloutHead             (* &callouts.head *)
| CalloutLink (c : ptr)   (* &entp->link, a call_out_ent *)
| LocalHead (n : Z)       (* a list head on the stack *)
| FindIrqsHead            (* &irqMgr.find_irqs *)
| FinderLink (f : ptr)    (* &finder_ent->link *)
| IrqHead (irq : Z)       (* &irqMgr.irqs[irq].handlers *)
| HandlerLink (h : ptr)   (* &handler_ent->link *)
| BufHead                 (* &global_buffer_cache.head *)
| BufMru (b : Z)          (* &b->mru *)
| BufLink (b : Z)         (* &b->link *)
| KconsHead               (* &kcons.head *)
| KconsLink (c : ptr).    (* &con->link, a kconsole_t *)

#[export] Instance mtxp_eq_dec : EqDecision mtxp.
Proof. solve_decision. Defined.
#[export] Instance mtxp_countable : Countable mtxp.
Proof.
  refine (inj_countable'
    (fun m => match m with
       | MtxMalloc => (0, 0) | MtxDevsw => (1, 0) | MtxDrv d => (2, d) | MtxBcache => (3, 0)
       | MtxIcache => (4, 0) | MtxFdtbl => (5, 0) | MtxObj n => (6, n) end)
    (fun p => match p with
       | (0, _) => MtxMalloc | (1, _) => MtxDevsw | (2, d) => MtxDrv d | (3, _) => MtxBcache
       | (4, _) => MtxIcache | (5, _) => MtxFdtbl | (_, n) => MtxObj n end) _); by intros [].
Defined.

#[export] Instance wqp_eq_dec : EqDecision wqp.
Proof. solve_decision. Defined.
#[export] Instance wqp_countable : Countable wqp.
Proof.
  refine (inj_countable'
    (fun q => match q with
       | WqMutex m => inl m | WqReaper => inr (0, 0) | WqBuf b => inr (1, b) | WqInode i => inr (2, i)
       | WqConsRx => inr (3, 0) | WqConsTx => inr (4, 0) | WqLocal n => inr (5, n) end)
    (fun p => match p with
       | inl m => WqMutex m | inr (0, _) => WqReaper | inr (1, b) => WqBuf b | inr (2, i) => WqInode i
       | inr (3, _) => WqConsRx | inr (4, _) => WqConsTx | inr (_, n) => WqLocal n end) _);
    by intros [].
Defined.

#[export] Instance loc_eq_dec : EqDecision loc.
Proof. solve_decision. Defined.
#[export] Instance loc_countable : Countable loc.
Proof.
  refine (inj_countable'
    (fun l => match l with
       | WqHead q => inl q | RdqHead p => inr (0, p) | ThrLink t => inr (1, t) | WqeLink e => inr (2, e)
       | ReaperHead => inr (3, 0) | CalloutHead => inr (4, 0) | CalloutLink c => inr (5, c)
       | LocalHead n => inr (6, n) | FindIrqsHead => inr (7, 0) | FinderLink f => inr (8, f)
       | IrqHead i => inr (9, i) | HandlerLink h => inr (10, h) | BufHead => inr (11, 0)
       | BufMru b => inr (12, b) | BufLink b => inr (13, b) | KconsHead => inr (14, 0) | KconsLink c => inr (15, c) end)
    (fun p => match p with
       | inl q => WqHead q | inr (0, p) => RdqHead p | inr (1, t) => ThrLink t | inr (2, e) => WqeLink e
       | inr (3, _) => ReaperHead | inr (4, _) => CalloutHead | inr (5, c) => CalloutLink c
       | inr (6, n) => LocalHead n | inr (7, _) => FindIrqsHead | inr (8, f) => FinderLink f
       | inr (9, i) => IrqHead i | inr (10, h) => HandlerLink h | inr (11, _) => BufHead
       | inr (12, b) => BufMru b | inr (13, b) => BufLink b | inr (14, _) => KconsHead | inr (_, c) => KconsLink c end) _); by intros [].
Defined.

(** ** Objects *)

Definition THR_TSTATE_RUN : Z := 0.
Definition THR_TSTATE_WAIT : Z := 1.
Definition THR_TSTATE_EXIT : Z := 2.
Definition THR_TSTATE_DEAD : Z := 3.
Definition THR_FDS_NR : Z := 32.

Record thread_attr_t : Type := ThreadAttr {
  stack_top : ptr; stack : ptr; stack_size : Z; prio : Z }.

(** [link] is in [links] at [ThrLink]. *)
Record thread_t : Type := Thread {
  status : Z; tid : Z; tinfo : ptr; exit_code : Z; attr : thread_attr_t; slice : Z;
  fds : list ptr }.

Record thread_info_t : Type := ThreadInfo { preempt : Z; thr : ptr; magic : Z }.

Definition WQUE_REASON_WAKEUP : Z := 0.
Definition WQUE_REASON_DESTROY : Z := 1.

(** The wait queue of a mutex is [WqMutex] of its address. *)
Record mutex : Type := Mutex { count : Z; owner : ptr }.

Record call_out_ent : Type := CallOutEnt { expire : Z; callout : fptr; private : Z }.

(** [config_irq], [enable_irq], ... of an [irq_ctrlr] are reached through the
    controller's address [ctrlrp]; the list head [handlers] is [IrqHead]. *)
Record irq_line : Type := IrqLine { nr : Z; iattr : Z; iprio : Z; ctrlrp : ptr }.

Record irq_handler_ent : Type := IrqHandlerEnt { handler : fptr; hprivate : Z }.

(** ** The state *)

Record kst (X : Type) : Type := Kst {
  links : gmap loc (node loc); (* every [list_t] and [list_head_t] of the kernel *)
  ie : bool; (* interrupt enable flag of the processor status word *)
  threads : gmap ptr thread_t; (* [thread_t] objects *)
  tinfos : gmap ptr thread_info_t; (* [thread_info_t] objects, at the bottom of the stacks *)
  current : ptr; (* the running thread (kern/idle.c) *)
  bitmap : Z; (* [rd_queue.bitmap] (kern/ready_queue.c) *)
  wq_reason : gmap wqp Z; (* [reason] of every [wait_queue] *)
  wqe_thr : gmap ptr ptr; (* [thr] of every live [wait_queue_entry] *)
  mutexes : gmap mtxp mutex; (* [mutex] objects *)
  uptime : Z; (* [jiffies.uptime] (kern/timer.c) *)
  callouts : gmap ptr call_out_ent; (* [call_out_ent] objects *)
  irqs : gmap Z irq_line; (* [irqMgr.irqs] (kern/irq.c) *)
  handlers : gmap ptr irq_handler_ent; (* [irq_handler_ent] objects *)
  finders : gmap ptr fptr; (* [find_pending] of every [irq_finder] *)
  supply : list ptr; (* addresses the allocator will hand out *)
  nlocal : Z; (* next automatic object *)
  ext : X (* devices and file system *)
}.
Arguments Kst {X} _ _ _ _ _ _ _ _ _ _ _ _ _ _ _ _ _.
Arguments links {X} _.
Arguments ie {X} _.
Arguments threads {X} _.
Arguments tinfos {X} _.
Arguments current {X} _.
Arguments bitmap {X} _.
Arguments wq_reason {X} _.
Arguments wqe_thr {X} _.
Arguments mutexes {X} _.
Arguments uptime {X} _.
Arguments callouts {X} _.
Arguments irqs {X} _.
Arguments handlers {X} _.
Arguments finders {X} _.
Arguments supply {X} _.
Arguments nlocal {X} _.
Arguments ext {X} _.

Section setters.
Context {X : Type}.
Definition with_links (s : kst X) (v : gmap loc (node loc)) : kst X :=
  Kst v (ie s) (threads s) (tinfos s) (current s) (bitmap s) (wq_reason s) (wqe_thr s) (mutexes s) (uptime s) (callouts s) (irqs s) (handlers s) (finders s) (supply s) (nlocal s) (ext s).
Definition with_ie (s : kst X) (v : bool) : kst X :=
  Kst (links s) v (threads s) (tinfos s) (current s) (bitmap s) (wq_reason s) (wqe_thr s) (mutexes s) (uptime s) (callouts s) (irqs s) (handlers s) (finders s) (supply s) (nlocal s) (ext s).
Definition with_threads (s : kst X) (v : gmap ptr thread_t) : kst X :=
  Kst (links s) (ie s) v (tinfos s) (current s) (bitmap s) (wq_reason s) (wqe_thr s) (mutexes s) (uptime s) (callouts s) (irqs s) (handlers s) (finders s) (supply s) (nlocal s) (ext s).
Definition with_tinfos (s : kst X) (v : gmap ptr thread_info_t) : kst X :=
  Kst (links s) (ie s) (threads s) v (current s) (bitmap s) (wq_reason s) (wqe_thr s) (mutexes s) (uptime s) (callouts s) (irqs s) (handlers s) (finders s) (supply s) (nlocal s) (ext s).
Definition with_current (s : kst X) (v : ptr) : kst X :=
  Kst (links s) (ie s) (threads s) (tinfos s) v (bitmap s) (wq_reason s) (wqe_thr s) (mutexes s) (uptime s) (callouts s) (irqs s) (handlers s) (finders s) (supply s) (nlocal s) (ext s).
Definition with_bitmap (s : kst X) (v : Z) : kst X :=
  Kst (links s) (ie s) (threads s) (tinfos s) (current s) v (wq_reason s) (wqe_thr s) (mutexes s) (uptime s) (callouts s) (irqs s) (handlers s) (finders s) (supply s) (nlocal s) (ext s).
Definition with_wq_reason (s : kst X) (v : gmap wqp Z) : kst X :=
  Kst (links s) (ie s) (threads s) (tinfos s) (current s) (bitmap s) v (wqe_thr s) (mutexes s) (uptime s) (callouts s) (irqs s) (handlers s) (finders s) (supply s) (nlocal s) (ext s).
Definition with_wqe_thr (s : kst X) (v : gmap ptr ptr) : kst X :=
  Kst (links s) (ie s) (threads s) (tinfos s) (current s) (bitmap s) (wq_reason s) v (mutexes s) (uptime s) (callouts s) (irqs s) (handlers s) (finders s) (supply s) (nlocal s) (ext s).
Definition with_mutexes (s : kst X) (v : gmap mtxp mutex) : kst X :=
  Kst (links s) (ie s) (threads s) (tinfos s) (current s) (bitmap s) (wq_reason s) (wqe_thr s) v (uptime s) (callouts s) (irqs s) (handlers s) (finders s) (supply s) (nlocal s) (ext s).
Definition with_uptime (s : kst X) (v : Z) : kst X :=
  Kst (links s) (ie s) (threads s) (tinfos s) (current s) (bitmap s) (wq_reason s) (wqe_thr s) (mutexes s) v (callouts s) (irqs s) (handlers s) (finders s) (supply s) (nlocal s) (ext s).
Definition with_callouts (s : kst X) (v : gmap ptr call_out_ent) : kst X :=
  Kst (links s) (ie s) (threads s) (tinfos s) (current s) (bitmap s) (wq_reason s) (wqe_thr s) (mutexes s) (uptime s) v (irqs s) (handlers s) (finders s) (supply s) (nlocal s) (ext s).
Definition with_irqs (s : kst X) (v : gmap Z irq_line) : kst X :=
  Kst (links s) (ie s) (threads s) (tinfos s) (current s) (bitmap s) (wq_reason s) (wqe_thr s) (mutexes s) (uptime s) (callouts s) v (handlers s) (finders s) (supply s) (nlocal s) (ext s).
Definition with_handlers (s : kst X) (v : gmap ptr irq_handler_ent) : kst X :=
  Kst (links s) (ie s) (threads s) (tinfos s) (current s) (bitmap s) (wq_reason s) (wqe_thr s) (mutexes s) (uptime s) (callouts s) (irqs s) v (finders s) (supply s) (nlocal s) (ext s).
Definition with_finders (s : kst X) (v : gmap ptr fptr) : kst X :=
  Kst (links s) (ie s) (threads s) (tinfos s) (current s) (bitmap s) (wq_reason s) (wqe_thr s) (mutexes s) (uptime s) (callouts s) (irqs s) (handlers s) v (supply s) (nlocal s) (ext s).
Definition with_supply (s : kst X) (v : list ptr) : kst X :=
  Kst (links s) (ie s) (threads s) (tinfos s) (current s) (bitmap s) (wq_reason s) (wqe_thr s) (mutexes s) (uptime s) (callouts s) (irqs s) (handlers s) (finders s) v (nlocal s) (ext s).
Definition with_nlocal (s : kst X) (v : Z) : kst X :=
  Kst (links s) (ie s) (threads s) (tinfos s) (current s) (bitmap s) (wq_reason s) (wqe_thr s) (mutexes s) (uptime s) (callouts s) (irqs s) (handlers s) (finders s) (supply s) v (ext s).
Definition with_ext (s : kst X) (v : X) : kst X :=
  Kst (links s) (ie s) (threads s) (tinfos s) (current s) (bitmap s) (wq_reason s) (wqe_thr s) (mutexes s) (uptime s) (callouts s) (irqs s) (handlers s) (finders s) (supply s) (nlocal s) v.
End setters.


(** ** Loads, stores and list operations on the state *)

Definition K (X A : Type) : Type := M (kst X) A.

Section access.
Context {X : Type}.

Definition thr_get (t : ptr) : K X thread_t := s ← get; deref (threads s !! t).
Definition thr_put (t : ptr) (v : thread_t) : K X unit :=
  s ← get; _ ← deref (threads s !! t); put (with_threads s (<[t := v]> (threads s))).

Definition with_status (t : thread_t) (v : Z) : thread_t :=
  Thread v (tid t) (tinfo t) (exit_code t) (attr t) (slice t) (fds t).
Definition with_slice (t : thread_t) (v : Z) : thread_t :=
  Thread (status t) (tid t) (tinfo t) (exit_code t) (attr t) v (fds t).
Definition with_exit_code (t : thread_t) (v : Z) : thread_t :=
  Thread (status t) (tid t) (tinfo t) v (attr t) (slice t) (fds t).
Definition with_fds (t : thread_t) (v : list ptr) : thread_t :=
  Thread (status t) (tid t) (tinfo t) (exit_code t) (attr t) (slice t) v.

Definition set_status (t : ptr) (v : Z) : K X unit := th ← thr_get t; thr_put t (with_status th v).

Definition ti_get (p : ptr) : K X thread_info_t := s ← get; deref (tinfos s !! p).
Definition ti_put (p : ptr) (v : thread_info_t) : K X unit :=
  s ← get; _ ← deref (tinfos s !! p); put (with_tinfos s (<[p := v]> (tinfos s))).

(** A list operation that changes the memory, one that returns a value too,
    and one that only reads. *)
Definition lk_upd (f : gmap loc (node loc) -> option (gmap loc (node loc))) : K X unit :=
  s ← get; m ← deref (f (links s)); put (with_links s m).
Definition lk_fn {A} (f : gmap loc (node loc) -> option (A * gmap loc (node loc))) : K X A :=
  s ← get; r ← deref (f (links s)); put (with_links s r.2);; mret r.1.
Definition lk_rd {A} (f : gmap loc (node loc) -> option A) : K X A :=
  s ← get; deref (f (links s)).

(** kern/psw.c (with [CONFIG_HAL]): save the status word and disable
    interrupts, put a saved status word back. *)
Definition psw_disable_and_save_interrupt : K X bool :=
  s ← get; put (with_ie s false);; mret (ie s).
Definition psw_restore_interrupt (psw : bool) : K X unit := s ← get; put (with_ie s psw).
Definition psw_enable_interrupt : K X unit := s ← get; put (with_ie s true).
Definition psw_disable_interrupt : K X unit := s ← get; put (with_ie s false).

(** The allocator: the next address of its supply, [NULL] when there is none.  An
    allocation that fails while others succeed is a [NULL] in the supply. *)
Definition kmalloc : K X ptr :=
  s ← get;
  match supply s with
  | [] => mret NULL
  | a :: l => put (with_supply s l);; mret a
  end.
(** A block that is freed can be handed out again; [kfree(NULL)] does nothing. *)
Definition give_back (p : ptr) (l : list ptr) : list ptr := if p =? NULL then l else l ++ [p].
Definition kfree (p : ptr) : K X unit := s ← get; put (with_supply s (give_back p (supply s))).

(** The address of a new automatic object. *)
Definition new_local : K X Z := s ← get; put (with_nlocal s (nlocal s + 1));; mret (nlocal s).

Lemma lk_upd_eq f (s : kst X) m : f (links s) = Some m -> lk_upd f s = Ret tt (with_links s m).
Proof. intros E. unfold lk_upd. mred. by rewrite E. Qed.
Lemma lk_rd_eq {A} f (s : kst X) (a : A) : f (links s) = Some a -> lk_rd f s = Ret a s.
Proof. intros E. unfold lk_rd. mred. by rewrite E. Qed.
Lemma lk_fn_eq {A} f (s : kst X) (a : A) m :
  f (links s) = Some (a, m) -> lk_fn f s = Ret a (with_links s m).
Proof. intros E. unfold lk_fn. mred. by rewrite E. Qed.
Lemma thr_get_eq t (s : kst X) th : threads s !! t = Some th -> thr_get t s = Ret th s.
Proof. intros E. unfold thr_get. mred. by rewrite E. Qed.
Lemma thr_put_eq t (s : kst X) th v :
  threads s !! t = Some th -> thr_put t v s = Ret tt (with_threads s (<[t := v]> (threads s))).
Proof. intros E. unfold thr_put. mred. by rewrite E. Qed.
Lemma ti_get_eq p (s : kst X) ti : tinfos s !! p = Some ti -> ti_get p s = Ret ti s.
Proof. intros E. unfold ti_get. mred. by rewrite E. Qed.
Lemma ti_put_eq p (s : kst X) ti v :
  tinfos s !! p = Some ti -> ti_put p v s = Ret tt (with_tinfos s (<[p := v]> (tinfos s))).
Proof. intros E. unfold ti_put. mred. by rewrite E. Qed.
Lemma set_status_eq t (s : kst X) th v :
  threads s !! t = Some th ->
  set_status t v s = Ret tt (with_threads s (<[t := with_status th v]> (threads s))).
Proof. intros E. unfold set_status. mred. rewrite (thr_get_eq _ _ th) by done. by apply (thr_put_eq _ _ th). Qed.
Lemma bind_ret {A B} (c : K X A) (f : A -> K X B) s a s' :
  c s = Ret a s' -> (a ← c; f a) s = f a s'.
Proof. intros E. mred. by rewrite E. Qed.

Lemma with_ie_ie (s : kst X) b b' : with_ie (with_ie s b) b' = with_ie s b'.
Proof. done. Qed.
Lemma with_ie_id (s : kst X) : with_ie s (ie s) = s.
Proof. by destruct s. Qed.
End access.

#[export] Hint Rewrite @with_ie_ie @with_ie_id : kern.
