(* ===== verification/ThreadInfo.v ===== *)
(** include/hal-x64/thread_info.h (and the AArch64 twin) and the counters of
    include/kern/thread.h: one 64-bit word per thread packs three 8-bit
    nesting counters (exceptions at bit 0, interrupts at bit 8, preemption
    at bit 16) and two dispatch flags in the top byte. *)
From S2P Require Import Prelude KList Kernel.

Definition THR_THREAD_INFO_MAGIC : Z := 0xdeadbeef.
Definition THR_PRMPT_CTRL_SHIFT : Z := 56.
Definition THR_PRECNT_SHIFT : Z := 16.
Definition THR_IRQCNT_SHIFT : Z := 8.
Definition THR_EXCCNT_SHIFT : Z := 0.
Definition THR_CNTR_MASK : Z := 0xff.
Definition THR_PRMPT_CTRL_PREEMPT_ACTIVE : Z := Z.shiftl 0x80 THR_PRMPT_CTRL_SHIFT.
Definition THR_PRMPT_CTRL_RESCHED_DELAYED : Z := Z.shiftl 0x40 THR_PRMPT_CTRL_SHIFT.

(** [~m] on [uint64_t]. *)
Definition not64 (m : Z) : Z := u64 (Z.lnot m).

Definition with_preempt (ti : thread_info_t) (v : Z) : thread_info_t :=
  ThreadInfo v (thr ti) (magic ti).

Definition ti_set_delay_dispatch (ti : thread_info_t) : thread_info_t :=
  with_preempt ti (Z.lor (preempt ti) THR_PRMPT_CTRL_RESCHED_DELAYED).
Definition ti_clr_delay_dispatch (ti : thread_info_t) : thread_info_t :=
  with_preempt ti (Z.land (preempt ti) (not64 THR_PRMPT_CTRL_RESCHED_DELAYED)).
Definition ti_check_need_dispatch (ti : thread_info_t) : Z :=
  cbool (ctrue (Z.land (preempt ti) THR_PRMPT_CTRL_RESCHED_DELAYED)).
Definition ti_set_preempt_active (ti : thread_info_t) : thread_info_t :=
  with_preempt ti (Z.lor (preempt ti) THR_PRMPT_CTRL_PREEMPT_ACTIVE).
Definition ti_clr_preempt_active (ti : thread_info_t) : thread_info_t :=
  with_preempt ti (Z.land (preempt ti) (not64 THR_PRMPT_CTRL_PREEMPT_ACTIVE)).

(** The function returns [int]: the masked [uint64_t] is converted. *)
Definition ti_check_preempt_active (ti : thread_info_t) : Z :=
  s32 (Z.land (preempt ti) THR_PRMPT_CTRL_PREEMPT_ACTIVE).

(** Body of [ti_update_preempt_count] on the word. *)
Definition preempt_update (p shift diff : Z) : Z :=
  let cnt := Z.land (Z.shiftr p shift) THR_CNTR_MASK in
  let cnt := u64 (cnt + diff) in
  let cnt := Z.land (u64 (Z.shiftl cnt shift)) (Z.shiftl THR_CNTR_MASK shift) in
  Z.lor (Z.land p (not64 (Z.shiftl THR_CNTR_MASK shift))) cnt.

Definition pre_count (p shift : Z) : Z := u8 (Z.land (Z.shiftr p shift) THR_CNTR_MASK).

Section ti.
Context {X : Type}.

Definition ti_modify (p : ptr) (f : thread_info_t -> thread_info_t) : K X unit :=
  ti ← ti_get p; ti_put p (f ti).

Definition ti_update_preempt_count (p : ptr) (shift diff : Z) : K X unit :=
  psw ← psw_disable_and_save_interrupt;
  ti_modify p (fun ti => with_preempt ti (preempt_update (preempt ti) shift diff));;
  psw_restore_interrupt psw.

Definition ti_refer_pre_count (p : ptr) (shift : Z) : K X Z :=
  psw ← psw_disable_and_save_interrupt;
  ti ← ti_get p;
  let cnt := pre_count (preempt ti) shift in
  psw_restore_interrupt psw;; mret cnt.

Definition ti_refer_preempt_count (p : ptr) : K X Z := ti_refer_pre_count p THR_PRECNT_SHIFT.
Definition ti_refer_irq_count (p : ptr) : K X Z := ti_refer_pre_count p THR_IRQCNT_SHIFT.
Definition ti_refer_exc_count (p : ptr) : K X Z := ti_refer_pre_count p THR_EXCCNT_SHIFT.

(** [current->tinfo] *)
Definition get_current_thread_info : K X ptr :=
  s ← get; th ← thr_get (current s); mret (tinfo th).
End ti.

(** ** Bits of the word *)

Lemma mask8_testbit i : 0 <= i -> Z.testbit 0xff i = bool_decide (i < 8).
Proof.
  intros. change 0xff with (Z.ones 8). case_bool_decide.
  - by apply Z.ones_spec_low.
  - by apply Z.ones_spec_high; lia.
Qed.

Lemma not64_testbit m i : 0 <= i < 64 -> Z.testbit (not64 m) i = negb (Z.testbit m i).
Proof. intros. unfold not64, u64. rewrite wrap_testbit by lia. apply Z.lnot_spec. lia. Qed.

Lemma not64_range m : 0 <= not64 m < 2 ^ 64.
Proof. apply wrap_range. lia. Qed.

Lemma u64_high_bit p i : 0 <= p < 2 ^ 64 -> 64 <= i -> Z.testbit p i = false.
Proof.
  intros. destruct (decide (p = 0)) as [->|]; [by rewrite Z.bits_0|].
  apply Z.bits_above_log2; [lia|]. assert (Z.log2 p < 64) by (apply Z.log2_lt_pow2; lia). lia.
Qed.

Lemma preempt_update_testbit p shift diff i :
  0 <= p < 2 ^ 64 -> 0 <= shift <= 56 -> 0 <= i ->
  Z.testbit (preempt_update p shift diff) i =
  if bool_decide (shift <= i < shift + 8)
  then Z.testbit (Z.land (Z.shiftr p shift) 0xff + diff) (i - shift) else Z.testbit p i.
Proof.
  intros Hp Hs Hi. unfold preempt_update. rewrite Z.lor_spec, !Z.land_spec.
  unfold THR_CNTR_MASK. destruct (decide (i < 64)).
  - rewrite not64_testbit, Z.shiftl_spec by lia. unfold u64. rewrite wrap_testbit, Z.shiftl_spec by lia.
    case_bool_decide as Hr.
    + rewrite !mask8_testbit, bool_decide_true, wrap_testbit by lia.
      simpl. by rewrite andb_false_r, andb_true_r.
    + destruct (decide (i < shift)).
      * rewrite !(Z.testbit_neg_r _ (i - shift)) by lia. simpl. by rewrite andb_true_r, orb_false_r.
      * rewrite !mask8_testbit, bool_decide_false by lia. simpl.
        by rewrite andb_true_r, andb_false_r, orb_false_r.
  - rewrite (u64_high_bit p), bool_decide_false by lia.
    unfold u64. rewrite (u64_high_bit (wrap 64 _)) by (try apply wrap_range; lia). done.
Qed.

Lemma preempt_update_range p shift diff :
  0 <= p < 2 ^ 64 -> 0 <= shift <= 56 -> 0 <= preempt_update p shift diff < 2 ^ 64.
Proof.
  intros Hp Hs.
  assert (preempt_update p shift diff = wrap 64 (preempt_update p shift diff)) as ->.
  { apply Z.bits_inj'. intros i Hi. destruct (decide (i < 64)).
    - by rewrite wrap_testbit by lia.
    - rewrite (u64_high_bit (wrap 64 _)) by (try apply wrap_range; lia).
      rewrite preempt_update_testbit by lia. rewrite bool_decide_false by lia. apply u64_high_bit; lia. }
  apply wrap_range. lia.
Qed.

Lemma pre_count_mod p shift : 0 <= shift -> pre_count p shift = Z.shiftr p shift mod 256.
Proof.
  intros. unfold pre_count, u8, wrap, THR_CNTR_MASK. change 0xff with (Z.ones 8).
  by rewrite Z.land_ones, Z.mod_mod by lia.
Qed.

Lemma pre_count_testbit p shift i :
  0 <= shift -> 0 <= i -> Z.testbit (pre_count p shift) i = bool_decide (i < 8) && Z.testbit p (i + shift).
Proof.
  intros. rewrite pre_count_mod by done. change 256 with (2 ^ 8). case_bool_decide.
  - by rewrite Z.mod_pow2_bits_low, Z.shiftr_spec by lia.
  - by rewrite Z.mod_pow2_bits_high by lia.
Qed.

Lemma pre_count_range p shift : 0 <= shift -> 0 <= pre_count p shift < 256.
Proof. intros. rewrite pre_count_mod by done. apply Z.mod_pos_bound. lia. Qed.

Lemma preempt_update_count p shift diff :
  0 <= p < 2 ^ 64 -> 0 <= shift <= 56 ->
  pre_count (preempt_update p shift diff) shift = (pre_count p shift + diff) mod 256.
Proof.
  intros Hp Hs. apply Z.bits_inj'. intros i Hi. rewrite pre_count_testbit by lia.
  change 256 with (2 ^ 8). case_bool_decide; simpl.
  - rewrite preempt_update_testbit, bool_decide_true by lia.
    replace (i + shift - shift) with i by lia. rewrite Z.mod_pow2_bits_low by lia.
    rewrite pre_count_mod by lia. change 0xff with (Z.ones 8). by rewrite Z.land_ones by lia.
  - by rewrite Z.mod_pow2_bits_high by lia.
Qed.

(** The three counters share a word and do not disturb one another:
    adding [diff] to the counter at [shift] adds it modulo 256 there, and
    leaves every bit outside that byte (the other counters and the dispatch
    flags) as it was. *)
Theorem preempt_update_correct p shift diff :
  0 <= p < 2 ^ 64 -> 0 <= shift <= 56 ->
  pre_count (preempt_update p shift diff) shift = (pre_count p shift + diff) mod 256 /\
  0 <= preempt_update p shift diff < 2 ^ 64 /\
  (forall i, 0 <= i -> ~ (shift <= i < shift + 8) ->
     Z.testbit (preempt_update p shift diff) i = Z.testbit p i) /\
  (forall shift', 0 <= shift' <= 56 -> shift' + 8 <= shift \/ shift + 8 <= shift' ->
     pre_count (preempt_update p shift diff) shift' = pre_count p shift').
Proof.
  intros Hp Hs. split_and!; [by apply preempt_update_count|by apply preempt_update_range..| |].
  - intros i Hi Hr. by rewrite preempt_update_testbit, bool_decide_false by lia.
  - intros shift' Hs' Hd. apply Z.bits_inj'. intros i Hi. rewrite !pre_count_testbit by lia.
    case_bool_decide; simpl; [|done]. by rewrite preempt_update_testbit, bool_decide_false by lia.
Qed.

Lemma preempt_update_correct_witness :
  pre_count (preempt_update (0x40 * 2 ^ 56 + 0xff00) 8 1) 8 = 0 /\
  pre_count (preempt_update (0x40 * 2 ^ 56 + 0xff00) 8 1) 16 = 0.
Proof.
  destruct (preempt_update_correct (0x40 * 2 ^ 56 + 0xff00) 8 1) as (H & _ & _ & H'); [lia..|].
  split; [by rewrite H|]. rewrite H' by lia. reflexivity.
Defined.

(** Entering and leaving a level gives the word back. *)
Lemma preempt_update_roundtrip p shift :
  0 <= p < 2 ^ 64 -> 0 <= shift <= 56 ->
  preempt_update (preempt_update p shift 1) shift (-1) = p.
Proof.
  intros Hp Hs. apply Z.bits_inj'. intros i Hi.
  rewrite preempt_update_testbit by (try apply preempt_update_range; lia).
  case_bool_decide as Hr; [|by rewrite preempt_update_testbit, bool_decide_false by lia].
  assert (forall q, Z.land (Z.shiftr q shift) 0xff = pre_count q shift) as Hpc.
  { intros q. rewrite pre_count_mod by lia. change 0xff with (Z.ones 8). by rewrite Z.land_ones by lia. }
  rewrite Hpc, preempt_update_count by done.
  rewrite <-(Z.mod_pow2_bits_low _ 8) by lia. change (2 ^ 8) with 256.
  rewrite Zplus_mod_idemp_l.
  replace (pre_count p shift + 1 + -1) with (pre_count p shift) by lia.
  rewrite Z.mod_small by (apply pre_count_range; lia).
  rewrite pre_count_testbit, bool_decide_true by lia. simpl. f_equal. lia.
Qed.

Lemma check_active_zero ti : ti_check_preempt_active ti = 0.
Proof.
  unfold ti_check_preempt_active, s32, swrap, THR_PRMPT_CTRL_PREEMPT_ACTIVE, THR_PRMPT_CTRL_SHIFT.
  assert (Z.land (preempt ti) (Z.shiftl 128 56) mod 2 ^ 32 = 0) as Hm.
  { apply Z.bits_inj'. intros i Hi. rewrite Z.bits_0. destruct (decide (i < 32)).
    - rewrite Z.mod_pow2_bits_low, Z.land_spec, Z.shiftl_spec, (Z.testbit_neg_r 128) by lia.
      apply andb_false_r.
    - by rewrite Z.mod_pow2_bits_high by lia. }
  by rewrite <-Zplus_mod_idemp_l, Hm.
Qed.

(** [ti_check_preempt_active] returns 0 for every thread: the flag is
    bit 63 and the function's return type [int] keeps the low 32 bits only.
    The test in [sched_delay_disptach] can therefore never hold, even for a
    thread that has just set the flag. *)
Theorem ti_check_preempt_active_zero (ti : thread_info_t) :
  ti_check_preempt_active ti = 0 /\
  ti_check_preempt_active (ti_set_preempt_active ti) = 0 /\
  Z.testbit (preempt (ti_set_preempt_active ti)) 63 = true.
Proof.
  split_and!; [apply check_active_zero..|]. unfold ti_set_preempt_active, with_preempt. cbn [preempt]. by rewrite Z.lor_spec, orb_true_r.
Qed.

(** ** The flags leave the counters alone *)

Lemma top_flag_testbit c i : 0 <= i < 56 -> Z.testbit (Z.shiftl c THR_PRMPT_CTRL_SHIFT) i = false.
Proof. intros. unfold THR_PRMPT_CTRL_SHIFT. rewrite Z.shiftl_spec by lia. apply Z.testbit_neg_r. lia. Qed.

Lemma pre_count_ext p p' shift :
  0 <= shift <= 16 -> (forall i, 0 <= i < 24 -> Z.testbit p i = Z.testbit p' i) ->
  pre_count p shift = pre_count p' shift.
Proof.
  intros Hs Hb. apply Z.bits_inj'. intros i Hi. rewrite !pre_count_testbit by lia.
  case_bool_decide; simpl; [|done]. apply Hb. lia.
Qed.

Lemma pre_count_lor_flag p c shift :
  0 <= shift <= 16 -> pre_count (Z.lor p (Z.shiftl c THR_PRMPT_CTRL_SHIFT)) shift = pre_count p shift.
Proof.
  intros. apply pre_count_ext; [done|]. intros i Hi.
  by rewrite Z.lor_spec, top_flag_testbit, orb_false_r by lia.
Qed.

Lemma pre_count_clr_flag p c shift :
  0 <= shift <= 16 ->
  pre_count (Z.land p (not64 (Z.shiftl c THR_PRMPT_CTRL_SHIFT))) shift = pre_count p shift.
Proof.
  intros. apply pre_count_ext; [done|]. intros i Hi.
  by rewrite Z.land_spec, not64_testbit, top_flag_testbit, andb_true_r by lia.
Qed.

Lemma need_dispatch_set ti : ti_check_need_dispatch (ti_set_delay_dispatch ti) = 1.
Proof.
  unfold ti_check_need_dispatch, ti_set_delay_dispatch, with_preempt, THR_PRMPT_CTRL_RESCHED_DELAYED,
    THR_PRMPT_CTRL_SHIFT. cbn [preempt].
  change (Z.shiftl 64 56) with (Z.shiftl 1 62). rewrite land_pow2_testbit by lia.
  by rewrite Z.lor_spec, orb_true_r.
Qed.

Lemma need_dispatch_clr_active ti :
  ti_check_need_dispatch (ti_clr_preempt_active ti) = ti_check_need_dispatch ti.
Proof.
  unfold ti_check_need_dispatch, ti_clr_preempt_active, with_preempt, THR_PRMPT_CTRL_RESCHED_DELAYED,
    THR_PRMPT_CTRL_PREEMPT_ACTIVE, THR_PRMPT_CTRL_SHIFT. cbn [preempt].
  change (Z.shiftl 64 56) with (Z.shiftl 1 62). rewrite !land_pow2_testbit by lia.
  by rewrite Z.land_spec, not64_testbit, andb_true_r by lia.
Qed.

Lemma lor64_range a b : 0 <= a < 2 ^ 64 -> 0 <= b < 2 ^ 64 -> 0 <= Z.lor a b < 2 ^ 64.
Proof.
  intros Ha Hb. assert (Z.lor a b = wrap 64 (Z.lor a b)) as ->; [|apply wrap_range; lia].
  apply Z.bits_inj'. intros i Hi. destruct (decide (i < 64)); [by rewrite wrap_testbit by lia|].
  rewrite (u64_high_bit (wrap 64 _)) by (try apply wrap_range; lia).
  by rewrite Z.lor_spec, !u64_high_bit by lia.
Qed.

Lemma land64_range a b : 0 <= a < 2 ^ 64 -> 0 <= b -> 0 <= Z.land a b < 2 ^ 64.
Proof.
  intros Ha Hb. assert (Z.land a b = wrap 64 (Z.land a b)) as ->; [|apply wrap_range; lia].
  apply Z.bits_inj'. intros i Hi. destruct (decide (i < 64)); [by rewrite wrap_testbit by lia|].
  rewrite (u64_high_bit (wrap 64 _)) by (try apply wrap_range; lia).
  by rewrite Z.land_spec, (u64_high_bit a) by lia.
Qed.

(** Leaving a nesting level does not touch the flags. *)
Lemma need_dispatch_update ti shift diff :
  0 <= preempt ti < 2 ^ 64 -> 0 <= shift <= 16 ->
  ti_check_need_dispatch (with_preempt ti (preempt_update (preempt ti) shift diff))
    = ti_check_need_dispatch ti.
Proof.
  intros Hp Hs. unfold ti_check_need_dispatch, THR_PRMPT_CTRL_RESCHED_DELAYED, THR_PRMPT_CTRL_SHIFT.
  cbn [preempt with_preempt]. change (Z.shiftl 64 56) with (Z.shiftl 1 62).
  rewrite !land_pow2_testbit, preempt_update_testbit, bool_decide_false by lia. done.
Qed.

Lemma preempt_update_count_other p shift diff shift' :
  0 <= p < 2 ^ 64 -> 0 <= shift <= 56 -> 0 <= shift' <= 56 ->
  shift' + 8 <= shift \/ shift + 8 <= shift' ->
  pre_count (preempt_update p shift diff) shift' = pre_count p shift'.
Proof.
  intros Hp Hs Hs' Hd. apply Z.bits_inj'. intros i Hi. rewrite !pre_count_testbit by lia.
  case_bool_decide; simpl; [|done]. by rewrite preempt_update_testbit, bool_decide_false by lia.
Qed.

(** ** The operations on the state *)

Section ti_eqs.
Context {X : Type}.
Implicit Types s : kst X.

Lemma ti_modify_eq s p v f :
  tinfos s !! p = Some v -> ti_modify p f s = Ret tt (with_tinfos s (<[p := f v]> (tinfos s))).
Proof.
  intros E. unfold ti_modify. mred. rewrite (ti_get_eq _ _ v) by done. mred. by apply (ti_put_eq _ _ v).
Qed.

Lemma ti_refer_pre_count_eq s p v shift :
  tinfos s !! p = Some v -> ti_refer_pre_count p shift s = Ret (pre_count (preempt v) shift) s.
Proof.
  intros E. unfold ti_refer_pre_count, psw_disable_and_save_interrupt, psw_restore_interrupt. mred.
  rewrite (ti_get_eq _ _ v) by done. mred. by destruct s.
Qed.

Lemma get_current_thread_info_eq s th :
  threads s !! current s = Some th -> get_current_thread_info s = Ret (tinfo th) s.
Proof. intros E. unfold get_current_thread_info. mred. by rewrite (thr_get_eq _ _ th). Qed.
End ti_eqs.
