(* ===== verification/ReadyQueue.v ===== *)
(** kern/ready_queue.c: sixteen FIFO queues, one per priority, and a bitmap of
    the non empty ones.  [rdq_inv s q] says that the queues in memory hold the
    threads [q p] at each priority [p] and that the bitmap agrees. *)
From S2P Require Import Prelude Bitops KList Kernel.

Definition RDQ_SYS_PRIORITY : Z := 8.
Definition RDQ_USER_PRIORITY : Z := 8.
Definition RDQ_USER_RR_PRIORITY : Z := 0.
Definition RDQ_PRIORITY_MAX : Z := RDQ_USER_PRIORITY + RDQ_SYS_PRIORITY.

#[global] Hint Unfold RDQ_SYS_PRIORITY RDQ_USER_PRIORITY RDQ_USER_RR_PRIORITY RDQ_PRIORITY_MAX : kern.
Ltac prio_lia := autounfold with kern in *; lia.

Section rdq.
Context {X : Type}.

(** [CONTAINER_OF(p, thread_t, link)] *)
Definition thread_of_link (l : loc) : K X ptr :=
  match l with ThrLink t => mret t | _ => stopM Fault end.

(** kern/thread.c *)
Definition thr_unlink_thread (thr : ptr) : K X unit :=
  psw ← psw_disable_and_save_interrupt;
  lk_upd (fun m => list_del m (ThrLink thr));;
  psw_restore_interrupt psw.

Definition rdq_add_thread (thr : ptr) : K X unit :=
  psw ← psw_disable_and_save_interrupt;
  th ← thr_get thr;
  let p := prio (attr th) in
  lk_upd (fun m => list_add m (RdqHead p) (ThrLink thr));;
  s ← get; put (with_bitmap s (Z.lor (bitmap s) (Z.shiftl 1 p)));;
  psw_restore_interrupt psw.

Definition rdq_remove_thread (thr : ptr) : K X unit :=
  psw ← psw_disable_and_save_interrupt;
  thr_unlink_thread thr;;
  th ← thr_get thr;
  let p := prio (attr th) in
  e ← lk_rd (fun m => list_is_empty m (RdqHead p));
  when e (s ← get; put (with_bitmap s (Z.land (bitmap s) (Z.lnot (Z.shiftl 1 p)))));;
  psw_restore_interrupt psw.

Definition rdq_rotate_queue : K X unit :=
  psw ← psw_disable_and_save_interrupt;
  lk_upd (fun m => list_rotate m (RdqHead RDQ_USER_RR_PRIORITY));;
  psw_restore_interrupt psw.

(** [idx] is not initialised before the call of [find_msr_bit]. *)
Definition rdq_find_runnable_thread : K X ptr :=
  psw ← psw_disable_and_save_interrupt;
  s ← get;
  let '(rc, idx) := find_msr_bit (bitmap s) 0 in
  thr ← (if negb (rc =? 0) then mret NULL
         else e ← lk_rd (fun m => list_is_empty m (RdqHead idx));
              kassert (negb e);;
              l ← lk_rd (fun m => list_ref_top m (RdqHead idx));
              thread_of_link l);
  psw_restore_interrupt psw;;
  mret thr.

Definition rdq_init_ready_queue : K X unit :=
  s ← get; put (with_bitmap s 0);;
  forM (seqZ 0 RDQ_PRIORITY_MAX) (fun i => lk_upd (fun m => init_list_head m (RdqHead i))).

(** ** Abstract queues *)

Implicit Types (s : kst X) (q : Z -> list ptr) (t : ptr).

Definition rdq_upd q (p : Z) (l : list ptr) : Z -> list ptr :=
  fun p' => if decide (p' = p) then l else q p'.

(** Priorities from the highest to the lowest, and the thread to run. *)
Definition prios_desc : list Z := reverse (seqZ 0 RDQ_PRIORITY_MAX).
Definition rdq_top q : option ptr := head (concat (q <$> prios_desc)).

Record rdq_inv s q : Prop := RdqInv {
  rq_ring : forall p, 0 <= p < RDQ_PRIORITY_MAX -> is_ring (links s) (RdqHead p) (ThrLink <$> q p);
  rq_bit : forall p, 0 <= p < RDQ_PRIORITY_MAX -> Z.testbit (bitmap s) p = bool_decide (q p <> []);
  rq_range : 0 <= bitmap s < 2 ^ 16;
  rq_prio : forall p t, 0 <= p < RDQ_PRIORITY_MAX -> t ∈ q p ->
    exists th, threads s !! t = Some th /\ prio (attr th) = p
}.

(** ** Lemmas on the representation *)

Lemma elem_of_thr_links t (l : list ptr) : ThrLink t ∈ ThrLink <$> l <-> t ∈ l.
Proof.
  rewrite list_elem_of_fmap. split; [|by exists t]. by intros (t' & [= ->] & ?).
Qed.

Lemma rdq_ring_other s q p p' x t :
  rdq_inv s q -> 0 <= p < RDQ_PRIORITY_MAX -> 0 <= p' < RDQ_PRIORITY_MAX -> p <> p' ->
  x ∈ RdqHead p' :: (ThrLink <$> q p') ->
  x ∉ RdqHead p :: (ThrLink <$> q p).
Proof.
  intros HI Hp Hp' Hne Hx Hx'.
  apply elem_of_cons in Hx as [->|(t1 & -> & Ht1)%list_elem_of_fmap].
  - apply elem_of_cons in Hx' as [[=]|(? & [=] & _)%list_elem_of_fmap]. done.
  - apply elem_of_cons in Hx' as [[=]|Hx']. apply elem_of_thr_links in Hx'.
    destruct (rq_prio _ _ HI p t1) as (? & ? & ?), (rq_prio _ _ HI p' t1) as (? & ? & ?); naive_solver.
Qed.

Lemma rdq_upd_eq q p l : rdq_upd q p l p = l.
Proof. unfold rdq_upd. by rewrite decide_True. Qed.

Lemma rdq_upd_ne q p l p' : p' <> p -> rdq_upd q p l p' = q p'.
Proof. intros. unfold rdq_upd. by rewrite decide_False. Qed.

Lemma bit_set_bound b p : 0 <= b < 2 ^ 16 -> 0 <= p < 16 -> 0 <= Z.lor b (Z.shiftl 1 p) < 2 ^ 16.
Proof.
  intros Hb Hp. rewrite Z.shiftl_1_l.
  assert (0 <= 2 ^ p < 2 ^ 16) by (split; [lia|apply Z.pow_lt_mono_r; lia]).
  split; [apply Z.lor_nonneg; lia|].
  destruct (decide (Z.lor b (2 ^ p) = 0)) as [->|]; [lia|].
  apply Z.log2_lt_cancel. rewrite Z.log2_lor, Z.log2_pow2 by lia.
  apply Z.max_lub_lt; [|by rewrite Z.log2_pow2; lia].
  destruct (decide (b = 0)) as [->|]; [done|]. rewrite Z.log2_pow2 by lia. apply Z.log2_lt_pow2; lia.
Qed.

Lemma bit_clear_bound b p : 0 <= b < 2 ^ 16 -> 0 <= Z.land b (Z.lnot (Z.shiftl 1 p)) < 2 ^ 16.
Proof.
  intros Hb. rewrite <-Z.ldiff_land. set (c := Z.shiftl 1 p).
  assert (0 <= Z.ldiff b c <= b); [|lia].
  apply Z.ldiff_le; [lia|]. apply Z.bits_inj'. intros i Hi. rewrite !Z.ldiff_spec, Z.bits_0.
  by destruct (Z.testbit b i), (Z.testbit c i).
Qed.

Lemma testbit_one_shift p p' : 0 <= p' -> Z.testbit (Z.shiftl 1 p) p' = bool_decide (p = p').
Proof.
  intros Hp'. rewrite Z.shiftl_spec by done. case_bool_decide as E.
  - subst. by rewrite Z.sub_diag.
  - destruct (decide (p' < p)); [by rewrite Z.testbit_neg_r by lia|].
    change 1 with (2 ^ 0). apply Z.pow2_bits_false. lia.
Qed.

(** The bitmap is zero exactly when every queue is empty, and its highest bit
    is the highest non empty priority. *)
Lemma prios_desc_split p :
  0 <= p < RDQ_PRIORITY_MAX ->
  exists hi lo, prios_desc = hi ++ p :: lo /\ (forall p', p' ∈ hi -> p < p' < RDQ_PRIORITY_MAX).
Proof.
  intros Hp. exists (reverse (seqZ (p + 1) (RDQ_PRIORITY_MAX - p - 1))), (reverse (seqZ 0 p)). split.
  - unfold prios_desc. rewrite (cons_middle p), app_assoc, <-reverse_cons, <-reverse_app. f_equal.
    replace (p :: seqZ (p + 1) (RDQ_PRIORITY_MAX - p - 1)) with (seqZ p (RDQ_PRIORITY_MAX - p)).
    + replace RDQ_PRIORITY_MAX with (p + (RDQ_PRIORITY_MAX - p)) at 1 by lia.
      rewrite (seqZ_app 0 p) by lia. f_equal.
    + rewrite seqZ_cons by lia. done.
  - intros p' Hp'. rewrite elem_of_reverse, elem_of_seqZ in Hp'. lia.
Qed.

Lemma concat_empty {A} (f : Z -> list A) (l : list Z) :
  (forall p, p ∈ l -> f p = []) -> concat (f <$> l) = [].
Proof.
  induction l as [|p l IH]; intros Hf; simpl; [done|]. rewrite Hf by set_solver. apply IH. set_solver.
Qed.

Lemma rdq_top_some q p t l :
  0 <= p < RDQ_PRIORITY_MAX -> q p = t :: l ->
  (forall p', p < p' < RDQ_PRIORITY_MAX -> q p' = []) -> rdq_top q = Some t.
Proof.
  intros Hp Hq Hhi. destruct (prios_desc_split p Hp) as (hi & lo & E & Hin).
  unfold rdq_top. rewrite E, fmap_app, concat_app, (concat_empty q hi); [by simpl; rewrite Hq|].
  intros p' ?%Hin. by apply Hhi.
Qed.

Lemma rdq_top_none q : (forall p, 0 <= p < RDQ_PRIORITY_MAX -> q p = []) -> rdq_top q = None.
Proof.
  intros Hq. unfold rdq_top. rewrite concat_empty; [done|]. intros p Hp.
  unfold prios_desc in Hp. rewrite elem_of_reverse, elem_of_seqZ in Hp. apply Hq. lia.
Qed.

(** ** The operations *)

Lemma rdq_add_thread_spec s q t th :
  let p := prio (attr th) in
  rdq_inv s q -> threads s !! t = Some th -> 0 <= p < RDQ_PRIORITY_MAX ->
  t ∉ q p -> is_Some (links s !! ThrLink t) ->
  exists m b, rdq_add_thread t s = Ret tt (with_bitmap (with_links s m) b) /\
    rdq_inv (with_bitmap (with_links s m) b) (rdq_upd q p (q p ++ [t])) /\
    frame (links s) m (ThrLink t :: RdqHead p :: (ThrLink <$> q p)).
Proof.
  intros p HI Ht Hp Hq Hl.
  destruct (list_add_ring (links s) (RdqHead p) (ThrLink <$> q p) (ThrLink t))
    as (m & Em & R & F); [by apply HI| |done|].
  { intros [[=]|?%elem_of_thr_links]%elem_of_cons. done. }
  exists m, (Z.lor (bitmap s) (Z.shiftl 1 p)). split_and!; [|split|done].
  - unfold rdq_add_thread, psw_disable_and_save_interrupt, psw_restore_interrupt, thr_get, lk_upd.
    mred. cbn. rewrite Ht. mred. cbn. fold p. rewrite Em. mred. cbn. by destruct s.
  - cbn. intros p' Hp'. destruct (decide (p' = p)) as [->|Hne].
    + rewrite rdq_upd_eq. by rewrite fmap_app.
    + rewrite rdq_upd_ne by done. eapply is_ring_frame; [done| |by apply HI].
      intros y Hy [->|Hy']%elem_of_cons.
      * apply elem_of_cons in Hy as [[=]|Hy]. apply elem_of_thr_links in Hy.
        destruct (rq_prio _ _ HI p' t) as (? & ? & ?); naive_solver.
      * by eapply (rdq_ring_other s q p p').
  - cbn. intros p' Hp'. rewrite Z.lor_spec, testbit_one_shift, (rq_bit _ _ HI) by lia.
    destruct (decide (p' = p)) as [->|Hne].
    + rewrite rdq_upd_eq, (bool_decide_true (p = p)), orb_true_r by done. symmetry.
      apply bool_decide_true. by destruct (q p).
    + by rewrite rdq_upd_ne, (bool_decide_false (p = p')), orb_false_r by congruence.
  - cbn. apply bit_set_bound; [apply HI|done].
  - cbn. intros p' t' Hp' Ht'. destruct (decide (p' = p)) as [->|Hne].
    + rewrite rdq_upd_eq in Ht'. apply elem_of_app in Ht' as [Ht'|Ht'].
      * by apply HI.
      * apply list_elem_of_singleton in Ht' as ->. by exists th.
    + rewrite rdq_upd_ne in Ht' by done. by apply HI.
Qed.

(** Removing a queued thread. *)
Lemma rdq_remove_thread_spec s q t th l1 l2 :
  let p := prio (attr th) in
  rdq_inv s q -> threads s !! t = Some th -> 0 <= p < RDQ_PRIORITY_MAX -> q p = l1 ++ t :: l2 ->
  exists m b, rdq_remove_thread t s = Ret tt (with_bitmap (with_links s m) b) /\
    rdq_inv (with_bitmap (with_links s m) b) (rdq_upd q p (l1 ++ l2)) /\
    is_ring m (ThrLink t) [] /\
    frame (links s) m (RdqHead p :: (ThrLink <$> q p)).
Proof.
  intros p HI Ht Hp Hq. pose proof (rq_ring _ _ HI p Hp) as HR.
  rewrite Hq, fmap_app in HR. cbn in HR.
  destruct (list_del_ring _ _ _ _ _ HR) as (m & Em & R & S & F).
  rewrite <-fmap_app in R.
  assert (frame (links s) m (RdqHead p :: (ThrLink <$> q p))) as F' by (by rewrite Hq, fmap_app).
  exists m, (if decide (l1 ++ l2 = []) then Z.land (bitmap s) (Z.lnot (Z.shiftl 1 p)) else bitmap s).
  split_and!; [|split|done..].
  - unfold rdq_remove_thread, thr_unlink_thread, psw_disable_and_save_interrupt,
      psw_restore_interrupt, thr_get, lk_upd, lk_rd.
    mred. cbn. rewrite Em. mred. cbn. rewrite Ht. mred. cbn. fold p.
    rewrite (list_is_empty_ring m (RdqHead p) (ThrLink <$> (l1 ++ l2))) by done. mred. cbn.
    case_decide as Hd.
    + rewrite Hd. cbn. by destruct s.
    + rewrite bool_decide_false by (by destruct (l1 ++ l2)). cbn. by destruct s.
  - cbn. intros p' Hp'. destruct (decide (p' = p)) as [->|Hne]; [by rewrite rdq_upd_eq|].
    rewrite rdq_upd_ne by done. eapply is_ring_frame; [done| |by apply HI].
    intros y Hy. by eapply (rdq_ring_other s q p p').
  - cbn. intros p' Hp'. destruct (decide (p' = p)) as [->|Hne].
    + rewrite rdq_upd_eq. case_decide as Hd.
      * rewrite Hd, Z.land_spec, Z.lnot_spec, testbit_one_shift by lia.
        by rewrite bool_decide_true, andb_false_r.
      * rewrite (rq_bit _ _ HI), Hq by done. rewrite !bool_decide_true; [done..|]. by destruct l1.
    + rewrite rdq_upd_ne by done. case_decide as Hd; [|by apply HI].
      rewrite Z.land_spec, Z.lnot_spec, testbit_one_shift, bool_decide_false by (try lia; congruence).
      rewrite andb_true_r. by apply HI.
  - cbn. case_decide; [apply bit_clear_bound|]; apply HI.
  - cbn. intros p' t' Hp' Ht'. destruct (decide (p' = p)) as [->|Hne].
    + rewrite rdq_upd_eq in Ht'. apply HI; [done|]. rewrite Hq. set_solver.
    + rewrite rdq_upd_ne in Ht' by done. by apply HI.
Qed.

(** Removing a thread that is in no queue changes nothing. *)
Lemma rdq_remove_thread_idle s q t th :
  rdq_inv s q -> threads s !! t = Some th -> 0 <= prio (attr th) < RDQ_PRIORITY_MAX ->
  is_ring (links s) (ThrLink t) [] -> rdq_remove_thread t s = Ret tt s.
Proof.
  intros HI Ht Hp HR. set (p := prio (attr th)) in *.
  unfold rdq_remove_thread, thr_unlink_thread, psw_disable_and_save_interrupt,
    psw_restore_interrupt, thr_get, lk_upd, lk_rd.
  mred. cbn. rewrite list_del_self by done. mred. cbn. rewrite Ht. mred. cbn. fold p.
  rewrite (list_is_empty_ring (links s) (RdqHead p) (ThrLink <$> q p)) by (by apply HI). mred. cbn.
  destruct (decide (q p = [])) as [E|E].
  - rewrite E. cbn.
    replace (Z.land (bitmap s) (Z.lnot (Z.shiftl 1 p))) with (bitmap s); [by destruct s|].
    apply Z.bits_inj'. intros i Hi. rewrite Z.land_spec, Z.lnot_spec, testbit_one_shift by done.
    case_bool_decide as Ei; [|by rewrite andb_true_r]. subst i.
    rewrite (rq_bit _ _ HI), E, bool_decide_false by (try done; naive_solver). done.
  - rewrite bool_decide_false by (by destruct (q p)). cbn. by destruct s.
Qed.

Lemma rdq_rotate_queue_spec s q :
  let p := RDQ_USER_RR_PRIORITY in
  rdq_inv s q ->
  exists m, rdq_rotate_queue s = Ret tt (with_links s m) /\
    rdq_inv (with_links s m)
      (rdq_upd q p match q p with [] => [] | t :: l => l ++ [t] end) /\
    frame (links s) m (RdqHead p :: (ThrLink <$> q p)).
Proof.
  intros p HI. assert (Hp : 0 <= p < RDQ_PRIORITY_MAX) by (unfold p; prio_lia).
  assert (exists m, list_rotate (links s) (RdqHead p) = Some m /\
    is_ring m (RdqHead p) (ThrLink <$> match q p with [] => [] | t :: l => l ++ [t] end) /\
    frame (links s) m (RdqHead p :: (ThrLink <$> q p))) as (m & Em & R & F).
  { pose proof (rq_ring _ _ HI p Hp) as HR. destruct (q p) as [|t l]; cbn in *.
    - exists (links s). rewrite list_rotate_empty by done. eauto using frame_refl.
    - destruct (list_rotate_ring _ _ _ _ HR) as (m & -> & R & F).
      exists m. rewrite fmap_app. eauto. }
  exists m. split_and!; [|split|done].
  - unfold rdq_rotate_queue, psw_disable_and_save_interrupt, psw_restore_interrupt, lk_upd.
    mred. cbn. fold p. rewrite Em. mred. cbn. by destruct s.
  - cbn. intros p' Hp'. destruct (decide (p' = p)) as [->|Hne]; [by rewrite rdq_upd_eq|].
    rewrite rdq_upd_ne by done. eapply is_ring_frame; [done| |by apply HI].
    intros y Hy. by eapply (rdq_ring_other s q p p').
  - cbn. intros p' Hp'. rewrite (rq_bit _ _ HI) by done. apply bool_decide_ext.
    destruct (decide (p' = p)) as [->|Hne]; [rewrite rdq_upd_eq|by rewrite rdq_upd_ne].
    destruct (q p) as [|t l]; [done|]. by destruct l.
  - apply HI.
  - cbn. intros p' t' Hp' Ht'. apply HI; [done|]. destruct (decide (p' = p)) as [->|Hne].
    + rewrite rdq_upd_eq in Ht'. destruct (q p); set_solver.
    + by rewrite rdq_upd_ne in Ht'.
Qed.

Lemma rdq_find_runnable_thread_spec s q :
  rdq_inv s q -> rdq_find_runnable_thread s = Ret (default NULL (rdq_top q)) s.
Proof.
  intros HI. pose proof (rq_range _ _ HI) as Hb.
  unfold rdq_find_runnable_thread, psw_disable_and_save_interrupt, psw_restore_interrupt, lk_rd.
  mred. cbn [bitmap with_ie]. destruct (decide (bitmap s = 0)) as [Hz|Hnz].
  - rewrite Hz. cbn. rewrite rdq_top_none; [by destruct s|].
    intros p Hp. pose proof (rq_bit _ _ HI p Hp) as H. rewrite Hz, Z.bits_0 in H. symmetry in H.
    apply bool_decide_eq_false in H. by apply dec_stable.
  - rewrite find_msr_bit_pos by lia. set (p := Z.log2 (bitmap s)).
    assert (0 <= p < RDQ_PRIORITY_MAX) as Hp.
    { pose proof (Z.log2_nonneg (bitmap s)).
      assert (Z.log2 (bitmap s) < 16) by (apply Z.log2_lt_pow2; lia). unfold p; prio_lia. }
    pose proof (rq_bit _ _ HI p Hp) as Hbit. unfold p in Hbit at 1.
    rewrite Z.bit_log2 in Hbit by lia. symmetry in Hbit. apply bool_decide_eq_true in Hbit.
    destruct (q p) as [|t l] eqn:Eq; [done|].
    rewrite (rdq_top_some q p t l); [|done..|].
    + pose proof (rq_ring _ _ HI p Hp) as HR. rewrite Eq in HR.
      change (negb (0 =? 0)) with false. cbn [links with_ie].
      rewrite (list_is_empty_ring _ _ _ HR). mred. cbn [fmap list_fmap].
      rewrite bool_decide_false by done. cbn -[list_ref_top].
      rewrite (list_ref_top_ring _ _ _ HR). mred. cbn. by destruct s.
    + intros p' Hp'. assert (Z.testbit (bitmap s) p' = false) as Hf by (apply Z.bits_above_log2; lia).
      rewrite (rq_bit _ _ HI) in Hf by lia. apply bool_decide_eq_false in Hf. by apply dec_stable.
Qed.

Lemma init_heads_spec (ps : list Z) s :
  NoDup ps -> (forall p, p ∈ ps -> is_Some (links s !! RdqHead p)) ->
  exists m, forM ps (fun i => lk_upd (fun m => init_list_head m (RdqHead i))) s
              = Ret tt (with_links s m) /\
    (forall p, p ∈ ps -> is_ring m (RdqHead p) []) /\ frame (links s) m (RdqHead <$> ps).
Proof.
  revert s. induction ps as [|p ps IH]; intros s ND Hd; simpl.
  - exists (links s). split_and!; [by destruct s|set_solver|apply frame_refl].
  - apply NoDup_cons in ND as [Hp ND].
    destruct (init_list_head_ring (links s) (RdqHead p)) as (m1 & E1 & R1 & F1); [set_solver|].
    mred. rewrite (lk_upd_eq _ _ _ E1). mred.
    destruct (IH (with_links s m1)) as (m2 & E2 & R2 & F2); [done| |].
    { intros p' Hp'. cbn. apply F1. set_solver. }
    exists m2. rewrite E2. split_and!; [by destruct s| |].
    + intros p' [->|Hp']%elem_of_cons; [|by apply R2]. eapply is_ring_frame; [done| |done].
      intros y Hy%list_elem_of_singleton. subst y. intros (? & [= <-] & ?)%list_elem_of_fmap. done.
    + eapply frame_weaken; [|exact (frame_trans _ _ _ _ _ F1 F2)]. set_solver.
Qed.

(** ** The component as a whole *)

Inductive rdq_op : Type := RAdd (t : ptr) | RRemove (t : ptr) | RRotate | RFind.

Definition rdq_exec (o : rdq_op) : K X ptr :=
  match o with
  | RAdd t => rdq_add_thread t;; mret NULL
  | RRemove t => rdq_remove_thread t;; mret NULL
  | RRotate => rdq_rotate_queue;; mret NULL
  | RFind => rdq_find_runnable_thread
  end.

Fixpoint rdq_execs (os : list rdq_op) : K X (list ptr) :=
  match os with
  | [] => mret []
  | o :: os => r ← rdq_exec o; rs ← rdq_execs os; mret (r :: rs)
  end.

(** The specification: FIFO queues per priority, [prio_of] the priority of a
    thread.  Queueing a queued thread and dequeueing a stranger are undefined. *)
Definition rdq_spec (prio_of : ptr -> option Z) q (o : rdq_op) : option (ptr * (Z -> list ptr)) :=
  match o with
  | RAdd t =>
      p ← prio_of t;
      if decide (0 <= p < RDQ_PRIORITY_MAX /\ t ∉ q p)
      then Some (NULL, rdq_upd q p (q p ++ [t])) else None
  | RRemove t =>
      p ← prio_of t;
      if decide (0 <= p < RDQ_PRIORITY_MAX /\ t ∈ q p)
      then Some (NULL, rdq_upd q p (filter (.≠ t) (q p))) else None
  | RRotate =>
      Some (NULL, rdq_upd q RDQ_USER_RR_PRIORITY
        match q RDQ_USER_RR_PRIORITY with [] => [] | t :: l => l ++ [t] end)
  | RFind => Some (default NULL (rdq_top q), q)
  end.

Fixpoint rdq_specs (prio_of : ptr -> option Z) q (os : list rdq_op)
    : option (list ptr * (Z -> list ptr)) :=
  match os with
  | [] => Some ([], q)
  | o :: os =>
      '(r, q) ← rdq_spec prio_of q o; '(rs, q) ← rdq_specs prio_of q os; Some (r :: rs, q)
  end.

Definition prio_of (ths : gmap ptr thread_t) (t : ptr) : option Z :=
  (fun th => prio (attr th)) <$> ths !! t.

Lemma rdq_queue_nodup s q p : rdq_inv s q -> 0 <= p < RDQ_PRIORITY_MAX -> NoDup (q p).
Proof.
  intros HI Hp. destruct (rq_ring _ _ HI p Hp) as [ND _]. apply NoDup_cons in ND as [_ ND].
  by apply NoDup_fmap_1 in ND.
Qed.

Lemma rdq_exec_spec s q o r q' :
  rdq_inv s q -> (forall t, is_Some (threads s !! t) -> is_Some (links s !! ThrLink t)) ->
  rdq_spec (prio_of (threads s)) q o = Some (r, q') ->
  exists m b, rdq_exec o s = Ret r (with_bitmap (with_links s m) b) /\
    rdq_inv (with_bitmap (with_links s m) b) q' /\
    (forall t, is_Some (threads s !! t) -> is_Some (m !! ThrLink t)).
Proof.
  intros HI Hd Hs. destruct o as [t|t| |]; simpl in Hs; unfold prio_of in Hs; simpl.
  - destruct (threads s !! t) as [th|] eqn:Et; simpl in Hs; [|done].
    case_decide as Hc; simplify_eq. destruct Hc as [Hp Hq].
    destruct (rdq_add_thread_spec s q t th) as (m & b & E & HI' & F); [by eauto..|].
    exists m, b. mred. rewrite E. split_and!; [done..|]. intros t' Ht'. apply F; auto.
  - destruct (threads s !! t) as [th|] eqn:Et; simpl in Hs; [|done].
    case_decide as Hc; simplify_eq. destruct Hc as [Hp Hq].
    pose proof (rdq_queue_nodup _ _ _ HI Hp) as ND.
    apply list_elem_of_split in Hq as (l1 & l2 & Hq).
    destruct (rdq_remove_thread_spec s q t th l1 l2) as (m & b & E & HI' & S & F); [by eauto..|].
    exists m, b. mred. rewrite E. rewrite Hq, filter_ne_split by (by rewrite <-Hq).
    split_and!; [done..|]. intros t' Ht'. apply F; auto.
  - injection Hs as <- <-. destruct (rdq_rotate_queue_spec s q HI) as (m & E & HI' & F).
    exists m, (bitmap s). mred. rewrite E. split_and!; [by destruct s|by destruct s|].
    intros t' Ht'. apply F; auto.
  - injection Hs as <- <-. exists (links s), (bitmap s). rewrite (rdq_find_runnable_thread_spec s q) by done.
    split_and!; [by destruct s|by destruct s|done].
Qed.

(** C2.  The ready queue is a bank of FIFO queues indexed by priority.  From
    any state in which the queues in memory and the bitmap represent [q],
    every sequence of additions, removals, rotations and searches returns what
    the same sequence returns on [q], never fails an assertion, leaves the
    interrupt flag as it was, and ends in a state that represents the result. *)
Theorem rdq_refinement s q os rs q' :
  rdq_inv s q -> (forall t, is_Some (threads s !! t) -> is_Some (links s !! ThrLink t)) ->
  rdq_specs (prio_of (threads s)) q os = Some (rs, q') ->
  exists s', rdq_execs os s = Ret rs s' /\ rdq_inv s' q' /\ ie s' = ie s /\
    threads s' = threads s.
Proof.
  revert s q rs. induction os as [|o os IH]; intros s q rs HI Hd Hs; simpl in *.
  - simplify_eq. by exists s.
  - destruct (rdq_spec (prio_of (threads s)) q o) as [[r q1]|] eqn:E1; simpl in Hs; [|done].
    destruct (rdq_specs (prio_of (threads s)) q1 os) as [[rs' q2]|] eqn:E2; simplify_eq/=.
    destruct (rdq_exec_spec s q o r q1) as (m & b & E & HI' & Hd'); [done..|].
    mred. rewrite E. mred.
    destruct (IH (with_bitmap (with_links s m) b) q1 rs') as (s' & -> & HI2 & Hie & Hth); [done..|].
    by exists s'.
Qed.

(** Scheduling policy: the search returns the oldest thread of the highest
    non empty priority, [NULL] when no thread is ready, and changes nothing. *)
Theorem rdq_find_highest s q :
  rdq_inv s q ->
  ((forall p, 0 <= p < RDQ_PRIORITY_MAX -> q p = []) -> rdq_find_runnable_thread s = Ret NULL s) /\
  (forall p t l, 0 <= p < RDQ_PRIORITY_MAX -> q p = t :: l ->
     (forall p', p < p' < RDQ_PRIORITY_MAX -> q p' = []) ->
     rdq_find_runnable_thread s = Ret t s).
Proof.
  intros HI. rewrite (rdq_find_runnable_thread_spec s q HI). split.
  - intros He. by rewrite rdq_top_none.
  - intros p t l Hp Hq Hhi. by rewrite (rdq_top_some q p t l).
Qed.

(** Initialisation makes every queue empty and the bitmap 0, whatever the
    heads held before. *)
Theorem rdq_init_establishes s :
  (forall p, 0 <= p < RDQ_PRIORITY_MAX -> is_Some (links s !! RdqHead p)) ->
  exists s', rdq_init_ready_queue s = Ret tt s' /\ rdq_inv s' (fun _ => []) /\
    threads s' = threads s.
Proof.
  intros Hd. unfold rdq_init_ready_queue. mred.
  destruct (init_heads_spec (seqZ 0 RDQ_PRIORITY_MAX) (with_bitmap s 0)) as (m & -> & R & F).
  - apply NoDup_seqZ.
  - intros p Hp%elem_of_seqZ_iff. by apply Hd.
  - eexists. split; [done|]. split; [|done]. split; cbn.
    + intros p Hp. apply R. by apply elem_of_seqZ_iff.
    + intros p Hp. by rewrite Z.bits_0.
    + lia.
    + set_solver.
Qed.
End rdq.

(** A kernel with two round robin threads at 100 and 101 and one thread of
    priority 2 at 102, none of them ready. *)
Definition demo_thread (p : Z) : thread_t := Thread 0 p 0 0 (ThreadAttr 0 0 0 p) 10 [].
Definition demo_links : gmap loc (node loc) :=
  list_to_map ((fun l => (l, Node l l)) <$>
    ((RdqHead <$> seqZ 0 RDQ_PRIORITY_MAX) ++ [ThrLink 100; ThrLink 101; ThrLink 102])).
Definition demo_state : kst unit :=
  Kst demo_links true (<[100 := demo_thread 0]> (<[101 := demo_thread 0]> {[102 := demo_thread 2]}))
    ∅ 100 0 ∅ ∅ ∅ 0 ∅ ∅ ∅ ∅ [] 0 tt.

Lemma demo_heads (P : Z -> Prop) :
  Forall P (seqZ 0 RDQ_PRIORITY_MAX) -> forall p, 0 <= p < RDQ_PRIORITY_MAX -> P p.
Proof. rewrite Forall_forall. intros HP p Hp. apply HP. by apply elem_of_seqZ_iff. Qed.

Lemma demo_rdq_inv : rdq_inv demo_state (fun _ => []).
Proof.
  split.
  - apply demo_heads. repeat (constructor; [by apply lk_self_ring|]). constructor.
  - intros p Hp. by rewrite Z.bits_0.
  - cbn. lia.
  - intros p t Hp Ht. by apply elem_of_nil in Ht.
Qed.

Lemma rdq_refinement_witness :
  exists s', rdq_execs [RAdd 100; RAdd 101; RFind; RAdd 102; RFind; RRemove 102; RRotate; RFind]
               demo_state = Ret [0; 0; 100; 0; 102; 0; 0; 101] s' /\ ie s' = true.
Proof.
  destruct (rdq_refinement demo_state (fun _ => [])
    [RAdd 100; RAdd 101; RFind; RAdd 102; RFind; RRemove 102; RRotate; RFind]
    [0; 0; 100; 0; 102; 0; 0; 101]
    (rdq_upd (rdq_upd (rdq_upd (rdq_upd (rdq_upd (fun _ => []) 0 [100]) 0 [100; 101]) 2 [102]) 2 [])
       0 [101; 100])) as (s' & E & HI & Hie & _).
  - apply demo_rdq_inv.
  - intros t [th Ht]. cbn [threads demo_state] in Ht.
    repeat (apply lookup_insert_Some in Ht as [[<- _]|[_ Ht]]; [by eexists|]).
    apply lookup_singleton_Some in Ht as [<- _]. by eexists.
  - reflexivity.
  - exists s'. by rewrite Hie.
Defined.

Lemma rdq_find_highest_witness : rdq_find_runnable_thread demo_state = Ret NULL demo_state.
Proof.
  apply (rdq_find_highest demo_state (fun _ => [])); [apply demo_rdq_inv|done].
Defined.

Lemma rdq_init_establishes_witness :
  exists s', rdq_init_ready_queue (with_bitmap demo_state 5) = Ret tt s' /\ rdq_inv s' (fun _ => []).
Proof.
  destruct (rdq_init_establishes (with_bitmap demo_state 5)) as (s' & E & HI & _).
  - apply demo_heads. repeat (constructor; [by eexists|]). constructor.
  - by exists s'.
Defined.
