(* ===== verification/Sched.v ===== *)
(** kern/sched.c, kern/idle.c and the context switch of kern/thread.c.

    [thr_thread_switch] is the point where the processor goes to another
    thread: it suspends the caller ([Switch]) after [current] has been set to
    the thread chosen.  hal_do_context_switch (include/hal-x64/ctxsw.h) saves
    the flags register on the stack of the thread it leaves and restores it
    when it comes back, so the interrupt flag of the caller survives the
    switch; the stack pointers themselves are not modelled. *)
From S2P Require Import Prelude Bitops KList Kernel ThreadInfo ReadyQueue.

(** [&idle_thread] (kern/idle.c). *)
Definition idle_thread : ptr := 1.
Definition idle_refer_idle_thread : ptr := idle_thread.

Section sched.
Context {X : Type}.

Definition hal_do_context_switch : K X unit :=
  fun s => Switch s (fun s' => Ret tt (with_ie s' (ie s))).

Definition thr_thread_switch (prev next : ptr) : K X unit :=
  thr_get prev;; thr_get next;; hal_do_context_switch.

Definition select_next_thread : K X ptr :=
  psw ← psw_disable_and_save_interrupt;
  next ← rdq_find_runnable_thread;
  let next := if next =? NULL then idle_refer_idle_thread else next in
  psw_restore_interrupt psw;;
  mret next.

Definition sched_set_ready (thr : ptr) : K X unit :=
  psw ← psw_disable_and_save_interrupt;
  rdq_add_thread thr;;
  psw_restore_interrupt psw.

Definition sched_rotate_queue : K X unit :=
  psw ← psw_disable_and_save_interrupt;
  rdq_rotate_queue;;
  psw_restore_interrupt psw.

(** [( ti_refer_preempt_count(ti) > 0 ) || ( ti_refer_irq_count(ti) > 0 )] *)
Definition dispatch_inhibited (ti : ptr) : K X bool :=
  pc ← ti_refer_preempt_count ti;
  if 0 <? pc then mret true else ic ← ti_refer_irq_count ti; mret (0 <? ic).

Definition sched_schedule : K X unit :=
  psw ← psw_disable_and_save_interrupt;
  ti ← get_current_thread_info;
  ti_modify ti ti_set_preempt_active;;
  inhibited ← dispatch_inhibited ti;
  (if (inhibited : bool) then ti_modify ti ti_set_delay_dispatch
   else
     s ← get; let prev := current s in
     next ← select_next_thread;
     if prev =? next then mret tt
     else
       s ← get; put (with_current s next);;
       thr_thread_switch prev next;;
       s ← get; set_status (current s) THR_TSTATE_RUN);;
  psw_restore_interrupt psw;;
  ti_modify ti ti_clr_preempt_active.

Definition sched_delay_disptach : K X unit :=
  ti ← get_current_thread_info;
  inhibited ← dispatch_inhibited ti;
  if (inhibited : bool) then mret tt
  else
    v ← ti_get ti;
    if ctrue (ti_check_preempt_active v) then mret tt
    else if negb (ctrue (ti_check_need_dispatch v)) then mret tt
    else
      ti_modify ti ti_clr_delay_dispatch;;
      sched_schedule.

Definition sched_init : K X unit := rdq_init_ready_queue.

(** kern/idle.c: [idle_init_idle]. *)
Definition idle_init_idle : K X unit :=
  th ← thr_get idle_thread;
  thr_put idle_thread (Thread (status th) 0 (tinfo th) (exit_code th) (attr th) 0 (fds th)).

(** ** Equations *)

Implicit Types (s : kst X) (q : Z -> list ptr).

(** Whether dispatching is inhibited, as a function of the word. *)
Definition inhibited (p : Z) : bool :=
  (0 <? pre_count p THR_PRECNT_SHIFT) || (0 <? pre_count p THR_IRQCNT_SHIFT).

(** The thread the scheduler chooses. *)
Definition sched_next q : ptr :=
  if default NULL (rdq_top q) =? NULL then idle_thread else default NULL (rdq_top q).

Lemma dispatch_inhibited_eq s p v :
  tinfos s !! p = Some v -> dispatch_inhibited p s = Ret (inhibited (preempt v)) s.
Proof.
  intros E. unfold dispatch_inhibited, inhibited, ti_refer_preempt_count, ti_refer_irq_count. mred.
  rewrite (ti_refer_pre_count_eq _ _ v) by done. mred. destruct (0 <? _); [done|]. mred.
  by rewrite (ti_refer_pre_count_eq _ _ v).
Qed.

Lemma inhibited_set_active p :
  inhibited (Z.lor p THR_PRMPT_CTRL_PREEMPT_ACTIVE) = inhibited p.
Proof.
  unfold inhibited, THR_PRMPT_CTRL_PREEMPT_ACTIVE.
  by rewrite !pre_count_lor_flag by (unfold THR_PRECNT_SHIFT, THR_IRQCNT_SHIFT; lia).
Qed.

Lemma rdq_inv_ext s s' q :
  links s' = links s -> bitmap s' = bitmap s ->
  (forall t th, threads s !! t = Some th ->
     exists th', threads s' !! t = Some th' /\ prio (attr th') = prio (attr th)) ->
  rdq_inv s q -> rdq_inv s' q.
Proof.
  intros El Eb Ht [R B G P]. split; rewrite ?El, ?Eb; [done..|].
  intros p t Hp Hq. destruct (P p t Hp Hq) as (th & Hth & Hpr).
  destruct (Ht t th Hth) as (th' & ? & ?). exists th'. by split; [|congruence].
Qed.

Lemma select_next_thread_eq s q : rdq_inv s q -> select_next_thread s = Ret (sched_next q) s.
Proof.
  intros HI. unfold select_next_thread, psw_disable_and_save_interrupt, psw_restore_interrupt. mred.
  rewrite (rdq_find_runnable_thread_spec _ q).
  - mred. unfold sched_next, idle_refer_idle_thread. by destruct s, (_ =? _).
  - eapply rdq_inv_ext; [..|done]; eauto.
Qed.

Lemma sched_set_ready_eq s t s' :
  rdq_add_thread t (with_ie s false) = Ret tt s' ->
  sched_set_ready t s = Ret tt (with_ie s' (ie s)).
Proof.
  intros E. unfold sched_set_ready, psw_disable_and_save_interrupt, psw_restore_interrupt. mred.
  by rewrite E.
Qed.

Lemma sched_rotate_queue_spec s q :
  let p := RDQ_USER_RR_PRIORITY in
  rdq_inv s q ->
  exists m, sched_rotate_queue s = Ret tt (with_links s m) /\
    rdq_inv (with_links s m) (rdq_upd q p match q p with [] => [] | t :: l => l ++ [t] end) /\
    frame (links s) m (RdqHead p :: (ThrLink <$> q p)).
Proof.
  intros p HI. destruct (rdq_rotate_queue_spec (with_ie s false) q) as (m & E & HI' & F).
  { eapply rdq_inv_ext; [..|done]; eauto. }
  exists m. unfold sched_rotate_queue, psw_disable_and_save_interrupt, psw_restore_interrupt. mred.
  rewrite E. split_and!; [by destruct s| |done]. eapply rdq_inv_ext; [..|exact HI']; eauto.
Qed.

(** What is left of [sched_schedule] when the caller gets the processor back. *)
Definition sched_resume (psw : bool) (ti : ptr) : K X unit :=
  s ← get; set_status (current s) THR_TSTATE_RUN;;
  psw_restore_interrupt psw;;
  ti_modify ti ti_clr_preempt_active.

Lemma sched_resume_eq psw ti s th v :
  threads s !! current s = Some th -> tinfos s !! ti = Some v ->
  sched_resume psw ti s =
  Ret tt (with_tinfos (with_ie (with_threads s
    (<[current s := with_status th THR_TSTATE_RUN]> (threads s))) psw)
    (<[ti := ti_clr_preempt_active v]> (tinfos s))).
Proof.
  intros Et Ev. unfold sched_resume, psw_restore_interrupt. mred.
  rewrite (set_status_eq _ _ th) by done. mred. by rewrite (ti_modify_eq _ _ v).
Qed.

(** The word an inhibited dispatch leaves behind. *)
Lemma delayed_word v : 0 <= preempt v < 2 ^ 64 ->
  let v1 := ti_clr_preempt_active (ti_set_delay_dispatch (ti_set_preempt_active v)) in
  0 <= preempt v1 < 2 ^ 64 /\ (forall sh, 0 <= sh <= 16 -> pre_count (preempt v1) sh = pre_count (preempt v) sh) /\
  ti_check_need_dispatch v1 = 1.
Proof.
  intros Hr v1. split_and!.
  1, 2: cut (0 <= preempt v1 < 2 ^ 64); [lia|]; unfold v1; cbn; apply land64_range; [|apply not64_range];
    by repeat (apply lor64_range; [|by vm_compute]).
  - intros sh Hsh. unfold v1. cbn. unfold THR_PRMPT_CTRL_PREEMPT_ACTIVE, THR_PRMPT_CTRL_RESCHED_DELAYED.
    by rewrite pre_count_clr_flag, !pre_count_lor_flag.
  - unfold v1. by rewrite need_dispatch_clr_active, need_dispatch_set.
Qed.

Lemma sched_schedule_inhibited s th v :
  threads s !! current s = Some th -> tinfos s !! tinfo th = Some v -> inhibited (preempt v) = true ->
  sched_schedule s = Ret tt (with_tinfos s
    (<[tinfo th := ti_clr_preempt_active (ti_set_delay_dispatch (ti_set_preempt_active v))]> (tinfos s))).
Proof.
  intros Et Ev Hi. unfold sched_schedule, psw_disable_and_save_interrupt, psw_restore_interrupt. mred.
  rewrite (get_current_thread_info_eq _ th) by done. mred.
  rewrite (ti_modify_eq _ _ v) by done. mred.
  rewrite (dispatch_inhibited_eq _ _ (ti_set_preempt_active v)) by (cbn; by rewrite lookup_insert_eq).
  cbn [preempt ti_set_preempt_active with_preempt]. rewrite inhibited_set_active, Hi. mred.
  rewrite (ti_modify_eq _ _ (ti_set_preempt_active v)) by (cbn; by rewrite lookup_insert_eq). mred.
  rewrite (ti_modify_eq _ _ (ti_set_delay_dispatch (ti_set_preempt_active v)))
    by (cbn; by rewrite lookup_insert_eq).
  cbn. rewrite !insert_insert_eq. by destruct s.
Qed.

Lemma sched_schedule_dispatch s q th v :
  rdq_inv s q ->
  threads s !! current s = Some th -> tinfos s !! tinfo th = Some v -> inhibited (preempt v) = false ->
  (sched_next q <> current s -> is_Some (threads s !! sched_next q)) ->
  sched_schedule s =
  if decide (sched_next q = current s)
  then Ret tt (with_tinfos s
    (<[tinfo th := ti_clr_preempt_active (ti_set_preempt_active v)]> (tinfos s)))
  else Switch (with_current (with_tinfos (with_ie s false)
      (<[tinfo th := ti_set_preempt_active v]> (tinfos s))) (sched_next q))
    (fun s' => sched_resume (ie s) (tinfo th) (with_ie s' false)).
Proof.
  intros HI Et Ev Hi Hn. unfold sched_schedule, psw_disable_and_save_interrupt, psw_restore_interrupt.
  mred. rewrite (get_current_thread_info_eq _ th) by done. mred.
  rewrite (ti_modify_eq _ _ v) by done. mred.
  rewrite (dispatch_inhibited_eq _ _ (ti_set_preempt_active v)) by (cbn; by rewrite lookup_insert_eq).
  cbn [preempt ti_set_preempt_active with_preempt]. rewrite inhibited_set_active, Hi. mred.
  rewrite (select_next_thread_eq _ q) by (eapply rdq_inv_ext; [..|done]; eauto). mred.
  cbn [current with_tinfos with_ie]. case_decide as Hd.
  - rewrite Hd, Z.eqb_refl. mred.
    rewrite (ti_modify_eq _ _ (ti_set_preempt_active v)) by (cbn; by rewrite lookup_insert_eq).
    cbn. rewrite !insert_insert_eq. by destruct s.
  - rewrite (proj2 (Z.eqb_neq _ _)) by congruence. mred. unfold thr_thread_switch. mred.
    destruct (Hn Hd) as [nth Hnth].
    rewrite (thr_get_eq _ _ th) by done. mred. rewrite (thr_get_eq _ _ nth) by done. done.
Qed.

Lemma sched_delay_disptach_eq s th v :
  threads s !! current s = Some th -> tinfos s !! tinfo th = Some v ->
  sched_delay_disptach s =
  if inhibited (preempt v) then Ret tt s
  else if ti_check_need_dispatch v =? 0 then Ret tt s
  else sched_schedule (with_tinfos s (<[tinfo th := ti_clr_delay_dispatch v]> (tinfos s))).
Proof.
  intros Et Ev. unfold sched_delay_disptach. mred.
  rewrite (get_current_thread_info_eq _ th) by done. mred.
  rewrite (dispatch_inhibited_eq _ _ v) by done. mred. destruct (inhibited _); [done|].
  rewrite (ti_get_eq _ _ v) by done. mred.
  rewrite check_active_zero.
  unfold ctrue. cbn [negb Z.eqb]. rewrite negb_involutive. destruct (_ =? 0); [done|]. mred.
  by rewrite (ti_modify_eq _ _ v).
Qed.

(** ** Properties *)

(** C6.  [sched_schedule] on each of its branches.  With dispatching inhibited
    it switches to nobody and records the request.  Otherwise it keeps the
    running thread when it is the one the ready queue designates, and else
    hands the processor to that thread (the idle thread when none is ready)
    with interrupts disabled and the queues untouched; when the caller is
    resumed, in any consistent state, it marks itself running and returns with
    its interrupt flag restored. *)
Theorem sched_schedule_correct s q th v :
  rdq_inv s q -> threads s !! current s = Some th -> tinfos s !! tinfo th = Some v ->
  is_Some (threads s !! sched_next q) ->
  (inhibited (preempt v) = true ->
     exists s' v', sched_schedule s = Ret tt s' /\ current s' = current s /\ ie s' = ie s /\
       rdq_inv s' q /\ tinfos s' !! tinfo th = Some v' /\ ti_check_need_dispatch v' = 1) /\
  (inhibited (preempt v) = false -> sched_next q = current s ->
     exists s', sched_schedule s = Ret tt s' /\ current s' = current s /\ ie s' = ie s /\
       rdq_inv s' q /\ threads s' = threads s) /\
  (inhibited (preempt v) = false -> sched_next q <> current s ->
     exists s1 k, sched_schedule s = Switch s1 k /\ current s1 = sched_next q /\ ie s1 = false /\
       rdq_inv s1 q /\ threads s1 = threads s /\
       forall s' q' th' v', rdq_inv s' q' -> threads s' !! current s' = Some th' ->
         tinfos s' !! tinfo th = Some v' ->
         exists s'', k s' = Ret tt s'' /\ ie s'' = ie s /\ current s'' = current s' /\
           rdq_inv s'' q' /\ threads s'' !! current s' = Some (with_status th' THR_TSTATE_RUN)).
Proof.
  intros HI Et Ev Hn. split_and!.
  - intros Hi. rewrite (sched_schedule_inhibited _ th v) by done.
    eexists _, _. split_and!; [done..| | |].
    + eapply rdq_inv_ext; [..|done]; eauto.
    + cbn. by rewrite lookup_insert_eq.
    + by rewrite need_dispatch_clr_active, need_dispatch_set.
  - intros Hi Hc. rewrite (sched_schedule_dispatch _ q th v), decide_True by done.
    eexists. split_and!; [done..| |done]. eapply rdq_inv_ext; [..|done]; eauto.
  - intros Hi Hc. rewrite (sched_schedule_dispatch _ q th v), decide_False by done.
    eexists _, _. split_and!; [done..| |done|].
    + eapply rdq_inv_ext; [..|done]; eauto.
    + intros s' q' th' v' HI' Et' Ev'. cbv beta. rewrite (sched_resume_eq _ _ _ th' v') by done.
      eexists. split_and!; [done..| |].
      * eapply rdq_inv_ext; [..|done]; [done..|]. cbn. intros t th1 Ht1.
        destruct (decide (t = current s')) as [->|].
        -- rewrite lookup_insert_eq. simplify_eq. by eexists.
        -- rewrite lookup_insert_ne by done. eauto.
      * cbn. by rewrite lookup_insert_eq.
Qed.

(** A dispatch asked for inside an interrupt handler is not lost: the
    request is only recorded while the interrupt count is 1; when the handler's
    level is left and the delayed dispatch runs, the processor goes to the
    thread the ready queue designates. *)
Theorem delayed_dispatch_honoured s q th v :
  rdq_inv s q -> threads s !! current s = Some th -> tinfos s !! tinfo th = Some v ->
  0 <= preempt v < 2 ^ 64 ->
  pre_count (preempt v) THR_IRQCNT_SHIFT = 1 -> pre_count (preempt v) THR_PRECNT_SHIFT = 0 ->
  sched_next q <> current s -> is_Some (threads s !! sched_next q) ->
  exists s1 s2 s3 k,
    sched_schedule s = Ret tt s1 /\ current s1 = current s /\
    ti_update_preempt_count (tinfo th) THR_IRQCNT_SHIFT (-1) s1 = Ret tt s2 /\
    sched_delay_disptach s2 = Switch s3 k /\ current s3 = sched_next q /\ ie s3 = false.
Proof.
  intros HI Et Ev Hr Hirq Hpre Hn Hex.
  assert (inhibited (preempt v) = true) as Hi.
  { unfold inhibited. by rewrite Hirq, Hpre. }
  rewrite (sched_schedule_inhibited _ th v) by done.
  destruct (delayed_word v Hr) as (Hr1 & Hpc & Hnd).
  set (v1 := ti_clr_preempt_active (ti_set_delay_dispatch (ti_set_preempt_active v))) in *.
  set (s1 := with_tinfos s (<[tinfo th := v1]> (tinfos s))).
  set (v2 := with_preempt v1 (preempt_update (preempt v1) THR_IRQCNT_SHIFT (-1))).
  set (s2 := with_tinfos s1 (<[tinfo th := v2]> (tinfos s1))).
  assert (ti_update_preempt_count (tinfo th) THR_IRQCNT_SHIFT (-1) s1 = Ret tt s2) as E2.
  { unfold ti_update_preempt_count, psw_disable_and_save_interrupt, psw_restore_interrupt. mred.
    rewrite (ti_modify_eq _ _ v1) by (cbn; by rewrite lookup_insert_eq). done. }
  assert (inhibited (preempt v2) = false) as Hi2.
  { unfold inhibited, v2. cbn [preempt with_preempt].
    rewrite preempt_update_count, preempt_update_count_other, !Hpc
      by (done || unfold THR_PRECNT_SHIFT, THR_IRQCNT_SHIFT; lia).
    by rewrite Hirq, Hpre. }
  set (v3 := ti_clr_delay_dispatch v2).
  set (s2' := with_tinfos s2 (<[tinfo th := v3]> (tinfos s2))).
  assert (sched_delay_disptach s2 = sched_schedule s2') as E3.
  { rewrite (sched_delay_disptach_eq _ th v2) by (done || cbn; by rewrite lookup_insert_eq).
    rewrite Hi2. unfold v2. rewrite need_dispatch_update by (done || unfold THR_IRQCNT_SHIFT; lia).
    by rewrite Hnd. }
  assert (inhibited (preempt v3) = false) as Hi3.
  { rewrite <-Hi2. unfold inhibited, v3. cbn. unfold THR_PRMPT_CTRL_RESCHED_DELAYED.
    by rewrite !pre_count_clr_flag by (unfold THR_PRECNT_SHIFT, THR_IRQCNT_SHIFT; lia). }
  eexists s1, s2, _, _. split; [done|]. split; [done|]. split; [done|].
  rewrite E3, (sched_schedule_dispatch s2' q th v3).
  - rewrite decide_False by done. done.
  - eapply rdq_inv_ext; [..|done]; eauto.
  - done.
  - cbn. by rewrite lookup_insert_eq.
  - done.
  - done.
Qed.
End sched.

(** A kernel whose running thread, at 100, is inside one interrupt handler and
    whose ready queue is empty. *)
Definition demo_sched (word : Z) : kst unit :=
  Kst demo_links true
    (<[idle_thread := Thread 0 0 0x1000 0 (ThreadAttr 0 0 0 0) 0 []]>
      {[100 := Thread 1 1 0x2000 0 (ThreadAttr 0 0 0 2) 10 []]})
    (<[0x1000 := ThreadInfo 0 1 THR_THREAD_INFO_MAGIC]>
      {[0x2000 := ThreadInfo word 100 THR_THREAD_INFO_MAGIC]})
    100 0 ∅ ∅ ∅ 0 ∅ ∅ ∅ ∅ [] 0 tt.

Lemma demo_sched_inv w : rdq_inv (demo_sched w) (fun _ => []).
Proof.
  destruct demo_rdq_inv as [R B G P]. split; [done..|]. intros p t _ Ht. by apply elem_of_nil in Ht.
Qed.

Lemma sched_schedule_correct_witness :
  exists s1 k, sched_schedule (demo_sched 0) = Switch s1 k /\ current s1 = idle_thread /\
    exists s2, k (with_current s1 100) = Ret tt s2 /\ ie s2 = true.
Proof.
  destruct (sched_schedule_correct (demo_sched 0) (fun _ => [])
    (Thread 1 1 0x2000 0 (ThreadAttr 0 0 0 2) 10 []) (ThreadInfo 0 100 THR_THREAD_INFO_MAGIC))
    as (_ & _ & H); [apply demo_sched_inv|done|done|by eexists|].
  destruct H as (s1 & k & E & Hc & Hie & HI & Ht & Hk); [done|done|].
  exists s1, k. split; [done|]. split; [done|].
  assert (tinfos s1 !! 0x2000 =
    Some (ti_set_preempt_active (ThreadInfo 0 100 THR_THREAD_INFO_MAGIC))) as Ev.
  { by injection E as <- _. }
  destruct (Hk (with_current s1 100) (fun _ => []) (Thread 1 1 0x2000 0 (ThreadAttr 0 0 0 2) 10 [])
    (ti_set_preempt_active (ThreadInfo 0 100 THR_THREAD_INFO_MAGIC))) as (s2 & E2 & Hie2 & _).
  - eapply rdq_inv_ext; [..|exact HI]; eauto.
  - cbn [threads current with_current]. by rewrite Ht.
  - exact Ev.
  - by exists s2.
Defined.

Lemma delayed_dispatch_honoured_witness :
  exists s1 s2 s3 k,
    sched_schedule (demo_sched 0x100) = Ret tt s1 /\
    ti_update_preempt_count 0x2000 THR_IRQCNT_SHIFT (-1) s1 = Ret tt s2 /\
    sched_delay_disptach s2 = Switch s3 k /\ current s3 = idle_thread.
Proof.
  destruct (delayed_dispatch_honoured (demo_sched 0x100) (fun _ => [])
    (Thread 1 1 0x2000 0 (ThreadAttr 0 0 0 2) 10 []) (ThreadInfo 0x100 100 THR_THREAD_INFO_MAGIC))
    as (s1 & s2 & s3 & k & E1 & _ & E2 & E3 & Hc & _);
    [apply demo_sched_inv|done|done|done|done|done|done|by eexists|].
  by exists s1, s2, s3, k.
Defined.
