(* ===== verification/WaitQueue.v ===== *)
(** kern/wqueue.c: wait queues.

    The queue of [wq] is the ring at [WqHead wq].  A waiting thread lends the
    queue an entry that lives on its own stack: [wque_entry] allocates it,
    [wque_entry_end] is the end of its lifetime.  [wque_wakeup] empties the
    queue; its loop is bounded by the number of live entries, which is shown to
    be enough. *)
From S2P Require Import Prelude Bitops KList Kernel ThreadInfo ReadyQueue Sched.

Section wqueue.
Context {X : Type}.

(** [CONTAINER_OF(p, wait_queue_entry, link)] *)
Definition wqe_of_link (l : loc) : K X ptr :=
  match l with WqeLink e => mret e | _ => stopM Fault end.

(** [ep->thr], read and written. *)
Definition wqe_get (ep : ptr) : K X ptr := s ← get; deref (wqe_thr s !! ep).
Definition wqe_put (ep thr : ptr) : K X unit :=
  s ← get; _ ← deref (wqe_thr s !! ep); put (with_wqe_thr s (<[ep := thr]> (wqe_thr s))).

(** [wait_queue_entry ent, *ep = &ent;]: the members hold what the stack held. *)
Definition wque_entry : K X ptr :=
  ep ← new_local;
  s ← get; put (with_wqe_thr (with_links s (<[WqeLink ep := Node (WqeLink ep) (WqeLink ep)]> (links s)))
                  (<[ep := NULL]> (wqe_thr s)));;
  mret ep.
Definition wque_entry_end (ep : ptr) : K X unit :=
  s ← get; put (with_wqe_thr (with_links s (delete (WqeLink ep) (links s))) (delete ep (wqe_thr s))).

Definition wque_add_thread (wq : wqp) (ep thr : ptr) : K X unit :=
  psw ← psw_disable_and_save_interrupt;
  lk_upd (fun m => list_del m (ThrLink thr));;
  lk_upd (fun m => init_list_node m (WqeLink ep));;
  wqe_put ep thr;;
  lk_upd (fun m => list_add m (WqHead wq) (WqeLink ep));;
  psw_restore_interrupt psw.

Definition wque_remove_entry (wq : wqp) (ep : ptr) : K X unit :=
  psw ← psw_disable_and_save_interrupt;
  lk_upd (fun m => list_del m (WqeLink ep));;
  lk_upd (fun m => init_list_node m (WqeLink ep));;
  wqe_put ep NULL;;
  psw_restore_interrupt psw.

Definition set_wq_reason (wq : wqp) (reason : Z) : K X unit :=
  s ← get; put (with_wq_reason s (<[wq := reason]> (wq_reason s))).
Definition get_wq_reason (wq : wqp) : K X Z := s ← get; deref (wq_reason s !! wq).

Definition wque_init_wait_queue (wq : wqp) : K X unit :=
  psw ← psw_disable_and_save_interrupt;
  lk_upd (fun m => init_list_head m (WqHead wq));;
  set_wq_reason wq WQUE_REASON_WAKEUP;;
  psw_restore_interrupt psw.

(** The part of [wque_wait_on_queue] before it gives the processor up. *)
Definition wque_sleep (wq : wqp) : K X (bool * ptr) :=
  ep ← wque_entry;
  lk_upd (fun m => init_list_node m (WqeLink ep));;
  psw ← psw_disable_and_save_interrupt;
  s ← get; rdq_remove_thread (current s);;
  s ← get; wque_add_thread wq ep (current s);;
  t ← wqe_get ep; set_status t THR_TSTATE_WAIT;;
  mret (psw, ep).

Definition wque_wait_on_queue (wq : wqp) : K X Z :=
  pe ← wque_sleep wq; let '(psw, ep) := pe in
  sched_schedule;;
  wque_remove_entry wq ep;;
  reason ← get_wq_reason wq;
  psw_restore_interrupt psw;;
  wque_entry_end ep;;
  mret reason.

(** The body of the loop of [wque_wakeup]. *)
Definition wque_wakeup_one (wq : wqp) : K X unit :=
  l ← lk_fn (fun m => list_get_top m (WqHead wq));
  ep ← wqe_of_link l;
  lk_upd (fun m => list_del m (WqeLink ep));;
  lk_upd (fun m => init_list_node m (WqeLink ep));;
  t ← wqe_get ep; set_status t THR_TSTATE_RUN;;
  t ← wqe_get ep; sched_set_ready t;;
  wqe_put ep NULL.

Fixpoint wque_wakeup_loop (fuel : nat) (wq : wqp) : K X unit :=
  e ← lk_rd (fun m => list_is_empty m (WqHead wq));
  if (e : bool) then mret tt
  else match fuel with
       | O => stopM OutOfFuel
       | S fuel => wque_wakeup_one wq;; wque_wakeup_loop fuel wq
       end.

Definition wque_wakeup (wq : wqp) (reason : Z) : K X unit :=
  psw ← psw_disable_and_save_interrupt;
  e ← lk_rd (fun m => list_is_empty m (WqHead wq));
  (if (e : bool) then mret tt
   else
     s ← get; wque_wakeup_loop (size (wqe_thr s)) wq;;
     set_wq_reason wq reason;;
     sched_schedule);;
  psw_restore_interrupt psw.

Definition is_wque_empty (wq : wqp) : K X bool :=
  psw ← psw_disable_and_save_interrupt;
  rc ← lk_rd (fun m => list_is_empty m (WqHead wq));
  psw_restore_interrupt psw;;
  mret rc.

(** ** What a wait queue holds *)

Implicit Types (s : kst X) (q : Z -> list ptr) (wq : wqp).

(** The entries [es] of the queue, in order, and the threads [ts] they are
    for: sleeping, in no other list. *)
Record wait_inv s wq (es ts : list ptr) : Prop := WaitInv {
  wi_ring : is_ring (links s) (WqHead wq) (WqeLink <$> es);
  wi_thr : Forall2 (fun e t => wqe_thr s !! e = Some t) es ts;
  wi_nodup : NoDup ts;
  wi_sleep : forall t, t ∈ ts -> is_ring (links s) (ThrLink t) [] /\
    exists th, threads s !! t = Some th /\ status th = THR_TSTATE_WAIT /\
      0 <= prio (attr th) < RDQ_PRIORITY_MAX
}.

(** The priority of a thread object. *)
Definition prio_of s (t : ptr) : Z := default 0 ((fun th => prio (attr th)) <$> threads s !! t).

(** The ready queues after [ts] have been appended, each at its priority. *)
Definition rdq_enqueue s q (ts : list ptr) : Z -> list ptr :=
  fun p => q p ++ filter (fun t => prio_of s t = p) ts.

(** ** Waking up *)

Lemma ring_not_self (m : gmap loc (node loc)) h xs x :
  is_ring m h xs -> x ∈ xs -> is_ring m x [] -> False.
Proof.
  intros R Hx S. pose proof (list_is_linked_ring _ _ _ _ R Hx). by rewrite list_is_linked_self in *.
Qed.

Lemma lk_empty_eq s h xs :
  is_ring (links s) h xs ->
  lk_rd (fun m => list_is_empty m h) s = Ret (bool_decide (xs = [])) s.
Proof. intros R. apply lk_rd_eq. by apply list_is_empty_ring. Qed.

Lemma sleeping_not_ready s q t p :
  rdq_inv s q -> 0 <= p < RDQ_PRIORITY_MAX -> is_ring (links s) (ThrLink t) [] -> t ∉ q p.
Proof.
  intros HI Hp HR Ht. eapply ring_not_self; [by apply HI| |done]. by apply elem_of_thr_links.
Qed.

Lemma wqe_get_eq e s t : wqe_thr s !! e = Some t -> wqe_get e s = Ret t s.
Proof. intros E. unfold wqe_get. mred. by rewrite E. Qed.
Lemma wqe_put_eq e s t v :
  wqe_thr s !! e = Some t -> wqe_put e v s = Ret tt (with_wqe_thr s (<[e := v]> (wqe_thr s))).
Proof. intros E. unfold wqe_put. mred. by rewrite E. Qed.

(** A status change keeps the ready queues. *)
Lemma rdq_inv_status s q t th v :
  threads s !! t = Some th -> rdq_inv s q ->
  rdq_inv (with_threads s (<[t := with_status th v]> (threads s))) q.
Proof.
  intros Ht. apply rdq_inv_ext; [done..|]. intros t' th' Ht'. cbn.
  destruct (decide (t' = t)) as [->|]; [rewrite lookup_insert_eq|rewrite lookup_insert_ne by done]; eauto.
  simplify_eq. by eexists.
Qed.

(** The list nodes that waking [ts] up, with the entries [es], does not touch. *)
Definition wake_keeps wq q (es ts : list ptr) (y : loc) : Prop :=
  match y with
  | WqHead wq' => wq' <> wq
  | WqeLink e => e ∉ es
  | RdqHead _ => False
  | ThrLink t => (t ∉ ts) /\ forall p, 0 <= p < RDQ_PRIORITY_MAX -> t ∉ q p
  | _ => True
  end.

Lemma wque_wakeup_one_spec s q wq e es t ts th :
  let p := prio (attr th) in
  rdq_inv s q -> wait_inv s wq (e :: es) (t :: ts) -> threads s !! t = Some th ->
  exists m b,
    let s' := with_wqe_thr (with_bitmap (with_links (with_threads s
      (<[t := with_status th THR_TSTATE_RUN]> (threads s))) m) b) (<[e := NULL]> (wqe_thr s)) in
    wque_wakeup_one wq s = Ret tt s' /\ rdq_inv s' (rdq_upd q p (q p ++ [t])) /\
    is_ring m (WqHead wq) (WqeLink <$> es) /\ is_ring m (WqeLink e) [] /\
    (forall t', t' ∈ ts -> is_ring m (ThrLink t') []) /\
    (forall y, wake_keeps wq q (e :: es) (t :: ts) y -> m !! y = links s !! y).
Proof.
  intros p HI [HR HT HN HS] Hth. apply Forall2_cons in HT as [Het HT].
  apply NoDup_cons in HN as [Hnt HN].
  destruct (HS t) as (Rt & th' & Hth' & Hst & Hp); [set_solver|]. simplify_eq. fold p in Hp.
  destruct (list_get_top_ring _ _ _ _ HR) as (m1 & E1 & R1 & S1 & F1).
  set (s1 := with_threads (with_links s m1) (<[t := with_status th THR_TSTATE_RUN]> (threads s))).
  assert (forall t', is_ring (links s) (ThrLink t') [] -> is_ring m1 (ThrLink t') []) as Hkeep.
  { intros t'. eapply is_ring_frame; [exact F1|]. intros y ->%list_elem_of_singleton. set_solver. }
  assert (rdq_inv s1 q) as HI1.
  { apply (rdq_inv_status (with_links s m1)); [done|]. destruct HI as [R B G P]. split; try done.
    intros p' Hp'. eapply is_ring_frame; [exact F1| |by apply R]. intros y Hy. set_solver. }
  destruct (rdq_add_thread_spec (with_ie s1 false) q t (with_status th THR_TSTATE_RUN))
    as (m & b & E2 & HI2 & F2).
  { eapply rdq_inv_ext; [..|exact HI1]; eauto. }
  { cbn. by rewrite lookup_insert_eq. }
  { done. }
  { eapply sleeping_not_ready; [exact HI1|done|]. by apply Hkeep. }
  { eapply is_ring_dom; [by apply Hkeep|]. set_solver. }
  exists m, b. intros s'.
  assert (forall y, y ∉ ThrLink t :: RdqHead p :: (ThrLink <$> q p) -> m !! y = m1 !! y) as F2'.
  { intros y Hy. by apply F2. }
  split_and!.
  - unfold wque_wakeup_one. rewrite (bind_ret _ _ _ _ _ (lk_fn_eq _ _ _ _ E1)). cbn [wqe_of_link fmap list_fmap]. mred.
    rewrite (lk_upd_eq _ _ m1) by (cbn; by apply list_del_self). mred.
    rewrite (lk_upd_eq _ _ m1) by (cbn; by apply init_list_node_self). mred.
    rewrite (wqe_get_eq _ _ t) by done. mred. rewrite (set_status_eq _ _ th) by done. mred.
    rewrite (wqe_get_eq _ _ t) by done. mred.
    erewrite sched_set_ready_eq by exact E2. mred. by rewrite (wqe_put_eq _ _ t).
  - eapply rdq_inv_ext; [..|exact HI2]; eauto.
  - eapply is_ring_frame; [exact F2| |exact R1]. intros y Hy. set_solver.
  - eapply is_ring_frame; [exact F2| |exact S1]. intros y Hy. set_solver.
  - intros t' Ht'. destruct (HS t') as [Rt' _]; [set_solver|].
    eapply is_ring_frame; [exact F2| |by apply Hkeep]. intros y ->%list_elem_of_singleton.
    assert (t' ∉ q p) by (eapply sleeping_not_ready; [exact HI|done..]). set_solver.
  - intros y Hy. rewrite F2'.
    + apply F1. destruct y; cbn in Hy; set_solver.
    + destruct y; cbn in Hy; set_solver.
Qed.

Lemma rdq_inv_proper s q q' :
  (forall p, 0 <= p < RDQ_PRIORITY_MAX -> q p = q' p) -> rdq_inv s q -> rdq_inv s q'.
Proof.
  intros Hq [R B G P]. split; [..|done|]; intros p; intros.
  - rewrite <-Hq by done. auto.
  - rewrite <-Hq by done. auto.
  - eapply P; [done|]. by rewrite Hq.
Qed.

Lemma rdq_enqueue_cons s s1 q t th ts p :
  threads s !! t = Some th -> (forall t', prio_of s1 t' = prio_of s t') ->
  rdq_enqueue s1 (rdq_upd q (prio (attr th)) (q (prio (attr th)) ++ [t])) ts p
  = rdq_enqueue s q (t :: ts) p.
Proof.
  intros Ht Hp. unfold rdq_enqueue.
  assert (filter (fun t => prio_of s1 t = p) ts = filter (fun t => prio_of s t = p) ts) as ->.
  { apply list_filter_iff. intros t'. by rewrite Hp. }
  assert (prio_of s t = prio (attr th)) as Ep by (unfold prio_of; by rewrite Ht).
  destruct (decide (p = prio (attr th))) as [->|Hne].
  - by rewrite rdq_upd_eq, filter_cons_True, <-app_assoc.
  - rewrite rdq_upd_ne, filter_cons_False by congruence. done.
Qed.

Lemma prio_of_status s t th v t' (s' : kst X) :
  threads s !! t = Some th -> threads s' = <[t := with_status th v]> (threads s) ->
  prio_of s' t' = prio_of s t'.
Proof.
  intros Ht E. unfold prio_of. rewrite E. destruct (decide (t' = t)) as [->|].
  - by rewrite lookup_insert_eq, Ht.
  - by rewrite lookup_insert_ne.
Qed.

(** What waking [ts] up does to the thread objects. *)
Definition woken (thrs : gmap ptr thread_t) (ts : list ptr) (thrs' : gmap ptr thread_t) : Prop :=
  forall t, thrs' !! t =
    (if decide (t ∈ ts) then (fun th => with_status th THR_TSTATE_RUN) <$> thrs !! t else thrs !! t).

Lemma wque_wakeup_loop_spec fuel s q wq es ts :
  (length es <= fuel)%nat -> rdq_inv s q -> wait_inv s wq es ts ->
  exists m b thrs w,
    let s' := with_wqe_thr (with_bitmap (with_links (with_threads s thrs) m) b) w in
    wque_wakeup_loop fuel wq s = Ret tt s' /\ rdq_inv s' (rdq_enqueue s q ts) /\
    is_ring m (WqHead wq) [] /\ woken (threads s) ts thrs /\
    (forall y, wake_keeps wq q es ts y -> m !! y = links s !! y) /\
    (forall e, e ∉ es -> w !! e = wqe_thr s !! e).
Proof.
  revert s q es ts. induction fuel as [|fuel IH]; intros s q es ts Hf HI HW;
    destruct es as [|e es]; pose proof (wi_ring _ _ _ _ HW) as HR;
    pose proof (Forall2_length _ _ _ (wi_thr _ _ _ _ HW)) as HL; destruct ts as [|t ts]; try done;
    cbn in Hf; try lia.
  1,2: exists (links s), (bitmap s), (threads s), (wqe_thr s); cbn [wque_wakeup_loop];
    rewrite (bind_ret _ _ _ _ _ (lk_empty_eq _ _ _ HR));
    split_and!; [by destruct s| |done|done|done|done];
    eapply rdq_inv_proper; [|eapply rdq_inv_ext; [..|exact HI]; eauto]; intros p _;
    unfold rdq_enqueue; by rewrite filter_nil, app_nil_r.
  destruct (wi_sleep _ _ _ _ HW t) as (_ & th & Ht & _ & Hp); [set_solver|].
  destruct (wque_wakeup_one_spec s q wq e es t ts th) as (m & b & E & HI1 & R1 & _ & S1 & D1); [done..|].
  set (s1 := with_wqe_thr _ _) in *.
  destruct (IH s1 _ es ts ltac:(lia) HI1) as (m' & b' & thrs & w & E' & HI' & R' & W' & D' & V').
  { destruct HW as [_ HT HN HS]. apply Forall2_cons in HT as [Het HT].
    apply NoDup_cons in HN as [Hnt HN]. split; [exact R1| |done|].
    - apply Forall2_same_length_lookup. split; [by eapply Forall2_length|]. intros i e' t' He' Ht'.
      pose proof (Forall2_lookup_lr _ _ _ _ _ _ HT He' Ht') as Hw. cbn.
      apply list_elem_of_lookup_2 in He'. rewrite lookup_insert_ne; [done|]. intros <-. destruct HR as [HR _].
      apply NoDup_cons in HR as [_ HR]. cbn in HR. apply NoDup_cons in HR as [HR _]. apply HR.
      apply list_elem_of_fmap. eauto.
    - intros t' Ht'. split; [by apply S1|]. destruct (HS t') as (_ & th' & ? & ?); [set_solver|].
      exists th'. cbn. rewrite lookup_insert_ne by set_solver. done. }
  exists m', b', thrs, w. cbn [wque_wakeup_loop].
  rewrite (bind_ret _ _ _ _ _ (lk_empty_eq _ _ _ HR)). cbn.
  rewrite (bind_ret _ _ _ _ _ E), E'. split_and!; [done| |done| | |].
  - eapply rdq_inv_proper; [|exact HI']. intros p _. apply rdq_enqueue_cons; [done|].
    intros t'. by apply (prio_of_status s t th THR_TSTATE_RUN).
  - intros t'. rewrite W'. cbn. destruct (decide (t' = t)) as [->|Hne].
    + rewrite lookup_insert_eq, Ht, (decide_True (P := t ∈ t :: ts)) by set_solver. by case_decide.
    + rewrite lookup_insert_ne by done. apply decide_ext. set_solver.
  - intros y Hy. rewrite D'; [by apply D1|]. destruct y; cbn in *; try done; [|set_solver].
    destruct Hy as [Hy1 Hy2]. split; [set_solver|]. intros p Hp'.
    destruct (decide (p = prio (attr th))) as [->|]; [rewrite rdq_upd_eq|rewrite rdq_upd_ne by done; auto].
    specialize (Hy2 _ Hp). set_solver.
  - intros e' He'. rewrite V' by set_solver. cbn. rewrite lookup_insert_ne by set_solver. done.
Qed.

(** The live entries are enough fuel. *)
Lemma wait_entries_size s wq es ts : wait_inv s wq es ts -> (length es <= size (wqe_thr s))%nat.
Proof.
  intros [[HN _] HT _ _]. apply NoDup_cons in HN as [_ HN]. apply NoDup_fmap_1 in HN.
  rewrite <-(size_list_to_set (C := gset ptr) es), <-size_dom by done. apply subseteq_size.
  intros e. rewrite elem_of_list_to_set, elem_of_dom, list_elem_of_lookup. intros [i Hi].
  destruct (Forall2_lookup_l _ _ _ _ _ HT Hi) as (t & _ & Ht). by exists t.
Qed.

Lemma wque_wakeup_eq s q wq es ts reason :
  rdq_inv s q -> wait_inv s wq es ts -> ts <> [] ->
  exists m b thrs w,
    let s1 := with_wq_reason (with_wqe_thr (with_bitmap (with_links (with_threads
      (with_ie s false) thrs) m) b) w) (<[wq := reason]> (wq_reason s)) in
    wque_wakeup wq reason s
      = run_bind (sched_schedule s1) (fun _ s2 => Ret tt (with_ie s2 (ie s))) /\
    rdq_inv s1 (rdq_enqueue s q ts) /\ is_ring m (WqHead wq) [] /\ woken (threads s) ts thrs /\
    (forall y, wake_keeps wq q es ts y -> m !! y = links s !! y) /\
    (forall e, e ∉ es -> w !! e = wqe_thr s !! e).
Proof.
  intros HI HW Hts. pose proof (wi_ring _ _ _ _ HW) as HR.
  destruct (wque_wakeup_loop_spec (size (wqe_thr s)) (with_ie s false) q wq es ts)
    as (m & b & thrs & w & E & HI' & R' & W' & D' & V').
  { by eapply wait_entries_size. }
  { eapply rdq_inv_ext; [..|exact HI]; eauto. }
  { destruct HW. by split. }
  exists m, b, thrs, w. intros s1. split_and!; [|by eapply rdq_inv_ext; [..|exact HI']; eauto|done..].
  unfold wque_wakeup, psw_disable_and_save_interrupt, psw_restore_interrupt. mred.
  rewrite (lk_empty_eq (with_ie s false) _ _ HR). mred.
  pose proof (Forall2_length _ _ _ (wi_thr _ _ _ _ HW)). rewrite bool_decide_false by (by destruct es, ts).
  mred. cbn [wqe_thr with_ie]. rewrite E. mred. unfold set_wq_reason. by mred.
Qed.

Lemma wque_wakeup_empty s wq ts reason : wait_inv s wq [] ts -> wque_wakeup wq reason s = Ret tt s.
Proof.
  intros HW. unfold wque_wakeup, psw_disable_and_save_interrupt, psw_restore_interrupt. mred.
  rewrite (lk_empty_eq (with_ie s false) _ _ (wi_ring _ _ _ _ HW)). mred. by destruct s.
Qed.

(** ** Going to sleep *)

Lemma is_ring_insert (m : gmap loc (node loc)) x n h xs :
  m !! x = None -> is_ring m h xs -> is_ring (<[x := n]> m) h xs.
Proof.
  intros Hx [HN HP]. split; [done|]. change (h :: xs ++ [h]) with ((h :: xs) ++ [h]) in *.
  assert (forall y, y ∈ h :: xs -> x <> y) as Hne.
  { intros y Hy <-. destruct (is_ring_dom m h xs x) as [? ?]; [by split|done|congruence]. }
  eapply path_frame; [done|..]; intros y Hy; unfold rd_next, rd_prev;
    rewrite lookup_insert_ne; try done; apply Hne; [done|]. cbn in Hy. set_solver.
Qed.

Lemma is_ring_delete (m : gmap loc (node loc)) x h xs :
  x ∉ h :: xs -> is_ring m h xs -> is_ring (delete x m) h xs.
Proof.
  intros Hx [HN HP]. split; [done|]. change (h :: xs ++ [h]) with ((h :: xs) ++ [h]) in *.
  eapply path_frame; [done|..]; intros y Hy; unfold rd_next, rd_prev;
    rewrite lookup_delete_ne; try done; intros <-; [done|]. cbn in Hy. set_solver.
Qed.

(** [wque_add_thread] for a thread in no list and an unlinked entry. *)
Lemma wque_add_thread_eq s wq es e t :
  is_ring (links s) (WqHead wq) (WqeLink <$> es) -> is_ring (links s) (ThrLink t) [] ->
  is_ring (links s) (WqeLink e) [] -> is_Some (wqe_thr s !! e) -> e ∉ es ->
  exists m, wque_add_thread wq e t s
      = Ret tt (with_wqe_thr (with_links s m) (<[e := t]> (wqe_thr s))) /\
    is_ring m (WqHead wq) (WqeLink <$> (es ++ [e])) /\
    frame (links s) m (WqeLink e :: WqHead wq :: (WqeLink <$> es)).
Proof.
  intros R Rt Re [v Hv] He.
  destruct (list_add_ring _ _ _ (WqeLink e) R) as (m & E & R' & F).
  { intros [[=]|(? & [=] & ?)%list_elem_of_fmap]%elem_of_cons. by subst. }
  { eapply is_ring_dom; [done|set_solver]. }
  exists m. rewrite fmap_app. split_and!; [|done..].
  unfold wque_add_thread, psw_disable_and_save_interrupt, psw_restore_interrupt. mred.
  rewrite (lk_upd_eq _ _ (links s)) by (by apply list_del_self). mred.
  rewrite (lk_upd_eq _ _ (links s)) by (by apply init_list_node_self). mred.
  rewrite (wqe_put_eq _ _ v) by done. mred. rewrite (lk_upd_eq _ _ m) by done. mred. by destruct s.
Qed.

(** The running thread [t] of priority [p] goes to sleep on [wq] with a new entry. *)
Lemma wque_sleep_spec s q wq es ts th l1 l2 :
  let t := current s in let p := prio (attr th) in let e := nlocal s in
  rdq_inv s q -> wait_inv s wq es ts -> threads s !! t = Some th -> 0 <= p < RDQ_PRIORITY_MAX ->
  q p = l1 ++ t :: l2 -> links s !! WqeLink e = None -> wqe_thr s !! e = None ->
  exists m b,
    let s1 := with_threads (with_wqe_thr (with_bitmap (with_links (with_ie
      (with_nlocal s (e + 1)) false) m) b) (<[e := t]> (wqe_thr s)))
      (<[t := with_status th THR_TSTATE_WAIT]> (threads s)) in
    wque_sleep wq s = Ret (ie s, e) s1 /\
    rdq_inv s1 (rdq_upd q p (l1 ++ l2)) /\ wait_inv s1 wq (es ++ [e]) (ts ++ [t]).
Proof.
  intros t p e HI HW Hth Hp Hq Hl Hw.
  set (m0 := <[WqeLink e := Node (WqeLink e) (WqeLink e)]> (links s)).
  set (s0 := with_ie (with_wqe_thr (with_links (with_nlocal s (e + 1)) m0) (<[e := NULL]> (wqe_thr s))) false).
  assert (is_ring m0 (WqeLink e) []) as Re.
  { apply lk_self_ring. unfold lk, rd_next, rd_prev, m0. by rewrite lookup_insert_eq. }
  assert (rdq_inv s0 q) as HI0.
  { destruct HI as [R B G P]. split; try done. intros p' Hp'. apply is_ring_insert; auto. }
  destruct (rdq_remove_thread_spec s0 q t th l1 l2) as (m1 & b & E1 & HI1 & Rt & F1); [done..|].
  assert (forall h xs, (forall y, y ∈ h :: xs -> y ∉ RdqHead p :: (ThrLink <$> q p)) ->
    is_ring m0 h xs -> is_ring m1 h xs) as Hkeep1.
  { intros h xs Hy. by eapply is_ring_frame. }
  assert (t ∉ ts) as Htts.
  { intros Ht. destruct (wi_sleep _ _ _ _ HW t Ht) as [St _].
    eapply sleeping_not_ready in St; [|exact HI|exact Hp]. apply St. rewrite Hq. set_solver. }
  assert (e ∉ es) as Hees.
  { intros He. apply list_elem_of_lookup in He as [i Hi].
    destruct (Forall2_lookup_l _ _ _ _ _ (wi_thr _ _ _ _ HW) Hi) as (t' & _ & Ht'). congruence. }
  destruct (wque_add_thread_eq (with_bitmap (with_links s0 m1) b) wq es e t) as (m & E2 & R2 & F2).
  { apply Hkeep1; [set_solver|]. apply is_ring_insert; [done|apply HW]. }
  { exact Rt. }
  { apply Hkeep1; [set_solver|done]. }
  { cbn. rewrite lookup_insert_eq. by eexists. }
  { done. }
  exists m, b. intros s1. split_and!.
  - unfold wque_sleep, wque_entry, new_local, psw_disable_and_save_interrupt. mred.
    cbn [nlocal with_nlocal]. fold e m0. rewrite (lk_upd_eq _ _ m0) by (by apply init_list_node_self).
    mred. match goal with |- run_bind (rdq_remove_thread ?t' ?x) _ = _ => change t' with t; change x with s0 end.
    rewrite E1. mred. match goal with |- run_bind (wque_add_thread _ _ ?t' _) _ = _ => change t' with t end.
    rewrite E2. mred. rewrite (wqe_get_eq _ _ t) by (cbn; by rewrite lookup_insert_eq). mred.
    rewrite (set_status_eq _ _ th) by done. mred. cbn. rewrite insert_insert_eq. done.
  - apply (rdq_inv_status (with_wqe_thr (with_bitmap (with_links s0 m) b) (<[e := t]> (wqe_thr s)))); [done|].
    destruct HI1 as [R B G P]. split; try done. intros p' Hp'.
    eapply is_ring_frame; [exact F2| |by apply R]. set_solver.
  - destruct HW as [HR HT HN HS]. split.
    + exact R2.
    + apply Forall2_app; [|by repeat constructor; cbn; rewrite lookup_insert_eq].
      eapply Forall2_impl; [exact HT|]. intros e' t' He'. cbn. rewrite lookup_insert_ne; congruence.
    + apply NoDup_app. split_and!; [done|set_solver|apply NoDup_singleton].
    + assert (forall t', is_ring m1 (ThrLink t') [] -> is_ring m (ThrLink t') []) as Hkeep2.
      { intros t'. eapply is_ring_frame; [exact F2|]. set_solver. }
      intros t' [Ht'| ->%list_elem_of_singleton]%elem_of_app.
      * destruct (HS t' Ht') as (St & th' & ? & ? & ?). split.
        -- apply Hkeep2, Hkeep1; [|by apply is_ring_insert]. intros y ->%list_elem_of_singleton.
           assert (t' ∉ q p) by (eapply sleeping_not_ready; [exact HI|done..]). set_solver.
        -- exists th'. cbn. rewrite lookup_insert_ne by set_solver. done.
      * split; [by apply Hkeep2|]. exists (with_status th THR_TSTATE_WAIT). cbn.
        by rewrite lookup_insert_eq.
Qed.

Lemma sched_next_proper q q' :
  (forall p, 0 <= p < RDQ_PRIORITY_MAX -> q p = q' p) -> sched_next q = sched_next q'.
Proof.
  intros Hq. unfold sched_next, rdq_top.
  assert (q <$> prios_desc = q' <$> prios_desc) as ->; [|done].
  apply list_fmap_ext. intros i p Hp%list_elem_of_lookup_2. unfold prios_desc in Hp.
  rewrite elem_of_reverse, elem_of_seqZ in Hp. apply Hq. lia.
Qed.

Lemma sched_next_cases q :
  sched_next q = idle_thread \/ exists p, 0 <= p < RDQ_PRIORITY_MAX /\ sched_next q ∈ q p.
Proof.
  unfold sched_next. destruct (Z.eqb_spec (default NULL (rdq_top q)) NULL) as [|Hne]; [by left|right].
  unfold rdq_top in *. destruct (concat (q <$> prios_desc)) as [|t l] eqn:E; [done|]. cbn.
  assert (t ∈ concat (q <$> prios_desc)) as Ht by (rewrite E; set_solver).
  apply list_elem_of_In, List.in_concat in Ht as (l' & Hl' & Ht%list_elem_of_In).
  apply list_elem_of_In, list_elem_of_fmap in Hl' as (p & -> & Hp).
  unfold prios_desc in Hp. rewrite elem_of_reverse, elem_of_seqZ in Hp. exists p. split; [lia|done].
Qed.

(** A thread taken out of its queue is in no queue, and not the one chosen next. *)
Lemma removed_not_queued s q t th l1 l2 p :
  rdq_inv s q -> threads s !! t = Some th -> 0 <= prio (attr th) < RDQ_PRIORITY_MAX ->
  q (prio (attr th)) = l1 ++ t :: l2 -> 0 <= p < RDQ_PRIORITY_MAX ->
  t ∉ rdq_upd q (prio (attr th)) (l1 ++ l2) p.
Proof.
  intros HI Ht Hp Hq Hp' Hin. destruct (decide (p = prio (attr th))) as [->|Hne].
  - rewrite rdq_upd_eq in Hin. destruct (rq_ring _ _ HI _ Hp) as [HN _].
    apply NoDup_cons in HN as [_ HN]. apply NoDup_fmap_1 in HN. rewrite Hq in HN.
    rewrite <-Permutation_middle, NoDup_cons in HN. set_solver.
  - rewrite rdq_upd_ne in Hin by done. destruct (rq_prio _ _ HI _ _ Hp' Hin) as (th' & ? & ?).
    by simplify_eq.
Qed.

Lemma sched_next_removed s q t th l1 l2 :
  rdq_inv s q -> threads s !! t = Some th -> 0 <= prio (attr th) < RDQ_PRIORITY_MAX ->
  q (prio (attr th)) = l1 ++ t :: l2 -> t <> idle_thread ->
  sched_next (rdq_upd q (prio (attr th)) (l1 ++ l2)) <> t.
Proof.
  intros HI Ht Hp Hq Hi E.
  destruct (sched_next_cases (rdq_upd q (prio (attr th)) (l1 ++ l2))) as [E'|(p' & Hp' & Hin)]; [congruence|].
  rewrite E in Hin. by eapply removed_not_queued in Hin.
Qed.

Lemma sched_next_exists s q :
  rdq_inv s q -> is_Some (threads s !! idle_thread) -> is_Some (threads s !! sched_next q).
Proof.
  intros HI Hi. destruct (sched_next_cases q) as [->|(p & Hp & Hin)]; [done|].
  destruct (rq_prio _ _ HI _ _ Hp Hin) as (th & ? & _). by exists th.
Qed.

Lemma wque_remove_entry_eq s wq e t :
  is_ring (links s) (WqeLink e) [] -> wqe_thr s !! e = Some t ->
  wque_remove_entry wq e s = Ret tt (with_wqe_thr s (<[e := NULL]> (wqe_thr s))).
Proof.
  intros R E. unfold wque_remove_entry, psw_disable_and_save_interrupt, psw_restore_interrupt. mred.
  rewrite (lk_upd_eq _ _ (links s)) by (by apply list_del_self). mred.
  rewrite (lk_upd_eq _ _ (links s)) by (by apply init_list_node_self). mred.
  rewrite (wqe_put_eq _ _ t) by done. mred. by destruct s.
Qed.

(** What a waiting thread does once it has the processor again and has been
    taken out of the queue. *)
Definition wque_awake (wq : wqp) (e : ptr) (psw : bool) : K X Z :=
  wque_remove_entry wq e;;
  reason ← get_wq_reason wq;
  psw_restore_interrupt psw;;
  wque_entry_end e;;
  mret reason.

Lemma wque_awake_eq s wq e psw t r :
  is_ring (links s) (WqeLink e) [] -> wqe_thr s !! e = Some t -> wq_reason s !! wq = Some r ->
  wque_awake wq e psw s = Ret r
    (with_wqe_thr (with_links (with_ie s psw) (delete (WqeLink e) (links s))) (delete e (wqe_thr s))).
Proof.
  intros R E Er. unfold wque_awake, get_wq_reason, psw_restore_interrupt, wque_entry_end. mred.
  rewrite (wque_remove_entry_eq _ _ _ t) by done. mred. cbn. rewrite Er. mred. cbn.
  by rewrite delete_insert_eq.
Qed.

(** The state in which a woken thread returns from [wque_wait_on_queue], given
    the state [s'] in which it was switched to. *)
Definition awake_state (psw : bool) (ti e : ptr) (th' : thread_t) (v' : thread_info_t) s' : kst X :=
  with_wqe_thr (with_links (with_ie (with_tinfos (with_threads s'
    (<[current s' := with_status th' THR_TSTATE_RUN]> (threads s')))
    (<[ti := ti_clr_preempt_active v']> (tinfos s'))) psw)
    (delete (WqeLink e) (links s'))) (delete e (wqe_thr s')).

Lemma wque_wait_eq s q wq es ts th v l1 l2 :
  let t := current s in let p := prio (attr th) in let e := nlocal s in
  let q' := rdq_upd q p (l1 ++ l2) in
  rdq_inv s q -> wait_inv s wq es ts ->
  threads s !! t = Some th -> tinfos s !! tinfo th = Some v -> inhibited (preempt v) = false ->
  0 <= p < RDQ_PRIORITY_MAX -> q p = l1 ++ t :: l2 -> t <> idle_thread ->
  is_Some (threads s !! idle_thread) -> links s !! WqeLink e = None -> wqe_thr s !! e = None ->
  exists s1 k, wque_wait_on_queue wq s = Switch s1 k /\
    current s1 = sched_next q' /\ current s1 <> t /\ ie s1 = false /\ nlocal s1 = e + 1 /\
    mutexes s1 = mutexes s /\ ext s1 = ext s /\
    rdq_inv s1 q' /\ wait_inv s1 wq (es ++ [e]) (ts ++ [t]) /\
    forall s' th' v' u r, threads s' !! current s' = Some th' -> tinfos s' !! tinfo th = Some v' ->
      is_ring (links s') (WqeLink e) [] -> wqe_thr s' !! e = Some u -> wq_reason s' !! wq = Some r ->
      k s' = Ret r (awake_state (ie s) (tinfo th) e th' v' s').
Proof.
  intros t p e q' HI HW Hth Hv Hinh Hp Hq Hidle Hie Hl Hw.
  destruct (wque_sleep_spec s q wq es ts th l1 l2) as (m & b & E & HI1 & HW1); [done..|].
  set (s1 := with_threads _ _) in *. cbv zeta in *.
  pose proof (sched_next_removed s q t th l1 l2 HI Hth Hp Hq Hidle) as Hne. fold p q' in Hne.
  assert (threads s1 !! current s1 = Some (with_status th THR_TSTATE_WAIT)) as Hth1
    by (cbn; by rewrite lookup_insert_eq).
  assert (is_Some (threads s1 !! idle_thread)) as Hie1.
  { cbn. rewrite lookup_insert_ne by done. done. }
  unfold wque_wait_on_queue. mred. rewrite E. mred.
  rewrite (sched_schedule_dispatch s1 q' (with_status th THR_TSTATE_WAIT) v);
    [|done..|intros _; by eapply sched_next_exists].
  rewrite decide_False by done. mred. eexists _, _. split; [done|].
  split_and!; [done|done|done|done|done|done| | |].
  - eapply rdq_inv_ext; [..|exact HI1]; eauto.
  - destruct HW1 as [R T N S]. by split.
  - intros s' th' v' u r Ht' Hv' Re Hu Hr. rewrite (sched_resume_eq _ _ _ th' v') by done. mred.
    exact (wque_awake_eq (with_tinfos (with_ie (with_threads (with_ie s' false)
      (<[current s' := with_status th' THR_TSTATE_RUN]> (threads s'))) false)
      (<[tinfo th := ti_clr_preempt_active v']> (tinfos s'))) wq e (ie s) u r Re Hu Hr).
Qed.

(** ** Waiting and going on *)

Lemma inhibited_clr_active v : inhibited (preempt (ti_clr_preempt_active v)) = inhibited (preempt v).
Proof.
  unfold inhibited. cbn. unfold THR_PRMPT_CTRL_PREEMPT_ACTIVE.
  by rewrite !pre_count_clr_flag by (unfold THR_PRECNT_SHIFT, THR_IRQCNT_SHIFT; lia).
Qed.

(** The thread [t], with information block [ti], runs, is ready and may be
    switched away from. *)
Record waiter s wq (t ti : ptr) (q : Z -> list ptr) (es ts : list ptr) (th : thread_t)
    (v : thread_info_t) (l1 l2 : list ptr) : Prop := Waiter {
  wt_current : current s = t;
  wt_rdq : rdq_inv s q;
  wt_wait : wait_inv s wq es ts;
  wt_thr : threads s !! t = Some th;
  wt_tinfo : tinfo th = ti;
  wt_ti : tinfos s !! ti = Some v;
  wt_disp : inhibited (preempt v) = false;
  wt_prio : 0 <= prio (attr th) < RDQ_PRIORITY_MAX;
  wt_ready : q (prio (attr th)) = l1 ++ t :: l2;
  wt_not_idle : t <> idle_thread;
  wt_idle : is_Some (threads s !! idle_thread);
  wt_fresh : links s !! WqeLink (nlocal s) = None;
  wt_fresh' : wqe_thr s !! (nlocal s) = None
}.
Definition can_wait s wq (t ti : ptr) : Prop := exists q es ts th v l1 l2, waiter s wq t ti q es ts th v l1 l2.

(** What the waiting thread relies on when it is switched back: its entry, the
    last automatic object of the state it left, has been taken out of the
    queue, a reason is stored, and it may wait again. *)
Definition woken_from wq (t ti : ptr) s s' : Prop :=
  let e := nlocal s - 1 in
  is_ring (links s') (WqeLink e) [] /\ is_Some (wqe_thr s' !! e) /\ is_Some (wq_reason s' !! wq) /\
  exists q es ts th v l1 l2, (e ∉ es) /\ e < nlocal s' /\ waiter s' wq t ti q es ts th v l1 l2.

(** Devices and the interrupt flag do not matter. *)
Lemma can_wait_dev x b s wq t ti : can_wait s wq t ti -> can_wait (with_ie (with_ext s x) b) wq t ti.
Proof.
  intros (q & es & ts & th & v & l1 & l2 & [Hc HI HW Hth Hti Hv Hd Hp Hq Hni Hi Hf Hf']).
  exists q, es, ts, th, v, l1, l2. split; try done.
  - eapply rdq_inv_ext; [..|exact HI]; eauto.
  - by destruct HW.
Qed.

(** Returning from the wait keeps the thread able to wait. *)
Lemma waiter_awake s wq t ti q es ts th v l1 l2 psw e :
  e ∉ es -> e < nlocal s -> waiter s wq t ti q es ts th v l1 l2 ->
  waiter (awake_state psw ti e th v s) wq t ti q es ts
    (with_status th THR_TSTATE_RUN) (ti_clr_preempt_active v) l1 l2.
Proof.
  intros He Hlt HR. pose proof (wt_current _ _ _ _ _ _ _ _ _ _ _ HR) as Hc.
  destruct HR as [_ HI HW Hth Hti Hv Hd Hp Hq Hni Hi Hf Hf'].
  assert (t ∉ ts) as Htts.
  { intros Ht. destruct (wi_sleep _ _ _ _ HW t Ht) as [St _].
    eapply sleeping_not_ready in St; [|exact HI|exact Hp]. apply St. rewrite Hq. set_solver. }
  unfold awake_state. rewrite Hc. split; cbn; try done.
  - apply (rdq_inv_status _ _ t th THR_TSTATE_RUN) in HI as [R B G P]; [|done]. split; try done.
    intros p Hp'. apply is_ring_delete; [set_solver|by apply R].
  - destruct HW as [HR HT HN HS]. split; cbn; [|..|done|].
    + apply is_ring_delete; [set_solver|done].
    + eapply Forall2_same_length_lookup. split; [by eapply Forall2_length|]. intros i e' t' He' Ht'.
      pose proof (Forall2_lookup_lr _ _ _ _ _ _ HT He' Ht'). apply list_elem_of_lookup_2 in He'.
      by rewrite lookup_delete_ne by (by intros <-).
    + intros t' Ht'. destruct (HS t' Ht') as [St (th' & ? & ? & ?)].
      split; [apply is_ring_delete; [set_solver|done]|]. exists th'.
      rewrite lookup_insert_ne by (by intros <-). done.
  - by rewrite lookup_insert_eq.
  - by rewrite lookup_insert_eq.
  - exact (eq_trans (inhibited_clr_active v) Hd).
  - rewrite lookup_insert_ne by done. done.
  - rewrite lookup_delete_ne; [done|]. intros [= ->]. lia.
  - rewrite lookup_delete_ne; [done|lia].
Qed.

(** A wait: to another thread, with interrupts disabled; it returns the reason
    stored in the queue, able to wait again. *)
Lemma wque_wait_returns s wq t ti : can_wait s wq t ti ->
  exists s1 k, wque_wait_on_queue wq s = Switch s1 k /\
    ie s1 = false /\ current s1 <> t /\ mutexes s1 = mutexes s /\ ext s1 = ext s /\
    forall s', woken_from wq t ti s1 s' -> exists r s2, wq_reason s' !! wq = Some r /\ k s' = Ret r s2 /\
      can_wait s2 wq t ti /\ ie s2 = ie s /\ mutexes s2 = mutexes s' /\ ext s2 = ext s' /\ wq_reason s2 = wq_reason s'.
Proof.
  intros (q & es & ts & th & v & l1 & l2 & HR). pose proof (wt_current _ _ _ _ _ _ _ _ _ _ _ HR) as Hc.
  destruct (wque_wait_eq s q wq es ts th v l1 l2) as (s1 & k & E & _ & Hc1 & Hie & Hnl & Hm1 & Hx1 & _ & _ & Hk);
    rewrite ?Hc, ?(wt_tinfo _ _ _ _ _ _ _ _ _ _ _ HR) in *; try apply HR.
  exists s1, k. split_and!; [done..|].
  intros s' (Re & [u Hu] & [r Hr] & q' & es' & ts' & th' & v' & l1' & l2' & He & Hlt & HR').
  rewrite Hnl in *. replace (nlocal s + 1 - 1) with (nlocal s) in * by lia.
  pose proof (wt_current _ _ _ _ _ _ _ _ _ _ _ HR') as Hc'.
  eexists r, _. split; [done|]. split; [eapply (Hk s' th' v' u r); [rewrite Hc'; apply HR'|apply HR'|done..]|].
  split_and!; try done. exists q', es', ts', (with_status th' THR_TSTATE_RUN), (ti_clr_preempt_active v'), l1', l2'. by apply waiter_awake.
Qed.

(** ** Properties *)

(** C4.  Waiting: the running thread leaves the ready queue, joins the tail of
    the wait queue marked as waiting, and the processor goes to the thread the
    ready queue now designates, which is another one.  Once it has been woken
    and is given the processor again, it returns the reason stored in the queue
    with its interrupt flag restored and its stack entry dead. *)
Theorem wque_wait_correct s q wq es ts th v l1 l2 :
  let t := current s in let p := prio (attr th) in let e := nlocal s in
  let q' := rdq_upd q p (l1 ++ l2) in
  rdq_inv s q -> wait_inv s wq es ts ->
  threads s !! t = Some th -> tinfos s !! tinfo th = Some v -> inhibited (preempt v) = false ->
  0 <= p < RDQ_PRIORITY_MAX -> q p = l1 ++ t :: l2 -> t <> idle_thread ->
  is_Some (threads s !! idle_thread) -> links s !! WqeLink e = None -> wqe_thr s !! e = None ->
  exists s1 k, wque_wait_on_queue wq s = Switch s1 k /\
    current s1 = sched_next q' /\ current s1 <> t /\ ie s1 = false /\
    rdq_inv s1 q' /\ wait_inv s1 wq (es ++ [e]) (ts ++ [t]) /\
    forall s' th' v' u r, threads s' !! current s' = Some th' -> tinfos s' !! tinfo th = Some v' ->
      is_ring (links s') (WqeLink e) [] -> wqe_thr s' !! e = Some u -> wq_reason s' !! wq = Some r ->
      exists s'', k s' = Ret r s'' /\ ie s'' = ie s /\ links s'' = delete (WqeLink e) (links s') /\
        threads s'' = <[current s' := with_status th' THR_TSTATE_RUN]> (threads s').
Proof.
  intros t p e q' HI HW Hth Hv Hinh Hp Hq Hidle Hie Hl Hw.
  destruct (wque_wait_eq s q wq es ts th v l1 l2) as (s1 & k & E & ? & ? & ? & _ & _ & _ & ? & ? & Hk); [done..|].
  exists s1, k. do 6 (split; [assumption|]). intros s' th' v' u r Ht' Hv' Re Hu Hr.
  eexists. split; [by eapply Hk|done].
Qed.

(** C5.  Waking up: with no thread waiting nothing changes.  Otherwise every
    waiting thread is made ready, in the order they came, at its own priority,
    with the running state; the wait queue is empty, the reason stored, and
    the scheduler is called in that state, so that no wake-up is lost. *)
Theorem wque_wakeup_correct s q wq es ts reason :
  rdq_inv s q -> wait_inv s wq es ts ->
  (ts = [] -> wque_wakeup wq reason s = Ret tt s) /\
  (ts <> [] -> exists s1,
     wque_wakeup wq reason s
       = run_bind (sched_schedule s1) (fun _ s2 => Ret tt (with_ie s2 (ie s))) /\
     rdq_inv s1 (rdq_enqueue s q ts) /\ wait_inv s1 wq [] [] /\
     wq_reason s1 !! wq = Some reason /\ current s1 = current s /\ tinfos s1 = tinfos s /\
     (forall t, t ∈ ts -> exists th, threads s1 !! t = Some th /\ status th = THR_TSTATE_RUN /\
        t ∈ rdq_enqueue s q ts (prio (attr th))) /\
     (forall t, t ∉ ts -> threads s1 !! t = threads s !! t)).
Proof.
  intros HI HW. split.
  - intros ->. destruct HW as [? HT]. apply Forall2_nil_inv_r in HT as HE. subst es.
    apply (wque_wakeup_empty _ _ []). by split.
  - intros Hts. destruct (wque_wakeup_eq s q wq es ts reason HI HW Hts)
      as (m & b & thrs & w & E & HI1 & R1 & W1 & _).
    eexists. split; [exact E|]. split_and!; [done| |cbn; by rewrite lookup_insert_eq|done|done| |].
    + split; [done|constructor|constructor|]. intros t Ht. by apply elem_of_nil in Ht.
    + intros t Ht. destruct (wi_sleep _ _ _ _ HW t Ht) as (_ & th & Hth & _ & Hp).
      exists (with_status th THR_TSTATE_RUN). cbn. rewrite W1, decide_True, Hth by done.
      split_and!; [done..|]. unfold rdq_enqueue. apply elem_of_app. right.
      apply list_elem_of_filter. split; [|done]. unfold prio_of. by rewrite Hth.
    + intros t Ht. cbn. by rewrite W1, decide_False.
Qed.
End wqueue.

(** ** A concrete kernel

    Thread 100 (priority 2) runs and is ready; thread 101 sleeps on the
    reaper's queue with the entry 7. *)

Ltac ring_decide :=
  split; [apply (bool_decide_unpack _); by vm_compute|repeat split; vm_compute; reflexivity].

Definition demo_wait_links : gmap loc (node loc) :=
  <[RdqHead 2 := Node (ThrLink 100) (ThrLink 100)]>
  (<[ThrLink 100 := Node (RdqHead 2) (RdqHead 2)]>
  (<[WqHead WqReaper := Node (WqeLink 7) (WqeLink 7)]>
  (<[WqeLink 7 := Node (WqHead WqReaper) (WqHead WqReaper)]> demo_links))).

Definition demo_wait : kst unit :=
  Kst demo_wait_links true
    (<[idle_thread := Thread 0 0 0x1000 0 (ThreadAttr 0 0 0 0) 0 []]>
    (<[100 := Thread 0 1 0x2000 0 (ThreadAttr 0 0 0 2) 10 []]>
      {[101 := Thread THR_TSTATE_WAIT 2 0x3000 0 (ThreadAttr 0 0 0 5) 10 []]}))
    (<[0x1000 := ThreadInfo 0 1 THR_THREAD_INFO_MAGIC]>
    (<[0x2000 := ThreadInfo 0 100 THR_THREAD_INFO_MAGIC]>
      {[0x3000 := ThreadInfo 0 101 THR_THREAD_INFO_MAGIC]}))
    100 4 {[WqReaper := 0]} {[7 := 101]} ∅ 0 ∅ ∅ ∅ ∅ [] 8 tt.

Definition demo_wait_q : Z -> list ptr := rdq_upd (fun _ => []) 2 [100].

Lemma demo_wait_rdq : rdq_inv demo_wait demo_wait_q.
Proof.
  split.
  - apply demo_heads. repeat (constructor; [ring_decide|]). constructor.
  - apply demo_heads. repeat (constructor; [reflexivity|]). constructor.
  - by vm_compute.
  - intros p t Hp. unfold demo_wait_q. destruct (decide (p = 2)) as [->|].
    + rewrite rdq_upd_eq. intros ->%list_elem_of_singleton. by eexists.
    + rewrite rdq_upd_ne by done. by intros ?%elem_of_nil.
Qed.

Lemma demo_wait_wait : wait_inv demo_wait WqReaper [7] [101].
Proof.
  split; [ring_decide|by repeat constructor|apply NoDup_singleton|].
  intros t ->%list_elem_of_singleton. split; [ring_decide|]. by eexists.
Qed.

Lemma wque_wait_correct_witness :
  exists s1 k, wque_wait_on_queue WqReaper demo_wait = Switch s1 k /\ current s1 = idle_thread /\
    wait_inv s1 WqReaper [7; 8] [101; 100].
Proof.
  destruct (wque_wait_correct demo_wait demo_wait_q WqReaper [7] [101]
    (Thread 0 1 0x2000 0 (ThreadAttr 0 0 0 2) 10 []) (ThreadInfo 0 100 THR_THREAD_INFO_MAGIC) [] [])
    as (s1 & k & E & Hc & _ & _ & _ & HW & _);
    [apply demo_wait_rdq|apply demo_wait_wait|done|done|done|done|done|done|by eexists|done|done|].
  exists s1, k. split; [exact E|]. split; [|exact HW]. rewrite Hc. vm_compute. reflexivity.
Defined.

Lemma wque_wakeup_correct_witness :
  exists s1, wque_wakeup WqReaper WQUE_REASON_WAKEUP demo_wait
      = run_bind (sched_schedule s1) (fun _ s2 => Ret tt (with_ie s2 true)) /\
    rdq_inv s1 (rdq_enqueue demo_wait demo_wait_q [101]).
Proof.
  destruct (wque_wakeup_correct demo_wait demo_wait_q WqReaper [7] [101] WQUE_REASON_WAKEUP)
    as [_ H]; [apply demo_wait_rdq|apply demo_wait_wait|].
  destruct H as (s1 & E & HI & _); [done|]. exists s1. exact (conj E HI).
Defined.
