(* ===== verification/Mutex.v ===== *)
(** kern/mutex.c, and wque_wait_on_event_with_mutex of kern/wqueue.c.

    [mutex_hold] waits in a loop for as long as others keep the mutex: the
    number of rounds is bounded by [fuel] in the model.  When the mutex is
    free, no fuel is used. *)
From S2P Require Import Prelude Bitops KList Kernel ThreadInfo ReadyQueue Sched WaitQueue.

Section mutex.
Context {X : Type}.

Definition mtx_get (mtx : mtxp) : K X mutex := s ← get; deref (mutexes s !! mtx).
Definition mtx_put (mtx : mtxp) (v : mutex) : K X unit :=
  s ← get; put (with_mutexes s (<[mtx := v]> (mutexes s))).

Definition mutex_init (mtx : mtxp) : K X unit :=
  psw ← psw_disable_and_save_interrupt;
  mtx_put mtx (Mutex 0 NULL);;
  wque_init_wait_queue (WqMutex mtx);;
  psw_restore_interrupt psw.

Definition mutex_destroy (mtx : mtxp) : K X unit :=
  psw ← psw_disable_and_save_interrupt;
  wque_wakeup (WqMutex mtx) WQUE_REASON_DESTROY;;
  mtx_put mtx (Mutex 0 NULL);;
  psw_restore_interrupt psw.

(** [++mtx->count; mtx->owner = current;] *)
Definition mutex_take (mtx : mtxp) : K X unit :=
  v ← mtx_get mtx; s ← get; mtx_put mtx (Mutex (u32 (count v + 1)) (current s)).

Definition mutex_try_hold (mtx : mtxp) : K X Z :=
  psw ← psw_disable_and_save_interrupt;
  v ← mtx_get mtx;
  rc ← (if 0 <? count v then mret EAGAIN else mutex_take mtx;; mret 0);
  psw_restore_interrupt psw;;
  mret rc.

Fixpoint mutex_hold_loop (fuel : nat) (mtx : mtxp) : K X Z :=
  v ← mtx_get mtx;
  if 0 <? count v then
    match fuel with
    | O => stopM OutOfFuel
    | S fuel =>
        reason ← wque_wait_on_queue (WqMutex mtx);
        if negb (reason =? WQUE_REASON_WAKEUP) then mret ENODEV else mutex_hold_loop fuel mtx
    end
  else mutex_take mtx;; mret 0.

Definition mutex_hold (fuel : nat) (mtx : mtxp) : K X Z :=
  psw ← psw_disable_and_save_interrupt;
  rc ← mutex_hold_loop fuel mtx;
  psw_restore_interrupt psw;;
  mret rc.

Definition mutex_release (mtx : mtxp) : K X unit :=
  psw ← psw_disable_and_save_interrupt;
  v ← mtx_get mtx; mtx_put mtx (Mutex (u32 (count v - 1)) (owner v));;
  wque_wakeup (WqMutex mtx) WQUE_REASON_WAKEUP;;
  v ← mtx_get mtx; mtx_put mtx (Mutex (count v) NULL);;
  psw_restore_interrupt psw.

Definition wque_wait_on_event_with_mutex (fuel : nat) (wq : wqp) (mtx : mtxp) : K X Z :=
  pe ← wque_sleep wq; let '(psw, ep) := pe in
  mutex_release mtx;;
  sched_schedule;;
  mutex_hold fuel mtx;;
  wque_remove_entry wq ep;;
  reason ← get_wq_reason wq;
  psw_restore_interrupt psw;;
  wque_entry_end ep;;
  mret reason.

(** ** Equations *)

Implicit Types (s : kst X) (q : Z -> list ptr) (mtx : mtxp).

Lemma mtx_get_eq s mtx v : mutexes s !! mtx = Some v -> mtx_get mtx s = Ret v s.
Proof. intros E. unfold mtx_get. mred. by rewrite E. Qed.

Lemma mutex_take_eq s mtx v :
  mutexes s !! mtx = Some v ->
  mutex_take mtx s
    = Ret tt (with_mutexes s (<[mtx := Mutex (u32 (count v + 1)) (current s)]> (mutexes s))).
Proof. intros E. unfold mutex_take, mtx_put. mred. by rewrite (mtx_get_eq _ _ v). Qed.

(** A free mutex is taken at once, with any fuel. *)
Lemma mutex_hold_free fuel s mtx o :
  mutexes s !! mtx = Some (Mutex 0 o) ->
  mutex_hold fuel mtx s
    = Ret 0 (with_mutexes s (<[mtx := Mutex 1 (current s)]> (mutexes s))).
Proof.
  intros E. unfold mutex_hold, psw_disable_and_save_interrupt, psw_restore_interrupt. mred.
  destruct fuel; cbn [mutex_hold_loop]; mred; rewrite (mtx_get_eq _ _ (Mutex 0 o)) by done; mred; cbn [count];
    rewrite Z.ltb_irrefl; mred; rewrite (mutex_take_eq _ _ (Mutex 0 o)) by done; mred; by destruct s.
Qed.

Lemma mutex_release_quiet s mtx c o :
  mutexes s !! mtx = Some (Mutex c o) -> is_ring (links s) (WqHead (WqMutex mtx)) [] ->
  mutex_release mtx s = Ret tt (with_mutexes s (<[mtx := Mutex (u32 (c - 1)) NULL]> (mutexes s))).
Proof.
  intros E R. unfold mutex_release, psw_disable_and_save_interrupt, psw_restore_interrupt, mtx_put. mred.
  rewrite (mtx_get_eq _ _ (Mutex c o)) by done. mred.
  rewrite (wque_wakeup_empty _ _ []) by (split; [done|constructor|constructor|set_solver]). mred.
  rewrite (mtx_get_eq _ _ (Mutex (u32 (c - 1)) o)) by (cbn; by rewrite lookup_insert_eq). mred.
  cbn. rewrite insert_insert_eq. by destruct s.
Qed.

(** ** Contended mutexes *)

(** The running thread [t] may wait for the mutex, which is a mutex. *)
Record runnable s mtx (t ti : ptr) (q : Z -> list ptr) (es ts : list ptr) (th : thread_t)
    (v : thread_info_t) (l1 l2 : list ptr) (c : Z) (o : ptr) : Prop := Runnable {
  rn_waiter : waiter s (WqMutex mtx) t ti q es ts th v l1 l2;
  rn_mtx : mutexes s !! mtx = Some (Mutex c o);
  rn_count : 0 <= c < 2 ^ 32
}.

Definition is_mutex mtx s : Prop := exists c o, mutexes s !! mtx = Some (Mutex c o) /\ 0 <= c < 2 ^ 32.

(** What the waiting thread relies on when it is switched back. *)
Definition woken_for mtx (t ti : ptr) s s' : Prop := woken_from (WqMutex mtx) t ti s s' /\ is_mutex mtx s'.

(** While it waits, the mutex is held by others. *)
Definition mutex_busy mtx (t : ptr) s : Prop :=
  ie s = false /\ current s <> t /\ exists c o, mutexes s !! mtx = Some (Mutex c o) /\ 0 < c.

Lemma mutex_hold_loop_wp fuel s mtx t ti :
  can_wait s (WqMutex mtx) t ti -> is_mutex mtx s ->
  wp (fun w => w = OutOfFuel) (mutex_busy mtx t) (woken_for mtx t ti) (mutex_hold_loop fuel mtx s)
    (fun rc s' => rc = 0 /\ mutexes s' !! mtx = Some (Mutex 1 t) \/
       rc = ENODEV /\ wq_reason s' !! (WqMutex mtx) <> Some WQUE_REASON_WAKEUP).
Proof.
  revert s. induction fuel as [|fuel IH]; intros s HW (c & o & Hm & Hc); cbn [mutex_hold_loop]; mred;
    rewrite (mtx_get_eq _ _ (Mutex c o)) by done; mred; cbn [count];
    destruct (Z.ltb_spec 0 c) as [H0|H0]; try done.
  2: { destruct (wque_wait_returns s (WqMutex mtx) t ti HW) as (s1 & k & E & Hie & Hc1 & Hm1 & _ & Hk). rewrite E. cbn.
    split; [split_and!; [done..|]; exists c, o; by rewrite Hm1|].
    intros s' [Hw (c' & o' & Hm' & Hc')]. destruct (Hk s' Hw) as (r & s2 & Hr & -> & HW2 & _ & Hm2 & _ & Hr2). cbn.
    destruct (Z.eqb_spec r WQUE_REASON_WAKEUP) as [->|Hne]; cbn.
    - apply IH; [done|]. exists c', o'. by rewrite Hm2.
    - right. split; [done|]. rewrite Hr2, Hr. congruence. }
  all: assert (c = 0) as -> by lia; rewrite (mutex_take_eq _ _ (Mutex 0 o)) by done; cbn; left; split; [done|];
    rewrite lookup_insert_eq; destruct HW as (?&?&?&?&?&?&?&HW); by rewrite (wt_current _ _ _ _ _ _ _ _ _ _ _ HW).
Qed.

(** Releasing a mutex others wait for, from a thread that is not the one to run next. *)
Lemma mutex_release_switch s mtx t ti q es ts th v l1 l2 c o :
  runnable s mtx t ti q es ts th v l1 l2 c o -> ts <> [] ->
  sched_next (rdq_enqueue s q ts) <> t ->
  exists s1 k, mutex_release mtx s = Switch s1 k /\
    current s1 = sched_next (rdq_enqueue s q ts) /\
    mutexes s1 = <[mtx := Mutex (u32 (c - 1)) o]> (mutexes s) /\
    forall s' th' v' c' o', threads s' !! current s' = Some th' -> tinfos s' !! ti = Some v' ->
      mutexes s' !! mtx = Some (Mutex c' o') ->
      exists s'', k s' = Ret tt s'' /\ ie s'' = ie s /\ mutexes s'' !! mtx = Some (Mutex c' NULL).
Proof.
  intros [HR Hm Hcnt] Hts Hne. destruct HR as [Hc HI HW Hth Hti Hv Hd Hp Hq Hni Hi _ _].
  set (s0 := with_mutexes (with_ie s false) (<[mtx := Mutex (u32 (c - 1)) o]> (mutexes s))).
  destruct (wque_wakeup_eq s0 q (WqMutex mtx) es ts WQUE_REASON_WAKEUP)
    as (m & b & thrs & w & E & HI1 & _ & W1 & _); [|by destruct HW|done|].
  { eapply rdq_inv_ext; [..|exact HI]; eauto. }
  set (s1 := with_wq_reason _ _) in *. cbv zeta in *.
  assert (forall t', t' ∉ ts -> threads s1 !! t' = threads s !! t') as Hkeep.
  { intros t' Ht'. cbn. by rewrite W1, decide_False. }
  assert (t ∉ ts) as Htts.
  { intros Ht. destruct (wi_sleep _ _ _ _ HW t Ht) as [St _].
    eapply sleeping_not_ready in St; [|exact HI|exact Hp]. apply St. rewrite Hq. set_solver. }
  assert (is_Some (threads s1 !! idle_thread)) as Hi1.
  { destruct Hi as [ith Hi]. cbn. rewrite W1. cbn. rewrite Hi. case_decide; by eexists. }
  unfold mutex_release, psw_disable_and_save_interrupt, psw_restore_interrupt, mtx_put. mred.
  rewrite (mtx_get_eq _ _ (Mutex c o)) by done. mred.
  match goal with |- context [wque_wakeup _ _ ?x] => change x with s0 end. rewrite E. subst ti.
  rewrite (sched_schedule_dispatch s1 (rdq_enqueue s q ts) th v);
    [|done|by rewrite Hkeep; cbn; rewrite ?Hc|done..|intros _; by eapply sched_next_exists].
  rewrite decide_False by (cbn; congruence). mred. eexists _, _. do 3 (split; [done|]).
  intros s' th' v' c' o' Ht' Hv' Hm'. rewrite (sched_resume_eq _ _ _ th' v') by done. mred.
  rewrite (mtx_get_eq _ _ (Mutex c' o')) by done. mred. eexists. split; [done|]. split; [done|].
  cbn. by rewrite lookup_insert_eq.
Qed.

(** ** Properties *)

(** C3.  Mutual exclusion and no spurious return.  However the other threads
    behave between the switches, as long as they wake the caller properly:
    [mutex_hold] gives up the processor only while the mutex is held, with
    interrupts disabled and to another thread; it returns 0 only with the count
    raised from 0 to 1 and the caller as owner, and ENODEV only when the queue
    was destroyed; the interrupt flag is restored.  The only way not to return
    is to wait forever. *)
Theorem mutex_hold_correct fuel s mtx t ti q es ts th v l1 l2 c o :
  runnable s mtx t ti q es ts th v l1 l2 c o ->
  wp (fun w => w = OutOfFuel) (mutex_busy mtx t) (woken_for mtx t ti) (mutex_hold fuel mtx s)
    (fun rc s' => ie s' = ie s /\
       (rc = 0 /\ mutexes s' !! mtx = Some (Mutex 1 t) \/
        rc = ENODEV /\ wq_reason s' !! (WqMutex mtx) <> Some WQUE_REASON_WAKEUP)).
Proof.
  intros HR. unfold mutex_hold, psw_disable_and_save_interrupt, psw_restore_interrupt. mred.
  apply wp_bind. eapply wp_mono; [|eapply (mutex_hold_loop_wp fuel (with_ie s false))].
  - cbn. intros rc s' Hrc. done.
  - replace (with_ie s false) with (with_ie (with_ext s (ext s)) false) by by destruct s.
    apply can_wait_dev. destruct HR as [HW _ _]. by exists q, es, ts, th, v, l1, l2.
  - exists c, o. split; apply HR.
Qed.

(** The uncontended path: holding a free mutex succeeds at once and makes
    the caller its owner, a further attempt reports EAGAIN without waiting or
    changing anything, and releasing it makes it free again, everything else
    unchanged. *)
Theorem mutex_uncontended fuel s mtx o :
  mutexes s !! mtx = Some (Mutex 0 o) -> is_ring (links s) (WqHead (WqMutex mtx)) [] ->
  let s1 := with_mutexes s (<[mtx := Mutex 1 (current s)]> (mutexes s)) in
  mutex_hold fuel mtx s = Ret 0 s1 /\ mutex_try_hold mtx s = Ret 0 s1 /\
  mutex_try_hold mtx s1 = Ret EAGAIN s1 /\
  mutex_release mtx s1 = Ret tt (with_mutexes s (<[mtx := Mutex 0 NULL]> (mutexes s))).
Proof.
  intros E R s1. split_and!.
  - by apply (mutex_hold_free _ _ _ o).
  - unfold mutex_try_hold, psw_disable_and_save_interrupt, psw_restore_interrupt. mred.
    rewrite (mtx_get_eq _ _ (Mutex 0 o)) by done. mred. cbn [count]. rewrite Z.ltb_irrefl. mred.
    rewrite (mutex_take_eq _ _ (Mutex 0 o)) by done. mred. by destruct s.
  - unfold mutex_try_hold, psw_disable_and_save_interrupt, psw_restore_interrupt. mred.
    rewrite (mtx_get_eq _ _ (Mutex 1 (current s))) by (cbn; by rewrite lookup_insert_eq). mred.
    by destruct s.
  - rewrite (mutex_release_quiet _ _ 1 (current s)) by (done || cbn; by rewrite lookup_insert_eq).
    cbn. by rewrite insert_insert_eq.
Qed.

(** Releasing a mutex nobody holds wraps its count to 2^32 - 1: from then
    on the mutex is held for ever, and every further attempt reports EAGAIN. *)
Theorem mutex_double_release s mtx o :
  mutexes s !! mtx = Some (Mutex 0 o) -> is_ring (links s) (WqHead (WqMutex mtx)) [] ->
  exists s', mutex_release mtx s = Ret tt s' /\
    mutexes s' !! mtx = Some (Mutex (2 ^ 32 - 1) NULL) /\ mutex_try_hold mtx s' = Ret EAGAIN s'.
Proof.
  intros E R. rewrite (mutex_release_quiet _ _ 0 o) by done. eexists. split; [done|].
  cbn [mutexes with_mutexes]. rewrite lookup_insert_eq. split; [done|].
  unfold mutex_try_hold, psw_disable_and_save_interrupt, psw_restore_interrupt. mred.
  erewrite mtx_get_eq by (cbn; by rewrite lookup_insert_eq). mred. by destruct s.
Qed.

(** C34.  What [mutex_release] does to the next owner.  When it wakes a thread
    that runs first, the mutex is free at the switch; but when the releasing
    thread comes back it clears [owner] whatever happened meanwhile, so a mutex
    another thread took and still holds ([Mutex c' o'] with [c' = 1]) is left
    held with no owner. *)
Theorem mutex_release_clears_next_owner s mtx t ti q es ts th v l1 l2 o :
  runnable s mtx t ti q es ts th v l1 l2 1 o -> ts <> [] ->
  sched_next (rdq_enqueue s q ts) <> t ->
  exists s1 k, mutex_release mtx s = Switch s1 k /\ current s1 = sched_next (rdq_enqueue s q ts) /\
    mutexes s1 !! mtx = Some (Mutex 0 o) /\
    forall s' th' v' t', threads s' !! current s' = Some th' -> tinfos s' !! ti = Some v' ->
      mutexes s' !! mtx = Some (Mutex 1 t') ->
      exists s'', k s' = Ret tt s'' /\ mutexes s'' !! mtx = Some (Mutex 1 NULL).
Proof.
  intros HR Hts Hne.
  destruct (mutex_release_switch s mtx t ti q es ts th v l1 l2 1 o) as (s1 & k & E & Hc & Hm & Hk); [done..|].
  exists s1, k. split_and!; [done..|by rewrite Hm, lookup_insert_eq|].
  intros s' th' v' t' Ht' Hv' Hm'. destruct (Hk s' th' v' 1 t') as (s'' & ? & _ & ?); [done..|]. eauto.
Qed.
End mutex.

(** Thread 100 (priority 2) runs; thread 101 (priority 5) waits for the mutex
    [MtxObj 0], which 100 holds; the mutex [MtxObj 1] is free. *)
Definition demo_mutex_links : gmap loc (node loc) :=
  <[WqHead (WqMutex (MtxObj 0)) := Node (WqeLink 7) (WqeLink 7)]>
  (<[WqeLink 7 := Node (WqHead (WqMutex (MtxObj 0))) (WqHead (WqMutex (MtxObj 0)))]>
  (<[WqHead (WqMutex (MtxObj 1)) := Node (WqHead (WqMutex (MtxObj 1))) (WqHead (WqMutex (MtxObj 1)))]>
   demo_wait_links)).

Definition demo_mutex : kst unit :=
  with_mutexes (with_wq_reason (with_links demo_wait demo_mutex_links)
    (<[WqMutex (MtxObj 0) := 0]> {[WqMutex (MtxObj 1) := 0]}))
    (<[MtxObj 0 := Mutex 1 100]> {[MtxObj 1 := Mutex 0 NULL]}).

Lemma demo_mutex_runnable :
  runnable demo_mutex (MtxObj 0) 100 0x2000 demo_wait_q [7] [101]
    (Thread 0 1 0x2000 0 (ThreadAttr 0 0 0 2) 10 []) (ThreadInfo 0 100 THR_THREAD_INFO_MAGIC) [] [] 1 100.
Proof.
  split; [|done|done]. split; try done.
  - split; [|apply demo_wait_rdq..|].
    + apply demo_heads. repeat (constructor; [ring_decide|]). constructor.
    + intros p t Hp Ht. destruct (rq_prio _ _ demo_wait_rdq p t) as (th & ? & ?); [done..|]. by exists th.
  - split; [ring_decide|by repeat constructor|apply NoDup_singleton|].
    intros t ->%list_elem_of_singleton. split; [ring_decide|]. by eexists.
Qed.

Lemma mutex_hold_correct_witness :
  wp (fun w => w = OutOfFuel) (mutex_busy (MtxObj 0) 100) (woken_for (MtxObj 0) 100 0x2000)
    (mutex_hold 1 (MtxObj 0) demo_mutex)
    (fun rc s' => ie s' = true /\
       (rc = 0 /\ mutexes s' !! MtxObj 0 = Some (Mutex 1 100) \/
        rc = ENODEV /\ wq_reason s' !! (WqMutex (MtxObj 0)) <> Some WQUE_REASON_WAKEUP)).
Proof. exact (mutex_hold_correct 1 _ _ _ _ _ _ _ _ _ _ _ _ _ demo_mutex_runnable). Defined.

Lemma mutex_uncontended_witness :
  mutex_try_hold (MtxObj 1) (with_mutexes demo_mutex (<[MtxObj 1 := Mutex 1 100]> (mutexes demo_mutex)))
  = Ret EAGAIN (with_mutexes demo_mutex (<[MtxObj 1 := Mutex 1 100]> (mutexes demo_mutex))).
Proof.
  apply (mutex_uncontended 0 demo_mutex (MtxObj 1) NULL); [vm_compute; reflexivity|ring_decide].
Defined.

Lemma mutex_release_clears_next_owner_witness :
  exists s1 k, mutex_release (MtxObj 0) demo_mutex = Switch s1 k /\
    mutexes s1 !! MtxObj 0 = Some (Mutex 0 100).
Proof.
  destruct (mutex_release_clears_next_owner _ _ _ _ _ _ _ _ _ _ _ _ demo_mutex_runnable)
    as (s1 & k & E & _ & Hm & _); [done|vm_compute; discriminate|].
  exists s1, k. exact (conj E Hm).
Defined.

Lemma mutex_double_release_witness :
  exists s', mutex_release (MtxObj 1) demo_mutex = Ret tt s' /\ mutex_try_hold (MtxObj 1) s' = Ret EAGAIN s'.
Proof.
  destruct (mutex_double_release demo_mutex (MtxObj 1) NULL) as (s' & E & _ & E');
    [vm_compute; reflexivity|ring_decide|].
  exists s'. exact (conj E E').
Defined.
