(* ===== verification/Timer.v ===== *)
(** kern/timer.c: the uptime counter, the call-out queue and time slices.

    A call-out entry is an address with its record in [callouts] and its list
    node at [CalloutLink]; the queue is the ring at [CalloutHead], which
    [callout_add] keeps sorted by expiry.  The functions call-outs run are
    given by [call_callout], the meaning of a function pointer; the time slice
    is the configuration value CONFIG_TIMER_TIME_SLICE.  The walks over the
    queue are bounded by the number of call-out objects. *)
From stdpp Require Import sorting.
From S2P Require Import Prelude Bitops KList Kernel ThreadInfo ReadyQueue Sched WaitQueue.

Section timer.
Context {X : Type}.

Definition co_get (c : ptr) : K X call_out_ent := s ← get; deref (callouts s !! c).
Definition co_put (c : ptr) (v : call_out_ent) : K X unit :=
  s ← get; _ ← deref (callouts s !! c); put (with_callouts s (<[c := v]> (callouts s))).

(** [CONTAINER_OF(lp, call_out_ent, link)] *)
Definition callout_of_link (l : loc) : K X ptr :=
  match l with CalloutLink c => mret c | _ => stopM Fault end.

(** kern/thread.c *)
Definition thr_is_round_robin_thread (t : ptr) : K X bool :=
  psw ← psw_disable_and_save_interrupt;
  th ← thr_get t;
  let rc := prio (attr th) =? RDQ_USER_RR_PRIORITY in
  psw_restore_interrupt psw;;
  mret rc.

Definition callout_ent_init (entp : ptr) (fn : fptr) (priv : Z) : K X unit :=
  lk_upd (fun m => init_list_node m (CalloutLink entp));;
  co_put entp (CallOutEnt 0 fn priv).

(** The search of [callout_add]: insert before the first entry that does not
    expire earlier; [false] when there is none. *)
Fixpoint callout_insert_loop (fuel : nat) (entp : ptr) (abs_expire : Z) (lp : loc) : K X bool :=
  if decide (lp = CalloutHead) then mret false
  else match fuel with
       | O => stopM OutOfFuel
       | S fuel =>
           next_ent ← lk_rd (fun m => rd_next m lp);
           c ← callout_of_link lp;
           cur ← co_get c;
           if abs_expire <=? expire cur
           then lk_upd (fun m => list_insert_at m (CalloutLink c) (CalloutLink entp));; mret true
           else callout_insert_loop fuel entp abs_expire next_ent
       end.

Definition callout_add (entp : ptr) (rel_expire : Z) : K X Z :=
  kassert (negb (entp =? NULL));;
  ent ← co_get entp;
  linked ← (if callout ent =? NULL then mret true
            else lk_rd (fun m => list_is_linked m (CalloutLink entp)));
  if (linked : bool) then mret EINVAL
  else
    psw ← psw_disable_and_save_interrupt;
    s ← get; let abs_expire := u64 (uptime s + rel_expire) in
    co_put entp (CallOutEnt abs_expire (callout ent) (private ent));;
    lk_upd (fun m => init_list_node m (CalloutLink entp));;
    lp ← lk_rd (fun m => list_ref_top m CalloutHead);
    _ ← lk_rd (fun m => rd_next m lp);
    s ← get;
    found ← callout_insert_loop (size (callouts s)) entp abs_expire lp;
    (if (found : bool) then mret tt else lk_upd (fun m => list_add m CalloutHead (CalloutLink entp)));;
    psw_restore_interrupt psw;;
    mret 0.

(** First loop of [handle_callouts]: move what has expired to the list [h]. *)
Fixpoint callout_collect_loop (fuel : nat) (h : loc) (lp : loc) : K X unit :=
  if decide (lp = CalloutHead) then mret tt
  else match fuel with
       | O => stopM OutOfFuel
       | S fuel =>
           next_ent ← lk_rd (fun m => rd_next m lp);
           c ← callout_of_link lp;
           cur ← co_get c;
           s ← get;
           when (expire cur <=? uptime s)
             (lk_upd (fun m => list_del m lp);; lk_upd (fun m => list_add m h lp));;
           callout_collect_loop fuel h next_ent
       end.

(** Second loop: call what was collected. *)
Fixpoint callout_call_loop (call_callout : fptr -> Z -> K X unit) (fuel : nat) (h : loc) : K X unit :=
  e ← lk_rd (fun m => list_is_empty m h);
  if (e : bool) then mret tt
  else match fuel with
       | O => stopM OutOfFuel
       | S fuel =>
           lp ← lk_fn (fun m => list_get_top m h);
           c ← callout_of_link lp;
           cur ← co_get c;
           psw_enable_interrupt;;
           call_callout (callout cur) (private cur);;
           psw_disable_interrupt;;
           callout_call_loop call_callout fuel h
       end.

Definition handle_callouts (call_callout : fptr -> Z -> K X unit) : K X unit :=
  n ← new_local; let h := LocalHead n in
  s ← get; put (with_links s (<[h := Node h h]> (links s)));;
  lk_upd (fun m => init_list_head m h);;
  psw ← psw_disable_and_save_interrupt;
  lp ← lk_rd (fun m => list_ref_top m CalloutHead);
  _ ← lk_rd (fun m => rd_next m lp);
  s ← get;
  callout_collect_loop (size (callouts s)) h lp;;
  psw_restore_interrupt psw;;
  psw ← psw_disable_and_save_interrupt;
  callout_call_loop call_callout (size (callouts s)) h;;
  psw_restore_interrupt psw;;
  s ← get; put (with_links s (delete h (links s))).

Definition timer_update_uptime (call_callout : fptr -> Z -> K X unit) : K X unit :=
  psw ← psw_disable_and_save_interrupt;
  s ← get; put (with_uptime s (u64 (uptime s + 1)));;
  psw_restore_interrupt psw;;
  handle_callouts call_callout.

Definition timer_update_thread_time (time_slice : Z) : K X unit :=
  psw ← psw_disable_and_save_interrupt;
  s ← get;
  (if current s =? idle_refer_idle_thread then mret tt
   else
     rr ← thr_is_round_robin_thread (current s);
     if negb rr then mret tt
     else
       th ← thr_get (current s);
       when (0 <? slice th) (thr_put (current s) (with_slice th (slice th - 1)));;
       th ← thr_get (current s);
       when (slice th =? 0)
         (thr_put (current s) (with_slice th time_slice);;
          sched_rotate_queue;;
          sched_schedule));;
  psw_restore_interrupt psw.

(** ** The queue *)

Implicit Types (s : kst X) (cs : list ptr).

(** The entries of the queue, each with its record. *)
Definition callout_inv s cs : Prop :=
  is_ring (links s) CalloutHead (CalloutLink <$> cs) /\
  forall c, c ∈ cs -> is_Some (callouts s !! c).

Definition expire_of s (c : ptr) : Z := default 0 (expire <$> callouts s !! c).

Lemma co_get_eq s c v : callouts s !! c = Some v -> co_get c s = Ret v s.
Proof. intros E. unfold co_get. mred. by rewrite E. Qed.

Definition head_loc cs : loc := default CalloutHead (head (CalloutLink <$> cs)).

(** The search walks over the entries that expire earlier. *)
Lemma callout_insert_loop_spec fuel s l1 l2 e abs :
  (length l2 <= fuel)%nat -> callout_inv s (l1 ++ l2) -> e ∉ l1 ++ l2 ->
  is_Some (links s !! CalloutLink e) ->
  exists a b, l2 = a ++ b /\ Forall (fun c => expire_of s c < abs) a /\
    (forall c, head b = Some c -> abs <= expire_of s c) /\
    match b with
    | [] => callout_insert_loop fuel e abs (head_loc l2) s = Ret false s
    | _ => exists m, callout_insert_loop fuel e abs (head_loc l2) s = Ret true (with_links s m) /\
        is_ring m CalloutHead (CalloutLink <$> (l1 ++ a ++ e :: b)) /\
        frame (links s) m (CalloutLink e :: CalloutHead :: (CalloutLink <$> (l1 ++ l2)))
    end.
Proof.
  revert fuel l1. induction l2 as [|c l2 IH]; intros fuel l1 Hf HI He Hl.
  - exists [], []. split_and!; [done|constructor|done|]. destruct fuel; done.
  - destruct fuel as [|fuel]; [cbn in Hf; lia|]. destruct HI as [HR HC].
    destruct (HC c) as [v Hv]; [set_solver|].
    assert (expire_of s c = expire v) as Ev by (unfold expire_of; by rewrite Hv).
    assert (rd_next (links s) (CalloutLink c) = Some (head_loc l2)) as Hn.
    { rewrite fmap_app in HR. by apply ring_next in HR. }
    assert (forall B (f : loc -> K X B), (x ← lk_rd (fun m => rd_next m (CalloutLink c)); f x) s
      = f (head_loc l2) s) as Hrd.
    { intros B f. mred. by rewrite (lk_rd_eq _ _ (head_loc l2)). }
    assert (callout_insert_loop (S fuel) e abs (head_loc (c :: l2)) s =
      (if abs <=? expire v
       then lk_upd (fun m => list_insert_at m (CalloutLink c) (CalloutLink e));; mret true
       else callout_insert_loop fuel e abs (head_loc l2)) s) as Eq.
    { change (head_loc (c :: l2)) with (CalloutLink c). cbn [callout_insert_loop].
      rewrite decide_False by done.
      rewrite Hrd. cbn [callout_of_link]. mred.
      rewrite (co_get_eq _ _ v) by done. mred. by destruct (_ <=? _). }
    destruct (Z.leb_spec abs (expire v)) as [Hle|Hlt].
    + exists [], (c :: l2). split_and!; [done|constructor|by intros ? [= <-]; rewrite Ev|].
      destruct (list_insert_at_ring (links s) CalloutHead (CalloutLink <$> l1) (CalloutLink <$> (c :: l2))
        (CalloutLink c) ((CalloutLink <$> l2) ++ [CalloutHead]) (CalloutLink e)) as (m & Em & R & F).
      { by rewrite <-fmap_app. } { done. } { set_solver. } { done. }
      exists m. rewrite Eq. mred. rewrite (lk_upd_eq _ _ m) by done. mred.
      split_and!; [done|by rewrite !fmap_app|by rewrite !fmap_app].
    + destruct (IH fuel (l1 ++ [c])) as (a & b & -> & Ha & Hb & HE).
      { cbn in Hf. lia. } { split; rewrite <-app_assoc; done. } { by rewrite <-app_assoc. } { done. }
      exists (c :: a), b. split_and!; [done|constructor; [lia|done]|done|].
      rewrite Eq. destruct b; [done|]. destruct HE as (m & E & R & F). exists m.
      rewrite <-!app_assoc in *. cbn in *. done.
Qed.

Lemma co_put_eq s c v v' :
  callouts s !! c = Some v -> co_put c v' s = Ret tt (with_callouts s (<[c := v']> (callouts s))).
Proof. intros E. unfold co_put. mred. by rewrite E. Qed.

(** The call-out objects are enough fuel for a walk over the queue. *)
Lemma callout_size s cs : callout_inv s cs -> (length cs <= size (callouts s))%nat.
Proof.
  intros [[HN _] HC]. apply NoDup_cons in HN as [_ HN]. apply NoDup_fmap_1 in HN.
  rewrite <-(size_list_to_set (C := gset ptr) cs), <-size_dom by done. apply subseteq_size.
  intros c. rewrite elem_of_list_to_set, elem_of_dom. apply HC.
Qed.

Lemma callout_top s cs :
  callout_inv s cs -> list_ref_top (links s) CalloutHead = Some (head_loc cs).
Proof. intros [HR _]. by rewrite (list_ref_top_ring _ _ _ HR). Qed.

Lemma callout_top_next s cs :
  callout_inv s cs -> exists l, rd_next (links s) (head_loc cs) = Some l.
Proof.
  intros [HR _]. destruct (is_ring_dom _ _ _ (head_loc cs) HR) as [n Hn].
  - destruct cs; cbn; set_solver.
  - unfold rd_next. rewrite Hn. by eexists.
Qed.

(** [callout_add] on an unlinked entry with a function. *)
Lemma callout_add_eq s cs e v rel :
  callout_inv s cs -> e <> NULL -> callouts s !! e = Some v -> callout v <> NULL ->
  is_ring (links s) (CalloutLink e) [] ->
  let abs := u64 (uptime s + rel) in
  exists a b m, cs = a ++ b /\
    let s' := with_callouts (with_links s m)
                (<[e := CallOutEnt abs (callout v) (private v)]> (callouts s)) in
    callout_add e rel s = Ret 0 s' /\ callout_inv s' (a ++ e :: b) /\
    Forall (fun c => expire_of s c < abs) a /\ (forall c, head b = Some c -> abs <= expire_of s c).
Proof.
  intros HI He Hv Hcb HS abs. assert (e ∉ cs) as Hecs.
  { intros Hin. eapply ring_not_self; [apply HI| |exact HS]. apply list_elem_of_fmap. eauto. }
  set (s1 := with_callouts (with_ie s false) (<[e := CallOutEnt abs (callout v) (private v)]> (callouts s))).
  assert (forall c, c ∈ cs -> expire_of s1 c = expire_of s c) as Hex.
  { intros c Hc. unfold expire_of, s1. cbn. rewrite lookup_insert_ne; [done|]. by intros ->. }
  assert (callout_inv s1 cs) as HI1.
  { destruct HI as [HR HC]. split; [done|]. intros c Hc. cbn. apply lookup_insert_is_Some'. auto. }
  destruct (callout_insert_loop_spec (size (callouts s1)) s1 [] cs e abs) as (a & b & Hcs & Ha & Hb & HE).
  { by apply callout_size. } { done. } { done. } { eapply is_ring_dom; [done|set_solver]. }
  destruct (callout_top_next _ _ HI1) as [l Hl].
  assert (callout_add e rel s = (found ← callout_insert_loop (size (callouts s1)) e abs (head_loc cs);
    (if (found : bool) then mret tt else lk_upd (fun m => list_add m CalloutHead (CalloutLink e)));;
    psw_restore_interrupt (ie s);; mret 0) s1) as Eq.
  { unfold callout_add, psw_disable_and_save_interrupt. rewrite (proj2 (Z.eqb_neq _ _)) by done.
    cbn [negb]. mred. rewrite (co_get_eq _ _ v) by done. mred. rewrite (proj2 (Z.eqb_neq _ _)) by done. mred.
    rewrite (lk_rd_eq _ _ false) by (by apply list_is_linked_self). mred.
    rewrite (co_put_eq _ _ v) by done. mred.
    rewrite (lk_upd_eq _ _ (links s)) by (by apply init_list_node_self). mred.
    rewrite (lk_rd_eq _ _ (head_loc cs)) by (by apply (callout_top s1)). mred.
    rewrite (lk_rd_eq _ _ l) by done. mred. done. }
  assert (Forall (fun c => expire_of s c < abs) a /\ (forall c, head b = Some c -> abs <= expire_of s c)) as Hab.
  { split.
    - rewrite Forall_forall in *. intros c Hc. rewrite <-Hex by set_solver. auto.
    - intros c Hc. rewrite <-Hex; [auto|]. subst cs. destruct b; simplify_eq/=. set_solver. }
  assert (exists m, callout_add e rel s = Ret 0 (with_ie (with_links s1 m) (ie s)) /\
    is_ring m CalloutHead (CalloutLink <$> (a ++ e :: b))) as (m & E & R).
  { rewrite Eq. unfold psw_restore_interrupt. mred. destruct b as [|c b].
    - rewrite HE. mred. rewrite app_nil_r in Hcs. subst a.
      destruct (list_add_ring (links s1) CalloutHead (CalloutLink <$> cs) (CalloutLink e)) as (m & Em & R & F).
      { apply HI. } { set_solver. } { eapply is_ring_dom; [done|set_solver]. }
      rewrite (lk_upd_eq _ _ m) by done. mred. exists m. rewrite fmap_app. done.
    - destruct HE as (m & -> & R & F). mred. by exists m. }
  exists a, b, m. split; [done|]. rewrite E. split_and!; [by destruct s| |apply Hab..].
  split; [done|]. intros c Hc. cbn. apply lookup_insert_is_Some'.
  destruct (decide (e = c)); [by left|right]. apply HI. subst cs. set_solver.
Qed.

(** Refused requests change nothing. *)
Lemma callout_add_refused s e v rel cs :
  e <> NULL -> callouts s !! e = Some v ->
  callout v = NULL \/ callout_inv s cs /\ e ∈ cs -> callout_add e rel s = Ret EINVAL s.
Proof.
  intros He Hv Hc. unfold callout_add. rewrite (proj2 (Z.eqb_neq _ _)) by done. cbn [negb]. mred.
  rewrite (co_get_eq _ _ v) by done. mred. destruct (Z.eqb_spec (callout v) NULL); [done|].
  destruct Hc as [?|[[HR _] Hin]]; [done|].
  rewrite (lk_rd_eq _ _ true); [done|]. eapply list_is_linked_ring; [done|]. set_solver.
Qed.

(** ** Expiry *)

Definition expired s cs : list ptr := filter (fun c => expire_of s c <= uptime s) cs.
Definition pending s cs : list ptr := filter (fun c => uptime s < expire_of s c) cs.

Lemma callout_collect_loop_spec fuel s h n l1 l2 xs :
  (length l2 <= fuel)%nat -> h = LocalHead n -> callout_inv s (l1 ++ l2) ->
  is_ring (links s) h (CalloutLink <$> xs) -> (forall c, c ∈ xs -> c ∉ l1 ++ l2) ->
  exists m, callout_collect_loop fuel h (head_loc l2) s = Ret tt (with_links s m) /\
    is_ring m CalloutHead (CalloutLink <$> (l1 ++ pending s l2)) /\
    is_ring m h (CalloutLink <$> (xs ++ expired s l2)) /\
    frame (links s) m (h :: CalloutHead :: (CalloutLink <$> (xs ++ l1 ++ l2))).
Proof.
  intros Hf Hh. revert fuel Hf s l1 xs. induction l2 as [|c l2 IH]; intros fuel Hf s l1 xs HI Hx HD.
  { exists (links s). unfold pending, expired. rewrite !filter_nil, !app_nil_r in *.
    destruct HI. split_and!; [destruct fuel; by destruct s|done..]. }
  destruct fuel as [|fuel]; [cbn in Hf; lia|]. destruct HI as [HR HC].
  destruct (HC c) as [v Hv]; [set_solver|].
  assert (expire_of s c = expire v) as Ev by (unfold expire_of; by rewrite Hv).
  assert (rd_next (links s) (CalloutLink c) = Some (head_loc l2)) as Hn.
  { rewrite fmap_app in HR. by apply ring_next in HR. }
  assert (callout_collect_loop (S fuel) h (head_loc (c :: l2)) s =
    (when (expire v <=? uptime s) (lk_upd (fun m => list_del m (CalloutLink c));;
       lk_upd (fun m => list_add m h (CalloutLink c)));;
     callout_collect_loop fuel h (head_loc l2)) s) as Eq.
  { change (head_loc (c :: l2)) with (CalloutLink c). cbn [callout_collect_loop].
    rewrite decide_False by done. mred. rewrite (lk_rd_eq _ _ (head_loc l2)) by done. mred.
    cbn [callout_of_link]. mred. rewrite (co_get_eq _ _ v) by done. mred. done. }
  rewrite Eq. mred. unfold pending, expired. destruct (Z.leb_spec (expire v) (uptime s)) as [Hle|Hlt].
  - rewrite filter_cons_False, filter_cons_True by lia. rewrite fmap_app in HR. cbn in HR.
    destruct (list_del_ring _ _ _ _ _ HR) as (m1 & E1 & R1 & S1 & F1). rewrite <-fmap_app in R1.
    assert (is_ring m1 h (CalloutLink <$> xs)) as Hx1.
    { eapply is_ring_frame; [exact F1| |exact Hx]. subst h. set_solver. }
    destruct (list_add_ring _ _ _ (CalloutLink c) Hx1) as (m2 & E2 & R2 & F2).
    { subst h. specialize (HD c). set_solver. } { eapply is_ring_dom; [exact S1|set_solver]. }
    rewrite (lk_upd_eq _ _ m1) by done. mred. rewrite (lk_upd_eq _ _ m2) by done. mred.
    assert (NoDup (l1 ++ c :: l2)) as HN.
    { apply (NoDup_fmap_1 CalloutLink). rewrite fmap_app. destruct HR as [HN _].
      by apply NoDup_cons in HN as [_ HN]. }
    destruct (IH fuel ltac:(cbn in Hf; lia) (with_links s m2) l1 (xs ++ [c])) as (m & E & R & Rx & F).
    { split; [|intros c' Hc'; apply HC; set_solver]. eapply is_ring_frame; [exact F2| |exact R1].
      subst h. intros y Hy. rewrite <-Permutation_middle in HN. apply NoDup_cons in HN as [HN _]. set_solver. }
    { by rewrite fmap_app. }
    { rewrite <-Permutation_middle in HN. apply NoDup_cons in HN as [HN _]. set_solver. }
    exists m. split_and!; [exact E|exact R|by rewrite <-app_assoc in Rx|].
    eapply frame_weaken; [|exact (frame_trans _ _ _ _ _ (frame_trans _ _ _ _ _ F1 F2) F)]. set_solver.
  - rewrite filter_cons_True, filter_cons_False by lia.
    destruct (IH fuel ltac:(cbn in Hf; lia) s (l1 ++ [c]) xs) as (m & E & R & Rx & F).
    { by rewrite <-app_assoc. } { done. } { by rewrite <-app_assoc. }
    exists m. rewrite <-app_assoc in R, F. done.
Qed.

Lemma is_ring_agree (m m' : gmap loc (node loc)) h xs :
  (forall y, y ∈ h :: xs -> m' !! y = m !! y) -> is_ring m h xs -> is_ring m' h xs.
Proof.
  intros HA [HN HP]. split; [done|]. change (h :: xs ++ [h]) with ((h :: xs) ++ [h]) in *.
  eapply path_frame; [done|..]; intros y Hy; unfold rd_next, rd_prev; rewrite HA; try done.
  cbn in Hy. set_solver.
Qed.

Definition timer_link (l : loc) : Prop :=
  match l with CalloutHead | CalloutLink _ | LocalHead _ => True | _ => False end.

(** ** Properties *)

Definition callout_sorted s cs : Prop := StronglySorted Z.le (expire_of s <$> cs).

Lemma callout_sorted_insert s s' a e b :
  (forall c, c ∈ a ++ b -> expire_of s' c = expire_of s c) ->
  Forall (fun c => expire_of s c < expire_of s' e) a ->
  (forall c, head b = Some c -> expire_of s' e <= expire_of s c) ->
  callout_sorted s (a ++ b) -> callout_sorted s' (a ++ e :: b).
Proof.
  unfold callout_sorted. intros Hex Ha Hb HS.
  assert (expire_of s' <$> a = expire_of s <$> a) as Ea
    by (apply list_fmap_ext; intros ? c Hc; apply Hex; apply list_elem_of_lookup_2 in Hc; set_solver).
  assert (expire_of s' <$> b = expire_of s <$> b) as Eb
    by (apply list_fmap_ext; intros ? c Hc; apply Hex; apply list_elem_of_lookup_2 in Hc; set_solver).
  rewrite fmap_app in *. cbn. rewrite Ea, Eb. apply StronglySorted_app in HS as (Hab & Sa & Sb).
  apply StronglySorted_app. split_and!; [|done|].
  - intros x y Hx Hy. rewrite elem_of_cons in Hy. destruct Hy as [->|Hy]; [|by apply Hab].
    apply list_elem_of_fmap in Hx as (c & -> & Hc). rewrite Forall_forall in Ha. apply Ha in Hc. lia.
  - constructor; [done|]. destruct b as [|c b]; [constructor|]. cbn in *. specialize (Hb c eq_refl).
    apply StronglySorted_inv in Sb as [_ Sb]. constructor; [done|].
    eapply Forall_impl; [exact Sb|]. intros x Hx. cbn in Hx. lia.
Qed.

(** C32.  [callout_add] puts an unlinked entry, with its expiry counted from
    now, before the first entry that does not expire earlier; the rest of the
    queue keeps its order, and a sorted queue stays sorted. *)
Theorem callout_add_correct s cs e v rel :
  callout_inv s cs -> e <> NULL -> callouts s !! e = Some v -> callout v <> NULL ->
  is_ring (links s) (CalloutLink e) [] ->
  exists a b s', cs = a ++ b /\ callout_add e rel s = Ret 0 s' /\ callout_inv s' (a ++ e :: b) /\
    expire_of s' e = u64 (uptime s + rel) /\ ie s' = ie s /\
    Forall (fun c => expire_of s c < u64 (uptime s + rel)) a /\
    (callout_sorted s cs -> callout_sorted s' (a ++ e :: b)).
Proof.
  intros HI He Hv Hcb HS. destruct (callout_add_eq s cs e v rel) as (a & b & m & Ecs & E & HI' & Ha & Hb); [done..|].
  cbv zeta in *. set (s' := with_callouts _ _) in *. exists a, b, s'.
  assert (expire_of s' e = u64 (uptime s + rel)) as Ee.
  { unfold expire_of, s'. cbn. by rewrite lookup_insert_eq. }
  split_and!; try done. intros Hs. eapply (callout_sorted_insert s); rewrite ?Ee; try done; [|by subst cs].
  intros c Hc. unfold expire_of, s'. cbn. rewrite lookup_insert_ne; [done|]. intros ->.
  eapply ring_not_self; [apply HI| |exact HS]. apply list_elem_of_fmap. subst cs. eauto.
Qed.

Section calls.
Variable call_callout : fptr -> Z -> K X unit.

(** What the queue relies on of the functions it calls: they return, they leave
    the call-out lists and records alone.  [calls] is a record of the calls,
    kept by the functions in the part of the state the timer does not see.
    [Inv] is what they may assume and keep, a property of the state that does not
    depend on the timer's own lists. *)
Variable calls : X -> list (fptr * Z).
Variable Inv : kst X -> Prop.
Hypothesis Inv_own : forall s m n b, (forall l, ~ timer_link l -> m !! l = links s !! l) ->
  Inv s -> Inv (with_ie (with_nlocal (with_links s m) n) b).
Hypothesis callout_returns : forall f a s, Inv s -> exists s', call_callout f a s = Ret tt s' /\
  calls (ext s') = calls (ext s) ++ [(f, a)] /\ callouts s' = callouts s /\
  (forall l, timer_link l -> links s' !! l = links s !! l) /\ Inv s'.

Definition call_of s (c : ptr) : fptr * Z :=
  match callouts s !! c with Some v => (callout v, private v) | None => (NULL, 0) end.

Lemma callout_call_loop_spec fuel s n xs :
  let h := LocalHead n in
  (length xs <= fuel)%nat -> is_ring (links s) h (CalloutLink <$> xs) ->
  (forall c, c ∈ xs -> is_Some (callouts s !! c)) -> ie s = false -> Inv s ->
  exists s', callout_call_loop call_callout fuel h s = Ret tt s' /\ ie s' = false /\ Inv s' /\
    calls (ext s') = calls (ext s) ++ (call_of s <$> xs) /\ callouts s' = callouts s /\
    is_ring (links s') h [] /\ (forall c, c ∈ xs -> is_ring (links s') (CalloutLink c) []) /\
    (forall l, timer_link l -> l ∉ h :: (CalloutLink <$> xs) -> links s' !! l = links s !! l).
Proof.
  intros h. revert fuel s. induction xs as [|c xs IH]; intros fuel s Hf HR HC Hie HV.
  { exists s. rewrite app_nil_r. split_and!; [|done..|set_solver|done].
    destruct fuel; cbn [callout_call_loop]; by rewrite (bind_ret _ _ _ _ _ (lk_empty_eq _ _ _ HR)). }
  destruct fuel as [|fuel]; [cbn in Hf; lia|]. cbn in Hf.
  destruct (HC c) as [v Hv]; [set_solver|].
  destruct (list_get_top_ring _ _ _ _ HR) as (m1 & E1 & R1 & S1 & F1).
  destruct (callout_returns (callout v) (private v) (with_ie (with_links s m1) true))
    as (s2 & E2 & L2 & C2 & T2 & V2).
  { apply (Inv_own s m1 (nlocal s) true); [|done]. intros l Hl. apply F1. intros Hin. apply Hl. subst h. set_unfold.
    destruct Hin as [->|[->|(? & -> & _)]]; done. }
  assert (NoDup (c :: xs)) as [Hcx _]%NoDup_cons.
  { apply (NoDup_fmap_1 CalloutLink). destruct HR as [HN _]. by apply NoDup_cons in HN as [_ ?]. }
  destruct (IH fuel (with_ie s2 false)) as (s' & E & Hie' & V & L & C & R & S & T).
  { lia. }
  { eapply is_ring_agree; [|exact R1]. intros y Hy. apply T2. subst h. set_unfold.
    destruct Hy as [->|(? & -> & _)]; done. }
  { intros c' Hc'. cbn. rewrite C2. apply HC. set_solver. }
  { done. }
  { apply (Inv_own s2 (links s2) (nlocal s2) false); [done|]. exact V2. }
  exists s'. split_and!.
  - cbn [callout_call_loop]. rewrite (bind_ret _ _ _ _ _ (lk_empty_eq _ _ _ HR)). cbn.
    rewrite (bind_ret _ _ _ _ _ (lk_fn_eq _ _ _ _ E1)). cbn. rewrite <-E. unfold co_get. mred. cbn.
    rewrite Hv. mred. unfold psw_enable_interrupt, psw_disable_interrupt. mred. by rewrite E2.
  - done.
  - done.
  - rewrite L. cbn. rewrite L2. cbn. rewrite <-app_assoc. cbn. f_equal. f_equal.
    + unfold call_of. by rewrite Hv.
    + apply list_fmap_ext. intros i c' Hc'. unfold call_of. cbn. by rewrite C2.
  - rewrite C. exact C2.
  - done.
  - intros c' Hc'. destruct (decide (c' ∈ xs)); [by apply S|]. assert (c' = c) as -> by set_solver.
    eapply is_ring_agree; [|exact S1]. intros y ->%list_elem_of_singleton.
    rewrite T; [|done|subst h; set_solver]. by apply T2.
  - intros l Hl Hnl. cbn in Hnl. rewrite T; [|done|set_solver]. cbn. rewrite T2 by done. cbn.
    apply F1. set_solver.
Qed.

Lemma handle_callouts_spec s cs :
  callout_inv s cs -> Inv s -> links s !! LocalHead (nlocal s) = None ->
  exists s', handle_callouts call_callout s = Ret tt s' /\ ie s' = ie s /\
    calls (ext s') = calls (ext s) ++ (call_of s <$> expired s cs) /\
    callout_inv s' (pending s cs) /\
    (forall c, c ∈ expired s cs -> is_ring (links s') (CalloutLink c) []) /\ Inv s'.
Proof.
  intros HI HV Hfresh. set (h := LocalHead (nlocal s)).
  set (m0 := <[h := Node h h]> (links s)).
  set (s0 := with_ie (with_links (with_nlocal s (nlocal s + 1)) m0) false).
  assert (is_ring m0 h []) as Rh.
  { apply lk_self_ring. unfold lk, rd_next, rd_prev, m0. by rewrite lookup_insert_eq. }
  assert (callout_inv s0 cs) as HI0.
  { destruct HI as [HR HC]. split; [|done]. by apply is_ring_insert. }
  destruct (callout_collect_loop_spec (size (callouts s)) s0 h (nlocal s) [] cs [])
    as (m & E1 & R1 & Rx & F1); [by apply (callout_size s)|done|done|done|set_solver|].
  change (expired s0 cs) with (expired s cs) in *. change (pending s0 cs) with (pending s cs) in *.
  set (s1 := with_links s0 m).
  assert (forall c, c ∈ expired s cs -> is_Some (callouts s1 !! c)) as HC1.
  { intros c Hc. apply HI. unfold expired in Hc. by apply list_elem_of_filter in Hc as [_ ?]. }
  assert (length (expired s cs) <= size (callouts s))%nat as Hlen.
  { etrans; [apply length_filter|]. by apply callout_size. }
  destruct (callout_call_loop_spec (size (callouts s)) s1 (nlocal s) (expired s cs))
    as (s2 & E2 & _ & V2 & L2 & C2 & _ & S2 & T2); [done..| |].
  { apply (Inv_own s m (nlocal s + 1) false); [|done]. intros l Hl. destruct F1 as [F1 _]. rewrite F1.
    - unfold s0, m0. cbn. rewrite lookup_insert_ne; [done|]. by intros <-.
    - intros Hin. apply Hl. unfold h in Hin. set_unfold. destruct Hin as [->|[->|(? & -> & _)]]; done. }
  fold h in E2, T2.
  destruct (callout_top_next _ _ HI0) as [l Hl].
  exists (with_links (with_ie s2 (ie s)) (delete h (links s2))). split_and!; [|done|exact L2|split| |].
  - unfold handle_callouts, new_local, psw_disable_and_save_interrupt, psw_restore_interrupt. mred.
    cbn [nlocal with_nlocal links]. fold h m0.
    rewrite (lk_upd_eq _ _ m0) by (by apply init_list_node_self). mred.
    rewrite (lk_rd_eq _ _ (head_loc cs)) by (by apply (callout_top s0)). mred.
    rewrite (lk_rd_eq _ _ l) by done. mred.
    match goal with |- context [callout_collect_loop _ h _ ?x] => change x with s0 end.
    change (callouts s0) with (callouts s). rewrite E1. mred.
    match goal with |- context [callout_call_loop _ _ h ?x] => change x with s1 end. by rewrite E2.
  - apply is_ring_delete; [set_solver|]. eapply is_ring_agree; [|exact R1]. intros y Hy. apply T2.
    + set_unfold. destruct Hy as [->|(? & -> & _)]; done.
    + assert (forall c, c ∈ pending s cs -> c ∉ expired s cs) as Hpe.
      { intros c Hp He. unfold pending, expired in *.
        apply list_elem_of_filter in Hp as [? _], He as [? _]. lia. }
      set_solver.
  - intros c Hc. cbn. rewrite C2. apply HI. unfold pending in Hc. by apply list_elem_of_filter in Hc as [_ ?].
  - intros c Hc. apply is_ring_delete; [set_solver|by apply S2].
  - assert (Inv (with_ie (with_nlocal (with_links s2 (delete h (links s2))) (nlocal s2)) (ie s))) as V; [|exact V].
    apply Inv_own; [|done]. intros l' Hl'. rewrite lookup_delete_ne; [done|]. by intros <-.
Qed.

End calls.

Section callouts_prop.
Variable call_callout : fptr -> Z -> K X unit.
Variable calls : X -> list (fptr * Z).
Hypothesis callout_returns : forall f a s, exists s', call_callout f a s = Ret tt s' /\
  calls (ext s') = calls (ext s) ++ [(f, a)] /\ callouts s' = callouts s /\
  forall l, timer_link l -> links s' !! l = links s !! l.

(** A tick's call-outs: exactly the entries whose time has come are taken
    from the queue and called, each once, in queue order, with their argument;
    they end up unlinked (so they can be armed again), the entries that have
    not expired stay queued in order, and the interrupt flag is restored. *)
Theorem handle_callouts_correct s cs :
  callout_inv s cs -> links s !! LocalHead (nlocal s) = None ->
  exists s', handle_callouts call_callout s = Ret tt s' /\ ie s' = ie s /\
    calls (ext s') = calls (ext s) ++ (call_of s <$> expired s cs) /\
    callout_inv s' (pending s cs) /\
    (forall c, c ∈ expired s cs -> is_ring (links s') (CalloutLink c) []).
Proof.
  intros HI Hf. destruct (handle_callouts_spec call_callout calls (fun _ => True)) with (s := s) (cs := cs)
    as (s' & E & Hie & Hc & HI' & HR & _); [done| |done..|by exists s'].
  intros f a st _. destruct (callout_returns f a st) as (st' & ?). exists st'. naive_solver.
Qed.
End callouts_prop.

Lemma rr_eq s t th :
  threads s !! t = Some th ->
  thr_is_round_robin_thread t s = Ret (prio (attr th) =? RDQ_USER_RR_PRIORITY) s.
Proof.
  intros E. unfold thr_is_round_robin_thread, psw_disable_and_save_interrupt, psw_restore_interrupt. mred.
  rewrite (thr_get_eq _ _ th) by done. mred. by destruct s.
Qed.

(** Time slices.  The idle thread and threads of a fixed priority are not
    charged.  A round robin thread with more than one tick left loses one and
    keeps the processor.  On its last tick its slice is reloaded, the round
    robin queue is rotated, and the scheduler is called. *)
Theorem timer_update_thread_time_correct time_slice s q th :
  rdq_inv s q -> threads s !! current s = Some th -> 0 <= slice th ->
  (current s = idle_thread \/ prio (attr th) <> RDQ_USER_RR_PRIORITY ->
     timer_update_thread_time time_slice s = Ret tt s) /\
  (current s <> idle_thread -> prio (attr th) = RDQ_USER_RR_PRIORITY -> 1 < slice th ->
     timer_update_thread_time time_slice s = Ret tt
       (with_threads s (<[current s := with_slice th (slice th - 1)]> (threads s)))) /\
  (current s <> idle_thread -> prio (attr th) = RDQ_USER_RR_PRIORITY -> slice th <= 1 ->
     exists m, let s1 := with_links (with_threads (with_ie s false) (<[current s := with_slice th time_slice]> (threads s))) m in
       timer_update_thread_time time_slice s
         = run_bind (sched_schedule s1) (fun _ s2 => Ret tt (with_ie s2 (ie s))) /\
       (forall l, match l with RdqHead _ | ThrLink _ => False | _ => True end -> m !! l = links s !! l) /\
       rdq_inv s1 (rdq_upd q RDQ_USER_RR_PRIORITY
         match q RDQ_USER_RR_PRIORITY with [] => [] | t :: l => l ++ [t] end)).
Proof.
  intros HI Hth Hs.
  unfold timer_update_thread_time, psw_disable_and_save_interrupt, psw_restore_interrupt, idle_refer_idle_thread.
  mred. cbn [current with_ie]. split_and!.
  - intros Hc. destruct (Z.eqb_spec (current s) idle_thread); [by destruct s|]. mred.
    rewrite (rr_eq _ _ th) by done. mred. destruct Hc as [?|Hc]; [done|].
    rewrite (proj2 (Z.eqb_neq _ _) Hc). mred. by destruct s.
  - intros Hc Hp H1. rewrite (proj2 (Z.eqb_neq _ _) Hc). mred. rewrite (rr_eq _ _ th) by done. mred.
    rewrite Hp. mred. cbn [negb Z.eqb RDQ_USER_RR_PRIORITY]. mred. rewrite (thr_get_eq _ _ th) by done. mred.
    rewrite (proj2 (Z.ltb_lt _ _)) by lia. rewrite (thr_put_eq _ _ th) by done. mred.
    rewrite (thr_get_eq _ _ (with_slice th (slice th - 1))) by (cbn; by rewrite lookup_insert_eq). mred.
    cbn [slice with_slice]. rewrite (proj2 (Z.eqb_neq _ _)) by lia. mred. by destruct s.
  - intros Hc Hp H1. rewrite (proj2 (Z.eqb_neq _ _) Hc). mred. rewrite (rr_eq _ _ th) by done. mred.
    rewrite Hp. cbn [negb Z.eqb RDQ_USER_RR_PRIORITY]. mred. rewrite (thr_get_eq _ _ th) by done. mred.
    set (s1 := with_threads (with_ie s false) (<[current s := with_slice th time_slice]> (threads s))).
    destruct (sched_rotate_queue_spec s1 q) as (m & E & HI' & [F _]).
    { eapply rdq_inv_ext; [..|exact HI]; [done..|]. cbn. intros t th' Ht.
      destruct (decide (t = current s)) as [->|]; [rewrite lookup_insert_eq; simplify_eq; by eexists|].
      rewrite lookup_insert_ne by done. eauto. }
    exists m. split_and!; [|intros l Hl; apply F; intros Hin; set_unfold; destruct Hin as [->|(? & -> & _)]; done|done].
    assert (slice th = 0 \/ slice th = 1) as [H0|H0] by lia; rewrite H0; cbn [Z.ltb Z.compare Z.sub Z.add Z.opp Z.pos_sub];
      mred.
    + rewrite (thr_get_eq _ _ th) by done. mred. rewrite H0. cbn [Z.eqb].
      rewrite (thr_put_eq _ _ th) by done. mred.
      match goal with |- context [sched_rotate_queue ?x] => change x with s1 end. by rewrite E.
    + rewrite (thr_put_eq _ _ th) by done. mred.
      rewrite (thr_get_eq _ _ (with_slice th 0)) by (cbn; by rewrite lookup_insert_eq). mred.
      cbn [slice with_slice Z.eqb]. rewrite (thr_put_eq _ _ (with_slice th 0)) by (cbn; by rewrite lookup_insert_eq).
      mred. cbn [with_threads threads]. rewrite insert_insert_eq.
      match goal with |- context [sched_rotate_queue ?x] => change x with s1 end. by rewrite E.
Qed.
End timer.

(** A queue with an entry due at 5 and one due at 8, at uptime 6; a third entry
    is unlinked.  The functions only record that they were called.  Thread 100,
    a round robin thread, runs with one tick left. *)
Definition demo_timer_links : gmap loc (node loc) :=
  <[CalloutHead := Node (CalloutLink 51) (CalloutLink 50)]>
  (<[CalloutLink 50 := Node CalloutHead (CalloutLink 51)]>
  (<[CalloutLink 51 := Node (CalloutLink 50) CalloutHead]>
  (<[CalloutLink 52 := Node (CalloutLink 52) (CalloutLink 52)]> demo_links))).

Definition demo_timer : kst (list (Z * Z)) :=
  Kst demo_timer_links true
    (<[idle_thread := Thread 0 0 0x1000 0 (ThreadAttr 0 0 0 0) 0 []]>
      {[100 := Thread 0 1 0x2000 0 (ThreadAttr 0 0 0 0) 1 []]})
    ∅ 100 0 ∅ ∅ ∅ 6
    (<[50 := CallOutEnt 5 9 1]> (<[51 := CallOutEnt 8 9 2]> {[52 := CallOutEnt 0 9 3]}))
    ∅ ∅ ∅ [] 0 [].

Definition demo_call (f : Z) (a : Z) : K (list (Z * Z)) unit :=
  fun s => Ret tt (with_ext s (ext s ++ [(f, a)])).

Lemma demo_callouts : callout_inv demo_timer [50; 51].
Proof.
  split; [ring_decide|]. intros c Hc. rewrite !elem_of_cons in Hc.
  destruct Hc as [->|[->|Hc]]; [by eexists..|by apply elem_of_nil in Hc].
Qed.

Lemma callout_add_correct_witness :
  exists a b s', [50; 51] = a ++ b /\ callout_add 52 1 demo_timer = Ret 0 s' /\
    expire_of s' 52 = 7 /\ callout_sorted s' (a ++ 52 :: b).
Proof.
  destruct (callout_add_correct demo_timer [50; 51] 52 (CallOutEnt 0 9 3) 1)
    as (a & b & s' & Eab & E & _ & Ee & _ & _ & Hs); [apply demo_callouts|done|done|done|ring_decide|].
  exists a, b, s'. split; [exact Eab|]. split; [exact E|]. split; [exact Ee|]. apply Hs.
  unfold callout_sorted. vm_compute. repeat constructor; discriminate.
Defined.

Lemma handle_callouts_correct_witness :
  exists s', handle_callouts demo_call demo_timer = Ret tt s' /\ ext s' = [(9, 1)] /\
    callout_inv s' [51].
Proof.
  destruct (handle_callouts_correct demo_call (fun l => l)) with (s := demo_timer) (cs := [50; 51])
    as (s' & E & _ & Hl & HI & _).
  - intros f a s. exists (with_ext s (ext s ++ [(f, a)])). done.
  - apply demo_callouts.
  - vm_compute. reflexivity.
  - exists s'. split; [exact E|]. split; [exact Hl|exact HI].
Defined.

Lemma timer_update_thread_time_correct_witness :
  exists m, let s1 := with_links (with_threads (with_ie demo_timer false)
      (<[100 := Thread 0 1 0x2000 0 (ThreadAttr 0 0 0 0) 10 []]> (threads demo_timer))) m in
    timer_update_thread_time 10 demo_timer = run_bind (sched_schedule s1) (fun _ s2 => Ret tt (with_ie s2 true)).
Proof.
  destruct (timer_update_thread_time_correct 10 demo_timer (fun _ => [])
    (Thread 0 1 0x2000 0 (ThreadAttr 0 0 0 0) 1 [])) as (_ & _ & H); [|done|done|].
  - destruct demo_rdq_inv as [R B G P]. split; [|done..|by intros p t _ Ht%elem_of_nil].
    apply demo_heads. repeat (constructor; [ring_decide|]). constructor.
  - destruct H as (m & E & _); [done..|]. exists m. exact E.
Defined.
