(* ===== verification/Thread.v ===== *)
(** kern/thread.c, kern/reaper.c, the idle loop of kern/idle.c, and the initial
    stack frames of hal/x64/thr_context.c and hal/aarch64/thr_context.c.

    The configuration (stack size, time slice, timer interval) and the calls
    into the file system are parameters.  The words of a stack are not part of
    the state: the frame a new thread starts from is described by
    [hal_setup_thread_function], and the state keeps the stack pointer and the
    thread information block at the bottom of the stack. *)
From S2P Require Import Prelude Bitops KList Kernel ThreadInfo ReadyQueue Sched WaitQueue Timer.

Definition STACK_ALIGN : Z := 16.
(** [sizeof(thread_info_t)]: four 64-bit members. *)
Definition THREAD_INFO_SIZE : Z := 32.
Definition MAX_FD_TABLE_SIZE : Z := 1024.
Definition REAPER_THREAD_TID : Z := 1.
Definition REAPER_THREAD_PRIO : Z := 7.

(** include/hal-x64/addrinfo.h *)
Definition CALC_ALIGN_MASK (size : Z) : Z := u64 (size - 1).
Definition TRUNCATE_ALIGN (addr size : Z) : Z := Z.land addr (not64 (CALC_ALIGN_MASK size)).
Definition ROUNDUP_ALIGN (addr size : Z) : Z := TRUNCATE_ALIGN (u64 (addr + size)) size.

(** [*sp-- = w], for the words [ws], the first at [sp]; the last [sp]. *)
Fixpoint push_words (sp : Z) (ws : list Z) : list (Z * Z) * Z :=
  match ws with
  | [] => ([], sp)
  | [w] => ([(sp, w)], sp)
  | w :: ws => let '(st, sp') := push_words (sp - 8) ws in ((sp, w) :: st, sp')
  end.

(** [hal_setup_thread_function]: the stores and the stack pointer. *)
Definition x64_setup_thread_function (tinfo : ptr) (thr_exit_thread start_thread fn : fptr) (arg : Z)
    : list (Z * Z) * Z :=
  push_words (tinfo - 8) [arg; fn; thr_exit_thread; start_thread].

Definition aarch64_setup_thread_function (tinfo : ptr) (thr_thread_start fn : fptr) (arg : Z)
    : list (Z * Z) * Z :=
  push_words (tinfo - 8) ([thr_thread_start] ++ replicate 22 0 ++ [arg; fn; 0xdeadbeef]).

Section thread.
Context {X : Type}.
Variable STACK_SIZE time_slice interval_ms : Z.
(** The stack pointer the HAL leaves for a new thread. *)
Variable setup_sp : ptr -> fptr -> Z -> Z.
(** fs/fs.c *)
Variable fs_close : Z -> K X Z.
Variable fs_open : list Z -> Z -> K X Z.
Variable fs_dup : Z -> K X Z.

Definition refer_thread_info (a : thread_attr_t) : ptr := stack_top a + stack_size a - THREAD_INFO_SIZE.
Definition thr_refer_thread_info (t : ptr) : K X ptr :=
  th ← thr_get t; mret (refer_thread_info (attr th)).

Definition clr_thread_info (ti : ptr) : K X unit := ti_modify ti (fun v => with_preempt v 0).

Definition with_attr (t : thread_t) (a : thread_attr_t) : thread_t :=
  Thread (status t) (tid t) (tinfo t) (exit_code t) a (slice t) (fds t).
Definition with_tinfo (t : thread_t) (p : ptr) : thread_t :=
  Thread (status t) (tid t) p (exit_code t) (attr t) (slice t) (fds t).
Definition with_tid (t : thread_t) (i : Z) : thread_t :=
  Thread (status t) i (tinfo t) (exit_code t) (attr t) (slice t) (fds t).

Definition thr_mod (t : ptr) (f : thread_t -> thread_t) : K X unit := th ← thr_get t; thr_put t (f th).

(** The memory of the stack holds a [thread_info_t] from here on. *)
Definition set_thread_stack (t : ptr) (top size : Z) : K X unit :=
  thr_mod t (fun th => with_attr th (ThreadAttr top (stack (attr th)) size (prio (attr th))));;
  ti ← thr_refer_thread_info t;
  thr_mod t (fun th => with_attr th (ThreadAttr (stack_top (attr th))
    (TRUNCATE_ALIGN (ti - 1) STACK_ALIGN) (stack_size (attr th)) (prio (attr th))));;
  s ← get;
  put (with_tinfos s (<[ti := default (ThreadInfo 0 0 0) (tinfos s !! ti)]> (tinfos s)));;
  clr_thread_info ti;;
  ti_modify ti (fun v => ThreadInfo (preempt v) t (magic v));;
  thr_mod t (fun th => with_tinfo th ti);;
  ti_modify ti (fun v => ThreadInfo (preempt v) (thr v) THR_THREAD_INFO_MAGIC).

Definition hal_setup_thread_function (t : ptr) (start : fptr) (arg : Z) : K X unit :=
  ti ← thr_refer_thread_info t;
  thr_mod t (fun th => with_attr th (ThreadAttr (stack_top (attr th)) (setup_sp ti start arg)
    (stack_size (attr th)) (prio (attr th)))).

(** [kposix_memalign(&p, size, size)]: an address, or failure. *)
Definition kposix_memalign : K X (option ptr) :=
  p ← kmalloc; mret (if p =? NULL then None else Some p).

(** [kmalloc] and [memset(thr, 0, sizeof(thread_t))]. *)
Definition zero_thread : thread_t := Thread 0 0 NULL 0 (ThreadAttr NULL NULL 0 0) 0 (replicate 32 NULL).
Definition new_thread_object (t : ptr) : K X unit :=
  s ← get; put (with_links (with_threads s (<[t := zero_thread]> (threads s)))
    (<[ThrLink t := Node (ThrLink t) (ThrLink t)]> (links s))).

Definition thread_prio (attrp : option thread_attr_t) : Z :=
  match attrp with
  | Some a => if (prio a <? RDQ_PRIORITY_MAX) && (RDQ_USER_RR_PRIORITY <? prio a) then prio a
              else RDQ_USER_RR_PRIORITY
  | None => RDQ_USER_RR_PRIORITY
  end.

(** The stack to use: the caller's, or a new one. *)
Definition thread_stack (attrp : option thread_attr_t) : K X (option (ptr * Z)) :=
  match attrp with
  | Some a =>
      if (stack_top a =? NULL) || (stack_size a =? 0)
      then p ← kposix_memalign; mret ((fun p => (p, STACK_SIZE)) <$> p)
      else mret (Some (stack_top a, stack_size a))
  | None => p ← kposix_memalign; mret ((fun p => (p, STACK_SIZE)) <$> p)
  end.

(** [kfree] of a stack: it has no thread information block any more. *)
Definition free_stack (a : thread_attr_t) : K X unit :=
  s ← get; put (with_tinfos s (delete (refer_thread_info a) (tinfos s)));;
  kfree (stack_top a).

(** Returns the error code and, on success, the thread stored in [thrp]. *)
Definition thr_create_thread (id : Z) (attrp : option thread_attr_t) (start : fptr) (arg : Z)
    : K X (Z * ptr) :=
  st ← thread_stack attrp;
  match st with
  | None => mret (ENOMEM, NULL)
  | Some (thread_stack, stack_size) =>
      t ← kmalloc;
      if t =? NULL then free_stack (ThreadAttr thread_stack NULL stack_size 0);; mret (ENOMEM, NULL)
      else
        new_thread_object t;;
        set_thread_stack t thread_stack stack_size;;
        thr_mod t (fun th => with_tid th id);;
        thr_mod t (fun th => with_attr th (ThreadAttr (stack_top (attr th)) (stack (attr th))
          (Kernel.stack_size (attr th)) (thread_prio attrp)));;
        hal_setup_thread_function t start arg;;
        lk_upd (fun m => init_list_node m (ThrLink t));;
        thr_mod t (fun th => with_exit_code th 0);;
        thr_mod t (fun th => with_slice th time_slice);;
        set_status t THR_TSTATE_RUN;;
        thr_mod t (fun th => with_fds th (replicate 32 NULL));;
        sched_set_ready t;;
        mret (0, t)
  end.

(** ** Thread queues *)

Definition thr_add_thread_queue (que : loc) (t : ptr) : K X unit :=
  psw ← psw_disable_and_save_interrupt;
  lk_upd (fun m => list_add m que (ThrLink t));;
  psw_restore_interrupt psw.

Definition thr_remove_thread_queue (que : loc) (t : ptr) : K X unit :=
  psw ← psw_disable_and_save_interrupt;
  lk_upd (fun m => list_del m (ThrLink t));;
  psw_restore_interrupt psw.

Definition thr_thread_queue_empty (que : loc) : K X bool :=
  psw ← psw_disable_and_save_interrupt;
  rc ← lk_rd (fun m => list_is_empty m que);
  psw_restore_interrupt psw;;
  mret rc.

Definition thr_thread_queue_get_top (que : loc) : K X ptr :=
  psw ← psw_disable_and_save_interrupt;
  e ← lk_rd (fun m => list_is_empty m que);
  t ← (if (e : bool) then mret NULL else l ← lk_fn (fun m => list_get_top m que); thread_of_link l);
  psw_restore_interrupt psw;;
  mret t.

Definition thr_init_thread_queue (que : loc) : K X unit :=
  psw ← psw_disable_and_save_interrupt;
  lk_upd (fun m => init_list_head m que);;
  psw_restore_interrupt psw.

(** After [kfree] the thread and its link are no objects any more. *)
Definition thr_destroy_thread (t : ptr) : K X Z :=
  psw ← psw_disable_and_save_interrupt;
  th ← thr_get t;
  rc ← (if negb (status th =? THR_TSTATE_DEAD) then mret EBUSY
        else
          free_stack (attr th);;
          s ← get; put (with_links (with_threads s (delete t (threads s))) (delete (ThrLink t) (links s)));;
          kfree t;;
          mret 0);
  psw_restore_interrupt psw;;
  mret rc.

Definition thr_get_tid (t : ptr) : K X Z := th ← thr_get t; mret (tid th).
Definition thr_get_current_tid : K X Z := s ← get; thr_get_tid (current s).

(** ** Termination *)

(** [for(fd = 0; MAX_FD_TABLE_SIZE > fd; ++fd) fs_close(fd);] *)
Definition close_all_fds : K X unit :=
  forM (seqZ 0 MAX_FD_TABLE_SIZE) (fun fd => fs_close fd;; mret tt).

Definition reaper_add_exit_thread (t : ptr) : K X unit :=
  psw ← psw_disable_and_save_interrupt;
  th ← thr_get t;
  (if negb (status th =? THR_TSTATE_EXIT) then mret tt
   else
     set_status t THR_TSTATE_DEAD;;
     thr_add_thread_queue ReaperHead t;;
     wque_wakeup WqReaper WQUE_REASON_WAKEUP);;
  psw_restore_interrupt psw.

(** [exit_code_t] is [uint64_t]: the [int] is converted. *)
Definition thr_exit_thread (code : Z) : K X unit :=
  psw ← psw_disable_and_save_interrupt;
  close_all_fds;;
  s ← get; rdq_remove_thread (current s);;
  s ← get; thr_mod (current s) (fun th => with_exit_code th (u64 code));;
  s ← get; set_status (current s) THR_TSTATE_EXIT;;
  s ← get; reaper_add_exit_thread (current s);;
  psw_restore_interrupt psw;;
  sched_schedule.

(** The string "/CON" and [O_RDWR]. *)
Definition con_path : list Z := [47; 67; 79; 78; 0].
Definition O_RDWR : Z := 3.

Definition thr_thread_start (fn : Z -> K X unit) (arg : Z) : K X unit :=
  close_all_fds;;
  stdin_fd ← fs_open con_path O_RDWR;
  stdout_fd ← fs_dup stdin_fd;
  stderr_fd ← fs_dup stdin_fd;
  kassert (stdin_fd =? 0);; kassert (stdout_fd =? 1);; kassert (stderr_fd =? 2);;
  psw_enable_interrupt;;
  fn arg;;
  thr_exit_thread 0.

(** The inner loop of the reaper. *)
Fixpoint reaper_drain (fuel : nat) : K X unit :=
  e ← thr_thread_queue_empty ReaperHead;
  if (e : bool) then mret tt
  else match fuel with
       | O => stopM OutOfFuel
       | S fuel =>
           t ← thr_thread_queue_get_top ReaperHead;
           thr_destroy_thread t;;
           reaper_drain fuel
       end.

(** [n] rounds of the endless loop. *)
Fixpoint reaper_loop (n : nat) : K X unit :=
  match n with
  | O => stopM OutOfFuel
  | S n =>
      psw ← psw_disable_and_save_interrupt;
      s ← get; reaper_drain (size (threads s));;
      wque_wait_on_queue WqReaper;;
      psw_restore_interrupt psw;;
      reaper_loop n
  end.

Definition reaper (n : nat) : K X unit := close_all_fds;; reaper_loop n.

Definition reaper_init_thread (reaper_fn : fptr) : K X ptr :=
  thr_init_thread_queue ReaperHead;;
  wque_init_wait_queue WqReaper;;
  r ← thr_create_thread REAPER_THREAD_TID (Some (ThreadAttr NULL NULL 0 REAPER_THREAD_PRIO)) reaper_fn NULL;
  mret r.2.

(** ** Delays *)

Definition thr_delay_callout (que : Z) : K X unit :=
  e ← is_wque_empty (WqLocal que);
  if negb e then wque_wakeup (WqLocal que) WQUE_REASON_WAKEUP else mret tt.

(** The function pointer [thr_delay_callout], and what call-outs run. *)
Definition THR_DELAY_CALLOUT : fptr := 1.
Definition kern_callout (f : fptr) (priv : Z) : K X unit :=
  if f =? THR_DELAY_CALLOUT then thr_delay_callout priv else stopM Fault.

(** The automatic objects [ent] and [dly_que]. *)
Definition delay_locals : K X (Z * Z) :=
  c ← new_local; w ← new_local;
  s ← get;
  put (with_callouts (with_links s
    (<[CalloutLink c := Node (CalloutLink c) (CalloutLink c)]>
      (<[WqHead (WqLocal w) := Node (WqHead (WqLocal w)) (WqHead (WqLocal w))]> (links s))))
    (<[c := CallOutEnt 0 NULL 0]> (callouts s)));;
  mret (c, w).
Definition delay_locals_end (c w : Z) : K X unit :=
  s ← get;
  put (with_wq_reason (with_callouts (with_links s
    (delete (CalloutLink c) (delete (WqHead (WqLocal w)) (links s)))) (delete c (callouts s)))
    (delete (WqLocal w) (wq_reason s))).

Definition thr_delay (expire_ms : Z) : K X unit :=
  cw ← delay_locals; let '(c, w) := cw in
  wque_init_wait_queue (WqLocal w);;
  let rel_expire := expire_ms / interval_ms in
  (if rel_expire =? 0 then mret tt
   else
     callout_ent_init c THR_DELAY_CALLOUT w;;
     psw ← psw_disable_and_save_interrupt;
     callout_add c rel_expire;;
     reason ← wque_wait_on_queue (WqLocal w);
     psw_restore_interrupt psw;;
     kassert (reason =? WQUE_REASON_WAKEUP);;
     linked ← lk_rd (fun m => list_is_linked m (CalloutLink c));
     kassert (negb linked));;
  delay_locals_end c w.

Definition thr_handle_task_exception_handler : K X unit := sched_delay_disptach.

(** [n] rounds of the idle loop; [hal_suspend_cpu] waits for an interrupt. *)
Variable hal_suspend_cpu : K X unit.

Fixpoint idle_rounds (n : nat) (ti : ptr) : K X unit :=
  match n with
  | O => stopM OutOfFuel
  | S n =>
      psw ← psw_disable_and_save_interrupt;
      v ← ti_get ti;
      when (negb (ctrue (ti_check_need_dispatch v))) hal_suspend_cpu;;
      sched_schedule;;
      psw_restore_interrupt psw;;
      idle_rounds n ti
  end.

Definition do_idle_loop (n : nat) : K X unit :=
  ti ← get_current_thread_info;
  ti_modify ti ti_set_delay_dispatch;;
  psw_enable_interrupt;;
  idle_rounds n ti.
End thread.

(** ** Initial frames *)

Lemma push_words_spec sp ws :
  ws <> [] ->
  (push_words sp ws).2 = sp - 8 * (Z.of_nat (length ws) - 1) /\
  (push_words sp ws).1 = imap (fun i w => (sp - 8 * Z.of_nat i, w)) ws.
Proof.
  revert sp. induction ws as [|w ws IH]; intros sp Hne; [done|]. destruct ws as [|w' ws].
  - cbn. split; [lia|]. do 2 f_equal. lia.
  - destruct (IH (sp - 8)) as [E1 E2]; [done|].
    assert (push_words sp (w :: w' :: ws) =
      let '(st, sp') := push_words (sp - 8) (w' :: ws) in ((sp, w) :: st, sp')) as -> by done.
    destruct (push_words (sp - 8) (w' :: ws)) as [st sp']. cbn [fst snd] in *. split; [rewrite E1; cbn [length]; lia|].
    rewrite E2. rewrite (imap_cons _ w). f_equal; [f_equal; cbn; lia|].
    apply imap_ext. intros i w'' _. cbn. f_equal. lia.
Qed.

(** The stores of a new thread's frame: below the thread information block,
    above [sp], one word each. *)
Lemma push_words_range sp ws a w :
  (a, w) ∈ (push_words sp ws).1 -> sp - 8 * (Z.of_nat (length ws) - 1) <= a <= sp.
Proof.
  intros Hin. destruct (decide (ws = [])) as [->|Hne]; [by apply elem_of_nil in Hin|].
  destruct (push_words_spec sp ws Hne) as [_ E2]. rewrite E2 in Hin.
  apply list_elem_of_lookup in Hin as [i Hi]. rewrite list_lookup_imap in Hi.
  destruct (ws !! i) as [w'|] eqn:Ew; [|done]. cbn in Hi. injection Hi as <- _.
  apply lookup_lt_Some in Ew. lia.
Qed.

Lemma push_words_at sp ws (i : nat) a w :
  ws !! i = Some w -> a = sp - 8 * Z.of_nat i -> (a, w) ∈ (push_words sp ws).1.
Proof.
  intros Hi ->. destruct (push_words_spec sp ws) as [_ E]; [by intros ->|]. rewrite E.
  apply list_elem_of_lookup. exists i. rewrite list_lookup_imap, Hi. done.
Qed.

Lemma push_words_nodup sp ws : ws <> [] -> NoDup (push_words sp ws).1.*1.
Proof.
  intros Hne. destruct (push_words_spec sp ws Hne) as [_ ->].
  assert (imap (fun i w => (sp - 8 * Z.of_nat i, w)) ws
    = (fun p => (sp - 8 * Z.of_nat p.1, p.2)) <$> imap (fun i w => (i, w)) ws) as ->
    by (by rewrite fmap_imap).
  rewrite <-list_fmap_compose. cbn.
  apply NoDup_alt. intros i j x. rewrite !list_lookup_fmap, !list_lookup_imap.
  destruct (ws !! i) eqn:Ei, (ws !! j) eqn:Ej; cbn; intros [= <-] [=]; try lia.
Qed.

(** The frame a new thread is first switched to.  On both architectures
    every word is stored in the stack, under the thread information block.  On
    x64 the context switch's return finds, from the stack pointer up, the start
    glue, the exit routine, the function and its argument; on AArch64 the
    pointer is 16-byte aligned and x0, x1 and x30 find the function, the
    argument and the start routine. *)
Theorem setup_thread_function_correct (ti exit start fn arg : Z) :
  (forall a w, (a, w) ∈ (x64_setup_thread_function ti exit start fn arg).1 ->
     ti - 32 <= a /\ a + 8 <= ti) /\
  (forall a w, (a, w) ∈ (aarch64_setup_thread_function ti start fn arg).1 ->
     ti - 208 <= a /\ a + 8 <= ti) /\
  (let '(st, sp) := x64_setup_thread_function ti exit start fn arg in
   NoDup st.*1 /\ (sp, start) ∈ st /\ (sp + 8, exit) ∈ st /\ (sp + 16, fn) ∈ st /\ (sp + 24, arg) ∈ st) /\
  (let '(st, sp) := aarch64_setup_thread_function ti start fn arg in
   NoDup st.*1 /\ (ti mod 16 = 0 -> sp mod 16 = 0) /\
   (sp + 8, fn) ∈ st /\ (sp + 16, arg) ∈ st /\ (sp + 200, start) ∈ st).
Proof.
  split_and!.
  - intros a w Hin%push_words_range. cbn [length] in Hin. lia.
  - intros a w Hin%push_words_range. rewrite !length_app, length_replicate in Hin. cbn [length] in Hin. lia.
  - unfold x64_setup_thread_function. set (ws := [arg; fn; exit; start]).
    destruct (push_words_spec (ti - 8) ws) as [Hsp _]; [done|]. pose proof (push_words_nodup (ti - 8) ws) as HN.
    pose proof (push_words_at (ti - 8) ws) as Hat. destruct (push_words (ti - 8) ws) as [st sp].
    cbn [snd fst] in *. cbn [length ws] in Hsp. split_and!; [by apply HN|..].
    + apply (Hat 3%nat); [done|lia].
    + apply (Hat 2%nat); [done|lia].
    + apply (Hat 1%nat); [done|lia].
    + apply (Hat 0%nat); [done|lia].
  - unfold aarch64_setup_thread_function. set (ws := _ ++ _).
    destruct (push_words_spec (ti - 8) ws) as [Hsp _]; [done|]. pose proof (push_words_nodup (ti - 8) ws) as HN.
    pose proof (push_words_at (ti - 8) ws) as Hat. destruct (push_words (ti - 8) ws) as [st sp].
    assert (length ws = 26%nat) as Hlen by done. rewrite Hlen in Hsp.
    cbn [snd fst] in *. split_and!; [by apply HN|..].
    + intros Hm. apply Z.mod_divide; [lia|]. apply Z.mod_divide in Hm as [k Hk]; [|lia].
      exists (k - 13). lia.
    + apply (Hat 24%nat); [done|lia].
    + apply (Hat 23%nat); [done|lia].
    + apply (Hat 0%nat); [done|lia].
Qed.

(** ** Creation *)

Section create.
Context {X : Type}.
Implicit Types (s : kst X) (q : Z -> list ptr).

Lemma thr_mod_eq t f s th :
  threads s !! t = Some th -> thr_mod t f s = Ret tt (with_threads s (<[t := f th]> (threads s))).
Proof. intros E. unfold thr_mod. mred. rewrite (thr_get_eq _ _ th) by done. by apply (thr_put_eq _ _ th). Qed.

Lemma thr_refer_thread_info_eq t s th :
  threads s !! t = Some th -> thr_refer_thread_info t s = Ret (refer_thread_info (attr th)) s.
Proof. intros E. unfold thr_refer_thread_info. mred. by rewrite (thr_get_eq _ _ th). Qed.

Lemma set_thread_stack_eq t top size s th :
  let ti := top + size - THREAD_INFO_SIZE in
  threads s !! t = Some th ->
  set_thread_stack t top size s = Ret tt
    (with_tinfos (with_threads s
      (<[t := with_tinfo (with_attr th (ThreadAttr top (TRUNCATE_ALIGN (ti - 1) STACK_ALIGN) size
                (prio (attr th)))) ti]> (threads s)))
      (<[ti := ThreadInfo 0 t THR_THREAD_INFO_MAGIC]> (tinfos s))).
Proof.
  intros ti Ht. unfold set_thread_stack, clr_thread_info. mred.
  rewrite (thr_mod_eq _ _ _ th) by done. mred.
  erewrite thr_refer_thread_info_eq by (cbn; by rewrite lookup_insert_eq). mred.
  erewrite thr_mod_eq by (cbn; by rewrite lookup_insert_eq). mred. cbn [attr with_attr refer_thread_info stack_top stack_size].
  unfold refer_thread_info. cbn [stack_top stack_size attr with_attr]. fold ti.
  erewrite ti_modify_eq by (cbn; by rewrite lookup_insert_eq). mred.
  erewrite ti_modify_eq by (cbn; by rewrite lookup_insert_eq). mred.
  erewrite thr_mod_eq by (cbn; by rewrite lookup_insert_eq). mred.
  erewrite ti_modify_eq by (cbn; by rewrite lookup_insert_eq). cbn.
  by rewrite !insert_insert_eq.
Qed.

(** The thread a successful creation leaves. *)
Definition created_thread (id top size p sp tslice : Z) : thread_t :=
  Thread THR_TSTATE_RUN id (top + size - THREAD_INFO_SIZE) 0 (ThreadAttr top sp size p) tslice
    (replicate 32 NULL).

Lemma thread_prio_range attrp : 0 <= thread_prio attrp < RDQ_PRIORITY_MAX.
Proof.
  unfold thread_prio. destruct attrp as [a|]; [|prio_lia].
  destruct (Z.ltb_spec (prio a) RDQ_PRIORITY_MAX), (Z.ltb_spec RDQ_USER_RR_PRIORITY (prio a)); cbn; prio_lia.
Qed.

(** The states [s] and [s0] differ in the allocator's supply only. *)
Lemma thr_create_thread_eq STACK_SIZE time_slice setup_sp id attrp start arg s s0 q top size t rest :
  let ti := top + size - THREAD_INFO_SIZE in
  let p := thread_prio attrp in
  let th := created_thread id top size p (setup_sp ti start arg) time_slice in
  thread_stack STACK_SIZE attrp s = Ret (Some (top, size)) s0 -> rdq_inv s0 q ->
  supply s0 = t :: rest -> t <> NULL -> links s0 !! ThrLink t = None ->
  (forall p', 0 <= p' < RDQ_PRIORITY_MAX -> t ∉ q p') ->
  exists m b,
    let s' := with_bitmap (with_links (with_tinfos (with_threads (with_supply s0 rest)
      (<[t := th]> (threads s0))) (<[ti := ThreadInfo 0 t THR_THREAD_INFO_MAGIC]> (tinfos s0))) m) b in
    thr_create_thread STACK_SIZE time_slice setup_sp id attrp start arg s = Ret (0, t) s' /\
    rdq_inv s' (rdq_upd q p (q p ++ [t])) /\
    frame (<[ThrLink t := Node (ThrLink t) (ThrLink t)]> (links s0)) m (ThrLink t :: RdqHead p :: (ThrLink <$> q p)).
Proof.
  intros ti p th Est HI Hsup Ht Hl Hq.
  set (m0 := <[ThrLink t := Node (ThrLink t) (ThrLink t)]> (links s0)).
  assert (is_ring m0 (ThrLink t) []) as Rt.
  { apply lk_self_ring. unfold lk, rd_next, rd_prev, m0. by rewrite lookup_insert_eq. }
  set (s1 := with_links (with_tinfos (with_threads (with_supply s0 rest) (<[t := th]> (threads s0)))
    (<[ti := ThreadInfo 0 t THR_THREAD_INFO_MAGIC]> (tinfos s0))) m0).
  assert (rdq_inv s1 q) as HI1.
  { destruct HI as [R B G P]. split; [|done..|].
    - intros p' Hp'. apply is_ring_insert; auto.
    - intros p' t' Hp' Ht'. destruct (P p' t' Hp' Ht') as (th' & ? & ?). exists th'. cbn.
      rewrite lookup_insert_ne; [done|]. intros <-. by apply (Hq p'). }
  destruct (rdq_add_thread_spec (with_ie s1 false) q t th) as (m & b & E & HI2 & HF).
  { eapply rdq_inv_ext; [..|exact HI1]; eauto. } { cbn. by rewrite lookup_insert_eq. }
  { apply thread_prio_range. } { apply Hq, thread_prio_range. } { eapply (is_ring_dom m0); [exact Rt|set_solver]. }
  exists m, b. split_and!; [|eapply rdq_inv_ext; [..|exact HI2]; eauto|exact HF].
  unfold thr_create_thread. mred. rewrite Est. mred. unfold kmalloc. mred. rewrite Hsup. mred.
  rewrite (proj2 (Z.eqb_neq _ _) Ht). mred. unfold new_thread_object. mred.
  erewrite set_thread_stack_eq by (cbn; by rewrite lookup_insert_eq). mred.
  do 2 (erewrite thr_mod_eq by (cbn; by rewrite lookup_insert_eq); mred).
  unfold hal_setup_thread_function. mred.
  erewrite thr_refer_thread_info_eq by (cbn; by rewrite lookup_insert_eq). mred.
  erewrite thr_mod_eq by (cbn; by rewrite lookup_insert_eq). mred.
  rewrite (lk_upd_eq _ _ m0) by (by apply init_list_node_self). mred.
  do 2 (erewrite thr_mod_eq by (cbn; by rewrite lookup_insert_eq); mred).
  erewrite set_status_eq by (cbn; by rewrite lookup_insert_eq). mred.
  erewrite thr_mod_eq by (cbn; by rewrite lookup_insert_eq). mred.
  cbn [threads with_threads with_tinfos with_links with_supply tinfos]. rewrite !insert_insert_eq.
  match goal with |- context [sched_set_ready t ?x] => change x with s1 end.
  erewrite sched_set_ready_eq by exact E. done.
Qed.

Definition needs_stack (attrp : option thread_attr_t) : bool :=
  match attrp with Some a => (stack_top a =? NULL) || (stack_size a =? 0) | None => true end.

Lemma thread_stack_new STACK_SIZE attrp s :
  needs_stack attrp = true ->
  thread_stack STACK_SIZE attrp s = match supply s with
    | [] => Ret None s
    | p :: l => Ret (if p =? NULL then None else Some (p, STACK_SIZE)) (with_supply s l)
    end.
Proof.
  intros H. unfold thread_stack, kposix_memalign, kmalloc. destruct attrp as [a|]; cbn in H; rewrite ?H; mred;
    destruct (supply s) as [|p l]; mred; try done; by destruct (p =? NULL).
Qed.

(** The stack of a new thread, with its size, and what the allocator has left: the
    caller's stack if it has an address and a size, else a block of [STACK_SIZE]
    bytes; [None] if there is no memory for it. *)
Definition stack_source (STACK_SIZE : Z) (attrp : option thread_attr_t) (l : list ptr) : option (ptr * Z * list ptr) :=
  match attrp, l with
  | Some (ThreadAttr top _ size _), _ =>
      if bool_decide (top <> NULL /\ size <> 0) then Some (top, size, l)
      else match l with stk :: l => if decide (stk = NULL) then None else Some (stk, STACK_SIZE, l) | [] => None end
  | None, stk :: l => if decide (stk = NULL) then None else Some (stk, STACK_SIZE, l)
  | None, [] => None
  end.

Lemma thread_stack_source STACK_SIZE attrp s :
  thread_stack STACK_SIZE attrp s = match stack_source STACK_SIZE attrp (supply s) with
    | Some (top, size, l) => Ret (Some (top, size)) (with_supply s l)
    | None => Ret None (with_supply s (tail (supply s)))
    end.
Proof.
  assert (needs_stack attrp = true -> thread_stack STACK_SIZE attrp s =
    match match supply s with stk :: l => if decide (stk = NULL) then None else Some (stk, STACK_SIZE, l) | [] => None end with
    | Some (top, size, l) => Ret (Some (top, size)) (with_supply s l) | None => Ret None (with_supply s (tail (supply s))) end) as Hnew.
  { intros Hn. rewrite thread_stack_new by done. destruct (supply s) as [|p l] eqn:El; [destruct s; cbn in *; by subst|].
    case_decide; [subst; done|]. by rewrite (proj2 (Z.eqb_neq p NULL)). }
  destruct attrp as [[top sp size pr]|]; cbn [stack_source]; [|by apply Hnew].
  case_bool_decide as Hb.
  - unfold thread_stack. cbn. rewrite !(proj2 (Z.eqb_neq _ _)) by apply Hb. by destruct s.
  - apply Hnew. cbn. destruct (Z.eqb_spec top NULL), (Z.eqb_spec size 0); try done. by destruct Hb.
Qed.

Lemma stack_source_top STACK_SIZE attrp l top size l' : stack_source STACK_SIZE attrp l = Some (top, size, l') -> top <> NULL.
Proof.
  destruct attrp as [[top' sp' size' pr']|]; cbn [stack_source]; [case_bool_decide as Hb; [intros [= <- <- <-]; apply Hb|]|]; (destruct l; [done|]); case_decide; naive_solver.
Qed.

(** C30.  Creating a thread.  Without memory for a stack, when the caller has none,
    it fails with ENOMEM and no thread appears.  Without memory for the thread it
    fails with ENOMEM as well, and the stack is freed, also when it is the
    caller's: it has no thread information block any more, and the allocator will
    hand it out.  Otherwise the new thread has the given id, its priority if it is
    a fixed one and the round robin priority else, a full time slice and no files;
    its information block, with the magic number and a link back, sits at the end
    of the caller's stack, if there is one, or of a new one; and it is ready, last
    in the queue of its priority. *)
Theorem thr_create_thread_correct STACK_SIZE time_slice setup_sp id attrp start arg s q :
  rdq_inv s q ->
  let create := thr_create_thread STACK_SIZE time_slice setup_sp id attrp start arg in
  match stack_source STACK_SIZE attrp (supply s) with
  | None => create s = Ret (ENOMEM, NULL) (with_supply s (tail (supply s)))
  | Some (top, size, l) =>
      let ti := top + size - THREAD_INFO_SIZE in
      (l = [] \/ head l = Some NULL ->
         create s = Ret (ENOMEM, NULL) (with_supply (with_tinfos s (delete ti (tinfos s))) (tail l ++ [top]))) /\
      (forall t rest, l = t :: rest -> t <> NULL -> links s !! ThrLink t = None -> (forall p, 0 <= p < RDQ_PRIORITY_MAX -> t ∉ q p) ->
         exists s', create s = Ret (0, t) s' /\
           threads s' = <[t := created_thread id top size (thread_prio attrp) (setup_sp ti start arg) time_slice]> (threads s) /\
           tinfos s' = <[ti := ThreadInfo 0 t THR_THREAD_INFO_MAGIC]> (tinfos s) /\
           rdq_inv s' (rdq_upd q (thread_prio attrp) (q (thread_prio attrp) ++ [t])) /\
           supply s' = rest /\ ie s' = ie s /\ current s' = current s /\ 0 <= thread_prio attrp < RDQ_PRIORITY_MAX)
  end.
Proof.
  intros HI create. pose proof (thread_stack_source STACK_SIZE attrp s) as Est.
  destruct (stack_source STACK_SIZE attrp (supply s)) as [[[top size] l]|] eqn:Es.
  2: { unfold create, thr_create_thread. mred. by rewrite Est. }
  assert (top <> NULL) as Hne by (by eapply stack_source_top). intros ti. split.
  - intros Hl. unfold create, thr_create_thread. mred. rewrite Est. mred. unfold kmalloc. mred. cbn [supply with_supply].
    assert (forall s0, (free_stack (ThreadAttr top NULL size 0);; mret (ENOMEM, NULL)) s0 =
      Ret (ENOMEM, NULL) (with_supply (with_tinfos s0 (delete ti (tinfos s0))) (supply s0 ++ [top]))) as Hfree.
    { intros s0. unfold free_stack, kfree, give_back. mred. cbn [stack_top]. by rewrite (proj2 (Z.eqb_neq _ _) Hne). }
    transitivity ((free_stack (ThreadAttr top NULL size 0);; mret (ENOMEM, NULL)) (with_supply s (tail l))); [|by rewrite Hfree].
    destruct l as [|p l]; [done|]. by destruct Hl as [?|[= ->]].
  - intros t rest -> Ht Hl Hq.
    destruct (thr_create_thread_eq STACK_SIZE time_slice setup_sp id attrp start arg s
      (with_supply s (t :: rest)) q top size t rest) as (m & b & E & HI' & _); try done.
    + eapply rdq_inv_ext; [..|exact HI]; eauto.
    + eexists. split; [exact E|]. split_and!; try done; apply thread_prio_range.
Qed.
End create.

(** ** Termination *)

Section exit.
Context {X : Type}.
Implicit Types (s : kst X) (q : Z -> list ptr).

(** A change of a thread that keeps its priority keeps the ready queues. *)
Lemma rdq_inv_thr s q t th th' :
  threads s !! t = Some th -> prio (attr th') = prio (attr th) -> rdq_inv s q ->
  rdq_inv (with_threads s (<[t := th']> (threads s))) q.
Proof.
  intros Ht Hp. apply rdq_inv_ext; [done..|]. intros t' th1 Ht'. cbn.
  destruct (decide (t' = t)) as [->|]; [rewrite lookup_insert_eq|rewrite lookup_insert_ne by done]; eauto.
  simplify_eq. by eexists.
Qed.

(** The thread [t] in no list joins the queue of the reaper. *)
Lemma reaper_enqueue s q t ds wq es ts :
  rdq_inv s q -> is_ring (links s) (ThrLink t) [] ->
  is_ring (links s) ReaperHead (ThrLink <$> ds) -> wait_inv s wq es ts -> t ∉ ts ->
  exists m, list_add (links s) ReaperHead (ThrLink t) = Some m /\
    is_ring m ReaperHead (ThrLink <$> (ds ++ [t])) /\
    rdq_inv (with_links s m) q /\ wait_inv (with_links s m) wq es ts.
Proof.
  intros HI Rt HR HW Htts. assert (t ∉ ds) as Htds.
  { intros Ht. eapply ring_not_self; [exact HR| |exact Rt]. by apply elem_of_thr_links. }
  assert (forall t' h, is_ring (links s) (ThrLink t') [] -> h = ThrLink t' -> t' ∉ ds) as Hself.
  { intros t' h St _ Ht'. eapply ring_not_self; [exact HR| |exact St]. by apply elem_of_thr_links. }
  destruct (list_add_ring _ _ _ (ThrLink t) HR) as (m & E & R & F).
  { set_solver. } { eapply is_ring_dom; [exact Rt|set_solver]. }
  exists m. rewrite fmap_app. split_and!; [done..| |].
  - destruct HI as [Rq B G P]. split; try done. intros p Hp. eapply is_ring_frame; [exact F| |by apply Rq].
    intros y Hy Hin. apply elem_of_cons in Hy as [->|(t' & -> & Ht')%list_elem_of_fmap]; [set_solver|].
    assert (t' ∈ t :: ds) as [->|Hds]%elem_of_cons by set_solver.
    + eapply ring_not_self; [apply (Rq p Hp)| |exact Rt]. by apply elem_of_thr_links.
    + apply (rings_disjoint (links s) (RdqHead p) (ThrLink <$> q p) ReaperHead (ThrLink <$> ds) (ThrLink t'));
        [by apply Rq|done|set_solver|set_solver|done|by apply elem_of_thr_links..].
  - destruct HW as [HRw HT HN HS]. split; try done.
    + eapply is_ring_frame; [exact F| |exact HRw]. set_solver.
    + intros t' Ht'. destruct (HS t' Ht') as [St Hth]. split; [|done].
      eapply is_ring_frame; [exact F| |exact St]. intros y ->%list_elem_of_singleton.
      specialize (Hself t' _ St eq_refl). set_solver.
Qed.

(** The running thread leaves the ready queue and is handed to the reaper: the
    state in which the reaper is woken up. *)
Lemma exit_enqueue s q ds wq es ts th l1 l2 th' :
  let t := current s in let p := prio (attr th) in
  rdq_inv s q -> threads s !! t = Some th -> 0 <= p < RDQ_PRIORITY_MAX -> q p = l1 ++ t :: l2 ->
  prio (attr th') = p -> is_ring (links s) ReaperHead (ThrLink <$> ds) -> wait_inv s wq es ts ->
  exists m1 b m2,
    rdq_remove_thread t s = Ret tt (with_bitmap (with_links s m1) b) /\
    list_add m1 ReaperHead (ThrLink t) = Some m2 /\ (t ∉ ts) /\
    let s2 := with_links (with_threads (with_bitmap s b) (<[t := th']> (threads s))) m2 in
    is_ring m2 ReaperHead (ThrLink <$> (ds ++ [t])) /\
    rdq_inv s2 (rdq_upd q p (l1 ++ l2)) /\ wait_inv s2 wq es ts.
Proof.
  intros t p HI Hth Hp Hq Hp' HR HW.
  assert (t ∉ ts) as Htts.
  { intros Ht. destruct (wi_sleep _ _ _ _ HW t Ht) as [St _].
    eapply sleeping_not_ready in St; [|exact HI|exact Hp]. apply St. rewrite Hq. set_solver. }
  destruct (rdq_remove_thread_spec s q t th l1 l2) as (m1 & b & E1 & HI1 & Rt & F1); [done..|].
  assert (forall t', is_ring (links s) (ThrLink t') [] -> is_ring m1 (ThrLink t') []) as Hkeep.
  { intros t' St. eapply is_ring_frame; [exact F1| |exact St]. intros y ->%list_elem_of_singleton.
    assert (t' ∉ q p) by (eapply sleeping_not_ready; [exact HI|done..]). set_solver. }
  set (s1 := with_threads (with_bitmap (with_links s m1) b) (<[t := th']> (threads s))).
  destruct (reaper_enqueue s1 (rdq_upd q p (l1 ++ l2)) t ds wq es ts) as (m2 & E2 & R2 & HI2 & HW2).
  - by apply (rdq_inv_thr (with_bitmap (with_links s m1) b) _ t th th').
  - exact Rt.
  - eapply is_ring_frame; [exact F1| |exact HR]. intros y Hy Hin.
    apply elem_of_cons in Hy as [->|Hy]; [set_solver|]. apply elem_of_cons in Hin as [->|Hin]; [set_solver|].
    eapply (rings_disjoint (links s) ReaperHead (ThrLink <$> ds) (RdqHead p) (ThrLink <$> q p) y);
      [done|by apply HI|set_solver|set_solver|done|done|done].
  - destruct HW as [HRw HT HN HS]. split; try done.
    + eapply is_ring_frame; [exact F1| |exact HRw]. set_solver.
    + intros t' Ht'. destruct (HS t' Ht') as (St & th1 & ? & ? & ?). split; [by apply Hkeep|].
      exists th1. cbn. rewrite lookup_insert_ne by (by intros <-). done.
  - done.
  - exists m1, b, m2. done.
Qed.

(** The end of [thr_exit_thread]: the reaper is woken up, and whoever is next runs. *)
Lemma exit_dispatch s q xs es ts th v psw0 psw :
  let t := current s in let q' := rdq_enqueue s q ts in
  rdq_inv s q -> wait_inv s WqReaper es ts -> is_ring (links s) ReaperHead (ThrLink <$> xs) ->
  threads s !! t = Some th -> tinfos s !! tinfo th = Some v -> inhibited (preempt v) = false ->
  is_Some (threads s !! idle_thread) -> t ∉ ts -> sched_next q' <> t ->
  exists s1 k, ((wque_wakeup WqReaper WQUE_REASON_WAKEUP;; psw_restore_interrupt psw0);;
      (psw_restore_interrupt psw;; sched_schedule)) s = Switch s1 k /\
    current s1 = sched_next q' /\ rdq_inv s1 q' /\
    is_ring (links s1) ReaperHead (ThrLink <$> xs) /\ threads s1 !! t = Some th.
Proof.
  intros t q' HI HW HR Hth Hv Hinh Hidle Htts Hne. unfold psw_restore_interrupt. mred.
  destruct (decide (ts = [])) as [->|Hts].
  - destruct HW as [HRw HT HN HS]. apply Forall2_nil_inv_r in HT as ->.
    assert (forall p, 0 <= p < RDQ_PRIORITY_MAX -> q' p = q p) as Hq.
    { intros p _. unfold q', rdq_enqueue. by rewrite filter_nil, app_nil_r. }
    rewrite (sched_next_proper q' q) in * by done.
    rewrite (wque_wakeup_empty _ _ []) by (by split). mred.
    rewrite (sched_schedule_dispatch _ q th v); [|by eapply rdq_inv_ext; [..|exact HI]; eauto|done..|].
    2: { intros _. by eapply (sched_next_exists s). }
    rewrite decide_False by done. eexists _, _. split; [done|]. split_and!; try done.
    eapply rdq_inv_proper; [|eapply rdq_inv_ext; [..|exact HI]; eauto]. by intros p Hp; rewrite Hq.
  - destruct (wque_wakeup_eq s q WqReaper es ts WQUE_REASON_WAKEUP) as (m & b & thrs & w & E & HI1 & _ & W1 & D1);
      [done..|]. rewrite E. set (s1 := with_wq_reason _ _) in *. cbv zeta in *.
    assert (threads s1 !! t = Some th) as Hth1 by (cbn; by rewrite W1, decide_False).
    assert (is_Some (threads s1 !! idle_thread)) as Hi1.
    { destruct Hidle as [ith Hi]. cbn. rewrite W1. cbn. rewrite Hi. case_decide; by eexists. }
    rewrite (sched_schedule_dispatch s1 q' th v); [|done..|intros _; by eapply sched_next_exists].
    rewrite decide_False by done. mred. eexists _, _. split; [done|]. split_and!; try done.
    + eapply rdq_inv_ext; [..|exact HI1]; eauto.
    + cbn. eapply is_ring_agree; [|exact HR]. intros y Hy. apply D1.
      apply elem_of_cons in Hy as [->|(d & -> & Hd)%list_elem_of_fmap]; [done|]. split.
      * intros Hdt. destruct (wi_sleep _ _ _ _ HW d Hdt) as [Sd _].
        eapply ring_not_self; [exact HR| |exact Sd]. by apply elem_of_thr_links.
      * intros p Hp Hin. eapply (rings_disjoint (links s) ReaperHead (ThrLink <$> xs) (RdqHead p) (ThrLink <$> q p) (ThrLink d));
          [done|by apply HI|set_solver|set_solver|done|by apply elem_of_thr_links..].
Qed.

(** C31.  A thread that ends leaves the ready queue for good: once its files are
    closed, it is marked dead with its exit code, put last in the queue of the
    reaper, the reaper is made ready if it was waiting, and the processor goes
    to another thread. *)
Theorem thr_exit_thread_correct fs_close code s s0 q ds es ts th v l1 l2 :
  let t := current s0 in let p := prio (attr th) in
  let q' := rdq_enqueue s0 (rdq_upd q p (l1 ++ l2)) ts in
  close_all_fds fs_close (with_ie s false) = Ret tt s0 ->
  rdq_inv s0 q -> threads s0 !! t = Some th -> tinfos s0 !! tinfo th = Some v ->
  inhibited (preempt v) = false -> 0 <= p < RDQ_PRIORITY_MAX -> q p = l1 ++ t :: l2 ->
  t <> idle_thread -> is_Some (threads s0 !! idle_thread) ->
  is_ring (links s0) ReaperHead (ThrLink <$> ds) -> wait_inv s0 WqReaper es ts ->
  exists s1 k th', thr_exit_thread fs_close code s = Switch s1 k /\
    current s1 = sched_next q' /\ current s1 <> t /\ rdq_inv s1 q' /\
    is_ring (links s1) ReaperHead (ThrLink <$> (ds ++ [t])) /\
    threads s1 !! t = Some th' /\ status th' = THR_TSTATE_DEAD /\ exit_code th' = u64 code.
Proof.
  intros t p q' Hclose HI Hth Hv Hinh Hp Hq Hni Hidle HR HW.
  set (th' := with_status (with_status (with_exit_code th (u64 code)) THR_TSTATE_EXIT) THR_TSTATE_DEAD).
  destruct (exit_enqueue s0 q ds WqReaper es ts th l1 l2 th') as (m1 & b & m2 & E1 & E2 & Htts & R2 & HI2 & HW2); [done..|].
  set (s2 := with_links _ m2) in *. cbv zeta in *.
  assert (forall t', prio_of s2 t' = prio_of s0 t') as Hprio.
  { intros t'. unfold prio_of, s2. cbn. destruct (decide (t' = t)) as [->|].
    - by rewrite lookup_insert_eq, Hth.
    - by rewrite lookup_insert_ne. }
  assert (forall p', rdq_enqueue s2 (rdq_upd q p (l1 ++ l2)) ts p' = q' p') as Hq'.
  { intros p'. unfold q', rdq_enqueue. f_equal. apply list_filter_iff. intros t'. by rewrite Hprio. }
  assert (sched_next q' <> t) as Hne.
  { intros E. destruct (sched_next_cases q') as [E'|(p' & Hp' & Hin)]; [congruence|].
    rewrite E in Hin. unfold q', rdq_enqueue in Hin. apply elem_of_app in Hin as [Hin|Hin].
    - by eapply removed_not_queued in Hin.
    - by apply list_elem_of_filter in Hin as [_ Hin]. }
  assert (thr_exit_thread fs_close code s = ((wque_wakeup WqReaper WQUE_REASON_WAKEUP;;
     psw_restore_interrupt (ie s0));; (psw_restore_interrupt (ie s);; sched_schedule)) (with_ie s2 false)) as Eq.
  { unfold thr_exit_thread, psw_disable_and_save_interrupt. mred. rewrite Hclose. mred. rewrite E1. mred.
    erewrite thr_mod_eq by done. mred. erewrite set_status_eq by (cbn; by rewrite lookup_insert_eq). mred.
    unfold reaper_add_exit_thread, thr_add_thread_queue, psw_disable_and_save_interrupt, psw_restore_interrupt. mred.
    erewrite thr_get_eq by (cbn; by rewrite lookup_insert_eq). mred. cbn [negb status with_status Z.eqb THR_TSTATE_EXIT]. mred.
    cbn [negb Z.eqb Pos.eqb]. mred.
    erewrite set_status_eq by (cbn; by rewrite lookup_insert_eq). mred.
    rewrite (lk_upd_eq _ _ m2) by done. mred.
    cbn [threads current with_threads with_bitmap with_links with_ie]. rewrite !insert_insert_eq. done. }
  destruct (exit_dispatch (with_ie s2 false) (rdq_upd q p (l1 ++ l2)) (ds ++ [t]) es ts th' v (ie s0) (ie s))
    as (s1 & k & E & Hc & HI1 & R1 & Ht1); try done.
  { eapply rdq_inv_ext; [..|exact HI2]; eauto. }
  { by destruct HW2. }
  { cbn. by rewrite lookup_insert_eq. }
  { cbn. rewrite lookup_insert_ne by done. done. }
  { rewrite (sched_next_proper _ q'); [done|]. intros; apply Hq'. }
  exists s1, k, th'. rewrite Eq, E, Hc. rewrite (sched_next_proper _ q') by (intros; apply Hq').
  split_and!; try done. eapply rdq_inv_proper; [|exact HI1]. intros; apply Hq'.
Qed.

(** ** The reaper *)

(** One round: the first thread of the queue is destroyed. *)
Lemma reaper_one s d ds th :
  is_ring (links s) ReaperHead (ThrLink <$> (d :: ds)) -> d <> NULL ->
  threads s !! d = Some th -> status th = THR_TSTATE_DEAD ->
  exists m, (t ← thr_thread_queue_get_top ReaperHead; thr_destroy_thread t) s
    = Ret 0 (with_supply (with_links (with_tinfos (with_threads s (delete d (threads s)))
               (delete (refer_thread_info (attr th)) (tinfos s))) (delete (ThrLink d) m))
               (give_back d (give_back (stack_top (attr th)) (supply s)))) /\
    is_ring m ReaperHead (ThrLink <$> ds) /\ is_ring m (ThrLink d) [] /\
    frame (links s) m (ReaperHead :: (ThrLink <$> (d :: ds))).
Proof.
  intros HR Hd Ht Hst. destruct (list_get_top_ring _ _ _ _ HR) as (m & E & R & S & F). exists m.
  split_and!; [|done..]. unfold thr_thread_queue_get_top, psw_disable_and_save_interrupt, psw_restore_interrupt.
  mred. rewrite (lk_empty_eq (with_ie s false) _ _ HR). mred. cbn [fmap list_fmap]. rewrite bool_decide_false by done.
  rewrite (lk_fn_eq _ _ (ThrLink d) m) by done. mred. cbn [thread_of_link]. mred.
  unfold thr_destroy_thread, psw_disable_and_save_interrupt, psw_restore_interrupt. mred.
  rewrite (thr_get_eq _ _ th) by done. mred. rewrite Hst. mred. by destruct s.
Qed.

Lemma reaper_drain_spec fuel s ds :
  (length ds <= fuel)%nat -> is_ring (links s) ReaperHead (ThrLink <$> ds) ->
  (forall d, d ∈ ds -> d <> NULL /\ exists th, threads s !! d = Some th /\ status th = THR_TSTATE_DEAD) ->
  exists s', reaper_drain fuel s = Ret tt s' /\ is_ring (links s') ReaperHead [] /\
    ie s' = ie s /\ bitmap s' = bitmap s /\ current s' = current s /\
    (forall t, threads s' !! t = if decide (t ∈ ds) then None else threads s !! t) /\
    (forall y, y ∉ ReaperHead :: (ThrLink <$> ds) -> links s' !! y = links s !! y) /\
    (forall d, d ∈ ds -> links s' !! ThrLink d = None).
Proof.
  revert s ds. induction fuel as [|fuel IH]; intros s ds Hf HR HD; destruct ds as [|d ds]; cbn in Hf; try lia.
  1,2: exists s; cbn [reaper_drain];
    unfold thr_thread_queue_empty, psw_disable_and_save_interrupt, psw_restore_interrupt; mred;
    rewrite (lk_empty_eq (with_ie s false) _ _ HR); mred; split_and!; try done; try set_solver;
    by destruct s.
  destruct (HD d) as (Hd & th & Ht & Hst); [set_solver|].
  destruct (reaper_one s d ds th) as (m & E & R & S & F); [done..|].
  set (s1 := with_supply _ _) in E. assert (d ∉ ds) as Hnd.
  { destruct HR as [HN _]. apply NoDup_cons in HN as [_ HN]. apply NoDup_cons in HN as [HN _]. set_solver. }
  destruct (IH s1 ds) as (s' & E' & R' & Hie & Hb & Hc & HT & HL & HN).
  { lia. } { apply is_ring_delete; [set_solver|done]. }
  { intros d' Hd'. destruct (HD d') as (? & th' & ? & ?); [set_solver|]. split; [done|].
    exists th'. cbn. rewrite lookup_delete_ne by set_solver. done. }
  exists s'. split_and!; [|done..| | |].
  - cbn [reaper_drain]. unfold thr_thread_queue_empty, psw_disable_and_save_interrupt, psw_restore_interrupt. mred.
    rewrite (lk_empty_eq (with_ie s false) _ _ HR). mred. cbn [fmap list_fmap].
    rewrite bool_decide_false by done. mred. rewrite with_ie_ie. cbn [ie with_ie]. rewrite with_ie_id.
    mred in E. destruct (thr_thread_queue_get_top ReaperHead s) as [t s''| |]; cbn [run_bind] in E |- *; try done.
    mred. rewrite E. mred. exact E'.
  - intros t. rewrite HT. cbn. destruct (decide (t = d)) as [->|].
    + rewrite lookup_delete_eq, (decide_True (P := d ∈ d :: ds)) by set_solver. by case_decide.
    + rewrite lookup_delete_ne by done. apply decide_ext. set_solver.
  - intros y Hy. rewrite HL by set_solver. cbn. rewrite lookup_delete_ne by set_solver. apply F. set_solver.
  - intros d' [->|Hd']%elem_of_cons; [|by apply HN]. rewrite HL by set_solver. cbn. apply lookup_delete_eq.
Qed.

(** One pass of the reaper: every thread handed to it is destroyed, nothing
    else is, its queue is left empty, and the ready queues are untouched.  The
    number of threads bounds the rounds. *)
Theorem reaper_drain_correct s q ds :
  rdq_inv s q -> is_ring (links s) ReaperHead (ThrLink <$> ds) ->
  (forall d, d ∈ ds -> d <> NULL /\ exists th, threads s !! d = Some th /\ status th = THR_TSTATE_DEAD) ->
  exists s', reaper_drain (size (threads s)) s = Ret tt s' /\ is_ring (links s') ReaperHead [] /\
    ie s' = ie s /\ current s' = current s /\ rdq_inv s' q /\
    (forall t, threads s' !! t = if decide (t ∈ ds) then None else threads s !! t) /\
    (forall d, d ∈ ds -> links s' !! ThrLink d = None).
Proof.
  intros HI HR HD. destruct (reaper_drain_spec (size (threads s)) s ds) as (s' & E & R & Hie & Hb & Hc & HT & HL & HN);
    [|done..|].
  { destruct HR as [HN _]. apply NoDup_cons in HN as [_ HN]. apply NoDup_fmap_1 in HN.
    rewrite <-(size_list_to_set (C := gset ptr) ds), <-size_dom by done. apply subseteq_size.
    intros d. rewrite elem_of_list_to_set, elem_of_dom. intros (_ & th & Ht & _)%HD. by exists th. }
  exists s'. split_and!; try done.
  assert (forall p t, 0 <= p < RDQ_PRIORITY_MAX -> t ∈ q p -> t ∉ ds) as Hdis.
  { intros p t Hp Ht Hd. eapply (rings_disjoint (links s) ReaperHead (ThrLink <$> ds) (RdqHead p) (ThrLink <$> q p) (ThrLink t));
      [done|by apply HI|set_solver|set_solver|done|by apply elem_of_thr_links..]. }
  destruct HI as [Rq B G P]. split; rewrite ?Hb; try done.
  - intros p Hp. eapply is_ring_agree; [|by apply Rq]. intros y Hy. apply HL.
    apply elem_of_cons in Hy as [->|(t & -> & Ht)%list_elem_of_fmap]; [set_solver|].
    specialize (Hdis p t Hp Ht). set_solver.
  - intros p t Hp Ht. rewrite HT, decide_False by eauto. auto.
Qed.
End exit.

(** Memory for a stack at 0x10000 and a thread at 0x500; and a stack of the caller
    at 0x20000, with no memory for the thread. *)
Lemma thr_create_thread_correct_witness :
  (exists s', thr_create_thread 0x2000 10 (fun ti _ _ => ti - 32) 7 None 99 0
      (with_supply demo_state [0x10000; 0x500]) = Ret (0, 0x500) s' /\
    tinfos s' !! 0x11fe0 = Some (ThreadInfo 0 0x500 THR_THREAD_INFO_MAGIC) /\
    rdq_inv s' (rdq_upd (fun _ => []) 0 [0x500])) /\
  exists s', thr_create_thread 0x2000 10 (fun ti _ _ => ti - 32) 7 (Some (ThreadAttr 0x20000 NULL 0x1000 3)) 99 0
      (with_supply demo_state []) = Ret (ENOMEM, NULL) s' /\ supply s' = [0x20000].
Proof.
  assert (forall l, rdq_inv (with_supply demo_state l) (fun _ => [])) as HI by (intros l; eapply rdq_inv_ext; [..|exact demo_rdq_inv]; eauto).
  split.
  - destruct (thr_create_thread_correct 0x2000 10 (fun ti _ _ => ti - 32) 7 None 99 0
      (with_supply demo_state [0x10000; 0x500]) (fun _ => []) (HI _)) as [_ H].
    destruct (H 0x500 []) as (s' & E & _ & Hti & HQ & _); [done..|by vm_compute|by intros ? _ ?%elem_of_nil|].
    exists s'. split; [exact E|]. split; [rewrite Hti; apply lookup_insert_eq|exact HQ].
  - destruct (thr_create_thread_correct 0x2000 10 (fun ti _ _ => ti - 32) 7 (Some (ThreadAttr 0x20000 NULL 0x1000 3)) 99 0
      (with_supply demo_state []) (fun _ => []) (HI _)) as [H _].
    eexists. split; [apply H; by left|reflexivity].
Defined.

(** The kernel of [demo_wait] with the queue of the reaper: 101 is the reaper,
    waiting; 100 runs. *)
Definition demo_exit (ds : list ptr) : kst unit :=
  with_links demo_wait
    match ds with
    | [] => <[ReaperHead := Node ReaperHead ReaperHead]> demo_wait_links
    | _ => <[ReaperHead := Node (ThrLink 102) (ThrLink 102)]>
             (<[ThrLink 102 := Node ReaperHead ReaperHead]> demo_wait_links)
    end.

Lemma demo_exit_rdq ds : rdq_inv (demo_exit ds) demo_wait_q.
Proof.
  destruct demo_wait_rdq as [R B G P]. split; [|done..].
  destruct ds; apply demo_heads; repeat (constructor; [ring_decide|]); constructor.
Qed.

Lemma thr_exit_thread_correct_witness :
  exists s1 k th', thr_exit_thread (fun _ => mret 0) 3 (demo_exit []) = Switch s1 k /\
    current s1 = 101 /\ threads s1 !! 100 = Some th' /\ status th' = THR_TSTATE_DEAD /\ exit_code th' = 3.
Proof.
  destruct (thr_exit_thread_correct (fun _ => mret 0) 3 (demo_exit []) (with_ie (demo_exit []) false)
    demo_wait_q [] [7] [101] (Thread 0 1 0x2000 0 (ThreadAttr 0 0 0 2) 10 [])
    (ThreadInfo 0 100 THR_THREAD_INFO_MAGIC) [] [])
    as (s1 & k & th' & E & Hc & _ & _ & _ & Ht & Hs & He).
  - by apply forM_id.
  - eapply rdq_inv_ext; [..|exact (demo_exit_rdq [])]; eauto.
  - reflexivity.
  - reflexivity.
  - reflexivity.
  - split; [discriminate|reflexivity].
  - reflexivity.
  - discriminate.
  - by eexists.
  - ring_decide.
  - destruct demo_wait_wait as [R T N S]. split; [ring_decide|exact T|exact N|].
    intros t Ht. destruct (S t Ht) as [_ ?]. split; [|done]. apply list_elem_of_singleton in Ht as ->. ring_decide.
  - exists s1, k, th'. split; [exact E|]. split; [rewrite Hc; vm_compute; reflexivity|].
    split; [exact Ht|]. split; [exact Hs|exact He].
Defined.

Definition demo_reaper : kst unit :=
  with_threads (demo_exit [102])
    (<[102 := Thread THR_TSTATE_DEAD 9 0x4000 0 (ThreadAttr 0 0 0 3) 0 []]> (threads demo_wait)).

Lemma reaper_drain_correct_witness :
  exists s', reaper_drain (size (threads demo_reaper)) demo_reaper = Ret tt s' /\
    threads s' !! 102 = None /\ is_ring (links s') ReaperHead [].
Proof.
  destruct (reaper_drain_correct demo_reaper demo_wait_q [102]) as (s' & E & R & _ & _ & _ & HT & _).
  - destruct (demo_exit_rdq [102]) as [Rq B G P]. split; [done..|]. intros p t Hp Ht.
    destruct (P p t Hp Ht) as (th & Hth & Hpr). exists th. split; [|done].
    cbn [threads demo_reaper with_threads]. rewrite lookup_insert_ne; [done|]. intros <-. by vm_compute in Hth.
  - ring_decide.
  - intros d ->%list_elem_of_singleton. split; [done|]. by eexists.
  - exists s'. split; [exact E|]. split; [rewrite HT; reflexivity|exact R].
Defined.
