(* ===== verification/Irq.v ===== *)
(** kern/irq.c: interrupt lines, handlers, controllers and finders.

    A controller is a record of functions, some of which may be absent: the
    function pointers of an [irq_ctrlr], given by address by [ctrlr].  The
    handlers and the finders are code registered by others: [call_handler] and
    [call_finder] give the meaning of their function pointers.  A walk over a
    list of handlers is bounded by the number of handler objects. *)
From S2P Require Import Prelude Bitops KList Kernel ReadyQueue WaitQueue Timer.

Definition IRQ_ATTR_EXCLUSIVE : Z := 0x1.
Definition IRQ_ATTR_SHARED : Z := 0x0.
Definition IRQ_ATTR_NON_NESTABLE : Z := 0x2.
Definition IRQ_ATTR_HANDLER_MASK : Z := 0xf.
Definition IRQ_ATTR_LEVEL : Z := 0x00.
Definition IRQ_ATTR_EDGE : Z := 0x10.
Definition IRQ_ATTR_NESTABLE : Z := 0x0.
Definition IRQ_FOUND : Z := 0.
Definition IRQ_HANDLED : Z := 0.
Definition NR_IRQS : Z := 256.

Section irq.
Context {X : Type}.

Record irq_ctrlr : Type := IrqCtrlr {
  config_irq : option (Z -> Z -> Z -> K X Z);
  enable_irq : option (Z -> K X unit);
  disable_irq : option (Z -> K X unit);
  get_priority : option (K X Z);
  set_priority : option (Z -> K X unit);
  eoi : option (Z -> K X unit)
}.

Variable ctrlr : ptr -> irq_ctrlr.
Variable call_handler : fptr -> Z -> ptr -> Z -> K X Z.
Variable call_finder : fptr -> ptr -> K X (Z * Z).

(** Calling an absent function is a jump to address 0. *)
Definition callp {A} (f : option A) : K X A := deref f.
Definition present {A} (f : option A) : bool := match f with Some _ => true | None => false end.

(** [list_for_each(lp, ...)] with a body that carries [acc]. *)
Fixpoint list_iter {A} (fuel : nat) (head lp : loc) (acc : A) (body : loc -> A -> K X A) : K X A :=
  if decide (lp = head) then mret acc
  else match fuel with
       | O => stopM OutOfFuel
       | S fuel =>
           acc ← body lp acc;
           nx ← lk_rd (fun m => rd_next m lp);
           list_iter fuel head nx acc body
       end.

Definition handler_of_link (l : loc) : K X ptr :=
  match l with HandlerLink h => mret h | _ => stopM Fault end.
Definition finder_of_link (l : loc) : K X ptr :=
  match l with FinderLink f => mret f | _ => stopM Fault end.
Definition handler_get (h : ptr) : K X irq_handler_ent := s ← get; deref (handlers s !! h).

(** [mgr->irqs[irq]]: an index out of the array is an access to no object. *)
Definition line_get (irq : Z) : K X irq_line := s ← get; deref (irqs s !! irq).
Definition line_put (irq : Z) (l : irq_line) : K X unit :=
  s ← get; put (with_irqs s (<[irq := l]> (irqs s))).

Definition with_ctrlrp (l : irq_line) (p : ptr) : irq_line := IrqLine (nr l) (iattr l) (iprio l) p.
Definition with_attr_prio (l : irq_line) (a p : Z) : irq_line := IrqLine (nr l) a p (ctrlrp l).

(** The body of the loop of [invoke_irq_handler]. *)
Definition invoke_one (irq : Z) (exc : ptr) (lp : loc) (rc : Z) : K X Z :=
  h ← handler_of_link lp;
  entp ← handler_get h;
  if handler entp =? NULL then mret rc
  else
    line ← line_get irq;
    when (negb (ctrue (Z.land (iattr line) IRQ_ATTR_NON_NESTABLE))) psw_enable_interrupt;;
    is_handled ← call_handler (handler entp) irq exc (hprivate entp);
    psw_disable_interrupt;;
    mret (if is_handled =? IRQ_HANDLED then 0 else rc).

Definition invoke_irq_handler (irq : Z) (exc : ptr) : K X Z :=
  psw ← psw_disable_and_save_interrupt;
  s ← get;
  lp ← lk_rd (fun m => list_ref_top m (IrqHead irq));
  rc ← list_iter (size (handlers s)) (IrqHead irq) lp ESRCH (invoke_one irq exc);
  psw_restore_interrupt psw;;
  mret rc.

(** [linep->ctrlrp] as a record of functions. *)
Definition line_ctrlr (irq : Z) : K X irq_ctrlr := line ← line_get irq; mret (ctrlr (ctrlrp line)).

(** [undef] is what the uninitialised [is_handled] holds when no handler took
    the interrupt. *)
Definition handle_irq_line (undef : Z) (irq : Z) (exc : ptr) : K X Z :=
  line ← line_get irq;
  let c := ctrlr (ctrlrp line) in
  kassert (negb (ctrlrp line =? NULL) &&
    (present (disable_irq c) || (present (get_priority c) && present (set_priority c))) &&
    present (enable_irq c) && present (eoi c));;
  psw ← psw_disable_and_save_interrupt;
  prio ← (if negb (present (set_priority c))
          then f ← callp (disable_irq c); f irq;; mret 0
          else f ← callp (get_priority c); prio ← f;
               line ← line_get irq;
               g ← callp (set_priority (ctrlr (ctrlrp line))); g (iprio line);; mret prio);
  c ← line_ctrlr irq; f ← callp (eoi c); f irq;;
  rc ← invoke_irq_handler irq exc;
  let is_handled := if rc =? 0 then 0 else undef in
  c ← line_ctrlr irq;
  (if negb (present (set_priority c))
   then f ← callp (enable_irq c); f irq
   else g ← callp (set_priority c); g prio);;
  psw_restore_interrupt psw;;
  mret is_handled.

Definition irq_out_of_range (irq : Z) : bool := (irq <? 0) || (NR_IRQS <=? irq).

Definition irq_register_ctrlr (irq : Z) (p : ptr) : K X Z :=
  if irq_out_of_range irq then mret EINVAL
  else
    psw ← psw_disable_and_save_interrupt;
    line ← line_get irq; line_put irq (with_ctrlrp line p);;
    psw_restore_interrupt psw;;
    mret 0.

Definition irq_unregister_ctrlr (irq : Z) : K X Z :=
  if irq_out_of_range irq then mret EINVAL
  else
    psw ← psw_disable_and_save_interrupt;
    line ← line_get irq; line_put irq (with_ctrlrp line NULL);;
    psw_restore_interrupt psw;;
    mret 0.

(** A new [irq_handler_ent]; [kfree] of one, which is no object any more. *)
Definition new_handler (h : ptr) : K X unit :=
  s ← get; put (with_handlers (with_links s (<[HandlerLink h := Node (HandlerLink h) (HandlerLink h)]> (links s)))
                  (<[h := IrqHandlerEnt NULL 0]> (handlers s))).
Definition free_handler (h : ptr) : K X unit :=
  s ← get; put (with_handlers (with_links s (delete (HandlerLink h) (links s))) (delete h (handlers s)));;
  kfree h.

Definition irq_register_handler (irq attr prio private : Z) (fn : fptr) : K X Z :=
  if irq_out_of_range irq then mret EINVAL
  else
    let handler_attr := Z.land attr IRQ_ATTR_HANDLER_MASK in
    psw ← psw_disable_and_save_interrupt;
    line ← line_get irq;
    rc ← (if negb (ctrue (Z.land handler_attr IRQ_ATTR_NON_NESTABLE)) &&
             ctrue (Z.land (iattr line) IRQ_ATTR_NON_NESTABLE) then mret EINVAL
          else
            busy ← (if ctrue (Z.land handler_attr IRQ_ATTR_EXCLUSIVE)
                    then e ← lk_rd (fun m => list_is_empty m (IrqHead irq)); mret (negb e)
                    else mret false);
            if (busy : bool) then mret EBUSY
            else if (ctrlrp line =? NULL) || negb (present (config_irq (ctrlr (ctrlrp line)))) then mret ENOENT
            else
              h ← kmalloc;
              if h =? NULL then mret ENOMEM
              else
                new_handler h;;
                lk_upd (fun m => init_list_node m (HandlerLink h));;
                s ← get; put (with_handlers s (<[h := IrqHandlerEnt fn private]> (handlers s)));;
                line_put irq (with_attr_prio line attr prio);;
                f ← callp (config_irq (ctrlr (ctrlrp line)));
                rc ← f irq attr prio;
                if negb (rc =? 0) then free_handler h;; mret rc
                else
                  e ← lk_rd (fun m => list_is_empty m (IrqHead irq));
                  (if (e : bool) then c ← line_ctrlr irq; f ← callp (enable_irq c); f irq else mret tt);;
                  lk_upd (fun m => list_add m (IrqHead irq) (HandlerLink h));;
                  mret 0);
    psw_restore_interrupt psw;;
    mret rc.

(** The search of [irq_unregister_handler]. *)
Fixpoint unregister_loop (fuel : nat) (irq : Z) (fn : fptr) (lp : loc) : K X Z :=
  if decide (lp = IrqHead irq) then mret ENOENT
  else match fuel with
       | O => stopM OutOfFuel
       | S fuel =>
           h ← handler_of_link lp;
           entp ← handler_get h;
           if handler entp =? fn then
             lk_upd (fun m => list_del m lp);;
             free_handler h;;
             e ← lk_rd (fun m => list_is_empty m (IrqHead irq));
             (if (e : bool) then
                c ← line_ctrlr irq; f ← callp (disable_irq c); f irq
              else mret tt);;
             mret 0
           else
             nx ← lk_rd (fun m => rd_next m lp);
             unregister_loop fuel irq fn nx
       end.

Definition irq_unregister_handler (irq : Z) (fn : fptr) : K X Z :=
  if irq_out_of_range irq then mret EINVAL
  else
    psw ← psw_disable_and_save_interrupt;
    s ← get;
    lp ← lk_rd (fun m => list_ref_top m (IrqHead irq));
    rc ← unregister_loop (size (handlers s)) irq fn lp;
    psw_restore_interrupt psw;;
    mret rc.

Definition irq_register_pending_irq_finder (f : ptr) : K X unit :=
  psw ← psw_disable_and_save_interrupt;
  linked ← lk_rd (fun m => list_is_linked m (FinderLink f));
  kassert (negb linked);;
  lk_upd (fun m => list_add m FindIrqsHead (FinderLink f));;
  psw_restore_interrupt psw.

Definition irq_unregister_pending_irq_finder (f : ptr) : K X unit :=
  psw ← psw_disable_and_save_interrupt;
  linked ← lk_rd (fun m => list_is_linked m (FinderLink f));
  kassert linked;;
  lk_upd (fun m => list_del m (FinderLink f));;
  psw_restore_interrupt psw.

Definition irq_handle_irq (undef : Z) (exc : ptr) : K X Z :=
  psw ← psw_disable_and_save_interrupt;
  s ← get;
  lp ← lk_rd (fun m => list_ref_top m FindIrqsHead);
  is_handled ← list_iter (size (finders s)) FindIrqsHead lp ESRCH (fun lp is_handled =>
    p ← finder_of_link lp;
    s ← get; find_pending ← deref (finders s !! p);
    kassert (negb (find_pending =? NULL));;
    r ← call_finder find_pending exc;
    if r.1 =? IRQ_FOUND then
      rc ← handle_irq_line undef r.2 exc;
      mret (if rc =? 0 then 0 else is_handled)
    else mret is_handled);
  psw_restore_interrupt psw;;
  mret is_handled.

Definition irq_initialize_manager : K X Z :=
  psw ← psw_disable_and_save_interrupt;
  lk_upd (fun m => init_list_head m FindIrqsHead);;
  forM (seqZ 0 NR_IRQS) (fun i =>
    lk_upd (fun m => init_list_head m (IrqHead i));;
    line_put i (IrqLine i (Z.lor IRQ_ATTR_SHARED IRQ_ATTR_LEVEL) 0 NULL));;
  psw_restore_interrupt psw;;
  mret 0.
End irq.
Arguments irq_ctrlr : clear implicits.

(** ** The handlers of a line *)

Section props.
Context {X : Type}.
Implicit Types (s : kst X) (hs : list ptr).

Definition irq_inv s (irq : Z) hs : Prop :=
  is_ring (links s) (IrqHead irq) (HandlerLink <$> hs) /\
  forall h, h ∈ hs -> is_Some (handlers s !! h).

Definition fn_of s (h : ptr) : fptr := default NULL (handler <$> handlers s !! h).

Lemma line_get_eq s irq l : irqs s !! irq = Some l -> line_get irq s = Ret l s.
Proof. intros E. unfold line_get. mred. by rewrite E. Qed.
Lemma handler_get_eq s h v : handlers s !! h = Some v -> handler_get h s = Ret v s.
Proof. intros E. unfold handler_get. mred. by rewrite E. Qed.

Lemma irq_size s irq hs : irq_inv s irq hs -> (length hs <= size (handlers s))%nat.
Proof.
  intros [[HN _] HC]. apply NoDup_cons in HN as [_ HN]. apply NoDup_fmap_1 in HN.
  rewrite <-(size_list_to_set (C := gset ptr) hs), <-size_dom by done. apply subseteq_size.
  intros c. rewrite elem_of_list_to_set, elem_of_dom. apply HC.
Qed.

(** A walk whose body keeps an invariant visits every entry, in order. *)
Lemma list_iter_spec {A} (I : list loc -> A -> kst X -> Prop) head xs (body : loc -> A -> K X A) :
  (forall done acc s, I done acc s -> is_ring (links s) head xs) ->
  (forall done x rest acc s, xs = done ++ x :: rest -> I done acc s ->
     exists acc' s', body x acc s = Ret acc' s' /\ I (done ++ [x]) acc' s') ->
  forall rest done fuel acc s, xs = done ++ rest -> (length rest <= fuel)%nat -> I done acc s ->
    exists acc' s', list_iter fuel head (default head (List.hd_error rest)) acc body s = Ret acc' s' /\ I xs acc' s'.
Proof.
  intros Hring Hbody rest. induction rest as [|x rest IH]; intros done fuel acc s Hxs Hf HI.
  { rewrite app_nil_r in Hxs. subst. exists acc, s. split; [|done].
    destruct fuel; cbn; by rewrite decide_True. }
  destruct fuel as [|fuel]; [cbn in Hf; lia|].
  destruct (Hbody done x rest acc s Hxs HI) as (acc1 & s1 & E1 & HI1).
  pose proof (Hring _ _ _ HI1) as HR. pose proof HR as HR'. rewrite Hxs in HR'.
  apply ring_next in HR'.
  destruct (IH (done ++ [x]) fuel acc1 s1) as (acc' & s' & E & HI'); [by rewrite <-app_assoc|cbn in Hf; lia|done|].
  exists acc', s'. split; [|done]. cbn [List.hd_error default list_iter].
  rewrite decide_False.
  - cbn. mred. rewrite E1. mred. rewrite (lk_rd_eq _ _ (default head (hd_error rest))); [done|].
    rewrite HR'. by destruct rest.
  - cbn. intros ->. destruct HR as [HN _]. apply NoDup_cons in HN as [HN _]. apply HN. subst. set_solver.
Qed.

(** ** Dispatching *)

Definition irq_link (l : loc) : Prop :=
  match l with IrqHead _ | HandlerLink _ => True | _ => False end.

Definition live_handlers s hs : list ptr := filter (fun h => fn_of s h <> NULL) hs.
Definition handler_call s (h : ptr) : fptr * Z :=
  (fn_of s h, default 0 (hprivate <$> handlers s !! h)).

Section dispatch.
Variable call_handler : fptr -> Z -> ptr -> Z -> K X Z.
(** What the interrupt layer relies on of a handler: it returns its answer and
    leaves the lists and tables of the layer alone.  [calls] is a record the
    handlers keep of their calls. *)
Variable answer : fptr -> Z -> Z.
Variable calls : X -> list (fptr * Z).
Hypothesis handler_returns : forall f irq exc p s, exists s',
  call_handler f irq exc p s = Ret (answer f p) s' /\ calls (ext s') = calls (ext s) ++ [(f, p)] /\
  handlers s' = handlers s /\ irqs s' = irqs s /\ forall l, irq_link l -> links s' !! l = links s !! l.

Definition handled (c : fptr * Z) : bool := answer c.1 c.2 =? IRQ_HANDLED.

(** The state of the walk after the handlers [d] of the line. *)
Definition walked s (dn : list loc) (rc : Z) st : Prop :=
  exists d, dn = HandlerLink <$> d /\ ie st = false /\
    handlers st = handlers s /\ irqs st = irqs s /\ (forall l, irq_link l -> links st !! l = links s !! l) /\
    calls (ext st) = calls (ext s) ++ (handler_call s <$> live_handlers s d) /\
    rc = if existsb handled (handler_call s <$> live_handlers s d) then 0 else ESRCH.

Lemma invoke_one_walked s irq exc line dn h rc st :
  irqs s !! irq = Some line -> is_Some (handlers s !! h) -> walked s dn rc st ->
  exists rc' st', invoke_one call_handler irq exc (HandlerLink h) rc st = Ret rc' st' /\
    walked s (dn ++ [HandlerLink h]) rc' st'.
Proof.
  intros Hline [v Hv] (d & -> & Hie & Hh & Hi & Hl & Hc & ->).
  assert (fn_of s h = handler v) as Hfn by (unfold fn_of; by rewrite Hv).
  assert (live_handlers s (d ++ [h]) = live_handlers s d ++ live_handlers s [h]) as Hlive.
  { unfold live_handlers. by rewrite filter_app. }
  unfold invoke_one. cbn [handler_of_link]. mred. rewrite (handler_get_eq _ _ v) by (by rewrite Hh). mred.
  destruct (Z.eqb_spec (handler v) NULL) as [E0|E0].
  - eexists _, st. split; [done|]. exists (d ++ [h]). rewrite fmap_app, Hlive.
    assert (live_handlers s [h] = []) as ->.
    { unfold live_handlers. rewrite filter_cons_False, filter_nil; [done|]. intros H; apply H. by rewrite Hfn. }
    by rewrite app_nil_r.
  - rewrite (line_get_eq _ _ line) by (by rewrite Hi). mred.
    assert (handler_call s h = (handler v, hprivate v)) as Hcall.
    { unfold handler_call. by rewrite Hfn, Hv. }
    assert (live_handlers s [h] = [h]) as Hone.
    { unfold live_handlers. rewrite filter_cons_True, filter_nil; [done|]. by rewrite Hfn. }
    set (nest := negb (ctrue (Z.land (iattr line) IRQ_ATTR_NON_NESTABLE))).
    set (st1 := if nest then with_ie st true else st).
    destruct (handler_returns (handler v) irq exc (hprivate v) st1) as (st2 & E & Hc2 & Hh2 & Hi2 & Hl2).
    assert (handlers st1 = handlers st /\ irqs st1 = irqs st /\ links st1 = links st /\ ext st1 = ext st)
      as (Q1 & Q2 & Q3 & Q4) by (unfold st1; by destruct nest).
    exists (if answer (handler v) (hprivate v) =? IRQ_HANDLED then 0 else
      if existsb handled (handler_call s <$> live_handlers s d) then 0 else ESRCH), (with_ie st2 false).
    split.
    { transitivity (run_bind (call_handler (handler v) irq exc (hprivate v) st1) (fun r st' =>
        Ret (if r =? IRQ_HANDLED then 0 else
          if existsb handled (handler_call s <$> live_handlers s d) then 0 else ESRCH) (with_ie st' false))).
      - unfold st1. by destruct nest.
      - by rewrite E. }
    exists (d ++ [h]). rewrite fmap_app, Hlive, Hone, fmap_app. split_and!; try done.
    + cbn. by rewrite Hh2, Q1.
    + cbn. by rewrite Hi2, Q2.
    + intros l Hll. cbn. by rewrite Hl2, Q3, Hl.
    + cbn. rewrite Hc2, Q4, Hc, <-app_assoc. cbn. by rewrite Hcall.
    + rewrite existsb_app. cbn. rewrite Hcall. unfold handled. cbn [fst snd].
      destruct (_ =? IRQ_HANDLED); [by rewrite orb_true_r|]. by rewrite orb_false_r.
Qed.

(** An interrupt on a line: every handler of the line is called once, in
    the order of registration, with its own argument; the result is 0 exactly
    when one of them took the interrupt and ESRCH otherwise; the handlers stay
    registered and the interrupt flag is restored. *)
Theorem invoke_irq_handler_correct s irq exc hs line :
  irq_inv s irq hs -> irqs s !! irq = Some line ->
  let cs := handler_call s <$> live_handlers s hs in
  exists s', invoke_irq_handler call_handler irq exc s = Ret (if existsb handled cs then 0 else ESRCH) s' /\
    calls (ext s') = calls (ext s) ++ cs /\ ie s' = ie s /\ irq_inv s' irq hs.
Proof.
  intros HI Hline cs. pose proof HI as [HR HH].
  destruct (list_iter_spec (walked s) (IrqHead irq) (HandlerLink <$> hs) (invoke_one call_handler irq exc))
    with (rest := HandlerLink <$> hs) (done := @nil loc) (fuel := size (handlers s)) (acc := ESRCH)
      (s := with_ie s false) as (rc & s' & E & d & Hd & Hie & Hh & Hi & Hl & Hc & ->).
  - intros dn rc st (d & _ & _ & _ & _ & Hl & _). eapply is_ring_agree; [|exact HR].
    intros y Hy. apply Hl. apply elem_of_cons in Hy as [->|(? & -> & _)%list_elem_of_fmap]; done.
  - intros dn x rest rc st Hxs HW.
    assert (x ∈ HandlerLink <$> hs) as (h & -> & Hin)%list_elem_of_fmap by (rewrite Hxs; set_solver).
    eapply invoke_one_walked; eauto.
  - done.
  - rewrite length_fmap. by eapply irq_size.
  - exists []. split_and!; try done. by rewrite app_nil_r.
  - apply list_fmap_eq_inj in Hd as <-; [|by intros ?? [= ->]].
    exists (with_ie s' (ie s)). split_and!; try done.
    + unfold invoke_irq_handler, psw_disable_and_save_interrupt, psw_restore_interrupt. mred.
      rewrite (lk_rd_eq _ _ (default (IrqHead irq) (hd_error (HandlerLink <$> hs)))).
      * mred. cbn [handlers with_ie]. by rewrite E.
      * cbn [links with_ie]. rewrite (list_ref_top_ring _ _ _ HR). by destruct hs.
    + split.
      * eapply is_ring_agree; [|exact HR]. intros y Hy. apply Hl.
        apply elem_of_cons in Hy as [->|(? & -> & _)%list_elem_of_fmap]; done.
      * cbn. by rewrite Hh.
Qed.
End dispatch.

(** ** Registration *)

Section register.
Variable ctrlr : ptr -> irq_ctrlr X.

(** A controller that acts on the hardware only: what configuring an interrupt
    returns, and what configuring, enabling and disabling it do. *)
Definition drives (c : irq_ctrlr X) (code : Z -> Z -> Z -> X -> Z) (cfg : Z -> Z -> Z -> X -> X) (en dis : Z -> X -> X) : Prop :=
  (exists f, config_irq c = Some f /\ forall i a p s, f i a p s = Ret (code i a p (ext s)) (with_ext s (cfg i a p (ext s)))) /\
  (exists f, enable_irq c = Some f /\ forall i s, f i s = Ret tt (with_ext s (en i (ext s)))) /\
  (exists f, disable_irq c = Some f /\ forall i s, f i s = Ret tt (with_ext s (dis i (ext s)))).

(** The request clashes with the line: a nestable handler on a line that is
    not, or an exclusive one on a line that has handlers. *)
Definition nest_clash (line : irq_line) (attr : Z) : bool :=
  negb (ctrue (Z.land (Z.land attr IRQ_ATTR_HANDLER_MASK) IRQ_ATTR_NON_NESTABLE)) &&
  ctrue (Z.land (iattr line) IRQ_ATTR_NON_NESTABLE).
Definition wants_exclusive (attr : Z) : bool :=
  ctrue (Z.land (Z.land attr IRQ_ATTR_HANDLER_MASK) IRQ_ATTR_EXCLUSIVE).

(** The checks of [irq_register_handler] come first and change nothing. *)
Definition refusal (line : irq_line) (attr : Z) (hs : list ptr) : option Z :=
  if nest_clash line attr then Some EINVAL
  else if wants_exclusive attr && bool_decide (hs <> []) then Some EBUSY
  else if (ctrlrp line =? NULL) || negb (present (config_irq (ctrlr (ctrlrp line)))) then Some ENOENT else None.

(** What follows the checks. *)
Definition register_new (line : irq_line) (irq attr prio priv : Z) (fn : fptr) : K X Z :=
  h ← kmalloc;
  if h =? NULL then mret ENOMEM
  else
    new_handler h;;
    lk_upd (fun m => init_list_node m (HandlerLink h));;
    s ← get; put (with_handlers s (<[h := IrqHandlerEnt fn priv]> (handlers s)));;
    line_put irq (with_attr_prio line attr prio);;
    f ← callp (config_irq (ctrlr (ctrlrp line)));
    rc ← f irq attr prio;
    if negb (rc =? 0) then free_handler h;; mret rc
    else
      e ← lk_rd (fun m => list_is_empty m (IrqHead irq));
      (if (e : bool) then c ← line_ctrlr ctrlr irq; f ← callp (enable_irq c); f irq else mret tt);;
      lk_upd (fun m => list_add m (IrqHead irq) (HandlerLink h));;
      mret 0.

Lemma irq_register_checks s irq attr prio priv fn hs line :
  0 <= irq < NR_IRQS -> irq_inv s irq hs -> irqs s !! irq = Some line ->
  irq_register_handler ctrlr irq attr prio priv fn s =
    match refusal line attr hs with
    | Some rc => Ret rc s
    | None => run_bind (register_new line irq attr prio priv fn (with_ie s false)) (fun rc s' => Ret rc (with_ie s' (ie s)))
    end.
Proof.
  intros Hr [HR _] Hline. unfold irq_register_handler, irq_out_of_range.
  rewrite (proj2 (Z.ltb_ge _ _)), (proj2 (Z.leb_gt _ _)) by lia. cbn [orb].
  unfold psw_disable_and_save_interrupt, psw_restore_interrupt. mred.
  rewrite (line_get_eq _ _ line) by done. mred. fold (nest_clash line attr). unfold refusal.
  destruct (nest_clash line attr); [by destruct s|]. fold (wants_exclusive attr).
  assert (forall B (k : bool -> K X B), run_bind ((if wants_exclusive attr
      then fun s0 => run_bind (lk_rd (fun m1 => list_is_empty m1 (IrqHead irq)) s0) (fun (a : bool) s2 => Ret (negb a) s2)
      else fun s0 => Ret false s0) (with_ie s false)) k = k (wants_exclusive attr && bool_decide (hs <> [])) (with_ie s false)) as Hbusy.
  { intros B k. destruct (wants_exclusive attr); [|done]. rewrite (lk_empty_eq (with_ie s false) _ _ HR). mred. by destruct hs. }
  rewrite Hbusy. destruct (_ && bool_decide _); [by destruct s|]. destruct (_ || _); [by destruct s|]. done.
Qed.

(** The line [irq] with a new handler [h], not in its list yet, when the
    controller has been asked to configure it. *)
Definition configured (s : kst X) (rest : list ptr) (h : ptr) (line : irq_line) (irq attr prio priv : Z) (fn : fptr) (x : X) : kst X :=
  with_ext (with_irqs (with_handlers (with_links (with_supply s rest) (<[HandlerLink h := Node (HandlerLink h) (HandlerLink h)]> (links s)))
    (<[h := IrqHandlerEnt fn priv]> (handlers s))) (<[irq := with_attr_prio line attr prio]> (irqs s))) x.

Lemma register_new_eq s irq attr prio priv fn hs line h rest code cfg en dis :
  irq_inv s irq hs -> drives (ctrlr (ctrlrp line)) code cfg en dis -> supply s = h :: rest -> h <> NULL -> h ∉ hs -> links s !! HandlerLink h = None ->
  let x := cfg irq attr prio (ext s) in let s1 := configured s rest h line irq attr prio priv fn x in
  register_new line irq attr prio priv fn s =
    if negb (code irq attr prio (ext s) =? 0) then run_bind (free_handler h s1) (fun _ s2 => Ret (code irq attr prio (ext s)) s2)
    else run_bind (lk_upd (fun m => list_add m (IrqHead irq) (HandlerLink h)) (if bool_decide (hs = []) then with_ext s1 (en irq x) else s1)) (fun _ s2 => Ret 0 s2).
Proof.
  intros [HR HH] ((fc & Efc & Hfc) & (fe & Efe & Hfe) & _) Hs Hh Hhs Hl x s1.
  set (m0 := <[HandlerLink h := Node (HandlerLink h) (HandlerLink h)]> (links s)).
  assert (is_ring m0 (HandlerLink h) []) as Rh.
  { apply lk_self_ring. unfold lk, rd_next, rd_prev, m0. by rewrite lookup_insert_eq. }
  assert (is_ring m0 (IrqHead irq) (HandlerLink <$> hs)) as R0 by (by apply is_ring_insert).
  unfold register_new, kmalloc. mred. rewrite Hs. mred. rewrite (proj2 (Z.eqb_neq _ _) Hh).
  unfold new_handler. mred. rewrite (lk_upd_eq _ _ m0) by (by apply init_list_node_self). mred.
  unfold line_put, callp. mred. cbn [handlers irqs links with_handlers with_links with_supply with_irqs].
  rewrite insert_insert_eq, Efc. mred. rewrite Hfc. mred. cbn [ext with_irqs with_handlers with_links with_supply].
  match goal with |- context [with_ext ?st _] => change (with_ext st (cfg irq attr prio (ext s))) with s1 end.
  destruct (negb _); [done|]. rewrite (lk_empty_eq s1 (IrqHead irq) (HandlerLink <$> hs)) by done. mred.
  replace (bool_decide (HandlerLink <$> hs = [])) with (bool_decide (hs = [])) by (apply bool_decide_ext; by destruct hs).
  case_bool_decide; [|done]. unfold line_ctrlr. mred. erewrite line_get_eq by (cbn; by rewrite lookup_insert_eq). mred.
  cbn [ctrlrp with_attr_prio]. rewrite Efe. mred. rewrite Hfe. done.
Qed.

(** A handler the controller refuses is freed. *)
Lemma irq_register_failed s irq attr prio priv fn hs line h rest code cfg en dis :
  0 <= irq < NR_IRQS -> irq_inv s irq hs -> irqs s !! irq = Some line -> refusal line attr hs = None ->
  drives (ctrlr (ctrlrp line)) code cfg en dis -> supply s = h :: rest -> h <> NULL -> h ∉ hs -> links s !! HandlerLink h = None ->
  code irq attr prio (ext s) <> 0 ->
  irq_register_handler ctrlr irq attr prio priv fn s = Ret (code irq attr prio (ext s))
    (with_irqs (with_handlers (with_ext (with_supply s (rest ++ [h])) (cfg irq attr prio (ext s))) (delete h (handlers s)))
      (<[irq := with_attr_prio line attr prio]> (irqs s))).
Proof.
  intros Hr HI Hline Hre Hd Hs Hh Hhs Hl Hc. rewrite (irq_register_checks _ _ _ _ _ _ hs line), Hre by done.
  rewrite (register_new_eq (with_ie s false) irq attr prio priv fn hs line h rest code cfg en dis) by (done || by destruct HI; split).
  cbn [ext with_ie]. rewrite (proj2 (Z.eqb_neq _ _) Hc). cbn [negb]. unfold free_handler, kfree, give_back. mred.
  rewrite (proj2 (Z.eqb_neq _ _) Hh). unfold configured. f_equal. cbn. rewrite delete_insert_id, delete_insert_eq by done. by destruct s.
Qed.

Lemma irq_register_eq s irq attr prio priv fn hs line h rest code cfg en dis :
  0 <= irq < NR_IRQS -> irq_inv s irq hs -> irqs s !! irq = Some line -> refusal line attr hs = None ->
  drives (ctrlr (ctrlrp line)) code cfg en dis -> supply s = h :: rest -> h <> NULL -> h ∉ hs -> links s !! HandlerLink h = None ->
  code irq attr prio (ext s) = 0 ->
  exists m,
    let x := cfg irq attr prio (ext s) in
    let s' := with_links (with_irqs (with_handlers (with_ext (with_supply s rest) (if bool_decide (hs = []) then en irq x else x))
      (<[h := IrqHandlerEnt fn priv]> (handlers s))) (<[irq := with_attr_prio line attr prio]> (irqs s))) m in
    irq_register_handler ctrlr irq attr prio priv fn s = Ret 0 s' /\ irq_inv s' irq (hs ++ [h]).
Proof.
  intros Hr HI Hline Hre Hd Hs Hh Hhs Hl Hc. pose proof HI as [HR HH].
  set (m0 := <[HandlerLink h := Node (HandlerLink h) (HandlerLink h)]> (links s)).
  assert (is_ring m0 (HandlerLink h) []) as Rh.
  { apply lk_self_ring. unfold lk, rd_next, rd_prev, m0. by rewrite lookup_insert_eq. }
  assert (is_ring m0 (IrqHead irq) (HandlerLink <$> hs)) as R0 by (by apply is_ring_insert).
  destruct (list_add_ring _ _ _ (HandlerLink h) R0) as (m & Em & R & F).
  { set_solver. } { eapply is_ring_dom; [exact Rh|set_solver]. }
  exists m. split.
  - rewrite (irq_register_checks _ _ _ _ _ _ hs line), Hre by done.
    rewrite (register_new_eq (with_ie s false) irq attr prio priv fn hs line h rest code cfg en dis) by (done || by destruct HI; split).
    cbn [ext with_ie]. rewrite Hc. cbn [Z.eqb negb]. rewrite (lk_upd_eq _ _ m) by (by case_bool_decide). case_bool_decide; by destruct s.
  - split; [by rewrite fmap_app in *|]. cbn. intros h' Hh'. apply lookup_insert_is_Some'.
    destruct (decide (h = h')); [by left|right]. apply HH. set_solver.
Qed.

(** The search: the first handler with the function is taken out and freed. *)
Lemma unregister_loop_spec fuel s irq fn line l1 l2 code cfg en dis :
  (length l2 <= fuel)%nat -> irq_inv s irq (l1 ++ l2) -> irqs s !! irq = Some line ->
  drives (ctrlr (ctrlrp line)) code cfg en dis -> (forall h, h ∈ l1 -> fn_of s h <> fn) ->
  let lp := default (IrqHead irq) (hd_error (HandlerLink <$> l2)) in
  ((forall h, h ∈ l2 -> fn_of s h <> fn) /\ unregister_loop ctrlr fuel irq fn lp s = Ret ENOENT s) \/
  (exists a h b m, l2 = a ++ h :: b /\ fn_of s h = fn /\ (forall h', h' ∈ a -> fn_of s h' <> fn) /\
    let s' := with_ext (with_handlers (with_links (with_supply s (give_back h (supply s))) m) (delete h (handlers s)))
      (if bool_decide (l1 ++ a ++ b = []) then dis irq (ext s) else ext s) in
    unregister_loop ctrlr fuel irq fn lp s = Ret 0 s' /\ irq_inv s' irq (l1 ++ a ++ b)).
Proof.
  intros Hf HI Hline Hok. revert fuel l1 Hf HI. induction l2 as [|h l2 IH]; intros fuel l1 Hf HI Hl1 lp.
  { left. split; [set_solver|]. destruct fuel; cbn; by rewrite decide_True. }
  destruct fuel as [|fuel]; [cbn in Hf; lia|]. destruct HI as [HR HH].
  destruct (HH h) as [v Hv]; [set_solver|].
  assert (fn_of s h = handler v) as Hfn by (unfold fn_of; by rewrite Hv).
  rewrite fmap_app in HR. cbn in HR. unfold lp. cbn [fmap list_fmap hd_error unregister_loop default].
  rewrite decide_False by done. cbn. mred. rewrite (handler_get_eq _ _ v) by done. mred.
  destruct (Z.eqb_spec (handler v) fn) as [Efn|Efn].
  - right. destruct (list_del_ring _ _ _ _ _ HR) as (m & Em & R & S & F). rewrite <-fmap_app in R.
    set (m1 := delete (HandlerLink h) m).
    assert (h ∉ l1 ++ l2) as Hnin.
    { destruct HR as [HN _]. apply NoDup_cons in HN as [_ HN]. rewrite <-Permutation_middle in HN.
      apply NoDup_cons in HN as [HN _]. set_solver. }
    assert (is_ring m1 (IrqHead irq) (HandlerLink <$> (l1 ++ l2))) as R1 by (apply is_ring_delete; [set_solver|done]).
    set (s1 := with_handlers (with_links (with_supply s (give_back h (supply s))) m1) (delete h (handlers s))).
    assert ((if bool_decide (HandlerLink <$> (l1 ++ l2) = []) then c ← line_ctrlr ctrlr irq;
      f ← callp (disable_irq c); f irq else mret tt) s1 = Ret tt (with_ext s1 (if bool_decide (l1 ++ l2 = []) then dis irq (ext s) else ext s))) as Ex.
    { replace (bool_decide (HandlerLink <$> (l1 ++ l2) = [])) with (bool_decide (l1 ++ l2 = [])) by (apply bool_decide_ext; by destruct (l1 ++ l2)).
      case_bool_decide; [|by destruct s]. destruct Hok as (_ & _ & fd & Efd & Hfd). unfold line_ctrlr, callp. mred.
      rewrite (line_get_eq _ _ line) by done. mred. rewrite Efd. mred. by rewrite Hfd. }
    exists [], h, l2, m1. split_and!; [done|congruence|set_solver| |].
    + rewrite (lk_upd_eq _ _ m) by done. mred. unfold free_handler, kfree. mred. fold m1.
      match goal with |- context [lk_rd _ ?st] => change st with s1 end.
      rewrite (lk_empty_eq s1 _ _ R1). mred. mred in Ex. by rewrite Ex.
    + split; [done|]. cbn. intros h' Hh'. rewrite lookup_delete_ne by (intros <-; set_solver).
      apply HH. set_solver.
  - destruct (IH fuel (l1 ++ [h])) as [[Hno E]|(a & h' & b & m & -> & Hfn' & Ha & E & HI')].
    { cbn in Hf; lia. } { split; rewrite <-app_assoc; [by rewrite fmap_app|done]. }
    { intros h' [?| ->%list_elem_of_singleton]%elem_of_app; [auto|congruence]. }
    + left. split; [intros h' [->|?]%elem_of_cons; [congruence|auto]|].
      rewrite (lk_rd_eq _ _ (default (IrqHead irq) (hd_error (HandlerLink <$> l2)))); [exact E|].
      apply ring_next in HR. rewrite HR. by destruct l2.
    + right. exists (h :: a), h', b, m. rewrite <-!app_assoc in E, HI'. cbn [app] in E, HI'. split_and!; [done|done|intros h'' [->|?]%elem_of_cons; [congruence|auto]| |].
      * rewrite (lk_rd_eq _ _ (default (IrqHead irq) (hd_error (HandlerLink <$> (a ++ h' :: b))))); [exact E|].
        apply ring_next in HR. rewrite HR. by destruct a.
      * done.
Qed.

Lemma irq_unregister_eq s irq fn line hs code cfg en dis :
  0 <= irq < NR_IRQS -> irq_inv s irq hs -> irqs s !! irq = Some line -> drives (ctrlr (ctrlrp line)) code cfg en dis ->
  ((forall h, h ∈ hs -> fn_of s h <> fn) /\ irq_unregister_handler ctrlr irq fn s = Ret ENOENT s) \/
  (exists a h b m, hs = a ++ h :: b /\ fn_of s h = fn /\ (forall h', h' ∈ a -> fn_of s h' <> fn) /\
    let s' := with_ext (with_handlers (with_links (with_supply s (give_back h (supply s))) m) (delete h (handlers s)))
      (if bool_decide (a ++ b = []) then dis irq (ext s) else ext s) in
    irq_unregister_handler ctrlr irq fn s = Ret 0 s' /\ irq_inv s' irq (a ++ b)).
Proof.
  intros Hr HI Hline Hok. unfold irq_unregister_handler, irq_out_of_range.
  rewrite (proj2 (Z.ltb_ge _ _)), (proj2 (Z.leb_gt _ _)) by lia. cbn [orb].
  unfold psw_disable_and_save_interrupt, psw_restore_interrupt. mred.
  rewrite (lk_rd_eq _ _ (default (IrqHead irq) (hd_error (HandlerLink <$> hs)))).
  2: { destruct HI as [HR _]. cbn [links with_ie]. rewrite (list_ref_top_ring _ _ _ HR). by destruct hs. }
  mred. cbn [handlers with_ie].
  destruct (unregister_loop_spec (size (handlers s)) (with_ie s false) irq fn line [] hs code cfg en dis)
    as [[Hno E]|(a & h & b & m & Eab & Hf & Ha & E & HI')]; [by eapply irq_size|done|done|done|set_solver|..].
  - left. split; [done|]. rewrite E. mred. by destruct s.
  - right. exists a, h, b, m. split_and!; try done. rewrite E. mred. cbn [app]. by destruct s.
Qed.

(** The last handler of a line is the only one with its function. *)
Lemma unregister_new s irq fn line hs h v code cfg en dis :
  0 <= irq < NR_IRQS -> irq_inv s irq (hs ++ [h]) -> irqs s !! irq = Some line -> drives (ctrlr (ctrlrp line)) code cfg en dis ->
  handlers s !! h = Some v -> handler v = fn -> h ∉ hs -> (forall h', h' ∈ hs -> fn_of s h' <> fn) ->
  exists s2, irq_unregister_handler ctrlr irq fn s = Ret 0 s2 /\ irq_inv s2 irq hs /\ handlers s2 = delete h (handlers s) /\
    irqs s2 = irqs s /\ supply s2 = give_back h (supply s) /\ ie s2 = ie s /\
    ext s2 = (if bool_decide (hs = []) then dis irq (ext s) else ext s) /\ irq_unregister_handler ctrlr irq fn s2 = Ret ENOENT s2.
Proof.
  intros Hr HI Hline Hd Hv Hf Hhs Hfn.
  destruct (irq_unregister_eq s irq fn line (hs ++ [h]) code cfg en dis) as [[Hno _]|Hyes]; [done..| |].
  { destruct (Hno h); [set_solver|]. unfold fn_of. by rewrite Hv. }
  destruct Hyes as (a & h' & b & m2 & Eab & Hf' & Ha & E2 & HI2).
  assert (a = hs /\ h' = h /\ b = []) as (-> & -> & ->).
  { destruct b as [|b0 b _] using rev_ind.
    - apply app_inj_tail in Eab as [-> ->]. done.
    - rewrite app_comm_cons, app_assoc in Eab. apply app_inj_tail in Eab as [-> ->].
      exfalso. apply (Hfn h'); [set_solver|done]. }
  rewrite app_nil_r in E2, HI2. eexists. split_and!; [exact E2|exact HI2|done..|].
  edestruct irq_unregister_eq with (line := line) (hs := hs) (irq := irq) (fn := fn)
    as [[_ E3]|(a & h' & b & m3 & Eab3 & Hf3 & _)]; [done|exact HI2|done|exact Hd|exact E3|].
  exfalso. apply (Hfn h'); [subst hs; set_solver|]. revert Hf3. unfold fn_of. cbn.
  rewrite lookup_delete_ne; [done|]. intros <-. apply Hhs. subst hs. set_solver.
Qed.

End register.
End props.

(** Line 4 has the controller at 0x900 and one handler; there is memory for
    another.  Handlers record their calls and take the interrupt when their
    argument is 1. *)
Definition demo_ctrlr (p : ptr) : irq_ctrlr (list (Z * Z)) :=
  IrqCtrlr (Some (fun _ _ _ => mret 0)) (Some (fun _ => mret tt)) (Some (fun _ => mret tt)) None None
    (Some (fun _ => mret tt)).

Definition demo_irq_links : gmap loc (node loc) :=
  <[IrqHead 4 := Node (HandlerLink 60) (HandlerLink 60)]> {[HandlerLink 60 := Node (IrqHead 4) (IrqHead 4)]}.

Definition demo_irq : kst (list (Z * Z)) :=
  Kst demo_irq_links true ∅ ∅ 100 0 ∅ ∅ ∅ 0 ∅ {[4 := IrqLine 4 0 0 0x900]} {[60 := IrqHandlerEnt 9 1]} ∅ [61] 0 [].

Definition demo_handler (f irq exc p : Z) : K (list (Z * Z)) Z :=
  fun s => Ret (if p =? 1 then IRQ_HANDLED else 1) (with_ext s (ext s ++ [(f, p)])).

Lemma demo_irq_inv : irq_inv demo_irq 4 [60].
Proof. split; [ring_decide|]. intros h ->%list_elem_of_singleton. by eexists. Qed.

Lemma invoke_irq_handler_correct_witness :
  exists s', invoke_irq_handler demo_handler 4 0 demo_irq = Ret 0 s' /\ ext s' = [(9, 1)].
Proof.
  destruct (invoke_irq_handler_correct demo_handler (fun _ p => if p =? 1 then IRQ_HANDLED else 1) (fun l => l))
    with (s := demo_irq) (irq := 4) (exc := 0) (hs := [60]) (line := IrqLine 4 0 0 0x900)
    as (s' & E & Hc & _).
  - intros f irq exc p s. by eexists.
  - apply demo_irq_inv.
  - reflexivity.
  - exists s'. split; [exact E|exact Hc].
Defined.

