(* ===== verification/Port.v ===== *)
(** Access to devices: input and output of bytes at the ports of the PC
    (include/hal-x64/port.h), and registers of 32 bits in memory.

    What is behind a port or a register is hardware, the part [D] of the state:
    [PortIO] and [Mmio] have the accesses, and each driver states its device's
    laws of them. *)
From S2P Require Import Prelude KList Kernel.

Class PortIO (D : Type) : Type := {
  port_in : D -> Z -> Z * D;
  port_out : D -> Z -> Z -> D }.

(** [*(volatile uint32_t * )addr], read and written. *)
Class Mmio (D : Type) : Type := {
  mmio_read : D -> Z -> Z * D;
  mmio_write : D -> Z -> Z -> D }.

Section port.
Context {D : Type} `{PortIO D}.

Definition in_port_byte (port : Z) : K D Z := s ← get; let '(v, d) := port_in (ext s) port in put (with_ext s d);; mret v.
Definition out_port_byte (port v : Z) : K D unit := s ← get; put (with_ext s (port_out (ext s) port (u8 v))).

Lemma in_port_byte_eq port v d (s : kst D) : port_in (ext s) port = (v, d) -> in_port_byte port s = Ret v (with_ext s d).
Proof. intros E. unfold in_port_byte. mred. by rewrite E. Qed.
End port.

Section mmio.
Context {D : Type} `{Mmio D}.

Definition rd32 (a : Z) : K D Z := s ← get; let '(v, d) := mmio_read (ext s) a in put (with_ext s d);; mret v.
Definition wr32 (a v : Z) : K D unit := s ← get; put (with_ext s (mmio_write (ext s) a (u32 v))).

Lemma rd32_eq a v d (s : kst D) : mmio_read (ext s) a = (v, d) -> rd32 a s = Ret v (with_ext s d).
Proof. intros E. unfold rd32. mred. by rewrite E. Qed.
End mmio.
