(* ===== verification/CString.v ===== *)
(** common/string.c: memory and string routines.

    The routines that write take a memory, a finite map from addresses to
    bytes; an access to an address that is not mapped gives [None].  The
    routines that only read strings take the bytes from the pointer to the end
    of its object, so that [++s] is the tail and reading past the object gives
    [None].  [char] is signed, as on x64; on AArch64 it is not, which
    changes the sign of what [strcmp] returns for bytes above 127, not whether it
    is 0.  Addresses do not wrap: the ranges considered lie below 2^64.  A loop whose number of rounds is not
    bounded by its arguments has fuel; the theorems show how much is enough. *)
From S2P Require Import Prelude.

Abbreviation mem := (gmap Z Z).

Definition ld (m : mem) (a : Z) : option Z := m !! a.
Definition st (m : mem) (a v : Z) : option mem :=
  match m !! a with Some _ => Some (<[a := v]> m) | None => None end.

(** A [k]-byte little endian store. *)
Fixpoint st_le (k : nat) (m : mem) (a v : Z) : option mem :=
  match k with
  | O => Some m
  | S k => m ← st m a (Z.land v 0xff); st_le k m (a + 1) (Z.shiftr v 8)
  end.

(** ** memset *)

(** [for(; len >= w; len -= w) *p++ = v;] for [w]-byte words, [n] rounds. *)
Fixpoint fill_words (n : nat) (w : nat) (m : mem) (p v : Z) : option (mem * Z) :=
  match n with
  | O => Some (m, p)
  | S n => m ← st_le w m p v; fill_words n w m (p + Z.of_nat w) v
  end.

(** [while ( len-- > 0 ) *cp8++ = (uint8_t)(c & 0xff);] *)
Fixpoint fill_bytes (n : nat) (m : mem) (p v : Z) : option mem :=
  match n with
  | O => Some m
  | S n => m ← st m p v; fill_bytes n m (p + 1) v
  end.

Definition memset (m : mem) (s c n : Z) : option mem :=
  let val := Z.land c 0xff in
  let c32 := u32 (Z.lor (Z.lor (Z.lor (Z.shiftl val 24) (Z.shiftl val 16)) (Z.shiftl val 8)) val) in
  let c64 := Z.lor (Z.shiftl c32 32) c32 in
  if (Z.land s 7 =? 0) && (8 <=? n) then
    '(m, cp8) ← fill_words (Z.to_nat (n / 8)) 8 m s c64;
    fill_bytes (Z.to_nat (n mod 8)) m cp8 (Z.land c 0xff)
  else if (Z.land s 3 =? 0) && (4 <=? n) then
    '(m, cp8) ← fill_words (Z.to_nat (n / 4)) 4 m s c32;
    fill_bytes (Z.to_nat (n mod 4)) m cp8 (Z.land c 0xff)
  else fill_bytes (Z.to_nat n) m s (Z.land c 0xff).

(** ** memcpy and memmove *)

(** [do { *dstp++ = *srcp++; } while (srcp != end);] *)
Fixpoint copy_up (fuel : nat) (m : mem) (dstp srcp end_ : Z) : option mem :=
  match fuel with
  | O => None
  | S fuel =>
      v ← ld m srcp; m ← st m dstp v;
      if srcp + 1 =? end_ then Some m else copy_up fuel m (dstp + 1) (srcp + 1) end_
  end.

(** [do { *--dstp = *--srcp; } while (srcp != end);] *)
Fixpoint copy_down (fuel : nat) (m : mem) (dstp srcp end_ : Z) : option mem :=
  match fuel with
  | O => None
  | S fuel =>
      v ← ld m (srcp - 1); m ← st m (dstp - 1) v;
      if srcp - 1 =? end_ then Some m else copy_down fuel m (dstp - 1) (srcp - 1) end_
  end.

Definition memcpy (fuel : nat) (m : mem) (dst src len : Z) : option mem :=
  copy_up fuel m dst src (src + len).

Definition memmove (fuel : nat) (m : mem) (dst src len : Z) : option mem :=
  if dst <? src then copy_up fuel m dst src (src + len)
  else copy_down fuel m (dst + len) (src + len) src.

(** ** Strings *)

Fixpoint strlen (s : list Z) : option Z :=
  match s with
  | [] => None
  | c :: s => if c =? 0 then Some 0 else n ← strlen s; Some (n + 1)
  end.

Fixpoint strcmp (s1 s2 : list Z) : option Z :=
  match s1, s2 with
  | c1 :: s1', c2 :: s2' =>
      if negb (c1 =? 0) && (c1 =? c2) then strcmp s1' s2' else Some (s8 c1 - s8 c2)
  | _, _ => None
  end.

(** [rc] is a [signed char]. *)
Fixpoint memcmp (m1 m2 : list Z) (n : nat) : option Z :=
  match n with
  | O => Some 0
  | S n =>
      match m1, m2 with
      | c1 :: m1, c2 :: m2 => let rc := s8 (c1 - c2) in
          if negb (rc =? 0) then Some rc else memcmp m1 m2 n
      | _, _ => None
      end
  end.

(** The loop stops at the end of [s1] without a look at [s2]; [n] is unsigned. *)
Fixpoint strncmp_loop (s1 s2 : list Z) (n rc : Z) : option Z :=
  match s1 with
  | [] => None
  | c1 :: s1' =>
      if c1 =? 0 then Some rc
      else match s2 with
           | [] => None
           | c2 :: s2' =>
               let rc := s8 (s8 c1 - s8 c2) in
               if negb (rc =? 0) || (n =? 0) then Some rc
               else strncmp_loop s1' s2' (u64 (n - 1)) rc
           end
  end.
Definition strncmp (s1 s2 : list Z) (n : Z) : option Z := strncmp_loop s1 s2 n 0.

(** [for(tmp = dest; ; ++src, ++dest) { *dest = *src; if ( *src == 0 ) break; }] *)
Fixpoint strcpy (fuel : nat) (m : mem) (dest src : Z) : option mem :=
  match fuel with
  | O => None
  | S fuel =>
      v ← ld m src; m ← st m dest v; v ← ld m src;
      if v =? 0 then Some m else strcpy fuel m (dest + 1) (src + 1)
  end.

Fixpoint strncpy_loop (fuel : nat) (m : mem) (dest src count : Z) : option mem :=
  match fuel with
  | O => None
  | S fuel =>
      v ← ld m src; m ← st m dest v;
      if count =? 0 then Some m
      else v ← ld m src; if v =? 0 then Some m else strncpy_loop fuel m (dest + 1) (src + 1) (count - 1)
  end.
Definition strncpy (m : mem) (dest src count : Z) : option mem :=
  if count =? 0 then Some m else strncpy_loop (S (Z.to_nat count)) m dest src count.

(** [strncpy] into an array [dest], from the bytes [src], both as lists. *)
Fixpoint strncpy_arr_loop (dest src : list Z) (count : nat) : option (list Z) :=
  match dest, src with
  | _ :: dest', c :: src' =>
      match count with
      | O => Some (c :: dest')
      | S count => if c =? 0 then Some (c :: dest') else d ← strncpy_arr_loop dest' src' count; Some (c :: d)
      end
  | _, _ => None
  end.
Definition strncpy_arr (dest src : list Z) (count : Z) : option (list Z) :=
  if count =? 0 then Some dest else strncpy_arr_loop dest src (Z.to_nat count).

(** ** Ranges of memory *)

Definition mapped (m : mem) (a len : Z) : Prop := forall i, a <= i < a + len -> is_Some (m !! i).

(** [m'] is [m] with the [len] bytes from [a] replaced by [f]. *)
Definition splice (m m' : mem) (a len : Z) (f : Z -> option Z) : Prop :=
  forall i, m' !! i = if decide (a <= i < a + len) then f i else m !! i.

Lemma st_spec m a v : is_Some (m !! a) -> st m a v = Some (<[a := v]> m).
Proof. intros [w Hw]. unfold st. by rewrite Hw. Qed.

Lemma mapped_insert m a len i v : is_Some (m !! i) -> mapped m a len -> mapped (<[i := v]> m) a len.
Proof. intros Hi Hm j Hj. apply lookup_insert_is_Some'. right. by apply Hm. Qed.

Lemma fill_bytes_spec n m p v :
  mapped m p (Z.of_nat n) ->
  exists m', fill_bytes n m p v = Some m' /\ splice m m' p (Z.of_nat n) (fun _ => Some v).
Proof.
  revert m p. induction n as [|n IH]; intros m p Hm.
  - exists m. split; [done|]. intros i. by rewrite decide_False by lia.
  - assert (is_Some (m !! p)) as Hp by (apply Hm; lia).
    cbn [fill_bytes]. rewrite (st_spec m p v Hp). cbn.
    destruct (IH (<[p := v]> m) (p + 1)) as (m' & E & S).
    { apply mapped_insert; [done|]. intros i Hi. apply Hm. lia. }
    exists m'. split; [done|]. intros i. rewrite S, lookup_insert.
    destruct (decide (p + 1 <= i < _)), (decide (p <= i < _)), (decide (p = i)); try done; lia.
Qed.

(** ** memset is the byte loop *)

Lemma fill_bytes_app n1 n2 m p v :
  fill_bytes (n1 + n2) m p v = m1 ← fill_bytes n1 m p v; fill_bytes n2 m1 (p + Z.of_nat n1) v.
Proof.
  revert m p. induction n1 as [|n1 IH]; intros m p; cbn [fill_bytes Nat.add].
  - change (Z.of_nat 0) with 0. by rewrite Z.add_0_r.
  - destruct (st m p v) as [m1|]; cbn; [|done]. rewrite IH.
    by replace (p + 1 + Z.of_nat n1) with (p + Z.of_nat (S n1)) by lia.
Qed.

Lemma st_le_fill k m a v b :
  (forall j : nat, (j < k)%nat -> Z.land (Z.shiftr v (8 * Z.of_nat j)) 0xff = b) ->
  st_le k m a v = fill_bytes k m a b.
Proof.
  revert m a v. induction k as [|k IH]; intros m a v Hb; [done|]. cbn [st_le fill_bytes].
  assert (Z.land v 0xff = b) as -> by (rewrite <-(Hb 0%nat) by lia; by rewrite Z.shiftr_0_r).
  destruct (st m a b) as [m1|]; cbn; [|done]. apply IH. intros j Hj. rewrite Z.shiftr_shiftr by lia.
  replace (8 + 8 * Z.of_nat j) with (8 * Z.of_nat (S j)) by lia. apply Hb. lia.
Qed.

Lemma fill_words_fill n w m p v b :
  (forall j : nat, (j < w)%nat -> Z.land (Z.shiftr v (8 * Z.of_nat j)) 0xff = b) ->
  fill_words n w m p v = m1 ← fill_bytes (n * w) m p b; Some (m1, p + Z.of_nat (n * w)).
Proof.
  intros Hb. revert m p. induction n as [|n IH]; intros m p; cbn [fill_words Nat.mul].
  - change (Z.of_nat 0) with 0. by rewrite Z.add_0_r.
  - rewrite (st_le_fill w m p v b Hb), fill_bytes_app. destruct (fill_bytes w m p b) as [m1|]; cbn; [|done].
    rewrite IH. destruct (fill_bytes (n * w) _ _ _); cbn; [|done]. do 2 f_equal. lia.
Qed.

Lemma land_ff z : Z.land z 0xff = z mod 256.
Proof. change 0xff with (Z.ones 8). by rewrite Z.land_ones by lia. Qed.

Lemma byte_low b : 0 <= b < 256 -> b mod 256 = b.
Proof. intros. by apply Z.mod_small. Qed.

(** The words [memset] stores hold the byte in every position. *)
Lemma c32_value b : 0 <= b < 256 ->
  u32 (Z.lor (Z.lor (Z.lor (Z.shiftl b 24) (Z.shiftl b 16)) (Z.shiftl b 8)) b) = b * 0x1010101.
Proof.
  intros Hb.
  rewrite <-!Z.lor_assoc, (shiftl_lor_add b b 8), (shiftl_lor_add b _ 16), (shiftl_lor_add b _ 24) by lia.
  unfold u32. rewrite wrap_small by lia. lia.
Qed.

Lemma word_bytes b k : 0 <= b < 256 -> forall j : nat,
  (j < k)%nat -> (k = 4 \/ k = 8)%nat ->
  Z.land (Z.shiftr (b * (if Nat.eqb k 4 then 0x1010101 else 0x101010101010101)) (8 * Z.of_nat j)) 0xff = b.
Proof.
  intros Hb j Hj Hk. rewrite land_ff, Z.shiftr_div_pow2 by lia.
  destruct Hk as [->| ->]; cbn [Nat.eqb];
    [destruct j as [|[|[|[|j]]]]|destruct j as [|[|[|[|[|[|[|[|j]]]]]]]]]; try lia;
    match goal with |- context [2 ^ ?e] => let v := eval vm_compute in (2 ^ e) in change (2 ^ e) with v end;
    Z.to_euclidean_division_equations; lia.
Qed.

Lemma c64_value b : 0 <= b < 256 -> Z.lor (Z.shiftl (b * 0x1010101) 32) (b * 0x1010101) = b * 0x101010101010101.
Proof.
  intros Hb. rewrite shiftl_lor_add by lia. lia.
Qed.

Lemma memset_fill m s c n : 0 <= n -> memset m s c n = fill_bytes (Z.to_nat n) m s (c mod 256).
Proof.
  intros Hn. unfold memset. rewrite !land_ff. set (b := c mod 256).
  assert (0 <= b < 256) as Hb by (apply Z.mod_pos_bound; lia).
  rewrite (c32_value b Hb), (c64_value b Hb).
  assert (forall w : nat, (w = 4 \/ w = 8)%nat ->
    ('(m, cp8) ← fill_words (Z.to_nat (n / Z.of_nat w)) w m s
       (b * (if Nat.eqb w 4 then 0x1010101 else 0x101010101010101));
     fill_bytes (Z.to_nat (n mod Z.of_nat w)) m cp8 b) = fill_bytes (Z.to_nat n) m s b) as Hw.
  { intros w Hw. rewrite (fill_words_fill _ _ _ _ _ b).
    2: { intros j Hj. by apply word_bytes. }
    replace (Z.to_nat n) with (Z.to_nat (n / Z.of_nat w) * w + Z.to_nat (n mod Z.of_nat w))%nat.
    2: { pose proof (Z.div_mod n (Z.of_nat w)). pose proof (Z.mod_pos_bound n (Z.of_nat w)).
         pose proof (Z.div_pos n (Z.of_nat w)). lia. }
    rewrite fill_bytes_app. by destruct (fill_bytes _ m s b). }
  destruct (_ && _); [exact (Hw 8%nat ltac:(auto))|].
  destruct (_ && _); [exact (Hw 4%nat ltac:(auto))|done].
Qed.

(** ** Copies *)

(** Upwards, when no byte of the source is overwritten before it is read. *)
Lemma copy_up_spec n m dst src :
  mapped m src (Z.of_nat (S n)) -> mapped m dst (Z.of_nat (S n)) ->
  dst <= src \/ src + Z.of_nat (S n) <= dst ->
  exists m', copy_up (S n) m dst src (src + Z.of_nat (S n)) = Some m' /\
    splice m m' dst (Z.of_nat (S n)) (fun i => m !! (src + (i - dst))).
Proof.
  revert m dst src. induction n as [|n IH]; intros m dst src Hs Hd Ho;
    assert (is_Some (m !! src)) as [v Hv] by (apply Hs; lia);
    assert (is_Some (m !! dst)) as Hdst by (apply Hd; lia);
    cbn [copy_up]; unfold ld; rewrite Hv; cbn [mbind option_bind]; rewrite (st_spec _ _ _ Hdst); cbn [mbind option_bind].
  - rewrite (proj2 (Z.eqb_eq _ _)) by lia. eexists. split; [done|]. intros i. rewrite lookup_insert.
    case_decide; case_decide; subst; try lia; try done. by replace (src + (i - i)) with src by lia.
  - rewrite (proj2 (Z.eqb_neq _ _)) by lia.
    destruct (IH (<[dst := v]> m) (dst + 1) (src + 1)) as (m' & E & S).
    { apply mapped_insert; [done|]. intros i Hi. apply Hs. lia. }
    { apply mapped_insert; [done|]. intros i Hi. apply Hd. lia. } { lia. }
    exists m'. split.
    { by replace (src + Z.of_nat (Datatypes.S (Datatypes.S n))) with (src + 1 + Z.of_nat (Datatypes.S n)) by lia. }
    intros i. rewrite S. destruct (decide (dst + 1 <= i < _)), (decide (dst <= i < _)); try lia.
    + rewrite lookup_insert_ne by lia. f_equal. lia.
    + assert (i = dst) as -> by lia. rewrite lookup_insert_eq. by replace (src + (dst - dst)) with src by lia.
    + by rewrite lookup_insert_ne by lia.
Qed.

(** Downwards, from the ends. *)
Lemma copy_down_spec n m dst src :
  mapped m src (Z.of_nat (S n)) -> mapped m dst (Z.of_nat (S n)) -> src <= dst ->
  exists m', copy_down (S n) m (dst + Z.of_nat (S n)) (src + Z.of_nat (S n)) src = Some m' /\
    splice m m' dst (Z.of_nat (S n)) (fun i => m !! (src + (i - dst))).
Proof.
  revert m. induction n as [|n IH]; intros m Hs Hd Ho; cbn [copy_down]; unfold ld.
  all: match goal with |- context [Z.of_nat (S ?k)] => set (l := Z.of_nat (S k)) in * end.
  all: assert (is_Some (m !! (src + l - 1))) as [v Hv] by (apply Hs; lia);
    assert (is_Some (m !! (dst + l - 1))) as Hdst by (apply Hd; lia);
    rewrite Hv; cbn [mbind option_bind]; rewrite (st_spec _ _ _ Hdst); cbn [mbind option_bind].
  - rewrite (proj2 (Z.eqb_eq _ _)) by lia. eexists. split; [done|]. intros i. rewrite lookup_insert.
    case_decide; case_decide; subst; try lia; try done. rewrite <-Hv. f_equal. lia.
  - rewrite (proj2 (Z.eqb_neq _ _)) by lia.
    set (m1 := <[dst + l - 1 := v]> m). destruct (IH m1) as (m' & E & S).
    { apply mapped_insert; [done|]. intros i Hi. apply Hs. lia. }
    { apply mapped_insert; [done|]. intros i Hi. apply Hd. lia. } { done. }
    exists m'. split.
    { replace (dst + l - 1) with (dst + Z.of_nat (Datatypes.S n)) by lia.
      by replace (src + l - 1) with (src + Z.of_nat (Datatypes.S n)) by lia. }
    intros i. rewrite S. unfold m1. destruct (decide (dst <= i < dst + l)), (decide (dst <= i < _)); try lia.
    + rewrite lookup_insert_ne by lia. done.
    + assert (i = dst + l - 1) as -> by lia. rewrite lookup_insert_eq, <-Hv. f_equal. lia.
    + by rewrite lookup_insert_ne by lia.
Qed.

(** A copy that meets an address that is not mapped does not return. *)
Lemma copy_up_none fuel m dst src end_ a :
  src <= a -> m !! a = None -> ~ src < end_ <= a -> copy_up fuel m dst src end_ = None.
Proof.
  revert m dst src. induction fuel as [|fuel IH]; intros m dst src Ha Hm He; [done|]. cbn [copy_up]. unfold ld.
  destruct (decide (src = a)) as [->|]; [by rewrite Hm|].
  destruct (m !! src) as [v|]; [|done]. cbn [mbind option_bind]. unfold st.
  destruct (m !! dst) as [w|] eqn:Hd; [|done]. cbn [mbind option_bind].
  destruct (Z.eqb_spec (src + 1) end_); [lia|]. apply IH; [lia| |lia].
  rewrite lookup_insert_ne; [done|]. congruence.
Qed.

(** ** Properties *)

(** [memset] stores words where the area allows it; the result is that of
    the byte loop: the [n] bytes of the area are [c] modulo 256 and every other
    byte is unchanged, for every alignment and length. *)
Theorem memset_correct m s c n :
  0 <= n -> mapped m s n ->
  exists m', memset m s c n = Some m' /\ splice m m' s n (fun _ => Some (c mod 256)).
Proof.
  intros Hn Hm. rewrite memset_fill by done.
  destruct (fill_bytes_spec (Z.to_nat n) m s (c mod 256)) as (m' & E & S).
  - intros i Hi. apply Hm. lia.
  - rewrite Z2Nat.id in S by done. eauto.
Qed.

(** [memmove] copies [len] bytes even when the areas overlap in either
    direction: the destination holds what the source held before the call, and
    nothing else changes; [len] rounds are enough. *)
Theorem memmove_correct m dst src len :
  0 < len -> mapped m src len -> mapped m dst len ->
  exists m', memmove (Z.to_nat len) m dst src len = Some m' /\
    splice m m' dst len (fun i => m !! (src + (i - dst))).
Proof.
  intros Hl Hs Hd. destruct (Z.to_nat len) as [|n] eqn:En; [lia|].
  assert (len = Z.of_nat (S n)) as -> by lia. unfold memmove. destruct (Z.ltb_spec dst src).
  - apply copy_up_spec; [done|done|lia].
  - apply copy_down_spec; [done|done|lia].
Qed.

(** [memcpy] copies when the areas do not overlap.  With a length of 0 it
    does not return: its loop tests the end after the first byte, and runs on
    until it leaves the mapped memory. *)
Theorem memcpy_correct m dst src len :
  (0 < len -> mapped m src len -> mapped m dst len -> src + len <= dst \/ dst + len <= src ->
     exists m', memcpy (Z.to_nat len) m dst src len = Some m' /\
       splice m m' dst len (fun i => m !! (src + (i - dst)))) /\
  (forall a fuel, src <= a -> m !! a = None -> memcpy fuel m dst src 0 = None).
Proof.
  split.
  - intros Hl Hs Hd Ho. destruct (Z.to_nat len) as [|n] eqn:En; [lia|].
    assert (len = Z.of_nat (S n)) as -> by lia. apply copy_up_spec; [done|done|lia].
  - intros a fuel Ha Hm. unfold memcpy. apply (copy_up_none _ _ _ _ _ a); [done|done|lia].
Qed.

(** ** Comparisons *)

(** A string: bytes other than 0, then 0. *)
Definition cstr (cs rest : list Z) : list Z := cs ++ 0 :: rest.
Definition nonzero (cs : list Z) : Prop := Forall (fun c => 0 < c < 256) cs.

Lemma s8_byte c : 0 <= c < 256 -> s8 c = if c <? 128 then c else c - 256.
Proof.
  intros Hc. unfold s8, swrap. change (2 ^ 8) with 256. change (2 ^ (8 - 1)) with 128.
  destruct (Z.ltb_spec c 128); Z.to_euclidean_division_equations; lia.
Qed.

Lemma s8_diff c1 c2 : 0 <= c1 < 256 -> 0 <= c2 < 256 -> s8 (s8 c1 - s8 c2) = 0 <-> c1 = c2.
Proof.
  intros H1 H2. rewrite (s8_byte c1), (s8_byte c2) by done. unfold s8, swrap. change (2 ^ 8) with 256. change (2 ^ (8 - 1)) with 128.
  destruct (Z.ltb_spec c1 128), (Z.ltb_spec c2 128); Z.to_euclidean_division_equations; lia.
Qed.

(** [strlen] is the number of bytes before the first 0. *)
Theorem strlen_correct cs rest : nonzero cs -> strlen (cstr cs rest) = Some (Z.of_nat (length cs)).
Proof.
  induction 1 as [|c cs Hc _ IH]; [done|]. unfold cstr in *. cbn [app strlen].
  rewrite (proj2 (Z.eqb_neq _ _)), IH by lia. cbn [mbind option_bind length]. f_equal. lia.
Qed.

(** [strcmp] returns 0 exactly for equal strings. *)
Theorem strcmp_correct cs1 cs2 r1 r2 :
  nonzero cs1 -> nonzero cs2 ->
  exists r, strcmp (cstr cs1 r1) (cstr cs2 r2) = Some r /\ (r = 0 <-> cs1 = cs2).
Proof.
  intros H1. revert cs2. induction H1 as [|c1 cs1 Hc1 H1 IH]; intros cs2 H2.
  - destruct H2 as [|c2 cs2 Hc2 H2]; [by exists 0|]. unfold cstr. cbn [app strcmp Z.eqb negb andb].
    eexists. split; [done|]. rewrite !s8_byte by lia. change (if 0 <? 128 then 0 else 0 - 256) with 0.
    destruct (Z.ltb_spec c2 128); split; (lia || done).
  - unfold cstr in *. destruct H2 as [|c2 cs2 Hc2 H2]; cbn [app strcmp].
    + rewrite !(proj2 (Z.eqb_neq _ _)) by lia. cbn. eexists. split; [done|].
      rewrite !s8_byte by lia. change (if 0 <? 128 then 0 else 0 - 256) with 0.
      destruct (Z.ltb_spec c1 128); split; (lia || done).
    + rewrite (proj2 (Z.eqb_neq c1 0)) by lia. cbn [negb andb]. destruct (Z.eqb_spec c1 c2) as [->|Hne].
      * destruct (IH cs2 H2) as (r & E & Hr). exists r. split; [done|]. rewrite Hr. split; [by intros ->|by intros [= ->]].
      * eexists. split; [done|]. rewrite !s8_byte by lia. split; [|congruence].
        destruct (Z.ltb_spec c1 128), (Z.ltb_spec c2 128); lia.
Qed.

Lemma strncmp_loop_spec cs1 cs2 r1 r2 n :
  nonzero cs1 -> nonzero cs2 -> 0 <= n < 2 ^ 64 ->
  exists r, strncmp_loop (cstr cs1 r1) (cstr cs2 r2) n 0 = Some r /\
    (r = 0 <-> take (S (Z.to_nat n)) cs1 `prefix_of` cs2).
Proof.
  intros H1. revert cs2 n. induction H1 as [|c1 cs1 Hc1 H1 IH]; intros cs2 n H2 Hn; unfold cstr in *.
  { exists 0. split; [done|]. split; [|done]. intros _. apply prefix_nil. }
  cbn [app strncmp_loop]. rewrite (proj2 (Z.eqb_neq c1 0)) by lia.
  destruct H2 as [|c2 cs2 Hc2 H2]; cbn [app take].
  - assert (s8 (s8 c1 - s8 0) <> 0) as Hne by (rewrite s8_diff; lia).
    rewrite (proj2 (Z.eqb_neq _ _) Hne). cbn. eexists. split; [done|]. split; [done|].
    by intros ?%prefix_nil_inv.
  - destruct (decide (c1 = c2)) as [->|Hc].
    + rewrite (proj2 (s8_diff c2 c2 ltac:(lia) ltac:(lia)) eq_refl). cbn [Z.eqb negb orb].
      destruct (Z.eqb_spec n 0) as [->|Hn0].
      * exists 0. split; [done|]. split; [|done]. intros _. cbn. apply prefix_cons, prefix_nil.
      * destruct (IH cs2 (u64 (n - 1))) as (r & E & Hr); [done|apply wrap_range; lia|].
        unfold u64 in *. rewrite wrap_small in * by lia. exists r. split; [done|]. rewrite Hr.
        replace (Z.to_nat n) with (S (Z.to_nat (n - 1))) by lia. split; [apply prefix_cons|apply prefix_cons_inv_2].
    + assert (s8 (s8 c1 - s8 c2) <> 0) as Hne by (rewrite s8_diff by lia; done).
      rewrite (proj2 (Z.eqb_neq _ _) Hne). cbn [negb orb]. eexists. split; [done|]. split; [done|].
      by intros ?%prefix_cons_inv_1.
Qed.

(** What [strncmp] returns 0 for: not equal strings, but a first string
    whose first [n + 1] bytes are a prefix of the second one.  In particular
    every beginning of a name compares equal to the name. *)
Theorem strncmp_is_prefix cs1 cs2 r1 r2 n :
  nonzero cs1 -> nonzero cs2 -> 0 <= n < 2 ^ 64 ->
  exists r, strncmp (cstr cs1 r1) (cstr cs2 r2) n = Some r /\
    (r = 0 <-> take (S (Z.to_nat n)) cs1 `prefix_of` cs2).
Proof. intros. by apply strncmp_loop_spec. Qed.

Lemma strncpy_loop_S fuel m dest src count :
  strncpy_loop (S fuel) m dest src count =
    v ← m !! src; m ← st m dest v;
    if count =? 0 then Some m
    else v ← m !! src; if v =? 0 then Some m else strncpy_loop fuel m (dest + 1) (src + 1) (count - 1).
Proof. done. Qed.

Lemma strncpy_loop_full n m dest src :
  mapped m dest (Z.of_nat (S n)) -> src + Z.of_nat (S n) <= dest ->
  (forall i, src <= i < src + Z.of_nat (S n) -> exists v, m !! i = Some v /\ v <> 0) ->
  exists m', strncpy_loop (S n) m dest src (Z.of_nat n) = Some m' /\
    splice m m' dest (Z.of_nat (S n)) (fun i => m !! (src + (i - dest))).
Proof.
  revert m dest src. induction n as [|n IH]; intros m dest src Hd Ho Hs;
    destruct (Hs src ltac:(lia)) as (v & Hv & Hv0);
    assert (is_Some (m !! dest)) as Hdst by (apply Hd; lia);
    rewrite strncpy_loop_S, Hv; cbn [mbind option_bind]; rewrite (st_spec _ _ _ Hdst); cbn [mbind option_bind].
  - cbn [Z.of_nat Z.eqb]. eexists. split; [done|]. intros i. rewrite lookup_insert.
    case_decide; case_decide; subst; try lia; try done. by replace (src + (i - i)) with src by lia.
  - rewrite (proj2 (Z.eqb_neq _ _)) by lia. rewrite lookup_insert_ne, Hv by lia. cbn [mbind option_bind].
    rewrite (proj2 (Z.eqb_neq _ _)) by done.
    destruct (IH (<[dest := v]> m) (dest + 1) (src + 1)) as (m' & E & S).
    { apply mapped_insert; [done|]. intros i Hi. apply Hd. lia. } { lia. }
    { intros i Hi. destruct (Hs i ltac:(lia)) as (w & ? & ?). exists w. by rewrite lookup_insert_ne by lia. }
    exists m'. split; [by replace (Z.of_nat (Datatypes.S n) - 1) with (Z.of_nat n) by lia|].
    intros i. rewrite S. destruct (decide (dest + 1 <= i < _)), (decide (dest <= i < _)); try lia.
    + rewrite lookup_insert_ne by lia. f_equal. lia.
    + assert (i = dest) as -> by lia. rewrite lookup_insert_eq. by replace (src + (dest - dest)) with src by lia.
    + by rewrite lookup_insert_ne by lia.
Qed.

(** [strncpy] of a source longer than [count] stores [count + 1] bytes:
    the byte after the destination is overwritten. *)
Theorem strncpy_stores_one_more m dest src count :
  0 < count -> mapped m dest (count + 1) -> src + count + 1 <= dest ->
  (forall i, src <= i <= src + count -> exists v, m !! i = Some v /\ v <> 0) ->
  exists m', strncpy m dest src count = Some m' /\
    splice m m' dest (count + 1) (fun i => m !! (src + (i - dest))).
Proof.
  intros Hc Hd Ho Hs. unfold strncpy. rewrite (proj2 (Z.eqb_neq _ _)) by lia.
  destruct (strncpy_loop_full (Z.to_nat count) m dest src) as (m' & E & S).
  - intros i Hi. apply Hd. lia.
  - lia.
  - intros i Hi. apply Hs. lia.
  - exists m'. rewrite Z2Nat.id in E by lia.
    replace (Z.of_nat (Datatypes.S (Z.to_nat count))) with (count + 1) in S by lia. done.
Qed.

(** Twenty bytes at address 100 holding 1, 2, ..., 20. *)
Definition demo_bytes : mem := list_to_map ((fun i => (100 + i, i + 1)) <$> seqZ 0 20).

Lemma demo_mapped a len : 100 <= a -> a + len <= 120 -> mapped demo_bytes a len.
Proof.
  intros Ha Hl i Hi. unfold demo_bytes.
  exists (i - 99). apply elem_of_list_to_map_1.
  - rewrite <-list_fmap_compose. apply NoDup_fmap_2; [intros x y; cbn; lia|apply NoDup_seqZ].
  - apply list_elem_of_fmap. exists (i - 100). split; [f_equal; lia|]. apply elem_of_seqZ. lia.
Qed.

(** A memory of zeros. *)
Definition zero_bytes (n : Z) : mem := list_to_map ((fun i => (i, 0)) <$> seqZ 0 n).

Lemma zero_bytes_at n i : 0 <= i < n -> zero_bytes n !! i = Some 0.
Proof.
  intros Hi. apply elem_of_list_to_map_1.
  - rewrite <-list_fmap_compose. apply NoDup_fmap_2; [intros x y; cbn; lia|apply NoDup_seqZ].
  - apply list_elem_of_fmap. exists i. split; [done|]. apply elem_of_seqZ. lia.
Qed.

Lemma zero_bytes_zero n i v : zero_bytes n !! i = Some v -> v = 0.
Proof. intros H%elem_of_list_to_map_2. by apply list_elem_of_fmap in H as (j & [= _ ->] & _). Qed.

Lemma memset_correct_witness :
  exists m', memset demo_bytes 104 0x1ff 11 = Some m' /\ m' !! 110 = Some 255 /\ m' !! 115 = Some 16.
Proof.
  destruct (memset_correct demo_bytes 104 0x1ff 11) as (m' & E & S); [lia|apply demo_mapped; lia|].
  exists m'. split; [exact E|]. split; rewrite S; reflexivity.
Defined.

Lemma memmove_correct_witness :
  exists m', memmove 10 demo_bytes 103 100 10 = Some m' /\ m' !! 112 = Some 10.
Proof.
  destruct (memmove_correct demo_bytes 103 100 10) as (m' & E & S); [lia|apply demo_mapped; lia..|].
  exists m'. split; [exact E|]. rewrite S. reflexivity.
Defined.

Lemma memcpy_correct_witness :
  memcpy 1000 demo_bytes 110 100 0 = None /\
  exists m', memcpy 5 demo_bytes 110 100 5 = Some m' /\ m' !! 114 = Some 5.
Proof.
  split.
  - apply (memcpy_correct demo_bytes 110 100 0) with (a := 120); [lia|reflexivity].
  - destruct (memcpy_correct demo_bytes 110 100 5) as [H _].
    destruct H as (m' & E & S); [lia|apply demo_mapped; lia..|lia|].
    exists m'. split; [exact E|]. rewrite S. reflexivity.
Defined.

Lemma strlen_correct_witness : strlen (cstr [67; 79; 78] [5]) = Some 3.
Proof. apply (strlen_correct [67; 79; 78] [5]). repeat constructor; lia. Defined.

Lemma strcmp_correct_witness : exists r, strcmp (cstr [67; 79] []) (cstr [67; 79; 78] []) = Some r /\ r <> 0.
Proof.
  destruct (strcmp_correct [67; 79] [67; 79; 78] [] []) as (r & E & Hr); [repeat constructor; lia..|].
  exists r. split; [exact E|]. rewrite Hr. discriminate.
Defined.

(** "CO" and "CON" compare equal. *)
Lemma strncmp_is_prefix_witness : strncmp (cstr [67; 79] []) (cstr [67; 79; 78] []) 59 = Some 0.
Proof.
  destruct (strncmp_is_prefix [67; 79] [67; 79; 78] [] [] 59) as (r & E & Hr); [repeat constructor; lia..|lia|].
  rewrite E. f_equal. apply Hr. by exists [78].
Defined.

Lemma strncpy_stores_one_more_witness :
  exists m', strncpy demo_bytes 110 100 4 = Some m' /\ m' !! 114 = Some 5.
Proof.
  destruct (strncpy_stores_one_more demo_bytes 110 100 4) as (m' & E & S).
  - lia.
  - apply demo_mapped; lia.
  - lia.
  - intros i Hi. exists (i - 99). split; [|lia].
    assert (i = 100 \/ i = 101 \/ i = 102 \/ i = 103 \/ i = 104) as [->|[->|[->|[->| ->]]]] by lia; reflexivity.
  - exists m'. split; [exact E|]. rewrite S. reflexivity.
Defined.
