(* ===== verification/FsState.v ===== *)
(** The objects of the device and file system layers (include/kern/dev.h,
    blkio.h, fs.h, fdtable.h) as the part [fsst] of the kernel state, and the
    layout of the structures on disk.

    Arrays of objects are maps from the index, so that an index out of the
    array is an access to no object.  The data of a block is a list of bytes;
    the disk image of the memory disk is a map from offsets to bytes.  Both
    target processors are little endian with 64-bit pointers. *)
From S2P Require Import Prelude KList Kernel CString.

Definition BSIZE : Z := 512.
Definition NBUF : Z := 1024.
Definition NINODE : Z := 1024.
Definition B_BUSY : Z := 0x1.
Definition B_VALID : Z := 0x2.
Definition B_DIRTY : Z := 0x4.
Definition I_BUSY : Z := 0x1.
Definition I_VALID : Z := 0x2.
(** [dev_id] is [uint64_t]. *)
Definition BLK_DEV_NODEV : Z := u64 (-1).
Definition DEVSW_DEVICES_NR : Z := 8.
Definition DEVSW_DRIVER_STATE_NONE : Z := 0.
Definition DEVSW_DRIVER_STATE_RUN : Z := 1.
Definition DEVSW_DRIVER_STATE_UNREG : Z := 2.

Definition FS_IADDR_DIRECT_NR : Z := 12.
Definition FS_IADDR_IN_DIRECT_MIN : Z := FS_IADDR_DIRECT_NR.
Definition FS_IADDR_IN_DIRECT_NR : Z := 3.
Definition FS_IADDR_DOUBLE_NR : Z := 1.
Definition FS_IADDR_NR : Z := FS_IADDR_DIRECT_NR + FS_IADDR_IN_DIRECT_NR + FS_IADDR_DOUBLE_NR.
Definition FS_MAXFILE_SIZE : Z :=
  FS_IADDR_DIRECT_NR * BSIZE + FS_IADDR_IN_DIRECT_NR * (BSIZE / 8) + FS_IADDR_DOUBLE_NR * (BSIZE / 8) * (BSIZE / 8).
Definition FS_IMODE_NONE : Z := 0.
Definition FS_IMODE_DIR : Z := 1.
Definition FS_IMODE_FILE : Z := 2.
Definition FS_IMODE_DEV : Z := 3.
Definition O_CREATE : Z := 0x10.
Definition O_RDONLY : Z := 0x1.
Definition SEEK_CUR : Z := 1.
Definition SEEK_END : Z := 2.
Definition FREAD : Z := 0x1.
Definition FWRITE : Z := 0x2.
Definition RESV_BLOCK_NR : Z := 1.
Definition SUPER_BLOCK_BLK_NO : Z := 1.
Definition SUPER_BLOCK_BLK_NR : Z := 1.
Definition BITS_PER_BLOCK : Z := BSIZE * 8.
(** [sizeof(struct _d_inode)]: a 32-bit mode, padding, and 20 64-bit members. *)
Definition D_INODE_SIZE : Z := 168.
Definition INODES_PER_BLOCK : Z := BSIZE / D_INODE_SIZE.
Definition IADDRS_PER_BLOCK : Z := BSIZE / 8.
Definition FNAME_MAX : Z := 59.
(** [sizeof(d_dirent)] *)
Definition D_DIRENT_SIZE : Z := 64.
Definition ROOT_DEV : Z := 1.
Definition CONS_DEV : Z := 2.
Definition ROOT_DENT_INO : Z := 2.

(** ** Objects *)

(** The mutex of a driver is [MtxDrv] of its index. *)
Record device_driver : Type := DeviceDriver {
  drv_dev : Z; drv_state : Z; drv_count : Z; drv_private : ptr;
  drv_open : fptr; drv_read : fptr; drv_write : fptr; drv_blkrw : fptr; drv_close : fptr }.

(** [mru] and [link] are [BufMru] and [BufLink], [waiters] is [WqBuf]. *)
Record blk_buf : Type := BlkBuf { b_flags : Z; b_dev : Z; b_blockno : Z; b_data : list Z }.

Record superblock : Type := Superblock {
  s_max_size : Z; s_ninodes : Z; s_imap_blocks : Z; s_bmap_blocks : Z; s_firstdata_block : Z;
  s_nblocks : Z; s_magic : Z; s_pad : Z }.

Record d_inode : Type := DInode {
  di_mode : Z; di_dev : Z; di_rdev : Z; di_nlink : Z; di_size : Z; di_addr : list Z }.

(** [waiters] is [WqInode] of the index. *)
Record inode : Type := Inode {
  inum : Z; ref : Z; i_flags : Z; i_mode : Z; i_dev : Z; i_rdev : Z; i_nlink : Z; i_size : Z;
  i_addr : list Z }.

Record d_dirent : Type := DDirent { d_ino : Z; d_name : list Z }.

Record file_descriptor : Type := FileDescriptor { f_flags : Z; f_count : Z; f_inode : ptr; f_offset : Z }.

Record stat : Type := Stat {
  st_mode : Z; st_dev : Z; st_rdev : Z; st_ino : Z; st_nlink : Z; st_size : Z }.

(** [icache.inode[i]] is designated by the pointer [i + 1], so that [NULL] is
    no inode; [fdtbl.file[i]] likewise. *)
Record fsst : Type := FsSt {
  drvs : gmap Z device_driver; (* [devices.drv] *)
  image : mem;                 (* from [_fsimg_start] *)
  bufs : gmap Z blk_buf;       (* [global_buffer_cache.buf] *)
  inodes : gmap ptr inode;     (* [icache.inode] *)
  files : gmap ptr file_descriptor (* [fdtbl.file] *)
}.

Definition with_drvs (f : fsst) v := FsSt v (image f) (bufs f) (inodes f) (files f).
Definition with_image (f : fsst) v := FsSt (drvs f) v (bufs f) (inodes f) (files f).
Definition with_bufs (f : fsst) v := FsSt (drvs f) (image f) v (inodes f) (files f).
Definition with_inodes (f : fsst) v := FsSt (drvs f) (image f) (bufs f) v (files f).
Definition with_files (f : fsst) v := FsSt (drvs f) (image f) (bufs f) (inodes f) v.

Definition F (A : Type) : Type := K fsst A.

Definition fs_state : F fsst := s ← get; mret (ext s).
Definition fs_modify (g : fsst -> fsst) : F unit := s ← get; put (with_ext s (g (ext s))).

(** Loads and stores. *)
Definition drv_get (d : Z) : F device_driver := f ← fs_state; deref (drvs f !! d).
Definition drv_put (d : Z) (v : device_driver) : F unit :=
  _ ← drv_get d; fs_modify (fun f => with_drvs f (<[d := v]> (drvs f))).
Definition buf_get (b : Z) : F blk_buf := f ← fs_state; deref (bufs f !! b).
Definition buf_put (b : Z) (v : blk_buf) : F unit :=
  _ ← buf_get b; fs_modify (fun f => with_bufs f (<[b := v]> (bufs f))).
Definition inode_ld (ip : ptr) : F inode := f ← fs_state; deref (inodes f !! ip).
Definition inode_st (ip : ptr) (v : inode) : F unit :=
  _ ← inode_ld ip; fs_modify (fun f => with_inodes f (<[ip := v]> (inodes f))).
Definition file_ld (p : ptr) : F file_descriptor := f ← fs_state; deref (files f !! p).
Definition file_st (p : ptr) (v : file_descriptor) : F unit :=
  _ ← file_ld p; fs_modify (fun f => with_files f (<[p := v]> (files f))).

Definition with_b_flags (b : blk_buf) v := BlkBuf v (b_dev b) (b_blockno b) (b_data b).
Definition with_b_data (b : blk_buf) v := BlkBuf (b_flags b) (b_dev b) (b_blockno b) v.
Definition with_ref (i : inode) v :=
  Inode (inum i) v (i_flags i) (i_mode i) (i_dev i) (i_rdev i) (i_nlink i) (i_size i) (i_addr i).
Definition with_i_flags (i : inode) v :=
  Inode (inum i) (ref i) v (i_mode i) (i_dev i) (i_rdev i) (i_nlink i) (i_size i) (i_addr i).
Definition with_i_dev (i : inode) v :=
  Inode (inum i) (ref i) (i_flags i) (i_mode i) v (i_rdev i) (i_nlink i) (i_size i) (i_addr i).
Definition with_i_nlink (i : inode) v :=
  Inode (inum i) (ref i) (i_flags i) (i_mode i) (i_dev i) (i_rdev i) v (i_size i) (i_addr i).
Definition with_i_size (i : inode) v :=
  Inode (inum i) (ref i) (i_flags i) (i_mode i) (i_dev i) (i_rdev i) (i_nlink i) v (i_addr i).
Definition with_i_addr (i : inode) v :=
  Inode (inum i) (ref i) (i_flags i) (i_mode i) (i_dev i) (i_rdev i) (i_nlink i) (i_size i) v.

(** ** Little endian layout *)

Fixpoint le_encode (n : nat) (v : Z) : list Z :=
  match n with O => [] | S n => v mod 256 :: le_encode n (v / 256) end.
Fixpoint le_decode (bs : list Z) : Z :=
  match bs with [] => 0 | b :: bs => b + 256 * le_decode bs end.

(** [n] bytes of [bs] from [off]; [None] past the end. *)
Definition bytes_at (bs : list Z) (off : Z) (n : nat) : option (list Z) :=
  let l := take n (drop (Z.to_nat off) bs) in
  if (0 <=? off) && (Nat.eqb (length l) n) then Some l else None.
Definition set_bytes (bs : list Z) (off : Z) (v : list Z) : option (list Z) :=
  if (0 <=? off) && (off + Z.of_nat (length v) <=? Z.of_nat (length bs))
  then Some (take (Z.to_nat off) bs ++ v ++ drop (Z.to_nat off + length v) bs) else None.

Lemma set_bytes_eq bs off v :
  0 <= off -> off + Z.of_nat (length v) <= Z.of_nat (length bs) ->
  set_bytes bs off v = Some (take (Z.to_nat off) bs ++ v ++ drop (Z.to_nat off + length v) bs).
Proof. intros H1 H2. unfold set_bytes. by rewrite (proj2 (Z.leb_le _ _) H1), (proj2 (Z.leb_le _ _) H2). Qed.
Lemma set_bytes_out bs off v :
  Z.of_nat (length bs) < off + Z.of_nat (length v) -> set_bytes bs off v = None.
Proof. intros H. unfold set_bytes. by rewrite (proj2 (Z.leb_gt _ _) H), andb_false_r. Qed.

Definition get_u32 (bs : list Z) (off : Z) : option Z := le_decode <$> bytes_at bs off 4.
Definition get_u64 (bs : list Z) (off : Z) : option Z := le_decode <$> bytes_at bs off 8.
Definition set_u64 (bs : list Z) (off v : Z) : option (list Z) := set_bytes bs off (le_encode 8 v).

Definition superblock_of (bs : list Z) : option superblock :=
  a ← get_u32 bs 0; b ← get_u32 bs 4; c ← get_u32 bs 8; d ← get_u32 bs 12;
  e ← get_u32 bs 16; f ← get_u32 bs 20; g ← get_u32 bs 24; h ← get_u32 bs 28;
  Some (Superblock a b c d e f g h).

(** [i_nlink] and the block numbers are signed. *)
Definition d_inode_of (bs : list Z) (off : Z) : option d_inode :=
  m ← get_u32 bs off; dev ← get_u64 bs (off + 8); rdev ← get_u64 bs (off + 16);
  nl ← get_u64 bs (off + 24); sz ← get_u64 bs (off + 32);
  addrs ← mapM (fun i => get_u64 bs (off + 40 + 8 * i)) (seqZ 0 FS_IADDR_NR);
  Some (DInode (s32 m) dev rdev (s64 nl) sz (s64 <$> addrs)).

(** The bytes of an inode on disk; the padding after the mode keeps its value. *)
Definition d_inode_bytes (pad : list Z) (d : d_inode) : list Z :=
  le_encode 4 (di_mode d) ++ pad ++ le_encode 8 (di_dev d) ++ le_encode 8 (di_rdev d) ++
  le_encode 8 (di_nlink d) ++ le_encode 8 (di_size d) ++ concat (le_encode 8 <$> di_addr d).

Definition d_inode_store (bs : list Z) (off : Z) (d : d_inode) : option (list Z) :=
  pad ← bytes_at bs (off + 4) 4; set_bytes bs off (d_inode_bytes pad d).

Definition d_dirent_of (bs : list Z) : option d_dirent :=
  i ← get_u32 bs 0; n ← bytes_at bs 4 60; Some (DDirent i n).
Definition d_dirent_bytes (d : d_dirent) : list Z := le_encode 4 (d_ino d) ++ d_name d.
