(* ===== verification/Blkio.v ===== *)
(** dev/devsw.c, dev/blkio.c and dev/memide.c: the device switch, the buffer
    cache and the memory disk.

    [fuel] bounds the waits (see [mutex_hold]); the driver functions are
    reached through their function pointers: the only block driver is the
    memory disk.  Walks over the list of buffers are bounded by their number. *)
From S2P Require Import Prelude Bitops KList Kernel ThreadInfo ReadyQueue Sched WaitQueue Mutex CString FsState.

Section blkio.
Variable fuel : nat.

(** ** dev/devsw.c *)

Definition register_device_driver (dev : Z) (drv : device_driver) (private : ptr) : F Z :=
  if DEVSW_DEVICES_NR <=? dev then mret EINVAL
  else
    mutex_hold fuel MtxDevsw;;
    d ← drv_get dev;
    rc ← (if (0 <? drv_dev d) || (0 <? drv_count d) then mret EBUSY
          else
            drv_put dev (DeviceDriver dev DEVSW_DRIVER_STATE_RUN 0 (drv_private drv) (drv_open drv)
              (drv_read drv) (drv_write drv) (drv_blkrw drv) (drv_close drv));;
            mret 0);
    mutex_release MtxDevsw;;
    mret rc.

Definition with_state_count (d : device_driver) (st c : Z) : device_driver :=
  DeviceDriver (drv_dev d) st c (drv_private d) (drv_open d) (drv_read d) (drv_write d) (drv_blkrw d) (drv_close d).

(** [do{ mutex_hold(); if ( drv_count == 1 ) break; mutex_release(); }while(1);] *)
Fixpoint unregister_wait (rounds : nat) (dev : Z) : F unit :=
  match rounds with
  | O => stopM OutOfFuel
  | S rounds =>
      mutex_hold fuel MtxDevsw;;
      d ← drv_get dev;
      if drv_count d =? 1 then mret tt else mutex_release MtxDevsw;; unregister_wait rounds dev
  end.

Definition unregister_device_driver (dev : Z) : F Z :=
  if DEVSW_DEVICES_NR <=? dev then mret EINVAL
  else
    mutex_hold fuel MtxDevsw;;
    d ← drv_get dev;
    rc ← (if drv_dev d =? 0 then mret ENOENT
          else
            drv_put dev (with_state_count d
              (Z.land (Z.lor (drv_state d) DEVSW_DRIVER_STATE_UNREG) (u32 (Z.lnot DEVSW_DRIVER_STATE_RUN)))
              (drv_count d + 1));;
            mutex_release MtxDevsw;;
            unregister_wait fuel dev;;
            d ← drv_get dev;
            kassert (drv_count d =? 1);;
            drv_put dev (DeviceDriver 0 (Z.land (drv_state d) (u32 (Z.lnot DEVSW_DRIVER_STATE_UNREG))) 0
              NULL NULL NULL NULL NULL NULL);;
            d ← drv_get dev;
            kassert (drv_state d =? DEVSW_DRIVER_STATE_NONE);;
            mret 0);
    mutex_release MtxDevsw;;
    mret rc.

(** Returns [&dsp->drv[dev]], designated by its index. *)
Definition devsw_get_handle (dev : Z) : F Z :=
  kassert (dev <=? DEVSW_DEVICES_NR);;
  mutex_hold fuel MtxDevsw;;
  d ← drv_get dev;
  when (negb (Z.land (drv_state d) DEVSW_DRIVER_STATE_RUN =? 0))
    (drv_put dev (with_state_count d (drv_state d) (drv_count d + 1)));;
  mutex_release MtxDevsw;;
  mret dev.

Definition devsw_put_handle (dev : Z) : F unit :=
  kassert (dev <=? DEVSW_DEVICES_NR);;
  mutex_hold fuel MtxDevsw;;
  d ← drv_get dev;
  kassert (0 <? drv_count d);;
  drv_put dev (with_state_count d (drv_state d) (drv_count d - 1));;
  mutex_release MtxDevsw.

Definition devsw_init : F unit :=
  forM (seqZ 0 DEVSW_DEVICES_NR) (fun i =>
    mutex_init MtxDevsw;;
    d ← drv_get i;
    mutex_init (MtxDrv i);;
    drv_put i (DeviceDriver 0 (drv_state d) (drv_count d) NULL NULL NULL NULL NULL NULL)).

(** ** dev/memide.c *)

Definition MEMIDE_BLK_SIZE : Z := 512.

(** [size] bytes of the image from [offset], in pieces of at most 512. *)
Fixpoint image_read (m : mem) (a : Z) (n : nat) : option (list Z) :=
  match n with
  | O => Some []
  | S n => v ← ld m a; l ← image_read m (a + 1) n; Some (v :: l)
  end.
Fixpoint image_write (m : mem) (a : Z) (l : list Z) : option mem :=
  match l with
  | [] => Some m
  | v :: l => m ← st m a v; image_write m (a + 1) l
  end.

Fixpoint read_pieces (rounds : nat) (m : mem) (addr remains : Z) : option (list Z) :=
  if remains <=? 0 then Some []
  else match rounds with
       | O => None
       | S rounds =>
           let n := if MEMIDE_BLK_SIZE <? remains then MEMIDE_BLK_SIZE else remains in
           l ← image_read m addr (Z.to_nat n);
           r ← read_pieces rounds m (addr + n) (remains - n); Some (l ++ r)
       end.

Fixpoint write_pieces (rounds : nat) (m : mem) (addr remains : Z) (src : list Z) : option mem :=
  if remains <=? 0 then Some m
  else match rounds with
       | O => None
       | S rounds =>
           let n := if MEMIDE_BLK_SIZE <? remains then MEMIDE_BLK_SIZE else remains in
           m ← image_write m addr (take (Z.to_nat n) src);
           write_pieces rounds m (addr + n) (remains - n) (drop (Z.to_nat n) src)
       end.

Definition memide_read_sector (offset size : Z) : F (list Z) :=
  psw ← psw_disable_and_save_interrupt;
  f ← fs_state;
  l ← deref (read_pieces (Z.to_nat size) (image f) offset size);
  psw_restore_interrupt psw;;
  mret l.

Definition memide_write_sector (offset : Z) (src : list Z) (size : Z) : F unit :=
  psw ← psw_disable_and_save_interrupt;
  f ← fs_state;
  m ← deref (write_pieces (Z.to_nat size) (image f) offset size src);
  fs_modify (fun f => with_image f m);;
  psw_restore_interrupt psw.

Definition memide_rw (drv b : Z) : F Z :=
  v ← buf_get b;
  kassert (ctrue (Z.land (b_flags v) B_BUSY));;
  mutex_hold fuel (MtxDrv drv);;
  d ← drv_get drv; v ← buf_get b;
  (if negb (drv_dev d =? b_dev v) then mret tt
   else
     let addr := u64 (b_blockno v * BSIZE) in
     if ctrue (Z.land (b_flags v) B_DIRTY) then memide_write_sector addr (b_data v) BSIZE
     else l ← memide_read_sector addr BSIZE; v ← buf_get b; buf_put b (with_b_data v l));;
  mutex_release (MtxDrv drv);;
  mret 0.

(** The function pointer [memide_rw], and a call of [drv->blkrw]. *)
Definition MEMIDE_RW : fptr := 1.
Definition call_blkrw (f : fptr) (drv b : Z) : F Z := if f =? MEMIDE_RW then memide_rw drv b else stopM Fault.

Definition memide_init : F Z :=
  register_device_driver ROOT_DEV (DeviceDriver 0 0 0 NULL NULL NULL NULL MEMIDE_RW NULL) NULL.

(** ** dev/blkio.c *)

(** [CONTAINER_OF(lp, blk_buf, mru)] *)
Definition buf_of_link (l : loc) : F Z := match l with BufMru b => mret b | _ => stopM Fault end.

(** The search among the cached buffers: the buffer found, and [rc]. *)
Fixpoint blk_search (rounds : nat) (dev blockno : Z) (lp : loc) (rc : Z) : F (option Z * Z) :=
  if decide (lp = BufHead) then mret (None, rc)
  else match rounds with
       | O => stopM OutOfFuel
       | S rounds =>
           b ← buf_of_link lp;
           v ← buf_get b;
           if (b_dev v =? dev) && (b_blockno v =? blockno) then
             if negb (ctrue (Z.land (b_flags v) B_BUSY)) then
               buf_put b (with_b_flags v (Z.lor (b_flags v) B_BUSY));;
               mutex_release MtxBcache;;
               mret (Some b, rc)
             else
               rc ← wque_wait_on_event_with_mutex fuel (WqBuf b) MtxBcache;
               mutex_release MtxBcache;;
               nx ← lk_rd (fun m => rd_next m lp);
               blk_search rounds dev blockno nx rc
           else
             nx ← lk_rd (fun m => rd_next m lp);
             blk_search rounds dev blockno nx rc
       end.

(** The search for a buffer to use again, from the least recently used one. *)
Fixpoint blk_reuse (rounds : nat) (dev blockno : Z) (lp : loc) : F (option Z) :=
  if decide (lp = BufHead) then mret None
  else match rounds with
       | O => stopM OutOfFuel
       | S rounds =>
           b ← buf_of_link lp;
           v ← buf_get b;
           if negb (ctrue (Z.land (b_flags v) B_BUSY)) && negb (ctrue (Z.land (b_flags v) B_DIRTY)) then
             buf_put b (BlkBuf B_BUSY dev blockno (b_data v));;
             mutex_release MtxBcache;;
             mret (Some b)
           else
             pv ← lk_rd (fun m => rd_prev m lp);
             blk_reuse rounds dev blockno pv
       end.

(** What follows the search: its result, or a buffer to use again, or another
    round. *)
Definition blk_get_rest (again : F Z) (n : nat) (dev blockno : Z) (r : option Z * Z) : F Z :=
  match r.1 with
  | Some b => mret b
  | None =>
      lp ← lk_rd (fun m => list_ref_tail m BufHead);
      o ← blk_reuse n dev blockno lp;
      match o with
      | Some b => mret b
      | None =>
          mutex_release MtxBcache;;
          if negb (r.2 =? WQUE_REASON_DESTROY) then again else stopM Panic
      end
  end.

Fixpoint blk_get_loop (rounds : nat) (dev blockno : Z) : F Z :=
  match rounds with
  | O => stopM OutOfFuel
  | S rounds =>
      mutex_hold fuel MtxBcache;;
      f ← fs_state; let n := size (bufs f) in
      lp ← lk_rd (fun m => list_ref_top m BufHead);
      r ← blk_search n dev blockno lp WQUE_REASON_DESTROY;
      blk_get_rest (blk_get_loop rounds dev blockno) n dev blockno r
  end.

Definition buffer_cache_blk_get (dev blockno : Z) : F Z :=
  psw ← psw_disable_and_save_interrupt;
  b ← blk_get_loop (S fuel) dev blockno;
  psw_restore_interrupt psw;;
  mret b.

(** [drv = devsw_get_handle(dev); if ( drv->blkrw != NULL ) drv->blkrw(drv, b); devsw_put_handle(dev);] *)
Definition blk_transfer (b : Z) : F unit :=
  v ← buf_get b;
  drv ← devsw_get_handle (b_dev v);
  d ← drv_get drv;
  (if drv_blkrw d =? NULL then mret tt else call_blkrw (drv_blkrw d) drv b;; mret tt);;
  v ← buf_get b;
  devsw_put_handle (b_dev v).

Definition buffer_cache_blk_read (dev blockno : Z) : F Z :=
  b ← buffer_cache_blk_get dev blockno;
  v ← buf_get b;
  when (negb (ctrue (Z.land (b_flags v) B_VALID))) (blk_transfer b);;
  mret b.

Definition buffer_cache_blk_write (b : Z) : F unit :=
  v ← buf_get b;
  kassert (ctrue (Z.land (b_flags v) B_BUSY));;
  buf_put b (with_b_flags v (Z.lor (b_flags v) B_DIRTY));;
  blk_transfer b.

Definition buffer_cache_blk_release (b : Z) : F unit :=
  v ← buf_get b;
  if negb (ctrue (Z.land (b_flags v) B_BUSY)) then stopM Panic
  else
    psw ← psw_disable_and_save_interrupt;
    mutex_hold fuel MtxBcache;;
    lk_upd (fun m => list_del m (BufMru b));;
    lk_upd (fun m => list_add_top m BufHead (BufMru b));;
    v ← buf_get b;
    buf_put b (with_b_flags v (Z.land (b_flags v) (Z.lnot B_BUSY)));;
    wque_wakeup (WqBuf b) WQUE_REASON_WAKEUP;;
    mutex_release MtxBcache;;
    psw_restore_interrupt psw.

Definition buffer_cache_init : F unit :=
  mutex_init MtxBcache;;
  lk_upd (fun m => init_list_head m BufHead);;
  forM (seqZ 0 NBUF) (fun b =>
    lk_upd (fun m => init_list_node m (BufMru b));;
    lk_upd (fun m => init_list_node m (BufLink b));;
    lk_upd (fun m => list_add_top m BufHead (BufMru b));;
    v ← buf_get b;
    buf_put b (BlkBuf (b_flags v) BLK_DEV_NODEV (b_blockno v) (b_data v));;
    wque_init_wait_queue (WqBuf b)).
End blkio.

(** ** Equations on the layer's state *)

Implicit Types (s : kst fsst) (bs : list Z).

Definition map_ext s (g : fsst -> fsst) : kst fsst := with_ext s (g (ext s)).

Lemma buf_get_eq s b v : bufs (ext s) !! b = Some v -> buf_get b s = Ret v s.
Proof. intros E. unfold buf_get, fs_state. mred. by rewrite E. Qed.
Lemma buf_put_eq s b v v' :
  bufs (ext s) !! b = Some v ->
  buf_put b v' s = Ret tt (map_ext s (fun f => with_bufs f (<[b := v']> (bufs f)))).
Proof. intros E. unfold buf_put, fs_modify. mred. by rewrite (buf_get_eq _ _ v). Qed.
Lemma drv_get_eq s d v : drvs (ext s) !! d = Some v -> drv_get d s = Ret v s.
Proof. intros E. unfold drv_get, fs_state. mred. by rewrite E. Qed.
Lemma drv_put_eq s d v v' :
  drvs (ext s) !! d = Some v ->
  drv_put d v' s = Ret tt (map_ext s (fun f => with_drvs f (<[d := v']> (drvs f)))).
Proof. intros E. unfold drv_put, fs_modify. mred. by rewrite (drv_get_eq _ _ v). Qed.

(** A mutex that is free, with nobody waiting for it. *)
Definition quiet s (mtx : mtxp) : Prop :=
  mutexes s !! mtx = Some (Mutex 0 NULL) /\ is_ring (links s) (WqHead (WqMutex mtx)) [].

(** The state with the mutex held by the running thread, and freed again. *)
Definition hold s (mtx : mtxp) : kst fsst := with_mutexes s (<[mtx := Mutex 1 (current s)]> (mutexes s)).
Definition freed s (mtx : mtxp) : kst fsst := with_mutexes s (<[mtx := Mutex 0 NULL]> (mutexes s)).

Lemma hold_eq fuel s mtx : quiet s mtx -> mutex_hold fuel mtx s = Ret 0 (hold s mtx).
Proof. intros [E _]. by apply (mutex_hold_free _ _ _ NULL). Qed.

Lemma release_eq s mtx o :
  mutexes s !! mtx = Some (Mutex 1 o) -> is_ring (links s) (WqHead (WqMutex mtx)) [] ->
  mutex_release mtx s = Ret tt (freed s mtx).
Proof. intros E R. by apply (mutex_release_quiet _ _ 1 o). Qed.

(** ** The buffer cache *)

Definition cache_inv s bs : Prop :=
  is_ring (links s) BufHead (BufMru <$> bs) /\ (forall b, b ∈ bs -> is_Some (bufs (ext s) !! b)).

Definition buf_is s (dev blockno b : Z) : bool :=
  match bufs (ext s) !! b with Some v => (b_dev v =? dev) && (b_blockno v =? blockno) | None => false end.
Definition busy s (b : Z) : bool :=
  match bufs (ext s) !! b with Some v => ctrue (Z.land (b_flags v) B_BUSY) | None => false end.
Definition dirty s (b : Z) : bool :=
  match bufs (ext s) !! b with Some v => ctrue (Z.land (b_flags v) B_DIRTY) | None => false end.

Lemma cache_size s bs : cache_inv s bs -> (length bs <= size (bufs (ext s)))%nat.
Proof.
  intros [[HN _] HC]. apply NoDup_cons in HN as [_ HN]. apply NoDup_fmap_1 in HN.
  rewrite <-(size_list_to_set (C := gset Z) bs), <-size_dom by done. apply subseteq_size.
  intros c. rewrite elem_of_list_to_set, elem_of_dom. apply HC.
Qed.

Definition buf_loc bs : loc := default BufHead (head (BufMru <$> bs)).

(** One step of the search over a buffer that holds another block. *)
Lemma blk_search_skip fuel n s dev blockno l1 b l2 rc :
  cache_inv s (l1 ++ b :: l2) -> buf_is s dev blockno b = false ->
  blk_search fuel (S n) dev blockno (BufMru b) rc s = blk_search fuel n dev blockno (buf_loc l2) rc s.
Proof.
  intros [HR HB] Hb. destruct (HB b) as [v Hv]; [set_solver|]. unfold buf_is in Hb. rewrite Hv in Hb.
  cbn [blk_search]. rewrite decide_False by done. cbn [buf_of_link]. mred.
  rewrite (buf_get_eq _ _ v) by done. mred. rewrite Hb. mred.
  rewrite (lk_rd_eq _ _ (buf_loc l2)); [done|]. rewrite fmap_app in HR. by apply ring_next in HR.
Qed.

Lemma blk_search_miss fuel n s dev blockno l1 l2 rc :
  (length l2 <= n)%nat -> cache_inv s (l1 ++ l2) -> (forall b, b ∈ l2 -> buf_is s dev blockno b = false) ->
  blk_search fuel n dev blockno (buf_loc l2) rc s = Ret (None, rc) s.
Proof.
  revert n l1. induction l2 as [|b l2 IH]; intros n l1 Hn HI Hb; [destruct n; done|].
  destruct n as [|n]; [cbn in Hn; lia|]. change (buf_loc (b :: l2)) with (BufMru b).
  rewrite (blk_search_skip _ _ _ _ _ l1 b l2) by (done || apply Hb; set_solver).
  apply (IH n (l1 ++ [b])); [cbn in Hn; lia|by rewrite <-app_assoc|]. intros b' ?. apply Hb. set_solver.
Qed.

Lemma blk_search_hit fuel n s dev blockno l1 a b l2 rc v o :
  (length (a ++ b :: l2) <= n)%nat -> cache_inv s (l1 ++ a ++ b :: l2) ->
  (forall b', b' ∈ a -> buf_is s dev blockno b' = false) ->
  bufs (ext s) !! b = Some v -> b_dev v = dev -> b_blockno v = blockno -> busy s b = false ->
  mutexes s !! MtxBcache = Some (Mutex 1 o) -> is_ring (links s) (WqHead (WqMutex MtxBcache)) [] ->
  blk_search fuel n dev blockno (buf_loc (a ++ b :: l2)) rc s
    = Ret (Some b, rc) (freed (map_ext s (fun f => with_bufs f
        (<[b := with_b_flags v (Z.lor (b_flags v) B_BUSY)]> (bufs f)))) MtxBcache).
Proof.
  intros Hn HI Ha Hv <- <- Hnb Hm HR. revert n l1 Hn HI Ha. induction a as [|c a IH]; intros n l1 Hn HI Ha.
  - destruct n as [|n]; [cbn in Hn; lia|]. change (buf_loc ([] ++ b :: l2)) with (BufMru b).
    cbn [blk_search]. rewrite decide_False by done. cbn [buf_of_link]. mred. rewrite (buf_get_eq _ _ v) by done. mred.
    rewrite !Z.eqb_refl. cbn [andb]. unfold busy in Hnb. rewrite Hv in Hnb. rewrite Hnb. cbn [negb]. mred.
    rewrite (buf_put_eq _ _ v) by done. mred. by rewrite (release_eq _ _ o).
  - destruct n as [|n]; [cbn in Hn; lia|]. change (buf_loc ((c :: a) ++ b :: l2)) with (BufMru c).
    rewrite (blk_search_skip _ _ _ _ _ l1 c (a ++ b :: l2)) by (done || apply Ha; set_solver).
    apply (IH n (l1 ++ [c])); [cbn in Hn; lia|by rewrite <-app_assoc|]. intros b' ?. apply Ha. set_solver.
Qed.

Definition buf_tail bs : loc := default BufHead (last (BufMru <$> bs)).

Lemma blk_reuse_skip n s dev blockno l1 b l2 :
  cache_inv s (l1 ++ b :: l2) -> busy s b || dirty s b = true ->
  blk_reuse (S n) dev blockno (BufMru b) s = blk_reuse n dev blockno (buf_tail l1) s.
Proof.
  intros [HR HB] Hb. destruct (HB b) as [v Hv]; [set_solver|]. unfold busy, dirty in Hb. rewrite Hv in Hb.
  cbn [blk_reuse]. rewrite decide_False by done. cbn [buf_of_link]. mred.
  rewrite (buf_get_eq _ _ v) by done. mred. rewrite <-negb_orb, Hb. cbn [negb]. mred.
  rewrite (lk_rd_eq _ _ (buf_tail l1)); [done|]. rewrite fmap_app in HR. by apply ring_prev in HR.
Qed.

Lemma buf_tail_snoc l b : buf_tail (l ++ [b]) = BufMru b.
Proof. unfold buf_tail. rewrite fmap_app. cbn [fmap list_fmap]. by rewrite last_snoc. Qed.

Lemma blk_reuse_none n s dev blockno l1 l2 :
  (length l1 <= n)%nat -> cache_inv s (l1 ++ l2) -> (forall b, b ∈ l1 -> busy s b || dirty s b = true) ->
  blk_reuse n dev blockno (buf_tail l1) s = Ret None s.
Proof.
  revert n l2. induction l1 as [|b l1 IH] using rev_ind; intros n l2 Hn HI Hb; [destruct n; done|].
  rewrite length_app in Hn. cbn in Hn. destruct n as [|n]; [lia|]. rewrite buf_tail_snoc.
  rewrite <-app_assoc in HI. rewrite (blk_reuse_skip _ _ _ _ l1 b l2) by (done || apply Hb; set_solver).
  apply (IH n (b :: l2)); [lia|done|]. intros b' ?. apply Hb. set_solver.
Qed.

Lemma blk_reuse_found n s dev blockno l1 b a l2 v o :
  (length (l1 ++ b :: a) <= n)%nat -> cache_inv s (l1 ++ b :: a ++ l2) ->
  (forall b', b' ∈ a -> busy s b' || dirty s b' = true) ->
  bufs (ext s) !! b = Some v -> busy s b || dirty s b = false ->
  mutexes s !! MtxBcache = Some (Mutex 1 o) -> is_ring (links s) (WqHead (WqMutex MtxBcache)) [] ->
  blk_reuse n dev blockno (buf_tail (l1 ++ b :: a)) s
    = Ret (Some b) (freed (map_ext s (fun f => with_bufs f
        (<[b := BlkBuf B_BUSY dev blockno (b_data v)]> (bufs f)))) MtxBcache).
Proof.
  intros Hn HI Ha Hv Hb Hm HR. revert n l2 Hn HI Ha. induction a as [|c a IH] using rev_ind; intros n l2 Hn HI Ha.
  - rewrite buf_tail_snoc. rewrite length_app in Hn. destruct n as [|n]; [cbn in Hn; lia|].
    cbn [blk_reuse]. rewrite decide_False by done. cbn [buf_of_link]. mred. rewrite (buf_get_eq _ _ v) by done. mred.
    unfold busy, dirty in Hb. rewrite Hv in Hb. rewrite <-negb_orb, Hb. cbn [negb]. mred.
    rewrite (buf_put_eq _ _ v) by done. mred. by rewrite (release_eq _ _ o).
  - rewrite app_comm_cons, app_assoc, buf_tail_snoc. rewrite app_comm_cons, app_assoc, length_app in Hn. cbn in Hn.
    destruct n as [|n]; [lia|].
    rewrite (blk_reuse_skip _ _ _ _ (l1 ++ b :: a) c l2); [|by rewrite <-!app_assoc in *|apply Ha; set_solver].
    apply (IH n (c :: l2)); [lia|by rewrite <-!app_assoc in *|]. intros b' ?. apply Ha. set_solver.
Qed.

(** Taking and giving back a quiet mutex around a change of the layer's state
    leaves that change only. *)
Lemma hold_freed s mtx g b :
  quiet s mtx ->
  with_ie (freed (map_ext (hold (with_ie s b) mtx) g) mtx) (ie s) = map_ext s g.
Proof.
  intros [E _]. unfold freed, hold, map_ext. destruct s. cbn in *. rewrite insert_insert_eq.
  rewrite (insert_id _ _ _ E). done.
Qed.

Lemma quiet_ie s mtx b : quiet s mtx -> quiet (with_ie s b) mtx.
Proof. done. Qed.

(** The first round of [buffer_cache_blk_get], up to the search. *)
Lemma blk_get_open fuel s bs dev blockno :
  cache_inv s bs -> quiet s MtxBcache ->
  let s1 := hold (with_ie s false) MtxBcache in
  cache_inv s1 bs /\ mutexes s1 !! MtxBcache = Some (Mutex 1 (current s)) /\
  (length bs <= size (bufs (ext s)))%nat /\ list_ref_tail (links s1) BufHead = Some (buf_tail bs) /\
  buffer_cache_blk_get fuel dev blockno s =
    run_bind (run_bind (blk_search fuel (size (bufs (ext s))) dev blockno (buf_loc bs) WQUE_REASON_DESTROY s1)
      (blk_get_rest (blk_get_loop fuel fuel dev blockno) (size (bufs (ext s))) dev blockno))
      (fun b s2 => Ret b (with_ie s2 (ie s))).
Proof.
  intros HI HQ s1. assert (cache_inv s1 bs) as HI1 by done. split_and!; [done| | | |].
  - cbn. by rewrite lookup_insert_eq.
  - by apply cache_size.
  - destruct HI1 as [R _]. by apply list_ref_tail_ring.
  - unfold buffer_cache_blk_get, psw_disable_and_save_interrupt, psw_restore_interrupt. mred.
    cbn [blk_get_loop]. mred. rewrite hold_eq by done. mred. unfold fs_state. mred.
    rewrite (lk_rd_eq _ _ (buf_loc bs)); [done|]. destruct HI1 as [R _]. by apply list_ref_top_ring.
Qed.

Lemma blk_get_hit fuel s bs dev blockno a b l v :
  cache_inv s bs -> quiet s MtxBcache ->
  bs = a ++ b :: l -> (forall b', b' ∈ a -> buf_is s dev blockno b' = false) ->
  bufs (ext s) !! b = Some v -> b_dev v = dev -> b_blockno v = blockno -> busy s b = false ->
  buffer_cache_blk_get fuel dev blockno s = Ret b (map_ext s (fun f => with_bufs f
    (<[b := with_b_flags v (Z.lor (b_flags v) B_BUSY)]> (bufs f)))).
Proof.
  intros HI HQ -> Ha Hv Hd Hbn Hb.
  destruct (blk_get_open fuel s _ dev blockno HI HQ) as (HI1 & Hm & Hsz & _ & ->).
  rewrite (blk_search_hit _ _ _ dev blockno [] a b l _ v (current s)); [|done..|apply HQ].
  unfold blk_get_rest. cbn [run_bind fst]. mred. by rewrite hold_freed.
Qed.

Lemma blk_get_recycle fuel s bs dev blockno l b a v :
  cache_inv s bs -> quiet s MtxBcache ->
  bs = l ++ b :: a -> (forall b', b' ∈ bs -> buf_is s dev blockno b' = false) ->
  (forall b', b' ∈ a -> busy s b' || dirty s b' = true) ->
  bufs (ext s) !! b = Some v -> busy s b || dirty s b = false ->
  buffer_cache_blk_get fuel dev blockno s = Ret b (map_ext s (fun f => with_bufs f
    (<[b := BlkBuf B_BUSY dev blockno (b_data v)]> (bufs f)))).
Proof.
  intros HI HQ -> Hmiss Ha Hv Hb.
  destruct (blk_get_open fuel s _ dev blockno HI HQ) as (HI1 & Hm & Hsz & Ht & ->).
  rewrite (blk_search_miss _ _ _ dev blockno []) by done. unfold blk_get_rest. cbn [run_bind fst]. mred.
  rewrite (lk_rd_eq _ _ (buf_tail (l ++ b :: a))) by done. mred.
  rewrite (blk_reuse_found _ _ dev blockno l b a [] v (current s)); [|done|by rewrite app_nil_r|done..|apply HQ].
  mred. by rewrite hold_freed.
Qed.

Lemma blk_get_panic fuel s bs dev blockno :
  cache_inv s bs -> quiet s MtxBcache ->
  (forall b, b ∈ bs -> buf_is s dev blockno b = false) -> (forall b, b ∈ bs -> busy s b || dirty s b = true) ->
  buffer_cache_blk_get fuel dev blockno s = Stop Panic.
Proof.
  intros HI HQ Hmiss Hall. destruct (blk_get_open fuel s _ dev blockno HI HQ) as (HI1 & Hm & Hsz & Ht & ->).
  rewrite (blk_search_miss _ _ _ dev blockno []) by done. unfold blk_get_rest. cbn [run_bind fst]. mred.
  rewrite (lk_rd_eq _ _ (buf_tail bs)) by done. mred.
  rewrite (blk_reuse_none _ _ dev blockno bs []); [|done|by rewrite app_nil_r|done]. mred.
  rewrite (release_eq _ _ (current s)); [done|done|apply HQ].
Qed.

(** Getting a buffer when nobody else uses the cache.  A block that is
    cached and not in use is returned, marked busy, its contents kept.  A block
    that is not cached gets the least recently used buffer that is neither busy
    nor dirty, tagged with the block, busy, and neither valid nor dirty.  When
    there is no such buffer the kernel panics.  Nothing else changes. *)
Theorem buffer_cache_blk_get_correct fuel s bs dev blockno :
  cache_inv s bs -> quiet s MtxBcache ->
  (forall a b l v, bs = a ++ b :: l -> (forall b', b' ∈ a -> buf_is s dev blockno b' = false) ->
     bufs (ext s) !! b = Some v -> b_dev v = dev -> b_blockno v = blockno -> busy s b = false ->
     buffer_cache_blk_get fuel dev blockno s = Ret b (map_ext s (fun f => with_bufs f
       (<[b := with_b_flags v (Z.lor (b_flags v) B_BUSY)]> (bufs f))))) /\
  (forall l b a v, bs = l ++ b :: a -> (forall b', b' ∈ bs -> buf_is s dev blockno b' = false) ->
     (forall b', b' ∈ a -> busy s b' || dirty s b' = true) ->
     bufs (ext s) !! b = Some v -> busy s b || dirty s b = false ->
     buffer_cache_blk_get fuel dev blockno s = Ret b (map_ext s (fun f => with_bufs f
       (<[b := BlkBuf B_BUSY dev blockno (b_data v)]> (bufs f))))) /\
  ((forall b, b ∈ bs -> buf_is s dev blockno b = false) -> (forall b, b ∈ bs -> busy s b || dirty s b = true) ->
     buffer_cache_blk_get fuel dev blockno s = Stop Panic).
Proof.
  intros HI HQ. split_and!.
  - intros. by eapply blk_get_hit.
  - intros. by eapply blk_get_recycle.
  - intros. by eapply blk_get_panic.
Qed.

(** ** Transfers *)

Lemma hold_freed' s mtx g : quiet s mtx -> freed (map_ext (hold s mtx) g) mtx = map_ext s g.
Proof.
  intros [E _]. unfold freed, hold, map_ext. destruct s. cbn in *. rewrite insert_insert_eq.
  rewrite (insert_id _ _ _ E). done.
Qed.

(** The end of a critical section of a mutex that was quiet. *)
Lemma release_after s mtx g : quiet s mtx -> mutex_release mtx (map_ext (hold s mtx) g) = Ret tt (map_ext s g).
Proof.
  intros HQ. rewrite (release_eq _ _ (current s)); [by rewrite hold_freed'|cbn; by rewrite lookup_insert_eq|apply HQ].
Qed.

Lemma devsw_get_handle_eq fuel s dev d :
  quiet s MtxDevsw -> dev <= DEVSW_DEVICES_NR -> drvs (ext s) !! dev = Some d ->
  Z.land (drv_state d) DEVSW_DRIVER_STATE_RUN <> 0 ->
  devsw_get_handle fuel dev s = Ret dev (map_ext s (fun f => with_drvs f
    (<[dev := with_state_count d (drv_state d) (drv_count d + 1)]> (drvs f)))).
Proof.
  intros HQ Hd E Hr. unfold devsw_get_handle. rewrite (proj2 (Z.leb_le _ _)) by done. mred.
  rewrite hold_eq by done. mred. rewrite (drv_get_eq _ _ d) by done. mred.
  rewrite (proj2 (Z.eqb_neq _ _) Hr). cbn [negb]. rewrite (drv_put_eq _ _ d) by done. mred.
  by rewrite release_after.
Qed.

Lemma devsw_put_handle_eq fuel s dev d :
  quiet s MtxDevsw -> dev <= DEVSW_DEVICES_NR -> drvs (ext s) !! dev = Some d -> 0 < drv_count d ->
  devsw_put_handle fuel dev s = Ret tt (map_ext s (fun f => with_drvs f
    (<[dev := with_state_count d (drv_state d) (drv_count d - 1)]> (drvs f)))).
Proof.
  intros HQ Hd E Hr. unfold devsw_put_handle. rewrite (proj2 (Z.leb_le _ _)) by done. mred.
  rewrite hold_eq by done. mred. rewrite (drv_get_eq _ _ d) by done. mred.
  rewrite (proj2 (Z.ltb_lt _ _) Hr). mred. rewrite (drv_put_eq _ _ d) by done. mred.
  by rewrite release_after.
Qed.

Lemma read_pieces_S n m a r :
  read_pieces (S n) m a r =
    if r <=? 0 then Some []
    else let n' := if MEMIDE_BLK_SIZE <? r then MEMIDE_BLK_SIZE else r in
         l ← image_read m a (Z.to_nat n'); l' ← read_pieces n m (a + n') (r - n'); Some (l ++ l').
Proof. done. Qed.
Lemma write_pieces_S n m a r l :
  write_pieces (S n) m a r l =
    if r <=? 0 then Some m
    else let n' := if MEMIDE_BLK_SIZE <? r then MEMIDE_BLK_SIZE else r in
         m ← image_write m a (take (Z.to_nat n') l); write_pieces n m (a + n') (r - n') (drop (Z.to_nat n') l).
Proof. done. Qed.

(** A block is one piece. *)
Lemma read_sector_one n m a : read_pieces (S n) m a BSIZE = image_read m a (Z.to_nat BSIZE).
Proof.
  rewrite read_pieces_S. change (BSIZE <=? 0) with false. change (MEMIDE_BLK_SIZE <? BSIZE) with false.
  cbv beta iota zeta. destruct (image_read m a (Z.to_nat BSIZE)) as [l|]; [|done]. cbn [mbind option_bind].
  rewrite Z.sub_diag. assert (read_pieces n m (a + BSIZE) 0 = Some []) as -> by (by destruct n).
  cbn [mbind option_bind]. by rewrite app_nil_r.
Qed.

Lemma write_sector_one n m a l :
  length l = Z.to_nat BSIZE -> write_pieces (S n) m a BSIZE l = image_write m a l.
Proof.
  intros Hl. rewrite write_pieces_S. change (BSIZE <=? 0) with false. change (MEMIDE_BLK_SIZE <? BSIZE) with false.
  cbv beta iota zeta. rewrite firstn_all2 by lia. destruct (image_write m a l) as [m'|]; [|done].
  cbn [mbind option_bind]. rewrite Z.sub_diag. by destruct n.
Qed.

Lemma image_write_spec m a l :
  mapped m a (Z.of_nat (length l)) ->
  exists m', image_write m a l = Some m' /\
    (forall i, a <= i < a + Z.of_nat (length l) -> m' !! i = l !! Z.to_nat (i - a)) /\
    (forall i, ~ a <= i < a + Z.of_nat (length l) -> m' !! i = m !! i).
Proof.
  revert m a. induction l as [|v l IH]; intros m a Hm.
  - exists m. split_and!; [done|cbn; lia|done].
  - cbn [image_write length] in *. rewrite st_spec by (apply Hm; lia). cbn [mbind option_bind].
    destruct (IH (<[a := v]> m) (a + 1)) as (m' & E & H1 & H2).
    { apply mapped_insert; [apply Hm; lia|]. intros i Hi. apply Hm. lia. }
    exists m'. split_and!; [done| |].
    + intros i Hi. destruct (decide (i = a)) as [->|].
      * rewrite H2, lookup_insert_eq, Z.sub_diag by lia. done.
      * rewrite H1 by lia. replace (Z.to_nat (i - a)) with (S (Z.to_nat (i - (a + 1)))) by lia. done.
    + intros i Hi. rewrite H2 by lia. by rewrite lookup_insert_ne by lia.
Qed.

Lemma image_read_spec m a l :
  (forall i : nat, (i < length l)%nat -> m !! (a + Z.of_nat i) = l !! i) -> image_read m a (length l) = Some l.
Proof.
  revert a. induction l as [|v l IH]; intros a Hl; [done|]. cbn [image_read length]. unfold ld.
  pose proof (Hl 0%nat ltac:(cbn; lia)) as H0. change (Z.of_nat 0) with 0 in H0. rewrite Z.add_0_r in H0. rewrite H0.
  cbn [mbind option_bind lookup list_lookup]. rewrite IH; [done|]. intros i Hi.
  pose proof (Hl (S i) ltac:(cbn; lia)) as HS. change ((v :: l) !! S i) with (l !! i) in HS.
  rewrite <-HS. f_equal. lia.
Qed.

(** What was written is what is read. *)
Lemma image_roundtrip m m' a l : image_write m a l = Some m' -> mapped m a (Z.of_nat (length l)) ->
  image_read m' a (length l) = Some l.
Proof.
  intros E Hm. destruct (image_write_spec m a l Hm) as (m'' & E' & H1 & _). simplify_eq.
  apply image_read_spec. intros i Hi. rewrite H1 by lia. f_equal. lia.
Qed.

Definition block_addr (v : blk_buf) : Z := u64 (b_blockno v * BSIZE).

(** A device whose driver is the memory disk, and nobody using it. *)
Definition disk_ready s (dev : Z) (d : device_driver) : Prop :=
  quiet s MtxDevsw /\ quiet s (MtxDrv dev) /\ dev <= DEVSW_DEVICES_NR /\ drvs (ext s) !! dev = Some d /\
  drv_dev d = dev /\ Z.land (drv_state d) DEVSW_DRIVER_STATE_RUN <> 0 /\ 0 <= drv_count d /\
  drv_blkrw d = MEMIDE_RW.

Lemma memide_rw_write fuel s dev b v d m :
  quiet s (MtxDrv dev) -> drvs (ext s) !! dev = Some d -> drv_dev d = b_dev v ->
  bufs (ext s) !! b = Some v -> ctrue (Z.land (b_flags v) B_BUSY) = true ->
  ctrue (Z.land (b_flags v) B_DIRTY) = true -> length (b_data v) = Z.to_nat BSIZE ->
  image_write (image (ext s)) (block_addr v) (b_data v) = Some m ->
  memide_rw fuel dev b s = Ret 0 (map_ext s (fun f => with_image f m)).
Proof.
  intros HQ Hd Hdev Hb Hbusy Hdirty Hl Hm. unfold memide_rw. mred. rewrite (buf_get_eq _ _ v) by done. mred.
  rewrite Hbusy. mred. rewrite hold_eq by done. mred. rewrite (drv_get_eq _ _ d) by done. mred.
  rewrite (buf_get_eq _ _ v) by done. mred. rewrite Hdev, Z.eqb_refl, Hdirty. cbn [negb].
  unfold memide_write_sector, psw_disable_and_save_interrupt, psw_restore_interrupt, fs_state, fs_modify. mred.
  change (Z.to_nat BSIZE) with (S 511) at 1. rewrite write_sector_one by done.
  change (image (ext (with_ie (hold s (MtxDrv dev)) false))) with (image (ext s)). fold (block_addr v). rewrite Hm.
  mred. rewrite (release_eq _ _ (current s)); [|cbn; by rewrite lookup_insert_eq|apply HQ]. mred.
  f_equal. exact (hold_freed' s (MtxDrv dev) (fun f => with_image f m) HQ).
Qed.

Lemma memide_rw_read fuel s dev b v d l :
  quiet s (MtxDrv dev) -> drvs (ext s) !! dev = Some d -> drv_dev d = b_dev v ->
  bufs (ext s) !! b = Some v -> ctrue (Z.land (b_flags v) B_BUSY) = true ->
  ctrue (Z.land (b_flags v) B_DIRTY) = false ->
  image_read (image (ext s)) (block_addr v) (Z.to_nat BSIZE) = Some l ->
  memide_rw fuel dev b s = Ret 0 (map_ext s (fun f => with_bufs f (<[b := with_b_data v l]> (bufs f)))).
Proof.
  intros HQ Hd Hdev Hb Hbusy Hdirty Hm. unfold memide_rw. mred. rewrite (buf_get_eq _ _ v) by done. mred.
  rewrite Hbusy. mred. rewrite hold_eq by done. mred. rewrite (drv_get_eq _ _ d) by done. mred.
  rewrite (buf_get_eq _ _ v) by done. mred. rewrite Hdev, Z.eqb_refl, Hdirty. cbn [negb].
  unfold memide_read_sector, psw_disable_and_save_interrupt, psw_restore_interrupt, fs_state. mred.
  change (Z.to_nat BSIZE) with (S 511) at 1. rewrite read_sector_one.
  change (image (ext (with_ie (hold s (MtxDrv dev)) false))) with (image (ext s)). fold (block_addr v). rewrite Hm.
  mred. rewrite with_ie_ie. rewrite (buf_get_eq _ _ v) by done. mred. rewrite (buf_put_eq _ _ v) by done. mred.
  rewrite (release_eq _ _ (current s)); [|cbn; by rewrite lookup_insert_eq|apply HQ]. mred.
  f_equal. exact (hold_freed' s (MtxDrv dev) _ HQ).
Qed.

(** The handle of the driver is taken before the transfer and given back after
    it, so that only the transfer's effect [g] remains. *)
Lemma blk_transfer_eq fuel s b v d g v' :
  disk_ready s (b_dev v) d -> bufs (ext s) !! b = Some v ->
  (forall f x, g (with_drvs f x) = with_drvs (g f) x) -> (forall f, drvs (g f) = drvs f) ->
  bufs (g (ext s)) !! b = Some v' -> b_dev v' = b_dev v ->
  (forall d' s', quiet s' (MtxDrv (b_dev v)) -> drv_dev d' = b_dev v ->
     s' = map_ext s (fun f => with_drvs f (<[b_dev v := d']> (drvs f))) ->
     memide_rw fuel (b_dev v) b s' = Ret 0 (map_ext s' g)) ->
  blk_transfer fuel b s = Ret tt (map_ext s g).
Proof.
  intros (HQ1 & HQ2 & Hn & Hd & Hdev & Hrun & Hc & Hop) Hb Hg1 Hg2 Hb' Hv' Hrw. unfold blk_transfer. mred.
  rewrite (buf_get_eq _ _ v) by done. mred. rewrite (devsw_get_handle_eq _ _ _ d) by done. mred.
  set (d' := with_state_count d _ _). set (s1 := map_ext s _).
  rewrite (drv_get_eq _ _ d') by (cbn; by rewrite lookup_insert_eq). mred.
  change (drv_blkrw d') with (drv_blkrw d). rewrite Hop. change (MEMIDE_RW =? NULL) with false. cbv iota.
  unfold call_blkrw. rewrite Z.eqb_refl, (Hrw d' s1) by done. mred.
  assert (map_ext s1 g = map_ext s (fun f => with_drvs (g f) (<[b_dev v := d']> (drvs f)))) as ->.
  { unfold s1, map_ext. cbn. by rewrite Hg1. }
  rewrite (buf_get_eq _ _ v') by done. mred. rewrite Hv'.
  rewrite (devsw_put_handle_eq _ _ _ d'); [|done|done|cbn; by rewrite lookup_insert_eq|cbn; lia].
  unfold map_ext. f_equal. cbn. f_equal. rewrite insert_insert_eq, Z.add_simpl_r.
  replace (with_state_count d' (drv_state d) (drv_count d)) with d by (by destruct d).
  rewrite (insert_id (drvs (ext s)) _ d) by done. rewrite <-Hg2. by destruct (g (ext s)).
Qed.

Lemma blk_transfer_write fuel s b v d m :
  disk_ready s (b_dev v) d -> bufs (ext s) !! b = Some v -> ctrue (Z.land (b_flags v) B_BUSY) = true ->
  ctrue (Z.land (b_flags v) B_DIRTY) = true -> length (b_data v) = Z.to_nat BSIZE ->
  image_write (image (ext s)) (block_addr v) (b_data v) = Some m ->
  blk_transfer fuel b s = Ret tt (map_ext s (fun f => with_image f m)).
Proof.
  intros HD Hb Hbusy Hdirty Hl Hm. apply (blk_transfer_eq _ _ _ v d _ v); try done.
  intros d' s' HQ Hd ->. apply (memide_rw_write _ _ _ _ v d' m); try done. cbn. by rewrite lookup_insert_eq.
Qed.

Lemma blk_transfer_read fuel s b v d l :
  disk_ready s (b_dev v) d -> bufs (ext s) !! b = Some v -> ctrue (Z.land (b_flags v) B_BUSY) = true ->
  ctrue (Z.land (b_flags v) B_DIRTY) = false ->
  image_read (image (ext s)) (block_addr v) (Z.to_nat BSIZE) = Some l ->
  blk_transfer fuel b s = Ret tt (map_ext s (fun f => with_bufs f (<[b := with_b_data v l]> (bufs f)))).
Proof.
  intros HD Hb Hbusy Hdirty Hm. apply (blk_transfer_eq _ _ _ v d _ (with_b_data v l)); try done.
  { cbn. by rewrite lookup_insert_eq. }
  intros d' s' HQ Hd ->. apply (memide_rw_read _ _ _ _ v d' l); try done. cbn. by rewrite lookup_insert_eq.
Qed.

(** ** Releasing a buffer *)

Definition not_busy (v : blk_buf) : blk_buf := with_b_flags v (Z.land (b_flags v) (Z.lnot B_BUSY)).

Lemma quiet_frame s m bs mtx :
  frame (links s) m (BufHead :: (BufMru <$> bs)) -> quiet s mtx -> quiet (with_links s m) mtx.
Proof.
  intros HF [E R]. split; [done|]. cbn. eapply is_ring_frame; [exact HF| |exact R].
  intros y Hy%elem_of_cons. destruct Hy as [->|Hy]; [|by apply elem_of_nil in Hy].
  rewrite elem_of_cons, list_elem_of_fmap. by intros [?|(? & ? & _)].
Qed.

Lemma blk_release_eq fuel s l1 b l2 v :
  cache_inv s (l1 ++ b :: l2) -> quiet s MtxBcache -> is_ring (links s) (WqHead (WqBuf b)) [] ->
  bufs (ext s) !! b = Some v -> ctrue (Z.land (b_flags v) B_BUSY) = true ->
  exists m, buffer_cache_blk_release fuel b s
      = Ret tt (map_ext (with_links s m) (fun f => with_bufs f (<[b := not_busy v]> (bufs f)))) /\
    is_ring m BufHead (BufMru <$> b :: l1 ++ l2) /\
    frame (links s) m (BufHead :: (BufMru <$> (l1 ++ b :: l2))).
Proof.
  intros [HR HB] HQ HW Hv Hbusy. rewrite fmap_app in HR. cbn [fmap list_fmap] in HR.
  destruct (list_del_ring _ _ _ _ _ HR) as (m1 & E1 & R1 & S1 & F1).
  assert (BufMru b ∉ BufHead :: (BufMru <$> l1) ++ (BufMru <$> l2)) as Hnot.
  { destruct HR as [HN _]. rewrite <-!fmap_app. apply NoDup_cons in HN as [_ HN].
    apply NoDup_app in HN as (_ & Hd & [Hb _]%NoDup_cons). set_solver. }
  destruct (list_add_top_ring m1 BufHead _ (BufMru b) R1 Hnot) as (m2 & E2 & R2 & F2).
  { eapply is_ring_dom; [exact S1|set_solver]. }
  assert (frame (links s) m2 (BufHead :: (BufMru <$> (l1 ++ b :: l2)))) as F.
  { eapply frame_weaken; [|exact (frame_trans _ _ _ _ _ F1 F2)]. rewrite fmap_app. cbn. set_solver. }
  exists m2. split_and!; [|by rewrite fmap_cons, fmap_app|done].
  unfold buffer_cache_blk_release, psw_disable_and_save_interrupt, psw_restore_interrupt. mred.
  rewrite (buf_get_eq _ _ v) by done. mred. rewrite Hbusy. cbn [negb]. mred. rewrite hold_eq by done. mred.
  rewrite (lk_upd_eq _ _ m1) by done. mred. rewrite (lk_upd_eq _ _ m2) by done. mred.
  rewrite (buf_get_eq _ _ v) by done. mred. rewrite (buf_put_eq _ _ v) by done. mred.
  assert (is_ring m2 (WqHead (WqBuf b)) []) as HW2.
  { eapply is_ring_frame; [exact F| |exact HW]. intros y. set_solver. }
  rewrite (wque_wakeup_empty _ _ []) by (split; [exact HW2|constructor|constructor|set_solver]). mred.
  rewrite (release_eq _ _ (current s)); [|cbn; by rewrite lookup_insert_eq|].
  - mred. f_equal. exact (hold_freed (with_links s m2) MtxBcache _ false (quiet_frame _ _ _ _ F HQ)).
  - exact (proj2 (quiet_frame _ _ _ _ F HQ)).
Qed.

(** ** Flags *)

Lemma busy_bit z : ctrue (Z.land z B_BUSY) = Z.testbit z 0.
Proof. exact (land_pow2_testbit z 0 ltac:(lia)). Qed.
Lemma valid_bit z : ctrue (Z.land z B_VALID) = Z.testbit z 1.
Proof. exact (land_pow2_testbit z 1 ltac:(lia)). Qed.
Lemma dirty_bit z : ctrue (Z.land z B_DIRTY) = Z.testbit z 2.
Proof. exact (land_pow2_testbit z 2 ltac:(lia)). Qed.

(** Evaluates a test of a flag in terms of the other tests. *)
Ltac flag_bits :=
  rewrite ?busy_bit, ?valid_bit, ?dirty_bit in *;
  repeat first [rewrite Z.lor_spec | rewrite Z.land_spec | rewrite Z.lnot_spec by lia];
  repeat match goal with
  | |- context [Z.testbit ?c ?k] =>
      lazymatch c with B_BUSY => idtac | B_VALID => idtac | B_DIRTY => idtac end;
      let b := eval vm_compute in (Z.testbit c k) in change (Z.testbit c k) with b; cbn [negb]
  end;
  rewrite ?orb_true_r, ?orb_false_r, ?andb_true_r, ?andb_false_r.

(** ** Reading and writing blocks *)

(** The block of a buffer lies in the image. *)
Definition in_image s (v : blk_buf) : Prop := mapped (image (ext s)) (block_addr v) BSIZE.
Definition block_is (m : mem) (a : Z) (l : list Z) : Prop :=
  forall i, 0 <= i < BSIZE -> m !! (a + i) = l !! Z.to_nat i.

Lemma blk_write_eq fuel s b v d :
  disk_ready s (b_dev v) d -> bufs (ext s) !! b = Some v -> ctrue (Z.land (b_flags v) B_BUSY) = true ->
  length (b_data v) = Z.to_nat BSIZE -> in_image s v ->
  exists m, buffer_cache_blk_write fuel b s = Ret tt (map_ext s (fun f =>
      with_image (with_bufs f (<[b := with_b_flags v (Z.lor (b_flags v) B_DIRTY)]> (bufs f))) m)) /\
    block_is m (block_addr v) (b_data v) /\
    (forall i, ~ block_addr v <= i < block_addr v + BSIZE -> m !! i = image (ext s) !! i).
Proof.
  intros HD Hb Hbusy Hl Hm.
  assert (Z.of_nat (length (b_data v)) = BSIZE) as HL by (rewrite Hl; done).
  destruct (image_write_spec (image (ext s)) (block_addr v) (b_data v)) as (m & E & H1 & H2); [by rewrite HL|].
  rewrite HL in H1, H2. exists m. split_and!; [|intros i Hi; rewrite H1 by lia; f_equal; lia|done].
  unfold buffer_cache_blk_write. mred. rewrite (buf_get_eq _ _ v) by done. mred. rewrite Hbusy. mred.
  rewrite (buf_put_eq _ _ v) by done. mred. set (v' := with_b_flags v _).
  rewrite (blk_transfer_write _ _ _ v' d m); [done|done|cbn; by rewrite lookup_insert_eq| | |done|done].
  - cbn. flag_bits. by rewrite Hbusy.
  - cbn. by flag_bits.
Qed.

(** A buffer whose block is on disk already is written again to the same effect. *)
Lemma image_rewrite m a l : length l = Z.to_nat BSIZE -> block_is m a l -> image_write m a l = Some m.
Proof.
  intros Hl Hb. destruct (image_write_spec m a l) as (m' & E & H1 & H2).
  { intros i Hi. rewrite Hl in Hi. replace i with (a + (i - a)) by lia. rewrite (Hb (i - a)) by (cbn in *; lia).
    apply lookup_lt_is_Some_2. rewrite Hl. cbn in *. lia. }
  rewrite E. f_equal. apply map_eq. intros i. rewrite Hl in H1, H2.
  destruct (decide (a <= i < a + BSIZE)) as [Hi|Hi].
  - rewrite H1 by done. rewrite <-(Hb (i - a)) by lia. f_equal. lia.
  - by apply H2.
Qed.

Lemma disk_ready_frame s m bs dev d :
  frame (links s) m (BufHead :: (BufMru <$> bs)) -> disk_ready s dev d -> disk_ready (with_links s m) dev d.
Proof.
  intros HF (H1 & H2 & HR). split_and!; [by eapply quiet_frame|by eapply quiet_frame|apply HR..].
Qed.

(** Reading a cached block that its buffer and the disk agree on. *)
Lemma blk_read_hit fuel s b l v d :
  cache_inv s (b :: l) -> quiet s MtxBcache -> disk_ready s (b_dev v) d ->
  bufs (ext s) !! b = Some v -> busy s b = false -> dirty s b = true ->
  length (b_data v) = Z.to_nat BSIZE -> block_is (image (ext s)) (block_addr v) (b_data v) ->
  buffer_cache_blk_read fuel (b_dev v) (b_blockno v) s = Ret b (map_ext s (fun f => with_bufs f
    (<[b := with_b_flags v (Z.lor (b_flags v) B_BUSY)]> (bufs f)))).
Proof.
  intros HI HQ HD Hv Hnb Hdirty Hl Hblk. unfold dirty in Hdirty. rewrite Hv in Hdirty.
  unfold buffer_cache_blk_read. mred.
  rewrite (blk_get_hit _ _ (b :: l) _ _ [] b l v) by (done || set_solver). mred.
  set (v' := with_b_flags v _). set (s' := map_ext s _).
  assert (bufs (ext s') !! b = Some v') as Hv' by (cbn; by rewrite lookup_insert_eq).
  rewrite (buf_get_eq _ _ v') by done. mred. destruct (ctrue (Z.land (b_flags v') B_VALID)); [done|]. cbn [negb].
  rewrite (blk_transfer_write _ _ _ v' d (image (ext s))); [|exact HD|exact Hv'| | |done|].
  - mred. f_equal.
  - cbn. by flag_bits.
  - cbn. flag_bits. by rewrite Hdirty.
  - by apply image_rewrite.
Qed.

(** C9.  What is written is read back: writing a buffer in use, releasing it
    and reading its block again returns the same buffer with the same contents,
    now first in the order of use, and the block on the disk holds them.  The
    buffer stays dirty: nothing clears the flag. *)
Theorem buffer_cache_write_read fuel s l1 b l2 v d :
  cache_inv s (l1 ++ b :: l2) -> quiet s MtxBcache -> disk_ready s (b_dev v) d ->
  is_ring (links s) (WqHead (WqBuf b)) [] -> bufs (ext s) !! b = Some v -> busy s b = true ->
  length (b_data v) = Z.to_nat BSIZE -> in_image s v ->
  exists s' v', (buffer_cache_blk_write fuel b;; buffer_cache_blk_release fuel b;;
             buffer_cache_blk_read fuel (b_dev v) (b_blockno v)) s = Ret b s' /\
    bufs (ext s') = <[b := v']> (bufs (ext s)) /\
    b_data v' = b_data v /\ b_dev v' = b_dev v /\ b_blockno v' = b_blockno v /\
    busy s' b = true /\ dirty s' b = true /\ cache_inv s' (b :: l1 ++ l2) /\
    block_is (image (ext s')) (block_addr v) (b_data v) /\
    (forall i, ~ block_addr v <= i < block_addr v + BSIZE -> image (ext s') !! i = image (ext s) !! i).
Proof.
  intros HI HQ HD HW Hv Hbusy Hl Hin. unfold busy in Hbusy. rewrite Hv in Hbusy.
  destruct (blk_write_eq fuel s b v d HD Hv Hbusy Hl Hin) as (im & Ew & Hblk & Hother).
  mred. rewrite Ew. mred. set (v1 := with_b_flags v (Z.lor (b_flags v) B_DIRTY)). set (s1 := map_ext s _).
  assert (bufs (ext s1) !! b = Some v1) as Hv1 by (cbn; by rewrite lookup_insert_eq).
  destruct (blk_release_eq fuel s1 l1 b l2 v1) as (m & Er & HR & HF); [|done|done|done|cbn; flag_bits; by rewrite Hbusy|].
  { destruct HI as [HR HB]. split; [done|]. intros c Hc. cbn. apply lookup_insert_is_Some'. auto. }
  rewrite Er. mred. set (v2 := not_busy v1). set (s2 := map_ext (with_links s1 m) _).
  assert (bufs (ext s2) !! b = Some v2) as Hv2 by (cbn; by rewrite lookup_insert_eq).
  assert (forall c, c ∈ b :: l1 ++ l2 -> is_Some (bufs (ext s) !! c)) as HB by (intros c Hc; apply HI; set_solver).
  change (b_dev v) with (b_dev v2). change (b_blockno v) with (b_blockno v2).
  rewrite (blk_read_hit fuel s2 b (l1 ++ l2) v2 d);
    [|split; [exact HR|]|exact (quiet_frame s1 m _ _ HF HQ)|exact (disk_ready_frame s1 m _ _ _ HF HD)|done| | |done|done].
  - eexists _, _. split; [done|]. cbn. rewrite !insert_insert_eq.
    split_and!; try done; unfold busy, dirty; cbn; rewrite ?lookup_insert_eq; cbn; [by flag_bits..|].
    split; [exact HR|]. intros c Hc. cbn. do 3 (apply lookup_insert_is_Some'; right). auto.
  - intros c Hc. cbn. do 2 (apply lookup_insert_is_Some'; right). auto.
  - unfold busy. rewrite Hv2. cbn. by flag_bits.
  - unfold dirty. rewrite Hv2. cbn. by flag_bits.
Qed.

(** ** Witnesses

    Three buffers on a disk of eight blocks: 1 is in use for block 3, 2 is dirty
    with block 4, and 0, the least recently used, is free. *)

Definition ring0 (l : loc) : loc * node loc := (l, Node l l).
Definition demo_disk_links : gmap loc (node loc) :=
  list_to_map ([(BufHead, Node (BufMru 0) (BufMru 1)); (BufMru 1, Node BufHead (BufMru 2));
    (BufMru 2, Node (BufMru 1) (BufMru 0)); (BufMru 0, Node (BufMru 2) BufHead)] ++
    (ring0 <$> [WqHead (WqMutex MtxBcache); WqHead (WqMutex MtxDevsw); WqHead (WqMutex (MtxDrv 1)); WqHead (WqBuf 1)])).

Definition demo_block : list Z := replicate (Z.to_nat BSIZE) 7.
Definition demo_fsst : fsst :=
  FsSt {[1 := DeviceDriver 1 DEVSW_DRIVER_STATE_RUN 0 NULL NULL NULL NULL MEMIDE_RW NULL]}
    (list_to_map ((fun i => (i, 0)) <$> seqZ 0 4096))
    (list_to_map [(0, BlkBuf 0 BLK_DEV_NODEV 0 []); (1, BlkBuf B_BUSY 1 3 demo_block); (2, BlkBuf B_DIRTY 1 4 demo_block)])
    ∅ ∅.
Definition demo_disk : kst fsst :=
  Kst demo_disk_links true ∅ ∅ 100 0 ∅ ∅
    (list_to_map [(MtxBcache, Mutex 0 NULL); (MtxDevsw, Mutex 0 NULL); (MtxDrv 1, Mutex 0 NULL)])
    0 ∅ ∅ ∅ ∅ [] 8 demo_fsst.

Lemma demo_disk_cache : cache_inv demo_disk [1; 2; 0].
Proof.
  split; [ring_decide|]. intros b Hb. assert (b = 1 \/ b = 2 \/ b = 0) as [->|[->| ->]] by set_solver; by eexists.
Qed.

Lemma demo_disk_quiet mtx : mtx ∈ [MtxBcache; MtxDevsw; MtxDrv 1] -> quiet demo_disk mtx.
Proof.
  intros H. assert (mtx = MtxBcache \/ mtx = MtxDevsw \/ mtx = MtxDrv 1) as [->|[->| ->]] by set_solver;
    (split; [done|ring_decide]).
Qed.

Lemma demo_disk_image a len : 0 <= a -> a + len <= 4096 -> mapped (image demo_fsst) a len.
Proof.
  intros Ha Hl i Hi. exists 0. apply elem_of_list_to_map_1.
  - rewrite <-list_fmap_compose. apply NoDup_fmap_2; [intros x y; cbn; lia|apply NoDup_seqZ].
  - apply list_elem_of_fmap. exists i. split; [done|]. apply elem_of_seqZ. lia.
Qed.

Lemma buffer_cache_blk_get_correct_witness :
  buffer_cache_blk_get 5 1 6 demo_disk
    = Ret 0 (map_ext demo_disk (fun f => with_bufs f (<[0 := BlkBuf B_BUSY 1 6 []]> (bufs f)))).
Proof.
  destruct (buffer_cache_blk_get_correct 5 demo_disk [1; 2; 0] 1 6) as (_ & H & _);
    [apply demo_disk_cache|apply demo_disk_quiet; set_solver|].
  apply (H [1; 2] 0 [] (BlkBuf 0 BLK_DEV_NODEV 0 [])); try done.
  - intros b Hb. assert (b = 1 \/ b = 2 \/ b = 0) as [->|[->| ->]] by set_solver; done.
  - intros b Hb. by apply elem_of_nil in Hb.
Defined.

Lemma buffer_cache_write_read_witness :
  exists s', (buffer_cache_blk_write 5 1;; buffer_cache_blk_release 5 1;; buffer_cache_blk_read 5 1 3) demo_disk
      = Ret 1 s' /\ block_is (image (ext s')) 1536 demo_block.
Proof.
  destruct (buffer_cache_write_read 5 demo_disk [] 1 [2; 0] (BlkBuf B_BUSY 1 3 demo_block)
    (DeviceDriver 1 DEVSW_DRIVER_STATE_RUN 0 NULL NULL NULL NULL MEMIDE_RW NULL))
    as (s' & v' & E & _ & _ & _ & _ & _ & _ & _ & Hb & _).
  - apply demo_disk_cache.
  - apply demo_disk_quiet. set_solver.
  - split_and!; [apply demo_disk_quiet; set_solver..|done|reflexivity|done|done|done|done].
  - ring_decide.
  - reflexivity.
  - reflexivity.
  - apply length_replicate.
  - apply demo_disk_image; vm_compute; congruence.
  - exists s'. exact (conj E Hb).
Defined.
