(* ===== verification/FsPart.v ===== *)
(** The file system as a part of a machine with more devices.

    The operations of the device switch and the file system work on the part
    [fsst] of the state; [lift] runs them in the state of a machine [X] that has
    an [fsst] among its devices.  Across a context switch the rest of the
    devices is what the other threads left. *)
From S2P Require Import Prelude KList Kernel CString FsState.

Class FsPart (X : Type) : Type := { fs_of : X -> fsst; set_fs : X -> fsst -> X }.

Section lift.
Context {X : Type} `{FsPart X}.

(** The same kernel with other devices. *)
Definition with_devices {Y Z} (s : kst Y) (z : Z) : kst Z :=
  Kst (links s) (ie s) (threads s) (tinfos s) (current s) (bitmap s) (wq_reason s) (wqe_thr s) (mutexes s) (uptime s) (callouts s) (irqs s) (handlers s) (finders s) (supply s) (nlocal s) z.
Definition narrow (s : kst X) : kst fsst := with_devices s (fs_of (ext s)).
Definition widen (x : X) (s : kst fsst) : kst X := with_devices s (set_fs x (ext s)).

Fixpoint lift_run {A} (x : X) (r : run (kst fsst) A) : run (kst X) A :=
  match r with
  | Ret a s => Ret a (widen x s)
  | Stop w => Stop w
  | Switch s k => Switch (widen x s) (fun s' => lift_run (ext s') (k (narrow s')))
  end.
Definition lift {A} (c : F A) : K X A := fun s => lift_run (ext s) (c (narrow s)).
End lift.
