(* ===== verification/Coherence.v ===== *)
(** The buffer cache and the memory disk together: an invariant under which the
    cache is coherent with the disk, and what one read of a block and the
    release of its buffer do to it.  The users of blocks (fs/inode.c) are
    verified against these lemmas. *)
From S2P Require Import Prelude KList Kernel WaitQueue Mutex CString FsState Blkio.

Implicit Types (s : kst fsst) (bs : list Z) (v : blk_buf).

(** ** The invariant *)

Definition is_busy v : bool := ctrue (Z.land (b_flags v) B_BUSY).
Definition is_dirty v : bool := ctrue (Z.land (b_flags v) B_DIRTY).
Definition is_valid v : bool := ctrue (Z.land (b_flags v) B_VALID).

(** A buffer at rest: not in use, a block long, and when it is dirty the disk
    already holds its contents.  Nothing ever sets [B_VALID]. *)
Record buf_ok (im : mem) (dev : Z) v : Prop := {
  bo_busy : is_busy v = false;
  bo_valid : is_valid v = false;
  bo_len : length (b_data v) = Z.to_nat BSIZE;
  bo_dirty : is_dirty v = true -> b_dev v = dev /\ block_is im (block_addr v) (b_data v) }.

(** The cache [bs] of the memory disk [dev], with nobody using it. *)
Record disk_ok (dev : Z) (d : device_driver) s bs : Prop := {
  do_cache : cache_inv s bs;
  do_quiet : quiet s MtxBcache;
  do_ready : disk_ready s dev d;
  do_wait : forall b, b ∈ bs -> is_ring (links s) (WqHead (WqBuf b)) [];
  do_bufs : forall b v, b ∈ bs -> bufs (ext s) !! b = Some v -> buf_ok (image (ext s)) dev v;
  do_clean : exists b v, b ∈ bs /\ bufs (ext s) !! b = Some v /\ is_dirty v = false }.

(** The only change is in the cache: its buffers and their order. *)
Definition cache_step s bs s' bs' : Prop :=
  exists m B, s' = map_ext (with_links s m) (fun f => with_bufs f B) /\
    frame (links s) m (BufHead :: (BufMru <$> bs)) /\ bs' ≡ₚ bs.

Lemma cache_step_quiet s bs s' bs' mtx : cache_step s bs s' bs' -> quiet s mtx -> quiet s' mtx.
Proof. intros (m & B & -> & HF & _) HQ. exact (quiet_frame _ _ _ _ HF HQ). Qed.

Lemma cache_step_refl s bs : cache_step s bs s bs.
Proof.
  exists (links s), (bufs (ext s)). split_and!; [|by split|done].
  unfold map_ext, with_bufs. destruct s as [??????????????? ? [????]]. done.
Qed.

Lemma cache_step_trans s1 b1 s2 b2 s3 b3 :
  cache_step s1 b1 s2 b2 -> cache_step s2 b2 s3 b3 -> cache_step s1 b1 s3 b3.
Proof.
  intros (m & B & -> & HF & HP) (m' & B' & -> & HF' & HP'). exists m', B'. split_and!; [done| |by rewrite HP'].
  eapply frame_weaken; [|exact (frame_trans _ _ _ _ _ HF HF')]. intros x Hx. apply elem_of_app in Hx as [Hx|Hx]; [done|].
  apply elem_of_cons in Hx as [->|Hx]; [set_solver|]. apply elem_of_cons. right. by rewrite <-HP.
Qed.

(** ** Lists of buffers *)

(** The first or the last element a test selects, or none. *)
Lemma first_match {A} (p : A -> bool) (l : list A) :
  (forall x, x ∈ l -> p x = false) \/
  exists a x r, l = a ++ x :: r /\ p x = true /\ (forall y, y ∈ a -> p y = false).
Proof.
  induction l as [|x l IH]; [left; intros ? []%elem_of_nil|]. destruct (p x) eqn:E.
  - right. exists [], x, l. split_and!; [done|done|]. intros ? []%elem_of_nil.
  - destruct IH as [IH|(a & y & r & -> & Hy & Ha)].
    + left. intros z [->|Hz]%elem_of_cons; auto.
    + right. exists (x :: a), y, r. split_and!; [done|done|]. intros z [->|Hz]%elem_of_cons; auto.
Qed.

Lemma last_match {A} (p : A -> bool) (l : list A) y : y ∈ l -> p y = true ->
  exists a x r, l = a ++ x :: r /\ p x = true /\ (forall y, y ∈ r -> p y = false).
Proof.
  intros Hy Hp. destruct (first_match p (reverse l)) as [H|(a & x & r & E & Hx & Ha)].
  - rewrite H in Hp; [done|]. by apply elem_of_reverse.
  - exists (reverse r), x, (reverse a). split_and!; [|done|].
    + rewrite <-(reverse_involutive l), E, reverse_app, reverse_cons, <-app_assoc. done.
    + intros z Hz. apply Ha. by apply elem_of_reverse.
Qed.

(** ** Reading *)

Lemma image_read_mapped m a n : mapped m a (Z.of_nat n) ->
  exists l, image_read m a n = Some l /\ length l = n /\
    (forall i, 0 <= i < Z.of_nat n -> m !! (a + i) = l !! Z.to_nat i).
Proof.
  revert a. induction n as [|n IH]; intros a Hm; [exists []; split_and!; [done|done|lia]|].
  destruct (Hm a) as [x Hx]; [lia|]. destruct (IH (a + 1)) as (l & E & Hl & HL).
  { intros i Hi. apply Hm. lia. }
  exists (x :: l). cbn [image_read length]. unfold ld. rewrite Hx. cbn [mbind option_bind]. rewrite E.
  split_and!; [done|by rewrite Hl|]. intros i Hi. destruct (decide (i = 0)) as [->|].
  - by rewrite Z.add_0_r.
  - replace (Z.to_nat i) with (S (Z.to_nat (i - 1))) by lia. cbn [lookup list_lookup].
    rewrite <-HL by lia. f_equal. lia.
Qed.

(** The buffer a read hands out. *)
Record buf_read s (dev n b : Z) v : Prop := {
  br_dev : b_dev v = dev;
  br_blk : b_blockno v = n;
  br_busy : is_busy v = true;
  br_valid : is_valid v = false;
  br_len : length (b_data v) = Z.to_nat BSIZE;
  br_data : block_is (image (ext s)) (u64 (n * BSIZE)) (b_data v);
  br_dirty : forall v0, bufs (ext s) !! b = Some v0 -> is_dirty v = is_dirty v0 }.

(** The read of a buffer just taken. *)
Lemma blk_read_after fuel s0 s dev d n b v :
  image (ext s) = image (ext s0) -> (forall v0, bufs (ext s0) !! b = Some v0 -> is_dirty v = is_dirty v0) ->
  buffer_cache_blk_get fuel dev n s0 = Ret b s -> disk_ready s dev d ->
  bufs (ext s) !! b = Some v -> b_dev v = dev -> b_blockno v = n ->
  is_busy v = true -> is_valid v = false -> length (b_data v) = Z.to_nat BSIZE ->
  mapped (image (ext s)) (u64 (n * BSIZE)) BSIZE ->
  (is_dirty v = true -> block_is (image (ext s)) (block_addr v) (b_data v)) ->
  exists v', buffer_cache_blk_read fuel dev n s0
      = Ret b (map_ext s (fun f => with_bufs f (<[b := v']> (bufs f)))) /\ buf_read s0 dev n b v'.
Proof.
  intros Him Hd0 Eg HD Hb <- <- Hbusy Hval Hl Hm Hco. unfold buffer_cache_blk_read. mred. rewrite Eg. mred.
  rewrite (buf_get_eq _ _ v) by done. mred. unfold is_valid in Hval. rewrite Hval. cbn [negb].
  destruct (is_dirty v) eqn:Edirty.
  - exists v. rewrite (blk_transfer_write _ _ _ v d (image (ext s))); try done; [|by apply image_rewrite; auto].
    mred. split.
    + f_equal. unfold map_ext. f_equal. unfold with_bufs, with_image. cbn. rewrite insert_id by done. by destruct (ext s).
    + split; try done. { rewrite <-Him. by apply Hco. } intros v0 Hv0. rewrite <-(Hd0 v0) by done. done.
  - destruct (image_read_mapped (image (ext s)) (block_addr v) (Z.to_nat BSIZE)) as (l & El & Hll & HL).
    { rewrite Z2Nat.id by done. exact Hm. }
    exists (with_b_data v l). rewrite (blk_transfer_read _ _ _ v d l) by done. mred. split; [done|].
    split; try done. { rewrite <-Him. intros i Hi. apply HL. cbn in *. lia. }
    intros v0 Hv0. rewrite <-(Hd0 v0) by done. done.
Qed.

(** Which buffer: the one that caches the block, when there is one. *)
Lemma blk_read_which fuel dev d s bs n :
  disk_ok dev d s bs -> mapped (image (ext s)) (u64 (n * BSIZE)) BSIZE ->
  exists l1 b l2 v, bs = l1 ++ b :: l2 /\ buf_read s dev n b v /\
    buffer_cache_blk_read fuel dev n s = Ret b (map_ext s (fun f => with_bufs f (<[b := v]> (bufs f)))) /\
    ((forall c, c ∈ bs -> buf_is s dev n c = false) \/ buf_is s dev n b = true).
Proof.
  intros HO Hm. destruct (first_match (buf_is s dev n) bs) as [Hmiss|(l1 & b & l2 & -> & Hb & Hl1)].
  - destruct (do_clean _ _ _ _ HO) as (c & vc & Hc & Hvc & Hcl).
    destruct (last_match (fun b => negb (busy s b || dirty s b)) bs c Hc) as (l1 & b & l2 & -> & Hb & Hl2).
    { unfold busy, dirty. rewrite Hvc. fold (is_busy vc) (is_dirty vc).
      by rewrite Hcl, (bo_busy _ _ _ (do_bufs _ _ _ _ HO _ _ Hc Hvc)). }
    apply negb_true_iff in Hb. assert (b ∈ l1 ++ b :: l2) as Hin by set_solver.
    destruct (proj2 (do_cache _ _ _ _ HO) b Hin) as [v Hv]. pose proof (do_bufs _ _ _ _ HO _ _ Hin Hv) as Hok.
    exists l1, b, l2. edestruct (blk_read_after fuel s) with (d := d) (b := b) (n := n) (dev := dev)
      (v := BlkBuf B_BUSY dev n (b_data v)) as (v' & E & HR);
      [| |eapply (blk_get_recycle fuel s _ dev n l1 b l2 v)| | | | | | | | | |]; try done; try apply HO.
    + intros v0 Hv0. rewrite Hv in Hv0. injection Hv0 as <-. unfold busy, dirty in Hb. rewrite Hv in Hb. fold (is_dirty v) in Hb.
      apply orb_false_iff in Hb as [_ ->]. done.
    + intros b' Hb'. apply Hl2 in Hb'. by apply negb_false_iff in Hb'.
    + cbn. by rewrite lookup_insert_eq.
    + apply Hok.
    + exists v'. split_and!; [done|done| |by left]. rewrite E. unfold map_ext. cbn. by rewrite insert_insert_eq.
  - assert (b ∈ l1 ++ b :: l2) as Hin by set_solver.
    destruct (proj2 (do_cache _ _ _ _ HO) b Hin) as [v Hv]. pose proof (do_bufs _ _ _ _ HO _ _ Hin Hv) as Hok.
    unfold buf_is in Hb. rewrite Hv in Hb. apply andb_true_iff in Hb as [<-%Z.eqb_eq <-%Z.eqb_eq].
    exists l1, b, l2.
    edestruct (blk_read_after fuel s) with (d := d) (b := b) (n := b_blockno v) (dev := b_dev v)
      (v := with_b_flags v (Z.lor (b_flags v) B_BUSY)) as (v' & E & HR);
      [| |eapply (blk_get_hit fuel s _ _ _ l1 b l2 v)| | | | | | | | | |]; try done; try apply HO.
    + intros v0 Hv0. rewrite Hv in Hv0. injection Hv0 as <-. unfold is_dirty. cbn. by flag_bits.
    + unfold busy. rewrite Hv. apply Hok.
    + cbn. by rewrite lookup_insert_eq.
    + unfold is_busy. cbn. by flag_bits.
    + unfold is_valid. cbn. pose proof (bo_valid _ _ _ Hok) as H. unfold is_valid in H. flag_bits. done.
    + apply Hok.
    + intros Hd. apply Hok. unfold is_dirty in *. cbn in Hd. flag_bits. revert Hd. by flag_bits.
    + exists v'. split_and!; [done|done| |]; [|right; unfold buf_is; by rewrite Hv, !Z.eqb_refl].
      rewrite E. unfold map_ext. cbn. by rewrite insert_insert_eq.
Qed.

Lemma blk_read_ok fuel dev d s bs n :
  disk_ok dev d s bs -> mapped (image (ext s)) (u64 (n * BSIZE)) BSIZE ->
  exists l1 b l2 v, bs = l1 ++ b :: l2 /\ buf_read s dev n b v /\
    buffer_cache_blk_read fuel dev n s = Ret b (map_ext s (fun f => with_bufs f (<[b := v]> (bufs f)))).
Proof. intros HO Hm. destruct (blk_read_which fuel dev d s bs n HO Hm) as (l1 & b & l2 & v & H1 & H2 & H3 & _). by exists l1, b, l2, v. Qed.

(** ** Giving the buffer back *)

Lemma blk_release_bufs fuel dev d s l1 b l2 v n s1 :
  disk_ok dev d s (l1 ++ b :: l2) -> buf_read s dev n b v ->
  s1 = map_ext s (fun f => with_bufs f (<[b := v]> (bufs f))) ->
  exists s2, buffer_cache_blk_release fuel b s1 = Ret tt s2 /\
    cache_step s (l1 ++ b :: l2) s2 (b :: l1 ++ l2) /\ disk_ok dev d s2 (b :: l1 ++ l2) /\
    bufs (ext s2) = <[b := not_busy v]> (bufs (ext s)).
Proof.
  intros HO HR ->. set (s1 := map_ext s _).
  assert (b ∈ l1 ++ b :: l2) as Hin by set_solver.
  assert (forall c, c ∈ b :: l1 ++ l2 <-> c ∈ l1 ++ b :: l2) as Hiff by (intros c; set_solver).
  destruct (blk_release_eq fuel s1 l1 b l2 v) as (m & E & HRing & HF);
    [|apply HO|by apply (do_wait _ _ _ _ HO)|cbn; by rewrite lookup_insert_eq|apply HR|].
  { split; [apply HO|]. intros c Hc. cbn. apply lookup_insert_is_Some'. right. by apply HO. }
  eexists. split; [exact E|]. split.
  { exists m, (<[b := not_busy v]> (<[b := v]> (bufs (ext s)))). split_and!; [done|exact HF|by rewrite Permutation_middle]. }
  split; [|cbn; by rewrite insert_insert_eq].
  split.
  - split; [exact HRing|]. intros c Hc. cbn. do 2 (apply lookup_insert_is_Some'; right). apply HO. by apply Hiff.
  - exact (quiet_frame s1 m _ _ HF (do_quiet _ _ _ _ HO)).
  - exact (disk_ready_frame s1 m _ _ _ HF (do_ready _ _ _ _ HO)).
  - intros c Hc%Hiff. cbn. eapply is_ring_frame; [exact HF| |by apply (do_wait _ _ _ _ HO)].
    intros y Hy. apply list_elem_of_singleton in Hy as ->. set_solver.
  - intros c vc Hc%Hiff. cbn. rewrite insert_insert_eq. destruct (decide (c = b)) as [->|Hne].
    + rewrite lookup_insert_eq. intros [= <-]. destruct (proj2 (do_cache _ _ _ _ HO) b Hin) as [v0 Hv0].
      pose proof (br_dirty _ _ _ _ _ HR v0 Hv0) as Hdd. pose proof (br_valid _ _ _ _ _ HR) as Hvv.
      split; unfold is_busy, is_valid, is_dirty, not_busy in *; cbn in *; [by flag_bits|by flag_bits; rewrite Hvv|apply HR|].
      intros _. split; [apply HR|]. pose proof (br_data _ _ _ _ _ HR) as Hd. by rewrite <-(br_blk _ _ _ _ _ HR) in Hd.
    + rewrite lookup_insert_ne by done. intros Hvc. by apply (do_bufs _ _ _ _ HO c).
  - destruct (do_clean _ _ _ _ HO) as (c & vc & Hc & Hvc & Hcl). destruct (decide (c = b)) as [->|Hne].
    + exists b, (not_busy v). split_and!; [set_solver|cbn; by rewrite lookup_insert_eq|].
      rewrite <-(br_dirty _ _ _ _ _ HR vc Hvc) in Hcl. unfold is_dirty, not_busy in *. cbn. by flag_bits; rewrite Hcl.
    + exists c, vc. split_and!; [by apply Hiff|cbn; by rewrite insert_insert_eq, lookup_insert_ne|done].
Qed.

Lemma blk_release_ok fuel dev d s l1 b l2 v n s1 :
  disk_ok dev d s (l1 ++ b :: l2) -> buf_read s dev n b v ->
  s1 = map_ext s (fun f => with_bufs f (<[b := v]> (bufs f))) ->
  exists s2, buffer_cache_blk_release fuel b s1 = Ret tt s2 /\
    cache_step s (l1 ++ b :: l2) s2 (b :: l1 ++ l2) /\ disk_ok dev d s2 (b :: l1 ++ l2).
Proof.
  intros HO HR Hs. destruct (blk_release_bufs fuel dev d s l1 b l2 v n s1 HO HR Hs) as (s2 & H1 & H2 & H3 & _). by exists s2.
Qed.
