(* ===== verification/Inode.v ===== *)
(** fs/inode.c: the inode cache, block and inode allocation on disk, file
    contents, directories and path names.

    [ip] is a pointer into the inode cache ([i + 1] for [icache.inode[i]]), a
    buffer is designated by its index.  A pointer to the inside of a block is
    the buffer and the offset.  A routine that fills the caller's memory
    returns the bytes it stores; strings are lists of bytes up to the end of
    their object, as in [CString].  [fuel] bounds the waits, as in [Blkio]. *)
From S2P Require Import Prelude Bitops KList Kernel ThreadInfo ReadyQueue Sched WaitQueue Mutex CString FsState Blkio Coherence.

Section inode.
Variable fuel : nat.

Definition read_superblock (dev : Z) : F superblock :=
  b ← buffer_cache_blk_read fuel dev SUPER_BLOCK_BLK_NO;
  v ← buf_get b;
  sb ← deref (superblock_of (b_data v));
  buffer_cache_blk_release fuel b;;
  mret sb.

(** ** Bitmaps on disk *)

(** [chunk_index = offset / sizeof(uint64_t); chunk_offset = offset % sizeof(uint64_t);]
    where the offset is converted to [size_t]. *)
Definition chunk_index (offset : Z) : Z := u64 offset / 8.
Definition chunk_offset (offset : Z) : Z := u64 offset mod 8.
Definition chunk_mask (offset : Z) : Z := Z.shiftl 1 (chunk_offset offset).

(** The word [chunk_index] of the block taken as an array of [uint64_t], read
    and written. *)
Definition chunk_get (data : list Z) (offset : Z) : option Z := get_u64 data (8 * chunk_index offset).
Definition chunk_put (data : list Z) (offset val : Z) : option (list Z) := set_u64 data (8 * chunk_index offset) val.

(** The test of bit [offset] of the bitmap block in [b], set when it was clear;
    says whether it was clear. *)
Definition bitmap_test_and_set (b offset : Z) : F bool :=
  v ← buf_get b;
  val ← deref (chunk_get (b_data v) offset);
  if negb (ctrue (Z.land val (chunk_mask offset))) then
    data ← deref (chunk_put (b_data v) offset (Z.lor val (chunk_mask offset)));
    buf_put b (with_b_data v data);;
    mret true
  else mret false.

Fixpoint free_inode_loop (idxs : list Z) (dev : Z) : F (option Z) :=
  match idxs with
  | [] => mret None
  | i :: idxs =>
      b ← buffer_cache_blk_read fuel dev ((RESV_BLOCK_NR + SUPER_BLOCK_BLK_NR) + i / BITS_PER_BLOCK);
      free ← bitmap_test_and_set b (i mod BITS_PER_BLOCK);
      if free : bool then
        buffer_cache_blk_write fuel b;;
        buffer_cache_blk_release fuel b;;
        mret (Some (u32 i))
      else
        buffer_cache_blk_release fuel b;;
        free_inode_loop idxs dev
  end.

(** The number, or [None] for [ENOENT]. *)
Definition get_free_inode (dev : Z) : F (option Z) :=
  sb ← read_superblock dev;
  free_inode_loop (seqZ 0 (s_ninodes sb)) dev.

Fixpoint free_block_loop (idxs : list Z) (dev : Z) (sb : superblock) : F (option Z) :=
  match idxs with
  | [] => mret None
  | i :: idxs =>
      b ← buffer_cache_blk_read fuel dev
            (u32 (RESV_BLOCK_NR + SUPER_BLOCK_BLK_NR + s_imap_blocks sb) + i / BITS_PER_BLOCK);
      free ← bitmap_test_and_set b (i mod BITS_PER_BLOCK);
      if free : bool then
        buffer_cache_blk_write fuel b;;
        buffer_cache_blk_release fuel b;;
        db ← buffer_cache_blk_read fuel dev (s_firstdata_block sb + i);
        v ← buf_get db;
        data ← deref (set_bytes (b_data v) 0 (replicate (Z.to_nat BSIZE) 0));
        buf_put db (with_b_data v data);;
        mret (Some db)
      else
        buffer_cache_blk_release fuel b;;
        free_block_loop idxs dev sb
  end.

(** The buffer of the new block, or [None] for [ENOENT]. *)
Definition find_free_data_block (dev : Z) : F (option Z) :=
  sb ← read_superblock dev;
  free_block_loop (seqZ 0 (s_nblocks sb)) dev sb.

Definition release_data_block (dev blk : Z) : F unit :=
  sb ← read_superblock dev;
  b ← buffer_cache_blk_read fuel dev
        (u32 (RESV_BLOCK_NR + SUPER_BLOCK_BLK_NR + s_imap_blocks sb) + Z.quot blk BITS_PER_BLOCK);
  let offset := Z.rem blk BITS_PER_BLOCK in
  v ← buf_get b;
  val ← deref (chunk_get (b_data v) offset);
  kassert (ctrue (Z.land val (chunk_mask offset)));;
  data ← deref (chunk_put (b_data v) offset (Z.land val (u64 (Z.lnot (chunk_mask offset)))));
  buf_put b (with_b_data v data);;
  buffer_cache_blk_write fuel b;;
  buffer_cache_blk_release fuel b.

(** The busy buffer, and the offset of the inode in it. *)
Definition read_disk_inode (dev ino : Z) : F (Z * Z) :=
  sb ← read_superblock dev;
  let blk := u32 (RESV_BLOCK_NR + SUPER_BLOCK_BLK_NR + s_imap_blocks sb + s_bmap_blocks sb) + ino / INODES_PER_BLOCK in
  b ← buffer_cache_blk_read fuel dev blk;
  mret (b, D_INODE_SIZE * (ino mod INODES_PER_BLOCK)).

(** ** The inode cache *)

(** The inode found, or the first empty slot ([NULL] if there is none). *)
Fixpoint inode_search (ips : list ptr) (dev inum_ : Z) (empty : ptr) : F (option ptr * ptr) :=
  match ips with
  | [] => mret (None, empty)
  | ip :: ips =>
      v ← inode_ld ip;
      if (0 <? ref v) && (i_dev v =? dev) && (inum v =? inum_) then
        inode_st ip (with_ref v (ref v + 1));;
        mret (Some ip, empty)
      else inode_search ips dev inum_ (if (empty =? NULL) && (ref v =? 0) then ip else empty)
  end.

Definition inode_get (dev inum_ : Z) : F ptr :=
  mutex_hold fuel MtxIcache;;
  r ← inode_search (seqZ 1 NINODE) dev inum_ NULL;
  ip ← match r.1 with
       | Some ip => mret ip
       | None =>
           kassert (negb (r.2 =? NULL));;
           v ← inode_ld r.2;
           inode_st r.2 (Inode inum_ 1 0 (i_mode v) dev (i_rdev v) (i_nlink v) (i_size v) (i_addr v));;
           mret r.2
       end;
  mutex_release MtxIcache;;
  mret ip.

(** [ip->i_addr[i]], read and written. *)
Definition i_addr_get (v : inode) (i : Z) : option Z := if 0 <=? i then i_addr v !! Z.to_nat i else None.
Definition i_addr_put (v : inode) (i blk : Z) : option inode :=
  _ ← i_addr_get v i; Some (with_i_addr v (<[Z.to_nat i := blk]> (i_addr v))).

(** [*blkp] afterwards, [blk0] being its value before. *)
Definition bmap (ip : ptr) (i_addr_ blk0 : Z) : F Z :=
  v ← inode_ld ip;
  if i_addr_ <? FS_IADDR_DIRECT_NR then
    blk ← deref (i_addr_get v i_addr_);
    if blk =? 0 then
      r ← find_free_data_block (i_dev v);
      match r with
      | None => stopM Assert
      | Some bp =>
          b ← buf_get bp; v ← inode_ld ip;
          v ← deref (i_addr_put v i_addr_ (b_blockno b)); inode_st ip v;;
          buffer_cache_blk_release fuel bp;;
          mret (b_blockno b)
      end
    else mret blk
  else
    let i_addr_ := i_addr_ - FS_IADDR_DIRECT_NR in
    if i_addr_ <? FS_IADDR_IN_DIRECT_NR * IADDRS_PER_BLOCK then
      blk ← deref (i_addr_get v (i_addr_ / IADDRS_PER_BLOCK + FS_IADDR_IN_DIRECT_MIN));
      blk ← (if blk =? 0 then
               r ← find_free_data_block (i_dev v);
               match r with
               | None => stopM Assert
               | Some nbp =>
                   b ← buf_get nbp; v ← inode_ld ip;
                   v ← deref (i_addr_put v i_addr_ (b_blockno b)); inode_st ip v;;
                   buffer_cache_blk_release fuel nbp;;
                   mret (b_blockno b)
               end
             else mret blk);
      v ← inode_ld ip;
      bp ← buffer_cache_blk_read fuel (i_dev v) blk;
      b ← buf_get bp;
      x ← deref (get_u64 (b_data b) (8 * i_addr_));
      blk ← (if x =? 0 then
               v ← inode_ld ip;
               r ← find_free_data_block (i_dev v);
               match r with
               | None => stopM Assert
               | Some nbp =>
                   nb ← buf_get nbp; b ← buf_get bp;
                   data ← deref (set_u64 (b_data b) (8 * i_addr_) (b_blockno nb));
                   buf_put bp (with_b_data b data);;
                   buffer_cache_blk_release fuel nbp;;
                   mret (b_blockno nb)
               end
             else mret (s64 x));
      buffer_cache_blk_release fuel bp;;
      mret blk
    else mret blk0.

Definition inode_update (ip : ptr) : F unit :=
  v ← inode_ld ip;
  r ← read_disk_inode (i_dev v) (inum v);
  b ← buf_get r.1;
  addrs ← deref (mapM (i_addr_get v) (seqZ 0 FS_IADDR_NR));
  data ← deref (d_inode_store (b_data b) r.2
           (DInode (i_mode v) (i_dev v) (i_rdev v) (i_nlink v) (i_size v) addrs));
  buf_put r.1 (with_b_data b data);;
  buffer_cache_blk_write fuel r.1;;
  buffer_cache_blk_release fuel r.1.

Definition truncate_direct (ip : ptr) (i : Z) : F unit :=
  v ← inode_ld ip;
  blk ← deref (i_addr_get v i);
  if blk =? 0 then mret tt
  else
    release_data_block (i_dev v) blk;;
    v ← inode_ld ip; v ← deref (i_addr_put v i 0); inode_st ip v.

Definition truncate_index (ip : ptr) (bp j : Z) : F unit :=
  b ← buf_get bp;
  x ← deref (get_u64 (b_data b) (8 * j));
  if x =? 0 then mret tt
  else
    v ← inode_ld ip;
    release_data_block (i_dev v) (s64 x);;
    b ← buf_get bp;
    data ← deref (set_u64 (b_data b) (8 * j) 0);
    buf_put bp (with_b_data b data).

Definition truncate_indirect (ip : ptr) (i : Z) : F unit :=
  v ← inode_ld ip;
  blk ← deref (i_addr_get v (FS_IADDR_IN_DIRECT_MIN + i));
  (if blk =? 0 then mret tt
   else
     bp ← buffer_cache_blk_read fuel (i_dev v) blk;
     forM (seqZ 0 IADDRS_PER_BLOCK) (truncate_index ip bp);;
     buffer_cache_blk_release fuel bp);;
  v ← inode_ld ip;
  release_data_block (i_dev v) blk;;
  v ← inode_ld ip; v ← deref (i_addr_put v (FS_IADDR_IN_DIRECT_MIN + i) 0); inode_st ip v.

Definition inode_truncate (ip : ptr) : F unit :=
  forM (seqZ 0 FS_IADDR_DIRECT_NR) (truncate_direct ip);;
  forM (seqZ 0 FS_IADDR_IN_DIRECT_NR) (truncate_indirect ip);;
  v ← inode_ld ip;
  inode_st ip (with_i_size v 0);;
  inode_update ip.

(** [&ip->waiters] *)
Definition inode_waiters (ip : ptr) : wqp := WqInode (ip - 1).

Definition inode_put (ip : ptr) : F unit :=
  mutex_hold fuel MtxIcache;;
  v ← inode_ld ip;
  (if (ref v =? 1) && ctrue (Z.land (i_flags v) I_VALID) && (i_nlink v =? 0) then
     kassert (negb (ctrue (Z.land (i_flags v) I_BUSY)));;
     inode_st ip (with_i_flags v (Z.lor (i_flags v) I_BUSY));;
     mutex_release MtxIcache;;
     inode_truncate ip;;
     inode_update ip;;
     mutex_hold fuel MtxIcache;;
     v ← inode_ld ip;
     inode_st ip (with_i_flags v 0);;
     wque_wakeup (inode_waiters ip) WQUE_REASON_WAKEUP
   else mret tt);;
  v ← inode_ld ip;
  inode_st ip (with_ref v (ref v - 1));;
  mutex_release MtxIcache.

Definition inode_allocate (dev mode : Z) : F ptr :=
  _ ← read_superblock dev;
  r ← get_free_inode dev;
  match r with
  | None => mret NULL
  | Some inum_ =>
      r ← read_disk_inode dev inum_;
      b ← buf_get r.1;
      data ← deref (set_bytes (b_data b) r.2 (replicate (Z.to_nat D_INODE_SIZE) 0));
      data ← deref (set_bytes data r.2 (le_encode 4 mode));
      buf_put r.1 (with_b_data b data);;
      buffer_cache_blk_write fuel r.1;;
      buffer_cache_blk_release fuel r.1;;
      inode_get dev inum_
  end.

Definition inode_duplicate (ip : ptr) : F ptr :=
  mutex_hold fuel MtxIcache;;
  v ← inode_ld ip;
  inode_st ip (with_ref v (ref v + 1));;
  mutex_release MtxIcache;;
  mret ip.

Fixpoint inode_lock_wait (rounds : nat) (ip : ptr) : F unit :=
  v ← inode_ld ip;
  if ctrue (Z.land (i_flags v) I_BUSY) then
    match rounds with
    | O => stopM OutOfFuel
    | S rounds =>
        reason ← wque_wait_on_event_with_mutex fuel (inode_waiters ip) MtxIcache;
        kassert (reason =? WQUE_REASON_WAKEUP);;
        inode_lock_wait rounds ip
    end
  else mret tt.

(** The copy of the inode on disk into the cached one; [i_dev] is kept. *)
Definition inode_of_disk (v : inode) (d : d_inode) : inode :=
  Inode (inum v) (ref v) (i_flags v) (di_mode d) (i_dev v) (di_rdev d) (di_nlink d) (di_size d) (di_addr d).

Definition inode_lock (ip : ptr) : F unit :=
  v ← inode_ld ip;
  kassert (0 <? ref v);;
  mutex_hold fuel MtxIcache;;
  inode_lock_wait fuel ip;;
  v ← inode_ld ip;
  inode_st ip (with_i_flags v (Z.lor (i_flags v) I_BUSY));;
  v ← inode_ld ip;
  (if ctrue (Z.land (i_flags v) I_VALID) then mret tt
   else
     _ ← read_superblock (i_dev v);
     r ← read_disk_inode (i_dev v) (inum v);
     b ← buf_get r.1;
     d ← deref (d_inode_of (b_data b) r.2);
     v ← inode_ld ip;
     inode_st ip (inode_of_disk v d);;
     buffer_cache_blk_release fuel r.1;;
     v ← inode_ld ip;
     inode_st ip (with_i_flags v (Z.lor (i_flags v) I_VALID)));;
  mutex_release MtxIcache.

Definition inode_unlock (ip : ptr) : F unit :=
  mutex_hold fuel MtxIcache;;
  v ← inode_ld ip;
  kassert (ctrue (Z.land (i_flags v) I_BUSY));;
  inode_st ip (with_i_flags v (Z.land (i_flags v) (Z.lnot I_BUSY)));;
  wque_wakeup (inode_waiters ip) WQUE_REASON_WAKEUP;;
  mutex_release MtxIcache.

(** ** File contents *)

(** The bytes copied to [dst], and so on for what remains. *)
Fixpoint inode_read_loop (rounds : nat) (ip : ptr) (remains off : Z) : F (list Z) :=
  if remains =? 0 then mret []
  else match rounds with
       | O => stopM OutOfFuel
       | S rounds =>
           blk ← bmap ip (Z.quot off BSIZE) 0;
           v ← inode_ld ip;
           bp ← buffer_cache_blk_read fuel (i_dev v) blk;
           let room := u64 (BSIZE - Z.rem off BSIZE) in
           let rd_bytes := if room <? remains then room else remains in
           kassert (rd_bytes <=? remains);;
           b ← buf_get bp;
           l ← deref (bytes_at (b_data b) (Z.rem off BSIZE) (Z.to_nat rd_bytes));
           buffer_cache_blk_release fuel bp;;
           r ← inode_read_loop rounds ip (remains - rd_bytes) (s64 (off + rd_bytes));
           mret (l ++ r)
       end.

(** The rounds over [counts] bytes: a partial block first and a partial block
    last. *)
Definition transfer_rounds (counts : Z) : nat := Z.to_nat (counts / BSIZE + 2).

Definition inode_read (ip : ptr) (off counts : Z) : F (Z * list Z) :=
  v ← inode_ld ip;
  kassert (negb (i_mode v =? FS_IMODE_DEV));;
  if (i_size v <? u64 off) || (u64 (off + counts) <? u64 off) then mret (- ENXIO, [])
  else
    let counts := if i_size v <? u64 (off + counts) then u64 (i_size v - off) else counts in
    l ← inode_read_loop (transfer_rounds counts) ip counts off;
    mret (s64 counts, l).

(** [off] at the end of the loop. *)
Fixpoint inode_write_loop (rounds : nat) (ip : ptr) (src : list Z) (remains off : Z) : F Z :=
  if remains =? 0 then mret off
  else match rounds with
       | O => stopM OutOfFuel
       | S rounds =>
           blk ← bmap ip (Z.quot off BSIZE) 0;
           v ← inode_ld ip;
           bp ← buffer_cache_blk_read fuel (i_dev v) blk;
           let room := u64 (BSIZE - Z.rem off BSIZE) in
           let wr_bytes := if room <? remains then room else remains in
           kassert (wr_bytes <=? remains);;
           b ← buf_get bp;
           l ← deref (bytes_at src 0 (Z.to_nat wr_bytes));
           data ← deref (set_bytes (b_data b) (Z.rem off BSIZE) l);
           buf_put bp (with_b_data b data);;
           buffer_cache_blk_write fuel bp;;
           buffer_cache_blk_release fuel bp;;
           inode_write_loop rounds ip (drop (Z.to_nat wr_bytes) src) (remains - wr_bytes) (s64 (off + wr_bytes))
       end.

Definition inode_write (ip : ptr) (src : list Z) (off counts : Z) : F Z :=
  v ← inode_ld ip;
  kassert (negb (i_mode v =? FS_IMODE_DEV));;
  if (i_size v <? u64 off) || (u64 (off + counts) <? u64 off) then mret (- ENXIO)
  else if FS_MAXFILE_SIZE <? u64 (off + counts) then mret (- ENXIO)
  else
    off ← inode_write_loop (transfer_rounds counts) ip src counts off;
    v ← inode_ld ip;
    when ((0 <? counts) && (i_size v <? u64 off))
      (inode_st ip (with_i_size v (u64 off));; inode_update ip);;
    mret (s64 counts).

Definition inode_get_stat (ip : ptr) : F stat :=
  v ← inode_ld ip;
  mret (Stat (i_mode v) (i_dev v) (i_rdev v) (inum v) (i_nlink v) (i_size v)).

(** ** Directories *)

Definition dir_rounds (v : inode) : nat := Z.to_nat (i_size v / D_DIRENT_SIZE + 1).

(** [inode_read(dp, &de, off, sizeof(de)); kassert( rd_bytes == sizeof(de) );] *)
Definition read_dirent (dp : ptr) (off : Z) : F d_dirent :=
  r ← inode_read dp off D_DIRENT_SIZE;
  kassert (r.1 =? D_DIRENT_SIZE);;
  deref (d_dirent_of r.2).

(** The inode, or [NULL], and the value stored to [ent->d_off]. *)
Fixpoint dirlookup_loop (rounds : nat) (dp : ptr) (name : list Z) (off : Z) : F (ptr * Z) :=
  v ← inode_ld dp;
  if i_size v <=? u64 off then mret (NULL, 0)
  else match rounds with
       | O => stopM OutOfFuel
       | S rounds =>
           de ← read_dirent dp off;
           if d_ino de =? 0 then dirlookup_loop rounds dp name (off + D_DIRENT_SIZE)
           else
             rc ← deref (strncmp name (d_name de) FNAME_MAX);
             if rc =? 0 then
               v ← inode_ld dp;
               ip ← inode_get (i_dev v) (d_ino de);
               mret (ip, off)
             else dirlookup_loop rounds dp name (off + D_DIRENT_SIZE)
       end.

Definition inode_dirlookup (dp : ptr) (name : list Z) : F (ptr * Z) :=
  v ← inode_ld dp;
  kassert (i_mode v =? FS_IMODE_DIR);;
  dirlookup_loop (dir_rounds v) dp name 0.

(** The first empty slot, or the end, and the entry read last. *)
Fixpoint empty_dirent_loop (rounds : nat) (dp : ptr) (off : Z) (de : d_dirent) : F (Z * d_dirent) :=
  v ← inode_ld dp;
  if i_size v <=? u64 off then mret (off, de)
  else match rounds with
       | O => stopM OutOfFuel
       | S rounds =>
           de ← read_dirent dp off;
           if d_ino de =? 0 then mret (off, de) else empty_dirent_loop rounds dp (off + D_DIRENT_SIZE) de
       end.

(** [de0]: what the automatic variable [de] holds at first. *)
Definition inode_add_directory_entry (de0 : d_dirent) (dp : ptr) (name : list Z) (inum_ : Z) : F Z :=
  r ← inode_dirlookup dp name;
  if negb (r.1 =? NULL) then inode_put r.1;; mret (- EEXIST)
  else
    v ← inode_ld dp;
    r ← empty_dirent_loop (dir_rounds v) dp 0 de0;
    nm ← deref (strncpy_arr (d_name r.2) name FNAME_MAX);
    rc ← inode_write dp (d_dirent_bytes (DDirent inum_ nm)) r.1 D_DIRENT_SIZE;
    kassert (rc =? D_DIRENT_SIZE);;
    mret 0.

(** ** Path names *)

Definition slash : Z := 47.

(** [while ( *path == '/' ) ++path;] *)
Fixpoint skip_slashes (path : list Z) : option (list Z) :=
  match path with
  | [] => None
  | c :: path' => if c =? slash then skip_slashes path' else Some path
  end.

(** [while ( ( *path != '/' ) && ( *path != '\0' ) ) ++path;]: the element and
    what follows. *)
Fixpoint scan_element (path : list Z) : option (list Z * list Z) :=
  match path with
  | [] => None
  | c :: path' =>
      if (c =? slash) || (c =? 0) then Some ([], path)
      else '(e, r) ← scan_element path'; Some (c :: e, r)
  end.

(** The path after the element ([None] for [NULL]) and the contents of [name];
    [memmove] of a length that is not positive runs away. *)
Definition skip_element (path name : list Z) : option (option (list Z) * list Z) :=
  path ← skip_slashes path;
  c ← head path;
  if c =? 0 then Some (None, name)
  else
    '(e, path) ← scan_element path;
    let len := s32 (Z.of_nat (length e)) in
    let len := if FNAME_MAX <=? len then FNAME_MAX else len in
    if len <=? 0 then None
    else
      name ← set_bytes name 0 (take (Z.to_nat len) e);
      name ← set_bytes name len [0];
      path ← skip_slashes path;
      Some (Some path, name).

(** [path] after a [skip_element]; the inode or [NULL], and [name]. *)
Fixpoint path_loop (rounds : nat) (ip : ptr) (path : option (list Z)) (nameiparent : Z) (name : list Z) : F (ptr * list Z) :=
  match path with
  | None => if negb (nameiparent =? 0) then inode_put ip;; mret (NULL, name) else mret (ip, name)
  | Some path =>
      match rounds with
      | O => stopM OutOfFuel
      | S rounds =>
          inode_lock ip;;
          v ← inode_ld ip;
          if negb (i_mode v =? FS_IMODE_DIR) then
            inode_unlock ip;; inode_put ip;; mret (NULL, name)
          else
            c ← deref (head path);
            if negb (nameiparent =? 0) && (c =? 0) then inode_unlock ip;; mret (ip, name)
            else
              r ← inode_dirlookup ip name;
              if r.1 =? NULL then inode_unlock ip;; inode_put ip;; mret (NULL, name)
              else
                inode_unlock ip;;
                inode_put ip;;
                e ← deref (skip_element path name);
                path_loop rounds r.1 e.1 nameiparent e.2
      end
  end.

Definition inode_path2inode (path : list Z) (nameiparent : Z) (name : list Z) : F (ptr * list Z) :=
  c ← deref (head path);
  kassert (c =? slash);;
  ip ← inode_get ROOT_DEV ROOT_DENT_INO;
  e ← deref (skip_element path name);
  path_loop (length path) ip e.1 nameiparent e.2.

(** [name0]: what the automatic array [name] holds at first. *)
Definition inode_namei (name0 path : list Z) : F ptr :=
  r ← inode_path2inode path 0 name0; mret r.1.
Definition inode_nameiparent (path name : list Z) : F (ptr * list Z) := inode_path2inode path 1 name.

Definition inode_cache_init : F unit :=
  mutex_init MtxIcache;;
  forM (seqZ 1 NINODE) (fun ip =>
    inode_st ip (Inode 0 0 0 0 0 0 0 0 (replicate (Z.to_nat FS_IADDR_NR) 0));;
    wque_init_wait_queue (inode_waiters ip)).
End inode.

Implicit Types (s : kst fsst) (bs : list Z).

(** ** Reading files *)

Lemma inode_ld_eq s ip v : inodes (ext s) !! ip = Some v -> inode_ld ip s = Ret v s.
Proof. intros E. unfold inode_ld, fs_state. mred. by rewrite E. Qed.
Lemma inode_st_eq s ip v v' :
  inodes (ext s) !! ip = Some v ->
  inode_st ip v' s = Ret tt (map_ext s (fun f => with_inodes f (<[ip := v']> (inodes f)))).
Proof. intros E. unfold inode_st, fs_modify. mred. by rewrite (inode_ld_eq _ _ v). Qed.

(** The byte at position [p] of a file whose block is a direct one. *)
Definition file_byte (im : mem) (v : inode) (p : Z) : option Z :=
  blk ← i_addr v !! Z.to_nat (p / BSIZE); im !! (u64 (blk * BSIZE) + p mod BSIZE).

(** The blocks of the positions from [lo] to [hi] are direct, allocated, and on
    the disk. *)
Definition direct_file (im : mem) (v : inode) (lo hi : Z) : Prop :=
  hi <= FS_IADDR_DIRECT_NR * BSIZE /\
  forall p, lo <= p < hi ->
    exists blk, i_addr v !! Z.to_nat (p / BSIZE) = Some blk /\ blk <> 0 /\ mapped im (u64 (blk * BSIZE)) BSIZE.

Lemma bmap_direct fuel s ip v i blk x :
  inodes (ext s) !! ip = Some v -> 0 <= i < FS_IADDR_DIRECT_NR -> i_addr v !! Z.to_nat i = Some blk -> blk <> 0 ->
  bmap fuel ip i x s = Ret blk s.
Proof.
  intros Hv Hi Hb Hz. unfold bmap. mred. rewrite (inode_ld_eq _ _ v) by done. mred.
  rewrite (proj2 (Z.ltb_lt _ _)) by lia. unfold i_addr_get. rewrite (proj2 (Z.leb_le _ _)) by lia. rewrite Hb. mred.
  by rewrite (proj2 (Z.eqb_neq _ _) Hz).
Qed.

Lemma bytes_at_block im a l off n :
  length l = Z.to_nat BSIZE -> block_is im a l -> 0 <= off -> off + Z.of_nat n <= BSIZE ->
  exists r, bytes_at l off n = Some r /\ length r = n /\
    (forall i, 0 <= i < Z.of_nat n -> r !! Z.to_nat i = im !! (a + off + i)).
Proof.
  intros Hl Hb Ho Hn. assert (length (take n (drop (Z.to_nat off) l)) = n) as Hlen.
  { rewrite length_take, length_drop, Hl. unfold BSIZE in *. lia. }
  exists (take n (drop (Z.to_nat off) l)). split_and!; [|done|].
  - unfold bytes_at. rewrite Hlen, Nat.eqb_refl, (proj2 (Z.leb_le _ _) Ho). done.
  - intros i Hi. rewrite lookup_take_lt by lia. rewrite lookup_drop.
    replace (a + off + i) with (a + (off + i)) by lia. rewrite (Hb (off + i)) by (unfold BSIZE in *; lia). f_equal. lia.
Qed.

(** One round: the piece of one block. *)
Lemma read_round fuel dev d s bs ip v off n :
  disk_ok dev d s bs -> inodes (ext s) !! ip = Some v -> i_dev v = dev ->
  0 <= off -> 0 < n -> off mod BSIZE + n <= BSIZE -> direct_file (image (ext s)) v off (off + n) ->
  exists s' bs' l, length l = Z.to_nat n /\
    (forall i, 0 <= i < n -> l !! Z.to_nat i = file_byte (image (ext s)) v (off + i)) /\
    disk_ok dev d s' bs' /\ cache_step s bs s' bs' /\
    forall A (k : list Z -> F A),
      (blk ← bmap fuel ip (Z.quot off BSIZE) 0; v ← inode_ld ip;
       bp ← buffer_cache_blk_read fuel (i_dev v) blk; b ← buf_get bp;
       l ← deref (bytes_at (b_data b) (Z.rem off BSIZE) (Z.to_nat n));
       buffer_cache_blk_release fuel bp;; k l) s = k l s'.
Proof.
  intros HO Hv Hdev Hoff Hn Hfit [Hmax Hblk]. destruct (Hblk off) as (blk & Hb & Hz & Hm); [lia|].
  assert (Z.quot off BSIZE = off / BSIZE) as Eq by (by rewrite Z.quot_div_nonneg).
  assert (Z.rem off BSIZE = off mod BSIZE) as Er by (by rewrite Z.rem_mod_nonneg).
  destruct (blk_read_ok fuel dev d s bs blk HO Hm) as (l1 & b & l2 & bv & -> & HR & E).
  destruct (blk_release_ok fuel dev d s l1 b l2 bv blk _ HO HR eq_refl) as (s2 & E2 & HS & HO2).
  destruct (bytes_at_block (image (ext s)) (u64 (blk * BSIZE)) (b_data bv) (off mod BSIZE) (Z.to_nat n))
    as (l & El & Hl & HL); [apply HR|apply HR|apply Z.mod_pos_bound; done|lia|].
  exists s2, (b :: l1 ++ l2), l. split_and!; [done| |done|done|].
  - intros i Hi. rewrite HL by lia. unfold file_byte.
    assert ((off + i) / BSIZE = off / BSIZE /\ (off + i) mod BSIZE = off mod BSIZE + i) as [-> ->].
    { unfold BSIZE in *. Z.to_euclidean_division_equations; lia. }
    rewrite Hb. cbn [mbind option_bind]. f_equal. lia.
  - intros A k. mred. rewrite Eq, Er, (bmap_direct _ _ _ v _ blk);
      [|done|unfold BSIZE, FS_IADDR_DIRECT_NR in *; Z.to_euclidean_division_equations; lia|done|done]. mred.
    rewrite (inode_ld_eq _ _ v) by done. mred. rewrite Hdev, E. mred.
    rewrite (buf_get_eq _ _ bv) by (cbn; by rewrite lookup_insert_eq). mred. rewrite El. mred. by rewrite E2.
Qed.

(** The rounds the loop takes. *)
Definition rounds_for (off remains : Z) : Z :=
  if remains =? 0 then 0 else (off mod BSIZE + remains + BSIZE - 1) / BSIZE.

Lemma rounds_for_step off remains n r :
  0 <= off -> 0 < n <= remains -> off mod BSIZE + n <= BSIZE -> (n < remains -> off mod BSIZE + n = BSIZE) ->
  rounds_for off remains <= r + 1 -> rounds_for (off + n) (remains - n) <= r.
Proof.
  intros Ho Hn Hfit Hfull Hr. unfold rounds_for in *. pose proof (Z.mod_pos_bound off BSIZE eq_refl).
  rewrite (proj2 (Z.eqb_neq remains 0)) in Hr by lia. destruct (Z.eqb_spec (remains - n) 0) as [E|Hne].
  - assert (1 <= (off mod BSIZE + remains + BSIZE - 1) / BSIZE); [|lia].
    apply Z.div_le_lower_bound; unfold BSIZE in *; lia.
  - specialize (Hfull ltac:(lia)). assert ((off + n) mod BSIZE = 0) as ->.
    { rewrite (Z.div_mod off BSIZE) at 1 by done. rewrite <-Z.add_assoc, Hfull, Z.add_comm, Z.mul_comm.
      by rewrite Z.mod_add by done. }
    replace (off mod BSIZE + remains + BSIZE - 1) with (0 + (remains - n) + BSIZE - 1 + 1 * BSIZE) in Hr by lia.
    rewrite Z.div_add in Hr by done. lia.
Qed.

Lemma rounds_for_transfer off c : 0 <= c -> rounds_for off c <= Z.of_nat (transfer_rounds c).
Proof.
  intros Hc. unfold rounds_for, transfer_rounds. destruct (c =? 0); [lia|]. pose proof (Z.mod_pos_bound off BSIZE eq_refl).
  assert (0 <= c / BSIZE) by (apply Z.div_pos; unfold BSIZE; lia).
  rewrite Z2Nat.id by lia. rewrite <-(Z.div_add c 2) by done. apply Z.div_le_mono; unfold BSIZE in *; lia.
Qed.


Lemma direct_file_sub im v lo hi lo' hi' :
  direct_file im v lo hi -> lo <= lo' -> hi' <= hi -> direct_file im v lo' hi'.
Proof. intros [H1 H2] ??. split; [lia|]. intros p Hp. apply H2. lia. Qed.

Lemma inode_read_loop_ok fuel dev d ip v rounds s bs remains off :
  disk_ok dev d s bs -> inodes (ext s) !! ip = Some v -> i_dev v = dev ->
  0 <= off -> 0 <= remains -> direct_file (image (ext s)) v off (off + remains) ->
  rounds_for off remains <= Z.of_nat rounds ->
  exists s' bs' l, inode_read_loop fuel rounds ip remains off s = Ret l s' /\ length l = Z.to_nat remains /\
    (forall i, 0 <= i < remains -> l !! Z.to_nat i = file_byte (image (ext s)) v (off + i)) /\
    disk_ok dev d s' bs' /\ cache_step s bs s' bs'.
Proof.
  revert s bs remains off. induction rounds as [|rounds IH]; intros s bs remains off HO Hv Hdev Hoff Hrem Hf Hr.
  all: destruct (decide (remains = 0)) as [->|Hnz].
  1,3: exists s, bs, []; split_and!; [done|done|lia|done|apply cache_step_refl].
  { exfalso. unfold rounds_for in Hr. rewrite (proj2 (Z.eqb_neq _ _) Hnz) in Hr.
    pose proof (Z.mod_pos_bound off BSIZE eq_refl).
    assert (1 <= (off mod BSIZE + remains + BSIZE - 1) / BSIZE); [|lia].
    apply Z.div_le_lower_bound; unfold BSIZE in *; lia. }
  cbn [inode_read_loop]. rewrite (proj2 (Z.eqb_neq _ _) Hnz).
  assert (u64 (BSIZE - Z.rem off BSIZE) = BSIZE - off mod BSIZE) as ->.
  { rewrite Z.rem_mod_nonneg by (unfold BSIZE; lia). pose proof (Z.mod_pos_bound off BSIZE eq_refl).
    apply wrap_small. unfold BSIZE in *. lia. }
  set (n := if BSIZE - off mod BSIZE <? remains then _ else _).
  assert (0 < n <= remains /\ off mod BSIZE + n <= BSIZE /\ (n < remains -> off mod BSIZE + n = BSIZE)) as (Hn & Hfit & Hfull).
  { pose proof (Z.mod_pos_bound off BSIZE eq_refl). unfold n.
    destruct (Z.ltb_spec (BSIZE - off mod BSIZE) remains); lia. }
  rewrite (proj2 (Z.leb_le n remains)) by lia.
  assert (s64 (off + n) = off + n) as ->.
  { apply swrap_small; [done|]. destruct Hf as [Hf _]. unfold FS_IADDR_DIRECT_NR, BSIZE in Hf. lia. }
  destruct (read_round fuel dev d s bs ip v off n HO Hv Hdev Hoff) as (s1 & b1 & l1 & Hl1 & HL1 & HO1 & HS1 & Hrun);
    [lia|done|eapply direct_file_sub; [exact Hf|lia..]|].
  assert (image (ext s1) = image (ext s) /\ inodes (ext s1) = inodes (ext s)) as [Him Hino] by (by destruct HS1 as (? & ? & -> & _)).
  destruct (IH s1 b1 (remains - n) (off + n)) as (s2 & b2 & l2 & E2 & Hl2 & HL2 & HO2 & HS2);
    [done|by rewrite Hino|done|lia|lia|rewrite Him; eapply direct_file_sub; [exact Hf|lia..]| |].
  { apply rounds_for_step; [lia..|done|done|done|]. lia. }
  exists s2, b2, (l1 ++ l2). split_and!; [|rewrite length_app; lia| |done|by eapply cache_step_trans].
  - etrans; [exact (Hrun _ (fun l => r ← inode_read_loop fuel rounds ip (remains - n) (off + n); mret (l ++ r)))|].
    mred. by rewrite E2.
  - intros i Hi. rewrite Him in HL2. destruct (decide (i < n)) as [Hlt|Hge].
    + rewrite lookup_app_l by lia. apply HL1. lia.
    + rewrite lookup_app_r by lia. rewrite Hl1, <-Z2Nat.inj_sub by lia. rewrite HL2 by lia. f_equal. lia.
Qed.

Lemma inode_read_ok fuel dev d s bs ip v off counts :
  disk_ok dev d s bs -> inodes (ext s) !! ip = Some v -> i_dev v = dev -> i_mode v <> FS_IMODE_DEV ->
  direct_file (image (ext s)) v 0 (i_size v) -> 0 <= off <= i_size v -> 0 <= counts -> off + counts < 2 ^ 64 ->
  exists s' bs' l,
    inode_read fuel ip off counts s = Ret (Z.min counts (i_size v - off), l) s' /\
    length l = Z.to_nat (Z.min counts (i_size v - off)) /\
    (forall i, 0 <= i < Z.min counts (i_size v - off) -> l !! Z.to_nat i = file_byte (image (ext s)) v (off + i)) /\
    disk_ok dev d s' bs' /\ cache_step s bs s' bs'.
Proof.
  intros HO Hv Hdev Hmode Hf Hoff Hc Hov. assert (i_size v <= 6144) as Hmax by (destruct Hf as [Hf _]; exact Hf).
  assert (u64 off = off) as Eo by (apply wrap_small; lia). assert (u64 (off + counts) = off + counts) as Eoc by (apply wrap_small; lia).
  unfold inode_read. mred. rewrite (inode_ld_eq _ _ v) by done. mred. rewrite (proj2 (Z.eqb_neq _ _) Hmode). cbn [negb]. mred.
  rewrite Eo, Eoc, (proj2 (Z.ltb_ge (off + counts) off)), orb_false_r, (proj2 (Z.ltb_ge (i_size v) off)) by lia.
  assert ((if i_size v <? off + counts then u64 (i_size v - off) else counts) = Z.min counts (i_size v - off)) as ->.
  { destruct (Z.ltb_spec (i_size v) (off + counts)); [|lia]. rewrite (wrap_small 64) by lia. lia. }
  set (c := Z.min counts (i_size v - off)). assert (0 <= c <= 6144) as Hcr by lia.
  destruct (inode_read_loop_ok fuel dev d ip v (transfer_rounds c) s bs c off) as (s' & bs' & l & E & Hl & HL & HO' & HS);
    [done|done|done|lia|lia|eapply direct_file_sub; [exact Hf|lia..]|apply rounds_for_transfer; lia|].
  exists s', bs', l. split_and!; [|done|done|done|done]. rewrite E. mred. do 2 f_equal. apply swrap_small; lia.
Qed.

(** Reading a file of direct blocks: an offset past the end is refused
    without effect; otherwise the bytes returned are those of the file on disk
    from the offset, as many as asked for up to the end of the file, and only
    the buffer cache changes, which stays coherent with the disk. *)
Theorem inode_read_correct fuel dev d s bs ip v off counts :
  disk_ok dev d s bs -> inodes (ext s) !! ip = Some v -> i_dev v = dev -> i_mode v <> FS_IMODE_DEV ->
  0 <= i_size v -> direct_file (image (ext s)) v 0 (i_size v) -> 0 <= off < 2 ^ 63 -> 0 <= counts -> off + counts < 2 ^ 64 ->
  (i_size v < off -> inode_read fuel ip off counts s = Ret (- ENXIO, []) s) /\
  (off <= i_size v -> exists s' bs' l,
     inode_read fuel ip off counts s = Ret (Z.min counts (i_size v - off), l) s' /\
     length l = Z.to_nat (Z.min counts (i_size v - off)) /\
     (forall i, 0 <= i < Z.min counts (i_size v - off) -> l !! Z.to_nat i = file_byte (image (ext s)) v (off + i)) /\
     disk_ok dev d s' bs' /\ cache_step s bs s' bs').
Proof.
  intros HO Hv Hdev Hmode Hsz Hf Hoff Hc Hov. split; intros Hle; [|apply inode_read_ok; (done || lia)].
  unfold inode_read. mred. rewrite (inode_ld_eq _ _ v) by done. mred. rewrite (proj2 (Z.eqb_neq _ _) Hmode). cbn [negb]. mred.
  assert (u64 off = off) as -> by (apply wrap_small; lia). by rewrite (proj2 (Z.ltb_lt _ _)) by lia.
Qed.

(** ** The inode cache *)

Definition slots : list ptr := seqZ 1 NINODE.

(** The cached inode [inum_] of [dev]; a free slot. *)
Definition caches s (dev inum_ : Z) (ip : ptr) : bool :=
  match inodes (ext s) !! ip with
  | Some v => (0 <? ref v) && (i_dev v =? dev) && (inum v =? inum_)
  | None => false
  end.
Definition free_slot s (ip : ptr) : bool :=
  match inodes (ext s) !! ip with Some v => ref v =? 0 | None => false end.

(** Every slot is there, and no inode is cached twice. *)
Record icache_ok s : Prop := {
  ic_slots : forall ip, ip ∈ slots -> is_Some (inodes (ext s) !! ip);
  ic_ref : forall ip v, ip ∈ slots -> inodes (ext s) !! ip = Some v -> 0 <= ref v;
  ic_once : forall dev n ip ip', ip ∈ slots -> ip' ∈ slots ->
    caches s dev n ip = true -> caches s dev n ip' = true -> ip = ip' }.

Lemma inode_search_found s dev n a ip r v e :
  (forall p, p ∈ a -> is_Some (inodes (ext s) !! p) /\ caches s dev n p = false) ->
  inodes (ext s) !! ip = Some v -> caches s dev n ip = true ->
  exists e', inode_search (a ++ ip :: r) dev n e s
    = Ret (Some ip, e') (map_ext s (fun f => with_inodes f (<[ip := with_ref v (ref v + 1)]> (inodes f)))).
Proof.
  intros Ha Hv Hc. revert e. induction a as [|p a IH]; intros e; cbn [app inode_search]; mred.
  - rewrite (inode_ld_eq _ _ v) by done. mred. unfold caches in Hc. rewrite Hv in Hc. rewrite Hc. mred.
    rewrite (inode_st_eq _ _ v) by done. mred. by eexists.
  - destruct (Ha p) as [[w Hw] Hp]; [set_solver|]. rewrite (inode_ld_eq _ _ w) by done. mred.
    unfold caches in Hp. rewrite Hw in Hp. rewrite Hp. apply IH. intros q Hq. apply Ha. set_solver.
Qed.

Lemma inode_search_none s dev n ips e :
  (forall p, p ∈ ips -> is_Some (inodes (ext s) !! p) /\ caches s dev n p = false) ->
  (forall a p r, ips = a ++ p :: r -> e = NULL -> free_slot s p = true -> p <> NULL ->
     (forall q, q ∈ a -> free_slot s q = false) -> inode_search ips dev n e s = Ret (None, p) s) /\
  (e <> NULL \/ (forall q, q ∈ ips -> free_slot s q = false) -> inode_search ips dev n e s = Ret (None, e) s).
Proof.
  revert e. induction ips as [|p ips IH]; intros e Hall; cbn [inode_search]; mred.
  { split; [|done]. intros a p r E. by destruct a. }
  destruct (Hall p) as [[w Hw] Hp]; [set_solver|]. rewrite (inode_ld_eq _ _ w) by done. mred.
  unfold caches in Hp. rewrite Hw in Hp. rewrite Hp.
  assert ((ref w =? 0) = free_slot s p) as -> by (unfold free_slot; by rewrite Hw).
  set (e' := if (e =? NULL) && free_slot s p then p else e). destruct (IH e') as [IH1 IH2]; [intros q Hq; apply Hall; set_solver|]. split.
  - intros a q r E -> Hq Hnz Ha. destruct a as [|p' a]; injection E as -> ->.
    + assert (e' = q) as -> by (unfold e'; by rewrite Hq). apply IH2. by left.
    + assert (e' = NULL) as He' by (unfold e'; by rewrite (Ha p') by set_solver).
      apply (IH1 a q r); try done. intros q' ?. apply Ha. set_solver.
  - intros Hor. assert (e' = e) as Ee.
    { unfold e'. destruct (Z.eqb_spec e NULL) as [->|]; [|done]. destruct Hor as [?|Hno]; [done|]. by rewrite Hno by set_solver. }
    rewrite Ee in *. apply IH2. destruct Hor as [|Hno]; [by left|right]. intros q ?. apply Hno. set_solver.
Qed.

Definition with_slot s (ip : ptr) (v : inode) : kst fsst :=
  map_ext s (fun f => with_inodes f (<[ip := v]> (inodes f))).

Lemma caches_with_slot s ip v dev n p :
  caches (with_slot s ip v) dev n p =
    if decide (p = ip) then (0 <? ref v) && (i_dev v =? dev) && (inum v =? n) else caches s dev n p.
Proof.
  unfold caches, with_slot. cbn. destruct (decide (p = ip)) as [->|]; [by rewrite lookup_insert_eq|].
  by rewrite lookup_insert_ne.
Qed.

(** Changing a slot keeps the cache well formed when no other slot caches the
    inode it then holds. *)
Lemma icache_ok_slot s ip v :
  icache_ok s -> 0 <= ref v ->
  (0 < ref v -> forall p, p ∈ slots -> p <> ip -> caches s (i_dev v) (inum v) p = false) ->
  icache_ok (with_slot s ip v).
Proof.
  intros HI Hr Hno. split.
  - intros p Hp. cbn. apply lookup_insert_is_Some'. right. by apply HI.
  - intros p w Hp. cbn. intros [[<- <-]|[_ Hw]]%lookup_insert_Some; [done|]. by apply (ic_ref _ HI p).
  - intros dev n p p' Hp Hp'. rewrite !caches_with_slot.
    assert (forall q, q ∈ slots -> q <> ip -> (0 <? ref v) && (i_dev v =? dev) && (inum v =? n) = true ->
      caches s dev n q = true -> False) as Hx.
    { intros q Hq Hne [[?%Z.ltb_lt <-%Z.eqb_eq]%andb_true_iff <-%Z.eqb_eq]%andb_true_iff. rewrite Hno by done. done. }
    destruct (decide (p = ip)) as [->|], (decide (p' = ip)) as [->|]; [done|intros; exfalso; eauto..|].
    by apply (ic_once _ HI).
Qed.

Lemma inode_get_hit fuel s dev n ip v :
  quiet s MtxIcache -> icache_ok s -> ip ∈ slots -> caches s dev n ip = true -> inodes (ext s) !! ip = Some v ->
  inode_get fuel dev n s = Ret ip (with_slot s ip (with_ref v (ref v + 1))).
Proof.
  intros HQ HI Hip Hc Hv. destruct (list_elem_of_split slots ip Hip) as (a & r & Er).
  assert (forall p, p ∈ a -> is_Some (inodes (ext s) !! p) /\ caches s dev n p = false) as Ha.
  { intros p Hp. assert (p ∈ slots) as Hps by (rewrite Er; set_solver). split; [by apply HI|].
    destruct (caches s dev n p) eqn:E; [|done]. assert (p = ip) as -> by (by apply (ic_once _ HI dev n)).
    pose proof (NoDup_seqZ 1 NINODE) as HN. fold slots in HN. rewrite Er in HN. apply NoDup_app in HN as (_ & HN & _). set_solver. }
  unfold inode_get. fold slots. rewrite Er. mred. rewrite hold_eq by done. mred.
  destruct (inode_search_found (hold s MtxIcache) dev n a ip r v NULL Ha Hv Hc) as (e & E). rewrite E. mred.
  cbn [fst]. mred. by rewrite release_after.
Qed.

Lemma inode_get_new fuel s dev n a ip r v :
  quiet s MtxIcache -> icache_ok s -> (forall p, p ∈ slots -> caches s dev n p = false) ->
  slots = a ++ ip :: r -> (forall p, p ∈ a -> free_slot s p = false) -> free_slot s ip = true ->
  inodes (ext s) !! ip = Some v ->
  inode_get fuel dev n s = Ret ip (with_slot s ip (Inode n 1 0 (i_mode v) dev (i_rdev v) (i_nlink v) (i_size v) (i_addr v))).
Proof.
  intros HQ HI Hno Hs Ha Hf Hv. assert (ip <> NULL) as Hnz.
  { assert (ip ∈ slots) as Hin by (rewrite Hs; set_solver). apply elem_of_seqZ in Hin. unfold NULL. lia. }
  unfold inode_get. fold slots. mred. rewrite hold_eq by done. mred.
  destruct (inode_search_none (hold s MtxIcache) dev n slots NULL) as [H _].
  { intros p Hp. split; [by apply HI|by apply Hno]. }
  rewrite (H a ip r) by done. mred. cbn [fst snd]. rewrite (proj2 (Z.eqb_neq _ _) Hnz). cbn [negb]. mred.
  rewrite (inode_ld_eq _ _ v) by done. mred. rewrite (inode_st_eq _ _ v) by done. mred. by rewrite release_after.
Qed.

Lemma inode_get_full fuel s dev n :
  quiet s MtxIcache -> icache_ok s -> (forall p, p ∈ slots -> caches s dev n p = false) ->
  (forall p, p ∈ slots -> free_slot s p = false) -> inode_get fuel dev n s = Stop Assert.
Proof.
  intros HQ HI Hno Hf. unfold inode_get. fold slots. mred. rewrite hold_eq by done. mred.
  destruct (inode_search_none (hold s MtxIcache) dev n slots NULL) as [_ H].
  { intros p Hp. split; [by apply HI|by apply Hno]. }
  rewrite H by (by right). done.
Qed.

Lemma slots_sorted a ip r p : slots = a ++ ip :: r -> p ∈ ip :: r -> ip <= p.
Proof.
  intros Hs Hp. assert (forall i x, slots !! i = Some x -> x = 1 + Z.of_nat i) as HL.
  { intros i x. unfold slots. intros H. apply lookup_seqZ in H. lia. }
  apply list_elem_of_lookup in Hp as [i Hi].
  assert (ip = 1 + Z.of_nat (length a)) as ->.
  { apply HL. rewrite Hs, lookup_app_r, Nat.sub_diag by lia. done. }
  assert (p = 1 + Z.of_nat (length a + i)) as ->; [|lia].
  apply HL. rewrite Hs, lookup_app_r by lia. by replace (length a + i - length a)%nat with i by lia.
Qed.

(** C8.  The inode cache.  [inode_get] returns the slot that caches the inode,
    with one more reference; an inode not cached gets the first free slot, with
    one reference and not yet valid; with no free slot left the kernel stops.
    Nothing else changes, and the cache keeps its invariant: no inode is ever
    cached in two slots. *)
Theorem inode_get_correct fuel s dev n :
  quiet s MtxIcache -> icache_ok s ->
  (exists ip v v', ip ∈ slots /\ inodes (ext s) !! ip = Some v /\
     inode_get fuel dev n s = Ret ip (with_slot s ip v') /\ icache_ok (with_slot s ip v') /\
     inum v' = n /\ i_dev v' = dev /\
     (caches s dev n ip = true /\ v' = with_ref v (ref v + 1) \/
      (forall p, p ∈ slots -> caches s dev n p = false) /\ ref v = 0 /\ ref v' = 1 /\ i_flags v' = 0 /\
      (forall p, p ∈ slots -> p < ip -> free_slot s p = false))) \/
  ((forall p, p ∈ slots -> caches s dev n p = false /\ free_slot s p = false) /\
     inode_get fuel dev n s = Stop Assert).
Proof.
  intros HQ HI. destruct (first_match (caches s dev n) slots) as [Hno|(a & ip & r & Hs & Hc & _)].
  - destruct (first_match (free_slot s) slots) as [Hf|(a & ip & r & Hs & Hf & Ha)].
    { right. split; [auto|by apply inode_get_full]. }
    assert (ip ∈ slots) as Hin by (rewrite Hs; set_solver). destruct (ic_slots _ HI ip Hin) as [v Hv].
    left. eexists ip, v, _. split; [done|]. split; [done|]. split; [by eapply inode_get_new|].
    split; [apply icache_ok_slot; [done|cbn; lia|auto]|]. split; [done|]. split; [done|]. right. split_and!; [done| |done|done|].
    + unfold free_slot in Hf. rewrite Hv in Hf. by apply Z.eqb_eq.
    + intros p Hp Hlt. apply Ha. rewrite Hs in Hp. apply elem_of_app in Hp as [Hp|Hp]; [done|].
      exfalso. pose proof (slots_sorted a ip r p Hs Hp). lia.
  - assert (ip ∈ slots) as Hin by (rewrite Hs; set_solver). destruct (ic_slots _ HI ip Hin) as [v Hv].
    left. exists ip, v, (with_ref v (ref v + 1)). pose proof Hc as Hc'. unfold caches in Hc'. rewrite Hv in Hc'.
    apply andb_true_iff in Hc' as [[Hr%Z.ltb_lt Hd%Z.eqb_eq]%andb_true_iff Hn%Z.eqb_eq].
    split_and!; [done|done|by apply inode_get_hit| |done|done|by left].
    apply icache_ok_slot; [done|cbn; lia|]. cbn. rewrite Hd, Hn. intros _ p Hp Hne.
    destruct (caches s dev n p) eqn:E; [|done]. exfalso. apply Hne. by apply (ic_once _ HI dev n).
Qed.

(** ** Path names *)

(** The elements of a path: the parts of the string between slashes that are
    not empty.  [cur] is the part read so far. *)
Definition part (cur : list Z) : list (list Z) := match cur with [] => [] | _ => [cur] end.
Fixpoint elements_from (cur path : list Z) : list (list Z) :=
  match path with
  | [] => part cur
  | c :: path =>
      if c =? 0 then part cur
      else if c =? slash then part cur ++ elements_from [] path
      else elements_from (cur ++ [c]) path
  end.
Definition elements (path : list Z) : list (list Z) := elements_from [] path.

Definition plain (c : Z) : Prop := c <> slash /\ c <> 0.

Lemma skip_slashes_spec path : 0 ∈ path ->
  exists c r, skip_slashes path = Some (c :: r) /\ c <> slash /\ 0 ∈ c :: r /\ elements (c :: r) = elements path.
Proof.
  induction path as [|c path IH]; [by intros ?%elem_of_nil|]. intros H0. cbn [skip_slashes].
  destruct (Z.eqb_spec c slash) as [->|Hc]; [|by exists c, path].
  apply elem_of_cons in H0 as [?|H0]; [done|]. destruct (IH H0) as (c & r & E & Hc & Hr & He). exists c, r. exact (conj E (conj Hc (conj Hr He))).
Qed.

Lemma scan_element_spec path : 0 ∈ path ->
  exists e c r, scan_element path = Some (e, c :: r) /\ path = e ++ c :: r /\ Forall plain e /\ ~ plain c /\ 0 ∈ c :: r.
Proof.
  induction path as [|c path IH]; [by intros ?%elem_of_nil|]. intros H0. cbn [scan_element].
  destruct ((c =? slash) || (c =? 0)) eqn:E.
  - exists [], c, path. split_and!; [done|done|done| |done]. intros [??]. apply orb_true_iff in E as [?%Z.eqb_eq|?%Z.eqb_eq]; done.
  - apply orb_false_iff in E as [H1%Z.eqb_neq H2%Z.eqb_neq]. apply elem_of_cons in H0 as [?|H0]; [congruence|].
    destruct (IH H0) as (e & c' & r & Es & -> & He & Hc' & Hr). rewrite Es. exists (c :: e), c', r.
    split_and!; [done|done|by constructor|done|done].
Qed.

Lemma elements_plain cur e r : Forall plain e -> elements_from cur (e ++ r) = elements_from (cur ++ e) r.
Proof.
  intros He. revert cur. induction He as [|c e [H1 H2] He IH]; intros cur; cbn [app elements_from]; [by rewrite app_nil_r|].
  rewrite (proj2 (Z.eqb_neq _ _) H1), (proj2 (Z.eqb_neq _ _) H2), IH. by rewrite <-app_assoc.
Qed.

Lemma elements_stop cur c r : ~ plain c -> elements_from cur (c :: r) = part cur ++ elements (c :: r).
Proof.
  intros Hc. unfold elements. cbn [elements_from]. destruct (Z.eqb_spec c 0); [by rewrite app_nil_r|].
  destruct (Z.eqb_spec c slash); [done|]. exfalso. by apply Hc.
Qed.

Lemma elements_end c r : c <> slash -> (elements (c :: r) = [] <-> c = 0).
Proof.
  intros Hc. unfold elements. cbn [elements_from app]. destruct (Z.eqb_spec c 0) as [->|Hz]; [done|].
  rewrite (proj2 (Z.eqb_neq _ _) Hc). split; [|done]. intros E. exfalso.
  assert (forall p cur, cur <> [] -> elements_from cur p <> []) as HN; [|by apply (HN r [c])].
  clear. induction p as [|x p IH]; intros cur Hcur; cbn [elements_from]; [by destruct cur|].
  destruct (x =? 0); [by destruct cur|]. destruct (x =? slash); [by destruct cur|]. apply IH. by destruct cur.
Qed.

(** What [memmove(name, s, len); name[len] = '\0';] leaves in [name]. *)
Definition name_of (e name : list Z) : list Z :=
  let e := take (Z.to_nat FNAME_MAX) e in e ++ 0 :: drop (S (length e)) name.

Lemma store_name e name : (length e < length name)%nat ->
  (name ← set_bytes name 0 e; set_bytes name (Z.of_nat (length e)) [0]) = Some (e ++ 0 :: drop (S (length e)) name).
Proof.
  intros Hl. rewrite set_bytes_eq by lia. change (Z.to_nat 0) with 0%nat. rewrite take_0. cbn [mbind option_bind app Nat.add].
  rewrite set_bytes_eq by (rewrite ?length_app, ?length_drop; cbn [length]; lia).
  rewrite Nat2Z.id, take_app_length. do 2 f_equal. cbn [app length]. f_equal.
  rewrite drop_app_ge by lia. rewrite drop_drop. f_equal. lia.
Qed.

(** The elements [skip_element] finds and what it does with them. *)
Lemma skip_element_end path name : 0 ∈ path -> elements path = [] -> skip_element path name = Some (None, name).
Proof.
  intros H0 He. destruct (skip_slashes_spec path H0) as (c & r & Es & Hc & _ & Eel). rewrite <-Eel in He.
  apply elements_end in He as ->; [|done]. unfold skip_element. by rewrite Es.
Qed.

Lemma skip_element_step path name e es :
  0 ∈ path -> elements path = e :: es -> Z.of_nat (length e) < 2 ^ 31 ->
  exists c r, Forall plain e /\ elements (c :: r) = es /\ 0 ∈ c :: r /\ (c = 0 <-> es = []) /\
    let w := take (Z.to_nat FNAME_MAX) e in
    skip_element path name =
      (name ← set_bytes name 0 w; name ← set_bytes name (Z.of_nat (length w)) [0]; Some (Some (c :: r), name)).
Proof.
  intros H0 HE HL. destruct (skip_slashes_spec path H0) as (c & r & Es & Hc & H0' & Eel). rewrite <-Eel in HE.
  unfold skip_element. rewrite Es. cbn [mbind option_bind head].
  destruct (Z.eqb_spec c 0) as [->|Hz]; [by rewrite (proj2 (elements_end 0 r Hc)) in HE|].
  destruct (scan_element_spec (c :: r) H0') as (e' & c' & r' & Esc & Eq & He & Hc' & H0'').
  destruct e' as [|x e']; [by injection Eq as -> _; destruct Hc'|]. rewrite Esc. cbn [mbind option_bind].
  assert (elements (c :: r) = (x :: e') :: elements (c' :: r')) as EE.
  { rewrite Eq. unfold elements at 1. rewrite (elements_plain [] (x :: e')), app_nil_l, elements_stop by done. done. }
  rewrite EE in HE. injection HE as <- Hes.
  destruct (skip_slashes_spec (c' :: r') H0'') as (c2 & r2 & Es2 & Hc2 & H02 & He2).
  exists c2, r2. rewrite He2, Es2. split_and!; [done|done|done|by rewrite <-Hes, <-He2, elements_end|]. cbn zeta.
  assert (s32 (Z.of_nat (length (x :: e'))) = Z.of_nat (length (x :: e'))) as -> by (apply swrap_small; lia).
  set (n := if FNAME_MAX <=? Z.of_nat (length (x :: e')) then FNAME_MAX else Z.of_nat (length (x :: e'))).
  assert (0 < n /\ n = Z.min FNAME_MAX (Z.of_nat (length (x :: e')))) as [Hn En].
  { unfold n. cbn [length]. destruct (Z.leb_spec FNAME_MAX (Z.of_nat (S (length e')))); unfold FNAME_MAX in *; lia. }
  rewrite (proj2 (Z.leb_gt _ _)) by lia.
  assert (take (Z.to_nat n) (x :: e') = take (Z.to_nat FNAME_MAX) (x :: e')) as ->.
  { rewrite En. destruct (Z.min_spec FNAME_MAX (Z.of_nat (length (x :: e')))) as [[? ->]|[? ->]]; [done|].
    rewrite !firstn_all2; [done|lia..]. }
  assert (n = Z.of_nat (length (take (Z.to_nat FNAME_MAX) (x :: e')))) as <- by (rewrite length_take; unfold FNAME_MAX in *; lia).
  done.
Qed.

Lemma skip_element_next path name e es :
  0 ∈ path -> elements path = e :: es -> Z.of_nat (length e) < 2 ^ 31 -> FNAME_MAX < Z.of_nat (length name) ->
  exists c r, skip_element path name = Some (Some (c :: r), name_of e name) /\ Forall plain e /\
    elements (c :: r) = es /\ 0 ∈ c :: r /\ (c = 0 <-> es = []).
Proof.
  intros H0 HE HL Hname. destruct (skip_element_step path name e es H0 HE HL) as (c & r & Hp & He & H0' & Hc & E).
  exists c, r. split_and!; [|done..]. rewrite E. cbn zeta.
  pose proof (store_name (take (Z.to_nat FNAME_MAX) e) name) as HS. rewrite length_take in HS at 1. specialize (HS ltac:(unfold FNAME_MAX in *; lia)).
  destruct (set_bytes name 0 _) as [nm|]; cbn [mbind option_bind] in *; [|done]. by rewrite HS.
Qed.

(** One step of a path walk: [skip_element] stores the first element of the
    path, cut to 59 bytes, and returns the rest, whose elements are the
    remaining ones; it returns [NULL] exactly when there is none.  An array of
    60 bytes is needed: with the 59 bytes the callers in fs/fs.c pass, an
    element of 59 bytes or more is terminated outside the array. *)
Theorem skip_element_correct path name :
  0 ∈ path -> Forall (fun e => Z.of_nat (length e) < 2 ^ 31) (elements path) ->
  match elements path with
  | [] => skip_element path name = Some (None, name)
  | e :: es =>
      (FNAME_MAX < Z.of_nat (length name) ->
        exists c r, skip_element path name = Some (Some (c :: r), name_of e name) /\
          elements (c :: r) = es /\ 0 ∈ c :: r /\ (c = 0 <-> es = [])) /\
      (Z.of_nat (length name) = FNAME_MAX -> FNAME_MAX <= Z.of_nat (length e) -> skip_element path name = None)
  end.
Proof.
  intros H0 HL. destruct (elements path) as [|e es] eqn:HE; [by apply skip_element_end|]. apply Forall_cons in HL as [HLe _]. split.
  - intros Hname. destruct (skip_element_next path name e es H0 HE HLe Hname) as (c & r & E & _ & H). by exists c, r.
  - intros Hname Hlong. destruct (skip_element_step path name e es H0 HE HLe) as (c & r & _ & _ & _ & _ & ->). cbn zeta.
    assert (Z.of_nat (length (take (Z.to_nat FNAME_MAX) e)) = FNAME_MAX) as Elen by (rewrite length_take; unfold FNAME_MAX in *; lia).
    rewrite set_bytes_eq by lia. cbn [mbind option_bind]. rewrite set_bytes_out; [done|].
    change (Z.to_nat 0) with 0%nat. rewrite take_0. cbn [app length Nat.add]. rewrite length_app, length_drop. lia.
Qed.
