(* ===== verification/DiskLayout.v ===== *)
(** The layout of inodes and bitmaps on disk: what is stored is what is read
    back, and which part of a block each access touches. *)
From S2P Require Import Prelude KList Kernel CString FsState Blkio Coherence Inode.

(** ** Little endian words *)

Lemma le_encode_length n v : length (le_encode n v) = n.
Proof. revert v. induction n as [|n IH]; intros v; [done|]. cbn [le_encode length]. by rewrite IH. Qed.

Lemma le_roundtrip n v : le_decode (le_encode n v) = v mod 2 ^ (8 * Z.of_nat n).
Proof.
  revert v. induction n as [|n IH]; intros v; [cbn; by rewrite Z.mod_1_r|]. cbn [le_encode le_decode]. rewrite IH.
  replace (2 ^ (8 * Z.of_nat (S n))) with (256 * 2 ^ (8 * Z.of_nat n)).
  - rewrite Z.rem_mul_r by lia. lia.
  - change 256 with (2 ^ 8). rewrite <-Z.pow_add_r by lia. f_equal. lia.
Qed.

Lemma bytes_at_app (p x q : list Z) off n :
  off = Z.of_nat (length p) -> n = length x -> bytes_at (p ++ x ++ q) off n = Some x.
Proof.
  intros -> ->. unfold bytes_at. rewrite Nat2Z.id, drop_app_length, take_app_length, Nat.eqb_refl.
  by rewrite (proj2 (Z.leb_le _ _)) by lia.
Qed.

Lemma get_u32_app p v q off : off = Z.of_nat (length p) -> get_u32 (p ++ le_encode 4 v ++ q) off = Some (u32 v).
Proof. intros Ho. unfold get_u32. rewrite bytes_at_app by (done || by rewrite le_encode_length). cbn [fmap option_fmap option_map]. by rewrite le_roundtrip. Qed.
Lemma get_u64_app p v q off : off = Z.of_nat (length p) -> get_u64 (p ++ le_encode 8 v ++ q) off = Some (u64 v).
Proof. intros Ho. unfold get_u64. rewrite bytes_at_app by (done || by rewrite le_encode_length). cbn [fmap option_fmap option_map]. by rewrite le_roundtrip. Qed.

Lemma get_u64s_app p vs q off k :
  off + 8 * k = Z.of_nat (length p) ->
  mapM (fun i => get_u64 (p ++ concat (le_encode 8 <$> vs) ++ q) (off + 8 * i)) (seqZ k (Z.of_nat (length vs)))
    = Some (u64 <$> vs).
Proof.
  revert p k. induction vs as [|v vs IH]; intros p k Hp; [done|]. cbn [length fmap list_fmap concat].
  rewrite seqZ_cons by lia. cbn [mapM]. rewrite <-!app_assoc, get_u64_app by lia. cbn [mbind option_bind].
  replace (Z.pred (Z.of_nat (S (length vs)))) with (Z.of_nat (length vs)) by lia.
  assert (p ++ le_encode 8 v ++ concat (le_encode 8 <$> vs) ++ q = (p ++ le_encode 8 v) ++ concat (le_encode 8 <$> vs) ++ q) as ->
    by (by rewrite <-app_assoc).
  rewrite IH; [done|]. rewrite length_app, le_encode_length. lia.
Qed.

Lemma concat_le_length (vs : list Z) : length (concat (le_encode 8 <$> vs)) = (8 * length vs)%nat.
Proof. induction vs as [|v vs IH]; [done|]. cbn [fmap list_fmap concat length]. rewrite length_app, le_encode_length, IH. lia. Qed.

Lemma swrap_wrap w z : 0 < w -> swrap w (wrap w z) = swrap w z.
Proof. intros Hw. unfold swrap, wrap. by rewrite Zplus_mod_idemp_l. Qed.

(** ** Inodes on disk *)

(** The members are in the range of their C types. *)
Record d_inode_range (d : d_inode) : Prop := {
  dr_mode : - 2 ^ 31 <= di_mode d < 2 ^ 31;
  dr_dev : 0 <= di_dev d < 2 ^ 64;
  dr_rdev : 0 <= di_rdev d < 2 ^ 64;
  dr_nlink : - 2 ^ 63 <= di_nlink d < 2 ^ 63;
  dr_size : 0 <= di_size d < 2 ^ 64;
  dr_addr : Forall (fun b => - 2 ^ 63 <= b < 2 ^ 63) (di_addr d);
  dr_addrs : length (di_addr d) = Z.to_nat FS_IADDR_NR }.

Lemma d_inode_bytes_length pad d :
  length pad = 4%nat -> length (di_addr d) = Z.to_nat FS_IADDR_NR -> length (d_inode_bytes pad d) = Z.to_nat D_INODE_SIZE.
Proof.
  intros Hp Ha. unfold d_inode_bytes. rewrite !length_app, !le_encode_length, concat_le_length, Ha, Hp. reflexivity.
Qed.

Lemma s64_addrs vs : Forall (fun b => - 2 ^ 63 <= b < 2 ^ 63) vs -> s64 <$> (u64 <$> vs) = vs.
Proof.
  induction 1 as [|v vs Hv _ IH]; [done|]. cbn [fmap list_fmap]. f_equal; [|exact IH].
  unfold s64, u64. rewrite swrap_wrap by lia. by apply swrap_small.
Qed.

(** Reads the field between [p] and [q]. *)
Ltac field_at B lem p q :=
  etrans; [|apply (lem p _ q)]; [unfold B, d_inode_bytes; by rewrite <-!app_assoc|rewrite ?length_app; lia].

Lemma d_inode_of_bytes p pad d q :
  length pad = 4%nat -> d_inode_range d -> d_inode_of (p ++ d_inode_bytes pad d ++ q) (Z.of_nat (length p)) = Some d.
Proof.
  intros Hpad HR. set (B := p ++ d_inode_bytes pad d ++ q). remember (Z.of_nat (length p)) as o eqn:Eo.
  set (m := le_encode 4 (di_mode d)). set (f1 := le_encode 8 (di_dev d)). set (f2 := le_encode 8 (di_rdev d)).
  set (f3 := le_encode 8 (di_nlink d)). set (f4 := le_encode 8 (di_size d)). set (ads := concat (le_encode 8 <$> di_addr d)).
  assert (length m = 4%nat /\ length f1 = 8%nat /\ length f2 = 8%nat /\ length f3 = 8%nat /\ length f4 = 8%nat)
    as (Lm & L1 & L2 & L3 & L4) by (split_and!; apply le_encode_length).
  assert (get_u32 B o = Some (u32 (di_mode d))) as Em.
  { field_at B get_u32_app p (pad ++ f1 ++ f2 ++ f3 ++ f4 ++ ads ++ q). }
  assert (get_u64 B (o + 8) = Some (u64 (di_dev d))) as E1.
  { field_at B get_u64_app (p ++ m ++ pad) (f2 ++ f3 ++ f4 ++ ads ++ q). }
  assert (get_u64 B (o + 16) = Some (u64 (di_rdev d))) as E2.
  { field_at B get_u64_app (p ++ m ++ pad ++ f1) (f3 ++ f4 ++ ads ++ q). }
  assert (get_u64 B (o + 24) = Some (u64 (di_nlink d))) as E3.
  { field_at B get_u64_app (p ++ m ++ pad ++ f1 ++ f2) (f4 ++ ads ++ q). }
  assert (get_u64 B (o + 32) = Some (u64 (di_size d))) as E4.
  { field_at B get_u64_app (p ++ m ++ pad ++ f1 ++ f2 ++ f3) (ads ++ q). }
  assert (mapM (fun i => get_u64 B (o + 40 + 8 * i)) (seqZ 0 FS_IADDR_NR) = Some (u64 <$> di_addr d)) as E5.
  { rewrite <-(get_u64s_app (p ++ m ++ pad ++ f1 ++ f2 ++ f3 ++ f4) (di_addr d) q (o + 40) 0) by (rewrite !length_app; lia).
    rewrite (dr_addrs _ HR). fold ads. unfold B, d_inode_bytes. by rewrite <-!app_assoc. }
  unfold d_inode_of. rewrite Em. cbn [mbind option_bind]. rewrite E1. cbn [mbind option_bind]. rewrite E2. cbn [mbind option_bind].
  rewrite E3. cbn [mbind option_bind]. rewrite E4. cbn [mbind option_bind]. rewrite E5. cbn [mbind option_bind].
  rewrite s64_addrs by apply HR. unfold s32, s64, u32, u64. rewrite !swrap_wrap, !swrap_small by (done || apply HR).
  rewrite !wrap_small by apply HR. by destruct d.
Qed.

Lemma set_bytes_spec bs off v bs' : set_bytes bs off v = Some bs' ->
  0 <= off /\ length bs' = length bs /\ bytes_at bs' off (length v) = Some v /\
  (forall i : nat, ~ off <= Z.of_nat i < off + Z.of_nat (length v) -> bs' !! i = bs !! i).
Proof.
  unfold set_bytes. destruct (_ && _) eqn:E; [|done]. intros [= <-].
  apply andb_true_iff in E as [H1%Z.leb_le H2%Z.leb_le].
  assert (length (take (Z.to_nat off) bs) = Z.to_nat off) as Ht by (rewrite length_take; lia).
  split_and!; [done| | |].
  - rewrite !length_app, length_drop, Ht. lia.
  - apply bytes_at_app; [lia|done].
  - intros i Hi. destruct (decide (i < Z.to_nat off)%nat).
    + rewrite lookup_app_l by lia. by rewrite lookup_take_lt by lia.
    + rewrite lookup_app_r by lia. rewrite lookup_app_r by lia. rewrite lookup_drop. f_equal. lia.
Qed.

Lemma bytes_at_ext bs bs' off n :
  length bs' = length bs -> (forall i : nat, off <= Z.of_nat i < off + Z.of_nat n -> bs' !! i = bs !! i) ->
  bytes_at bs' off n = bytes_at bs off n.
Proof.
  intros Hl Hi. unfold bytes_at. destruct (Z.leb_spec 0 off) as [Ho|Ho]; [|done].
  assert (take n (drop (Z.to_nat off) bs') = take n (drop (Z.to_nat off) bs)) as ->; [|done].
  apply list_eq. intros i. destruct (decide (i < n)%nat).
  - rewrite !lookup_take_lt, !lookup_drop by lia. apply Hi. lia.
  - rewrite !lookup_take_ge by lia. done.
Qed.

(** An inode stored in a block is read back with every member, whatever
    its index, and the bytes of the other inodes of the block do not change. *)
Theorem d_inode_roundtrip bs off d :
  0 <= off -> off + D_INODE_SIZE <= Z.of_nat (length bs) -> d_inode_range d ->
  exists bs', d_inode_store bs off d = Some bs' /\ d_inode_of bs' off = Some d /\ length bs' = length bs /\
    forall i : nat, ~ off <= Z.of_nat i < off + D_INODE_SIZE -> bs' !! i = bs !! i.
Proof.
  intros Ho Hl HR. unfold d_inode_store.
  assert (length (take 4 (drop (Z.to_nat (off + 4)) bs)) = 4%nat) as H4.
  { rewrite length_take, length_drop. unfold D_INODE_SIZE in Hl. lia. }
  unfold bytes_at at 1. rewrite H4, Nat.eqb_refl, (proj2 (Z.leb_le 0 (off + 4))) by lia. cbn [andb mbind option_bind].
  set (pad := take 4 _) in *. pose proof (d_inode_bytes_length pad d H4 (dr_addrs _ HR)) as HB.
  change (Z.to_nat D_INODE_SIZE) with 168%nat in HB. change D_INODE_SIZE with 168 in *.
  assert (off + Z.of_nat (length (d_inode_bytes pad d)) <= Z.of_nat (length bs)) as Hfit by (rewrite HB; lia).
  rewrite set_bytes_eq by done.
  destruct (set_bytes_spec bs off (d_inode_bytes pad d) _ (set_bytes_eq _ _ _ Ho Hfit))
    as (_ & Hlen & _ & Hout). eexists. split; [done|]. split_and!.
  - assert (off = Z.of_nat (length (take (Z.to_nat off) bs))) as E by (rewrite length_take; lia).
    rewrite E at 3. by apply d_inode_of_bytes.
  - exact Hlen.
  - intros i Hi. apply Hout. rewrite HB. exact Hi.
Qed.

(** ** Bitmaps *)

Implicit Types (s : kst fsst).

(** The byte of a bitmap block the code takes the bit [offset] from: it has eight
    offsets to a word of eight bytes, the lowest of which has their bits. *)
Definition bm_byte (offset : Z) : nat := Z.to_nat (8 * (offset / 8)).

Lemma chunk_small offset : 0 <= offset < BITS_PER_BLOCK ->
  chunk_index offset = offset / 8 /\ chunk_mask offset = Z.shiftl 1 (offset mod 8).
Proof.
  intros H. unfold chunk_mask, chunk_index, chunk_offset. rewrite (wrap_small 64); [done|].
  unfold BITS_PER_BLOCK, BSIZE in H. lia.
Qed.

Lemma get_u64_none data k : length data = Z.to_nat BSIZE -> IADDRS_PER_BLOCK <= k -> get_u64 data (8 * k) = None.
Proof.
  intros Hl Hk. unfold get_u64, bytes_at. rewrite length_take, length_drop, Hl. change IADDRS_PER_BLOCK with 64 in Hk.
  change (Z.to_nat BSIZE) with 512%nat. replace (8 `min` (512 - Z.to_nat (8 * k)))%nat with 0%nat by lia. by rewrite andb_false_r.
Qed.

Lemma le_encode_decode l : Forall (fun b => 0 <= b < 256) l -> le_encode (length l) (le_decode l) = l.
Proof.
  induction 1 as [|b l Hb _ IH]; [done|]. cbn [le_decode le_encode length]. f_equal; [Z.to_euclidean_division_equations; lia|].
  replace ((b + 256 * le_decode l) / 256) with (le_decode l) by (Z.to_euclidean_division_equations; lia). exact IH.
Qed.

Lemma lor_clear a k : 0 <= k -> Z.testbit a k = false -> Z.lor a (2 ^ k) = a + 2 ^ k.
Proof.
  intros Hk Hb. rewrite Z.add_nocarry_lxor, Z.lxor_lor; [done|..]; apply Z.bits_inj'; intros i Hi; rewrite Z.land_spec, Z.pow2_bits_eqb, Z.bits_0 by done;
    destruct (Z.eqb_spec k i); subst; rewrite ?Hb, ?andb_false_r; done.
Qed.

Lemma setbit_byte c k : 0 <= c < 256 -> 0 <= k < 8 -> Z.testbit c k = false -> c + 2 ^ k < 256.
Proof.
  intros Hc Hk Hb. rewrite Z.testbit_false in Hb by lia.
  assert (k = 0 \/ k = 1 \/ k = 2 \/ k = 3 \/ k = 4 \/ k = 5 \/ k = 6 \/ k = 7) as Hk8 by lia.
  destruct Hk8 as [->|[->|[->|[->|[->|[->|[->| ->]]]]]]]; cbn in *; Z.to_euclidean_division_equations; lia.
Qed.

(** The word of a bitmap whose lowest byte is [c], with one of the eight lowest
    bits set. *)
Lemma chunk_word data n c : length data = Z.to_nat BSIZE -> Forall (fun b => 0 <= b < 256) data -> (n + 8 <= length data)%nat -> data !! n = Some c ->
  exists val, get_u64 data (Z.of_nat n) = Some val /\ (forall k, 0 <= k < 8 -> Z.testbit val k = Z.testbit c k) /\
    forall k, 0 <= k < 8 -> Z.testbit c k = false -> set_u64 data (Z.of_nat n) (Z.lor val (2 ^ k)) = Some (<[n := c + 2 ^ k]> data).
Proof.
  intros Hl HF Hn Hc. set (tl := take 7 (drop (S n) data)).
  assert (length tl = 7%nat) as Ht by (unfold tl; rewrite length_take, length_drop; lia).
  assert (Forall (fun b => 0 <= b < 256) tl) as HFt by (by apply Forall_take, Forall_drop).
  assert (0 <= c < 256) as Hcr by exact (Forall_lookup_1 _ _ _ _ HF Hc).
  exists (c + 256 * le_decode tl). split_and!.
  - unfold get_u64, bytes_at. rewrite Nat2Z.id, (drop_S _ _ _ Hc). cbn [take]. fold tl. cbn [length]. rewrite Ht, (proj2 (Z.leb_le _ _)) by lia. done.
  - intros k Hk. change 256 with (2 ^ 8) in *. rewrite <-(Z.mod_pow2_bits_low (c + _) 8) by lia.
    rewrite (Z.mul_comm (2 ^ 8)), Z.mod_add, Z.mod_small by lia. done.
  - intros k Hk Hb. assert (Z.testbit (c + 256 * le_decode tl) k = false) as Hbv.
    { rewrite <-Hb. change 256 with (2 ^ 8) in *. rewrite <-(Z.mod_pow2_bits_low (c + _) 8) by lia. rewrite (Z.mul_comm (2 ^ 8)), Z.mod_add, Z.mod_small by lia. done. }
    rewrite lor_clear by (done || lia). pose proof (setbit_byte c k Hcr Hk Hb) as Hlt. assert (0 < 2 ^ k) by lia.
    unfold set_u64. rewrite set_bytes_eq by (rewrite ?le_encode_length; lia). rewrite le_encode_length, Nat2Z.id. f_equal.
    assert (le_encode 8 (c + 256 * le_decode tl + 2 ^ k) = (c + 2 ^ k) :: tl) as ->.
    { change (le_encode 8 ?x) with (x mod 256 :: le_encode 7 (x / 256)). f_equal; [Z.to_euclidean_division_equations; lia|].
      replace ((c + 256 * le_decode tl + 2 ^ k) / 256) with (le_decode tl) by (Z.to_euclidean_division_equations; lia). rewrite <-Ht. by apply le_encode_decode. }
    rewrite insert_take_drop by (eapply lookup_lt_Some; exact Hc). cbn [app]. f_equal. f_equal. unfold tl. replace (n + 8)%nat with (S n + 7)%nat by lia.
    rewrite <-drop_drop. apply take_drop.
Qed.

(** C35.  Taking a bit of a bitmap block.  For the first 512 offsets a clear bit
    is taken: it is added to its byte, and no other bit of this byte and no other
    byte of the block changes; a set bit is left alone.  From offset 512 on the
    word lies outside the block, although a block is meant to hold 4096 bits: the
    offset is divided by the 8 bytes of a word, not by its 64 bits. *)
Theorem bitmap_test_and_set_correct s b v offset :
  bufs (ext s) !! b = Some v -> length (b_data v) = Z.to_nat BSIZE -> Forall (fun c => 0 <= c < 256) (b_data v) ->
  0 <= offset < BITS_PER_BLOCK ->
  (512 <= offset -> bitmap_test_and_set b offset s = Stop Fault) /\
  (offset < 512 -> exists c, b_data v !! bm_byte offset = Some c /\
     (Z.testbit c (offset mod 8) = true -> bitmap_test_and_set b offset s = Ret false s) /\
     (Z.testbit c (offset mod 8) = false ->
        bitmap_test_and_set b offset s = Ret true (map_ext s (fun f =>
          with_bufs f (<[b := with_b_data v (<[bm_byte offset := c + 2 ^ (offset mod 8)]> (b_data v))]> (bufs f)))))).
Proof.
  intros Hb Hl HF Ho. unfold bitmap_test_and_set. mred. rewrite (buf_get_eq _ _ v) by done. mred.
  unfold chunk_get, chunk_put. destruct (chunk_small offset Ho) as [-> ->]. split.
  { intros H. rewrite get_u64_none; [done|done|]. apply Z.div_le_lower_bound; [lia|]. change IADDRS_PER_BLOCK with 64. lia. }
  intros Hlt. assert (0 <= offset / 8 < 64 /\ 0 <= offset mod 8 < 8) as [H1 H2] by (Z.to_euclidean_division_equations; lia).
  change (Z.to_nat BSIZE) with 512%nat in Hl. destruct (lookup_lt_is_Some_2 (b_data v) (bm_byte offset)) as [c Hc]; [unfold bm_byte; lia|].
  destruct (chunk_word (b_data v) (bm_byte offset) c) as (val & Ev & Hbit & Hset); [done|done|unfold bm_byte; lia|done|].
  replace (Z.of_nat (bm_byte offset)) with (8 * (offset / 8)) in Ev, Hset by (unfold bm_byte; lia).
  exists c. split; [done|]. rewrite Ev. mred. rewrite land_pow2_testbit, Hbit, Z.shiftl_1_l by lia. split; intros E; rewrite E; cbn [negb]; [done|].
  rewrite Hset by done. mred. rewrite (buf_put_eq _ _ v) by done. by mred.
Qed.
