(* ===== verification/InodeLock.v ===== *)
(** Locking cached inodes (fs/inode.c): [inode_lock], [inode_unlock],
    [inode_duplicate] and [inode_put], with the load of an inode from disk. *)
From S2P Require Import Prelude KList Kernel WaitQueue Mutex CString FsState Blkio Coherence Inode.

Implicit Types (s : kst fsst) (bs : list Z) (v : inode).

Definition i_busy v : bool := ctrue (Z.land (i_flags v) I_BUSY).
Definition i_valid v : bool := ctrue (Z.land (i_flags v) I_VALID).

(** ** Reading structures from blocks *)

(** The contents [l] of block [n]. *)
Definition block_at (im : mem) (n : Z) (l : list Z) : Prop :=
  length l = Z.to_nat BSIZE /\ block_is im (u64 (n * BSIZE)) l.

Lemma block_at_mapped im n l : block_at im n l -> mapped im (u64 (n * BSIZE)) BSIZE.
Proof.
  intros [Hl Hb] i Hi. replace i with (u64 (n * BSIZE) + (i - u64 (n * BSIZE))) by lia. rewrite Hb by lia.
  apply lookup_lt_is_Some_2. rewrite Hl. lia.
Qed.

Lemma block_is_unique im a l l' :
  length l = Z.to_nat BSIZE -> length l' = Z.to_nat BSIZE -> block_is im a l -> block_is im a l' -> l = l'.
Proof.
  intros H1 H2 B1 B2. apply list_eq. intros i. destruct (decide (i < Z.to_nat BSIZE)%nat).
  - rewrite <-(Nat2Z.id i), <-B1, <-B2 by lia. done.
  - rewrite !lookup_ge_None_2 by lia. done.
Qed.

(** A read of a block that only looks at its contents. *)
Lemma look_at_block {A B} fuel dev d s bs n l (g : list Z -> option A) a :
  disk_ok dev d s bs -> block_at (image (ext s)) n l -> g l = Some a ->
  exists s' bs', disk_ok dev d s' bs' /\ cache_step s bs s' bs' /\
    forall k : A -> F B,
      (b ← buffer_cache_blk_read fuel dev n; v ← buf_get b; a ← deref (g (b_data v));
       buffer_cache_blk_release fuel b;; k a) s = k a s'.
Proof.
  intros HO Hl Hg. destruct (blk_read_ok fuel dev d s bs n HO (block_at_mapped _ _ _ Hl)) as (l1 & b & l2 & bv & -> & HR & E).
  destruct (blk_release_ok fuel dev d s l1 b l2 bv n _ HO HR eq_refl) as (s2 & E2 & HS & HO2).
  exists s2, (b :: l1 ++ l2). split_and!; [done|done|]. intros k. mred. rewrite E. mred.
  rewrite (buf_get_eq _ _ bv) by (cbn; by rewrite lookup_insert_eq). mred.
  assert (b_data bv = l) as -> by (eapply block_is_unique; [apply HR|apply Hl|apply HR|apply Hl]).
  rewrite Hg. mred. by rewrite E2.
Qed.

(** The superblock of the disk. *)
Definition superblock_at (im : mem) (sb : superblock) : Prop :=
  exists l, block_at im SUPER_BLOCK_BLK_NO l /\ superblock_of l = Some sb.

Lemma read_superblock_ok {B} fuel dev d s bs sb :
  disk_ok dev d s bs -> superblock_at (image (ext s)) sb ->
  exists s' bs', disk_ok dev d s' bs' /\ cache_step s bs s' bs' /\
    forall k : superblock -> F B, (sb ← read_superblock fuel dev; k sb) s = k sb s'.
Proof.
  intros HO (l & Hl & Hsb).
  destruct (look_at_block (B := superblock) fuel dev d s bs _ l superblock_of sb HO Hl Hsb) as (s' & bs' & HO' & HS & Hk).
  exists s', bs'. split_and!; [done|done|]. intros k. unfold read_superblock.
  pose proof (Hk mret) as H1. mred. mred in H1. rewrite H1. done.
Qed.

(** The block of inode [ino], and its place there. *)
Definition inode_block (sb : superblock) (ino : Z) : Z :=
  u32 (RESV_BLOCK_NR + SUPER_BLOCK_BLK_NR + s_imap_blocks sb + s_bmap_blocks sb) + ino / INODES_PER_BLOCK.

Definition disk_inode (im : mem) (sb : superblock) (ino : Z) (d : d_inode) : Prop :=
  exists l, block_at im (inode_block sb ino) l /\ d_inode_of l (D_INODE_SIZE * (ino mod INODES_PER_BLOCK)) = Some d.

(** ** Frame lemmas: the disk does not depend on the inodes, nor on the mutex of
    the inode cache *)

Lemma disk_ok_slot dev d s bs ip v : disk_ok dev d s bs -> disk_ok dev d (with_slot s ip v) bs.
Proof. intros [H1 H2 H3 H4 H5 H6]. by split. Qed.

Lemma quiet_other s mtx mtx' x : mtx' <> mtx -> quiet s mtx -> quiet (with_mutexes s (<[mtx' := x]> (mutexes s))) mtx.
Proof. intros Hne [E R]. split; [|done]. cbn. by rewrite lookup_insert_ne. Qed.

Lemma disk_ok_icache dev d s bs x :
  disk_ok dev d s bs -> disk_ok dev d (with_mutexes s (<[MtxIcache := x]> (mutexes s))) bs.
Proof.
  intros [H1 H2 (R1 & R2 & R3) H4 H5 H6]. split; try done; [by apply quiet_other|].
  split_and!; [by apply quiet_other|by apply quiet_other|apply R3..].
Qed.

Lemma cache_step_slot s bs s' bs' ip v :
  cache_step s bs s' bs' -> cache_step (with_slot s ip v) bs (with_slot s' ip v) bs'.
Proof. intros (m & B & -> & HF & HP). by exists m, B. Qed.

Lemma cache_step_section s bs s' bs' mtx :
  quiet s mtx -> cache_step (hold s mtx) bs s' bs' ->
  cache_step s bs (freed s' mtx) bs' /\ mutex_release mtx s' = Ret tt (freed s' mtx) /\ quiet (freed s' mtx) mtx.
Proof.
  intros HQ (m & B & -> & HF & HP). pose proof (quiet_frame s m bs mtx HF HQ) as [_ HR]. split_and!.
  - exists m, B. split_and!; [|done|done]. unfold freed, hold, map_ext. cbn. rewrite insert_insert_eq.
    rewrite (insert_id _ _ _ (proj1 HQ)). by destruct s.
  - apply (release_eq _ _ (current s)); [cbn; by rewrite lookup_insert_eq|done].
  - split; [cbn; by rewrite lookup_insert_eq|done].
Qed.

Lemma with_slot_slot s ip v v' : with_slot (with_slot s ip v) ip v' = with_slot s ip v'.
Proof. unfold with_slot, map_ext. cbn. by rewrite insert_insert_eq. Qed.

Lemma with_slot_get s ip v : inodes (ext (with_slot s ip v)) !! ip = Some v.
Proof. cbn. by rewrite lookup_insert_eq. Qed.

Lemma cache_step_inodes s bs s' bs' : cache_step s bs s' bs' -> inodes (ext s') = inodes (ext s) /\ image (ext s') = image (ext s).
Proof. by intros (m & B & -> & _). Qed.

Lemma bind_ret2 {A B} (c : F A) (f : A -> F B) s r : c s = r -> (a ← c; f a) s = run_bind r f.
Proof. by intros <-. Qed.

Lemma deref_bind {A B} (a : A) (k : A -> F B) s : (x ← deref (Some a); k x) s = k a s.
Proof. done. Qed.

(** ** Loading an inode *)

Definition lock_bits v : inode := with_i_flags v (Z.lor (i_flags v) I_BUSY).
Definition loaded v (d : d_inode) : inode :=
  let w := inode_of_disk (lock_bits v) d in with_i_flags w (Z.lor (i_flags w) I_VALID).

(** The part of [inode_lock] that reads the inode from disk. *)
Lemma inode_load {B} fuel dev dr s bs ip v sb d (k : F B) :
  disk_ok dev dr s bs -> superblock_at (image (ext s)) sb -> disk_inode (image (ext s)) sb (inum v) d ->
  inodes (ext s) !! ip = Some v -> i_dev v = dev ->
  exists s' bs', disk_ok dev dr s' bs' /\
    cache_step (with_slot s ip (inode_of_disk v d)) bs s' bs' /\
    (_ ← read_superblock fuel (i_dev v); r ← read_disk_inode fuel (i_dev v) (inum v); b ← buf_get r.1;
     d ← deref (d_inode_of (b_data b) r.2); v ← inode_ld ip; inode_st ip (inode_of_disk v d);;
     buffer_cache_blk_release fuel r.1;; k) s = k s'.
Proof.
  intros HO Hsb (l & Hl & Hd) Hv Hdev. rewrite Hdev.
  destruct (read_superblock_ok (B := B) fuel dev dr s bs sb HO Hsb) as (s2 & b2 & HO2 & HS2 & Hk2). rewrite Hk2. clear Hk2.
  destruct (cache_step_inodes _ _ _ _ HS2) as [Ei2 Em2].
  destruct (read_superblock_ok (B := Z * Z) fuel dev dr s2 b2 sb HO2) as (s3 & b3 & HO3 & HS3 & Hk3); [by rewrite Em2|].
  destruct (cache_step_inodes _ _ _ _ HS3) as [Ei3 Em3].
  unfold read_disk_inode. rewrite (bind_ret2 _ _ _ _ (Hk3 _)).
  destruct (blk_read_ok fuel dev dr s3 b3 (inode_block sb (inum v)) HO3) as (l1 & b & l2 & bv & -> & HR & E).
  { rewrite Em3, Em2. by eapply block_at_mapped. }
  fold (inode_block sb (inum v)). mred. rewrite E. mred. cbn [fst snd].
  rewrite (buf_get_eq _ _ bv) by (cbn; by rewrite lookup_insert_eq). mred.
  assert (b_data bv = l) as ->.
  { eapply block_is_unique; [apply HR|apply Hl|apply HR|]. rewrite Em3, Em2. apply Hl. }
  rewrite Hd. mred. assert (inodes (ext s3) !! ip = Some v) as Hv3 by (by rewrite Ei3, Ei2).
  rewrite (inode_ld_eq _ _ v) by done. mred. rewrite (inode_st_eq _ _ v) by done. mred.
  set (v2 := inode_of_disk v d).
  destruct (blk_release_ok fuel dev dr (with_slot s3 ip v2) l1 b l2 bv (inode_block sb (inum v))
    (map_ext (with_slot s3 ip v2) (fun f => with_bufs f (<[b := bv]> (bufs f)))) (disk_ok_slot _ _ _ _ _ _ HO3))
    as (s5 & E5 & HS5 & HO5); [by destruct HR; split|done|].
  exists s5, (b :: l1 ++ l2). split_and!; [done| |].
  - eapply cache_step_trans; [|exact HS5]. apply cache_step_slot. by eapply cache_step_trans.
  - match goal with |- run_bind (buffer_cache_blk_release _ _ ?x) _ = _ =>
      change x with (map_ext (with_slot s3 ip v2) (fun f => with_bufs f (<[b := bv]> (bufs f)))) end.
    by rewrite E5.
Qed.

(** ** Lock and unlock *)

Lemma i_busy_bit z : ctrue (Z.land z I_BUSY) = Z.testbit z 0.
Proof. exact (busy_bit z). Qed.
Lemma i_valid_bit z : ctrue (Z.land z I_VALID) = Z.testbit z 1.
Proof. exact (valid_bit z). Qed.

Lemma lock_bits_busy v : i_busy (lock_bits v) = true.
Proof. unfold i_busy, lock_bits. cbn. rewrite i_busy_bit, Z.lor_spec. apply orb_true_r. Qed.
Lemma lock_bits_valid v : i_valid (lock_bits v) = i_valid v.
Proof. unfold i_valid, lock_bits. cbn. rewrite !i_valid_bit, Z.lor_spec. apply orb_false_r. Qed.

Lemma inode_lock_free fuel s ip v :
  quiet s MtxIcache -> inodes (ext s) !! ip = Some v -> 0 < ref v -> i_busy v = false ->
  inode_lock fuel ip s = ((if i_valid v then mret tt else
     _ ← read_superblock fuel (i_dev v); r ← read_disk_inode fuel (i_dev v) (inum v); b ← buf_get r.1;
     d ← deref (d_inode_of (b_data b) r.2); v ← inode_ld ip; inode_st ip (inode_of_disk v d);;
     buffer_cache_blk_release fuel r.1;;
     v ← inode_ld ip; inode_st ip (with_i_flags v (Z.lor (i_flags v) I_VALID)));;
     mutex_release MtxIcache) (with_slot (hold s MtxIcache) ip (lock_bits v)).
Proof.
  intros HQ Hv Hr Hb. unfold inode_lock. mred. rewrite (inode_ld_eq _ _ v) by done. mred.
  rewrite (proj2 (Z.ltb_lt _ _) Hr). mred. rewrite hold_eq by done. mred.
  assert (inode_lock_wait fuel fuel ip (hold s MtxIcache) = Ret tt (hold s MtxIcache)) as ->.
  { unfold i_busy in Hb. destruct fuel; cbn [inode_lock_wait]; mred; rewrite (inode_ld_eq _ _ v) by done; mred; by rewrite Hb. }
  mred. rewrite (inode_ld_eq _ _ v) by done. mred. rewrite (inode_st_eq _ _ v) by done. mred.
  rewrite (inode_ld_eq _ _ (lock_bits v)) by apply with_slot_get. mred.
  fold (i_valid (lock_bits v)). rewrite lock_bits_valid. done.
Qed.

Lemma inode_lock_valid fuel s ip v :
  quiet s MtxIcache -> inodes (ext s) !! ip = Some v -> 0 < ref v -> i_busy v = false -> i_valid v = true ->
  inode_lock fuel ip s = Ret tt (with_slot s ip (lock_bits v)).
Proof.
  intros HQ Hv Hr Hb Hval. rewrite (inode_lock_free _ _ _ v) by done. rewrite Hval. mred.
  exact (release_after s MtxIcache _ HQ).
Qed.

Definition unlock_bits v : inode := with_i_flags v (Z.land (i_flags v) (Z.lnot I_BUSY)).

Lemma unlock_lock_bits v : i_busy v = false -> unlock_bits (lock_bits v) = v.
Proof.
  unfold i_busy. rewrite i_busy_bit. intros Hb.
  assert (Z.land (Z.lor (i_flags v) I_BUSY) (Z.lnot I_BUSY) = i_flags v) as E.
  { apply Z.bits_inj'. intros i Hi. rewrite Z.land_spec, Z.lor_spec, Z.lnot_spec by done. change I_BUSY with (2 ^ 0).
    rewrite Z.pow2_bits_eqb by lia. destruct (Z.eqb_spec 0 i) as [<-|]; [by rewrite Hb|]. by rewrite orb_false_r, andb_true_r. }
  unfold unlock_bits, lock_bits, with_i_flags. cbn. rewrite E. by destruct v.
Qed.

Lemma inode_unlock_eq fuel s ip v :
  quiet s MtxIcache -> inodes (ext s) !! ip = Some v -> i_busy v = true ->
  is_ring (links s) (WqHead (inode_waiters ip)) [] ->
  inode_unlock fuel ip s = Ret tt (with_slot s ip (unlock_bits v)).
Proof.
  intros HQ Hv Hb HW. unfold inode_unlock. mred. rewrite hold_eq by done. mred.
  rewrite (inode_ld_eq _ _ v) by done. mred. unfold i_busy in Hb. rewrite Hb. mred.
  rewrite (inode_st_eq _ _ v) by done. mred.
  rewrite (wque_wakeup_empty _ _ []) by (split; [exact HW|constructor|constructor|set_solver]). mred.
  exact (release_after s MtxIcache _ HQ).
Qed.

Lemma inode_lock_load fuel dev dr s bs ip v sb d :
  quiet s MtxIcache -> disk_ok dev dr s bs -> inodes (ext s) !! ip = Some v -> i_dev v = dev ->
  0 < ref v -> i_busy v = false -> i_valid v = false ->
  superblock_at (image (ext s)) sb -> disk_inode (image (ext s)) sb (inum v) d ->
  exists s' bs', inode_lock fuel ip s = Ret tt s' /\ disk_ok dev dr s' bs' /\ quiet s' MtxIcache /\
    cache_step (with_slot s ip (loaded v d)) bs s' bs'.
Proof.
  intros HQ HO Hv Hdev Hr Hb Hval Hsb Hd. rewrite (inode_lock_free _ _ _ v) by done. rewrite Hval.
  set (s1 := with_slot (hold s MtxIcache) ip (lock_bits v)).
  assert (disk_ok dev dr s1 bs) as HO1 by (apply disk_ok_slot, disk_ok_icache, HO).
  set (w := inode_of_disk (lock_bits v) d).
  destruct (inode_load (B := unit) fuel dev dr s1 bs ip (lock_bits v) sb d
    (v ← inode_ld ip; inode_st ip (with_i_flags v (Z.lor (i_flags v) I_VALID))))
    as (s2 & b2 & HO2 & HS2 & E2); [done|done|done|apply with_slot_get|done|].
  change (i_dev (lock_bits v)) with (i_dev v) in E2. change (inum (lock_bits v)) with (inum v) in E2.
  rewrite (bind_ret2 _ _ _ _ E2). clear E2. destruct (cache_step_inodes _ _ _ _ HS2) as [Ei _].
  assert (inodes (ext s2) !! ip = Some w) as Hw by (rewrite Ei; apply with_slot_get).
  mred. rewrite (inode_ld_eq _ _ w) by done. mred. rewrite (inode_st_eq _ _ w) by done. mred. fold (loaded v d).
  assert (cache_step (hold (with_slot s ip (loaded v d)) MtxIcache) bs (with_slot s2 ip (loaded v d)) b2) as HS3.
  { apply (cache_step_slot _ _ _ _ ip (loaded v d)) in HS2. unfold s1 in HS2. by rewrite !with_slot_slot in HS2. }
  destruct (cache_step_section (with_slot s ip (loaded v d)) bs _ b2 MtxIcache HQ HS3) as (HS4 & E4 & HQ4).
  eexists _, b2. split; [exact E4|]. split_and!; [|done|done]. apply disk_ok_icache, disk_ok_slot, HO2.
Qed.

(** What holds whatever the other threads do. *)
Abbreviation always c Q := (wp (fun _ => True) (fun _ => True) (fun _ _ => True) c Q).

Lemma always_true {A} (c : run (kst fsst) A) : always c (fun _ _ => True).
Proof. induction c as [a s|w|s k IH]; cbn; auto. Qed.

Lemma inode_lock_wait_free fuel rounds ip s :
  always (inode_lock_wait fuel rounds ip s) (fun _ s' => exists v, inodes (ext s') !! ip = Some v /\ i_busy v = false).
Proof.
  revert s. induction rounds as [|rounds IH]; intros s; cbn [inode_lock_wait]; mred; unfold inode_ld, fs_state; mred;
    destruct (inodes (ext s) !! ip) as [v|] eqn:Hv; cbn; auto; fold (i_busy v); destruct (i_busy v) eqn:Hb; cbn; eauto.
  apply wp_bind. eapply wp_mono; [|apply always_true]. intros reason s' _. cbn. destruct (reason =? _); cbn; auto.
Qed.

(** ** The loaded inode, in terms of the bytes on disk *)

(** The number in the [n] bytes from [a] on, the lowest first. *)
Fixpoint disk_word (im : mem) (a : Z) (n : nat) : Z :=
  match n with O => 0 | S n => default 0 (im !! a) + 256 * disk_word im (a + 1) n end.

(** Where the inode [ino] starts on the disk. *)
Definition inode_addr (sb : superblock) (ino : Z) : Z := u64 (inode_block sb ino * BSIZE) + D_INODE_SIZE * (ino mod INODES_PER_BLOCK).

(** The cached inode [w] that the load makes of [v]: who it is, its references and
    its device stay, it is busy and valid, and the rest is what the disk has: the
    mode in 4 bytes, after the padding and the device, which are skipped, the
    device number, the link count, the size and the 16 block numbers in 8 bytes
    each. *)
Record inode_loaded (im : mem) (sb : superblock) v w : Prop := InodeLoaded {
  ld_inum : inum w = inum v;
  ld_ref : ref w = ref v;
  ld_dev : i_dev w = i_dev v;
  ld_flags : i_flags w = Z.lor (Z.lor (i_flags v) I_BUSY) I_VALID;
  ld_mode : i_mode w = s32 (disk_word im (inode_addr sb (inum v)) 4);
  ld_rdev : i_rdev w = disk_word im (inode_addr sb (inum v) + 16) 8;
  ld_nlink : i_nlink w = s64 (disk_word im (inode_addr sb (inum v) + 24) 8);
  ld_size : i_size w = disk_word im (inode_addr sb (inum v) + 32) 8;
  ld_addrs : length (i_addr w) = 16%nat;
  ld_addr : forall j, (j < 16)%nat -> i_addr w !! j = Some (s64 (disk_word im (inode_addr sb (inum v) + 40 + 8 * Z.of_nat j) 8)) }.

Lemma le_decode_word im a l : forall off n, (off + n <= length l)%nat -> (forall i, (i < length l)%nat -> im !! (a + Z.of_nat i) = l !! i) ->
  le_decode (take n (drop off l)) = disk_word im (a + Z.of_nat off) n.
Proof.
  intros off n. revert off. induction n as [|n IH]; intros off Hl Him; [by rewrite take_0|].
  destruct (lookup_lt_is_Some_2 l off ltac:(lia)) as [x Hx]. rewrite (drop_S _ _ _ Hx). cbn [take le_decode disk_word].
  rewrite Him, Hx, (IH (S off)) by (done || lia). cbn [default]. do 3 f_equal. lia.
Qed.

Lemma bytes_word im n l off k bs : block_at im n l -> bytes_at l off k = Some bs -> le_decode bs = disk_word im (u64 (n * BSIZE) + off) k.
Proof.
  intros [Hl Hb] E. unfold bytes_at in E. destruct (Z.leb_spec 0 off) as [H0|]; [|done]. cbn [andb] in E.
  destruct (Nat.eqb_spec (length (take k (drop (Z.to_nat off) l))) k) as [Ek|]; [|done]. injection E as <-.
  rewrite length_take, length_drop in Ek. destruct (decide (k = 0)%nat) as [->|Hk]; [by rewrite take_0|].
  rewrite (le_decode_word im (u64 (n * BSIZE)) l); [do 2 f_equal; lia|lia|].
  intros i Hi. rewrite Hb by lia. by rewrite Nat2Z.id.
Qed.

Lemma get_u32_word im n l off x : block_at im n l -> get_u32 l off = Some x -> x = disk_word im (u64 (n * BSIZE) + off) 4.
Proof. intros Hb E. unfold get_u32 in E. apply fmap_Some in E as (bs & E & ->). by eapply bytes_word. Qed.
Lemma get_u64_word im n l off x : block_at im n l -> get_u64 l off = Some x -> x = disk_word im (u64 (n * BSIZE) + off) 8.
Proof. intros Hb E. unfold get_u64 in E. apply fmap_Some in E as (bs & E & ->). by eapply bytes_word. Qed.

Lemma loaded_from_disk im sb v d : disk_inode im sb (inum v) d -> inode_loaded im sb v (loaded v d).
Proof.
  intros (l & Hl & Hd). unfold d_inode_of in Hd.
  apply bind_Some in Hd as (m & Em & Hd). apply bind_Some in Hd as (dev & Edev & Hd). apply bind_Some in Hd as (rdev & Erdev & Hd).
  apply bind_Some in Hd as (nl & Enl & Hd). apply bind_Some in Hd as (sz & Esz & Hd). apply bind_Some in Hd as (addrs & Ea & [= <-]).
  apply mapM_Some in Ea. pose proof (Forall2_length _ _ _ Ea) as Hlen. rewrite length_seqZ in Hlen.
  split; cbn [loaded inode_of_disk lock_bits with_i_flags inum ref i_dev i_flags i_mode i_rdev i_nlink i_size i_addr di_mode di_rdev di_nlink di_size di_addr];
    try done; unfold inode_addr; rewrite <-?Z.add_assoc.
  - f_equal. by eapply get_u32_word.
  - by eapply get_u64_word.
  - f_equal. by eapply get_u64_word.
  - by eapply get_u64_word.
  - by rewrite length_fmap, <-Hlen.
  - intros j Hj. rewrite list_lookup_fmap. destruct (lookup_lt_is_Some_2 addrs j) as [x Hx]; [rewrite <-Hlen; exact Hj|]. rewrite Hx.
    destruct (Forall2_lookup_r _ _ _ _ _ Ea Hx) as (y & Hy & Ey). apply lookup_seqZ in Hy as [-> _].
    rewrite (get_u64_word _ _ _ _ _ Hl Ey), !Z.add_assoc, Z.add_0_l. done.
Qed.

(** C16.  Locking an inode.  A cached inode that is valid is marked busy, and
    unlocking it restores the state.  One that is not valid yet is loaded: it
    becomes busy and valid, its mode, device number, link count, size and block
    numbers become the numbers in the bytes of the inode on disk, its device, its
    number and its references are kept, and only the buffer cache changes
    besides.  Whatever other threads do while it waits, a locker goes on only
    when the inode is not busy. *)
Theorem inode_lock_correct fuel dev dr s bs ip v :
  quiet s MtxIcache -> disk_ok dev dr s bs -> inodes (ext s) !! ip = Some v -> i_dev v = dev ->
  0 < ref v -> i_busy v = false ->
  (i_valid v = true ->
     inode_lock fuel ip s = Ret tt (with_slot s ip (lock_bits v)) /\
     (is_ring (links s) (WqHead (inode_waiters ip)) [] -> (inode_lock fuel ip;; inode_unlock fuel ip) s = Ret tt s)) /\
  (forall sb d, i_valid v = false -> superblock_at (image (ext s)) sb -> disk_inode (image (ext s)) sb (inum v) d ->
     exists s' bs' w, inode_lock fuel ip s = Ret tt s' /\ inode_loaded (image (ext s)) sb v w /\
       disk_ok dev dr s' bs' /\ quiet s' MtxIcache /\ cache_step (with_slot s ip w) bs s' bs') /\
  (forall rounds s0, always (inode_lock_wait fuel rounds ip s0)
     (fun _ s' => exists w, inodes (ext s') !! ip = Some w /\ i_busy w = false)).
Proof.
  intros HQ HO Hv Hdev Hr Hb. split_and!.
  - intros Hval. split; [by apply inode_lock_valid|]. intros HW. mred. rewrite (inode_lock_valid _ _ _ v) by done. mred.
    rewrite (inode_unlock_eq _ _ _ (lock_bits v)) by (done || apply with_slot_get || apply lock_bits_busy).
    rewrite with_slot_slot, unlock_lock_bits by done. unfold with_slot, map_ext. f_equal. cbn. rewrite insert_id by done.
    destruct s as [??????????????? ? [????]]. done.
  - intros sb d Hval Hsb Hd. destruct (inode_lock_load fuel dev dr s bs ip v sb d) as (s' & bs' & E & HO' & HQ' & HS); [done..|].
    exists s', bs', (loaded v d). split_and!; [done|by apply loaded_from_disk|done|done|done].
  - intros rounds s0. apply inode_lock_wait_free.
Qed.
