(* ===== verification/Directory.v ===== *)
(** Directories (fs/inode.c): the correctness of [inode_dirlookup], over the
    reading of files and the inode cache (Inode.v).  The walk along a path is in
    Namei.v. *)
From S2P Require Import Prelude Bitops KList Kernel ThreadInfo ReadyQueue Sched WaitQueue Mutex CString FsState Blkio Coherence Inode DiskLayout InodeLock.

Implicit Types (s : kst fsst) (bs : list Z) (v : inode).

(** ** Directories on disk *)

(** The entry number [k] of a directory: an inode number and a name. *)
Definition dirent_at (im : mem) v (k : Z) (e : Z * list Z) : Prop :=
  0 <= e.1 < 2 ^ 32 /\ nonzero e.2 /\ exists pad, (length e.2 + 1 + length pad = 60)%nat /\
    forall i, 0 <= i < 64 -> file_byte im v (64 * k + i) = (le_encode 4 e.1 ++ cstr e.2 pad) !! Z.to_nat i.

Record directory (im : mem) v (ents : list (Z * list Z)) : Prop := {
  dir_mode : i_mode v = FS_IMODE_DIR;
  dir_size : i_size v = 64 * Z.of_nat (length ents);
  dir_blocks : direct_file im v 0 (i_size v);
  dir_ents : forall k e, ents !! k = Some e -> dirent_at im v (Z.of_nat k) e }.

(** The entry [inode_dirlookup] looks for: in use, and with a name the wanted
    one is a beginning of. *)
Definition matches (name : list Z) (e : Z * list Z) : bool := negb (e.1 =? 0) && bool_decide (take 60 name `prefix_of` e.2).
Fixpoint dir_find (name : list Z) (off : Z) (ents : list (Z * list Z)) : option (Z * Z) :=
  match ents with
  | [] => None
  | e :: ents => if matches name e then Some (e.1, off) else dir_find name (off + 64) ents
  end.

Lemma list_eq_64 (l l' : list Z) (f : Z -> option Z) : length l = 64%nat -> length l' = 64%nat ->
  (forall i, 0 <= i < 64 -> l !! Z.to_nat i = f i) -> (forall i, 0 <= i < 64 -> f i = l' !! Z.to_nat i) -> l = l'.
Proof.
  intros Hl Hl' H1 H2. apply list_eq. intros i. destruct (decide (i < 64)%nat) as [Hi|Hi].
  - rewrite <-(Nat2Z.id i). by rewrite H1, H2 by lia.
  - by rewrite !lookup_ge_None_2 by lia.
Qed.

Lemma read_dirent_ok fuel dev d s bs dp v ents k e :
  disk_ok dev d s bs -> inodes (ext s) !! dp = Some v -> i_dev v = dev -> directory (image (ext s)) v ents -> ents !! k = Some e ->
  exists s' bs' pad, read_dirent fuel dp (64 * Z.of_nat k) s = Ret (DDirent e.1 (cstr e.2 pad)) s' /\ disk_ok dev d s' bs' /\ cache_step s bs s' bs'.
Proof.
  intros HO Hv Hdev [Hmode Hsize Hblocks Hents] Hk. destruct (Hents k e Hk) as (Hino & Hname & pad & Hlen & Hbytes).
  assert (k < length ents)%nat as Hkl by (by eapply lookup_lt_Some). assert (i_size v <= 6144) as Hmax by (destruct Hblocks as [Hf _]; exact Hf).
  destruct (inode_read_ok fuel dev d s bs dp v (64 * Z.of_nat k) 64) as (s' & bs' & l & E & Hl & HL & HO' & HS);
    [done|done|done|by rewrite Hmode|done|lia|lia|lia|].
  rewrite Z.min_l in E, Hl, HL by lia. change (Z.to_nat 64) with 64%nat in Hl.
  assert (l = le_encode 4 e.1 ++ cstr e.2 pad) as ->.
  { apply (list_eq_64 _ _ (fun i => file_byte (image (ext s)) v (64 * Z.of_nat k + i))); [done| |exact HL|exact Hbytes].
    unfold cstr. rewrite length_app, le_encode_length, length_app. cbn [length]. lia. }
  exists s', bs', pad. split_and!; [|done|done]. unfold read_dirent. change D_DIRENT_SIZE with 64. mred. rewrite E. mred. cbn [fst snd Z.eqb Pos.eqb]. mred.
  unfold d_dirent_of. rewrite <-(app_nil_l (le_encode 4 e.1 ++ _)). rewrite (get_u32_app [] e.1 _ 0) by done. cbn [mbind option_bind app].
  assert (bytes_at (le_encode 4 e.1 ++ cstr e.2 pad) 4 60 = Some (cstr e.2 pad)) as ->.
  { rewrite <-(app_nil_r (cstr e.2 pad)) at 1. apply bytes_at_app; [by rewrite le_encode_length|]. unfold cstr. rewrite length_app. cbn [length]. lia. }
  cbn [mbind option_bind]. unfold u32. by rewrite wrap_small by lia.
Qed.

Lemma cache_step_directory s bs s' bs' dp v ents : cache_step s bs s' bs' -> inodes (ext s) !! dp = Some v -> directory (image (ext s)) v ents ->
  inodes (ext s') !! dp = Some v /\ directory (image (ext s')) v ents.
Proof. intros HS. destruct (cache_step_inodes _ _ _ _ HS) as [-> ->]. done. Qed.

Lemma matches_strncmp cs rest e pad : nonzero cs -> nonzero e.2 -> e.1 <> 0 ->
  exists r, strncmp (cstr cs rest) (cstr e.2 pad) FNAME_MAX = Some r /\ (r =? 0) = matches cs e.
Proof.
  intros Hc He Hz. destruct (strncmp_loop_spec cs e.2 rest pad FNAME_MAX Hc He) as (r & E & Hr); [unfold FNAME_MAX; lia|].
  exists r. split; [exact E|]. unfold matches. rewrite (proj2 (Z.eqb_neq _ _) Hz). cbn [negb andb]. apply eq_true_iff_eq.
  rewrite Z.eqb_eq, bool_decide_eq_true. exact Hr.
Qed.

Lemma dirlookup_loop_ok fuel dev d dp v ents cs rest : i_dev v = dev -> nonzero cs -> forall todo rounds s bs k,
  disk_ok dev d s bs -> inodes (ext s) !! dp = Some v -> directory (image (ext s)) v ents ->
  drop k ents = todo -> (k <= length ents)%nat -> (length todo < rounds)%nat ->
  exists s' bs', disk_ok dev d s' bs' /\ cache_step s bs s' bs' /\
    dirlookup_loop fuel rounds dp (cstr cs rest) (64 * Z.of_nat k) s =
      match dir_find cs (64 * Z.of_nat k) todo with
      | None => Ret (NULL, 0) s'
      | Some (ino, off) => (ip ← inode_get fuel dev ino; mret (ip, off)) s'
      end.
Proof.
  intros Hdev Hcs todo. induction todo as [|e todo IH]; intros rounds s bs k HO Hv HD Htodo Hk Hr.
  all: pose proof HD as [_ Hsize [Hmax _] Hents]; destruct rounds as [|rounds]; [cbn in Hr; lia|]; cbn [dirlookup_loop dir_find].
  all: unfold FS_IADDR_DIRECT_NR, BSIZE in Hmax.
  { exists s, bs. split_and!; [done|apply cache_step_refl|]. mred. rewrite (inode_ld_eq _ _ v) by done. mred.
    assert (length (drop k ents) = 0%nat) as Hl by (by rewrite Htodo). rewrite length_drop in Hl.
    unfold u64. rewrite wrap_small by lia. by rewrite (proj2 (Z.leb_le _ _)) by lia. }
  assert (ents !! k = Some e) as He by (rewrite <-(Nat.add_0_r k), <-lookup_drop, Htodo; done).
  assert (k < length ents)%nat as Hkl by (by eapply lookup_lt_Some).
  assert (drop (S k) ents = todo) as Hnext by (rewrite <-Nat.add_1_r, <-drop_drop, Htodo; done).
  destruct (read_dirent_ok fuel dev d s bs dp v ents k e HO Hv Hdev HD He) as (s1 & bs1 & pad & E1 & HO1 & HS1).
  destruct (cache_step_directory _ _ _ _ _ _ _ HS1 Hv HD) as [Hv1 HD1].
  destruct (Hents k e He) as (Hino & Hname & _).
  destruct (IH rounds s1 bs1 (S k)) as (s2 & bs2 & HO2 & HS2 & E2); [done|done|done|done|lia|cbn in Hr; lia|].
  replace (64 * Z.of_nat (S k)) with (64 * Z.of_nat k + 64) in E2 by lia.
  rewrite (bind_ret _ _ _ _ _ (inode_ld_eq _ _ _ Hv)). unfold u64. rewrite wrap_small by lia. rewrite (proj2 (Z.leb_gt _ _)) by lia.
  rewrite (bind_ret _ _ _ _ _ E1). change D_DIRENT_SIZE with 64. cbn [d_ino d_name].
  destruct (Z.eqb_spec e.1 0) as [E0|Hz].
  - assert (matches cs e = false) as -> by (unfold matches; by rewrite E0). exists s2, bs2. split_and!; [done|by eapply cache_step_trans|exact E2].
  - destruct (matches_strncmp cs rest e pad Hcs Hname Hz) as (r & Er & Hm). rewrite Er. unfold deref.
    rewrite (bind_ret _ _ s1 r s1) by done. rewrite Hm. destruct (matches cs e).
    + exists s1, bs1. split_and!; [done|done|]. rewrite (bind_ret _ _ _ _ _ (inode_ld_eq _ _ _ Hv1)). by rewrite Hdev.
    + exists s2, bs2. split_and!; [done|by eapply cache_step_trans|exact E2].
Qed.

Lemma icache_ok_step s bs s' bs' : cache_step s bs s' bs' -> icache_ok s -> icache_ok s'.
Proof.
  intros HS [H1 H2 H3]. destruct (cache_step_inodes _ _ _ _ HS) as [Ei _].
  assert (forall dev n ip, caches s' dev n ip = caches s dev n ip) as Hc by (intros; unfold caches; by rewrite Ei).
  split.
  - intros ip. rewrite Ei. apply H1.
  - intros ip w. rewrite Ei. apply H2.
  - intros dev n ip ip'. rewrite !Hc. apply H3.
Qed.
