(* ===== verification/Namei.v ===== *)
(** Path names (fs/inode.c): the walk of [inode_namei] and [inode_nameiparent]
    along the directories of a disk, against the resolution of a path in the
    tree the disk holds.  The walk keeps the inode cache consistent with the
    disk and loses no reference. *)
From S2P Require Import Prelude Bitops KList Kernel ThreadInfo ReadyQueue Sched WaitQueue Mutex CString FsState Blkio Coherence Inode DiskLayout InodeLock Directory.

Implicit Types (s : kst fsst) (bs : list Z) (v : inode).

(** ** Sums over the slots of the inode cache *)

Definition total (f : ptr -> Z) (l : list ptr) : Z := foldr (fun p a => f p + a) 0 l.

Lemma total_ext f g l : (forall p, p ∈ l -> f p = g p) -> total f l = total g l.
Proof. induction l as [|p l IH]; intros H; cbn [total foldr]; [done|]. rewrite H by set_solver. f_equal. apply IH. set_solver. Qed.

Lemma total_zero f l : (forall p, p ∈ l -> f p = 0) -> total f l = 0.
Proof. induction l as [|p l IH]; intros H; cbn; [done|]. rewrite H by set_solver. apply IH. set_solver. Qed.

Lemma total_change f g l p :
  NoDup l -> p ∈ l -> (forall q, q ∈ l -> q <> p -> g q = f q) -> total g l = total f l + g p - f p.
Proof.
  intros HN Hp H. induction l as [|q l IH]; [by apply elem_of_nil in Hp|]. apply NoDup_cons in HN as [Hq HN]. cbn [total foldr]. fold (total g l) (total f l).
  destruct (decide (q = p)) as [->|Hne].
  - rewrite (total_ext g f); [lia|]. intros x Hx. apply H; [set_solver|congruence].
  - rewrite (H q), IH by set_solver. lia.
Qed.

Lemma total_single f l p : NoDup l -> p ∈ l -> (forall q, q ∈ l -> q <> p -> f q = 0) -> total f l = f p.
Proof.
  intros HN Hp H. rewrite (total_change (fun _ => 0) f l p HN Hp) by done. rewrite (total_zero (fun _ => 0)) by done. lia.
Qed.

Lemma total_pos f l p : p ∈ l -> (forall q, q ∈ l -> 0 <= f q) -> f p <= total f l.
Proof.
  intros Hp H. induction l as [|q l IH]; [by apply elem_of_nil in Hp|]. cbn [total foldr]. fold (total f l).
  assert (forall g l', (forall q, q ∈ l' -> 0 <= g q) -> 0 <= total g l') as Hnn.
  { clear. intros g. induction l' as [|x l' IH]; intros H; cbn [total foldr]; [done|]. fold (total g l'). pose proof (H x ltac:(set_solver)). specialize (IH ltac:(set_solver)). lia. }
  pose proof (H q ltac:(set_solver)). apply elem_of_cons in Hp as [->|Hp].
  - pose proof (Hnn f l ltac:(set_solver)). lia.
  - specialize (IH Hp ltac:(set_solver)). lia.
Qed.

Lemma slots_nodup : NoDup slots.
Proof. apply NoDup_seqZ. Qed.

(** The references to inode [n] of the root device, and the free slots. *)
Definition slot_refs (n : Z) (o : option inode) : Z :=
  match o with Some v => if (i_dev v =? ROOT_DEV) && (inum v =? n) then ref v else 0 | None => 0 end.
Definition slot_free (o : option inode) : Z := match o with Some v => if ref v =? 0 then 1 else 0 | None => 0 end.
Definition refs s (n : Z) : Z := total (fun p => slot_refs n (inodes (ext s) !! p)) slots.
Definition free_slots s : Z := total (fun p => slot_free (inodes (ext s) !! p)) slots.

(** ** The tree on disk *)

Abbreviation tree := (gmap Z (d_inode * list (Z * list Z))).

Definition blank : inode := Inode 0 0 0 0 0 0 0 0 [].

(** What the disk holds: the inodes of the tree, and the entries of those that
    are directories, which lead to inodes of the tree. *)
Record fs_tree (im : mem) (sb : superblock) (t : tree) : Prop := {
  ft_super : superblock_at im sb;
  ft_root : is_Some (t !! ROOT_DENT_INO);
  ft_inode : forall n d ents, t !! n = Some (d, ents) -> disk_inode im sb n d /\ di_nlink d <> 0;
  ft_dir : forall n d ents, t !! n = Some (d, ents) -> di_mode d = FS_IMODE_DIR ->
    directory im (inode_of_disk blank d) ents /\ forall e, e ∈ ents -> e.1 <> 0 -> is_Some (t !! e.1) }.

Definition dir_entries (t : tree) (n : Z) : option (list (Z * list Z)) :=
  '(d, ents) ← t !! n; if di_mode d =? FS_IMODE_DIR then Some ents else None.

(** The inode a path leads to from the directory [n]; with [par], the directory
    of its last element. *)
Fixpoint resolve (t : tree) (par : bool) (n : Z) (e : list Z) (es : list (list Z)) : option Z :=
  ents ← dir_entries t n;
  if par && bool_decide (es = []) then Some n
  else
    '(n', _) ← dir_find (take 59 e) 0 ents;
    match es with [] => Some n' | e' :: es => resolve t par n' e' es end.

(** ** The invariant of a walk *)

(** The inode cache of a root disk at rest; [lk] is the slot that is locked, or
    [NULL].  What a valid slot holds is what the disk holds. *)
Record good (t : tree) (lk p : ptr) v : Prop := {
  gd_dev : i_dev v = ROOT_DEV;
  gd_busy : i_busy v = (p =? lk);
  gd_disk : exists d ents, t !! inum v = Some (d, ents) /\ (i_valid v = true -> v = inode_of_disk v d) }.

Record walk_ok (dr : device_driver) (sb : superblock) (t : tree) (lk : ptr) s bs : Prop := {
  wk_disk : disk_ok ROOT_DEV dr s bs;
  wk_tree : fs_tree (image (ext s)) sb t;
  wk_quiet : quiet s MtxIcache;
  wk_icache : icache_ok s;
  wk_wait : forall p, p ∈ slots -> is_ring (links s) (WqHead (inode_waiters p)) [];
  wk_slots : forall p v, p ∈ slots -> inodes (ext s) !! p = Some v -> 0 < ref v -> good t lk p v;
  wk_lock : lk <> NULL -> lk ∈ slots /\ exists v, inodes (ext s) !! lk = Some v /\ 0 < ref v }.

Lemma walk_step dr sb t lk s bs s' bs' :
  walk_ok dr sb t lk s bs -> cache_step s bs s' bs' -> disk_ok ROOT_DEV dr s' bs' ->
  walk_ok dr sb t lk s' bs' /\ refs s' = refs s /\ free_slots s' = free_slots s.
Proof.
  intros [H1 H2 H3 H4 H5 H6 H7] HS HO. pose proof (cache_step_inodes _ _ _ _ HS) as [Ei Em].
  unfold refs, free_slots. rewrite Ei. split_and!; [|done|done]. split; rewrite ?Ei, ?Em; try done.
  - by eapply cache_step_quiet.
  - by eapply icache_ok_step.
  - intros p Hp. destruct HS as (m & B & -> & HF & _). cbn. eapply is_ring_frame; [exact HF| |by apply H5].
    intros y ->%list_elem_of_singleton. apply not_elem_of_cons. split; [done|]. by intros (b & ? & _)%list_elem_of_fmap.
Qed.

(** ** Changing one slot *)

Lemma refs_slot s p v v' n : p ∈ slots -> inodes (ext s) !! p = Some v ->
  refs (with_slot s p v') n = refs s n + slot_refs n (Some v') - slot_refs n (Some v).
Proof.
  intros Hp Hv. unfold refs. rewrite (total_change (fun p => slot_refs n (inodes (ext s) !! p)) _ slots p slots_nodup Hp).
  - by rewrite Hv, with_slot_get.
  - intros q _ Hq. cbn. by rewrite lookup_insert_ne.
Qed.

Lemma free_slots_slot s p v v' : p ∈ slots -> inodes (ext s) !! p = Some v ->
  free_slots (with_slot s p v') = free_slots s + slot_free (Some v') - slot_free (Some v).
Proof.
  intros Hp Hv. unfold free_slots. rewrite (total_change (fun p => slot_free (inodes (ext s) !! p)) _ slots p slots_nodup Hp).
  - by rewrite Hv, with_slot_get.
  - intros q _ Hq. cbn. by rewrite lookup_insert_ne.
Qed.

Lemma caches_refs s n p v : inodes (ext s) !! p = Some v -> 0 <= ref v -> caches s ROOT_DEV n p = (0 <? slot_refs n (Some v)).
Proof.
  intros Hv Hr. unfold caches. rewrite Hv. cbn. rewrite <-andb_assoc. destruct ((i_dev v =? ROOT_DEV) && (inum v =? n)).
  - by rewrite andb_true_r.
  - by rewrite andb_false_r.
Qed.

(** The slot that caches an inode holds all its references. *)
Lemma refs_held s n p v : icache_ok s -> p ∈ slots -> inodes (ext s) !! p = Some v -> i_dev v = ROOT_DEV -> inum v = n -> 0 < ref v ->
  refs s n = ref v.
Proof.
  intros HI Hp Hv Hd Hn Hr. assert (slot_refs n (Some v) = ref v) as E by (cbn; by rewrite Hd, Hn, !Z.eqb_refl).
  unfold refs. rewrite (total_single _ slots p slots_nodup Hp); [by rewrite Hv|]. intros q Hq Hne.
  destruct (ic_slots _ HI q Hq) as [w Hw]. pose proof (ic_ref _ HI q w Hq Hw) as Hrw. rewrite Hw.
  assert (caches s ROOT_DEV n q = false) as Hc.
  { destruct (caches s ROOT_DEV n q) eqn:Hc; [|done]. destruct Hne. apply (ic_once _ HI ROOT_DEV n q p Hq Hp Hc).
    rewrite (caches_refs s n p v) by (done || lia). rewrite E. by apply Z.ltb_lt. }
  rewrite (caches_refs s n q w) in Hc by done. apply Z.ltb_ge in Hc. assert (0 <= slot_refs n (Some w)); [|lia].
  cbn. destruct (_ && _); lia.
Qed.

Lemma refs_none s n : icache_ok s -> (forall p, p ∈ slots -> caches s ROOT_DEV n p = false) -> refs s n = 0.
Proof.
  intros HI Hno. apply total_zero. intros p Hp. destruct (ic_slots _ HI p Hp) as [v Hv]. pose proof (ic_ref _ HI p v Hp Hv) as Hr.
  rewrite Hv. specialize (Hno p Hp). rewrite (caches_refs s n p v) in Hno by done. apply Z.ltb_ge in Hno.
  assert (0 <= slot_refs n (Some v)); [|lia]. cbn. destruct (_ && _); lia.
Qed.

Lemma refs_nonneg s n : icache_ok s -> 0 <= refs s n.
Proof.
  intros HI. destruct (first_match (caches s ROOT_DEV n) slots) as [Hno|(a & p & r & Hs & Hc & _)]; [by rewrite refs_none|].
  assert (p ∈ slots) as Hp by (rewrite Hs; set_solver). destruct (ic_slots _ HI p Hp) as [v Hv]. unfold caches in Hc. rewrite Hv in Hc.
  apply andb_true_iff in Hc as [[Hr%Z.ltb_lt Hd%Z.eqb_eq]%andb_true_iff Hn%Z.eqb_eq]. rewrite (refs_held s n p v) by done. lia.
Qed.

Lemma walk_slot dr sb t lk lk' s bs p v :
  walk_ok dr sb t lk s bs -> p ∈ slots -> 0 <= ref v ->
  (0 < ref v -> good t lk' p v /\ forall q, q ∈ slots -> q <> p -> caches s ROOT_DEV (inum v) q = false) ->
  (forall q, q ∈ slots -> q <> p -> (q =? lk') = (q =? lk)) ->
  (lk' = p -> 0 < ref v) -> (lk' <> p -> lk' <> NULL -> lk' = lk) ->
  walk_ok dr sb t lk' (with_slot s p v) bs.
Proof.
  intros [H1 H2 H3 H4 H5 H6 H7] Hp Hr Hg Hlk Hl1 Hl2. split; try done.
  - by apply disk_ok_slot.
  - apply icache_ok_slot; [done|done|]. intros Hr'. destruct (Hg Hr') as [[Hd _ _] Hno]. rewrite Hd. exact Hno.
  - intros q w Hq. cbn. intros [[<- <-]|[Hne Hw]]%lookup_insert_Some Hrw; [by apply Hg|].
    destruct (H6 q w Hq Hw Hrw) as [G1 G2 G3]. split; [done|by rewrite Hlk|done].
  - intros Hnz. destruct (decide (lk' = p)) as [->|Hne].
    + split; [done|]. exists v. split; [apply with_slot_get|by apply Hl1].
    + assert (lk' = lk) as -> by auto. destruct (H7 Hnz) as [Hin (w & Hw & Hrw)]. split; [done|]. exists w. split; [|done].
      cbn. by rewrite lookup_insert_ne.
Qed.

(** ** The operations of a walk *)

(** [δ n m]: one reference to [n]. *)
Definition one (n m : Z) : Z := if n =? m then 1 else 0.

Lemma free_slot_exists s : icache_ok s -> 0 < free_slots s -> exists a p r, slots = a ++ p :: r /\ free_slot s p = true /\ forall q, q ∈ a -> free_slot s q = false.
Proof.
  intros HI Hf. destruct (first_match (free_slot s) slots) as [Hno|(a & p & r & H)]; [|by exists a, p, r].
  exfalso. assert (free_slots s = 0) as E; [|lia]. apply total_zero. intros p Hp. destruct (ic_slots _ HI p Hp) as [v Hv].
  specialize (Hno p Hp). unfold free_slot in Hno. rewrite Hv in Hno |- *. cbn. by rewrite Hno.
Qed.

(** What a slot holds after [inode_get], and the counts. *)
Record got (dr : device_driver) (sb : superblock) (t : tree) (lk : ptr) s bs (n : Z) (ip : ptr) s' : Prop := {
  got_ok : walk_ok dr sb t lk s' bs;
  got_slot : ip ∈ slots /\ caches s' ROOT_DEV n ip = true;
  got_keep : forall p v, p ∈ slots -> inodes (ext s) !! p = Some v -> 0 < ref v ->
    exists v', inodes (ext s') !! p = Some v' /\ 0 < ref v' /\ inum v' = inum v /\ i_flags v' = i_flags v;
  got_refs : forall m, refs s' m = refs s m + one n m;
  got_free : free_slots s' = free_slots s - (if refs s n =? 0 then 1 else 0);
  got_image : image (ext s') = image (ext s) }.

Lemma caches_elim s n p v : inodes (ext s) !! p = Some v -> caches s ROOT_DEV n p = true -> 0 < ref v /\ i_dev v = ROOT_DEV /\ inum v = n.
Proof. intros Hv. unfold caches. rewrite Hv. intros [[?%Z.ltb_lt ?%Z.eqb_eq]%andb_true_iff ?%Z.eqb_eq]%andb_true_iff. done. Qed.

Lemma walk_get_hit dr sb t lk s bs n ip v : walk_ok dr sb t lk s bs -> ip ∈ slots -> caches s ROOT_DEV n ip = true -> inodes (ext s) !! ip = Some v ->
  got dr sb t lk s bs n ip (with_slot s ip (with_ref v (ref v + 1))).
Proof.
  intros HW Hip Hc Hv. destruct (caches_elim s n ip v Hv Hc) as (Hr & Hd & Hn). pose proof (wk_icache _ _ _ _ _ _ HW) as HI.
  assert (refs s n = ref v) as Hrefs by (by apply (refs_held s n ip v)).
  destruct (wk_slots _ _ _ _ _ _ HW ip v Hip Hv Hr) as [G1 G2 (d & ents & G3 & G4)]. split.
  - apply (walk_slot dr sb t lk lk); [done|done|cbn; lia| |done|cbn; lia|done]. intros _. split.
    + split; [done|done|]. exists d, ents. split; [done|]. intros Hval. specialize (G4 Hval).
      rewrite G4. unfold inode_of_disk, with_ref. cbn. done.
    + cbn. rewrite Hn. intros q Hq Hne. destruct (caches s ROOT_DEV n q) eqn:E; [|done]. destruct Hne. by apply (ic_once _ HI ROOT_DEV n).
  - split; [done|]. rewrite caches_with_slot, decide_True by done. cbn. rewrite Hd, Hn, !Z.eqb_refl, (proj2 (Z.ltb_lt _ _)) by lia. done.
  - intros p w Hp Hw Hrw. destruct (decide (p = ip)) as [->|Hne].
    + eexists. split; [apply with_slot_get|]. rewrite Hw in Hv. injection Hv as ->. cbn. split_and!; [lia|done|done].
    + exists w. split_and!; [|done..]. cbn. by rewrite lookup_insert_ne.
  - intros m. rewrite (refs_slot s ip v) by done. cbn. rewrite Hd, Hn, Z.eqb_refl. cbn [andb]. unfold one. destruct (n =? m); lia.
  - rewrite (free_slots_slot s ip v) by done. cbn. rewrite Hrefs.
    rewrite (proj2 (Z.eqb_neq (ref v) 0)), (proj2 (Z.eqb_neq (ref v + 1) 0)) by lia. lia.
  - done.
Qed.

Lemma walk_get_new dr sb t lk s bs n ip v : walk_ok dr sb t lk s bs -> is_Some (t !! n) ->
  (forall p, p ∈ slots -> caches s ROOT_DEV n p = false) -> ip ∈ slots -> inodes (ext s) !! ip = Some v -> ref v = 0 ->
  got dr sb t lk s bs n ip (with_slot s ip (Inode n 1 0 (i_mode v) ROOT_DEV (i_rdev v) (i_nlink v) (i_size v) (i_addr v))).
Proof.
  intros HW [[d ents] Ht] Hno Hip Hv Hr. pose proof (wk_icache _ _ _ _ _ _ HW) as HI.
  assert (ip <> lk) as Hlk.
  { intros <-. destruct (wk_lock _ _ _ _ _ _ HW) as [_ (w & Hw & Hrw)]; [|rewrite Hw in Hv; injection Hv as ->; lia].
    intros ->. apply elem_of_seqZ in Hip. unfold NULL in Hip. lia. }
  split.
  - apply (walk_slot dr sb t lk lk); [done|done|cbn; lia| |done|cbn; lia|done]. intros _. split; [|intros q Hq _; by apply Hno].
    split; [done| |by exists d, ents]. rewrite (proj2 (Z.eqb_neq _ _) Hlk). done.
  - split; [done|]. rewrite caches_with_slot, decide_True by done. cbn. by rewrite Z.eqb_refl.
  - intros p w Hp Hw Hrw. assert (p <> ip) by (intros ->; rewrite Hw in Hv; injection Hv as ->; lia).
    exists w. split_and!; [|done..]. cbn. by rewrite lookup_insert_ne.
  - intros m. rewrite (refs_slot s ip v) by done. cbn. rewrite Hr. unfold one. destruct (n =? m), (_ && _); lia.
  - rewrite (free_slots_slot s ip v) by done. cbn. rewrite refs_none by done. rewrite Hr. cbn. lia.
  - done.
Qed.

Lemma walk_get fuel dr sb t lk s bs n : walk_ok dr sb t lk s bs -> is_Some (t !! n) -> 0 < free_slots s ->
  exists ip s', inode_get fuel ROOT_DEV n s = Ret ip s' /\ got dr sb t lk s bs n ip s'.
Proof.
  intros HW Ht Hf. pose proof (wk_icache _ _ _ _ _ _ HW) as HI. pose proof (wk_quiet _ _ _ _ _ _ HW) as HQ.
  destruct (first_match (caches s ROOT_DEV n) slots) as [Hno|(a & ip & r & Hs & Hc & _)].
  - destruct (free_slot_exists s HI Hf) as (a & ip & r & Hs & Hfree & Ha). assert (ip ∈ slots) as Hin by (rewrite Hs; set_solver).
    destruct (ic_slots _ HI ip Hin) as [v Hv]. eexists ip, _. split; [by eapply inode_get_new|]. apply walk_get_new; try done.
    unfold free_slot in Hfree. rewrite Hv in Hfree. by apply Z.eqb_eq.
  - assert (ip ∈ slots) as Hin by (rewrite Hs; set_solver). destruct (ic_slots _ HI ip Hin) as [v Hv].
    eexists ip, _. split; [by apply inode_get_hit|]. by apply walk_get_hit.
Qed.

(** A slot that keeps its references keeps the counts. *)
Lemma same_counts s p v v' : p ∈ slots -> inodes (ext s) !! p = Some v -> i_dev v' = i_dev v -> inum v' = inum v -> ref v' = ref v ->
  (forall m, refs (with_slot s p v') m = refs s m) /\ free_slots (with_slot s p v') = free_slots s.
Proof.
  intros Hp Hv Hd Hn Hr. split; [intros m; rewrite (refs_slot s p v) by done|rewrite (free_slots_slot s p v) by done];
    cbn; rewrite ?Hd, ?Hn, Hr; lia.
Qed.

Lemma no_other dr sb t lk s bs p v : walk_ok dr sb t lk s bs -> p ∈ slots -> inodes (ext s) !! p = Some v -> 0 < ref v ->
  forall q, q ∈ slots -> q <> p -> caches s ROOT_DEV (inum v) q = false.
Proof.
  intros HW Hp Hv Hr q Hq Hne. destruct (caches s ROOT_DEV (inum v) q) eqn:E; [|done]. destruct Hne.
  apply (ic_once _ (wk_icache _ _ _ _ _ _ HW) ROOT_DEV (inum v)); [done|done|done|].
  unfold caches. rewrite Hv, (gd_dev _ _ _ _ (wk_slots _ _ _ _ _ _ HW p v Hp Hv Hr)), !Z.eqb_refl, (proj2 (Z.ltb_lt _ _) Hr). done.
Qed.

Lemma slot_not_null p : p ∈ slots -> p <> NULL.
Proof. intros Hp ->. apply elem_of_seqZ in Hp. unfold NULL in Hp. lia. Qed.

Lemma loaded_busy v d : i_busy (loaded v d) = true.
Proof. unfold loaded, i_busy. cbn. rewrite i_busy_bit, !Z.lor_spec, orb_true_r. done. Qed.

Lemma walk_lock_slot dr sb t s bs ip v v' d ents :
  walk_ok dr sb t NULL s bs -> ip ∈ slots -> inodes (ext s) !! ip = Some v -> 0 < ref v ->
  t !! inum v = Some (d, ents) -> i_busy v' = true -> v' = inode_of_disk v' d -> i_dev v' = i_dev v -> inum v' = inum v -> ref v' = ref v ->
  walk_ok dr sb t ip (with_slot s ip v') bs /\ (forall m, refs (with_slot s ip v') m = refs s m) /\
    free_slots (with_slot s ip v') = free_slots s.
Proof.
  intros HW Hip Hv Hr Ht Hb He Hd Hn Hrf. split; [|by apply (same_counts s ip v)].
  pose proof (wk_slots _ _ _ _ _ _ HW ip v Hip Hv Hr) as [G1 G2 G3].
  apply (walk_slot dr sb t NULL ip); [done|done|lia| | |lia|done].
  - intros _. rewrite Hn. split; [|by eapply no_other]. split; [congruence|by rewrite Z.eqb_refl|]. exists d, ents. by rewrite Hn.
  - intros q Hq Hne. rewrite (proj2 (Z.eqb_neq _ _) Hne), (proj2 (Z.eqb_neq _ _) (slot_not_null q Hq)). done.
Qed.

(** [inode_lock]: the inode is loaded when needed, and locked. *)
Lemma walk_lock fuel dr sb t s bs ip v : walk_ok dr sb t NULL s bs -> ip ∈ slots -> inodes (ext s) !! ip = Some v -> 0 < ref v ->
  exists s' bs' v' d ents, inode_lock fuel ip s = Ret tt s' /\ walk_ok dr sb t ip s' bs' /\
    inodes (ext s') !! ip = Some v' /\ inum v' = inum v /\ 0 < ref v' /\ t !! inum v = Some (d, ents) /\ v' = inode_of_disk v' d /\
    (forall m, refs s' m = refs s m) /\ free_slots s' = free_slots s /\ image (ext s') = image (ext s).
Proof.
  intros HW Hip Hv Hr. pose proof (wk_slots _ _ _ _ _ _ HW ip v Hip Hv Hr) as [G1 G2 (d & ents & G3 & G4)].
  rewrite (proj2 (Z.eqb_neq _ _) (slot_not_null _ Hip)) in G2. destruct (i_valid v) eqn:Hval.
  - specialize (G4 eq_refl). assert (lock_bits v = inode_of_disk (lock_bits v) d) as He by (rewrite G4; done).
    destruct (walk_lock_slot dr sb t s bs ip v (lock_bits v) d ents) as (HW' & Hrefs & Hfree); try done; [apply lock_bits_busy|].
    exists (with_slot s ip (lock_bits v)), bs, (lock_bits v), d, ents.
    split_and!; try done; [apply inode_lock_valid; try done; apply HW|apply with_slot_get].
  - destruct (ft_inode _ _ _ (wk_tree _ _ _ _ _ _ HW) _ _ _ G3) as [Hd _].
    destruct (inode_lock_load fuel ROOT_DEV dr s bs ip v sb d) as (s' & bs' & E & HO & HQ & HS); try done; [apply HW|apply HW|apply HW|].
    destruct (walk_lock_slot dr sb t s bs ip v (loaded v d) d ents) as (HW' & Hrefs & Hfree); try done; [apply loaded_busy|].
    destruct (walk_step _ _ _ _ _ _ _ _ HW' HS HO) as (HW2 & Hrefs2 & Hfree2). destruct (cache_step_inodes _ _ _ _ HS) as [Ei Em].
    exists s', bs', (loaded v d), d, ents. rewrite Ei, Em, Hrefs2, Hfree2. split_and!; try done. apply with_slot_get.
Qed.

(** [inode_unlock] *)
Lemma unlock_bits_not_busy v : i_busy (unlock_bits v) = false.
Proof. unfold i_busy, unlock_bits. cbn. rewrite i_busy_bit, Z.land_spec. apply andb_false_r. Qed.
Lemma unlock_bits_valid v : i_valid (unlock_bits v) = i_valid v.
Proof. unfold i_valid, unlock_bits. cbn. rewrite !i_valid_bit, Z.land_spec. apply andb_true_r. Qed.

Lemma walk_unlock fuel dr sb t s bs ip v : walk_ok dr sb t ip s bs -> ip ∈ slots -> inodes (ext s) !! ip = Some v ->
  let s' := with_slot s ip (unlock_bits v) in
  inode_unlock fuel ip s = Ret tt s' /\ walk_ok dr sb t NULL s' bs /\ (forall m, refs s' m = refs s m) /\ free_slots s' = free_slots s.
Proof.
  intros HW Hip Hv s'. destruct (wk_lock _ _ _ _ _ _ HW (slot_not_null _ Hip)) as [_ (w & Hw & Hr)]. rewrite Hw in Hv. injection Hv as ->.
  pose proof (wk_slots _ _ _ _ _ _ HW ip v Hip Hw Hr) as [G1 G2 (d & ents & G3 & G4)]. rewrite Z.eqb_refl in G2. split_and!.
  - apply inode_unlock_eq; [apply HW|done|done|by apply (wk_wait _ _ _ _ _ _ HW)].
  - apply (walk_slot dr sb t ip NULL); [done|done|cbn; lia| | |intros <-; by destruct (slot_not_null NULL)|done].
    + intros _. split; [|exact (no_other _ _ _ _ _ _ _ _ HW Hip Hw Hr)]. split; [done| |].
      { rewrite unlock_bits_not_busy. symmetry. apply Z.eqb_neq, slot_not_null, Hip. }
      exists d, ents. split; [done|]. rewrite unlock_bits_valid. intros Hval. specialize (G4 Hval). rewrite G4. done.
    + intros q Hq Hne. rewrite (proj2 (Z.eqb_neq _ _) Hne), (proj2 (Z.eqb_neq _ _) (slot_not_null q Hq)). done.
  - by apply (same_counts s ip v).
  - by apply (same_counts s ip v).
Qed.

(** [inode_put]: inodes of the tree have links, so nothing is truncated. *)
Lemma walk_put fuel dr sb t s bs ip v : walk_ok dr sb t NULL s bs -> ip ∈ slots -> inodes (ext s) !! ip = Some v -> 0 < ref v ->
  let s' := with_slot s ip (with_ref v (ref v - 1)) in
  inode_put fuel ip s = Ret tt s' /\ walk_ok dr sb t NULL s' bs /\ (forall m, refs s' m = refs s m - one (inum v) m) /\
    free_slots s' = free_slots s + (if refs s (inum v) =? 1 then 1 else 0).
Proof.
  intros HW Hip Hv Hr s'. pose proof (wk_slots _ _ _ _ _ _ HW ip v Hip Hv Hr) as [G1 G2 (d & ents & G3 & G4)].
  destruct (ft_inode _ _ _ (wk_tree _ _ _ _ _ _ HW) _ _ _ G3) as [_ Hlink]. split_and!.
  - unfold inode_put. mred. rewrite hold_eq by apply HW. mred. rewrite (inode_ld_eq _ _ v) by done. mred. fold (i_valid v).
    assert ((ref v =? 1) && i_valid v && (i_nlink v =? 0) = false) as ->.
    { destruct (i_valid v); [|by rewrite andb_false_r]. rewrite (G4 eq_refl). cbn. rewrite (proj2 (Z.eqb_neq _ _) Hlink). apply andb_false_r. }
    mred. rewrite (inode_ld_eq _ _ v) by done. mred. rewrite (inode_st_eq _ _ v) by done. mred.
    exact (release_after s MtxIcache _ (wk_quiet _ _ _ _ _ _ HW)).
  - apply (walk_slot dr sb t NULL NULL); [done|done|cbn; lia| |done|intros <-; by destruct (slot_not_null NULL)|done].
    intros _. split; [|exact (no_other _ _ _ _ _ _ _ _ HW Hip Hv Hr)]. split; [done|done|]. exists d, ents. split; [done|]. intros Hval. specialize (G4 Hval). rewrite G4. done.
  - intros m. unfold s'. rewrite (refs_slot s ip v) by done. cbn. rewrite G1. cbn [Z.eqb Pos.eqb]. unfold one. destruct (inum v =? m); cbn; lia.
  - unfold s'. rewrite (free_slots_slot s ip v) by done. cbn. rewrite (refs_held s (inum v) ip v) by (done || apply HW).
    rewrite (proj2 (Z.eqb_neq (ref v) 0)) by lia. destruct (Z.eqb_spec (ref v - 1) 0), (Z.eqb_spec (ref v) 1); lia.
Qed.

(** [inode_dirlookup] in a locked directory *)
Lemma dir_find_in cs off ents n o : dir_find cs off ents = Some (n, o) -> exists e, e ∈ ents /\ e.1 = n /\ n <> 0.
Proof.
  revert off. induction ents as [|e ents IH]; intros off; cbn [dir_find]; [done|]. destruct (matches cs e) eqn:Hm.
  - intros [= <- _]. exists e. split_and!; [set_solver|done|]. unfold matches in Hm.
    apply andb_true_iff in Hm as [Hm%negb_true_iff _]. by apply Z.eqb_neq.
  - intros H. destruct (IH _ H) as (e' & ? & ?). exists e'. split; [set_solver|done].
Qed.

Lemma inode_dirlookup_dir fuel dev d dp v ents cs rest s bs :
  disk_ok dev d s bs -> inodes (ext s) !! dp = Some v -> i_dev v = dev -> directory (image (ext s)) v ents -> nonzero cs ->
  exists s' bs', disk_ok dev d s' bs' /\ cache_step s bs s' bs' /\
    inode_dirlookup fuel dp (cstr cs rest) s =
      match dir_find cs 0 ents with
      | None => Ret (NULL, 0) s'
      | Some (ino, off) => (ip ← inode_get fuel dev ino; mret (ip, off)) s'
      end.
Proof.
  intros HO Hv Hdev HD Hcs. pose proof HD as [Hmode Hsize _ _].
  destruct (dirlookup_loop_ok fuel dev d dp v ents cs rest Hdev Hcs ents (dir_rounds v) s bs 0) as (s' & bs' & H1 & H2 & E);
    [done|done|done|done|lia| |].
  { unfold dir_rounds. rewrite Hsize. change D_DIRENT_SIZE with 64. rewrite (Z.mul_comm 64), Z.div_mul by lia. lia. }
  exists s', bs'. split_and!; [done|done|]. unfold inode_dirlookup. rewrite (bind_ret _ _ _ _ _ (inode_ld_eq _ _ _ Hv)).
  rewrite Hmode, Z.eqb_refl. exact E.
Qed.

Lemma walk_dirlookup fuel dr sb t s bs ip v d ents cs rest :
  walk_ok dr sb t ip s bs -> ip ∈ slots -> inodes (ext s) !! ip = Some v -> t !! inum v = Some (d, ents) -> v = inode_of_disk v d ->
  di_mode d = FS_IMODE_DIR -> nonzero cs -> 0 < free_slots s ->
  exists s1 bs1, walk_ok dr sb t ip s1 bs1 /\ cache_step s bs s1 bs1 /\ refs s1 = refs s /\ free_slots s1 = free_slots s /\
    match dir_find cs 0 ents with
    | None => inode_dirlookup fuel ip (cstr cs rest) s = Ret (NULL, 0) s1
    | Some (n, off) => exists ip' s2, inode_dirlookup fuel ip (cstr cs rest) s = Ret (ip', off) s2 /\ got dr sb t ip s1 bs1 n ip' s2
    end.
Proof.
  intros HW Hip Hv Ht He Hm Hcs Hf. destruct (wk_lock _ _ _ _ _ _ HW (slot_not_null _ Hip)) as [_ (w & Hw & Hr)].
  rewrite Hw in Hv. injection Hv as ->. pose proof (wk_slots _ _ _ _ _ _ HW ip v Hip Hw Hr) as [G1 _ _].
  destruct (ft_dir _ _ _ (wk_tree _ _ _ _ _ _ HW) _ _ _ Ht Hm) as [HD Hents].
  assert (directory (image (ext s)) v ents) as HDv by (rewrite He; destruct HD; by split).
  destruct (inode_dirlookup_dir fuel ROOT_DEV dr ip v ents cs rest s bs) as (s1 & bs1 & HO1 & HS1 & E1); [apply HW|done|done|done|done|].
  destruct (walk_step _ _ _ _ _ _ _ _ HW HS1 HO1) as (HW1 & Hr1 & Hf1). exists s1, bs1. split_and!; [done|done|done|done|].
  destruct (dir_find cs 0 ents) as [[n off]|] eqn:Hfind; [|exact E1].
  destruct (dir_find_in _ _ _ _ _ Hfind) as (e & He' & <- & Hz).
  destruct (walk_get fuel dr sb t ip s1 bs1 e.1) as (ip' & s2 & E2 & HG); [done|by apply Hents|lia|].
  exists ip', s2. split; [|exact HG]. rewrite E1. by rewrite (bind_ret _ _ _ _ _ E2).
Qed.

(** Unlocking and dropping the directory. *)
Lemma walk_leave {A} fuel dr sb t s bs ip v (k : F A) : walk_ok dr sb t ip s bs -> ip ∈ slots -> inodes (ext s) !! ip = Some v -> 0 < ref v ->
  exists s', (inode_unlock fuel ip;; inode_put fuel ip;; k) s = k s' /\ walk_ok dr sb t NULL s' bs /\
    (forall m, refs s' m = refs s m - one (inum v) m) /\ free_slots s' = free_slots s + (if refs s (inum v) =? 1 then 1 else 0) /\
    image (ext s') = image (ext s) /\
    (forall n p, p ∈ slots -> caches s ROOT_DEV n p = true -> (p = ip -> 1 < ref v) -> caches s' ROOT_DEV n p = true).
Proof.
  intros HW Hip Hv Hr. destruct (walk_unlock fuel dr sb t s bs ip v HW Hip Hv) as (E1 & HW1 & Hr1 & Hf1).
  destruct (walk_put fuel dr sb t _ bs ip (unlock_bits v) HW1 Hip (with_slot_get _ _ _)) as (E2 & HW2 & Hr2 & Hf2); [done|].
  eexists. split; [rewrite (bind_ret _ _ _ _ _ E1), (bind_ret _ _ _ _ _ E2); reflexivity|]. rewrite with_slot_slot in *. split_and!; [done| | |done|].
  - intros m. by rewrite Hr2, Hr1.
  - by rewrite Hf2, Hf1, Hr1.
  - intros n p Hp Hc Hne. rewrite caches_with_slot. destruct (decide (p = ip)) as [->|]; [|done]. specialize (Hne eq_refl).
    destruct (caches_elim _ _ _ _ Hv Hc) as (_ & Hd & Hn). cbn. by rewrite Hd, Hn, !Z.eqb_refl, (proj2 (Z.ltb_lt _ _)) by lia.
Qed.

(** ** The walk *)

(** Where a walk from the state [s0] stands: one more reference to inode [n],
    in the slot [ip]; or, with [None], none. *)
Record walked (dr : device_driver) (sb : superblock) (t : tree) s0 s bs (n : Z) (ip : ptr) : Prop := {
  wd_ok : walk_ok dr sb t NULL s bs;
  wd_slot : ip ∈ slots /\ caches s ROOT_DEV n ip = true;
  wd_refs : forall m, refs s m = refs s0 m + one n m;
  wd_free : free_slots s = free_slots s0 - (if refs s0 n =? 0 then 1 else 0);
  wd_image : image (ext s) = image (ext s0) }.

Record returned (dr : device_driver) (sb : superblock) (t : tree) s0 s bs : Prop := {
  rt_ok : walk_ok dr sb t NULL s bs;
  rt_refs : forall m, refs s m = refs s0 m;
  rt_free : free_slots s = free_slots s0;
  rt_image : image (ext s) = image (ext s0) }.

(** The current inode given back. *)
Lemma walked_leave {A} fuel dr sb t s0 s1 bs1 n ip v (k : F A) :
  (forall m, 0 <= refs s0 m) -> walk_ok dr sb t ip s1 bs1 -> ip ∈ slots -> inodes (ext s1) !! ip = Some v -> 0 < ref v -> inum v = n ->
  (forall m, refs s1 m = refs s0 m + one n m) -> free_slots s1 = free_slots s0 - (if refs s0 n =? 0 then 1 else 0) ->
  image (ext s1) = image (ext s0) ->
  exists s', (inode_unlock fuel ip;; inode_put fuel ip;; k) s1 = k s' /\ returned dr sb t s0 s' bs1.
Proof.
  intros Hnn HW Hip Hv Hr Hn Hrefs Hfree Him.
  destruct (walk_leave fuel dr sb t s1 bs1 ip v k HW Hip Hv Hr) as (s' & E & HW' & Hr' & Hf' & Him' & _).
  exists s'. split; [exact E|]. rewrite Hn in *. split; [done| | |congruence].
  - intros m. rewrite Hr', Hrefs. lia.
  - rewrite Hf', Hfree, Hrefs. unfold one. rewrite Z.eqb_refl. pose proof (Hnn n).
    destruct (Z.eqb_spec (refs s0 n) 0), (Z.eqb_spec (refs s0 n + 1) 1); lia.
Qed.

(** The step to the next inode. *)
Lemma walked_next {A} fuel dr sb t s0 s1 bs1 s2 n n' ip ip' v (k : F A) :
  (forall m, 0 <= refs s0 m) -> ip ∈ slots -> inodes (ext s1) !! ip = Some v -> 0 < ref v -> inum v = n -> i_dev v = ROOT_DEV ->
  (forall m, refs s1 m = refs s0 m + one n m) -> free_slots s1 = free_slots s0 - (if refs s0 n =? 0 then 1 else 0) ->
  image (ext s1) = image (ext s0) -> got dr sb t ip s1 bs1 n' ip' s2 ->
  exists s', (inode_unlock fuel ip;; inode_put fuel ip;; k) s2 = k s' /\ walked dr sb t s0 s' bs1 n' ip'.
Proof.
  intros Hnn Hip Hv Hr Hn Hd Hrefs Hfree Him [HW2 [Hip' Hc'] Hkeep Hr2 Hf2 Him2].
  destruct (Hkeep ip v Hip Hv Hr) as (v2 & Hv2 & Hrv2 & Hn2 & _).
  destruct (walk_leave fuel dr sb t s2 bs1 ip v2 k HW2 Hip Hv2 Hrv2) as (s' & E & HW' & Hr' & Hf' & Him' & Hc).
  rewrite Hn2, Hn in *. pose proof (Hnn n) as Hnn1. pose proof (Hnn n') as Hnn2. exists s'. split; [exact E|]. split; [done| | | |congruence].
  - split; [done|]. apply Hc; [done|done|]. intros ->. destruct (caches_elim _ _ _ _ Hv2 Hc') as (_ & Hd2 & Hn').
    assert (refs s2 n = ref v2) as Href by (apply (refs_held s2 n ip v2); first [done|apply HW2]).
    rewrite Hr2, Hrefs in Href. assert (n' = n) as -> by congruence. unfold one in Href. rewrite Z.eqb_refl in Href. lia.
  - intros m. rewrite Hr', Hr2, Hrefs. lia.
  - rewrite Hf', Hf2, Hfree, Hr2, !Hrefs. unfold one. rewrite Z.eqb_refl. destruct (Z.eqb_spec n n') as [<-|Hne].
    + rewrite Z.eqb_refl. destruct (Z.eqb_spec (refs s0 n + 1 + 1) 1), (Z.eqb_spec (refs s0 n + 1) 0); lia.
    + rewrite (proj2 (Z.eqb_neq n' n)) by congruence.
      destruct (Z.eqb_spec (refs s0 n) 0), (Z.eqb_spec (refs s0 n + 1 + 0) 1), (Z.eqb_spec (refs s0 n' + 0) 0), (Z.eqb_spec (refs s0 n') 0); lia.
Qed.

Lemma elements_nonzero path : Forall (fun c => 0 <= c < 256) path -> Forall nonzero (elements path).
Proof.
  assert (forall cur, nonzero cur -> Forall nonzero (part cur)) as Hpart by (intros [|c cur] H; cbn [part]; [by apply Forall_nil|by apply Forall_singleton]).
  intros Hp. unfold elements. assert (nonzero []) as Hcur by constructor. revert Hcur. generalize (@nil Z) at 1 2. induction Hp as [|c path Hc Hp IH]; intros cur Hcur; cbn [elements_from].
  { by apply Hpart. }
  destruct (Z.eqb_spec c 0); [by apply Hpart|]. destruct (c =? slash).
  - apply Forall_app. split; [by apply Hpart|]. apply IH. constructor.
  - apply IH. apply Forall_app. split; [done|]. constructor; [lia|constructor].
Qed.

Lemma elements_length path : (length (elements path) <= length path)%nat.
Proof.
  assert (forall path cur, (length (elements_from cur path) <= length path + length (part cur))%nat) as H; [|by specialize (H path []); cbn in H; unfold elements; lia].
  clear path. induction path as [|c path IH]; intros cur; cbn [elements_from length]; [lia|]. destruct (c =? 0); [lia|]. destruct (c =? slash).
  - rewrite length_app. specialize (IH []). cbn in IH. lia.
  - specialize (IH (cur ++ [c])). assert (length (part (cur ++ [c])) = 1%nat) as E by (by destruct cur). lia.
Qed.

Lemma name_of_cstr e name : name_of e name = cstr (take 59 e) (drop (S (length (take 59 e))) name).
Proof. done. Qed.
Lemma name_of_length e name : length name = 60%nat -> length (name_of e name) = 60%nat.
Proof. intros H. unfold name_of. change (Z.to_nat FNAME_MAX) with 59%nat. rewrite length_app. cbn [length]. rewrite length_drop, length_take. lia. Qed.

Definition element_ok (e : list Z) : Prop := nonzero e /\ Z.of_nat (length e) < 2 ^ 31.

Section walk.
Context (fuel : nat) (dr : device_driver) (sb : superblock) (t : tree) (s0 : kst fsst) (np : Z).
Hypothesis (Hnn : forall m, 0 <= refs s0 m) (Hfree0 : 2 <= free_slots s0).

(** The walk over the elements [e :: es] from the inode [n]: its result. *)
Definition walk_result (r : run (kst fsst) (ptr * list Z)) (n : Z) (e : list Z) (es : list (list Z)) : Prop :=
  match resolve t (negb (np =? 0)) n e es with
  | Some n' => exists ip rest s' bs', r = Ret (ip, cstr (take 59 (List.last (e :: es) [])) rest) s' /\ walked dr sb t s0 s' bs' n' ip
  | None => exists name s' bs', r = Ret (NULL, name) s' /\ returned dr sb t s0 s' bs'
  end.

(** One round, with a name [cs] in [name]. *)
Lemma path_round n rounds ip c r cs rest s bs :
  walked dr sb t s0 s bs n ip -> nonzero cs ->
  let res := path_loop fuel (S rounds) ip (Some (c :: r)) np (cstr cs rest) s in
  let none := exists s' bs', res = Ret (NULL, cstr cs rest) s' /\ returned dr sb t s0 s' bs' in
  match dir_entries t n with
  | None => none
  | Some ents =>
      if negb (np =? 0) && (c =? 0) then exists s' bs', res = Ret (ip, cstr cs rest) s' /\ walked dr sb t s0 s' bs' n ip
      else match dir_find cs 0 ents with
           | None => none
           | Some (n', _) => exists ip' s' bs', walked dr sb t s0 s' bs' n' ip' /\
               res = (e ← deref (skip_element (c :: r) (cstr cs rest)); path_loop fuel rounds ip' e.1 np e.2) s'
           end
  end.
Proof.
  intros [HW [Hip Hc] Hrefs Hfree Him] Hnz res none. subst res none. cbn [path_loop].
  destruct (ic_slots _ (wk_icache _ _ _ _ _ _ HW) ip Hip) as [v Hv]. destruct (caches_elim _ _ _ _ Hv Hc) as (Hr & Hd & Hn).
  destruct (walk_lock fuel dr sb t s bs ip v HW Hip Hv Hr) as (s1 & bs1 & v1 & d & ents & E1 & HW1 & Hv1 & Hn1 & Hr1 & Ht & He1 & Hrefs1 & Hfree1 & Him1).
  rewrite Hn in Hn1, Ht. rewrite (bind_ret _ _ _ _ _ E1), (bind_ret _ _ _ _ _ (inode_ld_eq _ _ _ Hv1)).
  assert (forall m, refs s1 m = refs s0 m + one n m) as HR1 by (intros m; by rewrite Hrefs1).
  assert (free_slots s1 = free_slots s0 - (if refs s0 n =? 0 then 1 else 0)) as HF1 by (by rewrite Hfree1).
  assert (image (ext s1) = image (ext s0)) as HI1 by congruence.
  pose proof (gd_dev _ _ _ _ (wk_slots _ _ _ _ _ _ HW1 ip v1 Hip Hv1 Hr1)) as Hd1.
  unfold dir_entries. rewrite Ht. cbn [mbind option_bind]. assert (i_mode v1 = di_mode d) as -> by (by rewrite He1).
  destruct (Z.eqb_spec (di_mode d) FS_IMODE_DIR) as [Hm|Hm]; cbn [negb].
  2: { destruct (walked_leave fuel dr sb t s0 s1 bs1 n ip v1 (mret (NULL, cstr cs rest) : F _)) as (s' & E & HRt); try done. by exists s', bs1. }
  cbn [head]. rewrite deref_bind.
  destruct (negb (np =? 0) && (c =? 0)).
  { destruct (walk_unlock fuel dr sb t s1 bs1 ip v1 HW1 Hip Hv1) as (E & HW2 & HR2 & HF2). eexists _, bs1.
    split; [rewrite (bind_ret _ _ _ _ _ E); reflexivity|]. split; [done| |intros m; by rewrite HR2|by rewrite HF2|done].
    split; [done|]. rewrite caches_with_slot, decide_True by done. cbn. rewrite Hd1, Hn1, !Z.eqb_refl, (proj2 (Z.ltb_lt _ _) Hr1). done. }
  destruct (walk_dirlookup fuel dr sb t s1 bs1 ip v1 d ents cs rest) as (s2 & bs2 & HW2 & HS2 & HR2 & HF2 & E2);
    [done|done|done|by rewrite Hn1|done|done|done|rewrite HF1; destruct (_ =? 0); lia|].
  destruct (cache_step_inodes _ _ _ _ HS2) as [Ei2 Em2].
  destruct (dir_find cs 0 ents) as [[n' off]|].
  - destruct E2 as (ip' & s3 & E2 & HG). rewrite (bind_ret _ _ _ _ _ E2). cbn [fst].
    rewrite (proj2 (Z.eqb_neq _ _) (slot_not_null ip' (proj1 (got_slot _ _ _ _ _ _ _ _ _ HG)))).
    destruct (walked_next fuel dr sb t s0 s2 bs2 s3 n n' ip ip' v1
      (e ← deref (skip_element (c :: r) (cstr cs rest)); path_loop fuel rounds ip' e.1 np e.2)) as (s' & E & HWd).
    all: rewrite ?Ei2, ?HR2, ?HF2, ?Em2; try done.
    by exists ip', s', bs2.
  - rewrite (bind_ret _ _ _ _ _ E2). cbn [fst]. rewrite Z.eqb_refl.
    destruct (walked_leave fuel dr sb t s0 s2 bs2 n ip v1 (mret (NULL, cstr cs rest) : F _)) as (s' & E & HRt).
    all: rewrite ?Ei2, ?HR2, ?HF2, ?Em2; try done. by exists s', bs2.
Qed.

Lemma element_ok_take e : element_ok e -> nonzero (take 59 e).
Proof. intros [H _]. by apply Forall_take. Qed.

Lemma path_loop_ok es : forall e n rounds ip c r rest s bs,
  walked dr sb t s0 s bs n ip -> elements (c :: r) = es -> 0 ∈ c :: r -> (c = 0 <-> es = []) ->
  Forall element_ok (e :: es) -> length (cstr (take 59 e) rest) = 60%nat -> (length es < rounds)%nat ->
  walk_result (path_loop fuel rounds ip (Some (c :: r)) np (cstr (take 59 e) rest) s) n e es.
Proof.
  induction es as [|e' es IH]; intros e n rounds ip c r rest s bs HWd Hel H0 Hc0 Hok Hlen Hrounds.
  all: destruct rounds as [|rounds]; [cbn in Hrounds; lia|]; apply Forall_cons in Hok as [He Hok].
  all: pose proof (path_round n rounds ip c r (take 59 e) rest s bs HWd (element_ok_take e He)) as HR; cbn zeta in HR.
  all: unfold walk_result; cbn [resolve]; destruct (dir_entries t n) as [ents|]; cbn [mbind option_bind];
    [|destruct HR as (s' & bs' & E & HRt); by exists (cstr (take 59 e) rest), s', bs'].
  - assert (c = 0) as -> by (by apply Hc0). cbn [Z.eqb] in HR. rewrite bool_decide_eq_true_2 by done.
    destruct (negb (np =? 0)) eqn:Hnp; cbn [andb] in *; [destruct HR as (s' & bs' & E & HRt); by exists ip, rest, s', bs'|].
    destruct (dir_find _ 0 ents) as [[n' off]|]; cbn [mbind option_bind]; [|destruct HR as (s' & bs' & E & HRt); by exists (cstr (take 59 e) rest), s', bs'].
    destruct HR as (ip' & s' & bs' & HWd' & E). exists ip', rest, s', bs'. split; [|done]. rewrite E.
    rewrite skip_element_end by done. rewrite deref_bind. cbn [fst snd]. destruct rounds; cbn [path_loop]; by rewrite Hnp.
  - rewrite (proj2 (Z.eqb_neq c 0)) in HR by (intros Hz; by apply Hc0 in Hz). rewrite andb_false_r in HR.
    rewrite bool_decide_eq_false_2, andb_false_r by done.
    destruct (dir_find _ 0 ents) as [[n' off]|]; cbn [mbind option_bind]; [|destruct HR as (s' & bs' & E & HRt); by exists (cstr (take 59 e) rest), s', bs'].
    destruct HR as (ip' & s' & bs' & HWd' & E). rewrite E. pose proof Hok as Hok'. apply Forall_cons in Hok' as [[He' Hl'] _].
    destruct (skip_element_next (c :: r) (cstr (take 59 e) rest) e' es H0 Hel Hl') as (c' & r' & Esk & _ & Hel' & H0' & Hc').
    { rewrite Hlen. done. }
    rewrite Esk. rewrite deref_bind. cbn [fst snd]. rewrite name_of_cstr. apply (IH e' n' rounds ip' c' r' _ s' bs'); try done.
    + rewrite <-name_of_cstr. by apply name_of_length.
    + cbn in Hrounds. lia.
Qed.
End walk.

(** The reference of a walk given back. *)
Lemma walked_put fuel dr sb t s0 s bs n ip : (forall m, 0 <= refs s0 m) -> walked dr sb t s0 s bs n ip ->
  exists s', inode_put fuel ip s = Ret tt s' /\ returned dr sb t s0 s' bs.
Proof.
  intros Hnn [HW [Hip Hc] Hrefs Hfree Him]. destruct (ic_slots _ (wk_icache _ _ _ _ _ _ HW) ip Hip) as [v Hv].
  destruct (caches_elim _ _ _ _ Hv Hc) as (Hr & Hd & Hn). destruct (walk_put fuel dr sb t s bs ip v HW Hip Hv Hr) as (E & HW' & Hr' & Hf').
  eexists. split; [exact E|]. rewrite Hn in *. split; [done| | |done].
  - intros m. rewrite Hr', Hrefs. lia.
  - rewrite Hf', Hfree, Hrefs. unfold one. rewrite Z.eqb_refl. pose proof (Hnn n).
    destruct (Z.eqb_spec (refs s0 n) 0), (Z.eqb_spec (refs s0 n + 1) 1); lia.
Qed.

(** The walk from the root. *)
Lemma path2inode_walk fuel dr sb t s bs np path name :
  walk_ok dr sb t NULL s bs -> 2 <= free_slots s -> length name = 60%nat ->
  0 ∈ path -> Forall (fun c => 0 <= c < 256) path -> Forall (fun e => Z.of_nat (length e) < 2 ^ 31) (elements path) -> head path = Some slash ->
  match elements path with
  | [] => if np =? 0
          then exists ip s' bs', inode_path2inode fuel path np name s = Ret (ip, name) s' /\ walked dr sb t s s' bs' ROOT_DENT_INO ip
          else exists s' bs', inode_path2inode fuel path np name s = Ret (NULL, name) s' /\ returned dr sb t s s' bs'
  | e :: es => walk_result dr sb t s np (inode_path2inode fuel path np name s) ROOT_DENT_INO e es
  end.
Proof.
  intros HW Hf Hlen H0 Hb HL Hhd. unfold inode_path2inode. rewrite Hhd. rewrite deref_bind, Z.eqb_refl. cbn [kassert]. pose proof (wk_icache _ _ _ _ _ _ HW) as HI.
  destruct (walk_get fuel dr sb t NULL s bs ROOT_DENT_INO) as (ip & s1 & E1 & [G1 G2 G3 G4 G5 G6]); [done|apply HW|lia|].
  assert (walked dr sb t s s1 bs ROOT_DENT_INO ip) as HWd by (by split).
  rewrite (bind_ret (kassert true) _ s tt s) by done. rewrite (bind_ret _ _ _ _ _ E1).
  destruct (elements path) as [|e es] eqn:Hel.
  - rewrite skip_element_end by done. rewrite deref_bind. cbn [fst snd].
    assert (forall rounds, path_loop fuel rounds ip None np name s1 = if negb (np =? 0) then (inode_put fuel ip;; mret (NULL, name)) s1 else Ret (ip, name) s1) as ->.
    { intros [|rounds]; cbn [path_loop]; by destruct (np =? 0). }
    destruct (np =? 0); cbn [negb]; [by exists ip, s1, bs|].
    destruct (walked_put fuel dr sb t s s1 bs ROOT_DENT_INO ip (fun m => refs_nonneg s m HI) HWd) as (s2 & E2 & HR).
    exists s2, bs. split; [|done]. by rewrite (bind_ret _ _ _ _ _ E2).
  - apply Forall_cons in HL as [HLe HLs]. pose proof (elements_nonzero path Hb) as Hnz. pose proof (elements_length path) as Hlp. rewrite Hel in Hnz, Hlp.
    destruct (skip_element_next path name e es H0 Hel HLe) as (c & r & Esk & _ & Hel' & H0' & Hc'); [rewrite Hlen; done|].
    rewrite Esk, deref_bind. cbn [fst snd]. rewrite name_of_cstr.
    apply (path_loop_ok fuel dr sb t s np (fun m => refs_nonneg s m HI) Hf es e _ _ ip c r _ s1 bs); try done.
    + apply Forall_cons in Hnz as [Hn1 Hn2]. constructor; [by split|]. apply Forall_and. by split.
    + rewrite <-name_of_cstr. by apply name_of_length.
Qed.

(** C13.  Path names.  On a disk that holds the tree [t], with the inode cache in
    order and two slots free, [inode_path2inode] returns a reference to the inode
    the path resolves to, and with [nameiparent] one to the directory of its
    last element, whose name is left in [name]; it returns [NULL] when an element
    does not exist or is looked up in what is not a directory, and for the
    parent of the root.  No reference is lost or left over, the disk is not
    changed and the cache stays in order.  A path that does not start with a
    slash stops the kernel. *)
Theorem inode_path2inode_correct fuel dr sb t s bs np path name :
  walk_ok dr sb t NULL s bs -> 2 <= free_slots s -> length name = 60%nat ->
  0 ∈ path -> Forall (fun c => 0 <= c < 256) path -> Forall (fun e => Z.of_nat (length e) < 2 ^ 31) (elements path) ->
  (head path = Some slash ->
     match elements path with
     | [] => if np =? 0
             then exists ip s' bs', inode_path2inode fuel path np name s = Ret (ip, name) s' /\ walked dr sb t s s' bs' ROOT_DENT_INO ip
             else exists s' bs', inode_path2inode fuel path np name s = Ret (NULL, name) s' /\ returned dr sb t s s' bs'
     | e :: es => walk_result dr sb t s np (inode_path2inode fuel path np name s) ROOT_DENT_INO e es
     end) /\
  (forall c, head path = Some c -> c <> slash -> inode_path2inode fuel path np name s = Stop Assert).
Proof.
  intros HW Hf Hlen H0 Hb HL. split; [by apply (path2inode_walk fuel dr sb t s bs)|].
  intros c Hhd Hc. unfold inode_path2inode. rewrite Hhd, deref_bind. by rewrite (proj2 (Z.eqb_neq _ _) Hc).
Qed.
