(* ===== verification/File.v ===== *)
(** fs/file.c and fs/fs.c: the table of open files, the descriptors of a
    thread, and the file system calls.

    The [read] and [write] functions of a character device are reached through
    the function pointers of its driver; a call of such a pointer is a parameter.
    What an automatic variable holds before it is assigned is a parameter too
    ([junk_...]), so that a result that depends on it is seen to. *)
From S2P Require Import Prelude Bitops KList Kernel ThreadInfo ReadyQueue Sched WaitQueue Mutex CString FsState Blkio Coherence Inode InodeLock.

Definition MAX_FILES : Z := 1024. (* MAX_FD_TABLE_SIZE of include/kern/fdtable.h *)

Definition with_f_count (f : file_descriptor) v := FileDescriptor (f_flags f) v (f_inode f) (f_offset f).
Definition with_f_offset (f : file_descriptor) v := FileDescriptor (f_flags f) (f_count f) (f_inode f) v.

Section file.
Variable fuel : nat.
(** [drv->read(ip, f, addr, off, n)]: the count, and the bytes stored; and
    [drv->write] with the bytes to write. *)
Variable call_read : fptr -> ptr -> ptr -> Z -> Z -> F (Z * list Z).
Variable call_write : fptr -> ptr -> ptr -> list Z -> Z -> Z -> F Z.
Variable junk_cnt : Z.
Variable junk_name junk_name1 : list Z. (* [char name[FNAME_MAX]], [char name[FNAME_MAX + 1]] *)
Variable junk_de : d_dirent.

(** ** fs/file.c *)

Definition fdtable_init : F unit :=
  mutex_init MtxFdtbl;;
  forM (seqZ 1 MAX_FILES) (fun f => file_st f (FileDescriptor 0 0 NULL 0)).

Definition alloc_file (f : ptr) : F (option ptr) :=
  d ← file_ld f;
  if f_count d =? 0 then file_st f (with_f_count d 1);; mret (Some f) else mret None.

(** The file, or [None] for [ENOENT]. *)
Definition fdtable_alloc_new_fd : F (option ptr) :=
  mutex_hold fuel MtxFdtbl;;
  r ← forM_until (seqZ 1 MAX_FILES) alloc_file;
  mutex_release MtxFdtbl;;
  mret r.

Definition fdtable_duplicate_fd (f : ptr) : F ptr :=
  mutex_hold fuel MtxFdtbl;;
  d ← file_ld f;
  kassert (0 <? f_count d);;
  file_st f (with_f_count d (f_count d + 1));;
  mutex_release MtxFdtbl;;
  mret f.

Definition fdtable_close_fd (f : ptr) : F unit :=
  mutex_hold fuel MtxFdtbl;;
  d ← file_ld f;
  kassert (0 <? f_count d);;
  file_st f (with_f_count d (f_count d - 1));;
  d ← file_ld f;
  (if 0 <? f_count d then mret tt
   else kassert (f_count d =? 0);; inode_put fuel (f_inode d));;
  mutex_release MtxFdtbl.

(** The return code, [*rd_cnt], and the bytes read. *)
Definition fd_file_read (f : ptr) (n : Z) : F (Z * Z * list Z) :=
  d ← file_ld f;
  if negb (ctrue (Z.land (f_flags d) FREAD)) then mret (EPERM, junk_cnt, [])
  else
    kassert (negb (f_inode d =? NULL));;
    inode_lock fuel (f_inode d);;
    d ← file_ld f;
    v ← inode_ld (f_inode d);
    r ← (if i_mode v =? FS_IMODE_DEV then
           drv ← devsw_get_handle fuel (i_rdev v);
           dd ← drv_get drv;
           if drv_dev dd =? 0 then mret (ENODEV, junk_cnt, [])
           else
             inode_unlock fuel (f_inode d);;
             d ← file_ld f; dd ← drv_get drv;
             r ← call_read (drv_read dd) (f_inode d) f (f_offset d) n;
             d ← file_ld f; inode_lock fuel (f_inode d);;
             dd ← drv_get drv; devsw_put_handle fuel (drv_dev dd);;
             mret (0, r.1, r.2)
         else
           r ← inode_read fuel (f_inode d) (f_offset d) n;
           if 0 <? r.1 then
             d ← file_ld f;
             file_st f (with_f_offset d (f_offset d + r.1));;
             mret (0, r.1, r.2)
           else mret (s32 r.1, junk_cnt, r.2));
    d ← file_ld f;
    inode_unlock fuel (f_inode d);;
    mret r.

(** The return code and [*wr_cnt]. *)
Definition fd_file_write (f : ptr) (addr : list Z) (n : Z) : F (Z * Z) :=
  d ← file_ld f;
  if negb (ctrue (Z.land (f_flags d) FWRITE)) then mret (EPERM, junk_cnt)
  else
    inode_lock fuel (f_inode d);;
    d ← file_ld f;
    v ← inode_ld (f_inode d);
    r ← (if i_mode v =? FS_IMODE_DEV then
           drv ← devsw_get_handle fuel (i_rdev v);
           dd ← drv_get drv;
           if drv_dev dd =? 0 then mret (ENODEV, junk_cnt)
           else
             inode_unlock fuel (f_inode d);;
             d ← file_ld f; dd ← drv_get drv;
             cnt ← call_write (drv_write dd) (f_inode d) f addr (f_offset d) n;
             d ← file_ld f; inode_lock fuel (f_inode d);;
             dd ← drv_get drv; devsw_put_handle fuel (drv_dev dd);;
             mret (0, cnt)
         else
           wr_count ← inode_write fuel (f_inode d) addr (f_offset d) n;
           if 0 <? wr_count then
             d ← file_ld f;
             file_st f (with_f_offset d (f_offset d + wr_count));;
             mret (0, wr_count)
           else mret (s32 wr_count, junk_cnt));
    d ← file_ld f;
    inode_unlock fuel (f_inode d);;
    mret r.

Definition fd_file_stat (f : ptr) : F stat :=
  d ← file_ld f;
  kassert (negb (f_inode d =? NULL));;
  inode_lock fuel (f_inode d);;
  st ← inode_get_stat (f_inode d);
  d ← file_ld f;
  inode_unlock fuel (f_inode d);;
  mret st.

(** ** fs/fs.c *)

(** [current->fds[fd]], read and written. *)
Definition fds_get (fd : Z) : F ptr :=
  s ← get; t ← thr_get (current s); deref (fds t !! Z.to_nat fd).
Definition fds_put (fd : Z) (f : ptr) : F unit :=
  s ← get; t ← thr_get (current s); thr_put (current s) (with_fds t (<[Z.to_nat fd := f]> (fds t))).

Definition take_fd (f : ptr) (fd : Z) : F (option Z) :=
  p ← fds_get fd;
  if p =? NULL then fds_put fd f;; mret (Some fd) else mret None.

Definition alloc_new_fd (f : ptr) : F Z :=
  r ← forM_until (seqZ 0 THR_FDS_NR) (take_fd f);
  mret (match r with Some fd => fd | None => - ENOENT end).

Definition dot : list Z := [46; 0].
Definition dotdot : list Z := [46; 46; 0].

(** [( strncmp(".", name, FNAME_MAX) == 0 ) || ( strncmp("..", name, FNAME_MAX) == 0 )] *)
Definition is_dots (name : list Z) : option bool :=
  c ← strncmp dot name FNAME_MAX;
  if c =? 0 then Some true else c ← strncmp dotdot name FNAME_MAX; Some (c =? 0).

(** [de] is the contents of the automatic variable, which a short read fills in part. *)
Fixpoint isdirempty_loop (rounds : nat) (dp : ptr) (off : Z) (de : list Z) : F bool :=
  v ← inode_ld dp;
  if i_size v <=? u64 off then mret true
  else match rounds with
       | O => stopM OutOfFuel
       | S rounds =>
           r ← inode_read fuel dp off D_DIRENT_SIZE;
           let de := r.2 ++ drop (length r.2) de in
           kassert (negb (r.1 =? D_DIRENT_SIZE));;
           e ← deref (d_dirent_of de);
           dots ← deref (is_dots (d_name e));
           if (dots : bool) then isdirempty_loop rounds dp (off + D_DIRENT_SIZE) de
           else if negb (d_ino e =? 0) then mret false
           else isdirempty_loop rounds dp (off + D_DIRENT_SIZE) de
       end.

Definition isdirempty (dp : ptr) : F bool :=
  v ← inode_ld dp;
  isdirempty_loop (dir_rounds v) dp 0 (d_dirent_bytes junk_de).

(** [inode_add_directory_entry(dp, name, inum) < 0] *)
Definition add_entry (dp : ptr) (name : list Z) (inum_ : Z) : F bool :=
  rc ← inode_add_directory_entry fuel junk_de dp name inum_; mret (rc <? 0).

(** A locked inode, or [NULL]. *)
Definition create (path : list Z) (type dev : Z) : F ptr :=
  r ← inode_nameiparent fuel path junk_name;
  let dp := r.1 in let name := r.2 in
  if dp =? NULL then mret NULL
  else
    inode_lock fuel dp;;
    r ← inode_dirlookup fuel dp name;
    let ip := r.1 in
    if negb (ip =? NULL) then
      inode_unlock fuel dp;;
      inode_put fuel dp;;
      inode_lock fuel ip;;
      v ← inode_ld ip;
      if (type =? FS_IMODE_FILE) && (i_mode v =? FS_IMODE_FILE) then mret ip
      else inode_unlock fuel ip;; inode_put fuel ip;; mret NULL
    else
      d ← inode_ld dp;
      ip ← inode_allocate fuel (i_dev d) type;
      kassert (negb (ip =? NULL));;
      inode_lock fuel ip;;
      v ← inode_ld ip;
      inode_st ip (with_i_nlink (with_i_dev v dev) 1);;
      inode_update fuel ip;;
      (if type =? FS_IMODE_DIR then
         d ← inode_ld dp;
         inode_st dp (with_i_nlink d (i_nlink d + 1));;
         inode_update fuel dp;;
         v ← inode_ld ip;
         bad ← add_entry ip dot (inum v);
         bad ← (if (bad : bool) then mret true else d ← inode_ld dp; add_entry ip dotdot (inum d));
         if (bad : bool) then stopM Panic else mret tt
       else mret tt);;
      v ← inode_ld ip;
      bad ← add_entry dp name (inum v);
      if (bad : bool) then stopM Panic
      else
        inode_unlock fuel dp;;
        inode_put fuel dp;;
        mret ip.

(** The test of a descriptor every call starts with; [k] goes on with the file. *)
Definition with_fd {A} (fd : Z) (err : Z -> A) (k : ptr -> F A) : F A :=
  if (fd <? 0) || (THR_FDS_NR <=? fd) then mret (err (- EINVAL))
  else f ← fds_get fd; if f =? NULL then mret (err (- EBADF)) else k f.

Definition fs_dup (fd : Z) : F Z :=
  with_fd fd id (fun f =>
    new_fd ← alloc_new_fd f;
    if new_fd <? 0 then mret new_fd else fdtable_duplicate_fd f;; mret new_fd).

(** The result and the bytes read. *)
Definition fs_read (fd counts : Z) : F (Z * list Z) :=
  with_fd fd (fun e => (e, [])) (fun f =>
    r ← fd_file_read f counts;
    mret (s32 (if r.1.1 =? 0 then r.1.2 else r.1.1), r.2)).

Definition fs_write (fd : Z) (src : list Z) (counts : Z) : F Z :=
  with_fd fd id (fun f =>
    r ← fd_file_write f src counts;
    mret (s32 (if r.1 =? 0 then r.2 else r.1))).

Definition fs_close (fd : Z) : F Z :=
  with_fd fd id (fun f => fds_put fd NULL;; fdtable_close_fd f;; mret 0).

(** [inode_put_out:] *)
Definition open_put_out (ip : ptr) : F Z := inode_unlock fuel ip;; inode_put fuel ip;; mret (-1).

Definition open_inode (path : list Z) (omode : Z) : F (ptr * bool) :=
  if ctrue (Z.land omode O_CREATE) then
    ip ← create path FS_IMODE_FILE ROOT_DEV; mret (ip, false)
  else
    ip ← inode_namei fuel junk_name1 path;
    if ip =? NULL then mret (NULL, false)
    else
      inode_lock fuel ip;;
      v ← inode_ld ip;
      mret (ip, (i_mode v =? FS_IMODE_DIR) && negb (omode =? O_RDONLY)).

Definition fs_open (path : list Z) (omode : Z) : F Z :=
  r ← open_inode path omode;
  let ip := r.1 in
  if ip =? NULL then mret (-1)
  else if r.2 : bool then open_put_out ip
  else
    o ← fdtable_alloc_new_fd;
    match o with
    | None => open_put_out ip
    | Some f =>
        fd ← alloc_new_fd f;
        if fd <? 0 then fdtable_close_fd f;; open_put_out ip
        else
          inode_unlock fuel ip;;
          d ← file_ld f;
          file_st f (FileDescriptor omode (f_count d) ip 0);;
          mret fd
    end.

(** [error_out:] of [fs_link]. *)
Definition link_error_out (ip : ptr) : F Z :=
  inode_lock fuel ip;;
  v ← inode_ld ip;
  inode_st ip (with_i_nlink v (i_nlink v - 1));;
  inode_update fuel ip;;
  inode_unlock fuel ip;;
  inode_put fuel ip;;
  mret (-1).

Definition fs_link (old new : list Z) : F Z :=
  ip ← inode_namei fuel junk_name1 old;
  if ip =? NULL then mret (-1)
  else
    inode_lock fuel ip;;
    v ← inode_ld ip;
    if i_mode v =? FS_IMODE_DIR then inode_unlock fuel ip;; inode_put fuel ip;; mret (-1)
    else
      inode_st ip (with_i_nlink v (i_nlink v + 1));;
      inode_unlock fuel ip;;
      inode_put fuel ip;;
      r ← inode_nameiparent fuel new junk_name;
      let dp := r.1 in
      if dp =? NULL then link_error_out ip
      else
        inode_lock fuel dp;;
        d ← inode_ld dp; v ← inode_ld ip;
        if negb (i_dev d =? i_dev v) then
          inode_unlock fuel dp;; inode_put fuel dp;; link_error_out ip
        else
          bad ← add_entry dp r.2 (inum v);
          inode_unlock fuel dp;;
          inode_put fuel dp;;
          if (bad : bool) then link_error_out ip
          else inode_put fuel ip;; mret 0.

(** [error_out:] of [fs_unlink]. *)
Definition unlink_error_out (dp : ptr) : F Z := inode_unlock fuel dp;; inode_put fuel dp;; mret (-1).

Definition fs_unlink (path : list Z) : F Z :=
  r ← inode_nameiparent fuel path junk_name;
  let dp := r.1 in let name := r.2 in
  if dp =? NULL then mret (-1)
  else
    inode_lock fuel dp;;
    dots ← deref (is_dots name);
    if (dots : bool) then unlink_error_out dp
    else
      r ← inode_dirlookup fuel dp name;
      let ip := r.1 in
      if ip =? NULL then unlink_error_out dp
      else
        inode_lock fuel ip;;
        v ← inode_ld ip;
        kassert (0 <? i_nlink v);;
        full ← (if i_mode v =? FS_IMODE_DIR then e ← isdirempty ip; mret (negb e) else mret false);
        if (full : bool) then inode_unlock fuel ip;; inode_put fuel ip;; unlink_error_out dp
        else
          wr_len ← inode_write fuel dp (replicate (Z.to_nat D_DIRENT_SIZE) 0) r.2 D_DIRENT_SIZE;
          kassert (wr_len =? D_DIRENT_SIZE);;
          v ← inode_ld ip;
          when (i_mode v =? FS_IMODE_DIR)
            (d ← inode_ld dp; inode_st dp (with_i_nlink d (i_nlink d - 1));; inode_update fuel dp);;
          inode_unlock fuel dp;;
          inode_put fuel dp;;
          v ← inode_ld ip;
          inode_st ip (with_i_nlink v (i_nlink v - 1));;
          inode_update fuel ip;;
          inode_unlock fuel ip;;
          inode_put fuel ip;;
          mret 0.

Definition fs_lseek (fd off where_ : Z) : F Z :=
  with_fd fd id (fun f =>
    d ← file_ld f;
    let new := if where_ =? SEEK_CUR then s64 (f_offset d + off) else off in
    kassert (negb (f_inode d =? NULL));;
    inode_lock fuel (f_inode d);;
    d ← file_ld f;
    v ← inode_ld (f_inode d);
    let new := if where_ =? SEEK_END then s64 (i_size v + off) else new in
    let new := if new <? 0 then 0 else new in
    inode_unlock fuel (f_inode d);;
    d ← file_ld f;
    file_st f (with_f_offset d new);;
    mret new).

(** The result, and the status unless it is an error. *)
Definition fs_fstat (fd : Z) : F (Z * option stat) :=
  with_fd fd (fun e => (e, None)) (fun f =>
    d ← file_ld f;
    kassert (negb (f_inode d =? NULL));;
    st ← fd_file_stat f;
    mret (0, Some st)).
End file.

Implicit Types (s : kst fsst) (f : ptr).

(** ** Descriptors of the running thread *)

Lemma file_ld_eq s f d : files (ext s) !! f = Some d -> file_ld f s = Ret d s.
Proof. intros E. unfold file_ld, fs_state. mred. by rewrite E. Qed.
Lemma file_st_eq s f d d' :
  files (ext s) !! f = Some d ->
  file_st f d' s = Ret tt (map_ext s (fun x => with_files x (<[f := d']> (files x)))).
Proof. intros E. unfold file_st, fs_modify. mred. by rewrite (file_ld_eq _ _ d). Qed.

(** The running thread [t], with its table of descriptors. *)
Record has_fds s (t : thread_t) : Prop := {
  hf_thr : threads s !! current s = Some t;
  hf_len : length (fds t) = Z.to_nat THR_FDS_NR }.

Lemma fds_get_eq s t fd f : has_fds s t -> fds t !! Z.to_nat fd = Some f -> fds_get fd s = Ret f s.
Proof. intros [H _] E. unfold fds_get. mred. rewrite (thr_get_eq _ _ t) by done. mred. by rewrite E. Qed.

Definition with_fd_slot s (t : thread_t) (fd : Z) (f : ptr) : kst fsst :=
  with_threads s (<[current s := with_fds t (<[Z.to_nat fd := f]> (fds t))]> (threads s)).

Lemma fds_put_eq s t fd f : has_fds s t -> fds_put fd f s = Ret tt (with_fd_slot s t fd f).
Proof. intros [H _]. unfold fds_put. mred. rewrite (thr_get_eq _ _ t) by done. mred. by rewrite (thr_put_eq _ _ t). Qed.

(** The lowest descriptor that is free. *)
Definition lowest_free (t : thread_t) (n : Z) : Prop :=
  0 <= n < THR_FDS_NR /\ fds t !! Z.to_nat n = Some NULL /\
  forall i, 0 <= i < n -> fds t !! Z.to_nat i <> Some NULL.

Lemma take_fd_eq s t f fd p : has_fds s t -> fds t !! Z.to_nat fd = Some p ->
  take_fd f fd s = if p =? NULL then Ret (Some fd) (with_fd_slot s t fd f) else Ret None s.
Proof.
  intros HT E. unfold take_fd. mred. rewrite (fds_get_eq _ t fd p) by done. mred. destruct (p =? NULL); [|done].
  by rewrite (fds_put_eq _ t).
Qed.

Lemma take_fd_loop s t f l : has_fds s t -> (forall i, i ∈ l -> 0 <= i < THR_FDS_NR) ->
  (forall a n r, l = a ++ n :: r -> fds t !! Z.to_nat n = Some NULL ->
     (forall i, i ∈ a -> fds t !! Z.to_nat i <> Some NULL) ->
     forM_until l (take_fd f) s = Ret (Some n) (with_fd_slot s t n f)) /\
  ((forall i, i ∈ l -> fds t !! Z.to_nat i <> Some NULL) -> forM_until l (take_fd f) s = Ret None s).
Proof.
  intros HT. induction l as [|i l IH]; intros Hr; cbn [forM_until].
  { split; [|done]. intros a n r E. by destruct a. }
  destruct (lookup_lt_is_Some_2 (fds t) (Z.to_nat i)) as [p Hp].
  { rewrite (hf_len _ _ HT). specialize (Hr i ltac:(set_solver)). lia. }
  destruct IH as [IH1 IH2]; [intros j Hj; apply Hr; set_solver|]. mred.
  rewrite (take_fd_eq _ t f i p) by done. split.
  - intros a n r E Hn Ha. destruct a as [|x a]; injection E as -> ->.
    + rewrite Hn in Hp. injection Hp as <-. done.
    + destruct (Z.eqb_spec p NULL) as [->|]; [by destruct (Ha x); [set_solver|]|]. mred.
      apply (IH1 a n r); [done|done|]. intros j Hj. apply Ha. set_solver.
  - intros Hno. destruct (Z.eqb_spec p NULL) as [->|]; [by destruct (Hno i); [set_solver|]|]. mred.
    apply IH2. intros j Hj. apply Hno. set_solver.
Qed.

Lemma seqZ_split n : 0 <= n < THR_FDS_NR ->
  exists r, seqZ 0 THR_FDS_NR = seqZ 0 n ++ n :: r.
Proof.
  intros Hn. exists (seqZ (n + 1) (THR_FDS_NR - n - 1)). replace THR_FDS_NR with (n + (THR_FDS_NR - n)) at 1 by lia.
  rewrite seqZ_app by lia. f_equal. rewrite seqZ_cons by lia. repeat (f_equal; try lia).
Qed.

Lemma alloc_new_fd_eq s t f : has_fds s t ->
  (forall n, lowest_free t n -> alloc_new_fd f s = Ret n (with_fd_slot s t n f)) /\
  ((forall i, 0 <= i < THR_FDS_NR -> fds t !! Z.to_nat i <> Some NULL) -> alloc_new_fd f s = Ret (- ENOENT) s).
Proof.
  intros HT. destruct (take_fd_loop s t f (seqZ 0 THR_FDS_NR) HT) as [H1 H2]; [intros i; apply elem_of_seqZ_iff|].
  unfold alloc_new_fd. split.
  - intros n (Hn & Hz & Hlow). destruct (seqZ_split n Hn) as [r Er]. mred.
    rewrite (H1 (seqZ 0 n) n r Er); [done|done|]. intros i Hi%elem_of_seqZ_iff. by apply Hlow.
  - intros Hno. mred. rewrite H2; [done|]. intros i Hi%elem_of_seqZ_iff. by apply Hno.
Qed.

(** ** Duplicating and closing *)

Definition with_file s f (d : file_descriptor) : kst fsst :=
  map_ext s (fun x => with_files x (<[f := d]> (files x))).

Lemma fdtable_duplicate_eq fuel s f d :
  quiet s MtxFdtbl -> files (ext s) !! f = Some d -> 0 < f_count d ->
  fdtable_duplicate_fd fuel f s = Ret f (with_file s f (with_f_count d (f_count d + 1))).
Proof.
  intros HQ Hd Hc. unfold fdtable_duplicate_fd. mred. rewrite hold_eq by done. mred.
  rewrite (file_ld_eq _ _ d) by done. mred. rewrite (proj2 (Z.ltb_lt _ _) Hc). mred.
  rewrite (file_st_eq _ _ d) by done. mred. by rewrite release_after.
Qed.

(** Closing a file that stays open elsewhere. *)
Lemma fdtable_close_shared fuel s f d :
  quiet s MtxFdtbl -> files (ext s) !! f = Some d -> 1 < f_count d ->
  fdtable_close_fd fuel f s = Ret tt (with_file s f (with_f_count d (f_count d - 1))).
Proof.
  intros HQ Hd Hc. unfold fdtable_close_fd. mred. rewrite hold_eq by done. mred.
  rewrite (file_ld_eq _ _ d) by done. mred. rewrite (proj2 (Z.ltb_lt 0 (f_count d))) by lia. mred.
  rewrite (file_st_eq _ _ d) by done. mred.
  rewrite (file_ld_eq _ _ (with_f_count d (f_count d - 1))) by (cbn; by rewrite lookup_insert_eq). mred.
  rewrite (proj2 (Z.ltb_lt 0 (f_count (with_f_count d (f_count d - 1))))) by (cbn; lia). mred. by rewrite release_after.
Qed.

Lemma with_fd_ok {A} s t fd f (err : Z -> A) k :
  has_fds s t -> 0 <= fd < THR_FDS_NR -> fds t !! Z.to_nat fd = Some f -> f <> NULL -> with_fd fd err k s = k f s.
Proof.
  intros HT Hfd Hf Hn. unfold with_fd. rewrite (proj2 (Z.ltb_ge fd 0)), (proj2 (Z.leb_gt THR_FDS_NR fd)) by lia. cbn [orb].
  mred. rewrite (fds_get_eq _ t fd f) by done. mred. by rewrite (proj2 (Z.eqb_neq _ _) Hn).
Qed.

Lemma with_fd_bad {A} s t fd (err : Z -> A) k : has_fds s t ->
  (~ 0 <= fd < THR_FDS_NR -> with_fd fd err k s = Ret (err (- EINVAL)) s) /\
  (0 <= fd < THR_FDS_NR -> fds t !! Z.to_nat fd = Some NULL -> with_fd fd err k s = Ret (err (- EBADF)) s).
Proof.
  intros HT. unfold with_fd. split.
  - intros Hfd. destruct (Z.ltb_spec fd 0); [done|]. by rewrite (proj2 (Z.leb_le THR_FDS_NR fd)) by lia.
  - intros Hfd Hf. rewrite (proj2 (Z.ltb_ge fd 0)), (proj2 (Z.leb_gt THR_FDS_NR fd)) by lia. cbn [orb]. mred.
    by rewrite (fds_get_eq _ t fd NULL).
Qed.

Lemma has_fds_slot s t fd f : has_fds s t -> 
  has_fds (with_fd_slot s t fd f) (with_fds t (<[Z.to_nat fd := f]> (fds t))).
Proof. intros [H1 H2]. split; [cbn; by rewrite lookup_insert_eq|cbn; by rewrite length_insert]. Qed.

Lemma with_file_undo s f d d' :
  files (ext s) !! f = Some d -> with_file (with_file s f d') f d = s.
Proof.
  intros E. unfold with_file, map_ext. cbn. rewrite insert_insert_eq, (insert_id (files (ext s)) f d E).
  destruct s as [??????????????? ? [????]]. done.
Qed.

Lemma with_fd_slot_undo s t fd f :
  has_fds s t -> fds t !! Z.to_nat fd = Some NULL ->
  with_fd_slot (with_fd_slot s t fd f) (with_fds t (<[Z.to_nat fd := f]> (fds t))) fd NULL = s.
Proof.
  intros [H _] E. unfold with_fd_slot. cbn. rewrite insert_insert_eq, list_insert_insert_eq, (list_insert_id (fds t) _ NULL E).
  rewrite (insert_id (threads s) (current s) (with_fds (with_fds t (<[Z.to_nat fd := f]> (fds t))) (fds t))); [by destruct s|]. rewrite H. by destruct t.
Qed.

(** Duplicating a descriptor: a bad descriptor is refused; otherwise the
    lowest free descriptor refers to the same open file, whose count grows by
    one, and closing the duplicate restores the state; with no free descriptor
    left the call fails without effect. *)
Theorem fs_dup_correct fuel s t fd f d :
  has_fds s t -> quiet s MtxFdtbl ->
  (~ 0 <= fd < THR_FDS_NR -> fs_dup fuel fd s = Ret (- EINVAL) s) /\
  (0 <= fd < THR_FDS_NR -> fds t !! Z.to_nat fd = Some NULL -> fs_dup fuel fd s = Ret (- EBADF) s) /\
  (0 <= fd < THR_FDS_NR -> fds t !! Z.to_nat fd = Some f -> f <> NULL -> files (ext s) !! f = Some d -> 0 < f_count d ->
     (forall n, lowest_free t n ->
        fs_dup fuel fd s = Ret n (with_file (with_fd_slot s t n f) f (with_f_count d (f_count d + 1))) /\
        (n ← fs_dup fuel fd; fs_close fuel n) s = Ret 0 s) /\
     ((forall i, 0 <= i < THR_FDS_NR -> fds t !! Z.to_nat i <> Some NULL) -> fs_dup fuel fd s = Ret (- ENOENT) s)).
Proof.
  intros HT HQ. split; [by apply (with_fd_bad s t)|]. split; [by apply (with_fd_bad s t)|]. intros Hfd Hf Hnz Hd Hc.
  destruct (alloc_new_fd_eq s t f HT) as [HA1 HA2]. split.
  - intros n Hn. pose proof Hn as (Hnr & Hnf & _).
    assert (fs_dup fuel fd s = Ret n (with_file (with_fd_slot s t n f) f (with_f_count d (f_count d + 1)))) as E.
    { unfold fs_dup. rewrite (with_fd_ok s t fd f) by done. mred. rewrite (HA1 n Hn). mred.
      rewrite (proj2 (Z.ltb_ge n 0)) by lia. mred. by rewrite (fdtable_duplicate_eq _ _ _ d). }
    split; [done|]. mred. rewrite E. mred. unfold fs_close.
    set (s1 := with_file _ f _). set (t1 := with_fds t (<[Z.to_nat n := f]> (fds t))).
    assert (has_fds s1 t1) as HT1 by (destruct (has_fds_slot s t n f HT); by split).
    rewrite (with_fd_ok s1 t1 n f); [|done|done|cbn; apply list_lookup_insert_eq; rewrite (hf_len _ _ HT); lia|done].
    mred. rewrite (fds_put_eq _ t1) by done. mred.
    rewrite (fdtable_close_shared _ _ _ (with_f_count d (f_count d + 1)));
      [|exact HQ|cbn; by rewrite lookup_insert_eq|cbn; lia]. mred. f_equal.
    transitivity (with_file (with_file (with_fd_slot (with_fd_slot s t n f) t1 n NULL) f (with_f_count d (f_count d + 1))) f d).
    + unfold with_file, with_fd_slot, map_ext. cbn. do 3 f_equal. destruct d; unfold with_f_count; cbn. do 2 f_equal. lia.
    + unfold t1. rewrite (with_fd_slot_undo s t n f HT Hnf). by apply with_file_undo.
  - intros Hno. unfold fs_dup. rewrite (with_fd_ok s t fd f) by done. mred. rewrite HA2 by done. done.
Qed.

(** ** Reading and seeking *)

Lemma cache_step_wq s bs s' bs' q :
  cache_step s bs s' bs' -> is_ring (links s) (WqHead q) [] -> is_ring (links s') (WqHead q) [].
Proof.
  intros (m & B & -> & HF & _) HR. cbn. eapply is_ring_frame; [exact HF| |exact HR].
  intros y Hy. apply list_elem_of_singleton in Hy as ->. rewrite elem_of_cons, list_elem_of_fmap. by intros [?|(? & ? & _)].
Qed.

Lemma cache_step_file s bs s' bs' f d :
  cache_step s bs s' bs' -> cache_step (with_file s f d) bs (with_file s' f d) bs'.
Proof. intros (m & B & -> & HF & HP). by exists m, B. Qed.

Lemma disk_ok_file dev dr s bs f d : disk_ok dev dr s bs -> disk_ok dev dr (with_file s f d) bs.
Proof. intros [H1 H2 H3 H4 H5 H6]. by split. Qed.

Lemma with_slot_id s ip v : inodes (ext s) !! ip = Some v -> with_slot s ip v = s.
Proof. intros E. unfold with_slot, map_ext. rewrite insert_id by done. destruct s as [??????????????? ? [????]]. done. Qed.
Lemma with_file_id s f d : files (ext s) !! f = Some d -> with_file s f d = s.
Proof. intros E. unfold with_file, map_ext. rewrite insert_id by done. destruct s as [??????????????? ? [????]]. done. Qed.

(** An open file [f]: descriptor [d] of the inode [v], cached, valid and not
    locked. *)
Record open_file s f (d : file_descriptor) (v : inode) : Prop := {
  of_file : files (ext s) !! f = Some d;
  of_inode : inodes (ext s) !! f_inode d = Some v;
  of_null : f_inode d <> NULL;
  of_ref : 0 < ref v;
  of_busy : i_busy v = false;
  of_valid : i_valid v = true;
  of_quiet : quiet s MtxIcache;
  of_wait : is_ring (links s) (WqHead (inode_waiters (f_inode d))) [] }.

Section calls.
Variable fuel : nat.
Variable call_read : fptr -> ptr -> ptr -> Z -> Z -> F (Z * list Z).
Variable junk_cnt : Z.

Lemma fd_file_read_ok dev dr s bs f d v n :
  open_file s f d v -> disk_ok dev dr s bs -> i_dev v = dev -> i_mode v = FS_IMODE_FILE ->
  ctrue (Z.land (f_flags d) FREAD) = true -> direct_file (image (ext s)) v 0 (i_size v) ->
  0 <= f_offset d <= i_size v -> 0 <= n -> f_offset d + n < 2 ^ 64 ->
  let c := Z.min n (i_size v - f_offset d) in
  exists s' bs' l, fd_file_read fuel call_read junk_cnt f n s = Ret (0, if c =? 0 then junk_cnt else c, l) s' /\
    length l = Z.to_nat c /\
    (forall i, 0 <= i < c -> l !! Z.to_nat i = file_byte (image (ext s)) v (f_offset d + i)) /\
    disk_ok dev dr s' bs' /\ cache_step (with_file s f (with_f_offset d (f_offset d + c))) bs s' bs'.
Proof.
  intros HF HO Hdev Hmode Hfl Hdir Hoff Hn Hov c. destruct HF as [Hd Hv Hnz Hr Hb Hval HQ HW].
  unfold fd_file_read. mred. rewrite (file_ld_eq _ _ d) by done. mred. rewrite Hfl. cbn [negb]. mred.
  rewrite (proj2 (Z.eqb_neq _ _) Hnz). cbn [negb]. mred. rewrite (inode_lock_valid _ _ _ v) by done. mred.
  set (ip := f_inode d). set (s1 := with_slot s ip (lock_bits v)).
  rewrite (file_ld_eq _ _ d) by done. mred. rewrite (inode_ld_eq _ _ (lock_bits v)) by apply with_slot_get. mred.
  change (i_mode (lock_bits v)) with (i_mode v). rewrite Hmode. change (FS_IMODE_FILE =? FS_IMODE_DEV) with false. cbv iota. cbv beta. fold ip.
  destruct (inode_read_ok fuel dev dr s1 bs ip (lock_bits v) (f_offset d) n) as (s2 & b2 & l & E & Hl & HL & HO2 & HS2);
    [by apply disk_ok_slot|apply with_slot_get|done|cbn; by rewrite Hmode|done|done|done|done|].
  rewrite E. mred. change (i_size (lock_bits v)) with (i_size v). fold c. cbn [fst snd].
  assert (cache_step s bs (with_slot s2 ip v) b2) as HS3.
  { apply (cache_step_slot _ _ _ _ ip v) in HS2. unfold s1 in HS2. rewrite with_slot_slot, with_slot_id in HS2 by done. done. }
  assert (files (ext s2) = files (ext s)) as Ef by (by destruct HS2 as (? & ? & -> & _)).
  assert (files (ext s2) !! f = Some d) as Hd2 by (by rewrite Ef).
  set (d' := with_f_offset d (f_offset d + c)). set (s3 := with_file s2 f d').
  exists (with_slot s3 ip v), b2, l.
  assert (forall x, inode_unlock fuel ip (with_file s2 f x) = Ret tt (with_slot (with_file s2 f x) ip v)) as Hun.
  { intros x. destruct (cache_step_inodes _ _ _ _ HS2) as [Ei _].
    rewrite (inode_unlock_eq _ _ _ (lock_bits v)); [by rewrite unlock_lock_bits|by apply (cache_step_quiet _ _ _ _ MtxIcache HS2)| |apply lock_bits_busy|].
    - cbn. rewrite Ei. apply with_slot_get.
    - by apply (cache_step_wq _ _ _ _ _ HS2). }
  split_and!; [|done|done|by apply disk_ok_slot, disk_ok_file|exact (cache_step_file _ _ _ _ f d' HS3)].
  destruct (Z.eqb_spec c 0) as [Ec|Ec].
  - rewrite Ec. cbn [Z.ltb Z.compare]. mred. rewrite (file_ld_eq _ _ d) by done. mred. fold ip.
    assert (s3 = s2) as E3.
    { unfold s3, d'. rewrite Ec, Z.add_0_r. replace (with_f_offset d (f_offset d)) with d by (by destruct d). by apply with_file_id. }
    unfold s3 in E3. pose proof (Hun d') as H3. fold s3. rewrite E3 in H3. rewrite H3. mred. unfold s3. by rewrite E3.
  - rewrite (proj2 (Z.ltb_lt 0 c)) by lia. mred. rewrite (file_ld_eq _ _ d) by done. mred.
    rewrite (file_st_eq _ _ d) by done. mred. rewrite (file_ld_eq _ _ d') by (cbn; by rewrite lookup_insert_eq). mred.
    change (f_inode d') with ip. fold d'. fold (with_file s2 f d'). rewrite Hun. done.
Qed.

(** C7.  Reading an open file of direct blocks through a descriptor: the bytes
    are those of the file on disk from the current offset, as many as asked for
    up to the end, the offset moves on by their number, which is returned, and
    besides only the buffer cache changes.  When there is nothing to read the
    value returned is not 0 but what the variable [rdcnt] of [fs_read] happened
    to hold. *)
Theorem fs_read_correct dev dr s bs t fd f d v n :
  has_fds s t -> 0 <= fd < THR_FDS_NR -> fds t !! Z.to_nat fd = Some f -> f <> NULL ->
  open_file s f d v -> disk_ok dev dr s bs -> i_dev v = dev -> i_mode v = FS_IMODE_FILE ->
  ctrue (Z.land (f_flags d) FREAD) = true -> direct_file (image (ext s)) v 0 (i_size v) ->
  0 <= f_offset d <= i_size v -> 0 <= n -> f_offset d + n < 2 ^ 64 ->
  let c := Z.min n (i_size v - f_offset d) in
  exists s' bs' l, fs_read fuel call_read junk_cnt fd n s = Ret (if c =? 0 then s32 junk_cnt else c, l) s' /\
    length l = Z.to_nat c /\
    (forall i, 0 <= i < c -> l !! Z.to_nat i = file_byte (image (ext s)) v (f_offset d + i)) /\
    disk_ok dev dr s' bs' /\ cache_step (with_file s f (with_f_offset d (f_offset d + c))) bs s' bs'.
Proof.
  intros HT Hfd Hf Hnz HF HO Hdev Hmode Hfl Hdir Hoff Hn Hov c.
  destruct (fd_file_read_ok dev dr s bs f d v n HF HO Hdev Hmode Hfl Hdir Hoff Hn Hov) as (s' & bs' & l & E & HR).
  exists s', bs', l. split; [|exact HR]. unfold fs_read. rewrite (with_fd_ok s t fd f) by done. mred. rewrite E. mred. fold c.
  cbn [fst snd Z.eqb]. assert (i_size v <= 6144) by (destruct Hdir as [Hd _]; exact Hd).
  destruct (Z.eqb_spec c 0); [done|]. unfold s32. rewrite swrap_small by lia. done.
Qed.

(** Moving the offset of an open file: from the start, from the current
    offset or from the end of the file, and never below 0.  Only the offset
    changes. *)
Theorem fs_lseek_correct s t fd f d v off where_ :
  has_fds s t -> 0 <= fd < THR_FDS_NR -> fds t !! Z.to_nat fd = Some f -> f <> NULL -> open_file s f d v ->
  let base := if where_ =? SEEK_CUR then f_offset d else if where_ =? SEEK_END then i_size v else 0 in
  - 2 ^ 63 <= base + off < 2 ^ 63 ->
  fs_lseek fuel fd off where_ s = Ret (Z.max 0 (base + off)) (with_file s f (with_f_offset d (Z.max 0 (base + off)))).
Proof.
  intros HT Hfd Hf Hnz HF base Hr. destruct HF as [Hd Hv Hin Href Hb Hval HQ HW].
  unfold fs_lseek. rewrite (with_fd_ok s t fd f) by done. mred. rewrite (file_ld_eq _ _ d) by done. mred.
  rewrite (proj2 (Z.eqb_neq _ _) Hin). cbn [negb]. mred. rewrite (inode_lock_valid _ _ _ v) by done. mred.
  rewrite (file_ld_eq _ _ d) by done. mred. rewrite (inode_ld_eq _ _ (lock_bits v)) by apply with_slot_get. mred.
  rewrite (inode_unlock_eq _ _ _ (lock_bits v)) by (done || apply with_slot_get || apply lock_bits_busy). mred.
  rewrite with_slot_slot, unlock_lock_bits, with_slot_id by done.
  rewrite (file_ld_eq _ _ d) by done. mred. rewrite (file_st_eq _ _ d) by done. mred.
  assert ((if where_ =? SEEK_END then s64 (i_size (lock_bits v) + off)
           else if where_ =? SEEK_CUR then s64 (f_offset d + off) else off) = base + off) as ->.
  { change (i_size (lock_bits v)) with (i_size v). revert Hr. unfold base, s64. intros Hr.
    destruct (Z.eqb_spec where_ SEEK_CUR) as [->|]; [change (SEEK_CUR =? SEEK_END) with false; cbv iota; rewrite swrap_small; lia|].
    destruct (Z.eqb_spec where_ SEEK_END); [rewrite swrap_small; lia|lia]. }
  assert ((if base + off <? 0 then 0 else base + off) = Z.max 0 (base + off)) as -> by (destruct (Z.ltb_spec (base + off) 0); lia).
  done.
Qed.
End calls.
