(* ===== verification/FsWitness.v ===== *)
(** A small file system state, and the theorems on the file system applied to
    it: a disk of eight blocks whose byte [i] is [i mod 256], a cache of two
    clean buffers, and a file of 700 bytes in the blocks 3 and 4, cached as inode
    5 in the first slot and open, with offset 650, as descriptor 0. *)
From S2P Require Import Prelude KList Kernel WaitQueue CString FsState Blkio Coherence Inode DiskLayout InodeLock File.

Definition fsw_links : gmap loc (node loc) :=
  list_to_map ([(BufHead, Node (BufMru 1) (BufMru 0)); (BufMru 0, Node BufHead (BufMru 1)); (BufMru 1, Node (BufMru 0) BufHead)] ++
    (ring0 <$> [WqHead (WqMutex MtxBcache); WqHead (WqMutex MtxDevsw); WqHead (WqMutex (MtxDrv 1));
      WqHead (WqMutex MtxIcache); WqHead (WqMutex MtxFdtbl); WqHead (WqBuf 0); WqHead (WqBuf 1); WqHead (WqInode 0)])).

Definition fsw_image : mem := list_to_map ((fun i => (i, i mod 256)) <$> seqZ 0 4096).
Definition fsw_buf : blk_buf := BlkBuf 0 BLK_DEV_NODEV 0 (replicate (Z.to_nat BSIZE) 0).
Definition fsw_inode : inode := Inode 5 1 I_VALID FS_IMODE_FILE 1 0 1 700 ([3; 4] ++ replicate 14 0).
Definition fsw_driver : device_driver := DeviceDriver 1 DEVSW_DRIVER_STATE_RUN 0 NULL NULL NULL NULL MEMIDE_RW NULL.
Definition fsw_file : file_descriptor := FileDescriptor FREAD 1 1 650.
Definition fsw_thread : thread_t := Thread 0 1 0x2000 0 (ThreadAttr 0 0 0 2) 10 (1 :: replicate 31 NULL).

(** The state with a given image and a given inode in the first slot. *)
Definition fsw_fsst (im : mem) (v : inode) : fsst :=
  FsSt {[1 := fsw_driver]} im (list_to_map [(0, fsw_buf); (1, fsw_buf)])
    (<[1 := v]> (list_to_map ((fun i => (i, Inode 0 0 0 0 0 0 0 0 [])) <$> slots))) {[1 := fsw_file]}.
Definition fsw_with (im : mem) (v : inode) : kst fsst :=
  Kst fsw_links true {[100 := fsw_thread]} ∅ 100 0 ∅ ∅
    (list_to_map ((fun m => (m, Mutex 0 NULL)) <$> [MtxBcache; MtxDevsw; MtxDrv 1; MtxIcache; MtxFdtbl]))
    0 ∅ ∅ ∅ ∅ [] 8 (fsw_fsst im v).
Definition fsw : kst fsst := fsw_with fsw_image fsw_inode.

Lemma fsw_byte i : 0 <= i < 4096 -> fsw_image !! i = Some (i mod 256).
Proof.
  intros Hi. apply elem_of_list_to_map_1.
  - rewrite <-list_fmap_compose. apply NoDup_fmap_2; [intros x y; cbn; lia|apply NoDup_seqZ].
  - apply list_elem_of_fmap. exists i. split; [done|]. apply elem_of_seqZ. lia.
Qed.

Lemma fsw_mapped a len : 0 <= a -> a + len <= 4096 -> mapped fsw_image a len.
Proof. intros Ha Hl i Hi. eexists. apply fsw_byte. lia. Qed.

Lemma fsw_with_quiet im v mtx : mtx ∈ [MtxBcache; MtxDevsw; MtxDrv 1; MtxIcache; MtxFdtbl] -> quiet (fsw_with im v) mtx.
Proof.
  intros H. repeat (apply elem_of_cons in H as [->|H]; [split; [done|ring_decide]|]). by apply elem_of_nil in H.
Qed.
Lemma fsw_quiet mtx : mtx ∈ [MtxBcache; MtxDevsw; MtxDrv 1; MtxIcache; MtxFdtbl] -> quiet fsw mtx.
Proof. apply fsw_with_quiet. Qed.

Lemma fsw_bufs im w b v : b ∈ [0; 1] -> bufs (fsw_fsst im w) !! b = Some v -> v = fsw_buf.
Proof. intros H. assert (b = 0 \/ b = 1) as [->| ->] by set_solver; by intros [= <-]. Qed.

Lemma fsw_with_disk im w : disk_ok 1 fsw_driver (fsw_with im w) [0; 1].
Proof.
  split.
  - split; [ring_decide|]. intros b Hb. assert (b = 0 \/ b = 1) as [->| ->] by set_solver; by eexists.
  - apply fsw_with_quiet. set_solver.
  - split_and!; [apply fsw_with_quiet; set_solver..|done|reflexivity|done|done|done|done].
  - intros b Hb. assert (b = 0 \/ b = 1) as [->| ->] by set_solver; ring_decide.
  - intros b v Hb Hv. rewrite (fsw_bufs im w b v Hb Hv). by split.
  - exists 0, fsw_buf. split_and!; [set_solver|reflexivity|reflexivity].
Qed.
Lemma fsw_disk : disk_ok 1 fsw_driver fsw [0; 1].
Proof. apply fsw_with_disk. Qed.

Lemma fsw_direct : direct_file fsw_image fsw_inode 0 700.
Proof.
  split; [by vm_compute|]. intros p Hp. assert (p / BSIZE = 0 \/ p / BSIZE = 1) as [->| ->].
  { unfold BSIZE. Z.to_euclidean_division_equations; lia. }
  - exists 3. split_and!; [done|done|]. apply fsw_mapped; by vm_compute.
  - exists 4. split_and!; [done|done|]. apply fsw_mapped; by vm_compute.
Qed.

Lemma fsw_inode_at : inodes (ext fsw) !! 1 = Some fsw_inode.
Proof. apply lookup_insert_eq. Qed.

Lemma fsw_slot p : p ∈ slots -> p <> 1 -> inodes (ext fsw) !! p = Some (Inode 0 0 0 0 0 0 0 0 []).
Proof.
  intros Hp Hne. cbn. rewrite lookup_insert_ne by done. apply elem_of_list_to_map_1.
  - rewrite <-list_fmap_compose. apply NoDup_fmap_2; [intros x y; cbn; lia|apply NoDup_seqZ].
  - apply list_elem_of_fmap. by exists p.
Qed.

Lemma fsw_icache : icache_ok fsw.
Proof.
  split.
  - intros p Hp. destruct (decide (p = 1)) as [->|]; [by rewrite fsw_inode_at|by rewrite fsw_slot].
  - intros p v Hp. destruct (decide (p = 1)) as [->|]; [rewrite fsw_inode_at|rewrite fsw_slot by done]; intros [= <-]; cbn; lia.
  - assert (forall dev n p, p ∈ slots -> caches fsw dev n p = true -> p = 1) as H.
    { intros dev n p Hp. destruct (decide (p = 1)) as [->|]; [done|]. unfold caches. by rewrite fsw_slot. }
    intros dev n p p' Hp Hp' H1 H2. rewrite (H _ _ _ Hp H1), (H _ _ _ Hp' H2). done.
Qed.

Lemma fsw_open : open_file fsw 1 fsw_file fsw_inode.
Proof. split; try done; [apply fsw_quiet; set_solver|ring_decide]. Qed.

Lemma fsw_fds : has_fds fsw fsw_thread.
Proof. by split. Qed.

(** ** The theorems *)

Lemma inode_read_correct_witness :
  exists s' bs' l, inode_read 5 1 500 100 fsw = Ret (100, l) s' /\ l !! Z.to_nat 20 = Some 8 /\ disk_ok 1 fsw_driver s' bs'.
Proof.
  destruct (inode_read_correct 5 1 fsw_driver fsw [0; 1] 1 fsw_inode 500 100) as [_ H];
    [apply fsw_disk|apply fsw_inode_at|done|done|done|apply fsw_direct|lia|lia|lia|].
  destruct H as (s' & bs' & l & E & _ & HL & HO & _); [by vm_compute|].
  exists s', bs', l. split; [exact E|]. split; [|exact HO]. rewrite HL by (vm_compute; split; congruence).
  change (fsw_image !! 2056 = Some 8). rewrite fsw_byte by lia. reflexivity.
Defined.

Lemma inode_get_correct_witness :
  exists ip s', inode_get 5 1 5 fsw = Ret ip s' /\ icache_ok s'.
Proof.
  destruct (inode_get_correct 5 fsw 1 5) as [(ip & v & v' & _ & _ & E & HI & _)|[H _]];
    [apply fsw_quiet; set_solver|apply fsw_icache| |].
  - exists ip, (with_slot fsw ip v'). exact (conj E HI).
  - exfalso. destruct (H 1) as [H1 _]; [apply elem_of_seqZ; vm_compute; split; congruence|].
    unfold caches in H1. rewrite fsw_inode_at in H1. done.
Defined.

(** The path /ab/c. *)
Lemma skip_element_correct_witness :
  exists c r, skip_element [47; 97; 98; 47; 99; 0] (replicate 60 9) = Some (Some (c :: r), name_of [97; 98] (replicate 60 9)) /\
    elements (c :: r) = [[99]].
Proof.
  destruct (skip_element_correct [47; 97; 98; 47; 99; 0] (replicate 60 9)) as [H _].
  - apply (bool_decide_unpack _). by vm_compute.
  - change (elements [47; 97; 98; 47; 99; 0]) with [[97; 98]; [99]]. repeat (constructor; [cbn; lia|]). constructor.
  - destruct H as (c & r & E & He & _); [by vm_compute|]. exists c, r. exact (conj E He).
Defined.

Definition fsw_dinode : d_inode := DInode FS_IMODE_DIR 1 0 (-1) 700 ([3; -4] ++ replicate 14 0).
Lemma d_inode_roundtrip_witness :
  exists bs', d_inode_store (replicate 512 0) 168 fsw_dinode = Some bs' /\ d_inode_of bs' 168 = Some fsw_dinode.
Proof.
  destruct (d_inode_roundtrip (replicate 512 0) 168 fsw_dinode) as (bs' & E1 & E2 & _).
  - lia.
  - by vm_compute.
  - split; unfold fsw_dinode, FS_IMODE_DIR; cbn [di_mode di_dev di_rdev di_nlink di_size di_addr]; try lia; [|reflexivity].
    apply Forall_app. split; [repeat (constructor; [lia|]); constructor|apply Forall_replicate; lia].
  - exists bs'. exact (conj E1 E2).
Defined.

Lemma bitmap_test_and_set_correct_witness :
  bitmap_test_and_set 0 512 fsw = Stop Fault /\ bitmap_test_and_set 0 511 fsw
    = Ret true (map_ext fsw (fun f => with_bufs f (<[0 := with_b_data fsw_buf (<[504%nat := 128]> (replicate (Z.to_nat BSIZE) 0))]> (bufs f)))).
Proof.
  assert (Forall (fun c => 0 <= c < 256) (b_data fsw_buf)) as HF by (apply Forall_replicate; lia). split.
  - apply (bitmap_test_and_set_correct fsw 0 fsw_buf 512); [reflexivity|apply length_replicate|exact HF|vm_compute; split; congruence|lia].
  - destruct (bitmap_test_and_set_correct fsw 0 fsw_buf 511) as (_ & H);
      [reflexivity|apply length_replicate|exact HF|vm_compute; split; congruence|].
    destruct H as (c & Ec & _ & E); [lia|]. injection Ec as <-. apply E. reflexivity.
Defined.

(** An image whose superblock is 0, so that the inodes start in block 2, and an
    inode of it that is cached but not loaded. *)
Definition fsl_byte (i : Z) : Z := if (512 <=? i) && (i <? 1024) then 0 else i mod 256.
Definition fsl_image : mem := list_to_map ((fun i => (i, fsl_byte i)) <$> seqZ 0 4096).
Definition fsl_inode : inode := Inode 5 1 0 0 1 0 0 0 [].
Definition fsl : kst fsst := fsw_with fsl_image fsl_inode.
Definition fsl_block (n : Z) : list Z := fsl_byte <$> seqZ (n * BSIZE) BSIZE.

Lemma fsl_lookup i : 0 <= i < 4096 -> fsl_image !! i = Some (fsl_byte i).
Proof.
  intros Hi. apply elem_of_list_to_map_1.
  - rewrite <-list_fmap_compose. apply NoDup_fmap_2; [intros x y; cbn; lia|apply NoDup_seqZ].
  - apply list_elem_of_fmap. exists i. split; [done|]. apply elem_of_seqZ. lia.
Qed.

Lemma fsl_block_at n : 0 <= n < 8 -> block_at fsl_image n (fsl_block n).
Proof.
  intros Hn. unfold fsl_block. split; [by rewrite length_fmap, length_seqZ|]. unfold block_is, u64, BSIZE. rewrite wrap_small by lia. intros i Hi.
  rewrite fsl_lookup, list_lookup_fmap, lookup_seqZ_lt by lia. cbn. do 2 f_equal. lia.
Qed.

Lemma inode_lock_correct_witness : (inode_lock 5 1;; inode_unlock 5 1) fsw = Ret tt fsw /\
  exists s' w, inode_lock 5 1 fsl = Ret tt s' /\ inodes (ext s') !! 1 = Some w /\
    i_dev w = 1 /\ i_flags w = Z.lor I_BUSY I_VALID /\ i_mode w = 0x53525150 /\ i_size w = 0x7776757473727170.
Proof.
  split.
  - destruct (inode_lock_correct 5 1 fsw_driver fsw [0; 1] 1 fsw_inode) as [H _];
      [apply fsw_quiet; set_solver|apply fsw_disk|apply fsw_inode_at|done|done|done|].
    apply H; [done|ring_decide].
  - destruct (inode_lock_correct 5 1 fsw_driver fsl [0; 1] 1 fsl_inode) as (_ & H & _);
      [apply fsw_with_quiet; set_solver|apply fsw_with_disk|apply lookup_insert_eq|done|done|done|].
    destruct (H (Superblock 0 0 0 0 0 0 0 0) (default fsw_dinode (d_inode_of (fsl_block 3) 336))) as (s' & bs' & w & E & [L1 L2 L3 L4 L5 L6 L7 L8 L9 L10] & _ & _ & HS).
    + reflexivity.
    + exists (fsl_block 1). split; [apply fsl_block_at; lia|vm_compute; reflexivity].
    + exists (fsl_block 3). split; [exact (fsl_block_at 3 ltac:(lia))|vm_compute; reflexivity].
    + exists s', w. split; [exact E|]. split; [rewrite (proj1 (cache_step_inodes _ _ _ _ HS)); apply lookup_insert_eq|].
      split; [exact L3|]. split; [exact L4|]. split; [rewrite L5; vm_compute; reflexivity|rewrite L8; vm_compute; reflexivity].
Defined.

Lemma fs_dup_correct_witness : (n ← fs_dup 5 0; fs_close 5 n) fsw = Ret 0 fsw.
Proof.
  destruct (fs_dup_correct 5 fsw fsw_thread 0 1 fsw_file) as (_ & _ & H); [apply fsw_fds|apply fsw_quiet; set_solver|].
  apply H with (n := 1); try done. split_and!; [done|done|done|]. intros i Hi. assert (i = 0) as -> by lia. done.
Defined.

Lemma fs_read_correct_witness :
  exists s' bs' l, fs_read 5 (fun _ _ _ _ _ => stopM Fault) 77 0 100 fsw = Ret (50, l) s' /\
    l !! Z.to_nat 0 = Some 138 /\ disk_ok 1 fsw_driver s' bs'.
Proof.
  destruct (fs_read_correct 5 (fun _ _ _ _ _ => stopM Fault) 77 1 fsw_driver fsw [0; 1] fsw_thread 0 1 fsw_file fsw_inode 100)
    as (s' & bs' & l & E & _ & HL & HO & _);
    [apply fsw_fds|done|done|done|apply fsw_open|apply fsw_disk|done|done|done|apply fsw_direct|done|done|done|].
  exists s', bs', l. split; [exact E|]. split; [|exact HO]. rewrite HL by (vm_compute; split; congruence).
  change (fsw_image !! 2186 = Some 138). rewrite fsw_byte by lia. reflexivity.
Defined.

Lemma fs_lseek_correct_witness :
  fs_lseek 5 0 (-1000) SEEK_END fsw = Ret 0 (with_file fsw 1 (with_f_offset fsw_file 0)).
Proof.
  apply (fs_lseek_correct 5 fsw fsw_thread 0 1 fsw_file fsw_inode (-1000) SEEK_END);
    [apply fsw_fds|done|done|done|apply fsw_open|]. vm_compute. split; congruence.
Defined.
