(* ===== verification/InodeWrite.v ===== *)
(** Writing files (fs/inode.c, [inode_write] over the buffer cache and the memory
    disk): the bytes written are those of the file afterwards, and reading them
    back returns them. *)
From S2P Require Import Prelude KList Kernel WaitQueue Mutex CString FsState Blkio Coherence Inode DiskLayout InodeLock File FsWitness.

Implicit Types (s : kst fsst) (bs : list Z).

(** ** The cache of a disk that is written

    A block is in one buffer at most.  A buffer that was written stays dirty and
    serves no other block, so that a writer needs clean buffers: [clean] counts
    them. *)

Definition clean s (b : Z) : bool := negb (dirty s b).
Definition clean_nr s bs : nat := length (filter (fun b => clean s b = true) bs).

Record once (dev : Z) s bs : Prop := {
  on_one : forall b c vb vc, b ∈ bs -> c ∈ bs -> bufs (ext s) !! b = Some vb -> bufs (ext s) !! c = Some vc ->
    b_dev vb = dev -> b_dev vc = dev -> b_blockno vb = b_blockno vc -> b = c;
  on_range : forall b vb, b ∈ bs -> bufs (ext s) !! b = Some vb -> b_dev vb = dev -> 0 <= b_blockno vb < 2 ^ 54 }.

Record write_ok (dev : Z) (d : device_driver) s bs (k : nat) : Prop := {
  wo_disk : disk_ok dev d s bs;
  wo_once : once dev s bs;
  wo_clean : (k <= clean_nr s bs)%nat }.

(** What a write leaves alone: everything but the buffers, their order and the
    blocks [P]. *)
Definition disk_step s bs s' bs' (P : Z -> Prop) : Prop :=
  exists m B im, s' = map_ext (with_links s m) (fun f => with_image (with_bufs f B) im) /\
    frame (links s) m (BufHead :: (BufMru <$> bs)) /\ bs' ≡ₚ bs /\
    forall a, ~ P a -> im !! a = image (ext s) !! a.

Definition in_block (n a : Z) : Prop := BSIZE * n <= a < BSIZE * n + BSIZE.

Lemma block_addr_small n : 0 <= n < 2 ^ 54 -> u64 (n * BSIZE) = BSIZE * n.
Proof. intros Hn. unfold u64. rewrite wrap_small by (unfold BSIZE; lia). lia. Qed.

Lemma cache_nodup s bs : cache_inv s bs -> NoDup bs.
Proof. intros [[HN _] _]. apply NoDup_cons in HN as [_ HN]. by apply NoDup_fmap_1 in HN. Qed.

(** ** Counting clean buffers *)

Lemma clean_nr_app s l1 l2 : clean_nr s (l1 ++ l2) = (clean_nr s l1 + clean_nr s l2)%nat.
Proof. unfold clean_nr. by rewrite filter_app, length_app. Qed.
Lemma clean_nr_cons s b l : clean_nr s (b :: l) = ((if clean s b then 1 else 0) + clean_nr s l)%nat.
Proof. unfold clean_nr. rewrite filter_cons. destruct (clean s b) eqn:E; [by rewrite decide_True|by rewrite decide_False]. Qed.
Lemma clean_nr_ext s s' l : (forall b, b ∈ l -> bufs (ext s') !! b = bufs (ext s) !! b) -> clean_nr s' l = clean_nr s l.
Proof.
  induction l as [|b l IH]; intros H; [done|]. rewrite !clean_nr_cons, IH by set_solver. unfold clean, dirty. by rewrite H by set_solver.
Qed.
Lemma clean_nr_pos s l : (0 < clean_nr s l)%nat -> exists b, b ∈ l /\ clean s b = true.
Proof.
  unfold clean_nr. destruct (filter _ l) as [|b r] eqn:E; [cbn; lia|]. intros _. exists b.
  assert (b ∈ filter (fun b => clean s b = true) l) as Hb by (rewrite E; set_solver). apply list_elem_of_filter in Hb. naive_solver.
Qed.

(** ** Changing a block *)

Definition written (v : blk_buf) (data : list Z) : blk_buf :=
  with_b_flags (with_b_data v data) (Z.lor (b_flags v) B_DIRTY).

Lemma other_block dev s bs n b c vb vc :
  once dev s bs -> (forall x, x ∈ bs -> buf_is s dev n x = false) \/ buf_is s dev n b = true ->
  b ∈ bs -> c ∈ bs -> c <> b -> bufs (ext s) !! b = Some vb -> bufs (ext s) !! c = Some vc -> b_dev vc = dev -> b_blockno vc <> n.
Proof.
  intros [Hone _] Hw Hb Hc Hne Hvb Hvc Hd Hn. destruct Hw as [Hw|Hw].
  - specialize (Hw c Hc). unfold buf_is in Hw. by rewrite Hvc, Hd, Hn, !Z.eqb_refl in Hw.
  - unfold buf_is in Hw. rewrite Hvb in Hw. apply andb_true_iff in Hw as [Hdb%Z.eqb_eq Hnb%Z.eqb_eq].
    apply Hne. by apply (Hone c b vc vb); try congruence.
Qed.

Section modify.
Context (dev : Z) (d : device_driver) s (l1 l2 : list Z) (b n : Z) (v : blk_buf) (data : list Z) (im : mem) (k : nat).
Local Abbreviation bs := (l1 ++ b :: l2).
Hypothesis (HW : write_ok dev d s bs (S k)) (Hk : (1 <= k)%nat) (HR : buf_read s dev n b v)
  (Hwhich : (forall c, c ∈ bs -> buf_is s dev n c = false) \/ buf_is s dev n b = true)
  (Hn : 0 <= n < 2 ^ 54) (Hlen : length data = Z.to_nat BSIZE)
  (Hblk : block_is im (BSIZE * n) data) (Hout : forall a, ~ in_block n a -> im !! a = image (ext s) !! a).

(** The state in which the buffer has been written and given back. *)
Local Definition modified : kst fsst :=
  map_ext s (fun f => with_image (with_bufs f (<[b := not_busy (written v data)]> (bufs f))) im).

Local Lemma modified_other c vc : c ∈ bs -> c <> b -> bufs (ext s) !! c = Some vc -> b_dev vc = dev -> b_blockno vc <> n.
Proof.
  intros Hc Hne Hvc Hd. destruct (proj2 (do_cache _ _ _ _ (wo_disk _ _ _ _ _ HW)) b) as [vb Hvb]; [set_solver|].
  by apply (other_block dev s bs n b c vb vc (wo_once _ _ _ _ _ HW) Hwhich); [set_solver|..].
Qed.

Local Lemma modified_once : once dev modified bs.
Proof.
  destruct (wo_once _ _ _ _ _ HW) as [Hone Hrange]. split.
  - intros x y vx vy Hx Hy. cbn. intros Hvx Hvy Hdx Hdy Hxy.
    destruct (decide (x = b)) as [->|Hxb], (decide (y = b)) as [->|Hyb]; [done| | |].
    + rewrite lookup_insert_eq in Hvx. injection Hvx as <-. rewrite lookup_insert_ne in Hvy by done.
      destruct (modified_other y vy Hy Hyb Hvy Hdy). rewrite <-Hxy. apply HR.
    + rewrite lookup_insert_eq in Hvy. injection Hvy as <-. rewrite lookup_insert_ne in Hvx by done.
      destruct (modified_other x vx Hx Hxb Hvx Hdx). rewrite Hxy. apply HR.
    + rewrite lookup_insert_ne in Hvx, Hvy by done. by apply (Hone x y vx vy).
  - intros x vx Hx. cbn. destruct (decide (x = b)) as [->|Hxb].
    + rewrite lookup_insert_eq. intros [= <-] _. cbn. by rewrite (br_blk _ _ _ _ _ HR).
    + rewrite lookup_insert_ne by done. by apply Hrange.
Qed.

Local Lemma modified_clean : (k <= clean_nr modified (l1 ++ l2))%nat.
Proof.
  pose proof (wo_clean _ _ _ _ _ HW) as Hc. pose proof (cache_nodup _ _ (do_cache _ _ _ _ (wo_disk _ _ _ _ _ HW))) as HN.
  rewrite clean_nr_app, clean_nr_cons in Hc. rewrite (clean_nr_ext s), clean_nr_app; [destruct (clean s b); lia|].
  intros c Hc'. cbn. rewrite lookup_insert_ne; [done|]. intros ->. apply NoDup_app in HN as (_ & HN & [HN' _]%NoDup_cons). set_solver.
Qed.

Local Lemma modified_dirty : is_dirty (not_busy (written v data)) = true.
Proof. unfold is_dirty, not_busy, written. cbn. by flag_bits. Qed.

Local Lemma modified_disk : disk_ok dev d modified bs.
Proof.
  destruct (wo_disk _ _ _ _ _ HW) as [[C1 C2] D2 D3 D4 D5 D6]. pose proof (br_valid _ _ _ _ _ HR) as Hval.
  split; try done.
  - split; [exact C1|]. intros c Hc. cbn. apply lookup_insert_is_Some'. right. by apply C2.
  - intros c vc Hc. cbn. destruct (decide (c = b)) as [->|Hne].
    + rewrite lookup_insert_eq. intros [= <-]. split; [unfold is_busy, not_busy; cbn; by flag_bits| |done|].
      { unfold is_valid, not_busy, written in *. cbn. flag_bits. by rewrite Hval. }
      intros _. split; [apply HR|]. unfold block_addr. cbn. rewrite (br_blk _ _ _ _ _ HR), block_addr_small by done. exact Hblk.
    + rewrite lookup_insert_ne by done. intros Hvc. destruct (D5 c vc Hc Hvc) as [B1 B2 B3 B4]. split; [done|done|done|].
      intros Hd. destruct (B4 Hd) as [Hdev Hb]. split; [done|]. pose proof (modified_other c vc Hc Hne Hvc Hdev) as Hnn.
      pose proof (on_range _ _ _ (wo_once _ _ _ _ _ HW) c vc Hc Hvc Hdev) as Hr. unfold block_addr in *. rewrite block_addr_small in * by done.
      intros i Hi. rewrite Hout by (unfold in_block, BSIZE in *; lia). by apply Hb.
  - destruct (clean_nr_pos modified (l1 ++ l2)) as (c & Hc & Hcl); [pose proof modified_clean; lia|].
    destruct (C2 c) as [vc Hvc]; [set_solver|]. assert (c <> b) as Hne.
    { intros ->. unfold clean, dirty in Hcl. change (bufs (ext modified)) with (<[b := not_busy (written v data)]> (bufs (ext s))) in Hcl.
      rewrite lookup_insert_eq in Hcl. fold (is_dirty (not_busy (written v data))) in Hcl. by rewrite modified_dirty in Hcl. }
    exists c, vc. unfold clean, dirty in Hcl. cbn in *. rewrite lookup_insert_ne in * by done. rewrite Hvc in Hcl.
    split_and!; [set_solver|done|by apply negb_true_iff].
Qed.

Local Lemma modified_read : buf_read modified dev n b (written v data).
Proof.
  split; try apply HR; try done.
  - unfold is_busy, written. cbn. pose proof (br_busy _ _ _ _ _ HR) as H. unfold is_busy in H. flag_bits. done.
  - unfold is_valid, written. cbn. pose proof (br_valid _ _ _ _ _ HR) as H. unfold is_valid in H. flag_bits. done.
  - cbn. rewrite block_addr_small by done. exact Hblk.
  - intros v0. cbn. rewrite lookup_insert_eq. intros [= <-]. rewrite modified_dirty. unfold is_dirty, written. cbn. by flag_bits.
Qed.
End modify.

Lemma splice_lookup (l x : list Z) off i : 0 <= off -> off + Z.of_nat (length x) <= Z.of_nat (length l) -> 0 <= i ->
  (take (Z.to_nat off) l ++ x ++ drop (Z.to_nat off + length x) l) !! Z.to_nat i =
    if decide (off <= i < off + Z.of_nat (length x)) then x !! Z.to_nat (i - off) else l !! Z.to_nat i.
Proof.
  intros Ho Hl Hi. assert (length (take (Z.to_nat off) l) = Z.to_nat off) as Ht by (rewrite length_take; lia).
  destruct (decide (i < off)) as [H1|H1].
  - rewrite decide_False by lia. rewrite lookup_app_l by lia. by rewrite lookup_take_lt by lia.
  - rewrite lookup_app_r, Ht by lia. destruct (decide _) as [H2|H2].
    + rewrite lookup_app_l by lia. f_equal. lia.
    + rewrite lookup_app_r by lia. rewrite lookup_drop. f_equal. lia.
Qed.

(** Reading a block, storing the bytes [x] in it, writing it and giving it back. *)
Lemma blk_modify {A} fuel dev d s bs k n off x (K : F A) :
  write_ok dev d s bs (S k) -> (1 <= k)%nat -> 0 <= n < 2 ^ 54 -> mapped (image (ext s)) (BSIZE * n) BSIZE ->
  0 <= off -> off + Z.of_nat (length x) <= BSIZE ->
  exists s' bs', write_ok dev d s' bs' k /\ disk_step s bs s' bs' (in_block n) /\
    (forall i, 0 <= i < BSIZE -> image (ext s') !! (BSIZE * n + i) =
       if decide (off <= i < off + Z.of_nat (length x)) then x !! Z.to_nat (i - off) else image (ext s) !! (BSIZE * n + i)) /\
    (bp ← buffer_cache_blk_read fuel dev n; b ← buf_get bp; data ← deref (set_bytes (b_data b) off x);
     buf_put bp (with_b_data b data);; buffer_cache_blk_write fuel bp;; buffer_cache_blk_release fuel bp;; K) s = K s'.
Proof.
  intros HW Hk Hn Hm Ho Hx. pose proof (wo_disk _ _ _ _ _ HW) as HO.
  destruct (blk_read_which fuel dev d s bs n HO) as (l1 & b & l2 & v & -> & HR & E & Hwhich); [by rewrite block_addr_small|].
  assert (length (b_data v) = Z.to_nat BSIZE) as Hlv by apply HR.
  assert (set_bytes (b_data v) off x = Some (take (Z.to_nat off) (b_data v) ++ x ++ drop (Z.to_nat off + length x) (b_data v))) as Eset
    by (apply set_bytes_eq; [done|rewrite Hlv; exact Hx]).
  set (data := take (Z.to_nat off) (b_data v) ++ x ++ drop (Z.to_nat off + length x) (b_data v)) in *.
  assert (length data = Z.to_nat BSIZE) as Hld.
  { unfold data. rewrite !length_app, length_take, length_drop, Hlv. unfold BSIZE in *. lia. }
  set (s2 := map_ext s (fun f => with_bufs f (<[b := with_b_data v data]> (bufs f)))).
  destruct (blk_write_eq fuel s2 b (with_b_data v data) d) as (im & Ew & Hblk & Hout).
  { cbn. rewrite (br_dev _ _ _ _ _ HR). apply HO. }
  { cbn. by rewrite lookup_insert_eq. }
  { exact (br_busy _ _ _ _ _ HR). }
  { done. }
  { unfold in_image, block_addr. cbn. by rewrite (br_blk _ _ _ _ _ HR), block_addr_small. }
  unfold block_addr in Hblk, Hout. cbn in Hblk, Hout. rewrite (br_blk _ _ _ _ _ HR), block_addr_small in Hblk, Hout by done.
  set (sm := modified s b v data im).
  destruct (blk_release_bufs fuel dev d sm l1 b l2 (written v data) n (map_ext sm (fun f => with_bufs f (<[b := written v data]> (bufs f)))))
    as (s4 & Er & HS & HO4 & HB4); [by eapply modified_disk|by eapply modified_read|done|].
  exists s4, (b :: l1 ++ l2). destruct (cache_step_inodes _ _ _ _ HS) as [_ Eim]. split_and!.
  - assert (bufs (ext s4) = bufs (ext sm)) as EB by (rewrite HB4; cbn; by rewrite insert_insert_eq). split; [done| |].
    + assert (once dev sm (l1 ++ b :: l2)) as [O1 O2] by (eapply modified_once; eassumption).
      split; rewrite EB; [intros ?????? ; apply O1; set_solver|intros ???; apply O2; set_solver].
    + rewrite clean_nr_cons. rewrite (clean_nr_ext sm) by (by rewrite EB). assert (k <= clean_nr sm (l1 ++ l2))%nat by (eapply modified_clean; eassumption). lia.
  - destruct HS as (m & B & -> & HFr & HP). exists m, B, im. split_and!; [done|exact HFr|exact HP|exact Hout].
  - rewrite Eim. intros i Hi. cbn. rewrite (Hblk i Hi). unfold data. rewrite splice_lookup by (rewrite ?Hlv; unfold BSIZE in *; lia).
    destruct (decide _); [done|]. pose proof (br_data _ _ _ _ _ HR) as HD. rewrite block_addr_small in HD by done. by rewrite (HD i Hi).
  - rewrite (bind_ret _ _ _ _ _ E). set (s1 := map_ext s (fun f => with_bufs f (<[b := v]> (bufs f)))).
    assert (bufs (ext s1) !! b = Some v) as Hv1 by (cbn; by rewrite lookup_insert_eq).
    rewrite (bind_ret _ _ _ _ _ (buf_get_eq _ _ v Hv1)). rewrite Eset. rewrite deref_bind.
    rewrite (bind_ret _ _ _ tt s2); [|rewrite (buf_put_eq _ _ v) by exact Hv1; unfold s1, s2, map_ext; cbn; by rewrite insert_insert_eq].
    rewrite (bind_ret _ _ _ _ _ Ew). rewrite (bind_ret _ _ _ tt s4); [done|]. rewrite <-Er. f_equal. unfold sm, modified, s2, map_ext. cbn. by rewrite !insert_insert_eq.
Qed.

(** ** Writing a file *)

Lemma disk_step_refl s bs P : disk_step s bs s bs P.
Proof.
  exists (links s), (bufs (ext s)), (image (ext s)). split_and!; [|by split|done|done].
  unfold map_ext, with_bufs, with_image. destruct s as [??????????????? ? [????]]. done.
Qed.

Lemma disk_step_trans s1 b1 s2 b2 s3 b3 (P Q R : Z -> Prop) : (forall a, P a -> R a) -> (forall a, Q a -> R a) ->
  disk_step s1 b1 s2 b2 P -> disk_step s2 b2 s3 b3 Q -> disk_step s1 b1 s3 b3 R.
Proof.
  intros HP HQ (m & B & im & -> & F1 & P1 & H1) (m' & B' & im' & -> & F2 & P2 & H2). exists m', B', im'. split_and!; [done| |by rewrite P2|].
  - eapply frame_weaken; [|exact (frame_trans _ _ _ _ _ F1 F2)]. intros x Hx. apply elem_of_app in Hx as [Hx|Hx]; [done|].
    apply elem_of_cons in Hx as [->|Hx]; [set_solver|]. apply elem_of_cons. right. by rewrite <-P1.
  - intros a Ha. rewrite H2 by (intros ?; apply Ha; auto). apply H1. intros ?. apply Ha. auto.
Qed.

Lemma disk_step_inodes s bs s' bs' P : disk_step s bs s' bs' P -> inodes (ext s') = inodes (ext s).
Proof. by intros (m & B & im & -> & _). Qed.

(** A file whose blocks are direct, allocated, and its own. *)
Definition file_block (v : inode) (p : Z) : option Z := i_addr v !! Z.to_nat (p / BSIZE).
Record own_file (im : mem) (v : inode) : Prop := {
  ow_direct : direct_file im v 0 (i_size v);
  ow_range : forall p blk, 0 <= p < i_size v -> file_block v p = Some blk -> 0 <= blk < 2 ^ 54;
  ow_inj : forall p q blk, 0 <= p < i_size v -> 0 <= q < i_size v -> file_block v p = Some blk -> file_block v q = Some blk ->
    p / BSIZE = q / BSIZE }.

(** The bytes on disk of the positions from [lo] to [hi], in whole blocks. *)
Definition blocks_of (v : inode) (lo hi a : Z) : Prop :=
  exists p blk, lo <= p < hi /\ file_block v p = Some blk /\ in_block blk a.

Lemma own_block im v p : own_file im v -> 0 <= p < i_size v ->
  exists blk, file_block v p = Some blk /\ blk <> 0 /\ 0 <= blk < 2 ^ 54 /\ mapped im (BSIZE * blk) BSIZE /\
    file_byte im v p = im !! (BSIZE * blk + p mod BSIZE).
Proof.
  intros [[Hmax HD] HR _] Hp. destruct (HD p Hp) as (blk & Hb & Hz & Hm). pose proof (HR p blk Hp Hb) as Hr.
  rewrite block_addr_small in Hm by done. exists blk. split_and!; [done|done|lia|lia|done|].
  unfold file_byte. rewrite Hb. cbn [mbind option_bind]. by rewrite block_addr_small.
Qed.

(** The file after one of its blocks has changed. *)
Lemma own_file_step im im' v off n x blk :
  own_file im v -> 0 <= off -> 0 < n -> off mod BSIZE + n <= BSIZE -> off + n <= i_size v -> length x = Z.to_nat n -> file_block v off = Some blk ->
  (forall a, ~ in_block blk a -> im' !! a = im !! a) ->
  (forall i, 0 <= i < BSIZE -> im' !! (BSIZE * blk + i) =
     if decide (off mod BSIZE <= i < off mod BSIZE + n) then x !! Z.to_nat (i - off mod BSIZE) else im !! (BSIZE * blk + i)) ->
  own_file im' v /\
  forall p, 0 <= p < i_size v -> file_byte im' v p = if decide (off <= p < off + n) then x !! Z.to_nat (p - off) else file_byte im v p.
Proof.
  intros HF Ho Hn Hfit Hsz Hx Hb Hout Hin. pose proof (Z.mod_pos_bound off BSIZE eq_refl) as Hmod.
  assert (forall a, is_Some (im !! a) -> is_Some (im' !! a)) as Hmap.
  { intros a Ha. destruct (decide (in_block blk a)) as [Hia|Hia]; [|by rewrite Hout].
    replace a with (BSIZE * blk + (a - BSIZE * blk)) in * by lia. unfold in_block in Hia. rewrite Hin by lia.
    destruct (decide _); [|done]. apply lookup_lt_is_Some_2. lia. }
  assert (own_file im' v) as HF'.
  { destruct HF as [[Hmax HD] HR HI]. split; [|done|done]. split; [done|]. intros p Hp. destruct (HD p Hp) as (c & Hc & Hz & Hm).
    exists c. split_and!; [done|done|]. intros a Ha. apply Hmap, Hm, Ha. }
  split; [done|]. intros p Hp. destruct (own_block im v p HF Hp) as (c & Hc & Hz & Hr & Hm & ->).
  destruct (own_block im' v p HF' Hp) as (c' & Hc' & _ & _ & _ & ->). rewrite Hc in Hc'. injection Hc' as <-.
  pose proof (Z.mod_pos_bound p BSIZE eq_refl) as Hpm. destruct (decide (c = blk)) as [->|Hne].
  - pose proof (ow_inj _ _ HF p off blk Hp ltac:(lia) Hc Hb) as Hdiv. rewrite Hin by lia.
    assert (p = BSIZE * (off / BSIZE) + p mod BSIZE /\ off = BSIZE * (off / BSIZE) + off mod BSIZE) as [Ep Eo].
    { split; [rewrite <-Hdiv|]; by apply Z.div_mod. }
    destruct (decide (off <= p < off + n)); destruct (decide (_ <= p mod BSIZE < _)); try lia; [|done]. f_equal. lia.
  - rewrite Hout by (unfold in_block, BSIZE in *; lia). rewrite decide_False; [done|]. intros Hpo. apply Hne.
    assert (p / BSIZE = off / BSIZE) as Hdiv by (unfold BSIZE in *; Z.to_euclidean_division_equations; lia).
    unfold file_block in Hc, Hb. rewrite Hdiv in Hc. congruence.
Qed.

Lemma write_round {A} fuel dev d s bs k ip v off n x (K : F A) :
  write_ok dev d s bs (S k) -> (1 <= k)%nat -> inodes (ext s) !! ip = Some v -> i_dev v = dev -> own_file (image (ext s)) v ->
  0 <= off -> 0 < n -> off mod BSIZE + n <= BSIZE -> off + n <= i_size v -> length x = Z.to_nat n ->
  exists s' bs', write_ok dev d s' bs' k /\ disk_step s bs s' bs' (blocks_of v off (off + n)) /\ own_file (image (ext s')) v /\
    (forall p, 0 <= p < i_size v -> file_byte (image (ext s')) v p =
       if decide (off <= p < off + n) then x !! Z.to_nat (p - off) else file_byte (image (ext s)) v p) /\
    (blk ← bmap fuel ip (Z.quot off BSIZE) 0; v ← inode_ld ip; bp ← buffer_cache_blk_read fuel (i_dev v) blk; b ← buf_get bp;
     data ← deref (set_bytes (b_data b) (Z.rem off BSIZE) x); buf_put bp (with_b_data b data);;
     buffer_cache_blk_write fuel bp;; buffer_cache_blk_release fuel bp;; K) s = K s'.
Proof.
  intros HW Hk Hv Hdev HF Ho Hn Hfit Hsz Hx. destruct (own_block _ v off HF ltac:(lia)) as (blk & Hb & Hz & Hr & Hm & _).
  assert (Z.quot off BSIZE = off / BSIZE) as Eq by (by rewrite Z.quot_div_nonneg).
  assert (Z.rem off BSIZE = off mod BSIZE) as Er by (by rewrite Z.rem_mod_nonneg).
  pose proof (Z.mod_pos_bound off BSIZE eq_refl) as Hmod. assert (Z.of_nat (length x) = n) as Hxn by lia.
  destruct (blk_modify fuel dev d s bs k blk (off mod BSIZE) x K HW Hk) as (s' & bs' & HW' & HS & Him & E); [done|done|lia|lia|].
  rewrite Hxn in Him. assert (i_size v <= 6144) as Hmax by apply HF.
  assert (forall a, ~ in_block blk a -> image (ext s') !! a = image (ext s) !! a) as Hout by (by destruct HS as (m & B & im & -> & _ & _ & Hout)).
  destruct (own_file_step (image (ext s)) (image (ext s')) v off n x blk) as [HF' HB']; try done.
  exists s', bs'. split_and!; [done| |done|done|].
  - destruct HS as (m & B & im & Es & HFr & HP & _). exists m, B, im. split_and!; [done|done|done|]. intros a Ha. rewrite <-Hout; [by rewrite Es|].
    intros Hia. apply Ha. exists off, blk. split_and!; [lia..|done|done].
  - rewrite Eq, Er. rewrite (bind_ret _ _ s blk s).
    2: { apply (bmap_direct _ _ _ v); [done|unfold BSIZE, FS_IADDR_DIRECT_NR in *; Z.to_euclidean_division_equations; lia|exact Hb|done]. }
    rewrite (bind_ret _ _ _ _ _ (inode_ld_eq _ _ _ Hv)), Hdev. exact E.
Qed.

Lemma blocks_of_mono v lo hi lo' hi' a : lo' <= lo -> hi <= hi' -> blocks_of v lo hi a -> blocks_of v lo' hi' a.
Proof. intros H1 H2 (p & blk & Hp & H). exists p, blk. split; [lia|done]. Qed.

Lemma inode_write_loop_ok fuel dev d ip v : i_dev v = dev -> forall rounds s bs k src remains off,
  write_ok dev d s bs k -> inodes (ext s) !! ip = Some v -> own_file (image (ext s)) v ->
  0 <= off -> 0 <= remains -> off + remains <= i_size v -> remains <= Z.of_nat (length src) ->
  rounds_for off remains <= Z.of_nat rounds -> rounds_for off remains < Z.of_nat k ->
  exists s' bs', inode_write_loop fuel rounds ip src remains off s = Ret (off + remains) s' /\
    write_ok dev d s' bs' 1 /\ disk_step s bs s' bs' (blocks_of v off (off + remains)) /\ own_file (image (ext s')) v /\
    forall p, 0 <= p < i_size v -> file_byte (image (ext s')) v p =
      if decide (off <= p < off + remains) then src !! Z.to_nat (p - off) else file_byte (image (ext s)) v p.
Proof.
  intros Hdev rounds. induction rounds as [|rounds IH]; intros s bs k src remains off HW Hv HF Ho Hrem Hsz Hsrc Hr Hk.
  all: assert (1 <= k)%nat as Hk1 by (unfold rounds_for in Hk; pose proof (Z.mod_pos_bound off BSIZE eq_refl);
    destruct (remains =? 0); [lia|]; assert (0 <= (off mod BSIZE + remains + BSIZE - 1) / BSIZE) by (apply Z.div_pos; unfold BSIZE in *; lia); lia).
  all: destruct (decide (remains = 0)) as [->|Hnz].
  1,3: exists s, bs; rewrite Z.add_0_r; split_and!; [done|destruct HW; split; (done || lia)|apply disk_step_refl|done|];
    intros p Hp; by rewrite decide_False by lia.
  all: pose proof (Z.mod_pos_bound off BSIZE eq_refl) as Hmod.
  { exfalso. unfold rounds_for in Hr. rewrite (proj2 (Z.eqb_neq _ _) Hnz) in Hr.
    assert (1 <= (off mod BSIZE + remains + BSIZE - 1) / BSIZE); [|lia]. apply Z.div_le_lower_bound; unfold BSIZE in *; lia. }
  assert (i_size v <= 6144) as Hmax by apply HF.
  cbn [inode_write_loop]. rewrite (proj2 (Z.eqb_neq _ _) Hnz).
  assert (u64 (BSIZE - Z.rem off BSIZE) = BSIZE - off mod BSIZE) as ->.
  { rewrite Z.rem_mod_nonneg by (unfold BSIZE; lia). apply wrap_small. unfold BSIZE in *. lia. }
  set (n := if BSIZE - off mod BSIZE <? remains then _ else _).
  assert (0 < n <= remains /\ off mod BSIZE + n <= BSIZE /\ (n < remains -> off mod BSIZE + n = BSIZE)) as (Hn & Hfit & Hfull).
  { unfold n. destruct (Z.ltb_spec (BSIZE - off mod BSIZE) remains); lia. }
  clearbody n. rewrite (proj2 (Z.leb_le n remains)) by lia. assert (s64 (off + n) = off + n) as -> by (apply swrap_small; lia).
  set (x := take (Z.to_nat n) src). assert (length x = Z.to_nat n) as Hx by (unfold x; rewrite length_take; lia).
  assert (bytes_at src 0 (Z.to_nat n) = Some x) as ->.
  { unfold bytes_at. change (Z.to_nat 0) with 0%nat. rewrite drop_0. fold x. by rewrite Hx, Nat.eqb_refl. }
  assert (rounds_for (off + n) (remains - n) < Z.of_nat k - 1) as Hk'.
  { assert (rounds_for (off + n) (remains - n) <= Z.of_nat k - 2); [|lia]. apply rounds_for_step; [lia..|done|done|lia]. }
  assert (2 <= k)%nat as Hk2.
  { assert (0 <= rounds_for (off + n) (remains - n)); [|lia]. unfold rounds_for. destruct (_ =? 0); [lia|].
    pose proof (Z.mod_pos_bound (off + n) BSIZE eq_refl). apply Z.div_pos; unfold BSIZE in *; lia. }
  destruct k as [|k]; [lia|].
  destruct (write_round fuel dev d s bs k ip v off n x
    (inode_write_loop fuel rounds ip (drop (Z.to_nat n) src) (remains - n) (off + n))) as (s1 & b1 & HW1 & HS1 & HF1 & HB1 & E1); [done|lia|done..|lia|lia|lia|done|].
  destruct (IH s1 b1 k (drop (Z.to_nat n) src) (remains - n) (off + n)) as (s2 & b2 & E2 & HW2 & HS2 & HF2 & HB2);
    [done|by rewrite (disk_step_inodes _ _ _ _ _ HS1)|done|lia|lia|lia|rewrite length_drop; lia| |lia|].
  { apply rounds_for_step; [lia..|done|done|lia]. }
  replace (off + n + (remains - n)) with (off + remains) in * by lia. exists s2, b2. split_and!; [|done| |done|].
  - etrans; [exact E1|exact E2].
  - eapply disk_step_trans; [..|exact HS1|exact HS2]; intros a; apply blocks_of_mono; lia.
  - intros p Hp. rewrite HB2 by done. destruct (decide (off + n <= p < off + remains)) as [H1|H1].
    + rewrite decide_True by lia. rewrite lookup_drop. f_equal. lia.
    + rewrite HB1 by done. destruct (decide (off <= p < off + n)) as [H2|H2].
      * rewrite decide_True by lia. unfold x. by rewrite lookup_take_lt by lia.
      * by rewrite decide_False by lia.
Qed.

Lemma inode_write_ok fuel dev d s bs k ip v src off counts :
  write_ok dev d s bs k -> inodes (ext s) !! ip = Some v -> i_dev v = dev -> i_mode v <> FS_IMODE_DEV ->
  own_file (image (ext s)) v -> 0 <= off -> 0 <= counts -> off + counts <= i_size v -> counts <= Z.of_nat (length src) ->
  rounds_for off counts < Z.of_nat k ->
  exists s' bs', inode_write fuel ip src off counts s = Ret counts s' /\
    write_ok dev d s' bs' 1 /\ disk_step s bs s' bs' (blocks_of v off (off + counts)) /\ own_file (image (ext s')) v /\
    (forall p, 0 <= p < i_size v -> file_byte (image (ext s')) v p =
       if decide (off <= p < off + counts) then src !! Z.to_nat (p - off) else file_byte (image (ext s)) v p).
Proof.
  intros HW Hv Hdev Hmode HF Ho Hc Hsz Hsrc Hk. assert (i_size v <= 6144) as Hmax by apply HF.
  assert (u64 off = off) as Eo by (apply wrap_small; lia). assert (u64 (off + counts) = off + counts) as Eoc by (apply wrap_small; lia).
  unfold inode_write. rewrite (bind_ret _ _ _ _ _ (inode_ld_eq _ _ _ Hv)), (proj2 (Z.eqb_neq _ _) Hmode). cbn [negb].
  rewrite (bind_ret (kassert true) _ s tt s) by done.
  rewrite Eo, Eoc, (proj2 (Z.ltb_ge (off + counts) off)), orb_false_r, (proj2 (Z.ltb_ge (i_size v) off)) by lia.
  assert (6144 <= FS_MAXFILE_SIZE) as Hmf by (by vm_compute). rewrite (proj2 (Z.ltb_ge FS_MAXFILE_SIZE (off + counts))) by lia.
  destruct (inode_write_loop_ok fuel dev d ip v Hdev (transfer_rounds counts) s bs k src counts off)
    as (s' & bs' & E & HW' & HS & HF' & HB); [done|done|done|lia|lia|lia|done|by apply rounds_for_transfer|done|].
  assert (inodes (ext s') !! ip = Some v) as Hv' by (by rewrite (disk_step_inodes _ _ _ _ _ HS)).
  rewrite (bind_ret _ _ _ _ _ E), (bind_ret _ _ _ _ _ (inode_ld_eq _ _ _ Hv')), Eoc, (proj2 (Z.ltb_ge (i_size v) (off + counts))), andb_false_r by lia.
  exists s', bs'. split_and!; [|done|done|done|done].
  cbn [when]. rewrite (bind_ret (mret tt) _ s' tt s') by done. unfold s64. by rewrite swrap_small by lia.
Qed.

(** The bytes written, read from the file. *)
Lemma written_bytes im v src off counts l : 0 <= counts <= Z.of_nat (length src) -> 0 <= off -> off + counts <= i_size v ->
  length l = Z.to_nat counts ->
  (forall p, 0 <= p < i_size v -> off <= p < off + counts -> file_byte im v p = src !! Z.to_nat (p - off)) ->
  (forall i, 0 <= i < counts -> l !! Z.to_nat i = file_byte im v (off + i)) -> l = take (Z.to_nat counts) src.
Proof.
  intros Hc Ho Hsz Hl HB HL. apply list_eq. intros i. destruct (decide (i < Z.to_nat counts)%nat) as [Hi|Hi].
  - rewrite lookup_take_lt by done. rewrite <-(Nat2Z.id i). rewrite HL, HB by lia. f_equal. lia.
  - rewrite !lookup_ge_None_2; [done|rewrite length_take; lia|lia].
Qed.

(** Writing inside a file and reading back.  With more clean buffers than
    blocks to write, [inode_write] of [counts] bytes at [off], inside the size
    of a file of direct blocks of its own, returns [counts]; the bytes of the
    file there are then those of [src] and its other bytes are unchanged, as is
    the disk outside the blocks written, and the inode.  [inode_read] at [off]
    returns what was written.  A write that starts behind the end, or would
    make the file larger than the maximum, is refused without effect. *)
Theorem inode_write_correct fuel dev d s bs k ip v src off counts :
  write_ok dev d s bs k -> inodes (ext s) !! ip = Some v -> i_dev v = dev -> i_mode v <> FS_IMODE_DEV ->
  own_file (image (ext s)) v -> 0 <= off < 2 ^ 63 -> 0 <= counts -> off + counts < 2 ^ 64 ->
  (i_size v < off \/ FS_MAXFILE_SIZE < off + counts -> inode_write fuel ip src off counts s = Ret (- ENXIO) s) /\
  (off + counts <= i_size v -> counts <= Z.of_nat (length src) -> rounds_for off counts < Z.of_nat k ->
     exists s' bs', inode_write fuel ip src off counts s = Ret counts s' /\
       write_ok dev d s' bs' 1 /\ disk_step s bs s' bs' (blocks_of v off (off + counts)) /\
       (forall p, 0 <= p < i_size v -> file_byte (image (ext s')) v p =
          if decide (off <= p < off + counts) then src !! Z.to_nat (p - off) else file_byte (image (ext s)) v p) /\
       exists s'' bs'', inode_read fuel ip off counts s' = Ret (counts, take (Z.to_nat counts) src) s'' /\ cache_step s' bs' s'' bs'').
Proof.
  intros HW Hv Hdev Hmode HF Ho Hc Hov. assert (i_size v <= 6144) as Hmax by apply HF. split.
  - assert (u64 off = off) as Eo by (apply wrap_small; lia). assert (u64 (off + counts) = off + counts) as Eoc by (apply wrap_small; lia).
    intros Hbad. unfold inode_write. rewrite (bind_ret _ _ _ _ _ (inode_ld_eq _ _ _ Hv)), (proj2 (Z.eqb_neq _ _) Hmode). cbn [negb].
    rewrite (bind_ret (kassert true) _ s tt s) by done. rewrite Eo, Eoc, (proj2 (Z.ltb_ge (off + counts) off)), orb_false_r by lia.
    destruct (Z.ltb_spec (i_size v) off); [done|]. destruct Hbad; [lia|]. by rewrite (proj2 (Z.ltb_lt _ _)) by lia.
  - intros Hsz Hsrc Hk. destruct (inode_write_ok fuel dev d s bs k ip v src off counts) as (s' & bs' & E & HW' & HS & HF' & HB); try done; [lia|].
    exists s', bs'. split_and!; [done..|]. assert (inodes (ext s') !! ip = Some v) as Hv' by (by rewrite (disk_step_inodes _ _ _ _ _ HS)).
    destruct (inode_read_ok fuel dev d s' bs' ip v off counts (wo_disk _ _ _ _ _ HW') Hv' Hdev Hmode (ow_direct _ _ HF')) as (s2 & b2 & l & E2 & Hl & HL & _ & HS2); [lia..|].
    rewrite Z.min_l in E2, Hl, HL by lia. exists s2, b2. split; [|done]. rewrite E2. do 2 f_equal.
    apply (written_bytes (image (ext s')) v src off); [lia..|done| |done]. intros p Hp Hpo. rewrite HB by done. by rewrite decide_True.
Qed.

(** ** The file of FsWitness.v *)

Lemma fsw_two p : 0 <= p < 700 -> p / BSIZE = 0 \/ p / BSIZE = 1.
Proof. intros Hp. unfold BSIZE. Z.to_euclidean_division_equations; lia. Qed.

Lemma fsw_own : own_file fsw_image fsw_inode.
Proof.
  split; [apply fsw_direct| |].
  - intros p blk Hp. unfold file_block. destruct (fsw_two p Hp) as [->| ->]; intros [= <-]; lia.
  - intros p q blk Hp Hq. unfold file_block. destruct (fsw_two p Hp) as [->| ->], (fsw_two q Hq) as [->| ->]; intros [= <-]; done.
Qed.

Lemma fsw_write : write_ok 1 fsw_driver fsw [0; 1] 2.
Proof.
  split; [apply fsw_disk| |done].
  assert (forall b v, b ∈ [0; 1] -> bufs (ext fsw) !! b = Some v -> b_dev v <> 1) as H by (intros b v Hb Hv; by rewrite (fsw_bufs _ _ b v Hb Hv)).
  split; [intros b c vb vc Hb _ Hvb _ Hd; by destruct (H b vb Hb Hvb)|intros b vb Hb Hvb Hd; by destruct (H b vb Hb Hvb)].
Qed.

Lemma inode_write_correct_witness :
  exists s' s'', inode_write 5 1 [7; 8; 9] 520 3 fsw = Ret 3 s' /\ inode_read 5 1 520 3 s' = Ret (3, [7; 8; 9]) s''.
Proof.
  destruct (inode_write_correct 5 1 fsw_driver fsw [0; 1] 2 1 fsw_inode [7; 8; 9] 520 3) as [_ H];
    [apply fsw_write|apply fsw_inode_at|done|done|apply fsw_own|lia|lia|lia|].
  destruct H as (s' & bs' & E & _ & _ & _ & s'' & bs'' & E' & _); [by vm_compute|by vm_compute|by vm_compute|].
  exists s', s''. exact (conj E E').
Defined.
