(* ===== verification/FileWrite.v ===== *)
(** Writing through a descriptor (fs/file.c, fs/fs.c): [fs_write] of an open file,
    and the bytes it wrote read back after [fs_lseek]. *)
From S2P Require Import Prelude KList Kernel WaitQueue Mutex CString FsState Blkio Coherence Inode DiskLayout InodeLock File FsWitness InodeWrite.

Implicit Types (s : kst fsst) (bs : list Z) (v : inode).

(** ** A write and what it leaves alone *)

Lemma disk_step_quiet s bs s' bs' P mtx : disk_step s bs s' bs' P -> quiet s mtx -> quiet s' mtx.
Proof. intros (m & B & im & -> & HF & _) HQ. exact (quiet_frame _ _ _ _ HF HQ). Qed.

Lemma disk_step_wq s bs s' bs' P q : disk_step s bs s' bs' P -> is_ring (links s) (WqHead q) [] -> is_ring (links s') (WqHead q) [].
Proof.
  intros (m & B & im & -> & HF & _) HR. cbn. eapply is_ring_frame; [exact HF| |exact HR].
  intros y Hy. apply list_elem_of_singleton in Hy as ->. rewrite elem_of_cons, list_elem_of_fmap. by intros [?|(? & ? & _)].
Qed.

Lemma disk_step_slot s bs s' bs' P ip v : disk_step s bs s' bs' P -> disk_step (with_slot s ip v) bs (with_slot s' ip v) bs' P.
Proof. intros (m & B & im & -> & H). by exists m, B, im. Qed.
Lemma disk_step_file s bs s' bs' P f d : disk_step s bs s' bs' P -> disk_step (with_file s f d) bs (with_file s' f d) bs' P.
Proof. intros (m & B & im & -> & H). by exists m, B, im. Qed.

Lemma disk_step_open s bs s' bs' P f d v : disk_step s bs s' bs' P -> open_file s f d v -> open_file s' f d v.
Proof.
  intros HS [H1 H2 H3 H4 H5 H6 H7 H8]. split; try done; [|by rewrite (disk_step_inodes _ _ _ _ _ HS)|by eapply disk_step_quiet|by eapply disk_step_wq].
  by destruct HS as (m & B & im & -> & _).
Qed.
Lemma disk_step_fds s bs s' bs' P t : disk_step s bs s' bs' P -> has_fds s t -> has_fds s' t.
Proof. intros (m & B & im & -> & _) [H1 H2]. by split. Qed.

Lemma write_ok_ext dev d s s' bs k : disk_ok dev d s' bs -> bufs (ext s') = bufs (ext s) -> write_ok dev d s bs k -> write_ok dev d s' bs k.
Proof.
  intros HO EB [_ [O1 O2] HC]. split; [done|split; rewrite EB; done|]. rewrite (clean_nr_ext s); [done|]. intros b _. by rewrite EB.
Qed.

Lemma open_file_offset s f d v off : open_file s f d v -> open_file (with_file s f (with_f_offset d off)) f (with_f_offset d off) v.
Proof. intros [H1 H2 H3 H4 H5 H6 H7 H8]. split; try done. cbn. by rewrite lookup_insert_eq. Qed.

(** ** [fs_write] *)

Section write.
Variable fuel : nat.
Variable call_read : fptr -> ptr -> ptr -> Z -> Z -> F (Z * list Z).
Variable call_write : fptr -> ptr -> ptr -> list Z -> Z -> Z -> F Z.
Variable junk_cnt : Z.

Lemma fd_file_write_ok dev dr s bs k f d v src n :
  open_file s f d v -> write_ok dev dr s bs k -> i_dev v = dev -> i_mode v = FS_IMODE_FILE ->
  ctrue (Z.land (f_flags d) FWRITE) = true -> own_file (image (ext s)) v ->
  0 <= f_offset d -> 0 < n <= Z.of_nat (length src) -> f_offset d + n <= i_size v -> rounds_for (f_offset d) n < Z.of_nat k ->
  exists s' bs', fd_file_write fuel call_write junk_cnt f src n s = Ret (0, n) s' /\
    write_ok dev dr s' bs' 1 /\ own_file (image (ext s')) v /\
    disk_step (with_file s f (with_f_offset d (f_offset d + n))) bs s' bs' (blocks_of v (f_offset d) (f_offset d + n)) /\
    (forall p, 0 <= p < i_size v -> file_byte (image (ext s')) v p =
       if decide (f_offset d <= p < f_offset d + n) then src !! Z.to_nat (p - f_offset d) else file_byte (image (ext s)) v p).
Proof.
  intros HF HO Hdev Hmode Hfl Hown Hoff Hn Hsz Hk. destruct HF as [Hd Hv Hnz Hr Hb Hval HQ HW].
  unfold fd_file_write. rewrite (bind_ret _ _ _ _ _ (file_ld_eq _ _ d Hd)). rewrite Hfl. cbn [negb].
  rewrite (bind_ret _ _ _ _ _ (inode_lock_valid fuel s (f_inode d) v HQ Hv Hr Hb Hval)).
  set (ip := f_inode d). set (s1 := with_slot s ip (lock_bits v)).
  assert (inodes (ext s1) !! ip = Some (lock_bits v)) as Hv1 by apply with_slot_get.
  rewrite (bind_ret _ _ s1 d s1) by (by apply file_ld_eq). fold ip. rewrite (bind_ret _ _ _ _ _ (inode_ld_eq _ _ _ Hv1)).
  change (i_mode (lock_bits v)) with (i_mode v). rewrite Hmode. change (FS_IMODE_FILE =? FS_IMODE_DEV) with false. cbv iota.
  assert (write_ok dev dr s1 bs k) as HO1 by (apply (write_ok_ext _ _ s); [apply disk_ok_slot, HO|done|done]).
  destruct (inode_write_ok fuel dev dr s1 bs k ip (lock_bits v) src (f_offset d) n) as (s2 & b2 & E & HW2 & HS2 & Hown2 & HB2);
    [done|done|done|cbn; by rewrite Hmode|destruct Hown; by split|lia|lia|done|lia|done|].
  assert (disk_step s bs (with_slot s2 ip v) b2 (blocks_of v (f_offset d) (f_offset d + n))) as HS3.
  { apply (disk_step_slot _ _ _ _ _ ip v) in HS2. unfold s1 in HS2. rewrite with_slot_slot, with_slot_id in HS2 by done. done. }
  assert (files (ext s2) !! f = Some d) as Hd2 by (by destruct HS2 as (? & ? & ? & -> & _)).
  set (d' := with_f_offset d (f_offset d + n)). set (s3 := with_file s2 f d'). exists (with_slot s3 ip v), b2.
  split_and!; [| |destruct Hown2; by split|exact (disk_step_file _ _ _ _ _ f d' HS3)|exact HB2].
  2: { apply (write_ok_ext _ _ s2); [apply disk_ok_slot, disk_ok_file, HW2|done|done]. }
  assert (files (ext s3) !! f = Some d') as Hd3 by (cbn; by rewrite lookup_insert_eq).
  rewrite (bind_ret _ _ s1 (0, n) s3).
  2: { rewrite (bind_ret _ _ _ _ _ E), (proj2 (Z.ltb_lt 0 n)) by lia. rewrite (bind_ret _ _ _ _ _ (file_ld_eq _ _ d Hd2)).
       by rewrite (bind_ret _ _ _ _ _ (file_st_eq _ _ d _ Hd2)). }
  rewrite (bind_ret _ _ _ _ _ (file_ld_eq _ _ d' Hd3)). change (f_inode d') with ip. rewrite (bind_ret _ _ s3 tt (with_slot s3 ip v)); [done|].
  rewrite (inode_unlock_eq _ _ _ (lock_bits v)); [by rewrite unlock_lock_bits|by apply (disk_step_quiet _ _ _ _ _ MtxIcache HS2)| |apply lock_bits_busy|].
  - cbn. rewrite (disk_step_inodes _ _ _ _ _ HS2). apply with_slot_get.
  - by apply (disk_step_wq _ _ _ _ _ _ HS2).
Qed.

(** C14.  What a thread writes it reads back.  [fs_write] of [n] bytes inside an
    open file of direct blocks of its own returns [n] and moves the offset on;
    after [fs_lseek] back by [n], [fs_read] returns the bytes written.  Outside
    the blocks written the disk is unchanged, and so are the other files. *)
Theorem fs_write_read_back dev dr s bs k t fd f d v src n :
  has_fds s t -> 0 <= fd < THR_FDS_NR -> fds t !! Z.to_nat fd = Some f -> f <> NULL ->
  open_file s f d v -> write_ok dev dr s bs k -> i_dev v = dev -> i_mode v = FS_IMODE_FILE ->
  ctrue (Z.land (f_flags d) FREAD) = true -> ctrue (Z.land (f_flags d) FWRITE) = true -> own_file (image (ext s)) v ->
  0 <= f_offset d -> 0 < n <= Z.of_nat (length src) -> f_offset d + n <= i_size v -> rounds_for (f_offset d) n < Z.of_nat k ->
  exists s1 bs1 s2 bs2,
    fs_write fuel call_write junk_cnt fd src n s = Ret n s1 /\
    disk_step (with_file s f (with_f_offset d (f_offset d + n))) bs s1 bs1 (blocks_of v (f_offset d) (f_offset d + n)) /\
    (o ← fs_lseek fuel fd (- n) SEEK_CUR; r ← fs_read fuel call_read junk_cnt fd n; mret (o, r)) s1
      = Ret (f_offset d, (n, take (Z.to_nat n) src)) s2 /\
    cache_step s1 bs1 s2 bs2.
Proof.
  intros HT Hfd Hf Hnz HF HO Hdev Hmode Hrd Hwr Hown Hoff Hn Hsz Hk. assert (i_size v <= 6144) as Hmax by apply Hown.
  destruct (fd_file_write_ok dev dr s bs k f d v src n) as (s1 & b1 & E1 & HO1 & Hown1 & HS1 & HB1); try done.
  set (d1 := with_f_offset d (f_offset d + n)) in *.
  assert (open_file s1 f d1 v) as HF1 by (eapply disk_step_open; [exact HS1|by apply open_file_offset]).
  assert (has_fds s1 t) as HT1 by (eapply disk_step_fds; [exact HS1|by destruct HT]).
  set (s2 := with_file s1 f (with_f_offset d1 (f_offset d))).
  destruct (fd_file_read_ok fuel call_read junk_cnt dev dr s2 b1 f (with_f_offset d1 (f_offset d)) v n) as (s3 & b3 & l & E3 & Hl & HL & HO3 & HS3);
    [by apply open_file_offset|apply disk_ok_file, HO1|done|done|done|apply Hown1|cbn; lia|lia|cbn; lia|].
  change (f_offset (with_f_offset d1 (f_offset d))) with (f_offset d) in *. rewrite Z.min_l in E3, Hl, HL, HS3 by lia.
  assert (l = take (Z.to_nat n) src) as ->.
  { apply (written_bytes (image (ext s1)) v src (f_offset d)); [lia..|done| |exact HL]. intros p Hp Hpo. rewrite HB1 by done. by rewrite decide_True. }
  exists s1, b1, s3, b3. split_and!; [|exact HS1| |].
  - unfold fs_write. rewrite (with_fd_ok s t fd f) by done. rewrite (bind_ret _ _ _ _ _ E1). cbn [fst snd Z.eqb]. unfold s32. by rewrite swrap_small by lia.
  - rewrite (bind_ret _ _ s1 (f_offset d) s2).
    2: { rewrite (fs_lseek_correct fuel s1 t fd f d1 v (- n) SEEK_CUR) by (try done; cbn; lia). cbn zeta. change (SEEK_CUR =? SEEK_CUR) with true. cbv iota.
         cbn [d1 with_f_offset f_offset]. replace (Z.max 0 (f_offset d + n + - n)) with (f_offset d) by lia. done. }
    rewrite (bind_ret _ _ s2 (n, take (Z.to_nat n) src) s3); [done|]. unfold fs_read. rewrite (with_fd_ok s2 t fd f) by (try done; by destruct HT1).
    rewrite (bind_ret _ _ _ _ _ E3). cbn [fst snd Z.eqb]. rewrite (proj2 (Z.eqb_neq n 0)) by lia. unfold s32. by rewrite swrap_small by lia.
  - assert (with_file s2 f (with_f_offset (with_f_offset d1 (f_offset d)) (f_offset d + n)) = s1) as Eid; [|by rewrite Eid in HS3].
    etrans; [exact (with_file_undo s1 f d1 _ (of_file _ _ _ _ HF1))|done].
Qed.
End write.

(** ** A descriptor for reading and writing in the state of FsWitness.v *)

Definition fsw_rdwr : file_descriptor := FileDescriptor (Z.lor FREAD FWRITE) 1 1 520.
Definition fsw_rw : kst fsst := with_file fsw 1 fsw_rdwr.

Lemma fs_write_read_back_witness :
  exists s1 s2, fs_write 5 (fun _ _ _ _ _ _ => stopM Fault) 77 0 [7; 8; 9] 3 fsw_rw = Ret 3 s1 /\
    (o ← fs_lseek 5 0 (-3) SEEK_CUR; r ← fs_read 5 (fun _ _ _ _ _ => stopM Fault) 77 0 3; mret (o, r)) s1 = Ret (520, (3, [7; 8; 9])) s2.
Proof.
  destruct (fs_write_read_back 5 (fun _ _ _ _ _ => stopM Fault) (fun _ _ _ _ _ _ => stopM Fault) 77 1 fsw_driver fsw_rw [0; 1] 2 fsw_thread 0 1 fsw_rdwr fsw_inode [7; 8; 9] 3)
    as (s1 & b1 & s2 & b2 & E1 & _ & E2 & _); [|done|done|done| | |done|done|done|done|apply fsw_own|done|done|by vm_compute|by vm_compute|].
  - destruct fsw_fds. by split.
  - destruct fsw_open as [H1 H2 H3 H4 H5 H6 H7 H8]. split; try done.
  - apply (write_ok_ext _ _ fsw); [apply disk_ok_file, fsw_disk|done|apply fsw_write].
  - exists s1, s2. exact (conj E1 E2).
Defined.
