(* ===== verification/Printf.v ===== *)
(** common/printf.c and user/uprintf.c: formatted output.

    The format is the bytes from the pointer to the end of its object; reading
    past the object gives [None].  The variable arguments are a list of values:
    a number, taken at the width the conversion asks for, or a string.  The
    bytes stored from [buf] on are a list: [PUTCHAR] has no bound, so the list
    can be longer than the buffer.  Every step of the loop consumes one byte of
    the format, so that the recursion is structural; the labels of the source
    are the values of [mode].  [char] is signed, as on x64. *)
From S2P Require Import Prelude.

Inductive varg : Type :=
| VNum (z : Z)                  (* an integer or a pointer *)
| VStr (p : option (list Z)).   (* a string; [None] is [NULL] *)

Record fmt_cmd_t : Type := FmtCmd {
  dot : bool; neg : bool; sign : bool; ladjust : bool; upper : bool; cflag : bool; hflag : bool; jflag : bool;
  lflag : bool; qflag : bool; sharpflag : bool; tflag : bool; zflag : bool }.

(** [RESET_FMT] *)
Definition reset_fmt : fmt_cmd_t := FmtCmd false false false false false false false false false false false false false.

Definition set_dot (c : fmt_cmd_t) : fmt_cmd_t :=
  FmtCmd true (neg c) (sign c) (ladjust c) (upper c) (cflag c) (hflag c) (jflag c) (lflag c) (qflag c) (sharpflag c) (tflag c) (zflag c).
Definition set_sign (c : fmt_cmd_t) (b : bool) : fmt_cmd_t :=
  FmtCmd (dot c) (neg c) b (ladjust c) (upper c) (cflag c) (hflag c) (jflag c) (lflag c) (qflag c) (sharpflag c) (tflag c) (zflag c).
Definition set_ladjust (c : fmt_cmd_t) (b : bool) : fmt_cmd_t :=
  FmtCmd (dot c) (neg c) (sign c) b (upper c) (cflag c) (hflag c) (jflag c) (lflag c) (qflag c) (sharpflag c) (tflag c) (zflag c).
Definition set_upper (c : fmt_cmd_t) : fmt_cmd_t :=
  FmtCmd (dot c) (neg c) (sign c) (ladjust c) true (cflag c) (hflag c) (jflag c) (lflag c) (qflag c) (sharpflag c) (tflag c) (zflag c).
Definition set_ch (c : fmt_cmd_t) (cf hf : bool) : fmt_cmd_t :=
  FmtCmd (dot c) (neg c) (sign c) (ladjust c) (upper c) cf hf (jflag c) (lflag c) (qflag c) (sharpflag c) (tflag c) (zflag c).
Definition set_lq (c : fmt_cmd_t) (lf qf : bool) : fmt_cmd_t :=
  FmtCmd (dot c) (neg c) (sign c) (ladjust c) (upper c) (cflag c) (hflag c) (jflag c) lf qf (sharpflag c) (tflag c) (zflag c).
Definition set_sharp (c : fmt_cmd_t) (b : bool) : fmt_cmd_t :=
  FmtCmd (dot c) (neg c) (sign c) (ladjust c) (upper c) (cflag c) (hflag c) (jflag c) (lflag c) (qflag c) b (tflag c) (zflag c).
Definition set_tz (c : fmt_cmd_t) (tf zf : bool) : fmt_cmd_t :=
  FmtCmd (dot c) (neg c) (sign c) (ladjust c) (upper c) (cflag c) (hflag c) (jflag c) (lflag c) (qflag c) (sharpflag c) tf zf.

(** ** Numbers *)

(** [hex2ascii_data[hex]] for 0 to 35, and [ktoupper]. *)
Definition hex2ascii (hex : Z) : Z := if hex <? 10 then 48 + hex else 97 + (hex - 10).
Definition ktoupper (c : Z) : Z := c - 0x20 * cbool ((97 <=? c) && (c <=? 122)).

(** The characters from [nbuf + 1] on, the least significant digit first. *)
Fixpoint ksprintn_loop (rounds : nat) (num base : Z) (upper : bool) : option (list Z) :=
  match rounds with
  | O => None
  | S rounds =>
      let c := hex2ascii (num mod base) in
      let c := if upper then ktoupper c else c in
      let num := num / base in
      if num =? 0 then Some [c] else l ← ksprintn_loop rounds num base upper; Some (c :: l)
  end.

(** 64 digits are enough for 64 bits. *)
Definition ksprintn (num base : Z) (upper : bool) : option (list Z) := ksprintn_loop 64 num base upper.

Definition s16 (z : Z) : Z := swrap 16 z.

(** The [va_arg] of [handle_nosign] and of [handle_sign], as [uintmax_t]. *)
Definition arg_nosign (c : fmt_cmd_t) (z : Z) : Z :=
  if qflag c || tflag c || lflag c || zflag c then u64 z
  else if hflag c then wrap 16 z
  else if cflag c then u8 z
  else u32 z.
Definition arg_sign (c : fmt_cmd_t) (z : Z) : Z :=
  if qflag c || tflag c || lflag c || zflag c then u64 z
  else if hflag c then u64 (s16 z)
  else if cflag c then u64 (s8 z)
  else u64 (s32 z).

(** [while (width--) PUTCHAR(padchar, d, rc);] when [width > 0]. *)
Definition pad (width padchar : Z) : list Z := replicate (Z.to_nat width) padchar.

(** From the label [number] on: the characters put. *)
Definition put_number (c : fmt_cmd_t) (num base width padchar : Z) : option (list Z) :=
  let isneg := sign c && (s64 num <? 0) in
  let num := if isneg then u64 (- s64 num) else num in
  digits ← ksprintn num base (upper c);
  let tmp := Z.of_nat (length digits) in
  let sharp := sharpflag c && negb (num =? 0) in
  let tmp := if sharp then (if base =? 8 then tmp + 1 else if base =? 16 then tmp + 2 else tmp) else tmp in
  let tmp := if isneg then tmp + 1 else tmp in
  let '(pad1, width) :=
    if negb (ladjust c) && negb (padchar =? 48) && negb (width =? 0) then
      if 0 <? width - tmp then (pad (width - tmp) padchar, -1) else ([], width - tmp)
    else ([], width) in
  let s_neg := if isneg then [45] else [] in
  let s_sharp := if sharp then (if base =? 8 then [48] else if base =? 16 then [48; 120] else []) else [] in
  let '(pad2, width) :=
    if negb (ladjust c) && negb (width =? 0) then
      if 0 <? width - tmp then (pad (width - tmp) padchar, -1) else ([], width - tmp)
    else ([], width) in
  let pad3 :=
    if ladjust c && negb (width =? 0) && (0 <? width - tmp) then pad (width - tmp) padchar else [] in
  Some (pad1 ++ s_neg ++ s_sharp ++ pad2 ++ rev digits ++ pad3).

(** ** Strings *)

(** The bytes before the 0. *)
Fixpoint cstr (p : list Z) : option (list Z) :=
  match p with
  | [] => None
  | c :: p => if c =? 0 then Some [] else l ← cstr p; Some (c :: l)
  end.
(** [for (n = 0; n < dwidth && p[n]; n++)]: the bytes counted. *)
Fixpoint cstr_n (p : list Z) (n : nat) : option (list Z) :=
  match n with
  | O => Some []
  | S n =>
      match p with
      | [] => None
      | c :: p => if c =? 0 then Some [] else l ← cstr_n p n; Some (c :: l)
      end
  end.

Definition null_str : list Z := [40; 110; 117; 108; 108; 41; 0]. (* "(null)" *)

Definition put_string (c : fmt_cmd_t) (p : option (list Z)) (width dwidth padchar : Z) : option (list Z) :=
  let p := default null_str p in
  s ← (if dot c then cstr_n p (Z.to_nat dwidth) else cstr p);
  let width := width - Z.of_nat (length s) in
  Some ((if negb (ladjust c) && (0 <? width) then pad width padchar else []) ++ s ++
        (if ladjust c && (0 <? width) then pad width padchar else [])).

(** ** The loop *)

(** Where the loop is: copying text; after [reswitch] with the command, the
    bytes since [percent], [width] and [padchar]; in a number, its value so far. *)
Inductive mode : Type :=
| Text
| Conv (c : fmt_cmd_t) (percent : list Z) (width padchar : Z)
| Digits (n : Z) (c : fmt_cmd_t) (percent : list Z) (width padchar : Z).

Record pstate : Type := PState { args : list varg; out : list Z; dwidth : Z; discard_format : bool }.

Definition put (p : pstate) (l : list Z) : pstate := PState (args p) (out p ++ l) (dwidth p) (discard_format p).
Definition arg_num (p : pstate) : option (Z * pstate) :=
  match args p with VNum z :: a => Some (z, PState a (out p) (dwidth p) (discard_format p)) | _ => None end.
Definition arg_str (p : pstate) : option (option (list Z) * pstate) :=
  match args p with VStr x :: a => Some (x, PState a (out p) (dwidth p) (discard_format p)) | _ => None end.

(** [goto handle_nosign] and [goto handle_sign]. *)
Definition handle_nosign (c : fmt_cmd_t) (base width padchar : Z) (p : pstate) : option (mode * pstate) :=
  '(z, p) ← arg_num p;
  l ← put_number (set_sign c false) (arg_nosign c z) base width padchar;
  Some (Text, put p l).
Definition handle_sign (c : fmt_cmd_t) (base width padchar : Z) (p : pstate) : option (mode * pstate) :=
  '(z, p) ← arg_num p;
  l ← put_number c (arg_sign c z) base width padchar;
  Some (Text, put p l).

(** One [case] of the switch, on the byte [ch]. *)
Definition conv_char (radix ch : Z) (c : fmt_cmd_t) (percent : list Z) (width padchar : Z) (p : pstate)
    : option (mode * pstate) :=
  let percent := percent ++ [ch] in
  let reswitch c := Some (Conv c percent width padchar, p) in
  if ch =? 46 (* . *) then reswitch (set_dot c)
  else if ch =? 35 (* # *) then reswitch (set_sharp c true)
  else if ch =? 43 (* + *) then reswitch (set_sign c true)
  else if ch =? 45 (* - *) then reswitch (set_ladjust c true)
  else if ch =? 37 (* % *) then Some (Text, put p [ch])
  else if ch =? 42 (* * *) then
    '(z, p) ← arg_num p;
    if negb (dot c) then
      let width := s32 z in
      if width <? 0 then Some (Conv (set_ladjust c (negb (ladjust c))) percent (- width) padchar, p)
      else Some (Conv c percent width padchar, p)
    else Some (Conv c percent width padchar, PState (args p) (out p) (s32 z) (discard_format p))
  else if (ch =? 48) && negb (dot c) then Some (Conv c percent width 48, p)
  else if (48 <=? ch) && (ch <=? 57) then Some (Digits (ch - 48) c percent width padchar, p)
  else if ch =? 99 (* c *) then '(z, p) ← arg_num p; Some (Text, put p [u8 z])
  else if (ch =? 100) || (ch =? 105) (* d i *) then handle_sign (set_sign c true) 10 width padchar p
  else if ch =? 104 (* h *) then reswitch (if hflag c then set_ch c true false else set_ch c (cflag c) true)
  else if ch =? 108 (* l *) then reswitch (if lflag c then set_lq c false true else set_lq c true (qflag c))
  else if ch =? 111 (* o *) then handle_nosign c 8 width padchar p
  else if ch =? 112 (* p *) then
    '(z, p) ← arg_num p;
    l ← put_number (set_sign (set_sharp c (width =? 0)) false) (u64 z) 16 width padchar;
    Some (Text, put p l)
  else if ch =? 113 (* q *) then reswitch (set_lq c (lflag c) true)
  else if ch =? 114 (* r *) then
    if sign c then handle_sign c radix width padchar p else handle_nosign c radix width padchar p
  else if ch =? 115 (* s *) then
    '(x, p) ← arg_str p;
    l ← put_string c x width (dwidth p) padchar;
    Some (Text, put p l)
  else if ch =? 116 (* t *) then reswitch (set_tz c true (zflag c))
  else if ch =? 117 (* u *) then handle_nosign c 10 width padchar p
  else if ch =? 88 (* X *) then handle_nosign (set_upper c) 16 width padchar p
  else if ch =? 120 (* x *) then handle_nosign c 16 width padchar p
  else if ch =? 121 (* y *) then handle_sign (set_sign c true) 16 width padchar p
  else if ch =? 122 (* z *) then reswitch (set_tz c (tflag c) true)
  else Some (Text, PState (args p) (out p ++ percent) (dwidth p) true).

Fixpoint kvprintf_loop (fmt : list Z) (len radix : Z) (m : mode) (p : pstate) : option (Z * list Z) :=
  match fmt with
  | [] => None
  | ch :: fmt =>
      match m with
      | Text =>
          if negb (ch =? 37) || discard_format p then
            let rc := Z.of_nat (length (out p)) in
            if (ch =? 0) || (len - 1 <=? rc) then Some (if len - 1 <=? rc then len - 1 else rc, out p)
            else kvprintf_loop fmt len radix Text (put p [ch])
          else kvprintf_loop fmt len radix (Conv reset_fmt [ch] 0 32) p
      | Conv c percent width padchar =>
          '(m, p) ← conv_char radix ch c percent width padchar p;
          kvprintf_loop fmt len radix m p
      | Digits n c percent width padchar =>
          if (48 <=? ch) && (ch <=? 57) then
            kvprintf_loop fmt len radix (Digits (n * 10 + ch - 48) c (percent ++ [ch]) width padchar) p
          else
            let '(width, p) := if dot c then (width, PState (args p) (out p) n (discard_format p)) else (n, p) in
            '(m, p) ← conv_char radix ch c percent width padchar p;
            kvprintf_loop fmt len radix m p
      end
  end.

Definition null_fmt : list Z := [40; 102; 109; 116; 32; 110; 117; 108; 108; 41; 0]. (* "(fmt null)" *)

(** The value returned and the bytes stored from [buf] on; [fmt] is [None] for
    [NULL]. *)
Definition kvprintf (len : Z) (fmt : option (list Z)) (radix : Z) (ap : list varg) : option (Z * list Z) :=
  if len =? 0 then Some (0, [])
  else kvprintf_loop (default null_fmt fmt) len (if (radix <? 2) || (36 <? radix) then 10 else radix) Text
         (PState ap [] 0 false).

Definition PRFBUFLEN : Z := 128.

(** [buf[rc] = '\0'] in an array of [size] bytes that starts with [l]; the rest
    is [junk]. *)
Definition terminate (size : Z) (l junk : list Z) (rc : Z) : option (list Z) :=
  if Z.of_nat (length l) <=? size then
    let a := l ++ drop (length l) junk in
    if (0 <=? rc) && (rc <? Z.of_nat (length a)) then Some (<[Z.to_nat rc := 0]> a) else None
  else None.

(** [ksnprintf] into an array that holds [str] before: the result and the array. *)
Definition ksnprintf (str : list Z) (size : Z) (fmt : list Z) (ap : list varg) : option (Z * list Z) :=
  '(rc, l) ← kvprintf size (Some fmt) 10 ap;
  a ← terminate (Z.of_nat (length str)) l str rc;
  Some (rc, a).

(** The result and the characters [kprint_string] puts. *)
Definition kprintf (junk fmt : list Z) (ap : list varg) : option (Z * list Z) :=
  '(rc, a) ← ksnprintf junk PRFBUFLEN fmt ap;
  s ← cstr a;
  Some (rc, s).

(** user/uprintf.c: the bytes [fs_write(1, buf, len)] gets, and the result. *)
Definition uprintf (junk fmt : list Z) (ap : list varg) : option (Z * list Z) :=
  '(rc, a) ← ksnprintf junk PRFBUFLEN fmt ap;
  Some (rc, take (Z.to_nat rc) a).

(** ** Numerals *)

(** The value of a digit, and of digits with the least significant one first. *)
Definition digit_value (c : Z) : Z := if c <=? 57 then c - 48 else if c <=? 90 then c - 55 else c - 87.
Definition digits_value (base : Z) (ds : list Z) : Z := foldr (fun c n => digit_value c + base * n) 0 ds.

Lemma digit_value_hex h up : 0 <= h < 36 -> digit_value (if up : bool then ktoupper (hex2ascii h) else hex2ascii h) = h.
Proof.
  intros Hh. unfold digit_value, ktoupper, hex2ascii. destruct (Z.ltb_spec h 10).
  - rewrite (proj2 (Z.leb_gt 97 (48 + h))) by lia. cbn [andb cbool]. rewrite Z.mul_0_r, Z.sub_0_r.
    destruct up; rewrite (proj2 (Z.leb_le (48 + h) 57)) by lia; lia.
  - rewrite (proj2 (Z.leb_le 97 (97 + (h - 10)))), (proj2 (Z.leb_le (97 + (h - 10)) 122)) by lia. cbn [andb cbool].
    destruct up.
    + rewrite (proj2 (Z.leb_gt _ 57)), (proj2 (Z.leb_le _ 90)) by lia. lia.
    + rewrite (proj2 (Z.leb_gt _ 57)), (proj2 (Z.leb_gt _ 90)) by lia. lia.
Qed.

(** The loop, for a number of at most [rounds] binary digits. *)
Lemma ksprintn_loop_spec rounds num base up :
  2 <= base <= 36 -> 0 <= num < 2 ^ Z.of_nat rounds -> (0 < rounds)%nat ->
  exists ds, ksprintn_loop rounds num base up = Some ds /\ digits_value base ds = num /\
    (1 <= length ds <= rounds)%nat /\ Forall (fun c => 0 <= digit_value c < base) ds /\
    (num <> 0 -> exists c, last ds = Some c /\ digit_value c <> 0).
Proof.
  intros Hb. revert num. induction rounds as [|rounds IH]; intros num Hn Hr; [lia|]. cbn [ksprintn_loop].
  set (c := if up then ktoupper (hex2ascii (num mod base)) else hex2ascii (num mod base)).
  assert (0 <= num mod base < base) as Hm by (apply Z.mod_pos_bound; lia).
  assert (digit_value c = num mod base) as Hc by (apply digit_value_hex; lia).
  pose proof (Z.div_mod num base ltac:(lia)) as Hdm.
  destruct (Z.eqb_spec (num / base) 0) as [Ez|Hz].
  - exists [c]. cbn. rewrite Hc. split_and!; [done|lia|lia|lia|by apply Forall_singleton; rewrite Hc|].
    intros Hnz. exists c. split; [done|]. rewrite Hc. lia.
  - assert (0 <= num / base) by (apply Z.div_pos; lia).
    assert (num / base < 2 ^ Z.of_nat rounds) as Hlt.
    { apply Z.div_lt_upper_bound; [lia|]. rewrite Nat2Z.inj_succ, Z.pow_succ_r in Hn by lia.
      assert (2 * 2 ^ Z.of_nat rounds <= base * 2 ^ Z.of_nat rounds) by (apply Z.mul_le_mono_nonneg_r; lia). lia. }
    destruct rounds as [|rounds]; [cbn in Hlt; lia|].
    destruct (IH (num / base)) as (ds & E & Hv & Hl & HF & Hlast); [lia|lia|]. rewrite E. exists (c :: ds).
    split; [done|]. split_and!.
    + cbn [digits_value foldr]. fold (digits_value base ds). rewrite Hc, Hv. lia.
    + cbn [length]. lia.
    + cbn [length]. lia.
    + constructor; [by rewrite Hc|done].
    + intros _. destruct (Hlast Hz) as (d & Hd & Hdz). exists d. split; [|done].
      destruct ds as [|x ds]; [done|]. exact Hd.
Qed.

(** The digits of a number: for every base from 2 to 36 and every 64-bit
    number the conversion ends, its digits are digits of the base and denote the
    number, the first one is not 0 unless the number is, and they fit in the
    buffer of 128 bytes the callers pass. *)
Theorem ksprintn_correct num base up :
  2 <= base <= 36 -> 0 <= num < 2 ^ 64 ->
  exists ds, ksprintn num base up = Some ds /\ digits_value base ds = num /\
    Forall (fun c => 0 <= digit_value c < base) ds /\
    (num <> 0 -> exists c, last ds = Some c /\ digit_value c <> 0) /\
    1 <= Z.of_nat (length ds) /\ Z.of_nat (length ds) + 1 <= PRFBUFLEN.
Proof.
  intros Hb Hn. destruct (ksprintn_loop_spec 64 num base up Hb Hn ltac:(lia)) as (ds & E & Hv & Hl & HF & Hlast).
  exists ds. unfold PRFBUFLEN. split_and!; [done|done|done|done|lia|lia].
Qed.

Lemma ksprintn_correct_witness :
  exists ds, ksprintn 255 16 true = Some ds /\ digits_value 16 ds = 255.
Proof. destruct (ksprintn_correct 255 16 true) as (ds & E & Hv & _); [lia|lia|]. exists ds. exact (conj E Hv). Defined.

(** ** Formats made of plain conversions *)

Inductive item : Type :=
| Lit (c : Z)       (* a byte of text *)
| Percent           (* %% *)
| Dec (z : Z)       (* %d, an [int] *)
| Uns (z : Z)       (* %u, an [unsigned int] *)
| Hex (z : Z)       (* %x *)
| LongHex (z : Z)   (* %lx *)
| Chr (z : Z)       (* %c *)
| Str (s : list Z). (* %s *)

(** The characters the code puts for a number without flags. *)
Definition printed_number (base n : Z) : list Z := rev (default [] (ksprintn n base false)).

Definition item_fmt (i : item) : list Z :=
  match i with
  | Lit c => [c] | Percent => [37; 37] | Dec _ => [37; 100] | Uns _ => [37; 117] | Hex _ => [37; 120]
  | LongHex _ => [37; 108; 120] | Chr _ => [37; 99] | Str _ => [37; 115]
  end.
Definition item_args (i : item) : list varg :=
  match i with
  | Lit _ | Percent => []
  | Dec z | Uns z | Hex z | LongHex z | Chr z => [VNum z]
  | Str s => [VStr (Some (s ++ [0]))]
  end.
Definition item_out (i : item) : list Z :=
  match i with
  | Lit c => [c] | Percent => [37]
  | Dec z => if s32 z <? 0 then 45 :: printed_number 10 (- s32 z) else printed_number 10 (s32 z)
  | Uns z => printed_number 10 (u32 z) | Hex z => printed_number 16 (u32 z) | LongHex z => printed_number 16 (u64 z)
  | Chr z => [u8 z] | Str s => s
  end.
Definition item_ok (i : item) : Prop :=
  match i with
  | Lit c => c <> 0 /\ c <> 37
  | Str s => 0 ∉ s
  | _ => True
  end.

Lemma cstr_app s r : 0 ∉ s -> cstr (s ++ 0 :: r) = Some s.
Proof.
  induction s as [|c s IH]; [done|]. intros Hs. cbn [app cstr].
  rewrite (proj2 (Z.eqb_neq c 0)) by set_solver. rewrite IH by set_solver. done.
Qed.

(** A number without flags and width is its numeral. *)
Lemma put_number_plain c num base padchar :
  ladjust c = false -> upper c = false -> sharpflag c = false -> 2 <= base <= 36 -> 0 <= num < 2 ^ 64 ->
  put_number c num base 0 padchar =
    Some (if sign c && (s64 num <? 0) then 45 :: printed_number base (u64 (- s64 num)) else printed_number base num).
Proof.
  intros Hl Hu Hs Hb Hn. unfold put_number, printed_number. rewrite Hl, Hu, Hs. cbn [andb negb].
  set (isneg := sign c && _). set (m := if isneg then u64 (- s64 num) else num).
  assert (0 <= m < 2 ^ 64) as Hm by (unfold m; destruct isneg; [apply wrap_range; lia|done]).
  destruct (ksprintn_loop_spec 64 m base false Hb Hm ltac:(lia)) as (ds & E & _).
  fold (ksprintn m base false) in E. rewrite E. cbn [mbind option_bind].
  rewrite Z.eqb_refl. cbn [negb]. rewrite andb_false_r. cbn [app]. rewrite app_nil_r. unfold m in E.
  destruct isneg; cbn [app]; rewrite E; done.
Qed.

Lemma arg_range c z : 0 <= arg_nosign c z < 2 ^ 64 /\ 0 <= arg_sign c z < 2 ^ 64.
Proof.
  assert (forall x w, 0 <= w <= 64 -> 0 <= wrap w x < 2 ^ 64) as H.
  { intros x w Hw. pose proof (wrap_range w x ltac:(lia)). pose proof (Z.pow_le_mono_r 2 w 64 ltac:(lia) ltac:(lia)). lia. }
  unfold arg_nosign, arg_sign, u64, u32, u8. split.
  - repeat case_match; apply H; lia.
  - repeat case_match; apply H; lia.
Qed.

(** The steps of a conversion are evaluated once the byte is known. *)
Lemma nosign_eq c base a z o dw padchar :
  ladjust c = false -> upper c = false -> sharpflag c = false -> 2 <= base <= 36 ->
  handle_nosign c base 0 padchar (PState (VNum z :: a) o dw false) =
    Some (Text, PState a (o ++ printed_number base (arg_nosign c z)) dw false).
Proof.
  intros H1 H2 H3 Hb. unfold handle_nosign, arg_num. cbn [args mbind option_bind].
  rewrite put_number_plain; [|done..|apply arg_range]. done.
Qed.

Lemma sign_eq c base a z o dw padchar :
  ladjust c = false -> upper c = false -> sharpflag c = false -> sign c = true -> 2 <= base <= 36 ->
  qflag c = false -> tflag c = false -> lflag c = false -> zflag c = false -> hflag c = false -> cflag c = false ->
  handle_sign c base 0 padchar (PState (VNum z :: a) o dw false) =
    Some (Text, PState a (o ++ (if s32 z <? 0 then 45 :: printed_number base (- s32 z) else printed_number base (s32 z))) dw false).
Proof.
  intros H1 H2 H3 Hs Hb Hq Ht Hl Hz Hh Hc. unfold handle_sign, arg_num. cbn [args mbind option_bind].
  rewrite put_number_plain; [|done..|apply arg_range]. unfold arg_sign. rewrite Hq, Ht, Hl, Hz, Hh, Hc, Hs. cbn [orb andb].
  pose proof (swrap_range 32 z ltac:(lia)) as Hr. fold (s32 z) in Hr.
  assert (s64 (u64 (s32 z)) = s32 z) as ->.
  { unfold s64, u64. unfold swrap, wrap. rewrite Zplus_mod_idemp_l. rewrite Z.mod_small by lia. lia. }
  destruct (Z.ltb_spec (s32 z) 0); unfold u64; rewrite wrap_small by lia; done.
Qed.

Lemma put_string_plain s dw padchar : 0 ∉ s -> put_string reset_fmt (Some (s ++ [0])) 0 dw padchar = Some s.
Proof.
  intros Hs. unfold put_string. change (default null_str (Some (s ++ [0]))) with (s ++ [0]).
  change (dot reset_fmt) with false. cbv iota. rewrite cstr_app by done. cbn [mbind option_bind].
  rewrite (proj2 (Z.ltb_ge 0 _)) by lia. rewrite !andb_false_r, app_nil_r. done.
Qed.

(** Runs the loop over the bytes of one conversion. *)
Ltac conv_step :=
  cbn [kvprintf_loop discard_format Z.eqb negb orb Pos.eqb]; unfold conv_char;
  cbn [Z.eqb Pos.eqb orb andb Z.leb Z.compare Pos.compare Pos.compare_cont].

Lemma loop_item i rest len a o dw :
  item_ok i -> (forall c, i = Lit c -> Z.of_nat (length o) < len - 1) ->
  kvprintf_loop (item_fmt i ++ rest) len 10 Text (PState (item_args i ++ a) o dw false) =
    kvprintf_loop rest len 10 Text (PState a (o ++ item_out i) dw false).
Proof.
  intros Hi Hlen.
  destruct i as [c| |z|z|z|z|z|s]; cbn [item_fmt item_args item_out item_ok app] in *; [|done|conv_step..|].
  - cbn [kvprintf_loop discard_format]. destruct Hi as [H0 H37]. rewrite (proj2 (Z.eqb_neq _ _) H37), (proj2 (Z.eqb_neq _ _) H0).
    cbn [negb orb out]. by rewrite (proj2 (Z.leb_gt _ _)) by (by eapply Hlen).
  - by rewrite sign_eq by (done || lia).
  - by rewrite nosign_eq by (done || lia).
  - by rewrite nosign_eq by (done || lia).
  - cbn [mbind option_bind lflag reset_fmt qflag]. by rewrite nosign_eq by (done || lia).
  - done.
  - conv_step. unfold arg_str. cbn [args mbind option_bind]. by rewrite put_string_plain.
Qed.

(** Text stops at the end of the buffer; what is stored is a part of the whole
    output that reaches the end of the buffer, or the whole. *)
Lemma loop_items items len o dw :
  Forall item_ok items ->
  let full := o ++ concat (item_out <$> items) in
  exists o', kvprintf_loop (concat (item_fmt <$> items) ++ [0]) len 10 Text (PState (concat (item_args <$> items)) o dw false)
      = Some (Z.min (Z.of_nat (length full)) (len - 1), o') /\
    o' `prefix_of` full /\ (o' = full \/ len - 1 <= Z.of_nat (length o') < Z.of_nat (length full)).
Proof.
  intros HF. revert o. induction HF as [|i items Hi _ IH]; intros o full; unfold full; cbn [fmap list_fmap concat app].
  - exists o. rewrite app_nil_r. cbn [kvprintf_loop Z.eqb negb orb out]. split_and!; [|done|by left].
    destruct (Z.leb_spec (len - 1) (Z.of_nat (length o))); do 2 f_equal; lia.
  - assert ((exists c, i = Lit c /\ len - 1 <= Z.of_nat (length o)) \/ forall c, i = Lit c -> Z.of_nat (length o) < len - 1) as [(c & -> & Hc)|Hlen].
    { destruct i as [c| | | | | | |]; try (by right). destruct (decide (len - 1 <= Z.of_nat (length o))); [left; by exists c|right; intros; lia]. }
    + exists o. cbn [item_fmt item_args item_out app kvprintf_loop discard_format out]. destruct Hi as [_ H37].
      rewrite (proj2 (Z.eqb_neq _ _) H37), (proj2 (Z.leb_le _ _) Hc), orb_true_r. cbn [negb orb].
      rewrite length_app. cbn [length]. split_and!; [do 2 f_equal; lia|by apply prefix_app_r|right; lia].
    + rewrite <-app_assoc, loop_item by done. rewrite app_assoc. apply IH.
Qed.

(** ** The text of a format

    Said without the code: a numeral has the digits of the base, no leading 0 but
    that of the number 0, and the value of the number. *)

Definition digit_chars : list Z := seqZ 48 10 ++ seqZ 97 26. (* 0123456789abc...z *)

Definition is_numeral (base n : Z) (l : list Z) : Prop :=
  exists ds, Forall2 (fun d c => digit_chars !! Z.to_nat d = Some c) ds l /\ Forall (fun d => 0 <= d < base) ds /\
    ds <> [] /\ (head ds = Some 0 -> ds = [0]) /\ foldl (fun n d => base * n + d) 0 ds = n.

Definition is_text (i : item) (l : list Z) : Prop :=
  match i with
  | Lit c => l = [c] | Percent => l = [37]
  | Dec z => exists l', is_numeral 10 (Z.abs (s32 z)) l' /\ l = if decide (s32 z < 0) then 45 :: l' else l'
  | Uns z => is_numeral 10 (u32 z) l | Hex z => is_numeral 16 (u32 z) l | LongHex z => is_numeral 16 (u64 z) l
  | Chr z => l = [u8 z] | Str s => l = s
  end.

Lemma hex2ascii_char d : 0 <= d < 36 -> digit_chars !! Z.to_nat d = Some (hex2ascii d).
Proof.
  intros Hd. unfold digit_chars, hex2ascii. destruct (Z.ltb_spec d 10).
  - rewrite lookup_app_l by (rewrite length_seqZ; lia). rewrite lookup_seqZ_lt by lia. f_equal. lia.
  - rewrite lookup_app_r by (rewrite length_seqZ; lia). rewrite length_seqZ, lookup_seqZ_lt by lia. f_equal. lia.
Qed.

Lemma ksprintn_digits rounds num base : 2 <= base <= 36 -> 0 <= num < 2 ^ Z.of_nat rounds -> (0 < rounds)%nat ->
  exists ds, ksprintn_loop rounds num base false = Some (hex2ascii <$> ds) /\ Forall (fun d => 0 <= d < base) ds /\ ds <> [] /\
    (last ds = Some 0 -> ds = [0]) /\ foldr (fun d n => base * n + d) 0 ds = num.
Proof.
  intros Hb. revert num. induction rounds as [|rounds IH]; intros num Hn Hr; [lia|]. cbn [ksprintn_loop].
  assert (0 <= num mod base < base) as Hm by (apply Z.mod_pos_bound; lia). pose proof (Z.div_mod num base ltac:(lia)) as Hdm.
  destruct (Z.eqb_spec (num / base) 0) as [Ez|Hz].
  - exists [num mod base]. split_and!; [done|by apply Forall_singleton|done|intros [= ->]; done|cbn; lia].
  - assert (0 <= num / base) by (apply Z.div_pos; lia).
    assert (num / base < 2 ^ Z.of_nat rounds) as Hlt.
    { apply Z.div_lt_upper_bound; [lia|]. rewrite Nat2Z.inj_succ, Z.pow_succ_r in Hn by lia.
      assert (2 * 2 ^ Z.of_nat rounds <= base * 2 ^ Z.of_nat rounds) by (apply Z.mul_le_mono_nonneg_r; lia). lia. }
    destruct rounds as [|rounds]; [cbn in Hlt; lia|].
    destruct (IH (num / base)) as (ds & E & HF & Hne & Hlast & Hv); [lia|lia|]. rewrite E. exists (num mod base :: ds).
    split_and!; [done|by constructor|done| |cbn; lia].
    intros Hl. destruct ds as [|d ds]; [done|]. specialize (Hlast Hl). rewrite Hlast in Hv. cbn in Hv. lia.
Qed.

Lemma printed_numeral base n : 2 <= base <= 36 -> 0 <= n < 2 ^ 64 -> is_numeral base n (printed_number base n).
Proof.
  intros Hb Hn. destruct (ksprintn_digits 64 n base Hb Hn ltac:(lia)) as (ds & E & HF & Hne & Hlast & Hv).
  assert (printed_number base n = hex2ascii <$> rev ds) as -> by (unfold printed_number, ksprintn; rewrite E; symmetry; apply map_rev).
  exists (rev ds). split_and!.
  - apply Forall2_fmap_r, Forall_Forall2_diag, Forall_rev. eapply Forall_impl; [exact HF|]. intros d Hd. apply hex2ascii_char. cbn in Hd. lia.
  - by apply Forall_rev.
  - intros Hr. apply Hne. by destruct ds using rev_ind; [|rewrite rev_unit in Hr].
  - intros Hh. rewrite Hlast; [done|]. destruct ds as [|d ds _] using rev_ind; [done|]. rewrite rev_unit in Hh. injection Hh as ->. apply last_snoc.
  - rewrite <-Hv. clear. induction ds as [|d ds IH]; [done|]. cbn [rev foldr]. rewrite foldl_app, IH. done.
Qed.

Lemma item_out_text i : is_text i (item_out i).
Proof.
  assert (forall z w, 0 <= w <= 64 -> 0 <= wrap w z < 2 ^ 64) as Hw.
  { intros z w Hw. pose proof (wrap_range w z ltac:(lia)). pose proof (Z.pow_le_mono_r 2 w 64 ltac:(lia) ltac:(lia)). lia. }
  destruct i as [c| |z|z|z|z|z|s]; cbn [is_text item_out]; try done; try (apply printed_numeral; [lia|apply Hw; lia]).
  exists (printed_number 10 (Z.abs (s32 z))). pose proof (swrap_range 32 z ltac:(lia)) as Hr. fold (s32 z) in Hr. split; [apply printed_numeral; lia|].
  destruct (Z.ltb_spec (s32 z) 0); [rewrite decide_True, Z.abs_neq by lia|rewrite decide_False, Z.abs_eq by lia]; done.
Qed.

(** C37.  Formatted output.  A format made of text and plain conversions has a
    text: that of every item in order, numbers as numerals of their values at the
    width of their type.  For a buffer of [len] bytes [kvprintf] returns the
    length of the text, cut to [len - 1], and stores the bytes of the text: all of
    it when it fits, and otherwise a part of it of at least [len - 1] bytes, which
    can be longer than the buffer. *)
Theorem kvprintf_correct len items :
  Forall item_ok items -> 0 < len ->
  exists texts stored, Forall2 is_text items texts /\
    kvprintf len (Some (concat (item_fmt <$> items) ++ [0])) 10 (concat (item_args <$> items))
      = Some (Z.min (Z.of_nat (length (concat texts))) (len - 1), stored) /\
    stored `prefix_of` concat texts /\
    (stored = concat texts \/ len - 1 <= Z.of_nat (length stored) < Z.of_nat (length (concat texts))).
Proof.
  intros HF Hpos. exists (item_out <$> items). unfold kvprintf. rewrite (proj2 (Z.eqb_neq len 0)) by lia.
  destruct (loop_items items len [] 0 HF) as (o & E & Hp & Hc). exists o. split; [|done].
  apply Forall2_fmap_r, Forall_Forall2_diag, Forall_true, item_out_text.
Qed.

(** "n=-5 ff", in a buffer of 128 bytes and, cut after "n=-", in one of 4. *)
Lemma kvprintf_correct_witness :
  let items := [Lit 110; Lit 61; Dec (2 ^ 32 - 5); Lit 32; Hex 255] in
  let fmt := [110; 61; 37; 100; 32; 37; 120] ++ [0] in let ap := [VNum (2 ^ 32 - 5); VNum 255] in
  (exists texts, Forall2 is_text items texts /\ concat texts = [110; 61; 45; 53; 32; 102; 102] /\
     kvprintf 128 (Some fmt) 10 ap = Some (7, concat texts)) /\
  exists texts, Forall2 is_text items texts /\ kvprintf 4 (Some fmt) 10 ap = Some (3, [110; 61; 45; 53]) /\ [110; 61; 45; 53] `prefix_of` concat texts.
Proof.
  intros items fmt ap. assert (Forall item_ok items) as HF by (repeat (constructor; [done|]); constructor).
  split.
  - destruct (kvprintf_correct 128 items HF ltac:(lia)) as (texts & stored & HT & E & Hp & Hc).
    change (kvprintf 128 (Some fmt) 10 ap = Some (Z.min (Z.of_nat (length (concat texts))) (128 - 1), stored)) in E.
    assert (kvprintf 128 (Some fmt) 10 ap = Some (7, [110; 61; 45; 53; 32; 102; 102])) as E7 by (vm_compute; reflexivity).
    rewrite E7 in E. injection E as El Es. assert (concat texts = stored) as Et by (destruct Hc as [Hc|Hc]; [by symmetry|subst stored; cbn [length] in Hc; lia]).
    exists texts. split; [exact HT|]. split; [by rewrite Et|]. by rewrite Et, <-Es.
  - destruct (kvprintf_correct 4 items HF ltac:(lia)) as (texts & stored & HT & E & Hp & Hc).
    change (kvprintf 4 (Some fmt) 10 ap = Some (Z.min (Z.of_nat (length (concat texts))) (4 - 1), stored)) in E.
    assert (kvprintf 4 (Some fmt) 10 ap = Some (3, [110; 61; 45; 53])) as E3 by (vm_compute; reflexivity).
    pose proof E as E'. rewrite E3 in E'. injection E' as El Es. subst stored. exists texts. split; [exact HT|]. split; [exact E3|exact Hp].
Defined.

(** The length of the buffer bounds only the text between conversions: a
    string is stored whole, whatever the length of the buffer, and the result is
    cut afterwards.  And a format that ends in a lone percent sign is read past
    its end. *)
Theorem kvprintf_overruns len s r a :
  0 < len -> 0 ∉ s ->
  kvprintf len (Some [37; 115; 0]) 10 [VStr (Some (s ++ [0]))] = Some (Z.min (Z.of_nat (length s)) (len - 1), s) /\
  kvprintf len (Some [37; 0]) 10 a = None /\
  kvprintf_loop (37 :: 0 :: r) len 10 Text (PState a [] 0 false)
    = kvprintf_loop r len 10 Text (PState a [37; 0] 0 true).
Proof.
  intros Hlen Hs. unfold kvprintf. rewrite (proj2 (Z.eqb_neq len 0)) by lia. split_and!; [|done|done].
  pose proof (loop_item (Str s) [0] len [] [] 0 Hs ltac:(done)) as E. cbn [item_fmt item_args item_out app] in E.
  change (default null_fmt (Some [37; 115; 0])) with [37; 115; 0]. change ((10 <? 2) || (36 <? 10)) with false. cbv iota. rewrite E.
  cbn [kvprintf_loop Z.eqb negb orb out]. destruct (Z.leb_spec (len - 1) (Z.of_nat (length s))); do 2 f_equal; lia.
Qed.

Lemma kvprintf_overruns_witness :
  kvprintf 2 (Some [37; 115; 0]) 10 [VStr (Some ([97; 98; 99] ++ [0]))] = Some (1, [97; 98; 99]).
Proof.
  destruct (kvprintf_overruns 2 [97; 98; 99] [] []) as [H _]; [lia|apply (bool_decide_unpack _); by vm_compute|]. exact H.
Defined.
