(* ===== verification/Console.v ===== *)
(** dev/kconsole.c, kern/pconsole.c and the output functions of
    common/printf.c: kernel messages go to every registered console.

    The list of consoles is the ring at [KconsHead]; the console objects are
    in the part of the state a lens [Consoles] gives.  The functions of a console
    are reached through their function pointers; they are the drivers of
    X64Console.v and A64Console.v. *)
From S2P Require Import Printf Prelude Bitops KList Kernel ThreadInfo ReadyQueue Sched WaitQueue Irq.

(** [link] is [KconsLink] of the address. *)
Record kconsole_t : Type := Kconsole { con_x : Z; con_y : Z; putchar : fptr; cls : fptr; locate : fptr }.

Definition KCONSOLE_INITILIZER : kconsole_t := Kconsole 0 0 NULL NULL NULL.

Class Consoles (X : Type) : Type := {
  consoles : X -> gmap ptr kconsole_t;
  set_consoles : X -> gmap ptr kconsole_t -> X }.

Section kconsole.
Context {X : Type} `{Consoles X}.
Variable call_putchar : fptr -> Z -> K X unit.
Variable call_cls : fptr -> K X unit.
Variable call_locate : fptr -> Z -> Z -> K X unit.

(** [CONTAINER_OF(cp, kconsole_t, link)] *)
Definition con_of_link (l : loc) : K X ptr := match l with KconsLink c => mret c | _ => stopM Fault end.
Definition con_get (c : ptr) : K X kconsole_t := s ← get; deref (consoles (ext s) !! c).
Definition con_put (c : ptr) (v : kconsole_t) : K X unit :=
  _ ← con_get c; s ← get; put (with_ext s (set_consoles (ext s) (<[c := v]> (consoles (ext s))))).

(** [list_for_each(cp, kcp, head)] *)
Definition each_console (body : kconsole_t -> K X unit) : K X unit :=
  lp ← lk_rd (fun m => list_ref_top m KconsHead);
  s ← get;
  list_iter (size (consoles (ext s))) KconsHead lp tt (fun lp _ => c ← con_of_link lp; con ← con_get c; body con).

Definition kputchar (ch : Z) : K X unit :=
  psw ← psw_disable_and_save_interrupt;
  each_console (fun con => when (negb (putchar con =? NULL)) (call_putchar (putchar con) ch));;
  psw_restore_interrupt psw.

Definition kcls : K X unit :=
  psw ← psw_disable_and_save_interrupt;
  each_console (fun con => when (negb (cls con =? NULL)) (call_cls (cls con)));;
  psw_restore_interrupt psw.

Definition klocate (x y : Z) : K X unit :=
  psw ← psw_disable_and_save_interrupt;
  each_console (fun con => when (negb (locate con =? NULL)) (call_locate (locate con) x y));;
  psw_restore_interrupt psw.

Definition register_kconsole (conp : ptr) : K X Z :=
  psw ← psw_disable_and_save_interrupt;
  bad ← (if conp =? NULL then mret true else con ← con_get conp; mret (putchar con =? NULL));
  rc ← (if (bad : bool) then mret EINVAL else lk_upd (fun m => list_add m KconsHead (KconsLink conp));; mret 0);
  psw_restore_interrupt psw;;
  mret rc.

Definition unregister_kconsole (conp : ptr) : K X unit :=
  psw ← psw_disable_and_save_interrupt;
  lk_upd (fun m => list_del m (KconsLink conp));;
  psw_restore_interrupt psw.

(** kern/pconsole.c: [pseudo_console] and [pseudo_putchar] are addresses; the
    latter calls [putchar] of the host's library. *)
Definition init_pseudo_console (pseudo_console : ptr) (pseudo_putchar : fptr) : K X unit :=
  con ← con_get pseudo_console;
  con_put pseudo_console (Kconsole (con_x con) (con_y con) pseudo_putchar (cls con) (locate con));;
  con ← con_get pseudo_console;
  con_put pseudo_console (Kconsole (con_x con) (con_y con) (putchar con) NULL (locate con));;
  con ← con_get pseudo_console;
  con_put pseudo_console (Kconsole (con_x con) (con_y con) (putchar con) (cls con) NULL);;
  register_kconsole pseudo_console;;
  mret tt.

(** common/printf.c: the characters of a string without its end. *)
Definition kprint_string (str : list Z) : K X unit := forM str kputchar.

(** [junk] is what the buffer on the stack held; an access outside it faults. *)
Definition kprintf (junk fmt : list Z) (ap : list varg) : K X Z :=
  r ← deref (Printf.kprintf junk fmt ap); kprint_string r.2;; mret r.1.
End kconsole.

(** ** The registered consoles *)

Section registry.
Context {X : Type} `{Consoles X}.
Implicit Types (s : kst X) (cs : list ptr).

Lemma con_get_eq s c v : consoles (ext s) !! c = Some v -> con_get c s = Ret v s.
Proof. intros E. unfold con_get. mred. by rewrite E. Qed.
Lemma con_put_eq s c v v' : consoles (ext s) !! c = Some v ->
  con_put c v' s = Ret tt (with_ext s (set_consoles (ext s) (<[c := v']> (consoles (ext s))))).
Proof. intros E. unfold con_put. by rewrite (bind_ret _ _ _ _ _ (con_get_eq _ _ _ E)). Qed.

(** The consoles [cs] are registered, in this order. *)
Record cons_inv s cs : Prop := ConsInv {
  ci_ring : is_ring (links s) KconsHead (KconsLink <$> cs);
  ci_cons : forall c, c ∈ cs -> is_Some (consoles (ext s) !! c) }.

(** The functions of the consoles [cs] that are not null, in order. *)
Definition functions (sel : kconsole_t -> fptr) s cs : list fptr :=
  filter (fun f => f <> NULL) (omap (fun c => sel <$> consoles (ext s) !! c) cs).

Lemma cons_size s cs : cons_inv s cs -> (length cs <= size (consoles (ext s)))%nat.
Proof.
  intros [[HN _] HC]. apply NoDup_cons in HN as [_ HN]. apply NoDup_fmap_1 in HN.
  rewrite <-(size_list_to_set (C := gset ptr) cs), <-size_dom by done. apply subseteq_size.
  intros c. rewrite elem_of_list_to_set, elem_of_dom. apply HC.
Qed.

Lemma cons_inv_ext s s' cs : links s' = links s -> consoles (ext s') = consoles (ext s) -> cons_inv s cs -> cons_inv s' cs.
Proof. intros E1 E2 [R C]. split; [by rewrite E1|by rewrite E2]. Qed.

Lemma register_refused s c con : c <> NULL -> consoles (ext s) !! c = Some con -> putchar con = NULL -> register_kconsole c s = Ret EINVAL s.
Proof.
  intros Hc Hcon E0. unfold register_kconsole, psw_disable_and_save_interrupt, psw_restore_interrupt, con_get. mred.
  rewrite (proj2 (Z.eqb_neq c NULL)) by done. mred. cbn [ext with_ie]. rewrite Hcon. mred. rewrite E0. mred. by destruct s.
Qed.

Lemma register_eq s cs c con : cons_inv s cs -> c <> NULL -> consoles (ext s) !! c = Some con -> is_ring (links s) (KconsLink c) [] -> putchar con <> NULL ->
  exists m, register_kconsole c s = Ret 0 (with_links s m) /\ cons_inv (with_links s m) (cs ++ [c]) /\
    frame (links s) m (KconsLink c :: KconsHead :: (KconsLink <$> cs)).
Proof.
  intros [HR HC] Hc Hcon HS E0. unfold register_kconsole, psw_disable_and_save_interrupt, psw_restore_interrupt, con_get. mred.
  rewrite (proj2 (Z.eqb_neq c NULL)) by done. mred. cbn [ext with_ie]. rewrite Hcon. mred. rewrite (proj2 (Z.eqb_neq _ NULL)) by done. mred.
  destruct (list_add_ring (links s) KconsHead (KconsLink <$> cs) (KconsLink c)) as (m & E & R & F); [done| |by eapply is_ring_dom; [exact HS|set_solver]|].
  { rewrite elem_of_cons, list_elem_of_fmap. intros [?|(c' & Ec & Hin)]; [done|]. injection Ec as <-. eapply ring_not_self; [exact HR| |exact HS]. set_solver. }
  rewrite (lk_upd_eq _ _ m) by done. mred. exists m. split; [by destruct s|]. split; [|done]. split; [by rewrite fmap_app|].
  intros c'. rewrite elem_of_app, list_elem_of_singleton. intros [Hin| ->]; [by apply HC|by eexists].
Qed.

End registry.

(** ** What the consoles promise

    A console function changes devices only: [log] is what they have put out,
    to which a call of [f] appends [puts f ch]. *)
Section spec.
Context {X : Type} `{Consoles X} {A : Type}.
(** [dev] are the states in which the devices are set up. *)
Variable dev : X -> Prop.
Variable log : X -> list A.
Implicit Types (s : kst X) (cs : list ptr).

Definition puts_out (c : K X unit) (out : list A) : Prop := forall s, ie s = false -> dev (ext s) ->
  exists x, c s = Ret tt (with_ext s x) /\ log x = log (ext s) ++ out /\ consoles x = consoles (ext s) /\ dev x.

Lemma functions_app sel s c cs : functions sel s (cs ++ c) = functions sel s cs ++ functions sel s c.
Proof. unfold functions. by rewrite omap_app, filter_app. Qed.

Lemma functions_nonnull sel s cs f : f ∈ functions sel s cs -> f <> NULL.
Proof. by intros [? _]%list_elem_of_filter. Qed.

(** The walk calls the function [sel] of every console that has one. *)
Lemma each_console_eq (sel : kconsole_t -> fptr) (call : fptr -> K X unit) (out : fptr -> list A) s cs :
  (forall f, f ∈ functions sel s cs -> puts_out (call f) (out f)) -> ie s = false -> dev (ext s) -> cons_inv s cs ->
  exists x, each_console (fun con => when (negb (sel con =? NULL)) (call (sel con))) s = Ret tt (with_ext s x) /\
    log x = log (ext s) ++ concat (out <$> functions sel s cs) /\ consoles x = consoles (ext s) /\ dev x.
Proof.
  intros Hcall Hie HD HI. pose proof (cons_size s cs HI) as Hsz. destruct HI as [HR HC].
  destruct (list_iter_spec (fun dn (_ : unit) st => exists d x, dn = KconsLink <$> d /\ st = with_ext s x /\
      log x = log (ext s) ++ concat (out <$> functions sel s d) /\ consoles x = consoles (ext s) /\ dev x) KconsHead (KconsLink <$> cs)
    (fun lp _ => c ← con_of_link lp; con ← con_get c; when (negb (sel con =? NULL)) (call (sel con))))
    with (rest := KconsLink <$> cs) (done := @nil loc) (fuel := size (consoles (ext s))) (acc := tt) (s := s)
    as ([] & s' & E & d & x & Hd & -> & L & C & Dx).
  - intros dn _ st (d & x & _ & -> & _). exact HR.
  - intros dn y rest [] st Hxs (d & x & -> & -> & L & C & Dx).
    assert (y ∈ KconsLink <$> cs) as (c & -> & Hin)%list_elem_of_fmap by (rewrite Hxs; set_solver).
    destruct (HC c Hin) as [con Hcon]. unfold con_of_link, con_get. mred. cbn [ext with_ext]. rewrite C, Hcon. mred.
    assert (functions sel s [c] = filter (fun f => f <> NULL) [sel con]) as Hf by (unfold functions; cbn [omap list_omap]; by rewrite Hcon).
    destruct (Z.eqb_spec (sel con) NULL) as [E0|E0]; mred.
    + eexists tt, _. split; [done|]. exists (d ++ [c]), x. rewrite fmap_app, functions_app, Hf, filter_cons_False, filter_nil, app_nil_r by tauto. done.
    + assert (sel con ∈ functions sel s cs) as Hsel.
      { apply list_elem_of_filter. split; [done|]. apply list_elem_of_omap. exists c. by rewrite Hcon. }
      destruct (Hcall (sel con) Hsel (with_ext s x) Hie Dx) as (x' & E & L' & C' & Dx'). exists tt, (with_ext s x'). split; [exact E|].
      exists (d ++ [c]), x'. cbn [ext with_ext] in L', C'. rewrite fmap_app, functions_app, Hf, filter_cons_True, filter_nil by done.
      split_and!; [done|done| |congruence|done]. rewrite L', L, fmap_app, concat_app. cbn. by rewrite app_nil_r, app_assoc.
  - done.
  - by rewrite length_fmap.
  - exists [], (ext s). cbn. rewrite app_nil_r. by destruct s.
  - apply list_fmap_eq_inj in Hd as <-; [|by intros ?? [= ->]]. exists x. split_and!; [|done|done|done].
    unfold each_console. rewrite (bind_ret _ _ _ _ _ (lk_rd_eq _ _ _ (list_ref_top_ring _ _ _ HR))).
    rewrite <-E. mred. by destruct cs.
Qed.

Variable call_putchar : fptr -> Z -> K X unit.
Variable call_cls : fptr -> K X unit.
Variable call_locate : fptr -> Z -> Z -> K X unit.
Variables (puts : fptr -> Z -> list A) (clears : fptr -> list A) (moves : fptr -> Z -> Z -> list A).

(** What all consoles put out for a character, and for a text. *)
Definition shown s cs (ch : Z) : list A := concat ((fun f => puts f ch) <$> functions putchar s cs).

(** With interrupts disabled meanwhile, and the flag restored. *)
Lemma irq_off_eq (c : K X unit) s x : c (with_ie s false) = Ret tt (with_ext (with_ie s false) x) ->
  (psw ← psw_disable_and_save_interrupt; c;; psw_restore_interrupt psw) s = Ret tt (with_ext s x).
Proof. intros E. unfold psw_disable_and_save_interrupt, psw_restore_interrupt. mred. rewrite E. by destruct s. Qed.

(** A walk over the consoles in any state they are registered in. *)
Lemma walk_eq (sel : kconsole_t -> fptr) (call : fptr -> K X unit) (out : fptr -> list A) s cs :
  (forall f, f ∈ functions sel s cs -> puts_out (call f) (out f)) -> dev (ext s) -> cons_inv s cs ->
  exists x, (psw ← psw_disable_and_save_interrupt; each_console (fun con => when (negb (sel con =? NULL)) (call (sel con)));; psw_restore_interrupt psw) s = Ret tt (with_ext s x) /\
    log x = log (ext s) ++ concat (out <$> functions sel s cs) /\ consoles x = consoles (ext s) /\ dev x.
Proof.
  intros Hcall HD HI. destruct (each_console_eq sel call out (with_ie s false) cs) as (x & E & L & C & Dx); [done|done|done|by eapply cons_inv_ext; [..|exact HI]|].
  exists x. split; [by apply irq_off_eq|done].
Qed.

Lemma kprint_string_eq s cs txt : (forall f ch, f ∈ functions putchar s cs -> puts_out (call_putchar f ch) (puts f ch)) -> dev (ext s) -> cons_inv s cs ->
  exists x, kprint_string call_putchar txt s = Ret tt (with_ext s x) /\ log x = log (ext s) ++ concat (shown s cs <$> txt) /\ consoles x = consoles (ext s) /\ dev x.
Proof.
  unfold kprint_string. revert s. induction txt as [|ch txt IH]; intros s Hputs HD HI; [exists (ext s); rewrite app_nil_r; by destruct s|].
  destruct (walk_eq putchar (fun f => call_putchar f ch) (fun f => puts f ch) s cs) as (x & E & L & C & Dx); [by intros; apply Hputs|done|done|].
  destruct (IH (with_ext s x)) as (x' & E' & L' & C' & Dx'); [intros f ch' Hf; apply Hputs; revert Hf; unfold functions; cbn [ext with_ext]; by rewrite C|done|by eapply cons_inv_ext; [..|exact HI]|]. exists x'. split_and!.
  - by rewrite (forM_step (kputchar call_putchar) ch txt s _ E).
  - cbn [ext with_ext] in L'. rewrite L', L, <-app_assoc. cbn [fmap list_fmap concat]. do 2 f_equal.
    unfold shown, functions. cbn [ext with_ext]. by rewrite C.
  - by rewrite C'.
  - done.
Qed.

Hypothesis putchar_puts : forall f ch, f <> NULL -> puts_out (call_putchar f ch) (puts f ch).
Hypothesis cls_clears : forall f, f <> NULL -> puts_out (call_cls f) (clears f).
Hypothesis locate_moves : forall f x y, f <> NULL -> puts_out (call_locate f x y) (moves f x y).

(** C20. Kernel messages reach every console.  With the consoles [cs] registered, a formatted message whose text fits the buffer is put out, character by character and each on every console in order, and its length is returned; clearing the screen and moving the cursor call every console that can; nothing but devices changes.  Registering refuses a null pointer and a console that cannot put characters, without effect, and otherwise makes the console the last of the list; unregistering takes it out. *)
Theorem kconsole_correct s cs : dev (ext s) -> cons_inv s cs ->
  (forall junk fmt ap rc txt, Printf.kprintf junk fmt ap = Some (rc, txt) ->
     exists x, kprintf call_putchar junk fmt ap s = Ret rc (with_ext s x) /\ log x = log (ext s) ++ concat (shown s cs <$> txt) /\ consoles x = consoles (ext s)) /\
  (exists x, kcls call_cls s = Ret tt (with_ext s x) /\ log x = log (ext s) ++ concat (clears <$> functions cls s cs)) /\
  (forall a b, exists x, klocate call_locate a b s = Ret tt (with_ext s x) /\ log x = log (ext s) ++ concat ((fun f => moves f a b) <$> functions locate s cs)) /\
  register_kconsole NULL s = Ret EINVAL s /\
  (forall c con, c <> NULL -> consoles (ext s) !! c = Some con -> is_ring (links s) (KconsLink c) [] ->
     if decide (putchar con = NULL) then register_kconsole c s = Ret EINVAL s
     else exists m, register_kconsole c s = Ret 0 (with_links s m) /\ cons_inv (with_links s m) (cs ++ [c]) /\
       frame (links s) m (KconsLink c :: KconsHead :: (KconsLink <$> cs))) /\
  (forall l1 c l2, cs = l1 ++ c :: l2 ->
     exists m, unregister_kconsole c s = Ret tt (with_links s m) /\ cons_inv (with_links s m) (l1 ++ l2) /\ is_ring m (KconsLink c) [] /\
       frame (links s) m (KconsHead :: (KconsLink <$> cs))).
Proof.
  intros HD HI. split_and!.
  - intros junk fmt ap rc txt E. destruct (kprint_string_eq s cs txt) as (x & E' & HL & HC' & _); [intros f ch Hf; by apply putchar_puts, (functions_nonnull putchar s cs)|done|done|]. exists x. split; [|done].
    unfold kprintf. rewrite E. mred. cbn [fst snd]. by rewrite E'.
  - destruct (walk_eq cls call_cls clears s cs) as (x & E & L & _); [intros f Hf; eauto using functions_nonnull|done|done|eauto].
  - intros a b. destruct (walk_eq locate (fun f => call_locate f a b) (fun f => moves f a b) s cs) as (x & E & L & _); [intros f Hf; eauto using functions_nonnull|done|done|eauto].
  - unfold register_kconsole, psw_disable_and_save_interrupt, psw_restore_interrupt. mred. by destruct s.
  - intros c con Hc Hcon HS. case_decide; [by eapply register_refused|by eapply register_eq].
  - intros l1 c l2 ->. destruct HI as [HR HC]. rewrite fmap_app in HR.
    destruct (list_del_ring _ _ _ _ _ HR) as (m & E & R & Sc & F).
    unfold unregister_kconsole, psw_disable_and_save_interrupt, psw_restore_interrupt. mred. rewrite (lk_upd_eq _ _ m) by done. mred.
    exists m. split; [by destruct s|]. split_and!; [|done|by rewrite fmap_app]. split; [by rewrite fmap_app|].
    intros c' Hin. apply HC. set_solver.
Qed.
End spec.

(** With one console, a message is put out on it. *)
Lemma kprintf_single {X A} `{Consoles X} (dev : X -> Prop) (log : X -> list A) (call_putchar : fptr -> Z -> K X unit) (out : Z -> A) c con s junk fmt ap rc txt :
  cons_inv s [c] -> consoles (ext s) !! c = Some con -> putchar con <> NULL ->
  (forall ch, puts_out dev log (call_putchar (putchar con) ch) [out ch]) -> dev (ext s) -> Printf.kprintf junk fmt ap = Some (rc, txt) ->
  exists x, kprintf call_putchar junk fmt ap s = Ret rc (with_ext s x) /\ log x = log (ext s) ++ (out <$> txt) /\ dev x.
Proof.
  intros HI Hcon Hf Hputs HD Ep.
  assert (functions putchar s [c] = [putchar con]) as Efs by (unfold functions; cbn [omap list_omap]; rewrite Hcon; cbn [fmap option_fmap option_map]; by rewrite filter_cons_True).
  destruct (kprint_string_eq dev log call_putchar (fun _ ch => [out ch]) s [c] txt) as (x & Ek & HS & _ & Dx); [|done|done|].
  - intros f ch. rewrite Efs. by intros ->%list_elem_of_singleton.
  - exists x. split_and!; [unfold kprintf; rewrite Ep; mred; cbn [fst snd]; by rewrite Ek| |done]. rewrite HS. f_equal.
    unfold shown. rewrite Efs. cbn. clear. induction txt as [|ch txt IH]; [done|]. cbn. by rewrite IH.
Qed.

(** ** Two consoles

    The console at 10 can only put characters, the one at 20 can do everything;
    a record of the calls stands for the devices. *)
Definition demo_machine : Type := gmap ptr kconsole_t * list (fptr * Z * Z).
#[export] Instance demo_consoles : Consoles demo_machine := {| consoles := fst; set_consoles x m := (m, x.2) |}.
Definition demo_call (f : fptr) (a b : Z) : K demo_machine unit := fun s => Ret tt (with_ext s ((ext s).1, (ext s).2 ++ [(f, a, b)])).
Definition demo_cons : kst demo_machine :=
  Kst (<[KconsHead := Node (KconsLink 20) (KconsLink 10)]> (<[KconsLink 10 := Node KconsHead (KconsLink 20)]> (<[KconsLink 20 := Node (KconsLink 10) KconsHead]>
    {[KconsLink 30 := Node (KconsLink 30) (KconsLink 30)]}))) true ∅ ∅ 0 0 ∅ ∅ ∅ 0 ∅ ∅ ∅ ∅ [] 0
    (<[10 := Kconsole 0 0 1 NULL NULL]> (<[20 := Kconsole 0 0 2 3 4]> {[30 := KCONSOLE_INITILIZER]}), []).

Lemma demo_cons_inv : cons_inv demo_cons [10; 20].
Proof. split; [ring_decide|]. intros c. rewrite !elem_of_cons, elem_of_nil. intros [->|[->|[]]]; by eexists. Qed.

Lemma demo_call_out f a b : puts_out (fun _ => True) snd (demo_call f a b) [(f, a, b)].
Proof. intros s _ _. eexists. by split_and!. Qed.

Lemma kconsole_correct_witness :
  (exists x, kprintf (fun f c => demo_call f c 0) (replicate 128 7) [72; 105; 0] [] demo_cons = Ret 2 (with_ext demo_cons x) /\
     x.2 = [(1, 72, 0); (2, 72, 0); (1, 105, 0); (2, 105, 0)]) /\
  register_kconsole 30 demo_cons = Ret EINVAL demo_cons.
Proof.
  destruct (kconsole_correct (fun _ => True) snd (fun f c => demo_call f c 0) (fun f => demo_call f 0 0) (fun f a b => demo_call f a b)
    (fun f c => [(f, c, 0)]) (fun f => [(f, 0, 0)]) (fun f a b => [(f, a, b)])
    (fun f ch _ => demo_call_out f ch 0) (fun f _ => demo_call_out f 0 0) (fun f a b _ => demo_call_out f a b) demo_cons [10; 20] I demo_cons_inv)
    as (HP & _ & _ & _ & HR & _).
  split.
  - destruct (HP (replicate 128 7) [72; 105; 0] [] 2 [72; 105]) as (x & E & L & _); [vm_compute; reflexivity|]. exists x. split; [exact E|]. exact L.
  - specialize (HR 30 KCONSOLE_INITILIZER). rewrite decide_True in HR by reflexivity. apply HR; [discriminate|reflexivity|ring_decide].
Defined.
