(* ===== verification/Heap.v ===== *)
(** common/heap.c: the kernel heap the allocator and the page tables grow into,
    and the locks of the allocator.

    The heap is a record threaded through the operations; the locks are the
    kernel's mutexes, with the interrupt flag saved around each operation. *)
From S2P Require Import Prelude KList Kernel WaitQueue Mutex.

Record kernel_heap : Type := KernelHeap { start : Z; end_ : Z; cur : Z }.

(** The pointer -1. *)
Definition HEAP_SBRK_FAILED : Z := u64 (-1).

(** The pointer returned and the heap afterwards. *)
Definition kheap_sbrk (h : kernel_heap) (inc : Z) : Z * kernel_heap :=
  let prev := cur h in
  if (cur h + inc <? start h) || (end_ h <=? cur h + inc) then (HEAP_SBRK_FAILED, h)
  else (prev, KernelHeap (start h) (end_ h) (cur h + inc)).

(** The heap lies below the top of the address space. *)
Record heap_ok (h : kernel_heap) : Prop := {
  ho_start : 0 < start h; ho_cur : start h <= cur h; ho_end : cur h < end_ h; ho_top : end_ h <= HEAP_SBRK_FAILED }.

(** The areas handed out by a sequence of calls that grow the heap. *)
Fixpoint sbrks (h : kernel_heap) (incs : list Z) : list (Z * Z) * kernel_heap :=
  match incs with
  | [] => ([], h)
  | n :: incs =>
      let '(p, h) := kheap_sbrk h n in
      let '(l, h) := sbrks h incs in
      (if p =? HEAP_SBRK_FAILED then l else (p, n) :: l, h)
  end.

Section locks.
Context {X : Type}.
Variable fuel : nat.

(** [psw_disable_and_save_interrupt(&psw); ...; psw_restore_interrupt(&psw);] *)
Definition with_psw {A} (c : K X A) : K X A :=
  psw ← psw_disable_and_save_interrupt; a ← c; psw_restore_interrupt psw;; mret a.

Definition kmalloc_initialize_lock (mtx : mtxp) : K X unit := with_psw (mutex_init mtx).
Definition kmalloc_destroy_lock (mtx : mtxp) : K X unit := with_psw (mutex_destroy mtx).
Definition kmalloc_try_lock (mtx : mtxp) : K X Z := with_psw (rc ← mutex_try_hold mtx; mret (cbool (negb (ctrue rc)))).
Definition kmalloc_acquire_lock (mtx : mtxp) : K X Z := with_psw (mutex_hold fuel mtx).
Definition kmalloc_release_lock (mtx : mtxp) : K X unit := with_psw (mutex_release mtx).
End locks.

Lemma kheap_sbrk_spec h inc p h' :
  heap_ok h -> kheap_sbrk h inc = (p, h') ->
  heap_ok h' /\ start h' = start h /\ end_ h' = end_ h /\
  (p = HEAP_SBRK_FAILED /\ h' = h \/ p <> HEAP_SBRK_FAILED /\ p = cur h /\ cur h' = cur h + inc).
Proof.
  intros [H1 H2 H3 H4]. unfold kheap_sbrk. destruct (_ || _) eqn:E; intros [= <- <-].
  - split_and!; [by split|done|done|by left].
  - apply orb_false_iff in E as [E1%Z.ltb_ge E2%Z.leb_gt]. cbn.
    split_and!; [split; cbn; lia|done|done|]. right. split_and!; [lia|done|done].
Qed.

(** C40.  The kernel heap: any sequence of calls that grow it hands out areas
    inside the heap, each starting where the one before ended, so that no two
    overlap; a call that does not fit fails without effect. *)
Theorem kheap_sbrk_correct h incs :
  heap_ok h -> Forall (fun n => 0 < n) incs ->
  let '(l, h') := sbrks h incs in
  heap_ok h' /\ cur h <= cur h' /\
  Forall (fun '(p, n) => cur h <= p /\ p + n <= cur h' /\ p + n < end_ h) l /\
  (forall i j p n q m, l !! i = Some (p, n) -> l !! j = Some (q, m) -> (i < j)%nat -> p + n <= q).
Proof.
  intros HO HF. revert h HO. induction HF as [|inc incs Hinc _ IH]; intros h HO; cbn [sbrks].
  { split_and!; [done|lia|constructor|]. intros i j p n q m H. by rewrite lookup_nil in H. }
  destruct (kheap_sbrk h inc) as [p h1] eqn:E.
  destruct (kheap_sbrk_spec h inc p h1 HO E) as (HO1 & Es & Ee & Hc). specialize (IH h1 HO1).
  destruct (sbrks h1 incs) as [l h2]. destruct IH as (HO2 & Hle & HFl & Hord). destruct Hc as [[-> ->]|(Hp & -> & Hcur)].
  - rewrite Z.eqb_refl. done.
  - rewrite (proj2 (Z.eqb_neq _ _) Hp). split_and!; [done|lia| |].
    + constructor; [pose proof (ho_end _ HO1); lia|]. eapply Forall_impl; [exact HFl|]. intros [q m] ?. cbn in *. lia.
    + intros i j p' n' q m Hi Hj Hij. destruct j as [|j]; [lia|]. destruct i as [|i]; cbn in Hi, Hj.
      * injection Hi as <- <-. eapply Forall_lookup_1 in Hj; [|exact HFl]. cbn in Hj. lia.
      * apply (Hord i j p' n' q m Hi Hj). lia.
Qed.

Lemma kheap_sbrk_correct_witness :
  sbrks (KernelHeap 4096 12288 4096) [4096; 4095; 8] = ([(4096, 4096); (8192, 4095)], KernelHeap 4096 12288 12287) /\
  heap_ok (KernelHeap 4096 12288 12287).
Proof.
  pose proof (kheap_sbrk_correct (KernelHeap 4096 12288 4096) [4096; 4095; 8]) as H.
  split; [by vm_compute|]. apply H; [split; vm_compute; congruence|repeat (constructor; [lia|]); constructor].
Defined.
