(* ===== verification/PageTable.v ===== *)
(** Page tables of three levels whose leaves are pages of 2 MiB: what
    hal/x64/kmap.c and hal/aarch64/kmap.c have in common.

    Memory is a map from physical addresses to 64-bit words.  The kernel reaches
    it through the straight map at [KERN_VMA_BASE] and, below that address,
    through the identity map the boot code left; [kphys] is the physical address
    of such a pointer.  The bits of an entry are those of a [PtFormat]; each
    architecture gives its own.  [leaf] is the walk the processor does.  The
    loop invariant of both architectures is [tree]: the tables in use form a
    tree, so that no word is an entry of two tables. *)
From S2P Require Import Prelude Heap.

Definition PAGE_SIZE : Z := 4096.
Definition KERN_STRAIGHT_PAGE_SIZE : Z := 0x200000.
Definition PAGE_START (addr : Z) : Z := Z.land addr (u64 (Z.lnot (PAGE_SIZE - 1))).
Definition KERN_STRAIGHT_PAGE_START (addr : Z) : Z := Z.land addr (u64 (Z.lnot (KERN_STRAIGHT_PAGE_SIZE - 1))).
Definition KERN_STRAIGHT_PAGE_NEXT (addr : Z) : Z := u64 (KERN_STRAIGHT_PAGE_START addr + KERN_STRAIGHT_PAGE_SIZE).
Definition KERN_STRAIGHT_PAGE_END (addr : Z) : Z := u64 (KERN_STRAIGHT_PAGE_NEXT addr - 1).

(** The indices of an address in the tables from the root on. *)
Definition index0 (vaddr : Z) : Z := Z.land (Z.shiftr vaddr 39) 0x1ff.
Definition index1 (vaddr : Z) : Z := Z.land (Z.shiftr vaddr 30) 0x1ff.
Definition index2 (vaddr : Z) : Z := Z.land (Z.shiftr vaddr 21) 0x1ff.

(** What an entry says: whether it is in use, where the table it points to lies,
    and the entry for a table. *)
Class PtFormat : Type := {
  ent_present : Z -> bool;
  ent_addr : Z -> Z;
  table_ent : Z -> Z }.

(** Physical addresses have 48 bits. *)
Class PtFormatOk `{PtFormat} : Prop := {
  fmt_table : forall n, 0 <= n < 2 ^ 48 -> n mod 4096 = 0 -> ent_addr (table_ent n) = n /\ ent_present (table_ent n) = true;
  fmt_zero : ent_present 0 = false }.

(** The memory, the heap and the registers of the processor. *)
Record pgst (R : Type) : Type := PgSt { words : gmap Z Z; heap : kernel_heap; regs : R }.
Arguments PgSt {R} _ _ _.
Arguments words {R} _.
Arguments heap {R} _.
Arguments regs {R} _.
Definition P (R A : Type) : Type := M (pgst R) A.

Section kmap.
Context {R : Type} `{PtFormat}.
Variable KERN_VMA_BASE : Z.

Definition PHY_TO_KERN_STRAIGHT (phy : Z) : Z := u64 (phy + KERN_VMA_BASE).
Definition KERN_STRAIGHT_TO_PHY (va : Z) : Z := u64 (va - KERN_VMA_BASE).

Definition kphys (a : Z) : Z := if KERN_VMA_BASE <=? a then a - KERN_VMA_BASE else a.

Definition ld_word (a : Z) : P R Z := s ← get; deref (words s !! kphys a).
Definition st_word (a v : Z) : P R unit :=
  _ ← ld_word a; s ← get; put (PgSt (<[kphys a := v]> (words s)) (heap s) (regs s)).

(** [memset(p, 0, PAGE_SIZE)] *)
Definition clear_page (p : Z) : P R unit := forM (seqZ 0 (PAGE_SIZE / 8)) (fun i => st_word (p + 8 * i) 0).

(** A page of the heap, cleared; [check] stands for the assertions about it. *)
Definition new_page (check : Z -> bool) : P R Z :=
  s ← get; let '(p, h) := kheap_sbrk (heap s) PAGE_SIZE in put (PgSt (words s) h (regs s));;
  kassert (negb (p =? HEAP_SBRK_FAILED));;
  kassert (check p);;
  clear_page p;;
  mret p.

(** The table the entry at [a] points to, made when there is none: its physical
    address. *)
Definition next_table (check : Z -> bool) (a : Z) : P R Z :=
  ent ← ld_word a;
  if negb (ent_present ent) then
    p ← new_page check;
    let addr := KERN_STRAIGHT_TO_PHY p in
    st_word a (table_ent addr);;
    mret addr
  else mret (ent_addr ent).

(** The entry of the page of [vaddr] under the root at [tbl] becomes [val]. *)
Definition map_page (check : Z -> bool) (tbl vaddr val : Z) : P R unit :=
  addr1 ← next_table check (tbl + 8 * index0 vaddr);
  addr2 ← next_table check (PHY_TO_KERN_STRAIGHT addr1 + 8 * index1 vaddr);
  ent ← ld_word (PHY_TO_KERN_STRAIGHT addr2 + 8 * index2 vaddr);
  kassert (negb (ent_present ent));;
  st_word (PHY_TO_KERN_STRAIGHT addr2 + 8 * index2 vaddr) val.

(** ** What the processor sees *)

Definition entry (w : gmap Z Z) (tbl i : Z) : option Z :=
  e ← w !! (tbl + 8 * i); if ent_present e then Some e else None.

(** The entry of the page of [vaddr], if it is mapped. *)
Definition leaf (w : gmap Z Z) (root vaddr : Z) : option Z :=
  e1 ← entry w root (index0 vaddr);
  e2 ← entry w (ent_addr e1) (index1 vaddr);
  entry w (ent_addr e2) (index2 vaddr).
End kmap.

(** ** Addresses *)

Lemma mask_page k a : 0 <= k <= 64 -> 0 <= a < 2 ^ 64 -> Z.land a (u64 (Z.lnot (2 ^ k - 1))) = a - a mod 2 ^ k.
Proof.
  intros Hk Ha. replace (a - a mod 2 ^ k) with (Z.shiftl (Z.shiftr a k) k).
  - apply Z.bits_inj'. intros i Hi. rewrite Z.land_spec, Z.shiftl_spec by done.
    destruct (decide (i < 64)) as [Hlt|Hge].
    + unfold u64. rewrite wrap_testbit, Z.lnot_spec by lia. replace (2 ^ k - 1) with (Z.ones k) by (rewrite Z.ones_equiv; lia).
      rewrite Z.testbit_ones by lia.
      destruct (decide (i < k)).
      * rewrite (proj2 (Z.leb_le 0 i)), (proj2 (Z.ltb_lt i k)), (Z.testbit_neg_r _ (i - k)) by lia. apply andb_false_r.
      * rewrite Z.shiftr_spec by lia. replace (i - k + k) with i by lia.
        rewrite (proj2 (Z.ltb_ge i k)), andb_false_r by lia. apply andb_true_r.
    + rewrite (testbit_above a 64 i) by lia. rewrite Z.shiftr_spec by lia. replace (i - k + k) with i by lia.
      by rewrite (testbit_above a 64 i) by lia.
  - rewrite Z.shiftl_mul_pow2, Z.shiftr_div_pow2 by lia. rewrite (Z.div_mod a (2 ^ k)) at 2 by lia. lia.
Qed.

Lemma PAGE_START_eq a : 0 <= a < 2 ^ 64 -> PAGE_START a = a - a mod 4096.
Proof. intros Ha. exact (mask_page 12 a ltac:(lia) Ha). Qed.

Lemma PAGE_2M_eq a : 0 <= a < 2 ^ 64 -> KERN_STRAIGHT_PAGE_START a = a - a mod 0x200000.
Proof. intros Ha. exact (mask_page 21 a ltac:(lia) Ha). Qed.

(** Low bits set in a page aligned address. *)
Lemma page_lor n x : n mod 4096 = 0 -> 0 <= x < 4096 -> Z.lor n x = n + x.
Proof.
  intros Hm Hx. pose proof (shiftl_lor_add (n / 4096) x 12 ltac:(lia) ltac:(lia)) as E.
  rewrite Z.shiftl_mul_pow2 in E by lia. change (2 ^ 12) with 4096 in E.
  replace (n / 4096 * 4096) with n in E; [exact E|]. rewrite (Z.div_mod n 4096) at 1 by lia. lia.
Qed.

Lemma PAGE_START_lor n x : 0 <= n < 2 ^ 64 -> n mod 4096 = 0 -> 0 <= x < 4096 -> PAGE_START (Z.lor n x) = n.
Proof.
  intros Hn Hm Hx. rewrite page_lor by done. rewrite PAGE_START_eq by (Z.to_euclidean_division_equations; lia).
  rewrite Z.add_mod, Hm, Z.add_0_l, Z.mod_mod, Z.mod_small by lia. lia.
Qed.

Lemma index_range v : 0 <= index0 v < 512 /\ 0 <= index1 v < 512 /\ 0 <= index2 v < 512.
Proof.
  assert (forall z, 0 <= Z.land z 0x1ff < 512) as H.
  { intros z. change 0x1ff with (Z.ones 9). rewrite Z.land_ones by lia. apply Z.mod_pos_bound. lia. }
  split_and!; apply H.
Qed.

Lemma index_eq v : index0 v = v / 2 ^ 39 mod 512 /\ index1 v = v / 2 ^ 30 mod 512 /\ index2 v = v / 2 ^ 21 mod 512.
Proof.
  unfold index0, index1, index2. change 0x1ff with (Z.ones 9). by rewrite !Z.land_ones, !Z.shiftr_div_pow2 by lia.
Qed.

Lemma index_add va a :
  0 <= va -> va mod KERN_STRAIGHT_PAGE_SIZE = 0 -> 0 <= a -> index2 va + a / KERN_STRAIGHT_PAGE_SIZE < 512 ->
  index0 (va + a) = index0 va /\ index1 (va + a) = index1 va /\ index2 (va + a) = index2 va + a / KERN_STRAIGHT_PAGE_SIZE.
Proof.
  unfold KERN_STRAIGHT_PAGE_SIZE. destruct (index_eq va) as (-> & -> & ->). destruct (index_eq (va + a)) as (-> & -> & ->).
  change (2 ^ 39) with (0x200000 * 512 * 512). change (2 ^ 30) with (0x200000 * 512). change (2 ^ 21) with 0x200000.
  rewrite <-!Z.div_div by lia. intros Hva Hal Ha Hlt. set (q := va / 0x200000) in *. set (d := a / 0x200000) in *.
  assert ((va + a) / 0x200000 = q + d) as -> by (unfold q, d; Z.to_euclidean_division_equations; lia).
  assert ((q + d) / 512 = q / 512) as -> by (unfold q, d in *; Z.to_euclidean_division_equations; lia).
  split_and!; [done|done|]. unfold q, d in *. Z.to_euclidean_division_equations; lia.
Qed.

Lemma index_page va k : 0 <= va -> va mod KERN_STRAIGHT_PAGE_SIZE = 0 -> 0 <= k -> index2 va + k < 512 ->
  index0 (va + k * KERN_STRAIGHT_PAGE_SIZE) = index0 va /\ index1 (va + k * KERN_STRAIGHT_PAGE_SIZE) = index1 va /\
  index2 (va + k * KERN_STRAIGHT_PAGE_SIZE) = index2 va + k.
Proof.
  intros Hva Hal Hk Hlt. assert (k * KERN_STRAIGHT_PAGE_SIZE / KERN_STRAIGHT_PAGE_SIZE = k) as E by (by apply Z.div_mul).
  pose proof (index_add va (k * KERN_STRAIGHT_PAGE_SIZE) Hva Hal) as H. rewrite E in H. apply H; [unfold KERN_STRAIGHT_PAGE_SIZE; lia|done].
Qed.

(** Two entries of page aligned tables are the same word only if they are the
    same entry. *)
Lemma entry_inj t i t' i' :
  t mod 4096 = 0 -> t' mod 4096 = 0 -> 0 <= i < 512 -> 0 <= i' < 512 -> t + 8 * i = t' + 8 * i' -> t = t' /\ i = i'.
Proof. intros H1 H2 Hi Hi' E. Z.to_euclidean_division_equations; lia. Qed.

(** Addresses of the same page. *)
Definition same_page (v v' : Z) : Prop :=
  index0 v = index0 v' /\ index1 v = index1 v' /\ index2 v = index2 v'.

#[global] Instance same_page_dec v v' : Decision (same_page v v') := _.

(** The [n] pages from the page of [va] on, inside one directory. *)
Definition in_pages (v va n : Z) : Prop :=
  index0 v = index0 va /\ index1 v = index1 va /\ index2 va <= index2 v < index2 va + n.

#[global] Instance in_pages_dec v va n : Decision (in_pages v va n).
Proof. repeat apply and_dec; first [apply Z.eq_dec|apply Z_le_dec|apply Z_lt_dec]. Defined.

#[global] Typeclasses Opaque same_page in_pages.

(** ** The tables as a tree *)

Section proofs.
Context {R : Type} `{FMT : PtFormat} {FOK : PtFormatOk}.
Variable B : Z. (* [KERN_VMA_BASE] *)
Hypothesis HB : 0 <= B /\ B mod 4096 = 0.
Implicit Types (w : gmap Z Z) (own : gmap Z (list Z)) (s : pgst R).

(** The part of the heap not in use yet is memory below 2^48 reached through the
    straight map; pages are taken from it in order. *)
Record pool w (h : kernel_heap) : Prop := {
  po_heap : heap_ok h;
  po_base : B <= start h /\ end_ h - B <= 2 ^ 48;
  po_align : cur h mod 4096 = 0;
  po_words : forall a, start h - B <= a < end_ h - B -> a mod 8 = 0 -> is_Some (w !! a) }.

(** [own] says which pages are tables, and where in the tree: the path of
    indices from the root.  A present entry of a table above the last level
    points to the table one index further.  The pages of the heap that are not
    in use yet are no tables. *)
Record tree w (h : kernel_heap) (root : Z) own : Prop := {
  tr_root : own !! root = Some [];
  tr_page : forall t path, own !! t = Some path ->
    t mod 4096 = 0 /\ 0 <= t /\ t + B + 4096 <= 2 ^ 64 /\ t + 4096 <= 2 ^ 48 /\ (t + B + 4096 <= cur h \/ end_ h <= t + B) /\
    (forall i, 0 <= i < 512 -> is_Some (w !! (t + 8 * i)));
  tr_child : forall t path i e, own !! t = Some path -> (length path <= 1)%nat -> 0 <= i < 512 ->
    entry w t i = Some e -> own !! ent_addr e = Some (path ++ [i]);
  tr_pool : pool w h }.

Lemma kphys_straight t i : 0 <= t -> t + B + 4096 <= 2 ^ 64 -> 0 <= i < 512 ->
  kphys B (PHY_TO_KERN_STRAIGHT B t + 8 * i) = t + 8 * i.
Proof.
  intros Ht Hb Hi. unfold kphys, PHY_TO_KERN_STRAIGHT, u64. rewrite wrap_small by lia.
  rewrite (proj2 (Z.leb_le _ _)) by lia. lia.
Qed.

Lemma ld_word_eq s a v : words s !! kphys B a = Some v -> ld_word B a s = Ret v s.
Proof. intros E. unfold ld_word. mred. by rewrite E. Qed.
Lemma st_word_eq s a v : is_Some (words s !! kphys B a) ->
  st_word B a v s = Ret tt (PgSt (<[kphys B a := v]> (words s)) (heap s) (regs s)).
Proof. intros [x E]. unfold st_word. mred. by rewrite (ld_word_eq _ _ x). Qed.

(** [w'] is [w] with the page [n] cleared. *)
Definition cleared w w' (n : Z) : Prop :=
  (forall i, 0 <= i < 512 -> w' !! (n + 8 * i) = Some 0) /\
  (forall a, (forall i, 0 <= i < 512 -> a <> n + 8 * i) -> w' !! a = w !! a).

Lemma cleared_some w w' n a : cleared w w' n -> is_Some (w !! a) -> is_Some (w' !! a).
Proof.
  intros [C1 C2] Ha. destruct (decide (0 <= (a - n) / 8 < 512 /\ a = n + 8 * ((a - n) / 8))) as [[Hj ->]|Hno].
  - rewrite C1 by done. by eexists.
  - rewrite C2; [done|]. intros j Hj ->. apply Hno. replace (n + 8 * j - n) with (j * 8) by lia.
    rewrite Z.div_mul by lia. lia.
Qed.

Lemma clear_loop s p n l :
  (forall i, i ∈ l -> kphys B (p + 8 * i) = n + 8 * i) -> (forall i, i ∈ l -> is_Some (words s !! (n + 8 * i))) ->
  exists w', forM l (fun i => st_word B (p + 8 * i) 0) s = Ret tt (PgSt w' (heap s) (regs s)) /\
    (forall i, i ∈ l -> w' !! (n + 8 * i) = Some 0) /\
    (forall a, (forall i, i ∈ l -> a <> n + 8 * i) -> w' !! a = words s !! a).
Proof.
  revert s. induction l as [|i l IH]; intros s Hk Hm; cbn [forM].
  { exists (words s). split_and!; [by destruct s|by intros ? ?%elem_of_nil|done]. }
  mred. rewrite (st_word_eq s) by (rewrite Hk by set_solver; apply Hm; set_solver). mred. rewrite Hk by set_solver.
  destruct (IH (PgSt (<[n + 8 * i := 0]> (words s)) (heap s) (regs s))) as (w' & E & H1 & H2).
  { intros j Hj. apply Hk. set_solver. }
  { intros j Hj. cbn. apply lookup_insert_is_Some'. right. apply Hm. set_solver. }
  exists w'. split_and!; [exact E| |].
  - intros j [->|Hj]%elem_of_cons; [|by apply H1]. destruct (decide (i ∈ l)); [by apply H1|].
    rewrite H2; [cbn; by rewrite lookup_insert_eq|]. intros k Hk' ?. assert (i = k) by lia. by subst.
  - intros a Ha. rewrite H2 by (intros k Hk'; apply Ha; set_solver). cbn. rewrite lookup_insert_ne; [done|].
    intros <-. by apply (Ha i); [set_solver|].
Qed.

Lemma heap_top h : heap_ok h -> end_ h <= 2 ^ 64 - 1.
Proof. intros [_ _ _ H4]. exact H4. Qed.

Lemma clear_page_eq s p n :
  n mod 8 = 0 -> (forall i, 0 <= i < 512 -> kphys B (p + 8 * i) = n + 8 * i) -> (forall i, 0 <= i < 512 -> is_Some (words s !! (n + 8 * i))) ->
  exists w', clear_page B p s = Ret tt (PgSt w' (heap s) (regs s)) /\ cleared (words s) w' n.
Proof.
  intros Hn Hk Hm. destruct (clear_loop s p n (seqZ 0 512)) as (w' & E & C1 & C2);
    [intros i Hi%elem_of_seqZ_iff; by apply Hk|intros i Hi%elem_of_seqZ_iff; by apply Hm|].
  exists w'. split; [exact E|]. split; [intros i Hi; apply C1, elem_of_seqZ_iff; done|].
  intros a Ha. apply C2. intros i Hi%elem_of_seqZ_iff. by apply Ha.
Qed.

(** A cleared page is a tree without entries. *)
Lemma tree_init w w' h root : pool w h -> cleared w w' root -> root mod 4096 = 0 -> 0 <= root -> root + B + 4096 <= 2 ^ 64 ->
  root + 4096 <= 2 ^ 48 -> (root + B + 4096 <= cur h \/ end_ h <= root + B) ->
  tree w' h root {[root := []]} /\ forall v, leaf w' root v = None.
Proof.
  intros HP Hcl R1 R2 R3 R4 R5.
  assert (forall i, 0 <= i < 512 -> entry w' root i = None) as Hnone.
  { intros i Hi. unfold entry. rewrite (proj1 Hcl) by done. cbn. by rewrite fmt_zero. }
  split.
  - split.
    + by rewrite lookup_singleton_eq.
    + intros t p [<- <-]%lookup_singleton_Some. split_and!; try done. intros i Hi. rewrite (proj1 Hcl) by done. by eexists.
    + intros t p i e [<- <-]%lookup_singleton_Some _ Hi. by rewrite Hnone.
    + destruct HP as [P1 P2 P3 P4]. split; try done. intros a Ha Ha8. eapply cleared_some; [exact Hcl|]. by apply P4.
  - intros v. unfold leaf. by rewrite (Hnone _ (proj1 (index_range v))).
Qed.

(** The assertions hold for every page but page 0. *)
Variable check : Z -> bool.
Hypothesis Hcheck : forall p, p mod 4096 = 0 -> p <> 0 -> check p = true.

Lemma new_page_eq s :
  pool (words s) (heap s) -> cur (heap s) + 4096 < end_ (heap s) ->
  exists w', new_page B check s = Ret (cur (heap s))
      (PgSt w' (KernelHeap (start (heap s)) (end_ (heap s)) (cur (heap s) + 4096)) (regs s)) /\
    cleared (words s) w' (cur (heap s) - B).
Proof.
  intros [HO [Hb Hb'] Hal Hw] Hroom. pose proof (heap_top _ HO). pose proof HO as [H1 H2 H3 _].
  unfold new_page, kheap_sbrk. change PAGE_SIZE with 4096. mred.
  rewrite (proj2 (Z.ltb_ge (cur (heap s) + 4096) (start (heap s)))), (proj2 (Z.leb_gt (end_ (heap s)) (cur (heap s) + 4096))) by lia.
  cbn [orb]. mred. rewrite (proj2 (Z.eqb_neq (cur (heap s)) HEAP_SBRK_FAILED)) by (change HEAP_SBRK_FAILED with (2 ^ 64 - 1); lia).
  cbn [negb]. mred. rewrite Hcheck by lia. mred.
  set (n := cur (heap s) - B). assert (n mod 4096 = 0) as Hn by (unfold n; rewrite Zminus_mod, Hal, (proj2 HB); done).
  edestruct (clear_page_eq (PgSt (words s) (KernelHeap (start (heap s)) (end_ (heap s)) (cur (heap s) + 4096)) (regs s)) (cur (heap s)) n)
    as (w' & E & Hcl).
  - Z.to_euclidean_division_equations; lia.
  - intros i Hi. unfold kphys, n. rewrite (proj2 (Z.leb_le _ _)) by lia. lia.
  - intros i Hi. cbn. apply Hw; [unfold n; lia|]. Z.to_euclidean_division_equations; lia.
  - exists w'. rewrite E. mred. by split.
Qed.

Lemma pool_next w w' h : pool w h -> cleared w w' (cur h - B) -> cur h + 4096 < end_ h ->
  pool w' (KernelHeap (start h) (end_ h) (cur h + 4096)).
Proof.
  intros [[H1 H2 H3 H4] HBs Hal Hw] Hcl Hroom. split; cbn.
  - split; cbn; lia.
  - done.
  - rewrite Z.add_mod, Hal by lia. done.
  - intros a Ha Ha8. eapply cleared_some; [exact Hcl|]. by apply Hw.
Qed.

(** ** A new table *)

Section alloc.
Variables (w w1 : gmap Z Z) (h : kernel_heap) (root : Z) (own : gmap Z (list Z)) (t i : Z) (path : list Z).
Hypothesis HT : tree w h root own.
Hypothesis Ht : own !! t = Some path.
Hypothesis Hi : 0 <= i < 512.
Hypothesis Hpath : (length path <= 1)%nat.
Hypothesis Hnone : entry w t i = None.
Hypothesis Hroom : cur h + 4096 < end_ h.
Let n : Z := cur h - B.
Hypothesis Hcl : cleared w w1 n.
Let w2 : gmap Z Z := <[t + 8 * i := table_ent n]> w1.

Lemma new_range : n mod 4096 = 0 /\ 0 <= n < 2 ^ 48 /\ n + B + 4096 <= 2 ^ 64 /\ n + 4096 <= 2 ^ 48.
Proof.
  pose proof (tr_pool _ _ _ _ HT) as [HO [? ?] Hal _]. pose proof (heap_top _ HO). destruct HO.
  split; [unfold n; rewrite Zminus_mod, Hal, (proj2 HB); done|]. unfold n. lia.
Qed.

Lemma new_ent : ent_addr (table_ent n) = n /\ ent_present (table_ent n) = true.
Proof. apply fmt_table; apply new_range. Qed.

Lemma new_not_own : own !! n = None.
Proof.
  destruct (own !! n) as [p|] eqn:E; [|done]. destruct (tr_page _ _ _ _ HT _ _ E) as (_ & _ & _ & _ & Hd & _).
  unfold n in *. pose proof (ho_end _ (po_heap _ _ (tr_pool _ _ _ _ HT))). lia.
Qed.

Lemma word_other t0 p0 k : own !! t0 = Some p0 -> 0 <= k < 512 ->
  w2 !! (t0 + 8 * k) = if decide (t0 = t /\ k = i) then Some (table_ent n) else w !! (t0 + 8 * k).
Proof.
  intros H0 Hk. destruct (tr_page _ _ _ _ HT _ _ H0) as (A0 & _). destruct (tr_page _ _ _ _ HT _ _ Ht) as (A1 & _).
  unfold w2. destruct (decide (t0 = t /\ k = i)) as [[-> ->]|Hne]; [by rewrite lookup_insert_eq|].
  rewrite lookup_insert_ne by (intros E; apply Hne; by apply entry_inj).
  apply Hcl. intros j Hj E. destruct (entry_inj t0 k n j) as [E' _]; [done|apply new_range|done|done|done|].
  subst t0. by rewrite new_not_own in H0.
Qed.

Lemma new_word j : 0 <= j < 512 -> w2 !! (n + 8 * j) = Some 0.
Proof.
  intros Hj. unfold w2. rewrite lookup_insert_ne; [by apply Hcl|]. intros E.
  destruct (tr_page _ _ _ _ HT _ _ Ht) as (A1 & _). destruct (entry_inj t i n j) as [E' _]; [done|apply new_range|done|done|done|].
  rewrite E' in Ht. by rewrite new_not_own in Ht.
Qed.

Lemma new_entry j : 0 <= j < 512 -> entry w2 n j = None.
Proof. intros Hj. unfold entry. rewrite new_word by done. cbn. by rewrite fmt_zero. Qed.

Lemma entry_other t0 p0 k : own !! t0 = Some p0 -> 0 <= k < 512 ->
  entry w2 t0 k = if decide (t0 = t /\ k = i) then Some (table_ent n) else entry w t0 k.
Proof.
  intros H0 Hk. unfold entry. rewrite (word_other t0 p0) by done. destruct (decide _); [|done]. cbn [mbind option_bind].
  by rewrite (proj2 new_ent).
Qed.

Lemma is_some_w2 a : is_Some (w !! a) -> is_Some (w2 !! a).
Proof. intros Ha. unfold w2. apply lookup_insert_is_Some'. right. by eapply cleared_some. Qed.

Lemma alloc_tree : tree w2 (KernelHeap (start h) (end_ h) (cur h + 4096)) root (<[n := path ++ [i]]> own).
Proof.
  pose proof (tr_pool _ _ _ _ HT) as [HO HBs Hal Hw]. pose proof HO as [H1 H2 H3 H4]. pose proof new_range as (N1 & N2 & N3 & N4).
  pose proof (proj1 new_ent) as Ep.
  split; cbn.
  - rewrite lookup_insert_ne; [apply HT|]. intros E. pose proof (tr_root _ _ _ _ HT) as Hr. rewrite <-E, new_not_own in Hr. done.
  - intros t0 p0 [[<- <-]|[Hne H0]]%lookup_insert_Some.
    + split_and!; [done|lia|done|done|left; unfold n; lia|]. intros j Hj. rewrite new_word by done. by eexists.
    + destruct (tr_page _ _ _ _ HT _ _ H0) as (A1 & A2 & A3 & A4 & A5 & A6). split_and!; [done|done|done|done|lia|].
      intros j Hj. apply is_some_w2, A6, Hj.
  - intros t0 p0 k e [[<- <-]|[Hne H0]]%lookup_insert_Some Hl Hk; [by rewrite new_entry|].
    rewrite (entry_other t0 p0) by done. destruct (decide (t0 = t /\ k = i)) as [[-> ->]|_].
    + intros [= <-]. rewrite Ep, lookup_insert_eq. congruence.
    + intros He. pose proof (tr_child _ _ _ _ HT _ _ _ _ H0 Hl Hk He) as Hc. rewrite lookup_insert_ne; [done|].
      intros E. by rewrite <-E, new_not_own in Hc.
  - split; cbn.
    + split; cbn; lia.
    + done.
    + rewrite Z.add_mod, Hal by lia. done.
    + intros a Ha Ha8. apply is_some_w2. by apply Hw.
Qed.

Lemma alloc_leaf v : leaf w2 root v = leaf w root v.
Proof.
  pose proof (index_range v) as (I1 & I2 & I3). pose proof new_range as (N1 & N2 & N3 & N4).
  pose proof (proj1 new_ent) as Ep.
  unfold leaf. rewrite (entry_other root []) by (done || apply HT).
  destruct (decide (root = t /\ index0 v = i)) as [[Et Ei]|_].
  { rewrite Et, Ei, Hnone. cbn [mbind option_bind]. rewrite Ep, new_entry by done. done. }
  destruct (entry w root (index0 v)) as [e1|] eqn:E1; [|done]. cbn [mbind option_bind].
  pose proof (tr_child _ _ _ _ HT _ _ _ _ (tr_root _ _ _ _ HT) ltac:(cbn; lia) I1 E1) as O1. rewrite (entry_other _ _ _ O1 I2).
  destruct (decide (ent_addr e1 = t /\ index1 v = i)) as [[Et Ei]|_].
  { rewrite Et, Ei, Hnone. cbn [mbind option_bind]. rewrite Ep, new_entry by done. done. }
  destruct (entry w (ent_addr e1) (index1 v)) as [e2|] eqn:E2; [|done]. cbn [mbind option_bind].
  pose proof (tr_child _ _ _ _ HT _ _ _ _ O1 ltac:(cbn; lia) I2 E2) as O2. rewrite (entry_other _ _ _ O2 I3).
  destruct (decide (ent_addr e2 = t /\ index2 v = i)) as [[E _]|_]; [|done].
  exfalso. rewrite E, Ht in O2. injection O2 as ->. cbn in Hpath. lia.
Qed.
End alloc.

(** What a step keeps of the earlier ones. *)
Record grows (s s' : pgst R) (root : Z) (own own' : gmap Z (list Z)) : Prop := {
  gr_own : own ⊆ own';
  gr_entry : forall t p k e, own !! t = Some p -> 0 <= k < 512 -> entry (words s) t k = Some e -> entry (words s') t k = Some e;
  gr_leaf : forall v, leaf (words s') root v = leaf (words s) root v;
  gr_cur : cur (heap s) <= cur (heap s') <= cur (heap s) + 4096;
  gr_end : end_ (heap s') = end_ (heap s);
  gr_start : start (heap s') = start (heap s);
  gr_regs : regs s' = regs s }.

Lemma next_table_ok s root own t path i a :
  tree (words s) (heap s) root own -> own !! t = Some path -> (length path <= 1)%nat -> 0 <= i < 512 ->
  kphys B a = t + 8 * i -> is_Some (entry (words s) t i) \/ cur (heap s) + 4096 < end_ (heap s) ->
  exists s' own' e, next_table B check a s = Ret (ent_addr e) s' /\ tree (words s') (heap s') root own' /\
    own' !! ent_addr e = Some (path ++ [i]) /\ entry (words s') t i = Some e /\ grows s s' root own own' /\
    (is_Some (entry (words s) t i) -> s' = s).
Proof.
  intros HT Ht Hp Hi Ha Hroom. destruct (tr_page _ _ _ _ HT _ _ Ht) as (_ & _ & _ & _ & _ & Hm). destruct (Hm i Hi) as [x Hx].
  unfold next_table. mred. rewrite (ld_word_eq _ _ x) by (by rewrite Ha). mred. destruct (ent_present x) eqn:Ex; cbn [negb].
  - exists s, own, x. assert (entry (words s) t i = Some x) as He by (unfold entry; rewrite Hx; cbn; by rewrite Ex).
    split_and!; [done|done|by apply (tr_child _ _ _ _ HT t)|done| |done]. split; [done..|lia|done|done|done].
  - assert (entry (words s) t i = None) as Hnone by (unfold entry; rewrite Hx; cbn; by rewrite Ex).
    destruct Hroom as [[? ?]|Hroom]; [congruence|]. pose proof (tr_pool _ _ _ _ HT) as HP.
    destruct (new_page_eq s HP Hroom) as (w1 & E & Hcl). rewrite E. mred.
    assert (KERN_STRAIGHT_TO_PHY B (cur (heap s)) = cur (heap s) - B) as ->.
    { destruct HP as [HO [? ?] _ _]. pose proof (heap_top _ HO). destruct HO. unfold KERN_STRAIGHT_TO_PHY. apply wrap_small. lia. }
    rewrite st_word_eq by (cbn; rewrite Ha; eapply cleared_some; [exact Hcl|by eexists]).
    assert (ent_addr (table_ent (cur (heap s) - B)) = cur (heap s) - B) as Ep by (by eapply new_ent). set (n := cur (heap s) - B) in *.
    mred. rewrite Ha. eexists _, (<[n := path ++ [i]]> own), (table_ent n). rewrite Ep. split; [done|]. cbn [words heap regs].
    assert (forall t0 p0 k, own !! t0 = Some p0 -> 0 <= k < 512 -> entry (<[t + 8 * i := table_ent n]> w1) t0 k =
      if decide (t0 = t /\ k = i) then Some (table_ent n) else entry (words s) t0 k) as Hent by (intros; eapply entry_other; eassumption).
    split; [eapply alloc_tree; eassumption|]. split; [by rewrite lookup_insert_eq|].
    split; [rewrite (Hent t path i) by done; by rewrite decide_True|].
    split; [|intros [? ?]; congruence]. split; cbn [words heap regs cur end_ start]; try done; [|intros t0 p0 k e H0 Hk He| |lia].
    + apply insert_subseteq. eapply new_not_own; eassumption.
    + rewrite (Hent t0 p0 k) by done. destruct (decide (t0 = t /\ k = i)) as [[-> ->]|_]; [congruence|done].
    + intros v. eapply alloc_leaf; eassumption.
Qed.

(** ** The mapping *)

(** The tables down to the entry of [v] exist. *)
Definition has_dir w (root v : Z) : Prop :=
  exists e1, entry w root (index0 v) = Some e1 /\ is_Some (entry w (ent_addr e1) (index1 v)).

Lemma leaf_set w h root own vaddr e1 e2 val :
  tree w h root own -> entry w root (index0 vaddr) = Some e1 ->
  entry w (ent_addr e1) (index1 vaddr) = Some e2 -> ent_present val = true ->
  let w' := <[ent_addr e2 + 8 * index2 vaddr := val]> w in
  tree w' h root own /\ has_dir w' root vaddr /\
  forall v, leaf w' root v = if decide (same_page v vaddr) then Some val else leaf w root v.
Proof.
  intros HT E1 E2 Hval w'. pose proof (index_range vaddr) as (I1 & I2 & I3). set (t := ent_addr e2) in *.
  pose proof (tr_child _ _ _ _ HT _ _ _ _ (tr_root _ _ _ _ HT) ltac:(cbn; lia) I1 E1) as O1. cbn [app] in O1.
  pose proof (tr_child _ _ _ _ HT _ _ _ _ O1 ltac:(cbn; lia) I2 E2) as O2. cbn [app] in O2. fold t in O2.
  assert (forall t0 p0 k, own !! t0 = Some p0 -> 0 <= k < 512 ->
    entry w' t0 k = if decide (t0 = t /\ k = index2 vaddr) then Some val else entry w t0 k) as Hent.
  { intros t0 p0 k H0 Hk. destruct (tr_page _ _ _ _ HT _ _ H0) as (A0 & _). destruct (tr_page _ _ _ _ HT _ _ O2) as (A1 & _).
    unfold entry, w'. destruct (decide (t0 = t /\ k = index2 vaddr)) as [[-> ->]|Hne].
    - rewrite lookup_insert_eq. cbn [mbind option_bind]. by rewrite Hval.
    - rewrite lookup_insert_ne; [done|]. intros E. apply Hne. by apply entry_inj. }
  split_and!.
  - split; try apply HT.
    + intros t0 p0 H0. destruct (tr_page _ _ _ _ HT _ _ H0) as (A1 & A2 & A3 & A4 & A5 & A6). split_and!; try done.
      intros j Hj. apply lookup_insert_is_Some'. right. by apply A6.
    + intros t0 p0 k e H0 Hl Hk. rewrite (Hent t0 p0) by done. destruct (decide _) as [[-> _]|_]; [|by apply HT].
      rewrite O2 in H0. injection H0 as <-. cbn in Hl. lia.
    + destruct (tr_pool _ _ _ _ HT) as [P1 P2 P3 P4]. split; try done. intros a Ha Ha8. apply lookup_insert_is_Some'. right. by apply P4.
  - exists e1. rewrite (Hent _ _ _ (tr_root _ _ _ _ HT) I1), (Hent _ _ _ O1 I2), !decide_False; [split; [done|by eexists]| |].
    + intros [E _]. rewrite E, O2 in O1. done.
    + intros [E _]. pose proof (tr_root _ _ _ _ HT) as Hr. rewrite E, O2 in Hr. done.
  - intros v. pose proof (index_range v) as (J1 & J2 & J3). unfold leaf, same_page.
    rewrite (Hent root [] _ (tr_root _ _ _ _ HT) J1). rewrite decide_False.
    2: { intros [E _]. pose proof (tr_root _ _ _ _ HT) as Hr. rewrite E, O2 in Hr. done. }
    destruct (entry w root (index0 v)) as [f1|] eqn:F1; cbn [mbind option_bind].
    2: { rewrite decide_False; [done|]. intros [E _]. rewrite E in F1. congruence. }
    pose proof (tr_child _ _ _ _ HT _ _ _ _ (tr_root _ _ _ _ HT) ltac:(cbn; lia) J1 F1) as Q1. cbn [app] in Q1.
    rewrite (Hent _ _ _ Q1 J2). rewrite decide_False by (intros [E _]; rewrite E, O2 in Q1; done).
    destruct (entry w (ent_addr f1) (index1 v)) as [f2|] eqn:F2; cbn [mbind option_bind].
    2: { rewrite decide_False; [done|]. intros (Ea & Eb & _). rewrite Ea in F1. rewrite Eb in F2. congruence. }
    pose proof (tr_child _ _ _ _ HT _ _ _ _ Q1 ltac:(cbn; lia) J2 F2) as Q2. cbn [app] in Q2. rewrite (Hent _ _ _ Q2 J3).
    destruct (decide (ent_addr f2 = t /\ index2 v = index2 vaddr)) as [[Ea Eb]|Hne].
    + rewrite Ea, O2 in Q2. injection Q2 as Ec Ed. by rewrite decide_True.
    + rewrite decide_False; [done|]. intros (Ea & Eb & Ec). apply Hne. split; [|done].
      rewrite Ea, E1 in F1. injection F1 as <-. rewrite Eb, E2 in F2. by injection F2 as <-.
Qed.

(** Mapping a page that is not mapped. *)
Lemma map_page_ok s root own tbl vaddr val :
  tree (words s) (heap s) root own -> (forall i, 0 <= i < 512 -> kphys B (tbl + 8 * i) = root + 8 * i) -> ent_present val = true -> leaf (words s) root vaddr = None ->
  has_dir (words s) root vaddr \/ cur (heap s) + 8192 < end_ (heap s) ->
  exists s' own', map_page B check tbl vaddr val s = Ret tt s' /\
    tree (words s') (heap s') root own' /\
    (forall v, leaf (words s') root v = if decide (same_page v vaddr) then Some val else leaf (words s) root v) /\
    has_dir (words s') root vaddr /\ cur (heap s') <= cur (heap s) + 8192 /\
    (has_dir (words s) root vaddr -> cur (heap s') = cur (heap s)) /\ end_ (heap s') = end_ (heap s) /\ regs s' = regs s.
Proof.
  intros HT Hroot Hval Hleaf Hroom. pose proof (index_range vaddr) as (I1 & I2 & I3). unfold map_page. mred.
  destruct (next_table_ok s root own root [] (index0 vaddr) (tbl + 8 * index0 vaddr)) as (s1 & own1 & e1 & R1 & HT1 & O1 & E1 & G1 & K1);
    [done|apply HT|cbn; lia|done|by apply Hroot|destruct Hroom as [(? & -> & _)|]; [left; by eexists|right; lia]|].
  rewrite R1. mred. destruct (tr_page _ _ _ _ HT1 _ _ O1) as (_ & A2 & A3 & _). destruct G1 as [G1o G1e G1l G1c G1d G1s G1r].
  destruct (next_table_ok s1 root own1 (ent_addr e1) [index0 vaddr] (index1 vaddr) (PHY_TO_KERN_STRAIGHT B (ent_addr e1) + 8 * index1 vaddr))
    as (s2 & own2 & e2 & R2 & HT2 & O2 & E2 & G2 & K2); [done|done|cbn; lia|done|by apply kphys_straight| |].
  { destruct Hroom as [(x & Ex & Hx)|]; [left|right; lia]. rewrite K1 in E1 |- * by (rewrite Ex; by eexists).
    rewrite Ex in E1. injection E1 as ->. done. }
  rewrite R2. mred. destruct G2 as [G2o G2e G2l G2c G2d G2s G2r].
  assert (entry (words s2) root (index0 vaddr) = Some e1) as E1' by (eapply G2e; [apply (tr_root _ _ _ _ HT1)|done|done]).
  destruct (tr_page _ _ _ _ HT2 _ _ O2) as (_ & B2 & B3 & _ & _ & Hm). destruct (Hm _ I3) as [x Hx].
  rewrite (ld_word_eq _ _ x) by (by rewrite kphys_straight). mred.
  assert (ent_present x = false) as ->.
  { destruct (ent_present x) eqn:Ex; [|done]. rewrite <-G1l, <-G2l in Hleaf. unfold leaf in Hleaf. rewrite E1' in Hleaf. cbn [mbind option_bind] in Hleaf.
    rewrite E2 in Hleaf. cbn [mbind option_bind] in Hleaf. unfold entry in Hleaf. rewrite Hx in Hleaf.
    cbn [mbind option_bind] in Hleaf. by rewrite Ex in Hleaf. }
  cbn [negb]. mred. rewrite st_word_eq by (rewrite kphys_straight by done; by eexists). rewrite kphys_straight by done.
  destruct (leaf_set (words s2) (heap s2) root own2 vaddr e1 e2 val HT2 E1' E2 Hval) as (HT3 & HD & HL).
  eexists _, own2. split; [done|]. cbn [words heap regs]. split_and!; [exact HT3| |exact HD|lia| |congruence|congruence].
  - intros v. rewrite HL. by rewrite G2l, G1l.
  - intros (y & Ey & Hy). rewrite K1 in E1, K2 by (rewrite Ey; by eexists). rewrite Ey in E1. injection E1 as ->. by rewrite K2.
Qed.

Lemma has_dir_same w root v v' : index0 v = index0 v' -> index1 v = index1 v' -> has_dir w root v -> has_dir w root v'.
Proof. intros E1 E2 (e & H1 & H2). exists e. by rewrite <-E1, <-E2. Qed.

(** The step [k] maps the page [va + k * 2 MiB] with the entry [val k]. *)
Lemma map_pages_ok (f : Z -> P R unit) root tbl va val :
  (forall i, 0 <= i < 512 -> kphys B (tbl + 8 * i) = root + 8 * i) ->
  0 <= va -> va mod KERN_STRAIGHT_PAGE_SIZE = 0 ->
  (forall k, ent_present (val k) = true) ->
  forall n k s own, 0 <= k ->
  (forall j s s', k <= j < k + Z.of_nat n -> map_page B check tbl (va + j * KERN_STRAIGHT_PAGE_SIZE) (val j) s = Ret tt s' -> f j s = Ret tt s') ->
  tree (words s) (heap s) root own ->
  index2 va + k + Z.of_nat n <= 512 ->
  (forall v, in_pages v (va + k * KERN_STRAIGHT_PAGE_SIZE) (Z.of_nat n) -> leaf (words s) root v = None) ->
  has_dir (words s) root va \/ cur (heap s) + 8192 < end_ (heap s) ->
  exists s' own', forM (seqZ k (Z.of_nat n)) f s = Ret tt s' /\ tree (words s') (heap s') root own' /\
    (forall v, leaf (words s') root v = if decide (in_pages v (va + k * KERN_STRAIGHT_PAGE_SIZE) (Z.of_nat n))
       then Some (val (index2 v - index2 va)) else leaf (words s) root v) /\
    (has_dir (words s) root va \/ n <> O -> has_dir (words s') root va) /\
    cur (heap s') <= cur (heap s) + 8192 /\ (has_dir (words s) root va -> cur (heap s') = cur (heap s)) /\
    end_ (heap s') = end_ (heap s) /\ regs s' = regs s.
Proof.
  intros Hroot Hva Hal Hval. induction n as [|n IH]; intros k s own Hk Hf HT Hpd Hnone Hroom.
  { rewrite seqZ_nil by lia. exists s, own. split_and!; [done|done| |intros [?|?]; done|lia|done|done|done].
    intros v. rewrite decide_False; [done|]. unfold in_pages. lia. }
  rewrite seqZ_cons by lia. replace (Z.pred (Z.of_nat (S n))) with (Z.of_nat n) by lia. cbn [forM]. mred.
  pose proof (index_page va k Hva Hal Hk ltac:(lia)) as (N1 & N2 & N3).
  destruct (map_page_ok s root own tbl (va + k * KERN_STRAIGHT_PAGE_SIZE) (val k) HT Hroot (Hval k)) as (s1 & own1 & R1 & HT1 & L1 & D1 & C1 & K1 & E1 & F1);
    [apply Hnone; unfold in_pages; lia|destruct Hroom; [left; by eapply has_dir_same|by right]|].
  rewrite (Hf k s s1) by (done || lia). assert (has_dir (words s1) root va) as D1' by (by eapply has_dir_same).
  destruct (IH (Z.succ k) s1 own1) as (s2 & own2 & R2 & HT2 & L2 & D2 & C2 & K2 & E2 & F2).
  - lia.
  - intros j s' s'' Hj. apply Hf. lia.
  - done.
  - lia.
  - intros v Hv. destruct (decide (n = O)) as [->|Hn]; [unfold in_pages in Hv; lia|].
    pose proof (index_page va (Z.succ k) Hva Hal ltac:(lia) ltac:(lia)) as (M1 & M2 & M3).
    rewrite L1, decide_False by (unfold same_page, in_pages in *; lia). apply Hnone. unfold in_pages in *. lia.
  - by left.
  - exists s2, own2. split_and!; [done|done| |intros _; by apply D2; left|rewrite K2 by done; lia| |congruence|congruence].
    2: { intros D. rewrite K2 by done. apply K1. by eapply has_dir_same. }
    intros v. rewrite L2, L1. destruct (decide (n = O)) as [->|Hn].
    + rewrite decide_False by (unfold in_pages; lia). destruct (decide (same_page v _)) as [Hs|Hs].
      * rewrite decide_True by (unfold same_page, in_pages in *; lia). do 2 f_equal. unfold same_page in Hs. lia.
      * rewrite decide_False; [done|]. unfold same_page, in_pages in *. lia.
    + pose proof (index_page va (Z.succ k) Hva Hal ltac:(lia) ltac:(lia)) as (M1 & M2 & M3).
      destruct (decide (in_pages v _ (Z.of_nat n))) as [Hp|Hp]; unfold in_pages in Hp.
      * rewrite decide_True by (unfold in_pages; lia). done.
      * destruct (decide (same_page v _)) as [Hq|Hq]; unfold same_page in Hq.
        -- rewrite decide_True by (unfold in_pages; lia). do 2 f_equal. lia.
        -- rewrite decide_False; [done|]. unfold in_pages. lia.
Qed.
End proofs.

(** Memory of zeros. *)
Definition zeros (a n : Z) : gmap Z Z := list_to_map ((fun i => (a + 8 * i, 0)) <$> seqZ 0 n).

Lemma zeros_some a n i : 0 <= i < n -> is_Some (zeros a n !! (a + 8 * i)).
Proof.
  intros Hi. apply elem_of_dom. unfold zeros. rewrite dom_list_to_map_L, elem_of_list_to_set.
  apply list_elem_of_fmap. exists (a + 8 * i, 0). split; [done|]. apply list_elem_of_fmap. exists i. by rewrite elem_of_seqZ_iff.
Qed.

Lemma zeros_pool a n : 0 < a -> a mod 4096 = 0 -> 0 < n -> a + 8 * n <= 2 ^ 48 -> pool 0 (zeros a n) (KernelHeap a (a + 8 * n) a).
Proof.
  intros Ha Hm Hn Ht. split; cbn [start cur end_].
  - split; cbn; try lia. change HEAP_SBRK_FAILED with (2 ^ 64 - 1). lia.
  - lia.
  - done.
  - intros b Hb Hb8. replace b with (a + 8 * ((b - a) / 8)) by (Z.to_euclidean_division_equations; lia).
    apply zeros_some. Z.to_euclidean_division_equations; lia.
Qed.
