(* ===== verification/X64Kmap.v ===== *)
(** hal/x64/kmap.c and include/hal-x64/pgtbl.h: the page tables of the kernel on
    x64.

    The format of the entries is an instance of [PtFormat]; the tables are built
    by the operations of the source, which the lemmas relate to those of
    PageTable.v.  The configuration gives the base of the straight map, 0 or the
    upper half.  Of the processor's registers CR3 is modelled.  The messages
    printed are left out. *)
From S2P Require Import Prelude Heap PageTable.

Definition KERN_HIGH_IO_AREA : Z := 0xFE000000.
Definition KERN_HIGH_MEMORY_BASE : Z := 0x100000000.
Definition KERN_PHY_MIN : Z := 0.
Definition KERN_PHY_MAX : Z := 0x40000000.
Definition KERN_HIGH_IO_BASE : Z := 0xFFFFFFFFFC000000.
Definition KERN_HIGH_IO_SIZE : Z := KERN_HIGH_MEMORY_BASE - KERN_HIGH_IO_AREA.

Definition PAGE_PRESENT : Z := Z.shiftl 1 0.
Definition PAGE_WRITABLE : Z := Z.shiftl 1 1.
Definition PAGE_NONCACHABLE : Z := Z.shiftl 1 4.
Definition PAGE_2MB : Z := Z.shiftl 1 7.

Definition PD_INDEX (vaddr : Z) : Z := Z.land (Z.shiftr vaddr 21) 0x1ff.
Definition PDPT_INDEX (vaddr : Z) : Z := Z.land (Z.shiftr vaddr 30) 0x1ff.
Definition PML4_INDEX (vaddr : Z) : Z := Z.land (Z.shiftr vaddr 39) 0x1ff.

Definition present (ent : Z) : bool := ctrue (Z.land ent PAGE_PRESENT).
Definition get_ent_addr (ent : Z) : Z := PAGE_START ent.

#[global] Instance x64_format : PtFormat :=
  {| ent_present := present; ent_addr := get_ent_addr; table_ent := fun addr => Z.lor addr PAGE_PRESENT |}.

#[global] Instance x64_format_ok : PtFormatOk.
Proof.
  split; [|done]. intros n Hn Hm. cbn. split; [by apply PAGE_START_lor; [lia|..]|].
  unfold present, PAGE_PRESENT. rewrite land_pow2_testbit by lia. rewrite Z.lor_spec. change (Z.testbit (Z.shiftl 1 0) 0) with true. apply orb_true_r.
Qed.

(** The register is CR3. *)
Definition X (A : Type) : Type := P Z A.

Section kmap.
Variable KERN_VMA_BASE : Z.
Let ld_word (a : Z) : X Z := ld_word KERN_VMA_BASE a.
Let st_word (a v : Z) : X unit := st_word KERN_VMA_BASE a v.

(** [tbl->entries[i]] *)
Definition get_pml4_ent (tbl vaddr : Z) : X Z := ld_word (tbl + 8 * PML4_INDEX vaddr).
Definition get_pdp_ent (tbl vaddr : Z) : X Z := ld_word (tbl + 8 * PDPT_INDEX vaddr).
Definition get_pdir_ent (tbl vaddr : Z) : X Z := ld_word (tbl + 8 * PD_INDEX vaddr).
Definition set_pml4_ent (tbl vaddr val : Z) : X unit := st_word (tbl + 8 * PML4_INDEX vaddr) val.
Definition set_pdp_ent (tbl vaddr val : Z) : X unit := st_word (tbl + 8 * PDPT_INDEX vaddr) val.
Definition set_pdir_ent (tbl vaddr val : Z) : X unit := st_word (tbl + 8 * PD_INDEX vaddr) val.

(** [new_page = kheap_sbrk(PAGE_SIZE); kassert( new_page != HEAP_SBRK_FAILED );
    kassert( new_page != NULL ); memset(new_page, 0, PAGE_SIZE);] and its physical
    address. *)
Definition new_table : X Z :=
  s ← get; let '(p, h) := kheap_sbrk (heap s) PAGE_SIZE in put (PgSt (words s) h (regs s));;
  kassert (negb (p =? HEAP_SBRK_FAILED));;
  kassert (negb (p =? NULL));;
  clear_page KERN_VMA_BASE p;;
  mret (KERN_STRAIGHT_TO_PHY KERN_VMA_BASE p).

(** The table an entry points to, made when there is none: its physical address. *)
Definition next_table (get_ent : X Z) (set_ent : Z -> X unit) : X Z :=
  ent ← get_ent;
  if negb (present ent) then
    addr ← new_table;
    set_ent (Z.lor addr PAGE_PRESENT);;
    _ ← get_ent;
    mret addr
  else mret (get_ent_addr ent).

Definition map_kernel_page (paddr vaddr page_attr kpgtbl : Z) : X unit :=
  pdp_addr ← next_table (get_pml4_ent kpgtbl vaddr) (set_pml4_ent kpgtbl vaddr);
  let pdp_addr := PHY_TO_KERN_STRAIGHT KERN_VMA_BASE pdp_addr in
  pdir_addr ← next_table (get_pdp_ent pdp_addr vaddr) (set_pdp_ent pdp_addr vaddr);
  let pdir_addr := PHY_TO_KERN_STRAIGHT KERN_VMA_BASE pdir_addr in
  ent3 ← get_pdir_ent pdir_addr vaddr;
  kassert (negb (present ent3));;
  let paddr := KERN_STRAIGHT_PAGE_START paddr in
  let page_attr := Z.land page_attr (PAGE_SIZE - 1) in
  set_pdir_ent pdir_addr vaddr (Z.lor (Z.lor (Z.lor paddr page_attr) PAGE_PRESENT) PAGE_2MB).

(** [for( ...; cur_page <= last_addr; cur_page += 2MB, cur_vaddr += 2MB)] *)
Fixpoint map_range (rounds : nat) (cur_page cur_vaddr last_addr attr kpgtbl : Z) : X unit :=
  if cur_page <=? last_addr then
    match rounds with
    | O => stopM OutOfFuel
    | S rounds =>
        map_kernel_page cur_page cur_vaddr attr kpgtbl;;
        map_range rounds (u64 (cur_page + KERN_STRAIGHT_PAGE_SIZE)) (u64 (cur_vaddr + KERN_STRAIGHT_PAGE_SIZE)) last_addr attr kpgtbl
    end
  else mret tt.

Definition range_rounds (first last : Z) : nat := Z.to_nat ((last - first) / KERN_STRAIGHT_PAGE_SIZE + 1).

Definition map_high_io_area (kpgtbl : Z) : X unit :=
  let last_addr := KERN_STRAIGHT_PAGE_END (KERN_HIGH_IO_AREA + KERN_HIGH_IO_SIZE) in
  let first := KERN_STRAIGHT_PAGE_START KERN_HIGH_IO_AREA in
  map_range (range_rounds first last_addr) first KERN_HIGH_IO_BASE last_addr (Z.lor PAGE_WRITABLE PAGE_NONCACHABLE) kpgtbl.

(** [load_pgtbl] *)
Definition load_pgtbl (a : Z) : X unit := s ← get; put (PgSt (words s) (heap s) a).

(** [kmap_pml4]: the page the boot data reserves for the table. *)
Definition x64_map_kernel (kmap_pml4 mem_max : Z) : X unit :=
  clear_page KERN_VMA_BASE kmap_pml4;;
  let start_addr := KERN_STRAIGHT_PAGE_START KERN_PHY_MIN in
  let phy_last_mem := u64 ((if mem_max <? KERN_PHY_MAX then mem_max else KERN_PHY_MAX) - 1) in
  let last_addr := KERN_STRAIGHT_PAGE_END phy_last_mem in
  map_range (range_rounds start_addr last_addr) start_addr KERN_VMA_BASE last_addr PAGE_WRITABLE kmap_pml4;;
  map_high_io_area kmap_pml4;;
  load_pgtbl kmap_pml4.
End kmap.

(** ** The operations of the source are those of PageTable.v *)

Definition page_check (p : Z) : bool := negb (p =? NULL).

Lemma x64_next_table B a s r s' :
  PageTable.next_table B page_check a s = Ret r s' -> next_table B (ld_word B a) (st_word B a) s = Ret r s'.
Proof.
  unfold next_table, PageTable.next_table, new_table, new_page, page_check, st_word, ld_word. mred. cbn [ent_present x64_format].
  destruct (words s !! kphys B a) as [e|]; mred; [|done]. destruct (negb (present e)); [|done].
  destruct (kheap_sbrk (heap s) PAGE_SIZE) as [p h]. destruct (negb (p =? HEAP_SBRK_FAILED)); mred; [|done].
  destruct (negb (p =? NULL)); mred; [|done]. destruct (clear_page B p _) as [[] s2| |]; [|done|done]. mred.
  destruct (words s2 !! kphys B a) as [x|] eqn:Ex; mred; [|done]. cbn [words]. by rewrite lookup_insert_eq.
Qed.

(** The entry [map_kernel_page] stores. *)
Definition page_entry (paddr attr : Z) : Z :=
  Z.lor (Z.lor (Z.lor (KERN_STRAIGHT_PAGE_START paddr) (Z.land attr (PAGE_SIZE - 1))) PAGE_PRESENT) PAGE_2MB.

Lemma page_entry_present paddr attr : present (page_entry paddr attr) = true.
Proof.
  unfold present, page_entry. change PAGE_PRESENT with (Z.shiftl 1 0). rewrite land_pow2_testbit by lia.
  rewrite !Z.lor_spec. change (Z.testbit (Z.shiftl 1 0) 0) with true. by rewrite orb_true_r.
Qed.

Lemma x64_map_page B paddr vaddr attr tbl s s' :
  map_page B page_check tbl vaddr (page_entry paddr attr) s = Ret tt s' -> map_kernel_page B paddr vaddr attr tbl s = Ret tt s'.
Proof.
  unfold map_kernel_page, map_page. mred.
  change (next_table B (get_pml4_ent B tbl vaddr) (set_pml4_ent B tbl vaddr) s) with
    (next_table B (ld_word B (tbl + 8 * index0 vaddr)) (st_word B (tbl + 8 * index0 vaddr)) s).
  destruct (PageTable.next_table _ _ _ _) as [p1 s1| |] eqn:E1; [|done|done]. rewrite (x64_next_table _ _ _ _ _ E1). mred.
  change (next_table B (get_pdp_ent B (PHY_TO_KERN_STRAIGHT B p1) vaddr) (set_pdp_ent B (PHY_TO_KERN_STRAIGHT B p1) vaddr) s1) with
    (next_table B (ld_word B (PHY_TO_KERN_STRAIGHT B p1 + 8 * index1 vaddr)) (st_word B (PHY_TO_KERN_STRAIGHT B p1 + 8 * index1 vaddr)) s1).
  destruct (PageTable.next_table _ _ _ s1) as [p2 s2| |] eqn:E2; [|done|done]. by rewrite (x64_next_table _ _ _ _ _ E2).
Qed.

(** The loop of [n] pages. *)
Lemma map_range_forM B attr tbl last n : last + 1 < 2 ^ 64 -> forall pa va k s s',
  0 <= pa -> 0 <= va -> last = pa + Z.of_nat n * KERN_STRAIGHT_PAGE_SIZE - 1 ->
  va + Z.of_nat n * KERN_STRAIGHT_PAGE_SIZE <= 2 ^ 64 ->
  forM (seqZ k (Z.of_nat n)) (fun j => map_kernel_page B (pa + (j - k) * KERN_STRAIGHT_PAGE_SIZE) (va + (j - k) * KERN_STRAIGHT_PAGE_SIZE) attr tbl) s = Ret tt s' ->
  map_range B n pa va last attr tbl s = Ret tt s'.
Proof.
  unfold KERN_STRAIGHT_PAGE_SIZE. intros H64. induction n as [|n IH]; intros pa va k s s' Hpa Hva Hl Hv; cbn [map_range].
  { rewrite (proj2 (Z.leb_gt _ _)) by lia. by rewrite seqZ_nil by lia. }
  rewrite (proj2 (Z.leb_le _ _)) by lia. rewrite seqZ_cons by lia.
  replace (Z.pred (Z.of_nat (S n))) with (Z.of_nat n) by lia. cbn [forM]. rewrite Z.sub_diag, !Z.mul_0_l, !Z.add_0_r. mred.
  destruct (map_kernel_page B pa va attr tbl s) as [[] s1| |]; [|done|done].
  unfold u64, KERN_STRAIGHT_PAGE_SIZE. rewrite (wrap_small _ (pa + _)) by lia. destruct n as [|n].
  { rewrite seqZ_nil by lia. cbn [map_range forM]. by rewrite (proj2 (Z.leb_gt _ _)) by lia. }
  rewrite (wrap_small _ (va + _)) by lia. intros E. apply (IH _ _ (Z.succ k)); try lia. rewrite <-E.
  apply (f_equal (fun f : X unit => f s1)), forM_ext. intros j _. f_equal; lia.
Qed.

(** The number of 2 MiB pages of the straight map. *)
Definition straight_pages (mem_max : Z) : Z := (Z.min mem_max KERN_PHY_MAX - 1) / KERN_STRAIGHT_PAGE_SIZE + 1.

Lemma straight_last mem_max : 0 < mem_max ->
  KERN_STRAIGHT_PAGE_END (u64 ((if mem_max <? KERN_PHY_MAX then mem_max else KERN_PHY_MAX) - 1)) =
    straight_pages mem_max * KERN_STRAIGHT_PAGE_SIZE - 1 /\ 1 <= straight_pages mem_max <= 512.
Proof.
  intros Hm. unfold straight_pages, KERN_PHY_MAX, KERN_STRAIGHT_PAGE_SIZE.
  assert ((if mem_max <? 0x40000000 then mem_max else 0x40000000) = Z.min mem_max 0x40000000) as ->
    by (destruct (Z.ltb_spec mem_max 0x40000000); lia).
  set (m := Z.min mem_max 0x40000000). assert (1 <= m <= 0x40000000) as Hmr by lia.
  unfold KERN_STRAIGHT_PAGE_END, KERN_STRAIGHT_PAGE_NEXT, KERN_STRAIGHT_PAGE_SIZE, u64. rewrite (wrap_small _ (m - 1)) by lia.
  rewrite (PAGE_2M_eq (m - 1)) by lia. split; [|Z.to_euclidean_division_equations; lia].
  rewrite (wrap_small _ (_ + _)), wrap_small; Z.to_euclidean_division_equations; lia.
Qed.

(** ** The map of the kernel *)

Section proofs.
Variable B : Z. (* [KERN_VMA_BASE] *)
Hypothesis HB : 0 <= B /\ B mod 4096 = 0.

(** The root is reached by its physical address. *)
Definition root_ok (pml4 : Z) : Prop := pml4 + 4096 <= B \/ B = 0.

Lemma kphys_root pml4 i : root_ok pml4 -> 0 <= i < 512 -> kphys B (pml4 + 8 * i) = pml4 + 8 * i.
Proof. intros [H|H] Hi; unfold kphys; destruct (Z.leb_spec B (pml4 + 8 * i)); lia. Qed.

(** The state in which the boot code calls [x64_map_kernel]: the page of the
    root lies outside the free part of the heap, which has room for the tables
    of the two areas. *)
Record boot_ok (s : pgst Z) (pml4 : Z) : Prop := {
  bo_base : B mod 0x40000000 = 0 /\ B + 0x40000000 <= 2 ^ 64;
  bo_other : (index0 B, index1 B) <> (index0 KERN_HIGH_IO_BASE, index1 KERN_HIGH_IO_BASE);
  bo_root : root_ok pml4;
  bo_page : pml4 mod 4096 = 0 /\ 0 <= pml4 /\ pml4 + B + 4096 <= 2 ^ 64 /\ pml4 + 4096 <= 2 ^ 48;
  bo_disj : pml4 + B + 4096 <= cur (heap s) \/ end_ (heap s) <= pml4 + B;
  bo_mem : forall i, 0 <= i < 512 -> is_Some (words s !! (pml4 + 8 * i));
  bo_pool : pool B (words s) (heap s);
  bo_room : cur (heap s) + 4 * 4096 < end_ (heap s) }.

Lemma x64_check p : p mod 4096 = 0 -> p <> 0 -> page_check p = true.
Proof. intros _ Hp. unfold page_check, NULL. by rewrite (proj2 (Z.eqb_neq _ _)). Qed.

Lemma clear_root s pml4 : boot_ok s pml4 ->
  exists w, clear_page B pml4 s = Ret tt (PgSt w (heap s) (regs s)) /\ tree B w (heap s) pml4 {[pml4 := []]} /\
    forall v, leaf w pml4 v = None.
Proof.
  intros [? ? Hr (P1 & P2 & P3 & P4) Hd Hm HP ?].
  destruct (clear_page_eq B HB s pml4 pml4) as (w & E & Hcl);
    [Z.to_euclidean_division_equations; lia|intros i Hi; by apply kphys_root|exact Hm|].
  exists w. split; [exact E|]. by eapply tree_init.
Qed.

(** A range of pages under the root. *)
Lemma map_range_leaves s pml4 own n pa va attr :
  root_ok pml4 -> tree B (words s) (heap s) pml4 own ->
  0 <= pa -> pa + Z.of_nat n * KERN_STRAIGHT_PAGE_SIZE < 2 ^ 64 ->
  0 <= va -> va mod KERN_STRAIGHT_PAGE_SIZE = 0 -> va + Z.of_nat n * KERN_STRAIGHT_PAGE_SIZE <= 2 ^ 64 -> index2 va + Z.of_nat n <= 512 ->
  (forall v, in_pages v va (Z.of_nat n) -> leaf (words s) pml4 v = None) ->
  cur (heap s) + 8192 < end_ (heap s) ->
  exists s' own', map_range B n pa va (pa + Z.of_nat n * KERN_STRAIGHT_PAGE_SIZE - 1) attr pml4 s = Ret tt s' /\
    tree B (words s') (heap s') pml4 own' /\
    (forall v, leaf (words s') pml4 v = if decide (in_pages v va (Z.of_nat n))
       then Some (page_entry (pa + (index2 v - index2 va) * KERN_STRAIGHT_PAGE_SIZE) attr) else leaf (words s) pml4 v) /\
    cur (heap s') <= cur (heap s) + 8192 /\ end_ (heap s') = end_ (heap s).
Proof.
  intros Hr HT Hpa H64 Hva Hal Hv Hpd Hnone Hroom.
  destruct (map_pages_ok B HB page_check x64_check (fun j => map_kernel_page B (pa + (j - 0) * KERN_STRAIGHT_PAGE_SIZE) (va + (j - 0) * KERN_STRAIGHT_PAGE_SIZE) attr pml4)
    pml4 pml4 va (fun k => page_entry (pa + k * KERN_STRAIGHT_PAGE_SIZE) attr)) with (n := n) (k := 0) (s := s) (own := own)
    as (s' & own' & E & HT' & HL & _ & HC & _ & HE & _).
  - intros i Hi. by apply kphys_root.
  - done.
  - done.
  - intros k. apply page_entry_present.
  - done.
  - intros j s0 s0' _ E. rewrite !Z.sub_0_r. by apply x64_map_page.
  - done.
  - lia.
  - by rewrite Z.mul_0_l, Z.add_0_r.
  - by right.
  - rewrite Z.mul_0_l, Z.add_0_r in HL. exists s', own'. split; [|done]. eapply map_range_forM; [lia..|exact E].
Qed.

Lemma map_kernel_leaves s pml4 mem_max : boot_ok s pml4 -> 0 < mem_max ->
  exists s', x64_map_kernel B pml4 mem_max s = Ret tt s' /\ regs s' = pml4 /\ cur (heap s') <= cur (heap s) + 4 * 4096 /\
    forall v, leaf (words s') pml4 v =
      if decide (in_pages v KERN_HIGH_IO_BASE 17) then
        Some (page_entry (KERN_HIGH_IO_AREA + (index2 v - index2 KERN_HIGH_IO_BASE) * KERN_STRAIGHT_PAGE_SIZE) (Z.lor PAGE_WRITABLE PAGE_NONCACHABLE))
      else if decide (in_pages v B (straight_pages mem_max)) then Some (page_entry ((index2 v - index2 B) * KERN_STRAIGHT_PAGE_SIZE) PAGE_WRITABLE)
      else None.
Proof.
  intros HO Hm. destruct (clear_root s pml4 HO) as (w & E & HT & HL). pose proof HO as [[B1 B2] ? Hr ? ? ? ? Hroom].
  destruct (straight_last mem_max Hm) as [El Hn]. set (n := straight_pages mem_max) in *.
  assert (index2 B = 0) as HP by (destruct (index_eq B) as (_ & _ & ->); Z.to_euclidean_division_equations; lia).
  unfold x64_map_kernel. mred. rewrite E. mred. change (KERN_STRAIGHT_PAGE_START KERN_PHY_MIN) with 0. rewrite El.
  replace (range_rounds 0 (n * KERN_STRAIGHT_PAGE_SIZE - 1)) with (Z.to_nat n).
  2: { unfold range_rounds, KERN_STRAIGHT_PAGE_SIZE. f_equal. Z.to_euclidean_division_equations; lia. }
  destruct (map_range_leaves (PgSt w (heap s) (regs s)) pml4 {[pml4 := []]} (Z.to_nat n) 0 B PAGE_WRITABLE)
    as (s1 & own1 & R1 & HT1 & L1 & C1 & E1);
    [done|done|lia|unfold KERN_STRAIGHT_PAGE_SIZE in *; lia|lia|unfold KERN_STRAIGHT_PAGE_SIZE; Z.to_euclidean_division_equations; lia
    |unfold KERN_STRAIGHT_PAGE_SIZE in *; lia|lia|intros; apply HL|cbn; lia|].
  rewrite Z.add_0_l, Z2Nat.id in R1 by lia.
  rewrite R1. mred. cbn in C1, E1. unfold map_high_io_area.
  change (KERN_STRAIGHT_PAGE_END (KERN_HIGH_IO_AREA + KERN_HIGH_IO_SIZE)) with 0x1001FFFFF.
  change (KERN_STRAIGHT_PAGE_START KERN_HIGH_IO_AREA) with KERN_HIGH_IO_AREA.
  change (range_rounds KERN_HIGH_IO_AREA 0x1001FFFFF) with 17%nat.
  destruct (map_range_leaves s1 pml4 own1 17 KERN_HIGH_IO_AREA KERN_HIGH_IO_BASE (Z.lor PAGE_WRITABLE PAGE_NONCACHABLE))
    as (s2 & own2 & R2 & HT2 & L2 & C2 & E2); [done..| |lia|].
  { intros v Hv. rewrite L1, decide_False; [apply HL|]. intros Hv'. apply (bo_other _ _ HO). unfold in_pages in Hv, Hv'.
    f_equal; lia. }
  change (KERN_HIGH_IO_AREA + Z.of_nat 17 * KERN_STRAIGHT_PAGE_SIZE - 1) with 0x1001FFFFF in R2. rewrite R2. mred. eexists. split; [done|]. cbn [words heap regs]. split_and!; [done|lia|].
  intros v. rewrite L2. destruct (decide (in_pages v KERN_HIGH_IO_BASE (Z.of_nat 17))); [by rewrite decide_True|].
  rewrite decide_False by done. rewrite L1, Z2Nat.id by lia. rewrite HL. by destruct (decide _).
Qed.
End proofs.

(** The physical address of [vaddr]: the base in the entry and the offset. *)
Definition translate (w : gmap Z Z) (pml4 vaddr : Z) : option Z :=
  e ← leaf w pml4 vaddr; Some (KERN_STRAIGHT_PAGE_START e + vaddr mod KERN_STRAIGHT_PAGE_SIZE).

(** The base in the entry of a page and its attributes. *)
Lemma page_entry_base p attr : 0 <= p < 2 ^ 64 -> p mod 0x200000 = 0 -> KERN_STRAIGHT_PAGE_START (page_entry p attr) = p.
Proof.
  intros Hp Hm. assert (KERN_STRAIGHT_PAGE_START p = p) as Ep by (rewrite PAGE_2M_eq by done; lia).
  unfold page_entry. rewrite Ep. unfold KERN_STRAIGHT_PAGE_START at 1. rewrite !Z.land_lor_distr_l, <-Z.land_assoc.
  change (Z.land p (u64 (Z.lnot (KERN_STRAIGHT_PAGE_SIZE - 1)))) with (KERN_STRAIGHT_PAGE_START p). rewrite Ep.
  change (Z.land (PAGE_SIZE - 1) (u64 (Z.lnot (KERN_STRAIGHT_PAGE_SIZE - 1)))) with 0. rewrite Z.land_0_r.
  change (Z.land PAGE_PRESENT (u64 (Z.lnot (KERN_STRAIGHT_PAGE_SIZE - 1)))) with 0.
  change (Z.land PAGE_2MB (u64 (Z.lnot (KERN_STRAIGHT_PAGE_SIZE - 1)))) with 0. by rewrite !Z.lor_0_r.
Qed.

Definition page_flags (w : gmap Z Z) (pml4 vaddr : Z) : option Z :=
  e ← leaf w pml4 vaddr; Some (Z.land e (PAGE_SIZE - 1)).

Lemma page_entry_flags p attr :
  0 <= p < 2 ^ 64 -> p mod 0x200000 = 0 ->
  Z.land (page_entry p attr) (PAGE_SIZE - 1) = Z.lor (Z.land attr (PAGE_SIZE - 1)) (Z.lor PAGE_PRESENT PAGE_2MB).
Proof.
  intros Hp Hm. unfold page_entry. rewrite (PAGE_2M_eq p Hp), Hm, Z.sub_0_r, !Z.land_lor_distr_l, <-Z.land_assoc, Z.land_diag.
  change (Z.land p (PAGE_SIZE - 1)) with (Z.land p (Z.ones 12)). rewrite Z.land_ones by lia.
  change (2 ^ 12) with 4096. assert (p mod 4096 = 0) as -> by (Z.to_euclidean_division_equations; lia).
  rewrite Z.lor_0_l, <-Z.lor_assoc. done.
Qed.

(** C36.  The kernel's page tables on x64: [x64_map_kernel] returns with a root
    loaded under which the processor translates every address of the straight
    map to the physical address at the same offset, for all memory up to 1 GiB
    rounded up to 2 MiB, and every address of the I/O area to the area below
    4 GiB; the entries of the 2 MiB pages have the flags for present and writable,
    and for not cached in the I/O area; nothing else is mapped, and at most four
    pages of the heap are used.  The I/O area ends one page of 2 MiB above
    4 GiB: 17 pages, where its size is 16. *)
Theorem x64_map_kernel_correct B s pml4 mem_max :
  0 <= B /\ B mod 4096 = 0 -> boot_ok B s pml4 -> 0 < mem_max ->
  exists s', x64_map_kernel B pml4 mem_max s = Ret tt s' /\ regs s' = pml4 /\ cur (heap s') <= cur (heap s) + 4 * 4096 /\
    (forall a, 0 <= a < straight_pages mem_max * KERN_STRAIGHT_PAGE_SIZE ->
       translate (words s') pml4 (B + a) = Some a /\ page_flags (words s') pml4 (B + a) = Some 0x83) /\
    (forall a, 0 <= a < 17 * KERN_STRAIGHT_PAGE_SIZE ->
       translate (words s') pml4 (KERN_HIGH_IO_BASE + a) = Some (KERN_HIGH_IO_AREA + a) /\
       page_flags (words s') pml4 (KERN_HIGH_IO_BASE + a) = Some 0x93) /\
    (forall v, is_Some (translate (words s') pml4 v) ->
       in_pages v B (straight_pages mem_max) \/ in_pages v KERN_HIGH_IO_BASE 17) /\
    KERN_HIGH_IO_SIZE = 16 * KERN_STRAIGHT_PAGE_SIZE.
Proof.
  intros HB HO Hm. destruct (map_kernel_leaves B HB s pml4 mem_max HO Hm) as (s' & E & Ec & Eh & HL).
  exists s'. do 3 (split; [done|]). pose proof (bo_base _ _ _ HO) as [B1 B2]. destruct (straight_last mem_max Hm) as [_ Hn].
  assert (index2 B = 0) as HP by (destruct (index_eq B) as (_ & _ & ->); Z.to_euclidean_division_equations; lia).
  unfold KERN_STRAIGHT_PAGE_SIZE in *. split_and!; [| | |done].
  - intros a Ha. assert (0 <= a / 0x200000 < straight_pages mem_max) as Hq by (Z.to_euclidean_division_equations; lia).
    destruct (index_add B a ltac:(lia) ltac:(unfold KERN_STRAIGHT_PAGE_SIZE; Z.to_euclidean_division_equations; lia) ltac:(lia)) as (I1 & I2 & I3);
      [unfold KERN_STRAIGHT_PAGE_SIZE; lia|]. unfold KERN_STRAIGHT_PAGE_SIZE in I3.
    unfold translate, page_flags. rewrite HL, decide_False, decide_True; [|unfold in_pages; lia|].
    2: { intros Hp. apply (bo_other _ _ _ HO). unfold in_pages in Hp. f_equal; lia. }
    cbn [mbind option_bind]. rewrite I3, HP. replace (0 + a / 0x200000 - 0) with (a / 0x200000) by lia.
    rewrite page_entry_base, page_entry_flags by (lia || apply Z.mod_mul; lia). split; [|done]. f_equal.
    unfold KERN_STRAIGHT_PAGE_SIZE. assert (B mod 0x200000 = 0) as HB2 by (Z.to_euclidean_division_equations; lia).
    rewrite <-Z.add_mod_idemp_l, HB2, Z.add_0_l by lia. rewrite (Z.div_mod a 0x200000) at 3 by lia. lia.
  - intros a Ha. assert (0 <= a / 0x200000 < 17) as Hq by (Z.to_euclidean_division_equations; lia).
    destruct (index_add KERN_HIGH_IO_BASE a ltac:(done) ltac:(done) ltac:(lia)) as (I1 & I2 & I3);
      [change (index2 KERN_HIGH_IO_BASE) with 480; unfold KERN_STRAIGHT_PAGE_SIZE; lia|]. unfold KERN_STRAIGHT_PAGE_SIZE in I3.
    unfold translate, page_flags. rewrite HL, decide_True by (unfold in_pages; lia).
    cbn [mbind option_bind]. rewrite I3. replace (index2 KERN_HIGH_IO_BASE + a / 0x200000 - index2 KERN_HIGH_IO_BASE) with (a / 0x200000) by lia.
    rewrite page_entry_base, page_entry_flags.
    2-5: unfold KERN_HIGH_IO_AREA; first [lia|change 0xFE000000 with (0x7F0 * 0x200000); rewrite <-Z.mul_add_distr_r; apply Z.mod_mul; lia].
    split; [|done]. f_equal. unfold KERN_STRAIGHT_PAGE_SIZE, KERN_HIGH_IO_BASE.
    change 0xFFFFFFFFFC000000 with (0x7FFFFFFFFE0 * 0x200000). rewrite (Z.add_comm _ a), Z.mod_add by lia.
    rewrite (Z.div_mod a 0x200000) at 3 by lia. lia.
  - intros v [x Hx]. unfold translate in Hx. rewrite HL in Hx. destruct (decide _); [by right|].
    destruct (decide _); [by left|]. done.
Qed.

Lemma x64_map_kernel_correct_witness :
  exists s', x64_map_kernel 0 0x1000 0x500000 (PgSt (zeros 0x1000 4096) (KernelHeap 0x2000 0x8000 0x2000) 0) = Ret tt s' /\
    translate (words s') 0x1000 0x412345 = Some 0x412345.
Proof.
  destruct (x64_map_kernel_correct 0 (PgSt (zeros 0x1000 4096) (KernelHeap 0x2000 0x8000 0x2000) 0) 0x1000 0x500000) as (s' & E & _ & _ & H & _).
  - done.
  - split; cbn [heap start cur end_ words].
    + done.
    + done.
    + by right.
    + done.
    + left. done.
    + intros i Hi. apply (zeros_some 0x1000 4096 i). lia.
    + split; cbn [start cur end_]; [by split|done|done|].
      intros a Ha Ha8. replace a with (0x1000 + 8 * ((a - 0x1000) / 8)) by (Z.to_euclidean_division_equations; lia).
      apply zeros_some. Z.to_euclidean_division_equations; lia.
    + done.
  - done.
  - exists s'. split; [exact E|]. clear E. apply (H 0x412345). split; [lia|reflexivity].
Defined.
