(* ===== verification/A64Kmap.v ===== *)
(** hal/aarch64/kmap.c and include/hal-aarch64/pgtbl.h: the page tables of the
    kernel on AArch64.

    The format of the entries is an instance of [PtFormat]; the tables are built
    by the operations of the source, which the lemmas relate to those of
    PageTable.v.  The configuration gives the base of the straight map, whether
    the kernel lives in the upper half, and the size of memory in MiB.  The
    system registers the code writes are a record. *)
From S2P Require Import Prelude Heap PageTable.

Definition AARCH64_PGTBL_BLK_ENT : Z := 0x1.
Definition AARCH64_PGTBL_TBL_ENT : Z := 0x3.
Definition AARCH64_PGTBL_TYPE_MASK : Z := 0x3.
Definition AARCH64_PGTBL_PRESENT (ent : Z) : bool := ctrue (Z.land ent AARCH64_PGTBL_TYPE_MASK).
Definition AARCH64_PGTBL_BLK_LOW_ATTR_AP_RW_EL0 : Z := 0x40.
Definition AARCH64_PGTBL_BLK_LOW_ATTR_SH_IS : Z := 0x300.
Definition AARCH64_PGTBL_BLK_LOW_ATTR_AF_ENABLE : Z := 0x400.
Definition AARCH64_PGTBL_BLK_ATTR_MASK : Z := Z.lor (Z.shiftl 0x3ff 2) (Z.shiftl 0xfff 51).
Definition AARCH64_MAIR_DEV_nGnRnE_ATTR : Z := 0.
Definition AARCH64_MAIR_MEM_ATTR : Z := 3.
Definition AARCH64_PGTBL_MMIO_ATTR : Z :=
  Z.lor (Z.lor AARCH64_PGTBL_BLK_LOW_ATTR_AF_ENABLE AARCH64_PGTBL_BLK_LOW_ATTR_SH_IS) (Z.shiftl AARCH64_MAIR_DEV_nGnRnE_ATTR 2).
Definition AARCH64_PGTBL_MEM_ATTR : Z :=
  Z.lor (Z.lor AARCH64_PGTBL_BLK_LOW_ATTR_AF_ENABLE AARCH64_PGTBL_BLK_LOW_ATTR_SH_IS) (Z.shiftl AARCH64_MAIR_MEM_ATTR 2).

(** The values of the registers, evaluated from include/hal-aarch64/aarch64.h. *)
Definition AARCH64_MAIR_VAL : Z :=
  Z.lor (Z.lor (Z.lor (Z.shiftl 0x00 0) (Z.shiftl 0x04 8)) (Z.shiftl (Z.lor 0x40 0x04) 16)) (Z.shiftl (Z.lor 0xf0 0x0f) 24).
Definition AARCH64_TCR_VAL (upperhalf : bool) : Z :=
  foldr Z.lor 0 [Z.shiftl 0 37; Z.shiftl 0 32; Z.shiftl 2 30; Z.shiftl 3 28; Z.shiftl 1 26; Z.shiftl 1 24;
    Z.shiftl (if upperhalf then 0 else 1) 23; Z.shiftl 0 22; Z.shiftl 0x11 16; Z.shiftl 0 14; Z.shiftl 3 12;
    Z.shiftl 1 10; Z.shiftl 1 8; Z.shiftl 0 7; Z.shiftl 0x11 0].
Definition AARCH64_SCTLR_VAL : Z :=
  foldr Z.lor 0 [0xc00800; Z.shiftl 1 12; Z.shiftl 1 4; Z.shiftl 1 3; Z.shiftl 1 2; Z.shiftl 1 1; Z.shiftl 1 0].

Definition QEMU_VIRT_FLASH_BASE : Z := 0.
Definition QEMU_VIRT_FLASH_SIZE : Z := 0x8000000.
Definition QEMU_VIRT_CPUPERIPHS_BASE : Z := 0x8000000.
Definition QEMU_VIRT_MEM_BASE : Z := 0x40000000.

Definition LEVEL0_INDEX (vaddr : Z) : Z := Z.land (Z.shiftr vaddr 39) 0x1ff.
Definition LEVEL1_INDEX (vaddr : Z) : Z := Z.land (Z.shiftr vaddr 30) 0x1ff.
Definition LEVEL2_INDEX (vaddr : Z) : Z := Z.land (Z.shiftr vaddr 21) 0x1ff.
Definition PAGE_ALIGNED (addr : Z) : bool := Z.land addr (PAGE_SIZE - 1) =? 0.

(** [get_level0_ent_addr] and [get_level1_ent_addr] *)
Definition get_level0_ent_addr (ent : Z) : Z := Z.land (PAGE_START ent) (u64 (Z.lnot AARCH64_PGTBL_BLK_ATTR_MASK)).

(** The entry for a table. *)
Definition tbl_ent (addr : Z) : Z := Z.lor (Z.lor addr AARCH64_PGTBL_BLK_LOW_ATTR_AP_RW_EL0) AARCH64_PGTBL_TBL_ENT.

Record sysregs : Type := SysRegs { ttbr0_el1 : Z; ttbr1_el1 : Z; mair_el1 : Z; tcr_el1 : Z; sctlr_el1 : Z }.
Definition A (B : Type) : Type := P sysregs B.

Definition set_regs (f : sysregs -> sysregs) : A unit := s ← get; put (PgSt (words s) (heap s) (f (regs s))).
Definition load_pgtbl (a : Z) : A unit := set_regs (fun r => SysRegs a (ttbr1_el1 r) (mair_el1 r) (tcr_el1 r) (sctlr_el1 r)).
Definition load_kpgtbl (a : Z) : A unit := set_regs (fun r => SysRegs (ttbr0_el1 r) a (mair_el1 r) (tcr_el1 r) (sctlr_el1 r)).
Definition set_memory_attribute (v : Z) : A unit := set_regs (fun r => SysRegs (ttbr0_el1 r) (ttbr1_el1 r) v (tcr_el1 r) (sctlr_el1 r)).
Definition set_translation_control_register (v : Z) : A unit :=
  set_regs (fun r => SysRegs (ttbr0_el1 r) (ttbr1_el1 r) (mair_el1 r) v (sctlr_el1 r)).
Definition get_system_control_register : A Z := s ← get; mret (sctlr_el1 (regs s)).
Definition set_system_control_register (v : Z) : A unit :=
  set_regs (fun r => SysRegs (ttbr0_el1 r) (ttbr1_el1 r) (mair_el1 r) (tcr_el1 r) v).

Section kmap.
Variable KERN_VMA_BASE : Z.

(** [tbl->entries[i]] *)
Definition get_level0_ent (tbl vaddr : Z) : A Z := ld_word KERN_VMA_BASE (tbl + 8 * LEVEL0_INDEX vaddr).
Definition get_level1_ent (tbl vaddr : Z) : A Z := ld_word KERN_VMA_BASE (tbl + 8 * LEVEL1_INDEX vaddr).
Definition get_level2_ent (tbl vaddr : Z) : A Z := ld_word KERN_VMA_BASE (tbl + 8 * LEVEL2_INDEX vaddr).
Definition set_level0_ent (tbl vaddr val : Z) : A unit := st_word KERN_VMA_BASE (tbl + 8 * LEVEL0_INDEX vaddr) val.
Definition set_level1_ent (tbl vaddr val : Z) : A unit := st_word KERN_VMA_BASE (tbl + 8 * LEVEL1_INDEX vaddr) val.
Definition set_level2_ent (tbl vaddr val : Z) : A unit := st_word KERN_VMA_BASE (tbl + 8 * LEVEL2_INDEX vaddr) val.

(** A page of the heap for a table, cleared: [kpgtbl], and [upgtbl]. *)
Definition root_table : A Z :=
  s ← get; let '(p, h) := kheap_sbrk (heap s) PAGE_SIZE in put (PgSt (words s) h (regs s));;
  kassert (negb (p =? HEAP_SBRK_FAILED));;
  kassert (PAGE_ALIGNED p);;
  clear_page KERN_VMA_BASE p;;
  mret p.

(** The same for the tables below, with one more assertion. *)
Definition new_table : A Z :=
  s ← get; let '(p, h) := kheap_sbrk (heap s) PAGE_SIZE in put (PgSt (words s) h (regs s));;
  kassert (negb (p =? HEAP_SBRK_FAILED));;
  kassert (PAGE_ALIGNED p);;
  kassert (negb (p =? NULL));;
  clear_page KERN_VMA_BASE p;;
  mret p.

(** The table an entry points to, made when there is none: its physical address. *)
Definition next_table (get_ent : A Z) (set_ent : Z -> A unit) : A Z :=
  ent ← get_ent;
  if negb (AARCH64_PGTBL_PRESENT ent) then
    p ← new_table;
    let addr := KERN_STRAIGHT_TO_PHY KERN_VMA_BASE p in
    set_ent (tbl_ent addr);;
    mret addr
  else mret (get_level0_ent_addr ent).

Definition map_kernel_page (paddr vaddr page_attr kpgtbl : Z) : A unit :=
  let vaddr := KERN_STRAIGHT_TO_PHY KERN_VMA_BASE vaddr in
  lvl1addr ← next_table (get_level0_ent kpgtbl vaddr) (set_level0_ent kpgtbl vaddr);
  let lvl1tbl := PHY_TO_KERN_STRAIGHT KERN_VMA_BASE lvl1addr in
  lvl2addr ← next_table (get_level1_ent lvl1tbl vaddr) (set_level1_ent lvl1tbl vaddr);
  let lvl2tbl := PHY_TO_KERN_STRAIGHT KERN_VMA_BASE lvl2addr in
  ent2 ← get_level2_ent lvl2tbl vaddr;
  kassert (negb (AARCH64_PGTBL_PRESENT ent2));;
  let paddr := KERN_STRAIGHT_PAGE_START paddr in
  let page_attr := Z.land page_attr AARCH64_PGTBL_BLK_ATTR_MASK in
  set_level2_ent lvl2tbl vaddr (Z.lor (Z.lor paddr page_attr) AARCH64_PGTBL_BLK_ENT).

(** [for (paddr = ...; limit > paddr; paddr += 2MB)] *)
Fixpoint map_area (rounds : nat) (paddr limit attr kpgtbl : Z) : A unit :=
  if paddr <? limit then
    match rounds with
    | O => stopM OutOfFuel
    | S rounds =>
        map_kernel_page paddr (PHY_TO_KERN_STRAIGHT KERN_VMA_BASE paddr) attr kpgtbl;;
        map_area rounds (u64 (paddr + KERN_STRAIGHT_PAGE_SIZE)) limit attr kpgtbl
    end
  else mret tt.

Definition area_rounds (base limit : Z) : nat := Z.to_nat ((limit - base + KERN_STRAIGHT_PAGE_SIZE - 1) / KERN_STRAIGHT_PAGE_SIZE).

Definition aarch64_setup_mmu (upperhalf : bool) (memory_size_mb : Z) : A unit :=
  kpgtbl ← root_table;
  upgtbl ← (if upperhalf then root_table else mret NULL);
  let area base limit attr := map_area (area_rounds base limit) base limit attr kpgtbl in
  area QEMU_VIRT_FLASH_BASE (QEMU_VIRT_FLASH_BASE + QEMU_VIRT_FLASH_SIZE) AARCH64_PGTBL_MMIO_ATTR;;
  area QEMU_VIRT_CPUPERIPHS_BASE (QEMU_VIRT_MEM_BASE - 1) AARCH64_PGTBL_MMIO_ATTR;;
  area QEMU_VIRT_MEM_BASE (QEMU_VIRT_MEM_BASE + memory_size_mb * 1024 * 1024) AARCH64_PGTBL_MEM_ATTR;;
  (if upperhalf then
     load_kpgtbl (KERN_STRAIGHT_TO_PHY KERN_VMA_BASE kpgtbl);;
     load_pgtbl (KERN_STRAIGHT_TO_PHY KERN_VMA_BASE upgtbl)
   else load_pgtbl (KERN_STRAIGHT_TO_PHY KERN_VMA_BASE kpgtbl));;
  set_memory_attribute AARCH64_MAIR_VAL;;
  set_translation_control_register (AARCH64_TCR_VAL upperhalf);;
  reg ← get_system_control_register;
  set_system_control_register (Z.lor reg AARCH64_SCTLR_VAL).
End kmap.

(** ** The operations of the source are those of PageTable.v *)

#[global] Instance a64_format : PtFormat :=
  {| ent_present := AARCH64_PGTBL_PRESENT; ent_addr := get_level0_ent_addr; table_ent := tbl_ent |}.

#[global] Instance a64_format_ok : PtFormatOk.
Proof.
  split; [|done]. intros n Hn Hm. cbn.
  assert (tbl_ent n = Z.lor n 0x43) as -> by (unfold tbl_ent; by rewrite <-Z.lor_assoc). split.
  - unfold get_level0_ent_addr. rewrite PAGE_START_lor by lia. apply Z.bits_inj'. intros i Hi. rewrite Z.land_spec.
    destruct (decide (i < 48)) as [Hlt|Hge]; [|by rewrite (testbit_above n 48 i) by lia].
    destruct (decide (i < 12)) as [Hl|Hl].
    + assert (Z.testbit n i = false) as ->; [|done]. rewrite (Z.div_mod n 4096) by lia. rewrite Hm, Z.add_0_r.
      change 4096 with (2 ^ 12). rewrite Z.mul_comm. apply Z.mul_pow2_bits_low. lia.
    + assert (Z.testbit (u64 (Z.lnot AARCH64_PGTBL_BLK_ATTR_MASK)) i = true) as ->; [|apply andb_true_r].
      unfold u64. rewrite wrap_testbit, Z.lnot_spec by lia.
      unfold AARCH64_PGTBL_BLK_ATTR_MASK. rewrite Z.lor_spec, !Z.shiftl_spec by lia.
      rewrite (testbit_above 0x3ff 10) by lia. by rewrite Z.testbit_neg_r by lia.
  - rewrite page_lor by lia. unfold AARCH64_PGTBL_PRESENT, AARCH64_PGTBL_TYPE_MASK. change 3 with (Z.ones 2). rewrite Z.land_ones by lia.
    change (2 ^ 2) with 4. assert ((n + 0x43) mod 4 = 3) as ->; [Z.to_euclidean_division_equations; lia|done].
Qed.

Definition page_check (p : Z) : bool := PAGE_ALIGNED p && negb (p =? NULL).

Lemma page_aligned p : p mod 4096 = 0 -> PAGE_ALIGNED p = true.
Proof.
  intros Hp. unfold PAGE_ALIGNED. change (PAGE_SIZE - 1) with (Z.ones 12). rewrite Z.land_ones by lia.
  change (2 ^ 12) with 4096. by rewrite Hp.
Qed.

Lemma a64_check p : p mod 4096 = 0 -> p <> 0 -> page_check p = true.
Proof. intros Hp Hn. unfold page_check, NULL. rewrite page_aligned, (proj2 (Z.eqb_neq _ _)) by done. done. Qed.

Lemma a64_root_table B s p s' : new_page B PAGE_ALIGNED s = Ret p s' -> root_table B s = Ret p s'.
Proof. done. Qed.

Lemma a64_next_table B a s r s' :
  PageTable.next_table B page_check a s = Ret r s' -> next_table B (ld_word B a) (st_word B a) s = Ret r s'.
Proof.
  unfold next_table, PageTable.next_table, new_table, new_page, page_check, ld_word. mred. cbn [ent_present a64_format].
  destruct (words s !! kphys B a) as [e|]; mred; [|done]. destruct (negb (AARCH64_PGTBL_PRESENT e)); [|done].
  destruct (kheap_sbrk (heap s) PAGE_SIZE) as [p h]. destruct (negb (p =? HEAP_SBRK_FAILED)); mred; [|done].
  destruct (PAGE_ALIGNED p); mred; [|done]. destruct (negb (p =? NULL)); mred; [|done]. done.
Qed.

(** The entry [map_kernel_page] stores. *)
Definition page_entry (paddr attr : Z) : Z :=
  Z.lor (Z.lor (KERN_STRAIGHT_PAGE_START paddr) (Z.land attr AARCH64_PGTBL_BLK_ATTR_MASK)) AARCH64_PGTBL_BLK_ENT.

Lemma a64_page_entry_present paddr attr : AARCH64_PGTBL_PRESENT (page_entry paddr attr) = true.
Proof.
  unfold AARCH64_PGTBL_PRESENT, page_entry, ctrue. apply negb_true_iff, Z.eqb_neq. intros E.
  apply (f_equal (fun z => Z.testbit z 0)) in E. rewrite Z.land_spec, !Z.lor_spec in E.
  change (Z.testbit AARCH64_PGTBL_BLK_ENT 0) with true in E. by rewrite orb_true_r in E.
Qed.

Lemma a64_map_page B paddr attr tbl s s' :
  0 <= B -> 0 <= paddr -> paddr + B < 2 ^ 64 ->
  map_page B page_check tbl paddr (page_entry paddr attr) s = Ret tt s' ->
  map_kernel_page B paddr (PHY_TO_KERN_STRAIGHT B paddr) attr tbl s = Ret tt s'.
Proof.
  intros HB Hp Hpb. unfold map_kernel_page, map_page. mred.
  assert (KERN_STRAIGHT_TO_PHY B (PHY_TO_KERN_STRAIGHT B paddr) = paddr) as ->.
  { unfold KERN_STRAIGHT_TO_PHY, PHY_TO_KERN_STRAIGHT, u64. rewrite (wrap_small _ (paddr + B)) by lia. rewrite wrap_small; lia. }
  change (next_table B (get_level0_ent B tbl paddr) (set_level0_ent B tbl paddr) s) with
    (next_table B (ld_word B (tbl + 8 * index0 paddr)) (st_word B (tbl + 8 * index0 paddr)) s).
  destruct (PageTable.next_table _ _ _ _) as [p1 s1| |] eqn:E1; [|done|done]. rewrite (a64_next_table _ _ _ _ _ E1). mred.
  change (next_table B (get_level1_ent B (PHY_TO_KERN_STRAIGHT B p1) paddr) (set_level1_ent B (PHY_TO_KERN_STRAIGHT B p1) paddr) s1) with
    (next_table B (ld_word B (PHY_TO_KERN_STRAIGHT B p1 + 8 * index1 paddr)) (st_word B (PHY_TO_KERN_STRAIGHT B p1 + 8 * index1 paddr)) s1).
  destruct (PageTable.next_table _ _ _ s1) as [p2 s2| |] eqn:E2; [|done|done]. by rewrite (a64_next_table _ _ _ _ _ E2).
Qed.

(** The loop of [n] pages: those that start below [limit]. *)
Lemma map_area_forM B attr tbl limit n : forall pa k s s',
  0 <= pa -> pa + Z.of_nat n * 0x200000 < 2 ^ 64 -> (n = O \/ pa + (Z.of_nat n - 1) * 0x200000 < limit) -> limit <= pa + Z.of_nat n * 0x200000 ->
  forM (seqZ k (Z.of_nat n)) (fun j => map_kernel_page B (pa + (j - k) * 0x200000) (PHY_TO_KERN_STRAIGHT B (pa + (j - k) * 0x200000)) attr tbl) s = Ret tt s' ->
  map_area B n pa limit attr tbl s = Ret tt s'.
Proof.
  induction n as [|n IH]; intros pa k s s' Hpa H64 Hin Hout; cbn [map_area].
  { rewrite (proj2 (Z.ltb_ge _ _)) by lia. by rewrite seqZ_nil by lia. }
  rewrite (proj2 (Z.ltb_lt _ _)) by lia. rewrite seqZ_cons by lia.
  replace (Z.pred (Z.of_nat (S n))) with (Z.of_nat n) by lia. cbn [forM]. rewrite Z.sub_diag, !Z.mul_0_l, !Z.add_0_r. mred.
  destruct (map_kernel_page B pa _ attr tbl s) as [[] s1| |]; [|done|done].
  unfold u64, KERN_STRAIGHT_PAGE_SIZE. rewrite (wrap_small _ (pa + _)) by lia.
  intros E. apply (IH _ (Z.succ k)); try lia. rewrite <-E.
  apply (f_equal (fun f : A unit => f s1)), forM_ext. intros j _. by replace (pa + 0x200000 + (j - Z.succ k) * 0x200000) with (pa + (j - k) * 0x200000) by lia.
Qed.

(** ** The map of the kernel *)

Section proofs.
Variable B : Z. (* [KERN_VMA_BASE] *)
Hypothesis HB : 0 <= B /\ B mod 4096 = 0.
Hypothesis HB64 : B + 0x80000000 < 2 ^ 64.

(** The pages of an area under the root. *)
Lemma map_area_leaves s tbl root own n pa limit attr :
  (forall i, 0 <= i < 512 -> kphys B (tbl + 8 * i) = root + 8 * i) -> tree B (words s) (heap s) root own ->
  0 <= pa -> pa mod 0x200000 = 0 -> pa + Z.of_nat n * 0x200000 <= 0x80000000 -> index2 pa + Z.of_nat n <= 512 ->
  (n = O \/ pa + (Z.of_nat n - 1) * 0x200000 < limit) -> limit <= pa + Z.of_nat n * 0x200000 ->
  (forall v, in_pages v pa (Z.of_nat n) -> leaf (words s) root v = None) ->
  has_dir (words s) root pa \/ cur (heap s) + 8192 < end_ (heap s) ->
  exists s' own', map_area B n pa limit attr tbl s = Ret tt s' /\ tree B (words s') (heap s') root own' /\
    (forall v, leaf (words s') root v = if decide (in_pages v pa (Z.of_nat n))
       then Some (page_entry (pa + (index2 v - index2 pa) * 0x200000) attr) else leaf (words s) root v) /\
    (n <> O -> has_dir (words s') root pa) /\ cur (heap s') <= cur (heap s) + 8192 /\
    (has_dir (words s) root pa -> cur (heap s') = cur (heap s)) /\ end_ (heap s') = end_ (heap s) /\ regs s' = regs s.
Proof.
  intros Hroot HT Hpa Hal H64 Hpd Hin Hout Hnone Hroom.
  destruct (map_pages_ok B HB page_check a64_check
    (fun j => map_kernel_page B (pa + (j - 0) * 0x200000) (PHY_TO_KERN_STRAIGHT B (pa + (j - 0) * 0x200000)) attr tbl)
    root tbl pa (fun k => page_entry (pa + k * 0x200000) attr)) with (n := n) (k := 0) (s := s) (own := own)
    as (s' & own' & E & HT' & HL & HD & HC & HK & HE & HR).
  - done.
  - done.
  - done.
  - intros k. apply a64_page_entry_present.
  - done.
  - intros j s0 s0' Hj E. rewrite !Z.sub_0_r. by apply a64_map_page; [lia..|].
  - done.
  - lia.
  - by rewrite Z.mul_0_l, Z.add_0_r.
  - done.
  - rewrite Z.mul_0_l, Z.add_0_r in HL. exists s', own'. split; [eapply map_area_forM; [lia..|exact E]|].
    split_and!; try done. intros Hn. apply HD. by right.
Qed.

Lemma root_table_eq s : pool B (words s) (heap s) -> cur (heap s) + 4096 < end_ (heap s) ->
  exists w, root_table B s = Ret (cur (heap s)) (PgSt w (KernelHeap (start (heap s)) (end_ (heap s)) (cur (heap s) + 4096)) (regs s)) /\
    cleared (words s) w (cur (heap s) - B) /\ pool B w (KernelHeap (start (heap s)) (end_ (heap s)) (cur (heap s) + 4096)).
Proof.
  intros HP Hroom. destruct (new_page_eq B HB PAGE_ALIGNED (fun p Hp _ => page_aligned p Hp) s HP Hroom) as (w & E & Hcl).
  exists w. split; [by apply a64_root_table|]. split; [done|]. by eapply pool_next.
Qed.

(** The tables of the kernel and of the user, before anything is mapped. *)
Lemma roots_ok (upperhalf : bool) s : pool B (words s) (heap s) -> cur (heap s) + 6 * 4096 < end_ (heap s) ->
  let root := cur (heap s) - B in
  exists u s1, (kpgtbl ← root_table B; upgtbl ← (if upperhalf then root_table B else mret NULL); mret (kpgtbl, upgtbl)) s = Ret (cur (heap s), u) s1 /\
    tree B (words s1) (heap s1) root {[root := []]} /\ (forall v, leaf (words s1) root v = None) /\
    cur (heap s1) <= cur (heap s) + 2 * 4096 /\ end_ (heap s1) = end_ (heap s) /\ regs s1 = regs s.
Proof.
  intros HP Hroom root. destruct (root_table_eq s HP ltac:(lia)) as (w & E & Hcl & HP1).
  pose proof HP as [HO [Hb Hb'] Hal _]. pose proof (heap_top _ HO). pose proof HO as [H1 H2 H3 _].
  assert (root mod 4096 = 0) as Hr by (unfold root; rewrite Zminus_mod, Hal, (proj2 HB); done).
  mred. rewrite E. mred. destruct upperhalf.
  - destruct (root_table_eq (PgSt w (KernelHeap (start (heap s)) (end_ (heap s)) (cur (heap s) + 4096)) (regs s)) HP1 ltac:(cbn; lia)) as (w2 & E2 & Hcl2 & HP2).
    rewrite E2. mred. eexists _, _. split; [done|]. cbn [words heap regs start end_ cur] in *.
    destruct (tree_init B w2 w2 (KernelHeap (start (heap s)) (end_ (heap s)) (cur (heap s) + 4096 + 4096)) root) as [HT HL]; try done.
    + split; [|done]. intros i Hi. rewrite (proj2 Hcl2); [by apply Hcl|]. intros j Hj Ej.
      destruct (entry_inj root i (cur (heap s) + 4096 - B) j) as [? _]; [done| |done|done|done|unfold root in *; lia].
      unfold root in *. Z.to_euclidean_division_equations; lia.
    + lia.
    + unfold root. lia.
    + unfold root. lia.
    + left. cbn. unfold root. lia.
    + split_and!; [exact HT|exact HL|lia|done|done].
  - eexists _, _. split; [done|]. cbn [words heap regs start end_ cur] in *.
    destruct (tree_init B w w (KernelHeap (start (heap s)) (end_ (heap s)) (cur (heap s) + 4096)) root) as [HT HL]; try done.
    + split; [apply Hcl|done].
    + lia.
    + unfold root. lia.
    + unfold root. lia.
    + left. cbn. unfold root. lia.
    + split_and!; [exact HT|exact HL|lia|done|done].
Qed.

(** The page number of the memory, rounded up. *)
Definition mem_pages (memory_size_mb : Z) : Z := (memory_size_mb * 1024 * 1024 + 0x200000 - 1) / 0x200000.

Lemma setup_leaves (upperhalf : bool) s mb : pool B (words s) (heap s) -> cur (heap s) + 6 * 4096 < end_ (heap s) -> 1 <= mb <= 1024 ->
  let root := cur (heap s) - B in
  exists s' u, aarch64_setup_mmu B upperhalf mb s = Ret tt s' /\
    regs s' = SysRegs (if upperhalf then u else root) (if upperhalf then root else ttbr1_el1 (regs s))
      AARCH64_MAIR_VAL (AARCH64_TCR_VAL upperhalf) (Z.lor (sctlr_el1 (regs s)) AARCH64_SCTLR_VAL) /\
    cur (heap s') <= cur (heap s) + 6 * 4096 /\
    forall v, leaf (words s') root v =
      if decide (in_pages v 0x40000000 (mem_pages mb)) then Some (page_entry (0x40000000 + index2 v * 0x200000) AARCH64_PGTBL_MEM_ATTR)
      else if decide (in_pages v 0 512) then Some (page_entry (index2 v * 0x200000) AARCH64_PGTBL_MMIO_ATTR) else None.
Proof.
  intros HP Hroom Hmb root. destruct (roots_ok upperhalf s HP Hroom) as (u & s0 & R0 & HT0 & HL0 & C0 & E0 & F0). fold root in HT0, HL0.
  pose proof HP as [HO [Hb Hb'] _ _]. pose proof (heap_top _ HO). pose proof HO as [H1 H2 H3 _].
  assert (forall i, 0 <= i < 512 -> kphys B (cur (heap s) + 8 * i) = root + 8 * i) as Hroot.
  { intros i Hi. unfold kphys, root. rewrite (proj2 (Z.leb_le _ _)) by lia. lia. }
  set (n := Z.to_nat (mem_pages mb)). assert (1 <= mem_pages mb <= 512) as Hn by (unfold mem_pages; Z.to_euclidean_division_equations; lia).
  destruct (map_area_leaves s0 (cur (heap s)) root {[root := []]} 64 0 0x8000000 AARCH64_PGTBL_MMIO_ATTR)
    as (s1 & own1 & R1 & HT1 & HL1 & HD1 & C1 & _ & E1 & F1); [done|done|done|done|done|done|by right|done|intros; apply HL0|right; lia|].
  destruct (map_area_leaves s1 (cur (heap s)) root own1 448 0x8000000 0x3fffffff AARCH64_PGTBL_MMIO_ATTR)
    as (s2 & own2 & R2 & HT2 & HL2 & _ & _ & K2 & E2 & F2); [done|done|done|done|done|done|by right|done| | |].
  { intros v Hv. rewrite HL1, decide_False; [apply HL0|]. intros Hv'. unfold in_pages in Hv, Hv'.
    change (index2 0x8000000) with 64 in Hv. change (index2 0) with 0 in Hv'. lia. }
  { left. by apply HD1. }
  assert (cur (heap s2) = cur (heap s1)) as Ec by (apply K2; by apply HD1).
  destruct (map_area_leaves s2 (cur (heap s)) root own2 n 0x40000000 (0x40000000 + mb * 1024 * 1024) AARCH64_PGTBL_MEM_ATTR)
    as (s3 & own3 & R3 & HT3 & HL3 & _ & C3 & _ & E3 & F3);
    [done|done|lia|done|unfold n; lia|unfold n; change (index2 0x40000000) with 0; lia
    |unfold n, mem_pages in *; Z.to_euclidean_division_equations; lia|unfold n, mem_pages in *; Z.to_euclidean_division_equations; lia| |right; lia|].
  { intros v Hv. rewrite HL2, decide_False, HL1, decide_False; [apply HL0| |]; intros Hv'; unfold in_pages in Hv, Hv';
      change (index1 0x40000000) with 1 in Hv; [change (index1 0) with 0 in Hv'|change (index1 0x8000000) with 0 in Hv']; lia. }
  exists (PgSt (words s3) (heap s3) (SysRegs (if upperhalf then KERN_STRAIGHT_TO_PHY B u else root) (if upperhalf then root else ttbr1_el1 (regs s))
    AARCH64_MAIR_VAL (AARCH64_TCR_VAL upperhalf) (Z.lor (sctlr_el1 (regs s)) AARCH64_SCTLR_VAL))), (KERN_STRAIGHT_TO_PHY B u).
  split; [|split; [done|split; [cbn; lia|]]].
  - assert (KERN_STRAIGHT_TO_PHY B (cur (heap s)) = root) as Er by (apply wrap_small; unfold root; lia).
    assert (area_rounds QEMU_VIRT_MEM_BASE (QEMU_VIRT_MEM_BASE + mb * 1024 * 1024) = n) as En.
    { unfold area_rounds, n, mem_pages, QEMU_VIRT_MEM_BASE, KERN_STRAIGHT_PAGE_SIZE. do 2 f_equal. lia. }
    unfold aarch64_setup_mmu. rewrite En. mred. mred in R0. destruct (root_table B s) as [p s'| |]; [|done|done]. cbn [run_bind] in R0 |- *.
    destruct ((if upperhalf then root_table B else fun s0 => Ret NULL s0) s') as [u' s''| |]; [|done|done]. cbn [run_bind] in R0 |- *. injection R0 as -> -> ->.
    change (map_area B (area_rounds QEMU_VIRT_FLASH_BASE (QEMU_VIRT_FLASH_BASE + QEMU_VIRT_FLASH_SIZE)) QEMU_VIRT_FLASH_BASE
      (QEMU_VIRT_FLASH_BASE + QEMU_VIRT_FLASH_SIZE)) with (map_area B 64 0 0x8000000). rewrite R1. mred.
    change (map_area B (area_rounds QEMU_VIRT_CPUPERIPHS_BASE (QEMU_VIRT_MEM_BASE - 1)) QEMU_VIRT_CPUPERIPHS_BASE (QEMU_VIRT_MEM_BASE - 1))
      with (map_area B 448 0x8000000 0x3fffffff). rewrite R2. mred.
    unfold QEMU_VIRT_MEM_BASE. rewrite R3. mred. rewrite Er. 
    unfold load_kpgtbl, load_pgtbl, set_memory_attribute, set_translation_control_register, get_system_control_register, set_system_control_register, set_regs.
    rewrite F2, F1, F0 in F3. destruct upperhalf; mred; cbn [run_bind regs words heap ttbr0_el1 ttbr1_el1 mair_el1 tcr_el1 sctlr_el1]; by rewrite F3.
  - cbn [words]. intros v. rewrite HL3, HL2, HL1, HL0. unfold n. rewrite Z2Nat.id by lia. change (index2 0x40000000) with 0. rewrite Z.sub_0_r.
    destruct (decide (in_pages v 0x40000000 _)); [done|].
    destruct (decide (in_pages v 0x8000000 _)) as [Hp|Hp]; unfold in_pages in Hp; change (index2 0x8000000) with 64 in Hp |- *;
      change (index0 0x8000000) with 0 in Hp; change (index1 0x8000000) with 0 in Hp.
    + rewrite decide_True by (unfold in_pages; change (index0 0) with 0; change (index1 0) with 0; change (index2 0) with 0; lia).
      do 2 f_equal. lia.
    + destruct (decide (in_pages v 0 (Z.of_nat 64))) as [Hq|Hq]; unfold in_pages in Hq; change (index2 0) with 0 in Hq |- *;
        change (index0 0) with 0 in Hq; change (index1 0) with 0 in Hq.
      * rewrite decide_True by (unfold in_pages; change (index0 0) with 0; change (index1 0) with 0; change (index2 0) with 0; lia).
        do 2 f_equal. lia.
      * rewrite decide_False; [done|]. unfold in_pages. change (index0 0) with 0. change (index1 0) with 0. change (index2 0) with 0. lia.
Qed.
End proofs.

(** The walk of the processor: 47 bits of the address select the entry, whose
    bits 21 to 47 are the base of the block. *)
Definition translate (w : gmap Z Z) (root vaddr : Z) : option Z :=
  e ← leaf w root (vaddr mod 2 ^ 47); Some (Z.land e 0xFFFFFFE00000 + vaddr mod KERN_STRAIGHT_PAGE_SIZE).
Definition page_attr (w : gmap Z Z) (root vaddr : Z) : option Z :=
  e ← leaf w root (vaddr mod 2 ^ 47); Some (Z.land e 0xfff).

(** The type of the memory: the byte of MAIR_EL1 that bits 2 to 4 of the entry select. *)
Definition memory_type (r : sysregs) (w : gmap Z Z) (root vaddr : Z) : option Z :=
  a ← page_attr w root vaddr; Some (Z.land (Z.shiftr (mair_el1 r) (8 * Z.land (Z.shiftr a 2) 7)) 0xff).
(** The field of [n] bits from bit [lo] on. *)
Definition field (x lo n : Z) : Z := Z.land (Z.shiftr x lo) (Z.ones n).

Lemma page_entry_bits p x attr :
  0 <= p < 2 ^ 48 -> p mod 0x200000 = 0 -> 0 <= x < 4096 ->
  Z.lor (Z.land attr AARCH64_PGTBL_BLK_ATTR_MASK) AARCH64_PGTBL_BLK_ENT = x ->
  Z.land (page_entry p attr) 0xFFFFFFE00000 = p /\ Z.land (page_entry p attr) 0xfff = x.
Proof.
  intros Hp Hm Hx E. unfold page_entry. rewrite (PAGE_2M_eq p), Hm, Z.sub_0_r, <-Z.lor_assoc, E by lia. rewrite !Z.land_lor_distr_l. split.
  - assert (Z.land x 0xFFFFFFE00000 = 0) as ->.
    { change 0xFFFFFFE00000 with (Z.shiftl (Z.ones 27) 21). apply Z.bits_inj'. intros i Hi. rewrite Z.land_spec, Z.shiftl_spec, Z.bits_0 by lia.
      destruct (decide (i < 21)); [by rewrite (Z.testbit_neg_r _ (i - 21)), andb_false_r by lia|]. by rewrite (testbit_above x 12 i) by lia. }
    rewrite Z.lor_0_r. assert (p = Z.shiftl (p / 0x200000) 21) as Ep.
    { rewrite Z.shiftl_mul_pow2 by lia. Z.to_euclidean_division_equations; lia. }
    rewrite Ep. change 0xFFFFFFE00000 with (Z.shiftl (Z.ones 27) 21). rewrite <-Z.shiftl_land, Z.land_ones by lia.
    rewrite Z.mod_small; [done|]. Z.to_euclidean_division_equations; lia.
  - change 0xfff with (Z.ones 12). rewrite !Z.land_ones by lia. change (2 ^ 12) with 4096.
    assert (p mod 4096 = 0) as -> by (Z.to_euclidean_division_equations; lia). rewrite Z.lor_0_l. apply Z.mod_small. lia.
Qed.

(** A block of the map is found at the offset in it. *)
Lemma translate_block w root v q attr x :
  0 <= q < 2 ^ 27 -> leaf w root (v mod 2 ^ 47) = Some (page_entry (q * 0x200000) attr) ->
  Z.lor (Z.land attr AARCH64_PGTBL_BLK_ATTR_MASK) AARCH64_PGTBL_BLK_ENT = x -> 0 <= x < 4096 ->
  translate w root v = Some (q * 0x200000 + v mod 0x200000) /\ page_attr w root v = Some x.
Proof.
  intros Hq HL Ex Hx. unfold translate, page_attr. rewrite HL. cbn [mbind option_bind].
  destruct (page_entry_bits (q * 0x200000) x attr) as [-> ->]; [lia|by apply Z.mod_mul|done|done|done].
Qed.

Lemma typed_page (P : Prop) w root v x y (f : Z -> Z) : P /\ page_attr w root v = Some x -> f x = y ->
  (P /\ page_attr w root v = Some x) /\ (a ← page_attr w root v; Some (f a)) = Some y.
Proof. intros [HP E] <-. by rewrite E. Qed.

(** C38.  The kernel's page tables on AArch64: [aarch64_setup_mmu] returns with
    the MMU on and the table loaded in TTBR1 for a kernel in the upper half, in
    TTBR0 otherwise, under which every address of the straight map translates
    to the physical address at the same offset: the first GiB as device memory
    (Device-nGnRnE), the memory above, rounded up to 2 MiB, as normal memory with
    write-back caches; both can be read and written by the kernel only.  Nothing
    else is mapped and at most six pages of the heap are used.  TCR_EL1 selects
    what this walk supposes: tables of 4 KiB and 47 bits of an address on both
    halves, the lower half on, and the upper one just for a kernel there; in
    SCTLR_EL1 the caches and the checks of alignment are on too, and no bit is
    cleared. *)
Theorem aarch64_setup_mmu_correct B upperhalf s mb :
  0 <= B /\ B mod 2 ^ 47 = 0 -> B + 0x80000000 < 2 ^ 64 ->
  pool B (words s) (heap s) -> cur (heap s) + 6 * 4096 < end_ (heap s) -> 1 <= mb <= 1024 ->
  exists s', aarch64_setup_mmu B upperhalf mb s = Ret tt s' /\
    Z.testbit (sctlr_el1 (regs s')) 0 = true /\ cur (heap s') <= cur (heap s) + 6 * 4096 /\
    sctlr_el1 (regs s') = Z.lor (sctlr_el1 (regs s)) 0xc0181f /\ mair_el1 (regs s') = 0xff440400 /\
    (let tcr := tcr_el1 (regs s') in
     tcr = (if upperhalf then 0xb5113511 else 0xb5913511) /\
     field tcr 0 6 = 64 - 47 /\ field tcr 16 6 = 64 - 47 /\ field tcr 14 2 = 0 /\ field tcr 30 2 = 2 /\
     Z.testbit tcr 7 = false /\ Z.testbit tcr 23 = negb upperhalf) /\
    let root := (if upperhalf then ttbr1_el1 else ttbr0_el1) (regs s') in
    (forall a, 0 <= a < 0x40000000 -> translate (words s') root (B + a) = Some a /\ page_attr (words s') root (B + a) = Some 0x701 /\
       memory_type (regs s') (words s') root (B + a) = Some 0x00) /\
    (forall a, 0x40000000 <= a < 0x40000000 + mem_pages mb * 0x200000 ->
       translate (words s') root (B + a) = Some a /\ page_attr (words s') root (B + a) = Some 0x70d /\
       memory_type (regs s') (words s') root (B + a) = Some 0xff) /\
    (forall v, 0 <= v < 2 ^ 64 -> is_Some (translate (words s') root v) -> v mod 2 ^ 47 < 0x40000000 + mem_pages mb * 0x200000).
Proof.
  intros [HB0 HB47] HB64 HP Hroom Hmb. assert (0 <= B /\ B mod 4096 = 0) as HB by (split; [lia|Z.to_euclidean_division_equations; lia]).
  destruct (setup_leaves B HB HB64 upperhalf s mb HP Hroom Hmb) as (s' & u & E & Er & Ec & HL). exists s'. split; [done|].
  rewrite Er. split; [cbn [sctlr_el1]; rewrite Z.lor_spec; apply orb_true_r|]. split; [done|]. split; [done|]. split; [done|].
  split; [by destruct upperhalf|]. unfold memory_type. cbn [mair_el1].
  assert ((if upperhalf then ttbr1_el1 else ttbr0_el1) (SysRegs (if upperhalf then u else cur (heap s) - B) (if upperhalf then cur (heap s) - B else ttbr1_el1 (regs s))
      AARCH64_MAIR_VAL (AARCH64_TCR_VAL upperhalf) (Z.lor (sctlr_el1 (regs s)) AARCH64_SCTLR_VAL)) = cur (heap s) - B) as -> by (by destruct upperhalf).
  set (root := cur (heap s) - B) in *. assert (1 <= mem_pages mb <= 512) as Hn by (unfold mem_pages; Z.to_euclidean_division_equations; lia).
  assert (forall a, 0 <= a < 0x80000000 -> (B + a) mod 2 ^ 47 = a /\ (B + a) mod 0x200000 = a mod 0x200000) as Hmod.
  { intros a Ha. split; rewrite <-Z.add_mod_idemp_l by lia; [rewrite HB47; apply Z.mod_small; lia|].
    assert (B mod 0x200000 = 0) as -> by (Z.to_euclidean_division_equations; lia). done. }
  split; [|split].
  - intros a Ha. destruct (Hmod a ltac:(lia)) as [M1 M2]. destruct (index_add 0 a) as (I0 & I1 & I2); [done|done|lia|
      change (index2 0) with 0; unfold KERN_STRAIGHT_PAGE_SIZE; Z.to_euclidean_division_equations; lia|]. rewrite Z.add_0_l in I0, I1, I2.
    unfold KERN_STRAIGHT_PAGE_SIZE in I2. change (index2 0) with 0 in I2. change (index1 0) with 0 in I1. change (index0 0) with 0 in I0.
    assert (0 <= a / 0x200000 < 512) by (Z.to_euclidean_division_equations; lia).
    replace (Some a) with (Some (a / 0x200000 * 0x200000 + (B + a) mod 0x200000)) by (f_equal; rewrite M2; Z.to_euclidean_division_equations; lia).
    apply and_assoc, typed_page; [|done]. apply translate_block with (attr := AARCH64_PGTBL_MMIO_ATTR); [lia| |done|done]. rewrite M1, HL, decide_False, decide_True.
    + by rewrite I2, Z.add_0_l.
    + unfold in_pages. change (index2 0) with 0. change (index1 0) with 0. change (index0 0) with 0. lia.
    + unfold in_pages. change (index1 0x40000000) with 1. lia.
  - intros a Ha. destruct (Hmod a ltac:(lia)) as [M1 M2]. set (b := a - 0x40000000) in *.
    destruct (index_add 0x40000000 b) as (I0 & I1 & I2); [done|done|lia|
      change (index2 0x40000000) with 0; unfold KERN_STRAIGHT_PAGE_SIZE; Z.to_euclidean_division_equations; lia|].
    replace (0x40000000 + b) with a in I0, I1, I2 by lia. unfold KERN_STRAIGHT_PAGE_SIZE in I2. change (index2 0x40000000) with 0 in I2.
    assert (0 <= b / 0x200000 < mem_pages mb) by (Z.to_euclidean_division_equations; lia).
    replace (Some a) with (Some ((0x200 + b / 0x200000) * 0x200000 + (B + a) mod 0x200000)).
    2: { f_equal. rewrite M2. unfold b. Z.to_euclidean_division_equations; lia. }
    apply and_assoc, typed_page; [|done]. apply translate_block with (attr := AARCH64_PGTBL_MEM_ATTR); [lia| |done|done]. rewrite M1, HL, decide_True.
    + do 2 f_equal. lia.
    + unfold in_pages. change (index2 0x40000000) with 0. lia.
  - intros v Hv [x Hx]. unfold translate in Hx. rewrite HL in Hx. set (a := v mod 2 ^ 47) in *.
    assert (0 <= a < 2 ^ 47) as Ha by (by apply Z.mod_pos_bound).
    destruct (index_eq a) as (I0 & I1 & I2). rewrite Z.mod_small in I0 by (Z.to_euclidean_division_equations; lia).
    destruct (decide _) as [Hp|_]; [|destruct (decide _) as [Hp|_]; [|done]]; unfold in_pages in Hp.
    + change (index2 0x40000000) with 0 in Hp. change (index1 0x40000000) with 1 in Hp. change (index0 0x40000000) with 0 in Hp.
      rewrite I0, I1, I2 in Hp. Z.to_euclidean_division_equations; lia.
    + change (index2 0) with 0 in Hp. change (index1 0) with 0 in Hp. change (index0 0) with 0 in Hp.
      rewrite I0, I1, I2 in Hp. Z.to_euclidean_division_equations; lia.
Qed.

Lemma aarch64_setup_mmu_correct_witness :
  exists s', aarch64_setup_mmu 0 false 16 (PgSt (zeros 0x40100000 4096) (KernelHeap 0x40100000 0x40108000 0x40100000) (SysRegs 0 0 0 0 0)) = Ret tt s' /\
    translate (words s') (ttbr0_el1 (regs s')) 0x40123456 = Some 0x40123456.
Proof.
  destruct (aarch64_setup_mmu_correct 0 false (PgSt (zeros 0x40100000 4096) (KernelHeap 0x40100000 0x40108000 0x40100000) (SysRegs 0 0 0 0 0)) 16)
    as (s' & E & _ & _ & _ & _ & _ & _ & H & _).
  - done.
  - done.
  - cbn [words heap]. by apply (zeros_pool 0x40100000 4096).
  - done.
  - done.
  - exists s'. split; [exact E|]. clear E. apply (H 0x40123456). split; [lia|reflexivity].
Defined.
