(* ===== verification/Mkfs.v ===== *)
(** tools/fs/mkfs.c: the tool that makes the image of a file system.

    The state is the mapped image, a memory of bytes from [fsimage_area] on, as
    the memory disk of the kernel has it ([FsState.image]); [sb] points to its
    second block.  A buffer [buf[BSIZE]] is a list of bytes, and an access
    outside it a fault.  [main] without the options and the messages is
    [mkfs]: the file of [size] bytes is mapped as it is found. *)
From S2P Require Import Prelude CString FsState Blkio DiskLayout.

Definition FS_MAGIC_NR : Z := 0xfeedf5.
Definition CONS_INO : Z := 3.
(** The strings with their terminating 0. *)
Definition CONS_NAME : list Z := [67; 79; 78; 0].

Definition I (A : Type) : Type := M mem A.

Definition refer_sector (blk : Z) : Z := BSIZE * blk.
Definition read_sector (blk size : Z) : I (list Z) := m ← get; deref (image_read m (refer_sector blk) (Z.to_nat size)).
Definition write_sector (blk : Z) (src : list Z) (size : Z) : I unit :=
  m ← get; m ← deref (image_write m (refer_sector blk) (take (Z.to_nat size) src)); put m.

(** Loads and stores of the members of [*sb], 32-bit words. *)
Definition sb_addr : Z := refer_sector SUPER_BLOCK_BLK_NO.
Definition sb_ld (off : Z) : I Z := m ← get; l ← deref (image_read m (sb_addr + off) 4); mret (le_decode l).
Definition sb_st (off v : Z) : I unit := m ← get; m ← deref (image_write m (sb_addr + off) (le_encode 4 v)); put m.
Definition S_MAX_SIZE : Z := 0.
Definition S_NINODES : Z := 4.
Definition S_IMAP_BLOCKS : Z := 8.
Definition S_BMAP_BLOCKS : Z := 12.
Definition S_FIRSTDATA_BLOCK : Z := 16.
Definition S_NBLOCKS : Z := 20.
Definition S_MAGIC : Z := 24.

(** The bit [offset % sizeof(uint64_t)] of the word [offset / sizeof(uint64_t)]
    of [buf], taken as an array of [uint64_t], is set. *)
Definition mark_bit (buf : list Z) (offset : Z) : option (list Z) :=
  val ← get_u64 buf (8 * (offset / 8));
  set_u64 buf (8 * (offset / 8)) (Z.lor val (Z.shiftl 1 (offset mod 8))).

Definition mark_inode_used (ino : Z) : I unit :=
  let blk := (RESV_BLOCK_NR + SUPER_BLOCK_BLK_NR) + ino / BITS_PER_BLOCK in
  buf ← read_sector blk BSIZE;
  buf ← deref (mark_bit buf (ino mod BITS_PER_BLOCK));
  write_sector blk buf BSIZE.

Definition mark_data_block_used (blk : Z) : I unit :=
  imap ← sb_ld S_IMAP_BLOCKS;
  let bitmap_blk := u32 (RESV_BLOCK_NR + SUPER_BLOCK_BLK_NR + imap) + blk / BITS_PER_BLOCK in
  buf ← read_sector bitmap_blk BSIZE;
  buf ← deref (mark_bit buf (blk mod BITS_PER_BLOCK));
  write_sector bitmap_blk buf BSIZE.

Definition write_disk_data_block (dblk : Z) (buf : list Z) : I unit :=
  first ← sb_ld S_FIRSTDATA_BLOCK;
  write_sector (first + dblk) buf BSIZE.

(** The loop over the blocks [i]. *)
Fixpoint find_free_loop (idxs : list Z) : I (option Z) :=
  match idxs with
  | [] => mret None
  | i :: idxs =>
      imap ← sb_ld S_IMAP_BLOCKS;
      buf ← read_sector (u32 (RESV_BLOCK_NR + SUPER_BLOCK_BLK_NR + imap) + i / BITS_PER_BLOCK) BSIZE;
      let offset := i mod BITS_PER_BLOCK in
      val ← deref (get_u64 buf (8 * (offset / 8)));
      if negb (ctrue (Z.land val (Z.shiftl 1 (offset mod 8)))) then mark_data_block_used i;; mret (Some i)
      else find_free_loop idxs
  end.

(** The block, or [None] for [ENOENT]. *)
Definition find_free_data_block : I (option Z) := n ← sb_ld S_NBLOCKS; find_free_loop (seqZ 0 n).

Definition write_disk_inode (ino : Z) (d : d_inode) : I unit :=
  imap ← sb_ld S_IMAP_BLOCKS;
  bmap ← sb_ld S_BMAP_BLOCKS;
  let blk := u32 (RESV_BLOCK_NR + SUPER_BLOCK_BLK_NR + imap + bmap) + ino / INODES_PER_BLOCK in
  buf ← read_sector blk BSIZE;
  buf ← deref (set_bytes buf (D_INODE_SIZE * (ino mod INODES_PER_BLOCK)) (d_inode_bytes [0; 0; 0; 0] d));
  write_sector blk buf BSIZE.

(** [dentp->d_ino = ino; memmove(&dentp->d_name[0], name, ...);] in entry [k]. *)
Definition put_dirent (buf : list Z) (k ino : Z) (name : list Z) : option (list Z) :=
  buf ← set_bytes buf (D_DIRENT_SIZE * k) (le_encode 4 ino);
  set_bytes buf (D_DIRENT_SIZE * k + 4) name.

(** [blk0] is the value of [blk] before [find_free_data_block] sets it. *)
Definition write_root_dirent (blk0 : Z) : I unit :=
  mark_inode_used ROOT_DENT_INO;;
  mark_inode_used CONS_INO;;
  r ← find_free_data_block;
  let blk := default blk0 r in
  first ← sb_ld S_FIRSTDATA_BLOCK;
  let root_inode := DInode FS_IMODE_DIR 0 0 1 BSIZE (blk + first :: replicate 15 0) in
  let cons_inode := DInode FS_IMODE_DEV 0 CONS_DEV 1 0 (replicate 16 0) in
  let buf := replicate (Z.to_nat BSIZE) 0 in
  buf ← deref (put_dirent buf 0 ROOT_DENT_INO [46; 0]);
  buf ← deref (put_dirent buf 1 ROOT_DENT_INO [46; 46; 0]);
  buf ← deref (put_dirent buf 2 CONS_INO CONS_NAME);
  write_disk_inode ROOT_DENT_INO root_inode;;
  write_disk_inode CONS_INO cons_inode;;
  write_disk_data_block blk buf.

(** [remains] is an [int64_t]; the first three terms are 32-bit. *)
Definition init_super_block (size nr_files : Z) : I unit :=
  let inode_blocks := s64 (u64 (nr_files + (INODES_PER_BLOCK - 1)) / INODES_PER_BLOCK) in
  sb_st S_MAX_SIZE (size / BSIZE);;
  sb_st S_NINODES nr_files;;
  sb_st S_IMAP_BLOCKS (u64 (nr_files + (BITS_PER_BLOCK - 1)) / BITS_PER_BLOCK);;
  max ← sb_ld S_MAX_SIZE;
  imap ← sb_ld S_IMAP_BLOCKS;
  let remains := s64 (u32 (max - (RESV_BLOCK_NR + SUPER_BLOCK_BLK_NR) - imap) - inode_blocks) in
  let data_blocks := Z.quot (s64 (remains * BITS_PER_BLOCK - (BITS_PER_BLOCK - 1))) (BITS_PER_BLOCK + 1) in
  sb_st S_BMAP_BLOCKS (Z.quot (s64 (data_blocks + (BITS_PER_BLOCK - 1))) BITS_PER_BLOCK);;
  sb_st S_NBLOCKS data_blocks;;
  imap ← sb_ld S_IMAP_BLOCKS;
  bmap ← sb_ld S_BMAP_BLOCKS;
  sb_st S_FIRSTDATA_BLOCK (u32 ((RESV_BLOCK_NR + SUPER_BLOCK_BLK_NR) + imap) + inode_blocks + bmap);;
  sb_st S_MAGIC FS_MAGIC_NR;;
  mark_inode_used 0;;
  mark_inode_used 1.

(** [sizeof(superblock)] is 32. *)
Definition write_fs_image (size nr_files blk0 : Z) : I unit :=
  init_super_block size nr_files;;
  write_root_dirent blk0;;
  m ← get;
  l ← deref (image_read m sb_addr 32);
  buf ← deref (set_bytes (replicate (Z.to_nat BSIZE) 0) 0 l);
  write_sector SUPER_BLOCK_BLK_NO buf BSIZE.

Definition mkfs (size nr_files blk0 : Z) : I unit := write_fs_image size nr_files blk0.

(** ** The image as blocks *)

(** The first [n] blocks of the image are those of [f]. *)
Definition img (m : mem) (f : Z -> list Z) (n : Z) : Prop :=
  forall b, 0 <= b < n -> length (f b) = 512%nat /\ forall i : nat, (i < 512)%nat -> m !! (BSIZE * b + Z.of_nat i) = f b !! i.

Definition upd (f : Z -> list Z) (b : Z) (l : list Z) : Z -> list Z := fun b' => if decide (b' = b) then l else f b'.

Lemma upd_eq f b l : upd f b l b = l.
Proof. unfold upd. by rewrite decide_True. Qed.
Lemma upd_ne f b l b' : b' <> b -> upd f b l b' = f b'.
Proof. intros H. unfold upd. by rewrite decide_False. Qed.

Lemma img_read m f n b off k l :
  img m f n -> 0 <= b < n -> bytes_at (f b) off k = Some l -> image_read m (BSIZE * b + off) k = Some l.
Proof.
  intros HI Hb Hl. destruct (HI b Hb) as [Hlen Hm]. unfold bytes_at in Hl. set (x := take k (drop (Z.to_nat off) (f b))) in *.
  destruct (_ && _) eqn:E; [|done]. apply andb_true_iff in E as [Ho%Z.leb_le Hk%Nat.eqb_eq]. injection Hl as <-.
  rewrite <-Hk. apply image_read_spec. intros i Hi. unfold x in Hi |- *. rewrite length_take, length_drop, Hlen in Hi.
  rewrite lookup_take_lt, lookup_drop by lia. rewrite <-Hm by lia. f_equal. lia.
Qed.

Lemma img_write m f n b off v l :
  img m f n -> 0 <= b < n -> set_bytes (f b) off v = Some l ->
  exists m', image_write m (BSIZE * b + off) v = Some m' /\ img m' (upd f b l) n.
Proof.
  intros HI Hb Hl. destruct (HI b Hb) as [Hlen Hm]. unfold set_bytes in Hl. destruct (_ && _) eqn:E; [|done].
  apply andb_true_iff in E as [Ho%Z.leb_le Hv%Z.leb_le]. injection Hl as <-. rewrite Hlen in Hv.
  destruct (image_write_spec m (BSIZE * b + off) v) as (m' & E' & H1 & H2).
  { intros i Hi. replace i with (BSIZE * b + Z.of_nat (Z.to_nat (i - BSIZE * b))) by lia. rewrite Hm by lia. apply lookup_lt_is_Some_2. lia. }
  exists m'. split; [done|]. intros b' Hb'. destruct (decide (b' = b)) as [->|Hne].
  - rewrite upd_eq. split; [rewrite !length_app, length_take, length_drop; lia|]. intros i Hi.
    destruct (decide (off <= Z.of_nat i < off + Z.of_nat (length v))) as [Hin|Hout].
    + rewrite H1 by lia. rewrite lookup_app_r by (rewrite length_take; lia). rewrite lookup_app_l by (rewrite length_take; lia).
      f_equal. rewrite length_take. lia.
    + rewrite H2, Hm by lia. destruct (decide (Z.of_nat i < off)).
      * rewrite lookup_app_l, lookup_take_lt by (rewrite ?length_take; lia). done.
      * rewrite !lookup_app_r, lookup_drop by (rewrite ?length_take; lia). f_equal. rewrite length_take. lia.
  - rewrite upd_ne by done. destruct (HI b' Hb') as [Hlen' Hm']. split; [done|]. intros i Hi. rewrite H2; [by apply Hm'|]. unfold BSIZE in *. lia.
Qed.

Lemma bytes_at_all l : length l = 512%nat -> bytes_at l 0 512 = Some l.
Proof. intros H. unfold bytes_at. rewrite drop_0, firstn_all2 by lia. by rewrite H. Qed.
Lemma set_bytes_all l l' : length l = 512%nat -> length l' = 512%nat -> set_bytes l 0 l' = Some l'.
Proof. intros H H'. rewrite set_bytes_eq by lia. by rewrite take_0, H', drop_ge, app_nil_r by (cbn; lia). Qed.

Section ops.
Variables (m : mem) (f : Z -> list Z) (n : Z).
Hypothesis HI : img m f n.

Lemma read_sector_eq b : 0 <= b < n -> read_sector b BSIZE m = Ret (f b) m.
Proof.
  intros Hb. destruct (HI b Hb) as [Hl _]. unfold read_sector, refer_sector. mred. rewrite <-(Z.add_0_r (BSIZE * b)).
  by rewrite (img_read m f n b 0 _ (f b)) by (done || by apply bytes_at_all).
Qed.

Lemma write_sector_eq b l : 0 <= b < n -> length l = 512%nat -> exists m', write_sector b l BSIZE m = Ret tt m' /\ img m' (upd f b l) n.
Proof.
  intros Hb Hl. destruct (HI b Hb) as [Hl' _]. unfold write_sector, refer_sector. mred. rewrite <-(Z.add_0_r (BSIZE * b)).
  change (Z.to_nat BSIZE) with 512%nat. rewrite firstn_all2 by lia.
  destruct (img_write m f n b 0 l l) as (m' & -> & H'); [done|done|by apply set_bytes_all|]. by exists m'.
Qed.

Lemma sb_ld_eq off v : 1 < n -> get_u32 (f 1) off = Some v -> sb_ld off m = Ret v m.
Proof.
  intros Hn Hv. unfold get_u32 in Hv. destruct (bytes_at (f 1) off 4) as [l|] eqn:E; [|done]. injection Hv as <-.
  unfold sb_ld, sb_addr, refer_sector, SUPER_BLOCK_BLK_NO. mred. by rewrite (img_read m f n 1 off 4 l) by (done || lia).
Qed.

Lemma sb_st_eq off v l : 1 < n -> set_bytes (f 1) off (le_encode 4 v) = Some l -> exists m', sb_st off v m = Ret tt m' /\ img m' (upd f 1 l) n.
Proof.
  intros Hn Hv. unfold sb_st, sb_addr, refer_sector, SUPER_BLOCK_BLK_NO. mred.
  destruct (img_write m f n 1 off (le_encode 4 v) l) as (m' & -> & H'); [done|lia|done|]. by exists m'.
Qed.

(** A bit set in a bitmap block. *)
Lemma mark_inode_used_eq ino l : 2 < n -> 0 <= ino < 512 -> mark_bit (f 2) ino = Some l -> length l = 512%nat ->
  exists m', mark_inode_used ino m = Ret tt m' /\ img m' (upd f 2 l) n.
Proof.
  intros Hn Hi Hl Hlen. unfold mark_inode_used, BITS_PER_BLOCK, BSIZE. change (RESV_BLOCK_NR + SUPER_BLOCK_BLK_NR) with 2.
  rewrite Z.div_small, Z.mod_small, Z.add_0_r by lia. mred. fold BSIZE. rewrite read_sector_eq by lia. mred. rewrite Hl. mred.
  by apply write_sector_eq; [lia|].
Qed.
End ops.

(** ** The superblock *)

(** A block that starts with the words [vs]. *)
Definition word_block (vs : list Z) : list Z := concat (le_encode 4 <$> vs) ++ replicate 480 0.

Lemma concat_words_length vs : length (concat (le_encode 4 <$> vs)) = (4 * length vs)%nat.
Proof. induction vs as [|v vs IH]; [done|]. cbn [fmap list_fmap concat length]. rewrite length_app, le_encode_length, IH. lia. Qed.

Lemma word_block_split vs (k : nat) x : vs !! k = Some x ->
  word_block vs = concat (le_encode 4 <$> take k vs) ++ le_encode 4 x ++ (concat (le_encode 4 <$> drop (S k) vs) ++ replicate 480 0) /\
  length (concat (le_encode 4 <$> take k vs)) = (4 * k)%nat.
Proof.
  intros Hk. pose proof (lookup_lt_Some _ _ _ Hk). split.
  - unfold word_block. rewrite <-(take_drop_middle vs k x) at 1 by done. rewrite fmap_app, concat_app, fmap_cons. cbn [concat]. by rewrite <-!app_assoc.
  - rewrite concat_words_length, length_take. lia.
Qed.

Lemma word_block_get vs (k : nat) off x : vs !! k = Some x -> off = 4 * Z.of_nat k -> get_u32 (word_block vs) off = Some (u32 x).
Proof. intros Hk ->. destruct (word_block_split vs k x Hk) as [-> Hl]. apply get_u32_app. lia. Qed.

Lemma word_block_set vs (k : nat) off v : (k < length vs)%nat -> off = 4 * Z.of_nat k ->
  set_bytes (word_block vs) off (le_encode 4 v) = Some (word_block (<[k := v]> vs)).
Proof.
  intros Hk ->. destruct (lookup_lt_is_Some_2 vs k Hk) as [x Hx]. destruct (word_block_split vs k x Hx) as [-> Hl].
  destruct (word_block_split (<[k := v]> vs) k v) as [-> _]; [by apply list_lookup_insert_eq|].
  rewrite take_insert_ge, drop_insert_lt by lia. set (p := concat (le_encode 4 <$> take k vs)) in *.
  rewrite set_bytes_eq; [|lia|rewrite !length_app, !le_encode_length; lia]. rewrite le_encode_length.
  replace (Z.to_nat (4 * Z.of_nat k)) with (length p) by lia. rewrite take_app_length.
  rewrite drop_app. rewrite drop_ge by lia. replace (length p + 4 - length p)%nat with (length (le_encode 4 x)) by (rewrite le_encode_length; lia).
  by rewrite drop_app_length.
Qed.

Lemma word_block_length vs : length vs = 8%nat -> length (word_block vs) = 512%nat.
Proof. intros H. unfold word_block. rewrite length_app, concat_words_length, length_replicate. lia. Qed.

Lemma word_block_super a b c d e f g h : superblock_of (word_block [a; b; c; d; e; f; g; h]) =
  Some (Superblock (u32 a) (u32 b) (u32 c) (u32 d) (u32 e) (u32 f) (u32 g) (u32 h)).
Proof.
  unfold superblock_of.
  rewrite (word_block_get _ 0 0 a), (word_block_get _ 1 4 b), (word_block_get _ 2 8 c), (word_block_get _ 3 12 d),
    (word_block_get _ 4 16 e), (word_block_get _ 5 20 f), (word_block_get _ 6 24 g), (word_block_get _ 7 28 h) by done. done.
Qed.

(** ** The layout *)

(** The numbers [init_super_block] computes, without the machine's widths. *)
Definition imap_blocks (nr : Z) : Z := (nr + 4095) / 4096.
Definition inode_blocks (nr : Z) : Z := (nr + 2) / 3.
Definition data_blocks (n nr : Z) : Z := ((n - 2 - imap_blocks nr - inode_blocks nr) * 4096 - 4095) / 4097.
Definition bmap_blocks (n nr : Z) : Z := (data_blocks n nr + 4095) / 4096.
Definition firstdata_block (n nr : Z) : Z := 2 + imap_blocks nr + inode_blocks nr + bmap_blocks n nr.

(** An image of [n] blocks with room for [nr] inodes and a data block. *)
Definition mkfs_args (size nr n : Z) : Prop :=
  n = size / BSIZE /\ 0 <= size /\ n < 2 ^ 31 /\ 4 <= nr < 2 ^ 31 /\ 2 <= n - 2 - imap_blocks nr - inode_blocks nr.

Lemma layout_ok size nr n : mkfs_args size nr n ->
  1 <= imap_blocks nr /\ 2 <= inode_blocks nr /\ 1 <= data_blocks n nr /\ 1 <= bmap_blocks n nr /\
  nr <= imap_blocks nr * BITS_PER_BLOCK /\ nr <= inode_blocks nr * INODES_PER_BLOCK /\ data_blocks n nr <= bmap_blocks n nr * BITS_PER_BLOCK /\
  n - 1 <= firstdata_block n nr + data_blocks n nr <= n.
Proof.
  intros (_ & Hs & Hn & Hnr & Hr). unfold firstdata_block, bmap_blocks, data_blocks, INODES_PER_BLOCK, BITS_PER_BLOCK, BSIZE, D_INODE_SIZE in *.
  change (512 / 168) with 3. change (512 * 8) with 4096. assert (1 <= imap_blocks nr /\ 2 <= inode_blocks nr /\ nr <= imap_blocks nr * 4096 /\ nr <= inode_blocks nr * 3) as (H1 & H2 & H3 & H4).
  { unfold imap_blocks, inode_blocks. Z.to_euclidean_division_equations; lia. }
  set (ib := inode_blocks nr) in *. set (im := imap_blocks nr) in *. clearbody ib im.
  set (d := ((n - 2 - im - ib) * 4096 - 4095) / 4097).
  assert (1 <= d /\ d * 4097 <= (n - 2 - im - ib) * 4096 - 4095 < d * 4097 + 4097) as [Hd1 Hd2] by (unfold d; Z.to_euclidean_division_equations; lia).
  clearbody d. set (bm := (d + 4095) / 4096). assert (bm * 4096 <= d + 4095 < bm * 4096 + 4096) as Hbm by (unfold bm; Z.to_euclidean_division_equations; lia).
  clearbody bm. split_and!; lia.
Qed.

(** ** The steps of [mkfs] *)

Lemma img_ext m f g n : img m f n -> (forall b, 0 <= b < n -> f b = g b) -> img m g n.
Proof. intros HI Hfg b Hb. rewrite <-Hfg by done. by apply HI. Qed.

Lemma img_upd2 m f b l l' n : img m (upd (upd f b l) b l') n -> img m (upd f b l') n.
Proof. intros HI. eapply img_ext; [exact HI|]. intros b' _. unfold upd. by destruct (decide (b' = b)). Qed.

Lemma sb_store m f n vs (k : nat) off v :
  img m (upd f 1 (word_block vs)) n -> 1 < n -> (k < length vs)%nat -> off = 4 * Z.of_nat k ->
  exists m', sb_st off v m = Ret tt m' /\ img m' (upd f 1 (word_block (<[k := v]> vs))) n.
Proof.
  intros HI Hn Hk ->. destruct (sb_st_eq m _ n HI (4 * Z.of_nat k) v (word_block (<[k := v]> vs)) Hn) as (m' & E & HI').
  { rewrite upd_eq. by apply word_block_set. }
  exists m'. split; [done|]. by eapply img_upd2.
Qed.

Lemma sb_load m f n vs (k : nat) off x :
  img m f n -> f 1 = word_block vs -> 1 < n -> vs !! k = Some x -> off = 4 * Z.of_nat k -> sb_ld off m = Ret (u32 x) m.
Proof. intros HI Hf Hn Hk ->. eapply sb_ld_eq; [exact HI|done|]. rewrite Hf. by eapply word_block_get. Qed.

Definition zero_block : list Z := replicate 512 0.

(** The contents of the superblock. *)
Definition sb_words (size nr n : Z) : list Z :=
  [n; nr; imap_blocks nr; bmap_blocks n nr; firstdata_block n nr; data_blocks n nr; FS_MAGIC_NR; 0].

Lemma init_super_block_eq m size nr n : mkfs_args size nr n -> img m (fun _ => zero_block) n ->
  exists m', init_super_block size nr m = Ret tt m' /\
    img m' (upd (upd (fun _ => zero_block) 1 (word_block (sb_words size nr n))) 2 (3 :: replicate 511 0)) n.
Proof.
  intros HA HI. pose proof (layout_ok _ _ _ HA) as (L1 & L2 & L3 & L4 & _ & _ & _ & L5). pose proof HA as (En & Hs & Hn & Hnr & Hr).
  assert (imap_blocks nr < 2 ^ 31 /\ inode_blocks nr < 2 ^ 31) as [U1 U2] by (unfold imap_blocks, inode_blocks; Z.to_euclidean_division_equations; lia).
  assert (img m (upd (fun _ => zero_block) 1 (word_block (replicate 8 0))) n) as H0.
  { eapply img_ext; [exact HI|]. intros b _. unfold upd. by destruct (decide (b = 1)). }
  assert (firstdata_block n nr = 2 + imap_blocks nr + inode_blocks nr + bmap_blocks n nr) as Ef by done.
  unfold init_super_block. mred.
  destruct (sb_store _ _ _ _ 0 S_MAX_SIZE (size / BSIZE) H0 ltac:(lia) ltac:(cbn; lia) ltac:(done)) as (m1 & -> & H1). mred.
  destruct (sb_store _ _ _ _ 1 S_NINODES nr H1 ltac:(lia) ltac:(cbn; lia) ltac:(done)) as (m2 & -> & H2). mred.
  destruct (sb_store _ _ _ _ 2 S_IMAP_BLOCKS (u64 (nr + (BITS_PER_BLOCK - 1)) / BITS_PER_BLOCK) H2 ltac:(lia) ltac:(cbn; lia) ltac:(done)) as (m3 & -> & H3). mred.
  rewrite (sb_load _ _ _ _ 0 S_MAX_SIZE (size / BSIZE) H3 (upd_eq _ _ _) ltac:(lia) ltac:(reflexivity) ltac:(done)). mred.
  set (im := u64 (nr + (BITS_PER_BLOCK - 1)) / BITS_PER_BLOCK) in *.
  assert (im = imap_blocks nr) as Eim.
  { unfold im, imap_blocks, BITS_PER_BLOCK, BSIZE, u64. by rewrite wrap_small by lia. }
  rewrite (sb_load _ _ _ _ 2 S_IMAP_BLOCKS im H3 (upd_eq _ _ _) ltac:(lia) ltac:(reflexivity) ltac:(done)). mred.
  assert (s64 (u64 (nr + (INODES_PER_BLOCK - 1)) / INODES_PER_BLOCK) = inode_blocks nr) as ->.
  { unfold s64, u64, INODES_PER_BLOCK, BSIZE, D_INODE_SIZE. change (512 / 168) with 3. rewrite wrap_small by lia.
    replace (nr + (3 - 1)) with (nr + 2) by lia. fold (inode_blocks nr). by rewrite swrap_small by lia. }
  rewrite Eim in H3 |- *. assert (u32 (size / BSIZE) = n /\ u32 (imap_blocks nr) = imap_blocks nr) as [-> ->]
    by (rewrite <-En; split; apply wrap_small; lia).
  assert (s64 (u32 (n - (RESV_BLOCK_NR + SUPER_BLOCK_BLK_NR) - imap_blocks nr) - inode_blocks nr) = n - 2 - imap_blocks nr - inode_blocks nr) as ->.
  { change (RESV_BLOCK_NR + SUPER_BLOCK_BLK_NR) with 2. unfold u32, s64. rewrite wrap_small by lia. by rewrite swrap_small by lia. }
  assert (Z.quot (s64 ((n - 2 - imap_blocks nr - inode_blocks nr) * BITS_PER_BLOCK - (BITS_PER_BLOCK - 1))) (BITS_PER_BLOCK + 1) = data_blocks n nr) as ->.
  { unfold BITS_PER_BLOCK, BSIZE, s64. change (512 * 8) with 4096. rewrite swrap_small by lia. rewrite Z.quot_div_nonneg by lia.
    unfold data_blocks. f_equal. }
  assert (Z.quot (s64 (data_blocks n nr + (BITS_PER_BLOCK - 1))) BITS_PER_BLOCK = bmap_blocks n nr) as ->.
  { unfold BITS_PER_BLOCK, BSIZE, s64. change (512 * 8) with 4096. rewrite swrap_small by lia. rewrite Z.quot_div_nonneg by lia. done. }
  destruct (sb_store _ _ _ _ 3 S_BMAP_BLOCKS (bmap_blocks n nr) H3 ltac:(lia) ltac:(cbn; lia) ltac:(done)) as (m4 & -> & H4). mred.
  destruct (sb_store _ _ _ _ 5 S_NBLOCKS (data_blocks n nr) H4 ltac:(lia) ltac:(cbn; lia) ltac:(done)) as (m5 & -> & H5). mred.
  rewrite (sb_load _ _ _ _ 2 S_IMAP_BLOCKS (imap_blocks nr) H5 (upd_eq _ _ _) ltac:(lia) ltac:(reflexivity) ltac:(done)). mred.
  rewrite (sb_load _ _ _ _ 3 S_BMAP_BLOCKS (bmap_blocks n nr) H5 (upd_eq _ _ _) ltac:(lia) ltac:(reflexivity) ltac:(done)). mred.
  assert (u32 (RESV_BLOCK_NR + SUPER_BLOCK_BLK_NR + u32 (imap_blocks nr)) + inode_blocks nr + u32 (bmap_blocks n nr) = firstdata_block n nr) as ->.
  { change (RESV_BLOCK_NR + SUPER_BLOCK_BLK_NR) with 2. unfold u32. rewrite Ef. by rewrite !wrap_small by (rewrite ?wrap_small; lia). }
  destruct (sb_store _ _ _ _ 4 S_FIRSTDATA_BLOCK (firstdata_block n nr) H5 ltac:(lia) ltac:(cbn; lia) ltac:(done)) as (m6 & -> & H6). mred.
  destruct (sb_store _ _ _ _ 6 S_MAGIC FS_MAGIC_NR H6 ltac:(lia) ltac:(cbn; lia) ltac:(done)) as (m7 & -> & H7). mred.
  cbn [replicate list_insert insert] in H7. rewrite <-En in H7. fold (sb_words size nr n) in H7.
  destruct (mark_inode_used_eq m7 _ n H7 0 (1 :: replicate 511 0)) as (m8 & -> & H8); [lia|lia|reflexivity|reflexivity|]. mred.
  destruct (mark_inode_used_eq m8 _ n H8 1 (3 :: replicate 511 0)) as (m9 & -> & H9); [lia|lia|rewrite upd_eq; reflexivity|reflexivity|].
  exists m9. split; [done|]. by eapply img_upd2.
Qed.

(** The block of the root directory. *)
Definition root_block : list Z :=
  le_encode 4 ROOT_DENT_INO ++ [46; 0] ++ replicate 58 0 ++ le_encode 4 ROOT_DENT_INO ++ [46; 46; 0] ++ replicate 57 0 ++
  le_encode 4 CONS_INO ++ CONS_NAME ++ replicate 56 0 ++ replicate 320 0.

Definition root_dinode (first : Z) : d_inode := DInode FS_IMODE_DIR 0 0 1 BSIZE (0 + first :: replicate 15 0).
Definition cons_dinode : d_inode := DInode FS_IMODE_DEV 0 CONS_DEV 1 0 (replicate 16 0).

(** Every block of the image afterwards. *)
Definition mkfs_blocks (size nr n : Z) : Z -> list Z :=
  let ib := 2 + imap_blocks nr + bmap_blocks n nr in
  upd (upd (upd (upd (upd (upd (fun _ => zero_block) 1 (word_block (sb_words size nr n)))
    2 (15 :: replicate 511 0)) (2 + imap_blocks nr) (1 :: replicate 511 0))
    ib (replicate 336 0 ++ d_inode_bytes [0; 0; 0; 0] (root_dinode (firstdata_block n nr)) ++ replicate 8 0))
    (ib + 1) (d_inode_bytes [0; 0; 0; 0] cons_dinode ++ replicate 344 0))
    (firstdata_block n nr) root_block.

Lemma write_disk_inode_eq m f n vs ino d blk l :
  img m f n -> f 1 = word_block vs -> length vs = 8%nat -> 1 < n ->
  blk = u32 (2 + u32 (vs !!! 2%nat) + u32 (vs !!! 3%nat)) + ino / 3 -> 0 <= blk < n ->
  set_bytes (f blk) (168 * (ino mod 3)) (d_inode_bytes [0; 0; 0; 0] d) = Some l ->
  exists m', write_disk_inode ino d m = Ret tt m' /\ img m' (upd f blk l) n.
Proof.
  intros HI Hf Hvs Hn -> Hb Hl. unfold write_disk_inode. mred.
  assert (forall k, (k < 8)%nat -> vs !! k = Some (vs !!! k)) as Hk by (intros k ?; apply list_lookup_lookup_total_lt; lia).
  rewrite (sb_load m f n vs 2 S_IMAP_BLOCKS _ HI Hf Hn (Hk 2%nat ltac:(lia)) eq_refl). mred.
  rewrite (sb_load m f n vs 3 S_BMAP_BLOCKS _ HI Hf Hn (Hk 3%nat ltac:(lia)) eq_refl). mred.
  change (RESV_BLOCK_NR + SUPER_BLOCK_BLK_NR) with 2. change INODES_PER_BLOCK with 3. change D_INODE_SIZE with 168.
  rewrite (read_sector_eq m f n HI) by done. mred. rewrite Hl. mred. apply (write_sector_eq m f n HI); [done|].
  apply set_bytes_spec in Hl as (_ & -> & _). by apply HI.
Qed.

Lemma dinode_bytes_len d : length (di_addr d) = 16%nat -> length (d_inode_bytes [0; 0; 0; 0] d) = 168%nat.
Proof. intros H. by apply d_inode_bytes_length. Qed.

Lemma find_free_eq m f n vs :
  img m f n -> f 1 = word_block vs -> length vs = 8%nat -> 1 < n -> 1 <= u32 (vs !!! 5%nat) ->
  0 <= u32 (2 + u32 (vs !!! 2%nat)) < n -> f (u32 (2 + u32 (vs !!! 2%nat))) = zero_block ->
  exists m', find_free_data_block m = Ret (Some 0) m' /\ img m' (upd f (u32 (2 + u32 (vs !!! 2%nat))) (1 :: replicate 511 0)) n.
Proof.
  intros HI Hf Hvs Hn H5 Hb Hz. unfold find_free_data_block. mred.
  assert (forall k, (k < 8)%nat -> vs !! k = Some (vs !!! k)) as Hk by (intros k ?; apply list_lookup_lookup_total_lt; lia).
  rewrite (sb_load m f n vs 5 S_NBLOCKS _ HI Hf Hn (Hk 5%nat ltac:(lia)) eq_refl). mred.
  rewrite seqZ_cons by lia. cbn [find_free_loop]. mred. unfold mark_data_block_used. mred.
  rewrite !(sb_load m f n vs 2 S_IMAP_BLOCKS _ HI Hf Hn (Hk 2%nat ltac:(lia)) eq_refl). mred.
  change (RESV_BLOCK_NR + SUPER_BLOCK_BLK_NR) with 2. change (0 / BITS_PER_BLOCK) with 0. change (0 mod BITS_PER_BLOCK) with 0. rewrite Z.add_0_r.
  rewrite (read_sector_eq m f n HI) by done. rewrite Hz. mred.
  change (get_u64 zero_block (8 * (0 / 8))) with (Some 0). mred. change (negb (ctrue (Z.land 0 (Z.shiftl 1 (0 mod 8))))) with true. mred.
  rewrite (sb_load m f n vs 2 S_IMAP_BLOCKS _ HI Hf Hn (Hk 2%nat ltac:(lia)) eq_refl). mred. rewrite Z.add_0_r.
  rewrite (read_sector_eq m f n HI) by done. rewrite Hz. mred.
  change (mark_bit zero_block 0) with (Some (1 :: replicate 511 0)). mred.
  destruct (write_sector_eq m f n HI (u32 (2 + u32 (vs !!! 2%nat))) (1 :: replicate 511 0) Hb eq_refl) as (m' & -> & HI'). mred. by exists m'.
Qed.

Lemma mkfs_run m size nr n blk0 : mkfs_args size nr n -> img m (fun _ => zero_block) n ->
  exists m', mkfs size nr blk0 m = Ret tt m' /\ img m' (mkfs_blocks size nr n) n.
Proof.
  intros HA HI. pose proof (layout_ok _ _ _ HA) as (L1 & L2 & L3 & L4 & _ & _ & _ & L5). pose proof HA as (En & Hs & Hn & Hnr & Hr).
  assert (firstdata_block n nr = 2 + imap_blocks nr + inode_blocks nr + bmap_blocks n nr) as Ef by done.
  set (vs := sb_words size nr n). set (ib := 2 + imap_blocks nr + bmap_blocks n nr).
  assert (u32 (vs !!! 2%nat) = imap_blocks nr) as E2 by (apply wrap_small; change (vs !!! 2%nat) with (imap_blocks nr); lia).
  assert (u32 (vs !!! 3%nat) = bmap_blocks n nr) as E3 by (apply wrap_small; change (vs !!! 3%nat) with (bmap_blocks n nr); lia).
  assert (u32 (vs !!! 5%nat) = data_blocks n nr) as E5 by (apply wrap_small; change (vs !!! 5%nat) with (data_blocks n nr); lia).
  assert (u32 (2 + imap_blocks nr) = 2 + imap_blocks nr) as Eb by (apply wrap_small; lia).
  assert (u32 (2 + imap_blocks nr + bmap_blocks n nr) = ib) as Ei by (apply wrap_small; lia).
  assert (u32 (firstdata_block n nr) = firstdata_block n nr) as Ed by (apply wrap_small; lia).
  unfold mkfs, write_fs_image, write_root_dirent. mred.
  destruct (init_super_block_eq m size nr n HA HI) as (m1 & -> & H1). fold vs in H1. mred.
  destruct (mark_inode_used_eq m1 _ n H1 ROOT_DENT_INO (7 :: replicate 511 0)) as (m2 & -> & H2);
    [lia|by vm_compute|rewrite upd_eq; reflexivity|reflexivity|]. mred. apply img_upd2 in H2.
  destruct (mark_inode_used_eq m2 _ n H2 CONS_INO (15 :: replicate 511 0)) as (m3 & -> & H3);
    [lia|by vm_compute|rewrite upd_eq; reflexivity|reflexivity|]. mred. apply img_upd2 in H3.
  destruct (find_free_eq m3 _ n vs H3) as (m4 & -> & H4);
    [by rewrite upd_ne, upd_eq by lia|done|lia|lia|rewrite E2, Eb; lia|rewrite E2, Eb; by rewrite !upd_ne by lia|]. mred. rewrite E2, Eb in H4. change (default blk0 (Some 0)) with 0.
  rewrite (sb_load m4 _ n vs 4 S_FIRSTDATA_BLOCK (firstdata_block n nr) H4); [|by rewrite !upd_ne, upd_eq by lia|lia|reflexivity|done].
  mred. rewrite Ed. change (put_dirent (replicate (Z.to_nat BSIZE) 0) 0 ROOT_DENT_INO [46; 0])
    with (Some (le_encode 4 ROOT_DENT_INO ++ [46; 0] ++ replicate 506 0)). mred.
  change (put_dirent (le_encode 4 ROOT_DENT_INO ++ [46; 0] ++ replicate 506 0) 1 ROOT_DENT_INO [46; 46; 0])
    with (Some (le_encode 4 ROOT_DENT_INO ++ [46; 0] ++ replicate 58 0 ++ le_encode 4 ROOT_DENT_INO ++ [46; 46; 0] ++ replicate 441 0)). mred.
  change (put_dirent (le_encode 4 ROOT_DENT_INO ++ [46; 0] ++ replicate 58 0 ++ le_encode 4 ROOT_DENT_INO ++ [46; 46; 0] ++ replicate 441 0) 2 CONS_INO CONS_NAME)
    with (Some root_block). mred.
  fold (root_dinode (firstdata_block n nr)). fold cons_dinode.
  destruct (write_disk_inode_eq m4 _ n vs ROOT_DENT_INO (root_dinode (firstdata_block n nr)) ib
    (replicate 336 0 ++ d_inode_bytes [0; 0; 0; 0] (root_dinode (firstdata_block n nr)) ++ replicate 8 0) H4) as (m5 & -> & H5);
    [by rewrite !upd_ne, upd_eq by lia|done|lia|rewrite E2, E3, Ei; by rewrite Z.add_0_r|lia| |].
  { rewrite !upd_ne by lia. rewrite set_bytes_eq; rewrite ?dinode_bytes_len by done; done. }
  mred. destruct (write_disk_inode_eq m5 _ n vs CONS_INO cons_dinode (ib + 1) (d_inode_bytes [0; 0; 0; 0] cons_dinode ++ replicate 344 0) H5)
    as (m6 & -> & H6); [by rewrite !upd_ne, upd_eq by lia|done|lia|by rewrite E2, E3, Ei|lia|by rewrite !upd_ne by lia|].
  mred. unfold write_disk_data_block. mred.
  rewrite (sb_load m6 _ n vs 4 S_FIRSTDATA_BLOCK (firstdata_block n nr) H6); [|by rewrite !upd_ne, upd_eq by lia|lia|reflexivity|done].
  mred. rewrite Ed, Z.add_0_r. destruct (write_sector_eq m6 _ n H6 (firstdata_block n nr) root_block) as (m7 & -> & H7); [lia|reflexivity|]. mred.
  change sb_addr with (BSIZE * 1 + 0).
  rewrite (img_read m7 _ n 1 0 32 (concat (le_encode 4 <$> vs)) H7); [|lia|].
  2: { rewrite !upd_ne, upd_eq by lia. unfold word_block. apply (bytes_at_app [] _ (replicate 480 0)); reflexivity. }
  mred. assert (set_bytes (replicate (Z.to_nat BSIZE) 0) 0 (concat (le_encode 4 <$> vs)) = Some (word_block vs)) as ->.
  { rewrite set_bytes_eq; [|done|by vm_compute]. by rewrite concat_words_length. }
  mred. destruct (write_sector_eq m7 _ n H7 SUPER_BLOCK_BLK_NO (word_block vs)) as (m8 & -> & H8); [unfold SUPER_BLOCK_BLK_NO; lia|reflexivity|].
  exists m8. split; [done|]. eapply img_ext; [exact H8|]. intros b _. unfold mkfs_blocks. fold ib. fold vs.
  unfold upd at 1. destruct (decide (b = SUPER_BLOCK_BLK_NO)) as [->|]; [|done]. unfold SUPER_BLOCK_BLK_NO. by rewrite !upd_ne, upd_eq by lia.
Qed.

(** The inodes written are read back. *)
Lemma root_dinode_read first : 0 <= first < 2 ^ 63 ->
  d_inode_of (replicate 336 0 ++ d_inode_bytes [0; 0; 0; 0] (root_dinode first) ++ replicate 8 0) 336
    = Some (DInode FS_IMODE_DIR 0 0 1 BSIZE (first :: replicate 15 0)).
Proof.
  intros Hf. change 336 with (Z.of_nat (length (replicate 336 0))).
  rewrite (d_inode_of_bytes (replicate 336 0)); [by unfold root_dinode; rewrite Z.add_0_l|done|].
  constructor; cbn [root_dinode di_mode di_dev di_rdev di_nlink di_size di_addr]; [done|done|done|done|done| |done].
  constructor; [lia|]. apply Forall_replicate. lia.
Qed.

Lemma cons_dinode_read :
  d_inode_of (d_inode_bytes [0; 0; 0; 0] cons_dinode ++ replicate 344 0) 0 = Some (DInode FS_IMODE_DEV 0 CONS_DEV 1 0 (replicate 16 0)).
Proof.
  apply (d_inode_of_bytes [] [0; 0; 0; 0] cons_dinode (replicate 344 0)); [done|].
  constructor; cbn [cons_dinode di_mode di_dev di_rdev di_nlink di_size di_addr]; [done|done|done|done|done| |done].
  apply Forall_replicate. lia.
Qed.

(** A block of the image as the kernel's memory disk transfers it. *)
Definition block_of (m : mem) (b : Z) : option (list Z) := image_read m (BSIZE * b) (Z.to_nat BSIZE).

(** C39.  The image [mkfs] makes of a file of zeros is a file system as the kernel
    reads it: the superblock describes areas for the inode bitmap, the block
    bitmap, the inodes and the data that are large enough, follow each other and
    end with the image, leaving at most one block unused; the inodes 0 to 3 and
    the first data block are taken; inode 2, where [read_disk_inode] looks for
    it, is a directory whose block holds ".", ".." and "CON", and inode 3 is the
    console.  Every other block is still zero. *)
Theorem mkfs_correct m size nr n blk0 :
  mkfs_args size nr n -> (forall i, 0 <= i < BSIZE * n -> m !! i = Some 0) ->
  exists m' sb dir, mkfs size nr blk0 m = Ret tt m' /\
    (l ← block_of m' SUPER_BLOCK_BLK_NO; superblock_of l) = Some sb /\
    s_magic sb = FS_MAGIC_NR /\ s_max_size sb = n /\ s_ninodes sb = nr /\
    nr <= s_imap_blocks sb * BITS_PER_BLOCK /\ s_nblocks sb <= s_bmap_blocks sb * BITS_PER_BLOCK /\
    let imap := RESV_BLOCK_NR + SUPER_BLOCK_BLK_NR in
    let bmap := imap + s_imap_blocks sb in
    let ino := bmap + s_bmap_blocks sb in
    nr <= (s_firstdata_block sb - ino) * INODES_PER_BLOCK /\ n - 1 <= s_firstdata_block sb + s_nblocks sb <= n /\
    block_of m' imap = Some (15 :: replicate 511 0) /\ block_of m' bmap = Some (1 :: replicate 511 0) /\
    (l ← block_of m' (ino + ROOT_DENT_INO / INODES_PER_BLOCK); d_inode_of l (D_INODE_SIZE * (ROOT_DENT_INO mod INODES_PER_BLOCK)))
      = Some (DInode FS_IMODE_DIR 0 0 1 BSIZE (s_firstdata_block sb :: replicate 15 0)) /\
    (l ← block_of m' (ino + CONS_INO / INODES_PER_BLOCK); d_inode_of l (D_INODE_SIZE * (CONS_INO mod INODES_PER_BLOCK)))
      = Some (DInode FS_IMODE_DEV 0 CONS_DEV 1 0 (replicate 16 0)) /\
    block_of m' (s_firstdata_block sb) = Some dir /\
    (forall k ino name, (k, ino, name) ∈ [(0, ROOT_DENT_INO, [46; 0]); (1, ROOT_DENT_INO, [46; 46; 0]); (2, CONS_INO, CONS_NAME)] ->
       (l ← bytes_at dir (D_DIRENT_SIZE * k) 64; d_dirent_of l) = Some (DDirent ino (name ++ replicate (60 - length name) 0))) /\
    (forall b, 0 <= b < n -> b ∉ [SUPER_BLOCK_BLK_NO; imap; bmap; ino; ino + 1; s_firstdata_block sb] -> block_of m' b = Some zero_block).
Proof.
  intros HA Hz. assert (img m (fun _ => zero_block) n) as HI.
  { intros b Hb. split; [done|]. intros i Hi. rewrite Hz by (unfold BSIZE; lia). symmetry. by apply lookup_replicate_2. }
  destruct (mkfs_run m size nr n blk0 HA HI) as (m' & E & HM).
  pose proof (layout_ok _ _ _ HA) as (L1 & L2 & L3 & L4 & L5 & L6 & L7 & L8). pose proof HA as (En & Hs & Hn & Hnr & Hr).
  assert (firstdata_block n nr = 2 + imap_blocks nr + inode_blocks nr + bmap_blocks n nr) as Ef by done.
  set (sb := Superblock n nr (imap_blocks nr) (bmap_blocks n nr) (firstdata_block n nr) (data_blocks n nr) FS_MAGIC_NR 0).
  set (ib := 2 + imap_blocks nr + bmap_blocks n nr).
  assert (forall b, 0 <= b < n -> block_of m' b = Some (mkfs_blocks size nr n b)) as HB.
  { intros b Hb. unfold block_of. rewrite <-(Z.add_0_r (BSIZE * b)). eapply img_read; [exact HM|done|]. apply bytes_at_all. by apply HM. }
  exists m', sb, root_block. split; [done|]. cbn [s_magic s_max_size s_ninodes s_imap_blocks s_bmap_blocks s_firstdata_block s_nblocks sb].
  change (RESV_BLOCK_NR + SUPER_BLOCK_BLK_NR) with 2. change SUPER_BLOCK_BLK_NO with 1. fold ib.
  change (ROOT_DENT_INO / INODES_PER_BLOCK) with 0. change (CONS_INO / INODES_PER_BLOCK) with 1. rewrite Z.add_0_r.
  rewrite !HB by lia. unfold mkfs_blocks. fold ib.
  assert (Forall (fun b => - 2 ^ 63 <= b < 2 ^ 63) (replicate 16 0)) as HF by (by apply Forall_replicate).
  split_and!; try (done || lia).
  - rewrite !upd_ne, upd_eq by lia. cbn [mbind option_bind]. unfold sb_words. rewrite word_block_super. unfold u32. by rewrite !wrap_small by lia.
  - rewrite !upd_ne, upd_eq by lia. done.
  - rewrite !upd_ne, upd_eq by lia. done.
  - rewrite !upd_ne, upd_eq by lia. cbn [mbind option_bind].
    apply root_dinode_read. lia.
  - rewrite !upd_ne, upd_eq by lia. cbn [mbind option_bind].
    apply cons_dinode_read.
  - by rewrite upd_eq.
  - intros k ino name Hin. repeat (apply elem_of_cons in Hin as [[= -> -> ->]|Hin]; [reflexivity|]). by apply elem_of_nil in Hin.
  - intros b Hb Hni. rewrite HB by done. unfold mkfs_blocks. fold ib. rewrite !upd_ne by set_solver. done.
Qed.

Lemma mkfs_correct_witness :
  exists m', mkfs (24 * 512) 9 0 (zero_bytes 12288) = Ret tt m' /\ block_of m' 2 = Some (15 :: replicate 511 0).
Proof.
  destruct (mkfs_correct (zero_bytes 12288) (24 * 512) 9 24 0)
    as (m' & sb & dir & E & _ & _ & _ & _ & _ & _ & _ & _ & H & _).
  - split_and!; (done || by vm_compute).
  - intros i Hi. change (BSIZE * 24) with 12288 in Hi. by apply zero_bytes_at.
  - exists m'. split; [exact E|exact H].
Defined.
