(* ===== verification/MkfsTree.v ===== *)
(** The kernel on a disk made by mkfs (tools/fs/mkfs.c, fs/inode.c): the image
    holds the tree of a new file system, and the kernel finds the console in
    it by its path name. *)
From S2P Require Import Prelude KList Kernel WaitQueue CString FsState Blkio Coherence Inode DiskLayout InodeLock Directory Namei FsWitness Mkfs.

Implicit Types (s : kst fsst) (bs : list Z) (v : inode).

(** ** The tree of a new file system *)

Definition root_entries : list (Z * list Z) :=
  [(ROOT_DENT_INO, [46]); (ROOT_DENT_INO, [46; 46]); (CONS_INO, [67; 79; 78])] ++ replicate 5 (0, []).
Definition mkfs_tree (n nr : Z) : tree :=
  {[ROOT_DENT_INO := (DInode FS_IMODE_DIR 0 0 1 BSIZE (firstdata_block n nr :: replicate 15 0), root_entries);
    CONS_INO := (cons_dinode, [])]}.
Definition mkfs_super (n nr : Z) : superblock :=
  Superblock n nr (imap_blocks nr) (bmap_blocks n nr) (firstdata_block n nr) (data_blocks n nr) FS_MAGIC_NR 0.

Lemma img_block_at m f n b : n < 2 ^ 31 -> img m f n -> 0 <= b < n -> block_at m b (f b).
Proof.
  intros Hn HI Hb. destruct (HI b Hb) as [Hl HB]. split; [exact Hl|]. intros i Hi.
  assert (u64 (b * BSIZE) = BSIZE * b) as -> by (unfold u64; rewrite wrap_small by (unfold BSIZE in *; lia); lia).
  rewrite <-(Z2Nat.id i) at 1 by lia. apply HB. unfold BSIZE in Hi. lia.
Qed.

Lemma root_block_entries k e : root_entries !! k = Some e ->
  0 <= e.1 < 2 ^ 32 /\ nonzero e.2 /\ exists pad, (length e.2 + 1 + length pad = 60)%nat /\
    forall i : nat, (i < 64)%nat -> root_block !! (64 * k + i)%nat = (le_encode 4 e.1 ++ cstr e.2 pad) !! i.
Proof.
  intros Hk. assert (k < 8)%nat as Hk8 by (apply lookup_lt_Some in Hk; exact Hk).
  assert (nonzero e.2 /\ (0 <= e.1 < 2 ^ 32) /\ (length e.2 <= 3)%nat /\
    take 64 (drop (64 * k) root_block) = le_encode 4 e.1 ++ cstr e.2 (replicate (59 - length e.2) 0)) as (H1 & H2 & H3 & H4).
  { do 8 (destruct k as [|k]; [injection Hk as <-; split_and!; [repeat (constructor; [lia|]); constructor|by vm_compute|by vm_compute|cbn; lia|reflexivity]|]). lia. }
  split_and!; [apply H2|apply H2|done|]. exists (replicate (59 - length e.2) 0). rewrite length_replicate. split; [lia|].
  intros i Hi. rewrite <-H4. rewrite lookup_take_lt by done. by rewrite lookup_drop.
Qed.

Lemma mkfs_tree_ok m size nr n : mkfs_args size nr n -> img m (mkfs_blocks size nr n) n -> fs_tree m (mkfs_super n nr) (mkfs_tree n nr).
Proof.
  intros HA HM. pose proof (layout_ok _ _ _ HA) as (L1 & L2 & L3 & L4 & L5 & L6 & L7 & L8). pose proof HA as (En & Hs & Hn & Hnr & Hr).
  assert (firstdata_block n nr = 2 + imap_blocks nr + inode_blocks nr + bmap_blocks n nr) as Ef by done.
  set (ib := 2 + imap_blocks nr + bmap_blocks n nr).
  assert (forall b, 0 <= b < n -> block_at m b (mkfs_blocks size nr n b)) as HB by (intros b; by apply img_block_at).
  assert (forall ino, inode_block (mkfs_super n nr) ino = ib + ino / INODES_PER_BLOCK) as Hib.
  { intros ino. unfold inode_block. f_equal. cbn. apply wrap_small. unfold RESV_BLOCK_NR, SUPER_BLOCK_BLK_NR. lia. }
  split.
  - eexists. split; [apply HB; unfold SUPER_BLOCK_BLK_NO; lia|]. unfold mkfs_blocks, SUPER_BLOCK_BLK_NO. fold ib.
    rewrite !upd_ne, upd_eq by lia. unfold sb_words. rewrite word_block_super. unfold u32. by rewrite !wrap_small by lia.
  - by eexists.
  - intros i d ents Ht. unfold disk_inode. rewrite Hib. unfold mkfs_tree in Ht. apply lookup_insert_Some in Ht as [[<- [= <- <-]]|[_ [<- [= <- <-]]%lookup_singleton_Some]].
    all: split; [|done]; eexists; split; [apply HB; change (ROOT_DENT_INO / INODES_PER_BLOCK) with 0; change (CONS_INO / INODES_PER_BLOCK) with 1; lia|].
    all: change (ROOT_DENT_INO / INODES_PER_BLOCK) with 0; change (CONS_INO / INODES_PER_BLOCK) with 1; unfold mkfs_blocks; fold ib.
    + rewrite Z.add_0_r, !upd_ne, upd_eq by lia. apply root_dinode_read. lia.
    + rewrite !upd_ne, upd_eq by lia. apply cons_dinode_read.
  - intros i d ents Ht Hd. unfold mkfs_tree in Ht. apply lookup_insert_Some in Ht as [[<- [= <- <-]]|[_ [<- [= <- <-]]%lookup_singleton_Some]]; [|done].
    split.
    2: { intros e He Hz. cbn in He. repeat (apply elem_of_cons in He as [->|He]; [first [by destruct Hz|by eexists]|]). by apply elem_of_nil in He. }
    assert (block_at m (firstdata_block n nr) root_block) as [HBl HBr].
    { pose proof (HB (firstdata_block n nr) ltac:(lia)) as H. unfold mkfs_blocks in H. by rewrite upd_eq in H. }
    assert (forall p, 0 <= p < 512 -> p / BSIZE = 0) as Hdiv by (unfold BSIZE; intros; Z.to_euclidean_division_equations; lia).
    split; [done|done| |].
    + split; [done|]. cbn [inode_of_disk i_size i_addr di_size di_addr]. intros p Hp. rewrite Hdiv by (unfold BSIZE in Hp; lia).
      exists (firstdata_block n nr). split_and!; [done|lia|]. eapply block_at_mapped. by split.
    + intros k e Hk. destruct (root_block_entries k e Hk) as (H1 & H2 & pad & H3 & H4). split; [exact H1|]. split; [exact H2|].
      exists pad. split; [done|]. intros j Hj. assert (k < 8)%nat as Hk8 by (apply lookup_lt_Some in Hk; exact Hk).
      unfold file_byte. cbn [inode_of_disk i_addr di_addr]. rewrite Hdiv by lia.
      match goal with |- (?l ≫= ?f) = _ => change (f (firstdata_block n nr) = (le_encode 4 e.1 ++ cstr e.2 pad) !! Z.to_nat j) end. cbv beta.
      rewrite (Z.mod_small _ BSIZE) by (unfold BSIZE; lia). rewrite HBr by (unfold BSIZE; lia).
      rewrite <-(H4 (Z.to_nat j)) by lia. f_equal. lia.
Qed.

(** ** A kernel that has just started *)

(** The inode cache after [inode_cache_init], on a disk at rest. *)
Record started (dr : device_driver) s bs : Prop := {
  st_disk : disk_ok ROOT_DEV dr s bs;
  st_quiet : quiet s MtxIcache;
  st_wait : forall p, p ∈ slots -> is_ring (links s) (WqHead (inode_waiters p)) [];
  st_free : forall p, p ∈ slots -> exists v, inodes (ext s) !! p = Some v /\ ref v = 0 }.

Lemma total_const f c l : (forall p, p ∈ l -> f p = c) -> total f l = c * Z.of_nat (length l).
Proof.
  induction l as [|p l IH]; intros H; cbn [total foldr length]; [lia|]. fold (total f l). rewrite H, IH by set_solver. lia.
Qed.

Lemma started_ok dr sb t s bs : started dr s bs -> fs_tree (image (ext s)) sb t -> walk_ok dr sb t NULL s bs /\ free_slots s = NINODE.
Proof.
  intros [H1 H2 H3 H4] HT. split.
  - split; try done.
    + split; [intros p Hp; destruct (H4 p Hp) as (v & -> & _); by eexists| |].
      * intros p v Hp Hv. destruct (H4 p Hp) as (w & Hw & Hr). rewrite Hw in Hv. injection Hv as ->. lia.
      * intros dev n p p' Hp _. destruct (H4 p Hp) as (v & Hv & Hr). unfold caches at 1. by rewrite Hv, Hr.
    + intros p v Hp Hv Hr. destruct (H4 p Hp) as (w & Hw & Hr'). rewrite Hw in Hv. injection Hv as ->. lia.
  - unfold free_slots. rewrite (total_const _ 1); [done|]. intros p Hp. destruct (H4 p Hp) as (v & -> & Hr). cbn. by rewrite Hr.
Qed.

(** "/CON" *)
Definition con_path : list Z := [47; 67; 79; 78; 0].

Lemma con_elements : elements con_path = [[67; 79; 78]].
Proof. done. Qed.

Lemma con_resolves n nr : resolve (mkfs_tree n nr) false ROOT_DENT_INO [67; 79; 78] [] = Some CONS_INO.
Proof. unfold resolve, dir_entries, mkfs_tree. rewrite lookup_insert_eq. reflexivity. Qed.

(** C15.  From the tool to the kernel.  On the image [mkfs] makes, a kernel that has
    just started finds the file "/CON": [inode_namei] returns a reference to
    inode 3, and locking it loads a device file for the console. *)
Theorem mkfs_console m size nr n blk0 :
  mkfs_args size nr n -> (forall i, 0 <= i < BSIZE * n -> m !! i = Some 0) ->
  exists m', mkfs size nr blk0 m = Ret tt m' /\
    forall fuel dr s bs name, started dr s bs -> image (ext s) = m' -> length name = 60%nat ->
      exists ip v s', (ip ← inode_namei fuel name con_path; inode_lock fuel ip;; v ← inode_ld ip; mret (ip, v)) s = Ret (ip, v) s' /\
        inum v = CONS_INO /\ ref v = 1 /\ i_mode v = FS_IMODE_DEV /\ i_rdev v = CONS_DEV /\ i_busy v = true /\
        image (ext s') = m' /\ forall k, refs s' k = one CONS_INO k.
Proof.
  intros HA Hz. assert (img m (fun _ => zero_block) n) as HI.
  { intros b Hb. split; [done|]. intros i Hi. rewrite Hz by (unfold BSIZE; lia). symmetry. by apply lookup_replicate_2. }
  destruct (mkfs_run m size nr n blk0 HA HI) as (m' & E & HM). exists m'. split; [done|]. intros fuel dr s bs name HS Him Hl.
  destruct (started_ok dr (mkfs_super n nr) (mkfs_tree n nr) s bs HS) as [HW Hf].
  { rewrite Him. by apply (mkfs_tree_ok m' size). }
  pose proof (path2inode_walk fuel dr (mkfs_super n nr) (mkfs_tree n nr) s bs 0 con_path name HW) as HP.
  rewrite con_elements in HP. unfold walk_result in HP. change (negb (0 =? 0)) with false in HP. rewrite con_resolves in HP. destruct HP as (ip & rest & s1 & bs1 & E1 & [W1 [W2 W2'] W3 W4 W5]);
    [rewrite Hf; by vm_compute|done|apply (bool_decide_unpack _); by vm_compute|apply (bool_decide_unpack _); by vm_compute|by repeat constructor|done|].
  assert (forall k, refs s k = 0) as Hr0.
  { intros k. apply total_zero. intros p Hp. destruct (st_free _ _ _ HS p Hp) as (v & -> & Hr). cbn. rewrite Hr. by destruct (_ && _). }
  destruct (ic_slots _ (wk_icache _ _ _ _ _ _ W1) ip W2) as [v Hv]. destruct (caches_elim _ _ _ _ Hv W2') as (Hr & Hd & Hn).
  destruct (walk_lock fuel dr _ _ s1 bs1 ip v W1 W2 Hv Hr) as (s2 & bs2 & w & d & ents & E2 & W6 & Hw & Hnw & Hrw & Ht & He & HR2 & _ & Him2).
  assert (refs s2 CONS_INO = ref w) as Href.
  { apply (refs_held s2 CONS_INO ip w); [apply W6|done|done| |by rewrite Hnw|done]. apply (wk_slots _ _ _ _ _ _ W6 ip w W2 Hw Hrw). }
  exists ip, w, s2. split_and!.
  - unfold inode_namei. rewrite (bind_ret _ _ s ip s1) by (by rewrite (bind_ret _ _ _ _ _ E1)).
    by rewrite (bind_ret _ _ _ _ _ E2), (bind_ret _ _ _ _ _ (inode_ld_eq _ _ _ Hw)).
  - congruence.
  - rewrite <-Href, HR2, W3, Hr0. done.
  - rewrite Hn in Ht. injection Ht as <- <-. by rewrite He.
  - rewrite Hn in Ht. injection Ht as <- <-. by rewrite He.
  - rewrite (gd_busy _ _ _ _ (wk_slots _ _ _ _ _ _ W6 ip w W2 Hw Hrw)). apply Z.eqb_refl.
  - congruence.
  - intros k. rewrite HR2, W3, Hr0. lia.
Qed.

(** ** A concrete kernel *)

(** The state of FsWitness.v with the image [m], the inode cache empty and a
    wait queue for every slot. *)
Definition boot_links : gmap loc (node loc) :=
  fsw_links ∪ list_to_map ((fun p => ring0 (WqHead (inode_waiters p))) <$> slots).
Definition boot_state (m : mem) : kst fsst :=
  with_links (map_ext fsw (fun f => with_inodes (with_image f m) (list_to_map ((fun i => (i, blank)) <$> slots)))) boot_links.

Lemma is_ring_mono (m m' : gmap loc (node loc)) h xs : m ⊆ m' -> is_ring m h xs -> is_ring m' h xs.
Proof.
  intros Hsub [HN HP]. split; [done|]. revert HP. generalize (h :: xs ++ [h]). induction l as [|a [|b l] IH]; [done|done|].
  intros [[H1 H2] HP]. split; [|by apply IH]. unfold lk, rd_next, rd_prev in *.
  destruct (m !! a) as [na|] eqn:Ea; [|done]. destruct (m !! b) as [nb|] eqn:Eb; [|done].
  rewrite (lookup_weaken _ _ _ _ Ea Hsub), (lookup_weaken _ _ _ _ Eb Hsub). done.
Qed.

Lemma ring_self (m : gmap loc (node loc)) h : m !! h = Some (Node h h) -> is_ring m h [].
Proof. intros E. split; [apply NoDup_singleton|]. split; [|done]. unfold lk, rd_next, rd_prev. by rewrite E. Qed.

Lemma boot_wait p : p ∈ slots -> is_ring boot_links (WqHead (inode_waiters p)) [].
Proof.
  intros Hp. assert (boot_links !! WqHead (inode_waiters p) = Some (Node (WqHead (inode_waiters p)) (WqHead (inode_waiters p)))) as E.
  { unfold boot_links. destruct (decide (p = 1)) as [->|Hne]; [by apply lookup_union_Some_l|]. rewrite lookup_union_r.
    - apply elem_of_list_to_map_1.
      + rewrite <-list_fmap_compose. apply NoDup_fmap_2; [|apply slots_nodup]. intros x y [= ?]. lia.
      + apply list_elem_of_fmap. by exists p.
    - apply not_elem_of_list_to_map_1. cbn. unfold inode_waiters.
      rewrite !elem_of_cons, elem_of_nil. intros H. repeat (destruct H as [H|H]; [try discriminate H; injection H as H; lia|]). done. }
  exact (ring_self _ _ E).
Qed.

Section boot.
Context (m : mem) (L : gmap loc (node loc)) (I : gmap Z inode) (HL : fsw_links ⊆ L).
Local Definition booting : kst fsst := with_links (map_ext fsw (fun f => with_inodes (with_image f m) I)) L.

Local Lemma booting_quiet mtx : mtx ∈ [MtxBcache; MtxDevsw; MtxDrv 1; MtxIcache; MtxFdtbl] -> quiet booting mtx.
Proof. intros H. destruct (fsw_quiet mtx H) as [H1 H2]. split; [exact H1|]. exact (is_ring_mono _ _ _ _ HL H2). Qed.

Local Lemma booting_disk : disk_ok 1 fsw_driver booting [0; 1].
Proof.
  assert (quiet booting MtxBcache /\ quiet booting MtxDevsw /\ quiet booting (MtxDrv 1)) as (Q1 & Q2 & Q3)
    by (split_and!; apply booting_quiet; set_solver).
  destruct fsw_disk as [[C1 C2] D2 (R1 & R2 & R3) D4 D5 D6]. split.
  - split; [exact (is_ring_mono _ _ _ _ HL C1)|exact C2].
  - exact Q1.
  - split; [exact Q2|]. split; [exact Q3|exact R3].
  - intros b Hb. exact (is_ring_mono _ _ _ _ HL (D4 b Hb)).
  - intros b v Hb Hv. assert (v = fsw_buf) as -> by exact (fsw_bufs fsw_image fsw_inode b v Hb Hv). split; [reflexivity|reflexivity|reflexivity|intros H; discriminate H].
  - exact D6.
Qed.

Local Lemma booting_started : (forall p, p ∈ slots -> is_ring L (WqHead (inode_waiters p)) []) ->
  (forall p, p ∈ slots -> I !! p = Some blank) -> started fsw_driver booting [0; 1].
Proof.
  intros HW HI. split; [exact booting_disk|apply booting_quiet; set_solver|exact HW|]. intros p Hp. exists blank. split; [exact (HI p Hp)|done].
Qed.
End boot.

Lemma boot_started m : started fsw_driver (boot_state m) [0; 1].
Proof.
  apply (booting_started m boot_links); [apply map_union_subseteq_l|exact boot_wait|].
  intros p Hp. apply elem_of_list_to_map_1.
  - rewrite <-list_fmap_compose. apply NoDup_fmap_2; [intros x y; cbn; lia|apply slots_nodup].
  - apply list_elem_of_fmap. by exists p.
Qed.

Lemma mkfs_console_witness : exists m' ip v s', mkfs (24 * 512) 9 0 (zero_bytes 12288) = Ret tt m' /\
  (ip ← inode_namei 5 (replicate 60 7) con_path; inode_lock 5 ip;; v ← inode_ld ip; mret (ip, v)) (boot_state m') = Ret (ip, v) s' /\ i_rdev v = CONS_DEV.
Proof.
  destruct (mkfs_console (zero_bytes 12288) (24 * 512) 9 24 0) as (m' & E & H).
  - split_and!; (done || by vm_compute).
  - intros i Hi. change (BSIZE * 24) with 12288 in Hi. by apply zero_bytes_at.
  - destruct (H 5%nat fsw_driver (boot_state m') [0; 1] (replicate 60 7)) as (ip & v & s' & E' & _ & _ & _ & Hd & _); [apply boot_started|done|done|].
    exists m', ip, v, s'. exact (conj E (conj E' Hd)).
Defined.

(** The parent of "/CON" in the same file system. *)
Lemma inode_path2inode_correct_witness : exists m' ip rest s',
  inode_path2inode 5 con_path 1 (replicate 60 7) (boot_state m') = Ret (ip, cstr [67; 79; 78] rest) s' /\ caches s' ROOT_DEV ROOT_DENT_INO ip = true.
Proof.
  assert (mkfs_args (24 * 512) 9 24) as HA by (split_and!; (done || by vm_compute)).
  destruct (mkfs_run (zero_bytes 12288) (24 * 512) 9 24 0 HA) as (m' & _ & HM).
  { intros b Hb. split; [done|]. intros i Hi. rewrite zero_bytes_at by (unfold BSIZE; lia). symmetry. by apply lookup_replicate_2. }
  destruct (started_ok fsw_driver (mkfs_super 24 9) (mkfs_tree 24 9) (boot_state m') [0; 1] (boot_started m')) as [HW Hf];
    [by apply (mkfs_tree_ok m' (24 * 512))|].
  destruct (inode_path2inode_correct 5 fsw_driver (mkfs_super 24 9) (mkfs_tree 24 9) (boot_state m') [0; 1] 1 con_path (replicate 60 7) HW) as [H _];
    [rewrite Hf; by vm_compute|done|apply (bool_decide_unpack _); by vm_compute|apply (bool_decide_unpack _); by vm_compute|by repeat constructor|].
  specialize (H eq_refl). rewrite con_elements in H. unfold walk_result in H.
  assert (resolve (mkfs_tree 24 9) (negb (1 =? 0)) ROOT_DENT_INO [67; 79; 78] [] = Some ROOT_DENT_INO) as E.
  { unfold resolve, dir_entries, mkfs_tree. rewrite lookup_insert_eq. reflexivity. }
  rewrite E in H. destruct H as (ip & rest & s' & bs' & E1 & [_ [_ W] _ _ _]). exists m', ip, rest, s'. exact (conj E1 W).
Defined.
