(* ===== verification/Acpi.v ===== *)
(** hal/x64/acpi.c: finding the ACPI tables of the firmware and the processors
    and interrupt controllers they describe.

    The memory is a map of bytes at their kernel addresses, which the code only
    reads; [B] is [KERN_VMA_BASE].  A structure copied into a local variable is
    the list of its bytes.  An in/out parameter [idxp] is a value passed and
    returned, so that the assertions [idxp != NULL] hold. *)
From S2P Require Import Prelude CString FsState Blkio Coherence DiskLayout PageTable.

Definition ACPI_SDT_TRANS_TYPE_NONE : Z := 0.
Definition ACPI_SDT_TRANS_TYPE_FACP : Z := 1.
Definition ACPI_SDT_TRANS_TYPE_APIC : Z := 2.
Definition ACPI_SDT_TRANS_TYPE_HPET : Z := 3.
Definition ACPI_EBDA_EBDAP_ADDR : Z := 0x40E.
Definition ACPI_EBDA_LEN : Z := 0x400.
Definition ACPI_RSDP_BIOS_AREA_START : Z := 0xE0000.
Definition ACPI_RSDP_BIOS_AREA_END : Z := 0x100000.
Definition ACPI_RSD_CHECKSUM_LEN : Z := 20.
Definition ACPI_RSD_SIGNATURE_LEN : Z := 8.
Definition ACPI_SDT_SIGNATURE_LEN : Z := 4.
Definition MAX_RSDT : Z := 35.
Definition ACPI_MADT_TYPE_LAPIC : Z := 0.
Definition ACPI_MADT_TYPE_IOAPIC : Z := 1.
Definition ACPI_MADT_LAPIC_FLAGS_PROC_ENABLED : Z := 0x1.

(** "RSD PTR ", "RSDT", "APIC", "FACP" and "HPET" *)
Definition ACPI_RSD_SIGNATURE_STRING : list Z := [82; 83; 68; 32; 80; 84; 82; 32].
Definition RSDT_NAME : list Z := [82; 83; 68; 84].
Definition APIC_NAME : list Z := [65; 80; 73; 67].
Definition FACP_NAME : list Z := [70; 65; 67; 80].
Definition HPET_NAME : list Z := [72; 80; 69; 84].

(** Sizes of [acpi_rsdp], [acpi_sdt_header], [acpi_rsdt] and [acpi_madt_hdr],
    and the offsets of the members read. *)
Definition ACPI_RSDP_SIZE : Z := 24.
Definition RSDP_RSDT_ADDR : Z := 16.
Definition ACPI_SDT_HEADER_SIZE : Z := 36.
Definition SDT_LENGTH : Z := 4.
Definition ACPI_RSDT_SIZE : Z := ACPI_SDT_HEADER_SIZE + 4 * MAX_RSDT.
Definition ACPI_MADT_HDR_SIZE : Z := 44.
Definition LAPIC_FLAGS : Z := 4.

Record acpi_sdt_trans : Type := AcpiSdtTrans { sdt_type : Z; sdt_paddr : Z; sdt_kaddr : Z; sdt_length : Z }.
Record acpi_info : Type := AcpiInfo { rsdp : list Z; sdt_trans : list acpi_sdt_trans; sdt_count : Z }.

Record acpist : Type := AcpiSt { amem : mem; g_acpi_info : acpi_info }.
Definition C (A : Type) : Type := M acpist A.

Definition info_zero : acpi_info :=
  AcpiInfo (replicate (Z.to_nat ACPI_RSDP_SIZE) 0) (replicate (Z.to_nat MAX_RSDT) (AcpiSdtTrans 0 0 0 0)) 0.
Definition set_info (f : acpi_info -> acpi_info) : C unit := s ← get; put (AcpiSt (amem s) (f (g_acpi_info s))).

(** The [n] bytes at a kernel address. *)
Definition read_bytes (a n : Z) : C (list Z) := s ← get; deref (image_read (amem s) a (Z.to_nat n)).
Definition read_u8 (a : Z) : C Z := s ← get; deref (ld (amem s) a).
Definition read_u32 (a : Z) : C Z := l ← read_bytes a 4; mret (le_decode l).

(** The sum of bytes in a [uint8_t]. *)
Definition total8 (l : list Z) : Z := foldl (fun t b => u8 (t + b)) 0 l.

Section acpi.
Variable B : Z.

Definition acpi_copy_phys (phys len : Z) : C (list Z) := read_bytes (PHY_TO_KERN_STRAIGHT B phys) len.

Definition acpi_rsdp_test (a : Z) : C Z :=
  l ← read_bytes a ACPI_RSD_CHECKSUM_LEN;
  let total := Z.land (total8 l) 0xff in
  if negb (total =? 0) then mret 0
  else
    sig ← read_bytes a ACPI_RSD_SIGNATURE_LEN;
    rc ← deref (memcmp sig ACPI_RSD_SIGNATURE_STRING (Z.to_nat ACPI_RSD_SIGNATURE_LEN));
    if negb (rc =? 0) then mret 0 else mret 1.

(** [for(sp = first; last > sp; sp += 16)] of both areas: the address found. *)
Fixpoint rsdp_search (rounds : nat) (last sp : Z) : C (option Z) :=
  if sp <? last then
    match rounds with
    | O => stopM OutOfFuel
    | S rounds =>
        let rsdp := PHY_TO_KERN_STRAIGHT B sp in
        rc ← acpi_rsdp_test rsdp;
        if negb (rc =? 0) then mret (Some rsdp) else rsdp_search rounds last (u32 (sp + 16))
    end
  else mret None.
Definition rsdp_rounds (first last : Z) : nat := Z.to_nat ((last - first + 15) / 16).

Definition get_acpi_rsdp : C Z :=
  l ← acpi_copy_phys ACPI_EBDA_EBDAP_ADDR 2;
  let ebda := le_decode l in
  r ← (if negb (ebda =? 0) then
         let ebda := wrap 16 (Z.shiftl ebda 4) in
         rsdp_search (rsdp_rounds ebda (ebda + ACPI_EBDA_LEN)) (ebda + ACPI_EBDA_LEN) ebda
       else mret None);
  r ← match r with
      | Some a => mret (Some a)
      | None => rsdp_search (rsdp_rounds ACPI_RSDP_BIOS_AREA_START ACPI_RSDP_BIOS_AREA_END)
                  ACPI_RSDP_BIOS_AREA_END ACPI_RSDP_BIOS_AREA_START
      end;
  match r with
  | None => mret 0
  | Some a =>
      l ← read_bytes a ACPI_RSDP_SIZE;
      set_info (fun i => AcpiInfo l (sdt_trans i) (sdt_count i));;
      mret 1
  end.

Definition acpi_check_csum (tb : list Z) : Z := if total8 tb =? 0 then 0 else -1.

(** The value returned and the table read; the members read on the error paths
    are those of the header. *)
Definition read_sdt_at (addr size : Z) (name : list Z) : C (Z * list Z) :=
  tb ← acpi_copy_phys addr ACPI_SDT_HEADER_SIZE;
  rc ← deref (memcmp tb name (Z.to_nat ACPI_SDT_SIGNATURE_LEN));
  if negb (rc =? 0) then mret (-1, tb)
  else
    len ← deref (get_u32 tb SDT_LENGTH);
    if size <? len then mret (-1, tb)
    else
      tb ← acpi_copy_phys addr size;
      len ← deref (get_u32 tb SDT_LENGTH);
      covered ← deref (bytes_at tb 0 (Z.to_nat len));
      let rc := acpi_check_csum covered in
      if negb (rc =? 0) then mret (-1, tb) else mret (s32 len, tb).

(** The items from [t] to [end_]; [i] counts those of the type wanted. *)
Fixpoint madt_loop (rounds : nat) (end_ type idx i t : Z) : C (option Z) :=
  if t <? end_ then
    match rounds with
    | O => stopM OutOfFuel
    | S rounds =>
        ty ← read_u8 t;
        if (type =? ty) && (u32 i =? idx) then mret (Some t)
        else
          len ← read_u8 (t + 1);
          if len =? 0 then mret None
          else madt_loop rounds end_ type idx (if type =? ty then i + 1 else i) (t + len)
    end
  else mret None.

(** The address of the item, or [None] for NULL; [*idxp] keeps its value. *)
Definition madt_get_typed_item (hdr type idx : Z) : C (option Z) :=
  len ← read_u32 (hdr + SDT_LENGTH);
  madt_loop (Z.to_nat (len - ACPI_MADT_HDR_SIZE)) (hdr + len) type idx 0 (hdr + ACPI_MADT_HDR_SIZE).

Fixpoint table_loop (n : nat) (type i : Z) : C Z :=
  match n with
  | O => mret NULL
  | S n =>
      s ← get;
      t ← deref (if 0 <=? i then sdt_trans (g_acpi_info s) !! Z.to_nat i else None);
      if sdt_type t =? type then mret (sdt_kaddr t) else table_loop n type (i + 1)
  end.
Definition acpi_get_table_base (type : Z) : C Z := s ← get; table_loop (Z.to_nat (sdt_count (g_acpi_info s))) type 0.

(** The item, and the index stored in [*idxp]. *)
Definition acpi_get_lapic (idx : Z) : C (option Z * Z) :=
  madt_hdr ← acpi_get_table_base ACPI_SDT_TRANS_TYPE_APIC;
  if (idx =? 0) && (madt_hdr =? NULL) then mret (None, idx)
  else
    ret ← madt_get_typed_item madt_hdr ACPI_MADT_TYPE_LAPIC idx;
    match ret with
    | None => mret (None, idx)
    | Some a =>
        flags ← read_u32 (a + LAPIC_FLAGS);
        if ctrue (Z.land flags ACPI_MADT_LAPIC_FLAGS_PROC_ENABLED) then mret (Some a, u32 (idx + 1)) else mret (None, idx)
    end.

Definition acpi_get_ioapic (idx : Z) : C (option Z * Z) :=
  madt_hdr ← acpi_get_table_base ACPI_SDT_TRANS_TYPE_APIC;
  if (idx =? 0) && (madt_hdr =? NULL) then mret (None, idx)
  else
    ret ← madt_get_typed_item madt_hdr ACPI_MADT_TYPE_IOAPIC idx;
    match ret with None => mret (None, idx) | Some a => mret (Some a, u32 (idx + 1)) end.

Definition sdt_sig (hdr : list Z) : C Z :=
  a ← deref (memcmp hdr APIC_NAME (Z.to_nat ACPI_SDT_SIGNATURE_LEN));
  if a =? 0 then mret ACPI_SDT_TRANS_TYPE_APIC
  else
    f ← deref (memcmp hdr FACP_NAME (Z.to_nat ACPI_SDT_SIGNATURE_LEN));
    if f =? 0 then mret ACPI_SDT_TRANS_TYPE_FACP
    else
      h ← deref (memcmp hdr HPET_NAME (Z.to_nat ACPI_SDT_SIGNATURE_LEN));
      if h =? 0 then mret ACPI_SDT_TRANS_TYPE_HPET else mret ACPI_SDT_TRANS_TYPE_NONE.

(** One round of the loop over the tables. *)
Definition sdt_entry (rsdt : list Z) (i : Z) : C unit :=
  pa ← deref (get_u32 rsdt (ACPI_SDT_HEADER_SIZE + 4 * i));
  hdr ← acpi_copy_phys pa ACPI_SDT_HEADER_SIZE;
  ty ← sdt_sig hdr;
  len ← deref (get_u32 hdr SDT_LENGTH);
  s ← get;
  _ ← deref (sdt_trans (g_acpi_info s) !! Z.to_nat i);
  set_info (fun g => AcpiInfo (rsdp g) (<[Z.to_nat i := AcpiSdtTrans ty pa (PHY_TO_KERN_STRAIGHT B pa) len]> (sdt_trans g)) (sdt_count g)).

Definition x64_acpi_init : C unit :=
  set_info (fun _ => info_zero);;
  rc ← get_acpi_rsdp;
  if negb (rc =? 1) then mret tt
  else
    s ← get;
    addr ← deref (get_u32 (rsdp (g_acpi_info s)) RSDP_RSDT_ADDR);
    r ← read_sdt_at addr ACPI_RSDT_SIZE RSDT_NAME;
    set_info (fun g => AcpiInfo (rsdp g) (sdt_trans g) (s32 (u64 (r.1 - ACPI_SDT_HEADER_SIZE) / 4)));;
    s ← get;
    forM (seqZ 0 (sdt_count (g_acpi_info s))) (sdt_entry r.2).
End acpi.

(** ** Bytes *)

Definition bytes (l : list Z) : Prop := Forall (fun b => 0 <= b < 256) l.
Definition sum (l : list Z) : Z := foldr Z.add 0 l.

Lemma total8_sum l t : foldl (fun t b => u8 (t + b)) (t mod 256) l = (t + sum l) mod 256.
Proof.
  revert t. induction l as [|b l IH]; intros t; cbn; [by rewrite Z.add_0_r|].
  unfold u8, wrap. change (2 ^ 8) with 256. rewrite Zplus_mod_idemp_l, IH. f_equal. unfold sum. lia.
Qed.

Lemma total8_eq l : total8 l = sum l mod 256.
Proof. exact (total8_sum l 0). Qed.

Lemma memcmp_spec n l1 l2 : bytes l1 -> bytes l2 -> (n <= length l1)%nat -> (n <= length l2)%nat ->
  exists r, memcmp l1 l2 n = Some r /\ (r =? 0) = bool_decide (take n l1 = take n l2).
Proof.
  revert l1 l2. induction n as [|n IH]; intros l1 l2 H1 H2 Hl1 Hl2; [exists 0; split; [by destruct l1|]; symmetry; by apply bool_decide_eq_true|].
  destruct l1 as [|c1 l1]; [cbn in Hl1; lia|]. destruct l2 as [|c2 l2]; [cbn in Hl2; lia|].
  apply Forall_cons in H1 as [Hc1 H1]. apply Forall_cons in H2 as [Hc2 H2]. cbn [memcmp take].
  destruct (decide (c1 = c2)) as [->|Hne].
  - rewrite Z.sub_diag. destruct (IH l1 l2 H1 H2) as (r & E & Hr); [cbn in *; lia|cbn in *; lia|].
    exists r. split; [exact E|]. rewrite Hr. apply bool_decide_ext. split; [by intros ->|by intros [= ?]].
  - assert (s8 (c1 - c2) <> 0) as Hs.
    { unfold s8, swrap. change (2 ^ (8 - 1)) with 128. change (2 ^ 8) with 256. Z.to_euclidean_division_equations; lia. }
    rewrite (proj2 (Z.eqb_neq _ _) Hs). eexists. split; [done|]. rewrite (proj2 (Z.eqb_neq _ _) Hs).
    symmetry. apply bool_decide_eq_false. by intros [= ? _].
Qed.

Lemma image_read_take m a n l k : image_read m a n = Some l -> (k <= n)%nat -> image_read m a k = Some (take k l).
Proof.
  revert a l k. induction n as [|n IH]; intros a l k E Hk.
  { assert (k = O) as -> by lia. by destruct l. }
  cbn [image_read] in E. destruct (ld m a) as [v|] eqn:Ev; [|done]. cbn in E.
  destruct (image_read m (a + 1) n) as [l'|] eqn:E'; [|done]. injection E as <-.
  destruct k as [|k]; [done|]. cbn [image_read take]. rewrite Ev. cbn. by rewrite (IH _ _ k E') by lia.
Qed.

Lemma image_read_sub m a n l k j : image_read m a n = Some l -> (k + j <= n)%nat ->
  image_read m (a + Z.of_nat k) j = Some (take j (drop k l)).
Proof.
  revert a n l. induction k as [|k IH]; intros a n l E Hk; [rewrite Z.add_0_r, drop_0; eapply image_read_take; [exact E|lia]|].
  destruct n as [|n]; [lia|]. cbn [image_read] in E. destruct (ld m a) as [v|]; [|done]. cbn in E.
  destruct (image_read m (a + 1) n) as [l'|] eqn:E'; [|done]. injection E as <-. cbn [drop].
  replace (a + Z.of_nat (S k)) with (a + 1 + Z.of_nat k) by lia. eapply IH; [exact E'|lia].
Qed.

Lemma image_read_bytes m a n l : map_Forall (fun _ b => 0 <= b < 256) m -> image_read m a n = Some l -> bytes l /\ length l = n.
Proof.
  intros Hm. revert a l. induction n as [|n IH]; intros a l E; cbn [image_read] in E; [injection E as <-; by split; [constructor|]|].
  unfold ld in E. destruct (m !! a) as [v|] eqn:Ev; [|done]. cbn in E. destruct (image_read m (a + 1) n) as [l'|] eqn:E'; [|done].
  injection E as <-. destruct (IH _ _ E') as [H1 H2]. split; [|cbn; by rewrite H2]. constructor; [exact (Hm a v Ev)|done].
Qed.

(** ** The items of the MADT *)

(** The items from [t] on: their addresses and types.  An item of length 0 ends
    the table. *)
Inductive madt_items (m : mem) (end_ : Z) : Z -> list (Z * Z) -> Prop :=
| items_end t : end_ <= t -> madt_items m end_ t []
| items_stop t ty : t < end_ -> m !! t = Some ty -> m !! (t + 1) = Some 0 -> madt_items m end_ t [(t, ty)]
| items_next t ty len l : t < end_ -> m !! t = Some ty -> m !! (t + 1) = Some len -> 0 < len ->
    madt_items m end_ (t + len) l -> madt_items m end_ t ((t, ty) :: l).

Definition of_type (type : Z) (l : list (Z * Z)) : list Z := fst <$> filter (fun it => it.2 = type) l.

Lemma madt_items_exist m end_ t : map_Forall (fun _ b => 0 <= b < 256) m -> mapped m t (end_ - t + 1) -> exists l, madt_items m end_ t l.
Proof.
  intros Hm. remember (Z.to_nat (end_ - t)) as n eqn:En. revert t En. induction (lt_wf n) as [n _ IH]. intros t En Hmap.
  destruct (decide (end_ <= t)) as [|Ht]; [by exists []; constructor|].
  destruct (Hmap t) as [ty Ety]; [lia|]. destruct (Hmap (t + 1)) as [len El]; [lia|]. pose proof (Hm _ _ El) as Hl. cbn in Hl.
  destruct (decide (len = 0)) as [->|Hne]; [exists [(t, ty)]; apply items_stop; [lia|done|done]|].
  destruct (IH (Z.to_nat (end_ - (t + len))) ltac:(lia) (t + len) eq_refl) as (l & Hl').
  { intros i Hi. apply Hmap. lia. }
  exists ((t, ty) :: l). apply (items_next _ _ _ _ len); [lia|done|done|lia|done].
Qed.

Lemma madt_items_range m end_ t l lo type a : madt_items m end_ t l -> lo <= t -> a ∈ of_type type l -> lo <= a < end_.
Proof.
  intros HI Hlo Ha. apply list_elem_of_fmap in Ha as ([a' ty'] & -> & [_ Ha]%list_elem_of_filter). cbn.
  induction HI as [t Ht|t ty Ht Ety El|t ty len l Ht Ety El Hl _ IH].
  - by apply elem_of_nil in Ha.
  - apply list_elem_of_singleton in Ha as [= -> ->]. lia.
  - apply elem_of_cons in Ha as [[= -> ->]|Ha]; [lia|]. apply IH; [lia|done].
Qed.

Lemma madt_loop_spec m end_ type idx s : amem s = m -> 0 <= idx < 2 ^ 32 -> forall t l, madt_items m end_ t l ->
  forall rounds i, (Z.to_nat (end_ - t) <= rounds)%nat -> 0 <= i <= idx -> end_ - t + i < 2 ^ 32 ->
  madt_loop rounds end_ type idx i t s = Ret (of_type type l !! Z.to_nat (idx - i)) s.
Proof.
  intros Em Hidx t l. induction 1 as [t Ht|t ty Ht Ety El|t ty len l Ht Ety El Hl _ IH]; intros rounds i Hr Hi Hb.
  { destruct rounds; cbn [madt_loop]; by rewrite (proj2 (Z.ltb_ge _ _) Ht). }
  all: destruct rounds as [|rounds]; [lia|]; cbn [madt_loop]; rewrite (proj2 (Z.ltb_lt _ _) Ht); unfold read_u8, ld; mred; rewrite Em, Ety; mred.
  all: unfold u32; rewrite (wrap_small 32 i) by lia; unfold of_type; rewrite filter_cons; cbn [snd].
  all: destruct (Z.eqb_spec type ty) as [->|Hne]; cbn [andb].
  all: repeat case_decide; try congruence; cbn [fmap list_fmap fst].
  all: try (destruct (Z.eqb_spec i idx) as [->|]; [by rewrite Z.sub_diag|]).
  all: rewrite Em, El; mred.
  - replace (Z.to_nat (idx - i)) with (S (Z.to_nat (idx - i - 1))) by lia. done.
  - done.
  - rewrite (proj2 (Z.eqb_neq len 0)) by lia. rewrite IH by lia. by replace (Z.to_nat (idx - i)) with (S (Z.to_nat (idx - (i + 1)))) by lia.
  - rewrite (proj2 (Z.eqb_neq len 0)) by lia. by rewrite IH by lia.
Qed.

(** ** The tables of the firmware, as a specification *)

Section spec.
Variable B : Z.
Hypothesis HB : 0 <= B /\ B + 2 ^ 33 <= 2 ^ 64.
Variable m : mem.
Hypothesis Hm : map_Forall (fun _ b => 0 <= b < 256) m.

(** A root pointer at a kernel address: 20 bytes with sum 0 that start with the signature. *)
Definition is_rsdp (a : Z) : bool :=
  if image_read m a 20 is Some l then (sum l mod 256 =? 0) && bool_decide (take 8 l = ACPI_RSD_SIGNATURE_STRING) else false.

(** The places searched, in order: the area the word at 40:0Eh points to, and the
    area of the BIOS. *)
Definition rsdp_places (ebda : Z) : list Z :=
  (if ebda =? 0 then [] else (fun k => B + (ebda * 16 mod 65536 + 16 * k)) <$> seqZ 0 64)
  ++ ((fun k => B + (0xE0000 + 16 * k)) <$> seqZ 0 8192).
Definition the_rsdp : option Z :=
  l ← image_read m (B + 0x40E) 2; head (filter is_rsdp (rsdp_places (le_decode l))).

(** The addresses in a table of tables that is signed, fits and has sum 0. *)
Definition rsdt_tables (tb : list Z) : list Z :=
  match get_u32 tb 4 with
  | Some len =>
      if bool_decide (take 4 tb = RSDT_NAME) && (len <=? 176) && (sum (take (Z.to_nat len) tb) mod 256 =? 0)
      then omap (fun i => get_u32 tb (36 + 4 * i)) (seqZ 0 ((len - 36) / 4)) else []
  | None => []
  end.
Definition firmware_tables : list Z :=
  default [] (a ← the_rsdp; l ← image_read m (a + 16) 4; rsdt_tables <$> image_read m (B + le_decode l) 176).

Definition table_type (pa : Z) : Z :=
  match image_read m (B + pa) 4 with
  | Some l => if bool_decide (l = APIC_NAME) then 2 else if bool_decide (l = FACP_NAME) then 1 else if bool_decide (l = HPET_NAME) then 3 else 0
  | None => 0
  end.

Lemma straight p : 0 <= p < 2 ^ 33 -> PHY_TO_KERN_STRAIGHT B p = B + p.
Proof. intros Hp. unfold PHY_TO_KERN_STRAIGHT, u64. rewrite wrap_small; lia. Qed.

Lemma read_bytes_eq s a n l : amem s = m -> image_read m a (Z.to_nat n) = Some l -> read_bytes a n s = Ret l s.
Proof. intros Es E. unfold read_bytes. mred. by rewrite Es, E. Qed.

Lemma rsdp_test_eq s a : amem s = m -> mapped m a 20 -> acpi_rsdp_test a s = Ret (cbool (is_rsdp a)) s.
Proof.
  intros Es Hmap. destruct (image_read_mapped m a 20 Hmap) as (l & E & Hl & _). destruct (image_read_bytes _ _ _ _ Hm E) as [Hb _].
  unfold acpi_rsdp_test, is_rsdp. mred. rewrite (read_bytes_eq s a ACPI_RSD_CHECKSUM_LEN l Es E), E. mred.
  rewrite land_ff, total8_eq, Zmod_mod. destruct (sum l mod 256 =? 0); cbn [negb andb]; [|done]. mred.
  rewrite (read_bytes_eq s a ACPI_RSD_SIGNATURE_LEN (take 8 l) Es); [|eapply image_read_take; [exact E|cbn; lia]]. mred.
  destruct (memcmp_spec 8 (take 8 l) ACPI_RSD_SIGNATURE_STRING) as (r & Er & Hr).
  - by apply Forall_take.
  - unfold bytes, ACPI_RSD_SIGNATURE_STRING. repeat constructor; lia.
  - rewrite length_take, Hl. cbn. lia.
  - cbn. lia.
  - change (Z.to_nat ACPI_RSD_SIGNATURE_LEN) with 8%nat. rewrite Er. mred. rewrite Hr, take_take.
    change (take 8 ACPI_RSD_SIGNATURE_STRING) with ACPI_RSD_SIGNATURE_STRING. cbn [Nat.min]. clear Hr. by destruct (bool_decide _).
Qed.

Lemma rsdp_search_eq s n : amem s = m -> forall sp last k,
  0 <= sp -> last = sp + 16 * Z.of_nat n -> last < 2 ^ 32 -> mapped m (B + sp) (last - sp + 4) ->
  rsdp_search B n last sp s =
    Ret (head (filter is_rsdp ((fun j => B + (sp + 16 * (j - k))) <$> seqZ k (Z.of_nat n)))) s.
Proof.
  intros Es. induction n as [|n IH]; intros sp last k Hsp Hl H32 Hmap; cbn [rsdp_search].
  { by rewrite (proj2 (Z.ltb_ge _ _)) by lia. }
  rewrite (proj2 (Z.ltb_lt _ _)) by lia. cbv zeta. rewrite straight by lia. mred.
  rewrite rsdp_test_eq; [|done|intros i Hi; apply Hmap; lia]. mred.
  rewrite seqZ_cons by lia. cbn [fmap list_fmap]. rewrite Z.sub_diag, Z.mul_0_r, Z.add_0_r, filter_cons.
  destruct (is_rsdp (B + sp)) eqn:E; cbn [cbool]; change (negb (1 =? 0)) with true; change (negb (0 =? 0)) with false; cbv iota.
  { by destruct (decide (Is_true true)). }
  destruct (decide (Is_true false)) as [[]|_]. unfold u32. rewrite wrap_small by lia.
  rewrite (IH _ _ (k + 1)); [|lia..|intros i Hi; apply Hmap; lia].
  replace (Z.pred (Z.of_nat (S n))) with (Z.of_nat n) by lia. change (Z.succ k) with (k + 1).
  do 3 f_equal. apply list_fmap_ext. intros i j _. f_equal. lia.
Qed.

Lemma rsdp_search_at s n sp last : amem s = m -> 0 <= sp -> last = sp + 16 * Z.of_nat n -> last < 2 ^ 32 ->
  mapped m (B + sp) (last - sp + 4) ->
  rsdp_search B n last sp s = Ret (head (filter is_rsdp ((fun k => B + (sp + 16 * k)) <$> seqZ 0 (Z.of_nat n)))) s.
Proof.
  intros Es H1 H2 H3 H4. rewrite (rsdp_search_eq s n Es sp last 0) by done.
  assert (((fun j => B + (sp + 16 * (j - 0))) <$> seqZ 0 (Z.of_nat n)) = ((fun k => B + (sp + 16 * k)) <$> seqZ 0 (Z.of_nat n))) as ->; [|reflexivity].
  apply list_fmap_ext. intros i j _. by rewrite Z.sub_0_r.
Qed.

Lemma rsdp_places_range e a : 0 <= e < 65536 -> a ∈ rsdp_places e -> B <= a <= B + 0xFFFF0.
Proof.
  intros He. unfold rsdp_places. rewrite elem_of_app. intros [Ha|Ha].
  - destruct (e =? 0); [by apply elem_of_nil in Ha|]. apply list_elem_of_fmap in Ha as (k & -> & Hk%elem_of_seqZ).
    Z.to_euclidean_division_equations; lia.
  - apply list_elem_of_fmap in Ha as (k & -> & Hk%elem_of_seqZ). lia.
Qed.

Lemma le_decode_bytes l : bytes l -> 0 <= le_decode l < 2 ^ (8 * Z.of_nat (length l)).
Proof.
  induction 1 as [|b l Hb _ IH]; [by cbn|]. cbn [le_decode length]. rewrite Nat2Z.inj_succ.
  replace (8 * Z.succ (Z.of_nat (length l))) with (8 + 8 * Z.of_nat (length l)) by lia. rewrite Z.pow_add_r by lia.
  change (2 ^ 8) with 256. lia.
Qed.

Lemma the_rsdp_range a : mapped m B 0x100010 -> the_rsdp = Some a -> B <= a <= B + 0xFFFF0.
Proof.
  intros Hmap. unfold the_rsdp. destruct (image_read m (B + 0x40E) 2) as [l|] eqn:E; [|done]. cbn [mbind option_bind].
  destruct (image_read_bytes _ _ _ _ Hm E) as [Hb Hl]. pose proof (le_decode_bytes l Hb) as He. rewrite Hl in He. change (2 ^ _) with 65536 in He.
  intros Ha. apply (rsdp_places_range (le_decode l)); [done|]. apply head_Some_elem_of in Ha. by apply list_elem_of_filter in Ha as [_ ?].
Qed.

Lemma bios_search_eq s : amem s = m -> mapped m B 0x100010 ->
  rsdp_search B (rsdp_rounds ACPI_RSDP_BIOS_AREA_START ACPI_RSDP_BIOS_AREA_END) ACPI_RSDP_BIOS_AREA_END ACPI_RSDP_BIOS_AREA_START s
    = Ret (head (filter is_rsdp ((fun k => B + (0xE0000 + 16 * k)) <$> seqZ 0 8192))) s.
Proof.
  intros Es Hmap. change (rsdp_rounds ACPI_RSDP_BIOS_AREA_START ACPI_RSDP_BIOS_AREA_END) with (Z.to_nat 8192). unfold ACPI_RSDP_BIOS_AREA_END, ACPI_RSDP_BIOS_AREA_START.
  rewrite rsdp_search_at; [by rewrite Z2Nat.id by lia|done|lia..|intros i Hi; apply Hmap; lia].
Qed.

Lemma ebda_search_eq s e : amem s = m -> mapped m B 0x100010 -> 0 <= e < 65536 ->
  rsdp_search B (rsdp_rounds (wrap 16 (Z.shiftl e 4)) (wrap 16 (Z.shiftl e 4) + ACPI_EBDA_LEN)) (wrap 16 (Z.shiftl e 4) + ACPI_EBDA_LEN)
    (wrap 16 (Z.shiftl e 4)) s
    = Ret (head (filter is_rsdp ((fun k => B + (e * 16 mod 65536 + 16 * k)) <$> seqZ 0 64))) s.
Proof.
  intros Es Hmap He. assert (wrap 16 (Z.shiftl e 4) = e * 16 mod 65536) as -> by (unfold wrap; by rewrite Z.shiftl_mul_pow2 by lia).
  set (b := e * 16 mod 65536). assert (0 <= b < 65536) as Hb by (apply Z.mod_pos_bound; lia).
  assert (rsdp_rounds b (b + ACPI_EBDA_LEN) = 64%nat) as ->.
  { unfold rsdp_rounds, ACPI_EBDA_LEN. replace (b + 0x400 - b + 15) with 1039 by lia. done. }
  unfold ACPI_EBDA_LEN. rewrite rsdp_search_at; [reflexivity|done|lia..|intros i Hi; apply Hmap; lia].
Qed.

Lemma head_app {A} (l k : list A) : head (l ++ k) = if head l is Some x then Some x else head k.
Proof. by destruct l. Qed.

Lemma get_acpi_rsdp_eq s : amem s = m -> mapped m B 0x100010 ->
  match the_rsdp with
  | None => get_acpi_rsdp B s = Ret 0 s
  | Some a => exists l, image_read m a 24 = Some l /\
      get_acpi_rsdp B s = Ret 1 (AcpiSt m (AcpiInfo l (sdt_trans (g_acpi_info s)) (sdt_count (g_acpi_info s))))
  end.
Proof.
  intros Es Hmap. destruct (image_read_mapped m (B + 0x40E) 2) as (l & E & Hl & _); [intros i Hi; apply Hmap; lia|].
  destruct (image_read_bytes _ _ _ _ Hm E) as [Hb _]. pose proof (le_decode_bytes l Hb) as He. rewrite Hl in He. change (2 ^ _) with 65536 in He.
  assert (the_rsdp = head (filter is_rsdp (rsdp_places (le_decode l)))) as Et by (unfold the_rsdp; by rewrite E).
  assert (get_acpi_rsdp B s = match the_rsdp with
    | None => mret 0
    | Some a => l ← read_bytes a ACPI_RSDP_SIZE; set_info (fun i => AcpiInfo l (sdt_trans i) (sdt_count i));; mret 1
    end s) as ->.
  { unfold get_acpi_rsdp, acpi_copy_phys. change ACPI_EBDA_EBDAP_ADDR with 0x40E. rewrite straight by lia. mred.
    rewrite (read_bytes_eq s _ 2 l Es E), Et. mred. unfold rsdp_places. rewrite filter_app, head_app.
    destruct (Z.eqb_spec (le_decode l) 0) as [_|_]; cbn [negb].
    - mred. rewrite bios_search_eq by done. rewrite filter_nil. change (head (@nil Z)) with (@None Z). cbv iota.
      set (Y := head _). mred. by destruct Y.
    - rewrite ebda_search_eq by done. set (X := filter _ (_ <$> seqZ 0 64)). mred. destruct (head X); [done|]. mred.
      rewrite bios_search_eq by done. set (Y := head _). mred. by destruct Y. }
  clear Et. destruct the_rsdp as [a|] eqn:Ea; [|done]. pose proof (the_rsdp_range a Hmap Ea).
  destruct (image_read_mapped m a 24) as (l' & E' & _); [intros i Hi; apply Hmap; lia|]. exists l'. split; [done|].
  mred. rewrite (read_bytes_eq s a ACPI_RSDP_SIZE l' Es E'). unfold set_info. mred. by rewrite Es.
Qed.

Lemma bytes_at_take (l : list Z) off n k : 0 <= off -> off + Z.of_nat n <= Z.of_nat k -> bytes_at (take k l) off n = bytes_at l off n.
Proof.
  intros Ho Hk. unfold bytes_at. replace k with (Z.to_nat off + (k - Z.to_nat off))%nat by lia.
  rewrite <-take_drop_commute, take_take. by replace (n `min` (k - Z.to_nat off))%nat with n by lia.
Qed.

Lemma get_u32_some l off : bytes l -> 0 <= off -> off + 4 <= Z.of_nat (length l) -> exists v, get_u32 l off = Some v /\ 0 <= v < 2 ^ 32.
Proof.
  intros Hb Ho Hl. unfold get_u32, bytes_at. rewrite (proj2 (Z.leb_le 0 off)) by done.
  assert (length (take 4 (drop (Z.to_nat off) l)) = 4%nat) as E by (rewrite length_take, length_drop; lia).
  rewrite E. cbn [Nat.eqb andb fmap option_fmap option_map]. eexists. split; [done|].
  pose proof (le_decode_bytes (take 4 (drop (Z.to_nat off) l))) as H. rewrite E in H. apply H. apply Forall_take, Forall_drop, Hb.
Qed.

(** The number of tables [x64_acpi_init] computes from the length returned. *)
Definition sdt_nr (rc : Z) : Z := s32 (u64 (rc - ACPI_SDT_HEADER_SIZE) / 4).

Lemma sdt_nr_ok len : 0 <= len <= 176 -> sdt_nr (s32 len) = (len - 36) / 4 \/ (len < 36 /\ sdt_nr (s32 len) <= 0).
Proof.
  intros Hl. unfold sdt_nr, s32. rewrite (swrap_small 32 len) by (change (2 ^ (32 - 1)) with 2147483648; lia). unfold ACPI_SDT_HEADER_SIZE.
  destruct (decide (36 <= len)).
  - left. unfold u64. rewrite wrap_small by lia. apply swrap_small; [done|]. change (2 ^ (32 - 1)) with 2147483648. Z.to_euclidean_division_equations; lia.
  - right. split; [lia|]. assert (u64 (len - 36) = 2 ^ 64 + (len - 36)) as ->.
    { unfold u64, wrap. rewrite <-(Z_mod_plus_full _ 1), Z.mod_small; lia. }
    unfold swrap. change (2 ^ (32 - 1)) with 2147483648. change (2 ^ 32) with 4294967296. change (2 ^ 64) with 18446744073709551616.
    Z.to_euclidean_division_equations; lia.
Qed.

(** What is read of the table of tables: how many entries are used, and which. *)
Lemma read_sdt_eq s addr tb : amem s = m -> 0 <= addr < 2 ^ 32 -> image_read m (B + addr) 176 = Some tb ->
  exists r, read_sdt_at B addr ACPI_RSDT_SIZE RSDT_NAME s = Ret r s /\ sdt_nr r.1 <= MAX_RSDT /\
    omap (fun i => get_u32 r.2 (36 + 4 * i)) (seqZ 0 (sdt_nr r.1)) = rsdt_tables tb /\ (0 < sdt_nr r.1 -> r.2 = tb).
Proof.
  intros Es Ha E. destruct (image_read_bytes _ _ _ _ Hm E) as [Hb Hl].
  destruct (get_u32_some tb 4 Hb) as (len & El & Hlen); [lia|rewrite Hl; cbn; lia|].
  unfold read_sdt_at, acpi_copy_phys, rsdt_tables. rewrite straight, El by lia. mred.
  rewrite (read_bytes_eq s _ ACPI_SDT_HEADER_SIZE (take 36 tb) Es) by (eapply image_read_take; [exact E|cbn; lia]). mred.
  destruct (memcmp_spec 4 (take 36 tb) RSDT_NAME) as (rc & Ec & Hc).
  { by apply Forall_take. } { unfold bytes, RSDT_NAME. repeat constructor; lia. } { rewrite length_take, Hl. cbn. lia. } { cbn. lia. }
  change (Z.to_nat ACPI_SDT_SIGNATURE_LEN) with 4%nat. rewrite Ec. mred. rewrite take_take in Hc. change (take 4 RSDT_NAME) with RSDT_NAME in Hc.
  cbn [Nat.min] in Hc. rewrite Hc. destruct (bool_decide (take 4 tb = RSDT_NAME)); cbn [negb andb]; mred; [|by eexists].
  assert (get_u32 (take 36 tb) SDT_LENGTH = Some len) as -> by (unfold get_u32; by rewrite bytes_at_take). mred.
  unfold ACPI_RSDT_SIZE, ACPI_SDT_HEADER_SIZE, MAX_RSDT. change (36 + 4 * 35) with 176.
  destruct (Z.ltb_spec 176 len) as [Hgt|Hle]; [rewrite (proj2 (Z.leb_gt _ _) Hgt); by eexists|]. rewrite (proj2 (Z.leb_le _ _) Hle). cbn [andb]. mred.
  rewrite (read_bytes_eq s _ 176 tb Es E). mred. change SDT_LENGTH with 4. rewrite El. mred.
  assert (bytes_at tb 0 (Z.to_nat len) = Some (take (Z.to_nat len) tb)) as ->.
  { unfold bytes_at. change (Z.to_nat 0) with 0%nat. rewrite drop_0, length_take, Hl. by rewrite Nat.min_l, Nat.eqb_refl by lia. }
  mred. unfold acpi_check_csum. rewrite total8_eq. destruct (sum _ mod 256 =? 0); cbn [negb]; [|by eexists].
  eexists. split; [done|]. cbn [fst snd]. destruct (sdt_nr_ok len ltac:(lia)) as [->|[Hs Hn]].
  - split_and!; [Z.to_euclidean_division_equations; lia|done|done].
  - rewrite seqZ_nil by done. rewrite (seqZ_nil 0 ((len - 36) / 4)) by (Z.to_euclidean_division_equations; lia). split_and!; [lia|done|done].
Qed.

Definition sig_type (sig : list Z) : Z :=
  if bool_decide (sig = APIC_NAME) then 2 else if bool_decide (sig = FACP_NAME) then 1 else if bool_decide (sig = HPET_NAME) then 3 else 0.

Lemma sdt_sig_eq s hdr : bytes hdr -> (4 <= length hdr)%nat -> sdt_sig hdr s = Ret (sig_type (take 4 hdr)) s.
Proof.
  intros Hb Hl. unfold sdt_sig, sig_type. change (Z.to_nat ACPI_SDT_SIGNATURE_LEN) with 4%nat.
  destruct (memcmp_spec 4 hdr APIC_NAME) as (r1 & E1 & H1); [done|unfold bytes, APIC_NAME; repeat constructor; lia|lia|cbn; lia|].
  destruct (memcmp_spec 4 hdr FACP_NAME) as (r2 & E2 & H2); [done|unfold bytes, FACP_NAME; repeat constructor; lia|lia|cbn; lia|].
  destruct (memcmp_spec 4 hdr HPET_NAME) as (r3 & E3 & H3); [done|unfold bytes, HPET_NAME; repeat constructor; lia|lia|cbn; lia|].
  rewrite E1, E2, E3. mred. rewrite H1, H2, H3. change (take 4 APIC_NAME) with APIC_NAME. change (take 4 FACP_NAME) with FACP_NAME.
  change (take 4 HPET_NAME) with HPET_NAME. by do 3 (destruct (bool_decide _); [done|]).
Qed.

(** An entry of [sdt_trans] describes a table at a physical address. *)
Definition describes (t : acpi_sdt_trans) (pa : Z) : Prop :=
  sdt_type t = table_type pa /\ sdt_paddr t = pa /\ sdt_kaddr t = B + pa /\
  exists l, image_read m (B + pa + 4) 4 = Some l /\ sdt_length t = le_decode l.

Lemma sdt_entry_eq s tb i pa : amem s = m -> 0 <= i < Z.of_nat (length (sdt_trans (g_acpi_info s))) ->
  get_u32 tb (36 + 4 * i) = Some pa -> 0 <= pa < 2 ^ 32 -> mapped m (B + pa) 36 ->
  exists t, describes t pa /\ sdt_entry B tb i s = Ret tt (AcpiSt m (AcpiInfo (rsdp (g_acpi_info s))
    (<[Z.to_nat i := t]> (sdt_trans (g_acpi_info s))) (sdt_count (g_acpi_info s)))).
Proof.
  intros Es Hi Ep Hpa Hmap. destruct (image_read_mapped m (B + pa) 36 Hmap) as (l & E & Hl & _).
  destruct (image_read_bytes _ _ _ _ Hm E) as [Hb _].
  pose proof (image_read_sub _ _ _ _ 4 4 E ltac:(lia)) as E4. change (Z.of_nat 4) with 4 in E4. set (l4 := take 4 (drop 4 l)) in *.
  assert (get_u32 l SDT_LENGTH = Some (le_decode l4)) as Elen.
  { unfold get_u32, bytes_at. change (Z.to_nat SDT_LENGTH) with 4%nat. fold l4. by rewrite (proj2 (image_read_bytes _ _ _ _ Hm E4)). }
  exists (AcpiSdtTrans (sig_type (take 4 l)) pa (B + pa) (le_decode l4)). split.
  - split_and!; [|done|done|by exists l4]. cbn. unfold table_type, sig_type. by rewrite (image_read_take _ _ _ _ 4 E) by lia.
  - unfold sdt_entry, acpi_copy_phys. change ACPI_SDT_HEADER_SIZE with 36. rewrite Ep. mred. rewrite straight by lia.
    rewrite (read_bytes_eq s _ 36 l Es E). mred. rewrite sdt_sig_eq by (done || lia). mred. rewrite Elen. mred.
    destruct (lookup_lt_is_Some_2 (sdt_trans (g_acpi_info s)) (Z.to_nat i)) as [x Ex]; [lia|]. rewrite Ex. unfold set_info. mred. by rewrite Es.
Qed.

(** The rounds for the tables [pas], whose entries start at number [k]. *)
Lemma sdt_loop_eq tb pas : forall k s, amem s = m -> 0 <= k -> k + Z.of_nat (length pas) <= Z.of_nat (length (sdt_trans (g_acpi_info s))) ->
  (forall i pa, pas !! i = Some pa -> get_u32 tb (36 + 4 * (k + Z.of_nat i)) = Some pa /\ 0 <= pa < 2 ^ 32 /\ mapped m (B + pa) 36) ->
  exists tr, forM (seqZ k (Z.of_nat (length pas))) (sdt_entry B tb) s =
      Ret tt (AcpiSt m (AcpiInfo (rsdp (g_acpi_info s)) tr (sdt_count (g_acpi_info s)))) /\
    (forall i, (i < Z.to_nat k)%nat -> tr !! i = sdt_trans (g_acpi_info s) !! i) /\
    (forall i pa, pas !! i = Some pa -> exists t, tr !! (Z.to_nat k + i)%nat = Some t /\ describes t pa).
Proof.
  induction pas as [|pa pas IH]; intros k s Es Hk Hlen Hpas.
  { exists (sdt_trans (g_acpi_info s)). rewrite seqZ_nil by (cbn; lia). cbn [forM]. destruct s as [m0 []]. cbn in Es. subst m0. by split_and!. }
  cbn [length] in *. rewrite seqZ_cons by lia. cbn [forM]. mred.
  destruct (Hpas 0%nat pa eq_refl) as (E0 & Hr0 & Hm0). rewrite Z.add_0_r in E0.
  destruct (sdt_entry_eq s tb k pa Es ltac:(lia) E0 Hr0 Hm0) as (t & Ht & ->). mred.
  replace (Z.pred (Z.of_nat (S (length pas)))) with (Z.of_nat (length pas)) by lia.
  destruct (IH (Z.succ k) (AcpiSt m (AcpiInfo (rsdp (g_acpi_info s)) (<[Z.to_nat k:=t]> (sdt_trans (g_acpi_info s))) (sdt_count (g_acpi_info s)))))
    as (tr & -> & Hlo & Hhi); [done|lia|cbn; rewrite length_insert; lia| |].
  { intros i pa' Hi. destruct (Hpas (S i) pa' Hi) as (E & ? & ?). split_and!; try done; try lia. rewrite <-E. f_equal. lia. }
  exists tr. cbn [g_acpi_info sdt_trans rsdp sdt_count] in *. split_and!; [done| |].
  - intros i Hi. rewrite Hlo by lia. apply list_lookup_insert_ne. lia.
  - intros [|i] pa' Hi.
    + injection Hi as <-. exists t. split; [|done]. rewrite Hlo by lia. rewrite Nat.add_0_r. apply list_lookup_insert_eq. lia.
    + destruct (Hhi i pa' Hi) as (t' & Et & Ht'). exists t'. split; [|done]. rewrite <-Et. f_equal. lia.
Qed.

Lemma table_loop_eq s type pas : forall k, 0 <= k ->
  (forall i pa, pas !! i = Some pa -> exists t, sdt_trans (g_acpi_info s) !! (Z.to_nat k + i)%nat = Some t /\ describes t pa) ->
  table_loop (length pas) type k s = Ret (default NULL (Z.add B <$> head (filter (fun pa => table_type pa = type) pas))) s.
Proof.
  induction pas as [|pa pas IH]; intros k Hk Hpas; [done|]. cbn [length table_loop]. mred.
  rewrite (proj2 (Z.leb_le 0 k)) by done. destruct (Hpas 0%nat pa eq_refl) as (t & Et & (Hty & _ & Hka & _)). rewrite Nat.add_0_r in Et. rewrite Et. mred.
  rewrite Hty, filter_cons. destruct (Z.eqb_spec (table_type pa) type); case_decide; try congruence; [by rewrite Hka|].
  apply IH; [lia|]. intros i pa' Hi. destruct (Hpas (S i) pa' Hi) as (t' & Et' & Ht'). exists t'. split; [|done]. rewrite <-Et'. f_equal. lia.
Qed.

Lemma omap_total {X Y} (f : X -> option Y) (l : list X) : (forall x, x ∈ l -> is_Some (f x)) ->
  length (omap f l) = length l /\ forall i, omap f l !! i = l !! i ≫= f.
Proof.
  induction l as [|x l IH]; intros Hf; [done|]. destruct (Hf x) as [y Ey]; [constructor|].
  destruct IH as [H1 H2]; [intros z Hz; apply Hf; by constructor|].
  change (omap f (x :: l)) with (match f x with Some y => y :: omap f l | None => omap f l end). rewrite Ey. cbn [length]. split; [by rewrite H1|].
  intros [|i]; cbn [lookup list_lookup]; [by cbn [mbind option_bind]; rewrite Ey|]. apply H2.
Qed.

(** After the table of tables has been read. *)
Lemma sdt_tables_eq s addr tb : amem s = m -> 0 <= addr < 2 ^ 32 -> image_read m (B + addr) 176 = Some tb ->
  length (sdt_trans (g_acpi_info s)) = 35%nat -> (forall pa, pa ∈ rsdt_tables tb -> mapped m (B + pa) 36) ->
  exists s', (r ← read_sdt_at B addr ACPI_RSDT_SIZE RSDT_NAME;
     set_info (fun g => AcpiInfo (rsdp g) (sdt_trans g) (s32 (u64 (r.1 - ACPI_SDT_HEADER_SIZE) / 4)));;
     s ← get; forM (seqZ 0 (sdt_count (g_acpi_info s))) (sdt_entry B r.2)) s = Ret tt s' /\ amem s' = m /\
    Z.to_nat (sdt_count (g_acpi_info s')) = length (rsdt_tables tb) /\
    forall i pa, rsdt_tables tb !! i = Some pa -> exists t, sdt_trans (g_acpi_info s') !! i = Some t /\ describes t pa.
Proof.
  intros Es Ha E Hlen Hpas. destruct (image_read_bytes _ _ _ _ Hm E) as [Hb Hl].
  destruct (read_sdt_eq s addr tb Es Ha E) as (r & Er & Hnr & Ho & Htb). mred. rewrite Er. unfold set_info. mred.
  fold (sdt_nr r.1). cbn [g_acpi_info amem sdt_count]. rewrite Es.
  assert (forall i, i ∈ seqZ 0 (sdt_nr r.1) -> exists v, get_u32 r.2 (36 + 4 * i) = Some v /\ 0 <= v < 2 ^ 32) as Hall.
  { intros i Hi%elem_of_seqZ. rewrite Htb by lia. unfold MAX_RSDT in Hnr. apply get_u32_some; [done|lia|rewrite Hl; lia]. }
  destruct (omap_total (fun i => get_u32 r.2 (36 + 4 * i)) (seqZ 0 (sdt_nr r.1))) as [HL HI].
  { intros i Hi. destruct (Hall i Hi) as (v & ? & _). by exists v. }
  rewrite Ho in HL, HI. rewrite length_seqZ in HL.
  assert (forall i pa, rsdt_tables tb !! i = Some pa -> get_u32 r.2 (36 + 4 * (0 + Z.of_nat i)) = Some pa /\ 0 <= pa < 2 ^ 32 /\ mapped m (B + pa) 36) as Hp.
  { intros i pa Hi. pose proof Hi as Hi'. rewrite HI in Hi. destruct (seqZ 0 (sdt_nr r.1) !! i) as [j|] eqn:Ej; [|done]. cbn in Hi.
    pose proof (list_elem_of_lookup_2 _ _ _ Ej) as Hj. apply lookup_seqZ in Ej as [-> _]. destruct (Hall _ Hj) as (v & Ev & Hv).
    rewrite Hi in Ev. injection Ev as <-. split_and!; [done|lia|lia|]. apply Hpas. by eapply list_elem_of_lookup_2. }
  destruct (sdt_loop_eq r.2 (rsdt_tables tb) 0 (AcpiSt m (AcpiInfo (rsdp (g_acpi_info s)) (sdt_trans (g_acpi_info s)) (sdt_nr r.1))))
    as (tr & Ef & _ & Hd); [done|lia|cbn; rewrite Hlen, HL; unfold MAX_RSDT in Hnr; lia|exact Hp|].
  eexists. split_and!.
  - assert (seqZ 0 (sdt_nr r.1) = seqZ 0 (Z.of_nat (length (rsdt_tables tb)))) as ->; [|exact Ef].
    rewrite HL. destruct (decide (0 <= sdt_nr r.1)); [by rewrite Z2Nat.id|]. by rewrite !seqZ_nil by lia.
  - done.
  - cbn. by rewrite HL.
  - intros i pa Hi. destruct (Hd i pa Hi) as (t & Et & Ht). by exists t.
Qed.

Lemma init_run g : mapped m B 0x100010 ->
  (forall a l, the_rsdp = Some a -> image_read m (a + 16) 4 = Some l -> mapped m (B + le_decode l) 176) ->
  (forall pa, pa ∈ firmware_tables -> mapped m (B + pa) 36) ->
  exists s', x64_acpi_init B (AcpiSt m g) = Ret tt s' /\ amem s' = m /\
    Z.to_nat (sdt_count (g_acpi_info s')) = length firmware_tables /\
    forall i pa, firmware_tables !! i = Some pa -> exists t, sdt_trans (g_acpi_info s') !! i = Some t /\ describes t pa.
Proof.
  intros Hmap Hrsdt. unfold x64_acpi_init, firmware_tables, set_info. mred. cbn [amem g_acpi_info].
  pose proof (get_acpi_rsdp_eq (AcpiSt m info_zero) eq_refl Hmap) as Hr. destruct the_rsdp as [a|] eqn:Ea; intros Hpas.
  2: { rewrite Hr. mred. change (negb (0 =? 1)) with true. mred. by eexists. }
  destruct Hr as (l & El & ->). mred. change (negb (1 =? 1)) with false. mred. cbn [g_acpi_info rsdp sdt_trans sdt_count].
  pose proof (the_rsdp_range a Hmap Ea) as Hra. destruct (image_read_bytes _ _ _ _ Hm El) as [Hb Hl].
  pose proof (image_read_sub _ _ _ _ 16 4 El ltac:(lia)) as E4. change (Z.of_nat 16) with 16 in E4. set (l4 := take 4 (drop 16 l)) in *.
  destruct (image_read_bytes _ _ _ _ Hm E4) as [Hb4 Hl4].
  assert (get_u32 l RSDP_RSDT_ADDR = Some (le_decode l4)) as ->.
  { unfold get_u32, bytes_at. change (Z.to_nat RSDP_RSDT_ADDR) with 16%nat. fold l4. by rewrite Hl4. }
  pose proof (le_decode_bytes l4 Hb4) as Ha. rewrite Hl4 in Ha. change (8 * Z.of_nat 4) with 32 in Ha.
  destruct (image_read_mapped m (B + le_decode l4) 176) as (tb & Etb & _); [by eapply Hrsdt|].
  cbn [mbind option_bind fmap option_fmap option_map] in Hpas |- *. rewrite E4 in Hpas |- *. cbn [mbind option_bind fmap option_fmap option_map] in Hpas |- *.
  rewrite Etb in Hpas |- *. cbn [fmap option_fmap option_map default] in Hpas |- *.
  destruct (sdt_tables_eq (AcpiSt m (AcpiInfo l (sdt_trans info_zero) (sdt_count info_zero))) (le_decode l4) tb)
    as (s' & E & Es' & Hc & Hd); [done|lia|done|done|done|]. exists s'. split_and!; [exact E|done|done|done].
Qed.
End spec.

(** C26.  [x64_acpi_init] reads the tables of the firmware: afterwards asking for
    the table of a type yields the first table with that signature among those
    listed by the root table of the first valid root pointer, the places being
    searched in order, or NULL; without a root pointer, or with a root table that
    is not signed, too long or has a wrong checksum, there are no tables. *)
Theorem x64_acpi_init_correct B m g :
  0 <= B /\ B + 2 ^ 33 <= 2 ^ 64 -> map_Forall (fun _ b => 0 <= b < 256) m -> mapped m B 0x100010 ->
  (forall a l, the_rsdp B m = Some a -> image_read m (a + 16) 4 = Some l -> mapped m (B + le_decode l) 176) ->
  (forall pa, pa ∈ firmware_tables B m -> mapped m (B + pa) 36) ->
  exists s', x64_acpi_init B (AcpiSt m g) = Ret tt s' /\ amem s' = m /\
    forall type, acpi_get_table_base type s' =
      Ret (default NULL (Z.add B <$> head (filter (fun pa => table_type B m pa = type) (firmware_tables B m)))) s'.
Proof.
  intros HB Hm Hlow Hrsdt Htab. destruct (init_run B HB m Hm g Hlow Hrsdt Htab) as (s' & E & Es & Hc & Hd).
  exists s'. split_and!; [done|done|]. intros type. unfold acpi_get_table_base. mred. rewrite Hc. apply table_loop_eq; [lia|].
  intros i pa Hi. exact (Hd i pa Hi).
Qed.

(** C27.  The walk over the items of the MADT ends for every table, also one with
    items of length 0 or lengths that overrun it, and with it the enumeration
    of local APICs and I/O APICs: asking with index [idx] yields the [idx]-th item
    of the type, and moves the index on; a local APIC that is not enabled is
    not reported, and the index stays. *)
Theorem madt_enumeration_terminates s hdr len :
  map_Forall (fun _ b => 0 <= b < 256) (amem s) ->
  acpi_get_table_base ACPI_SDT_TRANS_TYPE_APIC s = Ret hdr s -> hdr <> NULL ->
  read_u32 (hdr + SDT_LENGTH) s = Ret len s -> 0 <= len < 2 ^ 32 -> mapped (amem s) hdr (len + 64) ->
  exists items, madt_items (amem s) (hdr + len) (hdr + ACPI_MADT_HDR_SIZE) items /\ forall idx, 0 <= idx < 2 ^ 32 - 1 ->
    acpi_get_ioapic idx s = Ret (match of_type ACPI_MADT_TYPE_IOAPIC items !! Z.to_nat idx with
      | Some a => (Some a, idx + 1) | None => (None, idx) end) s /\
    acpi_get_lapic idx s = Ret (match of_type ACPI_MADT_TYPE_LAPIC items !! Z.to_nat idx with
      | Some a => if image_read (amem s) (a + LAPIC_FLAGS) 4 is Some l then
          if Z.testbit (le_decode l) 0 then (Some a, idx + 1) else (None, idx) else (None, idx)
      | None => (None, idx) end) s.
Proof.
  intros Hm Hbase Hhdr Hlen Hl32 Hmap. unfold ACPI_MADT_HDR_SIZE.
  destruct (madt_items_exist (amem s) (hdr + len) (hdr + 44) Hm) as (items & HI); [intros i Hi; apply Hmap; lia|].
  exists items. split; [exact HI|]. intros idx Hidx.
  assert (forall type, madt_get_typed_item hdr type idx s = Ret (of_type type items !! Z.to_nat idx) s) as Hitem.
  { intros type. unfold madt_get_typed_item. mred. rewrite Hlen. mred. unfold ACPI_MADT_HDR_SIZE.
    rewrite (madt_loop_spec (amem s) _ type idx s eq_refl ltac:(lia) _ _ HI) by lia. by rewrite Z.sub_0_r. }
  unfold acpi_get_ioapic, acpi_get_lapic. mred. rewrite Hbase. mred.
  rewrite (proj2 (Z.eqb_neq _ _) Hhdr), andb_false_r. rewrite !Hitem. mred. unfold u32. rewrite wrap_small by lia. split.
  - by destruct (of_type ACPI_MADT_TYPE_IOAPIC items !! Z.to_nat idx).
  - destruct (of_type ACPI_MADT_TYPE_LAPIC items !! Z.to_nat idx) as [a|] eqn:Ea; [|done].
    assert (hdr <= a < hdr + len) as Ha by (eapply madt_items_range; [exact HI|lia|by eapply list_elem_of_lookup_2]).
    destruct (image_read_mapped (amem s) (a + LAPIC_FLAGS) 4) as (l & E & _); [intros i Hi; apply Hmap; unfold LAPIC_FLAGS in Hi; lia|].
    unfold read_u32, read_bytes. mred. change (Z.to_nat 4) with 4%nat. rewrite E. mred.
    change ACPI_MADT_LAPIC_FLAGS_PROC_ENABLED with (Z.shiftl 1 0). rewrite land_pow2_testbit by lia. by destruct (Z.testbit (le_decode l) 0).
Qed.

(** Firmware with one processor: a root pointer at E0000, the root table at 1000
    and the MADT at 2000. *)
Definition place (a : Z) (l : list Z) : list (Z * Z) := zip (seqZ a (Z.of_nat (length l))) l.
Definition fw_madt : list Z :=
  APIC_NAME ++ [52; 0; 0; 0] ++ replicate 36 0 ++ [0; 8; 0; 0; 1; 0; 0; 0] ++ replicate 64 0.
Definition fw_tables : mem := list_to_map (place 0x40E [0; 0]
  ++ place 0xE0000 (ACPI_RSD_SIGNATURE_STRING ++ [209] ++ replicate 7 0 ++ [0; 16; 0; 0] ++ replicate 4 0)
  ++ place 0x1000 (RSDT_NAME ++ [40; 0; 0; 0; 1; 122] ++ replicate 26 0 ++ [0; 32; 0; 0] ++ replicate 136 0)
  ++ place 0x2000 fw_madt).
Definition fw : mem := fw_tables ∪ zero_bytes 0x100010.

Lemma image_read_union (m1 m2 : mem) a n l : image_read m1 a n = Some l -> image_read (m1 ∪ m2) a n = Some l.
Proof.
  revert a l. induction n as [|n IH]; intros a l E; cbn [image_read] in *; [done|]. unfold ld in *.
  destruct (m1 !! a) as [v|] eqn:Ev; [|done]. cbn [mbind option_bind] in E.
  rewrite (lookup_union_Some_l _ _ _ _ Ev). cbn [mbind option_bind].
  destruct (image_read m1 (a + 1) n) as [l'|] eqn:E'; [|done]. by rewrite (IH _ _ E').
Qed.

Lemma fw_read a n l : image_read fw_tables a n = Some l -> image_read fw a n = Some l.
Proof. apply image_read_union. Qed.

Lemma fw_mapped a n : 0 <= a -> a + n <= 0x100010 -> mapped fw a n.
Proof.
  intros Ha Hn i Hi. unfold fw. apply lookup_union_is_Some. right. rewrite zero_bytes_at by lia. by eexists.
Qed.

Lemma fw_bytes : map_Forall (fun _ b => 0 <= b < 256) fw.
Proof.
  intros i b Hb. apply lookup_union_Some_raw in Hb as [Hb|[_ Hb]].
  - assert (map_Forall (fun _ b => 0 <= b < 256) fw_tables) as H; [|exact (H i b Hb)].
    apply map_Forall_to_list, (bool_decide_unpack _). by vm_compute.
  - apply zero_bytes_zero in Hb as ->. lia.
Qed.

Lemma fw_rsdp : the_rsdp 0 fw = Some 0xE0000.
Proof.
  assert (image_read fw (0 + 0x40E) 2 = Some [0; 0]) as E1 by (apply fw_read; vm_compute; reflexivity).
  assert (image_read fw (0 + (0xE0000 + 16 * 0)) 20 = Some (ACPI_RSD_SIGNATURE_STRING ++ [209] ++ replicate 7 0 ++ [0; 16; 0; 0])) as E2
    by (apply fw_read; vm_compute; reflexivity).
  unfold the_rsdp. rewrite E1. cbn [mbind option_bind]. change (le_decode [0; 0]) with 0.
  unfold rsdp_places. cbn [Z.eqb app]. rewrite seqZ_cons by lia. cbn [fmap list_fmap]. rewrite filter_cons_True; [reflexivity|].
  unfold is_rsdp. rewrite E2. by vm_compute.
Qed.

Lemma fw_rsdt_addr : image_read fw (0xE0000 + 16) 4 = Some [0; 16; 0; 0].
Proof. apply fw_read. vm_compute. reflexivity. Qed.

Lemma firmware_tables_eq B m a l tb : the_rsdp B m = Some a -> image_read m (a + 16) 4 = Some l ->
  image_read m (B + le_decode l) 176 = Some tb -> firmware_tables B m = rsdt_tables tb.
Proof. intros E1 E2 E3. unfold firmware_tables. rewrite E1. cbn [mbind option_bind]. rewrite E2. cbn [mbind option_bind]. by rewrite E3. Qed.

Lemma fw_rsdt : image_read fw (0 + le_decode [0; 16; 0; 0]) 176
  = Some (RSDT_NAME ++ [40; 0; 0; 0; 1; 122] ++ replicate 26 0 ++ [0; 32; 0; 0] ++ replicate 136 0).
Proof. apply fw_read. vm_compute. reflexivity. Qed.

Lemma fw_listed : firmware_tables 0 fw = [0x2000].
Proof. rewrite (firmware_tables_eq _ _ _ _ _ fw_rsdp fw_rsdt_addr fw_rsdt). vm_compute. reflexivity. Qed.

Lemma fw_apic : table_type 0 fw 0x2000 = ACPI_SDT_TRANS_TYPE_APIC.
Proof.
  assert (image_read fw (0 + 0x2000) 4 = Some APIC_NAME) as E by (apply fw_read; vm_compute; reflexivity).
  unfold table_type. rewrite E. reflexivity.
Qed.

Lemma x64_acpi_init_correct_witness :
  exists s', x64_acpi_init 0 (AcpiSt fw info_zero) = Ret tt s' /\ acpi_get_table_base ACPI_SDT_TRANS_TYPE_APIC s' = Ret 0x2000 s'.
Proof.
  destruct (x64_acpi_init_correct 0 fw info_zero) as (s' & E & _ & H).
  - lia.
  - exact fw_bytes.
  - apply fw_mapped; lia.
  - intros a l Ha. rewrite fw_rsdp in Ha. injection Ha as <-. rewrite fw_rsdt_addr. intros [= <-]. apply fw_mapped; cbn; lia.
  - intros pa Hpa. rewrite fw_listed in Hpa. apply list_elem_of_singleton in Hpa as ->. apply fw_mapped; lia.
  - exists s'. split; [exact E|]. rewrite H, fw_listed, filter_cons_True; [reflexivity|exact fw_apic].
Defined.

Definition fw_state : acpist :=
  AcpiSt fw (AcpiInfo [] [AcpiSdtTrans ACPI_SDT_TRANS_TYPE_APIC 0x2000 0x2000 52] 1).

Lemma madt_enumeration_terminates_witness :
  exists items, madt_items fw (0x2000 + 52) 0x202C items.
Proof.
  destruct (madt_enumeration_terminates fw_state 0x2000 52) as (items & H & _).
  - exact fw_bytes.
  - reflexivity.
  - discriminate.
  - unfold read_u32, read_bytes. mred. cbn [fw_state amem].
    assert (image_read fw (0x2000 + SDT_LENGTH) (Z.to_nat 4) = Some [52; 0; 0; 0]) as -> by (apply fw_read; vm_compute; reflexivity). reflexivity.
  - lia.
  - apply fw_mapped; lia.
  - exists items. exact H.
Defined.
