(* ===== verification/I8259.v ===== *)
(** hal/x64/i8259.c and include/hal-x64/i8259.h: the two cascaded interrupt
    controllers of the PC, as an [irq_ctrlr] of kern/irq.c.

    The chips are hardware behind I/O ports: [PicDevice] has what a program can
    do with them, [PicLaws] what their data sheet says of it.  The controller's
    theorems are proved for every device with these laws; the record [chips] at
    the end has them. *)
From Stdlib Require Import Btauto.
From S2P Require Import Prelude KList Kernel Irq Port.

Definition I8259_MAX_IRQ_NR : Z := 16.
Definition I8259_PIC1_BASE_ADDR1 : Z := 0x20.
Definition I8259_PIC1_BASE_ADDR2 : Z := 0x21.
Definition I8259_PIC2_BASE_ADDR1 : Z := 0xA0.
Definition I8259_PIC2_BASE_ADDR2 : Z := 0xA1.
Definition I8259_PIC1_OCW2_ADDR : Z := I8259_PIC1_BASE_ADDR1.
Definition I8259_PIC2_OCW2_ADDR : Z := I8259_PIC2_BASE_ADDR1.
Definition I8259_PIC1_VBASE_ADDR : Z := 0x20.
Definition I8259_PIC2_VBASE_ADDR : Z := 0x28.
(** [_I8259_ICW1_VALID | 8BYTE | EDGSEND | CASCDPIC | SENDICW4] *)
Definition I8259_PIC1_ICW1_CODE : Z := Z.lor 0x10 0x01.
Definition I8259_PIC1_ICW2_CODE : Z := I8259_PIC1_VBASE_ADDR.
Definition I8259_PIC1_ICW3_CODE : Z := 0x02.
(** [_I8259_ICW4_MODE_SFNM | EOI_NORMAL | MODE_X86] *)
Definition I8259_PIC1_ICW4_CODE : Z := Z.lor 0x10 0x01.
Definition I8259_PIC2_ICW1_CODE : Z := I8259_PIC1_ICW1_CODE.
Definition I8259_PIC2_ICW2_CODE : Z := I8259_PIC2_VBASE_ADDR.
Definition I8259_PIC2_ICW3_CODE : Z := 0x02.
Definition I8259_PIC2_ICW4_CODE : Z := 0x01.
Definition I8259_OCW2_EOI_SPEC : Z := 0x60.
Definition pic_mk_spec_eoi (irq : Z) : Z := Z.lor (Z.land irq 0x7) I8259_OCW2_EOI_SPEC.
Definition IRQ_NOT_FOUND : Z := 1.

(** ** The chips *)

(** The chip a number stands for: [false] the master, [true] the slave. *)
Definition cmd_port (c : bool) : Z := if c then I8259_PIC2_BASE_ADDR1 else I8259_PIC1_BASE_ADDR1.
Definition data_port (c : bool) : Z := if c then I8259_PIC2_BASE_ADDR2 else I8259_PIC1_BASE_ADDR2.

(** Input and output at ports, and for each chip the mask register, the in-service
    register, the vector of its first line and the number of initialisation
    words it waits for. *)
Class PicDevice (D : Type) : Type := {
  pic_ports :: PortIO D;
  imr : bool -> D -> Z;
  isr : bool -> D -> Z;
  vbase : bool -> D -> Z;
  icws : bool -> D -> nat }.

Class PicLaws (D : Type) `{PicDevice D} : Prop := {
  imr_range : forall c d, 0 <= imr c d < 256;
  in_mask : forall c d, icws c d = O -> port_in d (data_port c) = (imr c d, d);
  out_mask : forall c d v, icws c d = O -> 0 <= v < 256 -> let d' := port_out d (data_port c) v in
    imr c d' = v /\ isr c d' = isr c d /\ vbase c d' = vbase c d /\ icws c d' = O;
  out_eoi : forall c d n, icws c d = O -> 0 <= n < 8 -> let d' := port_out d (cmd_port c) (Z.lor n 0x60) in
    imr c d' = imr c d /\ isr c d' = Z.clearbit (isr c d) n /\ vbase c d' = vbase c d /\ icws c d' = O;
  out_icw1 : forall c d, let d' := port_out d (cmd_port c) 0x11 in
    imr c d' = 0 /\ isr c d' = 0 /\ vbase c d' = vbase c d /\ icws c d' = 3%nat;
  out_icw2 : forall c d v, icws c d = 3%nat -> 0 <= v < 256 -> let d' := port_out d (data_port c) v in
    imr c d' = imr c d /\ isr c d' = isr c d /\ vbase c d' = Z.land v 0xf8 /\ icws c d' = 2%nat;
  out_icw34 : forall c d v n, icws c d = S n -> (n < 2)%nat -> 0 <= v < 256 -> let d' := port_out d (data_port c) v in
    imr c d' = imr c d /\ isr c d' = isr c d /\ vbase c d' = vbase c d /\ icws c d' = n;
  out_other : forall c c' d p v, c' <> c -> p = cmd_port c \/ p = data_port c -> let d' := port_out d p v in
    imr c' d' = imr c' d /\ isr c' d' = isr c' d /\ vbase c' d' = vbase c' d /\ icws c' d' = icws c' d }.

(** ** The driver *)

Section i8259.
Context {D : Type} `{PicDevice D}.

Definition i8259_config_irq (irq attr prio : Z) : K D Z := mret 0.

Definition i8259_enable_irq (no : Z) : K D unit :=
  kassert (no <? I8259_MAX_IRQ_NR);;
  let irq := u8 (Z.land no (Z.lnot 0)) in
  if irq <? 8 then
    v ← in_port_byte I8259_PIC1_BASE_ADDR2;
    out_port_byte I8259_PIC1_BASE_ADDR2 (u8 (Z.land v (Z.lnot (Z.shiftl 1 irq))))
  else
    v ← in_port_byte I8259_PIC2_BASE_ADDR2;
    out_port_byte I8259_PIC2_BASE_ADDR2 (u8 (Z.land v (Z.lnot (Z.shiftl 1 (irq - 8))))).

Definition i8259_disable_irq (no : Z) : K D unit :=
  let irq := u8 (Z.land no (Z.lnot 0)) in
  kassert (irq <? I8259_MAX_IRQ_NR);;
  if irq <? 8 then
    v ← in_port_byte I8259_PIC1_BASE_ADDR2;
    out_port_byte I8259_PIC1_BASE_ADDR2 (u8 (Z.lor v (Z.shiftl 1 irq)))
  else
    v ← in_port_byte I8259_PIC2_BASE_ADDR2;
    out_port_byte I8259_PIC2_BASE_ADDR2 (u8 (Z.lor v (Z.shiftl 1 (irq - 8)))).

Definition i8259_eoi_irq (no : Z) : K D unit :=
  let irq := u8 (Z.land no (Z.lnot 0)) in
  kassert (irq <? I8259_MAX_IRQ_NR);;
  (if irq <? 8 then
     mask ← in_port_byte I8259_PIC1_BASE_ADDR2; kassert (ctrue (Z.land mask (Z.shiftl 1 irq)))
   else
     mask ← in_port_byte I8259_PIC2_BASE_ADDR2; kassert (ctrue (Z.land mask (Z.shiftl 1 (irq - 8)))));;
  (if irq <? 8 then out_port_byte I8259_PIC1_OCW2_ADDR (pic_mk_spec_eoi irq)
   else
     out_port_byte I8259_PIC2_OCW2_ADDR (pic_mk_spec_eoi irq);;
     out_port_byte I8259_PIC1_OCW2_ADDR (pic_mk_spec_eoi I8259_PIC1_ICW3_CODE)).

Definition i8259_update_irq_mask (msk : Z) : K D unit :=
  let i8259_mask := wrap 16 (Z.land msk (Z.lnot 0)) in
  let i8259_mask := wrap 16 (Z.land i8259_mask (Z.lnot (Z.shiftl 1 I8259_PIC1_ICW3_CODE))) in
  out_port_byte I8259_PIC1_BASE_ADDR2 (Z.land i8259_mask (Z.lnot 0));;
  out_port_byte I8259_PIC2_BASE_ADDR2 (Z.shiftr i8259_mask 8).

(** [for(i = 0; I8259_MAX_IRQ_NR > i; ++i)] masks every line but the cascade. *)
Definition mask_all : K D unit :=
  forM (seqZ 0 I8259_MAX_IRQ_NR) (fun i => if i =? I8259_PIC1_ICW3_CODE then mret tt else i8259_disable_irq (u8 i));;
  i8259_enable_irq I8259_PIC1_ICW3_CODE.

Definition init_i8259_pic : K D Z :=
  out_port_byte I8259_PIC1_BASE_ADDR1 I8259_PIC1_ICW1_CODE;;
  out_port_byte I8259_PIC1_BASE_ADDR2 I8259_PIC1_ICW2_CODE;;
  out_port_byte I8259_PIC1_BASE_ADDR2 I8259_PIC1_ICW3_CODE;;
  out_port_byte I8259_PIC1_BASE_ADDR2 I8259_PIC1_ICW4_CODE;;
  out_port_byte I8259_PIC2_BASE_ADDR1 I8259_PIC2_ICW1_CODE;;
  out_port_byte I8259_PIC2_BASE_ADDR2 I8259_PIC2_ICW2_CODE;;
  out_port_byte I8259_PIC2_BASE_ADDR2 I8259_PIC2_ICW3_CODE;;
  out_port_byte I8259_PIC2_BASE_ADDR2 I8259_PIC2_ICW4_CODE;;
  mask_all;;
  mret 0.

Definition finalize_i8259_pic : K D unit := mask_all.

(** [trapno] of the exception frame; the result and [*irqp] when it is set.
    [irq_no] is a 32-bit integer. *)
Definition i8259_find_pending_irq (trapno : Z) : K D (Z * option Z) :=
  if trapno <? I8259_PIC1_VBASE_ADDR then mret (IRQ_NOT_FOUND, None)
  else
    let irq := s32 (trapno - I8259_PIC1_VBASE_ADDR) in
    if I8259_MAX_IRQ_NR <=? irq then mret (IRQ_NOT_FOUND, None)
    else mret (IRQ_FOUND, Some irq).

Definition i8259_ctrlr : irq_ctrlr D :=
  IrqCtrlr (Some i8259_config_irq) (Some i8259_enable_irq) (Some i8259_disable_irq) None None (Some i8259_eoi_irq).

Definition x64_init_pic (i8259_find_irq ctrlrp : ptr) : K D unit :=
  init_i8259_pic;;
  irq_register_pending_irq_finder i8259_find_irq;;
  forM (seqZ 0 I8259_MAX_IRQ_NR) (fun i => irq_register_ctrlr i ctrlrp;; mret tt).
End i8259.

(** ** The lines *)

Section proofs.
Context {D : Type} `{PicLaws D}.
Implicit Types (d : D) (s : kst D).

Definition ready d : Prop := icws false d = O /\ icws true d = O.
(** The chip of a line, and whether the line is masked. *)
Definition chip (n : Z) : bool := 8 <=? n.
Definition masked d (n : Z) : bool := Z.testbit (imr (chip n) d) (n mod 8).

(** Apart from the mask of the chip [c] the device is the same. *)
Record only_mask (c : bool) d d' : Prop := {
  om_ready : ready d -> ready d'; om_isr : forall c', isr c' d' = isr c' d; om_vbase : forall c', vbase c' d' = vbase c' d;
  om_other : forall c', c' <> c -> imr c' d' = imr c' d }.

Lemma with_ext_id s : with_ext s (ext s) = s.
Proof. by destruct s. Qed.

Lemma ready_chip c d : ready d -> icws c d = O.
Proof. intros []. by destruct c. Qed.

Lemma in_data c s : ready (ext s) -> in_port_byte (data_port c) s = Ret (imr c (ext s)) s.
Proof. intros Hr. unfold in_port_byte. mred. rewrite in_mask by (by apply ready_chip). mred. by rewrite with_ext_id. Qed.

Lemma out_data c s v : ready (ext s) -> 0 <= v < 256 ->
  exists d', out_port_byte (data_port c) v s = Ret tt (with_ext s d') /\ only_mask c (ext s) d' /\ imr c d' = v.
Proof.
  intros Hr Hv. unfold out_port_byte. mred. unfold u8. rewrite wrap_small by done. eexists. split; [done|].
  destruct (out_mask c (ext s) v (ready_chip c _ Hr) Hv) as (H1 & H2 & H3 & H4). set (d' := port_out _ _ v) in *.
  assert (forall c', c' <> c -> imr c' d' = imr c' (ext s) /\ isr c' d' = isr c' (ext s) /\ vbase c' d' = vbase c' (ext s) /\
    icws c' d' = icws c' (ext s)) as Ho by (intros c' Hc; exact (out_other c c' (ext s) (data_port c) v Hc (or_intror eq_refl))).
  split; [|done]. split.
  - intros _. assert (forall c', icws c' d' = O) as Hi; [|by split].
    intros c'. destruct (decide (c' = c)) as [->|Hc]; [done|]. destruct (Ho _ Hc) as (_ & _ & _ & ->). by apply ready_chip.
  - intros c'. destruct (decide (c' = c)) as [->|Hc]; [done|apply (Ho _ Hc)].
  - intros c'. destruct (decide (c' = c)) as [->|Hc]; [done|apply (Ho _ Hc)].
  - intros c' Hc. apply (Ho _ Hc).
Qed.

Lemma chip_line n : 0 <= n < 16 -> (if chip n then n - 8 else n) = n mod 8.
Proof. intros Hn. unfold chip. destruct (Z.leb_spec 8 n); Z.to_euclidean_division_equations; lia. Qed.

Lemma u8_line n : 0 <= n < 16 -> u8 (Z.land n (Z.lnot 0)) = n.
Proof. intros Hn. change (Z.lnot 0) with (-1). rewrite Z.land_m1_r. apply wrap_small. lia. Qed.

Lemma same_line n m : 0 <= n < 16 -> 0 <= m < 16 -> chip n = chip m -> n mod 8 = m mod 8 -> n = m.
Proof. unfold chip. intros Hn Hm Hc. destruct (Z.leb_spec 8 n), (Z.leb_spec 8 m); try done; Z.to_euclidean_division_equations; lia. Qed.

(** Both routines change one bit of one mask. *)
Definition set_line (b : bool) (n : Z) (v : Z) : Z :=
  u8 (if b then Z.lor v (Z.shiftl 1 (n mod 8)) else Z.land v (Z.lnot (Z.shiftl 1 (n mod 8)))).

Lemma disable_set s n : 0 <= n < 16 -> ready (ext s) ->
  i8259_disable_irq n s = out_port_byte (data_port (chip n)) (set_line true n (imr (chip n) (ext s))) s.
Proof.
  intros Hn Hr. unfold i8259_disable_irq. rewrite u8_line by done. unfold I8259_MAX_IRQ_NR. rewrite (proj2 (Z.ltb_lt n 16)) by lia. mred.
  unfold set_line. rewrite <-chip_line by done. unfold chip. destruct (Z.ltb_spec n 8); destruct (Z.leb_spec 8 n); try lia.
  - change I8259_PIC1_BASE_ADDR2 with (data_port false). by rewrite (in_data false s Hr).
  - change I8259_PIC2_BASE_ADDR2 with (data_port true). by rewrite (in_data true s Hr).
Qed.

Lemma enable_set s n : 0 <= n < 16 -> ready (ext s) ->
  i8259_enable_irq n s = out_port_byte (data_port (chip n)) (set_line false n (imr (chip n) (ext s))) s.
Proof.
  intros Hn Hr. unfold i8259_enable_irq. rewrite u8_line by done. unfold I8259_MAX_IRQ_NR. rewrite (proj2 (Z.ltb_lt n 16)) by lia. mred.
  unfold set_line. rewrite <-chip_line by done. unfold chip. destruct (Z.ltb_spec n 8); destruct (Z.leb_spec 8 n); try lia.
  - change I8259_PIC1_BASE_ADDR2 with (data_port false). by rewrite (in_data false s Hr).
  - change I8259_PIC2_BASE_ADDR2 with (data_port true). by rewrite (in_data true s Hr).
Qed.

Lemma set_line_bit b n v k : 0 <= v < 256 -> 0 <= k < 8 ->
  Z.testbit (set_line b n v) k = if decide (k = n mod 8) then b else Z.testbit v k.
Proof.
  intros Hv Hk. pose proof (Z.mod_pos_bound n 8 ltac:(lia)). unfold set_line, u8. rewrite wrap_testbit by lia.
  assert (Z.testbit (Z.shiftl 1 (n mod 8)) k = bool_decide (k = n mod 8)) as E.
  { rewrite Z.shiftl_1_l, Z.pow2_bits_eqb by lia. rewrite bool_decide_decide. destruct (Z.eqb_spec (n mod 8) k); case_decide; congruence. }
  destruct b; [rewrite Z.lor_spec, E|rewrite Z.land_spec, Z.lnot_spec, E by lia];
    rewrite bool_decide_decide; destruct (decide (k = n mod 8)); btauto.
Qed.

(** Masking ([b = true]) or unmasking a line. *)
Lemma set_line_eq b s n : 0 <= n < 16 -> ready (ext s) ->
  exists d', out_port_byte (data_port (chip n)) (set_line b n (imr (chip n) (ext s))) s = Ret tt (with_ext s d') /\
    only_mask (chip n) (ext s) d' /\ forall k, 0 <= k < 16 -> masked d' k = if decide (k = n) then b else masked (ext s) k.
Proof.
  intros Hn Hr. destruct (out_data (chip n) s (set_line b n (imr (chip n) (ext s))) Hr) as (d' & E & HO & HI).
  { unfold set_line, u8. by apply wrap_range. }
  exists d'. split_and!; [done|done|]. intros k Hk. unfold masked. destruct (decide (chip k = chip n)) as [Ec|Ec].
  - rewrite Ec, HI, set_line_bit; [|apply imr_range|apply Z.mod_pos_bound; lia].
    destruct (decide (k = n)) as [->|Hne]; [by rewrite decide_True|]. rewrite decide_False; [done|]. intros ?. by apply Hne, same_line.
  - rewrite (om_other _ _ _ HO) by done. rewrite decide_False; [done|]. by intros ->.
Qed.

(** ** End of interrupt *)

Lemma eoi_bits n : 0 <= n < 16 -> pic_mk_spec_eoi n = Z.lor (n mod 8) 0x60.
Proof. intros Hn. unfold pic_mk_spec_eoi. change 0x7 with (Z.ones 3). by rewrite Z.land_ones by lia. Qed.

Lemma out_cmd c s n : ready (ext s) -> 0 <= n < 8 ->
  exists d', out_port_byte (cmd_port c) (Z.lor n 0x60) s = Ret tt (with_ext s d') /\ ready d' /\
    (forall c', imr c' d' = imr c' (ext s) /\ vbase c' d' = vbase c' (ext s) /\
       isr c' d' = if decide (c' = c) then Z.clearbit (isr c' (ext s)) n else isr c' (ext s)).
Proof.
  intros Hr Hn. unfold out_port_byte. mred.
  assert (u8 (Z.lor n 0x60) = Z.lor n 0x60) as ->.
  { apply wrap_small. assert (n = 0 \/ n = 1 \/ n = 2 \/ n = 3 \/ n = 4 \/ n = 5 \/ n = 6 \/ n = 7) as Hc by lia.
    destruct_or! Hc; subst n; by vm_compute. }
  eexists. split; [done|]. destruct (out_eoi c (ext s) n (ready_chip c _ Hr) Hn) as (H1 & H2 & H3 & H4). set (d' := port_out _ _ _) in *.
  assert (forall c', c' <> c -> imr c' d' = imr c' (ext s) /\ isr c' d' = isr c' (ext s) /\ vbase c' d' = vbase c' (ext s) /\
    icws c' d' = icws c' (ext s)) as Ho by (intros c' Hc; exact (out_other c c' (ext s) (cmd_port c) (Z.lor n 0x60) Hc (or_introl eq_refl))).
  assert (forall c', icws c' d' = O) as Hi.
  { intros c'. destruct (decide (c' = c)) as [->|Hc]; [done|]. destruct (Ho _ Hc) as (_ & _ & _ & ->). by apply ready_chip. }
  split; [by split|]. intros c'. destruct (decide (c' = c)) as [->|Hc]; [done|]. destruct (Ho _ Hc) as (? & ? & ? & _). done.
Qed.

(** The in-service bits after the end of the interrupt of line [n]: its own, and
    for a line of the slave also that of the cascade. *)
Definition isr_after (n : Z) (c : bool) (v : Z) : Z :=
  if decide (c = chip n) then Z.clearbit v (n mod 8) else if chip n then Z.clearbit v 2 else v.

Lemma eoi_eq s n : 0 <= n < 16 -> ready (ext s) -> masked (ext s) n = true ->
  exists d', i8259_eoi_irq n s = Ret tt (with_ext s d') /\ ready d' /\
    forall c, imr c d' = imr c (ext s) /\ vbase c d' = vbase c (ext s) /\ isr c d' = isr_after n c (isr c (ext s)).
Proof.
  intros Hn Hr Hm. unfold i8259_eoi_irq. rewrite u8_line by done. unfold I8259_MAX_IRQ_NR. rewrite (proj2 (Z.ltb_lt n 16)) by lia. mred.
  unfold masked in Hm. rewrite <-chip_line in Hm by done. pose proof (Z.mod_pos_bound n 8 ltac:(lia)) as Hmod.
  rewrite !eoi_bits by (done || unfold I8259_PIC1_ICW3_CODE; lia). unfold isr_after. unfold chip in *.
  destruct (Z.ltb_spec n 8) as [Hlt|Hge]; [destruct (Z.leb_spec 8 n); [lia|]|destruct (Z.leb_spec 8 n); [|lia]].
  - change I8259_PIC1_BASE_ADDR2 with (data_port false). rewrite (in_data false s Hr). mred. rewrite land_pow2_testbit, Hm by lia. mred.
    destruct (out_cmd false s (n mod 8) Hr Hmod) as (d' & E & Hr' & Hd). exists d'. split; [exact E|]. split; [done|].
    intros c. destruct (Hd c) as (? & ? & ->). split_and!; by destruct c.
  - change I8259_PIC2_BASE_ADDR2 with (data_port true). rewrite (in_data true s Hr). mred. rewrite land_pow2_testbit, Hm by lia. mred.
    destruct (out_cmd true s (n mod 8) Hr Hmod) as (d1 & E1 & Hr1 & Hd1). change I8259_PIC2_OCW2_ADDR with (cmd_port true). rewrite E1. mred.
    change (I8259_PIC1_ICW3_CODE mod 8) with 2.
    destruct (out_cmd false (with_ext s d1) 2 Hr1 ltac:(lia)) as (d2 & E2 & Hr2 & Hd2). exists d2.
    change I8259_PIC1_OCW2_ADDR with (cmd_port false). rewrite E2. split; [by destruct s|]. split; [done|].
    intros c. destruct (Hd1 c) as (I1 & V1 & S1). destruct (Hd2 c) as (I2 & V2 & S2). cbn [ext with_ext] in I2, V2, S2.
    rewrite I2, V2, S2, S1, I1, V1. split_and!; by destruct c.
Qed.

Lemma eoi_unmasked s n : 0 <= n < 16 -> ready (ext s) -> masked (ext s) n = false -> i8259_eoi_irq n s = Stop Assert.
Proof.
  intros Hn Hr Hm. unfold i8259_eoi_irq. rewrite u8_line by done. unfold I8259_MAX_IRQ_NR. rewrite (proj2 (Z.ltb_lt n 16)) by lia. mred.
  unfold masked in Hm. rewrite <-chip_line in Hm by done. unfold chip in *.
  destruct (Z.ltb_spec n 8) as [Hlt|Hge]; [destruct (Z.leb_spec 8 n); [lia|]|destruct (Z.leb_spec 8 n); [|lia]].
  - change I8259_PIC1_BASE_ADDR2 with (data_port false). rewrite (in_data false s Hr). mred. by rewrite land_pow2_testbit, Hm by lia.
  - change I8259_PIC2_BASE_ADDR2 with (data_port true). rewrite (in_data true s Hr). mred. by rewrite land_pow2_testbit, Hm by lia.
Qed.

(** ** Initialisation *)

(** The same but for the masks. *)
Definition masks_only d d' : Prop := ready d' /\ forall c, isr c d' = isr c d /\ vbase c d' = vbase c d.

Lemma only_mask_masks c d d' : ready d -> only_mask c d d' -> masks_only d d'.
Proof. intros Hr [H1 H2 H3 _]. split; auto. Qed.

Lemma masks_only_trans d1 d2 d3 : masks_only d1 d2 -> masks_only d2 d3 -> masks_only d1 d3.
Proof.
  intros [_ H1] [Hr H2]. split; [done|]. intros c. destruct (H2 c) as [-> ->]. apply H1.
Qed.

Lemma mask_loop_eq ns : Forall (fun n => 0 <= n < 16) ns -> forall s, ready (ext s) ->
  exists d', forM ns (fun i => if i =? I8259_PIC1_ICW3_CODE then mret tt else i8259_disable_irq (u8 i)) s = Ret tt (with_ext s d') /\
    masks_only (ext s) d' /\ forall k, 0 <= k < 16 -> masked d' k = bool_decide (k ∈ ns /\ k <> 2) || masked (ext s) k.
Proof.
  induction 1 as [|n ns Hn _ IH]; intros s Hr; cbn [forM].
  { exists (ext s). rewrite with_ext_id. split_and!; [done|by split|]. intros k _. rewrite bool_decide_eq_false_2; [done|]. intros [Hk _]. by apply elem_of_nil in Hk. }
  mred. unfold I8259_PIC1_ICW3_CODE at 1. destruct (Z.eqb_spec n 2) as [->|Hne].
  - destruct (IH s Hr) as (d' & E & Hd & Hm). exists d'. split; [exact E|]. split; [done|]. intros k Hk. rewrite Hm by done.
    f_equal. apply bool_decide_ext. rewrite elem_of_cons. naive_solver.
  - assert (u8 n = n) as -> by (apply wrap_small; lia). rewrite disable_set by done.
    destruct (set_line_eq true s n Hn Hr) as (d1 & -> & HO & H1). mred.
    destruct (IH (with_ext s d1) (om_ready _ _ _ HO Hr)) as (d' & E & Hd & Hm). exists d'. split; [etrans; [exact E|by destruct s]|].
    split; [eapply masks_only_trans; [by eapply only_mask_masks|exact Hd]|]. intros k Hk. rewrite Hm by done. cbn [ext with_ext]. rewrite H1 by done.
    destruct (decide (k = n)) as [->|Hkn].
    + rewrite orb_true_r, bool_decide_eq_true_2; [done|]. split; [constructor|done].
    + f_equal. apply bool_decide_ext. rewrite elem_of_cons. naive_solver.
Qed.

Lemma mask_all_eq s : ready (ext s) ->
  exists d', mask_all s = Ret tt (with_ext s d') /\ masks_only (ext s) d' /\ forall k, 0 <= k < 16 -> masked d' k = negb (k =? 2).
Proof.
  intros Hr. unfold mask_all.
  destruct (mask_loop_eq (seqZ 0 I8259_MAX_IRQ_NR)) with (s := s) as (d1 & E1 & Hd1 & Hm1); [|done|].
  { apply Forall_forall. intros n Hn%elem_of_seqZ. unfold I8259_MAX_IRQ_NR in Hn. lia. }
  rewrite (bind_ret _ _ _ _ _ E1). destruct Hd1 as [Hr1 Hs1]. rewrite enable_set; [|unfold I8259_PIC1_ICW3_CODE; lia|done].
  destruct (set_line_eq false (with_ext s d1) I8259_PIC1_ICW3_CODE) as (d2 & E2 & HO & Hm2); [unfold I8259_PIC1_ICW3_CODE; lia|done|].
  exists d2. rewrite E2. split; [by destruct s|]. split.
  - eapply masks_only_trans; [split; [exact Hr1|exact Hs1]|]. eapply only_mask_masks; [|exact HO]. done.
  - intros k Hk. rewrite Hm2 by done. cbn [ext with_ext]. rewrite Hm1 by done. unfold I8259_PIC1_ICW3_CODE.
    destruct (decide (k = 2)) as [->|Hne]; [done|]. rewrite (proj2 (Z.eqb_neq _ _) Hne). rewrite bool_decide_eq_true_2; [done|].
    split; [|done]. apply elem_of_seqZ. unfold I8259_MAX_IRQ_NR. lia.
Qed.

(** The four words that initialise a chip. *)
Definition icw_seq (c : bool) d (v2 v3 v4 : Z) : D :=
  port_out (port_out (port_out (port_out d (cmd_port c) 0x11) (data_port c) v2) (data_port c) v3) (data_port c) v4.

Lemma icw_eq c d v2 v3 v4 : 0 <= v2 < 256 -> 0 <= v3 < 256 -> 0 <= v4 < 256 ->
  let d' := icw_seq c d v2 v3 v4 in
  icws c d' = O /\ isr c d' = 0 /\ vbase c d' = Z.land v2 0xf8 /\
  forall c', c' <> c -> imr c' d' = imr c' d /\ isr c' d' = isr c' d /\ vbase c' d' = vbase c' d /\ icws c' d' = icws c' d.
Proof.
  intros H2 H3 H4. unfold icw_seq. cbv zeta. destruct (out_icw1 c d) as (_ & S1 & _ & W1). set (d1 := port_out d _ _) in *.
  destruct (out_icw2 c d1 v2 W1 H2) as (_ & S2 & V2 & W2). set (d2 := port_out d1 _ _) in *.
  destruct (out_icw34 c d2 v3 1 W2 ltac:(lia) H3) as (_ & S3 & V3 & W3). set (d3 := port_out d2 _ _) in *.
  destruct (out_icw34 c d3 v4 0 W3 ltac:(lia) H4) as (_ & S4 & V4 & W4). set (d4 := port_out d3 _ _) in *.
  split_and!; [done|by rewrite S4, S3, S2|by rewrite V4, V3|]. intros c' Hc.
  unfold d4. destruct (out_other c c' d3 (data_port c) v4 Hc (or_intror eq_refl)) as (-> & -> & -> & ->).
  unfold d3. destruct (out_other c c' d2 (data_port c) v3 Hc (or_intror eq_refl)) as (-> & -> & -> & ->).
  unfold d2. destruct (out_other c c' d1 (data_port c) v2 Hc (or_intror eq_refl)) as (-> & -> & -> & ->).
  exact (out_other c c' d (cmd_port c) 0x11 Hc (or_introl eq_refl)).
Qed.

Lemma init_eq s : exists d', init_i8259_pic s = Ret 0 (with_ext s d') /\ ready d' /\ (forall c, isr c d' = 0) /\
  vbase false d' = 0x20 /\ vbase true d' = 0x28 /\ forall k, 0 <= k < 16 -> masked d' k = negb (k =? 2).
Proof.
  destruct (icw_eq false (ext s) 0x20 0x02 0x11) as (W1 & S1 & V1 & O1); [lia..|]. set (d1 := icw_seq false _ _ _ _) in *.
  destruct (icw_eq true d1 0x28 0x02 0x01) as (W2 & S2 & V2 & O2); [lia..|]. set (d2 := icw_seq true _ _ _ _) in *.
  destruct (O2 false ltac:(done)) as (_ & S3 & V3 & W3).
  destruct (mask_all_eq (with_ext s d2)) as (d' & E & [Hr Hd] & Hm); [split; cbn [ext with_ext]; [by rewrite W3|done]|].
  exists d'. split; [|split_and!].
  - unfold init_i8259_pic, out_port_byte. mred. cbn [ext with_ext].
    match goal with |- context [mask_all ?t] => replace t with (with_ext s d2) by (by destruct s) end. rewrite E. mred. by destruct s.
  - done.
  - intros c. destruct (Hd c) as [-> _]. cbn [ext with_ext]. destruct c; [done|]. by rewrite S3.
  - destruct (Hd false) as [_ ->]. cbn [ext with_ext]. by rewrite V3, V1.
  - destruct (Hd true) as [_ ->]. cbn [ext with_ext]. by rewrite V2.
  - done.
Qed.

(** ** The line of an interrupt *)

(** What the code before the handlers does to the device. *)
Definition serviced (irq : Z) d d' : Prop :=
  ready d' /\ (forall k, 0 <= k < 16 -> masked d' k = if decide (k = irq) then true else masked d k) /\
  forall c, isr c d' = isr_after irq c (isr c d).

Lemma mask_eoi_eq s irq : 0 <= irq < 16 -> ready (ext s) ->
  exists d', (i8259_disable_irq irq;; i8259_eoi_irq irq) s = Ret tt (with_ext s d') /\ serviced irq (ext s) d'.
Proof.
  intros Hi Hr. destruct (set_line_eq true s irq Hi Hr) as (d1 & E1 & HO & H1).
  destruct (eoi_eq (with_ext s d1) irq Hi (om_ready _ _ _ HO Hr)) as (d2 & E2 & Hr2 & H2).
  { cbn [ext with_ext]. by rewrite H1, decide_True. }
  exists d2. split; [|split_and!].
  - rewrite (bind_ret _ _ s tt (with_ext s d1)) by (by rewrite disable_set). rewrite E2. by destruct s.
  - done.
  - intros k Hk. rewrite <-H1 by done. unfold masked. by destruct (H2 (chip k)) as (-> & _).
  - intros c. destruct (H2 c) as (_ & _ & ->). cbn [ext with_ext]. by rewrite (om_isr _ _ _ HO).
Qed.
End proofs.

(** C28.  The interrupt controllers of the PC: after [init_i8259_pic] every line but
    the cascade is masked, nothing is in service and the vectors start at 20h and
    28h; enabling or disabling a line changes the mask of this line only; the end
    of interrupt is refused for a line that is not masked, and otherwise clears
    the in-service bit of the line and, for a line of the slave, of the cascade. *)
Theorem i8259_ctrlr_correct {D} `{PicLaws D} (s : kst D) :
  (exists d, init_i8259_pic s = Ret 0 (with_ext s d) /\ ready d /\ (forall c, isr c d = 0) /\
     vbase false d = 0x20 /\ vbase true d = 0x28 /\ forall k, 0 <= k < 16 -> masked d k = negb (k =? 2)) /\
  forall irq, 0 <= irq < 16 -> ready (ext s) ->
    (exists d, i8259_disable_irq irq s = Ret tt (with_ext s d) /\ ready d /\ (forall c, isr c d = isr c (ext s)) /\
       forall k, 0 <= k < 16 -> masked d k = if decide (k = irq) then true else masked (ext s) k) /\
    (exists d, i8259_enable_irq irq s = Ret tt (with_ext s d) /\ ready d /\ (forall c, isr c d = isr c (ext s)) /\
       forall k, 0 <= k < 16 -> masked d k = if decide (k = irq) then false else masked (ext s) k) /\
    (if masked (ext s) irq
     then exists d, i8259_eoi_irq irq s = Ret tt (with_ext s d) /\ ready d /\
       forall c, imr c d = imr c (ext s) /\ isr c d = isr_after irq c (isr c (ext s))
     else i8259_eoi_irq irq s = Stop Assert).
Proof.
  split; [apply init_eq|]. intros irq Hi Hr. split_and!.
  - rewrite disable_set by done. destruct (set_line_eq true s irq Hi Hr) as (d & E & HO & Hm).
    exists d. split_and!; [done|by apply HO|apply HO|done].
  - rewrite enable_set by done. destruct (set_line_eq false s irq Hi Hr) as (d & E & HO & Hm).
    exists d. split_and!; [done|by apply HO|apply HO|done].
  - destruct (masked (ext s) irq) eqn:Em; [|by apply eoi_unmasked].
    destruct (eoi_eq s irq Hi Hr Em) as (d & E & Hr' & Hd). exists d. split_and!; [done|done|]. intros c. by destruct (Hd c) as (? & _ & ?).
Qed.

(** An interrupt on a line of the PC: [handle_irq_line] masks the line and
    signals the end of the interrupt, which the controller accepts because of the
    mask, before any handler runs; when the handlers have returned with the
    controllers ready, the line is unmasked and no other line has changed. *)
Theorem i8259_line_correct {D} `{PicLaws D} (ctrlr : ptr -> irq_ctrlr D) call_handler undef irq exc line (s : kst D) :
  0 <= irq < 16 -> ready (ext s) -> irqs s !! irq = Some line -> ctrlrp line <> NULL -> ctrlr (ctrlrp line) = i8259_ctrlr ->
  exists d, serviced irq (ext s) d /\
    forall rc s2, invoke_irq_handler call_handler irq exc (with_ext (with_ie s false) d) = Ret rc s2 ->
      ready (ext s2) -> irqs s2 = irqs s ->
      exists d', handle_irq_line ctrlr call_handler undef irq exc s =
          Ret (if rc =? 0 then 0 else undef) (with_ie (with_ext s2 d') (ie s)) /\ ready d' /\
        forall k, 0 <= k < 16 -> masked d' k = if decide (k = irq) then false else masked (ext s2) k.
Proof.
  intros Hi Hr Hline Hnn Hc. destruct (mask_eoi_eq (with_ie s false) irq Hi Hr) as (d & E & Hd).
  exists d. split; [exact Hd|]. intros rc s2 Einv Hr2 Hirqs. destruct (set_line_eq false s2 irq Hi Hr2) as (d' & E' & HO & Hm).
  exists d'. split; [|split; [by apply HO|done]]. unfold handle_irq_line, line_ctrlr. mred. rewrite (line_get_eq _ _ line) by done. mred.
  rewrite Hc. cbn [present i8259_ctrlr disable_irq enable_irq get_priority set_priority eoi config_irq andb orb negb].
  rewrite (proj2 (Z.eqb_neq _ _) Hnn). cbn [negb andb]. mred. unfold callp. mred.
  unfold psw_disable_and_save_interrupt. mred. mred in E.
  destruct (i8259_disable_irq irq (with_ie s false)) as [[] s1| |] eqn:E1; mred in E; [|done|done]. mred.
  assert (irqs s1 = irqs s) as Hi1.
  { rewrite disable_set in E1 by done. unfold out_port_byte in E1. mred in E1. injection E1 as <-. done. }
  rewrite (line_get_eq _ _ line) by (by rewrite Hi1). mred. rewrite Hc. cbn [eoi i8259_ctrlr]. mred. rewrite E. mred.
  rewrite Einv. mred. rewrite (line_get_eq _ _ line) by (by rewrite Hirqs). mred. rewrite Hc.
  cbn [present i8259_ctrlr set_priority enable_irq negb]. mred. rewrite enable_set, E' by done. mred. unfold psw_restore_interrupt. by mred.
Qed.

(** ** Chips with the laws *)

Record pic_chip : Type := PicChip { p_imr : Z; p_isr : Z; p_vbase : Z; p_icws : nat }.
Definition chips : Type := bool -> pic_chip.

Definition chip_cmd (p : pic_chip) (v : Z) : pic_chip :=
  if Z.testbit v 4 then PicChip 0 0 (p_vbase p) 3
  else if Z.land v 0xe0 =? 0x60 then PicChip (p_imr p) (Z.clearbit (p_isr p) (Z.land v 7)) (p_vbase p) (p_icws p)
  else p.
Definition chip_data (p : pic_chip) (v : Z) : pic_chip :=
  match p_icws p with
  | O => PicChip v (p_isr p) (p_vbase p) O
  | 3%nat => PicChip (p_imr p) (p_isr p) (Z.land v 0xf8) 2
  | S n => PicChip (p_imr p) (p_isr p) (p_vbase p) n
  end.
Definition chips_out (d : chips) (port v : Z) : chips := fun c =>
  if port =? cmd_port c then chip_cmd (d c) v else if port =? data_port c then chip_data (d c) v else d c.

#[export] Instance chips_device : PicDevice chips :=
  {| pic_ports := {|
       port_in d port := if port =? data_port false then (p_imr (d false) mod 256, d) else if port =? data_port true then (p_imr (d true) mod 256, d) else (0, d);
       port_out := chips_out |};
     imr c d := p_imr (d c) mod 256; isr c d := p_isr (d c); vbase c d := p_vbase (d c); icws c d := p_icws (d c) |}.

#[export] Instance chips_laws : PicLaws chips.
Proof.
  split; cbn.
  - intros c d. apply Z.mod_pos_bound. lia.
  - intros [] d _; done.
  - intros [] d v Hi Hv; unfold chips_out; cbn; unfold chip_data; rewrite Hi; cbn; rewrite Z.mod_small by lia; done.
  - intros c d n Hi Hn. assert (n = 0 \/ n = 1 \/ n = 2 \/ n = 3 \/ n = 4 \/ n = 5 \/ n = 6 \/ n = 7) as Hc by lia.
    destruct_or! Hc; subst n; destruct c; split_and!; (reflexivity || exact Hi).
  - intros [] d; done.
  - intros [] d v Hi Hv; unfold chips_out; cbn; unfold chip_data; by rewrite Hi.
  - intros [] d v n Hi Hn Hv; unfold chips_out; cbn; unfold chip_data; rewrite Hi; destruct n as [|[|]]; done || lia.
  - intros [] [] d p v Hne [-> | ->]; done.
Qed.

Definition chips_reset : chips := fun _ => PicChip 0 0 0 O.
Definition pic_demo : kst chips :=
  Kst {[IrqHead 9 := Node (IrqHead 9) (IrqHead 9)]} true ∅ ∅ 0 0 ∅ ∅ ∅ 0 ∅ {[9 := IrqLine 9 0 0 1000]} ∅ ∅ [] 0 chips_reset.

Lemma i8259_ctrlr_correct_witness :
  exists d : chips, init_i8259_pic pic_demo = Ret 0 (with_ext pic_demo d) /\ masked d 2 = false /\ masked d 9 = true.
Proof.
  destruct (i8259_ctrlr_correct pic_demo) as [(d & E & _ & _ & _ & _ & Hm) _].
  exists d. split; [exact E|]. split; [exact (Hm 2 ltac:(lia))|exact (Hm 9 ltac:(lia))].
Defined.

(** Line 9 without handlers: nobody takes the interrupt. *)
Lemma i8259_line_correct_witness :
  exists d', handle_irq_line (fun _ => i8259_ctrlr) (fun _ _ _ _ => mret 0) 7 9 0 pic_demo = Ret 7 (with_ext pic_demo d') /\ masked d' 9 = false.
Proof.
  destruct (i8259_line_correct (fun _ => i8259_ctrlr) (fun _ _ _ _ => mret 0) 7 9 0 (IrqLine 9 0 0 1000) pic_demo)
    as (d & [Hr _] & H); [lia|by split|done|done|done|].
  destruct (H ESRCH (with_ext (with_ie pic_demo false) d)) as (d' & E & _ & Hm); [reflexivity|exact Hr|done|].
  exists d'. split; [exact E|exact (Hm 9 ltac:(lia))].
Defined.
