(* ===== verification/Gic.v ===== *)
(** hal/aarch64/gic-pl390.c: the interrupt controller of the AArch64 board, as an
    [irq_ctrlr] of kern/irq.c.

    The controller is hardware behind memory mapped registers.  [GicDevice] has
    the accesses; [GicLaws] says, in terms of the state [gic] of the controller,
    what its manual says of the registers the driver uses.  The states are
    compared line by line ([≡]).  Register accesses are 32 bits wide.  The loop of
    [init_gicc] that acknowledges pending interrupts is bounded by [fuel]. *)
From S2P Require Import Prelude KList Kernel Irq PageTable Port.
From Stdlib Require Import Btauto.

Definition GIC_INT_MAX : Z := 64.
Definition GIC_BASE : Z := 0x8000000.
Definition GIC_INTNO_PPI0 : Z := 16.
Definition GIC_INTNO_SPI0 : Z := 32.
Definition GIC_PRI_SHIFT : Z := 4.
Definition GIC_PRI_MASK : Z := 0x0f.
Definition GIC_GICD_INT_PER_REG : Z := 32.
Definition GIC_GICD_IPRIORITY_PER_REG : Z := 4.
Definition GIC_GICD_IPRIORITY_SIZE_PER_REG : Z := 8.
Definition GIC_GICD_ITARGETSR_CORE0_TARGET_BMAP : Z := 0x01010101.
Definition GIC_GICD_ITARGETSR_PER_REG : Z := 4.
Definition GIC_GICD_ITARGETSR_SIZE_PER_REG : Z := 8.
Definition GIC_GICD_ICFGR_PER_REG : Z := 16.
Definition GIC_GICD_ICENABLER_PER_REG : Z := 32.
Definition GIC_GICD_ISENABLER_PER_REG : Z := 32.
Definition GIC_GICD_ICPENDR_PER_REG : Z := 32.
Definition GIC_GICD_ISPENDR_PER_REG : Z := 32.
Definition GIC_GICD_CTLR_ENABLE : Z := 0x1.
Definition GIC_GICD_CTLR_DISABLE : Z := 0x0.
Definition GIC_GICD_ICFGR_LEVEL : Z := 0x0.
Definition GIC_GICD_ICFGR_EDGE : Z := 0x2.
Definition GICC_ICR_ENABLE : Z := 0x1.
Definition GICC_ICR_DISABLE : Z := 0x0.
Definition GICC_PMR_PRIO_MIN : Z := 0xff.
Definition GICC_BPR_NO_GROUP : Z := 0x0.
Definition GICC_IAR_INTR_IDMASK : Z := 0x3ff.
Definition GICC_IAR_SPURIOUS_INTR : Z := 0x3ff.
Definition IRQ_NOT_FOUND : Z := 1.

(** ** The registers *)

Inductive reg : Type :=
| GICD_CTLR | GICD_ISENABLER (n : Z) | GICD_ICENABLER (n : Z) | GICD_ISPENDR (n : Z) | GICD_ICPENDR (n : Z)
| GICD_IPRIORITYR (n : Z) | GICD_ITARGETSR (n : Z) | GICD_ICFGR (n : Z)
| GICC_ICR | GICC_PMR | GICC_BPR | GICC_IAR | GICC_EOI.

(** The address of a register, [REG_GIC_...]. *)
Definition reg_addr (B : Z) (r : reg) : Z :=
  let GIC_GICD_BASE := PHY_TO_KERN_STRAIGHT B GIC_BASE in
  let GIC_GICC_BASE := PHY_TO_KERN_STRAIGHT B (GIC_BASE + 0x10000) in
  match r with
  | GICD_CTLR => GIC_GICD_BASE + 0x000
  | GICD_ISENABLER n => GIC_GICD_BASE + 0x100 + n * 4
  | GICD_ICENABLER n => GIC_GICD_BASE + 0x180 + n * 4
  | GICD_ISPENDR n => GIC_GICD_BASE + 0x200 + n * 4
  | GICD_ICPENDR n => GIC_GICD_BASE + 0x280 + n * 4
  | GICD_IPRIORITYR n => GIC_GICD_BASE + 0x400 + n * 4
  | GICD_ITARGETSR n => GIC_GICD_BASE + 0x800 + n * 4
  | GICD_ICFGR n => GIC_GICD_BASE + 0xc00 + n * 4
  | GICC_ICR => GIC_GICC_BASE + 0x000
  | GICC_PMR => GIC_GICC_BASE + 0x004
  | GICC_BPR => GIC_GICC_BASE + 0x008
  | GICC_IAR => GIC_GICC_BASE + 0x00C
  | GICC_EOI => GIC_GICC_BASE + 0x010
  end.

(** What can be said of each interrupt, the priority mask, and whether the
    distributor and the interface to the processor are on.  [input] is the level
    of the wire from the device, [latch] what an edge or a write has made pending. *)
Record gic : Type := Gic {
  enabled : Z -> bool; latch : Z -> bool; edge : Z -> bool; input : Z -> bool; prio : Z -> Z; target : Z -> Z;
  pmr : Z; dist_on : bool; cpu_on : bool }.

(** An interrupt triggered by level stays pending while its wire is active. *)
Definition pending (g : gic) (i : Z) : bool := latch g i || negb (edge g i) && input g i.

(** Two states agree, but for the enable bits in [U], the latches in [W] and the
    triggers in [V]; and on everything. *)
Definition agree (U W V : Z -> Prop) (g h : gic) : Prop :=
  (forall i, ~ U i -> enabled g i = enabled h i) /\ (forall i, ~ W i -> latch g i = latch h i) /\ (forall i, ~ V i -> edge g i = edge h i) /\
  (forall i, input g i = input h i) /\ (forall i, prio g i = prio h i) /\ (forall i, target g i = target h i) /\
  pmr g = pmr h /\ dist_on g = dist_on h /\ cpu_on g = cpu_on h.
Local Abbreviation none := (fun _ : Z => False).
#[export] Instance gic_equiv : Equiv gic := agree none none none.

#[export] Instance agree_equivalence U W V : Equivalence (agree U W V).
Proof.
  split.
  - intros g. by split_and!.
  - intros g h (? & ? & ? & ? & ? & ? & ? & ? & ?). split_and!; intros; symmetry; auto.
  - intros g h k (? & ? & ? & ? & ? & ? & ? & ? & ?) (? & ? & ? & ? & ? & ? & ? & ? & ?).
    split_and!; intros; etrans; eauto.
Qed.
#[export] Instance gic_equivalence : Equivalence (≡@{gic}) := agree_equivalence _ _ _.

Lemma agree_mono (U W V U' W' V' : Z -> Prop) g h : agree U W V g h ->
  (forall i, U i -> U' i) -> (forall i, W i -> W' i) -> (forall i, V i -> V' i) -> agree U' W' V' g h.
Proof.
  intros (A & B & C & D) HU HW HV. split; [intros i Hi; apply A; auto|]. split; [intros i Hi; apply B; auto|].
  split; [intros i Hi; apply C; auto|done].
Qed.

(** The effect of a write.  Writes do not make the interrupts 0 to 15 pending, nor
    clear them; the targets of the first 32 interrupts and the triggers of the
    first 16 are fixed. *)
Definition bit_of (n v i : Z) : bool := (i / 32 =? n) && Z.testbit v (i mod 32).
Definition byte_of (v i : Z) : Z := Z.land (Z.shiftr v (8 * (i mod 4))) 0xff.
Definition gic_set (r : reg) (v : Z) (g : gic) : gic :=
  let '(Gic e p l w q t m d c) := g in
  match r with
  | GICD_CTLR => Gic e p l w q t m (Z.testbit v 0) c
  | GICD_ISENABLER n => Gic (fun i => bit_of n v i || e i) p l w q t m d c
  | GICD_ICENABLER n => Gic (fun i => negb (bit_of n v i) && e i) p l w q t m d c
  | GICD_ISPENDR n => Gic e (fun i => (16 <=? i) && bit_of n v i || p i) l w q t m d c
  | GICD_ICPENDR n => Gic e (fun i => negb ((16 <=? i) && bit_of n v i) && p i) l w q t m d c
  | GICD_IPRIORITYR n => Gic e p l w (fun i => if i / 4 =? n then byte_of v i else q i) t m d c
  | GICD_ITARGETSR n => Gic e p l w q (fun i => if (i / 4 =? n) && (32 <=? i) then byte_of v i else t i) m d c
  | GICD_ICFGR n => Gic e p (fun i => if (i / 16 =? n) && (32 <=? i) then Z.testbit v (2 * (i mod 16) + 1) else l i) w q t m d c
  | GICC_ICR => Gic e p l w q t m d (Z.testbit v 0)
  | GICC_PMR => Gic e p l w q t (Z.land v 0xff) d c
  | GICC_BPR | GICC_IAR | GICC_EOI => g
  end.

(** What a write may change besides.  It is up to the implementation whether the
    interrupts 0 to 15, which software generates, can be disabled, and whether
    the triggers of the private interrupts 16 to 31 can be programmed; an
    interrupt that is pending when its trigger changes may or may not stay so. *)
Definition cfg_bit (v i : Z) : bool := Z.testbit v (2 * (i mod 16) + 1).
Definition loose_enable (r : reg) (v i : Z) : Prop := match r with GICD_ISENABLER n | GICD_ICENABLER n => i < 16 /\ bit_of n v i = true | _ => False end.
Definition loose_edge (r : reg) (i : Z) : Prop := match r with GICD_ICFGR n => n = 1 /\ 16 <= i < 32 | _ => False end.
Definition retriggered (r : reg) (v : Z) (g : gic) (i : Z) : Prop := match r with GICD_ICFGR n => i / 16 = n /\ 16 <= i /\ edge g i <> cfg_bit v i | _ => False end.
Definition loose_latch (r : reg) (v : Z) (g : gic) (i : Z) : Prop := retriggered r v g i /\ pending g i = true.

(** The registers the controller has for 64 interrupts. *)
Definition reg_ok (r : reg) : Prop :=
  match r with
  | GICD_ISENABLER n | GICD_ICENABLER n | GICD_ISPENDR n | GICD_ICPENDR n => 0 <= n < 2
  | GICD_IPRIORITYR n | GICD_ITARGETSR n => 0 <= n < 16
  | GICD_ICFGR n => 0 <= n < 4
  | _ => True
  end.

Class GicDevice (D : Type) : Type := {
  gic_mmio :: Mmio D;
  state : D -> gic }.

(** A trigger may be changed only while its interrupt is disabled.  The priorities
    have all their eight bits.  Nothing is there to acknowledge when no interrupt
    0 to 15 is pending and those of the others that are pending are disabled. *)
Class GicLaws (D : Type) (B : Z) `{GicDevice D} : Prop := {
  write_reg : forall d r v, reg_ok r -> 0 <= v < 2 ^ 32 -> (forall i, retriggered r v (state d) i -> enabled (state d) i = false) ->
    agree (loose_enable r v) (loose_latch r v (state d)) (loose_edge r) (state (mmio_write d (reg_addr B r) v)) (gic_set r v (state d));
  read_pending : forall d n, 0 <= n < 2 -> exists v, mmio_read d (reg_addr B (GICD_ISPENDR n)) = (v, d) /\
    0 <= v < 2 ^ 32 /\ forall i, i / 32 = n -> Z.testbit v (i mod 32) = pending (state d) i;
  read_prio : forall d n, 0 <= n < 16 -> exists v, mmio_read d (reg_addr B (GICD_IPRIORITYR n)) = (v, d) /\
    0 <= v < 2 ^ 32 /\ forall i, i / 4 = n -> byte_of v i = prio (state d) i;
  read_target : forall d n, 0 <= n < 16 -> exists v, mmio_read d (reg_addr B (GICD_ITARGETSR n)) = (v, d) /\
    0 <= v < 2 ^ 32 /\ forall i, i / 4 = n -> byte_of v i = target (state d) i;
  read_config : forall d n, 0 <= n < 4 -> exists v, mmio_read d (reg_addr B (GICD_ICFGR n)) = (v, d) /\
    0 <= v < 2 ^ 32 /\ forall i, i / 16 = n -> Z.testbit v (2 * (i mod 16) + 1) = edge (state d) i;
  read_pmr : forall d, mmio_read d (reg_addr B GICC_PMR) = (pmr (state d), d);
  read_spurious : forall d, (forall i, 0 <= i < 64 -> pending (state d) i = true -> 16 <= i /\ enabled (state d) i = false) ->
    exists v, mmio_read d (reg_addr B GICC_IAR) = (v, d) /\ Z.land v 0x3ff = 1023 }.

(** ** The driver *)

Section driver.
Context {D : Type} `{GicDevice D}.
Variable B : Z. (* [KERN_VMA_BASE] *)
Variable fuel : nat.

Definition rd_reg (r : reg) : K D Z := rd32 (reg_addr B r).
Definition wr_reg (r : reg) (v : Z) : K D unit := wr32 (reg_addr B r) v.

Fixpoint ack_loop (fuel : nat) (pending_irq : Z) : K D unit :=
  if pending_irq =? GICC_IAR_SPURIOUS_INTR then mret tt
  else
    match fuel with
    | O => stopM OutOfFuel
    | S fuel =>
        v ← rd_reg GICC_IAR; wr_reg GICC_EOI v;;
        v ← rd_reg GICC_IAR; ack_loop fuel (Z.land v GICC_IAR_INTR_IDMASK)
    end.

Definition init_gicc : K D Z :=
  wr_reg GICC_ICR GICC_ICR_DISABLE;;
  wr_reg GICC_PMR GICC_PMR_PRIO_MIN;;
  wr_reg GICC_BPR GICC_BPR_NO_GROUP;;
  v ← rd_reg GICC_IAR; ack_loop fuel (Z.land v GICC_IAR_INTR_IDMASK);;
  wr_reg GICC_ICR GICC_ICR_ENABLE;;
  mret 0.

Definition finalize_gicc : K D unit := wr_reg GICC_ICR GICC_ICR_DISABLE.

(** [for (i = first; last > i; ++i)] *)
Definition from_to (first last : Z) (f : Z -> K D unit) : K D unit := forM (seqZ first (last - first)) f.

Definition init_gicd : K D Z :=
  wr_reg GICD_CTLR GIC_GICD_CTLR_DISABLE;;
  (let regs_nr := (GIC_INT_MAX + GIC_GICD_INT_PER_REG - 1) / GIC_GICD_INT_PER_REG in
   from_to 0 regs_nr (fun i => wr_reg (GICD_ICENABLER i) (Z.lnot 0)));;
  (let regs_nr := (GIC_INT_MAX + GIC_GICD_INT_PER_REG - 1) / GIC_GICD_INT_PER_REG in
   from_to 0 regs_nr (fun i => wr_reg (GICD_ICPENDR i) (Z.lnot 0)));;
  (let regs_nr := (GIC_INT_MAX + GIC_GICD_IPRIORITY_PER_REG - 1) / GIC_GICD_IPRIORITY_PER_REG in
   from_to 0 regs_nr (fun i => wr_reg (GICD_IPRIORITYR i) (Z.lnot 0)));;
  from_to (GIC_INTNO_SPI0 / GIC_GICD_ITARGETSR_PER_REG) ((GIC_INT_MAX + (GIC_GICD_ITARGETSR_PER_REG - 1)) / GIC_GICD_ITARGETSR_PER_REG)
    (fun i => wr_reg (GICD_ITARGETSR i) GIC_GICD_ITARGETSR_CORE0_TARGET_BMAP);;
  from_to (GIC_INTNO_PPI0 / GIC_GICD_ICFGR_PER_REG) ((GIC_INT_MAX + (GIC_GICD_ICFGR_PER_REG - 1)) / GIC_GICD_ICFGR_PER_REG)
    (fun i => wr_reg (GICD_ICFGR i) 0);;
  wr_reg GICD_CTLR GIC_GICD_CTLR_ENABLE;;
  mret 0.

Definition finalize_gicd : K D unit := wr_reg GICD_CTLR GIC_GICD_CTLR_DISABLE.

(** [irq_no] is signed: the quotients and remainders are those of C, truncated. *)
Definition gicd_disable_int (irq : Z) : K D unit :=
  wr_reg (GICD_ICENABLER (Z.quot irq GIC_GICD_ICENABLER_PER_REG)) (Z.shiftl 1 (Z.rem irq GIC_GICD_ICENABLER_PER_REG)).
Definition gicd_enable_int (irq : Z) : K D unit :=
  wr_reg (GICD_ISENABLER (Z.quot irq GIC_GICD_ISENABLER_PER_REG)) (Z.shiftl 1 (Z.rem irq GIC_GICD_ISENABLER_PER_REG)).
Definition gicd_clear_pending (irq : Z) : K D unit :=
  wr_reg (GICD_ICPENDR (Z.quot irq GIC_GICD_ICPENDR_PER_REG)) (Z.shiftl 1 (Z.rem irq GIC_GICD_ICPENDR_PER_REG)).
Definition gicd_set_pending (irq : Z) : K D unit :=
  wr_reg (GICD_ISPENDR (Z.quot irq GIC_GICD_ISPENDR_PER_REG)) (Z.shiftl 1 (Z.rem irq GIC_GICD_ISPENDR_PER_REG)).

Definition gicd_probe_pending (irq : Z) : K D Z :=
  v ← rd_reg (GICD_ISPENDR (Z.quot irq GIC_GICD_ISPENDR_PER_REG));
  let is_pending := s32 (Z.land v (u32 (Z.shiftl 1 (Z.rem irq GIC_GICD_ISPENDR_PER_REG)))) in
  mret (cbool (ctrue is_pending)).

(** [reg &= ~(mask << shift); reg |= (v << shift);] on [uint32_t] *)
Definition set_field (mask shift v reg : Z) : Z :=
  Z.lor (Z.land reg (u32 (Z.lnot (u32 (Z.shiftl mask shift))))) (u32 (Z.shiftl v shift)).

Definition gicd_set_target (irq p : Z) : K D unit :=
  let shift := Z.rem irq GIC_GICD_ITARGETSR_PER_REG * GIC_GICD_ITARGETSR_SIZE_PER_REG in
  reg ← rd_reg (GICD_ITARGETSR (Z.quot irq GIC_GICD_ITARGETSR_PER_REG));
  wr_reg (GICD_ITARGETSR (Z.quot irq GIC_GICD_ITARGETSR_PER_REG)) (set_field 0xff shift p reg).

Definition gicd_set_priority (irq prio : Z) : K D unit :=
  let shift := Z.rem irq GIC_GICD_IPRIORITY_PER_REG * GIC_GICD_IPRIORITY_SIZE_PER_REG in
  reg ← rd_reg (GICD_IPRIORITYR (Z.quot irq GIC_GICD_IPRIORITY_PER_REG));
  wr_reg (GICD_IPRIORITYR (Z.quot irq GIC_GICD_IPRIORITY_PER_REG)) (set_field 0xff shift prio reg).

Definition gicd_config (irq config : Z) : K D unit :=
  let shift := Z.rem irq 16 * 2 in
  reg ← rd_reg (GICD_ICFGR (Z.quot irq 16));
  wr_reg (GICD_ICFGR (Z.quot irq 16)) (set_field 0x03 shift config reg).

Definition gic_pl390_disable_irq (irq : Z) : K D unit := gicd_disable_int irq.
Definition gic_pl390_enable_irq (irq : Z) : K D unit := gicd_enable_int irq.

Definition gic_pl390_config_irq (irq attr prio : Z) : K D Z :=
  gic_pl390_disable_irq irq;;
  (if ctrue (Z.land attr IRQ_ATTR_EDGE) then
     gicd_config irq GIC_GICD_ICFGR_EDGE;;
     gicd_clear_pending irq
   else gicd_config irq GIC_GICD_ICFGR_LEVEL);;
  gicd_set_priority irq (Z.shiftl (Z.land prio GIC_PRI_MASK) GIC_PRI_SHIFT);;
  gicd_set_target irq 0x1;;
  mret 0.

Definition aarch64_get_intr_priority : K D Z := rd_reg GICC_PMR.
Definition aarch64_set_intr_priority (prio : Z) : K D unit := wr_reg GICC_PMR prio.
Definition gic_pl390_get_priority : K D Z := cur_prio ← aarch64_get_intr_priority; mret (Z.land cur_prio 0xff).
Definition gic_pl390_set_priority (prio : Z) : K D unit := aarch64_set_intr_priority (Z.land prio 0xff).
Definition gic_pl390_eoi (irq : Z) : K D unit := gicd_clear_pending irq.

Definition gic_pl390_initialize : K D Z := init_gicd;; init_gicc;; mret 0.
Definition gic_pl390_finalize : K D unit := finalize_gicc;; finalize_gicd.

(** [*irqp] is set when an interrupt is found. *)
Definition gic_pl390_find_pending_irq : K D (Z * option Z) :=
  r ← forM_until (seqZ 0 GIC_INT_MAX) (fun i => p ← gicd_probe_pending i; mret (if ctrue p then Some i else None));
  mret (match r with Some i => (IRQ_FOUND, Some i) | None => (IRQ_NOT_FOUND, None) end).

Definition gic_raise_irq (irq : Z) : K D unit := gicd_set_pending irq.

Definition arm_gic_ctrlr : irq_ctrlr D :=
  IrqCtrlr (Some gic_pl390_config_irq) (Some gic_pl390_enable_irq) (Some gic_pl390_disable_irq)
    (Some gic_pl390_get_priority) (Some gic_pl390_set_priority) (Some gic_pl390_eoi).

(** [aarch64_setup_vector] loads the vector base register; it is a parameter. *)
Definition aarch64_init_interrupt (aarch64_setup_vector : K D unit) (arm_gic_find_irq ctrlrp : ptr) : K D unit :=
  aarch64_setup_vector;;
  irq_register_pending_irq_finder arm_gic_find_irq;;
  forM (seqZ 0 GIC_INT_MAX) (fun i => irq_register_ctrlr i ctrlrp;; mret tt);;
  gic_pl390_initialize;;
  mret tt.
End driver.

(** ** Fields of registers *)

Lemma set_field_bit w shift v reg k : 0 <= w -> 0 <= shift -> shift + w <= 32 -> 0 <= v < 2 ^ w -> 0 <= reg < 2 ^ 32 -> 0 <= k < 32 ->
  Z.testbit (set_field (Z.ones w) shift v reg) k = if decide (shift <= k < shift + w) then Z.testbit v (k - shift) else Z.testbit reg k.
Proof.
  intros Hw Hs Hsw Hv Hr Hk. unfold set_field, u32. rewrite Z.lor_spec, Z.land_spec, !wrap_testbit, Z.lnot_spec, wrap_testbit by lia.
  rewrite !Z.shiftl_spec by lia. rewrite Z.testbit_ones by lia. destruct (decide (shift <= k < shift + w)) as [Hin|Hout].
  - rewrite (proj2 (Z.leb_le 0 (k - shift))), (proj2 (Z.ltb_lt (k - shift) w)) by lia. cbn. by rewrite andb_false_r.
  - assert (Z.testbit v (k - shift) = false) as ->.
    { destruct (decide (k < shift)); [by rewrite Z.testbit_neg_r by lia|]. apply (testbit_above v w); lia. }
    assert ((0 <=? k - shift) && (k - shift <? w) = false) as ->.
    { destruct (Z.leb_spec 0 (k - shift)); [|done]. cbn. apply Z.ltb_ge. lia. }
    cbn. by rewrite andb_true_r, orb_false_r.
Qed.

Lemma set_field_range w shift v reg : 0 <= reg < 2 ^ 32 -> 0 <= set_field w shift v reg < 2 ^ 32.
Proof.
  intros Hr. unfold set_field. set (a := u32 (Z.lnot _)). set (b := u32 (Z.shiftl v shift)).
  assert (0 <= a < 2 ^ 32) by (by apply wrap_range). assert (0 <= b < 2 ^ 32) by (by apply wrap_range).
  split; [apply Z.lor_nonneg; split; [apply Z.land_nonneg; lia|lia]|].
  destruct (decide (Z.lor (Z.land reg a) b = 0)) as [->|Hne]; [lia|].
  assert (0 < Z.lor (Z.land reg a) b) by (assert (0 <= Z.lor (Z.land reg a) b) by (apply Z.lor_nonneg; split; [apply Z.land_nonneg; lia|lia]); lia).
  apply Z.log2_lt_pow2; [done|]. rewrite Z.log2_lor by (try apply Z.land_nonneg; lia).
  assert (Z.log2 (Z.land reg a) < 32).
  { eapply Z.le_lt_trans; [apply Z.log2_land; lia|]. destruct (decide (reg = 0)) as [->|]; [cbn; lia|].
    apply Z.min_lt_iff. left. apply Z.log2_lt_pow2; lia. }
  assert (Z.log2 b < 32) by (destruct (decide (b = 0)) as [->|]; [done|apply Z.log2_lt_pow2; lia]). lia.
Qed.

(** Setting one byte of a register leaves the others. *)
Lemma byte_set i j v reg : 0 <= v < 256 -> 0 <= reg < 2 ^ 32 ->
  byte_of (set_field 0xff (i mod 4 * 8) v reg) j = if decide (j mod 4 = i mod 4) then v else byte_of reg j.
Proof.
  intros Hv Hr. pose proof (Z.mod_pos_bound i 4 ltac:(lia)). pose proof (Z.mod_pos_bound j 4 ltac:(lia)).
  unfold byte_of. apply Z.bits_inj'. intros k Hk. rewrite Z.land_spec. change 0xff with (Z.ones 8). rewrite Z.testbit_ones by lia.
  destruct (Z.ltb_spec k 8) as [Hlt|Hge].
  - rewrite (proj2 (Z.leb_le 0 k)), andb_true_r, Z.shiftr_spec by lia.
    rewrite (set_field_bit 8) by (change (2 ^ 8) with 256; lia).
    destruct (decide (j mod 4 = i mod 4)) as [E|Hne].
    + rewrite decide_True by lia. f_equal. lia.
    + rewrite decide_False by lia. rewrite Z.land_spec, Z.testbit_ones, Z.shiftr_spec by lia.
      by rewrite (proj2 (Z.leb_le 0 k)), (proj2 (Z.ltb_lt k 8)), andb_true_r by lia.
  - rewrite andb_false_r, andb_false_r. case_decide; [symmetry; apply (testbit_above v 8); change (2 ^ 8) with 256; lia|].
    rewrite Z.land_spec, Z.testbit_ones by lia. by rewrite (proj2 (Z.ltb_ge k 8)), !andb_false_r by lia.
Qed.

Lemma cfg_set i j v reg : 0 <= v < 4 -> 0 <= reg < 2 ^ 32 ->
  Z.testbit (set_field 0x03 (i mod 16 * 2) v reg) (2 * (j mod 16) + 1) =
    if decide (j mod 16 = i mod 16) then Z.testbit v 1 else Z.testbit reg (2 * (j mod 16) + 1).
Proof.
  intros Hv Hr. pose proof (Z.mod_pos_bound i 16 ltac:(lia)). pose proof (Z.mod_pos_bound j 16 ltac:(lia)).
  change 0x03 with (Z.ones 2). rewrite set_field_bit by (change (2 ^ 2) with 4; lia).
  destruct (decide (j mod 16 = i mod 16)) as [E|Hne].
  - rewrite decide_True by lia. f_equal. lia.
  - by rewrite decide_False by lia.
Qed.

Lemma bit_of_one i j : 0 <= i -> bit_of (i / 32) (u32 (Z.shiftl 1 (i mod 32))) j = bool_decide (j = i).
Proof.
  intros Hi. unfold bit_of, u32. pose proof (Z.mod_pos_bound i 32 ltac:(lia)). pose proof (Z.mod_pos_bound j 32 ltac:(lia)).
  rewrite wrap_testbit, Z.shiftl_1_l, Z.pow2_bits_eqb by lia. apply eq_true_iff_eq.
  rewrite andb_true_iff, !Z.eqb_eq, bool_decide_eq_true. split; [|by intros ->].
  intros [E1 E2]. rewrite (Z.div_mod j 32), (Z.div_mod i 32) by lia. lia.
Qed.

(** A register of ones reaches every interrupt of the register. *)
Lemma bit_of_ones n j : bit_of n (u32 (Z.lnot 0)) j = (j / 32 =? n).
Proof.
  unfold bit_of, u32. pose proof (Z.mod_pos_bound j 32 ltac:(lia)). rewrite wrap_testbit by lia. change (Z.lnot 0) with (-1).
  rewrite Z.bits_m1 by lia. apply andb_true_r.
Qed.

Lemma byte_of_ones j : byte_of (u32 (Z.lnot 0)) j = 255.
Proof.
  unfold byte_of. pose proof (Z.mod_pos_bound j 4 ltac:(lia)).
  assert (j mod 4 = 0 \/ j mod 4 = 1 \/ j mod 4 = 2 \/ j mod 4 = 3) as [->|[->|[->| ->]]] by lia; done.
Qed.

Lemma byte_of_core0 j : byte_of (u32 GIC_GICD_ITARGETSR_CORE0_TARGET_BMAP) j = 1.
Proof.
  unfold byte_of. pose proof (Z.mod_pos_bound j 4 ltac:(lia)).
  assert (j mod 4 = 0 \/ j mod 4 = 1 \/ j mod 4 = 2 \/ j mod 4 = 3) as [->|[->|[->| ->]]] by lia; done.
Qed.

(** ** The operations as updates of the state *)

Definition set_at {A} (f : Z -> A) (i : Z) (v : A) : Z -> A := fun j => if decide (j = i) then v else f j.
Definition g_enable (i : Z) (b : bool) (g : gic) : gic :=
  let '(Gic e p l w q t m d c) := g in Gic (set_at e i b) p l w q t m d c.
Definition g_latch (i : Z) (b : bool) (g : gic) : gic :=
  let '(Gic e p l w q t m d c) := g in Gic e (set_at p i b) l w q t m d c.
Definition g_edge (i : Z) (b : bool) (g : gic) : gic :=
  let '(Gic e p l w q t m d c) := g in Gic e p (set_at l i b) w q t m d c.
Definition g_prio (i : Z) (v : Z) (g : gic) : gic :=
  let '(Gic e p l w q t m d c) := g in Gic e p l w (set_at q i v) t m d c.
Definition g_target (i : Z) (v : Z) (g : gic) : gic :=
  let '(Gic e p l w q t m d c) := g in Gic e p l w q (set_at t i v) m d c.

(** Agreement is kept by updates that work interrupt by interrupt. *)
Ltac agree_update :=
  let Hg := fresh "Hg" in
  intros [] [] Hg; unfold equiv, gic_equiv in *; destruct Hg as (?He & ?Hp & ?Hl & ?Hw & ?Hq & ?Ht & ?Hm & ?Hd & ?Hc); cbn in *; subst;
  split_and!; cbn; intros; unfold set_at; repeat case_decide; try done; try (by auto); eauto with f_equal.

#[export] Instance g_enable_proper i b : Proper ((≡) ==> (≡)) (g_enable i b).
Proof. agree_update. Qed.
#[export] Instance g_latch_proper i b : Proper ((≡) ==> (≡)) (g_latch i b).
Proof. agree_update. Qed.
#[export] Instance g_edge_proper i b : Proper ((≡) ==> (≡)) (g_edge i b).
Proof. agree_update. Qed.
#[export] Instance g_prio_proper i v : Proper ((≡) ==> (≡)) (g_prio i v).
Proof. agree_update. Qed.
#[export] Instance g_target_proper i v : Proper ((≡) ==> (≡)) (g_target i v).
Proof. agree_update. Qed.

(** Writing a latch settles it. *)
Lemma g_latch_settles irq b g h : agree none (fun i => i = irq) none g h -> g_latch irq b g ≡ g_latch irq b h.
Proof. revert g h. agree_update. Qed.

(** What is pending when the latch is clear. *)
Lemma latch_cleared g h irq : h ≡ g_latch irq false g -> pending h irq = negb (edge g irq) && input g irq.
Proof.
  intros (_ & Hp & Hl & Hw & _). unfold pending. rewrite Hp, Hl, Hw by (by intros []). destruct g. cbn. unfold set_at. by rewrite decide_True.
Qed.

Section acts.
Context {D : Type} {B : Z} `{GicLaws D B}.
Implicit Types (c : K D unit) (s : kst D).

(** A routine that returns and changes the state of the controller by [f]. *)
Definition acts c (f : gic -> gic) : Prop := forall s, exists d', c s = Ret tt (with_ext s d') /\ state d' ≡ f (state (ext s)).

Lemma acts_seq c1 c2 f1 f2 : acts c1 f1 -> acts c2 f2 -> Proper ((≡) ==> (≡)) f2 -> acts (c1;; c2) (fun g => f2 (f1 g)).
Proof.
  intros H1 H2 Hf s. destruct (H1 s) as (d1 & E1 & F1). destruct (H2 (with_ext s d1)) as (d2 & E2 & F2).
  exists d2. rewrite (bind_ret _ _ _ _ _ E1), E2. split; [by destruct s|]. rewrite F2. cbn [ext with_ext]. by rewrite F1.
Qed.

Lemma acts_mono c f g : acts c f -> (forall x, f x ≡ g x) -> acts c g.
Proof. intros Hc Hfg s. destruct (Hc s) as (d & E & F). exists d. split; [done|]. by rewrite F. Qed.

Lemma acts_id : acts (mret tt) (fun g => g).
Proof. intros s. exists (ext s). split; [by destruct s|done]. Qed.

Lemma acts_forM {X} (xs : list X) (f : X -> K D unit) (F : X -> gic -> gic) :
  (forall x, x ∈ xs -> acts (f x) (F x)) -> (forall x, Proper ((≡) ==> (≡)) (F x)) ->
  acts (forM xs f) (fun g => foldl (fun g x => F x g) g xs).
Proof.
  intros Hf HF. induction xs as [|x xs IH]; cbn [forM foldl]; [apply acts_id|].
  apply (acts_seq _ _ (F x) (fun g => foldl (fun g x => F x g) g xs)); [apply Hf; constructor|apply IH; intros y Hy; apply Hf; by constructor|].
  clear -HF. induction xs as [|y xs IH]; [by intros g h|]. intros g h Hgh. cbn. apply IH. by apply HF.
Qed.

(** The registers a write sets exactly. *)
Definition plain (r : reg) (v : Z) : Prop := (forall n, r <> GICD_ICFGR n) /\ forall i, ~ loose_enable r v i.

Lemma plain_other r v : match r with GICD_ISENABLER _ | GICD_ICENABLER _ | GICD_ICFGR _ => False | _ => True end -> plain r v.
Proof. intros Hr. split; [by intros n ->|intros i; destruct r; cbn in *; tauto]. Qed.

Lemma write_plain d r v : reg_ok r -> plain r (u32 v) -> state (mmio_write d (reg_addr B r) (u32 v)) ≡ gic_set r (u32 v) (state d).
Proof.
  intros Hr [Hc Hp]. assert (forall i, ~ retriggered r (u32 v) (state d) i) as Hn by (intros i; destruct r; cbn; try (by intros []); by destruct (Hc n)).
  eapply agree_mono; [apply write_reg; [done|by apply wrap_range|intros i Hi; by destruct (Hn i)]|..]; intros i Hi; [by destruct (Hp i)|by destruct (Hn i (proj1 Hi))|].
  destruct r; try done. by destruct (Hc n).
Qed.

Lemma wr_reg_acts r v : reg_ok r -> plain r (u32 v) -> acts (wr_reg B r v) (gic_set r (u32 v)).
Proof. intros Hr Hp s. eexists. split; [reflexivity|]. by apply write_plain. Qed.

Lemma quot_rem_line irq k : 0 <= irq -> 0 < k -> Z.quot irq k = irq / k /\ Z.rem irq k = irq mod k.
Proof. intros Hi Hk. split; [by apply Z.quot_div_nonneg|by apply Z.rem_mod_nonneg]. Qed.

Lemma one_bit_acts (R : Z -> reg) irq f : 16 <= irq < 64 -> (forall n, 0 <= n < 2 -> reg_ok (R n)) ->
  (forall n m, R n <> GICD_ICFGR m) -> (forall n v i, loose_enable (R n) v i -> i < 16 /\ bit_of n v i = true) ->
  (forall g, gic_set (R (irq / 32)) (u32 (Z.shiftl 1 (irq mod 32))) g ≡ f g) ->
  acts (wr_reg B (R (Z.quot irq 32)) (Z.shiftl 1 (Z.rem irq 32))) f.
Proof.
  intros Hi HR Hc Hp Hf. destruct (quot_rem_line irq 32) as [-> ->]; [lia..|]. eapply acts_mono; [|exact Hf].
  apply wr_reg_acts; [apply HR; Z.to_euclidean_division_equations; lia|]. split; [by intros n|].
  intros i [Hlt Hb]%Hp. rewrite bit_of_one, bool_decide_eq_true in Hb by lia. lia.
Qed.

Lemma disable_acts irq : 16 <= irq < 64 -> acts (gicd_disable_int B irq) (g_enable irq false).
Proof.
  intros Hi. apply (one_bit_acts GICD_ICENABLER); [done|done|done|done|]. intros []. split_and!; cbn; try done.
  intros i _. rewrite bit_of_one by lia. unfold set_at. case_bool_decide; case_decide; try done; subst.
Qed.
Lemma enable_acts irq : 16 <= irq < 64 -> acts (gicd_enable_int B irq) (g_enable irq true).
Proof.
  intros Hi. apply (one_bit_acts GICD_ISENABLER); [done|done|done|done|]. intros []. split_and!; cbn; try done.
  intros i _. rewrite bit_of_one by lia. unfold set_at. case_bool_decide; case_decide; try done; subst.
Qed.
Lemma clear_pending_acts irq : 16 <= irq < 64 -> acts (gicd_clear_pending B irq) (g_latch irq false).
Proof.
  intros Hi. apply (one_bit_acts GICD_ICPENDR); [done|done|done|done|]. intros []. split_and!; cbn; try done.
  intros i _. rewrite bit_of_one by lia. unfold set_at. case_bool_decide; case_decide; try done; subst. by rewrite (proj2 (Z.leb_le 16 irq)) by lia. all: by rewrite andb_false_r.
Qed.
Lemma set_pending_acts irq : 16 <= irq < 64 -> acts (gicd_set_pending B irq) (g_latch irq true).
Proof.
  intros Hi. apply (one_bit_acts GICD_ISPENDR); [done|done|done|done|]. intros []. split_and!; cbn; try done.
  intros i _. rewrite bit_of_one by lia. unfold set_at. case_bool_decide; case_decide; try done; subst. by rewrite (proj2 (Z.leb_le 16 irq)) by lia. all: by rewrite andb_false_r.
Qed.

Lemma rd_reg_eq r s v : mmio_read (ext s) (reg_addr B r) = (v, ext s) -> rd_reg B r s = Ret v s.
Proof. intros E. unfold rd_reg, rd32. mred. rewrite E. mred. by destruct s. Qed.

Lemma same_div_mod i j k : 0 < k -> i / k = j / k -> i mod k = j mod k -> i = j.
Proof. intros Hk E1 E2. rewrite (Z.div_mod i k), (Z.div_mod j k) by lia. by rewrite E1, E2. Qed.

Lemma set_priority_acts irq v : 0 <= irq < 64 -> 0 <= v < 256 -> acts (gicd_set_priority B irq v) (g_prio irq v).
Proof.
  intros Hi Hv s. unfold gicd_set_priority. change GIC_GICD_IPRIORITY_PER_REG with 4. change GIC_GICD_IPRIORITY_SIZE_PER_REG with 8.
  destruct (quot_rem_line irq 4) as [-> ->]; [lia..|]. assert (0 <= irq / 4 < 16) as Hn by (Z.to_euclidean_division_equations; lia).
  destruct (read_prio (ext s) (irq / 4) Hn) as (r & Er & Hr & Hb). rewrite (bind_ret _ _ _ _ _ (rd_reg_eq _ s r Er)).
  pose proof (set_field_range 0xff (irq mod 4 * 8) v r Hr) as Hrange.
  destruct (wr_reg_acts (GICD_IPRIORITYR (irq / 4)) (set_field 0xff (irq mod 4 * 8) v r) Hn ltac:(by apply plain_other) s) as (d' & E & F).
  exists d'. split; [exact E|]. rewrite F. unfold u32. rewrite wrap_small by done. destruct (state (ext s)) as [e p l w q t m dd c] eqn:Es. cbn [prio] in Hb.
  split_and!; cbn; try done. intros i. unfold set_at. destruct (Z.eqb_spec (i / 4) (irq / 4)) as [E4|Hne].
  - rewrite byte_set by done. destruct (decide (i = irq)) as [->|Hne]; [by rewrite decide_True|].
    rewrite decide_False; [by rewrite <-Hb|]. intros ?. apply Hne. by apply (same_div_mod i irq 4).
  - by rewrite decide_False by (by intros ->).
Qed.

Lemma set_target_acts irq v : 32 <= irq < 64 -> 0 <= v < 256 -> acts (gicd_set_target B irq v) (g_target irq v).
Proof.
  intros Hi Hv s. unfold gicd_set_target. change GIC_GICD_ITARGETSR_PER_REG with 4. change GIC_GICD_ITARGETSR_SIZE_PER_REG with 8.
  destruct (quot_rem_line irq 4) as [-> ->]; [lia..|]. assert (0 <= irq / 4 < 16) as Hn by (Z.to_euclidean_division_equations; lia).
  destruct (read_target (ext s) (irq / 4) Hn) as (r & Er & Hr & Hb). rewrite (bind_ret _ _ _ _ _ (rd_reg_eq _ s r Er)).
  pose proof (set_field_range 0xff (irq mod 4 * 8) v r Hr) as Hrange.
  destruct (wr_reg_acts (GICD_ITARGETSR (irq / 4)) (set_field 0xff (irq mod 4 * 8) v r) Hn ltac:(by apply plain_other) s) as (d' & E & F).
  exists d'. split; [exact E|]. rewrite F. unfold u32. rewrite wrap_small by done. destruct (state (ext s)) as [e p l w q t m dd c] eqn:Es. cbn [target] in Hb.
  split_and!; cbn; try done. intros i. unfold set_at. destruct (Z.eqb_spec (i / 4) (irq / 4)) as [E4|Hne]; cbn [andb].
  - rewrite (proj2 (Z.leb_le 32 i)) by (Z.to_euclidean_division_equations; lia).
    rewrite byte_set by done. destruct (decide (i = irq)) as [->|Hne]; [by rewrite decide_True|].
    rewrite decide_False; [by rewrite <-Hb|]. intros ?. apply Hne. by apply (same_div_mod i irq 4).
  - by rewrite decide_False by (by intros ->).
Qed.

(** The trigger of an interrupt that is disabled; if it was pending and the
    trigger changed, it may still be. *)
Lemma config_eq irq v s : 32 <= irq < 64 -> 0 <= v < 4 -> enabled (state (ext s)) irq = false ->
  exists d', gicd_config B irq v s = Ret tt (with_ext s d') /\
    agree none (fun i => i = irq /\ edge (state (ext s)) irq <> Z.testbit v 1 /\ pending (state (ext s)) irq = true) none
      (state d') (g_edge irq (Z.testbit v 1) (state (ext s))).
Proof.
  intros Hi Hv Hoff. unfold gicd_config.
  destruct (quot_rem_line irq 16) as [-> ->]; [lia..|]. assert (0 <= irq / 16 < 4) as Hn by (Z.to_euclidean_division_equations; lia).
  destruct (read_config (ext s) (irq / 16) Hn) as (r & Er & Hr & Hb). rewrite (bind_ret _ _ _ _ _ (rd_reg_eq _ s r Er)).
  pose proof (set_field_range 0x03 (irq mod 16 * 2) v r Hr) as Hrange. set (r' := set_field _ _ _ _) in *.
  assert (forall i, i / 16 = irq / 16 -> cfg_bit r' i = if decide (i = irq) then Z.testbit v 1 else edge (state (ext s)) i) as Hc.
  { intros i E4. unfold cfg_bit, r'. rewrite cfg_set by done. destruct (decide (i = irq)) as [->|Hne]; [by rewrite decide_True|].
    rewrite decide_False; [by apply Hb|]. intros ?. apply Hne. by apply (same_div_mod i irq 16). }
  assert (forall i, retriggered (GICD_ICFGR (irq / 16)) r' (state (ext s)) i -> i = irq /\ edge (state (ext s)) irq <> Z.testbit v 1) as Hre.
  { intros i (E4 & _ & Hne). rewrite Hc in Hne by done. case_decide; subst; [done|by destruct Hne]. }
  eexists. split; [reflexivity|]. unfold u32. rewrite wrap_small by done.
  eapply transitivity; [eapply agree_mono; [apply (write_reg (ext s) (GICD_ICFGR (irq / 16)) r'); [done|done|]|..]|].
  - by intros i [-> _]%Hre.
  - done.
  - by intros i [[-> ?]%Hre Hp].
  - intros i [E ?]. Z.to_euclidean_division_equations; lia.
  - apply (agree_mono none none none); [|done..]. destruct (state (ext s)) as [e p l w q t m dd c] eqn:Es. cbn [edge] in Hc.
    split_and!; cbn; try done. intros i _. unfold set_at. destruct (Z.eqb_spec (i / 16) (irq / 16)) as [E4|Hne]; cbn [andb].
    + rewrite (proj2 (Z.leb_le 32 i)) by (Z.to_euclidean_division_equations; lia). by apply Hc.
    + by rewrite decide_False by (by intros ->).
Qed.

Definition edge_irq (attr : Z) : bool := ctrue (Z.land attr IRQ_ATTR_EDGE).
(** The state after [gic_pl390_config_irq]. *)
Definition g_config (irq attr pr : Z) (g : gic) : gic :=
  let g := g_edge irq (edge_irq attr) (g_enable irq false g) in
  let g := if edge_irq attr then g_latch irq false g else g in
  g_target irq 1 (g_prio irq (Z.land pr 15 * 16) g).

Lemma land15 p : 0 <= Z.land p 15 < 16.
Proof. change 15 with (Z.ones 4). rewrite Z.land_ones by lia. change (2 ^ 4) with 16. apply Z.mod_pos_bound. lia. Qed.

(** Setting the trigger, and clearing what an edge may have left. *)
Lemma trigger_eq irq attr s : 32 <= irq < 64 -> enabled (state (ext s)) irq = false -> edge_irq attr = true \/ pending (state (ext s)) irq = false ->
  exists d', (if ctrue (Z.land attr IRQ_ATTR_EDGE) then gicd_config B irq GIC_GICD_ICFGR_EDGE;; gicd_clear_pending B irq
     else gicd_config B irq GIC_GICD_ICFGR_LEVEL) s = Ret tt (with_ext s d') /\
    state d' ≡ let g := g_edge irq (edge_irq attr) (state (ext s)) in if edge_irq attr then g_latch irq false g else g.
Proof.
  intros Hi Hoff Hp. fold (edge_irq attr). destruct (edge_irq attr).
  - destruct (config_eq irq 2 s Hi ltac:(done) Hoff) as (d1 & E1 & F1). unfold GIC_GICD_ICFGR_EDGE. rewrite (bind_ret _ _ _ _ _ E1).
    destruct (clear_pending_acts irq ltac:(lia) (with_ext s d1)) as (d2 & E2 & F2). exists d2. split; [by rewrite E2; destruct s|]. rewrite F2.
    apply g_latch_settles. eapply agree_mono; [exact F1|done|by intros i [-> _]|done].
  - destruct (config_eq irq 0 s Hi ltac:(done) Hoff) as (d1 & E1 & F1). exists d1. split; [exact E1|].
    eapply agree_mono; [exact F1|done| |done]. intros i (-> & _ & Hpe). destruct Hp; [done|congruence].
Qed.

Lemma config_irq_eq irq attr pr s : 32 <= irq < 64 -> edge_irq attr = true \/ pending (state (ext s)) irq = false ->
  exists d', gic_pl390_config_irq B irq attr pr s = Ret 0 (with_ext s d') /\ state d' ≡ g_config irq attr pr (state (ext s)).
Proof.
  intros Hi Hpe. pose proof (land15 pr) as Hp.
  assert (acts (gicd_set_priority B irq (Z.shiftl (Z.land pr GIC_PRI_MASK) GIC_PRI_SHIFT)) (g_prio irq (Z.land pr 15 * 16))) as Hprio.
  { unfold GIC_PRI_MASK, GIC_PRI_SHIFT. rewrite Z.shiftl_mul_pow2 by lia. change (2 ^ 4) with 16. apply set_priority_acts; lia. }
  pose proof (disable_acts irq ltac:(lia)) as Hdis. pose proof (set_target_acts irq 1 Hi ltac:(lia)) as Htgt. unfold gic_pl390_config_irq.
  destruct (Hdis s) as (d1 & E1 & F1). rewrite (bind_ret _ _ _ _ _ E1).
  destruct (trigger_eq irq attr (with_ext s d1) Hi) as (d2 & E2 & F2).
  { destruct F1 as (F1 & _). cbn [ext with_ext]. rewrite F1 by (by intros []). destruct (state (ext s)). cbn. unfold set_at. by rewrite decide_True. }
  { destruct Hpe as [->|Hpe]; [by left|right]. rewrite <-Hpe. unfold pending. cbn [ext with_ext]. destruct F1 as (_ & F1 & F2 & -> & _). rewrite F1, F2 by (by intros []). by destruct (state (ext s)). }
  rewrite (bind_ret _ _ _ _ _ E2).
  destruct (Hprio (with_ext (with_ext s d1) d2)) as (d3 & E3 & F3). rewrite (bind_ret _ _ _ _ _ E3).
  destruct (Htgt (with_ext (with_ext (with_ext s d1) d2) d3)) as (d4 & E4 & F4). rewrite (bind_ret _ _ _ _ _ E4).
  exists d4. split; [by destruct s|]. cbn [ext with_ext] in F2, F3, F4. unfold g_config. rewrite F4, F3, F2.
  destruct (edge_irq attr); by rewrite F1.
Qed.

(** ** The search for a pending interrupt *)

Lemma probe_eq irq s : 0 <= irq < 64 -> gicd_probe_pending B irq s = Ret (cbool (pending (state (ext s)) irq)) s.
Proof.
  intros Hi. unfold gicd_probe_pending. change GIC_GICD_ISPENDR_PER_REG with 32. destruct (quot_rem_line irq 32) as [-> ->]; [lia..|].
  assert (0 <= irq / 32 < 2) as Hn by (Z.to_euclidean_division_equations; lia). pose proof (Z.mod_pos_bound irq 32 ltac:(lia)) as Hm.
  destruct (read_pending (ext s) (irq / 32) Hn) as (v & Ev & Hv & Hb). rewrite (bind_ret _ _ _ _ _ (rd_reg_eq _ s v Ev)).
  rewrite <-(Hb irq eq_refl). mred. do 2 f_equal. rewrite <-(land_pow2_testbit v (irq mod 32)) by lia.
  assert (u32 (Z.shiftl 1 (irq mod 32)) = Z.shiftl 1 (irq mod 32)) as ->.
  { apply wrap_small. rewrite Z.shiftl_1_l. split; [apply Z.pow_nonneg; lia|apply Z.pow_lt_mono_r; lia]. }
  set (x := Z.land v _). assert (0 <= x < 2 ^ 32) as Hx.
  { split; [apply Z.land_nonneg; lia|]. destruct (decide (x = 0)) as [->|Hne]; [lia|]. assert (0 <= x) by (apply Z.land_nonneg; lia).
    apply Z.log2_lt_pow2; [lia|]. eapply Z.le_lt_trans; [apply Z.log2_land; try lia; apply Z.shiftl_nonneg; lia|].
    apply Z.min_lt_iff. left. destruct (decide (v = 0)) as [->|]; [cbn; lia|]. apply Z.log2_lt_pow2; lia. }
  unfold ctrue. f_equal. apply eq_true_iff_eq. rewrite !Z.eqb_eq. unfold s32, swrap. change (2 ^ (32 - 1)) with 2147483648. change (2 ^ 32) with 4294967296 in *.
  split; intros E; Z.to_euclidean_division_equations; lia.
Qed.

Lemma find_loop_eq s n : forall k, 0 <= k -> k + Z.of_nat n <= 64 ->
  forM_until (seqZ k (Z.of_nat n)) (fun i => p ← gicd_probe_pending B i; mret (if ctrue p then Some i else None)) s =
    Ret (head (filter (fun i => pending (state (ext s)) i) (seqZ k (Z.of_nat n)))) s.
Proof.
  induction n as [|n IH]; intros k Hk Hn; [done|]. rewrite seqZ_cons by lia.
  replace (Z.pred (Z.of_nat (S n))) with (Z.of_nat n) by lia. cbn [forM_until].
  rewrite (bind_ret _ _ s (if pending (state (ext s)) k then Some k else None) s).
  2: { rewrite (bind_ret _ _ _ _ _ (probe_eq k s ltac:(lia))), ctrue_cbool. done. }
  rewrite filter_cons. destruct (pending (state (ext s)) k); cbn; [done|]. apply IH; lia.
Qed.

Lemma find_pending_eq s : gic_pl390_find_pending_irq B s =
  Ret (match head (filter (fun i => pending (state (ext s)) i) (seqZ 0 64)) with
       | Some i => (IRQ_FOUND, Some i) | None => (IRQ_NOT_FOUND, None) end) s.
Proof.
  unfold gic_pl390_find_pending_irq. change (seqZ 0 GIC_INT_MAX) with (seqZ 0 (Z.of_nat 64)).
  by rewrite (bind_ret _ _ _ _ _ (find_loop_eq s 64 0 ltac:(lia) ltac:(lia))).
Qed.

(** ** Initialisation *)

(** None of the interrupts that software generates is pending. *)
Definition sgi_idle (g : gic) : Prop := forall i, 0 <= i < 16 -> pending g i = false.

(** How far the distributor is initialised: the number of registers of each kind
    that are written. *)
Record progress (ne np nq nt nc : Z) (g : gic) : Prop := Progress {
  pg_sgi : sgi_idle g;
  pg_off : forall i, 16 <= i < 64 -> i / 32 < ne -> enabled g i = false;
  pg_clear : forall i, 16 <= i < 64 -> i / 32 < np -> latch g i = false;
  pg_prio : forall i, 0 <= i < 64 -> i / 4 < nq -> prio g i = 255;
  pg_target : forall i, 32 <= i < 64 -> i / 4 < nt -> target g i = 1;
  pg_level : forall i, 32 <= i < 64 -> i / 16 < nc -> edge g i = false }.

(** A write to a register that keeps the triggers. *)
Lemma write_other d r v : reg_ok r -> (forall n, r <> GICD_ICFGR n) ->
  let g' := state (mmio_write d (reg_addr B r) (u32 v)) in let h := gic_set r (u32 v) (state d) in
  (forall i, 16 <= i -> enabled g' i = enabled h i) /\ (forall i, latch g' i = latch h i) /\ (forall i, edge g' i = edge (state d) i) /\
  (forall i, input g' i = input (state d) i) /\ (forall i, prio g' i = prio h i) /\ (forall i, target g' i = target h i) /\
  pmr g' = pmr h /\ dist_on g' = dist_on h /\ cpu_on g' = cpu_on h.
Proof.
  intros Hr Hc. assert (forall i, ~ retriggered r (u32 v) (state d) i) as Hn by (intros i; destruct r; cbn; try (by intros []); by destruct (Hc n)).
  destruct (write_reg d r (u32 v) Hr ltac:(by apply wrap_range) ltac:(intros i Hi; by destruct (Hn i))) as (He & Hp & Hl & Hw & Hq & Ht & Hrest).
  split_and!; try (intros i); try apply Hrest; try done.
  - intros Hi. apply He. destruct r; cbn; try tauto; lia.
  - apply Hp. intros [Hi _]. by apply (Hn i).
  - rewrite Hl; [|destruct r; cbn; try tauto; by destruct (Hc n)]. destruct r, (state d); try done. by destruct (Hc n).
  - rewrite Hw. by destruct r, (state d).
Qed.

Lemma progress_enable ne np nq nt nc d : 0 <= ne < 2 -> progress ne np nq nt nc (state d) ->
  progress (ne + 1) np nq nt nc (state (mmio_write d (reg_addr B (GICD_ICENABLER ne)) (u32 (Z.lnot 0)))).
Proof.
  intros Hn [P1 P2 P3 P4 P5 P6]. destruct (write_other d (GICD_ICENABLER ne) (Z.lnot 0) Hn ltac:(done)) as (He & Hp & Hl & Hw & Hq & Ht & _).
  set (g' := state (mmio_write _ _ _)) in *. destruct (state d). cbn in *. split; intros i Hi; unfold pending; rewrite ?Hp, ?Hl, ?Hw, ?Hq, ?Ht; auto; [by apply P1|].
  rewrite He by lia. rewrite bit_of_ones. destruct (Z.eqb_spec (i / 32) ne); [done|]. intros ?. apply P2; lia.
Qed.

Lemma progress_clear ne np nq nt nc d : 0 <= np < 2 -> progress ne np nq nt nc (state d) ->
  progress ne (np + 1) nq nt nc (state (mmio_write d (reg_addr B (GICD_ICPENDR np)) (u32 (Z.lnot 0)))).
Proof.
  intros Hn [P1 P2 P3 P4 P5 P6]. destruct (write_other d (GICD_ICPENDR np) (Z.lnot 0) Hn ltac:(done)) as (He & Hp & Hl & Hw & Hq & Ht & _).
  set (g' := state (mmio_write _ _ _)) in *. destruct (state d). cbn in *. split; intros i Hi; unfold pending; rewrite ?Hp, ?Hl, ?Hw, ?Hq, ?Ht; auto.
  - rewrite (proj2 (Z.leb_gt 16 i)) by lia. by apply P1.
  - rewrite He by lia. auto.
  - rewrite bit_of_ones, (proj2 (Z.leb_le 16 i)) by lia. destruct (Z.eqb_spec (i / 32) np); [done|]. intros ?. apply P3; lia.
Qed.

Lemma progress_prio ne np nq nt nc d : 0 <= nq < 16 -> progress ne np nq nt nc (state d) ->
  progress ne np (nq + 1) nt nc (state (mmio_write d (reg_addr B (GICD_IPRIORITYR nq)) (u32 (Z.lnot 0)))).
Proof.
  intros Hn [P1 P2 P3 P4 P5 P6]. destruct (write_other d (GICD_IPRIORITYR nq) (Z.lnot 0) Hn ltac:(done)) as (He & Hp & Hl & Hw & Hq & Ht & _).
  set (g' := state (mmio_write _ _ _)) in *. destruct (state d). cbn in *. split; intros i Hi; unfold pending; rewrite ?Hp, ?Hl, ?Hw, ?Hq, ?Ht; auto.
  - by apply P1.
  - rewrite He by lia. auto.
  - rewrite byte_of_ones. destruct (Z.eqb_spec (i / 4) nq); [done|]. intros ?. apply P4; lia.
Qed.

Lemma progress_target ne np nq nt nc d : 0 <= nt < 16 -> progress ne np nq nt nc (state d) ->
  progress ne np nq (nt + 1) nc (state (mmio_write d (reg_addr B (GICD_ITARGETSR nt)) (u32 GIC_GICD_ITARGETSR_CORE0_TARGET_BMAP))).
Proof.
  intros Hn [P1 P2 P3 P4 P5 P6].
  destruct (write_other d (GICD_ITARGETSR nt) GIC_GICD_ITARGETSR_CORE0_TARGET_BMAP Hn ltac:(done)) as (He & Hp & Hl & Hw & Hq & Ht & _).
  set (g' := state (mmio_write _ _ _)) in *. destruct (state d). cbn [gic_set enabled latch edge input prio target] in *.
  split; intros i Hi; unfold pending; rewrite ?Hp, ?Hl, ?Hw, ?Hq, ?Ht; auto.
  - by apply P1.
  - rewrite He by lia. auto.
  - rewrite byte_of_core0, (proj2 (Z.leb_le 32 i)), andb_true_r by lia. destruct (Z.eqb_spec (i / 4) nt); [done|]. intros ?. apply P5; lia.
Qed.

(** All is disabled and no edge is latched, so that the triggers may be set. *)
Lemma progress_level nq nt nc d : 0 <= nc < 4 -> progress 2 2 nq nt nc (state d) ->
  progress 2 2 nq nt (nc + 1) (state (mmio_write d (reg_addr B (GICD_ICFGR nc)) (u32 0))).
Proof.
  intros Hn [P1 P2 P3 P4 P5 P6]. change (u32 0) with 0.
  assert (forall i, retriggered (GICD_ICFGR nc) 0 (state d) i -> 16 <= i < 64 /\ i / 32 < 2 /\ edge (state d) i = true) as Hre.
  { intros i (E & Hi & Hne). unfold cfg_bit in Hne. rewrite Z.bits_0 in Hne. apply not_false_is_true in Hne. split_and!; [done|..|done]; Z.to_euclidean_division_equations; lia. }
  destruct (write_reg d (GICD_ICFGR nc) 0 Hn ltac:(done)) as (He & Hp & Hl & Hw & Hq & Ht & _); [intros i (? & ? & _)%Hre; auto|].
  assert (forall i, ~ loose_latch (GICD_ICFGR nc) 0 (state d) i) as Hno.
  { intros i [(Hi & H32 & Hed)%Hre Hpe]. unfold pending in Hpe. by rewrite Hed, (P3 i Hi H32) in Hpe. }
  set (g' := state (mmio_write _ _ _)) in *.
  assert (forall i, latch g' i = latch (state d) i) as Hp' by (intros i; rewrite Hp by apply Hno; by destruct (state d)).
  destruct (state d). cbn [gic_set enabled latch edge input prio target loose_enable loose_edge] in *.
  split; intros i Hi; unfold pending; rewrite ?Hp', ?Hw, ?Hq, ?Ht; auto.
  - rewrite Hl, (proj2 (Z.leb_gt 32 i)), andb_false_r by lia. by apply P1.
  - rewrite He by tauto. auto.
  - rewrite Hl, (proj2 (Z.leb_le 32 i)), andb_true_r, Z.bits_0 by lia. destruct (Z.eqb_spec (i / 16) nc); [done|]. intros ?. apply P6; lia.
Qed.

(** A loop that writes the registers in turn. *)
Lemma from_to_inv (P : Z -> gic -> Prop) R v first last s : first <= last ->
  (forall n d, first <= n < last -> P n (state d) -> P (n + 1) (state (mmio_write d (reg_addr B (R n)) (u32 v)))) ->
  P first (state (ext s)) -> exists d', from_to first last (fun i => wr_reg B (R i) v) s = Ret tt (with_ext s d') /\ P last (state d').
Proof.
  intros Hle HS HP. unfold from_to. assert (0 <= last - first) as Hd by lia. remember (Z.to_nat (last - first)) as k eqn:Ek.
  replace (last - first) with (Z.of_nat k) by lia. revert first s Hle HS HP Hd Ek. induction k as [|k IH]; intros first s Hle HS HP Hd Ek.
  - exists (ext s). replace last with first by lia. split; [by destruct s|done].
  - rewrite seqZ_cons by lia. cbn [forM]. set (d1 := mmio_write (ext s) (reg_addr B (R first)) (u32 v)).
    rewrite (bind_ret _ _ s tt (with_ext s d1)) by done. replace (Z.pred (Z.of_nat (S k))) with (Z.of_nat k) by lia.
    apply (IH (Z.succ first) (with_ext s d1)); [lia| |apply (HS first (ext s)); [lia|done]|lia..]. intros n d Hn. apply HS. lia.
Qed.

(** The private and shared interrupts are off and none of them is latched, those
    that software generates are not pending, all have the lowest priority; the
    shared ones go to processor 0 and are triggered by level. *)
Definition quiet (g : gic) : Prop :=
  sgi_idle g /\ (forall i, 16 <= i < 64 -> enabled g i = false /\ latch g i = false) /\ (forall i, 0 <= i < 64 -> prio g i = 255) /\
  (forall i, 32 <= i < 64 -> target g i = 1 /\ edge g i = false).

Lemma progress_quiet g : progress 2 2 16 16 4 g -> quiet g.
Proof. intros [P1 P2 P3 P4 P5 P6]. split_and!; [done|..]; intros i Hi; try split; (apply P2 || apply P3 || apply P4 || apply P5 || apply P6); Z.to_euclidean_division_equations; lia. Qed.

(** Everything but the switches and the mask of priorities is the same. *)
Lemma quiet_irqs g h : (forall i, 16 <= i -> enabled h i = enabled g i) -> (forall i, latch h i = latch g i) -> (forall i, edge h i = edge g i) ->
  (forall i, input h i = input g i) -> (forall i, prio h i = prio g i) -> (forall i, target h i = target g i) -> quiet g -> quiet h.
Proof.
  intros He Hp Hl Hw Hq Ht (P1 & P2 & P3 & P4). split_and!; intros i Hi; unfold pending; rewrite ?He, ?Hp, ?Hl, ?Hw, ?Hq, ?Ht by lia; auto.
  by apply P1.
Qed.

Lemma sgi_ctlr d v : sgi_idle (state d) -> sgi_idle (state (mmio_write d (reg_addr B GICD_CTLR) (u32 v))).
Proof.
  intros Hs i Hi. destruct (write_other d GICD_CTLR v I ltac:(done)) as (_ & Hp & Hl & Hw & _). unfold pending. rewrite Hp, Hl, Hw.
  specialize (Hs i Hi). by destruct (state d).
Qed.

Lemma init_gicd_eq s : sgi_idle (state (ext s)) ->
  exists d', init_gicd B s = Ret 0 (with_ext s d') /\ quiet (state d') /\ dist_on (state d') = true.
Proof.
  intros Hs. unfold init_gicd.
  change ((GIC_INT_MAX + GIC_GICD_INT_PER_REG - 1) / GIC_GICD_INT_PER_REG) with 2.
  change ((GIC_INT_MAX + GIC_GICD_IPRIORITY_PER_REG - 1) / GIC_GICD_IPRIORITY_PER_REG) with 16. change (GIC_INTNO_SPI0 / GIC_GICD_ITARGETSR_PER_REG) with 8.
  change ((GIC_INT_MAX + (GIC_GICD_ITARGETSR_PER_REG - 1)) / GIC_GICD_ITARGETSR_PER_REG) with 16. change (GIC_INTNO_PPI0 / GIC_GICD_ICFGR_PER_REG) with 1.
  change ((GIC_INT_MAX + (GIC_GICD_ICFGR_PER_REG - 1)) / GIC_GICD_ICFGR_PER_REG) with 4. cbv zeta.
  set (d0 := mmio_write (ext s) (reg_addr B GICD_CTLR) (u32 GIC_GICD_CTLR_DISABLE)). rewrite (bind_ret _ _ s tt (with_ext s d0)) by done.
  destruct (from_to_inv (fun n => progress n 0 0 8 1) GICD_ICENABLER (Z.lnot 0) 0 2 (with_ext s d0)) as (d1 & E1 & F1);
    [lia|intros n d Hn; by apply progress_enable| |rewrite (bind_ret _ _ _ _ _ E1)].
  { split; [by apply sgi_ctlr|..]; intros i Hi Hlt; Z.to_euclidean_division_equations; lia. }
  destruct (from_to_inv (fun n => progress 2 n 0 8 1) GICD_ICPENDR (Z.lnot 0) 0 2 (with_ext s d1)) as (d2 & E2 & F2);
    [lia|intros n d Hn; by apply progress_clear|done|rewrite (bind_ret _ _ _ _ _ E2)].
  destruct (from_to_inv (fun n => progress 2 2 n 8 1) GICD_IPRIORITYR (Z.lnot 0) 0 16 (with_ext s d2)) as (d3 & E3 & F3);
    [lia|intros n d Hn; by apply progress_prio|done|rewrite (bind_ret _ _ _ _ _ E3)].
  destruct (from_to_inv (fun n => progress 2 2 16 n 1) GICD_ITARGETSR GIC_GICD_ITARGETSR_CORE0_TARGET_BMAP 8 16 (with_ext s d3)) as (d4 & E4 & F4);
    [lia|intros n d Hn; apply progress_target; lia|done|rewrite (bind_ret _ _ _ _ _ E4)].
  destruct (from_to_inv (fun n => progress 2 2 16 16 n) GICD_ICFGR 0 1 4 (with_ext s d4)) as (d5 & E5 & F5);
    [lia|intros n d Hn; apply progress_level; lia|done|rewrite (bind_ret _ _ _ _ _ E5)].
  eexists. split; [reflexivity|].
  destruct (write_other d5 GICD_CTLR GIC_GICD_CTLR_ENABLE I ltac:(done)) as (He & Hp & Hl & Hw & Hq & Ht & _ & Hd & _).
  split; [|cbn [ext with_ext]; rewrite Hd; by destruct (state d5)].
  apply (quiet_irqs (state d5)); [..|by apply progress_quiet]; intros i; [intros Hi; rewrite He by done|rewrite Hp|rewrite Hl|rewrite Hw|rewrite Hq|rewrite Ht]; by destruct (state d5).
Qed.

(** A write to the interface to the processor. *)
Lemma write_gicc d r v : r = GICC_ICR \/ r = GICC_PMR \/ r = GICC_BPR -> quiet (state d) ->
  let g' := state (mmio_write d (reg_addr B r) (u32 v)) in let h := gic_set r (u32 v) (state d) in
  quiet g' /\ pmr g' = pmr h /\ dist_on g' = dist_on (state d) /\ cpu_on g' = cpu_on h.
Proof.
  intros Hr Hq. destruct (write_other d r v) as (He & Hp & Hl & Hw & Hpr & Ht & Hm & Hd & Hc); [by destruct Hr as [->|[->| ->]]..|].
  split_and!; [|exact Hm|rewrite Hd; by destruct Hr as [->|[->| ->]], (state d)|exact Hc].
  apply (quiet_irqs (state d)); [..|done]; intros i; [intros Hi; rewrite He by done|rewrite Hp|rewrite Hl|rewrite Hw|rewrite Hpr|rewrite Ht];
    by destruct Hr as [->|[->| ->]], (state d).
Qed.

Lemma quiet_spurious d : quiet (state d) -> exists v, mmio_read d (reg_addr B GICC_IAR) = (v, d) /\ Z.land v 0x3ff = 1023.
Proof.
  intros (Q1 & Q2 & _). apply read_spurious. intros i Hi Hp. destruct (decide (i < 16)); [by rewrite Q1 in Hp by lia|].
  split; [lia|]. apply Q2. lia.
Qed.

Lemma init_gicc_eq fuel s : quiet (state (ext s)) ->
  exists d', init_gicc B fuel s = Ret 0 (with_ext s d') /\ quiet (state d') /\ pmr (state d') = 255 /\
    dist_on (state d') = dist_on (state (ext s)) /\ cpu_on (state d') = true.
Proof.
  intros Hq. unfold init_gicc. set (d0 := mmio_write (ext s) (reg_addr B GICC_ICR) (u32 GICC_ICR_DISABLE)).
  set (d1 := mmio_write d0 (reg_addr B GICC_PMR) (u32 GICC_PMR_PRIO_MIN)). set (d2 := mmio_write d1 (reg_addr B GICC_BPR) (u32 GICC_BPR_NO_GROUP)).
  set (d3 := mmio_write d2 (reg_addr B GICC_ICR) (u32 GICC_ICR_ENABLE)).
  destruct (write_gicc (ext s) GICC_ICR GICC_ICR_DISABLE ltac:(auto) Hq) as (Q0 & _ & D0 & _). fold d0 in Q0, D0.
  destruct (write_gicc d0 GICC_PMR GICC_PMR_PRIO_MIN ltac:(auto) Q0) as (Q1 & M1 & D1 & _). fold d1 in Q1, M1, D1.
  destruct (write_gicc d1 GICC_BPR GICC_BPR_NO_GROUP ltac:(auto) Q1) as (Q2 & M2 & D2 & _). fold d2 in Q2, M2, D2.
  destruct (write_gicc d2 GICC_ICR GICC_ICR_ENABLE ltac:(auto) Q2) as (Q3 & M3 & D3 & C3). fold d3 in Q3, M3, D3, C3.
  destruct (quiet_spurious d2 Q2) as (v & Ev & Hv).
  rewrite (bind_ret _ _ s tt (with_ext s d0)) by done. rewrite (bind_ret _ _ (with_ext s d0) tt (with_ext s d1)) by done.
  rewrite (bind_ret _ _ (with_ext s d1) tt (with_ext s d2)) by done. rewrite (bind_ret _ _ _ _ _ (rd_reg_eq GICC_IAR (with_ext s d2) v Ev)).
  change GICC_IAR_INTR_IDMASK with 0x3ff. rewrite Hv. rewrite (bind_ret _ _ (with_ext s d2) tt (with_ext s d2)) by (by destruct fuel).
  exists d3. split_and!; [done|done| |congruence|rewrite C3; by destruct (state d2)].
  replace (pmr (state d3)) with (pmr (state d1)); [rewrite M1; by destruct (state d0)|].
  rewrite M3. transitivity (pmr (state d2)); [rewrite M2; by destruct (state d1)|by destruct (state d2)].
Qed.

Lemma initialize_eq fuel s : sgi_idle (state (ext s)) -> exists d, gic_pl390_initialize B fuel s = Ret 0 (with_ext s d) /\ quiet (state d) /\
  pmr (state d) = 255 /\ dist_on (state d) = true /\ cpu_on (state d) = true.
Proof.
  intros Hs. unfold gic_pl390_initialize. destruct (init_gicd_eq s Hs) as (d1 & E1 & Q1 & D1). rewrite (bind_ret _ _ _ _ _ E1).
  destruct (init_gicc_eq fuel (with_ext s d1) Q1) as (d2 & E2 & Q2 & M2 & D2 & C2). rewrite (bind_ret _ _ _ _ _ E2).
  exists d2. split_and!; [done|done|done|by rewrite D2|done].
Qed.
End acts.

(** C29.  The interrupt controller of the board.  When none of the interrupts 0 to
    15, which only software generates, is pending, [gic_pl390_initialize] returns
    0 and leaves every private and shared interrupt (16 to 63) disabled and none
    of them latched as pending, all 64 of the lowest priority, the shared ones
    (32 to 63) triggered by level and routed to processor 0, the mask of
    priorities open and the controller on.  Configuring a shared interrupt that is
    not pending, or making it triggered by edges, sets its trigger, priority and
    target and disables it; enabling or disabling a private or shared interrupt
    changes its enable bit; ending one clears what is latched of it, so that it
    is pending afterwards only if it is triggered by level and its wire is
    active; none of these changes anything else of the controller.  The interrupt
    found is the lowest pending one. *)
Theorem gic_ctrlr_correct {D B} `{GicLaws D B} fuel (s : kst D) :
  (sgi_idle (state (ext s)) -> exists d, gic_pl390_initialize B fuel s = Ret 0 (with_ext s d) /\ quiet (state d) /\
     pmr (state d) = 255 /\ dist_on (state d) = true /\ cpu_on (state d) = true) /\
  (forall irq attr pr, 32 <= irq < 64 -> edge_irq attr = true \/ pending (state (ext s)) irq = false -> exists d,
     gic_pl390_config_irq B irq attr pr s = Ret 0 (with_ext s d) /\ state d ≡ g_config irq attr pr (state (ext s))) /\
  (forall irq, 16 <= irq < 64 ->
     (exists d, gic_pl390_enable_irq B irq s = Ret tt (with_ext s d) /\ state d ≡ g_enable irq true (state (ext s))) /\
     (exists d, gic_pl390_disable_irq B irq s = Ret tt (with_ext s d) /\ state d ≡ g_enable irq false (state (ext s))) /\
     (exists d, gic_pl390_eoi B irq s = Ret tt (with_ext s d) /\ state d ≡ g_latch irq false (state (ext s)) /\
        pending (state d) irq = negb (edge (state (ext s)) irq) && input (state (ext s)) irq)) /\
  gic_pl390_find_pending_irq B s =
    Ret (match head (filter (fun i => pending (state (ext s)) i) (seqZ 0 64)) with
         | Some i => (IRQ_FOUND, Some i) | None => (IRQ_NOT_FOUND, None) end) s.
Proof.
  split_and!.
  - apply initialize_eq.
  - intros irq attr pr Hi Hp. by apply config_irq_eq.
  - intros irq Hi. split_and!; [by apply enable_acts|by apply disable_acts|].
    destruct (clear_pending_acts irq Hi s) as (d & E & F). exists d. split_and!; [exact E|done|]. by apply latch_cleared.
  - apply find_pending_eq.
Qed.

(** ** A controller with the laws *)

Definition all_regs : list reg :=
  [GICD_CTLR; GICC_ICR; GICC_PMR; GICC_BPR; GICC_IAR; GICC_EOI]
  ++ (GICD_ISENABLER <$> seqZ 0 2) ++ (GICD_ICENABLER <$> seqZ 0 2) ++ (GICD_ISPENDR <$> seqZ 0 2) ++ (GICD_ICPENDR <$> seqZ 0 2)
  ++ (GICD_IPRIORITYR <$> seqZ 0 16) ++ (GICD_ITARGETSR <$> seqZ 0 16) ++ (GICD_ICFGR <$> seqZ 0 4).
Definition decode (a : Z) : option reg := head (filter (fun r => reg_addr 0 r = a) all_regs).

#[export] Instance reg_eq_dec : EqDecision reg.
Proof. solve_decision. Defined.

Lemma decode_addr r : reg_ok r -> decode (reg_addr 0 r) = Some r.
Proof.
  intros Hr. assert (Forall (fun r => decode (reg_addr 0 r) = Some r) all_regs) as HF by (apply (bool_decide_unpack _); by vm_compute).
  apply (proj1 (Forall_forall _ _) HF). unfold all_regs. rewrite !elem_of_app, !list_elem_of_fmap.
  destruct r as [|n|n|n|n|n|n|n| | | | |]; cbn in Hr; try (left; repeat constructor; fail).
  all: repeat first [left; exists n; split; [reflexivity|apply elem_of_seqZ; lia]|right; exists n; split; [reflexivity|apply elem_of_seqZ; lia]|right].
Qed.

(** The number with the bits [f 0], ..., [f (n - 1)]. *)
Fixpoint bits_of (f : Z -> bool) (n : nat) : Z :=
  match n with O => 0 | S n => Z.lor (bits_of f n) (if f (Z.of_nat n) then Z.shiftl 1 (Z.of_nat n) else 0) end.

Lemma bits_of_bit f n k : 0 <= k -> Z.testbit (bits_of f n) k = (k <? Z.of_nat n) && f k.
Proof.
  intros Hk. induction n as [|n IH]; cbn [bits_of]; [rewrite Z.bits_0; by rewrite (proj2 (Z.ltb_ge k (Z.of_nat 0))) by lia|].
  rewrite Z.lor_spec, IH. assert (Z.testbit (if f (Z.of_nat n) then Z.shiftl 1 (Z.of_nat n) else 0) k = (k =? Z.of_nat n) && f k) as ->.
  { destruct (Z.eqb_spec k (Z.of_nat n)) as [->|Hne].
    - destruct (f (Z.of_nat n)); [|by rewrite Z.bits_0]. by rewrite Z.shiftl_1_l, Z.pow2_bits_true by lia.
    - destruct (f (Z.of_nat n)); [|by rewrite Z.bits_0]. by rewrite Z.shiftl_1_l, Z.pow2_bits_false by lia. }
  destruct (Z.ltb_spec k (Z.of_nat n)), (Z.eqb_spec k (Z.of_nat n)), (Z.ltb_spec k (Z.of_nat (S n))); try lia; cbn; by rewrite ?orb_false_r.
Qed.

Lemma bits_of_range f n : 0 <= bits_of f n < 2 ^ Z.of_nat n.
Proof.
  assert (bits_of f n = bits_of f n mod 2 ^ Z.of_nat n) as ->; [|apply Z.mod_pos_bound; lia].
  apply Z.bits_inj'. intros k Hk. destruct (decide (k < Z.of_nat n)); [by rewrite Z.mod_pow2_bits_low by lia|].
  rewrite Z.mod_pow2_bits_high by lia. rewrite bits_of_bit by done. by rewrite (proj2 (Z.ltb_ge k _)) by lia.
Qed.

(** Four bytes in a register. *)
Definition bytes_reg (f : Z -> Z) (n : Z) : Z := bits_of (fun k => Z.testbit (f (4 * n + k / 8)) (k mod 8)) 32.

Lemma bytes_reg_byte f n i : i / 4 = n -> byte_of (bytes_reg f n) i = Z.land (f i) 0xff.
Proof.
  intros <-. pose proof (Z.mod_pos_bound i 4 ltac:(lia)). unfold byte_of. change 0xff with (Z.ones 8). apply Z.bits_inj'. intros k Hk.
  rewrite !Z.land_spec, Z.testbit_ones by lia. destruct (Z.ltb_spec k 8) as [Hlt|]; [|by rewrite !andb_false_r].
  rewrite (proj2 (Z.leb_le 0 k)), !andb_true_r, Z.shiftr_spec by lia. unfold bytes_reg. rewrite bits_of_bit by lia.
  rewrite (proj2 (Z.ltb_lt _ _)) by lia. cbn [andb]. f_equal; [f_equal|]; Z.to_euclidean_division_equations; lia.
Qed.

#[export] Instance gic_device : GicDevice gic := {| gic_mmio := {|
  mmio_read g a := (match decode a with
    | Some (GICD_ISPENDR n) => bits_of (fun k => pending g (32 * n + k)) 32
    | Some (GICD_IPRIORITYR n) => bytes_reg (prio g) n
    | Some (GICD_ITARGETSR n) => bytes_reg (target g) n
    | Some (GICD_ICFGR n) => bits_of (fun k => edge g (16 * n + k / 2)) 32
    | Some GICC_PMR => Z.land (pmr g) 0xff
    | Some GICC_IAR => 1023
    | _ => 0 end, g);
  mmio_write g a v := match decode a with Some r => gic_set r v g | None => g end |};
  state g := Gic (enabled g) (latch g) (edge g) (input g) (fun i => Z.land (prio g i) 0xff) (fun i => Z.land (target g i) 0xff)
    (Z.land (pmr g) 0xff) (dist_on g) (cpu_on g) |}.

Lemma land_ff_idem x : Z.land (Z.land x 0xff) 0xff = Z.land x 0xff.
Proof. by rewrite <-Z.land_assoc. Qed.

#[export] Instance gic_laws : GicLaws gic 0.
Proof.
  split; unfold mmio_read, mmio_write, state, gic_mmio, gic_device.
  - intros d r v Hr Hv _. rewrite decode_addr by done. destruct d, r; split_and!; cbn; intros; try done;
      unfold byte_of; repeat case_match; by rewrite ?land_ff_idem.
  - intros d n Hn. rewrite decode_addr by done. eexists. split; [done|]. split; [apply (bits_of_range _ 32)|].
    intros i <-. pose proof (Z.mod_pos_bound i 32 ltac:(lia)). rewrite bits_of_bit, (proj2 (Z.ltb_lt _ _)) by lia. cbn. replace (32 * (i / 32) + i mod 32) with i by (apply Z.div_mod; lia). done.
  - intros d n Hn. rewrite decode_addr by done. eexists. split; [done|]. split; [apply (bits_of_range _ 32)|]. intros i Hi. by rewrite bytes_reg_byte.
  - intros d n Hn. rewrite decode_addr by done. eexists. split; [done|]. split; [apply (bits_of_range _ 32)|]. intros i Hi. by rewrite bytes_reg_byte.
  - intros d n Hn. rewrite decode_addr by done. eexists. split; [done|]. split; [apply (bits_of_range _ 32)|].
    intros i <-. pose proof (Z.mod_pos_bound i 16 ltac:(lia)). rewrite bits_of_bit, (proj2 (Z.ltb_lt _ _)) by lia. cbn. f_equal. Z.to_euclidean_division_equations; lia.
  - intros d. by rewrite decode_addr.
  - intros d _. rewrite decode_addr by done. by exists 1023.
Qed.

(** The interrupts from 33 on are latched, the wire of 20 is active. *)
Definition gic_demo : kst gic :=
  Kst ∅ true ∅ ∅ 0 0 ∅ ∅ ∅ 0 ∅ ∅ ∅ ∅ [] 0
    (Gic (fun _ => true) (fun i => 33 <=? i) (fun i => negb (i =? 20)) (fun i => i =? 20) (fun _ => 7) (fun _ => 0) 0 false false).

Lemma gic_ctrlr_correct_witness :
  exists d d' d'' : gic, gic_pl390_initialize 0 0 gic_demo = Ret 0 (with_ext gic_demo d) /\ quiet (state d) /\
    gic_pl390_config_irq 0 33 IRQ_ATTR_EDGE 5 gic_demo = Ret 0 (with_ext gic_demo d') /\ enabled (state d') 33 = false /\ prio (state d') 33 = 0x50 /\
    gic_pl390_eoi 0 20 gic_demo = Ret tt (with_ext gic_demo d'') /\ pending (state d'') 20 = true /\
    gic_pl390_find_pending_irq 0 gic_demo = Ret (IRQ_FOUND, Some 20) gic_demo.
Proof.
  destruct (gic_ctrlr_correct (B := 0) 0 gic_demo) as (Hini & Hcfg & Hops & Hf).
  destruct Hini as (d & E & Hq & _).
  { assert (Forall (fun i => pending (state (ext gic_demo)) i = false) (seqZ 0 16)) as HF by (repeat constructor).
    intros i Hi. apply (proj1 (Forall_forall _ _) HF), elem_of_seqZ. lia. }
  destruct (Hcfg 33 IRQ_ATTR_EDGE 5 ltac:(lia) (or_introl eq_refl)) as (d' & E' & He & _ & _ & _ & Hp & _).
  destruct (Hops 20 ltac:(lia)) as (_ & _ & d'' & E'' & _ & Hpe).
  exists d, d', d''. split; [exact E|]. split; [exact Hq|]. split; [exact E'|]. split; [rewrite He; [reflexivity|intros []]|].
  split; [rewrite Hp; reflexivity|]. split; [exact E''|]. split; [rewrite Hpe; reflexivity|]. rewrite Hf. reflexivity.
Defined.
