(* ===== verification/Life.v ===== *)
(** user/life.c: one generation of the game of life on a field without edges.

    The field [unsigned univ[h][w]] is the list of its [w * h] words, row after
    row; an access outside it is a fault.  [new0] is what the local array
    [new] holds at first.  The display and the thread that plays are in
    LifeGame.v. *)
From S2P Require Import Prelude.

Implicit Types (l u : list Z).

(** [a[y][x]] in an array with rows of [w]. *)
Definition cell_ix (w y x : Z) : Z := y * w + x.
Definition cell_ld (w : Z) u (y x : Z) : option Z := if 0 <=? cell_ix w y x then u !! Z.to_nat (cell_ix w y x) else None.
Definition cell_st (w y x v : Z) : M (list Z) unit := l ← get;
  deref (cell_ld w l y x);; put (<[Z.to_nat (cell_ix w y x) := v]> l).

(** The loops over [y1] and [x1]: the number of live cells of the nine. *)
Definition count_cells (w h : Z) u (y x : Z) : option Z :=
  foldl (fun n y1 => foldl (fun n x1 =>
    n ← n; c ← cell_ld w u (Z.rem (s32 (y1 + h)) h) (Z.rem (s32 (x1 + w)) w);
    Some (if ctrue c then n + 1 else n)) n (seqZ (x - 1) 3)) (Some 0) (seqZ (y - 1) 3).

Definition next_cell (w h : Z) u (y x : Z) : option Z :=
  n ← count_cells w h u y x;
  c ← cell_ld w u y x;
  let n := if ctrue c then n - 1 else n in
  Some (cbool ((n =? 3) || (n =? 2) && ctrue c)).

(** [for_y for_x a[y][x] = e;] *)
Definition for_yx (w h : Z) (e : Z -> Z -> option Z) : M (list Z) unit :=
  forM (seqZ 0 h) (fun y => forM (seqZ 0 w) (fun x => v ← deref (e y x); cell_st w y x v)).

Definition evolve (new0 : list Z) (w h : Z) : M (list Z) unit :=
  u ← get;
  put new0;; for_yx w h (next_cell w h u);; new ← get;
  put u;; for_yx w h (cell_ld w new).

(** ** The game *)

(** Conway's rule on a torus of [w] by [h] cells. *)
Definition around : list (Z * Z) := [(-1, -1); (-1, 0); (-1, 1); (0, -1); (0, 1); (1, -1); (1, 0); (1, 1)].
Definition alive (w : Z) u (y x : Z) : bool := match u !! Z.to_nat (y * w + x) with Some c => ctrue c | None => false end.
Definition neighbours (w h : Z) u (y x : Z) : Z :=
  foldr (fun d n => (if alive w u ((y + d.1) mod h) ((x + d.2) mod w) then 1 else 0) + n) 0 around.
Definition life_rule (w h : Z) u (y x : Z) : bool :=
  if alive w u y x then (neighbours w h u y x =? 2) || (neighbours w h u y x =? 3) else neighbours w h u y x =? 3.
Definition life_step (w h : Z) u : list Z := (fun i => cbool (life_rule w h u (i / w) (i mod w))) <$> seqZ 0 (w * h).

(** ** Loops that fill an array *)

Section fill.
Context (w h : Z) (e : Z -> Z -> option Z) (g : Z -> Z -> Z).
Hypothesis (Hw : 0 < w) (He : forall y x, 0 <= y < h -> 0 <= x < w -> e y x = Some (g y x)).
Local Abbreviation ix y x := (Z.to_nat (y * w + x)).

Local Lemma ix_lt y x : 0 <= y < h -> 0 <= x < w -> (ix y x < Z.to_nat (w * h))%nat.
Proof. intros Hy Hx. assert (y * w <= (h - 1) * w) by (apply Z.mul_le_mono_nonneg_r; lia). lia. Qed.
Local Lemma ix_inj y x y' x' : 0 <= y -> 0 <= y' -> 0 <= x < w -> 0 <= x' < w -> ix y x = ix y' x' -> y = y' /\ x = x'.
Proof.
  intros Hy Hy' Hx Hx' H. apply Z2Nat.inj in H; [|nia..].
  assert (forall a b, 0 <= b < w -> (a * w + b) / w = a) as Hd by (intros a b Hb; rewrite Z.div_add_l, Z.div_small; lia).
  assert (y = y') as -> by (rewrite <-(Hd y x), <-(Hd y' x'), H by done; done). split; [done|lia].
Qed.

Local Lemma row_ok y xs : 0 <= y < h -> forall l, NoDup xs -> (forall x, x ∈ xs -> 0 <= x < w) -> length l = Z.to_nat (w * h) ->
  exists l', forM xs (fun x => v ← deref (e y x); cell_st w y x v) l = Ret tt l' /\ length l' = length l /\
    (forall x, x ∈ xs -> l' !! ix y x = Some (g y x)) /\
    (forall i, (forall x, x ∈ xs -> i <> ix y x) -> l' !! i = l !! i).
Proof.
  intros Hy. induction xs as [|x xs IH]; intros l HN Hxs Hl; [exists l; split_and!; [done|done|by intros ? ?%elem_of_nil|done]|].
  apply NoDup_cons in HN as [Hx HN]. assert (0 <= x < w) as Hxw by (apply Hxs; set_solver). pose proof (ix_lt y x Hy Hxw) as Hix.
  destruct (IH (<[ix y x := g y x]> l) HN) as (l' & E & Hl' & H1 & H2); [set_solver|by rewrite length_insert|].
  exists l'. split_and!; [|by rewrite Hl', length_insert| |].
  - rewrite (forM_step _ _ _ _ (<[ix y x := g y x]> l)); [exact E|]. rewrite He by done. unfold cell_st, cell_ld, cell_ix. mred.
    rewrite (proj2 (Z.leb_le 0 (y * w + x))) by nia. destruct (lookup_lt_is_Some_2 l (ix y x)) as [c Hc]; [lia|]. by rewrite Hc.
  - intros z [->|Hz]%elem_of_cons; [|by apply H1]. rewrite H2; [by rewrite list_lookup_insert_eq by lia|].
    intros z Hz Hix'. apply ix_inj in Hix' as [_ ->]; [done|lia|lia|lia|apply Hxs; set_solver].
  - intros i Hi. rewrite H2 by (intros z Hz; apply Hi; set_solver). apply list_lookup_insert_ne. intros Heq. apply (Hi x); [set_solver|done].
Qed.

Local Lemma rows_ok ys : forall l, NoDup ys -> (forall y, y ∈ ys -> 0 <= y < h) -> length l = Z.to_nat (w * h) ->
  exists l', forM ys (fun y => forM (seqZ 0 w) (fun x => v ← deref (e y x); cell_st w y x v)) l = Ret tt l' /\ length l' = length l /\
    (forall y x, y ∈ ys -> 0 <= x < w -> l' !! ix y x = Some (g y x)) /\
    (forall i, (forall y x, y ∈ ys -> 0 <= x < w -> i <> ix y x) -> l' !! i = l !! i).
Proof.
  induction ys as [|y ys IH]; intros l HN Hys Hl; [exists l; split_and!; [done|done|by intros ? ? ?%elem_of_nil|done]|].
  apply NoDup_cons in HN as [Hy HN]. assert (0 <= y < h) as Hyh by (apply Hys; set_solver).
  destruct (row_ok y (seqZ 0 w) Hyh l (NoDup_seqZ _ _)) as (l1 & E1 & Hl1 & A1 & A2); [intros x Hx; by apply elem_of_seqZ_iff|done|].
  destruct (IH l1 HN) as (l2 & E2 & Hl2 & B1 & B2); [set_solver|congruence|].
  exists l2. split_and!; [|congruence| |].
  - rewrite (forM_step _ _ _ _ l1); [exact E2|exact E1].
  - intros z x [->|Hz]%elem_of_cons Hx; [|by apply B1]. rewrite B2; [apply A1; by apply elem_of_seqZ_iff|].
    intros z' x' Hz' Hx' Heq. assert (0 <= z' < h) as Hz'h by (apply Hys; set_solver). apply ix_inj in Heq as [-> _]; [done|lia..].
  - intros i Hi. rewrite B2 by (intros z x Hz; apply Hi; set_solver). apply A2. intros x Hx. apply Hi; [set_solver|by apply elem_of_seqZ_iff].
Qed.

Lemma for_yx_ok l : 0 <= h -> length l = Z.to_nat (w * h) ->
  for_yx w h e l = Ret tt ((fun i => g (i / w) (i mod w)) <$> seqZ 0 (w * h)).
Proof.
  intros Hh Hl. destruct (rows_ok (seqZ 0 h) l (NoDup_seqZ _ _)) as (l' & E & Hl' & H1 & _); [intros y Hy; by apply elem_of_seqZ_iff|done|].
  unfold for_yx. rewrite E. f_equal. apply list_eq. intros i. destruct (decide (i < Z.to_nat (w * h))%nat) as [Hi|Hi].
  - rewrite list_lookup_fmap. rewrite (proj2 (lookup_seqZ 0 (w * h) i (Z.of_nat i))) by lia. cbn [fmap option_fmap option_map].
    pose proof (Z.div_mod (Z.of_nat i) w ltac:(lia)) as Hdm. pose proof (Z.mod_pos_bound (Z.of_nat i) w Hw) as Hm.
    assert (0 <= Z.of_nat i / w) by (apply Z.div_pos; lia). assert (Z.of_nat i / w < h) by (apply Z.div_lt_upper_bound; lia).
    rewrite <-(H1 (Z.of_nat i / w) (Z.of_nat i mod w)); [f_equal; lia|apply elem_of_seqZ_iff; lia|done].
  - rewrite !lookup_ge_None_2; [done|rewrite length_fmap, length_seqZ; lia|lia].
Qed.
End fill.

(** ** Counting *)

Lemma cell_ld_in w h u y x : 0 < w -> length u = Z.to_nat (w * h) -> 0 <= y < h -> 0 <= x < w ->
  exists c, cell_ld w u y x = Some c /\ ctrue c = alive w u y x.
Proof.
  intros Hw Hl Hy Hx. destruct (lookup_lt_is_Some_2 u (Z.to_nat (y * w + x))) as [c Hc]; [assert (y * w <= (h - 1) * w) by (apply Z.mul_le_mono_nonneg_r; lia); lia|].
  exists c. unfold cell_ld, cell_ix, alive. rewrite (proj2 (Z.leb_le 0 (y * w + x))) by nia. by rewrite Hc.
Qed.

(** The torus in C: the operands are not negative. *)
Lemma torus_rem a m : 0 < m < 2 ^ 30 -> -1 <= a <= m -> Z.rem (s32 (a + m)) m = a mod m.
Proof.
  intros Hm Ha. unfold s32. rewrite swrap_small by lia. rewrite Z.rem_mod_nonneg by lia. rewrite <-(Z.mod_add a 1 m) by lia. f_equal. lia.
Qed.

Lemma count_cells_eq w h u y x : 0 < w < 2 ^ 30 -> 0 < h < 2 ^ 30 -> length u = Z.to_nat (w * h) -> 0 <= y < h -> 0 <= x < w ->
  count_cells w h u y x = Some (neighbours w h u y x + (if alive w u y x then 1 else 0)).
Proof.
  intros Hw Hh Hl Hy Hx. unfold count_cells.
  assert (forall y1 x1 n, -1 <= y1 <= h -> -1 <= x1 <= w ->
    (c ← cell_ld w u (Z.rem (s32 (y1 + h)) h) (Z.rem (s32 (x1 + w)) w); Some (if ctrue c then n + 1 else n))
      = Some (n + (if alive w u (y1 mod h) (x1 mod w) then 1 else 0))) as Hc.
  { intros y1 x1 n H1 H2. rewrite !torus_rem by lia. pose proof (Z.mod_pos_bound y1 h ltac:(lia)). pose proof (Z.mod_pos_bound x1 w ltac:(lia)).
    destruct (cell_ld_in w h u (y1 mod h) (x1 mod w)) as (c & -> & <-); [lia|done|lia|lia|]. cbn. destruct (ctrue c); f_equal; lia. }
  assert (forall a, seqZ (a - 1) 3 = [a + -1; a + 0; a + 1]) as Hseq 
    by (intros a; rewrite !seqZ_cons, seqZ_nil by lia; f_equal; f_equal; [lia|f_equal; lia]).
  rewrite !Hseq. cbn [foldl mbind option_bind]. rewrite !Hc by lia. cbn [mbind option_bind]. do 8 (rewrite Hc by lia; cbn [mbind option_bind]).
  unfold neighbours. cbn [around foldr fst snd]. f_equal. rewrite !Z.add_0_r, (Z.mod_small y), (Z.mod_small x) by lia. lia.
Qed.

Lemma next_cell_eq w h u y x : 0 < w < 2 ^ 30 -> 0 < h < 2 ^ 30 -> length u = Z.to_nat (w * h) -> 0 <= y < h -> 0 <= x < w ->
  next_cell w h u y x = Some (cbool (life_rule w h u y x)).
Proof.
  intros Hw Hh Hl Hy Hx. unfold next_cell. rewrite count_cells_eq by done. destruct (cell_ld_in w h u y x) as (c & -> & Hc); [lia|done..|].
  cbn [mbind option_bind]. rewrite Hc. unfold life_rule. do 2 f_equal. destruct (alive w u y x).
  - replace (neighbours w h u y x + 1 - 1) with (neighbours w h u y x) by lia. by rewrite andb_true_r, orb_comm.
  - by rewrite Z.add_0_r, andb_false_r, orb_false_r.
Qed.

(** [evolve] computes a step. *)
Lemma evolve_life new0 w h u :
  0 < w < 2 ^ 30 -> 0 < h < 2 ^ 30 -> length u = Z.to_nat (w * h) -> length new0 = Z.to_nat (w * h) ->
  evolve new0 w h u = Ret tt (life_step w h u).
Proof.
  intros Hw Hh Hu Hn. unfold evolve. cbv [mbind M_bind get put]. cbn [run_bind].
  rewrite (for_yx_ok w h (next_cell w h u) (fun y x => cbool (life_rule w h u y x))) by (try lia; intros; by apply next_cell_eq). cbn [run_bind].
  fold (life_step w h u). assert (length (life_step w h u) = Z.to_nat (w * h)) as Hl by (unfold life_step; by rewrite length_fmap, length_seqZ).
  rewrite (for_yx_ok w h _ (fun y x => cbool (life_rule w h u y x))); [done|lia| |lia|done].
  intros y x Hy Hx. unfold cell_ld, cell_ix. rewrite (proj2 (Z.leb_le 0 (y * w + x))) by nia.
  assert (y * w <= (h - 1) * w) by (apply Z.mul_le_mono_nonneg_r; lia).
  unfold life_step. rewrite list_lookup_fmap, (proj2 (lookup_seqZ 0 (w * h) _ (y * w + x))) by lia. cbn [fmap option_fmap option_map].
  do 3 f_equal; [rewrite Z.div_add_l, Z.div_small; lia|]. rewrite Z.add_comm, Z.mod_add, Z.mod_small by lia. done.
Qed.

(** [evolve] is a step of Conway's game of life on a torus: for every size of
    the field it computes the same cells as the rule that counts the eight
    neighbours of each cell, modulo the width and the height, and what the local
    array held before does not matter. *)
Theorem evolve_is_life new0 w h u :
  0 < w < 2 ^ 30 -> 0 < h < 2 ^ 30 -> length u = Z.to_nat (w * h) -> length new0 = Z.to_nat (w * h) ->
  evolve new0 w h u = Ret tt (life_step w h u).
Proof. apply evolve_life. Qed.

(** A blinker turns. *)
Lemma evolve_is_life_witness :
  evolve (replicate 25 9) 5 5 [0;0;0;0;0; 0;0;1;0;0; 0;0;1;0;0; 0;0;1;0;0; 0;0;0;0;0]
    = Ret tt [0;0;0;0;0; 0;0;0;0;0; 0;1;1;1;0; 0;0;0;0;0; 0;0;0;0;0].
Proof.
  rewrite (evolve_is_life (replicate 25 9) 5 5); [|lia|lia|done|done]. vm_compute. reflexivity.
Defined.
