(* ===== verification/Segments.v ===== *)
(** hal/x64/segments.c, hal/x64/idt.c and include/hal-x64/segments.h: the
    segment and interrupt descriptors of the x64 processor.

    A descriptor is a structure of bit-fields: [pack] is its layout, field
    after field from the lowest bit on.  The descriptor table lies in a page of
    memory; the registers the assembler routines load are part of the state.
    How the processor reads a descriptor is the specification; the marks it makes
    itself when it loads a register (accessed, busy) are not part of the state. *)
From S2P Require Import Prelude CString FsState Blkio Coherence DiskLayout.

Definition GDT_KERN_CODE32_SEL : Z := 2.
Definition GDT_KERN_DATA32_SEL : Z := 3.
Definition GDT_KERN_CODE64_SEL : Z := 4.
Definition GDT_KERN_DATA64_SEL : Z := 5.
Definition GDT_USER_CODE64_SEL : Z := 6.
Definition GDT_USER_DATA64_SEL : Z := 7.
Definition GDT_TSS64_SEL : Z := 8.
Definition GDT_KERN_CODE32 : Z := 0x10.
Definition GDT_KERN_DATA32 : Z := 0x18.
Definition GDT_KERN_CODE64 : Z := 0x20.
Definition GDT_KERN_DATA64 : Z := 0x28.
Definition GDT_USER_CODE64 : Z := 0x33.
Definition GDT_USER_DATA64 : Z := 0x3b.
Definition GDT_TSS64 : Z := 0x40.
Definition X86_IDT_INTR_TYPE_ATTR : Z := 0xe.
Definition X86_IDT_TRAP_TYPE_ATTR : Z := 0xf.
Definition X86_DESC_DPL_KERNEL : Z := 0.
Definition X86_DESC_DPL_USER : Z := 3.
Definition X64_SEGMENT_CPUINFO_OFFSET : Z := 1024.
Definition NR_TRAPS : Z := 256.
Definition TRAP_SYSCALL : Z := 0x90.
(** [sizeof(tss64)] and the offset of [iomap]. *)
Definition TSS64_SIZE : Z := 104.
Definition TSS64_IOMAP : Z := 102.

(** ** Bit-fields *)

(** A structure of bit-fields, each with its width and its value, which is cut to
    the width when it is stored. *)
Definition pack (fields : list (Z * Z)) : Z := foldr (fun f acc => wrap f.1 f.2 + 2 ^ f.1 * acc) 0 fields.

Record gdt_descriptor : Type := GdtDescriptor {
  limit0 : Z; base0 : Z; base1 : Z; access : Z; rw : Z; dc : Z; exec : Z; resv0 : Z; dpl : Z; present : Z;
  limit1 : Z; avl : Z; mode : Z; size_ : Z; gran : Z; base2 : Z }.
Definition gdt_word (d : gdt_descriptor) : Z :=
  pack [(16, limit0 d); (16, base0 d); (8, base1 d); (1, access d); (1, rw d); (1, dc d); (1, exec d); (1, resv0 d); (2, dpl d);
        (1, present d); (4, limit1 d); (1, avl d); (1, mode d); (1, size_ d); (1, gran d); (8, base2 d)].

Record idt_descriptor : Type := IdtDescriptor {
  i_base0 : Z; i_sel : Z; i_ist : Z; i_resv0 : Z; i_type : Z; i_resv1 : Z; i_dpl : Z; i_present : Z; i_base1 : Z; i_base2 : Z; i_resv2 : Z }.
Definition idt_word (d : idt_descriptor) : Z :=
  pack [(16, i_base0 d); (16, i_sel d); (3, i_ist d); (5, i_resv0 d); (4, i_type d); (1, i_resv1 d); (2, i_dpl d); (1, i_present d);
        (16, i_base1 d); (32, i_base2 d); (32, i_resv2 d)].

(** ** Segments *)

(** The memory and the registers [lgdtr], [ltr] and [lidtr] load. *)
Record cpust : Type := CpuSt { cmem : mem; gdtr : Z * Z; cs : Z; ds : Z; tr : Z; idtr : Z * Z }.
Definition Cpu (A : Type) : Type := M cpust A.

Definition store (a : Z) (l : list Z) : Cpu unit := s ← get;
  m ← deref (image_write (cmem s) a l); put (CpuSt m (gdtr s) (cs s) (ds s) (tr s) (idtr s)).
Definition lgdtr (base limit code data : Z) : Cpu unit := s ← get; put (CpuSt (cmem s) (base, limit) code data (tr s) (idtr s)).
Definition ltr (seg : Z) : Cpu unit := s ← get; put (CpuSt (cmem s) (gdtr s) (cs s) (ds s) seg (idtr s)).
Definition lidtr (base limit : Z) : Cpu unit := s ← get; put (CpuSt (cmem s) (gdtr s) (cs s) (ds s) (tr s) (base, limit)).

Definition load_global_segment (p size : Z) : Cpu unit := lgdtr p (wrap 16 (size - 1)) GDT_KERN_CODE64 GDT_KERN_DATA64.

Definition tss_descriptor (addr limit : Z) : gdt_descriptor :=
  GdtDescriptor (Z.land limit 0xffff) (Z.land addr 0xffff) (Z.land (Z.shiftr addr 16) 0xff) 1 0 0 1 0 X86_DESC_DPL_USER 1
    (Z.land (Z.shiftr limit 16) 0xf) 0 0 0 0 (Z.land (Z.shiftr addr 24) 0xff).
Definition init_tss_descriptor (gdt_ent addr limit : Z) : Cpu unit :=
  kassert (negb (gdt_ent =? NULL));;
  store gdt_ent (le_encode 8 (gdt_word (tss_descriptor addr limit)));;
  store (gdt_ent + 8) (le_encode 8 (Z.land (Z.shiftr addr 32) 0xffffffff)).

(** The member [size] depends on the bit-field [mode] as it was stored. *)
Definition segment_descriptor (addr limit rw exec dpl mode size granularity : Z) : gdt_descriptor :=
  GdtDescriptor (Z.land limit 0xffff) (Z.land addr 0xffff) (Z.land (Z.shiftr addr 16) 0xff) 0 rw 0 (if ctrue exec then 1 else 0) 1 dpl 1
    (Z.land (Z.shiftr limit 16) 0xf) 0 mode (if ctrue (wrap 1 mode) then 0 else size) granularity (Z.land (Z.shiftr addr 24) 0xff).
Definition init_gdt_descriptor_table_entry (gdtp addr limit rw exec dpl mode size granularity : Z) : Cpu unit :=
  kassert (negb (gdtp =? NULL));;
  store gdtp (le_encode 8 (gdt_word (segment_descriptor addr limit rw exec dpl mode size granularity))).

(** Returns [*tssp].  [sizeof(PAGE_SIZE)] is the size of an [int]. *)
Definition x64_init_segments (gdtp : Z) : Cpu Z :=
  store gdtp (replicate 4 0);;
  let addr := gdtp + X64_SEGMENT_CPUINFO_OFFSET in
  store (addr + TSS64_IOMAP) (le_encode 2 TSS64_SIZE);;
  store gdtp (le_encode 8 0);;
  store (gdtp + 8) (le_encode 8 0);;
  let entry sel exec dpl mode size := init_gdt_descriptor_table_entry (gdtp + 8 * sel) 0 0xffffffff 1 exec dpl mode size 1 in
  entry GDT_KERN_CODE32_SEL 1 X86_DESC_DPL_KERNEL 0 1;;
  entry GDT_KERN_DATA32_SEL 0 X86_DESC_DPL_KERNEL 0 1;;
  entry GDT_KERN_CODE64_SEL 1 X86_DESC_DPL_KERNEL 1 0;;
  entry GDT_KERN_DATA64_SEL 0 X86_DESC_DPL_KERNEL 1 0;;
  entry GDT_USER_CODE64_SEL 1 X86_DESC_DPL_USER 1 0;;
  entry GDT_USER_DATA64_SEL 0 X86_DESC_DPL_USER 1 0;;
  init_tss_descriptor (gdtp + 8 * GDT_TSS64_SEL) addr (TSS64_SIZE - 1);;
  load_global_segment gdtp ((GDT_TSS64_SEL + 2) * 8);;
  ltr GDT_TSS64;;
  mret addr.

(** ** Interrupt descriptors *)

(** The value of a gate before it is set up; the argument [_present] is not used. *)
Definition X64_IDT_INITIALIZER (isr sel ist type dpl _present : Z) : idt_descriptor :=
  IdtDescriptor (Z.land isr 0xffff) sel ist 0 type 0 dpl 1
    (Z.land (Z.shiftr (Z.land isr 0xffff0000) 16) 0xffff) (Z.land (Z.shiftr isr 32) 0xffffffff) 0.
(** The initial bytes of the table. *)
Definition idt_tbl : list Z :=
  mjoin (replicate (Z.to_nat NR_TRAPS) (le_encode 16 (idt_word (X64_IDT_INITIALIZER 0 GDT_KERN_CODE64 0 X86_IDT_INTR_TYPE_ATTR X86_DESC_DPL_KERNEL 0)))).

(** The table [idt_tbl], at the address [tbl]. *)
Definition init_interrupt_descriptor_table_entry (tbl n addr dpl : Z) (trap : bool) : Cpu unit :=
  kassert (negb (tbl =? NULL));;
  kassert (negb (addr =? NULL));;
  store (tbl + 16 * n) (le_encode 16 (idt_word (IdtDescriptor (Z.land addr 0xffff) GDT_KERN_CODE64 0 0
    (if trap then X86_IDT_TRAP_TYPE_ATTR else X86_IDT_INTR_TYPE_ATTR) 0 dpl 1
    (Z.land (Z.shiftr (Z.land addr 0xffff0000) 16) 0xffff) (Z.land (Z.shiftr addr 32) 0xffffffff) 0))).

Definition x64_load_interrupt_descriptors (p size : Z) : Cpu unit := lidtr p (wrap 16 (size - 1)).

(** Returns [*idtp]. *)
Definition x64_init_idt (tbl : Z) (vectors : Z -> Z) : Cpu Z :=
  forM (seqZ 0 NR_TRAPS) (fun i =>
    if i =? TRAP_SYSCALL then init_interrupt_descriptor_table_entry tbl i (vectors i) X86_DESC_DPL_USER true
    else init_interrupt_descriptor_table_entry tbl i (vectors i) X86_DESC_DPL_KERNEL false);;
  x64_load_interrupt_descriptors tbl (16 * NR_TRAPS);;
  mret tbl.

(** ** Reading bit-fields *)

Definition field (w off width : Z) : Z := (w / 2 ^ off) mod 2 ^ width.
Definition widths (fields : list (Z * Z)) : Z := foldr (fun f acc => f.1 + acc) 0 fields.

Lemma pack_field l1 width v l2 : Forall (fun f => 0 <= f.1) l1 -> 0 <= width ->
  field (pack (l1 ++ (width, v) :: l2)) (widths l1) width = wrap width v.
Proof.
  intros Hl Hw. unfold field. induction Hl as [|[w x] l1 Hf Hl IH]; cbn [app pack foldr widths fst snd].
  - rewrite Z.pow_0_r, Z.div_1_r, Z.mul_comm, Z.mod_add by lia. apply Z.mod_mod. by apply Z.pow_nonzero.
  - fold (pack (l1 ++ (width, v) :: l2)) (widths l1). cbn in Hf.
    assert (0 <= widths l1) by (clear -Hl; induction Hl as [|f l Hf _ IH]; cbn [widths foldr]; [lia|]; unfold widths in IH; lia).
    rewrite Z.pow_add_r, <-Z.div_div by lia.
    rewrite (Z.mul_comm (2 ^ w)), Z.div_add by lia. rewrite (Z.div_small (wrap w x)) by (apply wrap_range; lia). exact IH.
Qed.

(** A 64-bit address and its parts in a descriptor. *)
Lemma mod_split a m n : 0 <= m -> 0 <= n -> a mod 2 ^ m + 2 ^ m * ((a / 2 ^ m) mod 2 ^ n) = a mod 2 ^ (m + n).
Proof. intros Hm Hn. rewrite Z.pow_add_r by done. rewrite Z.rem_mul_r by lia. done. Qed.

Lemma addr_parts a : 0 <= a < 2 ^ 64 ->
  a mod 2 ^ 16 + 2 ^ 16 * ((a / 2 ^ 16) mod 2 ^ 8) + 2 ^ 24 * ((a / 2 ^ 24) mod 2 ^ 8) + 2 ^ 32 * ((a / 2 ^ 32) mod 2 ^ 32) = a.
Proof.
  intros Ha. rewrite (mod_split a 16 8) by lia. change (16 + 8) with 24. rewrite (mod_split a 24 8) by lia. change (24 + 8) with 32.
  rewrite (mod_split a 32 32) by lia. by apply Z.mod_small.
Qed.
Lemma isr_parts a : 0 <= a < 2 ^ 64 -> a mod 2 ^ 16 + 2 ^ 16 * ((a / 2 ^ 16) mod 2 ^ 16) + 2 ^ 32 * ((a / 2 ^ 32) mod 2 ^ 32) = a.
Proof. 
  intros Ha. rewrite (mod_split a 16 16) by lia. change (16 + 16) with 32. rewrite (mod_split a 32 32) by lia. by apply Z.mod_small.
 Qed.

Lemma land_field a off width mask : mask = Z.ones width -> 0 <= off -> 0 <= width -> wrap width (Z.land (Z.shiftr a off) mask) = (a / 2 ^ off) mod 2 ^ width.
Proof. intros -> Ho Hw. rewrite Z.land_ones, Z.shiftr_div_pow2 by done. by apply Z.mod_mod, Z.pow_nonzero. Qed.

(** ** How the processor reads descriptors *)

(** A segment: base, last byte, type (code, data or system), descriptor class,
    privilege, presence, 64-bit and 32-bit mode. *)
Record segment : Type := Segment {
  sg_base : Z; sg_last : Z; sg_type : Z; sg_class : Z; sg_dpl : Z; sg_present : Z; sg_long : Z; sg_big : Z }.
Definition seg_of (w : Z) : segment :=
  let limit := field w 0 16 + 2 ^ 16 * field w 48 4 in
  Segment (field w 16 16 + 2 ^ 16 * field w 32 8 + 2 ^ 24 * field w 56 8)
    (if field w 55 1 =? 1 then limit * 4096 + 4095 else limit)
    (field w 40 1 + 2 * field w 41 1 + 4 * field w 42 1 + 8 * field w 43 1) (field w 44 1) (field w 45 2) (field w 47 1) (field w 53 1) (field w 54 1).

(** The descriptors a selector chooses; the one of a task takes two words. *)
Definition word_of (m : mem) (a : Z) (n : nat) : option Z := le_decode <$> image_read m a n.
Definition selected (s : cpust) (sel : Z) : option segment :=
  if 8 * (sel / 8) + 7 <=? (gdtr s).2 then seg_of <$> word_of (cmem s) ((gdtr s).1 + 8 * (sel / 8)) 8 else None.
Definition task_base (s : cpust) : option Z :=
  sg ← selected s (tr s); hi ← word_of (cmem s) ((gdtr s).1 + 8 * (tr s / 8) + 8) 8; Some (sg_base sg + 2 ^ 32 * (hi mod 2 ^ 32)).

(** A gate: handler, code segment, type, privilege, presence. *)
Record gate : Type := Gate { gt_handler : Z; gt_sel : Z; gt_ist : Z; gt_type : Z; gt_dpl : Z; gt_present : Z }.
Definition gate_of (w : Z) : gate :=
  Gate (field w 0 16 + 2 ^ 16 * field w 48 16 + 2 ^ 32 * field w 64 32) (field w 16 16) (field w 32 3) (field w 40 4) (field w 45 2) (field w 47 1).
Definition vector (s : cpust) (n : Z) : option gate :=
  if 16 * n + 15 <=? (idtr s).2 then gate_of <$> word_of (cmem s) ((idtr s).1 + 16 * n) 16 else None.

(** ** Descriptors as the processor reads them *)

Lemma segment_table_words exec dpl mode : (exec = 0 \/ exec = 1) -> (dpl = 0 \/ dpl = 3) -> (mode = 0 \/ mode = 1) ->
  let w := gdt_word (segment_descriptor 0 0xffffffff 1 exec dpl mode (1 - mode) 1) in
  0 <= w < 2 ^ 64 /\ seg_of w = Segment 0 0xffffffff (8 * exec + 2) 1 dpl 1 mode (1 - mode).
Proof. intros [->| ->] [->| ->] [->| ->]; vm_compute; done. Qed.

Lemma pack_range fields : Forall (fun f => 0 <= f.1) fields -> 0 <= pack fields < 2 ^ widths fields.
Proof.
  induction 1 as [|[w x] l Hf _ IH]; cbn [pack widths foldr fst snd]; [by cbn|]. fold (pack l) (widths l). cbn in Hf.
  pose proof (wrap_range w x Hf). assert (0 <= widths l) by (destruct (Z.neg_nonneg_cases (widths l)); [rewrite Z.pow_neg_r in IH; lia|done]).
  rewrite Z.pow_add_r by lia. nia.
Qed.

Lemma tss_word_range addr limit : 0 <= gdt_word (tss_descriptor addr limit) < 2 ^ 64.
Proof. apply pack_range. repeat constructor; cbn; lia. Qed.
Lemma idt_word_range d : 0 <= idt_word d < 2 ^ 128.
Proof. apply pack_range. repeat constructor; cbn; lia. Qed.

(** One field of a descriptor, after the fields of [l]. *)
Ltac by_field l := refine (pack_field l _ _ _ _ _); [by repeat constructor|done].

Lemma gdt_seg d : seg_of (gdt_word d) =
  let limit := wrap 16 (limit0 d) + 2 ^ 16 * wrap 4 (limit1 d) in
  Segment (wrap 16 (base0 d) + 2 ^ 16 * wrap 8 (base1 d) + 2 ^ 24 * wrap 8 (base2 d))
    (if wrap 1 (gran d) =? 1 then limit * 4096 + 4095 else limit)
    (wrap 1 (access d) + 2 * wrap 1 (rw d) + 4 * wrap 1 (dc d) + 8 * wrap 1 (exec d)) (wrap 1 (resv0 d)) (wrap 2 (dpl d)) (wrap 1 (present d))
    (wrap 1 (mode d)) (wrap 1 (size_ d)).
Proof.
  assert (field (gdt_word d) 0 16 = wrap 16 (limit0 d)) as E0 by by_field (@nil (Z * Z)).
  assert (field (gdt_word d) 16 16 = wrap 16 (base0 d)) as E1 by by_field [(16, limit0 d)].
  assert (field (gdt_word d) 32 8 = wrap 8 (base1 d)) as E2 by by_field [(16, limit0 d); (16, base0 d)].
  assert (field (gdt_word d) 40 1 = wrap 1 (access d)) as E3 by by_field [(16, limit0 d); (16, base0 d); (8, base1 d)].
  assert (field (gdt_word d) 41 1 = wrap 1 (rw d)) as E4 by by_field [(16, limit0 d); (16, base0 d); (8, base1 d); (1, access d)].
  set (l0 := [(16, limit0 d); (16, base0 d); (8, base1 d); (1, access d); (1, rw d)]).
  assert (field (gdt_word d) 42 1 = wrap 1 (dc d)) as E5 by by_field l0.
  assert (field (gdt_word d) 43 1 = wrap 1 (exec d)) as E6 by by_field (l0 ++ [(1, dc d)]).
  assert (field (gdt_word d) 44 1 = wrap 1 (resv0 d)) as E7 by by_field (l0 ++ [(1, dc d); (1, exec d)]).
  set (l1 := l0 ++ [(1, dc d); (1, exec d); (1, resv0 d)]).
  assert (field (gdt_word d) 45 2 = wrap 2 (dpl d)) as E8 by by_field l1.
  assert (field (gdt_word d) 47 1 = wrap 1 (present d)) as E9 by by_field (l1 ++ [(2, dpl d)]).
  assert (field (gdt_word d) 48 4 = wrap 4 (limit1 d)) as E10 by by_field (l1 ++ [(2, dpl d); (1, present d)]).
  set (l2 := l1 ++ [(2, dpl d); (1, present d); (4, limit1 d); (1, avl d)]).
  assert (field (gdt_word d) 53 1 = wrap 1 (mode d)) as E11 by by_field l2.
  assert (field (gdt_word d) 54 1 = wrap 1 (size_ d)) as E12 by by_field (l2 ++ [(1, mode d)]).
  assert (field (gdt_word d) 55 1 = wrap 1 (gran d)) as E13 by by_field (l2 ++ [(1, mode d); (1, size_ d)]).
  assert (field (gdt_word d) 56 8 = wrap 8 (base2 d)) as E14 by by_field (l2 ++ [(1, mode d); (1, size_ d); (1, gran d)]).
  unfold seg_of. by rewrite E0, E1, E2, E3, E4, E5, E6, E7, E8, E9, E10, E11, E12, E13, E14.
Qed.

Lemma idt_gate d : gate_of (idt_word d) =
  Gate (wrap 16 (i_base0 d) + 2 ^ 16 * wrap 16 (i_base1 d) + 2 ^ 32 * wrap 32 (i_base2 d)) (wrap 16 (i_sel d)) (wrap 3 (i_ist d))
    (wrap 4 (i_type d)) (wrap 2 (i_dpl d)) (wrap 1 (i_present d)).
Proof.
  set (l0 := [(16, i_base0 d); (16, i_sel d); (3, i_ist d); (5, i_resv0 d)]).
  assert (field (idt_word d) 0 16 = wrap 16 (i_base0 d)) as E0 by by_field (@nil (Z * Z)).
  assert (field (idt_word d) 16 16 = wrap 16 (i_sel d)) as E1 by by_field [(16, i_base0 d)].
  assert (field (idt_word d) 32 3 = wrap 3 (i_ist d)) as E2 by by_field [(16, i_base0 d); (16, i_sel d)].
  assert (field (idt_word d) 40 4 = wrap 4 (i_type d)) as E3 by by_field l0.
  assert (field (idt_word d) 45 2 = wrap 2 (i_dpl d)) as E4 by by_field (l0 ++ [(4, i_type d); (1, i_resv1 d)]).
  assert (field (idt_word d) 47 1 = wrap 1 (i_present d)) as E5 by by_field (l0 ++ [(4, i_type d); (1, i_resv1 d); (2, i_dpl d)]).
  assert (field (idt_word d) 48 16 = wrap 16 (i_base1 d)) as E6 by by_field (l0 ++ [(4, i_type d); (1, i_resv1 d); (2, i_dpl d); (1, i_present d)]).
  assert (field (idt_word d) 64 32 = wrap 32 (i_base2 d)) as E7
    by by_field (l0 ++ [(4, i_type d); (1, i_resv1 d); (2, i_dpl d); (1, i_present d); (16, i_base1 d)]).
  unfold gate_of. by rewrite E0, E1, E2, E3, E4, E5, E6, E7.
Qed.

(** The descriptor of the task: an available 64-bit task of class system. *)
Lemma tss_word addr : 0 <= addr < 2 ^ 64 ->
  exists base, seg_of (gdt_word (tss_descriptor addr 103)) = Segment base 103 9 0 3 1 0 0 /\
    base + 2 ^ 32 * (Z.land (Z.shiftr addr 32) 0xffffffff mod 2 ^ 32) = addr.
Proof.
  intros Ha. eexists. split; [rewrite gdt_seg; reflexivity|]. cbn [tss_descriptor base0 base1 base2].
  pose proof (land_field addr 0 16 0xffff eq_refl ltac:(lia) ltac:(lia)) as E0. rewrite Z.shiftr_0_r, Z.pow_0_r, Z.div_1_r in E0. rewrite E0.
  rewrite (land_field addr 16 8 0xff), (land_field addr 24 8 0xff) by (done || lia). fold (wrap 32 (Z.land (Z.shiftr addr 32) 0xffffffff)).
  rewrite (land_field addr 32 32 0xffffffff) by (done || lia). by apply addr_parts.
Qed.

Lemma idt_entry_gate addr type dpl : 0 <= addr < 2 ^ 64 -> 0 <= type < 16 -> 0 <= dpl < 4 ->
  gate_of (idt_word (IdtDescriptor (Z.land addr 0xffff) GDT_KERN_CODE64 0 0 type 0 dpl 1
    (Z.land (Z.shiftr (Z.land addr 0xffff0000) 16) 0xffff) (Z.land (Z.shiftr addr 32) 0xffffffff) 0)) = Gate addr GDT_KERN_CODE64 0 type dpl 1.
Proof.
  intros Ha Ht Hd. rewrite idt_gate. cbn [i_base0 i_base1 i_base2 i_sel i_ist i_type i_dpl i_present].
  pose proof (land_field addr 0 16 0xffff eq_refl ltac:(lia) ltac:(lia)) as E0. rewrite Z.shiftr_0_r, Z.pow_0_r, Z.div_1_r in E0. rewrite E0.
  assert (Z.land (Z.shiftr (Z.land addr 0xffff0000) 16) 0xffff = Z.land (Z.shiftr addr 16) 0xffff) as ->.
  { rewrite Z.shiftr_land. change (Z.shiftr 0xffff0000 16) with 0xffff. rewrite <-Z.land_assoc. done. }
  rewrite (land_field addr 16 16 0xffff), (land_field addr 32 32 0xffffffff), isr_parts by (done || lia). by rewrite (wrap_small 4), (wrap_small 2) by lia.
Qed.

(** ** Sequences of stores *)

Abbreviation chunk := (Z * list Z)%type.
Definition covers (w : chunk) (i : Z) : Prop := w.1 <= i < w.1 + Z.of_nat (length w.2).
Definition apart (w w' : chunk) : Prop := w.1 + Z.of_nat (length w.2) <= w'.1 \/ w'.1 + Z.of_nat (length w'.2) <= w.1.
Definition holds (m : mem) (w : chunk) : Prop := forall i, covers w i -> m !! i = w.2 !! Z.to_nat (i - w.1).

Fixpoint mstores (m : mem) (ws : list chunk) : option mem :=
  match ws with [] => Some m | w :: ws => m ← image_write m w.1 w.2; mstores m ws end.

Lemma mstores_ok ws : forall m, (forall w, w ∈ ws -> mapped m w.1 (Z.of_nat (length w.2))) ->
  exists m', mstores m ws = Some m' /\
    (forall pre w post, ws = pre ++ w :: post -> (forall w', w' ∈ post -> apart w w') -> holds m' w) /\
    (forall i, (forall w, w ∈ ws -> ~ covers w i) -> m' !! i = m !! i).
Proof.
  induction ws as [|w ws IH]; intros m Hm; [exists m; split_and!; [done|by intros [] ?|done]|].
  destruct (image_write_spec m w.1 w.2) as (m1 & E1 & A1 & A2); [apply Hm; set_solver|].
  destruct (IH m1) as (m2 & E2 & B1 & B2).
  { intros x Hx i Hi. destruct (decide (covers w i)) as [Hc|Hc].
    - rewrite A1 by done. apply lookup_lt_is_Some_2. unfold covers in Hc. lia.
    - rewrite A2 by done. apply (Hm x); [set_solver|done]. }
  exists m2. cbn [mstores]. rewrite E1. split_and!; [done| |].
  - intros [|p pre] x post [= -> Hp] Hd; [|by eapply B1]. intros i Hi. rewrite B2; [by apply A1|].
    subst ws. intros x' Hx' Hc. specialize (Hd x' Hx'). unfold apart, covers in *. lia.
  - intros i Hi. rewrite B2 by (intros x Hx; apply Hi; set_solver). apply A2. apply Hi. set_solver.
Qed.

Lemma holds_word m a n w : holds m (a, le_encode n w) -> 0 <= w < 2 ^ (8 * Z.of_nat n) -> word_of m a n = Some w.
Proof.
  intros Hh Hw. unfold holds, covers in Hh. cbn [fst snd] in Hh. rewrite le_encode_length in Hh.
  destruct (image_read_mapped m a n) as (l & E & Hl & HL).
  { intros i Hi. rewrite Hh by lia. apply lookup_lt_is_Some_2. rewrite le_encode_length. lia. }
  assert (l = le_encode n w) as ->.
  { apply list_eq. intros i. destruct (decide (i < n)%nat); [|rewrite !lookup_ge_None_2; rewrite ?le_encode_length; (done || lia)].
    rewrite <-(Nat2Z.id i). rewrite <-HL by lia. rewrite Hh by lia. f_equal. lia. }
  unfold word_of. rewrite E. cbn. rewrite le_roundtrip. by rewrite Z.mod_small.
Qed.

(** ** The tables *)

Definition set_mem (s : cpust) (m : mem) : cpust := CpuSt m (gdtr s) (cs s) (ds s) (tr s) (idtr s).

Definition segment_store (gdtp sel exec dpl mode size : Z) : chunk :=
  (gdtp + 8 * sel, le_encode 8 (gdt_word (segment_descriptor 0 0xffffffff 1 exec dpl mode size 1))).
Definition segment_stores (gdtp : Z) : list chunk :=
  let addr := gdtp + X64_SEGMENT_CPUINFO_OFFSET in
  [(gdtp, replicate 4 0); (addr + TSS64_IOMAP, le_encode 2 TSS64_SIZE); (gdtp, le_encode 8 0); (gdtp + 8, le_encode 8 0);
   segment_store gdtp GDT_KERN_CODE32_SEL 1 X86_DESC_DPL_KERNEL 0 1; segment_store gdtp GDT_KERN_DATA32_SEL 0 X86_DESC_DPL_KERNEL 0 1;
   segment_store gdtp GDT_KERN_CODE64_SEL 1 X86_DESC_DPL_KERNEL 1 0; segment_store gdtp GDT_KERN_DATA64_SEL 0 X86_DESC_DPL_KERNEL 1 0;
   segment_store gdtp GDT_USER_CODE64_SEL 1 X86_DESC_DPL_USER 1 0; segment_store gdtp GDT_USER_DATA64_SEL 0 X86_DESC_DPL_USER 1 0;
   (gdtp + 8 * GDT_TSS64_SEL, le_encode 8 (gdt_word (tss_descriptor addr (TSS64_SIZE - 1))));
   (gdtp + 8 * GDT_TSS64_SEL + 8, le_encode 8 (Z.land (Z.shiftr addr 32) 0xffffffff))].

Lemma store_eq a l s m : image_write (cmem s) a l = Some m -> store a l s = Ret tt (set_mem s m).
Proof. intros E. unfold store. mred. by rewrite E. Qed.

Lemma mstores_cons m w ws m' : mstores m (w :: ws) = Some m' -> exists m1, image_write m w.1 w.2 = Some m1 /\ mstores m1 ws = Some m'.
Proof. cbn [mstores]. destruct (image_write m w.1 w.2) as [m1|]; [|done]. intros E. by exists m1. Qed.

Lemma address_not_null a k : 0 <= a -> 0 < k -> (a + 8 * k =? NULL) = false.
Proof. intros Ha Hk. apply Z.eqb_neq. unfold NULL. lia. Qed.

Lemma x64_init_segments_eq gdtp s m : 0 <= gdtp -> mstores (cmem s) (segment_stores gdtp) = Some m ->
  x64_init_segments gdtp s = Ret (gdtp + 1024) (CpuSt m (gdtp, 79) GDT_KERN_CODE64 GDT_KERN_DATA64 GDT_TSS64 (idtr s)).
Proof.
  intros Hp E. unfold x64_init_segments, init_tss_descriptor, init_gdt_descriptor_table_entry. unfold segment_stores in E.
  rewrite !address_not_null by done. cbn [negb]. mred.
  do 12 (let m1 := fresh "m" in let E1 := fresh "E" in apply mstores_cons in E as (m1 & E1 & E); cbn [fst snd segment_store] in E1;
    match type of E1 with image_write _ ?a ?l = _ =>
      match goal with |- context [store a l ?st] => rewrite (store_eq a l st m1 E1) end end; cbn [run_bind]).
  injection E as <-. reflexivity.
Qed.

(** The segments of a kernel, as a table: selector, type, privilege and mode. *)
Definition kernel_segments : list (Z * segment) :=
  [(GDT_KERN_CODE32, Segment 0 0xffffffff 0xa 1 0 1 0 1); (GDT_KERN_DATA32, Segment 0 0xffffffff 0x2 1 0 1 0 1);
   (GDT_KERN_CODE64, Segment 0 0xffffffff 0xa 1 0 1 1 0); (GDT_KERN_DATA64, Segment 0 0xffffffff 0x2 1 0 1 1 0);
   (GDT_USER_CODE64, Segment 0 0xffffffff 0xa 1 3 1 1 0); (GDT_USER_DATA64, Segment 0 0xffffffff 0x2 1 3 1 1 0)].

Lemma segment_stores_mapped m gdtp : mapped m gdtp 4096 -> forall w, w ∈ segment_stores gdtp -> mapped m w.1 (Z.of_nat (length w.2)).
Proof.
  intros Hm w Hw i Hi. apply Hm. unfold segment_stores in Hw.
  repeat (apply elem_of_cons in Hw as [->|Hw]; [cbn [fst snd segment_store] in Hi; rewrite ?le_encode_length, ?length_replicate in Hi;
    unfold X64_SEGMENT_CPUINFO_OFFSET, TSS64_IOMAP, GDT_KERN_CODE32_SEL, GDT_KERN_DATA32_SEL, GDT_KERN_CODE64_SEL, GDT_KERN_DATA64_SEL, GDT_USER_CODE64_SEL, GDT_USER_DATA64_SEL, GDT_TSS64_SEL in Hi; lia|]).
  by apply elem_of_nil in Hw.
Qed.

(** ** Properties *)

Lemma segment_selected m sel exec dpl mode size c sg s :
  holds m (segment_store (gdtr s).1 sel exec dpl mode size) -> cmem s = m -> (gdtr s).2 = 79 -> 0 <= sel <= 9 -> c / 8 = sel ->
  (exec = 0 \/ exec = 1) -> (dpl = 0 \/ dpl = 3) -> (mode = 0 \/ mode = 1) -> size = 1 - mode ->
  sg = Segment 0 0xffffffff (8 * exec + 2) 1 dpl 1 mode (1 - mode) -> selected s c = Some sg.
Proof.
  intros Hh <- Hl Hs <- He Hd Hm -> ->. destruct (segment_table_words exec dpl mode He Hd Hm) as [Hr <-].
  unfold selected. rewrite Hl. destruct (Z.leb_spec (8 * (c / 8) + 7) 79); [|lia].
  by rewrite (holds_word _ _ _ _ Hh) by (change (8 * Z.of_nat 8) with 64; exact Hr).
Qed.

(** The word a store of the table holds, from its position in the sequence. *)
Lemma apart_intro a l a' l' : a + Z.of_nat (length l) <= a' \/ a' + Z.of_nat (length l') <= a -> apart (a, l) (a', l').
Proof. done. Qed.
Ltac stored_at B n :=
  match type of B with forall pre w post, ?ws = _ -> _ =>
    refine (B (take n ws) _ (drop (S n) ws) eq_refl _); apply Forall_forall; cbv [segment_stores drop];
    repeat (constructor; [apply apart_intro; rewrite ?le_encode_length, ?length_replicate;
      cbv [X64_SEGMENT_CPUINFO_OFFSET TSS64_IOMAP GDT_KERN_CODE32_SEL GDT_KERN_DATA32_SEL GDT_KERN_CODE64_SEL GDT_KERN_DATA64_SEL
           GDT_USER_CODE64_SEL GDT_USER_DATA64_SEL GDT_TSS64_SEL]; lia|]); constructor end.

(** What is left in memory by the stores of [segment_stores]. *)
Definition written (m : mem) (ws : list chunk) : Prop :=
  forall pre w post, ws = pre ++ w :: post -> (forall w', w' ∈ post -> apart w w') -> holds m w.

Lemma kernel_segments_selected s gdtp : written (cmem s) (segment_stores gdtp) -> gdtr s = (gdtp, 79) ->
  forall sel sg, (sel, sg) ∈ kernel_segments -> selected s sel = Some sg.
Proof.
  intros B Hg sel sg Hin. unfold written in B. pose proof (f_equal fst Hg) as Hb. pose proof (f_equal snd Hg) as Hl. cbn in Hb, Hl. subst gdtp.
  unfold kernel_segments in Hin.
  apply elem_of_cons in Hin as [[= -> ->]|Hin];
    [apply (segment_selected (cmem s) GDT_KERN_CODE32_SEL 1 X86_DESC_DPL_KERNEL 0 1); try done; [stored_at B 4%nat|..]; by auto|].
  apply elem_of_cons in Hin as [[= -> ->]|Hin];
    [apply (segment_selected (cmem s) GDT_KERN_DATA32_SEL 0 X86_DESC_DPL_KERNEL 0 1); try done; [stored_at B 5%nat|..]; by auto|].
  apply elem_of_cons in Hin as [[= -> ->]|Hin];
    [apply (segment_selected (cmem s) GDT_KERN_CODE64_SEL 1 X86_DESC_DPL_KERNEL 1 0); try done; [stored_at B 6%nat|..]; by auto|].
  apply elem_of_cons in Hin as [[= -> ->]|Hin];
    [apply (segment_selected (cmem s) GDT_KERN_DATA64_SEL 0 X86_DESC_DPL_KERNEL 1 0); try done; [stored_at B 7%nat|..]; by auto|].
  apply elem_of_cons in Hin as [[= -> ->]|Hin];
    [apply (segment_selected (cmem s) GDT_USER_CODE64_SEL 1 X86_DESC_DPL_USER 1 0); try done; [stored_at B 8%nat|..]; by auto|].
  apply elem_of_cons in Hin as [[= -> ->]|Hin];
    [apply (segment_selected (cmem s) GDT_USER_DATA64_SEL 0 X86_DESC_DPL_USER 1 0); try done; [stored_at B 9%nat|..]; by auto|].
  by apply elem_of_nil in Hin.
Qed.

Lemma task_selected s gdtp : written (cmem s) (segment_stores gdtp) -> gdtr s = (gdtp, 79) -> tr s = GDT_TSS64 -> 0 <= gdtp + 1024 < 2 ^ 64 ->
  (exists base, selected s (tr s) = Some (Segment base (TSS64_SIZE - 1) 9 0 3 1 0 0)) /\ task_base s = Some (gdtp + X64_SEGMENT_CPUINFO_OFFSET).
Proof.
  intros B Hg Ht Ha. unfold written in B. destruct (tss_word (gdtp + 1024) Ha) as (base & Es & Eb).
  assert (word_of (cmem s) (gdtp + 64) 8 = Some (gdt_word (tss_descriptor (gdtp + 1024) 103))) as E1
    by (apply holds_word; [stored_at B 10%nat|apply tss_word_range]).
  assert (word_of (cmem s) (gdtp + 64 + 8) 8 = Some (Z.land (Z.shiftr (gdtp + 1024) 32) 0xffffffff)) as E2.
  { apply holds_word; [stored_at B 11%nat|]. change 0xffffffff with (Z.ones 32). rewrite Z.land_ones by lia.
    pose proof (Z.mod_pos_bound (Z.shiftr (gdtp + 1024) 32) (2 ^ 32) ltac:(lia)). change (8 * Z.of_nat 8) with 64. lia. }
  assert (selected s (tr s) = Some (Segment base 103 9 0 3 1 0 0)) as ES.
  { unfold selected. rewrite Ht, Hg. cbn [fst snd]. change (8 * (GDT_TSS64 / 8)) with 64. change (64 + 7 <=? 79) with true. cbv match. rewrite E1. cbn [fmap option_fmap option_map].
    by rewrite Es. }
  split; [by exists base|]. unfold task_base. rewrite ES. cbn [mbind option_bind sg_base]. rewrite Ht, Hg. cbn [fst]. change (8 * (GDT_TSS64 / 8)) with 64. rewrite E2. cbn [option_bind].
  exact (f_equal Some Eb).
Qed.

Lemma segment_stores_covered gdtp i : ~ gdtp <= i < gdtp + 80 -> ~ gdtp + 1126 <= i < gdtp + 1128 ->
  forall w, w ∈ segment_stores gdtp -> ~ covers w i.
Proof.
  intros H1 H2. apply Forall_forall. unfold segment_stores, segment_store, covers.
  repeat (constructor; [cbn [fst snd]; rewrite ?le_encode_length, ?length_replicate;
    cbv [X64_SEGMENT_CPUINFO_OFFSET TSS64_IOMAP GDT_KERN_CODE32_SEL GDT_KERN_DATA32_SEL GDT_KERN_CODE64_SEL GDT_KERN_DATA64_SEL
         GDT_USER_CODE64_SEL GDT_USER_DATA64_SEL GDT_TSS64_SEL]; lia|]). constructor.
Qed.

(** [x64_init_segments] on a page: the task state segment lies 1024 bytes into it; the kernel's and the user's code and data segments are selected by the selectors of segments.h, flat, with the privilege and mode their names say; the processor runs on the 64-bit kernel segments and the task register selects an available 64-bit task of 104 bytes whose base is the task state segment.  Only the table and the map offset of that segment are written: the [memset] at the start clears four bytes. *)
Theorem x64_init_segments_correct (gdtp : Z) (s : cpust) :
  0 <= gdtp -> gdtp + 4096 < 2 ^ 64 -> mapped (cmem s) gdtp 4096 ->
  exists s', x64_init_segments gdtp s = Ret (gdtp + X64_SEGMENT_CPUINFO_OFFSET) s' /\
    (forall sel sg, (sel, sg) ∈ kernel_segments -> selected s' sel = Some sg) /\
    cs s' = GDT_KERN_CODE64 /\ ds s' = GDT_KERN_DATA64 /\ idtr s' = idtr s /\
    (exists base, selected s' (tr s') = Some (Segment base (TSS64_SIZE - 1) 9 0 3 1 0 0)) /\
    task_base s' = Some (gdtp + X64_SEGMENT_CPUINFO_OFFSET) /\
    word_of (cmem s') (gdtp + X64_SEGMENT_CPUINFO_OFFSET + TSS64_IOMAP) 2 = Some TSS64_SIZE /\
    (forall i, ~ gdtp <= i < gdtp + 80 -> ~ gdtp + 1126 <= i < gdtp + 1128 -> cmem s' !! i = cmem s !! i).
Proof.
  intros H0 H64 Hm. destruct (mstores_ok _ _ (segment_stores_mapped _ _ Hm)) as (m & E & B & C).
  eexists. split; [by apply x64_init_segments_eq|]. cbn [cs ds idtr cmem].
  destruct (task_selected (CpuSt m (gdtp, 79) GDT_KERN_CODE64 GDT_KERN_DATA64 GDT_TSS64 (idtr s)) gdtp) as [HT HB]; [done..|lia|].
  split_and!; [by apply (kernel_segments_selected _ gdtp)|done|done|done|exact HT|exact HB| |].
  - apply holds_word; [stored_at B 1%nat|by cbn].
  - intros i Hi1 Hi2. by apply C, segment_stores_covered.
Qed.

(** The stores of [x64_init_idt], one for each vector. *)
Definition gate_store (tbl : Z) (vectors : Z -> Z) (i : Z) : chunk :=
  (tbl + 16 * i, le_encode 16 (idt_word (IdtDescriptor (Z.land (vectors i) 0xffff) GDT_KERN_CODE64 0 0
    (if i =? TRAP_SYSCALL then X86_IDT_TRAP_TYPE_ATTR else X86_IDT_INTR_TYPE_ATTR) 0
    (if i =? TRAP_SYSCALL then X86_DESC_DPL_USER else X86_DESC_DPL_KERNEL) 1
    (Z.land (Z.shiftr (Z.land (vectors i) 0xffff0000) 16) 0xffff) (Z.land (Z.shiftr (vectors i) 32) 0xffffffff) 0))).

Lemma init_entries_eq tbl vectors is_ : tbl <> NULL -> (forall i, i ∈ is_ -> vectors i <> NULL) -> forall s m,
  mstores (cmem s) (gate_store tbl vectors <$> is_) = Some m ->
  forM is_ (fun i =>
    if i =? TRAP_SYSCALL then init_interrupt_descriptor_table_entry tbl i (vectors i) X86_DESC_DPL_USER true
    else init_interrupt_descriptor_table_entry tbl i (vectors i) X86_DESC_DPL_KERNEL false) s = Ret tt (set_mem s m).
Proof.
  intros Ht. induction is_ as [|i is_ IH]; intros Hv s m E; [injection E as <-; by destruct s|].
  rewrite fmap_cons in E. apply mstores_cons in E as (m1 & E1 & E).
  assert ((if i =? TRAP_SYSCALL then init_interrupt_descriptor_table_entry tbl i (vectors i) X86_DESC_DPL_USER true
    else init_interrupt_descriptor_table_entry tbl i (vectors i) X86_DESC_DPL_KERNEL false) s = Ret tt (set_mem s m1)) as Es.
  { assert ((tbl =? NULL) = false) as Et by by apply Z.eqb_neq. assert ((vectors i =? NULL) = false) as Ev by (apply Z.eqb_neq, Hv; set_solver).
    unfold init_interrupt_descriptor_table_entry. rewrite Et, Ev. unfold gate_store in E1. cbn [fst snd] in E1.
    destruct (i =? TRAP_SYSCALL); exact (store_eq _ _ _ _ E1). }
  rewrite (forM_step _ _ _ _ _ Es). apply (IH ltac:(intros; apply Hv; set_solver) (set_mem s m1) m E).
Qed.

Lemma gate_stored tbl vectors m i : written m (gate_store tbl vectors <$> seqZ 0 NR_TRAPS) -> 0 <= i < NR_TRAPS -> holds m (gate_store tbl vectors i).
Proof.
  intros B Hi. apply (B (gate_store tbl vectors <$> seqZ 0 i) _ (gate_store tbl vectors <$> seqZ (i + 1) (NR_TRAPS - i - 1))).
  - rewrite <-fmap_cons, <-fmap_app. f_equal. replace NR_TRAPS with (i + (NR_TRAPS - i)) at 1 by lia.
    rewrite seqZ_app by lia. rewrite (seqZ_cons (0 + i)) by lia. f_equal; lia.
  - intros w Hw. apply list_elem_of_fmap in Hw as (j & -> & Hj). apply elem_of_seqZ in Hj.
    left. unfold gate_store. cbn [fst snd]. rewrite le_encode_length. lia.
Qed.

(** [x64_init_idt] on a table of 256 gates and non-null handlers: the processor's interrupt table is that table, and each of the 256 vectors is a present gate to its handler in the 64-bit kernel code segment, on the current stack; the vector of system calls is a trap gate that user programs may call, every other one an interrupt gate for the kernel. *)
Theorem x64_init_idt_correct (tbl : Z) (vectors : Z -> Z) (s : cpust) :
  0 < tbl -> mapped (cmem s) tbl 4096 -> (forall i, 0 <= i < NR_TRAPS -> 0 < vectors i < 2 ^ 64) ->
  exists s', x64_init_idt tbl vectors s = Ret tbl s' /\
    (forall i, 0 <= i < NR_TRAPS -> vector s' i = Some (
      if i =? TRAP_SYSCALL then Gate (vectors i) GDT_KERN_CODE64 0 X86_IDT_TRAP_TYPE_ATTR X86_DESC_DPL_USER 1
      else Gate (vectors i) GDT_KERN_CODE64 0 X86_IDT_INTR_TYPE_ATTR X86_DESC_DPL_KERNEL 1)) /\
    (forall i, NR_TRAPS <= i -> vector s' i = None) /\
    (forall i, ~ tbl <= i < tbl + 4096 -> cmem s' !! i = cmem s !! i) /\
    gdtr s' = gdtr s /\ cs s' = cs s /\ ds s' = ds s /\ tr s' = tr s.
Proof.
  intros Ht Hm Hv. set (ws := gate_store tbl vectors <$> seqZ 0 NR_TRAPS).
  assert (forall w, w ∈ ws -> exists i, 0 <= i < NR_TRAPS /\ w = gate_store tbl vectors i) as Hws.
  { intros w Hw. apply list_elem_of_fmap in Hw as (i & -> & Hi). exists i. split; [|done]. apply elem_of_seqZ in Hi. lia. }
  destruct (mstores_ok ws (cmem s)) as (m & E & B & C).
  { intros w Hw i Hi. destruct (Hws w Hw) as (j & Hj & ->). unfold gate_store in Hi. cbn [fst snd] in Hi. rewrite le_encode_length in Hi.
    apply Hm. unfold NR_TRAPS in Hj. lia. }
  eexists. split.
  { unfold x64_init_idt. unfold mbind, M_bind. rewrite (init_entries_eq tbl vectors _ ltac:(unfold NULL; lia)) with (m := m); [reflexivity| |exact E].
    intros i Hi. apply elem_of_seqZ in Hi. pose proof (Hv i ltac:(lia)). unfold NULL. lia. }
  cbn [cmem gdtr cs ds tr set_mem].
  split_and!; [| | |done..].
  - intros i Hi. unfold vector. cbn [idtr snd fst cmem set_mem]. change (wrap 16 (16 * NR_TRAPS - 1)) with 4095. unfold NR_TRAPS in Hi.
    destruct (Z.leb_spec (16 * i + 15) 4095); [|lia].
    rewrite (holds_word m (tbl + 16 * i) 16 _ (gate_stored tbl vectors m i B Hi)) by apply idt_word_range.
    cbn [fmap option_fmap option_map]. pose proof (Hv i Hi). destruct (i =? TRAP_SYSCALL); by rewrite idt_entry_gate by (done || lia).
  - intros i Hi. unfold vector. cbn [idtr snd]. change (wrap 16 (16 * NR_TRAPS - 1)) with 4095. unfold NR_TRAPS in Hi.
    by destruct (Z.leb_spec (16 * i + 15) 4095); [lia|].
  - intros i Hi. apply C. intros w Hw Hc. destruct (Hws w Hw) as (j & Hj & ->). unfold covers, gate_store in Hc. cbn [fst snd] in Hc.
    rewrite le_encode_length in Hc. unfold NR_TRAPS in Hj. lia.
Qed.

(** ** Concrete tables *)

(** A gate of the initial table is present, though its initialiser asks for an
    absent one, and leads to address 0. *)
Lemma idt_tbl_present : length idt_tbl = 4096%nat /\
  forall n, (n < 256)%nat -> gate_of (le_decode (take 16 (drop (16 * n) idt_tbl))) = Gate 0 GDT_KERN_CODE64 0 X86_IDT_INTR_TYPE_ATTR X86_DESC_DPL_KERNEL 1.
Proof.
  split; [vm_compute; done|]. intros n Hn.
  assert (forallb (fun k => bool_decide (take 16 (drop (16 * k) idt_tbl) = take 16 idt_tbl)) (seq 0 256) = true) as E by (vm_compute; done).
  rewrite forallb_forall in E. specialize (E n). apply bool_decide_eq_true in E; [|apply in_seq; lia]. rewrite E. vm_compute. done.
Qed.

Definition blank_cpu : cpust := CpuSt (zero_bytes 8192) (0, 0) 0 0 0 (0, 0).
Lemma blank_mapped a : 0 <= a -> a + 4096 <= 8192 -> mapped (cmem blank_cpu) a 4096.
Proof. intros H0 H1 i Hi. exists 0. apply zero_bytes_at. lia. Qed.

Lemma x64_init_segments_correct_witness : exists s', x64_init_segments 4096 blank_cpu = Ret 5120 s' /\ task_base s' = Some 5120.
Proof.
  destruct (x64_init_segments_correct 4096 blank_cpu) as (s' & E & _ & _ & _ & _ & _ & T & _); [lia|lia|apply blank_mapped; lia|].
  exists s'. split; [exact E|exact T].
Defined.

Lemma x64_init_idt_correct_witness : exists s', x64_init_idt 4096 (fun i => 0xffff800000100000 + 16 * i) blank_cpu = Ret 4096 s' /\
  vector s' 0x90 = Some (Gate 0xffff800000100900 0x20 0 0xf 3 1) /\ vector s' 256 = None.
Proof.
  destruct (x64_init_idt_correct 4096 (fun i => 0xffff800000100000 + 16 * i) blank_cpu) as (s' & E & V & N & _);
    [lia|apply blank_mapped; lia|unfold NR_TRAPS; lia|].
  exists s'. split_and!; [exact E|apply V; unfold NR_TRAPS; lia|apply N; unfold NR_TRAPS; lia].
Defined.
