(* ===== verification/Trap.v ===== *)
(** Interrupts end to end: what the trap handlers of both processors have in
    common (hal/x64/exception.c and timer.c, hal/aarch64/exception.c and timer.c).

    A timer interrupt goes from the trap handler, which counts it in the word of
    the running thread, through the finders and the line of the interrupt
    manager to the handler of the timer, which advances the clock, runs the
    call-outs that are due and charges the running thread.  The lemmas compose
    kern/irq.c, kern/timer.c and kern/sched.c; the controller of the line is an
    interface, [line_cycle], and so are the functions of the call-outs. *)
From S2P Require Import Prelude Bitops KList Kernel ThreadInfo ReadyQueue Sched WaitQueue Timer Irq.

(** ** Computations that return *)

Definition returns {S A} (c : M S A) (s : S) (Q : A -> S -> Prop) : Prop := exists a s', c s = Ret a s' /\ Q a s'.

Lemma returns_ret {S A} (a : A) (s : S) (Q : A -> S -> Prop) : Q a s -> returns (mret a) s Q.
Proof. intros H. by exists a, s. Qed.
Lemma returns_eq {S A} (c : M S A) a (s s' : S) (Q : A -> S -> Prop) : c s = Ret a s' -> Q a s' -> returns c s Q.
Proof. intros E H. by exists a, s'. Qed.
Lemma returns_bind {S A B} (c : M S A) (f : A -> M S B) (s : S) Q :
  returns c s (fun a s' => returns (f a) s' Q) -> returns (a ← c; f a) s Q.
Proof. intros (a & s' & E & b & s'' & E' & HQ). exists b, s''. split; [|done]. mred. by rewrite E. Qed.
Lemma returns_mono {S A} (c : M S A) (s : S) (Q Q' : A -> S -> Prop) : returns c s Q -> (forall a s', Q a s' -> Q' a s') -> returns c s Q'.
Proof. intros (a & s' & E & HQ) H. exists a, s'. auto. Qed.

(** ** What code run inside an interrupt leaves alone *)

Section trap.
Context {X : Type}.
Implicit Types (s : kst X) (cs : list ptr) (q : Z -> list ptr).

Definition irq_layer (l : loc) : Prop :=
  match l with IrqHead _ | HandlerLink _ | FindIrqsHead | FinderLink _ => True | _ => False end.
Definition sched_layer (l : loc) : Prop := match l with RdqHead _ | ThrLink _ => True | _ => False end.

(** Between two states of an interrupt: the running thread, its time slice and
    its nesting counts are the same, a dispatch that was asked for is not
    forgotten, the ready queue is consistent, and the interrupt manager is
    untouched. *)
Record quiet s0 s : Prop := Quiet {
  q_current : current s = current s0;
  q_irqs : irqs s = irqs s0;
  q_handlers : handlers s = handlers s0;
  q_finders : finders s = finders s0;
  q_links : forall l, irq_layer l -> links s !! l = links s0 !! l;
  q_thread : forall th, threads s0 !! current s0 = Some th -> exists th', threads s !! current s0 = Some th' /\
    tinfo th' = tinfo th /\ attr th' = attr th /\ slice th' = slice th;
  q_tinfo : forall p v, tinfos s0 !! p = Some v -> 0 <= preempt v < 2 ^ 64 -> exists v', tinfos s !! p = Some v' /\
    0 <= preempt v' < 2 ^ 64 /\ (forall sh, 0 <= sh <= 16 -> pre_count (preempt v') sh = pre_count (preempt v) sh) /\
    (ti_check_need_dispatch v = 1 -> ti_check_need_dispatch v' = 1);
  q_exists : forall t, is_Some (threads s0 !! t) -> is_Some (threads s !! t);
  q_rdq : (exists q, rdq_inv s0 q) -> exists q, rdq_inv s q }.

#[export] Instance quiet_preorder : PreOrder quiet.
Proof.
  split.
  - intros s. split; eauto 10.
  - intros a b c [A1 A2 A3 A4 A5 A6 A7 A8 A9] [B1 B2 B3 B4 B5 B6 B7 B8 B9]. split; try congruence.
    + intros l Hl. by rewrite B5, A5.
    + intros th Eth. destruct (A6 th Eth) as (t1 & E1 & ? & ? & ?). rewrite <-A1 in E1.
      destruct (B6 t1 E1) as (t2 & E2 & ? & ? & ?). exists t2. rewrite <-A1. split_and!; congruence.
    + intros p v E Hr. destruct (A7 p v E Hr) as (v1 & E1 & R1 & C1 & N1). destruct (B7 p v1 E1 R1) as (v2 & E2 & R2 & C2 & N2).
      exists v2. split_and!; [done|lia|lia|intros sh Hsh; by rewrite C2, C1|auto].
    + auto.
    + auto.
Qed.

Lemma rdq_inv_links s s' q : threads s' = threads s -> bitmap s' = bitmap s ->
  (forall l, sched_layer l -> links s' !! l = links s !! l) -> rdq_inv s q -> rdq_inv s' q.
Proof.
  intros Et Eb El [R B G P]. split; rewrite ?Eb, ?Et; [|done..]. intros p Hp. eapply is_ring_agree; [|by apply R].
  intros y Hy. apply El. set_unfold. destruct Hy as [->|(? & -> & _)]; done.
Qed.

(** Steps that touch neither threads nor the interrupt manager. *)
Lemma quiet_step s s' : current s' = current s -> irqs s' = irqs s -> handlers s' = handlers s -> finders s' = finders s ->
  threads s' = threads s -> tinfos s' = tinfos s -> bitmap s' = bitmap s ->
  (forall l, irq_layer l \/ sched_layer l -> links s' !! l = links s !! l) -> quiet s s'.
Proof.
  intros E1 E2 E3 E4 E5 E6 E7 E8. split; [done..|auto| | |by rewrite E5|].
  - intros th Eth. exists th. by rewrite E5.
  - intros p v E Hr. exists v. rewrite E6. auto.
  - intros [q HI]. exists q. eapply rdq_inv_links; [..|exact HI]; auto.
Qed.

Lemma quiet_ext s x : quiet s (with_ext s x).
Proof. by apply quiet_step. Qed.
Lemma quiet_with_ie s b : quiet s (with_ie s b).
Proof. by apply quiet_step. Qed.
Lemma quiet_own s m n b : (forall l, ~ timer_link l -> m !! l = links s !! l) -> quiet s (with_ie (with_nlocal (with_links s m) n) b).
Proof. intros Hm. apply quiet_step; try done. intros l Hl. apply Hm. intros Ht. by destruct l, Hl. Qed.

(** A step that updates the word of a thread as an inhibited dispatch does, and
    the ready queue. *)
Lemma quiet_delayed s s' p v q : current s' = current s -> irqs s' = irqs s -> handlers s' = handlers s -> finders s' = finders s ->
  threads s' = threads s -> (forall l, irq_layer l -> links s' !! l = links s !! l) -> tinfos s !! p = Some v ->
  tinfos s' = <[p := ti_clr_preempt_active (ti_set_delay_dispatch (ti_set_preempt_active v))]> (tinfos s) -> rdq_inv s' q -> quiet s s'.
Proof.
  intros E1 E2 E3 E4 E5 E6 Ev E7 HI. split; [done..| | |by rewrite E5|eauto].
  - intros th Eth. exists th. by rewrite E5.
  - intros p' v' E' Hr. rewrite E7. destruct (decide (p' = p)) as [->|Hne].
    + simplify_eq. rewrite lookup_insert_eq. destruct (delayed_word v Hr) as (? & ? & ?). eexists. split_and!; [done|lia|lia|done|done].
    + rewrite lookup_insert_ne by done. eauto 10.
Qed.

(** ** The tick *)

Variable call_callout : fptr -> Z -> K X unit.
Variable time_slice : Z.
Variable calls : X -> list (fptr * Z).

(** The running thread is inside [n] interrupts. *)
Definition in_irq s (n : Z) : Prop := exists th v, threads s !! current s = Some th /\ tinfos s !! tinfo th = Some v /\
  0 <= preempt v < 2 ^ 64 /\ pre_count (preempt v) THR_IRQCNT_SHIFT = n.

(** What the functions of call-outs may do inside an interrupt: they record
    their call and are quiet, leave the queue they were called from alone and the
    devices in the states [D]. *)
Definition callouts_quiet (D : X -> Prop) : Prop := forall f a s n, in_irq s n -> 0 < n -> (exists q, rdq_inv s q) -> D (ext s) -> exists s', call_callout f a s = Ret tt s' /\
  calls (ext s') = calls (ext s) ++ [(f, a)] /\ callouts s' = callouts s /\
  (forall l, timer_link l -> links s' !! l = links s !! l) /\ uptime s' = uptime s /\ quiet s s' /\ D (ext s').

(** The handler of a timer interrupt. *)
Definition timer_tick : K X Z :=
  timer_update_uptime call_callout;;
  timer_update_thread_time time_slice;;
  mret IRQ_HANDLED.

Lemma in_irq_quiet s s' n : quiet s s' -> in_irq s n -> in_irq s' n.
Proof.
  intros Hq (th & v & Et & Ev & Hr & Hn). destruct (q_thread _ _ Hq th Et) as (th' & Et' & Eti & _).
  destruct (q_tinfo _ _ Hq _ v Ev Hr) as (v' & Ev' & Hr' & Hc & _). exists th', v'. rewrite (q_current _ _ Hq), Eti, Hc by (unfold THR_IRQCNT_SHIFT; lia). done.
Qed.

(** The clock and the call-outs that are due. *)
Lemma timer_update_uptime_spec (D : X -> Prop) s cs n :
  callouts_quiet D -> D (ext s) -> callout_inv s cs -> links s !! LocalHead (nlocal s) = None -> in_irq s n -> 0 < n -> (exists q, rdq_inv s q) ->
  let s1 := with_uptime s (u64 (uptime s + 1)) in
  returns (timer_update_uptime call_callout) s (fun _ s' =>
    ie s' = ie s /\ uptime s' = uptime s1 /\ calls (ext s') = calls (ext s) ++ (call_of s1 <$> expired s1 cs) /\
    callout_inv s' (pending s1 cs) /\ (forall c, c ∈ expired s1 cs -> is_ring (links s') (CalloutLink c) []) /\ quiet s s' /\ D (ext s')).
Proof.
  intros HC HD HI Hfresh Hn H0 Hq s1.
  assert (quiet s s1) as Q1 by by apply quiet_step.
  destruct (handle_callouts_spec call_callout calls (fun st => quiet s st /\ uptime st = uptime s1 /\ D (ext st))) with (s := s1) (cs := cs)
    as (s' & E & Hie & Hcl & HI' & HR & Q & U & HD'); [| |done|done|done|].
  - intros st m k b Hm [Q U]. split; [|done]. etrans; [exact Q|]. by apply quiet_own.
  - intros f a st (Q & U & Hd). destruct (HC f a st n) as (st' & E & L & C & T & U' & Q' & Hd'); [by eapply in_irq_quiet|done|by apply (q_rdq _ _ Q)|done|].
    exists st'. split_and!; [done..|by etrans|congruence|done].
  - exists tt, s'. split; [|done]. unfold timer_update_uptime, psw_disable_and_save_interrupt, psw_restore_interrupt. mred.
    exact E.
Qed.

(** The time slice of the running thread after a tick, and whether it was the
    last of the slice. *)
Definition charged (t : ptr) (th : thread_t) : bool := negb (t =? idle_thread) && (prio (attr th) =? RDQ_USER_RR_PRIORITY).
Definition slice_over (t : ptr) (th : thread_t) : bool := charged t th && (slice th <=? 1).
Definition next_slice (t : ptr) (th : thread_t) : Z :=
  if slice_over t th then time_slice else if charged t th then slice th - 1 else slice th.

Definition charge s th : kst X := with_threads s (<[current s := with_slice th (next_slice (current s) th)]> (threads s)).

Lemma timer_update_thread_time_spec s th n : threads s !! current s = Some th -> 0 <= slice th -> in_irq s n -> 0 < n -> (exists q, rdq_inv s q) ->
  returns (timer_update_thread_time time_slice) s (fun _ s' =>
    quiet (charge s th) s' /\ ie s' = ie s /\ ext s' = ext s /\ uptime s' = uptime s /\ callouts s' = callouts s /\
    (forall l, timer_link l -> links s' !! l = links s !! l) /\
    (slice_over (current s) th = true -> exists v, tinfos s' !! tinfo th = Some v /\ ti_check_need_dispatch v = 1)).
Proof.
  intros Et Hs (th' & v & Et' & Ev & Hr & Hn) H0 [q HI]. simplify_eq.
  destruct (timer_update_thread_time_correct time_slice s q th HI Et Hs) as (H1 & H2 & H3).
  unfold slice_over, charge, next_slice, slice_over, charged.
  destruct (Z.eqb_spec (current s) idle_thread) as [Hi|Hi]; cbn [negb andb];
    [|destruct (Z.eqb_spec (prio (attr th)) RDQ_USER_RR_PRIORITY) as [Hp|Hp]; cbn [andb]; [destruct (Z.leb_spec (slice th) 1) as [Hl|Hl]|]].
  - exists tt, s. split; [auto|]. replace (with_slice th (slice th)) with th by by destruct th. rewrite insert_id by done. by destruct s.
  - destruct (H3 Hi Hp Hl) as (m & E & Hm & HI'). set (s1 := with_links _ m) in *.
    assert (threads s1 !! current s1 = Some (with_slice th time_slice)) as Et1 by (cbn; by rewrite lookup_insert_eq).
    rewrite (sched_schedule_inhibited s1 (with_slice th time_slice) v Et1) in E;
      [|done|unfold inhibited; apply orb_true_iff; right; lia].
    eexists tt, _. split; [exact E|]. split_and!; [|done|done|done|done| |].
    + apply (quiet_delayed _ _ (tinfo th) v (rdq_upd q RDQ_USER_RR_PRIORITY match q RDQ_USER_RR_PRIORITY with [] => [] | t :: l => l ++ [t] end));
        try done; [|eapply rdq_inv_ext; [..|exact HI']; eauto]. intros l Hll. apply Hm. by destruct l.
    + intros l Hll. apply Hm. by destruct l.
    + intros _. eexists. split; [cbn; by rewrite lookup_insert_eq|]. by apply delayed_word.
  - eexists tt, _. split; [by apply H2|]. done.
  - exists tt, s. split; [auto|]. replace (with_slice th (slice th)) with th by by destruct th. rewrite insert_id by done. by destruct s.
Qed.

Lemma rdq_inv_charge s th q : threads s !! current s = Some th -> rdq_inv (charge s th) q <-> rdq_inv s q.
Proof.
  intros Et. split; apply rdq_inv_ext; [done..| |done|done|]; cbn; intros t th' E.
  - destruct (decide (t = current s)) as [->|]; [rewrite lookup_insert_eq in E; simplify_eq; by eexists|rewrite lookup_insert_ne in E by done; eauto].
  - destruct (decide (t = current s)) as [->|]; [rewrite lookup_insert_eq; simplify_eq; by eexists|rewrite lookup_insert_ne by done; eauto].
Qed.

Lemma quiet_charge s s1 th th1 : quiet s s1 -> threads s !! current s = Some th -> threads s1 !! current s = Some th1 -> quiet (charge s th) (charge s1 th1).
Proof.
  intros Q Et Et1. destruct (q_thread _ _ Q th Et) as (th1' & E1 & Ei & Ea & Es). simplify_eq. pose proof (q_current _ _ Q) as Ec.
  split; try apply Q.
  - cbn. rewrite lookup_insert_eq. intros th' [= <-]. rewrite Ec, lookup_insert_eq. eexists. split_and!; [done|done|done|].
    cbn. unfold next_slice, slice_over, charged. by rewrite Ea, Es.
  - intros t. cbn. rewrite !lookup_insert_is_Some'. intros [<-|Ht]; [by left|right; by apply (q_exists _ _ Q)].
  - intros [q HI]. apply rdq_inv_charge in HI; [|done]. destruct (q_rdq _ _ Q) as [q' HI']; [by exists q|]. exists q'.
    apply rdq_inv_charge; [by rewrite Ec|done].
Qed.

(** Everything a tick does, for the running thread [th]. *)
Definition ticked s cs th s' : Prop :=
  let s1 := with_uptime s (u64 (uptime s + 1)) in
  quiet (charge s th) s' /\ ie s' = ie s /\ uptime s' = u64 (uptime s + 1) /\
  calls (ext s') = calls (ext s) ++ (call_of s1 <$> expired s1 cs) /\ callout_inv s' (pending s1 cs) /\
  (forall c, c ∈ expired s1 cs -> is_ring (links s') (CalloutLink c) []) /\
  (slice_over (current s) th = true -> exists v, tinfos s' !! tinfo th = Some v /\ ti_check_need_dispatch v = 1).

Lemma timer_tick_spec (D : X -> Prop) s cs th n :
  callouts_quiet D -> D (ext s) -> callout_inv s cs -> links s !! LocalHead (nlocal s) = None ->
  threads s !! current s = Some th -> 0 <= slice th -> in_irq s n -> 0 < n -> (exists q, rdq_inv s q) ->
  returns timer_tick s (fun a s' => a = IRQ_HANDLED /\ ticked s cs th s' /\ D (ext s')).
Proof.
  intros HC HD HI Hf Et Hs Hn H0 Hq. apply returns_bind.
  eapply returns_mono; [by apply (timer_update_uptime_spec D s cs n)|]. intros _ s1 (Hie & U & L & HI1 & R1 & Q1 & HD1).
  destruct (q_thread _ _ Q1 th Et) as (th1 & Et1 & Ei & Ea & Es). pose proof (q_current _ _ Q1) as Ec. apply returns_bind.
  eapply returns_mono; [apply (timer_update_thread_time_spec s1 th1 n); [by rewrite Ec|lia|by eapply in_irq_quiet|done|by apply (q_rdq _ _ Q1)]|].
  intros _ s2 (Q2 & Hie2 & E2 & U2 & C2 & T2 & D2). apply returns_ret. split; [done|]. split; [|by rewrite E2]. split_and!.
  - etrans; [by apply (quiet_charge s s1 th th1)|]. exact Q2.
  - congruence.
  - rewrite U2. exact U.
  - rewrite E2. exact L.
  - destruct HI1 as [HR HC1]. split; [|by rewrite C2]. eapply is_ring_agree; [|exact HR]. intros y Hy. apply T2. set_unfold.
    destruct Hy as [->|(? & -> & _)]; done.
  - intros c Hc. eapply is_ring_agree; [|by apply R1]. intros y ->%list_elem_of_singleton. by apply T2.
  - intros Hov. rewrite <-Ei. apply D2. rewrite <-Hov. unfold slice_over, charged. by rewrite Ec, Ea, Es.
Qed.
End trap.

(** ** From the trap to the handler *)

Section dispatch.
Context {X : Type}.
Implicit Types (s : kst X).
Variable ctrlr : ptr -> irq_ctrlr X.
Variable call_handler : fptr -> Z -> ptr -> Z -> K X Z.
Variable call_finder : fptr -> ptr -> K X (Z * Z).
Variable calls : X -> list (fptr * Z).

(** An operation on the hardware: it takes the devices from a state in [P] to
    one in [Q], and touches nothing else. *)
Definition acts {A} (c : K X A) (P : X -> Prop) (Q : A -> X -> Prop) : Prop :=
  forall s, P (ext s) -> exists a x, c s = Ret a (with_ext s x) /\ Q a x /\ calls x = calls (ext s).

(** What [handle_irq_line] needs of the controller of a line of priority [pr]:
    masking the line, or all lines below its priority, and the end of interrupt
    lead from [Open] to [Busy], where the handlers run; they leave the devices in
    [After], and undoing it leads to [Done]. *)
Inductive line_cycle (c : irq_ctrlr X) (irq pr : Z) (Open : X -> Prop) (Busy After : Z -> X -> Prop) (Done : X -> Prop) : Prop :=
| cycle_mask fd fn fe (Masked : X -> Prop) : set_priority c = None -> disable_irq c = Some fd -> enable_irq c = Some fn -> eoi c = Some fe ->
    acts (fd irq) Open (fun _ => Masked) -> acts (fe irq) Masked (fun _ => Busy 0) -> acts (fn irq) (After 0) (fun _ => Done) ->
    line_cycle c irq pr Open Busy After Done
| cycle_prio fg fp fn fe (Got Masked : Z -> X -> Prop) : get_priority c = Some fg -> set_priority c = Some fp -> enable_irq c = Some fn -> eoi c = Some fe ->
    acts fg Open Got -> (forall p, acts (fp pr) (Got p) (fun _ => Masked p)) -> (forall p, acts (fe irq) (Masked p) (fun _ => Busy p)) ->
    (forall p, acts (fp p) (After p) (fun _ => Done)) -> line_cycle c irq pr Open Busy After Done.

(** What the layer keeps of itself across a handler. *)
Record irq_kept s s' : Prop := IrqKept {
  k_irqs : irqs s' = irqs s; k_handlers : handlers s' = handlers s; k_finders : finders s' = finders s;
  k_links : forall l, irq_layer l -> links s' !! l = links s !! l }.

#[local] Instance irq_kept_trans : Transitive irq_kept.
Proof. intros a b c [A1 A2 A3 A4] [B1 B2 B3 B4]. split; try congruence. intros l Hl. by rewrite B4, A4. Qed.
Lemma quiet_kept s s' : quiet s s' -> irq_kept s s'.
Proof. intros []. by split. Qed.

Lemma irq_ring_kept s s' hd xs : irq_kept s s' -> Forall irq_layer (hd :: xs) -> is_ring (links s) hd xs -> is_ring (links s') hd xs.
Proof. intros HK Hf. apply is_ring_agree. intros y Hy. apply HK. rewrite Forall_forall in Hf. by apply Hf. Qed.

Section line.
Variables (irq : Z) (exc : ptr) (h : ptr) (fn : fptr) (priv : Z) (line : irq_line).
Hypothesis nonnull : fn <> NULL.
Hypothesis alone : ctrue (Z.land (iattr line) IRQ_ATTR_NON_NESTABLE) = true.

(** The line has one handler, which is not interrupted. *)
Definition single s : Prop :=
  irqs s !! irq = Some line /\ handlers s !! h = Some (IrqHandlerEnt fn priv) /\ is_ring (links s) (IrqHead irq) [HandlerLink h].

Lemma single_kept s s' : irq_kept s s' -> single s -> single s'.
Proof.
  intros HK (E1 & E2 & E3). unfold single. rewrite (k_irqs _ _ HK), (k_handlers _ _ HK). split_and!; [done..|].
  eapply irq_ring_kept; [exact HK| |exact E3]. by repeat constructor.
Qed.

Lemma invoke_single s (Q : kst X -> Prop) : single s ->
  returns (call_handler fn irq exc priv) (with_ie s false) (fun a s' => a = IRQ_HANDLED /\ irq_kept s s' /\ Q s') ->
  returns (invoke_irq_handler call_handler irq exc) s (fun rc s' => rc = 0 /\ exists s1, irq_kept s s1 /\ Q s1 /\ s' = with_ie s1 (ie s)).
Proof.
  intros (Hline & Hh & HR) (a & s1 & E & -> & HK & HQ). exists 0, (with_ie s1 (ie s)). split; [|eauto].
  assert (1 <= size (handlers s))%nat as Hsz.
  { apply (irq_size s irq [h]). split; [done|]. intros ? ->%list_elem_of_singleton. eauto. }
  unfold invoke_irq_handler, psw_disable_and_save_interrupt, psw_restore_interrupt. mred.
  rewrite (lk_rd_eq _ _ (HandlerLink h)) by (cbn [links with_ie]; rewrite (list_ref_top_ring _ _ _ HR); done). mred. cbn [handlers with_ie].
  destruct (size (handlers s)) as [|k]; [lia|]. cbn [list_iter]. rewrite decide_False by done. mred.
  unfold invoke_one. cbn [handler_of_link]. mred. rewrite (handler_get_eq _ _ (IrqHandlerEnt fn priv)) by done. mred. cbn [handler hprivate].
  rewrite (proj2 (Z.eqb_neq _ _) nonnull). rewrite (line_get_eq _ _ line) by done. mred. rewrite alone. cbn [negb]. mred. rewrite E. mred.
  unfold psw_disable_interrupt. mred.
  assert (is_ring (links s1) (IrqHead irq) [HandlerLink h]) as HR1.
  { eapply irq_ring_kept; [exact HK| |exact HR]. by repeat constructor. }
  rewrite (lk_rd_eq _ _ (IrqHead irq)) by exact (ring_next _ _ [] _ [] HR1). mred. destruct k; cbn [list_iter]; by rewrite decide_True.
Qed.

Variables (Open : X -> Prop) (Busy After : Z -> X -> Prop) (Done : X -> Prop).

(** The line is taken from [Open] to [Busy], the handler runs, and the line is
    given back. *)
Lemma handle_line undef s (Q : kst X -> Prop) : single s -> ctrlrp line <> NULL ->
  line_cycle (ctrlr (ctrlrp line)) irq (iprio line) Open Busy After Done -> Open (ext s) ->
  (forall p x, Busy p x -> calls x = calls (ext s) ->
     returns (call_handler fn irq exc priv) (with_ie (with_ext s x) false) (fun a s' => a = IRQ_HANDLED /\ irq_kept s s' /\ After p (ext s') /\ Q s')) ->
  returns (handle_irq_line ctrlr call_handler undef irq exc) s (fun a s' => a = 0 /\
    exists s1 x, irq_kept s s1 /\ Q s1 /\ Done x /\ calls x = calls (ext s1) /\ s' = with_ie (with_ext s1 x) (ie s)).
Proof.
  intros HS Hcp HC HO Hbody. pose proof HS as (Hline & _).
  assert (forall p x, Busy p x -> calls x = calls (ext s) -> exists s1,
    invoke_irq_handler call_handler irq exc (with_ext (with_ie s false) x) = Ret 0 (with_ie s1 false) /\ irq_kept s s1 /\ After p (ext s1) /\ Q s1) as Hinv.
  { intros p x Hb Hl. destruct (invoke_single (with_ext (with_ie s false) x) (fun s' => irq_kept s s' /\ After p (ext s') /\ Q s') HS)
      as (rc & s' & E & -> & s1 & _ & (HK & HB & HQ) & ->).
    - eapply returns_mono; [exact (Hbody p x Hb Hl)|]. intros a s' (-> & HK & HB & HQ). split_and!; [done| |done..]. by destruct HK.
    - by exists s1. }
  assert (forall x, line_get irq (with_ext (with_ie s false) x) = Ret line (with_ext (with_ie s false) x)) as Hget by (intros x; by apply line_get_eq).
  assert (forall s1, irq_kept s s1 -> line_get irq (with_ie s1 false) = Ret line (with_ie s1 false)) as Hget1.
  { intros s1 HK. apply line_get_eq. cbn. by rewrite (k_irqs _ _ HK). }
  unfold returns, handle_irq_line, line_ctrlr, psw_disable_and_save_interrupt, psw_restore_interrupt, callp. mred.
  rewrite (line_get_eq _ _ line) by done. mred. rewrite (proj2 (Z.eqb_neq _ _) Hcp). cbn [negb].
  destruct HC as [fd fn' fe Masked E1 E2 E3 E4 A1 A2 A3|fg fp fn' fe Got Masked E1 E2 E3 E4 A1 A2 A3 A4].
  - rewrite E1, E2, E3, E4. cbn [present orb andb negb]. mred.
    destruct (A1 (with_ie s false) HO) as ([] & x1 & Ea & M1 & L1). rewrite Ea. mred. rewrite Hget. mred. rewrite E4. mred.
    destruct (A2 (with_ext (with_ie s false) x1) M1) as ([] & x2 & Eb & M2 & L2). rewrite Eb. mred.
    destruct (Hinv 0 x2 M2) as (s1 & Ei & HK & HB & HQ); [etrans; [exact L2|exact L1]|]. change (with_ext (with_ext (with_ie s false) x1) x2) with (with_ext (with_ie s false) x2).
    rewrite Ei. mred. rewrite (Hget1 s1 HK). mred. rewrite E1, E3. cbn [present negb]. mred.
    destruct (A3 (with_ie s1 false) HB) as ([] & x3 & Ec & M3 & L3). rewrite Ec. mred. cbn [Z.eqb].
    eexists _, _. split; [reflexivity|]. split; [done|]. by exists s1, x3.
  - rewrite E1, E2, E3, E4. cbn [present orb andb negb]. rewrite orb_true_r. cbn [andb]. mred.
    destruct (A1 (with_ie s false) HO) as (p & x1 & Ea & M1 & L1). rewrite Ea. mred. rewrite Hget. mred. rewrite E2. mred.
    destruct (A2 p (with_ext (with_ie s false) x1) M1) as ([] & x2 & Eb & M2 & L2). rewrite Eb. mred.
    change (with_ext (with_ext (with_ie s false) x1) x2) with (with_ext (with_ie s false) x2). rewrite Hget. mred. rewrite E4. mred.
    destruct (A3 p (with_ext (with_ie s false) x2) M2) as ([] & x3 & Ec & M3 & L3). rewrite Ec. mred.
    change (with_ext (with_ext (with_ie s false) x2) x3) with (with_ext (with_ie s false) x3).
    destruct (Hinv p x3 M3) as (s1 & Ei & HK & HB & HQ); [etrans; [exact L3|]; etrans; [exact L2|exact L1]|].
    rewrite Ei. mred. rewrite (Hget1 s1 HK). mred. rewrite E2. cbn [present negb]. mred.
    destruct (A4 p (with_ie s1 false) HB) as ([] & x4 & Ed & M4 & L4). rewrite Ed. mred. cbn [Z.eqb].
    eexists _, _. split; [reflexivity|]. split; [done|]. by exists s1, x4.
Qed.

Variables (fs : list ptr) (f0 : ptr) (Pre : X -> Prop).

(** The finders: [f0] finds the interrupt on the line, the others do not. *)
Record finders_ok s : Prop := FindersOk {
  fo_ring : is_ring (links s) FindIrqsHead (FinderLink <$> fs);
  fo_in : f0 ∈ fs;
  fo_fn : forall f, f ∈ fs -> exists g, finders s !! f = Some g /\ g <> NULL;
  fo_found : forall g, finders s !! f0 = Some g -> acts (call_finder g exc) Pre (fun r x => r = (IRQ_FOUND, irq) /\ Open x);
  fo_other : forall f g, f ∈ fs -> f <> f0 -> finders s !! f = Some g ->
    acts (call_finder g exc) Pre (fun r x => r.1 <> IRQ_FOUND /\ Pre x) /\ acts (call_finder g exc) Done (fun r x => r.1 <> IRQ_FOUND /\ Done x) }.

(** What is left when the interrupt has been handled. *)
Definition handled_irq s (Q : kst X -> Prop) (b : bool) s' : Prop :=
  exists s1 x, irq_kept s s1 /\ Q s1 /\ Done x /\ calls x = calls (ext s1) /\ s' = with_ie (with_ext s1 x) b.

Definition finder_walk s Q (dn : list loc) (acc : Z) st : Prop :=
  if decide (FinderLink f0 ∈ dn) then acc = 0 /\ handled_irq s Q false st
  else acc = ESRCH /\ exists x, Pre x /\ calls x = calls (ext s) /\ st = with_ext (with_ie s false) x.

Lemma finder_walk_kept s Q dn acc st : finder_walk s Q dn acc st -> irq_kept s st.
Proof.
  unfold finder_walk. case_decide; [intros [_ (s1 & x & HK & _ & _ & _ & ->)]; by destruct HK|].
  intros [_ (x & _ & _ & ->)]. done.
Qed.

(** The body of the loop of [irq_handle_irq]. *)
Definition find_one undef (lp : loc) (is_handled : Z) : K X Z :=
  p ← finder_of_link lp;
  s ← get; find_pending ← deref (finders s !! p);
  kassert (negb (find_pending =? NULL));;
  r ← call_finder find_pending exc;
  if r.1 =? IRQ_FOUND then
    rc ← handle_irq_line ctrlr call_handler undef r.2 exc;
    mret (if rc =? 0 then 0 else is_handled)
  else mret is_handled.

Lemma find_one_call undef f g acc st r x : finders st !! f = Some g -> g <> NULL -> call_finder g exc st = Ret r (with_ext st x) ->
  find_one undef (FinderLink f) acc st =
    (if r.1 =? IRQ_FOUND then rc ← handle_irq_line ctrlr call_handler undef r.2 exc; mret (if rc =? 0 then 0 else acc) else mret acc) (with_ext st x).
Proof.
  intros Eg Hg E. unfold find_one. cbn [finder_of_link]. mred. rewrite Eg. mred. rewrite (proj2 (Z.eqb_neq _ _) Hg). cbn [negb]. mred. by rewrite E.
Qed.

Lemma find_one_walk undef s Q dn f rest acc st : single s -> finders_ok s -> ctrlrp line <> NULL ->
  line_cycle (ctrlr (ctrlrp line)) irq (iprio line) Open Busy After Done ->
  (forall p x, Busy p x -> calls x = calls (ext s) ->
     returns (call_handler fn irq exc priv) (with_ie (with_ext s x) false) (fun a s' => a = IRQ_HANDLED /\ irq_kept s s' /\ After p (ext s') /\ Q s')) ->
  FinderLink <$> fs = dn ++ FinderLink f :: rest -> finder_walk s Q dn acc st ->
  exists acc' st', find_one undef (FinderLink f) acc st = Ret acc' st' /\ finder_walk s Q (dn ++ [FinderLink f]) acc' st'.
Proof.
  intros HS HF Hcp HC Hbody Efs HW. pose proof (finder_walk_kept _ _ _ _ _ HW) as HK.
  assert (f ∈ fs) as Hin by (assert (FinderLink f ∈ FinderLink <$> fs) as (? & [= <-] & ?)%list_elem_of_fmap by (rewrite Efs; set_solver); done).
  destruct (fo_fn _ HF f Hin) as (g & Eg & Hg). assert (finders st !! f = Some g) as Eg' by by rewrite (k_finders _ _ HK).
  assert (FinderLink f ∉ dn) as Hnd.
  { destruct (fo_ring _ HF) as [HN _]. rewrite Efs in HN. apply NoDup_cons in HN as [_ HN]. apply NoDup_app in HN as (_ & HN & _). set_solver. }
  unfold finder_walk in HW. destruct (decide (f = f0)) as [->|Hne].
  - rewrite (decide_False (P := FinderLink f0 ∈ dn)) in HW by done. destruct HW as [-> (x & HP & Hl & ->)].
    destruct (fo_found _ HF g Eg (with_ext (with_ie s false) x) HP) as (r & x1 & E & [-> HO] & L).
    rewrite (find_one_call undef f0 g _ _ _ x1 Eg' Hg E). cbn [fst snd Z.eqb IRQ_FOUND].
    destruct (handle_line undef (with_ext (with_ie s false) x1) Q) as (a & s' & E' & -> & s1 & x2 & HK1 & HQ & HD & L2 & ->).
    + exact HS. + done. + done. + exact HO.
    + intros p x2 HB L2. eapply returns_mono; [apply (Hbody p x2 HB); etrans; [exact L2|]; etrans; [exact L|exact Hl]|].
      intros a s' (-> & HK' & ? & ?). split_and!; [done| |done..]. by destruct HK'.
    + exists 0. eexists. split; [mred; change (with_ext (with_ext (with_ie s false) x) x1) with (with_ext (with_ie s false) x1); by rewrite E'|].
      unfold finder_walk. rewrite decide_True by set_solver. split; [done|]. exists s1, x2. split_and!; try done. by destruct HK1.
  - destruct (fo_other _ HF f g Hin Hne Eg) as [A1 A2].
    assert (FinderLink f0 ∈ dn ++ [FinderLink f] <-> FinderLink f0 ∈ dn) as Hiff by set_solver.
    case_decide as Hd.
    + destruct HW as [-> (s1 & x & HK1 & HQ & HD & L & ->)]. destruct (A2 (with_ie (with_ext s1 x) false) HD) as (r & x1 & E & [Hr HD1] & L1).
      rewrite (find_one_call undef f g _ _ _ x1 Eg' Hg E), (proj2 (Z.eqb_neq _ _) Hr).
      eexists _, _. split; [done|]. unfold finder_walk. rewrite decide_True by tauto. split; [done|]. exists s1, x1. split_and!; try done. etrans; [exact L1|exact L].
    + destruct HW as [-> (x & HP & L & ->)]. destruct (A1 (with_ext (with_ie s false) x) HP) as (r & x1 & E & [Hr HP1] & L1).
      rewrite (find_one_call undef f g _ _ _ x1 Eg' Hg E), (proj2 (Z.eqb_neq _ _) Hr).
      eexists _, _. split; [done|]. unfold finder_walk. rewrite decide_False by tauto. split; [done|]. exists x1. split_and!; try done. etrans; [exact L1|exact L].
Qed.

(** The whole way of an interrupt through the manager. *)
Lemma irq_handle_single undef s Q : single s -> finders_ok s -> ctrlrp line <> NULL ->
  line_cycle (ctrlr (ctrlrp line)) irq (iprio line) Open Busy After Done -> Pre (ext s) ->
  (forall p x, Busy p x -> calls x = calls (ext s) ->
     returns (call_handler fn irq exc priv) (with_ie (with_ext s x) false) (fun a s' => a = IRQ_HANDLED /\ irq_kept s s' /\ After p (ext s') /\ Q s')) ->
  returns (irq_handle_irq ctrlr call_handler call_finder undef exc) s (fun a s' => a = 0 /\ handled_irq s Q (ie s) s').
Proof.
  intros HS HF Hcp HC HP Hbody.
  destruct (list_iter_spec (finder_walk s Q) FindIrqsHead (FinderLink <$> fs) (find_one undef))
    with (rest := FinderLink <$> fs) (done := @nil loc) (fuel := size (finders s)) (acc := ESRCH) (s := with_ie s false)
    as (acc & s' & E & HW).
  - intros dn acc st HW. eapply irq_ring_kept; [by eapply finder_walk_kept| |apply HF].
    constructor; [done|]. apply Forall_fmap, Forall_forall. done.
  - intros dn x rest acc st Hxs HW. assert (x ∈ FinderLink <$> fs) as (f & -> & _)%list_elem_of_fmap by (rewrite Hxs; set_solver).
    by eapply find_one_walk.
  - done.
  - rewrite length_fmap. pose proof (fo_ring _ HF) as [HN _]. apply NoDup_cons in HN as [_ HN]. apply NoDup_fmap_1 in HN.
    rewrite <-(size_list_to_set (C := gset ptr) fs), <-size_dom by done. apply subseteq_size.
    intros c. rewrite elem_of_list_to_set, elem_of_dom. intros Hc. destruct (fo_fn _ HF c Hc) as (g & Eg & _). eauto.
  - unfold finder_walk. rewrite decide_False by set_solver. split; [done|]. by exists (ext s).
  - unfold finder_walk in HW. rewrite decide_True in HW by (apply list_elem_of_fmap; exists f0; split; [done|apply HF]).
    destruct HW as [-> (s1 & x & HK & HQ & HD & L & ->)]. exists 0, (with_ie (with_ext s1 x) (ie s)). split.
    + unfold irq_handle_irq, psw_disable_and_save_interrupt, psw_restore_interrupt. mred.
      rewrite (lk_rd_eq _ _ (default FindIrqsHead (hd_error (FinderLink <$> fs)))).
      * mred. cbn [finders with_ie]. unfold find_one in E. mred in E. by rewrite E.
      * cbn [links with_ie]. rewrite (list_ref_top_ring _ _ _ (fo_ring _ HF)). by destruct fs.
    + split; [done|]. by exists s1, x.
Qed.
End line.
End dispatch.

(** ** The nesting counts around a handler *)

Lemma counts_bits p p' : (forall sh, 0 <= sh <= 16 -> pre_count p sh = pre_count p' sh) -> forall i, 0 <= i < 24 -> Z.testbit p i = Z.testbit p' i.
Proof.
  intros H i Hi. specialize (H (Z.min i 16) ltac:(lia)). apply (f_equal (fun z => Z.testbit z (i - Z.min i 16))) in H.
  rewrite !pre_count_testbit, bool_decide_true in H by lia. cbn [andb] in H. by replace (i - Z.min i 16 + Z.min i 16) with i in H by lia.
Qed.

Lemma preempt_update_agree p p' sh d : 0 <= p < 2 ^ 64 -> 0 <= p' < 2 ^ 64 -> 0 <= sh <= 16 ->
  (forall sh', 0 <= sh' <= 16 -> pre_count p sh' = pre_count p' sh') ->
  forall sh', 0 <= sh' <= 16 -> pre_count (preempt_update p sh d) sh' = pre_count (preempt_update p' sh d) sh'.
Proof.
  intros Hp Hp' Hs Hc sh' Hs'. apply pre_count_ext; [lia|]. intros i Hi. rewrite !preempt_update_testbit by lia.
  case_bool_decide; [|apply counts_bits; [done|lia]].
  assert (forall q, Z.land (Z.shiftr q sh) 0xff = pre_count q sh) as Hpc.
  { intros q. rewrite pre_count_mod by lia. change 0xff with (Z.ones 8). by rewrite Z.land_ones by lia. }
  by rewrite !Hpc, Hc.
Qed.

Section bracket.
Context {X : Type}.
Implicit Types (s : kst X).

Definition counted s (p : ptr) v (sh d : Z) : kst X :=
  with_tinfos s (<[p := with_preempt v (preempt_update (preempt v) sh d)]> (tinfos s)).

Lemma ti_update_eq s p v sh d : tinfos s !! p = Some v -> ti_update_preempt_count p sh d s = Ret tt (counted s p v sh d).
Proof.
  intros E. unfold ti_update_preempt_count, psw_disable_and_save_interrupt, psw_restore_interrupt. mred.
  rewrite (ti_modify_eq _ _ v) by done. mred. by destruct s.
Qed.

(** Counting a level in and out around quiet code is quiet. *)
Lemma bracket_quiet s0 s p v sh : tinfos s0 !! p = Some v -> 0 <= preempt v < 2 ^ 64 -> 0 <= sh <= 16 -> quiet (counted s0 p v sh 1) s ->
  exists v', tinfos s !! p = Some v' /\ quiet s0 (counted s p v' sh (-1)) /\
    (ti_check_need_dispatch v' = 1 -> ti_check_need_dispatch (with_preempt v' (preempt_update (preempt v') sh (-1))) = 1).
Proof.
  intros Ev Hr Hs Q. destruct (q_tinfo _ _ Q p (with_preempt v (preempt_update (preempt v) sh 1))) as (v' & E' & R' & C' & N').
  { cbn. by rewrite lookup_insert_eq. } { cbn. apply preempt_update_range; lia. }
  exists v'. split; [done|]. split; [|rewrite need_dispatch_update by lia; done]. split; try apply Q.
  - intros p1 v1 E1 R1. cbn. destruct (decide (p1 = p)) as [->|Hne].
    + simplify_eq. rewrite lookup_insert_eq. eexists. split; [done|]. cbn [preempt with_preempt]. split; [apply preempt_update_range; lia|]. split.
      * intros sh' Hs'. rewrite (preempt_update_agree _ (preempt_update (preempt v) sh 1)); [|lia|apply preempt_update_range; lia|lia|exact C'|lia].
        by rewrite preempt_update_roundtrip by lia.
      * intros Hn. rewrite need_dispatch_update by lia. apply N'. by rewrite need_dispatch_update by lia.
    + rewrite lookup_insert_ne by done. apply (q_tinfo _ _ Q p1 v1); [|done]. cbn. by rewrite lookup_insert_ne.
  - intros [q HI]. destruct (q_rdq _ _ Q) as [q' HI']; [exists q; eapply rdq_inv_ext; [..|exact HI]; eauto|].
    exists q'. eapply rdq_inv_ext; [..|exact HI']; eauto.
Qed.
End bracket.

(** ** A timer interrupt *)

Section timer_irq.
Context {X : Type}.
Implicit Types (s : kst X) (cs : list ptr).
Variable ctrlr : ptr -> irq_ctrlr X.
Variable call_handler : fptr -> Z -> ptr -> Z -> K X Z.
Variable call_finder : fptr -> ptr -> K X (Z * Z).
Variable time_slice : Z.
Variable calls : X -> list (fptr * Z).
Variables (irq : Z) (exc : ptr) (h : ptr) (fn : fptr) (priv : Z) (line : irq_line) (fs : list ptr) (f0 : ptr).
Variables (Pre Open : X -> Prop) (Busy After : Z -> X -> Prop) (Done : X -> Prop).

(** The state a tick starts from: consistent queues and the running thread. *)
Record tick_ready s cs th : Prop := TickReady {
  tr_thread : threads s !! current s = Some th;
  tr_slice : 0 <= slice th;
  tr_rdq : exists q, rdq_inv s q;
  tr_callouts : callout_inv s cs;
  tr_local : links s !! LocalHead (nlocal s) = None }.

(** A handler that ticks, from the devices in [Busy] to [After]. *)
Definition ticks : Prop := forall s cs th n p, tick_ready s cs th -> in_irq s n -> 0 < n -> Busy p (ext s) ->
  returns (call_handler fn irq exc priv) s (fun a s' => a = IRQ_HANDLED /\ ticked time_slice calls s cs th s' /\ After p (ext s')).

(** The interrupt is routed to that handler. *)
Record routed s : Prop := Routed {
  ro_line : single irq h fn priv line s;
  ro_fn : fn <> NULL;
  ro_alone : ctrue (Z.land (iattr line) IRQ_ATTR_NON_NESTABLE) = true;
  ro_ctrlr : ctrlrp line <> NULL;
  ro_cycle : line_cycle calls (ctrlr (ctrlrp line)) irq (iprio line) Open Busy After Done;
  ro_finders : finders_ok call_finder calls irq exc Open Done fs f0 Pre s;
  ro_pre : Pre (ext s) }.

Lemma ticked_dev s cs th x b s' : calls x = calls (ext s) -> ticked time_slice calls (with_ie (with_ext s x) b) cs th s' ->
  ticked time_slice calls (with_ie s b) cs th s'.
Proof.
  intros Ex (Q & I & U & L & C & R & N). split_and!; try done; [|etrans; [exact L|]; cbn; by rewrite Ex].
  etrans; [|exact Q]. by apply quiet_step.
Qed.

Lemma timer_interrupt undef s cs th v : ticks -> tick_ready s cs th -> routed s ->
  tinfos s !! tinfo th = Some v -> 0 <= preempt v < 2 ^ 64 -> pre_count (preempt v) THR_IRQCNT_SHIFT < 255 ->
  returns (ti_update_preempt_count (tinfo th) THR_IRQCNT_SHIFT 1;;
           irq_handle_irq ctrlr call_handler call_finder undef exc;;
           ti_update_preempt_count (tinfo th) THR_IRQCNT_SHIFT (-1)) s
    (fun _ s' => ticked time_slice calls s cs th s' /\ Done (ext s')).
Proof.
  intros HT HR HO Ev Hr Hc. pose proof HR as [Et Hs [q HI] HC Hf]. destruct HO as [L1 L2 L3 L4 L5 [F1 F2 F3 F4 F5] L7].
  set (s1 := counted s (tinfo th) v THR_IRQCNT_SHIFT 1).
  assert (in_irq s1 (pre_count (preempt v) THR_IRQCNT_SHIFT + 1)) as Hn.
  { exists th. eexists. split; [done|]. split; [cbn; by rewrite lookup_insert_eq|]. cbn [preempt with_preempt]. pose proof (pre_count_range (preempt v) THR_IRQCNT_SHIFT ltac:(done)).
    split; [apply preempt_update_range; unfold THR_IRQCNT_SHIFT; lia|]. rewrite preempt_update_count by (unfold THR_IRQCNT_SHIFT in *; lia). apply Z.mod_small. lia. }
  assert (forall x, tick_ready (with_ie (with_ext s1 x) false) cs th) as HR1.
  { intros x. split; [done..| |done|done]. exists q. eapply rdq_inv_ext; [..|exact HI]; eauto. }
  destruct (irq_handle_single ctrlr call_handler call_finder calls irq exc h fn priv line L2 L3 Open Busy After Done fs f0 Pre undef s1
    (ticked time_slice calls (with_ie s1 false) cs th)) as (a & s2 & E & -> & s3 & x & HK & HQ & HD & Lx & ->); [exact L1|by split|done|done|exact L7| |].
  { intros p x HB Lx. eapply returns_mono; [apply (HT _ cs th _ p (HR1 x) Hn); [|exact HB]; pose proof (pre_count_range (preempt v) THR_IRQCNT_SHIFT ltac:(done)); lia|].
    intros a s' (-> & Ht & HB'). split; [done|]. split; [|split; [done|by eapply ticked_dev]].
    destruct Ht as (Q & _). apply quiet_kept in Q. by destruct Q. }
  destruct HQ as (Q & I & U & Lc & C & R & N).
  destruct (bracket_quiet (charge time_slice s th) s3 (tinfo th) v THR_IRQCNT_SHIFT) as (v' & Ev' & Q' & Nd); [done|done|unfold THR_IRQCNT_SHIFT; lia|etrans; [|exact Q]; by apply quiet_step|].
  set (s2 := with_ie (with_ext s3 x) (ie s1)) in *.
  apply returns_bind. eapply returns_eq; [by apply ti_update_eq|]. apply returns_bind. eapply returns_eq; [exact E|].
  eapply returns_eq; [by apply (ti_update_eq s2 _ v')|]. split; [|exact HD]. split_and!; try done.
  - etrans; [exact Q'|]. by apply quiet_step.
  - etrans; [exact Lx|exact Lc].
  - intros Hov. destruct (N Hov) as (v2 & E2 & Hv2). eexists. split; [cbn; by rewrite lookup_insert_eq|]. apply Nd. by simplify_eq.
Qed.
End timer_irq.

(** What a tick means for the running thread. *)
Definition tick_result {X} (time_slice : Z) (calls : X -> list (fptr * Z)) (s : kst X) cs th v s' : Prop :=
  let s1 := with_uptime s (u64 (uptime s + 1)) in
  ie s' = ie s /\ current s' = current s /\ uptime s' = u64 (uptime s + 1) /\
  calls (ext s') = calls (ext s) ++ (call_of s1 <$> expired s1 cs) /\ callout_inv s' (pending s1 cs) /\ (exists q, rdq_inv s' q) /\
  exists th' v', threads s' !! current s = Some th' /\ slice th' = next_slice time_slice (current s) th /\
    tinfos s' !! tinfo th = Some v' /\ (forall sh, 0 <= sh <= 16 -> pre_count (preempt v') sh = pre_count (preempt v) sh) /\
    (slice_over (current s) th = true -> ti_check_need_dispatch v' = 1).

Lemma ticked_result {X} time_slice (calls : X -> list (fptr * Z)) s cs th v s' : tick_ready s cs th -> tinfos s !! tinfo th = Some v -> 0 <= preempt v < 2 ^ 64 ->
  ticked time_slice calls s cs th s' -> tick_result time_slice calls s cs th v s'.
Proof.
  intros [Et Hs [q HI] HC Hf] Ev Hv (Q & I & U & L & C & R & N).
  destruct (q_thread _ _ Q (with_slice th (next_slice time_slice (current s) th))) as (th' & Et' & Ei & Ea & Es); [cbn; by rewrite lookup_insert_eq|].
  destruct (q_tinfo _ _ Q (tinfo th) v Ev Hv) as (v' & Ev' & Hv' & Hc' & Hn').
  split_and!; [exact I|exact (q_current _ _ Q)|exact U|exact L|exact C|apply (q_rdq _ _ Q); exists q; by apply rdq_inv_charge|].
  exists th', v'. split_and!; [exact Et'|exact Es|exact Ev'|exact Hc'|]. intros Hov. destruct (N Hov) as (v2 & E2 & H2). by simplify_eq.
Qed.

(** ** Leaving the interrupt *)

Lemma low_counts w : 0 <= w -> pre_count w 0 = 0 -> pre_count w 8 = 0 -> Z.land w 0xffff = 0.
Proof.
  intros Hw H0 H1. rewrite pre_count_mod in H0, H1 by lia. rewrite Z.shiftr_0_r in H0. rewrite Z.shiftr_div_pow2 in H1 by lia.
  change 0xffff with (Z.ones 16). rewrite Z.land_ones by lia. change (2 ^ 16) with (256 * 256). change (2 ^ 8) with 256 in H1.
  rewrite Z.rem_mul_r by lia. lia.
Qed.

Section leave.
Context {X : Type}.
Implicit Types (s : kst X).

(** A dispatch asked for during the interrupt happens when the thread is
    about to go on: the processor goes to the thread the ready queue designates. *)
Lemma delayed_switch s th v q : threads s !! current s = Some th -> tinfos s !! tinfo th = Some v -> 0 <= preempt v < 2 ^ 64 ->
  pre_count (preempt v) THR_PRECNT_SHIFT = 0 -> pre_count (preempt v) THR_IRQCNT_SHIFT = 0 -> ti_check_need_dispatch v = 1 ->
  rdq_inv s q -> is_Some (threads s !! idle_thread) ->
  if decide (sched_next q = current s) then exists s', sched_delay_disptach s = Ret tt s' /\ current s' = current s /\ ie s' = ie s
  else exists s1 k, sched_delay_disptach s = Switch s1 k /\ current s1 = sched_next q /\ ie s1 = false /\ rdq_inv s1 q /\ threads s1 = threads s /\ uptime s1 = uptime s.
Proof.
  intros Et Ev Hr H1 H2 Hn HI Hidle. assert (inhibited (preempt v) = false) as Hi by (unfold inhibited; by rewrite H1, H2).
  rewrite (sched_delay_disptach_eq s th v Et Ev), Hi, Hn. cbn [Z.eqb].
  set (s1 := with_tinfos s _).
  assert (rdq_inv s1 q) as HI1 by (eapply rdq_inv_ext; [..|exact HI]; eauto).
  assert (inhibited (preempt (ti_clr_delay_dispatch v)) = false) as Hi1.
  { unfold inhibited. cbn. unfold THR_PRMPT_CTRL_RESCHED_DELAYED. rewrite !pre_count_clr_flag by (unfold THR_PRECNT_SHIFT, THR_IRQCNT_SHIFT; lia). by rewrite H1, H2. }
  rewrite (sched_schedule_dispatch s1 q th (ti_clr_delay_dispatch v) HI1 Et); [|cbn; by rewrite lookup_insert_eq|done|].
  - change (current s1) with (current s). case_decide; eexists; [|eexists]; split_and!; try done. eapply rdq_inv_ext; [..|exact HI]; eauto.
  - intros _. destruct (sched_next_cases q) as [->|(p & Hp & Hin)]; [done|]. destruct (rq_prio _ _ HI1 p _ Hp Hin) as (th' & E' & _). by exists th'.
Qed.

(** The end of a time slice, seen from the end of the trap. *)
Lemma ticked_switch time_slice (calls : X -> list (fptr * Z)) s cs th v s' b : tick_ready s cs th -> tinfos s !! tinfo th = Some v -> 0 <= preempt v < 2 ^ 64 ->
  (forall sh, sh = 0 \/ sh = 8 \/ sh = 16 -> pre_count (preempt v) sh = 0) -> is_Some (threads s !! idle_thread) -> slice_over (current s) th = true ->
  ticked time_slice calls s cs th s' ->
  exists th' v' q, threads s' !! current s' = Some th' /\ tinfos s' !! tinfo th' = Some v' /\ Z.land (preempt v') 0xffff = 0 /\ rdq_inv s' q /\
    if decide (sched_next q = current s) then exists s2, sched_delay_disptach (with_ie s' b) = Ret tt s2 /\ current s2 = current s /\ ie s2 = b
    else exists s1 k, sched_delay_disptach (with_ie s' b) = Switch s1 k /\ current s1 = sched_next q /\ ie s1 = false /\ rdq_inv s1 q /\ uptime s1 = uptime s'.
Proof.
  intros [Et Hs [q0 HI0] HC Hf] Ev Hv Hc Hidle Hov (Q & I & U & L & C & R & N).
  destruct (q_thread _ _ Q (with_slice th (next_slice time_slice (current s) th))) as (th' & Et' & Ei & Ea & Es); [cbn; by rewrite lookup_insert_eq|].
  destruct (q_tinfo _ _ Q (tinfo th) v Ev Hv) as (v' & Ev' & Hv' & Hc' & _). destruct (N Hov) as (v2 & E2 & Hn). simplify_eq. cbn in Ei.
  destruct (q_rdq _ _ Q) as [q HI]; [exists q0; by apply rdq_inv_charge|]. pose proof (q_current _ _ Q) as Ec. cbn in Ec, Et'.
  pose proof (delayed_switch (with_ie s' b) th' v' q) as HS. unfold THR_PRECNT_SHIFT, THR_IRQCNT_SHIFT in HS. rewrite !Hc', !Hc in HS by (auto; lia).
  specialize (HS ltac:(cbn; by rewrite Ec) ltac:(cbn; by rewrite Ei) Hv' eq_refl eq_refl Hn ltac:(eapply rdq_inv_ext; [..|exact HI]; eauto)).
  specialize (HS ltac:(apply (q_exists _ _ Q); cbn; apply lookup_insert_is_Some'; by right)). cbn [current with_ie] in HS. rewrite Ec in HS.
  exists th', v', q. split_and!; [by rewrite Ec|by rewrite Ei|apply low_counts; rewrite ?Hc', ?Hc by (auto; lia); (done || lia)|done|].
  case_decide; [exact HS|]. destruct HS as (s1 & k & E3 & Hcur & Hi & HI2 & _ & U2). by exists s1, k.
Qed.
End leave.

(** ** A concrete interrupt

    The state of [demo_timer] with a line 4 whose only handler is at 60, and one
    finder at 70.  The controller of [demo_ctrlr] needs no device; functions
    record their calls. *)
Definition demo_tick_links : gmap loc (node loc) :=
  <[IrqHead 4 := Node (HandlerLink 60) (HandlerLink 60)]> (<[HandlerLink 60 := Node (IrqHead 4) (IrqHead 4)]>
  (<[FindIrqsHead := Node (FinderLink 70) (FinderLink 70)]> (<[FinderLink 70 := Node FindIrqsHead FindIrqsHead]> demo_timer_links))).
Definition demo_line : irq_line := IrqLine 4 3 0 0x900.
Definition demo_running : thread_t := Thread 0 1 0x2000 0 (ThreadAttr 0 0 0 0) 1 [].
Definition demo_tick : kst (list (Z * Z)) :=
  Kst demo_tick_links false (threads demo_timer) {[0x2000 := ThreadInfo 0 100 THR_THREAD_INFO_MAGIC]} 100 0 ∅ ∅ ∅ 6 (callouts demo_timer)
    {[4 := demo_line]} {[60 := IrqHandlerEnt 9 1]} {[70 := 8]} [] 0 [].

Definition demo_finder (f : fptr) (exc : ptr) : K (list (Z * Z)) (Z * Z) := mret (IRQ_FOUND, 4).

Lemma demo_tick_ready : tick_ready demo_tick [50; 51] demo_running.
Proof.
  split; [done|done| | |done].
  - exists (fun _ => []). split; [|intros p Hp; by rewrite Z.bits_0|cbn; lia|by intros p t _ Ht%elem_of_nil].
    apply demo_heads. repeat (constructor; [ring_decide|]). constructor.
  - split; [ring_decide|]. intros c Hc. rewrite !elem_of_cons in Hc. destruct Hc as [->|[->|Hc]]; [by eexists..|by apply elem_of_nil in Hc].
Qed.

Lemma demo_call_quiet D : (forall x, D x) -> callouts_quiet demo_call (fun l => l) D.
Proof. intros HD f a s n _ _ _ _. eexists. split_and!; try done. apply quiet_ext. Qed.

Lemma demo_routed irq exc : irq = 4 -> let any := fun _ : list (Z * Z) => True in
  routed demo_ctrlr demo_finder (fun l => l) irq exc 60 9 1 demo_line [70] 70 any any (fun _ => any) (fun _ => any) any demo_tick.
Proof.
  intros -> any. split; [|done|done|done| | |done].
  - split_and!; [done|done|ring_decide].
  - eapply (cycle_mask _ _ _ _ _ _ _ _ (fun _ => mret tt) (fun _ => mret tt) (fun _ => mret tt) any); try done;
      (intros s _; exists tt, (ext s); by destruct s).
  - split; [ring_decide|set_solver| | |].
    + intros f ->%list_elem_of_singleton. by exists 8.
    + intros g _ s _. exists (IRQ_FOUND, 4), (ext s). by destruct s.
    + intros f g ->%list_elem_of_singleton. done.
Qed.
