(* ===== verification/CharIo.v ===== *)
(** The loops that the console drivers hal/x64/console.c and
    hal/aarch64/console.c have in common: wait until the device is ready, one
    character at a time, and the interrupt handler's wake-ups.

    [ready] tests the status register, [recv] and [send] access the data
    register; the threads that wait are in the queue [wq].  The [while] loop is
    bounded by [fuel]; one round is enough when a thread is woken only when the
    device is ready. *)
From S2P Require Import Prelude Bitops KList Kernel ThreadInfo ReadyQueue Sched WaitQueue Timer Thread Irq Trap.

Section chario.
Context {X : Type}.
Variable fuel : nat.

(** [while( !ready ) { ... reason = wque_wait_on_queue(wq); ... }] *)
Fixpoint wait_ready (fuel : nat) (ready : K X bool) (wq : wqp) : K X unit :=
  b ← ready;
  if (b : bool) then mret tt
  else match fuel with
       | O => stopM OutOfFuel
       | S fuel =>
           psw ← psw_disable_and_save_interrupt;
           reason ← wque_wait_on_queue wq;
           psw_restore_interrupt psw;;
           kassert (reason =? WQUE_REASON_WAKEUP);;
           wait_ready fuel ready wq
       end.

(** [( r == '\r' ) ? ( '\n' ) : ( r )] *)
Definition newline (r : Z) : Z := if r =? 13 then 10 else r.

(** The characters stored at [dst]. *)
Fixpoint read_chars (ready : K X bool) (recv : K X Z) (wq : wqp) (remains : nat) : K X (list Z) :=
  match remains with
  | O => mret []
  | S remains =>
      wait_ready fuel ready wq;;
      r ← recv;
      cs ← read_chars ready recv wq remains;
      mret (newline r :: cs)
  end.

(** [cp] walks over [src]; behind its end there is nothing. *)
Fixpoint write_chars (ready : K X bool) (send : Z -> K X unit) (wq : wqp) (src : list Z) (remains : nat) : K X unit :=
  match remains with
  | O => mret tt
  | S remains =>
      wait_ready fuel ready wq;;
      c ← deref (head src);
      send c;;
      write_chars ready send wq (tail src) remains
  end.

(** ** What the loops do *)

Implicit Types (s : kst X).
(** [dev] are the states in which the device is set up. *)
Variables (dev : X -> Prop) (rdy : X -> bool) (log : X -> list Z).

(** The test reports the device's state, which stays ready until it is used. *)
Definition tests (ready : K X bool) : Prop := forall s, dev (ext s) -> exists b x, ready s = Ret b (with_ext s x) /\
  (rdy (ext s) = true -> b = true) /\ (b = true -> rdy x = true) /\ log x = log (ext s) /\ dev x.

(** The processor is given up to another thread, with interrupts disabled. *)
Definition gives_up (t : ptr) s : Prop := ie s = false /\ current s <> t.
(** The thread is woken, by a wake-up; meanwhile nobody used the device in its
    direction.  Unless wake-ups may be [early], the device is ready. *)
Definition woken_ready (early : bool) wq (t ti : ptr) s s' : Prop :=
  woken_from wq t ti s s' /\ wq_reason s' !! wq = Some WQUE_REASON_WAKEUP /\ log (ext s') = log (ext s) /\ dev (ext s') /\
  (early = false -> rdy (ext s') = true).
(** Only with early wake-ups the rounds may not be enough. *)
Definition tired (early : bool) (w : stop) : Prop := w = OutOfFuel /\ early = true.

Section loops.
Variables (early : bool) (wq : wqp) (t ti : ptr) (ready : K X bool).
Hypothesis Hready : tests ready.

Local Abbreviation wpc := (wp (tired early) (gives_up t) (woken_ready early wq t ti)).

Lemma wait_ready_wp n s : dev (ext s) -> can_wait s wq t ti -> (early = false -> rdy (ext s) = true \/ (0 < n)%nat) ->
  wpc (wait_ready n ready wq s) (fun _ s' => rdy (ext s') = true /\ log (ext s') = log (ext s) /\ dev (ext s') /\ can_wait s' wq t ti /\ ie s' = ie s).
Proof.
  revert s. induction n as [|n IH]; intros s HD HW Hn; destruct (Hready s HD) as (b & x & E & Hb & Hx & HL & HDx); cbn [wait_ready];
    rewrite (bind_ret _ _ _ _ _ E); (destruct b; [cbn; split_and!; [auto|done|done|by apply (can_wait_dev x (ie s)) in HW; destruct s|done]|]).
  - cbn. split; [done|]. destruct early; [done|]. destruct (Hn eq_refl) as [Hr|]; [|lia]. by specialize (Hb Hr).
  - unfold psw_disable_and_save_interrupt, psw_restore_interrupt. mred.
    destruct (wque_wait_returns (with_ie (with_ext s x) false) wq t ti) as (s1 & k & E1 & Hie & Hc & _ & Hx1 & Hk); [by apply can_wait_dev|].
    rewrite E1. cbn. split; [done|]. intros s' (Hw & Hr & HL' & HD' & Hrdy). destruct (Hk s' Hw) as (r & s2 & Hr2 & -> & HW2 & _ & _ & Hx2 & _).
    simplify_eq. cbn. rewrite Hx1 in HL'. cbn in HL'. eapply wp_mono; [|apply IH].
    + cbn. intros _ s3 (H1 & H2 & H3 & H4 & H5). split_and!; [done| |done..]. rewrite H2, Hx2. congruence.
    + cbn. by rewrite Hx2.
    + apply (can_wait_dev (ext s2) (ie s)) in HW2. by destruct s2.
    + intros He. left. cbn. rewrite Hx2. auto.
Qed.

Lemma read_chars_wp recv n s : (early = false -> (0 < fuel)%nat) ->
  (forall s, dev (ext s) -> rdy (ext s) = true -> exists r x, recv s = Ret r (with_ext s x) /\ log x = log (ext s) ++ [r] /\ dev x) ->
  dev (ext s) -> can_wait s wq t ti ->
  wpc (read_chars ready recv wq n s) (fun cs s' => ie s' = ie s /\ dev (ext s') /\ can_wait s' wq t ti /\
    exists raw, length raw = n /\ log (ext s') = log (ext s) ++ raw /\ cs = newline <$> raw).
Proof.
  intros Hf Hrecv. revert s. induction n as [|n IH]; intros s HD HW.
  { cbn. split_and!; [done..|]. exists []. by rewrite app_nil_r. }
  cbn [read_chars]. apply wp_bind. eapply wp_mono; [|apply wait_ready_wp; auto]. intros [] s1 (Hr & HL & HD1 & HW1 & Hie).
  destruct (Hrecv s1 HD1 Hr) as (r & x & E & HLx & HDx). rewrite (bind_ret _ _ _ _ _ E). apply wp_bind. eapply wp_mono; [|apply IH].
  - cbn. intros cs s2 (Hie2 & HD2 & HW2 & raw & Hn & HL2 & ->). split_and!; [congruence|done|done|]. exists (r :: raw).
    split_and!; [by cbn; rewrite Hn| |done]. cbn in HL2. rewrite HL2, HLx, HL, <-app_assoc. done.
  - done.
  - apply (can_wait_dev x (ie s1)) in HW1. by destruct s1.
Qed.

Lemma write_chars_wp send (out : Z -> Z) n src s : (early = false -> (0 < fuel)%nat) ->
  (forall c s, dev (ext s) -> rdy (ext s) = true -> exists x, send c s = Ret tt (with_ext s x) /\ log x = log (ext s) ++ [out c] /\ dev x) ->
  dev (ext s) -> can_wait s wq t ti -> (n <= length src)%nat ->
  wpc (write_chars ready send wq src n s) (fun _ s' => ie s' = ie s /\ dev (ext s') /\ can_wait s' wq t ti /\ log (ext s') = log (ext s) ++ (out <$> take n src)).
Proof.
  intros Hf Hsend. revert src s. induction n as [|n IH]; intros src s HD HW Hn.
  { cbn. rewrite app_nil_r. done. }
  destruct src as [|c src]; [cbn in Hn; lia|].
  cbn [write_chars]. apply wp_bind. eapply wp_mono; [|apply wait_ready_wp; auto]. intros [] s1 (Hr & HL & HD1 & HW1 & Hie).
  destruct (Hsend c s1 HD1 Hr) as (x & E & HLx & HDx). cbn [head tail]. rewrite (bind_ret (deref (Some c)) _ _ c s1 eq_refl), (bind_ret _ _ _ _ _ E). eapply wp_mono; [|apply IH].
  - cbn. intros _ s2 (Hie2 & HD2 & HW2 & HL2). split_and!; [congruence|done|done|]. rewrite HL2, HLx, HL, <-app_assoc. done.
  - done.
  - apply (can_wait_dev x (ie s1)) in HW1. by destruct s1.
  - cbn in Hn. lia.
Qed.
End loops.
End chario.

(** ** Waking up inside an interrupt *)

Section wake.
Context {X : Type}.
Implicit Types (s : kst X) (q : Z -> list ptr).

(** A thread that does not wait runs, and the scheduler is inhibited. *)
Record in_handler s q th v : Prop := InHandler {
  ih_rdq : rdq_inv s q;
  ih_thr : threads s !! current s = Some th;
  ih_run : status th <> THR_TSTATE_WAIT;
  ih_ti : tinfos s !! tinfo th = Some v;
  ih_word : 0 <= preempt v < 2 ^ 64;
  ih_inh : inhibited (preempt v) = true }.

Lemma in_handler_dev x b s q th v : in_handler s q th v -> in_handler (with_ext (with_ie s b) x) q th v.
Proof. intros [HI ? ? ? ? ?]. split; try done. eapply rdq_inv_ext; [..|exact HI]; eauto. Qed.
Lemma wait_inv_dev x b s wq es ts : wait_inv s wq es ts -> wait_inv (with_ext (with_ie s b) x) wq es ts.
Proof. by intros []. Qed.

(** Every thread of [ts] has been made ready, in order, a dispatch is asked for
    when there was one, and other queues are as they were. *)
Record all_woken s q th v wq (ts : list ptr) s' : Prop := AllWoken {
  aw_handler : exists v', in_handler s' (rdq_enqueue s q ts) th v' /\ (forall sh, 0 <= sh <= 16 -> pre_count (preempt v') sh = pre_count (preempt v) sh) /\
    (ti_check_need_dispatch v = 1 \/ ts <> [] -> ti_check_need_dispatch v' = 1);
  aw_queue : wait_inv s' wq [] [];
  aw_other : forall wq' es' ts', wq' <> wq -> ts' ## ts -> wait_inv s wq' es' ts' -> wait_inv s' wq' es' ts';
  aw_threads : woken (threads s) ts (threads s');
  aw_ie : ie s' = ie s; aw_ext : ext s' = ext s; aw_current : current s' = current s }.

Lemma wait_inv_kept s s' q wq es ts wq' es' ts' : rdq_inv s q -> wait_inv s wq es ts -> wq' <> wq -> ts' ## ts ->
  (forall y, wake_keeps wq q es ts y -> links s' !! y = links s !! y) -> (forall e, e ∉ es -> wqe_thr s' !! e = wqe_thr s !! e) ->
  woken (threads s) ts (threads s') -> wait_inv s wq' es' ts' -> wait_inv s' wq' es' ts'.
Proof.
  intros HI [R _ _ _] Hne Hd HK HV HW [R' T' N' S'].
  assert (forall e, e ∈ es' -> e ∉ es) as Hes.
  { intros e He He'. apply (rings_disjoint _ _ _ _ _ (WqeLink e) R R'); [set_solver..|congruence|set_solver|set_solver]. }
  assert (forall y, y = WqHead wq' \/ y ∈ WqeLink <$> es' -> links s' !! y = links s !! y) as HK'.
  { intros y [->|(e & -> & He)%list_elem_of_fmap]; apply HK; cbn; auto. }
  split; [| |done|].
  - eapply is_ring_agree; [|exact R']. intros y Hy. apply HK'. by rewrite <-elem_of_cons.
  - apply Forall2_same_length_lookup. split; [by eapply Forall2_length|]. intros i e t He Ht.
    pose proof (Forall2_lookup_lr _ _ _ _ _ _ T' He Ht) as Hw. apply list_elem_of_lookup_2 in He. rewrite HV; auto.
  - intros t Ht. destruct (S' t Ht) as [St (th & Eth & Hst & Hp)]. split.
    + eapply is_ring_agree; [|exact St]. intros y ->%list_elem_of_singleton. apply HK. split; [set_solver|].
      intros p Hp'. by eapply sleeping_not_ready.
    + exists th. rewrite HW, decide_False by set_solver. done.
Qed.

Lemma in_handler_same s q th v : in_handler s q th v -> in_handler s (rdq_enqueue s q []) th v.
Proof.
  intros [HI ? ? ? ? ?]. split; try done. eapply rdq_inv_proper; [|exact HI]. intros p _. unfold rdq_enqueue. by rewrite filter_nil, app_nil_r.
Qed.

Lemma wakeup_in_handler s q th v wq es ts : in_handler s q th v -> wait_inv s wq es ts ->
  returns (wque_wakeup wq WQUE_REASON_WAKEUP) s (fun _ => all_woken s q th v wq ts).
Proof.
  intros HH HW. pose proof HH as [HI Et Hrun Ev Hv Hinh].
  assert (current s ∉ ts) as Hcur.
  { intros Hc. destruct (wi_sleep _ _ _ _ HW _ Hc) as [_ (th' & Eth' & Hst & _)]. by simplify_eq. }
  destruct (decide (ts = [])) as [->|Hts].
  { pose proof (Forall2_length _ _ _ (wi_thr _ _ _ _ HW)) as HL. destruct es; [|done].
    exists tt, s. split; [by eapply wque_wakeup_empty|]. split; try done.
    exists v. split_and!; [|done|tauto]. by apply in_handler_same. }
  destruct (wque_wakeup_eq s q wq es ts WQUE_REASON_WAKEUP) as (m & b & thrs & w & E & HI1 & R1 & W1 & K1 & V1); [done..|].
  set (s1 := with_wq_reason _ _) in *. cbv zeta in *. destruct (delayed_word v Hv) as (Hv1 & Hpc & Hnd).
  assert (threads s1 !! current s1 = Some th) as Et1 by (cbn; by rewrite W1, decide_False).
  rewrite (sched_schedule_inhibited s1 th v) in E by done. cbn [run_bind] in E.
  eexists tt, _. split; [exact E|]. split; try done.
  - eexists. split_and!; [|exact Hpc|done]. split; cbn; [|done|done|by rewrite lookup_insert_eq|done|].
    + eapply rdq_inv_ext; [..|exact HI1]; eauto.
    + unfold inhibited in *. rewrite !Hpc by (unfold THR_PRECNT_SHIFT, THR_IRQCNT_SHIFT; lia). done.
  - split; [exact R1|constructor|constructor|set_solver].
  - intros wq' es' ts' Hne Hd HW'. eapply (wait_inv_kept s _ q wq es ts); [done..|exact K1|exact V1|exact W1|done].
Qed.

Lemma bind_seq {A B C} (a : K X A) (b : K X B) (c : K X C) s x s' : (a;; b) s = Ret x s' -> (a;; b;; c) s = c s'.
Proof. mred. destruct (a s) as [y s1|w|s1 k]; cbn; [|done|done]. by intros ->. Qed.

(** The two wake-ups of a console's interrupt handler. *)
Definition wake_consoles (rx tx : bool) : K X unit :=
  when rx (wque_wakeup WqConsRx WQUE_REASON_WAKEUP);; when tx (wque_wakeup WqConsTx WQUE_REASON_WAKEUP).

Definition chosen (b : bool) (ts : list ptr) : list ptr := if b then ts else [].
(** One of them, when it takes place. *)
Lemma wake_when (c : bool) s q th v wq es ts : in_handler s q th v -> wait_inv s wq es ts ->
  returns (when c (wque_wakeup wq WQUE_REASON_WAKEUP)) s (fun _ s' =>
    (exists v', in_handler s' (rdq_enqueue s q (chosen c ts)) th v' /\ (forall sh, 0 <= sh <= 16 -> pre_count (preempt v') sh = pre_count (preempt v) sh) /\
      (ti_check_need_dispatch v = 1 \/ chosen c ts <> [] -> ti_check_need_dispatch v' = 1)) /\
    (if c then wait_inv s' wq [] [] else wait_inv s' wq es ts) /\
    (forall wq' es' ts', wq' <> wq -> ts' ## ts -> wait_inv s wq' es' ts' -> wait_inv s' wq' es' ts') /\
    woken (threads s) (chosen c ts) (threads s') /\ ie s' = ie s /\ ext s' = ext s /\ current s' = current s).
Proof.
  intros HH HW. destruct c.
  - eapply returns_mono; [by apply (wakeup_in_handler s q th v wq es ts)|]. by intros [] s' [H1 H2 H3 H4 H5 H6 H7].
  - apply returns_ret. split_and!; try done.
    exists v. split_and!; [by apply in_handler_same|done|cbn; tauto].
Qed.

Lemma prio_of_woken s s' ts t : woken (threads s) ts (threads s') -> prio_of s' t = prio_of s t.
Proof. intros HW. unfold prio_of. rewrite HW. case_decide; [|done]. by destruct (threads s !! t). Qed.

Lemma enqueue_twice s s1 q A B th v s' : woken (threads s) A (threads s1) -> in_handler s' (rdq_enqueue s1 (rdq_enqueue s q A) B) th v -> in_handler s' (rdq_enqueue s q (A ++ B)) th v.
Proof.
  intros HW [HI ? ? ? ? ?]. split; try done. eapply rdq_inv_proper; [|exact HI]. intros p _. unfold rdq_enqueue. rewrite filter_app, app_assoc. f_equal.
  apply list_filter_iff. intros t. by rewrite (prio_of_woken s s1 A).
Qed.

Lemma woken_twice thrs A B thrs1 thrs2 : woken thrs A thrs1 -> woken thrs1 B thrs2 -> woken thrs (A ++ B) thrs2.
Proof.
  intros H1 H2 t. rewrite H2, H1. destruct (decide (t ∈ A)), (decide (t ∈ B));
    [rewrite decide_True by set_solver; by destruct (thrs !! t)|rewrite decide_True by set_solver; done|rewrite decide_True by set_solver; done|rewrite decide_False by set_solver; done].
Qed.

Lemma wake_consoles_spec rx tx s q th v es1 ts1 es2 ts2 : in_handler s q th v -> wait_inv s WqConsRx es1 ts1 -> wait_inv s WqConsTx es2 ts2 -> ts1 ## ts2 ->
  let W := chosen rx ts1 ++ chosen tx ts2 in
  returns (wake_consoles rx tx) s (fun _ s' =>
    (exists v', in_handler s' (rdq_enqueue s q W) th v' /\ (forall sh, 0 <= sh <= 16 -> pre_count (preempt v') sh = pre_count (preempt v) sh) /\
      (W <> [] -> ti_check_need_dispatch v' = 1)) /\
    wait_inv s' WqConsRx (chosen (negb rx) es1) (chosen (negb rx) ts1) /\ wait_inv s' WqConsTx (chosen (negb tx) es2) (chosen (negb tx) ts2) /\
    woken (threads s) W (threads s') /\ ie s' = ie s /\ ext s' = ext s /\ current s' = current s).
Proof.
  intros HH H1 H2 Hd W. apply returns_bind. eapply returns_mono; [by apply (wake_when rx s q th v WqConsRx es1 ts1)|].
  intros [] s1 ((v1 & HH1 & P1 & N1) & Q1 & O1 & W1 & I1 & X1 & C1).
  eapply returns_mono; [apply (wake_when tx s1 (rdq_enqueue s q (chosen rx ts1)) th v1 WqConsTx es2 ts2); [done|]; apply O1; [done|set_solver|done]|].
  intros [] s2 ((v2 & HH2 & P2 & N2) & Q2 & O2 & W2 & I2 & X2 & C2). split_and!; try congruence.
  - exists v2. split_and!; [by eapply enqueue_twice|intros sh Hsh; by rewrite P2, P1|].
    intros HW. apply N2. destruct (chosen rx ts1); [by right|]. left. apply N1. by right.
  - destruct rx; (apply O2; [done|set_solver|done]).
  - by destruct tx.
  - by eapply woken_twice.
Qed.
End wake.

(** ** A concrete console

    Thread 100 runs; thread 101 waits for a character; nobody waits to send. *)
Definition demo_char_links : gmap loc (node loc) :=
  <[RdqHead 2 := Node (ThrLink 100) (ThrLink 100)]>
  (<[ThrLink 100 := Node (RdqHead 2) (RdqHead 2)]>
  (<[WqHead WqConsRx := Node (WqeLink 7) (WqeLink 7)]>
  (<[WqHead WqConsTx := Node (WqHead WqConsTx) (WqHead WqConsTx)]>
  (<[WqeLink 7 := Node (WqHead WqConsRx) (WqHead WqConsRx)]> demo_links)))).

(** [word] is the word of the running thread. *)
Definition demo_char {X} (word : Z) (x : X) : kst X :=
  Kst demo_char_links true (threads demo_wait)
    (<[0x1000 := ThreadInfo 0 1 THR_THREAD_INFO_MAGIC]>
    (<[0x2000 := ThreadInfo word 100 THR_THREAD_INFO_MAGIC]>
      {[0x3000 := ThreadInfo 0 101 THR_THREAD_INFO_MAGIC]}))
    100 4 (<[WqConsTx := 0]> {[WqConsRx := 0]}) {[7 := 101]} ∅ 0 ∅ ∅ ∅ ∅ [] 8 x.
Definition demo_char_thread : thread_t := Thread 0 1 0x2000 0 (ThreadAttr 0 0 0 2) 10 [].

Lemma demo_char_rdq {X} w (x : X) : rdq_inv (demo_char w x) demo_wait_q.
Proof.
  destruct demo_wait_rdq as [_ B G P]. split; try done. apply demo_heads. repeat (constructor; [ring_decide|]). constructor.
Qed.

Lemma demo_char_rx {X} w (x : X) : wait_inv (demo_char w x) WqConsRx [7] [101].
Proof.
  split; [ring_decide|by repeat constructor|apply NoDup_singleton|].
  intros t ->%list_elem_of_singleton. split; [ring_decide|]. by eexists.
Qed.
Lemma demo_char_tx {X} w (x : X) : wait_inv (demo_char w x) WqConsTx [] [].
Proof. split; [ring_decide|constructor|constructor|set_solver]. Qed.

Lemma demo_char_wait {X} (x : X) wq : wq = WqConsRx \/ wq = WqConsTx -> can_wait (demo_char 0 x) wq 100 0x2000.
Proof.
  intros [-> | ->]; eexists demo_wait_q, _, _, demo_char_thread, (ThreadInfo 0 100 THR_THREAD_INFO_MAGIC), [], [];
    (split; [done|apply demo_char_rdq|(apply demo_char_rx || apply demo_char_tx)|done..|by eexists|done|done]).
Qed.

(** Inside one interrupt. *)
Lemma demo_char_handler {X} (x : X) : in_handler (demo_char 0x100 x) demo_wait_q demo_char_thread (ThreadInfo 0x100 100 THR_THREAD_INFO_MAGIC).
Proof. split; [apply demo_char_rdq|done|done|done|split; done|done]. Qed.
