(* ===== verification/X64Trap.v ===== *)
(** hal/x64/exception.c, hal/x64/timer.c and hal/x64/traps.S: traps of the x64
    processor and its timer interrupt.

    [frames] gives the exception frame at an address on the stack; [kprintf] is
    the kernel's formatted output, [x64_lapic_set_timer_periodic] the local
    interrupt controller's.  Which stack a trap runs on is not modelled; the
    interrupt flag [iretq] restores is. *)
From Stdlib Require Import String Ascii.
From S2P Require Import Printf Prelude Bitops KList Kernel ThreadInfo ReadyQueue Sched WaitQueue Timer Thread Irq Trap.

Definition X86_NR_EXCEPTIONS : Z := 20.
Definition X64_RFLAGS_IF : Z := 9.
Definition LAPIC_TIMER_INT_VECTOR : Z := 0xf0.
Definition TIMER_MS_PER_US : Z := 1000.
Definition EXCEPTION_FRAME_SIZE : Z := 176.

Record exception_frame : Type := ExceptionFrame {
  rax : Z; rbx : Z; rcx : Z; rdx : Z; rbp : Z; rsi : Z; rdi : Z; r8 : Z; r9 : Z; r10 : Z; r11 : Z; r12 : Z; r13 : Z; r14 : Z; r15 : Z;
  trapno : Z; errno : Z; rip : Z; cs : Z; rflags : Z; rsp : Z; ss : Z }.

(** A string constant of the source, and one that ends in a newline. *)
Definition txt (t : string) : list Z := (fun a => Z.of_nat (nat_of_ascii a)) <$> list_ascii_of_string t.
Definition str (t : string) : list Z := txt t ++ [0].
Definition ln (t : string) : list Z := txt t ++ [10; 0].

Definition trapnames : list string := [
  "Divide-by-zero Error"; "Debug"; "Non-maskable Interrupt"; "Breakpoint"; "Overflow"; "Bound Range Exceeded"; "Invalid Opcode";
  "Device Not Available"; "Double Fault"; "Coprocessor Segment Overrun"; "Invalid TSS"; "Segment Not Present"; "Stack-Segment Fault";
  "General Protection Fault"; "Page Fault"; "Reserved"; "x87 Floating-Point Exception"; "Alignment Check"; "Machine Check";
  "SIMD Floating-Point Exception"; "Virtualization Exception"; "Reserved"; "Security Exception"; "Reserved"]%string.

Section x64.
Context {X : Type}.
Variable ctrlr : ptr -> irq_ctrlr X.
Variable call_handler : fptr -> Z -> ptr -> Z -> K X Z.
Variable call_finder : fptr -> ptr -> K X (Z * Z).
Variable call_callout : fptr -> Z -> K X unit.
Variable time_slice : Z.
Variable undef : Z.
Variable frames : ptr -> option exception_frame.
Variable kprintf : list Z -> list varg -> K X unit.
Variable x64_lapic_set_timer_periodic : Z -> K X unit.

Definition hal_exception_irq_enabled (exc : ptr) : K X Z :=
  e ← deref (frames exc); mret (s32 (Z.land (rflags e) X64_RFLAGS_IF)).

(** [trapnames[exc->trapno]] *)
Definition trapname (e : exception_frame) : K X varg :=
  n ← deref (trapnames !! Z.to_nat (trapno e)); mret (VStr (Some (str n))).

Definition hal_handle_exception (exc : ptr) : K X unit :=
  e ← deref (frames exc);
  kprintf (ln "An exception occur:") [];;
  (if trapno e <? X86_NR_EXCEPTIONS then n ← trapname e; kprintf (ln "%s:") [n]
   else n ← trapname e; kprintf (ln "UnknownTrap:") [n]);;
  kprintf (ln "Trap: 0x%x(%d) ErrorCode: 0x%016lx") (VNum <$> [trapno e; trapno e; errno e]);;
  kprintf (ln "RIP: 0x%02x:0x%016lx RSP: 0x%016lx") (VNum <$> [wrap 16 (cs e); rip e; u64 (rsp e - EXCEPTION_FRAME_SIZE)]);;
  kprintf (ln "RFLAGS: 0x%016lx") (VNum <$> [rflags e]);;
  kprintf (ln "RAX: 0x%016lx RBX: 0x%016lx RCX: 0x%016lx RDX: 0x%016lx") (VNum <$> [rax e; rbx e; rcx e; rdx e]);;
  kprintf (ln "RBP: 0x%016lx RSI: 0x%016lx RDI: 0x%016lx") (VNum <$> [rbp e; rsi e; rdi e]);;
  kprintf (ln "R8 : 0x%016lx R9 : 0x%016lx R10: 0x%016lx R11: 0x%016lx") (VNum <$> [r8 e; r9 e; r10 e; r11 e]);;
  kprintf (ln "R12: 0x%016lx R13: 0x%016lx R14: 0x%016lx R15: 0x%016lx") (VNum <$> [r12 e; r13 e; r14 e; r15 e]).

Definition hal_common_trap_handler (exc : ptr) : K X unit :=
  ti ← get_current_thread_info;
  e ← deref (frames exc);
  if trapno e <? X86_NR_EXCEPTIONS then
    ti_update_preempt_count ti THR_EXCCNT_SHIFT 1;;
    b ← hal_exception_irq_enabled exc;
    when (ctrue b) psw_enable_interrupt;;
    hal_handle_exception exc;;
    psw_disable_interrupt;;
    ti_update_preempt_count ti THR_EXCCNT_SHIFT (-1)
  else
    ti_update_preempt_count ti THR_IRQCNT_SHIFT 1;;
    irq_handle_irq ctrlr call_handler call_finder undef exc;;
    ti_update_preempt_count ti THR_IRQCNT_SHIFT (-1).

(** hal/x64/traps.S: the end of a trap; a thread that goes on runs a dispatch
    that was delayed.  [iretq] restores the flags of the frame. *)
Definition ret_from_trap (exc : ptr) : K X unit :=
  psw_disable_interrupt;;
  ti ← get_current_thread_info;
  v ← ti_get ti;
  (if Z.land (preempt v) 0xffff =? 0 then
     psw_enable_interrupt;; thr_handle_task_exception_handler;; psw_disable_interrupt
   else mret tt);;
  e ← deref (frames exc);
  s ← get; put (with_ie s (Z.testbit (rflags e) 9)).

Definition build_trap_context (exc : ptr) : K X unit :=
  psw_disable_interrupt;;
  hal_common_trap_handler exc;;
  ret_from_trap exc.

Definition x64_timer_handler (irq : Z) (exc : ptr) (private : Z) : K X Z :=
  timer_update_uptime call_callout;;
  timer_update_thread_time time_slice;;
  mret IRQ_HANDLED.

(** [handler] is the address of [x64_timer_handler], [interval] the
    configuration value CONFIG_TIMER_INTERVAL_MS. *)
Definition x64_init_timer (handler : fptr) (interval : Z) : K X unit :=
  irq_register_handler ctrlr LAPIC_TIMER_INT_VECTOR (Z.lor (Z.lor IRQ_ATTR_NON_NESTABLE IRQ_ATTR_EXCLUSIVE) IRQ_ATTR_EDGE) 0 NULL handler;;
  x64_lapic_set_timer_periodic (TIMER_MS_PER_US * interval).

(** ** Exceptions *)

Section report.
(** What the trap handler relies on of the output: it only acts on the devices,
    which keep a record of the messages and of the interrupt flag. *)
Variable printed : X -> list (bool * list Z * list varg).
Hypothesis kprintf_returns : forall fmt ap s, exists x, kprintf fmt ap s = Ret tt (with_ext s x) /\ printed x = printed (ext s) ++ [(ie s, fmt, ap)].

(** The messages about an exception named [name]. *)
Definition report (name : string) (e : exception_frame) : list (list Z * list varg) := [
  (ln "An exception occur:", []); (ln "%s:", [VStr (Some (str name))]);
  (ln "Trap: 0x%x(%d) ErrorCode: 0x%016lx", VNum <$> [trapno e; trapno e; errno e]);
  (ln "RIP: 0x%02x:0x%016lx RSP: 0x%016lx", VNum <$> [wrap 16 (cs e); rip e; u64 (rsp e - EXCEPTION_FRAME_SIZE)]);
  (ln "RFLAGS: 0x%016lx", VNum <$> [rflags e]);
  (ln "RAX: 0x%016lx RBX: 0x%016lx RCX: 0x%016lx RDX: 0x%016lx", VNum <$> [rax e; rbx e; rcx e; rdx e]);
  (ln "RBP: 0x%016lx RSI: 0x%016lx RDI: 0x%016lx", VNum <$> [rbp e; rsi e; rdi e]);
  (ln "R8 : 0x%016lx R9 : 0x%016lx R10: 0x%016lx R11: 0x%016lx", VNum <$> [r8 e; r9 e; r10 e; r11 e]);
  (ln "R12: 0x%016lx R13: 0x%016lx R14: 0x%016lx R15: 0x%016lx", VNum <$> [r12 e; r13 e; r14 e; r15 e]) ].

Lemma kprintf_then {A} fmt ap (k : K X A) s Q : (forall x, printed x = printed (ext s) ++ [(ie s, fmt, ap)] -> returns k (with_ext s x) Q) ->
  returns (kprintf fmt ap;; k) s Q.
Proof. intros Hk. destruct (kprintf_returns fmt ap s) as (x & E & Hp). apply returns_bind. eapply returns_eq; [exact E|]. by apply Hk. Qed.

Lemma hal_handle_exception_report exc e name s : frames exc = Some e -> 0 <= trapno e < X86_NR_EXCEPTIONS -> trapnames !! Z.to_nat (trapno e) = Some name ->
  returns (hal_handle_exception exc) s (fun _ s' => exists x, s' = with_ext s x /\
    printed x = printed (ext s) ++ ((fun m => (ie s, m.1, m.2)) <$> report name e)).
Proof.
  intros Ef Ht En. unfold hal_handle_exception. rewrite Ef. apply returns_bind, returns_ret. rewrite (proj2 (Z.ltb_lt _ _)) by lia.
  apply kprintf_then. intros x1 E1. apply returns_bind, returns_bind. unfold trapname. rewrite En. apply returns_bind, returns_ret, returns_ret.
  destruct (kprintf_returns (ln "%s:") [VStr (Some (str name))] (with_ext s x1)) as (x2 & Ek & E2). eapply returns_eq; [exact Ek|].
  apply kprintf_then; intros x3 E3. apply kprintf_then; intros x4 E4. apply kprintf_then; intros x5 E5. apply kprintf_then; intros x6 E6.
  apply kprintf_then; intros x7 E7. apply kprintf_then; intros x8 E8.
  destruct (kprintf_returns (ln "R12: 0x%016lx R13: 0x%016lx R14: 0x%016lx R15: 0x%016lx") (VNum <$> [r12 e; r13 e; r14 e; r15 e]) (with_ext s x8)) as (x9 & Ek9 & E9).
  eapply returns_eq; [exact Ek9|]. exists x9. split; [done|]. cbn [ext with_ext ie] in *.
  rewrite E9, E8, E7, E6, E5, E4, E3, E2, E1, <-!app_assoc. done.
Qed.

(** The flag [hal_exception_irq_enabled] tests: bits 0 and 3 of the flags, the
    carry flag and a reserved one, instead of bit 9. *)
Definition irq_on (e : exception_frame) : bool := ctrue (Z.land (rflags e) 9).

Lemma irq_enabled_eq exc e s : frames exc = Some e -> 0 <= rflags e -> hal_exception_irq_enabled exc s = Ret (Z.land (rflags e) 9) s.
Proof.
  intros Ef Hr. unfold hal_exception_irq_enabled. rewrite Ef. mred. unfold s32, X64_RFLAGS_IF. rewrite swrap_small; [done|lia|].
  change 9 with (Z.land 9 (Z.ones 4)). rewrite Z.land_assoc, Z.land_ones by lia. change (2 ^ (32 - 1)) with 2147483648.
  pose proof (Z.mod_pos_bound (Z.land (rflags e) 9) (2 ^ 4) ltac:(lia)). lia.
Qed.

(** An exception (trap 0 to 19): the name of the exception and all registers of its frame are printed while the exception is counted in the word of the running thread, which is as before when the handler returns, with interrupts disabled; interrupts are enabled during the report when the bits 0 or 3 of the saved flags are set, and otherwise as they were. *)
Theorem x64_exception_correct exc e name th v s :
  frames exc = Some e -> 0 <= trapno e < X86_NR_EXCEPTIONS -> 0 <= rflags e -> trapnames !! Z.to_nat (trapno e) = Some name ->
  threads s !! current s = Some th -> tinfos s !! tinfo th = Some v -> 0 <= preempt v < 2 ^ 64 ->
  exists x, hal_common_trap_handler exc s = Ret tt (with_ie (with_ext s x) false) /\
    printed x = printed (ext s) ++ ((fun m => (irq_on e || ie s, m.1, m.2)) <$> report name e).
Proof.
  intros Ef Ht Hr En Et Ev Hv.
  set (s1 := counted s (tinfo th) v THR_EXCCNT_SHIFT 1). set (s2 := with_ie s1 (irq_on e || ie s)).
  destruct (hal_handle_exception_report exc e name s2 Ef Ht En) as (a & s3 & E & x & -> & Hp). destruct a.
  exists x. split; [|exact Hp]. unfold hal_common_trap_handler. mred. rewrite (get_current_thread_info_eq _ th) by done. mred.
  rewrite Ef. mred. rewrite (proj2 (Z.ltb_lt _ _)) by lia. rewrite (ti_update_eq _ _ v) by done. mred. fold s1.
  rewrite (irq_enabled_eq exc e) by done. mred. fold (irq_on e).
  transitivity (run_bind (hal_handle_exception exc s2) (fun _ st => ti_update_preempt_count (tinfo th) THR_EXCCNT_SHIFT (-1) (with_ie st false))).
  { unfold s2. by destruct (irq_on e); [|destruct s]. }
  rewrite E. cbn [run_bind]. rewrite (ti_update_eq _ _ (with_preempt v (preempt_update (preempt v) THR_EXCCNT_SHIFT 1))) by (cbn; by rewrite lookup_insert_eq).
  f_equal. unfold counted. cbn. rewrite insert_insert_eq, preempt_update_roundtrip by (unfold THR_EXCCNT_SHIFT; lia).
  replace (with_preempt _ (preempt v)) with v by by destruct v. rewrite insert_id by done. by destruct s.
Qed.
End report.

(** ** The timer interrupt *)

Section tick.
Variable calls : X -> list (fptr * Z).
Variables (irq : Z) (exc : ptr) (h : ptr) (fn : fptr) (priv : Z) (line : irq_line) (fs : list ptr) (f0 : ptr).
Variables (Pre Open : X -> Prop) (Busy : Z -> X -> Prop) (Done : X -> Prop).
Hypothesis handler_is : call_handler fn irq exc priv = x64_timer_handler irq exc priv.
Hypothesis callouts_ok : forall p, callouts_quiet call_callout calls (Busy p).
Local Abbreviation routed := (routed ctrlr call_finder calls irq exc h fn priv line fs f0 Pre Open Busy Busy Done).

Lemma x64_handler_ticks : ticks call_handler time_slice calls irq exc fn priv Busy Busy.
Proof. intros s cs th n p [Et Hs Hq HC Hf] Hn H0 HB. rewrite handler_is. by apply (timer_tick_spec call_callout time_slice calls (Busy p) s cs th n). Qed.

Lemma x64_timer_trap s cs th v e : tick_ready s cs th -> routed s -> frames exc = Some e -> X86_NR_EXCEPTIONS <= trapno e ->
  tinfos s !! tinfo th = Some v -> 0 <= preempt v < 2 ^ 64 -> pre_count (preempt v) THR_IRQCNT_SHIFT < 255 ->
  returns (hal_common_trap_handler exc) s (fun _ s' => ticked time_slice calls s cs th s' /\ Done (ext s')).
Proof.
  intros HR HO Ef Ht Ev Hv Hc. unfold hal_common_trap_handler. apply returns_bind.
  eapply returns_eq; [by apply get_current_thread_info_eq, HR|]. rewrite Ef. apply returns_bind, returns_ret. rewrite (proj2 (Z.ltb_ge _ _)) by lia.
  eapply timer_interrupt; [exact x64_handler_ticks|exact HR|exact HO|exact Ev|exact Hv|exact Hc].
Qed.

(** A timer interrupt, from the trap to the handler and back.  The interrupt found by a finder of the manager goes through its line to the timer's handler while the controller holds the line; the clock advances by one tick, exactly the call-outs due at the new time are called once each in order, the running thread is charged, and a round robin thread at the end of its time slice gets a new one and a request for a dispatch.  The thread still runs, its nesting counts and the interrupt flag are as before, the ready queue and the call-out queue are consistent, and the controller has the line back. *)
Theorem x64_timer_interrupt_correct s cs th v e : tick_ready s cs th -> routed s -> frames exc = Some e -> X86_NR_EXCEPTIONS <= trapno e ->
  tinfos s !! tinfo th = Some v -> 0 <= preempt v < 2 ^ 64 -> pre_count (preempt v) THR_IRQCNT_SHIFT < 255 ->
  exists s', hal_common_trap_handler exc s = Ret tt s' /\ Done (ext s') /\ tick_result time_slice calls s cs th v s'.
Proof.
  intros HR HO Ef Ht Ev Hv Hc. destruct (x64_timer_trap s cs th v e) as ([] & s' & E & HT & HD); [done..|].
  exists s'. split_and!; [exact E|exact HD|]. by apply ticked_result.
Qed.

(** C10. Preemption.  A round robin thread that runs with all nesting counts 0 and uses up its time slice in a timer interrupt does not go on when the trap ends: the handler of the trap returns, in the state [s1], with the effects of the tick; if the ready queue of [s1] designates another thread, the processor goes to that thread at the end of the trap, with the ready queue of [s1], the clock advanced and interrupts disabled; otherwise the thread goes on with the interrupt flag of its frame. *)
Theorem x64_preemption s cs th v e : tick_ready s cs th -> routed s -> frames exc = Some e -> X86_NR_EXCEPTIONS <= trapno e ->
  tinfos s !! tinfo th = Some v -> 0 <= preempt v < 2 ^ 64 -> (forall sh, sh = 0 \/ sh = 8 \/ sh = 16 -> pre_count (preempt v) sh = 0) ->
  is_Some (threads s !! idle_thread) -> ie s = false -> slice_over (current s) th = true ->
  exists s1, hal_common_trap_handler exc s = Ret tt s1 /\ Done (ext s1) /\ tick_result time_slice calls s cs th v s1 /\
    exists q, rdq_inv s1 q /\
      if decide (sched_next q = current s)
      then returns (build_trap_context exc) s (fun _ s2 => current s2 = current s /\ ie s2 = Z.testbit (rflags e) 9)
      else exists s2 k, build_trap_context exc s = Switch s2 k /\ current s2 = sched_next q /\ ie s2 = false /\
        rdq_inv s2 q /\ uptime s2 = u64 (uptime s + 1).
Proof.
  intros HR HO Ef Ht Ev Hv Hc Hidle Hie Hov.
  destruct (x64_timer_trap s cs th v e) as ([] & s1 & E & HT & HD); [done..|unfold THR_IRQCNT_SHIFT; rewrite Hc by auto; lia|].
  assert (uptime s1 = u64 (uptime s + 1)) as U by apply HT.
  destruct (ticked_switch time_slice calls s cs th v s1 true HR Ev Hv Hc Hidle Hov HT) as (th' & v' & q & Et' & Ev' & Hlow & HI & HS).
  assert (build_trap_context exc s = run_bind (run_bind (sched_delay_disptach (with_ie s1 true)) (fun _ st => Ret tt (with_ie st false)))
    (fun _ st => Ret tt (with_ie st (Z.testbit (rflags e) 9)))) as EB.
  { unfold build_trap_context, psw_disable_interrupt. mred. replace (with_ie s false) with s by (destruct s; cbn in *; by subst). rewrite E. mred.
    unfold ret_from_trap, psw_disable_interrupt, psw_enable_interrupt. mred. rewrite (get_current_thread_info_eq _ th') by done. mred.
    rewrite (ti_get_eq _ _ v') by done. mred. rewrite Hlow. cbn [Z.eqb].
    unfold thr_handle_task_exception_handler. change (with_ie (with_ie s1 false) true) with (with_ie s1 true). by rewrite Ef. }
  exists s1. split_and!; [exact E|done|by apply ticked_result|]. exists q. split; [done|]. case_decide.
  - destruct HS as (s2 & E3 & Hcur & Hi). rewrite E3 in EB. eapply returns_eq; [exact EB|done].
  - destruct HS as (s2 & k & E3 & Hcur & Hi & HI2 & U2). rewrite E3 in EB. eexists s2, _. split_and!; [exact EB|done|done|done|by rewrite U2].
Qed.
End tick.
End x64.

(** ** A concrete trap *)

Definition demo_frame : exception_frame := ExceptionFrame 0 0 0 0 0 0 0 0 0 0 0 0 0 0 0 0x24 0 0x100000 0x20 0x202 0x8000 0x28.
Definition demo_frames (p : ptr) : option exception_frame := Some demo_frame.
Definition demo_handlers (f : fptr) (irq : Z) (exc : ptr) (p : Z) : K (list (Z * Z)) Z := x64_timer_handler demo_call 10 irq exc p.

Lemma x64_timer_interrupt_correct_witness :
  exists s' th' v', hal_common_trap_handler demo_ctrlr demo_handlers demo_finder 0 demo_frames (fun _ _ => mret tt) 0x7000 demo_tick = Ret tt s' /\
    uptime s' = 7 /\ ext s' = [(9, 1)] /\ threads s' !! 100 = Some th' /\ slice th' = 10 /\
    tinfos s' !! 0x2000 = Some v' /\ ti_check_need_dispatch v' = 1.
Proof.
  destruct (x64_timer_interrupt_correct demo_ctrlr demo_handlers demo_finder demo_call 10 0 demo_frames (fun _ _ => mret tt) (fun l => l)
    4 0x7000 60 9 1 demo_line [70] 70 (fun _ => True) (fun _ => True) (fun _ _ => True) (fun _ => True) eq_refl (fun _ => demo_call_quiet _ (fun _ => I))
    demo_tick [50; 51] demo_running (ThreadInfo 0 100 THR_THREAD_INFO_MAGIC) demo_frame demo_tick_ready (demo_routed 4 0x7000 eq_refl))
    as (s' & E & _ & _ & _ & U & L & _ & _ & th' & v' & Et & Es & Ev & _ & N); [reflexivity|discriminate|reflexivity|split; [discriminate|reflexivity]|reflexivity|].
  exists s', th', v'. split_and!; [exact E|exact U|exact L|exact Et|exact Es|exact Ev|]. apply N. reflexivity.
Defined.

(** The trap in [demo_tick] does not return: the idle thread is switched to. *)
Definition demo_trap : K (list (Z * Z)) unit := build_trap_context demo_ctrlr demo_handlers demo_finder 0 demo_frames (fun _ _ => mret tt) 0x7000.
Lemma demo_trap_switches : match demo_trap demo_tick with Switch s2 _ => bool_decide (current s2 = idle_thread) | _ => false end = true.
Proof. vm_compute. reflexivity. Qed.

Lemma x64_preemption_witness : exists s1 q s2 k,
  hal_common_trap_handler demo_ctrlr demo_handlers demo_finder 0 demo_frames (fun _ _ => mret tt) 0x7000 demo_tick = Ret tt s1 /\ uptime s1 = 7 /\
  rdq_inv s1 q /\ sched_next q = idle_thread /\ demo_trap demo_tick = Switch s2 k /\ current s2 = idle_thread /\ rdq_inv s2 q /\ uptime s2 = 7.
Proof.
  pose proof demo_trap_switches as HW.
  destruct (x64_preemption demo_ctrlr demo_handlers demo_finder demo_call 10 0 demo_frames (fun _ _ => mret tt) (fun l => l)
    4 0x7000 60 9 1 demo_line [70] 70 (fun _ => True) (fun _ => True) (fun _ _ => True) (fun _ => True) eq_refl (fun _ => demo_call_quiet _ (fun _ => I))
    demo_tick [50; 51] demo_running (ThreadInfo 0 100 THR_THREAD_INFO_MAGIC) demo_frame demo_tick_ready (demo_routed 4 0x7000 eq_refl))
    as (s1 & E & _ & (_ & _ & U & _) & q & HI & HS);
    [reflexivity|discriminate|reflexivity|split; [discriminate|reflexivity]|intros sh [->|[->| ->]]; reflexivity|by eexists|reflexivity|reflexivity|].
  destruct (decide (sched_next q = current demo_tick)) as [_|_].
  - destruct HS as (a & s2 & E2 & _). change (demo_trap demo_tick = Ret a s2) in E2. rewrite E2 in HW. discriminate HW.
  - destruct HS as (s2 & k & E2 & Hc & _ & HI2 & U2). change (demo_trap demo_tick = Switch s2 k) in E2.
    pose proof HW as HW2. rewrite E2 in HW2. apply bool_decide_eq_true in HW2.
    exists s1, q, s2, k. split; [exact E|]. split; [exact U|]. split; [exact HI|]. split; [rewrite <-Hc; exact HW2|]. split; [exact E2|].
    split; [exact HW2|]. split; [exact HI2|exact U2].
Defined.

(** A page fault, with a record of the messages as the devices. *)
Definition demo_kprintf (fmt : list Z) (ap : list varg) : K (list (bool * list Z * list varg)) unit :=
  fun s => Ret tt (with_ext s (ext s ++ [(ie s, fmt, ap)])).
Definition demo_fault : kst (list (bool * list Z * list varg)) :=
  Kst ∅ false {[100 := demo_running]} {[0x2000 := ThreadInfo 0 100 THR_THREAD_INFO_MAGIC]} 100 0 ∅ ∅ ∅ 6 ∅ ∅ ∅ ∅ [] 0 [].

Lemma x64_exception_correct_witness :
  let e := ExceptionFrame 0 0 0 0 0 0 0 0 0 0 0 0 0 0 0 14 2 0x100000 0x20 0x202 0x8000 0x28 in
  exists x, hal_common_trap_handler (fun _ => IrqCtrlr None None None None None None) (fun _ _ _ _ => mret 0) (fun _ _ => mret (0, 0)) 0
      (fun _ => Some e) demo_kprintf 0x7000 demo_fault = Ret tt (with_ie (with_ext demo_fault x) false) /\
    x !! 1%nat = Some (false, ln "%s:", [VStr (Some (str "Page Fault"))]).
Proof.
  intros e. destruct (x64_exception_correct (fun _ => IrqCtrlr None None None None None None) (fun _ _ _ _ => mret 0) (fun _ _ => mret (0, 0)) 0
    (fun _ => Some e) demo_kprintf (fun l => l) (fun fmt ap s => ex_intro _ _ (conj eq_refl eq_refl)) 0x7000 e "Page Fault" demo_running
    (ThreadInfo 0 100 THR_THREAD_INFO_MAGIC) demo_fault) as (x & E & Hp);
    [reflexivity|split; [discriminate|reflexivity]|discriminate|reflexivity|reflexivity|reflexivity|split; [discriminate|reflexivity]|].
  exists x. split; [exact E|]. rewrite Hp. reflexivity.
Defined.
