(* ===== verification/A64Trap.v ===== *)
(** hal/aarch64/exception.c, hal/aarch64/timer.c and hal/aarch64/vector.S: traps of
    the AArch64 processor and its timer interrupt.

    The board has the interrupt controller of Gic.v and the generic timer of the
    processor, whose registers [GenericTimer] has, together with the static
    variable of the driver; [BoardLaws] says what the architecture manual says
    of them, the wire from the timer to the controller included.  No time
    passes between the steps of a handler.  [frames] and [kprintf] are as in X64Trap.v. *)
From Stdlib Require Import String.
From S2P Require Import Printf Prelude Bitops KList Kernel ThreadInfo ReadyQueue Sched WaitQueue Timer Thread Irq Port Gic X64Trap Trap.

Definition AARCH64_EXC_TYPE_EXCEPTION : Z := 1.
Definition AARCH64_EXC_TYPE_INTERRUPT : Z := 2.
Definition AARCH64_SPSR_DAIF_I_BIT : Z := Z.shiftl 1 7.
Definition AARCH64_TIMER_IRQ : Z := 27.
Definition HZ_PER_US : Z := 1000000.
Definition CNTV_CTL_ENABLE : Z := Z.shiftl 1 0.
Definition CNTV_CTL_MASK : Z := Z.shiftl 1 1.
Definition CNTV_CTL_START : Z := Z.shiftl 1 2.

(** The registers [x0] to [x30] are given by their number. *)
Record exception_frame : Type := ExceptionFrame {
  exc_type : Z; exc_esr : Z; exc_sp : Z; exc_elr : Z; exc_spsr : Z; xreg : nat -> Z }.

(** ** The generic timer *)

(** The control register, the distance the timer was last armed with, whether
    that has passed, the frequency, and [aarch64_timer_config.interval_us]. *)
Class GenericTimer (X : Type) : Type := {
  cntv_ctl : X -> Z; set_cntv_ctl : X -> Z -> X;
  cntv_tval : X -> Z; set_cntv_tval : X -> Z -> X;
  cntv_due : X -> bool;
  cntfrq : X -> Z;
  interval_us : X -> Z; set_interval_us : X -> Z -> X }.

Section timer.
Context {X : Type} `{GenericTimer X}.

Definition clock_read_ctrl : K X Z := s ← get; mret (cntv_ctl (ext s)).
Definition clock_write_ctrl (v : Z) : K X unit := s ← get; put (with_ext s (set_cntv_ctl (ext s) v)).
Definition clock_write_tval (v : Z) : K X unit := s ← get; put (with_ext s (set_cntv_tval (ext s) v)).
Definition aarch64_get_generic_timer_freq : K X Z := s ← get; mret (cntfrq (ext s)).

Definition stop_timer : K X unit :=
  cntv_ctl ← clock_read_ctrl;
  let cntv_ctl := Z.land cntv_ctl (u64 (Z.lnot (Z.lor CNTV_CTL_ENABLE CNTV_CTL_START))) in
  clock_write_ctrl (Z.lor cntv_ctl CNTV_CTL_MASK).

Definition start_timer : K X unit :=
  cntv_ctl ← clock_read_ctrl;
  let cntv_ctl := Z.lor cntv_ctl (Z.lor CNTV_CTL_ENABLE CNTV_CTL_START) in
  clock_write_ctrl (Z.land cntv_ctl (u64 (Z.lnot CNTV_CTL_MASK))).

Definition reload_timer (next_us : Z) : K X unit :=
  freq ← aarch64_get_generic_timer_freq;
  clock_write_tval (u64 (next_us * (freq / HZ_PER_US))).

Variable ctrlr : ptr -> irq_ctrlr X.
Variable call_callout : fptr -> Z -> K X unit.
Variable time_slice : Z.

(** [private] points to [aarch64_timer_config]. *)
Definition aarch64_timer_handler (irq : Z) (exc : ptr) (private : Z) : K X Z :=
  stop_timer;;
  s ← get; reload_timer (interval_us (ext s));;
  start_timer;;
  timer_update_uptime call_callout;;
  timer_update_thread_time time_slice;;
  mret IRQ_HANDLED.

(** [handler] and [config] are the addresses of [aarch64_timer_handler] and
    [aarch64_timer_config]. *)
Definition aarch64_init_timer (handler : fptr) (config : ptr) (timer_interval_ms : Z) : K X unit :=
  s ← get; put (with_ext s (set_interval_us (ext s) (u64 (timer_interval_ms * 1000))));;
  stop_timer;;
  s ← get; reload_timer (interval_us (ext s));;
  start_timer;;
  irq_register_handler ctrlr AARCH64_TIMER_IRQ (Z.lor (Z.lor IRQ_ATTR_NON_NESTABLE IRQ_ATTR_EXCLUSIVE) IRQ_ATTR_EDGE) 1 config handler;;
  mret tt.
End timer.

(** ** Traps *)

Section trap.
Context {X : Type}.
Variable ctrlr : ptr -> irq_ctrlr X.
Variable call_handler : fptr -> Z -> ptr -> Z -> K X Z.
Variable call_finder : fptr -> ptr -> K X (Z * Z).
Variable undef : Z.
Variable frames : ptr -> option exception_frame.
Variable kprintf : list Z -> list varg -> K X unit.

Definition hal_exception_irq_enabled (exc : ptr) : K X Z :=
  e ← deref (frames exc); mret (cbool (Z.land (exc_spsr e) AARCH64_SPSR_DAIF_I_BIT =? 0)).

(** The registers with the given numbers, as arguments of [kprintf]. *)
Definition regs (e : exception_frame) (ns : list nat) : list varg := (fun n => VNum (xreg e n)) <$> ns.

Definition hal_handle_exception (exc : ptr) : K X unit :=
  e ← deref (frames exc);
  kprintf (ln "An exception occur:") [];;
  kprintf (ln "ESR: 0x%08p  SP: 0x%08p ELR: 0x%08p SPSR: 0x%08p") (VNum <$> [exc_esr e; exc_sp e; exc_elr e; exc_spsr e]);;
  kprintf (ln " x0: 0x%08p  x1: 0x%08p  x2: 0x%08p  x3: 0x%08p  x4: 0x%08p") (regs e [0; 1; 2; 3; 4]%nat);;
  kprintf (ln " x5: 0x%08p  x6: 0x%08p  x7: 0x%08p  x8: 0x%08p  x9: 0x%08p") (regs e [5; 6; 7; 8; 9]%nat);;
  kprintf (ln "x10: 0x%08p x11: 0x%08p x12: 0x%08p x13: 0x%08p x14: 0x%08p") (regs e [10; 11; 12; 13; 14]%nat);;
  kprintf (ln "x15: 0x%08p x16: 0x%08p x17: 0x%08p x18: 0x%08p x19: 0x%08p") (regs e [15; 16; 17; 18; 19]%nat);;
  kprintf (ln "x20: 0x%08p x21: 0x%08p x22: 0x%08p x23: 0x%08p x24: 0x%08p") (regs e [20; 21; 22; 23; 24]%nat);;
  kprintf (ln "x25: 0x%08p x26: 0x%08p x27: 0x%08p x28: 0x%08p x29: 0x%08p") (regs e [25; 26; 27; 28; 19]%nat);;
  kprintf (ln "x30: 0x%08p ") (regs e [30]%nat).

Definition hal_common_trap_handler (exc : ptr) : K X unit :=
  ti ← get_current_thread_info;
  e ← deref (frames exc);
  (if Z.land (exc_type e) 0xf =? AARCH64_EXC_TYPE_EXCEPTION then
     ti_update_preempt_count ti THR_EXCCNT_SHIFT 1;;
     b ← hal_exception_irq_enabled exc;
     when (ctrue b) psw_enable_interrupt;;
     hal_handle_exception exc;;
     psw_disable_interrupt;;
     ti_update_preempt_count ti THR_EXCCNT_SHIFT (-1)
   else mret tt);;
  if Z.land (exc_type e) 0xf =? AARCH64_EXC_TYPE_INTERRUPT then
    ti_update_preempt_count ti THR_IRQCNT_SHIFT 1;;
    irq_handle_irq ctrlr call_handler call_finder undef exc;;
    ti_update_preempt_count ti THR_IRQCNT_SHIFT (-1)
  else mret tt.

(** hal/aarch64/vector.S: an interrupt of a thread in EL1.  The processor
    disables interrupts when it takes it; [eret] restores the flags. *)
Definition leave_non_task_context : K X unit :=
  ti ← get_current_thread_info;
  v ← ti_get ti;
  if Z.land (preempt v) 0xffff =? 0 then thr_handle_task_exception_handler else mret tt.

Definition el1_irq (exc : ptr) : K X unit :=
  psw_disable_interrupt;;
  hal_common_trap_handler exc;;
  leave_non_task_context;;
  e ← deref (frames exc);
  s ← get; put (with_ie s (Z.land (exc_spsr e) AARCH64_SPSR_DAIF_I_BIT =? 0)).
End trap.

(** ** The board *)

(** The distance the timer of the driver is armed with. *)
Definition tick_distance {X} `{GenericTimer X} (x : X) : Z := (interval_us x * (cntfrq x / HZ_PER_US)) mod 2 ^ 64 mod 2 ^ 32.
(** The timer is on, its interrupt is not masked, and it was armed for the next tick. *)
Definition timer_armed {X} `{GenericTimer X} (x : X) : Prop := Z.land (cntv_ctl x) 3 = 1 /\ cntv_tval x = tick_distance x.

(** The wire from the timer to the controller is active when the timer is on, not
    masked and due. *)
Definition timer_wire {X} `{GenericTimer X} (x : X) : bool := (Z.land (cntv_ctl x) 3 =? 1) && cntv_due x.
(** A wire takes a level; its rising edge is latched where edges trigger. *)
Definition g_wire (i : Z) (b : bool) (g : gic) : gic :=
  let '(Gic e p l w q t m d c) := g in Gic e (set_at p i (p i || l i && negb (w i) && b)) l (set_at w i b) q t m d c.

(** A timer armed with a distance, a number of 32 bits with a sign, is due at once
    if that is not positive.  The registers of the timer reach the controller by
    the wire only. *)
Class BoardLaws (X : Type) (B : Z) (calls : X -> list (fptr * Z)) `{GicDevice X} `{GenericTimer X} : Prop := {
  board_gic :: GicLaws X B;
  ctl_ctl : forall x v, Z.land (cntv_ctl (set_cntv_ctl x v)) 3 = Z.land v 3;
  tval_tval : forall x v, cntv_tval (set_cntv_tval x v) = v mod 2 ^ 32;
  tval_due : forall x v, cntv_due (set_cntv_tval x v) = (s32 v <=? 0);
  ctl_wire : forall x v, let x' := set_cntv_ctl x v in state x' ≡ g_wire AARCH64_TIMER_IRQ (timer_wire x') (state x);
  tval_wire : forall x v, let x' := set_cntv_tval x v in state x' ≡ g_wire AARCH64_TIMER_IRQ (timer_wire x') (state x);
  ctl_keeps : forall x v, let x' := set_cntv_ctl x v in
    cntv_due x' = cntv_due x /\ calls x' = calls x /\ cntv_tval x' = cntv_tval x /\ cntfrq x' = cntfrq x /\ interval_us x' = interval_us x;
  tval_keeps : forall x v, let x' := set_cntv_tval x v in
    calls x' = calls x /\ Z.land (cntv_ctl x') 3 = Z.land (cntv_ctl x) 3 /\ cntfrq x' = cntfrq x /\ interval_us x' = interval_us x;
  mmio_keeps : forall x a v, let x' := mmio_write x a v in
    calls x' = calls x /\ Z.land (cntv_ctl x') 3 = Z.land (cntv_ctl x) 3 /\ cntv_tval x' = cntv_tval x /\ cntfrq x' = cntfrq x /\ interval_us x' = interval_us x }.

Section board.
Context {X : Type} {B : Z} {calls : X -> list (fptr * Z)} `{HG : GicDevice X} `{HT : GenericTimer X} `{HL : !BoardLaws X B calls}.
Implicit Types (s : kst X).

Lemma ctl_bits w : Z.land (Z.land (Z.lor w 5) (u64 (Z.lnot 2))) 3 = 1.
Proof.
  apply Z.bits_inj'. intros i Hi. rewrite !Z.land_spec, Z.lor_spec. unfold u64.
  destruct (decide (i = 0)) as [->|]; [by destruct (Z.testbit w 0)|]. destruct (decide (i = 1)) as [->|]; [by destruct (Z.testbit w 1)|].
  replace (Z.testbit 3 i) with false; [by rewrite andb_false_r; symmetry; change 1 with (2 ^ 0); apply Z.pow2_bits_false|].
  symmetry. apply (testbit_above 3 2); lia.
Qed.

Lemma ctl_stopped w : Z.land (Z.lor w 2) 3 <> 1.
Proof.
  intros E. assert (Z.testbit (Z.land (Z.lor w 2) 3) 1 = false) as E1 by (by rewrite E).
  rewrite Z.land_spec, Z.lor_spec in E1. change (Z.testbit 2 1) with true in E1. by rewrite orb_true_r in E1.
Qed.

(** A tick takes some time, but less than the timer can be armed with. *)
Definition tick_fits (x : X) : Prop := 0 < tick_distance x < 2 ^ 31.

Lemma tick_fits_mmio x a v : tick_fits x -> tick_fits (mmio_write x a v).
Proof. unfold tick_fits, tick_distance. destruct (mmio_keeps x a v) as (_ & _ & _ & -> & ->). done. Qed.

Lemma wire_low g h i b : h ≡ g_wire i b g -> b = false -> h ≡ g_wire i false g.
Proof. by intros ? ->. Qed.

Lemma low_wire g h i : h ≡ g_wire i false g -> (forall j, latch h j = latch g j) /\ pmr h = pmr g /\ input h i = false.
Proof.
  intros (_ & Hp & _ & Hw & _ & _ & Hm & _). rewrite Hw, Hm. split_and!; [|by destruct g|destruct g; cbn; unfold set_at; by rewrite decide_True].
  intros j. rewrite Hp by (by intros []). destruct g. cbn. unfold set_at. case_decide; subst; [by rewrite andb_false_r, orb_false_r|done].
Qed.

(** Stopping, reloading and starting arms the timer and lowers its wire. *)
Lemma aarch64_timer_handler_eq call_callout time_slice irq exc priv s : tick_fits (ext s) -> exists x,
  aarch64_timer_handler call_callout time_slice irq exc priv s = timer_tick call_callout time_slice (with_ext s x) /\
  timer_armed x /\ (forall j, latch (state x) j = latch (state (ext s)) j) /\ pmr (state x) = pmr (state (ext s)) /\
  input (state x) AARCH64_TIMER_IRQ = false /\ calls x = calls (ext s).
Proof.
  intros Hfit. set (x1 := set_cntv_ctl (ext s) (Z.lor (Z.land (cntv_ctl (ext s)) (u64 (Z.lnot (Z.lor CNTV_CTL_ENABLE CNTV_CTL_START)))) CNTV_CTL_MASK)).
  set (x2 := set_cntv_tval x1 (u64 (interval_us x1 * (cntfrq x1 / HZ_PER_US)))).
  set (x3 := set_cntv_ctl x2 (Z.land (Z.lor (cntv_ctl x2) (Z.lor CNTV_CTL_ENABLE CNTV_CTL_START)) (u64 (Z.lnot CNTV_CTL_MASK)))).
  destruct (ctl_keeps (ext s) (Z.lor (Z.land (cntv_ctl (ext s)) (u64 (Z.lnot (Z.lor CNTV_CTL_ENABLE CNTV_CTL_START)))) CNTV_CTL_MASK)) as (A1 & A2 & A3 & A4 & A5). fold x1 in A1, A2, A3, A4, A5.
  destruct (tval_keeps x1 (u64 (interval_us x1 * (cntfrq x1 / HZ_PER_US)))) as (B2 & B3 & B4 & B5). fold x2 in B2, B3, B4, B5.
  destruct (ctl_keeps x2 (Z.land (Z.lor (cntv_ctl x2) (Z.lor CNTV_CTL_ENABLE CNTV_CTL_START)) (u64 (Z.lnot CNTV_CTL_MASK)))) as (C1 & C2 & C3 & C4 & C5). fold x3 in C1, C2, C3, C4, C5.
  assert ((Z.land (cntv_ctl x1) 3 =? 1) = false) as Hoff by (apply Z.eqb_neq; unfold x1; rewrite ctl_ctl; apply ctl_stopped).
  assert (cntv_due x2 = false) as Hdue.
  { unfold x2. rewrite tval_due. apply Z.leb_gt. unfold tick_fits, tick_distance in Hfit. rewrite A4, A5.
    change (u64 ?v) with (v mod 2 ^ 64). generalize dependent ((interval_us (ext s) * (cntfrq (ext s) / HZ_PER_US)) mod 2 ^ 64). intros v Hv.
    change (s32 v) with ((v + 2 ^ 31) mod 2 ^ 32 - 2 ^ 31). Z.to_euclidean_division_equations; lia. }
  destruct (low_wire (state (ext s)) (state x1) AARCH64_TIMER_IRQ) as (L1 & M1 & _).
  { eapply wire_low; [apply ctl_wire|]. unfold timer_wire. fold x1. by rewrite Hoff. }
  destruct (low_wire (state x1) (state x2) AARCH64_TIMER_IRQ) as (L2 & M2 & _).
  { eapply wire_low; [apply tval_wire|]. unfold timer_wire. fold x2. by rewrite B3, Hoff. }
  destruct (low_wire (state x2) (state x3) AARCH64_TIMER_IRQ) as (L3 & M3 & W3).
  { eapply wire_low; [apply ctl_wire|]. unfold timer_wire. fold x3. by rewrite C1, Hdue, andb_false_r. }
  exists x3. split_and!; [reflexivity| | |congruence|done|congruence].
  - split.
    + unfold x3. rewrite ctl_ctl. apply ctl_bits.
    + rewrite C3. unfold x2. rewrite tval_tval. unfold tick_distance. by rewrite C5, C4, B5, B4.
  - intros j. by rewrite L3, L2, L1.
Qed.

(** The states of the controller in the course of an interrupt on the line
    [irq] of priority [pr], when the mask was [m] before. *)
Definition gic_waiting (m irq : Z) (x : X) : Prop := (pmr (state x) = m /\ tick_fits x) /\ head (filter (fun i => Gic.pending (state x) i) (seqZ 0 64)) = Some irq.
Definition gic_open (m : Z) (x : X) : Prop := pmr (state x) = m /\ tick_fits x.
Definition gic_busy (m irq pr p : Z) (x : X) : Prop := p = m /\ pmr (state x) = Z.land pr 0xff /\ latch (state x) irq = false /\ tick_fits x.
Definition gic_after (m irq pr p : Z) (x : X) : Prop := p = m /\ pmr (state x) = Z.land pr 0xff /\ Gic.pending (state x) irq = false /\ timer_armed x.
Definition gic_done (m irq : Z) (x : X) : Prop := pmr (state x) = m /\ Gic.pending (state x) irq = false /\ timer_armed x.

(** [find_pending] of the finder; [junk] is what [*irqp] held. *)
Definition gic_finder (junk : Z) : K X (Z * Z) := r ← gic_pl390_find_pending_irq B; mret (r.1, default junk r.2).

Lemma gic_finder_acts junk m irq : acts calls (gic_finder junk) (gic_waiting m irq) (fun r x => r = (IRQ_FOUND, irq) /\ gic_open m x).
Proof.
  intros s [Hm Hh]. exists (IRQ_FOUND, irq), (ext s). split; [|done]. unfold gic_finder. rewrite (bind_ret _ _ _ _ _ (find_pending_eq s)), Hh. by destruct s.
Qed.

Lemma armed_mmio x a v : timer_armed x -> timer_armed (mmio_write x a v).
Proof.
  intros [A1 A2]. destruct (mmio_keeps x a v) as (_ & M2 & M3 & M4 & M5). unfold timer_armed, tick_distance in *. by rewrite M2, M3, M4, M5.
Qed.

Lemma write_pmr x v : let x' := mmio_write x (reg_addr B GICC_PMR) (u32 (Z.land v 0xff)) in
  pmr (state x') = Z.land v 0xff /\ forall i, Gic.pending (state x') i = Gic.pending (state x) i.
Proof.
  destruct (write_plain (B := B) x GICC_PMR (Z.land v 0xff) I ltac:(by apply plain_other)) as (_ & Hp & Hl & Hw & _ & _ & Hm & _). split.
  - rewrite Hm. destruct (state x). cbn. change 0xff with (Z.ones 8). unfold u32, wrap. rewrite !Z.land_ones by lia.
    pose proof (Z.mod_pos_bound v (2 ^ 8) ltac:(lia)). rewrite (Z.mod_small (v mod 2 ^ 8)) by lia. apply Z.mod_mod. lia.
  - intros i. unfold Gic.pending. rewrite Hp, Hl, Hw by (by intros []). by destruct (state x).
Qed.

Lemma gic_line_cycle m irq pr : 16 <= irq < 64 -> 0 <= m < 256 ->
  line_cycle calls (arm_gic_ctrlr B) irq pr (gic_open m) (gic_busy m irq pr) (gic_after m irq pr) (gic_done m irq).
Proof.
  intros Hi Hm.
  eapply (cycle_prio calls _ irq pr _ _ _ _ (gic_pl390_get_priority B) (gic_pl390_set_priority B) (gic_pl390_enable_irq B) (gic_pl390_eoi B)
    (fun p x => p = m /\ tick_fits x) (fun p x => (p = m /\ pmr (state x) = Z.land pr 0xff) /\ tick_fits x)); try done.
  - intros s [Ho Hf]. exists m, (ext s). split; [|done]. unfold gic_pl390_get_priority, aarch64_get_intr_priority.
    rewrite (bind_ret _ _ _ _ _ (rd_reg_eq GICC_PMR s _ (read_pmr (ext s)))). rewrite Ho. change 0xff with (Z.ones 8). rewrite Z.land_ones, Z.mod_small by lia. by destruct s.
  - intros p s [-> Hf]. eexists tt, _. split; [reflexivity|]. split; [|by apply mmio_keeps].
    split; [split; [done|by apply write_pmr]|by apply tick_fits_mmio].
  - intros p s [[-> Hp] Hf]. destruct (clear_pending_acts irq Hi s) as (d & Ed & Fd). exists tt, d. split; [exact Ed|].
    assert (d = ext (with_ext s d)) as Ed' by done. injection Ed as <-. split; [|by apply mmio_keeps].
    destruct Fd as (_ & Hpd & _ & _ & _ & _ & Hpm & _). split_and!; [done|rewrite Hpm; by destruct (state (ext s))| |by apply tick_fits_mmio].
    rewrite Hpd by (by intros []). destruct (state (ext s)). cbn. unfold set_at. by rewrite decide_True.
  - intros p s (-> & Hp & Hn & Ha). eexists tt, _. split; [reflexivity|]. split; [|by apply mmio_keeps].
    destruct (write_pmr (ext s) m) as [Hpm Hpe]. split_and!; [|by rewrite Hpe|by apply armed_mmio].
    rewrite Hpm. change 0xff with (Z.ones 8). by rewrite Z.land_ones, Z.mod_small by lia.
Qed.

Section tick.
Variable ctrlr : ptr -> irq_ctrlr X.
Variable call_handler : fptr -> Z -> ptr -> Z -> K X Z.
Variable call_finder : fptr -> ptr -> K X (Z * Z).
Variable call_callout : fptr -> Z -> K X unit.
Variables (time_slice undef junk : Z).
Variable frames : ptr -> option exception_frame.
Variable kprintf : list Z -> list varg -> K X unit.
Variables (exc : ptr) (h : ptr) (fn : fptr) (priv : Z) (line : irq_line) (f0 : ptr) (g0 : fptr).
Local Abbreviation irq := AARCH64_TIMER_IRQ.
Hypothesis handler_is : call_handler fn irq exc priv = aarch64_timer_handler call_callout time_slice irq exc priv.
Hypothesis finder_is : call_finder g0 exc = gic_finder junk.
Hypothesis ctrlr_is : ctrlr (ctrlrp line) = arm_gic_ctrlr B.
Hypothesis callouts_ok : forall m p, callouts_quiet call_callout calls (gic_after m irq (iprio line) p).

(** The timer's line has the driver's handler and the controller, and the
    timer's interrupt is the one the controller reports. *)
Record timer_waits s : Prop := TimerWaits {
  tw_line : single irq h fn priv line s;
  tw_fn : fn <> NULL;
  tw_alone : ctrue (Z.land (iattr line) IRQ_ATTR_NON_NESTABLE) = true;
  tw_ctrlr : ctrlrp line <> NULL;
  tw_ring : is_ring (links s) FindIrqsHead [FinderLink f0];
  tw_finder : finders s !! f0 = Some g0;
  tw_finder_fn : g0 <> NULL;
  tw_mask : 0 <= pmr (state (ext s)) < 256;
  tw_tick : tick_fits (ext s);
  tw_pending : head (filter (fun i => Gic.pending (state (ext s)) i) (seqZ 0 64)) = Some irq }.

Lemma a64_handler_ticks m : ticks call_handler time_slice calls irq exc fn priv (gic_busy m irq (iprio line)) (gic_after m irq (iprio line)).
Proof.
  intros s cs th n p [Et Hs [q HI] HC Hf] Hn H0 (-> & Hp & Hb & Hfit). rewrite handler_is.
  destruct (aarch64_timer_handler_eq call_callout time_slice irq exc priv s Hfit) as (x & E & Ha & El & Em & Ew & Ec).
  destruct (timer_tick_spec call_callout time_slice calls (gic_after m irq (iprio line) m) (with_ext s x) cs th n) as (a & s' & E' & -> & HTk & HA); try done.
  - split_and!; [done|by cbn; rewrite Em| |done]. unfold Gic.pending. cbn [ext with_ext]. by rewrite El, Hb, Ew, andb_false_r.
  - exists q. eapply rdq_inv_ext; [..|exact HI]; eauto.
  - exists IRQ_HANDLED, s'. split; [by rewrite E|]. split_and!; [done| |done].
    destruct (ticked_dev time_slice calls s cs th x (ie s) s' Ec) as (Q & I & U & L & C & R & N); [|by destruct s].
    destruct s; exact HTk.
Qed.

Lemma a64_routed s : timer_waits s -> let m := pmr (state (ext s)) in
  routed ctrlr call_finder calls irq exc h fn priv line [f0] f0 (gic_waiting m irq) (gic_open m) (gic_busy m irq (iprio line)) (gic_after m irq (iprio line)) (gic_done m irq) s.
Proof.
  intros [A1 A2 A3 A4 A5 A6 A7 A8 A9 A10] m. split; [done..| | |done].
  - rewrite ctrlr_is. apply gic_line_cycle; [unfold AARCH64_TIMER_IRQ; lia|done].
  - split; [done|set_solver| | |].
    + intros f ->%list_elem_of_singleton. by exists g0.
    + intros g Eg. simplify_eq. rewrite finder_is. apply gic_finder_acts.
    + by intros f g ->%list_elem_of_singleton.
Qed.

Lemma a64_timer_trap s cs th v e : tick_ready s cs th -> timer_waits s -> frames exc = Some e -> Z.land (exc_type e) 0xf = AARCH64_EXC_TYPE_INTERRUPT ->
  tinfos s !! tinfo th = Some v -> 0 <= preempt v < 2 ^ 64 -> pre_count (preempt v) THR_IRQCNT_SHIFT < 255 ->
  returns (hal_common_trap_handler ctrlr call_handler call_finder undef frames kprintf exc) s
    (fun _ s' => ticked time_slice calls s cs th s' /\ gic_done (pmr (state (ext s))) irq (ext s')).
Proof.
  intros HR HW Ef Ht Ev Hv Hc. unfold hal_common_trap_handler. apply returns_bind.
  eapply returns_eq; [by apply get_current_thread_info_eq, HR|]. rewrite Ef. apply returns_bind, returns_ret. rewrite Ht. cbn [Z.eqb AARCH64_EXC_TYPE_EXCEPTION AARCH64_EXC_TYPE_INTERRUPT].
  apply returns_bind, returns_ret. eapply timer_interrupt; [apply a64_handler_ticks|exact HR|by apply a64_routed|exact Ev|exact Hv|exact Hc].
Qed.

(** C11. A timer interrupt on AArch64, through the interrupt controller of the board.  When the timer's interrupt is the lowest pending one, a tick is a distance of at least 1 and less than 2^31 counts, and a thread runs with room in its interrupt count, the trap handler returns with the timer armed for the next tick, its interrupt no longer pending, the priority mask of the controller as before, and the effects of a tick on the clock, the call-outs and the running thread; and when the thread runs with all nesting counts 0 and this was the end of its time slice, the trap ends in the thread the ready queue designates. *)
Theorem a64_timer_interrupt_correct s cs th v e : tick_ready s cs th -> timer_waits s -> frames exc = Some e -> Z.land (exc_type e) 0xf = AARCH64_EXC_TYPE_INTERRUPT ->
  tinfos s !! tinfo th = Some v -> 0 <= preempt v < 2 ^ 64 -> pre_count (preempt v) THR_IRQCNT_SHIFT < 255 -> ie s = false ->
  exists s', hal_common_trap_handler ctrlr call_handler call_finder undef frames kprintf exc s = Ret tt s' /\
    timer_armed (ext s') /\ Gic.pending (state (ext s')) irq = false /\ pmr (state (ext s')) = pmr (state (ext s)) /\ tick_result time_slice calls s cs th v s' /\
    ((forall sh, sh = 0 \/ sh = 8 \/ sh = 16 -> pre_count (preempt v) sh = 0) -> is_Some (threads s !! idle_thread) -> slice_over (current s) th = true ->
     exists q, rdq_inv s' q /\
       if decide (sched_next q = current s)
       then returns (el1_irq ctrlr call_handler call_finder undef frames kprintf exc) s (fun _ s2 => current s2 = current s)
       else exists s2 k, el1_irq ctrlr call_handler call_finder undef frames kprintf exc s = Switch s2 k /\ current s2 = sched_next q /\ ie s2 = false).
Proof.
  intros HR HW Ef Ht Ev Hv Hc Hie. destruct (a64_timer_trap s cs th v e) as ([] & s' & E & HTk & Hp & Hn & Ha); [done..|].
  exists s'. split_and!; [exact E|done|done|done|by apply ticked_result|]. intros H0 Hidle Hov.
  assert (ie s' = false) as Hi' by (rewrite <-Hie; apply HTk).
  destruct (ticked_switch time_slice calls s cs th v s' false HR Ev Hv H0 Hidle Hov HTk) as (th' & v' & q & Et' & Ev' & Hlow & HI & HS).
  replace (with_ie s' false) with s' in HS by (destruct s'; cbn in *; by subst).
  exists q. split; [done|].
  assert (el1_irq ctrlr call_handler call_finder undef frames kprintf exc s = run_bind (sched_delay_disptach s')
    (fun _ st => Ret tt (with_ie st (Z.land (exc_spsr e) AARCH64_SPSR_DAIF_I_BIT =? 0)))) as EB.
  { unfold el1_irq, psw_disable_interrupt. mred. replace (with_ie s false) with s by (destruct s; cbn in *; by subst). rewrite E. mred.
    unfold leave_non_task_context. mred. rewrite (get_current_thread_info_eq _ th') by done. mred. rewrite (ti_get_eq _ _ v') by done. mred.
    rewrite Hlow. cbn [Z.eqb]. by rewrite Ef. }
  case_decide.
  - destruct HS as (s2 & E3 & Hcur & Hi). rewrite E3 in EB. eapply returns_eq; [exact EB|done].
  - destruct HS as (s2 & k & E3 & Hcur & Hi & HI2 & U2). rewrite E3 in EB. eexists _, _. split_and!; [exact EB|done|done].
Qed.
End tick.
End board.

(** ** A board with the laws *)

Record board : Type := Board { b_gic : gic; b_ctl : Z; b_tval : Z; b_due : bool; b_freq : Z; b_interval : Z; b_log : list (fptr * Z) }.
Definition with_b_gic (x : board) (g : gic) : board := Board g (b_ctl x) (b_tval x) (b_due x) (b_freq x) (b_interval x) (b_log x).

#[export] Instance board_gic_device : GicDevice board := {| gic_mmio := {|
  mmio_read x a := let '(v, g) := mmio_read (b_gic x) a in (v, with_b_gic x g);
  mmio_write x a v := with_b_gic x (mmio_write (b_gic x) a v) |};
  state x := state (b_gic x) |}.

(** The wire follows the registers of the timer. *)
Definition rewire (x : board) : board := with_b_gic x (g_wire AARCH64_TIMER_IRQ ((Z.land (b_ctl x) 3 =? 1) && b_due x) (b_gic x)).
#[export] Instance board_timer : GenericTimer board := {|
  cntv_ctl := b_ctl; set_cntv_ctl x v := rewire (Board (b_gic x) v (b_tval x) (b_due x) (b_freq x) (b_interval x) (b_log x));
  cntv_tval := b_tval; set_cntv_tval x v := rewire (Board (b_gic x) (b_ctl x) (v mod 2 ^ 32) (s32 v <=? 0) (b_freq x) (b_interval x) (b_log x));
  cntv_due := b_due;
  cntfrq := b_freq;
  interval_us := b_interval; set_interval_us x v := Board (b_gic x) (b_ctl x) (b_tval x) (b_due x) (b_freq x) v (b_log x) |}.

Lemma board_read (x : board) a v : mmio_read (b_gic x) a = (v, b_gic x) -> mmio_read x a = (v, x).
Proof.
  intros E. change ((let '(v, g) := mmio_read (b_gic x) a in (v, with_b_gic x g)) = (v, x)).
  rewrite E. by destruct x.
Qed.

Lemma state_wire i b (g : gic) : state (g_wire i b g) ≡ g_wire i b (state g).
Proof. by destruct g. Qed.

#[export] Instance board_laws : BoardLaws board 0 b_log.
Proof.
  split; [|done|done|done|intros x v; apply state_wire..|done|done|done]. split; intros x.
  - apply (write_reg (D := gic)).
  - intros n Hn. destruct (read_pending (b_gic x) n Hn) as (v & E & Hv). exists v. split; [by apply board_read|done].
  - intros n Hn. destruct (read_prio (b_gic x) n Hn) as (v & E & Hv). exists v. split; [by apply board_read|done].
  - intros n Hn. destruct (read_target (b_gic x) n Hn) as (v & E & Hv). exists v. split; [by apply board_read|done].
  - intros n Hn. destruct (read_config (b_gic x) n Hn) as (v & E & Hv). exists v. split; [by apply board_read|done].
  - apply board_read, (read_pmr (b_gic x)).
  - intros Hp. destruct (read_spurious (b_gic x) Hp) as (v & E & Hv). exists v. split; [by apply board_read|done].
Qed.

(** The timer is due and its wire, which triggers by level, active. *)
Definition demo_board : board :=
  Board (Gic (fun _ => true) (fun _ => false) (fun i => 32 <=? i) (fun i => 27 =? i) (fun _ => 16) (fun _ => 1) 240 true true) 5 0 true 62500000 10000 [].
Definition demo_a64_line : irq_line := IrqLine 27 0x7 1 0x900.
Definition demo_a64_links : gmap loc (node loc) :=
  <[IrqHead 27 := Node (HandlerLink 60) (HandlerLink 60)]> (<[HandlerLink 60 := Node (IrqHead 27) (IrqHead 27)]>
  (<[FindIrqsHead := Node (FinderLink 70) (FinderLink 70)]> (<[FinderLink 70 := Node FindIrqsHead FindIrqsHead]> demo_timer_links))).
Definition demo_a64 : kst board :=
  Kst demo_a64_links false (threads demo_timer) {[0x2000 := ThreadInfo 0 100 THR_THREAD_INFO_MAGIC]} 100 0 ∅ ∅ ∅ 6 (callouts demo_timer)
    {[27 := demo_a64_line]} {[60 := IrqHandlerEnt 9 1]} {[70 := 8]} [] 0 demo_board.

(** Call-outs record their calls. *)
Definition demo_a64_call (f : fptr) (a : Z) : K board unit := fun s =>
  let x := ext s in Ret tt (with_ext s (Board (b_gic x) (b_ctl x) (b_tval x) (b_due x) (b_freq x) (b_interval x) (b_log x ++ [(f, a)]))).
Definition demo_a64_frame : exception_frame := ExceptionFrame 0x82 0 0x8000 0x40080000 0x5 (fun _ => 0).

Lemma demo_a64_ready : tick_ready demo_a64 [50; 51] demo_running.
Proof.
  split; [done|done| | |done].
  - exists (fun _ => []). split; [|intros p Hp; by rewrite Z.bits_0|cbn; lia|by intros p t _ Ht%elem_of_nil].
    apply demo_heads. repeat (constructor; [ring_decide|]). constructor.
  - split; [ring_decide|]. intros c Hc. rewrite !elem_of_cons in Hc. destruct Hc as [->|[->|Hc]]; [by eexists..|by apply elem_of_nil in Hc].
Qed.

Lemma demo_a64_waits : timer_waits 60 9 1 demo_a64_line 70 8 demo_a64.
Proof.
  split; [split_and!; [done|done|ring_decide]|done|done|done|ring_decide|done|done|split; [done|done]|by vm_compute|by vm_compute].
Qed.

Lemma a64_timer_interrupt_correct_witness :
  let irq_handle := el1_irq (fun _ => arm_gic_ctrlr 0) (fun _ irq exc p => aarch64_timer_handler demo_a64_call 10 irq exc p) (fun _ _ => gic_finder (B := 0) 0) 0
    (fun _ => Some demo_a64_frame) (fun _ _ => mret tt) in
  exists s' q, rdq_inv s' q /\ uptime s' = 7 /\ cntv_tval (ext s') = tick_distance (ext s') /\ Gic.pending (state (ext s')) 27 = false /\ b_log (ext s') = [(9, 1)] /\
    if decide (sched_next q = 100) then returns (irq_handle 0x7000) demo_a64 (fun _ s2 => current s2 = 100)
    else exists s2 k, irq_handle 0x7000 demo_a64 = Switch s2 k /\ current s2 = sched_next q /\ ie s2 = false.
Proof.
  intros irq_handle.
  destruct (a64_timer_interrupt_correct (B := 0) (calls := b_log) (fun _ => arm_gic_ctrlr 0)
    (fun _ irq exc p => aarch64_timer_handler demo_a64_call 10 irq exc p) (fun _ _ => gic_finder (B := 0) 0) demo_a64_call 10 0 0
    (fun _ => Some demo_a64_frame) (fun _ _ => mret tt) 0x7000 60 9 1 demo_a64_line 70 8 eq_refl eq_refl eq_refl
    ltac:(intros m p f a s n _ _ _ HD; eexists; split_and!; try done; apply quiet_ext)
    demo_a64 [50; 51] demo_running (ThreadInfo 0 100 THR_THREAD_INFO_MAGIC) demo_a64_frame demo_a64_ready demo_a64_waits)
    as (s' & E & [_ Ha] & Hp & _ & HT & HP);
    [reflexivity|reflexivity|reflexivity|split; [discriminate|reflexivity]|reflexivity|reflexivity|].
  destruct HP as (q & HI & HS); [intros sh [->|[->| ->]]; reflexivity|by eexists|reflexivity|].
  destruct HT as (_ & _ & U & L & _). exists s', q. split; [exact HI|]. split; [exact U|]. split; [exact Ha|]. split; [exact Hp|]. split; [exact L|]. exact HS.
Defined.
