(* ===== verification/X64Console.v ===== *)
(** hal/x64/console.c, hal/x64/early_console.c and include/hal-x64/uart.h: the
    console of the PC, on a serial port with an 8250.

    The chip is hardware behind I/O ports.  [Uart8250] gives its state [uart],
    with all the bytes it has handed to the processor and got from it;
    [Uart8250Laws] says what its data sheet says of the registers.  Which port
    the console is on is configured: [CON_COMBASE] and [UART_COM_IRQ]. *)
From S2P Require Import Printf Prelude Bitops KList Kernel ThreadInfo ReadyQueue Sched WaitQueue Timer Thread Irq CString FsState Mutex Blkio FsPart Port Console Trap CharIo.

Definition UART_DAT : Z := 0.
Definition UART_LLAT : Z := 0.
Definition UART_HLAT : Z := 1.
Definition UART_INTR : Z := 1.
Definition UART_FIFO : Z := 2.
Definition UART_IIR : Z := 2.
Definition UART_LCTRL : Z := 3.
Definition UART_MCTRL : Z := 4.
Definition UART_LSR : Z := 5.
Definition UART_SERIAL_FREQ : Z := 1846154.
Definition UART_INTERNAL_BIAS : Z := 16.
Definition UART_DEFAULT_BAUD : Z := 115200.
Definition UART_IIR_IDMASK : Z := 0x06.
Definition UART_IIR_THRI : Z := 0x02.
Definition UART_IIR_RDI : Z := 0x04.
Definition uart_getiir (val : Z) : Z := Z.land val UART_IIR_IDMASK.
Definition UART_MCTL_ENINTR : Z := 0x8.
Definition UART_MCTL_CONST : Z := Z.lor 0x1 0x2.
Definition uart_mk_mctl (func : Z) : Z := Z.lor func UART_MCTL_CONST.
Definition UART_LSR_RXRDY : Z := 0x01.
Definition UART_LSR_TXHOLD : Z := 0x20.
Definition UART_INTR_RDA : Z := 0x01.
Definition UART_INTR_TXE : Z := 0x02.

Section driver.
Context {X : Type} `{PortIO X} `{Consoles X} `{FsPart X}.
Variables (CON_COMBASE UART_COM_IRQ : Z).
Variable fuel : nat.
Variable ctrlr : ptr -> irq_ctrlr X.

(** ** hal/x64/early_console.c *)

(** [while (!(in_port_byte(CON_COMBASE + UART_LSR) & UART_LSR_TXHOLD));] *)
Fixpoint spin_txhold (fuel : nat) : K X unit :=
  v ← in_port_byte (CON_COMBASE + UART_LSR);
  if ctrue (Z.land v UART_LSR_TXHOLD) then mret tt
  else match fuel with O => stopM OutOfFuel | S fuel => spin_txhold fuel end.

Definition uart8250_putc (ch : Z) : K X unit :=
  psw ← psw_disable_and_save_interrupt;
  spin_txhold fuel;;
  out_port_byte CON_COMBASE (s8 ch);;
  psw_restore_interrupt psw.

Definition baud_setting : Z := wrap 16 (UART_SERIAL_FREQ / UART_INTERNAL_BIAS / UART_DEFAULT_BAUD).

(** The accesses both initialisations start with. *)
Definition uart_setup : K X unit :=
  out_port_byte (CON_COMBASE + UART_INTR) 0;;
  out_port_byte (CON_COMBASE + UART_MCTRL) (uart_mk_mctl 0);;
  out_port_byte (CON_COMBASE + UART_LLAT) (Z.land baud_setting 0xff);;
  out_port_byte (CON_COMBASE + UART_HLAT) (Z.shiftr baud_setting 8);;
  out_port_byte (CON_COMBASE + UART_LCTRL) 0x03.

(** [uart_console] is the address of the console object, [putc] that of
    [uart8250_putc]. *)
Definition uart8250_init (uart_console : ptr) (putc : fptr) : K X unit :=
  uart_setup;;
  out_port_byte (CON_COMBASE + UART_FIFO) 0;;
  con ← con_get uart_console;
  con_put uart_console (Kconsole (con_x con) (con_y con) putc (cls con) (locate con));;
  register_kconsole uart_console;;
  mret tt.

(** ** hal/x64/console.c *)

Definition x64_rx_ready : K X bool := v ← in_port_byte (CON_COMBASE + UART_LSR); mret (ctrue (Z.land v UART_LSR_RXRDY)).
Definition x64_tx_ready : K X bool := v ← in_port_byte (CON_COMBASE + UART_LSR); mret (ctrue (Z.land v UART_LSR_TXHOLD)).

(** The result and the characters stored at [dst]; [char] is signed. *)
Definition x64_console_read (ip f : ptr) (off counts : Z) : K X (Z * list Z) :=
  cs ← read_chars fuel x64_rx_ready (v ← in_port_byte CON_COMBASE; mret (s8 v)) WqConsRx (Z.to_nat counts);
  mret (s64 counts, cs).

Definition x64_console_write (ip f : ptr) (src : list Z) (off counts : Z) : K X Z :=
  write_chars fuel x64_tx_ready (fun c => out_port_byte (CON_COMBASE + UART_DAT) (u8 c)) WqConsTx src (Z.to_nat counts);;
  mret (s64 counts).

(** [private] points to the two wait queues. *)
Definition x64_uart_handler (irq : Z) (exc : ptr) (private : Z) : K X Z :=
  psw ← psw_disable_and_save_interrupt;
  v ← in_port_byte (CON_COMBASE + UART_IIR);
  let intr_id := uart_getiir v in
  when (ctrue (Z.land intr_id UART_IIR_RDI)) (wque_wakeup WqConsRx WQUE_REASON_WAKEUP);;
  when (ctrue (Z.land intr_id UART_IIR_THRI)) (wque_wakeup WqConsTx WQUE_REASON_WAKEUP);;
  psw_restore_interrupt psw;;
  mret IRQ_HANDLED.

(** [read], [write] and [handler] are the addresses of the functions above,
    [x64_console] that of the structure with the wait queues. *)
Definition x64_console_init (read write handler : fptr) (x64_console : ptr) : K X unit :=
  wque_init_wait_queue WqConsRx;;
  wque_init_wait_queue WqConsTx;;
  uart_setup;;
  irq_register_handler ctrlr UART_COM_IRQ (Z.lor (Z.lor IRQ_ATTR_NESTABLE IRQ_ATTR_EXCLUSIVE) IRQ_ATTR_EDGE) 0 x64_console handler;;
  out_port_byte (CON_COMBASE + UART_FIFO) 0x0;;
  out_port_byte (CON_COMBASE + UART_INTR) (Z.lor UART_INTR_RDA UART_INTR_TXE);;
  out_port_byte (CON_COMBASE + UART_MCTRL) (uart_mk_mctl UART_MCTL_ENINTR);;
  lift (register_device_driver fuel CONS_DEV (DeviceDriver 0 0 0 NULL NULL read write NULL NULL) NULL);;
  mret tt.
End driver.

(** ** The chip *)

(** The registers that only the processor changes; bit 7 of [lcr] maps the
    divisor in place of the data and interrupt enable registers. *)
Record uart_cfg : Type := UartCfg { ier : Z; lcr : Z; mcr : Z; fcr : Z; dll : Z; dlm : Z }.
Record uart8250 : Type := Uart { rx_avail : bool; tx_empty : bool; received : list Z; sent : list Z; cfg : uart_cfg }.
Definition dlab (u : uart8250) : bool := Z.testbit (lcr (cfg u)) 7.

(** The effect of a write of any register but the data register. *)
Definition cfg_write (r v : Z) (c : uart_cfg) : uart_cfg :=
  let '(UartCfg i l m f a b) := c in
  let d := Z.testbit l 7 in
  if r =? 0 then (if d then UartCfg i l m f v b else c)
  else if r =? 1 then (if d then UartCfg i l m f a v else UartCfg v l m f a b)
  else if r =? 2 then UartCfg i l m v a b
  else if r =? 3 then UartCfg i v m f a b
  else if r =? 4 then UartCfg i l v f a b
  else c.
Definition with_cfg (u : uart8250) (c : uart_cfg) : uart8250 := Uart (rx_avail u) (tx_empty u) (received u) (sent u) c.

(** Time passes: data may arrive, the transmitter may become empty. *)
Definition line_moves (u u' : uart8250) : Prop :=
  (rx_avail u = true -> rx_avail u' = true) /\ (tx_empty u = true -> tx_empty u' = true) /\
  received u' = received u /\ sent u' = sent u /\ cfg u' = cfg u.

(** [tx_wait] bounds the readings of the line status until the transmitter is
    empty. *)
Class Uart8250 (X : Type) : Type := {
  uart_ports :: PortIO X;
  uart : X -> uart8250;
  tx_wait : X -> nat }.

Class Uart8250Laws (X : Type) (B : Z) `{Uart8250 X} : Prop := {
  in_lsr : forall x, exists v x', port_in x (B + 5) = (v, x') /\ Z.testbit v 0 = rx_avail (uart x') /\ Z.testbit v 5 = tx_empty (uart x') /\
    line_moves (uart x) (uart x') /\ (tx_empty (uart x') = true \/ (tx_wait x' < tx_wait x)%nat);
  in_dat : forall x, dlab (uart x) = false -> rx_avail (uart x) = true ->
    exists v x', port_in x B = (v, x') /\ 0 <= v < 256 /\ received (uart x') = received (uart x) ++ [v] /\ sent (uart x') = sent (uart x) /\ cfg (uart x') = cfg (uart x);
  in_iir : forall x, exists v x', port_in x (B + 2) = (v, x') /\ line_moves (uart x) (uart x') /\
    (Z.testbit (ier (cfg (uart x))) 2 = false -> Z.testbit (ier (cfg (uart x))) 0 = true -> rx_avail (uart x) = true -> Z.land v 6 = 4);
  out_dat : forall x v, dlab (uart x) = false -> tx_empty (uart x) = true -> 0 <= v < 256 -> let x' := port_out x B v in
    sent (uart x') = sent (uart x) ++ [v] /\ received (uart x') = received (uart x) /\ cfg (uart x') = cfg (uart x);
  out_cfg : forall x r v, 0 <= r < 5 -> r <> 0 \/ dlab (uart x) = true -> 0 <= v < 256 -> let x' := port_out x (B + r) v in
    uart x' = with_cfg (uart x) (cfg_write r v (cfg (uart x))) }.

(** The chip and the objects of the kernel are different parts of the machine. *)
Class UartConsoles (X : Type) `{Uart8250 X} `{Consoles X} : Prop := {
  out_consoles : forall x p v, consoles (port_out x p v) = consoles x;
  in_consoles : forall x p, consoles (port_in x p).2 = consoles x;
  get_consoles : forall x m, consoles (set_consoles x m) = m;
  set_uart : forall x m, uart (set_consoles x m) = uart x }.

Section properties.
Context {X : Type} {B : Z} `{HU : Uart8250 X} `{HL : !Uart8250Laws X B} `{HC : Consoles X} `{HF : FsPart X}.
Implicit Types (s : kst X).

(** The data register is mapped. *)
Definition set_up (x : X) : Prop := dlab (uart x) = false.

Lemma set_up_cfg x x' : cfg (uart x') = cfg (uart x) -> set_up x -> set_up x'.
Proof. unfold set_up, dlab. by intros ->. Qed.

Lemma ctrue_land_bit v i : 0 <= i -> ctrue (Z.land v (Z.shiftl 1 i)) = Z.testbit v i.
Proof. apply land_pow2_testbit. Qed.

Lemma x64_rx_tests : tests set_up (fun x => rx_avail (uart x)) (fun x => s8 <$> received (uart x)) (x64_rx_ready B).
Proof.
  intros s HD. destruct (in_lsr (ext s)) as (v & x & E & Hr & _ & (M1 & _ & M3 & _ & M5) & _).
  unfold x64_rx_ready. rewrite (bind_ret _ _ _ _ _ (in_port_byte_eq _ _ _ _ E)). exists (Z.testbit v 0), x.
  split; [by rewrite <-(ctrue_land_bit v 0)|]. rewrite Hr, M3. split_and!; [auto|done|done|by eapply set_up_cfg].
Qed.

Lemma x64_tx_tests : tests set_up (fun x => tx_empty (uart x)) (fun x => sent (uart x)) (x64_tx_ready B).
Proof.
  intros s HD. destruct (in_lsr (ext s)) as (v & x & E & _ & Hr & (_ & M2 & _ & M4 & M5) & _).
  unfold x64_tx_ready. rewrite (bind_ret _ _ _ _ _ (in_port_byte_eq _ _ _ _ E)). exists (Z.testbit v 5), x.
  split; [by rewrite <-(ctrue_land_bit v 5)|]. rewrite Hr, M4. split_and!; [auto|done|done|by eapply set_up_cfg].
Qed.

Lemma x64_recv_eq s : set_up (ext s) -> rx_avail (uart (ext s)) = true ->
  exists r x, (v ← in_port_byte B; mret (s8 v) : K X Z) s = Ret r (with_ext s x) /\ s8 <$> received (uart x) = (s8 <$> received (uart (ext s))) ++ [r] /\ set_up x.
Proof.
  intros HD Hr. destruct (in_dat (ext s) HD Hr) as (v & x & E & _ & HR & _ & Hc). exists (s8 v), x.
  rewrite (bind_ret _ _ _ _ _ (in_port_byte_eq _ _ _ _ E)), HR, fmap_app. split_and!; [done|done|by eapply set_up_cfg].
Qed.

Lemma x64_send_eq c s : set_up (ext s) -> tx_empty (uart (ext s)) = true ->
  exists x, out_port_byte (B + UART_DAT) (u8 c) s = Ret tt (with_ext s x) /\ sent (uart x) = sent (uart (ext s)) ++ [u8 c] /\ set_up x.
Proof.
  intros HD Hr. assert (0 <= u8 c < 256) as Hc by by apply wrap_range.
  destruct (out_dat (ext s) (u8 c) HD Hr Hc) as (HS & _ & Hcf). eexists. unfold out_port_byte. mred. split; [done|].
  replace (B + UART_DAT) with B by (unfold UART_DAT; lia). replace (u8 (u8 c)) with (u8 c) by (symmetry; by apply wrap_small).
  split; [done|by eapply set_up_cfg].
Qed.

(** C21. Reading and writing characters on the console.  A read of [counts] characters stores the next [counts] bytes the serial line delivers, in order, with carriage returns turned into newlines, and returns [counts]; a write puts the bytes on the line in order and returns their number.  The thread gives the processor up only to wait, with interrupts disabled, and its interrupt flag is restored; when it is woken only with the device ready, one round of the loop is enough and the call always returns. *)
Theorem x64_console_correct fuel early t ti ip f off counts s : 0 <= counts < 2 ^ 63 -> (early = false -> (0 < fuel)%nat) -> set_up (ext s) ->
  (can_wait s WqConsRx t ti ->
   wp (tired early) (gives_up t) (woken_ready set_up (fun x => rx_avail (uart x)) (fun x => s8 <$> received (uart x)) early WqConsRx t ti)
     (x64_console_read B fuel ip f off counts s)
     (fun r s' => ie s' = ie s /\ r.1 = counts /\ exists raw, Z.of_nat (length raw) = counts /\
        s8 <$> received (uart (ext s')) = (s8 <$> received (uart (ext s))) ++ raw /\ r.2 = newline <$> raw)) /\
  (forall src, counts <= Z.of_nat (length src) -> can_wait s WqConsTx t ti ->
   wp (tired early) (gives_up t) (woken_ready set_up (fun x => tx_empty (uart x)) (fun x => sent (uart x)) early WqConsTx t ti)
     (x64_console_write B fuel ip f src off counts s)
     (fun r s' => ie s' = ie s /\ r = counts /\ sent (uart (ext s')) = sent (uart (ext s)) ++ (u8 <$> take (Z.to_nat counts) src))).
Proof.
  intros Hc Hf HD. assert (s64 counts = counts) as Hs by (apply swrap_small; lia). split.
  - intros HW. apply wp_bind. eapply wp_mono; [|apply (read_chars_wp fuel set_up _ _ early WqConsRx t ti _ x64_rx_tests); [done|apply x64_recv_eq|done|done]].
    cbn. intros cs s' (Hie & _ & _ & raw & Hn & HR & ->). rewrite Hs. split_and!; [done..|]. exists raw. split_and!; [lia|done|done].
  - intros src Hl HW. apply wp_bind. eapply wp_mono; [|apply (write_chars_wp fuel set_up _ _ early WqConsTx t ti _ x64_tx_tests _ u8); [done|apply x64_send_eq|done|done|lia]].
    cbn. intros _ s' (Hie & _ & _ & HS). by rewrite Hs.
Qed.

(** The interrupt of the serial port, in an interrupt handler.  The readers are woken when the chip reports received data, and the writers when it reports an empty transmitter: each becomes ready, in the order they came, its queue is empty, a dispatch is asked for, and the handler returns without a switch; with the interrupt for received data enabled and no line status interrupts, data that has arrived wakes the readers. *)
Theorem x64_uart_handler_correct irq exc priv s q th v es1 ts1 es2 ts2 :
  in_handler s q th v -> wait_inv s WqConsRx es1 ts1 -> wait_inv s WqConsTx es2 ts2 -> ts1 ## ts2 ->
  exists iir x s', port_in (ext s) (B + 2) = (iir, x) /\ x64_uart_handler B irq exc priv s = Ret IRQ_HANDLED s' /\
    let rx := Z.testbit iir 2 in let tx := Z.testbit iir 1 in let W := chosen rx ts1 ++ chosen tx ts2 in
    (Z.testbit (ier (cfg (uart (ext s)))) 2 = false -> Z.testbit (ier (cfg (uart (ext s)))) 0 = true -> rx_avail (uart (ext s)) = true -> rx = true) /\
    ie s' = ie s /\ current s' = current s /\ line_moves (uart (ext s)) (uart (ext s')) /\
    wait_inv s' WqConsRx (chosen (negb rx) es1) (chosen (negb rx) ts1) /\ wait_inv s' WqConsTx (chosen (negb tx) es2) (chosen (negb tx) ts2) /\
    woken (threads s) W (threads s') /\
    exists v', rdq_inv s' (rdq_enqueue s q W) /\ tinfos s' !! tinfo th = Some v' /\ (forall sh, 0 <= sh <= 16 -> pre_count (preempt v') sh = pre_count (preempt v) sh) /\
      (W <> [] -> ti_check_need_dispatch v' = 1).
Proof.
  intros HH H1 H2 Hd. destruct (in_iir (ext s)) as (iir & x & E & HM & Hrx). set (s0 := with_ext (with_ie s false) x).
  destruct (wake_consoles_spec (Z.testbit iir 2) (Z.testbit iir 1) s0 q th v es1 ts1 es2 ts2) as ([] & s' & E' & (v' & HH' & P & N) & W1 & W2 & WK & I & Ex & C).
  1: by apply in_handler_dev. 1, 2: by apply wait_inv_dev. 1: done.
  assert (rdq_inv s' (rdq_enqueue s q (chosen (Z.testbit iir 2) ts1 ++ chosen (Z.testbit iir 1) ts2))) as HI' by apply HH'.
  exists iir, x, (with_ie s' (ie s)). cbv zeta. split_and!; try done.
  - unfold x64_uart_handler, psw_disable_and_save_interrupt, psw_restore_interrupt. mred.
    match goal with |- context [in_port_byte ?p ?st] => rewrite (in_port_byte_eq p iir x st E) end. mred.
    assert (forall i, 0 <= i -> Z.testbit 6 i = true -> ctrue (Z.land (uart_getiir iir) (Z.shiftl 1 i)) = Z.testbit iir i) as Hb.
    { intros i Hi Hb. rewrite ctrue_land_bit by done. unfold uart_getiir, UART_IIR_IDMASK. by rewrite Z.land_spec, Hb, andb_true_r. }
    change UART_IIR_RDI with (Z.shiftl 1 2). change UART_IIR_THRI with (Z.shiftl 1 1). rewrite !Hb by done. fold s0.
    pose proof (bind_seq _ _ (s1 ← get; put (with_ie s1 (ie s));; mret IRQ_HANDLED) s0 tt s' E') as EB. revert EB. unfold wake_consoles. mred. intros ->. done.
  - intros A1 A2 A3. specialize (Hrx A1 A2 A3). apply (f_equal (fun z => Z.testbit z 2)) in Hrx. rewrite Z.land_spec in Hrx. cbn in Hrx. by rewrite andb_true_r in Hrx.
  - cbn. by rewrite Ex.
  - by destruct W1.
  - by destruct W2.
  - exists v'. split_and!; [|apply HH'|done|done]. eapply rdq_inv_ext; [..|exact HI']; eauto.
Qed.

(** ** Kernel messages on the serial line *)

Context `{HP : !UartConsoles X}.
Variables (fuel : nat) (call_putchar : fptr -> Z -> K X unit) (putc : fptr) (uart_console : ptr).
Hypothesis putc_is : forall ch, call_putchar putc ch = uart8250_putc B fuel ch.
Hypothesis putc_fn : putc <> NULL.
(** A character is sent within [fuel] readings of the line status. *)
Hypothesis char_time : forall x, (tx_wait x <= fuel)%nat.

Lemma spin_txhold_eq n s : (tx_wait (ext s) <= n)%nat -> set_up (ext s) ->
  exists x, spin_txhold B n s = Ret tt (with_ext s x) /\ tx_empty (uart x) = true /\ sent (uart x) = sent (uart (ext s)) /\ consoles x = consoles (ext s) /\ set_up x.
Proof.
  revert s. induction n as [|n IH]; intros s Hn HD; destruct (in_lsr (ext s)) as (v & x & E & _ & Ht & (_ & _ & _ & M4 & M5) & Hw);
    pose proof (in_consoles (ext s) (B + 5)) as Hc; rewrite E in Hc; cbn [snd] in Hc; cbn [spin_txhold];
    rewrite (bind_ret _ _ _ _ _ (in_port_byte_eq _ _ _ _ E)); change UART_LSR_TXHOLD with (Z.shiftl 1 5); rewrite ctrue_land_bit, Ht by done.
  - destruct (tx_empty (uart x)) eqn:Ee; [|destruct Hw; [done|lia]]. exists x. split_and!; [done..|by eapply set_up_cfg].
  - destruct (tx_empty (uart x)) eqn:Ee; [exists x; split_and!; [done..|by eapply set_up_cfg]|]. destruct Hw as [?|Hw]; [done|].
    destruct (IH (with_ext s x)) as (x' & E' & H1 & H2 & H3 & H4); [cbn; lia|by eapply set_up_cfg|]. cbn in H2, H3. exists x'. split_and!; [done|done|congruence|congruence|done].
Qed.

Lemma u8_s8 c : u8 (s8 c) = u8 c.
Proof.
  unfold u8, s8, wrap, swrap. replace ((c + 2 ^ (8 - 1)) mod 2 ^ 8 - 2 ^ (8 - 1)) with (c + - ((c + 128) / 256) * 256).
  - apply Z_mod_plus_full.
  - change (2 ^ (8 - 1)) with 128. change (2 ^ 8) with 256. rewrite Z.mod_eq by lia. lia.
Qed.

Lemma uart8250_putc_puts ch : puts_out set_up (fun x => sent (uart x)) (uart8250_putc B fuel ch) [u8 ch].
Proof.
  intros s Hie HD. destruct (spin_txhold_eq fuel (with_ie s false)) as (x & E & Ht & HS & Hc & HDx); [apply char_time|done|].
  assert (0 <= u8 ch < 256) as Hr by by apply wrap_range. destruct (out_dat x (u8 ch) HDx Ht Hr) as (HS' & _ & Hcf).
  exists (port_out x B (u8 ch)). split_and!.
  - unfold uart8250_putc, psw_disable_and_save_interrupt, psw_restore_interrupt, out_port_byte. mred. rewrite E. mred. cbn. rewrite u8_s8. by destruct s.
  - by rewrite HS', HS.
  - by rewrite out_consoles, Hc.
  - by eapply set_up_cfg.
Qed.

(** The five accesses of the set-up, with the divisor not mapped. *)
Lemma uart_setup_eq s : set_up (ext s) -> tx_empty (uart (ext s)) = true ->
  exists x, uart_setup B s = Ret tt (with_ext s x) /\ sent (uart x) = sent (uart (ext s)) ++ [1] /\ received (uart x) = received (uart (ext s)) /\
    cfg (uart x) = UartCfg 0 3 3 (fcr (cfg (uart (ext s)))) (dll (cfg (uart (ext s)))) (dlm (cfg (uart (ext s)))) /\ consoles x = consoles (ext s).
Proof.
  intros HD Ht. set (x := ext s) in *. set (x1 := port_out x (B + 1) 0). set (x2 := port_out x1 (B + 4) 3). set (x3 := port_out x2 B 1). set (x4 := port_out x3 (B + 1) 0).
  exists (port_out x4 (B + 3) 3).
  assert (uart_setup B s = Ret tt (with_ext s (port_out x4 (B + 3) 3))) as E.
  { unfold uart_setup, out_port_byte. mred. cbn [ext with_ext]. change (u8 (Z.land baud_setting 0xff)) with 1. unfold UART_LLAT. rewrite Z.add_0_r. by destruct s. }
  assert (uart x1 = with_cfg (uart x) (cfg_write 1 0 (cfg (uart x)))) as E1 by (apply out_cfg; [lia|by left|lia]).
  assert (uart x2 = with_cfg (uart x1) (cfg_write 4 3 (cfg (uart x1)))) as E2 by (apply out_cfg; [lia|by left|lia]).
  unfold set_up, dlab in HD. destruct (uart x) as [ra te rc sn [i l m f a b]]. cbn in HD, Ht. subst te.
  rewrite E1 in E2. cbn in E2. rewrite HD in E2. cbn in E2.
  destruct (out_dat x2 1) as (S3 & R3 & C3); [by rewrite E2|by rewrite E2|lia|]. fold x3 in S3, R3, C3. rewrite E2 in S3, R3, C3. cbn in S3, R3, C3.
  assert (uart x4 = with_cfg (uart x3) (cfg_write 1 0 (cfg (uart x3)))) as E4 by (apply out_cfg; [lia|by left|lia]).
  rewrite C3 in E4. cbn in E4. rewrite HD in E4.
  rewrite (out_cfg x4 3 3) by (lia || by left). rewrite E4. cbn. unfold x4, x3, x2, x1. rewrite !out_consoles. split_and!; done.
Qed.

(** C23. The console of the early kernel.  When the divisor is not mapped and the transmitter is empty, [uart8250_init] sends the byte 1 (the divisor, which it writes without mapping it, so that the rate stays as it was), disables the interrupts of the chip, sets 8 bits without parity and registers the console; from then on a message that fits the buffer of [kprintf] appears on the serial line, byte for byte. *)
Theorem x64_early_console_correct s : set_up (ext s) -> tx_empty (uart (ext s)) = true -> cons_inv s [] -> uart_console <> NULL ->
  consoles (ext s) !! uart_console = Some KCONSOLE_INITILIZER -> is_ring (links s) (KconsLink uart_console) [] ->
  exists s', uart8250_init B uart_console putc s = Ret tt s' /\ cons_inv s' [uart_console] /\
    cfg (uart (ext s')) = UartCfg 0 3 3 0 (dll (cfg (uart (ext s)))) (dlm (cfg (uart (ext s)))) /\ sent (uart (ext s')) = sent (uart (ext s)) ++ [1] /\
    forall junk fmt ap rc txt, Printf.kprintf junk fmt ap = Some (rc, txt) ->
      exists x, kprintf call_putchar junk fmt ap s' = Ret rc (with_ext s' x) /\ sent (uart x) = sent (uart (ext s')) ++ (u8 <$> txt).
Proof.
  intros HD Ht HI Hn Hcon HR. destruct (uart_setup_eq s HD Ht) as (x1 & E1 & S1 & _ & C1 & K1).
  set (x2 := port_out x1 (B + 2) 0). assert (uart x2 = with_cfg (uart x1) (cfg_write 2 0 (cfg (uart x1)))) as E2 by (apply out_cfg; [lia|by left|lia]).
  assert (consoles x2 = consoles (ext s)) as K2 by (unfold x2; by rewrite out_consoles).
  set (con := Kconsole 0 0 putc NULL NULL). set (x3 := set_consoles x2 (<[uart_console := con]> (consoles x2))).
  assert (uart x3 = uart x2) as E3 by apply set_uart. assert (consoles x3 !! uart_console = Some con) as K3 by (unfold x3; by rewrite get_consoles, lookup_insert_eq).
  destruct (register_eq (with_ext s x3) [] uart_console con) as (m & E & HI' & _); [|done|done|done|done|].
  { destruct HI as [R _]. split; [exact R|]. by intros c ?%elem_of_nil. }
  exists (with_links (with_ext s x3) m). rewrite C1 in E2. cbn in E2. split_and!; [|done|cbn; by rewrite E3, E2|cbn; rewrite E3, E2; cbn; by rewrite S1|].
  - assert (consoles (ext (with_ext s x2)) !! uart_console = Some KCONSOLE_INITILIZER) as Hcon2 by (cbn; by rewrite K2).
    unfold uart8250_init. rewrite (bind_ret _ _ _ _ _ E1), (bind_ret _ _ (with_ext s x1) tt (with_ext s x2)) by done.
    by rewrite (bind_ret _ _ _ _ _ (con_get_eq _ _ _ Hcon2)), (bind_ret _ _ _ _ _ (con_put_eq _ _ _ _ Hcon2)), (bind_ret _ _ _ _ _ E).
  - intros junk fmt ap rc txt Ep.
    destruct (kprintf_single set_up (fun x => sent (uart x)) call_putchar u8 uart_console con (with_links (with_ext s x3) m) junk fmt ap rc txt) as (x & Ek & HS & _);
      [done|done|done|intros ch; cbn; rewrite putc_is; apply uart8250_putc_puts|unfold set_up, dlab; cbn; by rewrite E3, E2|done|]. by exists x.
Qed.
End properties.

(** ** A machine with the laws

    The bytes that will arrive, and the state of the chip; the transmitter is
    empty again when the line status is read. *)
Record pc : Type := Pc { p_in : list Z; p_tx : bool; p_received : list Z; p_sent : list Z; p_cfg : uart_cfg; p_cons : gmap ptr kconsole_t }.
Definition pc_base : Z := 0x3f8.
Definition pc_uart (x : pc) : uart8250 := Uart (bool_decide (p_in x <> [])) (p_tx x) (p_received x) (p_sent x) (p_cfg x).

Definition pc_port_in (x : pc) (p : Z) : Z * pc :=
  if p =? pc_base + 5 then ((if bool_decide (p_in x <> []) then 0x21 else 0x20), Pc (p_in x) true (p_received x) (p_sent x) (p_cfg x) (p_cons x))
  else if p =? pc_base + 2 then ((if bool_decide (p_in x <> []) then 4 else 2), x)
  else match p_in x with
       | b :: r => (u8 b, Pc r (p_tx x) (p_received x ++ [u8 b]) (p_sent x) (p_cfg x) (p_cons x))
       | [] => (0, x)
       end.
Definition pc_port_out (x : pc) (p v : Z) : pc :=
  if (p =? pc_base) && negb (dlab (pc_uart x)) then Pc (p_in x) false (p_received x) (p_sent x ++ [v]) (p_cfg x) (p_cons x)
  else Pc (p_in x) (p_tx x) (p_received x) (p_sent x) (cfg_write (p - pc_base) v (p_cfg x)) (p_cons x).

#[export] Instance pc_device : Uart8250 pc := {| uart_ports := {| port_in := pc_port_in; port_out := pc_port_out |}; uart := pc_uart; tx_wait _ := O |}.
#[export] Instance pc_consoles : Consoles pc := {| consoles := p_cons; set_consoles x m := Pc (p_in x) (p_tx x) (p_received x) (p_sent x) (p_cfg x) m |}.

#[export] Instance pc_laws : Uart8250Laws pc pc_base.
Proof.
  split; cbn [port_in port_out uart_ports pc_device uart].
  - intros x. eexists _, _. split; [reflexivity|]. cbn. split_and!; [by case_bool_decide|by case_bool_decide|by split_and!|by left].
  - intros [[|b r] t rc sn c m] _ Hr; [done|]. eexists _, _. split; [reflexivity|]. cbn. split_and!; try done; apply wrap_range; lia.
  - intros x. eexists _, _. split; [reflexivity|]. cbn. split_and!; [by split_and!|]. intros _ _ Hr. unfold pc_uart in Hr. cbn in Hr. by rewrite Hr.
  - intros x v Hd _ _. unfold pc_port_out. rewrite Hd. by cbn.
  - intros x r v Hr Hd _. unfold pc_port_out. replace (pc_base + r - pc_base) with r by lia.
    destruct (Z.eqb_spec (pc_base + r) pc_base); [|done]. destruct Hd as [?| ->]; [lia|done].
Qed.

#[export] Instance pc_parts : UartConsoles pc.
Proof.
  split; cbn; try done.
  - intros x p v. unfold pc_port_out. by case_match.
  - intros x p. unfold pc_port_in. repeat case_match; done.
Qed.

(** "A", carriage return and "B" are about to arrive. *)
Definition pc_demo : pc := Pc [65; 13; 66] true [] [] (UartCfg 1 3 3 0 0 0) ∅.

Lemma x64_console_correct_witness :
  wp (tired false) (gives_up 100) (woken_ready set_up (fun x : pc => rx_avail (uart x)) (fun x => s8 <$> received (uart x)) false WqConsRx 100 0x2000)
    (x64_console_read pc_base 1 NULL NULL 0 3 (demo_char 0 pc_demo))
    (fun r s' => ie s' = true /\ r.1 = 3 /\ exists raw, Z.of_nat (length raw) = 3 /\
       s8 <$> received (uart (ext s')) = raw /\ r.2 = newline <$> raw) /\
  wp (tired false) (gives_up 100) (woken_ready set_up (fun x : pc => tx_empty (uart x)) (fun x => sent (uart x)) false WqConsTx 100 0x2000)
    (x64_console_write pc_base 1 NULL NULL [72; 105; 10] 0 3 (demo_char 0 pc_demo))
    (fun r s' => ie s' = true /\ r = 3 /\ sent (uart (ext s')) = [72; 105; 10]).
Proof.
  destruct (x64_console_correct (B := pc_base) 1 false 100 0x2000 NULL NULL 0 3 (demo_char 0 pc_demo)) as [HR HW];
    [split; [discriminate|reflexivity]|intros _; apply Nat.lt_0_succ|reflexivity|].
  split.
  - exact (HR (demo_char_wait pc_demo WqConsRx (or_introl eq_refl))).
  - exact (HW [72; 105; 10] ltac:(discriminate) (demo_char_wait pc_demo WqConsTx (or_intror eq_refl))).
Defined.

Lemma x64_uart_handler_correct_witness :
  exists s' v', x64_uart_handler pc_base 4 0x7000 0 (demo_char 0x100 pc_demo) = Ret IRQ_HANDLED s' /\
    wait_inv s' WqConsRx [] [] /\ rdq_inv s' (rdq_enqueue (demo_char 0x100 pc_demo) demo_wait_q [101]) /\
    tinfos s' !! 0x2000 = Some v' /\ ti_check_need_dispatch v' = 1.
Proof.
  destruct (x64_uart_handler_correct (B := pc_base) 4 0x7000 0 (demo_char 0x100 pc_demo) demo_wait_q demo_char_thread
    (ThreadInfo 0x100 100 THR_THREAD_INFO_MAGIC) [7] [101] [] [] (demo_char_handler pc_demo) (demo_char_rx _ _) (demo_char_tx _ _))
    as (iir & x & s' & Ep & E & _ & _ & _ & _ & W1 & _ & _ & v' & HI & Ev & _ & N); [set_solver|].
  injection Ep as <- <-. exists s', v'. split_and!; [exact E|exact W1|exact HI|exact Ev|]. apply N. discriminate.
Defined.

(** The chip after a reset, with the console object of the early kernel at 10. *)
Definition pc_boot : kst pc :=
  Kst (<[KconsHead := Node KconsHead KconsHead]> {[KconsLink 10 := Node (KconsLink 10) (KconsLink 10)]}) true ∅ ∅ 0 0 ∅ ∅ ∅ 0 ∅ ∅ ∅ ∅ [] 0
    (Pc [] true [] [] (UartCfg 0 0 0 0 12 0) {[10 := KCONSOLE_INITILIZER]}).

Lemma x64_early_console_correct_witness :
  exists s' x, uart8250_init pc_base 10 5 pc_boot = Ret tt s' /\
    kprintf (fun _ => uart8250_putc pc_base 0) (replicate 128 7) [72; 105; 10; 0] [] s' = Ret 3 (with_ext s' x) /\
    sent (uart x) = [1; 72; 105; 10].
Proof.
  destruct (x64_early_console_correct (B := pc_base) 0 (fun _ => uart8250_putc pc_base 0) 5 10 (fun _ => eq_refl) ltac:(discriminate)
    (fun _ => le_n 0) pc_boot) as (s' & E & _ & _ & S & HP); [reflexivity|reflexivity| |discriminate|reflexivity|ring_decide|].
  - split; [ring_decide|]. by intros c ?%elem_of_nil.
  - destruct (HP (replicate 128 7) [72; 105; 10; 0] [] 3 [72; 105; 10]) as (x & Ek & Sx); [vm_compute; reflexivity|].
    exists s', x. split; [exact E|]. split; [exact Ek|]. rewrite Sx, S. reflexivity.
Defined.
