(* ===== verification/A64Console.v ===== *)
(** hal/aarch64/console.c, hal/aarch64/early_console.c and the part of
    include/hal-aarch64/board.h on the UART: the console of the AArch64 board, on
    a PL011.

    The device is hardware behind registers in memory.  [Pl011] gives its state
    [line], with all the bytes it has handed to the processor and got from it;
    [Pl011Laws] says what its manual says of the registers.  [char] is unsigned on
    this processor. *)
From S2P Require Import Printf Prelude Bitops KList Kernel ThreadInfo ReadyQueue Sched WaitQueue Timer Thread Irq CString FsState Mutex Blkio FsPart Port PageTable Console Trap CharIo.

Definition UART_BASE : Z := 0x9000000.
Definition AARCH64_UART_IRQ : Z := 33.
Definition UART_IMSC_RXIM : Z := 0x10.
Definition UART_IMSC_TXIM : Z := 0x20.
Definition UART_FR_RXFE : Z := 0x10.
Definition UART_FR_TXFF : Z := 0x20.
Definition UART_LCRH_WLEN8 : Z := 0x60.
Definition UART_CR_UARTEN : Z := 0x1.
Definition UART_CR_TXE : Z := 0x100.
Definition UART_CR_RXE : Z := 0x200.
Definition UART_CLR_ALL_INTR : Z := Z.shiftl 1 11 - 1.

Section driver.
Context {X : Type} `{Mmio X} `{Consoles X} `{FsPart X}.
Variable V : Z. (* [KERN_VMA_BASE] *)
Variables (UART_IBRD_VAL UART_FBRD_VAL : Z). (* configured *)
Variable fuel : nat.
Variable ctrlr : ptr -> irq_ctrlr X.

Definition UART_DR : Z := PHY_TO_KERN_STRAIGHT V UART_BASE.
Definition UART_FR : Z := PHY_TO_KERN_STRAIGHT V (UART_BASE + 0x18).
Definition UART_IBRD : Z := PHY_TO_KERN_STRAIGHT V (UART_BASE + 0x24).
Definition UART_FBRD : Z := PHY_TO_KERN_STRAIGHT V (UART_BASE + 0x28).
Definition UART_LCRH : Z := PHY_TO_KERN_STRAIGHT V (UART_BASE + 0x2c).
Definition UART_CR : Z := PHY_TO_KERN_STRAIGHT V (UART_BASE + 0x30).
Definition UART_IMSC : Z := PHY_TO_KERN_STRAIGHT V (UART_BASE + 0x38).
Definition UART_ICR : Z := PHY_TO_KERN_STRAIGHT V (UART_BASE + 0x44).

(** ** hal/aarch64/early_console.c *)

(** [while( *UART_FR & UART_FR_TXFF );] *)
Fixpoint spin_txff (fuel : nat) : K X unit :=
  v ← rd32 UART_FR;
  if negb (ctrue (Z.land v UART_FR_TXFF)) then mret tt
  else match fuel with O => stopM OutOfFuel | S fuel => spin_txff fuel end.

Definition aarch64_kputchar (ch : Z) : K X unit :=
  psw ← psw_disable_and_save_interrupt;
  spin_txff fuel;;
  wr32 UART_DR (u32 ch);;
  psw_restore_interrupt psw.

(** The accesses both initialisations start with. *)
Definition pl011_setup (cr : Z) : K X unit :=
  wr32 UART_ICR UART_CLR_ALL_INTR;;
  wr32 UART_IBRD UART_IBRD_VAL;;
  wr32 UART_FBRD UART_FBRD_VAL;;
  wr32 UART_LCRH UART_LCRH_WLEN8;;
  wr32 UART_CR cr.

(** [uart_console] is the address of the console object, [putc] that of
    [aarch64_kputchar]. *)
Definition aarch64_uart_init (uart_console : ptr) (putc : fptr) : K X unit :=
  pl011_setup (Z.lor UART_CR_TXE UART_CR_UARTEN);;
  con ← con_get uart_console;
  con_put uart_console (Kconsole (con_x con) (con_y con) putc (cls con) (locate con));;
  register_kconsole uart_console;;
  mret tt.

(** ** hal/aarch64/console.c *)

Definition a64_rx_ready : K X bool := v ← rd32 UART_FR; mret (negb (ctrue (Z.land v UART_FR_RXFE))).
Definition a64_tx_ready : K X bool := v ← rd32 UART_FR; mret (negb (ctrue (Z.land v UART_FR_TXFF))).

(** The result and the characters stored at [dst]. *)
Definition aarch64_console_read (ip f : ptr) (off counts : Z) : K X (Z * list Z) :=
  cs ← read_chars fuel a64_rx_ready (v ← rd32 UART_DR; mret (u8 v)) WqConsRx (Z.to_nat counts);
  mret (s64 counts, cs).

Definition aarch64_console_write (ip f : ptr) (src : list Z) (off counts : Z) : K X Z :=
  write_chars fuel a64_tx_ready (fun c => wr32 UART_DR c) WqConsTx src (Z.to_nat counts);;
  mret (s64 counts).

(** [private] points to the two wait queues. *)
Definition aarch64_uart_handler (irq : Z) (exc : ptr) (private : Z) : K X Z :=
  psw ← psw_disable_and_save_interrupt;
  reg ← rd32 UART_FR;
  when (negb (ctrue (Z.land reg UART_FR_RXFE))) (wque_wakeup WqConsRx WQUE_REASON_WAKEUP);;
  when (negb (ctrue (Z.land reg UART_FR_TXFF))) (wque_wakeup WqConsTx WQUE_REASON_WAKEUP);;
  psw_restore_interrupt psw;;
  wr32 UART_ICR UART_CLR_ALL_INTR;;
  mret IRQ_HANDLED.

(** [read], [write] and [handler] are the addresses of the functions above,
    [aarch64_console] that of the structure with the wait queues. *)
Definition aarch64_console_init (read write handler : fptr) (aarch64_console : ptr) : K X unit :=
  wque_init_wait_queue WqConsRx;;
  wque_init_wait_queue WqConsTx;;
  pl011_setup (Z.lor (Z.lor UART_CR_TXE UART_CR_RXE) UART_CR_UARTEN);;
  irq_register_handler ctrlr AARCH64_UART_IRQ (Z.lor (Z.lor IRQ_ATTR_NESTABLE IRQ_ATTR_EXCLUSIVE) IRQ_ATTR_EDGE) 2 aarch64_console handler;;
  v ← rd32 UART_IMSC; wr32 UART_IMSC (Z.lor v (Z.lor UART_IMSC_RXIM UART_IMSC_TXIM));;
  lift (register_device_driver fuel CONS_DEV (DeviceDriver 0 0 0 NULL NULL read write NULL NULL) NULL);;
  mret tt.
End driver.

(** ** The device *)

Record pl011_cfg : Type := Pl011Cfg { ibrd : Z; fbrd : Z; lcrh : Z; cr : Z; imsc : Z }.
Record pl011 : Type := PL011 { rx_avail : bool; tx_room : bool; received : list Z; sent : list Z; cfg : pl011_cfg }.

(** The registers that only the processor changes, by offset; the interrupts
    the last one clears are not part of this state. *)
Definition cfg_write (r v : Z) (c : pl011_cfg) : pl011_cfg :=
  let '(Pl011Cfg i f l k m) := c in
  if r =? 0x24 then Pl011Cfg v f l k m
  else if r =? 0x28 then Pl011Cfg i v l k m
  else if r =? 0x2c then Pl011Cfg i f v k m
  else if r =? 0x30 then Pl011Cfg i f l v m
  else if r =? 0x38 then Pl011Cfg i f l k v
  else c.
Definition cfg_regs : list Z := [0x24; 0x28; 0x2c; 0x30; 0x38; 0x44].
Definition with_cfg (u : pl011) (c : pl011_cfg) : pl011 := PL011 (rx_avail u) (tx_room u) (received u) (sent u) c.
Definition enabled (bit : Z) (u : pl011) : Prop := Z.testbit (cr (cfg u)) 0 = true /\ Z.testbit (cr (cfg u)) bit = true.

(** Time passes: data may arrive, the transmitter may have room again. *)
Definition line_moves (u u' : pl011) : Prop :=
  (rx_avail u = true -> rx_avail u' = true) /\ (tx_room u = true -> tx_room u' = true) /\
  received u' = received u /\ sent u' = sent u /\ cfg u' = cfg u.

(** [tx_wait] bounds the readings of the flag register until there is room. *)
Class Pl011 (X : Type) : Type := {
  pl011_mmio :: Mmio X;
  line : X -> pl011;
  tx_wait : X -> nat }.

Class Pl011Laws (X : Type) (V : Z) `{Pl011 X} : Prop := {
  in_fr : forall x, exists v x', mmio_read x (UART_FR V) = (v, x') /\ Z.testbit v 4 = negb (rx_avail (line x')) /\ Z.testbit v 5 = negb (tx_room (line x')) /\
    line_moves (line x) (line x') /\ (tx_room (line x') = true \/ (tx_wait x' < tx_wait x)%nat);
  in_dr : forall x, enabled 9 (line x) -> rx_avail (line x) = true ->
    exists v x', mmio_read x (UART_DR V) = (v, x') /\ received (line x') = received (line x) ++ [u8 v] /\ sent (line x') = sent (line x) /\ cfg (line x') = cfg (line x);
  out_dr : forall x v, enabled 8 (line x) -> tx_room (line x) = true -> 0 <= v < 2 ^ 32 -> let x' := mmio_write x (UART_DR V) v in
    sent (line x') = sent (line x) ++ [u8 v] /\ received (line x') = received (line x) /\ cfg (line x') = cfg (line x);
  out_cfg : forall x r v, r ∈ cfg_regs -> 0 <= v < 2 ^ 32 -> let x' := mmio_write x (PHY_TO_KERN_STRAIGHT V (UART_BASE + r)) v in
    line x' = with_cfg (line x) (cfg_write r v (cfg (line x))) }.

(** The device and the objects of the kernel are different parts of the machine. *)
Class LineConsoles (X : Type) `{Pl011 X} `{Consoles X} : Prop := {
  out_consoles : forall x a v, consoles (mmio_write x a v) = consoles x;
  in_consoles : forall x a, consoles (mmio_read x a).2 = consoles x;
  get_consoles : forall x m, consoles (set_consoles x m) = m;
  set_line : forall x m, line (set_consoles x m) = line x }.

Section properties.
Context {X : Type} {V : Z} `{HU : Pl011 X} `{HL : !Pl011Laws X V} `{HC : Consoles X} `{HF : FsPart X}.
Implicit Types (s : kst X).

Definition rx_on (x : X) : Prop := enabled 9 (line x).
Definition tx_on (x : X) : Prop := enabled 8 (line x).

Lemma enabled_cfg b u u' : cfg u' = cfg u -> enabled b u -> enabled b u'.
Proof. unfold enabled. by intros ->. Qed.

Lemma u8_u32 c : u8 (u32 c) = u8 c.
Proof. apply Z.mod_mod_divide. by exists (2 ^ 24). Qed.

Lemma fr_bit v i : 0 <= i -> negb (ctrue (Z.land v (Z.shiftl 1 i))) = negb (Z.testbit v i).
Proof. intros Hi. by rewrite land_pow2_testbit. Qed.

Lemma a64_rx_tests : tests rx_on (fun x => rx_avail (line x)) (fun x => received (line x)) (a64_rx_ready V).
Proof.
  intros s HD. destruct (in_fr (ext s)) as (v & x & E & Hr & _ & (M1 & _ & M3 & _ & M5) & _).
  unfold a64_rx_ready. rewrite (bind_ret _ _ _ _ _ (rd32_eq _ _ _ _ E)). exists (rx_avail (line x)), x.
  change UART_FR_RXFE with (Z.shiftl 1 4). rewrite fr_bit, Hr, negb_involutive by done. split_and!; [done|auto|done|done|by eapply enabled_cfg].
Qed.

Lemma a64_tx_tests : tests tx_on (fun x => tx_room (line x)) (fun x => sent (line x)) (a64_tx_ready V).
Proof.
  intros s HD. destruct (in_fr (ext s)) as (v & x & E & _ & Hr & (_ & M2 & _ & M4 & M5) & _).
  unfold a64_tx_ready. rewrite (bind_ret _ _ _ _ _ (rd32_eq _ _ _ _ E)). exists (tx_room (line x)), x.
  change UART_FR_TXFF with (Z.shiftl 1 5). rewrite fr_bit, Hr, negb_involutive by done. split_and!; [done|auto|done|done|by eapply enabled_cfg].
Qed.

Lemma a64_recv_eq s : rx_on (ext s) -> rx_avail (line (ext s)) = true ->
  exists r x, (v ← rd32 (UART_DR V); mret (u8 v) : K X Z) s = Ret r (with_ext s x) /\ received (line x) = received (line (ext s)) ++ [r] /\ rx_on x.
Proof.
  intros HD Hr. destruct (in_dr (ext s) HD Hr) as (v & x & E & HR & _ & Hc). exists (u8 v), x.
  rewrite (bind_ret _ _ _ _ _ (rd32_eq _ _ _ _ E)). split_and!; [done|done|by eapply enabled_cfg].
Qed.

Lemma a64_send_eq c s : tx_on (ext s) -> tx_room (line (ext s)) = true ->
  exists x, wr32 (UART_DR V) c s = Ret tt (with_ext s x) /\ sent (line x) = sent (line (ext s)) ++ [u8 c] /\ tx_on x.
Proof.
  intros HD Hr. destruct (out_dr (ext s) (u32 c) HD Hr) as (HS & _ & Hcf); [by apply wrap_range|]. rewrite u8_u32 in HS.
  eexists. split; [reflexivity|]. split; [done|by eapply enabled_cfg].
Qed.

Lemma handler_eq irq exc priv s q th v es1 ts1 es2 ts2 : in_handler s q th v -> wait_inv s WqConsRx es1 ts1 -> wait_inv s WqConsTx es2 ts2 -> ts1 ## ts2 ->
  exists s' rx tx v', aarch64_uart_handler V irq exc priv s = Ret IRQ_HANDLED s' /\ let W := chosen rx ts1 ++ chosen tx ts2 in
    (rx_avail (line (ext s)) = true -> rx = true) /\ (tx_room (line (ext s)) = true -> tx = true) /\ line_moves (line (ext s)) (line (ext s')) /\
    ie s' = ie s /\ wait_inv s' WqConsRx (chosen (negb rx) es1) (chosen (negb rx) ts1) /\ wait_inv s' WqConsTx (chosen (negb tx) es2) (chosen (negb tx) ts2) /\
    woken (threads s) W (threads s') /\ rdq_inv s' (rdq_enqueue s q W) /\ tinfos s' !! tinfo th = Some v' /\ (W <> [] -> ti_check_need_dispatch v' = 1).
Proof.
  intros HH H1 H2 Hd. destruct (in_fr (ext s)) as (reg & x & E & Hr & Ht & HM & _). set (s0 := with_ext (with_ie s false) x).
  set (rx := rx_avail (line x)) in *. set (tx := tx_room (line x)) in *.
  destruct (wake_consoles_spec rx tx s0 q th v es1 ts1 es2 ts2) as ([] & s' & E' & (v' & HH' & P & N) & W1 & W2 & WK & I & Ex & C).
  1: by apply in_handler_dev. 1, 2: by apply wait_inv_dev. 1: done.
  assert (rdq_inv s' (rdq_enqueue s q (chosen rx ts1 ++ chosen tx ts2))) as HI' by apply HH'.
  set (x' := mmio_write (ext s') (UART_ICR V) (u32 UART_CLR_ALL_INTR)).
  assert (line x' = line x) as Hx'.
  { unfold x'. unfold UART_ICR. rewrite (out_cfg (ext s') 0x44) by (set_solver || by apply wrap_range). rewrite Ex. cbn. by destruct (line x) as [? ? ? ? []]. }
  exists (with_ext (with_ie s' (ie s)) x'), rx, tx, v'. cbv zeta. split_and!; try done.
  - unfold aarch64_uart_handler, psw_disable_and_save_interrupt, psw_restore_interrupt. mred.
    match goal with |- context [rd32 ?p ?st] => rewrite (rd32_eq p reg x st E) end. mred.
    change UART_FR_RXFE with (Z.shiftl 1 4). change UART_FR_TXFF with (Z.shiftl 1 5). rewrite !fr_bit, Hr, Ht, !negb_involutive by done. fold rx tx s0.
    pose proof (bind_seq _ _ (s1 ← get; put (with_ie s1 (ie s));; wr32 (UART_ICR V) UART_CLR_ALL_INTR;; mret IRQ_HANDLED) s0 tt s' E') as EB. revert EB. unfold wake_consoles. mred. intros ->. done.
  - apply HM.
  - apply HM.
  - cbn. by rewrite Hx'.
  - by destruct W1.
  - by destruct W2.
  - eapply rdq_inv_ext; [..|exact HI']; eauto.
  - apply HH'.
Qed.

(** C22. The console driver of the AArch64 board.  A read stores the next bytes the line delivers, in order and with carriage returns turned into newlines; a write puts its bytes on the line in order; both return their number, give the processor up only to wait, and always return when they are woken with the device ready.  The interrupt handler wakes the readers when there is data, and the writers when there is room, each queue in order, and asks for a dispatch. *)
Theorem a64_console_correct fuel early t ti ip f off counts s : 0 <= counts < 2 ^ 63 -> (early = false -> (0 < fuel)%nat) ->
  (rx_on (ext s) -> can_wait s WqConsRx t ti ->
   wp (tired early) (gives_up t) (woken_ready rx_on (fun x => rx_avail (line x)) (fun x => received (line x)) early WqConsRx t ti)
     (aarch64_console_read V fuel ip f off counts s)
     (fun r s' => ie s' = ie s /\ r.1 = counts /\ exists raw, Z.of_nat (length raw) = counts /\
        received (line (ext s')) = received (line (ext s)) ++ raw /\ r.2 = (fun c => if decide (c = 13) then 10 else c) <$> raw)) /\
  (forall src, counts <= Z.of_nat (length src) -> tx_on (ext s) -> can_wait s WqConsTx t ti ->
   wp (tired early) (gives_up t) (woken_ready tx_on (fun x => tx_room (line x)) (fun x => sent (line x)) early WqConsTx t ti)
     (aarch64_console_write V fuel ip f src off counts s)
     (fun r s' => ie s' = ie s /\ r = counts /\ sent (line (ext s')) = sent (line (ext s)) ++ (u8 <$> take (Z.to_nat counts) src))) /\
  (forall irq exc priv q th v es1 ts1 es2 ts2, in_handler s q th v -> wait_inv s WqConsRx es1 ts1 -> wait_inv s WqConsTx es2 ts2 -> ts1 ## ts2 ->
   exists s' rx tx v', aarch64_uart_handler V irq exc priv s = Ret IRQ_HANDLED s' /\ let W := chosen rx ts1 ++ chosen tx ts2 in
     (rx_avail (line (ext s)) = true -> rx = true) /\ (tx_room (line (ext s)) = true -> tx = true) /\ line_moves (line (ext s)) (line (ext s')) /\
     ie s' = ie s /\ wait_inv s' WqConsRx (chosen (negb rx) es1) (chosen (negb rx) ts1) /\ wait_inv s' WqConsTx (chosen (negb tx) es2) (chosen (negb tx) ts2) /\
     woken (threads s) W (threads s') /\ rdq_inv s' (rdq_enqueue s q W) /\ tinfos s' !! tinfo th = Some v' /\ (W <> [] -> ti_check_need_dispatch v' = 1)).
Proof.
  intros Hc Hf. assert (s64 counts = counts) as Hs by (apply swrap_small; lia). split_and!.
  - intros HD HW. apply wp_bind. eapply wp_mono; [|apply (read_chars_wp fuel rx_on _ _ early WqConsRx t ti _ a64_rx_tests); [done|apply a64_recv_eq|done|done]].
    cbn. intros cs s' (Hie & _ & _ & raw & Hn & HR & ->). rewrite Hs. split_and!; [done..|]. exists raw. split_and!; [lia|done|]. apply list_fmap_ext. intros _ c _. unfold newline. by destruct (Z.eqb_spec c 13); case_decide.
  - intros src Hl HD HW. apply wp_bind. eapply wp_mono; [|apply (write_chars_wp fuel tx_on _ _ early WqConsTx t ti _ a64_tx_tests _ u8); [done|apply a64_send_eq|done|done|lia]].
    cbn. intros _ s' (Hie & _ & _ & HS). by rewrite Hs.
  - intros irq exc priv q th v es1 ts1 es2 ts2 HH H1 H2 Hd. by eapply handler_eq.
Qed.

(** ** Kernel messages on the line *)

Context `{HP : !LineConsoles X}.
Variables (fuel : nat) (call_putchar : fptr -> Z -> K X unit) (putc : fptr) (uart_console : ptr).
Hypothesis putc_is : forall ch, call_putchar putc ch = aarch64_kputchar V fuel ch.
Hypothesis putc_fn : putc <> NULL.
(** There is room for a character within [fuel] readings of the flags. *)
Hypothesis char_time : forall x, (tx_wait x <= fuel)%nat.

Lemma spin_txff_eq n s : (tx_wait (ext s) <= n)%nat -> tx_on (ext s) ->
  exists x, spin_txff V n s = Ret tt (with_ext s x) /\ tx_room (line x) = true /\ sent (line x) = sent (line (ext s)) /\ consoles x = consoles (ext s) /\ tx_on x.
Proof.
  revert s. induction n as [|n IH]; intros s Hn HD; destruct (in_fr (ext s)) as (v & x & E & _ & Ht & (_ & _ & _ & M4 & M5) & Hw);
    pose proof (in_consoles (ext s) (UART_FR V)) as Hc; rewrite E in Hc; cbn [snd] in Hc; cbn [spin_txff];
    rewrite (bind_ret _ _ _ _ _ (rd32_eq _ _ _ _ E)); change UART_FR_TXFF with (Z.shiftl 1 5); rewrite fr_bit, Ht, negb_involutive by done.
  - destruct (tx_room (line x)) eqn:Ee; [|destruct Hw; [done|lia]]. exists x. split_and!; [done..|by eapply enabled_cfg].
  - destruct (tx_room (line x)) eqn:Ee; [exists x; split_and!; [done..|by eapply enabled_cfg]|]. destruct Hw as [?|Hw]; [done|].
    destruct (IH (with_ext s x)) as (x' & E' & H1 & H2 & H3 & H4); [cbn; lia|by eapply enabled_cfg|]. cbn in H2, H3. exists x'. split_and!; [done|done|congruence|congruence|done].
Qed.

Lemma aarch64_kputchar_puts ch : puts_out tx_on (fun x => sent (line x)) (aarch64_kputchar V fuel ch) [u8 ch].
Proof.
  intros s Hie HD. destruct (spin_txff_eq fuel (with_ie s false)) as (x & E & Ht & HS & Hc & HDx); [apply char_time|done|].
  destruct (a64_send_eq (u32 ch) (with_ext (with_ie s false) x) HDx Ht) as (x' & E' & HS' & HD'). rewrite u8_u32 in HS'. cbn in HS'.
  assert (consoles x' = consoles x) as Hc' by (injection E' as <-; apply out_consoles).
  exists x'. split_and!; [|by rewrite HS', HS|by rewrite Hc', Hc|done].
  unfold aarch64_kputchar, psw_disable_and_save_interrupt, psw_restore_interrupt. mred. rewrite E. mred. rewrite E'. by destruct s.
Qed.

Variables (UART_IBRD_VAL UART_FBRD_VAL : Z).

Lemma pl011_setup_eq k s : 0 <= UART_IBRD_VAL < 2 ^ 32 -> 0 <= UART_FBRD_VAL < 2 ^ 32 -> 0 <= k < 2 ^ 32 ->
  exists x, pl011_setup V UART_IBRD_VAL UART_FBRD_VAL k s = Ret tt (with_ext s x) /\ consoles x = consoles (ext s) /\
    line x = with_cfg (line (ext s)) (Pl011Cfg UART_IBRD_VAL UART_FBRD_VAL UART_LCRH_WLEN8 k (imsc (cfg (line (ext s))))).
Proof.
  intros Hi Hf Hk. unfold pl011_setup, wr32. mred. eexists. split; [reflexivity|]. cbn [ext with_ext]. rewrite !out_consoles. split; [done|].
  replace (u32 k) with k by (symmetry; by apply wrap_small). replace (u32 UART_IBRD_VAL) with UART_IBRD_VAL by (symmetry; by apply wrap_small).
  replace (u32 UART_FBRD_VAL) with UART_FBRD_VAL by (symmetry; by apply wrap_small). unfold UART_CR, UART_LCRH, UART_FBRD, UART_IBRD, UART_ICR.
  rewrite !out_cfg by (set_solver || done). by destruct (line (ext s)) as [? ? ? ? []].
Qed.

(** The console of the early kernel on AArch64: the initialisation programs the rate, 8 bits without parity, and enables the transmitter; it registers the console, and from then on a message that fits the buffer of [kprintf] appears on the line, byte for byte. *)
Theorem a64_early_console_correct s : 0 <= UART_IBRD_VAL < 2 ^ 32 -> 0 <= UART_FBRD_VAL < 2 ^ 32 -> cons_inv s [] -> uart_console <> NULL ->
  consoles (ext s) !! uart_console = Some KCONSOLE_INITILIZER -> is_ring (links s) (KconsLink uart_console) [] ->
  exists s', aarch64_uart_init V UART_IBRD_VAL UART_FBRD_VAL uart_console putc s = Ret tt s' /\ cons_inv s' [uart_console] /\
    line (ext s') = with_cfg (line (ext s)) (Pl011Cfg UART_IBRD_VAL UART_FBRD_VAL 0x60 0x101 (imsc (cfg (line (ext s))))) /\
    forall junk fmt ap rc txt, Printf.kprintf junk fmt ap = Some (rc, txt) ->
      exists x, kprintf call_putchar junk fmt ap s' = Ret rc (with_ext s' x) /\ sent (line x) = sent (line (ext s')) ++ (u8 <$> txt).
Proof.
  intros Hi Hf HI Hn Hcon HR. destruct (pl011_setup_eq 0x101 s Hi Hf ltac:(lia)) as (x2 & E1 & K2 & L2).
  set (con := Kconsole 0 0 putc NULL NULL). set (x3 := set_consoles x2 (<[uart_console := con]> (consoles x2))).
  assert (line x3 = line x2) as E3 by apply set_line. assert (consoles x3 !! uart_console = Some con) as K3 by (unfold x3; by rewrite get_consoles, lookup_insert_eq).
  destruct (register_eq (with_ext s x3) [] uart_console con) as (m & E & HI' & _); [|done|done|done|done|].
  { destruct HI as [R _]. split; [exact R|]. by intros c ?%elem_of_nil. }
  exists (with_links (with_ext s x3) m). split_and!; [|done|cbn; by rewrite E3, L2|].
  - assert (consoles (ext (with_ext s x2)) !! uart_console = Some KCONSOLE_INITILIZER) as Hcon2 by (cbn; by rewrite K2).
    unfold aarch64_uart_init. rewrite (bind_ret _ _ _ _ _ E1).
    by rewrite (bind_ret _ _ _ _ _ (con_get_eq _ _ _ Hcon2)), (bind_ret _ _ _ _ _ (con_put_eq _ _ _ _ Hcon2)), (bind_ret _ _ _ _ _ E).
  - intros junk fmt ap rc txt Ep.
    destruct (kprintf_single tx_on (fun x => sent (line x)) call_putchar u8 uart_console con (with_links (with_ext s x3) m) junk fmt ap rc txt) as (x & Ek & HS & _);
      [done|done|done|intros ch; cbn; rewrite putc_is; apply aarch64_kputchar_puts|unfold tx_on, enabled; cbn; by rewrite E3, L2|done|]. by exists x.
Qed.
End properties.

(** ** A machine with the laws

    The bytes that will arrive, and the state of the device; there is room again
    when the flags are read. *)
Record virt : Type := Virt { v_in : list Z; v_room : bool; v_received : list Z; v_sent : list Z; v_cfg : pl011_cfg; v_cons : gmap ptr kconsole_t }.
Definition virt_line (x : virt) : pl011 := PL011 (bool_decide (v_in x <> [])) (v_room x) (v_received x) (v_sent x) (v_cfg x).

Definition virt_read (x : virt) (a : Z) : Z * virt :=
  if a =? UART_BASE + 0x18 then ((if bool_decide (v_in x <> []) then 0 else 0x10), Virt (v_in x) true (v_received x) (v_sent x) (v_cfg x) (v_cons x))
  else match v_in x with
       | b :: r => (u8 b, Virt r (v_room x) (v_received x ++ [u8 b]) (v_sent x) (v_cfg x) (v_cons x))
       | [] => (0, x)
       end.
Definition virt_write (x : virt) (a v : Z) : virt :=
  if a =? UART_BASE then Virt (v_in x) false (v_received x) (v_sent x ++ [u8 v]) (v_cfg x) (v_cons x)
  else Virt (v_in x) (v_room x) (v_received x) (v_sent x) (cfg_write (a - UART_BASE) v (v_cfg x)) (v_cons x).

#[export] Instance virt_device : Pl011 virt := {| pl011_mmio := {| mmio_read := virt_read; mmio_write := virt_write |}; line := virt_line; tx_wait _ := O |}.
#[export] Instance virt_consoles : Consoles virt := {| consoles := v_cons; set_consoles x m := Virt (v_in x) (v_room x) (v_received x) (v_sent x) (v_cfg x) m |}.

#[export] Instance virt_laws : Pl011Laws virt 0.
Proof.
  split; cbn [mmio_read mmio_write pl011_mmio virt_device line].
  - intros x. eexists _, _. split; [reflexivity|]. cbn. split_and!; [by case_bool_decide|by case_bool_decide|by split_and!|by left].
  - intros [[|b r] t rc sn c m] _ Hr; [done|]. eexists _, _. split; [reflexivity|]. cbn. split_and!; try done. do 2 f_equal. symmetry. by apply wrap_small, wrap_range.
  - intros x v _ _ _. done.
  - intros x r v Hr _. unfold cfg_regs in Hr. rewrite !elem_of_cons, elem_of_nil in Hr. destruct_or! Hr; subst; done.
Qed.

#[export] Instance virt_parts : LineConsoles virt.
Proof.
  split; cbn; try done.
  - intros x p v. unfold virt_write. by case_match.
  - intros x p. unfold virt_read. repeat case_match; done.
Qed.

Definition virt_demo : virt := Virt [65; 13; 66] true [] [] (Pl011Cfg 2 8 0x60 0x301 0x30) ∅.

Lemma a64_console_correct_witness :
  wp (tired false) (gives_up 100) (woken_ready rx_on (fun x : virt => rx_avail (line x)) (fun x => received (line x)) false WqConsRx 100 0x2000)
    (aarch64_console_read 0 1 NULL NULL 0 3 (demo_char 0 virt_demo))
    (fun r s' => ie s' = true /\ r.1 = 3 /\ exists raw, Z.of_nat (length raw) = 3 /\ received (line (ext s')) = raw /\ r.2 = (fun c => if decide (c = 13) then 10 else c) <$> raw) /\
  exists s' v', aarch64_uart_handler 0 33 0x7000 0 (demo_char 0x100 virt_demo) = Ret IRQ_HANDLED s' /\
    rdq_inv s' (rdq_enqueue (demo_char 0x100 virt_demo) demo_wait_q [101]) /\ tinfos s' !! 0x2000 = Some v' /\ ti_check_need_dispatch v' = 1.
Proof.
  split.
  - destruct (a64_console_correct (V := 0) 1 false 100 0x2000 NULL NULL 0 3 (demo_char 0 virt_demo)) as (HR & _);
      [split; [discriminate|reflexivity]|intros _; apply Nat.lt_0_succ|].
    exact (HR (conj eq_refl eq_refl) (demo_char_wait virt_demo WqConsRx (or_introl eq_refl))).
  - destruct (a64_console_correct (V := 0) 1 false 100 0x2000 NULL NULL 0 3 (demo_char 0x100 virt_demo)) as (_ & _ & HH);
      [split; [discriminate|reflexivity]|intros _; apply Nat.lt_0_succ|].
    destruct (HH 33 0x7000 0 _ _ _ _ _ _ _ (demo_char_handler virt_demo) (demo_char_rx _ _) (demo_char_tx _ _)) as (s' & rx & tx & v' & E & Hrx & _ & _ & _ & _ & _ & _ & HI & Ev & N); [set_solver|].
    specialize (Hrx eq_refl). subst rx. destruct tx; (exists s', v'; split_and!; [exact E|exact HI|exact Ev|]; apply N; discriminate).
Defined.

Definition virt_boot : kst virt :=
  Kst (<[KconsHead := Node KconsHead KconsHead]> {[KconsLink 10 := Node (KconsLink 10) (KconsLink 10)]}) true ∅ ∅ 0 0 ∅ ∅ ∅ 0 ∅ ∅ ∅ ∅ [] 0
    (Virt [] true [] [] (Pl011Cfg 0 0 0 0 0) {[10 := KCONSOLE_INITILIZER]}).

Lemma a64_early_console_correct_witness :
  exists s' x, aarch64_uart_init 0 2 8 10 5 virt_boot = Ret tt s' /\
    kprintf (fun _ => aarch64_kputchar 0 0) (replicate 128 7) [72; 105; 10; 0] [] s' = Ret 3 (with_ext s' x) /\
    sent (line x) = [72; 105; 10].
Proof.
  destruct (a64_early_console_correct (V := 0) 0 (fun _ => aarch64_kputchar 0 0) 5 10 (fun _ => eq_refl) ltac:(discriminate)
    (fun _ => le_n 0) 2 8 virt_boot) as (s' & E & _ & S & HP); [split; [discriminate|reflexivity]|split; [discriminate|reflexivity]| |discriminate|reflexivity|ring_decide|].
  - split; [ring_decide|]. by intros c ?%elem_of_nil.
  - destruct (HP (replicate 128 7) [72; 105; 10; 0] [] 3 [72; 105; 10]) as (x & Ek & Sx); [vm_compute; reflexivity|].
    exists s', x. split; [exact E|]. split; [exact Ek|]. rewrite Sx, S. reflexivity.
Defined.
