(* ===== verification/Lapic.v ===== *)
(** hal/x64/lapic.c and the headers lapic.h, i8254.h, tsc.h and msr.h of
    include/hal-x64: the local interrupt controller of the x64 processor, its
    timer, and the calibration of the timer against the i8254.

    [LapicMachine] has the accesses to the hardware and the static variables of
    the file; [LapicLaws] says what the processor's manual says of the registers,
    bit by bit.  [interrupts] is what happens when the processor has interrupts
    enabled in the loop of the calibration: the handlers of the interrupts that
    are taken there.  That loop is bounded by [fuel]. *)
From Stdlib Require Import String.
From S2P Require Import Printf Prelude Bitops KList Kernel ThreadInfo ReadyQueue Sched WaitQueue Timer Thread Irq Port I8259 X64Kmap X64Trap Trap.

Definition LAPIC_DEFAULT_ADDR : Z := 0xfee00000.
Definition LAPIC_VERSION : Z := 0x030.
Definition LAPIC_TPR : Z := 0x080.
Definition LAPIC_EOI : Z := 0x0b0.
Definition LAPIC_LDR : Z := 0x0d0.
Definition LAPIC_DFR : Z := 0x0e0.
Definition LAPIC_SIVR : Z := 0x0f0.
Definition LAPIC_ESR : Z := 0x280.
Definition LAPIC_LVTTR : Z := 0x320.
Definition LAPIC_LVTTMR : Z := 0x330.
Definition LAPIC_LVTPCR : Z := 0x340.
Definition LAPIC_LINT0 : Z := 0x350.
Definition LAPIC_LINT1 : Z := 0x360.
Definition LAPIC_LVTER : Z := 0x370.
Definition LAPIC_TIMER_ICR : Z := 0x380.
Definition LAPIC_TIMER_CCR : Z := 0x390.
Definition LAPIC_TIMER_DCR : Z := 0x3e0.
Definition APIC_TDCR_1 : Z := 0x0b.
Definition LAPIC_LVTT_MASK : Z := Z.shiftl 1 16.
Definition LAPIC_LVTT_TM : Z := Z.shiftl 1 17.
Definition LAPIC_ENABLE : Z := 0x100.
Definition LAPIC_FOCUS_DISABLED : Z := Z.shiftl 1 9.
Definition LAPIC_ICR_INT_MASK : Z := Z.shiftl 1 16.
Definition LAPIC_ERROR_INT_VECTOR : Z := 0xfe.
Definition LAPIC_SPURIOUS_INT_VECTOR : Z := 0xff.
Definition LAPIC_INT_VECTOR_MIN : Z := LAPIC_TIMER_INT_VECTOR.
Definition LAPIC_INT_VECTOR_MAX : Z := LAPIC_SPURIOUS_INT_VECTOR.
Definition LAPIC_ADDR_MASK : Z := u64 (Z.lnot (0x100000 - 1)).
Definition LAPIC_CALIBRATION_LOOP : Z := 10.
Definition X64_MSR_APIC_BASE : Z := 0x1b.
Definition X64_MSR_APIC_BASE_ENABLE_BIT : Z := 11.
Definition X64_I8254_TIMER_IRQ : Z := 0.
Definition I8254_INPFREQ : Z := 1193182.
Definition I8254_PORT_CHANNEL0 : Z := 0x40.
Definition I8254_PORT_MODECNTL : Z := 0x43.
Definition I8254_CMD_INTERVAL_TIMER : Z := 0x36.
Definition X64_I8259_SPURIOUS_IRQ : Z := 7.
Definition HIGH_IO_TO_KERN_STRAIGHT (iaddr : Z) : Z := u64 (iaddr + KERN_HIGH_IO_BASE - KERN_HIGH_IO_AREA).

(** The static variables of the file and of its functions. *)
Record lapic_vars : Type := LapicVars {
  kaddr : Z; paddr : Z;                            (* [lapic_regs] *)
  tsc_per_us : Z; tcr_per_us : Z; calibration_count : Z;
  tsc1 : Z; tsc2 : Z; tcr1 : Z; tcr2 : Z;          (* of [lapic_calibrate_handler] *)
  spurious_cnt : Z; error_cnt : Z }.

Definition with_addr (v : lapic_vars) k p := LapicVars k p (tsc_per_us v) (tcr_per_us v) (calibration_count v) (tsc1 v) (tsc2 v) (tcr1 v) (tcr2 v) (spurious_cnt v) (error_cnt v).
Definition with_rates (v : lapic_vars) a b := LapicVars (kaddr v) (paddr v) a b (calibration_count v) (tsc1 v) (tsc2 v) (tcr1 v) (tcr2 v) (spurious_cnt v) (error_cnt v).
Definition with_count (v : lapic_vars) c := LapicVars (kaddr v) (paddr v) (tsc_per_us v) (tcr_per_us v) c (tsc1 v) (tsc2 v) (tcr1 v) (tcr2 v) (spurious_cnt v) (error_cnt v).
Definition with_first (v : lapic_vars) a b := LapicVars (kaddr v) (paddr v) (tsc_per_us v) (tcr_per_us v) (calibration_count v) a (tsc2 v) b (tcr2 v) (spurious_cnt v) (error_cnt v).
Definition with_second (v : lapic_vars) a b := LapicVars (kaddr v) (paddr v) (tsc_per_us v) (tcr_per_us v) (calibration_count v) (tsc1 v) a (tcr1 v) b (spurious_cnt v) (error_cnt v).
Definition with_cnts (v : lapic_vars) a b := LapicVars (kaddr v) (paddr v) (tsc_per_us v) (tcr_per_us v) (calibration_count v) (tsc1 v) (tsc2 v) (tcr1 v) (tcr2 v) a b.

Class LapicMachine (X : Type) : Type := {
  lm_ports :: PortIO X;
  lm_mmio :: Mmio X;
  msr_read : X -> Z -> Z;
  edx : X -> Z;  (* the register when [wrmsr] runs *)
  msr_write : X -> Z -> Z -> X;
  tsc_read : X -> Z;
  vars : X -> lapic_vars;
  set_vars : X -> lapic_vars -> X }.

Section lapic.
Context {X : Type} `{LapicMachine X}.
Variable ctrlr : ptr -> irq_ctrlr X.
Variable frames : ptr -> option exception_frame.
Variable kprintf : list Z -> list varg -> K X unit.
Variable interrupts : K X unit.
Variable fuel : nat.

Definition getv : K X lapic_vars := s ← get; mret (vars (ext s)).
Definition modv (f : lapic_vars -> lapic_vars) : K X unit := s ← get; put (with_ext s (set_vars (ext s) (f (vars (ext s))))).
(** The constraint ["A"] of the instructions is the pair of edx and eax on 32-bit
    processors only: here it is rax, and edx is whatever it is. *)
Definition rdmsr (msr_id : Z) : K X Z := s ← get; mret (u32 (msr_read (ext s) msr_id)).
Definition wrmsr (msr_id msr_value : Z) : K X unit :=
  s ← get; put (with_ext s (msr_write (ext s) msr_id (Z.lor (u32 msr_value) (Z.shiftl (u32 (edx (ext s))) 32)))).
Definition rdtsc : K X Z := s ← get; mret (tsc_read (ext s)).

Definition lapic_read (offset : Z) : K X Z := v ← getv; rd32 (u64 (kaddr v + offset)).
Definition lapic_write (offset data : Z) : K X unit := v ← getv; wr32 (u64 (kaddr v + offset)) data.

Definition lapic_errstatus : K X Z := lapic_write LAPIC_ESR 0;; lapic_read LAPIC_ESR.
Definition lapic_eoi : K X unit := lapic_write LAPIC_EOI 0.

(** ** Handlers *)

Definition lapic_calibrate_spurious_handler (irq : Z) (exc : ptr) (private : Z) : K X Z := mret IRQ_HANDLED.

Definition lapic_calibrate_handler (irq : Z) (exc : ptr) (private : Z) : K X Z :=
  v ← getv;
  (if tsc1 v =? 0 then
     t ← rdtsc; modv (fun v => with_first v t (tcr1 v));;
     c ← lapic_read LAPIC_TIMER_CCR; modv (fun v => with_first v (tsc1 v) c)
   else if tsc2 v =? 0 then
     t ← rdtsc; modv (fun v => with_second v t (tcr2 v));;
     c ← lapic_read LAPIC_TIMER_CCR; modv (fun v => with_second v (tsc2 v) c);;
     modv (fun v => with_rates v (u64 (tsc_per_us v + u64 (tsc2 v - tsc1 v))) (tcr_per_us v));;
     modv (fun v => with_rates v (tsc_per_us v) (u64 (tcr_per_us v + u32 (tcr1 v - tcr2 v))));;
     modv (fun v => with_count v (s32 (calibration_count v - 1)));;
     modv (fun v => with_second (with_first v 0 (tcr1 v)) 0 (tcr2 v));;
     modv (fun v => with_second (with_first v (tsc1 v) 0) (tsc2 v) 0)
   else mret tt);;
  mret IRQ_HANDLED.

Definition lapic_spurios_intr_handler (irq : Z) (exc : ptr) (private : Z) : K X Z :=
  modv (fun v => with_cnts v (u32 (spurious_cnt v + 1)) (error_cnt v));;
  v ← getv;
  when ((spurious_cnt v =? 1) || (spurious_cnt v mod 100 =? 0)) (kprintf (ln "WARNING apic spurios interrupt(s) %d") [VNum (spurious_cnt v)]);;
  mret IRQ_HANDLED.

Definition lapic_error_intr_handler (irq : Z) (exc : ptr) (private : Z) : K X Z :=
  modv (fun v => with_cnts v (spurious_cnt v) (u32 (error_cnt v + 1)));;
  err ← lapic_errstatus;
  v ← getv;
  when ((error_cnt v =? 1) || (error_cnt v mod 100 =? 0)) (kprintf (ln "WARNING apic error (0x%x) interrupt(s) %d") [VNum err; VNum (error_cnt v)]);;
  mret IRQ_HANDLED.

(** ** The timer *)

Definition lapic_mask_lapic_timer : K X unit :=
  lvtt ← lapic_read LAPIC_LVTTR; lapic_write LAPIC_LVTTR (Z.lor lvtt LAPIC_LVTT_MASK).
Definition lapic_unmask_lapic_timer : K X unit :=
  lvtt ← lapic_read LAPIC_LVTTR; lapic_write LAPIC_LVTTR (Z.land lvtt (u32 (Z.lnot LAPIC_LVTT_MASK))).

(** [for( ... ; calibration_count > 0; ) psw_enable_interrupt();] *)
Fixpoint calibrate_wait (fuel : nat) : K X unit :=
  v ← getv;
  if 0 <? calibration_count v then
    match fuel with
    | O => stopM OutOfFuel
    | S fuel => psw_enable_interrupt;; interrupts;; calibrate_wait fuel
    end
  else mret tt.

(** The end of [lapic_calibrate_clocks]. *)
Definition calibrate_average : K X unit :=
  modv (fun v => with_rates v (tsc_per_us v / LAPIC_CALIBRATION_LOOP / 10000) (tcr_per_us v));;
  modv (fun v => with_rates v (tsc_per_us v) (tcr_per_us v / LAPIC_CALIBRATION_LOOP / 10000)).

(** [calibrate_handler] and [spurious_handler] are the addresses of the
    functions above. *)
Definition lapic_calibrate_clocks (cpu : Z) (calibrate_handler spurious_handler : fptr) : K X unit :=
  let divisor := u32 (I8254_INPFREQ / 100) in
  psw ← psw_disable_and_save_interrupt;
  out_port_byte I8254_PORT_MODECNTL I8254_CMD_INTERVAL_TIMER;;
  out_port_byte I8254_PORT_CHANNEL0 (u8 (Z.land divisor (Z.lnot 0)));;
  out_port_byte I8254_PORT_CHANNEL0 (u8 (Z.land (Z.shiftr divisor 8) (Z.lnot 0)));;
  irq_register_handler ctrlr X64_I8254_TIMER_IRQ (Z.lor (Z.lor IRQ_ATTR_NON_NESTABLE IRQ_ATTR_EXCLUSIVE) IRQ_ATTR_EDGE) 0 NULL calibrate_handler;;
  irq_register_handler ctrlr X64_I8259_SPURIOUS_IRQ (Z.lor (Z.lor IRQ_ATTR_NON_NESTABLE IRQ_ATTR_EXCLUSIVE) IRQ_ATTR_EDGE) 0 NULL spurious_handler;;
  lapic_write LAPIC_TIMER_ICR 0xffffffff;;
  lapic_write LAPIC_TIMER_CCR 0;;
  lapic_read LAPIC_TIMER_DCR;;
  lapic_write LAPIC_TIMER_DCR APIC_TDCR_1;;
  lapic_mask_lapic_timer;;
  modv (fun v => with_count v LAPIC_CALIBRATION_LOOP);;
  calibrate_wait fuel;;
  psw_restore_interrupt psw;;
  irq_unregister_handler ctrlr X64_I8254_TIMER_IRQ calibrate_handler;;
  irq_unregister_handler ctrlr X64_I8259_SPURIOUS_IRQ spurious_handler;;
  calibrate_average.

(** [usec * tcr_per_us] is a product of 64 bits, cut to 32. *)
Definition lapic_setup_timer (usec : Z) (periodic : bool) : K X unit :=
  lapic_write LAPIC_TIMER_DCR APIC_TDCR_1;;
  lapic_mask_lapic_timer;;
  let lvtt := if periodic then Z.lor LAPIC_TIMER_INT_VECTOR LAPIC_LVTT_TM else LAPIC_TIMER_INT_VECTOR in
  lapic_write LAPIC_LVTTR lvtt;;
  v ← getv; lapic_write LAPIC_TIMER_ICR (u64 (usec * tcr_per_us v));;
  lapic_unmask_lapic_timer.

Definition x64_lapic_set_timer_periodic (freq_us : Z) : K X unit := lapic_setup_timer freq_us true.
Definition x64_lapic_set_timer_one_shot (usec : Z) : K X unit := lapic_setup_timer usec false.

(** ** The controller *)

Definition in_range (no : Z) : bool := (LAPIC_INT_VECTOR_MIN <=? no) && (no <=? LAPIC_INT_VECTOR_MAX).

Definition lapic_enable_irq (no : Z) : K X unit :=
  kassert (in_range no);;
  if no =? LAPIC_TIMER_INT_VECTOR then lapic_unmask_lapic_timer
  else if no =? LAPIC_ERROR_INT_VECTOR then
    val ← lapic_read LAPIC_LVTER; lapic_write LAPIC_LVTER (Z.land val (u32 (Z.lnot LAPIC_ICR_INT_MASK)))
  else mret tt.

Definition lapic_disable_irq (no : Z) : K X unit :=
  kassert (in_range no);;
  if no =? LAPIC_TIMER_INT_VECTOR then lapic_mask_lapic_timer
  else if no =? LAPIC_ERROR_INT_VECTOR then
    val ← lapic_read LAPIC_LVTER; lapic_write LAPIC_LVTER (Z.lor val LAPIC_ICR_INT_MASK)
  else mret tt.

Definition lapic_eoi_irq (no : Z) : K X unit := lapic_eoi.
Definition lapic_config_irq (irq attr prio : Z) : K X Z := kassert (in_range irq);; mret 0.
Definition init_lapic : K X Z := mret 0.

(** Set the mask bit of an entry of the local vector table. *)
Definition mask_lvt (o : Z) : K X unit := val ← lapic_read o; lapic_write o (Z.lor val LAPIC_ICR_INT_MASK).

Definition lvt_nr : K X Z := val ← lapic_read LAPIC_VERSION; mret (Z.land (Z.shiftr val 16) 0xFF).
Definition mask_optional_lvts (lvt_nr : Z) : K X unit :=
  when (4 <=? lvt_nr) (mask_lvt LAPIC_LVTTMR);;
  when (5 <=? lvt_nr) (mask_lvt LAPIC_LVTPCR).

Definition finalize_lapic : K X unit :=
  n ← lvt_nr;
  mask_lvt LAPIC_LINT0;;
  mask_lvt LAPIC_LINT1;;
  mask_lvt LAPIC_LVTER;;
  lapic_mask_lapic_timer;;
  mask_optional_lvts n;;
  lapic_write LAPIC_TPR 0x0;;
  lapic_errstatus;;
  val ← lapic_read LAPIC_SIVR;
  lapic_write LAPIC_SIVR (Z.lor (Z.land val (u32 (Z.lnot LAPIC_ENABLE))) LAPIC_FOCUS_DISABLED).

(** The result, and [*irqp] when it is set. *)
Definition lapic_find_pending_irq (exc : ptr) : K X (Z * option Z) :=
  e ← deref (frames exc);
  if (trapno e <? LAPIC_INT_VECTOR_MIN) || (LAPIC_INT_VECTOR_MAX <? trapno e) then mret (IRQ_NOT_FOUND, None)
  else if (trapno e =? LAPIC_TIMER_INT_VECTOR) || (trapno e =? LAPIC_ERROR_INT_VECTOR) || (trapno e =? LAPIC_SPURIOUS_INT_VECTOR)
  then mret (IRQ_FOUND, Some (trapno e)) else mret (IRQ_NOT_FOUND, None).

Definition lapic_ctrlr : irq_ctrlr X :=
  IrqCtrlr (Some lapic_config_irq) (Some lapic_enable_irq) (Some lapic_disable_irq) None None (Some lapic_eoi_irq).

(** ** Initialisation: the last four arguments are the addresses of the handlers. *)

Definition x64_lapic_enable (cpu : Z) (spurious error calibrate calibrate_spurious : fptr) : K X Z :=
  msr ← rdmsr X64_MSR_APIC_BASE;
  wrmsr X64_MSR_APIC_BASE (Z.lor msr (Z.shiftl 1 X64_MSR_APIC_BASE_ENABLE_BIT));;
  lapic_write LAPIC_TPR 0x0;;
  lapic_errstatus;;
  val ← lapic_read LAPIC_SIVR;
  lapic_write LAPIC_SIVR (Z.land (Z.lor val (Z.lor LAPIC_ENABLE LAPIC_SPURIOUS_INT_VECTOR)) (u32 (Z.lnot LAPIC_FOCUS_DISABLED)));;
  lapic_read LAPIC_SIVR;;
  irq_register_handler ctrlr LAPIC_SPURIOUS_INT_VECTOR (Z.lor (Z.lor IRQ_ATTR_NON_NESTABLE IRQ_ATTR_EXCLUSIVE) IRQ_ATTR_EDGE) 0 NULL spurious;;
  val ← lapic_read LAPIC_LVTER;
  lapic_write LAPIC_LVTER (Z.land (Z.lor val LAPIC_ERROR_INT_VECTOR) (u32 (Z.lnot LAPIC_ICR_INT_MASK)));;
  lapic_read LAPIC_LVTER;;
  irq_register_handler ctrlr LAPIC_ERROR_INT_VECTOR (Z.lor (Z.lor IRQ_ATTR_NON_NESTABLE IRQ_ATTR_EXCLUSIVE) IRQ_ATTR_EDGE) 0 NULL error;;
  lapic_eoi;;
  val ← lapic_read LAPIC_LDR;
  lapic_write LAPIC_LDR (Z.lor (Z.land val (u32 (Z.lnot 0xFF000000))) (u32 (Z.shiftl (Z.land cpu 0xFF) 24)));;
  val ← lapic_read LAPIC_DFR;
  lapic_write LAPIC_DFR (Z.lor val 0xF0000000);;
  val ← lapic_read LAPIC_LVTER;
  lapic_write LAPIC_LVTER (Z.land val 0xFFFFFF00);;
  n ← lvt_nr;
  mask_optional_lvts n;;
  val ← lapic_read LAPIC_TPR;
  lapic_write LAPIC_TPR (Z.land val (u32 (Z.lnot 0xFF)));;
  lapic_read LAPIC_SIVR;;
  lapic_eoi;;
  lapic_calibrate_clocks cpu calibrate calibrate_spurious;;
  mret 0.

(** [finder] and [ctrlrp] are the addresses of [x64_lapic_find_irq] and
    [lapic_ctrlr]. *)
Definition x64_lapic_init (spurious error calibrate calibrate_spurious : fptr) (finder ctrlrp : ptr) : K X Z :=
  modv (fun v => with_addr v 0 0);;
  msr ← rdmsr X64_MSR_APIC_BASE;
  modv (fun v => with_addr v (kaddr v) (Z.land msr LAPIC_ADDR_MASK));;
  modv (fun v => with_addr v (HIGH_IO_TO_KERN_STRAIGHT (paddr v)) (paddr v));;
  x64_lapic_enable 0 spurious error calibrate calibrate_spurious;;
  irq_register_pending_irq_finder finder;;
  forM (seqZ LAPIC_INT_VECTOR_MIN (LAPIC_INT_VECTOR_MIN - LAPIC_INT_VECTOR_MIN + 1)) (fun i => irq_register_ctrlr i ctrlrp;; mret tt);;
  mret 0.
End lapic.

(** ** The registers *)

(** The registers that hold what is written to them, and their writable bits. *)
Definition plain_regs : list Z :=
  [LAPIC_TPR; LAPIC_LDR; LAPIC_DFR; LAPIC_SIVR; LAPIC_LVTTR; LAPIC_LVTTMR; LAPIC_LVTPCR; LAPIC_LINT0; LAPIC_LINT1; LAPIC_LVTER; LAPIC_TIMER_ICR; LAPIC_TIMER_DCR].
Definition writable (o i : Z) : bool :=
  if o =? LAPIC_TPR then i <? 8
  else if o =? LAPIC_LDR then (24 <=? i) && (i <? 32)
  else if o =? LAPIC_DFR then (28 <=? i) && (i <? 32)
  else if o =? LAPIC_SIVR then i <? 10
  else if o =? LAPIC_LVTTR then (i <? 8) || (i =? 16) || (i =? 17)
  else if o =? LAPIC_LVTER then (i <? 8) || (i =? 16)
  else if o =? LAPIC_TIMER_ICR then i <? 32
  else if o =? LAPIC_TIMER_DCR then (i =? 0) || (i =? 1) || (i =? 3)
  else (i <? 11) || (i =? 16).

(** What can be seen of the controller: its registers and the number of ends of
    interrupts it was told.  [calls] is what the rest of the machine recorded.
    The controller is enabled by its spurious interrupt register; while it is
    not, the mask of an entry stays set, which the laws leave out. *)
Class LapicView (X : Type) : Type := { reg : X -> Z -> Z; eois : X -> nat; calls : X -> list (fptr * Z) }.

Class LapicLaws (X : Type) (A : Z) `{LapicMachine X} `{LapicView X} : Prop := {
  reg_range : forall x o, 0 <= reg x o < 2 ^ 32;
  reg_read : forall x o, o ∈ plain_regs -> mmio_read x (u64 (A + o)) = (reg x o, x);
  reg_write : forall x o v, o ∈ plain_regs -> 0 <= v < 2 ^ 32 -> let x' := mmio_write x (u64 (A + o)) v in
    (forall i, 0 <= i -> writable o i = true -> Z.testbit (reg x' o) i = Z.testbit v i) /\
    (forall o', o' ∈ plain_regs -> o' <> o -> reg x' o' = reg x o') /\ eois x' = eois x /\ vars x' = vars x;
  eoi_write : forall x, let x' := mmio_write x (u64 (A + LAPIC_EOI)) 0 in
    (forall o, o ∈ plain_regs -> reg x' o = reg x o) /\ eois x' = S (eois x) /\ vars x' = vars x;
  calls_write : forall x a v, calls (mmio_write x a v) = calls x;
  get_vars : forall x v, vars (set_vars x v) = v }.

Section properties.
Context {X : Type} {A : Z} `{HM : LapicMachine X} `{HV : LapicView X} `{HL : !LapicLaws X A}.
Implicit Types (s : kst X) (x : X).

(** The driver knows where the registers are. *)
Definition at_regs x : Prop := kaddr (vars x) = A.

(** Everything but the register [o] is as it was. *)
Definition clobbers (o : Z) x x' : Prop :=
  (forall o', o' ∈ plain_regs -> o' <> o -> reg x' o' = reg x o') /\ eois x' = eois x /\ calls x' = calls x /\ vars x' = vars x.
(** The mask bit of an entry of the vector table is [b], the rest is as it was. *)
Definition mask_is (o : Z) (b : bool) x x' : Prop :=
  Z.testbit (reg x' o) 16 = b /\ (forall i, 0 <= i -> writable o i = true -> i <> 16 -> Z.testbit (reg x' o) i = Z.testbit (reg x o) i) /\ clobbers o x x'.

Lemma timer_regs : LAPIC_TIMER_ICR ∈ plain_regs /\ LAPIC_TIMER_DCR ∈ plain_regs /\ LAPIC_LVTTR ∈ plain_regs.
Proof. set_solver. Qed.

Lemma lapic_read_eq o s : at_regs (ext s) -> o ∈ plain_regs -> lapic_read o s = Ret (reg (ext s) o) s.
Proof.
  intros HA Ho. unfold lapic_read, getv. mred. rewrite HA. rewrite (rd32_eq _ _ _ _ (reg_read (ext s) o Ho)). by destruct s.
Qed.

Lemma lapic_write_eq o v s : at_regs (ext s) -> o ∈ plain_regs -> exists x, lapic_write o v s = Ret tt (with_ext s x) /\
  (forall i, 0 <= i < 32 -> writable o i = true -> Z.testbit (reg x o) i = Z.testbit v i) /\ clobbers o (ext s) x /\ at_regs x.
Proof.
  intros HA Ho. destruct (reg_write (ext s) o (u32 v) Ho) as (Hb & Hc); [by apply wrap_range|].
  exists (mmio_write (ext s) (u64 (A + o)) (u32 v)). unfold lapic_write, getv, wr32. mred. rewrite HA. split_and!; [done| | |].
  - intros i Hi Hw. rewrite Hb by (done || lia). unfold u32. by rewrite wrap_testbit by lia.
  - split_and!; [apply Hc|apply Hc|apply calls_write|apply Hc].
  - unfold at_regs. destruct Hc as (_ & _ & ->). exact HA.
Qed.

Lemma mask_bit b v i : 0 <= i < 32 -> Z.testbit (if b : bool then Z.lor v (Z.shiftl 1 16) else Z.land v (u32 (Z.lnot (Z.shiftl 1 16)))) i = if decide (i = 16) then b else Z.testbit v i.
Proof.
  intros Hi. destruct b.
  - rewrite Z.lor_spec, Z.shiftl_1_l, Z.pow2_bits_eqb by lia. case_decide; [subst; by rewrite orb_true_r|].
    by rewrite (proj2 (Z.eqb_neq 16 i)), orb_false_r by done.
  - unfold u32. rewrite Z.land_spec, wrap_testbit, Z.lnot_spec, Z.shiftl_1_l, Z.pow2_bits_eqb by lia. case_decide; [subst; by rewrite andb_false_r|].
    by rewrite (proj2 (Z.eqb_neq 16 i)), andb_true_r by done.
Qed.

(** Setting or clearing the mask bit of an entry. *)
Lemma set_mask_eq (b : bool) o s : at_regs (ext s) -> o ∈ plain_regs -> writable o 16 = true -> (forall i, writable o i = true -> i < 32) ->
  exists x, (val ← lapic_read o; lapic_write o (if b then Z.lor val (Z.shiftl 1 16) else Z.land val (u32 (Z.lnot (Z.shiftl 1 16)))) : K X unit) s = Ret tt (with_ext s x) /\
    mask_is o b (ext s) x /\ at_regs x.
Proof.
  intros HA Ho Hw Hlt. rewrite (bind_ret _ _ _ _ _ (lapic_read_eq o s HA Ho)).
  destruct (lapic_write_eq o (if b then Z.lor (reg (ext s) o) (Z.shiftl 1 16) else Z.land (reg (ext s) o) (u32 (Z.lnot (Z.shiftl 1 16)))) s HA Ho) as (x & E & Hb & Hc & HA').
  exists x. split; [exact E|]. split; [|done]. split_and!; [|intros i Hi Hwi Hne|apply Hc..].
  - rewrite Hb, mask_bit by (done || lia). done.
  - specialize (Hlt i Hwi). rewrite Hb, mask_bit, decide_False by (done || lia). done.
Qed.

Lemma lvttr_bits i : writable LAPIC_LVTTR i = true -> i < 32.
Proof. unfold writable. cbn. rewrite !orb_true_iff, Z.ltb_lt, !Z.eqb_eq. lia. Qed.
Lemma lvter_bits i : writable LAPIC_LVTER i = true -> i < 32.
Proof. unfold writable. cbn. rewrite !orb_true_iff, Z.ltb_lt, !Z.eqb_eq. lia. Qed.

Lemma timer_mask_eq (b : bool) s : at_regs (ext s) -> exists x, (if b then lapic_mask_lapic_timer else lapic_unmask_lapic_timer) s = Ret tt (with_ext s x) /\
  mask_is LAPIC_LVTTR b (ext s) x /\ at_regs x.
Proof. intros HA. destruct (set_mask_eq b LAPIC_LVTTR s HA) as (x & E & H); [set_solver|done|apply lvttr_bits|]. exists x. split; [|done]. by destruct b. Qed.

Lemma lapic_eoi_eq s : at_regs (ext s) -> exists x, lapic_eoi s = Ret tt (with_ext s x) /\
  (forall o, o ∈ plain_regs -> reg x o = reg (ext s) o) /\ eois x = S (eois (ext s)) /\ vars x = vars (ext s) /\ calls x = calls (ext s).
Proof.
  intros HA. exists (mmio_write (ext s) (u64 (A + LAPIC_EOI)) 0). unfold lapic_eoi, lapic_write, getv, wr32. mred. rewrite HA. split; [done|]. split_and!; [apply eoi_write..|apply calls_write].
Qed.

(** The local interrupt controller as a controller of the interrupt manager: enabling and disabling the vectors of the timer and of errors clear and set the mask bit of their entry and nothing else, other vectors of the range need nothing, vectors outside it stop the kernel; the end of an interrupt is announced to the controller once; the finder knows the three vectors. *)
Theorem lapic_ctrlr_correct frames s : at_regs (ext s) ->
  (forall (b : bool) no, let op := if b then lapic_disable_irq no else lapic_enable_irq no in
     if in_range no then exists x, op s = Ret tt (with_ext s x) /\
       (if decide (no = 0xf0) then mask_is LAPIC_LVTTR b (ext s) x else if decide (no = 0xfe) then mask_is LAPIC_LVTER b (ext s) x else x = ext s)
     else op s = Stop Assert) /\
  (forall no, exists x, lapic_eoi_irq no s = Ret tt (with_ext s x) /\ (forall o, o ∈ plain_regs -> reg x o = reg (ext s) o) /\ eois x = S (eois (ext s)) /\ vars x = vars (ext s)) /\
  (forall exc e, frames exc = Some e -> lapic_find_pending_irq frames exc s =
     Ret (if decide (trapno e ∈ [0xf0; 0xfe; 0xff]) then (IRQ_FOUND, Some (trapno e)) else (IRQ_NOT_FOUND, None)) s).
Proof.
  intros HA. split_and!.
  - intros b no. cbv zeta. destruct (in_range no) eqn:Er.
    + assert ((if b then lapic_disable_irq no else lapic_enable_irq no) s =
        (if decide (no = 0xf0) then (if b then lapic_mask_lapic_timer else lapic_unmask_lapic_timer)
         else if decide (no = 0xfe) then val ← lapic_read LAPIC_LVTER; lapic_write LAPIC_LVTER (if b then Z.lor val (Z.shiftl 1 16) else Z.land val (u32 (Z.lnot (Z.shiftl 1 16))))
         else mret tt) s) as ->.
      { unfold lapic_disable_irq, lapic_enable_irq. rewrite Er. unfold LAPIC_TIMER_INT_VECTOR, LAPIC_ERROR_INT_VECTOR.
        destruct (Z.eqb_spec no 0xf0), (decide (no = 0xf0)), (Z.eqb_spec no 0xfe), (decide (no = 0xfe)); try lia; by destruct b. }
      case_decide; [destruct (timer_mask_eq b s HA) as (x & E & Hx & _); eauto|].
      case_decide; [|exists (ext s); by destruct s].
      destruct (set_mask_eq b LAPIC_LVTER s HA) as (x & E & Hx & _); [set_solver|done|apply lvter_bits|eauto].
    + by destruct b; unfold lapic_disable_irq, lapic_enable_irq; rewrite Er.
  - intros no. destruct (lapic_eoi_eq s HA) as (x & E & Hr & He & Hv & _). eauto.
  - intros exc e Ef. unfold lapic_find_pending_irq. rewrite Ef. mred.
    unfold LAPIC_INT_VECTOR_MIN, LAPIC_INT_VECTOR_MAX, LAPIC_TIMER_INT_VECTOR, LAPIC_ERROR_INT_VECTOR, LAPIC_SPURIOUS_INT_VECTOR.
    destruct (Z.ltb_spec (trapno e) 0xf0), (Z.ltb_spec 0xff (trapno e)); cbn; try (rewrite decide_False; [done|rewrite !elem_of_cons, elem_of_nil; lia]).
    destruct (Z.eqb_spec (trapno e) 0xf0), (Z.eqb_spec (trapno e) 0xfe), (Z.eqb_spec (trapno e) 0xff); cbn; try (rewrite decide_True; [done|set_solver]).
    rewrite decide_False; [done|]. rewrite !elem_of_cons, elem_of_nil. lia.
Qed.

Lemma getv_eq s : getv s = Ret (vars (ext s)) s.
Proof. done. Qed.

(** ** A timer interrupt through the controller *)

(** The state of the controller during an interrupt, from [x0] on: the timer is
    masked or not, [n] ends of interrupts were told, the rest is as in [x0]. *)
Definition lapic_at x0 (b : bool) (n : nat) x : Prop :=
  Z.testbit (reg x LAPIC_LVTTR) 16 = b /\ (forall i, 0 <= i -> writable LAPIC_LVTTR i = true -> i <> 16 -> Z.testbit (reg x LAPIC_LVTTR) i = Z.testbit (reg x0 LAPIC_LVTTR) i) /\
  (forall o, o ∈ plain_regs -> o <> LAPIC_LVTTR -> reg x o = reg x0 o) /\ eois x = n /\ vars x = vars x0.

Lemma lapic_mask_acts x0 (b b' : bool) n : at_regs x0 ->
  acts calls (if b' then lapic_disable_irq LAPIC_TIMER_INT_VECTOR else lapic_enable_irq LAPIC_TIMER_INT_VECTOR) (lapic_at x0 b n) (fun _ => lapic_at x0 b' n).
Proof.
  intros HA s (M & B & C & N & V). assert (at_regs (ext s)) as HA' by (unfold at_regs; by rewrite V).
  destruct (timer_mask_eq b' s HA') as (x & E & (M' & B' & C' & N' & L & V') & _). exists tt, x. split_and!.
  - by destruct b'.
  - split_and!; [done| | |by rewrite N'|by rewrite V'].
    + intros i Hi Hw Hne. by rewrite B', B.
    + intros o Ho Hne. by rewrite C', C.
  - done.
Qed.

Lemma lapic_eoi_acts x0 b n no : at_regs x0 -> acts calls (lapic_eoi_irq no) (lapic_at x0 b n) (fun _ => lapic_at x0 b (S n)).
Proof.
  intros HA s (M & B & C & N & V). destruct (lapic_eoi_eq s) as (x & E & R & N' & V' & L); [unfold at_regs; by rewrite V|].
  destruct timer_regs as (PI & PD & PL). exists tt, x. split_and!; [exact E| |done].
  split_and!; [by rewrite R| | |by rewrite N', N|by rewrite V'].
  - intros i Hi Hw Hne. rewrite R by done. by apply B.
  - intros o Ho Hne. rewrite R by done. by apply C.
Qed.

Lemma lapic_cycle x0 n b pr : at_regs x0 -> line_cycle calls lapic_ctrlr LAPIC_TIMER_INT_VECTOR pr
  (lapic_at x0 b n) (fun _ => lapic_at x0 true (S n)) (fun _ => lapic_at x0 true (S n)) (lapic_at x0 false (S n)).
Proof.
  intros HA. eapply (cycle_mask _ _ _ _ _ _ _ _ lapic_disable_irq lapic_enable_irq lapic_eoi_irq (lapic_at x0 true n)); try done.
  - by apply (lapic_mask_acts x0 b true).
  - by apply lapic_eoi_acts.
  - by apply (lapic_mask_acts x0 true false).
Qed.

(** ** Programming the timer *)

(** The timer counts down from [v] at the clock's rate and interrupts at its
    vector, once or periodically. *)
Definition timer_runs (v : Z) (periodic : bool) x : Prop :=
  reg x LAPIC_TIMER_ICR = v /\ (forall i, i ∈ [0; 1; 3] -> Z.testbit (reg x LAPIC_TIMER_DCR) i = true) /\
  (forall i, 0 <= i < 8 -> Z.testbit (reg x LAPIC_LVTTR) i = Z.testbit 0xf0 i) /\ Z.testbit (reg x LAPIC_LVTTR) 16 = false /\ Z.testbit (reg x LAPIC_LVTTR) 17 = periodic.

Lemma reg_eq x o v : 0 <= v < 2 ^ 32 -> (forall i, 0 <= i < 32 -> Z.testbit (reg x o) i = Z.testbit v i) -> reg x o = v.
Proof.
  intros Hv Hb. pose proof (reg_range x o). apply Z.bits_inj'. intros i Hi. destruct (decide (i < 32)); [by apply Hb|].
  rewrite <-(wrap_small 32 (reg x o)), <-(wrap_small 32 v) by done. unfold wrap. by rewrite !Z.mod_pow2_bits_high by lia.
Qed.

Lemma lapic_setup_timer_eq usec (periodic : bool) s : at_regs (ext s) -> exists x, lapic_setup_timer usec periodic s = Ret tt (with_ext s x) /\
  timer_runs (u32 (usec * tcr_per_us (vars (ext s)))) periodic x /\ vars x = vars (ext s) /\ eois x = eois (ext s).
Proof.
  intros HA. unfold lapic_setup_timer.
  destruct timer_regs as (PI & PD & PL).
  destruct (lapic_write_eq LAPIC_TIMER_DCR APIC_TDCR_1 s HA) as (x1 & E1 & B1 & (C1 & N1 & _ & V1) & HA1); [done|]. rewrite (bind_ret _ _ _ _ _ E1).
  destruct (timer_mask_eq true (with_ext s x1) HA1) as (x2 & E2 & (_ & _ & C2 & N2 & _ & V2) & HA2). rewrite (bind_ret _ _ _ _ _ E2).
  set (lvtt := if periodic then Z.lor LAPIC_TIMER_INT_VECTOR LAPIC_LVTT_TM else LAPIC_TIMER_INT_VECTOR).
  destruct (lapic_write_eq LAPIC_LVTTR lvtt (with_ext (with_ext s x1) x2) HA2) as (x3 & E3 & B3 & (C3 & N3 & _ & V3) & HA3); [done|]. rewrite (bind_ret _ _ _ _ _ E3).
  cbn [ext with_ext] in *. rewrite (bind_ret _ _ _ _ _ (getv_eq _)). cbn [ext with_ext].
  destruct (lapic_write_eq LAPIC_TIMER_ICR (u64 (usec * tcr_per_us (vars x3))) (with_ext s x3) HA3) as (x4 & E4 & B4 & (C4 & N4 & _ & V4) & HA4); [done|].
  change (with_ext (with_ext (with_ext s x1) x2) x3) with (with_ext s x3). rewrite (bind_ret _ _ _ _ _ E4).
  destruct (timer_mask_eq false (with_ext s x4) HA4) as (x5 & E5 & (M5 & B5 & C5 & N5 & _ & V5) & HA5).
  exists x5. split; [exact E5|]. cbn [ext with_ext] in *. split; [|by rewrite V5, V4, V3, V2, V1, N5, N4, N3, N2, N1].
  assert (forall i, 0 <= i -> writable LAPIC_LVTTR i = true -> i <> 16 -> Z.testbit (reg x5 LAPIC_LVTTR) i = Z.testbit lvtt i) as HB.
  { intros i Hi Hw Hne. pose proof (lvttr_bits i Hw). by rewrite B5, C4, B3. }
  split_and!.
  - apply reg_eq; [apply wrap_range; lia|]. intros i Hi. rewrite C5, B4 by (done || lia || (unfold writable; cbn; lia)).
    unfold u64, u32. by rewrite !wrap_testbit, V3, V2, V1 by lia.
  - intros i Hi. rewrite C5, C4, C3, C2 by done. rewrite !elem_of_cons, elem_of_nil in Hi. destruct Hi as [->|[->|[->|[]]]]; by rewrite B1.
  - intros i Hi. rewrite HB; [|lia|unfold writable; cbn; lia|lia]. unfold lvtt. destruct periodic; [|done]. rewrite Z.lor_spec. unfold LAPIC_LVTT_TM.
    rewrite Z.shiftl_1_l, Z.pow2_bits_eqb, (proj2 (Z.eqb_neq 17 i)), orb_false_r by lia. done.
  - exact M5.
  - rewrite HB by done. by destruct periodic.
Qed.

Section tick.
Variable ctrlr : ptr -> irq_ctrlr X.
Variable call_handler : fptr -> Z -> ptr -> Z -> K X Z.
Variable call_finder : fptr -> ptr -> K X (Z * Z).
Variable call_callout : fptr -> Z -> K X unit.
Variables (time_slice undef junk : Z).
Variable frames : ptr -> option exception_frame.
Variable kprintf : list Z -> list varg -> K X unit.
Variables (exc : ptr) (e : exception_frame) (h : ptr) (fn : fptr) (priv : Z) (line : irq_line) (fp fl : ptr) (gp gl : fptr).
Local Abbreviation irq := LAPIC_TIMER_INT_VECTOR.

(** A finder leaves the number it is asked for alone when it finds nothing. *)
Definition finder (c : K X (Z * option Z)) : K X (Z * Z) := r ← c; mret (r.1, default junk r.2).

Hypothesis frame_is : frames exc = Some e /\ trapno e = irq.
Hypothesis handler_is : call_handler fn irq exc priv = x64_timer_handler call_callout time_slice irq exc priv.
Hypothesis pic_finder_is : call_finder gp exc = finder (i8259_find_pending_irq irq).
Hypothesis lapic_finder_is : call_finder gl exc = finder (lapic_find_pending_irq frames exc).
Hypothesis ctrlr_is : ctrlr (ctrlrp line) = lapic_ctrlr.
Hypothesis callouts_ok : forall x0, callouts_quiet call_callout calls (lapic_at x0 true (S (eois x0))).

(** The timer's vector has the timer's handler and this controller, and the
    finders of both controllers are registered. *)
Record lapic_ready s : Prop := LapicReady {
  lr_regs : at_regs (ext s);
  lr_line : single irq h fn priv line s;
  lr_fn : fn <> NULL;
  lr_alone : ctrue (Z.land (iattr line) IRQ_ATTR_NON_NESTABLE) = true;
  lr_ctrlr : ctrlrp line <> NULL;
  lr_ring : is_ring (links s) FindIrqsHead (FinderLink <$> [fp; fl]);
  lr_pic : finders s !! fp = Some gp /\ gp <> NULL;
  lr_lapic : finders s !! fl = Some gl /\ gl <> NULL }.

Lemma lapic_found P : acts calls (call_finder gl exc) P (fun r x => r = (IRQ_FOUND, irq) /\ P x).
Proof.
  intros s HP. exists (IRQ_FOUND, irq), (ext s). split; [|done]. rewrite lapic_finder_is. unfold finder, lapic_find_pending_irq.
  destruct frame_is as [-> Et]. mred. rewrite Et. cbn. by destruct s.
Qed.
Lemma pic_not_found P : acts calls (call_finder gp exc) P (fun r x => r.1 <> IRQ_FOUND /\ P x).
Proof. intros s HP. exists (IRQ_NOT_FOUND, junk), (ext s). split; [|done]. rewrite pic_finder_is. unfold finder, i8259_find_pending_irq. cbn. mred. by destruct s. Qed.

Lemma lapic_routed s : lapic_ready s -> let x0 := ext s in let opn := lapic_at x0 (Z.testbit (reg x0 LAPIC_LVTTR) 16) (eois x0) in
  routed ctrlr call_finder calls irq exc h fn priv line [fp; fl] fl opn opn (fun _ => lapic_at x0 true (S (eois x0))) (fun _ => lapic_at x0 true (S (eois x0)))
    (lapic_at x0 false (S (eois x0))) s.
Proof.
  intros [A1 A2 A3 A4 A5 A6 [A7 A7'] [A8 A8']] x0 opn. split; [done..| | |done].
  - rewrite ctrlr_is. by apply lapic_cycle.
  - split; [done|set_solver| | |].
    + intros f [->| ->%list_elem_of_singleton]%elem_of_cons; eauto.
    + intros g Eg. simplify_eq. apply lapic_found.
    + intros f g [->| ->%list_elem_of_singleton]%elem_of_cons Hne Eg; [|done]. simplify_eq. split; apply pic_not_found.
Qed.

(** C24. A timer interrupt of the PC, through both interrupt controllers.  At vector 0xf0 the finder of the i8259 finds nothing, that of the local controller finds the timer; its line is masked, the end of the interrupt told once, the timer's handler run and the line unmasked again: the timer runs on as it was programmed, no other register has changed, and the tick has its effects on the clock, the call-outs and the running thread. *)
Theorem x64_lapic_tick s cs th v n per : tick_ready s cs th -> lapic_ready s -> timer_runs n per (ext s) ->
  tinfos s !! tinfo th = Some v -> 0 <= preempt v < 2 ^ 64 -> pre_count (preempt v) THR_IRQCNT_SHIFT < 255 ->
  exists s', hal_common_trap_handler ctrlr call_handler call_finder undef frames kprintf exc s = Ret tt s' /\
    timer_runs n per (ext s') /\ eois (ext s') = S (eois (ext s)) /\ (forall o, o ∈ plain_regs -> o <> LAPIC_LVTTR -> reg (ext s') o = reg (ext s) o) /\
    tick_result time_slice calls s cs th v s'.
Proof.
  intros HR HW HT Ev Hv Hc. destruct frame_is as [Ef Et].
  destruct (x64_timer_trap ctrlr call_handler call_finder call_callout time_slice undef frames kprintf calls irq exc h fn priv line [fp; fl] fl _ _ _ _ handler_is
    (fun _ => callouts_ok (ext s)) s cs th v e HR (lapic_routed s HW) Ef) as ([] & s' & E & Ht & M & B & C & N & V); [by rewrite Et|done..|].
  exists s'. split_and!; [exact E| |done|done|by apply ticked_result]. destruct HT as (T1 & T2 & T3 & T4 & T5).
  destruct timer_regs as (PI & PD & PL).
  split_and!; [by rewrite C| |intros i Hi|done|].
  - rewrite C by done. exact T2.
  - rewrite B; [by apply T3|lia|unfold writable; cbn; lia|lia].
  - by rewrite B.
Qed.
End tick.

(** ** Calibration *)

Section calibration.
(** During the calibration the clock of the i8254 interrupts every 10 ms:
    [advance] is what such an interval does to the machine.  In it the time stamp
    counter advances by [tlo] to [thi], and the count of the local timer, [ccr],
    goes down by [clo] to [chi]. *)
Variables (advance : X -> X) (ccr : X -> Z) (tlo thi clo chi : Z) (exc : ptr).
Definition steady : Prop := forall x,
  mmio_read x (u64 (A + LAPIC_TIMER_CCR)) = (ccr x, x) /\
  (forall v, tsc_read (set_vars x v) = tsc_read x /\ ccr (set_vars x v) = ccr x) /\ vars (advance x) = vars x /\
  exists dt dc, tlo <= dt <= thi /\ clo <= dc <= chi /\ tsc_read (advance x) = u64 (tsc_read x + dt) /\ ccr (advance x) = u32 (ccr x - dc).
Hypothesis clock_steady : steady.

(** The interrupt of the interval. *)
Definition clock_interrupt : K X unit :=
  s ← get; put (with_ext s (advance (ext s)));; lapic_calibrate_handler X64_I8254_TIMER_IRQ exc NULL;; mret tt.

(** The variables between two measurements, [n] of which are still to be made
    and whose sums are [a] and [b]. *)
Definition measuring (n a b : Z) (x : X) : Prop :=
  at_regs x /\ calibration_count (vars x) = n /\ tsc_per_us (vars x) = a /\ tcr_per_us (vars x) = b /\ tsc1 (vars x) = 0 /\ tsc2 (vars x) = 0.

Lemma modv_eq f s : modv f s = Ret tt (with_ext s (set_vars (ext s) (f (vars (ext s))))).
Proof. done. Qed.

Lemma rdtsc_eq s : rdtsc s = Ret (tsc_read (ext s)) s.
Proof. done. Qed.
Local Ltac vsteps := repeat (rewrite ?getv_eq, ?modv_eq, ?rdtsc_eq; cbn [run_bind ext with_ext]; rewrite ?get_vars).

Lemma calibrate_reads s : at_regs (ext s) -> lapic_read LAPIC_TIMER_CCR s = Ret (ccr (ext s)) s.
Proof. intros HA. unfold lapic_read, getv. mred. rewrite HA. rewrite (rd32_eq _ _ _ _ (proj1 (clock_steady (ext s)))). by destruct s. Qed.

(** The first interrupt of a measurement takes the readings, *)
Lemma first_reading s : at_regs (ext s) -> tsc1 (vars (ext s)) = 0 -> let x1 := advance (ext s) in
  exists x, clock_interrupt s = Ret tt (with_ext s x) /\ vars x = with_first (vars (ext s)) (tsc_read x1) (ccr x1) /\ tsc_read x = tsc_read x1 /\ ccr x = ccr x1.
Proof.
  intros HA H1. cbv zeta. destruct (clock_steady (ext s)) as (_ & _ & Ev & _). unfold clock_interrupt, lapic_calibrate_handler. mred. vsteps.
  rewrite Ev, H1. cbn [Z.eqb]. mred. vsteps.
  rewrite calibrate_reads by (unfold at_regs; cbn; by rewrite get_vars, Ev). vsteps.
  eexists. split; [done|]. rewrite !get_vars, Ev. cbn. rewrite !(proj1 (proj1 (proj2 (clock_steady _)) _)), !(proj2 (proj1 (proj2 (clock_steady _)) _)). done.
Qed.

(** the second adds the differences. *)
Lemma second_reading s : at_regs (ext s) -> let v := vars (ext s) in tsc1 v <> 0 -> tsc2 v = 0 -> let x1 := advance (ext s) in
  exists x, clock_interrupt s = Ret tt (with_ext s x) /\ tsc_read x = tsc_read x1 /\ ccr x = ccr x1 /\ 
    measuring (s32 (calibration_count v - 1)) (u64 (tsc_per_us v + u64 (tsc_read x1 - tsc1 v))) (u64 (tcr_per_us v + u32 (tcr1 v - ccr x1))) x.
Proof.
  intros HA v H1 H2. cbv zeta. destruct (clock_steady (ext s)) as (_ & _ & Ev & _). unfold clock_interrupt, lapic_calibrate_handler. mred. vsteps.
  rewrite Ev. fold v. rewrite (proj2 (Z.eqb_neq _ _) H1), H2. cbn [Z.eqb]. mred. vsteps.
  rewrite calibrate_reads by (unfold at_regs; cbn; by rewrite get_vars, Ev). vsteps.
  eexists. split; [done|]. rewrite !(proj1 (proj1 (proj2 (clock_steady _)) _)), !(proj2 (proj1 (proj2 (clock_steady _)) _)). split_and!; [done..|].
  unfold measuring, at_regs. rewrite !get_vars, Ev. cbn. done.
Qed.

(** The sums after [k] measurements. *)
Definition summed (k n : Z) (x : X) : Prop := exists a b, measuring n a b x /\ k * tlo <= a <= k * thi /\ k * clo <= b <= k * chi.
Hypothesis bounds : 0 < tlo /\ 0 <= clo /\ chi < 2 ^ 32.

Lemma u64_small z : 0 <= z < 2 ^ 64 -> u64 z = z.
Proof. apply wrap_small. Qed.
Lemma u32_diff c d : 0 <= d < 2 ^ 32 -> u32 (c - u32 (c - d)) = d.
Proof. intros Hd. unfold u32, wrap. rewrite Zminus_mod_idemp_r. replace (c - (c - d)) with d by lia. by apply Z.mod_small. Qed.

Lemma wait_enabled s f : 0 < calibration_count (vars (ext s)) ->
  calibrate_wait clock_interrupt (S f) s = run_bind (clock_interrupt (with_ie s true)) (fun _ => calibrate_wait clock_interrupt f).
Proof. intros Hc. cbn [calibrate_wait]. mred. vsteps. by rewrite (proj2 (Z.ltb_lt _ _) Hc). Qed.

Lemma measurement s k n f : summed k n (ext s) -> 0 < n <= 10 -> 0 <= k <= 10 -> 0 <= tsc_read (ext s) -> tsc_read (ext s) + 20 * thi < 2 ^ 64 ->
  exists x, calibrate_wait clock_interrupt (S (S f)) s = calibrate_wait clock_interrupt f (with_ie (with_ext s x) true) /\
    summed (k + 1) (n - 1) x /\ tsc_read (ext s) <= tsc_read x <= tsc_read (ext s) + 2 * thi.
Proof.
  intros (a & b & (HA & Hn & Ha & Hb & H1 & H2) & Ba & Bb) Hr Hk H0 Hmax. destruct bounds as (Btlo & Bclo & Bchi).
  rewrite wait_enabled by lia. destruct (first_reading (with_ie s true) HA H1) as (x1 & E1 & V1 & T1 & C1). rewrite E1. cbn [run_bind ext with_ie] in *.
  set (y1 := advance (ext s)) in *. destruct (clock_steady (ext s)) as (_ & _ & _ & dt & dc & Hdt & Hdc & Ty & Cy). fold y1 in Ty, Cy.
  destruct (clock_steady x1) as (_ & _ & _ & dt2 & dc2 & Hdt2 & Hdc2 & Ty2 & Cy2).
  assert (tsc_read y1 = tsc_read (ext s) + dt) as Ey1 by (rewrite Ty; apply u64_small; lia).
  assert (tsc_read (advance x1) = tsc_read (ext s) + dt + dt2) as Ey2 by (rewrite Ty2, T1, Ey1; apply u64_small; lia).
  rewrite wait_enabled by (cbn; rewrite V1; cbn; lia).
  destruct (second_reading (with_ie (with_ext (with_ie s true) x1) true)) as (x2 & E2 & T2 & C2 & HM2);
    [unfold at_regs; cbn; by rewrite V1|cbn; rewrite V1; cbn; lia|cbn; rewrite V1; cbn; done|].
  rewrite E2. cbn [run_bind ext with_ie with_ext] in *. exists x2. split; [done|]. split; [|lia].
  rewrite V1 in HM2. cbn in HM2. rewrite Hn, Ha, Hb in HM2. exists (a + dt2), (b + dc2). split; [|nia].
  rewrite Cy2, C1, u32_diff, Ey1, Ey2 in HM2 by lia. replace (tsc_read (ext s) + dt + dt2 - (tsc_read (ext s) + dt)) with dt2 in HM2 by lia.
  assert (0 <= a <= 10 * thi /\ 0 <= b <= 10 * chi) as [Ha' Hb'] by nia.
  unfold s32 in HM2. rewrite swrap_small, (u64_small dt2), !u64_small in HM2 by lia. exact HM2.
Qed.

Lemma calibrate_wait_eq (n : nat) : forall s k, summed k (Z.of_nat n) (ext s) -> 0 <= k -> k + Z.of_nat n <= 10 -> 0 <= tsc_read (ext s) ->
  tsc_read (ext s) + 2 * Z.of_nat n * thi < 2 ^ 64 - 20 * thi ->
  exists x i, calibrate_wait clock_interrupt (n * 2)%nat s = Ret tt (with_ie (with_ext s x) i) /\ summed (k + Z.of_nat n) 0 x.
Proof.
  induction n as [|n IH]; intros s k HS Hk Hn H0 Hmax.
  all: assert (0 < thi) as Hthi by (destruct (clock_steady (ext s)) as (_ & _ & _ & dt & _ & Hdt & _); lia).
  - exists (ext s), (ie s). rewrite Z.add_0_r. split; [|exact HS]. destruct HS as (a & b & (_ & E & _) & _). cbn. mred. vsteps. rewrite E. by destruct s.
  - destruct (measurement s k (Z.of_nat (S n)) (n * 2)) as (x & E & HS' & HT); [done|lia..|nia|].
    change (S n * 2)%nat with (S (S (n * 2)))%nat. rewrite E.
    destruct (IH (with_ie (with_ext s x) true) (k + 1)) as (x' & i & E' & HS2); cbn [ext with_ie with_ext]; [|lia..|nia|].
    + by replace (Z.of_nat n) with (Z.of_nat (S n) - 1) by lia.
    + exists x', i. split; [exact E'|]. by replace (k + Z.of_nat (S n)) with (k + 1 + Z.of_nat n) by lia.
Qed.

(** C25. The timer runs at the measured rate.  When the clock interrupts at the end of each interval of 10 ms in which the local timer counts [clo] to [chi] ticks and the processor [tlo] to [thi] cycles, the loop of the calibration ends after 20 interrupts, the rates found are the ticks and cycles of a microsecond, within the bounds of the intervals, and a periodic timer of [usec] microseconds then counts down from that many microseconds' ticks and interrupts at its vector, unmasked and periodic. *)
Theorem lapic_timer_calibrated s usec : measuring 10 0 0 (ext s) -> 0 <= tsc_read (ext s) -> tsc_read (ext s) + 40 * thi < 2 ^ 64 ->
  0 <= usec -> usec * (chi / 10000) < 2 ^ 32 ->
  exists s', (calibrate_wait clock_interrupt 20;; calibrate_average;; x64_lapic_set_timer_periodic usec) s = Ret tt s' /\
    tlo / 10000 <= tsc_per_us (vars (ext s')) <= thi / 10000 /\ clo / 10000 <= tcr_per_us (vars (ext s')) <= chi / 10000 /\
    timer_runs (usec * tcr_per_us (vars (ext s'))) true (ext s').
Proof.
  intros HM0 H0 Hmax Hu Hov.
  assert (summed 0 10 (ext s)) as HS by (exists 0, 0; split; [done|lia]).
  destruct (calibrate_wait_eq 10 s 0 HS) as (x & i & E & a & b & (HA & _ & Ha & Hb & _) & Ba & Bb); [lia..|].
  rewrite (bind_ret _ _ _ _ _ E). change (0 + Z.of_nat 10) with 10 in *. set (s1 := with_ie (with_ext s x) i).
  assert (forall lo hi z, 10 * lo <= z <= 10 * hi -> lo / 10000 <= z / 10 / 10000 <= hi / 10000) as Hdiv.
  { intros lo hi z Hz. split; (apply Z.div_le_mono; [lia|]); [apply Z.div_le_lower_bound|apply Z.div_le_upper_bound]; lia. }
  set (v1 := with_rates (with_rates (vars x) (a / 10 / 10000) (tcr_per_us (vars x))) (a / 10 / 10000) (b / 10 / 10000)).
  assert (exists x', calibrate_average s1 = Ret tt (with_ext s1 x') /\ vars x' = v1) as (x' & E1 & V1).
  { unfold calibrate_average. mred. vsteps. eexists. split; [done|]. rewrite get_vars. cbn. by rewrite Ha, Hb. }
  rewrite (bind_ret _ _ _ _ _ E1).
  destruct (lapic_setup_timer_eq usec true (with_ext s1 x')) as (x2 & E2 & HT & V2 & _); [unfold at_regs; cbn; by rewrite V1|].
  cbn [ext with_ext] in *. exists (with_ext s1 x2). split; [exact E2|]. cbn [ext with_ext].
  rewrite V1 in HT, V2. rewrite V2. cbn in *. destruct bounds as (Btlo & Bclo & Bchi). pose proof (Hdiv clo chi b Bb) as Db. pose proof (Hdiv tlo thi a Ba) as Da.
  split_and!; [apply Da..|apply Db|apply Db|]. pose proof (Z.div_pos clo 10000). unfold u32 in HT. rewrite wrap_small in HT by nia. exact HT.
Qed.
End calibration.
End properties.

(** ** A machine with the laws: its registers are at address 0 *)

Record lapicm : Type := Lapicm { l_regs : Z -> Z; l_eois : nat; l_vars : lapic_vars; l_tsc : Z; l_log : list (fptr * Z) }.

Definition l_write (x : lapicm) (a v : Z) : lapicm :=
  if a =? LAPIC_EOI then Lapicm (l_regs x) (S (l_eois x)) (l_vars x) (l_tsc x) (l_log x)
  else Lapicm (fun o => if o =? a then v mod 2 ^ 32 else l_regs x o) (l_eois x) (l_vars x) (l_tsc x) (l_log x).

#[export] Instance lapicm_machine : LapicMachine lapicm := {|
  lm_ports := {| port_in x p := (0, x); port_out x p v := x |};
  lm_mmio := {| mmio_read x a := (l_regs x a mod 2 ^ 32, x); mmio_write := l_write |};
  msr_read x m := LAPIC_DEFAULT_ADDR; edx x := 0; msr_write x m v := x; tsc_read := l_tsc;
  vars := l_vars; set_vars x v := Lapicm (l_regs x) (l_eois x) v (l_tsc x) (l_log x) |}.
#[export] Instance lapicm_view : LapicView lapicm := {| reg x o := l_regs x o mod 2 ^ 32; eois := l_eois; calls := l_log |}.

Lemma plain_small o : o ∈ plain_regs -> 0 <= o < 0x400 /\ o <> LAPIC_EOI.
Proof. unfold plain_regs. rewrite !elem_of_cons, elem_of_nil. intros Ho. repeat destruct Ho as [->|Ho]; [by vm_compute..|done]. Qed.

#[export] Instance lapicm_laws : LapicLaws lapicm 0.
Proof.
  split.
  - intros x o. apply Z.mod_pos_bound. lia.
  - intros x o Ho%plain_small. cbn. by rewrite u64_small by lia.
  - intros x o v [Hr Hne]%plain_small Hv. intros x'.
    assert (x' = Lapicm (fun a => if a =? o then v mod 2 ^ 32 else l_regs x a) (l_eois x) (l_vars x) (l_tsc x) (l_log x)) as ->.
    { change (l_write x (u64 (0 + o)) v = Lapicm (fun a => if a =? o then v mod 2 ^ 32 else l_regs x a) (l_eois x) (l_vars x) (l_tsc x) (l_log x)).
      rewrite Z.add_0_l, u64_small by lia. unfold l_write. by rewrite (proj2 (Z.eqb_neq _ _) Hne). }
    unfold reg, lapicm_view, l_regs. split_and!; [..|done|done].
    + intros i Hi _. by rewrite Z.eqb_refl, Zmod_mod, Z.mod_small.
    + intros o' _ Ho. by rewrite (proj2 (Z.eqb_neq _ _) Ho).
  - intros x x'. assert (x' = Lapicm (l_regs x) (S (l_eois x)) (l_vars x) (l_tsc x) (l_log x)) as -> by done. done.
  - intros x a v. cbn. unfold l_write. by case_match.
  - done.
Qed.

(** The calibration on a machine whose processor runs at 2 GHz and whose timer
    at 100 MHz: the timer of 10 ms counts down from 1000000. *)
Definition lm_advance (x : lapicm) : lapicm :=
  Lapicm (fun o => if o =? LAPIC_TIMER_CCR then u32 (l_regs x o mod 2 ^ 32 - 1000000) else l_regs x o) (l_eois x) (l_vars x) (u64 (l_tsc x + 20000000)) (l_log x).

Lemma lm_steady : steady (A := 0) lm_advance (fun x => l_regs x LAPIC_TIMER_CCR mod 2 ^ 32) 20000000 20000000 1000000 1000000.
Proof.
  intros x. split_and!; [done|done|done|]. exists 20000000, 1000000. split_and!; try lia; [done|].
  change (u32 (l_regs x LAPIC_TIMER_CCR mod 2 ^ 32 - 1000000) mod 2 ^ 32 = u32 (l_regs x LAPIC_TIMER_CCR mod 2 ^ 32 - 1000000)).
  unfold u32, wrap. by rewrite Zmod_mod.
Qed.

Definition lm_start : lapicm := Lapicm (fun _ => 0) 0 (LapicVars 0 LAPIC_DEFAULT_ADDR 0 0 10 0 0 0 0 0 0) 5000 [].
Definition lm_kst (x : lapicm) : kst lapicm := Kst ∅ false ∅ ∅ 0 0 ∅ ∅ ∅ 0 ∅ ∅ ∅ ∅ [] 0 x.

Lemma lapic_timer_calibrated_witness : exists s',
  (calibrate_wait (clock_interrupt lm_advance 0x7000) 20;; calibrate_average;; x64_lapic_set_timer_periodic 10000) (lm_kst lm_start) = Ret tt s' /\
  tsc_per_us (vars (ext s')) = 2000 /\ tcr_per_us (vars (ext s')) = 100 /\ timer_runs 1000000 true (ext s').
Proof.
  destruct (lapic_timer_calibrated lm_advance _ 20000000 20000000 1000000 1000000 0x7000 lm_steady ltac:(lia) (lm_kst lm_start) 10000)
    as (s' & E & H1 & H2 & H3); [by split_and!|cbn; lia|cbn; lia|lia|vm_compute; reflexivity|].
  exists s'. split; [exact E|]. assert (tcr_per_us (vars (ext s')) = 100) as E2 by (revert H2; vm_compute (1000000 / 10000); lia).
  split; [revert H1; vm_compute (20000000 / 10000); lia|]. split; [exact E2|]. rewrite E2 in H3. exact H3.
Defined.

(** The masks and the end of an interrupt. *)
Lemma lapic_ctrlr_correct_witness : exists x, lapic_disable_irq 0xf0 (lm_kst lm_start) = Ret tt (with_ext (lm_kst lm_start) x) /\ Z.testbit (reg x LAPIC_LVTTR) 16 = true.
Proof.
  destruct (lapic_ctrlr_correct (A := 0) (fun _ => None) (lm_kst lm_start)) as (H & _); [reflexivity|]. destruct (H true 0xf0) as (x & E & M & _).
  exists x. split; [exact E|exact M].
Defined.

(** The timer interrupt, with the queues of [demo_tick], both finders and a
    timer that runs with a period of 1000000. *)
Definition lm_running : lapicm :=
  Lapicm (fun o => if o =? LAPIC_LVTTR then 0x200f0 else if o =? LAPIC_TIMER_DCR then 0xb else if o =? LAPIC_TIMER_ICR then 1000000 else 0)
    3 (LapicVars 0 LAPIC_DEFAULT_ADDR 2000 100 0 0 0 0 0 0 0) 5000 [].
Definition lm_line : irq_line := IrqLine 0xf0 3 0 0x900.
Definition lm_links : gmap loc (node loc) :=
  <[IrqHead 0xf0 := Node (HandlerLink 60) (HandlerLink 60)]> (<[HandlerLink 60 := Node (IrqHead 0xf0) (IrqHead 0xf0)]>
  (<[FindIrqsHead := Node (FinderLink 71) (FinderLink 70)]> (<[FinderLink 70 := Node FindIrqsHead (FinderLink 71)]>
  (<[FinderLink 71 := Node (FinderLink 70) FindIrqsHead]> demo_timer_links)))).
Definition lm_tick : kst lapicm :=
  Kst lm_links false (threads demo_timer) {[0x2000 := ThreadInfo 0 100 THR_THREAD_INFO_MAGIC]} 100 0 ∅ ∅ ∅ 6 (callouts demo_timer)
    {[0xf0 := lm_line]} {[60 := IrqHandlerEnt 9 1]} (<[70 := 7]> {[71 := 8]}) [] 0 lm_running.
Definition lm_call (f : fptr) (a : Z) : K lapicm unit := fun s =>
  let x := ext s in Ret tt (with_ext s (Lapicm (l_regs x) (l_eois x) (l_vars x) (l_tsc x) (l_log x ++ [(f, a)]))).
Definition lm_frames (p : ptr) : option exception_frame :=
  Some (ExceptionFrame 0 0 0 0 0 0 0 0 0 0 0 0 0 0 0 0xf0 0 0x100000 0x20 0x202 0x8000 0x28).
Definition lm_finders (g : fptr) (exc : ptr) : K lapicm (Z * Z) :=
  finder 0 (if g =? 7 then i8259_find_pending_irq 0xf0 else lapic_find_pending_irq lm_frames exc).
Definition lm_handlers (f : fptr) (irq : Z) (exc : ptr) (p : Z) : K lapicm Z := x64_timer_handler lm_call 10 irq exc p.

Lemma lm_tick_ready : tick_ready lm_tick [50; 51] demo_running.
Proof.
  split; [done|done| | |done].
  - exists (fun _ => []). split; [|intros p Hp; by rewrite Z.bits_0|cbn; lia|by intros p t _ Ht%elem_of_nil].
    apply demo_heads. repeat (constructor; [ring_decide|]). constructor.
  - split; [ring_decide|]. intros c Hc. rewrite !elem_of_cons in Hc. destruct Hc as [->|[->|Hc]]; [by eexists..|by apply elem_of_nil in Hc].
Qed.

Lemma lm_lapic_ready : lapic_ready (A := 0) 60 9 1 lm_line 70 71 7 8 lm_tick.
Proof. split; [done|split_and!; [done|done|ring_decide]|done|done|done|ring_decide|done|done]. Qed.

Lemma lm_timer_runs : timer_runs 1000000 true lm_running.
Proof.
  split_and!; [done| |intros i Hi|done|done].
  - intros i Hi. rewrite !elem_of_cons, elem_of_nil in Hi. by destruct Hi as [->|[->|[->|[]]]].
  - assert (i ∈ [0; 1; 2; 3; 4; 5; 6; 7]) as Hin by (rewrite !elem_of_cons; lia). rewrite !elem_of_cons, elem_of_nil in Hin. by repeat destruct Hin as [->|Hin].
Qed.

Lemma x64_lapic_tick_witness : exists s', hal_common_trap_handler (fun _ => lapic_ctrlr) lm_handlers lm_finders 0 lm_frames (fun _ _ => mret tt) 0x7000 lm_tick = Ret tt s' /\
  timer_runs 1000000 true (ext s') /\ eois (ext s') = 4%nat /\ uptime s' = 7 /\ l_log (ext s') = [(9, 1)].
Proof.
  destruct (x64_lapic_tick (A := 0) (fun _ => lapic_ctrlr) lm_handlers lm_finders lm_call 10 0 0 lm_frames (fun _ _ => mret tt) 0x7000 _ 60 9 1 lm_line 70 71 7 8
    (conj eq_refl eq_refl) eq_refl eq_refl eq_refl eq_refl ltac:(intros x0 f a s n _ _ _ HD; eexists; split_and!; try done; apply quiet_ext)
    lm_tick [50; 51] demo_running (ThreadInfo 0 100 THR_THREAD_INFO_MAGIC) 1000000 true lm_tick_ready lm_lapic_ready lm_timer_runs)
    as (s' & E & HT & HN & _ & _ & _ & U & L & _); [reflexivity|split; [discriminate|reflexivity]|reflexivity|].
  exists s'. split; [exact E|]. split; [exact HT|]. split; [exact HN|]. split; [exact U|exact L].
Defined.
