(* ===== verification/User.v ===== *)
(** user/user.c and the screen functions of user/uprintf.c: the threads the kernel
    starts with.

    [UserVars] is a lens to the static variables of user.c.  The file system
    calls, the kernel's output and the delay are parameters here: their models
    are in File.v, Console.v and Thread.v.  Automatic variables that are read
    before they are written hold [junk_stat] and [junk_data]; [junk] is the
    buffer of [uprintf].  Endless loops run for [n] rounds. *)
From Stdlib Require Import String.
From S2P Require Import Printf Prelude Bitops KList Kernel ThreadInfo ReadyQueue Sched WaitQueue Timer Thread Irq CString FsState Blkio Trap X64Trap.

Record user_vars : Type := UserVarsOf { thrA : ptr; thrB : ptr; thrC : ptr; cntA : Z; cntB : Z }.
Class UserVars (X : Type) : Type := { uvars : X -> user_vars; set_uvars : X -> user_vars -> X }.

Definition with_thrA (u : user_vars) t := UserVarsOf t (thrB u) (thrC u) (cntA u) (cntB u).
Definition with_thrB (u : user_vars) t := UserVarsOf (thrA u) t (thrC u) (cntA u) (cntB u).
Definition with_thrC (u : user_vars) t := UserVarsOf (thrA u) (thrB u) t (cntA u) (cntB u).
Definition with_cntA (u : user_vars) c := UserVarsOf (thrA u) (thrB u) (thrC u) c (cntB u).
Definition with_cntB (u : user_vars) c := UserVarsOf (thrA u) (thrB u) (thrC u) (cntA u) c.

Definition SEEK_SET : Z := 0.

Section user.
Context {X : Type} `{UserVars X}.
Variables (STACK_SIZE time_slice : Z) (setup_sp : ptr -> fptr -> Z -> Z).
Variable fs_open : list Z -> Z -> K X Z.
Variable fs_read : Z -> Z -> K X (Z * list Z).
Variable fs_write : Z -> list Z -> Z -> K X Z.
Variable fs_lseek : Z -> Z -> Z -> K X Z.
Variable fs_fstat : Z -> K X (Z * option stat).
Variable fs_close : Z -> K X Z.
Variable thr_delay : Z -> K X unit.
Variable kprintf : list Z -> list varg -> K X unit.
Variable junk : list Z.
Variable junk_stat : stat.
Variable junk_data : list Z.

Definition uget : K X user_vars := s ← get; mret (uvars (ext s)).
Definition umod (f : user_vars -> user_vars) : K X unit := s ← get; put (with_ext s (set_uvars (ext s) (f (uvars (ext s))))).

(** ** user/uprintf.c *)

Definition uprintf (fmt : list Z) (ap : list varg) : K X Z :=
  r ← deref (Printf.uprintf junk fmt ap);
  fs_write 1 r.2 r.1;;
  mret r.1.

Definition cls : K X unit := uprintf (27 :: str "[2J") [];; mret tt.
Definition locate (x y : Z) : K X unit := uprintf (27 :: str "[%d;%dH") [VNum y; VNum x];; mret tt.

(** ** The threads *)

(** A round of [threadA] and of [threadB]; [++cnt] is an [int]. *)
Definition threadA_round : K X unit :=
  locate 0 0;;
  u ← uget; uprintf (ln "threadA=0x%lx") [VNum (thrA u)];;
  umod (fun u => with_cntA u (s32 (cntA u + 1)));;
  u ← uget; uprintf (ln "threadA[%d]") [VNum (cntA u)];;
  thr_delay 100.
Definition threadB_round : K X unit :=
  locate 0 3;;
  u ← uget; uprintf (ln "threadB=0x%lx") [VNum (thrB u)];;
  umod (fun u => with_cntB u (s32 (cntB u + 1)));;
  u ← uget; uprintf (ln "threadB[%d]") [VNum (cntB u)];;
  thr_delay 50.

Fixpoint rounds (n : nat) (body : K X unit) : K X unit :=
  match n with O => stopM OutOfFuel | S n => body;; rounds n body end.
Definition threadA (n : nat) (arg : Z) : K X unit := rounds n threadA_round.
Definition threadB (n : nat) (arg : Z) : K X unit := rounds n threadB_round.

(** [while( fs_read( fd, &c[0], 1) == 1 ) fs_write( fd, &c[0], 1);]; [c] keeps
    its character when none is read. *)
Fixpoint echo (n : nat) (fd : Z) (c : list Z) : K X unit :=
  match n with
  | O => stopM OutOfFuel
  | S n =>
      r ← fs_read fd 1;
      let c := r.2 ++ drop (length r.2) c in
      if r.1 =? 1 then fs_write fd c 1;; echo n fd c else mret tt
  end.

Definition test_path : list Z := str "/test.txt".
Definition hello : list Z := str "hello world".

(** The first part of [threadC]: a file is written and read back. *)
Definition threadC_file : K X unit :=
  fd ← fs_open test_path (Z.lor O_RDWR O_CREATE);
  if 0 <=? fd then
    r1 ← fs_fstat fd; let s1 := default junk_stat r1.2 in
    fs_write fd hello (Z.of_nat (length hello));;
    r2 ← fs_fstat fd; let s2 := default junk_stat r2.2 in
    fs_lseek fd 0 SEEK_SET;;
    r ← fs_read fd (Z.of_nat (length hello)); let data := r.2 ++ drop (length r.2) junk_data in
    fs_close fd;;
    kprintf (ln "FS: size1:%u size2:%u %s") [VNum (st_size s1); VNum (st_size s2); VStr (Some data)]
  else mret tt.

(** The second part: the console echoes. *)
Definition threadC_console (n : nat) : K X unit :=
  fd ← fs_open con_path O_RDWR;
  if 0 <=? fd then
    r ← fs_fstat fd; let st := default junk_stat r.2 in
    kprintf (ln "stat for CON: ino:%u mode:%u size:%u") [VNum (st_ino st); VNum (st_mode st); VNum (st_size st)];;
    fs_write fd (ln "hello console") 14;;
    echo n fd (take 1 junk_data);;
    fs_close fd;;
    mret tt
  else mret tt.

Definition threadC (n : nat) (arg : Z) : K X unit :=
  locate 0 5;;
  u ← uget; kprintf (ln "threadC=0x%lx") [VNum (thrC u)];;
  threadC_file;;
  threadC_console n.

(** The last three arguments are the addresses of the functions. *)
Definition user_init (a b c : fptr) : K X unit :=
  cls;;
  forM (seqZ 0 50) (fun _ => kprintf (ln "") []);;
  let attr := ThreadAttr NULL NULL 0 2 in
  r ← thr_create_thread STACK_SIZE time_slice setup_sp 1 None a NULL;
  when (r.1 =? 0) (umod (fun u => with_thrA u r.2));;
  r ← thr_create_thread STACK_SIZE time_slice setup_sp 2 None b NULL;
  when (r.1 =? 0) (umod (fun u => with_thrB u r.2));;
  r ← thr_create_thread STACK_SIZE time_slice setup_sp 3 (Some attr) c 0x5a5a5a5a5a;
  when (r.1 =? 0) (umod (fun u => with_thrC u r.2)).
End user.
