(* ===== verification/Part.v ===== *)
(** Components of a machine whose models have a state of their own: [Part] is a
    lens to the component, [zoom] makes its operations those of the machine. *)
From S2P Require Import Prelude KList Kernel.

Class Part (X T : Type) : Type := { look : X -> T; place : X -> T -> X }.

Section zoom.
Context {X T : Type} `{Part X T}.

(** An operation of a component as one of the machine. *)
Fixpoint zoom_run {A} (s : kst X) (r : run T A) : run (kst X) A :=
  match r with
  | Ret a t => Ret a (with_ext s (place (ext s) t))
  | Stop w => Stop w
  | Switch t k => Switch (with_ext s (place (ext s) t)) (fun s' => zoom_run s' (k (look (ext s'))))
  end.
Definition zoom {A} (c : M T A) : K X A := fun s => zoom_run s (c (look (ext s))).

Lemma zoom_eq {A} (c : M T A) s a t : c (look (ext s)) = Ret a t -> zoom c s = Ret a (with_ext s (place (ext s) t)).
Proof. intros E. unfold zoom. by rewrite E. Qed.
End zoom.
