(* ===== verification/FsInit.v ===== *)
(** What the initialisation of the device switch, the caches and the table of
    open files (kern/main.c) leaves behind: free mutexes, empty wait queues, a
    buffer cache of free buffers, free inodes and free files, whatever the
    static objects held before. *)
From S2P Require Import Prelude Bitops KList Kernel ThreadInfo ReadyQueue Sched WaitQueue Mutex Timer Thread Irq CString FsState Blkio Coherence Inode File Trap.

(** ** Steps of the initialisation *)

Section steps.
Context {X : Type}.
Implicit Types (s : kst X).

(** A step that only initialises the lists at [P], the mutexes whose wait queues
    are among them, and devices. *)
Record touches (P : loc -> Prop) s s' : Prop := Touches {
  to_links : forall l, ~ P l -> links s' !! l = links s !! l;
  to_dom : forall l, is_Some (links s' !! l) <-> is_Some (links s !! l);
  to_mtx : forall m, ~ P (WqHead (WqMutex m)) -> mutexes s' !! m = mutexes s !! m;
  to_rest : (ie s', threads s', tinfos s', current s', bitmap s', wqe_thr s', uptime s', callouts s', irqs s', handlers s', finders s', supply s', nlocal s') =
    (ie s, threads s, tinfos s, current s, bitmap s, wqe_thr s, uptime s, callouts s, irqs s, handlers s, finders s, supply s, nlocal s) }.

#[export] Instance touches_preorder P : PreOrder (touches P).
Proof.
  split; [by split|]. intros s1 s2 s3 [A1 A2 A3 A4] [B1 B2 B3 B4].
  split; [|..]; intros; rewrite ?B1, ?B2, ?B3 by done; auto. by rewrite B4.
Qed.

Lemma touches_mono (P Q : loc -> Prop) s s' : (forall l, P l -> Q l) -> touches P s s' -> touches Q s s'.
Proof. intros H [A1 A2 A3 A4]. split; auto. Qed.

Lemma touches_ring P s s' h xs : touches P s s' -> (forall l, l ∈ h :: xs -> ~ P l) -> is_ring (links s) h xs -> is_ring (links s') h xs.
Proof. intros HT HP. apply is_ring_agree. intros l Hl. by apply (to_links _ _ _ HT), HP. Qed.

Lemma touches_frame (P : loc -> Prop) s m Y : frame (links s) m Y -> (forall l, l ∈ Y -> P l) -> touches P s (with_links s m).
Proof. intros [F1 F2] HP. split; try done. intros l Hl. apply F1. intros Hy. by apply Hl, HP. Qed.

Lemma wque_init_touches wq s : is_Some (links s !! WqHead wq) ->
  returns (wque_init_wait_queue wq) s (fun _ s' => touches (eq (WqHead wq)) s s' /\ mutexes s' = mutexes s /\ ext s' = ext s /\ is_ring (links s') (WqHead wq) []).
Proof.
  intros Hw. destruct (init_list_head_ring (links s) (WqHead wq) Hw) as (m & E & R & F).
  exists tt, (with_wq_reason (with_links s m) (<[wq := WQUE_REASON_WAKEUP]> (wq_reason s))). split.
  - unfold wque_init_wait_queue, psw_disable_and_save_interrupt, psw_restore_interrupt, set_wq_reason. mred.
    rewrite (lk_upd_eq _ _ m) by exact E. mred. by destruct s.
  - split_and!; [|done|done|exact R]. destruct F as [F1 F2]. split; [|exact F2|done|done]. intros l Hl. apply F1. intros ->%list_elem_of_singleton. by apply Hl.
Qed.

Definition mtx_loc (mtx : mtxp) : loc := WqHead (WqMutex mtx).
Definition free_mutex s (mtx : mtxp) : Prop := mutexes s !! mtx = Some (Mutex 0 NULL) /\ is_ring (links s) (mtx_loc mtx) [].

Lemma mutex_init_touches mtx s : is_Some (links s !! mtx_loc mtx) ->
  returns (mutex_init mtx) s (fun _ s' => touches (eq (mtx_loc mtx)) s s' /\ ext s' = ext s /\ free_mutex s' mtx).
Proof.
  intros Hw. destruct (wque_init_touches (WqMutex mtx) (with_mutexes (with_ie s false) (<[mtx := Mutex 0 NULL]> (mutexes s))) Hw) as ([] & s' & E & [T1 T2 T3 T4] & M & Ex & R).
  exists tt, (with_ie s' (ie s)). split.
  - unfold mutex_init, psw_disable_and_save_interrupt, psw_restore_interrupt, mtx_put. mred. cbn [mutexes with_ie]. by rewrite E.
  - split_and!; [|exact Ex|]. 2: { split; [|exact R]. cbn. rewrite M. cbn. by rewrite lookup_insert_eq. }
    split; [exact T1|exact T2| |].
    + intros m Hm. cbn. rewrite M. cbn. apply lookup_insert_ne. intros ->. by apply Hm.
    + cbn in *. injection T4. intros. congruence.
Qed.

Lemma free_touches P s s' mtx : touches P s s' -> ~ P (mtx_loc mtx) -> free_mutex s mtx -> free_mutex s' mtx.
Proof.
  intros HT HP [E R]. split; [by rewrite (to_mtx _ _ _ HT)|]. eapply touches_ring; [exact HT| |exact R]. by intros l ->%list_elem_of_singleton.
Qed.

(** A loop that keeps an invariant over the elements done. *)
Lemma forM_inv {A} (xs : list A) (body : A -> K X unit) (Inv : list A -> kst X -> Prop) s :
  (forall dn x rest s, xs = dn ++ x :: rest -> Inv dn s -> returns (body x) s (fun _ s' => Inv (dn ++ [x]) s')) -> Inv [] s ->
  returns (forM xs body) s (fun _ s' => Inv xs s').
Proof.
  intros Hb. assert (forall rest dn s, xs = dn ++ rest -> Inv dn s -> returns (forM rest body) s (fun _ s' => Inv xs s')) as H.
  - induction rest as [|x rest IH]; intros dn s1 Hx HI.
    + apply returns_ret. rewrite app_nil_r in Hx. by subst.
    + cbn [forM]. apply returns_bind. eapply returns_mono; [by eapply Hb|]. intros a s2 HI2. apply (IH (dn ++ [x])); [|done]. by rewrite <-app_assoc.
  - by apply (H xs []).
Qed.
End steps.

(** ** The components *)

Implicit Types (s : kst fsst).

(** The static objects. *)
Record fs_static s : Prop := FsStatic {
  fx_mtx : forall mtx, mtx ∈ [MtxDevsw; MtxBcache; MtxIcache; MtxFdtbl] \/ (exists i, mtx = MtxDrv i /\ 0 <= i < DEVSW_DEVICES_NR) -> is_Some (links s !! mtx_loc mtx);
  fx_bufs : is_Some (links s !! BufHead) /\ forall b, 0 <= b < NBUF -> is_Some (links s !! BufMru b) /\ is_Some (links s !! BufLink b) /\ is_Some (links s !! WqHead (WqBuf b));
  fx_waiters : forall ip, ip ∈ slots -> is_Some (links s !! WqHead (inode_waiters ip));
  fx_drvs : forall i, 0 <= i < DEVSW_DEVICES_NR -> is_Some (drvs (ext s) !! i);
  fx_buf : forall b, 0 <= b < NBUF -> exists v, bufs (ext s) !! b = Some v /\ b_flags v = 0 /\ length (b_data v) = Z.to_nat BSIZE;
  fx_inodes : forall ip, ip ∈ slots -> is_Some (inodes (ext s) !! ip);
  fx_files : forall f, f ∈ seqZ 1 MAX_FILES -> is_Some (files (ext s) !! f) }.

Definition devsw_locs (l : loc) : Prop := l = mtx_loc MtxDevsw \/ exists i, l = mtx_loc (MtxDrv i).

Lemma devsw_init_ok s : (forall i, i ∈ seqZ 0 DEVSW_DEVICES_NR -> is_Some (links s !! mtx_loc (MtxDrv i)) /\ is_Some (drvs (ext s) !! i)) ->
  is_Some (links s !! mtx_loc MtxDevsw) ->
  returns devsw_init s (fun _ s' => touches devsw_locs s s' /\ (exists D, ext s' = with_drvs (ext s) D) /\ free_mutex s' MtxDevsw /\
    forall i, i ∈ seqZ 0 DEVSW_DEVICES_NR -> free_mutex s' (MtxDrv i) /\ exists d, drvs (ext s') !! i = Some d /\ drv_dev d = 0).
Proof.
  intros Hdrv Hdev. set (range := seqZ 0 DEVSW_DEVICES_NR) in *.
  eapply returns_mono.
  - apply (forM_inv _ _ (fun dn s' => touches devsw_locs s s' /\ (exists D, ext s' = with_drvs (ext s) D /\ forall i, i ∈ range -> is_Some (D !! i)) /\
      (dn <> [] -> free_mutex s' MtxDevsw) /\ forall i, i ∈ dn -> free_mutex s' (MtxDrv i) /\ exists d, drvs (ext s') !! i = Some d /\ drv_dev d = 0)).
    2: { split_and!; [done| |done|set_solver]. exists (drvs (ext s)). split; [by destruct (ext s)|]. intros i Hi. by apply Hdrv. }
    intros dn x rest s1 Hx (HT & (D & ED & HD) & _ & Hdn). assert (x ∈ range) as Hxr by (unfold range; rewrite Hx; apply elem_of_app; right; left).
    apply returns_bind. eapply returns_mono; [apply mutex_init_touches; by apply (to_dom _ _ _ HT)|]. intros a s2 (T2 & E2 & M2).
    destruct (HD x Hxr) as [d Ed]. apply returns_bind. eapply returns_eq; [apply drv_get_eq; by rewrite E2, ED|].
    apply returns_bind. eapply returns_mono; [apply mutex_init_touches; apply (to_dom _ _ _ T2), (to_dom _ _ _ HT); by apply Hdrv|]. intros a' s3 (T3 & E3 & M3).
    eapply returns_eq; [apply (drv_put_eq s3 x d); by rewrite E3, E2, ED|].
    set (d' := DeviceDriver 0 _ _ _ _ _ _ _ _). cbn [ext map_ext with_ext drvs with_drvs].
    assert (touches devsw_locs s s3) as HT3.
    { etrans; [exact HT|]. etrans; eapply touches_mono; [|exact T2| |exact T3]; intros l <-; [by left|right; eauto]. }
    split_and!.
    + destruct HT3. by split.
    + exists (<[x := d']> D). split; [by rewrite E3, E2, ED|]. intros i Hi. apply lookup_insert_is_Some'. right. by apply HD.
    + intros _. by eapply (free_touches _ s2 s3 MtxDevsw T3).
    + intros i Hi. destruct (decide (i = x)) as [->|Hne].
      * split; [exact M3|]. exists d'. cbn. by rewrite lookup_insert_eq.
      * apply elem_of_app in Hi as [Hi|Hi%list_elem_of_singleton]; [|done]. destruct (Hdn i Hi) as (M & di & Edi & Hdi). split.
        -- eapply (free_touches _ s2 s3 (MtxDrv i) T3); [by injection 1|]. by eapply (free_touches _ s1 s2 (MtxDrv i) T2).
        -- exists di. cbn. rewrite lookup_insert_ne by done. by rewrite E3, E2.
  - intros a s' (HT & (D & ED & _) & H1 & H2). split_and!; [done|by exists D|by apply H1|exact H2].
Qed.

(** A list operation at the locations [P]. *)
Lemma lk_upd_touches {A} (P : loc -> Prop) f (k : F A) s m Y Q : f (links s) = Some m -> frame (links s) m Y -> (forall l, l ∈ Y -> P l) ->
  (touches P s (with_links s m) -> returns k (with_links s m) Q) -> returns (lk_upd f;; k) s Q.
Proof. intros E HF HP Hk. apply returns_bind. eapply returns_eq; [by apply lk_upd_eq|]. apply Hk. by eapply touches_frame. Qed.

Definition bcache_locs (l : loc) : Prop := l = mtx_loc MtxBcache \/ l = BufHead \/ exists b, l = BufMru b \/ l = BufLink b \/ l = WqHead (WqBuf b).
Definition cache_order : list Z := reverse (seqZ 0 NBUF).

(** The buffers, of no device and in no state. *)
Definition fresh_bufs (B : gmap Z blk_buf) : Prop := forall b, b ∈ seqZ 0 NBUF -> exists v, B !! b = Some v /\ b_flags v = 0 /\ length (b_data v) = Z.to_nat BSIZE.

(** The cache after the buffers [dn]. *)
Record cache_part s (dn : list Z) s' : Prop := CachePart {
  cp_touches : touches bcache_locs s s';
  cp_bufs : exists B, ext s' = with_bufs (ext s) B /\ fresh_bufs B;
  cp_mutex : free_mutex s' MtxBcache;
  cp_ring : is_ring (links s') BufHead (BufMru <$> reverse dn);
  cp_wait : forall b, b ∈ dn -> is_ring (links s') (WqHead (WqBuf b)) [] }.

(** A step on the lists of one buffer. *)
Lemma cache_part_step s dn b s1 s2 : cache_part s dn s1 -> touches (fun l => bcache_locs l /\ l <> mtx_loc MtxBcache /\ forall b, b ∈ dn -> l <> WqHead (WqBuf b)) s1 s2 ->
  (exists B, ext s2 = with_bufs (ext s1) B /\ fresh_bufs B) -> is_ring (links s2) BufHead (BufMru <$> b :: reverse dn) -> is_ring (links s2) (WqHead (WqBuf b)) [] ->
  cache_part s (dn ++ [b]) s2.
Proof.
  intros [A1 (B & EB & HB) A3 A4 A5] HT (B' & EB' & HB') HR HW. split; [| | |by rewrite reverse_app|].
  - etrans; [exact A1|]. eapply touches_mono; [|exact HT]. by intros l [Hl _].
  - exists B'. split; [by rewrite EB', EB|done].
  - eapply free_touches; [exact HT| |exact A3]. by intros (_ & Hne & _).
  - intros b' [Hb|Hb%list_elem_of_singleton]%elem_of_app; [|by subst]. eapply touches_ring; [exact HT| |by apply A5]. intros l ->%list_elem_of_singleton (_ & _ & Hne). by apply (Hne b').
Qed.

Lemma buffer_step s dn b s1 : fs_static s -> 0 <= b < NBUF -> b ∉ dn -> cache_part s dn s1 ->
  returns (lk_upd (fun m => init_list_node m (BufMru b));; lk_upd (fun m => init_list_node m (BufLink b));; lk_upd (fun m => list_add_top m BufHead (BufMru b));;
    v ← buf_get b; buf_put b (BlkBuf (b_flags v) BLK_DEV_NODEV (b_blockno v) (b_data v));; wque_init_wait_queue (WqBuf b)) s1
    (fun _ s' => cache_part s (dn ++ [b]) s').
Proof.
  intros HS Hb Hdn HI. pose proof (cp_touches _ _ _ HI) as HT. pose proof (cp_ring _ _ _ HI) as HR.
  destruct (proj2 (fx_bufs _ HS) b Hb) as (D1 & D2 & D3).
  assert (BufMru b ∉ BufHead :: (BufMru <$> reverse dn)) as Hnot.
  { rewrite elem_of_cons, list_elem_of_fmap. intros [?|(b' & [= <-] & Hin)]; [done|]. by apply Hdn, elem_of_reverse. }
  destruct (init_list_node_ring (links s1) (BufMru b)) as (m1 & E1 & R1 & F1); [by apply (to_dom _ _ _ HT)|].
  apply returns_bind. eapply returns_eq; [by apply lk_upd_eq|].
  destruct (init_list_node_ring m1 (BufLink b)) as (m2 & E2 & R2 & F2); [by apply F1, (to_dom _ _ _ HT)|].
  apply returns_bind. eapply returns_eq; [by apply lk_upd_eq|].
  assert (frame (links s1) m2 [BufMru b; BufLink b]) as F12 by exact (frame_trans _ _ _ _ _ F1 F2).
  assert (is_ring m2 BufHead (BufMru <$> reverse dn)) as HR2.
  { eapply is_ring_frame; [exact F12| |exact HR]. intros y Hy. rewrite !elem_of_cons, elem_of_nil. intros [->|[->|[]]]; [done|].
    rewrite elem_of_cons, list_elem_of_fmap in Hy. by destruct Hy as [?|(? & ? & _)]. }
  destruct (list_add_top_ring m2 BufHead (BufMru <$> reverse dn) (BufMru b) HR2 Hnot) as (m3 & E3 & R3 & F3); [by apply F2, F1, (to_dom _ _ _ HT)|].
  apply returns_bind. eapply returns_eq; [by apply lk_upd_eq|].
  destruct (cp_bufs _ _ _ HI) as (B & EB & HB). destruct (HB b) as (v & Ev & Hf & Hl); [by apply elem_of_seqZ_iff|].
  set (v' := BlkBuf (b_flags v) BLK_DEV_NODEV (b_blockno v) (b_data v)).
  change (with_links (with_links (with_links s1 m1) m2) m3) with (with_links s1 m3).
  apply returns_bind. eapply returns_eq; [apply (buf_get_eq _ b v); cbn; by rewrite EB|].
  apply returns_bind. eapply returns_eq; [apply (buf_put_eq _ b v); cbn; by rewrite EB|]. fold v'.
  set (s2 := map_ext (with_links s1 m3) _).
  assert (frame (links s1) m3 ([BufMru b; BufLink b] ++ BufMru b :: BufHead :: (BufMru <$> reverse dn))) as F13 by exact (frame_trans _ _ _ _ _ F12 F3).
  assert (forall l, l ∈ [BufMru b; BufLink b] ++ BufMru b :: BufHead :: (BufMru <$> reverse dn) -> bcache_locs l /\ forall wq, l <> WqHead wq) as HY.
  { intros l. cbn [app]. rewrite !elem_of_cons, list_elem_of_fmap. unfold bcache_locs. intros [->|[->|[->|[->|(b' & -> & _)]]]]; (split; [|done]); eauto 7. }
  eapply returns_mono; [apply wque_init_touches; by apply F13, (to_dom _ _ _ HT)|]. intros a s3 (T3 & M3 & E3' & R4).
  assert (touches (fun l => bcache_locs l /\ l <> mtx_loc MtxBcache /\ forall b', b' ∈ dn -> l <> WqHead (WqBuf b')) s1 s3) as HT13.
  { trans s2.
    - split; [|apply F13|done|done]. intros l Hnl. apply F13. intros Hy. apply Hnl. destruct (HY l Hy) as [Hb' Hw]. split_and!; [done|apply Hw|intros; apply Hw].
    - eapply touches_mono; [|exact T3]. intros l <-. unfold bcache_locs. split_and!; [eauto 7|done|]. intros b' Hb' [= ->]. done. }
  eapply cache_part_step; [exact HI|exact HT13| | |exact R4].
  - exists (<[b := v']> B). split; [rewrite E3'; cbn; by rewrite EB|]. intros b' Hb'. destruct (decide (b' = b)) as [->|Hne]; [exists v'; by rewrite lookup_insert_eq|].
    rewrite lookup_insert_ne by done. by apply HB.
  - eapply touches_ring; [exact T3| |exact R3]. intros l Hl' <-. rewrite !elem_of_cons, list_elem_of_fmap in Hl'. by destruct Hl' as [?|(? & ? & _)].
Qed.

Lemma buffer_cache_init_ok s : fs_static s -> returns buffer_cache_init s (fun _ s' => touches bcache_locs s s' /\
  (exists B, ext s' = with_bufs (ext s) B /\ fresh_bufs B) /\ free_mutex s' MtxBcache /\ cache_inv s' cache_order /\
  forall b, b ∈ cache_order -> is_ring (links s') (WqHead (WqBuf b)) []).
Proof.
  intros HS. pose proof HS as [Hm [Hh Hb] _ _ HB _ _]. apply returns_bind. eapply returns_mono; [apply mutex_init_touches, Hm; left; set_solver|]. intros a s0 (T0 & E0 & M0).
  destruct (init_list_head_ring (links s0) BufHead) as (m0 & Em0 & R0 & F0); [by apply (to_dom _ _ _ T0)|].
  eapply (lk_upd_touches bcache_locs); [exact Em0|exact F0|intros l ->%list_elem_of_singleton; right; by left|]. intros T1. set (s1 := with_links s0 m0) in *.
  eapply returns_mono.
  - apply (forM_inv _ _ (cache_part s)).
    2: { split; [etrans; [eapply touches_mono; [|exact T0]; intros l <-; by left|exact T1]| | |exact R0|set_solver].
         - exists (bufs (ext s)). split; [cbn; rewrite E0; by destruct (ext s)|]. intros b Hin%elem_of_seqZ_iff. by apply HB.
         - destruct M0 as [M0 R]. split; [exact M0|]. eapply is_ring_frame; [exact F0| |exact R]. by intros l ->%list_elem_of_singleton ?%list_elem_of_singleton. }
    intros dn b rest s2 Hx HI. assert (b ∈ seqZ 0 NBUF) as Hin by (rewrite Hx; apply elem_of_app; right; left).
    apply buffer_step; [done|by apply elem_of_seqZ_iff| |done].
    pose proof (NoDup_seqZ 0 NBUF) as HN. rewrite Hx in HN. apply NoDup_app in HN as (_ & HN & _). intros Hd. apply (HN b Hd). left.
  - intros a' s' [HT (B & EB & HB') HM HR HW]. split_and!; [done|by exists B|done| |].
    + split; [exact HR|]. intros b Hin%elem_of_reverse. rewrite EB. destruct (HB' b Hin) as (v & E & _). by exists v.
    + intros b Hin%elem_of_reverse. by apply HW.
Qed.

Definition icache_locs (l : loc) : Prop := l = mtx_loc MtxIcache \/ exists ip, l = WqHead (inode_waiters ip).
Definition zero_inode : inode := Inode 0 0 0 0 0 0 0 0 (replicate (Z.to_nat FS_IADDR_NR) 0).

Lemma inode_cache_init_ok s : fs_static s -> returns inode_cache_init s (fun _ s' => touches icache_locs s s' /\
  (exists I, ext s' = with_inodes (ext s) I) /\ free_mutex s' MtxIcache /\
  forall ip, ip ∈ slots -> inodes (ext s') !! ip = Some zero_inode /\ is_ring (links s') (WqHead (inode_waiters ip)) []).
Proof.
  intros [Hm _ Hw _ _ HI _]. apply returns_bind. eapply returns_mono; [apply mutex_init_touches, Hm; left; set_solver|]. intros a s0 (T0 & E0 & M0).
  eapply returns_mono.
  - apply (forM_inv _ _ (fun dn s' => touches icache_locs s s' /\ (exists I, ext s' = with_inodes (ext s) I /\ forall ip, ip ∈ slots -> is_Some (I !! ip)) /\
      free_mutex s' MtxIcache /\ forall ip, ip ∈ dn -> inodes (ext s') !! ip = Some zero_inode /\ is_ring (links s') (WqHead (inode_waiters ip)) [])).
    2: { split_and!; [eapply touches_mono; [|exact T0]; intros l <-; by left| |done|set_solver]. exists (inodes (ext s)). split; [rewrite E0; by destruct (ext s)|done]. }
    intros dn ip rest s1 Hx (HT & (I & EI & HI') & HM & Hdn). assert (ip ∈ slots) as Hip by (unfold slots; rewrite Hx; apply elem_of_app; right; left).
    destruct (HI' ip Hip) as [v Ev]. apply returns_bind. eapply returns_eq; [apply (inode_st_eq s1 ip v); by rewrite EI|]. fold zero_inode. set (s2 := map_ext s1 _).
    eapply returns_mono; [apply wque_init_touches; cbn; by apply (to_dom _ _ _ HT), Hw|]. intros a' s3 (T3 & _ & E3 & R3).
    split_and!.
    + trans s1; [exact HT|]. trans s2; [by split|]. eapply touches_mono; [|exact T3]. intros l <-. right. by exists ip.
    + exists (<[ip := zero_inode]> I). split; [rewrite E3; cbn; by rewrite EI|]. intros ip' Hip'. apply lookup_insert_is_Some'. right. by apply HI'.
    + by eapply (free_touches _ s2 s3 MtxIcache T3).
    + intros ip' Hip'. rewrite E3. cbn. destruct (decide (ip' = ip)) as [->|Hne]; [by rewrite lookup_insert_eq|].
      rewrite lookup_insert_ne by done. apply elem_of_app in Hip' as [Hin|Hin%list_elem_of_singleton]; [|done]. destruct (Hdn ip' Hin) as [Ei Ri].
      split; [exact Ei|]. eapply (touches_ring _ s2 s3); [exact T3| |exact Ri]. intros l ->%list_elem_of_singleton. unfold inode_waiters. intros [= ?]. lia.
  - intros a' s' (HT & (I & EI & _) & HM & Hs). split_and!; [done|by exists I|done|exact Hs].
Qed.

Lemma fdtable_init_ok s : fs_static s -> returns fdtable_init s (fun _ s' => touches (eq (mtx_loc MtxFdtbl)) s s' /\
  (exists T, ext s' = with_files (ext s) T) /\ free_mutex s' MtxFdtbl /\ forall f, f ∈ seqZ 1 MAX_FILES -> files (ext s') !! f = Some (FileDescriptor 0 0 NULL 0)).
Proof.
  intros [Hm _ _ _ _ _ HF]. apply returns_bind. eapply returns_mono; [apply mutex_init_touches, Hm; left; set_solver|]. intros a s0 (T0 & E0 & M0).
  eapply returns_mono.
  - apply (forM_inv _ _ (fun dn s' => exists T, s' = map_ext s0 (fun f => with_files f T) /\ (forall f, f ∈ seqZ 1 MAX_FILES -> is_Some (T !! f)) /\
      forall f, f ∈ dn -> T !! f = Some (FileDescriptor 0 0 NULL 0))).
    2: { exists (files (ext s)). split_and!; [rewrite <-E0; destruct s0 as [????????????????[]]; done|done|set_solver]. }
    intros dn f rest s1 Hx (T & -> & HT & Hdn). assert (f ∈ seqZ 1 MAX_FILES) as Hf by (rewrite Hx; apply elem_of_app; right; left).
    destruct (HT f Hf) as [d Ed]. eapply returns_eq; [by apply (file_st_eq _ f d)|]. exists (<[f := FileDescriptor 0 0 NULL 0]> T). split_and!; [done| |].
    + intros f' Hf'. apply lookup_insert_is_Some'. right. by apply HT.
    + intros f' Hf'. destruct (decide (f' = f)) as [->|Hne]; [by rewrite lookup_insert_eq|]. rewrite lookup_insert_ne by done.
      apply elem_of_app in Hf' as [Hin|Hin%list_elem_of_singleton]; [by apply Hdn|done].
  - intros a' s' (T & -> & _ & HT). split_and!; [|by exists T; cbn; rewrite E0|done|exact HT]. destruct T0. by split.
Qed.

(** ** The file system as a whole *)

Definition fs_mutex (mtx : mtxp) : Prop := mtx ∈ [MtxDevsw; MtxBcache; MtxIcache; MtxFdtbl] \/ exists i, mtx = MtxDrv i /\ 0 <= i < DEVSW_DEVICES_NR.
Definition fs_locs (l : loc) : Prop := devsw_locs l \/ bcache_locs l \/ icache_locs l \/ l = mtx_loc MtxFdtbl.

(** Nobody uses it, and nothing is cached or open. *)
Record fs_ready s : Prop := FsReady {
  fr_free : forall mtx, fs_mutex mtx -> free_mutex s mtx;
  fr_cache : cache_inv s cache_order;
  fr_bufs : fresh_bufs (bufs (ext s));
  fr_waiters : forall b, b ∈ cache_order -> is_ring (links s) (WqHead (WqBuf b)) [];
  fr_inodes : forall ip, ip ∈ slots -> inodes (ext s) !! ip = Some zero_inode /\ is_ring (links s) (WqHead (inode_waiters ip)) [];
  fr_files : forall f, f ∈ seqZ 1 MAX_FILES -> files (ext s) !! f = Some (FileDescriptor 0 0 NULL 0) }.

Lemma fs_mutex_locs mtx : fs_mutex mtx -> fs_locs (mtx_loc mtx).
Proof.
  intros [Hm|(i & -> & _)]; [|left; right; by exists i]. rewrite !elem_of_cons, elem_of_nil in Hm.
  destruct Hm as [->|[->|[->|[->|[]]]]]; [by left; left|by right; left; left|by right; right; left; left|by right; right; right].
Qed.

(** It stays so as long as its lists, mutexes and tables are left alone. *)
Lemma fs_ready_kept s s' : (forall l, fs_locs l -> links s' !! l = links s !! l) -> (forall m, fs_mutex m -> mutexes s' !! m = mutexes s !! m) ->
  bufs (ext s') = bufs (ext s) -> inodes (ext s') = inodes (ext s) -> files (ext s') = files (ext s) -> fs_ready s -> fs_ready s'.
Proof.
  intros HL HM EB EI EF [A1 [A2 A2'] A3 A4 A5 A6].
  assert (forall h xs, (forall l, l ∈ h :: xs -> fs_locs l) -> is_ring (links s) h xs -> is_ring (links s') h xs) as HR.
  { intros h xs Hl. apply is_ring_agree. auto. }
  split; [| |by rewrite EB| | |by rewrite EF].
  - intros mtx Hm. destruct (A1 mtx Hm) as [E R]. split; [by rewrite HM|]. apply HR; [|done]. intros l ->%list_elem_of_singleton. by apply fs_mutex_locs.
  - split; [|by rewrite EB]. apply HR; [|done]. intros l [->|(b & -> & _)%list_elem_of_fmap]%elem_of_cons; right; left; right; [by left|right; eauto].
  - intros b Hb. apply HR; [|by apply A4]. intros l ->%list_elem_of_singleton. right; left; right; right; eauto.
  - intros ip Hip. destruct (A5 ip Hip) as [E R]. split; [by rewrite EI|]. apply HR; [|exact R]. intros l ->%list_elem_of_singleton. right; right; left; right; eauto.
Qed.

(** The invariant of the disk, once the driver is registered. *)
Lemma fs_ready_disk s dev d : fs_ready s -> disk_ready s dev d -> disk_ok dev d s cache_order.
Proof.
  intros [A1 A2 A3 A4 A5 A6] HD. split; [exact A2|apply A1; left; set_solver|exact HD|exact A4| |].
  - intros b v Hb Ev. destruct (A3 b) as (v' & Ev' & Hf & Hl); [by apply elem_of_reverse|]. simplify_eq.
    split; unfold is_busy, is_valid, is_dirty; rewrite ?Hf; done.
  - destruct (A3 0) as (v & Ev & Hf & _); [by apply elem_of_seqZ_iff|]. exists 0, v. unfold is_dirty. rewrite Hf. split_and!; [|done|done].
    apply elem_of_reverse, elem_of_seqZ_iff. done.
Qed.

Lemma fs_static_kept P s s' : touches P s s' -> (forall i, 0 <= i < DEVSW_DEVICES_NR -> is_Some (drvs (ext s') !! i)) -> fresh_bufs (bufs (ext s')) ->
  (forall ip, ip ∈ slots -> is_Some (inodes (ext s') !! ip)) -> (forall f, f ∈ seqZ 1 MAX_FILES -> is_Some (files (ext s') !! f)) -> fs_static s -> fs_static s'.
Proof.
  intros HT HD HB HI HF [A1 [A2 A2'] A3 _ _ _ _]. split; [| | |exact HD| |exact HI|exact HF].
  - intros mtx Hm. by apply (to_dom _ _ _ HT), A1.
  - split; [by apply (to_dom _ _ _ HT)|]. intros b Hb. destruct (A2' b Hb) as (? & ? & ?). split_and!; by apply (to_dom _ _ _ HT).
  - intros ip Hip. by apply (to_dom _ _ _ HT), A3.
  - intros b Hb. by apply HB, elem_of_seqZ_iff.
Qed.

Lemma fs_init_ok s : fs_static s ->
  returns (devsw_init;; buffer_cache_init;; inode_cache_init;; fdtable_init) s (fun _ s' => touches fs_locs s s' /\ fs_ready s' /\ image (ext s') = image (ext s) /\
    forall i, i ∈ seqZ 0 DEVSW_DEVICES_NR -> exists d, drvs (ext s') !! i = Some d /\ drv_dev d = 0).
Proof.
  intros HS. pose proof HS as [A1 A2 A3 A4 A5 A6 A7].
  assert (fresh_bufs (bufs (ext s))) as HB0 by (intros b Hb%elem_of_seqZ_iff; by apply A5).
  apply returns_bind. eapply returns_mono; [apply devsw_init_ok; [intros i Hi%elem_of_seqZ_iff; split; [apply A1; right; eauto|by apply A4]|apply A1; left; set_solver]|].
  intros a1 s1 (T1 & (D & E1) & M1 & H1). assert (fs_static s1) as HS1.
  { eapply fs_static_kept; [exact T1|..|exact HS]; rewrite E1; try done. intros i Hi. destruct (H1 i) as (_ & d & Ed & _); [by apply elem_of_seqZ_iff|]. rewrite E1 in Ed. by exists d. }
  apply returns_bind. eapply returns_mono; [by apply buffer_cache_init_ok|]. intros a2 s2 (T2 & (B & E2 & HB) & M2 & C2 & W2). assert (fs_static s2) as HS2.
  { eapply fs_static_kept; [exact T2|..|exact HS1]; rewrite E2; try done; apply HS1. }
  apply returns_bind. eapply returns_mono; [by apply inode_cache_init_ok|]. intros a3 s3 (T3 & (I & E3) & M3 & H3). assert (fs_static s3) as HS3.
  { eapply fs_static_kept; [exact T3|..|exact HS2]; try (rewrite E3; apply HS2); [by rewrite E3, E2|]. intros ip Hip. destruct (H3 ip Hip) as [-> _]. by eexists. }
  eapply returns_mono; [by apply fdtable_init_ok|]. intros a4 s4 (T4 & (T & E4) & M4 & H4).
  assert (ext s4 = with_files (with_inodes (with_bufs (with_drvs (ext s) D) B) I) T) as E by (by rewrite E4, E3, E2, E1).
  split_and!; [| |by rewrite E|].
  - trans s1; [eapply touches_mono; [|exact T1]; by left|]. trans s2; [eapply touches_mono; [|exact T2]; by right; left|].
    trans s3; [eapply touches_mono; [|exact T3]; by right; right; left|]. eapply touches_mono; [|exact T4]. intros l <-. by right; right; right.
  - set (L4 := eq (mtx_loc MtxFdtbl)) in *. set (L34 := fun l => icache_locs l \/ L4 l). set (L24 := fun l => bcache_locs l \/ L34 l).
    assert (touches L34 s2 s4) as T34 by (trans s3; [eapply touches_mono; [|exact T3]; by left|eapply touches_mono; [|exact T4]; by right]).
    assert (touches L24 s1 s4) as T24 by (trans s2; [eapply touches_mono; [|exact T2]; by left|eapply touches_mono; [|exact T34]; by right]).
    assert (forall l, l ∈ BufHead :: (BufMru <$> cache_order) \/ (exists b, l = WqHead (WqBuf b)) -> ~ L34 l) as N34.
    { intros l Hl [[->|(ip & ->)]|<-]; destruct Hl as [Hl|(b & ?)]; try done; rewrite elem_of_cons, list_elem_of_fmap in Hl; by destruct Hl as [?|(? & ? & _)]. }
    assert (forall mtx, (mtx = MtxDevsw \/ exists i, mtx = MtxDrv i) -> ~ L24 (mtx_loc mtx)) as N24.
    { intros mtx Hm [[?|[?|(b & [?|[?|?]])]]|[[?|(ip & ?)]|?]]; destruct Hm as [->|(i & ->)]; done. }
    assert (forall mtx, (mtx = MtxDevsw \/ exists i, mtx = MtxDrv i) -> free_mutex s1 mtx -> free_mutex s4 mtx) as F24.
    { intros mtx Hm. eapply free_touches; [exact T24|by apply N24]. }
    split.
    + intros mtx [Hm|(i & -> & Hi)]; [|apply F24; [by right; exists i|]; by apply H1, elem_of_seqZ_iff]. rewrite !elem_of_cons, elem_of_nil in Hm.
      destruct Hm as [->|[->|[->|[->|[]]]]]; [by apply F24; [left|]| | |exact M4].
      * eapply free_touches; [exact T34| |exact M2]. by intros [[?|(ip & ?)]|?].
      * eapply free_touches; [exact T4| |exact M3]. done.
    + destruct C2 as [R C]. split; [eapply touches_ring; [exact T34| |exact R]; intros l Hl; apply N34; by left|]. rewrite E. intros b Hb. specialize (C b Hb). by rewrite E2 in C.
    + by rewrite E.
    + intros b Hb. eapply touches_ring; [exact T34| |by apply W2]. intros l ->%list_elem_of_singleton. apply N34. right. by exists b.
    + intros ip Hip. destruct (H3 ip Hip) as [Ei Ri]. split; [by rewrite E; rewrite E3 in Ei|].
      eapply touches_ring; [exact T4| |exact Ri]. by intros l ->%list_elem_of_singleton.
    + exact H4.
  - intros i Hi. destruct (H1 i Hi) as (_ & d & Ed & Hd). exists d. split; [|done]. rewrite E1 in Ed. by rewrite E.
Qed.
