(* ===== verification/Boot.v ===== *)
(** kern/main.c: the start of the kernel.

    The functions of the hardware abstraction layer, [hal_kernel_init] and
    [hal_suspend_cpu], are parameters of [kern_init] here; X64Boot.v has those of
    the PC.  The file system works on its part of the machine ([FsPart]), the
    threads of user.c on theirs ([UserVars]).  The addresses of functions are
    parameters, too; the idle loop runs for [n] rounds. *)
From Stdlib Require Import String.
From S2P Require Import Printf Prelude Bitops KList Kernel ThreadInfo ReadyQueue Sched WaitQueue Mutex Timer Thread Irq CString FsState Blkio FsPart Coherence Inode File Trap X64Trap User FsInit.

(** Writing one part leaves the rest alone. *)
Class FsPartLaws (X : Type) `{FsPart X} : Prop := {
  fs_get_set : forall x f, fs_of (set_fs x f) = f;
  fs_set_set : forall x f g, set_fs (set_fs x f) g = set_fs x g;
  fs_set_get : forall x, set_fs x (fs_of x) = x }.

(** kern/timer.c *)
Definition callout_init {X} : K X unit := mret tt.

Section kern_init.
Context {X : Type} `{FsPart X} `{UserVars X}.
Variable fuel : nat.
Variables (STACK_SIZE time_slice : Z) (setup_sp : ptr -> fptr -> Z -> Z).
Variable fs_write : Z -> list Z -> Z -> K X Z.
Variable kprintf : list Z -> list varg -> K X unit.
Variable junk : list Z.
Variables (reaper_fn threadA threadB threadC : fptr).
Variables (hal_kernel_init hal_suspend_cpu : K X unit).

Definition kern_init (n : nat) : K X unit :=
  lift devsw_init;;
  lift buffer_cache_init;;
  lift inode_cache_init;;
  lift fdtable_init;;
  irq_initialize_manager;;
  callout_init;;
  hal_kernel_init;;
  idle_init_idle;;
  sched_init;;
  reaper_init_thread STACK_SIZE time_slice setup_sp reaper_fn;;
  user_init STACK_SIZE time_slice setup_sp fs_write kprintf junk threadA threadB threadC;;
  do_idle_loop hal_suspend_cpu n.
End kern_init.

(** ** The interrupt manager *)

Section irq.
Context {X : Type}.
Implicit Types (s : kst X).

Definition irq_locs (l : loc) : Prop := l = FindIrqsHead \/ exists i, l = IrqHead i.
Definition irq_range : list Z := seqZ 0 NR_IRQS.

(** No finder and no handler is registered, no line has a controller. *)
Record irq_ready s : Prop := IrqReady {
  ir_finders : is_ring (links s) FindIrqsHead [];
  ir_lines : forall i, i ∈ irq_range -> irqs s !! i = Some (IrqLine i 0 0 NULL) /\ irq_inv s i [] }.

Lemma irq_initialize_manager_ok s : is_Some (links s !! FindIrqsHead) -> (forall i, i ∈ irq_range -> is_Some (links s !! IrqHead i) /\ is_Some (irqs s !! i)) ->
  exists m I, irq_initialize_manager s = Ret 0 (with_irqs (with_links s m) I) /\ irq_ready (with_irqs (with_links s m) I) /\
    (forall l, ~ irq_locs l -> m !! l = links s !! l) /\ (forall l, is_Some (m !! l) <-> is_Some (links s !! l)).
Proof.
  intros Hf Hl. destruct (init_list_head_ring (links s) FindIrqsHead Hf) as (m0 & E0 & R0 & [F0 D0]).
  destruct (forM_inv irq_range (fun i => lk_upd (fun m => init_list_head m (IrqHead i));; line_put i (IrqLine i (Z.lor IRQ_ATTR_SHARED IRQ_ATTR_LEVEL) 0 NULL))
    (fun dn s' => exists m I, s' = with_irqs (with_links (with_ie s false) m) I /\ (forall l, ~ irq_locs l -> m !! l = links s !! l) /\ (forall l, is_Some (m !! l) <-> is_Some (links s !! l)) /\
      is_ring m FindIrqsHead [] /\ (forall i, i ∈ irq_range -> is_Some (I !! i)) /\ forall i, i ∈ dn -> I !! i = Some (IrqLine i 0 0 NULL) /\ is_ring m (IrqHead i) [])
    (with_links (with_ie s false) m0)) as ([] & s' & E & m & I & -> & HF & HD & HR & HI & Hdn).
  - intros dn i rest s1 Hx (m & I & -> & HF & HD & HR & HI & Hdn). assert (i ∈ irq_range) as Hi by (rewrite Hx; apply elem_of_app; right; left).
    destruct (init_list_head_ring m (IrqHead i)) as (m1 & E1 & R1 & F1); [by apply HD, Hl|]. pose proof F1 as [F1' D1].
    apply returns_bind. eapply returns_eq; [by apply lk_upd_eq|].
    eapply returns_eq; [reflexivity|].
    exists m1, (<[i := IrqLine i 0 0 NULL]> I). split; [done|]. split_and!.
    + intros l' Hl'. rewrite F1'; [by apply HF|]. intros ->%list_elem_of_singleton. apply Hl'. right. by exists i.
    + intros l'. by rewrite D1.
    + eapply is_ring_frame; [exact F1| |exact HR]. by intros l' ->%list_elem_of_singleton ?%list_elem_of_singleton.
    + intros j Hj. apply lookup_insert_is_Some'. right. by apply HI.
    + intros j Hj. destruct (decide (j = i)) as [->|Hne]; [by rewrite lookup_insert_eq|]. rewrite lookup_insert_ne by done.
      apply elem_of_app in Hj as [Hin|Hin%list_elem_of_singleton]; [|done]. destruct (Hdn j Hin) as [Ej Rj]. split; [exact Ej|].
      eapply is_ring_frame; [exact F1| |exact Rj]. intros l' ->%list_elem_of_singleton Hj2%list_elem_of_singleton. by injection Hj2.
  - exists m0, (irqs s). split; [by destruct s|]. split_and!; [|exact D0|exact R0|intros i Hi; by apply Hl|by intros i ?%elem_of_nil].
    intros l Hnl. apply F0. intros ->%list_elem_of_singleton. apply Hnl. by left.
  - exists m, I. split_and!; [|split; [exact HR|]|exact HF|exact HD].
    + unfold irq_initialize_manager. rewrite (bind_ret _ _ s (ie s) (with_ie s false)) by done.
      rewrite (bind_ret _ _ (with_ie s false) tt (with_links (with_ie s false) m0)) by (by apply lk_upd_eq). fold irq_range.
      rewrite (bind_ret _ _ _ _ _ E). by destruct s.
    + intros i Hi. destruct (Hdn i Hi) as [Ei Ri]. split; [exact Ei|]. split; [exact Ri|by intros h ?%elem_of_nil].
Qed.
End irq.

(** ** The first threads *)

Section threads.
Context {X : Type} `{FsPart X}.
Variables (STACK_SIZE time_slice : Z) (setup_sp : ptr -> fptr -> Z -> Z).
Implicit Types (s : kst X) (q : Z -> list ptr).

Definition queue_locs (l : loc) : Prop := (exists p, l = RdqHead p) \/ exists t, l = ThrLink t.
Definition thread_locs (l : loc) : Prop := queue_locs l \/ l = ReaperHead \/ l = WqHead WqReaper.

(** What the creation of threads leaves alone, with the lists at [P]. *)
Record boot_kept (P : loc -> Prop) s s' : Prop := BootKept {
  bk_links : forall l, ~ P l -> links s' !! l = links s !! l;
  bk_fs : fs_of (ext s') = fs_of (ext s);
  bk_rest : (ie s', current s', mutexes s', uptime s', callouts s', irqs s', handlers s', finders s') =
    (ie s, current s, mutexes s, uptime s, callouts s, irqs s, handlers s, finders s) }.

#[export] Instance boot_kept_preorder P : PreOrder (boot_kept P).
Proof. split; [by split|]. intros s1 s2 s3 [A1 A2 A3] [B1 B2 B3]. split; [intros l Hl; by rewrite B1, A1|by rewrite B2|by rewrite B3]. Qed.
Lemma boot_kept_mono (P Q : loc -> Prop) s s' : (forall l, P l -> Q l) -> boot_kept P s s' -> boot_kept Q s s'.
Proof. intros HPQ [A1 A2 A3]. split; auto. Qed.
Lemma boot_kept_ring P s s' h xs : boot_kept P s s' -> (forall l, l ∈ h :: xs -> ~ P l) -> is_ring (links s) h xs -> is_ring (links s') h xs.
Proof. intros [A1 _ _] HP. apply is_ring_agree. intros l Hl. by apply A1, HP. Qed.

(** A thread was created: it is last in the queue of its priority. *)
Record thread_created (id : Z) (attrp : option thread_attr_t) (k t : ptr) s q s' : Prop := ThreadCreated {
  tc_rdq : rdq_inv s' (rdq_upd q (thread_prio attrp) (q (thread_prio attrp) ++ [t]));
  tc_threads : exists th, threads s' = <[t := th]> (threads s) /\ tid th = id /\ prio (attr th) = thread_prio attrp;
  tc_tinfos : exists v, tinfos s' = <[k + STACK_SIZE - THREAD_INFO_SIZE := v]> (tinfos s);
  tc_dom : forall l, l <> ThrLink t -> is_Some (links s' !! l) <-> is_Some (links s !! l);
  tc_ext : ext s' = ext s;
  tc_kept : boot_kept queue_locs s s' }.

Lemma create_ok id attrp fn arg s q k t rest : rdq_inv s q -> needs_stack attrp = true -> supply s = k :: t :: rest -> k <> NULL -> t <> NULL ->
  links s !! ThrLink t = None -> (forall p, 0 <= p < RDQ_PRIORITY_MAX -> t ∉ q p) ->
  returns (thr_create_thread STACK_SIZE time_slice setup_sp id attrp fn arg) s (fun r s' => r = (0, t) /\ supply s' = rest /\ thread_created id attrp k t s q s').
Proof.
  intros HI Hn Hs Hk Ht Hl Hq.
  destruct (thr_create_thread_eq STACK_SIZE time_slice setup_sp id attrp fn arg s (with_supply s (t :: rest)) q k STACK_SIZE t rest) as (m & b & E & HI' & F); try done.
  - rewrite thread_stack_new, Hs by done. by rewrite (proj2 (Z.eqb_neq _ _) Hk).
  - eapply rdq_inv_ext; [..|exact HI]; eauto.
  - eapply returns_eq; [exact E|]. split_and!; [done|done|]. split; [exact HI'|by eexists|by eexists| |done|].
    + intros l Hne. cbn. destruct F as [_ D]. rewrite D. cbn. by rewrite lookup_insert_ne.
    + split; [|done|done]. intros l Hnl. cbn. destruct F as [F _]. rewrite F.
      * cbn. apply lookup_insert_ne. intros <-. apply Hnl. right. by exists t.
      * rewrite !elem_of_cons, list_elem_of_fmap. intros [->|[->|(t' & -> & _)]]; apply Hnl; [right; by exists t|left; by eexists|right; by eexists].
Qed.

(** The state while the threads [kts] (their stacks and objects) are still to be
    created: the idle thread [th] runs, and the threads are allocated next. *)
Record starting s q th v (kts : list (ptr * ptr)) (rest : list ptr) : Prop := Starting {
  sg_rdq : rdq_inv s q;
  sg_current : current s = idle_thread;
  sg_idle : threads s !! idle_thread = Some th;
  sg_tinfo : tinfos s !! tinfo th = Some v;
  sg_supply : supply s = concat ((fun kt => [kt.1; kt.2]) <$> kts) ++ rest;
  sg_new : forall k t, (k, t) ∈ kts -> k <> NULL /\ t <> NULL /\ t <> idle_thread /\ k + STACK_SIZE - THREAD_INFO_SIZE <> tinfo th /\
    links s !! ThrLink t = None /\ forall p, 0 <= p < RDQ_PRIORITY_MAX -> t ∉ q p;
  sg_nodup : NoDup kts.*2 }.

Lemma rdq_upd_elem q p t p' t' : t' ∈ rdq_upd q p (q p ++ [t]) p' -> t' = t \/ t' ∈ q p'.
Proof. unfold rdq_upd. case_decide; [subst|by right]. rewrite elem_of_app, list_elem_of_singleton. intros [?| ->]; auto. Qed.

Lemma create_step id attrp fn arg s q th v k t kts rest : starting s q th v ((k, t) :: kts) rest -> needs_stack attrp = true ->
  returns (thr_create_thread STACK_SIZE time_slice setup_sp id attrp fn arg) s (fun r s' => r = (0, t) /\
    starting s' (rdq_upd q (thread_prio attrp) (q (thread_prio attrp) ++ [t])) th v kts rest /\ boot_kept queue_locs s s' /\ ext s' = ext s /\
    exists th', threads s' = <[t := th']> (threads s) /\ tid th' = id).
Proof.
  intros [A1 A2 A3 A4 A5 A6 A7] Hn. destruct (A6 k t) as (Hk & Ht & Hid & Hti & Hl & Hq); [left|].
  eapply returns_mono; [by apply (create_ok id attrp fn arg s q k t (concat ((fun kt => [kt.1; kt.2]) <$> kts) ++ rest))|].
  intros r s' (-> & Hs & [B1 (th' & B2 & B3 & B4) (v' & B5) B6 B7 B8]). split; [done|]. split_and!; [|done|done|eauto].
  apply NoDup_cons in A7 as [Hnt A7]. destruct B8 as [K1 K2 K3]. injection K3 as K31 K32 K33 K34 K35 K36 K37 K38. split; try done.
  - by rewrite K32.
  - rewrite B2. rewrite lookup_insert_ne; done.
  - rewrite B5. rewrite lookup_insert_ne; done.
  - intros k' t' Hin. destruct (A6 k' t') as (? & ? & ? & ? & El & Hq'); [by right|].
    assert (t' <> t) as Hne by (intros ->; apply Hnt; apply list_elem_of_fmap; by exists (k', t)).
    split_and!; try done.
    + apply eq_None_not_Some. rewrite B6 by congruence. by apply eq_None_not_Some.
    + intros p Hp [?|?]%rdq_upd_elem; [done|]. by apply (Hq' p).
Qed.

(** Steps on other lists and the devices. *)
Lemma starting_touches P s s' q th v kts rest : touches P s s' -> (forall l, P l -> ~ queue_locs l) -> starting s q th v kts rest -> starting s' q th v kts rest.
Proof.
  intros [T1 T2 T3 T4] HP [[R B G Pr] A2 A3 A4 A5 A6 A7]. injection T4 as E1 E2 E3 E4 E5 E6 E7 E8 E9 E10 E11 E12 E13.
  assert (forall l, queue_locs l -> links s' !! l = links s !! l) as Hm by (intros l Hl; apply T1; intros Hp; by apply (HP l)).
  split; rewrite ?E2, ?E3, ?E4, ?E12; try done.
  - split; rewrite ?E5, ?E2; try done. intros p Hp. eapply is_ring_agree; [|by apply R].
    intros l [->|(t & -> & _)%list_elem_of_fmap]%elem_of_cons; apply Hm; [left|right]; by eexists.
  - intros k t Hin. destruct (A6 k t Hin) as (? & ? & ? & ? & El & ?). split_and!; try done. rewrite Hm; [done|]. right. by eexists.
Qed.
Lemma kept_touches P s s' : touches P s s' -> mutexes s' = mutexes s -> ext s' = ext s -> boot_kept P s s'.
Proof. intros [T1 T2 T3 T4] Em Ee. injection T4 as E1 E2 E3 E4 E5 E6 E7 E8 E9 E10 E11 E12 E13. split; [done|by rewrite Ee|congruence]. Qed.
Lemma starting_ext s q th v kts rest x : starting s q th v kts rest -> starting (with_ext s x) q th v kts rest.
Proof. intros [A1 A2 A3 A4 A5 A6 A7]. split; try done. eapply rdq_inv_ext; [..|exact A1]; eauto. Qed.

(** The state the hardware layer leaves: the idle thread runs, there is memory for
    the threads [kts], and the heads of the queues exist. *)
Record idle_ready s th v (kts : list (ptr * ptr)) (rest : list ptr) : Prop := IdleReady {
  id_current : current s = idle_thread;
  id_thread : threads s !! idle_thread = Some th;
  id_tinfo : tinfos s !! tinfo th = Some v;
  id_stdout : fds th !! 1%nat = Some NULL;
  id_supply : supply s = concat ((fun kt => [kt.1; kt.2]) <$> kts) ++ rest;
  id_new : forall k t, (k, t) ∈ kts -> k <> NULL /\ t <> NULL /\ t <> idle_thread /\ k + STACK_SIZE - THREAD_INFO_SIZE <> tinfo th /\ links s !! ThrLink t = None;
  id_nodup : NoDup kts.*2;
  id_heads : forall p, 0 <= p < RDQ_PRIORITY_MAX -> is_Some (links s !! RdqHead p);
  id_reaper : is_Some (links s !! ReaperHead) /\ is_Some (links s !! WqHead WqReaper) }.

Definition idle_reset (th : thread_t) : thread_t := Thread (status th) 0 (tinfo th) (exit_code th) (attr th) 0 (fds th).

(** [idle_init_idle] and [sched_init]. *)
Lemma sched_start s th v kts rest : idle_ready s th v kts rest ->
  returns (idle_init_idle;; sched_init) s (fun _ s' => starting s' (fun _ => []) (idle_reset th) v kts rest /\ boot_kept queue_locs s s' /\ ext s' = ext s /\
    forall l, is_Some (links s' !! l) <-> is_Some (links s !! l)).
Proof.
  intros [A1 A2 A3 A4 A5 A6 A7 A8 _]. apply returns_bind.
  set (s1 := with_threads s (<[idle_thread := idle_reset th]> (threads s))).
  eapply (returns_eq _ tt s s1); [unfold idle_init_idle; rewrite (bind_ret _ _ _ _ _ (thr_get_eq _ _ _ A2)); by apply (thr_put_eq _ _ th)|].
  destruct (init_heads_spec (seqZ 0 RDQ_PRIORITY_MAX) (with_bitmap s1 0)) as (m & E & R & F1 & D1); [apply NoDup_seqZ|intros p Hp%elem_of_seqZ_iff; by apply A8|].
  eapply returns_eq; [unfold sched_init, rdq_init_ready_queue; mred; exact E|]. cbn in F1, D1.
  assert (forall l, (forall p, l <> RdqHead p) -> m !! l = links s !! l) as HF.
  { intros l Hl. apply F1. intros (p & -> & _)%list_elem_of_fmap. by apply (Hl p). }
  split_and!; [|split; [|done|done]|done|exact D1].
  - split; try done.
    + split; [| |cbn; lia|by intros p t _ Ht%elem_of_nil]; cbn.
      * intros p Hp. apply R. by apply elem_of_seqZ_iff.
      * intros p Hp. by rewrite Z.bits_0.
    + cbn. by rewrite lookup_insert_eq.
    + intros k t Hin. destruct (A6 k t Hin) as (? & ? & ? & ? & El). split_and!; try done; [|by intros p _ Ht%elem_of_nil]. cbn. by rewrite HF.
  - intros l Hl. cbn. apply HF. intros p ->. apply Hl. left. by exists p.
Qed.

Definition reaper_attr : option thread_attr_t := Some (ThreadAttr NULL NULL 0 REAPER_THREAD_PRIO).

(** [reaper_init_thread]: an empty queue of dead threads and the reaper. *)
Lemma reaper_start fn s q th v k t kts rest : starting s q th v ((k, t) :: kts) rest -> is_Some (links s !! ReaperHead) -> is_Some (links s !! WqHead WqReaper) ->
  returns (reaper_init_thread STACK_SIZE time_slice setup_sp fn) s (fun r s' => r = t /\
    starting s' (rdq_upd q REAPER_THREAD_PRIO (q REAPER_THREAD_PRIO ++ [t])) th v kts rest /\ boot_kept thread_locs s s' /\ ext s' = ext s /\
    is_ring (links s') ReaperHead [] /\ is_ring (links s') (WqHead WqReaper) [] /\ exists th', threads s' = <[t := th']> (threads s) /\ tid th' = REAPER_THREAD_TID).
Proof.
  intros HS Hr Hw. destruct (init_list_head_ring (links s) ReaperHead Hr) as (m & E & R & F).
  assert (touches (eq ReaperHead) s (with_links s m)) as T1 by (eapply touches_frame; [exact F|by intros l ->%list_elem_of_singleton]).
  apply returns_bind. eapply (returns_eq _ tt s (with_links s m)).
  { unfold thr_init_thread_queue, psw_disable_and_save_interrupt, psw_restore_interrupt. mred. rewrite (lk_upd_eq _ _ m) by exact E. mred. by destruct s. }
  apply returns_bind. eapply returns_mono; [apply (wque_init_touches WqReaper); by apply F|]. intros a s1 (T2 & M2 & E2 & R2).
  assert (starting s1 q th v ((k, t) :: kts) rest) as HS1.
  { eapply starting_touches; [exact T2|by intros l <- [(p & ?)|(t' & ?)]|]. eapply starting_touches; [exact T1|by intros l <- [(p & ?)|(t' & ?)]|exact HS]. }
  apply returns_bind. eapply returns_mono; [by apply (create_step REAPER_THREAD_TID reaper_attr fn NULL s1 q th v k t kts rest HS1)|].
  intros r s' (-> & HS' & HK & Ee & th' & Et & Eid). apply returns_ret. split_and!; [done|exact HS'| |by rewrite Ee, E2| | |].
  - trans (with_links s m); [apply (boot_kept_mono (eq ReaperHead)); [intros l <-; by right; left|by apply kept_touches]|].
    trans s1; [apply (boot_kept_mono (eq (WqHead WqReaper))); [intros l <-; by right; right|by apply kept_touches]|].
    eapply boot_kept_mono; [|exact HK]. by left.
  - eapply boot_kept_ring; [exact HK|by intros l ->%list_elem_of_singleton [(p & ?)|(t' & ?)]|].
    eapply touches_ring; [exact T2|by intros l ->%list_elem_of_singleton|exact R].
  - eapply boot_kept_ring; [exact HK|by intros l ->%list_elem_of_singleton [(p & ?)|(t' & ?)]|exact R2].
  - exists th'. split; [|done]. rewrite Et. f_equal. destruct T2 as [_ _ _ T2]. injection T2 as _ E2' _. exact E2'.
Qed.
End threads.

(** ** The threads of user.c *)

Class UserLaws (X : Type) `{FsPart X} `{UserVars X} : Prop := {
  uvars_set : forall x u, uvars (set_uvars x u) = u;
  uvars_fs : forall x u, fs_of (set_uvars x u) = fs_of x }.

Lemma returns_bind_inv {S A B} (c : M S A) (f : A -> M S B) (s : S) Q : returns (a ← c; f a) s Q -> returns c s (fun a s' => returns (f a) s' Q).
Proof.
  intros (b & s2 & E & HQ). unfold mbind, M_bind in E. destruct (c s) as [a s1|w|s1 k] eqn:Ec; cbn [run_bind] in E; [|done|done].
  exists a, s1. split; [done|]. by exists b, s2.
Qed.

Lemma returns_assoc {S A B C} (c : M S A) (f : A -> M S B) (k : M S C) (s : S) P Q :
  returns (a ← c; f a) s P -> (forall b s', P b s' -> returns k s' Q) -> returns (a ← c; f a;; k) s Q.
Proof.
  intros H1%returns_bind_inv H2. apply returns_bind. eapply returns_mono; [exact H1|]. intros a s1 H3. apply returns_bind. eapply returns_mono; [exact H3|exact H2].
Qed.

Section user.
Context {X : Type} `{HF : FsPart X} `{HFL : !FsPartLaws X} `{HU : UserVars X} `{HUL : !UserLaws X}.
Implicit Types (s : kst X) (q : Z -> list ptr).

Lemma widen_narrow s : widen (ext s) (narrow s) = s.
Proof. unfold widen, narrow, with_devices. cbn. rewrite fs_set_get. by destruct s. Qed.

Lemma lift_returns {A} (c : F A) s Q : returns c (narrow s) (fun a (s' : kst fsst) => Q a (widen (ext s) s')) -> returns (lift c) s Q.
Proof. intros (a & s' & E & HQ). exists a, (widen (ext s) s'). split; [|done]. unfold lift. by rewrite E. Qed.

Lemma narrow_widen x (s : kst fsst) : narrow (widen (X := X) x s) = s.
Proof. unfold narrow, widen, with_devices. cbn. rewrite fs_get_set. by destruct s. Qed.

(** What the kernel relies on of the output: it only acts on other devices. *)
Definition quiet_output (kprintf : list Z -> list varg -> K X unit) : Prop := forall fmt ap s,
  exists x, kprintf fmt ap s = Ret tt (with_ext s x) /\ fs_of x = fs_of (ext s) /\ uvars x = uvars (ext s).

Variables (STACK_SIZE time_slice : Z) (setup_sp : ptr -> fptr -> Z -> Z).
Variables (fuel : nat) (call_write : fptr -> ptr -> ptr -> list Z -> Z -> Z -> F Z) (junk_cnt : Z).
Variable kprintf : list Z -> list varg -> K X unit.
Variable junk : list Z.
Hypothesis output_quiet : quiet_output kprintf.
Hypothesis junk_size : Z.of_nat (length junk) = PRFBUFLEN.
Local Abbreviation fs_write := (fun fd src n => lift (File.fs_write fuel call_write junk_cnt fd src n)).

(** [cls] writes to no file: the idle thread has none open. *)
Lemma cls_nothing s th : threads s !! current s = Some th -> fds th !! 1%nat = Some NULL -> cls fs_write junk s = Ret tt s.
Proof.
  intros Et Ef. set (fmt := 27 :: str "[2J").
  assert (Printf.uprintf junk fmt [] = Some (4, take 4 (<[4%nat := 0]> ([27; 91; 50; 74] ++ drop 4 junk)))) as Eu.
  { unfold Printf.uprintf, ksnprintf. assert (kvprintf PRFBUFLEN (Some fmt) 10 [] = Some (4, [27; 91; 50; 74])) as -> by (vm_compute; reflexivity).
    cbn [mbind option_bind]. unfold terminate. cbn [length]. rewrite junk_size. change (Z.of_nat 4 <=? PRFBUFLEN) with true. cbv iota.
    rewrite length_app, length_drop. cbn [length]. assert (length junk = 128%nat) as -> by (unfold PRFBUFLEN in *; lia). done. }
  assert (lift (File.fs_write fuel call_write junk_cnt 1 (take 4 (<[4%nat := 0]> ([27; 91; 50; 74] ++ drop 4 junk))) 4) s = Ret (- EBADF) s) as Ew.
  { destruct (lift_returns (File.fs_write fuel call_write junk_cnt 1 (take 4 (<[4%nat := 0]> ([27; 91; 50; 74] ++ drop 4 junk))) 4) s (fun a s' => a = - EBADF /\ s' = s))
      as (a & s' & E & -> & ->); [|exact E].
    eapply returns_eq; [|split; [reflexivity|apply widen_narrow]]. unfold File.fs_write, with_fd. change ((1 <? 0) || (THR_FDS_NR <=? 1)) with false. cbv iota. unfold fds_get. mred.
    rewrite (thr_get_eq _ _ th) by exact Et. mred. change (Z.to_nat 1) with 1%nat. by rewrite Ef. }
  unfold cls, uprintf. fold fmt. rewrite Eu. mred. cbn [fst snd]. by rewrite Ew.
Qed.

Lemma starting_idle s q th v kts rest : starting STACK_SIZE s q th v kts rest -> threads s !! current s = Some th.
Proof. intros HS. rewrite (sg_current _ _ _ _ _ _ _ HS). apply HS. Qed.

(** The empty lines. *)
Lemma newlines_start (xs : list Z) s q th v kts rest : starting STACK_SIZE s q th v kts rest ->
  returns (forM xs (fun _ => kprintf (ln "") [])) s (fun _ s' => starting STACK_SIZE s' q th v kts rest /\ boot_kept queue_locs s s' /\ uvars (ext s') = uvars (ext s) /\ threads s' = threads s).
Proof.
  intros HS. apply (forM_inv xs _ (fun _ s' => starting STACK_SIZE s' q th v kts rest /\ boot_kept queue_locs s s' /\ uvars (ext s') = uvars (ext s) /\ threads s' = threads s)); [|done].
  intros dn x tl s1 _ (HS1 & HK1 & HU1 & HT1). destruct (output_quiet (ln "") [] s1) as (y & E & Ef & Eu). eapply returns_eq; [exact E|]. split_and!.
  - by apply starting_ext.
  - trans s1; [done|]. by split.
  - cbn. by rewrite Eu.
  - exact HT1.
Qed.

(** Creating a thread and storing its address in a variable. *)
Lemma create_store id attrp fn arg (set : user_vars -> ptr -> user_vars) s q th v k t kts rest :
  starting STACK_SIZE s q th v ((k, t) :: kts) rest -> needs_stack attrp = true ->
  returns (r ← thr_create_thread STACK_SIZE time_slice setup_sp id attrp fn arg; when (r.1 =? 0) (umod (fun u => set u r.2))) s (fun _ s' =>
    starting STACK_SIZE s' (rdq_upd q (thread_prio attrp) (q (thread_prio attrp) ++ [t])) th v kts rest /\ boot_kept queue_locs s s' /\
    uvars (ext s') = set (uvars (ext s)) t /\ exists th', threads s' = <[t := th']> (threads s) /\ tid th' = id).
Proof.
  intros HS Hn. apply returns_bind. eapply returns_mono; [by eapply create_step|]. intros r s1 (-> & HS1 & HK1 & E1 & th' & Et & Ei). cbn [fst snd Z.eqb when].
  eapply (returns_eq _ tt s1 (with_ext s1 (set_uvars (ext s1) (set (uvars (ext s1)) t)))); [done|]. split_and!.
  - by apply starting_ext.
  - trans s1; [done|]. split; [done|apply uvars_fs|done].
  - cbn. by rewrite uvars_set, E1.
  - by exists th'.
Qed.

Definition user_attr : option thread_attr_t := Some (ThreadAttr NULL NULL 0 2).

(** The ready queue after [user_init]. *)
Definition user_queue q (tA tB tC : ptr) : Z -> list ptr :=
  let q1 := rdq_upd q RDQ_USER_RR_PRIORITY (q RDQ_USER_RR_PRIORITY ++ [tA]) in
  let q2 := rdq_upd q1 RDQ_USER_RR_PRIORITY (q1 RDQ_USER_RR_PRIORITY ++ [tB]) in
  rdq_upd q2 2 (q2 2 ++ [tC]).

Lemma user_start a b c s q th v kA tA kB tB kC tC rest : starting STACK_SIZE s q th v [(kA, tA); (kB, tB); (kC, tC)] rest -> fds th !! 1%nat = Some NULL ->
  returns (user_init STACK_SIZE time_slice setup_sp fs_write kprintf junk a b c) s (fun _ s' =>
    starting STACK_SIZE s' (user_queue q tA tB tC) th v [] rest /\ boot_kept queue_locs s s' /\
    (let u := uvars (ext s') in thrA u = tA /\ thrB u = tB /\ thrC u = tC) /\
    exists thA thB thC, threads s' = <[tC := thC]> (<[tB := thB]> (<[tA := thA]> (threads s))) /\ tid thA = 1 /\ tid thB = 2 /\ tid thC = 3).
Proof.
  intros HS Hfd. unfold user_init. apply returns_bind. eapply returns_eq; [by eapply (cls_nothing s th); [eapply starting_idle|]|].
  apply returns_bind. eapply returns_mono; [by apply newlines_start|]. intros a1 s1 (HS1 & HK1 & HU1 & HT1).
  eapply returns_assoc; [by eapply (create_store 1 None a NULL with_thrA)|]. intros _ s2 (HS2 & HK2 & HU2 & thA & HT2 & HA).
  eapply returns_assoc; [by eapply (create_store 2 None b NULL with_thrB)|]. intros _ s3 (HS3 & HK3 & HU3 & thB & HT3 & HB).
  eapply returns_mono; [by eapply (create_store 3 user_attr c 0x5a5a5a5a5a with_thrC)|]. intros _ s4 (HS4 & HK4 & HU4 & thC & HT4 & HC).
  split_and!; [exact HS4|by trans s1; [|trans s2; [|trans s3]]|by rewrite HU4, HU3, HU2..|].
  exists thA, thB, thC. by rewrite HT4, HT3, HT2, HT1.
Qed.
(** ** From the first statement to the first thread *)

(** The static objects before [kern_init]. *)
Record boot_static s : Prop := BootStatic {
  bs_fs : fs_static (narrow s);
  bs_finders : is_Some (links s !! FindIrqsHead);
  bs_lines : forall i, i ∈ irq_range -> is_Some (links s !! IrqHead i) /\ is_Some (irqs s !! i);
  bs_callouts : callout_inv s [] }.

Lemma devices_start s : boot_static s -> exists sa sb sc sd s1, lift devsw_init s = Ret tt sa /\ lift buffer_cache_init sa = Ret tt sb /\
  lift inode_cache_init sb = Ret tt sc /\ lift fdtable_init sc = Ret tt sd /\ irq_initialize_manager sd = Ret 0 s1 /\
  fs_ready (narrow s1) /\ irq_ready s1 /\ callout_inv s1 [].
Proof.
  intros [HS Hf Hl [HC _]]. pose proof (fs_init_ok _ HS) as HI. apply returns_bind_inv in HI as ([] & a & Ea & HI).
  apply returns_bind_inv in HI as ([] & b & Eb & HI). apply returns_bind_inv in HI as ([] & c & Ec & HI). destruct HI as ([] & d & Ed & HT & HR & _).
  set (x := ext s) in *. pose (W := fun f : kst fsst => widen (X := X) x f).
  assert (forall {A} (op : F A) f f' a, op f = Ret a f' -> lift op (W f) = Ret a (W f')) as HL.
  { intros A op f f' a' E. unfold lift, W. rewrite narrow_widen, E. cbn. f_equal. unfold widen, with_devices. cbn. by rewrite fs_set_set. }
  assert (W (narrow s) = s) as Es by apply widen_narrow.
  destruct (irq_initialize_manager_ok (W d)) as (m & I & Ei & HI & HLk & HD).
  { apply (to_dom _ _ _ HT). exact Hf. }
  { intros i Hi. destruct (Hl i Hi) as [H1 H2]. split; [by apply (to_dom _ _ _ HT)|]. destruct HT as [_ _ _ HT]. injection HT as _ _ _ _ _ _ _ _ E _. unfold W, widen, with_devices. cbn. by rewrite E. }
  exists (W a), (W b), (W c), (W d), (with_irqs (with_links (W d) m) I). split_and!; [rewrite <-Es; by apply HL|by apply HL..|exact Ei| |exact HI|].
  - eapply fs_ready_kept; [..|exact HR]; try done; try (cbn; unfold W, widen, with_devices; cbn; by rewrite fs_get_set).
    intros l Hl'. change (m !! l = links d !! l). apply HLk. intros [->|(i & ->)]; (destruct Hl' as [[?|(j & ?)]|[[?|[?|(j & [?|[?|?]])]]|[[?|(j & ?)]|?]]]; done).
  - split; [|by intros c' ?%elem_of_nil]. eapply is_ring_agree; [|exact HC]. intros l ->%list_elem_of_singleton. change (m !! CalloutHead = links s !! CalloutHead).
    rewrite HLk by (by intros [?|(i & ?)]). apply (to_links _ _ _ HT). intros Hl'. destruct Hl' as [[?|(j & ?)]|[[?|[?|(j & [?|[?|?]])]]|[[?|(j & ?)]|?]]]; done.
Qed.
(** What the hardware layer must leave alone: the lists, mutexes and tables of the
    file system and the queue of call-outs; it may register drivers. *)
Record hal_kept s1 s2 : Prop := HalKept {
  hk_links : forall l, fs_locs l \/ l = CalloutHead -> links s2 !! l = links s1 !! l;
  hk_mutexes : forall m, fs_mutex m -> mutexes s2 !! m = mutexes s1 !! m;
  hk_tables : let f := fs_of (ext s1) in let f' := fs_of (ext s2) in bufs f' = bufs f /\ inodes f' = inodes f /\ files f' = files f }.

Lemma fs_locs_threads l : fs_locs l -> ~ thread_locs l.
Proof.
  intros H1 [[(p & ->)|(t & ->)]|[->| ->]]; (destruct H1 as [[?|(j & ?)]|[[?|[?|(j & [?|[?|?]])]]|[[?|(j & ?)]|?]]]; done).
Qed.

(** The file system and the call-outs after the threads were created. *)
Lemma kept_ready s1 s2 s3 : hal_kept s1 s2 -> boot_kept thread_locs s2 s3 -> fs_ready (narrow s1) -> callout_inv s1 [] -> fs_ready (narrow s3) /\ callout_inv s3 [].
Proof.
  intros [L M (T1 & T2 & T3)] [K1 K2 K3] HR [HC _]. injection K3 as E1 E2 E3 E4 E5 E6 E7 E8. split.
  - eapply fs_ready_kept; [..|exact HR].
    + intros l Hl. change (links s3 !! l = links s1 !! l). rewrite K1 by (by apply fs_locs_threads). apply L. by left.
    + intros m Hm. change (mutexes s3 !! m = mutexes s1 !! m). rewrite E3. by apply M.
    + change (bufs (fs_of (ext s3)) = bufs (fs_of (ext s1))). by rewrite K2.
    + change (inodes (fs_of (ext s3)) = inodes (fs_of (ext s1))). by rewrite K2.
    + change (files (fs_of (ext s3)) = files (fs_of (ext s1))). by rewrite K2.
  - split; [|by intros c ?%elem_of_nil]. eapply is_ring_agree; [|exact HC]. intros l ->%list_elem_of_singleton.
    rewrite K1; [apply L; by right|]. by intros [[(p & ?)|(t & ?)]|[?|?]].
Qed.

Lemma kept_disk s2 s3 d : boot_kept thread_locs s2 s3 -> disk_ready (narrow s2) ROOT_DEV d -> disk_ready (narrow s3) ROOT_DEV d.
Proof.
  intros [K1 K2 K3] (Q1 & Q2 & H). injection K3 as E1 E2 E3 E4 E5 E6 E7 E8.
  assert (forall mtx, Blkio.quiet (narrow s2) mtx -> fs_mutex mtx -> Blkio.quiet (narrow s3) mtx) as HQ.
  { intros mtx [Em Er] Hm. split; [change (mutexes s3 !! mtx = Some (Mutex 0 NULL)); by rewrite E3|].
    eapply is_ring_agree; [|exact Er]. intros l ->%list_elem_of_singleton. apply K1, fs_locs_threads. by apply (fs_mutex_locs mtx). }
  split; [apply HQ; [done|left; set_solver]|]. split; [apply HQ; [done|right; by exists ROOT_DEV]|]. cbn in *. by rewrite K2.
Qed.

(** The idle loop gives the processor to the highest thread of the ready queue. *)
Lemma idle_switch hal_suspend_cpu n s q th v kts rest t : starting STACK_SIZE s q th v kts rest -> preempt v = 0 -> sched_next q = t -> t <> idle_thread ->
  is_Some (threads s !! t) ->
  exists s' k, do_idle_loop hal_suspend_cpu (S n) s = Switch s' k /\ current s' = t /\ ie s' = false /\ rdq_inv s' q /\
    links s' = links s /\ mutexes s' = mutexes s /\ threads s' = threads s /\ ext s' = ext s.
Proof.
  intros HS Hv Hn Hne Ht. pose proof HS as [A1 A2 A3 A4 _ _ _]. unfold do_idle_loop. mred. rewrite (get_current_thread_info_eq _ th) by (by rewrite A2). mred.
  rewrite (ti_modify_eq _ _ v) by done. mred. unfold psw_enable_interrupt. mred. cbn [idle_rounds]. unfold psw_disable_and_save_interrupt. mred.
  set (v1 := ti_set_delay_dispatch v). rewrite (ti_get_eq _ _ v1) by (cbn; by rewrite lookup_insert_eq). mred.
  assert (ti_check_need_dispatch v1 = 1) as -> by (unfold v1, ti_check_need_dispatch, ti_set_delay_dispatch; cbn; by rewrite Hv). cbn [ctrue Z.eqb negb when]. mred.
  set (s1 := with_ie (with_ie (with_tinfos s (<[tinfo th := v1]> (tinfos s))) true) false).
  assert (rdq_inv s1 q) as HI by (eapply rdq_inv_ext; [..|exact A1]; eauto).
  erewrite (sched_schedule_dispatch s1 q th v1 HI); [|cbn; by rewrite A2|cbn; by rewrite lookup_insert_eq|unfold v1, ti_set_delay_dispatch; cbn; by rewrite Hv|by rewrite Hn].
  rewrite decide_False by (cbn; congruence). cbn [run_bind]. eexists _, _. split; [reflexivity|]. split_and!; try done. eapply rdq_inv_ext; [..|exact HI]; eauto.
Qed.
(** The ready queue at the end: the reaper above the thread C of priority 2, above
    the round robin threads A and B. *)
Definition first_queue (tR tA tB tC : ptr) : Z -> list ptr := user_queue (rdq_upd (fun _ => []) REAPER_THREAD_PRIO [tR]) tA tB tC.

Lemma first_queue_eq tR tA tB tC p : first_queue tR tA tB tC p = if decide (p = 7) then [tR] else if decide (p = 2) then [tC] else if decide (p = 0) then [tA; tB] else [].
Proof. unfold first_queue, user_queue, rdq_upd, REAPER_THREAD_PRIO, RDQ_USER_RR_PRIORITY. repeat case_decide; subst; try done; by repeat case_decide. Qed.

Lemma first_queue_next tR tA tB tC : tR <> NULL -> sched_next (first_queue tR tA tB tC) = tR.
Proof.
  intros Ht. unfold sched_next. rewrite (rdq_top_some _ 7 tR []); [cbn; by rewrite (proj2 (Z.eqb_neq _ _) Ht)|done|by rewrite first_queue_eq|].
  intros p [Hp _]. rewrite first_queue_eq. repeat case_decide; (done || lia).
Qed.

(** C12. The kernel starts.  Whatever the static objects held, the first part of [kern_init] leaves a file system with free mutexes, a cache of 1024 free buffers and no inode or file in use, an interrupt manager without finders, handlers and controllers, and no call-out.  When the hardware layer then keeps these, registers the root disk and sets up the idle thread, and memory suffices, [kern_init] ends with the idle loop giving the processor to the reaper with interrupts disabled: the reaper and the three user threads are ready at their priorities, with the cache coherent with the disk, no dead thread queued and the threads' addresses stored. *)
Theorem kern_init_boots hal_kernel_init hal_suspend_cpu reaper_fn a b c n s : boot_static s ->
  exists s1, (lift devsw_init;; lift buffer_cache_init;; lift inode_cache_init;; lift fdtable_init;; irq_initialize_manager;; callout_init) s = Ret tt s1 /\
    fs_ready (narrow s1) /\ irq_ready s1 /\ callout_inv s1 [] /\
    forall s2 d th v kR tR kA tA kB tB kC tC rest, hal_kernel_init s1 = Ret tt s2 -> hal_kept s1 s2 -> disk_ready (narrow s2) ROOT_DEV d ->
      idle_ready STACK_SIZE s2 th v [(kR, tR); (kA, tA); (kB, tB); (kC, tC)] rest -> preempt v = 0 ->
      exists s3 k, kern_init STACK_SIZE time_slice setup_sp fs_write kprintf junk reaper_fn a b c hal_kernel_init hal_suspend_cpu (S n) s = Switch s3 k /\
        current s3 = tR /\ ie s3 = false /\ rdq_inv s3 (first_queue tR tA tB tC) /\
        fs_ready (narrow s3) /\ disk_ok ROOT_DEV d (narrow s3) cache_order /\ callout_inv s3 [] /\ is_ring (links s3) ReaperHead [] /\
        (let u := uvars (ext s3) in thrA u = tA /\ thrB u = tB /\ thrC u = tC) /\
        forall t, t ∈ [tR; tA; tB; tC] -> is_Some (threads s3 !! t).
Proof.
  intros HB. destruct (devices_start s HB) as (sa & sb & sc & sd & s1 & Ea & Eb & Ec & Ed & Ei & HR & HI & HC).
  exists s1. split_and!; [|done..|].
  { by rewrite (bind_ret _ _ _ _ _ Ea), (bind_ret _ _ _ _ _ Eb), (bind_ret _ _ _ _ _ Ec), (bind_ret _ _ _ _ _ Ed), (bind_ret _ _ _ _ _ Ei). }
  intros s2 d th v kR tR kA tA kB tB kC tC rest Eh HK HD HS Hv.
  pose proof (id_reaper _ _ _ _ _ _ HS) as [Hr1 Hr2]. pose proof (id_stdout _ _ _ _ _ _ HS) as Hfd.
  assert (tR <> NULL /\ tR <> idle_thread) as [HtR HtR'] by (destruct (id_new _ _ _ _ _ _ HS kR tR) as (_ & ? & ? & _); [left|done]).
  destruct (returns_bind_inv _ _ _ _ (sched_start STACK_SIZE s2 th v _ rest HS)) as ([] & s4 & E4 & [] & s5 & E5 & HS5 & HK5 & _ & D5).
  destruct (reaper_start STACK_SIZE time_slice setup_sp reaper_fn s5 _ _ _ _ _ _ _ HS5) as (r & s6 & E6 & -> & HS6 & HK6 & _ & HRr & HRw & thR & HT6 & _); [by apply D5..|].
  destruct (user_start a b c s6 _ _ _ _ _ _ _ _ _ _ HS6 Hfd) as ([] & s7 & E7 & HS7 & HK7 & Hu & thA & thB & thC & HT7 & _).
  change (starting STACK_SIZE s7 (first_queue tR tA tB tC) (idle_reset th) v [] rest) in HS7.
  destruct (idle_switch hal_suspend_cpu n s7 _ _ _ _ _ tR HS7 Hv) as (s3 & k & E3 & Hcur & Hie & HQ & L3 & M3 & T3 & X3); [by apply first_queue_next|done| |].
  { rewrite HT7, HT6, !lookup_insert_is_Some'. tauto. }
  assert (boot_kept thread_locs s2 s7) as HK27.
  { trans s5; [eapply boot_kept_mono; [|exact HK5]; by left|]. trans s6; [exact HK6|]. eapply boot_kept_mono; [|exact HK7]. by left. }
  destruct (kept_ready s1 s2 s7 HK HK27 HR HC) as [HF7 [HC7 _]]. pose proof (kept_disk s2 s7 d HK27 HD) as HD7.
  assert (fs_ready (narrow s3)) as HF3.
  { eapply fs_ready_kept; [..|exact HF7]; unfold narrow, with_devices; cbn; by rewrite ?L3, ?M3, ?X3. }
  exists s3, k. split; [|split; [exact Hcur|]]; [|split; [exact Hie|]]; [|split; [exact HQ|]]; [|split; [exact HF3|]]; [|split; [|split; [|split; [|split]]]].
  - unfold kern_init. rewrite (bind_ret _ _ _ _ _ Ea), (bind_ret _ _ _ _ _ Eb), (bind_ret _ _ _ _ _ Ec), (bind_ret _ _ _ _ _ Ed), (bind_ret _ _ _ _ _ Ei).
    rewrite (bind_ret _ _ s1 tt s1) by done. rewrite (bind_ret _ _ _ _ _ Eh), (bind_ret _ _ _ _ _ E4), (bind_ret _ _ _ _ _ E5), (bind_ret _ _ _ _ _ E6), (bind_ret _ _ _ _ _ E7). exact E3.
  - apply fs_ready_disk; [exact HF3|]. unfold disk_ready, Blkio.quiet, narrow, with_devices in *. cbn in *. by rewrite L3, M3, X3.
  - split; [by rewrite L3|by intros c' ?%elem_of_nil].
  - rewrite L3. eapply boot_kept_ring; [exact HK7|by intros l ->%list_elem_of_singleton [(p & ?)|(t' & ?)]|exact HRr].
  - rewrite X3. exact Hu.
  - intros t Ht. rewrite T3, HT7, HT6. rewrite !elem_of_cons, elem_of_nil in Ht. rewrite !lookup_insert_is_Some'. destruct Ht as [->|[->|[->|[->|[]]]]]; tauto.
Qed.
End user.
