(* ===== verification/X64Boot.v ===== *)
(** hal/x64/boot64.c: the start of the PC, from the boot loader to the kernel.

    The page tables with the heap, the segments and the firmware's tables are
    parts of the machine ([Part]).
    [x64_symbols] has the addresses the linker gives to the objects and functions
    the drivers register.  What happens while the calibration of the timer waits
    with interrupts enabled is the parameter [interrupts]. *)
From Stdlib Require Import String.
From S2P Require Import Printf Prelude Bitops KList Kernel ThreadInfo ReadyQueue Sched WaitQueue Mutex Timer Thread Irq Port CString FsState Blkio FsPart Coherence Inode File Console Heap PageTable X64Kmap Acpi I8259 Segments Trap CharIo X64Trap X64Console Lapic User FsInit Part Boot.

(** The addresses of objects and functions. *)
Record x64_symbols : Type := X64Symbols {
  bsp_stack : ptr;
  i8259_find_irq_p : ptr; i8259_ctrlr_p : ptr;
  x64_lapic_find_irq_p : ptr; lapic_ctrlr_p : ptr;
  lapic_spurios_p : fptr; lapic_error_p : fptr; lapic_calibrate_p : fptr; lapic_calibrate_spurious_p : fptr;
  x64_timer_handler_p : fptr;
  x64_console_read_p : fptr; x64_console_write_p : fptr; x64_uart_handler_p : fptr; x64_console_p : ptr;
  uart_console_p : ptr; uart8250_putc_p : fptr;
  kmap_pml4_p : Z; idt_tbl_p : Z }.

(** [attrp->stack_top = ...; idle->tinfo->thr = idle;], in both hardware layers. *)
Definition idle_setup {X} (STACK_SIZE : Z) (bsp_stack : ptr) : K X unit :=
  let idle := idle_refer_idle_thread in
  thr_mod idle (fun th => with_attr th (ThreadAttr bsp_stack (stack (attr th)) (stack_size (attr th)) (prio (attr th))));;
  thr_mod idle (fun th => with_attr th (ThreadAttr (stack_top (attr th)) (stack (attr th)) STACK_SIZE (prio (attr th))));;
  thr_mod idle (fun th => with_tinfo th (stack_top (attr th) + stack_size (attr th) - THREAD_INFO_SIZE));;
  th ← thr_get idle;
  ti_modify (tinfo th) (fun v => ThreadInfo (preempt v) idle (magic v)).

Section x64.
Context {X : Type} `{FsPart X} `{PicDevice X} `{LapicMachine X} `{Consoles X} `{Part X acpist} `{Part X (pgst Z)} `{Part X cpust}.
Variable sy : x64_symbols.
Variables (KERN_VMA_BASE STACK_SIZE interval : Z).
Variables (CON_COMBASE UART_COM_IRQ : Z).
Variable fuel : nat.
Variable interrupts : K X unit.

(** The controller at an address. *)
Definition x64_ctrlr (p : ptr) : irq_ctrlr X :=
  if p =? i8259_ctrlr_p sy then i8259_ctrlr else if p =? lapic_ctrlr_p sy then lapic_ctrlr else IrqCtrlr None None None None None None.

Definition hal_kernel_init : K X unit :=
  idle_setup STACK_SIZE (bsp_stack sy);;
  x64_init_pic (i8259_find_irq_p sy) (i8259_ctrlr_p sy);;
  zoom (x64_acpi_init KERN_VMA_BASE);;
  x64_lapic_init x64_ctrlr interrupts fuel (lapic_spurios_p sy) (lapic_error_p sy) (lapic_calibrate_p sy) (lapic_calibrate_spurious_p sy)
    (x64_lapic_find_irq_p sy) (lapic_ctrlr_p sy);;
  x64_init_timer x64_ctrlr x64_lapic_set_timer_periodic (x64_timer_handler_p sy) interval;;
  x64_console_init CON_COMBASE UART_COM_IRQ fuel x64_ctrlr (x64_console_read_p sy) (x64_console_write_p sy) (x64_uart_handler_p sy) (x64_console_p sy);;
  lift (memide_init fuel);;
  mret tt.

(** [kern_init] with this hardware layer is the parameter; [vectors] are the
    entries of the interrupts, [mem_mb] is CONFIG_HAL_MEMORY_SIZE_MB.  The static
    structure [x64_cpu], which nothing reads, is left out. *)
Definition boot_main (kprintf : list Z -> list varg -> K X unit) (kern_init : K X unit) (vectors : Z -> Z) (mem_mb : Z) : K X unit :=
  uart8250_init CON_COMBASE (uart_console_p sy) (uart8250_putc_p sy);;
  kprintf (ln "OS sample for X64 booted.") [];;
  zoom (x64_map_kernel KERN_VMA_BASE (kmap_pml4_p sy) (u64 (mem_mb * 1024 * 1024)));;
  gdtp ← zoom (s ← get; let '(p, h) := kheap_sbrk (heap s) PAGE_SIZE in put (PgSt (words s) h (regs s));; mret p);
  kassert (negb (gdtp =? HEAP_SBRK_FAILED));;
  zoom (x64_init_segments gdtp);;
  zoom (x64_init_idt (idt_tbl_p sy) vectors);;
  kern_init.
End x64.

(** ** A PC

    Its parts are those the other files show to have the laws of their data
    sheets: two i8259, a local interrupt controller, an 8250 at the first serial
    port; the firmware has one table, an APIC table without entries. *)

Record xpc : Type := XPc {
  x_fs : fsst; x_pic : chips; x_lapic : lapicm; x_uart : pc; x_acpi : acpist; x_pg : pgst Z; x_cpu : cpust; x_user : user_vars }.
Definition with_x_fs (x : xpc) f := XPc f (x_pic x) (x_lapic x) (x_uart x) (x_acpi x) (x_pg x) (x_cpu x) (x_user x).
Definition with_x_pic (x : xpc) c := XPc (x_fs x) c (x_lapic x) (x_uart x) (x_acpi x) (x_pg x) (x_cpu x) (x_user x).
Definition with_x_lapic (x : xpc) l := XPc (x_fs x) (x_pic x) l (x_uart x) (x_acpi x) (x_pg x) (x_cpu x) (x_user x).
Definition with_x_uart (x : xpc) u := XPc (x_fs x) (x_pic x) (x_lapic x) u (x_acpi x) (x_pg x) (x_cpu x) (x_user x).
Definition with_x_acpi (x : xpc) a := XPc (x_fs x) (x_pic x) (x_lapic x) (x_uart x) a (x_pg x) (x_cpu x) (x_user x).
Definition with_x_pg (x : xpc) p := XPc (x_fs x) (x_pic x) (x_lapic x) (x_uart x) (x_acpi x) p (x_cpu x) (x_user x).
Definition with_x_cpu (x : xpc) c := XPc (x_fs x) (x_pic x) (x_lapic x) (x_uart x) (x_acpi x) (x_pg x) c (x_user x).
Definition with_x_user (x : xpc) u := XPc (x_fs x) (x_pic x) (x_lapic x) (x_uart x) (x_acpi x) (x_pg x) (x_cpu x) u.

#[export] Instance xpc_fs : FsPart xpc := {| fs_of := x_fs; set_fs := with_x_fs |}.
#[export] Instance xpc_acpi : Part xpc acpist := {| look := x_acpi; place := with_x_acpi |}.
#[export] Instance xpc_pg : Part xpc (pgst Z) := {| look := x_pg; place := with_x_pg |}.
#[export] Instance xpc_cpu : Part xpc cpust := {| look := x_cpu; place := with_x_cpu |}.
#[export] Instance xpc_user : UserVars xpc := {| uvars := x_user; set_uvars := with_x_user |}.
#[export] Instance xpc_consoles : Consoles xpc :=
  {| consoles x := consoles (x_uart x); set_consoles x m := with_x_uart x (set_consoles (x_uart x) m) |}.

Definition pic_port (p : Z) : bool := bool_decide (p ∈ [cmd_port false; data_port false; cmd_port true; data_port true]).
Definition com_port (p : Z) : bool := (pc_base <=? p) && (p <? pc_base + 8).
Definition xpc_ports : PortIO xpc := {|
  port_in x p := if pic_port p then let '(v, c) := port_in (x_pic x) p in (v, with_x_pic x c)
                 else if com_port p then let '(v, u) := port_in (x_uart x) p in (v, with_x_uart x u) else (0, x);
  port_out x p v := if pic_port p then with_x_pic x (port_out (x_pic x) p v)
                    else if com_port p then with_x_uart x (port_out (x_uart x) p v) else x |}.

#[export] Instance xpc_pic : PicDevice xpc :=
  {| pic_ports := xpc_ports; imr c x := imr c (x_pic x); isr c x := isr c (x_pic x); vbase c x := vbase c (x_pic x); icws c x := icws c (x_pic x) |}.

(** The registers of the local controller, where the driver maps them. *)
Definition lapic_base : Z := HIGH_IO_TO_KERN_STRAIGHT (Z.land LAPIC_DEFAULT_ADDR LAPIC_ADDR_MASK).
#[export] Instance xpc_lapic : LapicMachine xpc := {|
  lm_ports := xpc_ports;
  lm_mmio := {| mmio_read x a := let '(v, l) := mmio_read (x_lapic x) (a - lapic_base) in (v, with_x_lapic x l);
                mmio_write x a v := with_x_lapic x (mmio_write (x_lapic x) (a - lapic_base) v) |};
  msr_read x m := msr_read (x_lapic x) m; edx x := 0; msr_write x m v := with_x_lapic x (msr_write (x_lapic x) m v);
  tsc_read x := tsc_read (x_lapic x); vars x := vars (x_lapic x); set_vars x v := with_x_lapic x (set_vars (x_lapic x) v) |}.

Definition xsy : x64_symbols := X64Symbols 0x10000 70 0x901 71 0x902 11 12 13 14 15 16 17 18 0x903 20 21 0x5000 0x6000.
Definition x_frames (p : ptr) : option exception_frame :=
  Some (ExceptionFrame 0 0 0 0 0 0 0 0 0 0 0 0 0 0 0 I8259_PIC1_VBASE_ADDR 0 0x100000 0x20 0x202 0x8000 0x28).

(** What the finders and handlers at their addresses do. *)
Definition x_finders (g : fptr) (exc : ptr) : K xpc (Z * Z) :=
  finder 0 (if g =? 7 then i8259_find_pending_irq I8259_PIC1_VBASE_ADDR else lapic_find_pending_irq x_frames exc).
Definition x_handlers (f : fptr) (irq : Z) (exc : ptr) (p : Z) : K xpc Z :=
  if f =? lapic_calibrate_p xsy then lapic_calibrate_handler irq exc p
  else if f =? x64_timer_handler_p xsy then x64_timer_handler kern_callout 10 irq exc p
  else if f =? x64_uart_handler_p xsy then x64_uart_handler pc_base irq exc p
  else mret IRQ_HANDLED.

(** During the calibration, 10 ms pass and the i8254 interrupts. *)
Definition x_interrupts : K xpc unit :=
  s ← get; put (with_ext s (with_x_lapic (ext s) (lm_advance (x_lapic (ext s)))));;
  build_trap_context (x64_ctrlr xsy) x_handlers x_finders 0 x_frames (fun _ _ => mret tt) 0x7000.

(** The memory when [kern_init] starts. *)
Definition x_locs : list loc :=
  (RdqHead <$> seqZ 0 RDQ_PRIORITY_MAX) ++ [ReaperHead; WqHead WqReaper; CalloutHead; FindIrqsHead; FinderLink 70; FinderLink 71; KconsHead; KconsLink 20;
    WqHead WqConsRx; WqHead WqConsTx; BufHead] ++ (IrqHead <$> seqZ 0 NR_IRQS) ++
  (mtx_loc <$> ([MtxDevsw; MtxBcache; MtxIcache; MtxFdtbl] ++ (MtxDrv <$> seqZ 0 DEVSW_DEVICES_NR))) ++
  (seqZ 0 NBUF ≫= fun b => [BufMru b; BufLink b; WqHead (WqBuf b)]) ++ ((fun ip => WqHead (inode_waiters ip)) <$> slots).
Definition x_files : fsst := FsSt
  (list_to_map ((fun i => (i, DeviceDriver 0 0 0 NULL NULL NULL NULL NULL NULL)) <$> seqZ 0 DEVSW_DEVICES_NR)) ∅
  (list_to_map ((fun b => (b, BlkBuf 0 0 0 (replicate (Z.to_nat BSIZE) 0))) <$> seqZ 0 NBUF))
  (list_to_map ((fun ip => (ip, zero_inode)) <$> slots))
  (list_to_map ((fun f => (f, FileDescriptor 0 0 NULL 0)) <$> seqZ 1 MAX_FILES)).
Definition x_machine : xpc := XPc x_files (fun _ => PicChip 0 0 0 0) lm_start (Pc [] true [] [] (UartCfg 0 0 0 0 0 0) {[20 := KCONSOLE_INITILIZER]})
  (AcpiSt fw_tables info_zero) (PgSt ∅ (KernelHeap 0 0 0) 0) (CpuSt ∅ (0, 0) 0 0 0 (0, 0)) (UserVarsOf 0 0 0 0 0).
Definition x_start : kst xpc :=
  Kst (list_to_map (ring0 <$> x_locs)) false {[idle_thread := Thread 0 0 NULL 0 (ThreadAttr NULL NULL 0 0) 0 (replicate 32 NULL)]}
    {[0x10000 + 0x2000 - THREAD_INFO_SIZE := ThreadInfo 0 0 0]} idle_thread 0 ∅ ∅ ∅ 0 ∅
    (list_to_map ((fun i => (i, IrqLine 0 0 0 NULL)) <$> seqZ 0 NR_IRQS)) ∅ {[70 := 7; 71 := 8]}
    [200; 201; 202; 203; 0x20000; 0x30000; 0x40000; 0x50000; 0x60000; 0x70000; 0x80000; 0x90000] 0 x_machine.

Definition x_hal : K xpc unit := hal_kernel_init xsy 0 0x2000 10 pc_base 4 100 x_interrupts.

(** ** The PC starts *)

(** The state a computation ends in. *)
Definition final {S A} (d : S) (r : run S A) : S := match r with Ret _ s => s | _ => d end.
Definition is_ret {S A} (r : run S A) : bool := match r with Ret _ _ => true | _ => false end.
Lemma final_eq {S} (d : S) (r : run S unit) : is_ret r = true -> r = Ret tt (final d r).
Proof. destruct r as [[] s|w|s k]; [done|discriminate|discriminate]. Qed.

(** The first part of [kern_init], and the hardware layer after it. *)
Definition x_devices : K xpc unit :=
  lift devsw_init;; lift buffer_cache_init;; lift inode_cache_init;; lift fdtable_init;; irq_initialize_manager;; callout_init.
Definition x_before : kst xpc := final x_start (x_devices x_start).
Definition x_after : kst xpc := final x_start (x_hal x_before).

Lemma x_hal_returns : x_hal x_before = Ret tt x_after.
Proof. apply final_eq. vm_compute. reflexivity. Qed.

#[export] Instance xpc_fs_laws : FsPartLaws xpc.
Proof. split; [done|done|]. by intros []. Qed.
#[export] Instance xpc_user_laws : UserLaws xpc.
Proof. by split. Qed.

(** Its static objects, checked one by one. *)
Definition has {K} `{Countable K} {V} (m : gmap K V) (ks : list K) : bool := forallb (fun k => match m !! k with Some _ => true | None => false end) ks.
Lemma has_some {K} `{Countable K} {V} (m : gmap K V) ks k : has m ks = true -> k ∈ ks -> is_Some (m !! k).
Proof. unfold has. rewrite forallb_forall. intros H1 H2%list_elem_of_In%H1. destruct (m !! k); [by eexists|discriminate]. Qed.

Lemma x_links_has : has (links x_start) x_locs = true.
Proof. vm_compute. reflexivity. Qed.
Lemma x_loc l : l ∈ x_locs -> is_Some (links x_start !! l).
Proof. apply has_some, x_links_has. Qed.

Definition fresh_buf (v : blk_buf) : bool := (b_flags v =? 0) && (length (b_data v) =? Z.to_nat BSIZE)%nat.
Lemma x_bufs_fresh : forallb (fun b => match bufs x_files !! b with Some v => fresh_buf v | None => false end) (seqZ 0 NBUF) = true.
Proof. vm_compute. reflexivity. Qed.
Lemma x_buf b : 0 <= b < NBUF -> exists v, bufs x_files !! b = Some v /\ b_flags v = 0 /\ length (b_data v) = Z.to_nat BSIZE.
Proof.
  intros Hb%elem_of_seqZ_iff%list_elem_of_In. pose proof (proj1 (forallb_forall _ _) x_bufs_fresh _ Hb) as H1. cbv beta in H1.
  destruct (bufs x_files !! b) as [v|]; [|discriminate]. exists v. apply andb_true_iff in H1 as [H1%Z.eqb_eq H2%Nat.eqb_eq]. auto.
Qed.

(** Where the locations are in the list. *)
Lemma x_loc_irq i : i ∈ irq_range -> IrqHead i ∈ x_locs.
Proof. intros Hi. unfold x_locs. do 2 (apply elem_of_app; right). apply elem_of_app; left. apply list_elem_of_fmap. by exists i. Qed.
Lemma x_loc_mtx mtx : mtx ∈ [MtxDevsw; MtxBcache; MtxIcache; MtxFdtbl] ++ (MtxDrv <$> seqZ 0 DEVSW_DEVICES_NR) -> mtx_loc mtx ∈ x_locs.
Proof. intros Hm. unfold x_locs. do 3 (apply elem_of_app; right). apply elem_of_app; left. apply list_elem_of_fmap. by exists mtx. Qed.
Lemma x_loc_buf b l : 0 <= b < NBUF -> l ∈ [BufMru b; BufLink b; WqHead (WqBuf b)] -> l ∈ x_locs.
Proof.
  intros Hb%elem_of_seqZ_iff Hl. unfold x_locs. do 4 (apply elem_of_app; right). apply elem_of_app; left. apply list_elem_of_bind. by exists b.
Qed.
Lemma x_loc_waiters ip : ip ∈ slots -> WqHead (inode_waiters ip) ∈ x_locs.
Proof. intros Hi. unfold x_locs. do 5 (apply elem_of_app; right). apply list_elem_of_fmap. by exists ip. Qed.
Lemma x_loc_head l : l ∈ [ReaperHead; WqHead WqReaper; CalloutHead; FindIrqsHead; BufHead] -> l ∈ x_locs.
Proof.
  intros Hl. unfold x_locs. apply elem_of_app; right. apply elem_of_app; left. rewrite !elem_of_cons in *. tauto.
Qed.

Lemma x_fs_has : has (drvs x_files) (seqZ 0 DEVSW_DEVICES_NR) = true /\ has (inodes x_files) slots = true /\ has (files x_files) (seqZ 1 MAX_FILES) = true /\ has (irqs x_start) irq_range = true.
Proof. split; [|split; [|split]]; vm_compute; reflexivity. Qed.

(** An empty list, looked up. *)
Lemma ring_at (m : gmap loc (node loc)) l : m !! l = Some (Node l l) -> is_ring m l [].
Proof. intros E. apply lk_self_ring. unfold lk, rd_next, rd_prev. by rewrite E. Qed.
Lemma no_callouts {X} (s : kst X) : is_ring (links s) CalloutHead [] -> callout_inv s [].
Proof. intros HR. split; [exact HR|]. by intros c ?%elem_of_nil. Qed.
Lemma x_callouts : links x_start !! CalloutHead = Some (Node CalloutHead CalloutHead).
Proof. vm_compute. reflexivity. Qed.

Lemma x_static : boot_static x_start.
Proof.
  destruct x_fs_has as (HX1 & HX2 & HX3 & HX4).
  split; [split| | |].
  - intros mtx Hm. apply x_loc, x_loc_mtx. apply elem_of_app. destruct Hm as [Hm|(i & -> & Hi)]; [by left|right].
    apply list_elem_of_fmap. exists i. split; [done|]. by apply elem_of_seqZ_iff.
  - split; [apply x_loc, x_loc_head; rewrite !elem_of_cons; tauto|]. intros b Hb.
    split_and!; apply x_loc, (x_loc_buf b); rewrite ?elem_of_cons; tauto.
  - intros ip Hip. by apply x_loc, x_loc_waiters.
  - intros i Hi%elem_of_seqZ_iff. exact (has_some _ _ _ HX1 Hi).
  - exact x_buf.
  - intros ip Hip. exact (has_some _ _ _ HX2 Hip).
  - intros f Hf. exact (has_some _ _ _ HX3 Hf).
  - apply x_loc, x_loc_head. rewrite !elem_of_cons. tauto.
  - intros i Hi. split; [by apply x_loc, x_loc_irq|exact (has_some _ _ _ HX4 Hi)].
  - apply no_callouts, ring_at, x_callouts.
Qed.

(** What the hardware layer of the PC keeps, compared before and after. *)
#[local] Instance blk_buf_eq_dec : EqDecision blk_buf.
Proof. solve_decision. Defined.
#[local] Instance inode_eq_dec : EqDecision inode.
Proof. solve_decision. Defined.
#[local] Instance file_eq_dec : EqDecision file_descriptor.
Proof. solve_decision. Defined.
#[local] Instance mutex_eq_dec : EqDecision mutex.
Proof. solve_decision. Defined.
#[local] Instance node_eq_dec : EqDecision (node loc).
Proof. solve_decision. Defined.

Definition kept_loc (l : loc) : bool :=
  match l with
  | BufHead | BufMru _ | BufLink _ | CalloutHead | WqHead (WqMutex _) | WqHead (WqBuf _) | WqHead (WqInode _) => true
  | _ => false
  end.
Lemma kept_loc_fs l : fs_locs l \/ l = CalloutHead -> kept_loc l = true.
Proof. intros [[[->|(j & ->)]|[[->|[->|(j & [->|[->| ->]])]]|[[->|(j & ->)]| ->]]]| ->]; reflexivity. Qed.

Definition kept_links (s : kst xpc) : gmap loc (node loc) := filter (fun kv => kept_loc kv.1 = true) (links s).
Lemma kept_links_at s l : kept_loc l = true -> kept_links s !! l = links s !! l.
Proof. intros Hl. unfold kept_links. destruct (links s !! l) as [n|] eqn:E; [by apply map_lookup_filter_Some_2|by apply map_lookup_filter_None_2; left]. Qed.
Lemma kept_links_eq s1 s2 l : kept_links s1 = kept_links s2 -> kept_loc l = true -> links s2 !! l = links s1 !! l.
Proof. intros E Hl. by rewrite <-(kept_links_at s1), <-(kept_links_at s2), E. Qed.

Lemma x_kept_links : bool_decide (kept_links x_before = kept_links x_after) = true.
Proof. vm_compute. reflexivity. Qed.
Lemma x_kept_mutexes : bool_decide (mutexes x_after = mutexes x_before) = true.
Proof. vm_compute. reflexivity. Qed.
Lemma x_kept_tables : let f := fs_of (ext x_before) in let f' := fs_of (ext x_after) in
  bool_decide (bufs f' = bufs f) = true /\ bool_decide (inodes f' = inodes f) = true /\ bool_decide (files f' = files f) = true.
Proof. split; [|split]; vm_compute; reflexivity. Qed.

Lemma x_kept : hal_kept x_before x_after.
Proof.
  pose proof (bool_decide_eq_true_1 _ x_kept_links) as H1. pose proof (bool_decide_eq_true_1 _ x_kept_mutexes) as H2.
  destruct x_kept_tables as (H3%bool_decide_eq_true_1 & H4%bool_decide_eq_true_1 & H5%bool_decide_eq_true_1). split.
  - intros l Hl%kept_loc_fs. exact (kept_links_eq _ _ l H1 Hl).
  - intros m _. exact (f_equal (lookup m) H2).
  - exact (conj H3 (conj H4 H5)).
Qed.

Definition x_idle : thread_t := Thread 0 0 73696 0 (ThreadAttr 0x10000 NULL 0x2000 0) 0 (replicate 32 NULL).
Definition x_threads : list (ptr * ptr) := [(0x20000, 0x30000); (0x40000, 0x50000); (0x60000, 0x70000); (0x80000, 0x90000)].
Definition x_disk : device_driver := DeviceDriver ROOT_DEV 1 0 NULL NULL NULL NULL MEMIDE_RW NULL.

(** The handlers of the calibration, which are freed again. *)
Definition x_freed : list ptr := [200; 201].

Lemma x_idle_is : current x_after = idle_thread /\ threads x_after !! idle_thread = Some x_idle /\ tinfos x_after !! tinfo x_idle = Some (ThreadInfo 0 idle_thread 0) /\
  supply x_after = concat ((fun kt => [kt.1; kt.2]) <$> x_threads) ++ x_freed.
Proof. split; [|split; [|split]]; vm_compute; reflexivity. Qed.
Lemma x_links_after : has (links x_after) ((RdqHead <$> seqZ 0 RDQ_PRIORITY_MAX) ++ [ReaperHead; WqHead WqReaper]) = true /\
  forallb (fun kt => match links x_after !! ThrLink kt.2 with None => true | _ => false end) x_threads = true.
Proof. split; vm_compute; reflexivity. Qed.

Lemma x_idle_ready : idle_ready 0x2000 x_after x_idle (ThreadInfo 0 idle_thread 0) x_threads x_freed.
Proof.
  destruct x_idle_is as (I1 & I2 & I3 & I4). destruct x_links_after as [L1 L2]. split; [exact I1|exact I2|exact I3|reflexivity|exact I4| | | |].
  - intros k t Hin. assert (links x_after !! ThrLink t = None) as HL.
    { apply list_elem_of_In in Hin. pose proof (proj1 (forallb_forall _ _) L2 _ Hin) as H1. cbv beta in H1. cbn [snd] in H1. destruct (links x_after !! ThrLink t); [discriminate|reflexivity]. }
    unfold x_threads in Hin. rewrite !elem_of_cons, elem_of_nil in Hin.
    destruct Hin as [[= -> ->]|[[= -> ->]|[[= -> ->]|[[= -> ->]|[]]]]]; (split_and!; [discriminate..|exact HL]).
  - apply (bool_decide_unpack _). vm_compute. exact I.
  - intros p Hp%elem_of_seqZ_iff. apply (has_some _ _ _ L1), elem_of_app. left. apply list_elem_of_fmap. exact (ex_intro _ p (conj eq_refl Hp)).
  - split; apply (has_some _ _ _ L1), elem_of_app; right; rewrite !elem_of_cons; tauto.
Qed.

Lemma x_quiet_at : mutexes x_after !! MtxDevsw = Some (Mutex 0 NULL) /\ links x_after !! mtx_loc MtxDevsw = Some (Node (mtx_loc MtxDevsw) (mtx_loc MtxDevsw)) /\
  mutexes x_after !! MtxDrv ROOT_DEV = Some (Mutex 0 NULL) /\ links x_after !! mtx_loc (MtxDrv ROOT_DEV) = Some (Node (mtx_loc (MtxDrv ROOT_DEV)) (mtx_loc (MtxDrv ROOT_DEV))) /\
  drvs (fs_of (ext x_after)) !! ROOT_DEV = Some x_disk.
Proof. split; [|split; [|split; [|split]]]; vm_compute; reflexivity. Qed.
Lemma quiet_at (s : kst xpc) mtx : mutexes s !! mtx = Some (Mutex 0 NULL) -> links s !! mtx_loc mtx = Some (Node (mtx_loc mtx) (mtx_loc mtx)) -> Blkio.quiet (narrow s) mtx.
Proof. intros E1 E2. split; [exact E1|by apply ring_at]. Qed.
Lemma x_disk_ready : disk_ready (narrow x_after) ROOT_DEV x_disk.
Proof.
  destruct x_quiet_at as (M1 & L1 & M2 & L2 & D). split; [exact (quiet_at _ _ M1 L1)|]. split; [exact (quiet_at _ _ M2 L2)|].
  split_and!; [discriminate|exact D|reflexivity|discriminate|discriminate|reflexivity].
Qed.

Lemma x_quiet : quiet_output (X := xpc) (fun _ _ => mret tt).
Proof. intros fmt ap s. exists (ext s). by destruct s. Qed.

Lemma kern_init_boots_witness : exists s3 k,
  kern_init 0x2000 10 (fun p _ _ => p) (fun fd src n => lift (File.fs_write 10 (fun _ _ _ _ _ _ => mret 0) 0 fd src n)) (fun _ _ => mret tt) (replicate 128 7) 5 1 2 3
    x_hal (mret tt) 1 x_start = Switch s3 k /\ current s3 = 0x30000 /\ rdq_inv s3 (first_queue 0x30000 0x50000 0x70000 0x90000) /\
  disk_ok ROOT_DEV x_disk (narrow s3) cache_order.
Proof.
  destruct (kern_init_boots 0x2000 10 (fun p _ _ => p) 10 (fun _ _ _ _ _ _ => mret 0) 0 (fun _ _ => mret tt) (replicate 128 7)
    x_quiet eq_refl x_hal (mret tt) 5 1 2 3 0 x_start x_static) as (s1 & E1 & _ & _ & _ & HB).
  assert (s1 = x_before) as -> by exact (f_equal (final x_start) (eq_sym E1)).
  destruct (HB x_after x_disk x_idle (ThreadInfo 0 idle_thread 0) 0x20000 0x30000 0x40000 0x50000 0x60000 0x70000 0x80000 0x90000 x_freed
    x_hal_returns x_kept x_disk_ready x_idle_ready eq_refl) as (s3 & k & E & Hc & _ & HQ & _ & HD & _).
  exists s3, k. exact (conj E (conj Hc (conj HQ HD))).
Defined.

(** Lines and their handlers. *)
Definition line_has {X} (s : kst X) (i : Z) (h : ptr) (f : fptr) (private : Z) : Prop :=
  is_ring (links s) (IrqHead i) [HandlerLink h] /\ handlers s !! h = Some (IrqHandlerEnt f private).
Lemma ring_of_one (m : gmap loc (node loc)) l x : l <> x -> m !! l = Some (Node x x) -> m !! x = Some (Node l l) -> is_ring m l [x].
Proof.
  intros Hne E1 E2. split; [rewrite !NoDup_cons; split_and!; [by intros ?%list_elem_of_singleton|by intros ?%elem_of_nil|apply NoDup_nil_2]|].
  unfold lk, rd_next, rd_prev. cbn. unfold lk, rd_next, rd_prev. by rewrite E1, E2.
Qed.
Lemma line_has_at {X} (s : kst X) i h f p : links s !! IrqHead i = Some (Node (HandlerLink h) (HandlerLink h)) -> links s !! HandlerLink h = Some (Node (IrqHead i) (IrqHead i)) ->
  handlers s !! h = Some (IrqHandlerEnt f p) -> line_has s i h f p.
Proof. intros E1 E2 E3. split; [|done]. by apply ring_of_one. Qed.
Lemma ring_of_two (m : gmap loc (node loc)) l x y : l <> x -> l <> y -> x <> y -> m !! l = Some (Node y x) -> m !! x = Some (Node l y) -> m !! y = Some (Node x l) -> is_ring m l [x; y].
Proof.
  intros H1 H2 H3 E1 E2 E3. split; [rewrite !NoDup_cons, !elem_of_cons, !elem_of_nil; split_and!; try apply NoDup_nil_2; naive_solver|].
  cbn. unfold lk, rd_next, rd_prev. by rewrite E1, E2, E3.
Qed.

(** The hardware layer of a PC starts all of its devices.  With two i8259, a local interrupt controller, a serial port and firmware with an APIC table, [hal_kernel_init] returns: the finders of both controllers are asked in the order they were registered; every handler used for the calibration of the timer is unregistered and its line masked again; line 0xf0 has the timer's handler and the local controller, whose counter interrupts every 10 ms of the measured rate; the serial port's line 4 has the console's handler, and only it and the cascade are unmasked; the console and the root disk are registered as running. *)
Theorem x64_hal_starts : x_hal x_before = Ret tt x_after /\
  is_ring (links x_after) FindIrqsHead [FinderLink (i8259_find_irq_p xsy); FinderLink (x64_lapic_find_irq_p xsy)] /\
  is_ring (links x_after) (IrqHead 0) [] /\ is_ring (links x_after) (IrqHead 7) [] /\ (imr false (ext x_after), imr true (ext x_after)) = (0xeb, 0xff) /\
  line_has x_after LAPIC_TIMER_INT_VECTOR 202 (x64_timer_handler_p xsy) NULL /\ (ctrlrp <$> irqs x_after !! LAPIC_TIMER_INT_VECTOR) = Some (lapic_ctrlr_p xsy) /\
  l_regs (x_lapic (ext x_after)) LAPIC_TIMER_ICR = 10 * 1000 * tcr_per_us (vars (ext x_after)) /\ 0 < tcr_per_us (vars (ext x_after)) /\
  l_regs (x_lapic (ext x_after)) LAPIC_LVTTR = Z.lor (Z.shiftl 1 17) LAPIC_TIMER_INT_VECTOR /\
  line_has x_after 4 203 (x64_uart_handler_p xsy) (x64_console_p xsy) /\ (ctrlrp <$> irqs x_after !! 4) = Some (i8259_ctrlr_p xsy) /\
  drvs (fs_of (ext x_after)) !! ROOT_DEV = Some x_disk /\
  drvs (fs_of (ext x_after)) !! CONS_DEV = Some (DeviceDriver CONS_DEV DEVSW_DRIVER_STATE_RUN 0 NULL NULL (x64_console_read_p xsy) (x64_console_write_p xsy) NULL NULL).
Proof.
  split; [exact x_hal_returns|]. split; [apply ring_of_two; [discriminate..|vm_compute; reflexivity|vm_compute; reflexivity|vm_compute; reflexivity]|].
  split; [apply ring_at; vm_compute; reflexivity|]. split; [apply ring_at; vm_compute; reflexivity|]. split; [vm_compute; reflexivity|].
  split; [apply line_has_at; vm_compute; reflexivity|]. split; [vm_compute; reflexivity|]. split; [vm_compute; reflexivity|].
  split; [vm_compute; reflexivity|]. split; [vm_compute; reflexivity|]. split; [apply line_has_at; vm_compute; reflexivity|].
  split; [vm_compute; reflexivity|]. split; vm_compute; reflexivity.
Qed.
