(* ===== verification/A64Boot.v ===== *)
(** hal/aarch64/boot64.c: the start of the board, from the boot loader to the
    kernel.  [a64_symbols] has the addresses the linker gives to the objects and
    functions the drivers register; what is configured is a parameter. *)
From Stdlib Require Import String.
From S2P Require Import Printf Prelude Bitops KList Kernel ThreadInfo ReadyQueue Sched WaitQueue Mutex Timer Thread Irq Port CString FsState Blkio FsPart Coherence Inode File Console Heap PageTable A64Kmap Gic Trap CharIo X64Trap A64Trap A64Console User FsInit Part Boot X64Boot.

Record a64_symbols : Type := A64Symbols {
  a64_bsp_stack : ptr;
  arm_gic_find_irq_p : ptr; arm_gic_ctrlr_p : ptr;
  aarch64_timer_handler_p : fptr; aarch64_timer_config_p : ptr;
  aarch64_console_read_p : fptr; aarch64_console_write_p : fptr; aarch64_uart_handler_p : fptr; aarch64_console_p : ptr;
  a64_uart_console_p : ptr; aarch64_kputchar_p : fptr }.

Section a64.
Context {X : Type} `{FsPart X} `{GicDevice X} `{GenericTimer X} `{Consoles X} `{Part X (pgst sysregs)}.
Variable sy : a64_symbols.
Variables (KERN_VMA_BASE STACK_SIZE interval : Z).
Variables (UART_IBRD_VAL UART_FBRD_VAL : Z).
Variable fuel : nat.
Variable aarch64_setup_vector : K X unit.

(** The controller at an address. *)
Definition a64_ctrlr (p : ptr) : irq_ctrlr X := if p =? arm_gic_ctrlr_p sy then arm_gic_ctrlr KERN_VMA_BASE else IrqCtrlr None None None None None None.

Definition hal_kernel_init : K X unit :=
  idle_setup STACK_SIZE (a64_bsp_stack sy);;
  aarch64_init_interrupt KERN_VMA_BASE fuel aarch64_setup_vector (arm_gic_find_irq_p sy) (arm_gic_ctrlr_p sy);;
  aarch64_init_timer a64_ctrlr (aarch64_timer_handler_p sy) (aarch64_timer_config_p sy) interval;;
  aarch64_console_init KERN_VMA_BASE UART_IBRD_VAL UART_FBRD_VAL fuel a64_ctrlr (aarch64_console_read_p sy) (aarch64_console_write_p sy) (aarch64_uart_handler_p sy) (aarch64_console_p sy);;
  lift (memide_init fuel);;
  mret tt.

(** [kern_init] with this hardware layer is the parameter. *)
Definition boot_main (kprintf : list Z -> list varg -> K X unit) (kern_init : K X unit) (upperhalf : bool) (mem_mb : Z) : K X unit :=
  aarch64_uart_init KERN_VMA_BASE UART_IBRD_VAL UART_FBRD_VAL (a64_uart_console_p sy) (aarch64_kputchar_p sy);;
  kprintf (ln "OS sample for AArch64 booted.") [];;
  zoom (aarch64_setup_mmu KERN_VMA_BASE upperhalf mem_mb);;
  kern_init.
End a64.

(** ** A board

    With the controller, the timer and the serial line that A64Trap.v and
    A64Console.v show to have the laws of their manuals. *)

Record avm : Type := AVm { v_fs : fsst; v_board : board; v_line : virt; v_pg : pgst sysregs; v_user : user_vars }.
Definition with_v_fs (x : avm) f := AVm f (v_board x) (v_line x) (v_pg x) (v_user x).
Definition with_v_board (x : avm) b := AVm (v_fs x) b (v_line x) (v_pg x) (v_user x).
Definition with_v_line (x : avm) l := AVm (v_fs x) (v_board x) l (v_pg x) (v_user x).
Definition with_v_pg (x : avm) p := AVm (v_fs x) (v_board x) (v_line x) p (v_user x).

#[export] Instance avm_fs : FsPart avm := {| fs_of := v_fs; set_fs := with_v_fs |}.
#[export] Instance avm_pg : Part avm (pgst sysregs) := {| look := v_pg; place := with_v_pg |}.
#[export] Instance avm_consoles : Consoles avm := {| consoles x := consoles (v_line x); set_consoles x m := with_v_line x (set_consoles (v_line x) m) |}.
Definition line_reg (a : Z) : bool := (UART_BASE <=? a) && (a <? UART_BASE + PAGE_SIZE).
#[export] Instance avm_gic : GicDevice avm := {| gic_mmio := {|
  mmio_read x a := if line_reg a then let '(v, l) := mmio_read (v_line x) a in (v, with_v_line x l) else let '(v, b) := mmio_read (v_board x) a in (v, with_v_board x b);
  mmio_write x a v := if line_reg a then with_v_line x (mmio_write (v_line x) a v) else with_v_board x (mmio_write (v_board x) a v) |};
  state x := state (v_board x) |}.
#[export] Instance avm_timer : GenericTimer avm := {|
  cntv_ctl x := cntv_ctl (v_board x); set_cntv_ctl x v := with_v_board x (set_cntv_ctl (v_board x) v);
  cntv_tval x := cntv_tval (v_board x); set_cntv_tval x v := with_v_board x (set_cntv_tval (v_board x) v);
  cntv_due x := cntv_due (v_board x);
  cntfrq x := cntfrq (v_board x);
  interval_us x := interval_us (v_board x); set_interval_us x v := with_v_board x (set_interval_us (v_board x) v) |}.

Definition asy : a64_symbols := A64Symbols 0x10000 70 0x901 15 0x904 16 17 18 0x903 20 21.
Definition a_machine : avm := AVm x_files (Board (Gic (fun _ => true) (fun _ => false) (fun _ => false) (fun _ => false) (fun _ => 0) (fun _ => 0) 0 false false) 0 0 false 62500000 0 [])
  (Virt [] true [] [] (Pl011Cfg 0 0 0 0 0) {[20 := KCONSOLE_INITILIZER]}) (PgSt ∅ (KernelHeap 0 0 0) (SysRegs 0 0 0 0 0)) (UserVarsOf 0 0 0 0 0).
Definition a_start : kst avm := with_devices x_start a_machine.
Definition a_hal : K avm unit := hal_kernel_init asy 0 0x2000 10 13 1 100 (mret tt).
Definition a_before : kst avm := final a_start ((lift devsw_init;; lift buffer_cache_init;; lift inode_cache_init;; lift fdtable_init;; irq_initialize_manager;; callout_init) a_start).
Definition a_after : kst avm := final a_start (a_hal a_before).

Lemma a_hal_returns : a_hal a_before = Ret tt a_after.
Proof. apply final_eq. vm_compute. reflexivity. Qed.

(** Only the timer's and the serial line's interrupts are enabled, at their priorities. *)
Definition gic_line (x : avm) (i : Z) : bool * Z := let g := state x in (Gic.enabled g i, Gic.prio g i).
Lemma a_lines : forallb (fun i => bool_decide (gic_line (ext a_after) i = if i =? AARCH64_TIMER_IRQ then (true, 0x10) else if i =? AARCH64_UART_IRQ then (true, 0x20) else (false, 0xff))) (seqZ 0 GIC_INT_MAX) = true.
Proof. vm_compute. reflexivity. Qed.

(** The hardware layer of the board starts all of its devices.  [hal_kernel_init] returns: the controller's finder is the only one; of the 64 interrupts just the timer's and the serial line's are enabled, each with its handler, controller and priority; the distributor and the processor's interface are on; the timer is armed for 10 ms of whole megahertz and not masked; the serial line has 8 bits, receives and transmits, and interrupts for both; the console and the root disk are registered as running. *)
Theorem a64_hal_starts : a_hal a_before = Ret tt a_after /\
  is_ring (links a_after) FindIrqsHead [FinderLink (arm_gic_find_irq_p asy)] /\
  (forall i, 0 <= i < GIC_INT_MAX -> gic_line (ext a_after) i = if i =? AARCH64_TIMER_IRQ then (true, 0x10) else if i =? AARCH64_UART_IRQ then (true, 0x20) else (false, 0xff)) /\
  dist_on (state (ext a_after)) = true /\ cpu_on (state (ext a_after)) = true /\
  line_has a_after AARCH64_TIMER_IRQ 200 (aarch64_timer_handler_p asy) (aarch64_timer_config_p asy) /\ (ctrlrp <$> irqs a_after !! AARCH64_TIMER_IRQ) = Some (arm_gic_ctrlr_p asy) /\
  line_has a_after AARCH64_UART_IRQ 201 (aarch64_uart_handler_p asy) (aarch64_console_p asy) /\ (ctrlrp <$> irqs a_after !! AARCH64_UART_IRQ) = Some (arm_gic_ctrlr_p asy) /\
  timer_armed (ext a_after) /\ interval_us (ext a_after) = 10000 /\ cntv_tval (ext a_after) = 10000 * 62 /\
  cfg (virt_line (v_line (ext a_after))) = Pl011Cfg 13 1 UART_LCRH_WLEN8 (Z.lor (Z.lor UART_CR_TXE UART_CR_RXE) UART_CR_UARTEN) (Z.lor UART_IMSC_RXIM UART_IMSC_TXIM) /\
  drvs (fs_of (ext a_after)) !! ROOT_DEV = Some x_disk /\
  drvs (fs_of (ext a_after)) !! CONS_DEV = Some (DeviceDriver CONS_DEV DEVSW_DRIVER_STATE_RUN 0 NULL NULL (aarch64_console_read_p asy) (aarch64_console_write_p asy) NULL NULL).
Proof.
  split; [exact a_hal_returns|]. split; [apply ring_of_one; [discriminate|vm_compute; reflexivity|vm_compute; reflexivity]|]. split.
  { intros i Hi%elem_of_seqZ_iff%list_elem_of_In. exact (bool_decide_eq_true_1 _ (proj1 (forallb_forall _ _) a_lines i Hi)). }
  split; [vm_compute; reflexivity|]. split; [vm_compute; reflexivity|]. split; [apply line_has_at; vm_compute; reflexivity|].
  split; [vm_compute; reflexivity|]. split; [apply line_has_at; vm_compute; reflexivity|]. split; [vm_compute; reflexivity|].
  split; [split; vm_compute; reflexivity|]. split; [vm_compute; reflexivity|]. split; [vm_compute; reflexivity|].
  split; [vm_compute; reflexivity|]. split; vm_compute; reflexivity.
Qed.
