(* ===== verification/Mt.v ===== *)
(** user/MT.h: the random numbers of the life game, a Mersenne twister.

    The static array [mt] is a list of words, [mti] the index of the next one; an
    access outside the array is a fault.  [unsigned long] has 64 bits, of which
    the code keeps 32.  The reference is the sequence of the recurrence itself, a
    window that slides over the words, without array, index and blocks of 624. *)
From S2P Require Import Prelude Kernel Trap.

Record mtst : Type := Mt { mt : list Z; mti : Z }.

Definition MT_N : Z := 624.
Definition MT_M : Z := 397.
Definition MATRIX_A : Z := 0x9908b0df.
Definition UPPER_MASK : Z := 0x80000000.
Definition LOWER_MASK : Z := 0x7fffffff.
Definition WORD_MASK : Z := 0xffffffff.

(** [mt[i]], and the assignments. *)
Definition mt_ld (i : Z) : M mtst Z := s ← get; if 0 <=? i then deref (mt s !! Z.to_nat i) else stopM Fault.
Definition mt_st (i v : Z) : M mtst unit := mt_ld i;; s ← get; put (Mt (<[Z.to_nat i := v]> (mt s)) (mti s)).
Definition set_mti (v : Z) : M mtst unit := s ← get; put (Mt (mt s) v).

(** The body of the loop over [mti], and its increment. *)
Definition init_word : M mtst unit :=
  s ← get; let k := mti s in
  p ← mt_ld (k - 1);
  mt_st k (u64 (1812433253 * Z.lxor p (Z.shiftr p 30) + k));;
  v ← mt_ld k; mt_st k (Z.land v WORD_MASK);;
  set_mti (k + 1).
Definition init_genrand (s : Z) : M mtst unit :=
  mt_st 0 (Z.land s WORD_MASK);;
  set_mti 1;;
  forM (seqZ 1 (MT_N - 1)) (fun _ => init_word).

(** [if (i>=MT_N) { mt[0] = mt[MT_N-1]; i=1; }] *)
Definition key_wrap (i : Z) : M mtst Z :=
  if MT_N <=? i then v ← mt_ld (MT_N - 1); mt_st 0 v;; mret 1 else mret i.
(** [mt[i] = (mt[i] ^ ((mt[i-1] ^ (mt[i-1] >> 30)) * c)) + d; mt[i] &= 0xffffffffUL;] *)
Definition key_mix (i c d : Z) : M mtst unit :=
  v ← mt_ld i; p ← mt_ld (i - 1);
  mt_st i (u64 (Z.lxor v (u64 (Z.lxor p (Z.shiftr p 30) * c)) + d));;
  v ← mt_ld i; mt_st i (Z.land v WORD_MASK).

Fixpoint key_rounds (init_key : list Z) (key_length : Z) (k : nat) (i j : Z) : M mtst Z :=
  match k with
  | O => mret i
  | S k =>
      d ← (if 0 <=? j then deref (init_key !! Z.to_nat j) else stopM Fault);
      key_mix i 1664525 (d + j);;
      i ← key_wrap (i + 1);
      key_rounds init_key key_length k i (if key_length <=? j + 1 then 0 else j + 1)
  end.
Fixpoint last_rounds (k : nat) (i : Z) : M mtst Z :=
  match k with
  | O => mret i
  | S k => key_mix i 1566083941 (- i);; i ← key_wrap (i + 1); last_rounds k i
  end.
Definition init_by_array (init_key : list Z) (key_length : Z) : M mtst unit :=
  init_genrand 19650218;;
  i ← key_rounds init_key key_length (Z.to_nat (if key_length <? MT_N then MT_N else key_length)) 1 0;
  last_rounds (Z.to_nat (MT_N - 1)) i;;
  mt_st 0 0x80000000.

(** [(a&UPPER_MASK)|(b&LOWER_MASK)], and [m ^ (y >> 1) ^ mag01[y & 0x1UL]]. *)
Definition mix_bits (a b : Z) : Z := Z.lor (Z.land a UPPER_MASK) (Z.land b LOWER_MASK).
Definition twist_bits (m y : Z) : Z := Z.lxor (Z.lxor m (Z.shiftr y 1)) (if Z.land y 1 =? 0 then 0 else MATRIX_A).

(** [y = (mt[i]&UPPER_MASK)|(mt[j]&LOWER_MASK); mt[i] = mt[k] ^ ...;] *)
Definition twist_word (i j k : Z) : M mtst unit :=
  a ← mt_ld i; b ← mt_ld j; m ← mt_ld k;
  mt_st i (twist_bits m (mix_bits a b)).
Definition next_state : M mtst unit :=
  forM (seqZ 0 (MT_N - MT_M)) (fun kk => twist_word kk (kk + 1) (kk + MT_M));;
  forM (seqZ (MT_N - MT_M) (MT_M - 1)) (fun kk => twist_word kk (kk + 1) (kk + (MT_M - MT_N)));;
  twist_word (MT_N - 1) 0 (MT_M - 1);;
  set_mti 0.

Definition temper (y : Z) : Z :=
  let y := Z.lxor y (Z.shiftr y 11) in
  let y := Z.lxor y (Z.land (u64 (Z.shiftl y 7)) 0x9d2c5680) in
  let y := Z.lxor y (Z.land (u64 (Z.shiftl y 15)) 0xefc60000) in
  Z.lxor y (Z.shiftr y 18).

Definition genrand_int32 : M mtst Z :=
  s ← get;
  when (MT_N <=? mti s) (when (mti s =? MT_N + 1) (init_genrand 5489);; next_state);;
  s ← get; y ← mt_ld (mti s); set_mti (mti s + 1);;
  mret (temper y).

Definition genrand_int31 : M mtst Z := y ← genrand_int32; mret (Z.shiftr y 1).

(** ** The reference *)

(** The words a seed gives, [n] of them from number [k] on after [x]. *)
Fixpoint seed_words (n : nat) (k x : Z) : list Z :=
  match n with
  | O => []
  | S n => let x := (1812433253 * Z.lxor x (Z.shiftr x 30) + k) mod 2 ^ 32 in x :: seed_words n (k + 1) x
  end.
Definition seeded (seed : Z) : list Z := seed mod 2 ^ 32 :: seed_words 623 1 (seed mod 2 ^ 32).

(** The next word after a window of 624, and the sequence. *)
Definition next_word (x : list Z) : Z := twist_bits (nth 397 x 0) (mix_bits (nth 0 x 0) (nth 1 x 0)).
Definition slide (x : list Z) : list Z := tail x ++ [next_word x].
Definition mt_seq (x : list Z) (n : nat) : Z := nth 0 (Nat.iter n slide x) 0.

(** [n] numbers. *)
Fixpoint draws (n : nat) : M mtst (list Z) :=
  match n with
  | O => mret []
  | S n => y ← genrand_int32; ys ← draws n; mret (y :: ys)
  end.

Definition mt_start : mtst := Mt (replicate 624 0) (MT_N + 1).

(** ** The sequence of the reference *)

Section reference.
Context (x : list Z) (Hx : length x = 624%nat).

Lemma slide_length y : length y = 624%nat -> length (slide y) = 624%nat.
Proof. intros Hy. unfold slide. rewrite length_app. destruct y; cbn in *; lia. Qed.
Lemma slide_nth y i : length y = 624%nat -> (S i < 624)%nat -> nth i (slide y) 0 = nth (S i) y 0.
Proof. intros Hy Hi. unfold slide. destruct y as [|a y]; [done|]. cbn in *. rewrite app_nth1 by lia. done. Qed.
Lemma slide_last y : length y = 624%nat -> nth 623 (slide y) 0 = next_word y.
Proof. intros Hy. unfold slide. destruct y as [|a y]; [done|]. injection Hy as Hy. cbn [tail]. rewrite app_nth2 by lia. by rewrite Hy. Qed.

Lemma window_length n : length (Nat.iter n slide x) = 624%nat.
Proof. induction n as [|n IH]; [done|]. cbn. by apply slide_length. Qed.
Lemma window_nth i : forall n, (i < 624)%nat -> nth i (Nat.iter n slide x) 0 = mt_seq x (n + i).
Proof.
  induction i as [|i IH]; intros n Hi; [by rewrite Nat.add_0_r|]. rewrite <-slide_nth; [|apply window_length|done].
  change (slide (Nat.iter n slide x)) with (Nat.iter (S n) slide x). rewrite IH by lia. f_equal. lia.
Qed.

(** It starts with [x] and obeys the recurrence. *)
Lemma mt_seq_first i : (i < 624)%nat -> x !! i = Some (mt_seq x i).
Proof.
  intros Hi. pose proof (window_nth i 0 Hi) as E. change (nth i x 0 = mt_seq x i) in E.
  destruct (lookup_lt_is_Some_2 x i) as [v Ev]; [lia|]. by rewrite Ev, <-E, (nth_lookup_Some _ _ _ _ Ev).
Qed.
Lemma mt_seq_next n : mt_seq x (n + 624) = twist_bits (mt_seq x (n + 397)) (mix_bits (mt_seq x n) (mt_seq x (n + 1))).
Proof.
  transitivity (next_word (Nat.iter n slide x)); [|unfold next_word; rewrite !window_nth by lia; by rewrite Nat.add_0_r].
  rewrite <-slide_last by apply window_length. change (slide (Nat.iter n slide x)) with (Nat.iter (S n) slide x). rewrite window_nth by lia. f_equal. lia.
Qed.
End reference.

(** ** Accesses and loops *)

Lemma mbind_ret {S A B} (c : M S A) (f : A -> M S B) s a s' : c s = Ret a s' -> (x ← c; f x) s = f a s'.
Proof. intros E. mred. by rewrite E. Qed.
Lemma mt_ld_eq i v s : 0 <= i -> mt s !! Z.to_nat i = Some v -> mt_ld i s = Ret v s.
Proof. intros Hi E. unfold mt_ld. mred. rewrite (proj2 (Z.leb_le _ _) Hi). by rewrite E. Qed.
Lemma mt_st_eq i v s : 0 <= i < Z.of_nat (length (mt s)) -> mt_st i v s = Ret tt (Mt (<[Z.to_nat i := v]> (mt s)) (mti s)).
Proof. intros Hi. destruct (lookup_lt_is_Some_2 (mt s) (Z.to_nat i)) as [u E]; [lia|]. unfold mt_st. by rewrite (mbind_ret _ _ _ _ _ (mt_ld_eq i u s (proj1 Hi) E)). Qed.

Lemma range_inv {S} a n (body : Z -> M S unit) (Inv : Z -> S -> Prop) s : 0 <= n ->
  (forall k s, a <= k < a + n -> Inv k s -> returns (body k) s (fun _ s' => Inv (k + 1) s')) -> Inv a s ->
  returns (forM (seqZ a n) body) s (fun _ s' => Inv (a + n) s').
Proof.
  intros Hn. revert n Hn a s. apply (natlike_ind (fun n => forall a s, _ -> _ -> _)); [|intros n Hn IH]; intros a s Hb HI.
  - rewrite seqZ_nil by lia. apply returns_ret. by rewrite Z.add_0_r.
  - rewrite seqZ_cons by lia. cbn [forM]. apply returns_bind. eapply returns_mono; [apply (Hb a); [lia|exact HI]|].
    intros u s1 H1. replace (Z.pred (Z.succ n)) with n by lia. replace (a + Z.succ n) with (Z.succ a + n) by lia. apply IH; [|exact H1].
    intros k s2 Hk. apply Hb. lia.
Qed.

(** ** Words of 32 bits *)

Definition word (v : Z) : Prop := 0 <= v < 2 ^ 32.
Lemma word_bits v : word v <-> 0 <= v /\ forall i, 32 <= i -> Z.testbit v i = false.
Proof.
  split; [intros Hv; split; [apply Hv|intros i Hi; by apply (testbit_above v 32)]|]. intros [H0 Hb]. split; [done|].
  destruct (decide (v = 0)) as [->|]; [done|]. apply Z.log2_lt_pow2; [lia|]. destruct (decide (Z.log2 v < 32)); [done|].
  pose proof (Z.bit_log2 v) as HL. rewrite Hb in HL by lia. discriminate HL. lia.
Qed.
Lemma word_lxor a b : word a -> word b -> word (Z.lxor a b).
Proof. rewrite !word_bits. intros [A1 A2] [B1 B2]. split; [by apply Z.lxor_nonneg|]. intros i Hi. by rewrite Z.lxor_spec, A2, B2. Qed.
Lemma word_lor a b : word a -> word b -> word (Z.lor a b).
Proof. rewrite !word_bits. intros [A1 A2] [B1 B2]. split; [by apply Z.lor_nonneg|]. intros i Hi. by rewrite Z.lor_spec, A2, B2. Qed.
Lemma word_land a b : word b -> word (Z.land a b).
Proof. rewrite !word_bits. intros [B1 B2]. split; [apply Z.land_nonneg; by right|]. intros i Hi. rewrite Z.land_spec, B2 by done. apply andb_false_r. Qed.
Lemma word_shiftr a n : 0 <= n -> word a -> word (Z.shiftr a n).
Proof. rewrite !word_bits. intros Hn [A1 A2]. split; [by apply Z.shiftr_nonneg|]. intros i Hi. rewrite Z.shiftr_spec by lia. apply A2. lia. Qed.
Create HintDb words.
#[local] Hint Resolve word_lxor word_lor word_land word_shiftr : words.
#[local] Hint Extern 1 (word (Zpos _)) => split; reflexivity || discriminate : words.
#[local] Hint Extern 1 (word 0) => split; reflexivity || discriminate : words.
#[local] Hint Extern 1 (0 <= Zpos _) => discriminate : words.

Lemma word_mask v : Z.land v WORD_MASK = v mod 2 ^ 32.
Proof. apply (Z.land_ones v 32). lia. Qed.
Lemma mask_word v : word (Z.land v WORD_MASK).
Proof. apply word_land. unfold WORD_MASK. auto with words. Qed.
Lemma mix_word a b : word (mix_bits a b).
Proof. unfold mix_bits, UPPER_MASK, LOWER_MASK. auto with words. Qed.
Lemma twist_word_ok m y : word m -> word y -> word (twist_bits m y).
Proof. intros Hm Hy. unfold twist_bits, MATRIX_A. destruct (Z.land y 1 =? 0); auto with words. Qed.
Lemma temper_word y : word y -> word (temper y).
Proof. intros Hy. unfold temper. auto 10 with words. Qed.

(** ** A block of 624 words is made in place *)

Section block.
Context (w : nat -> Z) (Hw : forall n, w (n + 624)%nat = twist_bits (w (n + 397)%nat) (mix_bits (w n) (w (n + 1)%nat))).
Implicit Types (s : mtst) (p : nat).

(** The words below [k] are those of the next block. *)
Definition half p (k : Z) s : Prop :=
  length (mt s) = 624%nat /\ forall i, 0 <= i < MT_N -> mt s !! Z.to_nat i = Some (w (p + Z.to_nat i + if (i <? k)%Z then 624 else 0)%nat).
(** The array has the words from [p] on. *)
Definition block p s : Prop := length (mt s) = 624%nat /\ forall i, 0 <= i < MT_N -> mt s !! Z.to_nat i = Some (w (p + Z.to_nat i)%nat).

Lemma half_first p s : half p 0 s <-> block p s.
Proof. split; (intros [H1 H2]; split; [done|]; intros i Hi; rewrite H2 by done; rewrite (proj2 (Z.ltb_ge i 0)) by lia; do 2 f_equal; lia). Qed.
Lemma half_last p s : half p MT_N s -> block (p + 624)%nat s.
Proof. intros [H1 H2]. split; [done|]. intros i Hi. rewrite H2 by done. rewrite (proj2 (Z.ltb_lt i MT_N)) by lia. do 2 f_equal. lia. Qed.

(** Where the three words of the recurrence are when word [k] is made. *)
Lemma twist_step p k j m s : 0 <= k < MT_N -> j = (k + 1) mod MT_N -> m = (k + MT_M) mod MT_N -> half p k s ->
  returns (twist_word k j m) s (fun _ s' => half p (k + 1) s' /\ mti s' = mti s).
Proof.
  unfold MT_N, MT_M. intros Hk Hj Hm [HL H]. unfold MT_N in H.
  assert (forall d i, 0 <= d -> i = (k + d) mod 624 -> d < 624 -> 0 <= i < 624 /\ mt s !! Z.to_nat i = Some (w (p + Z.to_nat k + Z.to_nat d)%nat)) as HA.
  { intros d i Hd -> Hd2. pose proof (Z.mod_pos_bound (k + d) 624 eq_refl) as Hi. split; [done|]. rewrite H by done. do 2 f_equal.
    destruct (decide (k + d < 624)) as [Hs|Hs].
    - rewrite Z.mod_small by lia. rewrite (proj2 (Z.ltb_ge _ _)) by lia. lia.
    - replace ((k + d) mod 624) with (k + d - 624) by (rewrite <-(Z_mod_plus_full (k + d) (-1) 624), Z.mod_small; lia).
      rewrite (proj2 (Z.ltb_lt _ _)) by lia. lia. }
  destruct (HA 1 j) as [Hj1 Ej]; [lia|done|lia|]. destruct (HA 397 m) as [Hm1 Em]; [lia|done|lia|].
  destruct (HA 0 k) as [_ Ek]; [lia|by rewrite Z.add_0_r, Z.mod_small|lia|].
  unfold twist_word. apply returns_bind. eapply returns_eq; [by apply mt_ld_eq; [lia|exact Ek]|].
  apply returns_bind. eapply returns_eq; [by apply mt_ld_eq; [lia|exact Ej]|]. apply returns_bind. eapply returns_eq; [by apply mt_ld_eq; [lia|exact Em]|].
  eapply returns_eq; [apply mt_st_eq; lia|]. cbn [mt mti]. split; [|done]. split; [cbn [mt]; by rewrite length_insert|]. unfold MT_N. intros i Hi. cbn [mt].
  destruct (decide (i = k)) as [->|Hne].
  - rewrite list_lookup_insert_eq by lia. rewrite (proj2 (Z.ltb_lt k (k + 1))) by lia. rewrite Hw. change (Z.to_nat 0) with 0%nat. rewrite Nat.add_0_r. done.
  - rewrite list_lookup_insert_ne by lia. rewrite H by done. do 3 f_equal. destruct (Z.ltb_spec i k), (Z.ltb_spec i (k + 1)); lia || done.
Qed.

Lemma next_state_ok p s : block p s -> returns next_state s (fun _ s' => block (p + 624)%nat s' /\ mti s' = 0).
Proof.
  intros HB. unfold next_state. apply returns_bind. eapply returns_mono.
  { apply (range_inv 0 (MT_N - MT_M) _ (fun k s' => half p k s')); [by compute| |by apply half_first].
    unfold MT_N, MT_M. intros k s1 Hk H1. eapply returns_mono; [apply (twist_step p); [unfold MT_N; lia|by rewrite Z.mod_small; unfold MT_N; lia|by rewrite Z.mod_small; unfold MT_N, MT_M; lia|exact H1]|by intros u s2 [? _]]. }
  intros u1 s1 H1. apply returns_bind. eapply returns_mono.
  { apply (range_inv (MT_N - MT_M) (MT_M - 1) _ (fun k s' => half p k s')); [by compute| |exact H1].
    unfold MT_N, MT_M. intros k s2 Hk H2. eapply returns_mono; [apply (twist_step p); [unfold MT_N; lia|by rewrite Z.mod_small; unfold MT_N; lia| |exact H2]|by intros u s3 [? _]].
    unfold MT_N, MT_M. rewrite <-(Z_mod_plus_full (k + 397) (-1) 624), Z.mod_small; lia. }
  intros u2 s2 H2. change (MT_N - MT_M + (MT_M - 1)) with (MT_N - 1) in H2. apply returns_bind. eapply returns_mono; [by apply (twist_step p (MT_N - 1)); [by compute|..]|].
  intros u3 s3 [H3 _]. change (MT_N - 1 + 1) with MT_N in H3. eapply returns_eq; [reflexivity|]. split; [|done]. by apply half_last in H3.
Qed.
End block.

(** ** Seeding *)

Lemma seed_words_length n k x : length (seed_words n k x) = n.
Proof. revert k x. induction n as [|n IH]; intros k x; [done|]. cbn [seed_words length]. by rewrite IH. Qed.
Lemma seed_words_next i : forall n k x u, (i < n)%nat -> (x :: seed_words n k x) !! i = Some u ->
  (x :: seed_words n k x) !! S i = Some ((1812433253 * Z.lxor u (Z.shiftr u 30) + (k + Z.of_nat i)) mod 2 ^ 32).
Proof.
  induction i as [|i IH]; intros [|n] k x u Hi E; [lia| |lia|].
  - injection E as ->. cbn [seed_words lookup list_lookup]. by rewrite Z.add_0_r.
  - cbn [seed_words] in *. set (y := (_ + k) mod 2 ^ 32) in *. change ((y :: seed_words n (k + 1) y) !! i = Some u) in E.
    change ((y :: seed_words n (k + 1) y) !! S i = Some ((1812433253 * Z.lxor u (Z.shiftr u 30) + (k + Z.of_nat (S i))) mod 2 ^ 32)).
    rewrite (IH n (k + 1) y u) by (lia || done). do 3 f_equal. lia.
Qed.
Lemma seeded_length seed : length (seeded seed) = 624%nat.
Proof. unfold seeded. cbn [length]. by rewrite seed_words_length. Qed.
Lemma seeded_next seed k u : 1 <= k < MT_N -> seeded seed !! Z.to_nat (k - 1) = Some u ->
  seeded seed !! Z.to_nat k = Some ((1812433253 * Z.lxor u (Z.shiftr u 30) + k) mod 2 ^ 32).
Proof.
  unfold MT_N. intros Hk E. replace (Z.to_nat k) with (S (Z.to_nat (k - 1))) by lia. unfold seeded in *.
  rewrite (seed_words_next _ _ _ _ u) by (lia || done). do 3 f_equal. lia.
Qed.
Lemma u64_mask z : Z.land (u64 z) WORD_MASK = z mod 2 ^ 32.
Proof. rewrite word_mask. unfold u64, wrap. apply Z.mod_mod_divide. by exists (2 ^ 32). Qed.

(** Two lists of the same length with the same elements. *)
Lemma list_eq_upto (l l' : list Z) n : length l = n -> length l' = n -> (forall i, 0 <= i < Z.of_nat n -> l !! Z.to_nat i = l' !! Z.to_nat i) -> l = l'.
Proof.
  intros H1 H2 H. apply list_eq_same_length with n; [done..|]. intros i x y Hi E1 E2. specialize (H (Z.of_nat i)). rewrite Nat2Z.id, E1, E2 in H.
  assert (Some x = Some y) as [= ->] by (apply H; lia). done.
Qed.

Lemma init_genrand_ok seed s : length (mt s) = 624%nat -> init_genrand seed s = Ret tt (Mt (seeded seed) MT_N).
Proof.
  intros HL. unfold init_genrand. rewrite (mbind_ret _ _ _ _ _ (mt_st_eq 0 _ s ltac:(lia))). rewrite (mbind_ret _ _ _ tt (Mt (<[0%nat := Z.land seed WORD_MASK]> (mt s)) 1)) by done.
  pose (Inv := fun k s' => mti s' = k /\ length (mt s') = 624%nat /\ forall i, 0 <= i < k -> mt s' !! Z.to_nat i = seeded seed !! Z.to_nat i).
  destruct (range_inv 1 (MT_N - 1) (fun _ => init_word) Inv (Mt (<[0%nat := Z.land seed WORD_MASK]> (mt s)) 1)) as ([] & [l m] & -> & Hm & Hl & HE); [by compute| | |].
  - unfold MT_N. intros k s1 Hk (Hm & Hl & HE). unfold init_word, returns. rewrite (mbind_ret _ _ _ s1 s1) by done.
    destruct (lookup_lt_is_Some_2 (seeded seed) (Z.to_nat (k - 1))) as [u Eu]; [rewrite seeded_length; lia|].
    rewrite Hm. rewrite (mbind_ret _ _ _ _ _ (mt_ld_eq (k - 1) u s1 ltac:(lia) ltac:(rewrite HE by lia; exact Eu))).
    rewrite (mbind_ret _ _ _ _ _ (mt_st_eq k _ s1 ltac:(lia))). set (v := u64 _). set (s2 := Mt _ _).
    rewrite (mbind_ret _ _ _ _ _ (mt_ld_eq k v s2 ltac:(lia) ltac:(cbn [s2 mt]; apply list_lookup_insert_eq; lia))).
    assert (length (mt s2) = 624%nat) as Hl2 by (cbn [s2 mt]; by rewrite length_insert). rewrite (mbind_ret _ _ _ _ _ (mt_st_eq k _ s2 ltac:(lia))).
    eexists tt, _. split; [reflexivity|]. unfold Inv, s2. cbn [mt mti]. split; [done|]. split; [by rewrite !length_insert|]. intros i Hi. rewrite list_insert_insert_eq.
    destruct (decide (i = k)) as [->|Hne]; [|rewrite list_lookup_insert_ne by lia; apply HE; lia].
    rewrite list_lookup_insert_eq by lia. rewrite (seeded_next seed k u) by (unfold MT_N; lia || done). unfold v. by rewrite u64_mask.
  - unfold Inv. cbn [mt mti]. split; [done|]. split; [by rewrite length_insert|]. intros i Hi. assert (i = 0) as -> by lia. change (Z.to_nat 0) with 0%nat.
    rewrite list_lookup_insert_eq by lia. unfold seeded. cbn [lookup list_lookup]. by rewrite word_mask.
  - cbn [mti mt] in *. subst m. do 2 f_equal. apply (list_eq_upto _ _ 624); [done|apply seeded_length|exact HE].
Qed.

(** ** Numbers *)

Section numbers.
Context (w : nat -> Z) (Hw : forall n, w (n + 624)%nat = twist_bits (w (n + 397)%nat) (mix_bits (w n) (w (n + 1)%nat))).

(** Word [n] of the sequence is next. *)
Definition at_word (n : nat) s : Prop := exists p, block w p s /\ 0 <= mti s <= MT_N /\ n = (p + Z.to_nat (mti s))%nat.

Lemma genrand_step n s : at_word n s -> returns genrand_int32 s (fun y s' => y = temper (w n) /\ at_word (n + 1)%nat s').
Proof.
  intros (p & HB & Hm & ->). unfold genrand_int32. apply returns_bind. eapply returns_eq; [done|]. apply returns_bind.
  assert ((mti s =? MT_N + 1) = false) as -> by (apply Z.eqb_neq; unfold MT_N in *; lia).
  apply (returns_mono _ _ (fun _ s' => exists p', block w p' s' /\ 0 <= mti s' < MT_N /\ (p' + Z.to_nat (mti s') = p + Z.to_nat (mti s))%nat)).
  - destruct (Z.leb_spec MT_N (mti s)) as [Hge|Hlt]; cbn [when].
    + apply returns_bind. eapply returns_eq; [done|]. eapply returns_mono; [by apply (next_state_ok w Hw p)|]. intros u s' [HB' Hm'].
      exists (p + 624)%nat. rewrite Hm'. split; [exact HB'|]. assert (mti s = MT_N) as -> by lia. split; [by compute|done].
    + apply returns_ret. exists p. split; [exact HB|]. split; [lia|done].
  - intros u s1 (p' & [HL HB'] & Hm' & Hp'). apply returns_bind. eapply returns_eq; [done|]. apply returns_bind.
    eapply returns_eq; [by apply mt_ld_eq; [lia|apply HB']|]. apply returns_bind. eapply returns_eq; [done|]. apply returns_ret. cbn [mt mti].
    split; [by rewrite Hp'|]. exists p'. split; [by split|]. split; [cbn [mti]; lia|cbn [mti]; lia].
Qed.

Lemma draws_ok k : forall n s, at_word n s -> returns (draws k) s (fun ys s' => ys = (fun i => temper (w i)) <$> seq n k).
Proof.
  induction k as [|k IH]; intros n s Hs; cbn [draws]; [by apply returns_ret|]. apply returns_bind. eapply returns_mono; [by apply (genrand_step n)|].
  intros y s1 [-> H1]. apply returns_bind. eapply returns_mono; [by apply (IH (n + 1)%nat)|]. intros ys s2 ->. apply returns_ret. cbn [seq fmap list_fmap].
  by rewrite Nat.add_1_r.
Qed.
End numbers.

(** The array holds 624 given words, all used. *)
Lemma words_at x : length x = 624%nat -> at_word (mt_seq x) 624 (Mt x MT_N).
Proof.
  intros Hx. exists 0%nat. split; [|split; [by compute|done]]. split; [done|]. cbn [mt]. unfold MT_N. intros i Hi. apply mt_seq_first; [done|lia].
Qed.

(** Without a seed the first number makes the default one. *)
Lemma default_seed s : length (mt s) = 624%nat -> mti s = MT_N + 1 -> genrand_int32 s = genrand_int32 (Mt (seeded 5489) MT_N).
Proof.
  intros HL Hm. unfold genrand_int32. rewrite (mbind_ret _ _ s s s), (mbind_ret _ _ (Mt (seeded 5489) MT_N) (Mt (seeded 5489) MT_N) (Mt (seeded 5489) MT_N)) by done.
  rewrite Hm. cbn [mti]. change (MT_N <=? MT_N + 1) with true. change (MT_N <=? MT_N) with true. change (MT_N + 1 =? MT_N + 1) with true. change (MT_N =? MT_N + 1) with false.
  cbn [when]. unfold mbind, M_bind. rewrite (init_genrand_ok 5489 s HL). done.
Qed.

Lemma bind_same {S A B} (c : M S A) (f : A -> M S B) s s' : c s = c s' -> (x ← c; f x) s = (x ← c; f x) s'.
Proof. unfold mbind, M_bind. by intros ->. Qed.
Lemma draws_default k s Q : length (mt s) = 624%nat -> mti s = MT_N + 1 -> returns (draws k) (Mt (seeded 5489) MT_N) (fun ys _ => Q ys) -> returns (draws k) s (fun ys _ => Q ys).
Proof.
  intros HL Hm. destruct k as [|k]; [intros (ys & s' & E & HQ); injection E as <- _; by apply returns_ret|].
  intros (ys & s' & E & HQ). apply (returns_eq _ ys s s'); [|exact HQ]. rewrite <-E. cbn [draws]. by apply bind_same, default_seed.
Qed.

(** C17. The twister computes the sequence of its recurrence.  The numbers drawn after [init_genrand(seed)] are the tempered words number 624, 625, ... of the sequence that starts with the 624 words of the seed and continues with x(n+624) = x(n+397) ^ twist(x(n), x(n+1)); the array that is updated in place, block by block, with indices that wrap around, makes no difference.  Without a seed the numbers are those of the seed 5489, and any 624 words left by [init_by_array] start a sequence in the same way. *)
Theorem mt_reference k s : length (mt s) = 624%nat ->
  (forall seed, returns (init_genrand seed;; draws k) s (fun ys _ => ys = (fun i => temper (mt_seq (seeded seed) i)) <$> seq 624 k)) /\
  (mti s = MT_N + 1 -> returns (draws k) s (fun ys _ => ys = (fun i => temper (mt_seq (seeded 5489) i)) <$> seq 624 k)) /\
  (mti s = MT_N -> returns (draws k) s (fun ys _ => ys = (fun i => temper (mt_seq (mt s) i)) <$> seq 624 k)).
Proof.
  intros HL. assert (forall x, length x = 624%nat -> returns (draws k) (Mt x MT_N) (fun ys _ => ys = (fun i => temper (mt_seq x i)) <$> seq 624 k)) as H.
  { intros x Hx. apply (draws_ok (mt_seq x) (mt_seq_next x Hx)). by apply words_at. }
  split; [|split].
  - intros seed. apply returns_bind. eapply returns_eq; [by apply init_genrand_ok|]. apply H, seeded_length.
  - intros Hm. pose proof (H (seeded 5489) (seeded_length _)) as Hd. by apply (draws_default k s (fun ys => ys = _)).
  - intros Hm. destruct s as [x m]. cbn [mt mti] in *. subst m. by apply H.
Qed.

Lemma mt_reference_witness : returns (init_genrand 4357;; draws 700) mt_start (fun ys _ => ys = (fun i => temper (mt_seq (seeded 4357) i)) <$> seq 624 700).
Proof. apply (mt_reference 700 mt_start eq_refl). Defined.

(** ** The words stay words *)

Record mt_ok (m : Z) (s : mtst) : Prop := MtOk { ok_length : length (mt s) = 624%nat; ok_words : Forall word (mt s); ok_next : mti s = m }.

Lemma ld_ok i m s : 0 <= i < MT_N -> mt_ok m s -> returns (mt_ld i) s (fun v s' => word v /\ s' = s).
Proof.
  unfold MT_N. intros Hi [HL HW _]. destruct (lookup_lt_is_Some_2 (mt s) (Z.to_nat i)) as [v E]; [lia|].
  eapply returns_eq; [apply mt_ld_eq; [lia|exact E]|]. split; [|done]. rewrite Forall_lookup in HW. by eapply HW.
Qed.
Lemma st_ok i v m s : 0 <= i < MT_N -> word v -> mt_ok m s -> returns (mt_st i v) s (fun _ s' => mt_ok m s').
Proof.
  unfold MT_N. intros Hi Hv [HL HW Hm]. eapply returns_eq; [apply mt_st_eq; lia|]. split; cbn [mt mti]; [by rewrite length_insert| |done]. by apply Forall_insert.
Qed.
Lemma twist_ok i j k m s : 0 <= i < MT_N -> 0 <= j < MT_N -> 0 <= k < MT_N -> mt_ok m s -> returns (twist_word i j k) s (fun _ s' => mt_ok m s').
Proof.
  intros Hi Hj Hk HS. unfold twist_word. apply returns_bind. eapply returns_mono; [by apply (ld_ok i m)|]. intros a s1 [Ha ->].
  apply returns_bind. eapply returns_mono; [by apply (ld_ok j m)|]. intros b s1 [Hb ->]. apply returns_bind. eapply returns_mono; [by apply (ld_ok k m)|]. intros c s1 [Hc ->].
  apply st_ok; [done| |done]. apply twist_word_ok; [done|apply mix_word].
Qed.
Lemma next_ok m s : mt_ok m s -> returns next_state s (fun _ s' => mt_ok 0 s').
Proof.
  intros HS. unfold next_state. apply returns_bind. eapply returns_mono.
  { apply (range_inv 0 (MT_N - MT_M) _ (fun _ => mt_ok m)); [by compute| |exact HS]. unfold MT_N, MT_M. intros k s1 Hk. apply twist_ok; unfold MT_N; lia. }
  intros u s1 H1. apply returns_bind. eapply returns_mono.
  { apply (range_inv (MT_N - MT_M) (MT_M - 1) _ (fun _ => mt_ok m)); [by compute| |exact H1]. unfold MT_N, MT_M. intros k s2 Hk. apply twist_ok; unfold MT_N; lia. }
  intros u2 s2 H2. apply returns_bind. eapply returns_mono; [by apply (twist_ok _ _ _ m); [by compute..|]|]. intros u3 s3 [A B _]. by eapply returns_eq.
Qed.

Lemma seed_words_ok n k x : Forall word (seed_words n k x).
Proof. revert k x. induction n as [|n IH]; intros k x; cbn [seed_words]; [done|]. apply Forall_cons. split; [|apply IH]. apply Z.mod_pos_bound. lia. Qed.
Lemma seed_ok seed s : length (mt s) = 624%nat -> returns (init_genrand seed) s (fun _ s' => mt_ok MT_N s').
Proof.
  intros HL. eapply returns_eq; [by apply init_genrand_ok|]. split; [apply seeded_length| |done]. unfold seeded. apply Forall_cons.
  split; [apply Z.mod_pos_bound; lia|apply seed_words_ok].
Qed.

Lemma mix_ok i c d m s : 1 <= i < MT_N -> mt_ok m s -> returns (key_mix i c d) s (fun _ s' => mt_ok m s').
Proof.
  unfold MT_N. intros Hi HS. unfold key_mix. apply returns_bind. eapply returns_mono; [apply (ld_ok i m); [unfold MT_N; lia|done]|]. intros v s1 [Hv ->].
  apply returns_bind. eapply returns_mono; [apply (ld_ok (i - 1) m); [unfold MT_N; lia|done]|]. intros p s1 [Hp ->].
  destruct HS as [HL HW Hm]. apply returns_bind. eapply returns_eq; [apply mt_st_eq; lia|]. set (x := u64 _). set (s2 := Mt _ _).
  assert (length (mt s2) = 624%nat) as HL2 by (cbn [s2 mt]; by rewrite length_insert).
  apply returns_bind. eapply returns_eq; [apply (mt_ld_eq i x); [lia|cbn [s2 mt]; apply list_lookup_insert_eq; lia]|].
  eapply returns_eq; [apply mt_st_eq; lia|]. split; cbn [s2 mt mti]; [by rewrite !length_insert| |done]. rewrite list_insert_insert_eq. apply Forall_insert; [done|apply mask_word].
Qed.
Lemma wrap_ok i m s : 1 <= i <= MT_N -> mt_ok m s -> returns (key_wrap i) s (fun i' s' => 1 <= i' < MT_N /\ mt_ok m s').
Proof.
  intros Hi HS. unfold key_wrap. destruct (Z.leb_spec MT_N i) as [Hge|Hlt]; [|apply returns_ret; split; [lia|done]].
  apply returns_bind. eapply returns_mono; [apply (ld_ok _ m); [by compute|exact HS]|]. intros v s1 [Hv ->].
  apply returns_bind. eapply returns_mono; [apply (st_ok 0 v m); [by compute|exact Hv|exact HS]|].
  intros u s2 H2. apply returns_ret. by split.
Qed.
Lemma key_rounds_ok key len k : 0 < len <= Z.of_nat (length key) -> forall i j m s, 1 <= i < MT_N -> 0 <= j < len -> mt_ok m s ->
  returns (key_rounds key len k i j) s (fun i' s' => 1 <= i' < MT_N /\ mt_ok m s').
Proof.
  intros Hlen. induction k as [|k IH]; intros i j m s Hi Hj HS; cbn [key_rounds]; [by apply returns_ret|].
  destruct (lookup_lt_is_Some_2 key (Z.to_nat j)) as [d Ed]; [lia|]. rewrite (proj2 (Z.leb_le 0 j)) by lia. rewrite Ed.
  apply returns_bind. eapply returns_eq; [done|]. apply returns_bind. eapply returns_mono; [by apply (mix_ok i _ _ m)|]. intros u s1 H1.
  apply returns_bind. eapply returns_mono; [apply (wrap_ok (i + 1) m); [lia|exact H1]|]. intros i' s2 [Hi' H2]. apply IH; [done| |done]. destruct (Z.leb_spec len (j + 1)); lia.
Qed.
Lemma last_rounds_ok k : forall i m s, 1 <= i < MT_N -> mt_ok m s -> returns (last_rounds k i) s (fun i' s' => 1 <= i' < MT_N /\ mt_ok m s').
Proof.
  induction k as [|k IH]; intros i m s Hi HS; cbn [last_rounds]; [by apply returns_ret|].
  apply returns_bind. eapply returns_mono; [by apply (mix_ok i _ _ m)|]. intros u s1 H1. apply returns_bind. eapply returns_mono; [apply (wrap_ok (i + 1) m); [lia|exact H1]|].
  intros i' s2 [Hi' H2]. by apply IH.
Qed.

Lemma draw_ok m s : 0 <= m <= MT_N + 1 -> mt_ok m s -> returns genrand_int32 s (fun y s' => word y /\ exists m', 1 <= m' <= MT_N /\ mt_ok m' s').
Proof.
  intros Hm HS. unfold genrand_int32. apply returns_bind. eapply returns_eq; [done|]. apply returns_bind. rewrite (ok_next _ _ HS).
  apply (returns_mono _ _ (fun _ s' => exists m', 0 <= m' < MT_N /\ mt_ok m' s')).
  - destruct (Z.leb_spec MT_N m) as [Hge|Hlt]; cbn [when]; [|apply returns_ret; exists m; split; [lia|done]]. apply returns_bind.
    apply (returns_mono _ _ (fun _ s' => exists m', mt_ok m' s')); [|intros u s1 [m' H1]; eapply returns_mono; [by apply (next_ok m')|intros u2 s2 H2; exists 0; split; [by compute|done]]].
    destruct (m =? MT_N + 1); cbn [when]; [|apply returns_ret; by exists m]. eapply returns_mono; [apply seed_ok, HS|]. intros u s1 H1. by exists MT_N.
  - intros u s1 (m' & Hm' & H1). apply returns_bind. eapply returns_eq; [done|]. apply returns_bind. rewrite (ok_next _ _ H1). eapply returns_mono; [by apply (ld_ok m' m')|].
    intros y s2 [Hy ->]. apply returns_bind. eapply returns_eq; [done|]. apply returns_ret. split; [by apply temper_word|]. exists (m' + 1). split; [lia|]. by destruct H1.
Qed.

(** C18. The state of the twister keeps its type, 624 words of 32 bits though [unsigned long] has 64, and its functions never leave the array.  [init_genrand] and [init_by_array], for a key of at least one word, make such a state from whatever the array held, with all words to be renewed and, for a key, the first word nonzero; from such a state every number drawn has 32 bits, that of [genrand_int31] 31, and the state stays one with an index into the array. *)
Theorem mt_typed s : length (mt s) = 624%nat ->
  (forall seed, returns (init_genrand seed) s (fun _ s' => mt_ok MT_N s')) /\
  (forall key len, 0 < len <= Z.of_nat (length key) -> returns (init_by_array key len) s (fun _ s' => mt_ok MT_N s' /\ mt s' !! 0%nat = Some (2 ^ 31))) /\
  (forall m, 0 <= m <= MT_N + 1 -> mt_ok m s -> returns genrand_int32 s (fun y s' => word y /\ exists m', 1 <= m' <= MT_N /\ mt_ok m' s') /\
    returns genrand_int31 s (fun y s' => 0 <= y < 2 ^ 31 /\ exists m', 1 <= m' <= MT_N /\ mt_ok m' s')).
Proof.
  intros HL. split; [intros seed; by apply seed_ok|]. split.
  - intros key len Hk. unfold init_by_array. apply returns_bind. eapply returns_mono; [by apply seed_ok|]. intros u s1 H1.
    apply returns_bind. eapply returns_mono; [apply (key_rounds_ok key len _ Hk 1 0 MT_N); [by compute|lia|exact H1]|]. intros i s2 [Hi H2].
    apply returns_bind. eapply returns_mono; [apply (last_rounds_ok _ i MT_N); [exact Hi|exact H2]|]. intros j s3 [_ H3]. pose proof H3 as [HL3 HW3 Hm3].
    eapply returns_eq; [apply mt_st_eq; lia|]. split; [split; cbn [mt mti]; [by rewrite length_insert|by apply Forall_insert|done]|]. cbn [mt]. apply list_lookup_insert_eq. lia.
  - intros m Hm HS. pose proof (draw_ok m s Hm HS) as HD. split; [exact HD|]. apply returns_bind. eapply returns_mono; [exact HD|]. intros y s' [Hy HS'].
    apply returns_ret. split; [|exact HS']. rewrite Z.shiftr_div_pow2 by lia. unfold word in Hy. split; [apply Z.div_pos; lia|apply Z.div_lt_upper_bound; lia].
Qed.

Lemma mt_typed_witness : returns (init_by_array [0x123; 0x234; 0x345; 0x456] 4) mt_start (fun _ s' => mt_ok MT_N s' /\ mt s' !! 0%nat = Some (2 ^ 31)).
Proof. apply (mt_typed mt_start eq_refl). cbn. lia. Defined.

(** ** Tempering loses nothing *)

(** The inverse of each of the four steps. *)
Definition untemper (y : Z) : Z :=
  let y := Z.lxor y (Z.shiftr y 18) in
  let y := Z.lxor y (Z.land (Z.shiftl y 15) 0xefc60000) in
  let back t := Z.lxor y (Z.land (Z.shiftl t 7) 0x9d2c5680) in
  let y := back (back (back (back y))) in
  Z.lxor (Z.lxor y (Z.shiftr y 11)) (Z.shiftr y 22).

(** Maps that respect [^] are known from the powers of two. *)
Definition linear (f : Z -> Z) : Prop := forall a b, f (Z.lxor a b) = Z.lxor (f a) (f b).
Lemma linear_id f : linear f -> (forall i, (i < 32)%nat -> f (2 ^ Z.of_nat i) = 2 ^ Z.of_nat i) -> forall y, word y -> f y = y.
Proof.
  intros Hf Hp. assert (f 0 = 0) as H0 by (pose proof (Hf 0 0) as E; change (Z.lxor 0 0) with 0 in E; by rewrite Z.lxor_nilpotent in E).
  assert (forall n, (n <= 32)%nat -> forall y, 0 <= y < 2 ^ Z.of_nat n -> f y = y) as H; [|by apply (H 32%nat)].
  induction n as [|n IH]; intros Hn y Hy; [assert (y = 0) as -> by (cbn in Hy; lia); done|].
  set (b := 2 ^ Z.of_nat n) in *. assert (2 ^ Z.of_nat (S n) = 2 * b) as E2 by (unfold b; rewrite Nat2Z.inj_succ, Z.pow_succ_r by lia; done).
  destruct (decide (y < b)) as [Hlt|Hge]; [apply IH; lia|].
  assert (Z.lxor b (y - b) = y) as Ey.
  { rewrite <-Z.add_nocarry_lxor; [lia|]. apply Z.bits_inj'. intros i Hi. rewrite Z.land_spec, Z.bits_0. unfold b. destruct (decide (i = Z.of_nat n)) as [->|Hne].
    - rewrite (testbit_above (y - b) (Z.of_nat n)) by (unfold b in *; lia). apply andb_false_r.
    - rewrite Z.pow2_bits_false by done. done. }
  rewrite <-Ey at 1. rewrite Hf. unfold b at 1. rewrite Hp by lia. fold b. rewrite IH by lia. exact Ey.
Qed.

Lemma lin_comp f g : linear f -> linear g -> linear (fun y => g (f y)).
Proof. intros Hf Hg a b. by rewrite Hf, Hg. Qed.
Lemma lin_lxor f g : linear f -> linear g -> linear (fun y => Z.lxor (f y) (g y)).
Proof. intros Hf Hg a b. rewrite Hf, Hg, !Z.lxor_assoc. f_equal. rewrite <-!Z.lxor_assoc. f_equal. apply Z.lxor_comm. Qed.
Lemma lin_land f c : linear f -> linear (fun y => Z.land (f y) c).
Proof. intros Hf a b. rewrite Hf. apply Z.bits_inj'. intros i Hi. rewrite !Z.lxor_spec, !Z.land_spec, !Z.lxor_spec. by destruct (Z.testbit (f a) i), (Z.testbit (f b) i), (Z.testbit c i). Qed.
Lemma lin_shiftr f n : linear f -> linear (fun y => Z.shiftr (f y) n).
Proof. intros Hf a b. by rewrite Hf, Z.shiftr_lxor. Qed.
Lemma lin_shiftl f n : linear f -> linear (fun y => Z.shiftl (f y) n).
Proof. intros Hf a b. by rewrite Hf, Z.shiftl_lxor. Qed.
Lemma lin_u64 f : linear f -> linear (fun y => u64 (f y)).
Proof. intros Hf a b. unfold u64, wrap. rewrite Hf. rewrite <-!Z.land_ones by lia. by apply (lin_land (fun y => y)). Qed.
Lemma lin_id : linear (fun y => y).
Proof. by intros a b. Qed.

(** Tempering is invertible on words: from a number the word of the state it came from can be computed, so different words give different numbers, and every number of 32 bits is given by one. *)
Theorem temper_inverse y : 0 <= y < 2 ^ 32 -> untemper (temper y) = y /\ temper (untemper y) = y.
Proof.
  intros Hy. assert (linear temper) as LT by (unfold temper; cbv zeta; repeat first [apply lin_lxor|apply lin_land|apply lin_u64|apply lin_shiftr|apply lin_shiftl|apply lin_id]).
  assert (linear untemper) as LU by (unfold untemper; cbv zeta; repeat first [apply lin_lxor|apply lin_land|apply lin_shiftr|apply lin_shiftl|apply lin_id]).
  assert (forall f, forallb (fun i => f (2 ^ Z.of_nat i) =? 2 ^ Z.of_nat i) (seq 0 32) = true -> forall i, (i < 32)%nat -> f (2 ^ Z.of_nat i) = 2 ^ Z.of_nat i) as HB.
  { intros f Hf i Hi. apply Z.eqb_eq. apply (proj1 (forallb_forall _ _) Hf). apply in_seq. lia. }
  split; [apply (linear_id (fun y => untemper (temper y)))|apply (linear_id (fun y => temper (untemper y)))]; try done; try (by apply lin_comp); apply (HB (fun y => _ (_ y))); vm_compute; reflexivity.
Qed.
Lemma temper_inverse_witness : untemper (temper 0x12345678) = 0x12345678 /\ temper (untemper 0x12345678) = 0x12345678.
Proof. apply temper_inverse. lia. Defined.

(** The numbers published with the twister for its test key. *)
Example mt_published : match (init_by_array [0x123; 0x234; 0x345; 0x456] 4;; draws 5) mt_start with Ret ys _ => ys | _ => [] end
  = [1067595299; 955945823; 477289528; 4107218783; 4228976476].
Proof. vm_compute. reflexivity. Qed.
