(* ===== verification/LifeGame.v ===== *)
(** user/life.c: the thread that plays the game of life, around the step of Life.v.

    The static variables of the file are [thrD] and, as MT.h is included, those of
    the twister (Mt.v).  The field is an automatic array: it is passed along.
    The file system call behind [uprintf] and the kernel's functions are
    parameters as in User.v; the endless loop runs for [n] rounds. *)
From Stdlib Require Import String.
From S2P Require Import Printf Prelude Bitops KList Kernel ThreadInfo ReadyQueue Sched WaitQueue Timer Thread CString Trap X64Trap Part User Mt Life.

Record life_vars : Type := LifeVars { thrD : ptr; twister : mtst }.

(** [for (x in xs) a = f x a;] *)
Fixpoint foldM {S X A} (f : X -> A -> M S A) (a : A) (xs : list X) : M S A :=
  match xs with
  | [] => mret a
  | x :: xs => a ← f x a; foldM f a xs
  end.

(** An operation on an automatic array. *)
Definition on_local {S} (c : M (list Z) unit) (u : list Z) : M S (list Z) := fun s =>
  match c u with Ret _ u' => Ret u' s | Stop w => Stop w | Switch _ _ => Stop Fault end.

Definition LIVE_BELOW : Z := 0x7fffffff / 10.

(** [for_xy univ[y][x] = genrand_int31() < 0x7fffffff / 10 ? 1 : 0;] *)
Definition random_cell (w y x : Z) (u : list Z) : M mtst (list Z) :=
  r ← genrand_int31; on_local (cell_st w y x (if r <? LIVE_BELOW then 1 else 0)) u.
Definition random_field (w h : Z) (u : list Z) : M mtst (list Z) :=
  foldM (fun x u => foldM (fun y u => random_cell w y x u) u (seqZ 0 h)) u (seqZ 0 w).

(** The first statements of a round: [memset], and the random cells. *)
Definition new_field (w h : Z) (u : list Z) : M mtst (list Z) := random_field w h ((fun _ => 0) <$> u).

Section game.
Context {X : Type} `{Part X life_vars}.
Variables (STACK_SIZE time_slice : Z) (setup_sp : ptr -> fptr -> Z -> Z).
Variable fs_write : Z -> list Z -> Z -> K X Z.
Variable thr_delay : Z -> K X unit.
Variable kprintf : list Z -> list varg -> K X unit.
Variable junk : list Z.
Variables (univ0 new0 : list Z). (* what the automatic arrays hold at first *)

Local Abbreviation uprintf := (User.uprintf fs_write junk).
Local Abbreviation locate := (User.locate fs_write junk).

#[local] Instance twister_part : Part X mtst :=
  {| look x := twister (look x); place x t := place x (LifeVars (thrD (look x)) t) |}.

Definition show (u : list Z) (w h gen : Z) : K X unit :=
  uprintf (27 :: str "[H") [];;
  locate 0 0;;
  forM (seqZ 0 h) (fun y =>
    forM (seqZ 0 w) (fun x => c ← deref (cell_ld w u y x); uprintf (if ctrue c then 27 :: txt "[07m  " ++ 27 :: str "[m" else str "  ") [];; mret tt);;
    uprintf (27 :: str "[E") [];;
    mret tt);;
  locate 64 0;;
  uprintf (str "Generation: %02d") [VNum gen];;
  mret tt.

(** The body of the loop over [i], with the field before it. *)
Definition game_round (w h i : Z) (u : list Z) : K X (list Z) :=
  u ← zoom (new_field w h u);
  show u w h i;;
  u ← on_local (evolve new0 w h) u;
  thr_delay 200;;
  mret u.

Fixpoint game_rounds (n : nat) (w h : Z) (u : list Z) : K X unit :=
  match n with
  | O => stopM OutOfFuel
  | S n => u ← foldM (game_round w h) u (seqZ 0 100); game_rounds n w h u
  end.
Definition game (n : nat) (w h : Z) : K X unit := game_rounds n w h univ0.

Definition threadD (n : nat) (arg : Z) : K X unit := game n 30 30.

(** [threadD_p] is the address of the function above. *)
Definition user_init (threadD_p : fptr) : K X unit :=
  User.cls fs_write junk;;
  forM (seqZ 0 50) (fun _ => kprintf (ln "") []);;
  r ← thr_create_thread STACK_SIZE time_slice setup_sp 1 None threadD_p NULL;
  when (r.1 =? 0) (s ← get; put (with_ext s (place (ext s) (LifeVars r.2 (twister (look (ext s))))))).
End game.

(** ** The field of a round *)

Lemma foldM_range {S A} lo n (f : Z -> A -> M S A) (Inv : Z -> A -> S -> Prop) a s : 0 <= n ->
  (forall k a s, lo <= k < lo + n -> Inv k a s -> returns (f k a) s (Inv (k + 1))) -> Inv lo a s -> returns (foldM f a (seqZ lo n)) s (Inv (lo + n)).
Proof.
  intros Hn. revert n Hn lo a s. apply (natlike_ind (fun n => forall lo a s, _ -> _ -> _)); [|intros n Hn IH]; intros lo a s Hb HI.
  - rewrite seqZ_nil by lia. apply returns_ret. by rewrite Z.add_0_r.
  - rewrite seqZ_cons by lia. cbn [foldM]. apply returns_bind. eapply returns_mono; [apply (Hb lo); [lia|exact HI]|].
    intros b s1 H1. replace (Z.pred (Z.succ n)) with n by lia. replace (lo + Z.succ n) with (Z.succ lo + n) by lia. apply IH; [|exact H1].
    intros k c s2 Hk. apply Hb. lia.
Qed.

Section field.
Context (W : nat -> Z) (HW : forall n, W (n + 624)%nat = twist_bits (W (n + 397)%nat) (mix_bits (W n) (W (n + 1)%nat))).
Context (w h : Z) (Hw : 0 < w) (Hh : 0 < h).

(** The cells from the numbers [n] on, column by column. *)
Definition random_alive (n : nat) (y x : Z) : bool := Z.shiftr (temper (W (n + Z.to_nat (x * h + y))%nat)) 1 <? LIVE_BELOW.
Definition field_of (n : nat) : list Z := (fun i => cbool (random_alive n (i / w) (i mod w))) <$> seqZ 0 (w * h).

(** The cells made when the loops are at column [x] and row [y]. *)
Definition field_upto (n : nat) (x y : Z) (u : list Z) (s : mtst) : Prop :=
  at_word W (n + Z.to_nat (x * h + y))%nat s /\ length u = Z.to_nat (w * h) /\
  forall y' x', 0 <= y' < h -> 0 <= x' < w -> x' < x \/ x' = x /\ y' < y -> u !! Z.to_nat (y' * w + x') = Some (cbool (random_alive n y' x')).

Lemma random_cell_ok n x y u s : 0 <= x < w -> 0 <= y < h -> field_upto n x y u s -> returns (random_cell w y x u) s (field_upto n x (y + 1)).
Proof.
  intros Hx Hy (HA & HL & HF). unfold random_cell. apply returns_bind. unfold genrand_int31. apply returns_bind. eapply returns_mono; [by apply (genrand_step W HW)|].
  intros r s1 [-> H1]. apply returns_ret. pose proof (Life.ix_lt w h Hw y x Hy Hx) as Hi. destruct (lookup_lt_is_Some_2 u (Z.to_nat (y * w + x))) as [c Ec]; [lia|].
  eapply (returns_eq _ (<[Z.to_nat (y * w + x) := cbool (random_alive n y x)]> u) s1 s1).
  { unfold on_local, cell_st, cell_ld, cell_ix. mred. rewrite (proj2 (Z.leb_le 0 (y * w + x))) by nia. by rewrite Ec. }
  split; [|split; [by rewrite length_insert|]].
  - replace (n + Z.to_nat (x * h + (y + 1)))%nat with (n + Z.to_nat (x * h + y) + 1)%nat by nia. exact H1.
  - intros y' x' Hy' Hx' Hlt. destruct (decide (y' = y /\ x' = x)) as [[-> ->]|Hne]; [by rewrite list_lookup_insert_eq by lia|].
    rewrite list_lookup_insert_ne; [apply HF; [done..|lia]|]. intros E. apply Life.ix_inj in E as [-> ->]; [|done|lia..]. by apply Hne.
Qed.

Lemma random_field_ok n u s : at_word W n s -> length u = Z.to_nat (w * h) ->
  returns (random_field w h u) s (fun u' s' => u' = field_of n /\ at_word W (n + Z.to_nat (w * h))%nat s').
Proof.
  intros HA HL. unfold random_field. eapply returns_mono.
  { apply (foldM_range 0 w _ (fun x => field_upto n x 0)); [lia| |].
    - intros x a s1 Hx H1. eapply returns_mono; [apply (foldM_range 0 h _ (field_upto n x)); [lia| |exact H1]; intros y b s2 Hy; apply random_cell_ok; lia|].
      intros b s2 (A1 & A2 & A3). split; [|split; [done|]].
      + replace ((x + 1) * h + 0) with (x * h + (0 + h)) by lia. exact A1.
      + intros y' x' Hy' Hx' Hlt. apply A3; [done..|lia].
    - split; [by replace (n + Z.to_nat (0 * h + 0))%nat with n by lia|]. split; [done|]. intros. lia. }
  intros u' s' (A1 & A2 & A3). split; [|by replace (w * h) with ((0 + w) * h + 0) by lia].
  apply (list_eq_upto _ _ (Z.to_nat (w * h))); [done|unfold field_of; by rewrite length_fmap, length_seqZ|]. intros i Hi. rewrite Z2Nat.id in Hi by nia.
  unfold field_of. rewrite list_lookup_fmap, (proj2 (lookup_seqZ 0 (w * h) _ i)) by lia. cbn [fmap option_fmap option_map].
  pose proof (Z.div_mod i w ltac:(lia)) as Hdm. pose proof (Z.mod_pos_bound i w Hw) as Hm.
  rewrite <-(A3 (i / w) (i mod w)); [f_equal; lia| |done|lia]. split; [apply Z.div_pos; lia|apply Z.div_lt_upper_bound; lia].
Qed.
End field.

Section round.
Context {X : Type} `{Part X life_vars}.
Variable fs_write : Z -> list Z -> Z -> K X Z.
Variable thr_delay : Z -> K X unit.
Variable junk : list Z.
Variable new0 : list Z.

(** C19. Every round of the game shows a new random field.  Whatever field the last round left, the round takes the next [w * h] numbers of the twister, column by column, makes the cells alive whose number is below a tenth of the range, and shows these; then it computes the next generation of this field, which the next round, being the same for every field, never shows. *)
Theorem game_round_random (W : nat -> Z) n w h i u (s : kst X) : 0 < w < 2 ^ 30 -> 0 < h < 2 ^ 30 -> length u = Z.to_nat (w * h) -> length new0 = Z.to_nat (w * h) ->
  (forall n, W (n + 624)%nat = twist_bits (W (n + 397)%nat) (mix_bits (W n) (W (n + 1)%nat))) -> at_word W n (twister (look (ext s))) ->
  let F := field_of W w h n in
  exists t, at_word W (n + Z.to_nat (w * h))%nat t /\
    game_round fs_write thr_delay junk new0 w h i u s =
      (show fs_write junk F w h i;; u ← on_local (evolve new0 w h) F; thr_delay 200;; mret u) (with_ext s (place (ext s) (LifeVars (thrD (look (ext s))) t))) /\
    evolve new0 w h F = Ret tt (life_step w h F).
Proof.
  intros Hw Hh Hu Hn HW HA F. destruct (random_field_ok W HW w h ltac:(lia) ltac:(lia) n ((fun _ => 0) <$> u) _ HA) as (F' & t & E & -> & HA').
  { by rewrite length_fmap. }
  exists t. split; [exact HA'|]. split.
  - unfold game_round. by rewrite (bind_ret _ _ _ _ _ (zoom_eq (H := twister_part) (new_field w h u) s _ t E)).
  - apply evolve_life; [done..| |done]. unfold F, field_of. by rewrite length_fmap, length_seqZ.
Qed.
End round.

#[local] Instance self_part : Part life_vars life_vars := {| look x := x; place _ x := x |}.
Definition life_start : kst life_vars :=
  Kst ∅ true ∅ ∅ 1 0 ∅ ∅ ∅ 0 ∅ ∅ ∅ ∅ [] 0 (LifeVars NULL (Mt (seeded 5489) MT_N)).

Lemma game_round_random_witness : exists t, at_word (mt_seq (seeded 5489)) (624 + 9)%nat t /\
  game_round (fun _ _ n => mret n) (fun _ => mret tt) (replicate 128 7) (replicate 9 5) 3 3 0 (replicate 9 8) life_start =
    (show (fun _ _ n => mret n) (replicate 128 7) (field_of (mt_seq (seeded 5489)) 3 3 624) 3 3 0;;
     u ← on_local (evolve (replicate 9 5) 3 3) (field_of (mt_seq (seeded 5489)) 3 3 624); mret tt;; mret u) (with_ext life_start (LifeVars NULL t)).
Proof.
  destruct (game_round_random (fun _ _ n => mret n) (fun _ => mret tt) (replicate 128 7) (replicate 9 5) (mt_seq (seeded 5489)) 624 3 3 0 (replicate 9 8) life_start)
    as (t & HA & E & _); [lia|lia|reflexivity|reflexivity|exact (mt_seq_next _ (seeded_length _))|exact (words_at _ (seeded_length _))|].
  exists t. exact (conj HA E).
Defined.
